(* ===== verification/_CoqProject ===== *)
-Q . S2P
Prelude.v
Bytes.v
Bits.v
Kr.v
InodeFlags.v
Rsv.v
State.v
Bitmap.v
Alloc.v
Balloc.v
BallocFacts.v
NewBlocks.v
Demo.v
BlockTheorems.v
Ialloc.v
IallocFacts.v
NewInode.v
InodeTheorems.v
BlockMap.v
PathFacts.v
BlockMapFacts.v
AllocBranch.v
FileTree.v
BuildBranch.v
GetBlocks.v
CreateFacts.v
Truncate.v
FreeData.v
Super.v
OptionFacts.v
ShowFacts.v
InodeDisk.v
Mount.v
MountFacts.v
SuperFacts.v
DemoMount.v
SuperTheorems.v
InodeDiskFacts.v
InodeStore.v
FileTheorems.v
CreateTheorems.v
FreeTree.v
Prune.v
TruncateFacts.v
FindShared.v
TruncateTheorems.v
Quota.v
QuotaTheorems.v
Dir.v
DirPage.v
DirFacts.v
DirOps.v
DirEmpty.v
DirRead.v
DemoDir.v
DirTheorems.v
Namei.v
NameiFacts.v
NameiTheorems.v
Ioctl.v
IoctlTheorems.v
Xattr.v
Acl.v
XattrBlock.v
XattrChange.v
XattrFacts.v
XattrMap.v
XattrStore.v
XattrOps.v
XattrSet.v
XattrRead.v
XattrTheorems.v
AclFacts.v
AclOps.v
AclTheorems.v
Lfs.v
LfsTheorems.v
