(* ===== verification/Prelude.v ===== *)
(** * K-rack: a verification library for the kr file system

    Exercise19 of the repository is "kr", a Linux file system on blocks with the
    layout of ext2.  This library models its C files function by function and
    proves what they guarantee.  Paths below are under src/Exercises/Exercise19.  The
    extended attributes and the access control lists of ext2, which the directory
    Unused keeps for kr, are modelled with it; and so is the small file system of
    Exercise16, whose files are counters.

    ** The program and the files of the library

    A mounted kr file system is a super block, groups of blocks with a descriptor
    and two bitmaps each, an inode table, and files whose blocks an inode points to
    through up to three levels of indirect blocks.  A directory is a file of records.

    - [Prelude]: machine integers, the monad of the stateful functions ([M], a state
      that returns or stops with a panic, a [BUG_ON] or a fault), [runs] (total
      correctness: [m] returns with [Q], or stops with a reason [E] allows), its
      rules and tactics ([step], [run], [call]).
    - [Bytes]: memory as lists of bytes, little-endian fields, runs of bytes.
    - [Bits]: the bit operations of the kernel as the class [BitOps], with the laws
      [BitLaws] and a reference instance.
    - [Kr]: kr.h, its constants, macros and structures.
    - [Rsv], [Bitmap], [Alloc], [Balloc]: balloc.c, from the bottom up: the tree of
      reservation windows, the bitmap of a group, the allocation in a group through
      the window of a file, and freeing and allocating on the whole file system.
      [BallocFacts] and [NewBlocks] hold the proofs, [BlockTheorems] the properties.
    - [State]: the state [krfs] of a mounted file system, which all the components
      share, the reports of errors ([kr_error], super.c) and the group descriptors
      (balloc.c); the abstraction [core_of] drops what the invariants do not need.
    - [InodeFlags] (inode.c), [Ialloc] (ialloc.c): flags, and the inode allocator;
      [IallocFacts], [NewInode], [InodeTheorems].
    - [BlockMap], [Truncate] (inode.c): the blocks of a file and how they are
      allocated and freed; [PathFacts], [BlockMapFacts], [AllocBranch], [FreeData].
      [FileTree] is the tree of pointers of a file and [BuildBranch] a branch of it;
      [GetBlocks] and [CreateFacts] follow [kr_get_blocks] when it creates, and
      [CreateTheorems] has the properties.
    - Truncation as a whole: [FreeTree] frees the blocks a table leads to, [Prune]
      says what is left of the tree of a file when rows of pointers are cleared,
      [FindShared] finds the branch that is kept in part, [TruncateFacts] goes through
      the subtrees and [TruncateTheorems] has the properties.
    - [Quota] (super.c): [kr_quota_read] and [kr_quota_write]; [QuotaTheorems] sees a
      quota file as a function from offsets to bytes.
    - [Super], [Mount] (super.c): mount options, checks, writing the super block,
      remounting, [statfs], and [kr_fill_super]; [OptionFacts], [ShowFacts],
      [MountFacts], [SuperFacts], [SuperTheorems].
    - [InodeDisk] (inode.c, [kr_nfs_get_inode] of super.c): the inode table, reading,
      writing, evicting, [kr_setattr]; [InodeDiskFacts], [InodeStore], [FileTheorems].
    - [Dir] (dir.c): the page cache of directories and the functions on entries;
      [DirPage] (the records of a page), [DirFacts] and [DirOps] (a directory as a
      map), [DirEmpty], [DirRead], [DirTheorems].
    - [Namei] (namei.c): the operations on names; [NameiFacts], [NameiTheorems].
    - [Ioctl] (ioctl.c, file.c) and [IoctlTheorems].
    - [Xattr] (Unused/xattr.c, xattr.h and the handlers xattr_user.c,
      xattr_trusted.c, xattr_security.c): the functions as they are, over the state
      [attrfs]: the file system, and the calls to the cache of shared blocks, which
      the code keeps in an mb_cache.  [XattrFacts] is the layout of a block of attributes as
      a list of entries and values, [XattrBlock] and [XattrChange] the functions on
      the bytes of one block, [XattrMap] a block as a map from names to values.
      [XattrStore] says what a file system of attributes is (each inode has a map,
      blocks are shared by count, the cache knows only live blocks); [XattrOps],
      [XattrSet] and [XattrRead] prove the operations against it and [XattrTheorems]
      has the properties.
    - [Acl] (Unused/acl.c, acl.h): access control lists, which are kept as attributes and
      in a cache in the inode; [AclFacts] is their format, [AclOps] the operations over
      [attrfs], [AclTheorems] has the properties.
    - [Lfs] (Exercises/Exercise16/lfs.c): the counter file system, as functions and as
      steps of threads between their accesses to a counter; [LfsTheorems].  It shares
      nothing with kr but the prelude.
    - [Demo], [DemoMount], [DemoDir]: a file system of 65 blocks, a device with it
      and directories on it, on which each theorem is instantiated.

    Components meet in the state [krfs] ([vfs], with the page cache, from [Dir] on)
    and in the calls the code has: [kr_new_inode] and [kr_get_blocks] use the
    allocators, [kr_fill_super] establishes what they rely on, [Namei] calls [Dir]
    and [Ialloc].

    ** What the theorems show

    - Blocks: [kr_new_blocks] hands out blocks that were free, and the bitmaps,
      descriptors and counters agree afterwards; freeing clears just the run it is
      given, and freeing what was allocated restores the bitmaps; an allocation
      succeeds when a group has a free block ([kr_new_blocks_succeeds]); windows
      stay disjoint and the search for one ends; [kr_data_block_valid] as it is.
    - Attributes: setting, reading, listing and dropping refine a map from names to
      values per inode, although inodes with equal attributes share a block and a
      block is found by its hash; no operation changes the attributes of another
      inode, and the count in a block is the number of inodes that point to it.
    - Access control lists: the parser accepts only well-formed lists and never reads
      past the value; a list that was set is the one read back, from the cache or from
      the attribute.
    - Inodes: a new inode has a number that was free; freeing frees that number; the
      searches for a group find one when there is one; flags round trip.
    - Files: the path of a block is in range and unique; a lookup reads the tree of
      pointers; allocating a branch keeps all its blocks or none; [kr_get_blocks]
      with create keeps the tree of a file sound (no block twice, every block
      allocated), and a lookup afterwards finds what it answered; freeing the data
      of the direct blocks frees those blocks; an inode written is read back.
    - Truncation: [truncate_blocks] frees the blocks past the end and the tables that
      lead only to them, keeps the paths of all others and leaves every other file as
      it was; [kr_setsize] on every branch.
    - Quota files: reading answers the bytes of the file; writing to blocks it has
      changes just the bytes written, and they are read back.
    - Mounting: a mount establishes the invariants of the allocators; the checks of
      the descriptors; options shown are parsed back; a failed remount restores.
    - Directories: the functions on entries refine a map from names to inodes
      ([dir_refines]), with every page given back; the page check accepts just the
      pages whose records are in order; reading lists each name once and can be
      resumed anywhere; a directory is empty when its map is.
    - Names: linking, removing and renaming refine a map with link counts
      ([names_refine]); only an empty directory is removed.
    - Requests: the flags a user sets, and reads back.
    - Counters: threads in any interleaving lose no count, and reads one after the other
      have different numbers ([lfs_readers_correct], by induction on the steps); a
      read in pieces is of one number; what was read can be written; a mount with any
      failing allocations.
    - Defects: some theorems state behaviour that is not what the code is for, as
      [make_and_free_leaks], [kr_get_blocks_loses_branch], [kr_empty_dir_bad_pages],
      [kr_data_block_valid_past_end], [failed_set_changes], [failed_acl_changes_mode],
      [quota_write_shows_stale] and [readers_same_number]; in [names_refine] they
      are the cases of an error after the directory has been changed, and in
      [lfs_fill_super_correct] the inode that is given back twice.

    ** The environment

    What is not code of the repository is an argument: the classes [BitOps], [RbTree],
    [Kernel], [MountKernel], [MountDevice], [InodeKernel], [DirKernel], [NameiKernel],
    [UserKernel], [XattrKernel], [AclKernel], [AclCreate], [LfsKernel] and [Trylock].  What the code relies on of them is in the classes of
    laws ([BitLaws], [RbLaws], [DeviceLaws], [ParserLaws], [DirLaws], [CacheLaws],
    [AclLaws], [LfsLaws]), which the demo files instantiate.  A class is constant during a run: whether a given block can be
    read does not change between two calls.  Calls that return nothing the code looks
    at are recorded in [fs_trace] ([kcall] in [State]); so [iput] is a record, and
    [kr_evict_inode] is what the VFS calls for the last one.

    The functions run one at a time, except the readers and writers of a counter.  Locks are not state, except that [kr_error] run
    under [s_lock] is a model of its own; what other threads do before
    [truncate_mutex] is taken is an argument of [kr_get_blocks].

    ** Fuel

    Loops of the code are [loop] with fuel or structural on it, and running out of
    fuel stops the run, which [runs] does not allow, or gives an answer the theorems
    exclude.  The fuel is a bound the proofs show to be enough: the blocks of a group
    for the searches in a bitmap and for windows, the windows for the walk of the
    tree, the groups for the searches of groups, two more turns than indirect blocks
    for a branch, [page_fuel], 4097, for the records of a page of 4096 bytes, and for
    the entries of a block of attributes its length and one, as an entry has 16 bytes.

    ** Bounds

    Integers are [Z], reduced to their width where the code computes ([u16], [u32],
    [u64], [s32], ...), a [__le32] field stands for its number.  Blocks are of 1, 2 or
    4 KiB and pages of 4 KiB; the code for pages of 64 KiB is not compiled.  Sizes of
    directories are below 2 GiB in their theorems, and a file system with extended
    attributes has less than 2^31 blocks, as the code keeps a block in an [int].

    ** Not modelled

    - The tables of operations and the page-cache functions that pass [kr_get_block]
      on to the kernel; symlink.c is only such tables.
    - The caches of inodes and the registration of the module (super.c); the debugging
      dump of windows (balloc.c).
    - What the quota does to [i_blocks]; counters per processor are numbers; security
      labels of a new inode.
    - Theorems stop short of making inodes with names ([kr_mkdir], [kr_create]), of
      renaming directories or between directories, of the lists a new inode inherits
      ([ext2_init_acl]) and of writes to a quota file that allocate: the functions are
      modelled, their parts are proved.
    - Of the directory Unused, making and destroying the cache of attributes and
      [ext2_init_security].
    - Of the other exercises, the modules that print, register a device or a type of file
      system, or copy a buffer: they call the kernel and have no logic of their own.
      The copies of lfs.c in the Exercises 16 and 17 differ from it in when the hash of a
      name is computed, in how the size of a block is set and in the name of the type;
      lfs3.c is another file system, whose operations are in a table no inode is given. *)

From Stdlib Require Export ZArith Lia.
From stdpp Require Export base numbers gmap option list.

#[global] Open Scope Z_scope.

(** ** Machine integers *)

(** An unsigned machine word is a [Z] reduced by its modulus; a C [int] is
    reduced to two's complement.  The modulus is a literal, so that [lia] can
    eliminate the reduction. *)
Definition u8 (z : Z) : Z := z mod 256.
Definition u16 (z : Z) : Z := z mod 65536.
Definition u32 (z : Z) : Z := z mod 4294967296.
Definition u64 (z : Z) : Z := z mod 18446744073709551616.
Definition s16 (z : Z) : Z := (z + 32768) mod 65536 - 32768.
Definition s32 (z : Z) : Z := (z + 2147483648) mod 4294967296 - 2147483648.
Definition s64 (z : Z) : Z :=
  (z + 9223372036854775808) mod 18446744073709551616 - 9223372036854775808.

Lemma u8_small z : 0 <= z < 256 -> u8 z = z.
Proof. apply Z.mod_small. Qed.
Lemma u16_small z : 0 <= z < 65536 -> u16 z = z.
Proof. apply Z.mod_small. Qed.
Lemma u32_small z : 0 <= z < 4294967296 -> u32 z = z.
Proof. apply Z.mod_small. Qed.
Lemma u64_small z : 0 <= z < 18446744073709551616 -> u64 z = z.
Proof. apply Z.mod_small. Qed.
Lemma s32_small z : -2147483648 <= z < 2147483648 -> s32 z = z.
Proof. intros. unfold s32. rewrite Z.mod_small; lia. Qed.
Lemma u8_range z : 0 <= u8 z < 256.
Proof. now apply Z.mod_pos_bound. Qed.
Lemma u16_range z : 0 <= u16 z < 65536.
Proof. now apply Z.mod_pos_bound. Qed.
Lemma u32_range z : 0 <= u32 z < 4294967296.
Proof. now apply Z.mod_pos_bound. Qed.
Lemma u64_range z : 0 <= u64 z < 18446744073709551616.
Proof. now apply Z.mod_pos_bound. Qed.

(** [wraps] removes every reduction whose argument is in range by [lia]. *)
Ltac wraps :=
  repeat match goal with
    | |- context [u64 ?z] => rewrite (u64_small z) by lia
    | |- context [u32 ?z] => rewrite (u32_small z) by lia
    | |- context [u16 ?z] => rewrite (u16_small z) by lia
    | |- context [s32 ?z] => rewrite (s32_small z) by lia
    end.

Ltac wraps_in H :=
  repeat match type of H with
    | context [u64 ?z] => rewrite (u64_small z) in H by lia
    | context [u32 ?z] => rewrite (u32_small z) in H by lia
    | context [u16 ?z] => rewrite (u16_small z) in H by lia
    | context [s32 ?z] => rewrite (s32_small z) in H by lia
    end.

(** ** Effects

    A C function that changes memory is a function from the state it finds to
    the value it returns and the state it leaves, unless the machine stops in
    the middle of it. *)

(** Why the machine stops: [Panic] is a call of [panic()], [BugOn] a call of
    [BUG()] or a [BUG_ON] that fires, [Deadlock] a thread taking a spinlock it
    holds, [Fault] an access outside of the object it addresses, and [OutOfFuel]
    a loop that has not ended within the bound its model gives it. *)
Inductive stop := Panic | BugOn | Deadlock | Fault | OutOfFuel.

Inductive outcome (S A : Type) :=
| Ret (a : A) (s : S)
| Stop (w : stop).
Arguments Ret {S A} a s.
Arguments Stop {S A} w.

Definition M (S A : Type) : Type := S -> outcome S A.

#[global] Instance M_ret S : MRet (M S) := fun A a s => Ret a s.
#[global] Instance M_bind S : MBind (M S) := fun A B f m s =>
  match m s with
  | Ret a s' => f a s'
  | Stop w => Stop w
  end.

Section Effects.
Context {S : Type}.

Definition gets {A} (f : S -> A) : M S A := fun s => Ret (f s) s.
Definition modify (f : S -> S) : M S unit := fun s => Ret tt (f s).
Definition halt {A} (w : stop) : M S A := fun _ => Stop w.
Definition bug_on (b : bool) : M S unit := if b then halt BugOn else mret tt.
Definition when (b : bool) (m : M S unit) : M S unit := if b then m else mret tt.

(** [lift get put m] runs [m] on a part of the state. *)
Definition lift {T A} (get : S -> T) (put : T -> S -> S) (m : M T A) : M S A :=
  fun s => match m (get s) with
           | Ret a t => Ret a (put t s)
           | Stop w => Stop w
           end.

(** A loop that runs its body until the body answers [inr]. *)
Fixpoint loop {A B} (fuel : nat) (body : A -> M S (A + B)) (a : A) : M S B :=
  match fuel with
  | O => halt OutOfFuel
  | Datatypes.S n => r ← body a; match r with
                                 | inl a' => loop n body a'
                                 | inr b => mret b
                                 end
  end.

(** [for (i = from; i < from + n; i++) body(i)] *)
Fixpoint for_ (n : nat) (from : Z) (body : Z -> M S unit) : M S unit :=
  match n with
  | O => mret tt
  | Datatypes.S n' => body from ;; for_ n' (from + 1) body
  end.

(** [runs m s Q E]: started in [s], [m] returns with [Q], or stops with [E].
    With [E := never] this is total correctness. *)
Definition runs {A} (m : M S A) (E : stop -> Prop) (Q : A -> S -> Prop) (s : S) : Prop :=
  match m s with
  | Ret a s' => Q a s'
  | Stop w => E w
  end.

End Effects.

Definition never (w : stop) : Prop := False.
Definition only_panic (w : stop) : Prop := w = Panic.

Section Rules.
Context {S : Type} (E : stop -> Prop).

Lemma runs_ret {A} (a : A) (Q : A -> S -> Prop) s : Q a s -> runs (mret a) E Q s.
Proof. done. Qed.

Lemma runs_bind {A B} (m : M S A) (f : A -> M S B) Q s :
  runs m E (fun a s' => runs (f a) E Q s') s -> runs (m ≫= f) E Q s.
Proof. unfold runs, mbind, M_bind. by destruct (m s). Qed.

Lemma bind_Ret {A B} (m : M S A) (f : A -> M S B) s a s' :
  m s = Ret a s' -> (m ≫= f) s = f a s'.
Proof. intros H. unfold mbind, M_bind. by rewrite H. Qed.

Lemma runs_call {A} (m : M S A) (Q : A -> S -> Prop) s a s' :
  m s = Ret a s' -> Q a s' -> runs m E Q s.
Proof. unfold runs. by intros ->. Qed.

Lemma runs_mono {A} (m : M S A) (Q Q' : A -> S -> Prop) s :
  runs m E Q s -> (forall a s', Q a s' -> Q' a s') -> runs m E Q' s.
Proof. unfold runs. destruct (m s); eauto. Qed.

Lemma runs_conj {A} (m : M S A) (Q Q' : A -> S -> Prop) s :
  runs m E Q s -> runs m E Q' s -> runs m E (fun a s' => Q a s' /\ Q' a s') s.
Proof. unfold runs. destruct (m s); eauto. Qed.

Lemma runs_gets {A} (f : S -> A) Q s : Q (f s) s -> runs (gets f) E Q s.
Proof. done. Qed.

Lemma runs_modify f (Q : unit -> S -> Prop) s : Q tt (f s) -> runs (modify f) E Q s.
Proof. done. Qed.

Lemma runs_bug_on b (Q : unit -> S -> Prop) s :
  b = false -> Q tt s -> runs (bug_on b) E Q s.
Proof. by intros ->. Qed.

Lemma runs_when b (m : M S unit) (Q : unit -> S -> Prop) s :
  (b = true -> runs m E Q s) -> (b = false -> Q tt s) -> runs (when b m) E Q s.
Proof. destruct b; intros H1 H2; [by apply H1 | by apply H2]. Qed.

Lemma runs_if {A} (b : bool) (m1 m2 : M S A) Q s :
  (b = true -> runs m1 E Q s) -> (b = false -> runs m2 E Q s) ->
  runs (if b then m1 else m2) E Q s.
Proof. destruct b; eauto. Qed.

Lemma runs_lift {T A} (get : S -> T) put (m : M T A) Q s :
  runs m E (fun a t => Q a (put t s)) (get s) -> runs (lift get put m) E Q s.
Proof. unfold runs, lift. by destruct (m (get s)). Qed.

(** The same run, with weaker answers and weaker reasons to stop. *)
Lemma runs_weaken {A} (E' : stop -> Prop) (m : M S A) (Q Q' : A -> S -> Prop) s :
  runs m E Q s -> (forall w, E w -> E' w) -> (forall a s', Q a s' -> Q' a s') -> runs m E' Q' s.
Proof. unfold runs. destruct (m s); eauto. Qed.

(** The rule of the loop: an invariant, and a measure that every iteration
    decreases and that stays below the fuel. *)
Lemma runs_loop {A B} (I : A -> S -> Prop) (size : A -> S -> Z)
    (body : A -> M S (A + B)) (Q : B -> S -> Prop) :
  (forall a s, I a s -> 0 <= size a s /\
     runs (body a) E (fun r s' =>
       match r with
       | inl a' => I a' s' /\ size a' s' < size a s
       | inr b => Q b s'
       end) s) ->
  forall fuel a s, I a s -> size a s < Z.of_nat fuel -> runs (loop fuel body a) E Q s.
Proof.
  intros Hbody fuel. induction fuel as [|fuel IH]; intros a s HI Hsize.
  - destruct (Hbody a s HI). lia.
  - simpl. apply runs_bind. destruct (Hbody a s HI) as [_ Hb].
    eapply runs_mono; [exact Hb|]. intros [a'|b] s'; [|done].
    intros [HI' Hlt]. apply IH; [done|lia].
Qed.

Lemma runs_for (I : Z -> S -> Prop) (body : Z -> M S unit) n : forall from s,
  I from s ->
  (forall i s, from <= i < from + Z.of_nat n -> I i s ->
     runs (body i) E (fun _ s' => I (i + 1) s') s) ->
  runs (for_ n from body) E (fun _ s' => I (from + Z.of_nat n) s') s.
Proof.
  induction n as [|n IH]; intros from s HI Hbody; simpl.
  - by rewrite Z.add_0_r.
  - apply runs_bind. eapply runs_mono; [apply Hbody; [lia|done]|]. intros [] s' HI'.
    replace (from + Z.of_nat (Datatypes.S n)) with (from + 1 + Z.of_nat n) by lia.
    apply IH; [done|]. intros i s'' Hi. apply Hbody. lia.
Qed.

End Rules.

(** [steps] runs the straight-line part of a function symbolically: it stops at
    calls, loops and unresolved matches. *)
Ltac step :=
  lazymatch goal with
  | |- runs (mret _) _ _ _ => apply runs_ret
  | |- runs (_ ≫= _) _ _ _ => apply runs_bind
  | |- runs (gets _) _ _ _ => apply runs_gets
  | |- runs (modify _) _ _ _ => apply runs_modify
  | |- runs (bug_on _) _ _ _ => apply runs_bug_on
  | |- runs (when _ _) _ _ _ => apply runs_when; intros ?
  | |- runs (if _ then _ else _) _ _ _ => apply runs_if; intros ?
  | |- runs (lift _ _ _) _ _ _ => apply runs_lift
  end; cbv beta.
Ltac steps := repeat step.

(** [run H] goes past a call that [H] evaluates. *)
Tactic Notation "run" uconstr(H) := eapply runs_call; [eapply H|cbv beta iota].

(** [call H] continues after a call whose specification is [H]. *)
Tactic Notation "call" uconstr(H) := eapply runs_mono; [eapply H|cbv beta].

(** ** Memory

    A buffer is the list of its bytes; multi-byte fields are little-endian, as
    the disk format has them. *)
Definition get8 (d : list Z) (o : Z) : Z := nth (Z.to_nat o) d 0.
Definition get16 (d : list Z) (o : Z) : Z := get8 d o + 256 * get8 d (o + 1).
Definition get32 (d : list Z) (o : Z) : Z := get16 d o + 65536 * get16 d (o + 2).
Definition put8 (d : list Z) (o v : Z) : list Z := <[Z.to_nat o := v mod 256]> d.
Definition put16 (d : list Z) (o v : Z) : list Z :=
  put8 (put8 d o v) (o + 1) (v / 256).
Definition put32 (d : list Z) (o v : Z) : list Z :=
  put16 (put16 d o v) (o + 2) (v / 65536).

(** The length of a list, as the C code counts it. *)
Definition len {A} (l : list A) : Z := Z.of_nat (length l).

(** The bytes of a buffer are bytes. *)
Definition bytes (d : list Z) : Prop := Forall (fun b => 0 <= b < 256) d.

Section Memory.
Implicit Types (d : list Z) (o v : Z).

Lemma len_nonneg {A} (l : list A) : 0 <= len l.
Proof. unfold len. lia. Qed.
Lemma len_app {A} (l1 l2 : list A) : len (l1 ++ l2) = len l1 + len l2.
Proof. unfold len. rewrite length_app. lia. Qed.

Lemma len_put8 d o v : len (put8 d o v) = len d.
Proof. unfold len, put8. by rewrite length_insert. Qed.
Lemma len_put16 d o v : len (put16 d o v) = len d.
Proof. unfold put16. by rewrite !len_put8. Qed.
Lemma len_put32 d o v : len (put32 d o v) = len d.
Proof. unfold put32. by rewrite !len_put16. Qed.

Lemma get8_put8 d o o' v :
  0 <= o < len d -> 0 <= o' ->
  get8 (put8 d o v) o' = if o' =? o then v mod 256 else get8 d o'.
Proof.
  unfold get8, put8, len. intros Ho Ho'. rewrite !nth_lookup.
  destruct (Z.eqb_spec o' o) as [->|Hne].
  - rewrite list_lookup_insert_eq by lia. done.
  - rewrite list_lookup_insert_ne by lia. done.
Qed.

Lemma get8_put16 d o o' v :
  0 <= o -> o + 2 <= len d -> 0 <= o' ->
  get8 (put16 d o v) o' =
    if o' =? o then v mod 256 else if o' =? o + 1 then (v / 256) mod 256 else get8 d o'.
Proof.
  intros Ho Hlen Ho'. unfold put16.
  rewrite get8_put8 by (rewrite ?len_put8; lia).
  rewrite get8_put8 by lia.
  destruct (Z.eqb_spec o' o), (Z.eqb_spec o' (o + 1)); try done. lia.
Qed.

Lemma get16_put16_eq d o v :
  0 <= o -> o + 2 <= len d -> 0 <= v < 65536 -> get16 (put16 d o v) o = v.
Proof.
  intros. unfold get16. rewrite !get8_put16 by lia.
  rewrite Z.eqb_refl. destruct (Z.eqb_spec (o + 1) o); [lia|].
  rewrite Z.eqb_refl. Z.to_euclidean_division_equations; lia.
Qed.

Lemma get8_put16_ne d o o' v :
  0 <= o -> o + 2 <= len d -> 0 <= o' -> o' < o \/ o + 2 <= o' ->
  get8 (put16 d o v) o' = get8 d o'.
Proof.
  intros. rewrite get8_put16 by lia.
  destruct (Z.eqb_spec o' o), (Z.eqb_spec o' (o + 1)); lia.
Qed.

Lemma get16_put16_ne d o o' v :
  0 <= o -> o + 2 <= len d -> 0 <= o' -> o' + 2 <= o \/ o + 2 <= o' ->
  get16 (put16 d o v) o' = get16 d o'.
Proof. intros. unfold get16. rewrite !get8_put16_ne by lia. done. Qed.

Lemma get8_put32_ne d o o' v :
  0 <= o -> o + 4 <= len d -> 0 <= o' -> o' < o \/ o + 4 <= o' ->
  get8 (put32 d o v) o' = get8 d o'.
Proof.
  intros. unfold put32. rewrite !get8_put16_ne; rewrite ?len_put16; lia || done.
Qed.

Lemma get16_put32_ne d o o' v :
  0 <= o -> o + 4 <= len d -> 0 <= o' -> o' + 2 <= o \/ o + 4 <= o' ->
  get16 (put32 d o v) o' = get16 d o'.
Proof. intros. unfold get16. rewrite !get8_put32_ne by lia. done. Qed.

Lemma get32_put32_ne d o o' v :
  0 <= o -> o + 4 <= len d -> 0 <= o' -> o' + 4 <= o \/ o + 4 <= o' ->
  get32 (put32 d o v) o' = get32 d o'.
Proof. intros. unfold get32. rewrite !get16_put32_ne by lia. done. Qed.

Lemma get16_put16_u d o v :
  0 <= o -> o + 2 <= len d -> get16 (put16 d o v) o = u16 v.
Proof.
  intros. unfold get16. rewrite !get8_put16 by lia.
  rewrite Z.eqb_refl. destruct (Z.eqb_spec (o + 1) o); [lia|].
  rewrite Z.eqb_refl. unfold u16. Z.to_euclidean_division_equations; lia.
Qed.

Lemma get32_put32_eq d o v :
  0 <= o -> o + 4 <= len d -> 0 <= v < 4294967296 -> get32 (put32 d o v) o = v.
Proof.
  intros. unfold get32, put32.
  rewrite get16_put16_ne by (rewrite ?len_put16; lia).
  rewrite !get16_put16_u by (rewrite ?len_put16; lia).
  unfold u16. Z.to_euclidean_division_equations; lia.
Qed.

Lemma get8_bytes d o : bytes d -> 0 <= get8 d o < 256.
Proof.
  intros Hd. unfold get8. rewrite nth_lookup.
  destruct (d !! Z.to_nat o) as [b|] eqn:Hb; simpl; [|lia].
  by apply (Forall_lookup_1 _ _ _ _ Hd Hb).
Qed.
Lemma get16_bytes d o : bytes d -> 0 <= get16 d o < 65536.
Proof.
  intros Hd. unfold get16.
  pose proof (get8_bytes d o Hd). pose proof (get8_bytes d (o + 1) Hd). lia.
Qed.
Lemma get32_bytes d o : bytes d -> 0 <= get32 d o < 4294967296.
Proof.
  intros Hd. unfold get32.
  pose proof (get16_bytes d o Hd). pose proof (get16_bytes d (o + 2) Hd). lia.
Qed.
Lemma bytes_put8 d o v : bytes d -> bytes (put8 d o v).
Proof. intros. apply Forall_insert; [done|]. by apply Z.mod_pos_bound. Qed.
Lemma bytes_put16 d o v : bytes d -> bytes (put16 d o v).
Proof. intros. by apply bytes_put8, bytes_put8. Qed.
Lemma bytes_put32 d o v : bytes d -> bytes (put32 d o v).
Proof. intros. by apply bytes_put16, bytes_put16. Qed.

End Memory.

Create HintDb kr.
Create Rewrite HintDb kr.
#[export] Hint Resolve len_nonneg get8_bytes get16_bytes get32_bytes
  bytes_put8 bytes_put16 bytes_put32 : kr.
#[export] Hint Rewrite @len_app len_put8 len_put16 len_put32 : kr.
