(* ===== verification/Bytes.v ===== *)
(** * Byte strings

    Runs of bytes of a buffer, and what is left of the others when some are
    written: shared by the directories, the inode table and the blocks of extended
    attributes. *)

From S2P Require Import Prelude.

(** [n] bytes from [o] on. *)
Definition sub (d : list Z) (o n : Z) : list Z := take (Z.to_nat n) (drop (Z.to_nat o) d).

(** [memcpy] of [l] to [o]. *)
Fixpoint put_bytes (d : list Z) (o : Z) (l : list Z) : list Z :=
  match l with
  | [] => d
  | b :: rest => put_bytes (put8 d o b) (o + 1) rest
  end.

Definition same_on (d d' : list Z) (a c : Z) : Prop := forall j, a <= j < c -> get8 d' j = get8 d j.

Lemma same_on_weaken d d' a c a' c' :
  same_on d d' a c -> a <= a' -> c' <= c -> same_on d d' a' c'.
Proof. intros H Ha Hc j Hj. apply H. lia. Qed.

Lemma lookup_get8 d j : 0 <= j < len d -> d !! Z.to_nat j = Some (get8 d j).
Proof.
  unfold get8, len. intros Hj.
  destruct (lookup_lt_is_Some_2 d (Z.to_nat j)) as [b Hb]; [lia|].
  rewrite nth_lookup, Hb. done.
Qed.

Lemma lookup_sub d o n (k : nat) : 0 <= o -> o + n <= len d -> Z.of_nat k < n ->
  sub d o n !! k = Some (get8 d (o + Z.of_nat k)).
Proof.
  intros. unfold sub. rewrite lookup_take_lt by lia. rewrite lookup_drop.
  rewrite <- (lookup_get8 d (o + Z.of_nat k)) by lia. f_equal. lia.
Qed.

Lemma len_sub d o n : 0 <= o -> 0 <= n -> o + n <= len d -> len (sub d o n) = n.
Proof. unfold len, sub. intros. rewrite length_take, length_drop. lia. Qed.

Lemma sub_eq d o n l : 0 <= o -> o + n <= len d -> len l = n ->
  (forall k, 0 <= k < n -> get8 d (o + k) = get8 l k) -> sub d o n = l.
Proof.
  intros Ho Hn Hl Hk. apply list_eq. intros k.
  destruct (decide (Z.of_nat k < n)) as [Hlt|Hge].
  - rewrite lookup_sub by lia. rewrite (Hk (Z.of_nat k)) by lia.
    rewrite <- lookup_get8 by lia. f_equal. lia.
  - pose proof (len_nonneg l).
    assert (len (sub d o n) = n) as Hs by (apply len_sub; lia).
    rewrite !lookup_ge_None_2; [done| |]; unfold len in *; lia.
Qed.

Lemma sub_ext d d' o n : 0 <= o -> 0 <= n -> o + n <= len d -> len d' = len d ->
  same_on d d' o (o + n) -> sub d' o n = sub d o n.
Proof.
  intros Ho Hn Hl Hd Hs. apply sub_eq; [lia|lia|apply len_sub; lia|].
  intros k Hk. rewrite (Hs (o + k)) by lia.
  assert (Some (get8 (sub d o n) k) = Some (get8 d (o + k))) as He; [|congruence].
  rewrite <- lookup_get8 by (rewrite len_sub; lia). rewrite lookup_sub by lia.
  do 2 f_equal. lia.
Qed.

Lemma get16_same d d' o : same_on d d' o (o + 2) -> get16 d' o = get16 d o.
Proof. intros H. unfold get16. by rewrite !H by lia. Qed.
Lemma get32_same d d' o : same_on d d' o (o + 4) -> get32 d' o = get32 d o.
Proof.
  intros H. unfold get32. rewrite !(get16_same d d'); [done| |];
    eapply same_on_weaken; try exact H; lia.
Qed.

Lemma len_put_bytes d o l : len (put_bytes d o l) = len d.
Proof. revert d o. induction l as [|b l IH]; intros d o; simpl; [done|]. by rewrite IH, len_put8. Qed.

Lemma bytes_put_bytes d o l : bytes d -> bytes (put_bytes d o l).
Proof.
  revert d o. induction l as [|b l IH]; intros d o Hd; simpl; [done|].
  by apply IH, bytes_put8.
Qed.

Lemma get8_put_bytes d o l j : 0 <= o -> o + len l <= len d -> 0 <= j -> bytes l ->
  get8 (put_bytes d o l) j = if (o <=? j) && (j <? o + len l) then get8 l (j - o) else get8 d j.
Proof.
  revert d o. induction l as [|b l IH]; intros d o Ho Hl Hj Hb.
  - simpl. change (@len Z []) with 0. destruct (_ && _) eqn:E; [lia|done].
  - apply Forall_cons in Hb as [Hb Hbs].
    replace (len (b :: l)) with (1 + len l) in * by (unfold len; cbn [length]; lia).
    pose proof (len_nonneg l). simpl put_bytes.
    rewrite IH; [|lia|rewrite len_put8; lia|lia|done]. rewrite get8_put8 by lia.
    destruct (Z.eqb_spec j o) as [->|Hne].
    + destruct (_ && _) eqn:E1; [lia|]. destruct ((o <=? o) && _) eqn:E2; [|lia].
      rewrite Z.sub_diag. unfold get8. simpl. rewrite Z.mod_small; lia.
    + destruct ((o + 1 <=? j) && _) eqn:E1; destruct ((o <=? j) && _) eqn:E2; try lia.
      unfold get8. replace (Z.to_nat (j - o)) with (S (Z.to_nat (j - (o + 1)))) by lia. done.
Qed.

#[export] Hint Rewrite len_put_bytes : kr.
#[export] Hint Resolve bytes_put_bytes : kr.

(** ** Fields *)

Section Fields.
Implicit Types (d : list Z) (o v : Z).

Lemma get32_put32_u d o v : 0 <= o -> o + 4 <= len d -> get32 (put32 d o v) o = u32 v.
Proof.
  intros. unfold get32, put32. rewrite get16_put16_ne by (rewrite ?len_put16; lia).
  rewrite !get16_put16_u by (rewrite ?len_put16; lia).
  unfold u16, u32. Z.to_euclidean_division_equations; lia.
Qed.

Lemma get8_put8_ne d o o' v : 0 <= o < len d -> 0 <= o' -> o' <> o -> get8 (put8 d o v) o' = get8 d o'.
Proof. intros. rewrite get8_put8 by done. by replace (o' =? o) with false by lia. Qed.
Lemma get8_put8_eq d o v : 0 <= o < len d -> get8 (put8 d o v) o = u8 v.
Proof. intros. rewrite get8_put8 by lia. by rewrite Z.eqb_refl. Qed.
Lemma get16_put8_ne d o o' v : 0 <= o < len d -> 0 <= o' -> o' + 2 <= o \/ o + 1 <= o' ->
  get16 (put8 d o v) o' = get16 d o'.
Proof. intros. unfold get16. by rewrite !get8_put8_ne by lia. Qed.
Lemma get32_put8_ne d o o' v : 0 <= o < len d -> 0 <= o' -> o' + 4 <= o \/ o + 1 <= o' ->
  get32 (put8 d o v) o' = get32 d o'.
Proof. intros. unfold get32. by rewrite !get16_put8_ne by lia. Qed.
Lemma get32_put16_ne d o o' v : 0 <= o -> o + 2 <= len d -> 0 <= o' -> o' + 4 <= o \/ o + 2 <= o' ->
  get32 (put16 d o v) o' = get32 d o'.
Proof. intros. unfold get32. by rewrite !get16_put16_ne by lia. Qed.

End Fields.
