(* ===== verification/Bits.v ===== *)
(** * The bitmap primitives of kr.h

    kr.h names five primitives of the kernel for bitmaps ([kr_set_bit],
    [kr_clear_bit], [kr_test_bit], [kr_find_first_zero_bit] and
    [kr_find_next_zero_bit]); the allocators also scan bitmaps with [memscan].
    Their code is the kernel's, so a component that uses them is proved against
    the interface [BitOps], whose laws [BitLaws] are the kernel's documentation
    of them.  [bitops_ref] is an implementation, for running the model. *)

From S2P Require Import Prelude.

(** Bit [i] of a little-endian bitmap. *)
Definition bit (d : list Z) (i : Z) : bool := Z.testbit (get8 d (i / 8)) (i mod 8).

(** The number of bits of a bitmap. *)
Definition nbits (d : list Z) : Z := 8 * len d.

Class BitOps := {
  test_bit_le : Z -> list Z -> bool;
  test_and_set_bit_le : Z -> list Z -> bool * list Z;
  test_and_clear_bit_le : Z -> list Z -> bool * list Z;
  (* find_next_zero_bit_le(addr, size, offset) *)
  find_next_zero_bit_le : list Z -> Z -> Z -> Z;
  (* memscan(addr + p, c, size), as an index from addr *)
  memscan : list Z -> Z -> Z -> Z -> Z;
}.

Class BitLaws (B : BitOps) := {
  test_bit_law : forall i d, 0 <= i -> test_bit_le i d = bit d i;
  set_bit_old : forall i d, 0 <= i -> fst (test_and_set_bit_le i d) = bit d i;
  set_bit_len : forall i d, len (snd (test_and_set_bit_le i d)) = len d;
  set_bit_law : forall i j d, 0 <= i < nbits d -> 0 <= j ->
    bit (snd (test_and_set_bit_le i d)) j = (j =? i) || bit d j;
  clear_bit_old : forall i d, 0 <= i -> fst (test_and_clear_bit_le i d) = bit d i;
  clear_bit_len : forall i d, len (snd (test_and_clear_bit_le i d)) = len d;
  clear_bit_law : forall i j d, 0 <= i < nbits d -> 0 <= j ->
    bit (snd (test_and_clear_bit_le i d)) j = negb (j =? i) && bit d j;
  find_zero_bounds : forall d size off, 0 <= off < size -> size <= nbits d ->
    off <= find_next_zero_bit_le d size off <= size;
  find_zero_before : forall d size off j, 0 <= off -> size <= nbits d ->
    off <= j < find_next_zero_bit_le d size off -> bit d j = true;
  find_zero_at : forall d size off, 0 <= off -> size <= nbits d ->
    find_next_zero_bit_le d size off < size ->
    bit d (find_next_zero_bit_le d size off) = false;
  find_zero_past : forall d size off, size <= off ->
    find_next_zero_bit_le d size off = size;
  memscan_bounds : forall d p c n, 0 <= p -> 0 <= n -> p <= memscan d p c n <= p + n;
  memscan_at : forall d p c n, 0 <= p -> 0 <= n ->
    memscan d p c n < p + n -> get8 d (memscan d p c n) = c;
}.

(** Two bitmaps that agree bit by bit below [n] from [lo]. *)
Definition same_bits (d d' : list Z) (P : Z -> Prop) : Prop :=
  forall j, 0 <= j -> P j -> bit d' j = bit d j.

(** The number of clear bits among the [n] bits from [lo]. *)
Fixpoint zeros (d : list Z) (lo : Z) (n : nat) : Z :=
  match n with
  | O => 0
  | S n' => (if bit d lo then 0 else 1) + zeros d (lo + 1) n'
  end.

(** The number of set bits among the [n] bits from [lo]. *)
Fixpoint ones (d : list Z) (lo : Z) (n : nat) : Z :=
  match n with
  | O => 0
  | S n' => (if bit d lo then 1 else 0) + ones d (lo + 1) n'
  end.

Lemma zeros_ones d lo n : zeros d lo n + ones d lo n = Z.of_nat n.
Proof.
  revert lo. induction n as [|n IH]; intros lo; simpl; [done|].
  specialize (IH (lo + 1)). destruct (bit d lo); lia.
Qed.

Lemma zeros_app d lo n m : zeros d lo (n + m) = zeros d lo n + zeros d (lo + Z.of_nat n) m.
Proof.
  revert lo. induction n as [|n IH]; intros lo; simpl; [by rewrite Z.add_0_r|].
  rewrite IH. replace (lo + 1 + Z.of_nat n) with (lo + Z.of_nat (S n)) by lia. lia.
Qed.

Lemma zeros_ext d d' lo n :
  (forall j, lo <= j < lo + Z.of_nat n -> bit d' j = bit d j) -> zeros d' lo n = zeros d lo n.
Proof.
  revert lo. induction n as [|n IH]; intros lo H; simpl; [done|].
  rewrite (H lo) by lia. rewrite IH; [done|]. intros j Hj. apply H. lia.
Qed.

Lemma ones_nonneg d lo n : 0 <= ones d lo n <= Z.of_nat n.
Proof.
  revert lo. induction n as [|n IH]; intros lo; simpl; [lia|].
  specialize (IH (lo + 1)). destruct (bit d lo); lia.
Qed.

Lemma zeros_nonneg d lo n : 0 <= zeros d lo n <= Z.of_nat n.
Proof. pose proof (zeros_ones d lo n). pose proof (ones_nonneg d lo n). lia. Qed.

Lemma ones_snoc d lo n :
  ones d lo (S n) = ones d lo n + if bit d (lo + Z.of_nat n) then 1 else 0.
Proof.
  revert lo. induction n as [|n IH]; intros lo.
  - simpl. by rewrite Z.add_0_r, Z.add_0_r.
  - change (ones d lo (S (S n))) with ((if bit d lo then 1 else 0) + ones d (lo + 1) (S n)).
    rewrite IH. simpl (ones d lo (S n)).
    replace (lo + 1 + Z.of_nat n) with (lo + Z.of_nat (S n)) by lia. lia.
Qed.

Lemma ones_all d lo n :
  (forall j, lo <= j < lo + Z.of_nat n -> bit d j = true) -> ones d lo n = Z.of_nat n.
Proof.
  revert lo. induction n as [|n IH]; intros lo H; simpl; [done|].
  rewrite (H lo) by lia. rewrite IH; [lia|]. intros j Hj. apply H. lia.
Qed.

Lemma zeros_all d lo n :
  (forall j, lo <= j < lo + Z.of_nat n -> bit d j = false) -> zeros d lo n = Z.of_nat n.
Proof.
  revert lo. induction n as [|n IH]; intros lo H; simpl; [done|].
  rewrite (H lo) by lia. rewrite IH; [lia|]. intros j Hj. apply H. lia.
Qed.

(** ** A reference implementation *)

Lemma zeros_none d lo n :
  zeros d lo n = 0 -> forall j, lo <= j < lo + Z.of_nat n -> bit d j = true.
Proof.
  revert lo. induction n as [|n IH]; intros lo; simpl; intros Hz j Hj; [lia|].
  pose proof (zeros_nonneg d (lo + 1) n) as Hn. destruct (bit d lo) eqn:Hb; [|lia].
  destruct (decide (j = lo)) as [->|]; [done|]. apply (IH (lo + 1)); lia.
Qed.

Definition set_bit_ref (i : Z) (d : list Z) : list Z :=
  put8 d (i / 8) (Z.lor (get8 d (i / 8)) (2 ^ (i mod 8))).
Definition clear_bit_ref (i : Z) (d : list Z) : list Z :=
  put8 d (i / 8) (Z.ldiff (get8 d (i / 8)) (2 ^ (i mod 8))).

Fixpoint find_zero_ref (d : list Z) (off : Z) (n : nat) : Z :=
  match n with
  | O => off
  | S n' => if bit d off then find_zero_ref d (off + 1) n' else off
  end.

Fixpoint memscan_ref (d : list Z) (p c : Z) (n : nat) : Z :=
  match n with
  | O => p
  | S n' => if get8 d p =? c then p else memscan_ref d (p + 1) c n'
  end.

Definition bitops_ref : BitOps := {|
  test_bit_le := fun i d => bit d i;
  test_and_set_bit_le := fun i d => (bit d i, set_bit_ref i d);
  test_and_clear_bit_le := fun i d => (bit d i, clear_bit_ref i d);
  find_next_zero_bit_le := fun d size off =>
    if off <? size then find_zero_ref d off (Z.to_nat (size - off)) else size;
  memscan := fun d p c n => memscan_ref d p c (Z.to_nat n);
|}.

Lemma find_zero_ref_spec d n : forall off,
  let r := find_zero_ref d off n in
  off <= r <= off + Z.of_nat n /\
  (forall j, off <= j < r -> bit d j = true) /\
  (r < off + Z.of_nat n -> bit d r = false).
Proof.
  induction n as [|n IH]; intros off; simpl; [repeat split; intros; lia|].
  destruct (bit d off) eqn:Hb; [|repeat split; intros; try lia; done].
  destruct (IH (off + 1)) as (H1 & H2 & H3). repeat split; [lia|lia| |].
  - intros j Hj. destruct (decide (j = off)) as [->|]; [done|]. apply H2. lia.
  - intros Hlt. apply H3. lia.
Qed.

Lemma memscan_ref_spec d c n : forall p,
  let r := memscan_ref d p c n in
  p <= r <= p + Z.of_nat n /\ (r < p + Z.of_nat n -> get8 d r = c).
Proof.
  induction n as [|n IH]; intros p; simpl; [lia|].
  destruct (Z.eqb_spec (get8 d p) c) as [Hc|Hc]; [split; [lia|done]|].
  destruct (IH (p + 1)) as (H1 & H2). split; [lia|]. intros. apply H2. lia.
Qed.

Lemma bit_put8 d i j v :
  0 <= i < nbits d -> 0 <= j ->
  bit (put8 d (i / 8) v) j =
    if j / 8 =? i / 8 then Z.testbit v (j mod 8) else bit d j.
Proof.
  intros Hi Hj. unfold bit, nbits in *.
  assert (0 <= i / 8 < len d) by (Z.to_euclidean_division_equations; lia).
  rewrite get8_put8; [|done|by apply Z.div_pos].
  destruct (j / 8 =? i / 8); [|done].
  change 256 with (2 ^ 8). apply Z.mod_pow2_bits_low.
  pose proof (Z.mod_pos_bound j 8). lia.
Qed.

Lemma mod_div_eq i j : j / 8 = i / 8 -> (j mod 8 =? i mod 8) = (j =? i).
Proof.
  intros H. destruct (Z.eqb_spec j i) as [->|Hne]; [apply Z.eqb_refl|].
  apply Z.eqb_neq. intros Hm. apply Hne.
  rewrite (Z.div_mod j 8), (Z.div_mod i 8) by lia. congruence.
Qed.

Lemma bitlaws_ref : BitLaws bitops_ref.
Proof.
  split; simpl; try done.
  - intros. apply len_put8.
  - intros i j d Hi Hj. unfold set_bit_ref. rewrite bit_put8 by done.
    destruct (Z.eqb_spec (j / 8) (i / 8)) as [He|Hne].
    + rewrite Z.lor_spec, Z.pow2_bits_eqb by (by apply Z.mod_pos_bound).
      rewrite <- (mod_div_eq i j) by done. rewrite (Z.eqb_sym (i mod 8)).
      unfold bit. rewrite He. apply orb_comm.
    + destruct (Z.eqb_spec j i); [congruence|done].
  - intros. apply len_put8.
  - intros i j d Hi Hj. unfold clear_bit_ref. rewrite bit_put8 by done.
    destruct (Z.eqb_spec (j / 8) (i / 8)) as [He|Hne].
    + rewrite Z.ldiff_spec, Z.pow2_bits_eqb by (by apply Z.mod_pos_bound).
      rewrite <- (mod_div_eq i j) by done. rewrite (Z.eqb_sym (i mod 8)).
      unfold bit. rewrite He. apply andb_comm.
    + destruct (Z.eqb_spec j i); [congruence|done].
  - intros d size off Hoff Hs. destruct (Z.ltb_spec off size); [|lia].
    destruct (find_zero_ref_spec d (Z.to_nat (size - off)) off). lia.
  - intros d size off j Hoff Hs. destruct (Z.ltb_spec off size); [|lia].
    destruct (find_zero_ref_spec d (Z.to_nat (size - off)) off) as (_ & H1 & _). auto.
  - intros d size off Hoff Hs. destruct (Z.ltb_spec off size); [|lia].
    destruct (find_zero_ref_spec d (Z.to_nat (size - off)) off) as (_ & _ & H1).
    intros. apply H1. lia.
  - intros d size off H. destruct (Z.ltb_spec off size); [lia|done].
  - intros d p c n Hp Hn. destruct (memscan_ref_spec d c (Z.to_nat n) p). lia.
  - intros d p c n Hp Hn. destruct (memscan_ref_spec d c (Z.to_nat n) p). intros. auto with lia.
Qed.

Section Consequences.
Context {B : BitOps} {BL : BitLaws B}.

Lemma set_bit_nbits i d : nbits (snd (test_and_set_bit_le i d)) = nbits d.
Proof. unfold nbits. by rewrite set_bit_len. Qed.
Lemma clear_bit_nbits i d : nbits (snd (test_and_clear_bit_le i d)) = nbits d.
Proof. unfold nbits. by rewrite clear_bit_len. Qed.

(** A zero byte holds eight clear bits. *)
Lemma bit_of_zero_byte d i : get8 d (i / 8) = 0 -> bit d i = false.
Proof. unfold bit. intros ->. apply Z.bits_0. Qed.

End Consequences.

#[export] Hint Rewrite @set_bit_nbits @clear_bit_nbits @set_bit_len @clear_bit_len : kr.
