(* ===== verification/Kr.v ===== *)
(** * kr.h: the data of the file system

    The structures of kr.h as records, field by field, the constants and macros
    the C files use, and the state the file system's functions share.  A
    little-endian field holds the number it stands for (its [le32_to_cpu]). *)

From S2P Require Import Prelude Bits.

(** [set_field h p v] is the eta-expanded record [h] with the projection [p]
    replaced by [v]. *)
Ltac set_field h p v :=
  let h := eval hnf in h in
  let h := eval pattern p in h in
  lazymatch h with
  | ?g _ => let t := eval cbv beta in (g v) in exact t
  end.

(** ** Constants *)

(** Error numbers. *)
Definition EPERM := 1.
Definition ENOENT := 2.
Definition EIO := 5.
Definition EAGAIN := 11.
Definition ENOMEM := 12.
Definition EACCES := 13.
Definition EFAULT := 14.
Definition EEXIST := 17.
Definition EINVAL := 22.
Definition ENOTTY := 25.
Definition ENOSPC := 28.
Definition ERANGE := 34.
Definition ENODATA := 61.
Definition EOPNOTSUPP := 95.
Definition EROFS := 30.
Definition ENAMETOOLONG := 36.
Definition ENOTEMPTY := 39.
Definition ESTALE := 116.
Definition EFSCORRUPTED := 117.

(** File types, in a mode. *)
Definition S_IFMT := 0xF000.
Definition S_IFSOCK := 0xC000.
Definition S_IFLNK := 0xA000.
Definition S_IFREG := 0x8000.
Definition S_IFBLK := 0x6000.
Definition S_IFDIR := 0x4000.
Definition S_IFCHR := 0x2000.
Definition S_IFIFO := 0x1000.
Definition S_ISREG (m : Z) : bool := Z.land m S_IFMT =? S_IFREG.
Definition S_ISDIR (m : Z) : bool := Z.land m S_IFMT =? S_IFDIR.
Definition S_ISLNK (m : Z) : bool := Z.land m S_IFMT =? S_IFLNK.
Definition S_ISCHR (m : Z) : bool := Z.land m S_IFMT =? S_IFCHR.
Definition S_ISBLK (m : Z) : bool := Z.land m S_IFMT =? S_IFBLK.

(** Flags of a mounted super block, and of an inode in memory. *)
Definition MS_RDONLY := 1.
Definition MS_SYNCHRONOUS := 16.
Definition MS_DIRSYNC := 128.
Definition MS_POSIXACL := 0x10000.
Definition S_SYNC := 1.
Definition S_NOATIME := 2.
Definition S_APPEND := 4.
Definition S_IMMUTABLE := 8.
Definition S_NOQUOTA := 32.
Definition S_DIRSYNC := 64.
Definition S_DAX := 8192.

(** A test of a mask, as C's [if (x & mask)]. *)
Definition has (x mask : Z) : bool := negb (Z.land x mask =? 0).
(** [x &= ~mask] *)
Definition clr (x mask : Z) : Z := Z.ldiff x mask.

(** ** kr.h, line by line *)

Definition KR_DEFAULT_RESERVE_BLOCKS := 8.
Definition KR_MAX_RESERVE_BLOCKS := 1027.
Definition KR_RESERVE_WINDOW_NOT_ALLOCATED := 0.

Definition KR_BAD_INO := 1.
Definition KR_ROOT_INO := 2.
Definition KR_GOOD_OLD_FIRST_INO := 11.

Definition KR_MIN_BLOCK_SIZE := 1024.
Definition KR_MIN_FRAG_SIZE := 1024.

Definition KR_NDIR_BLOCKS := 12.
Definition KR_IND_BLOCK := KR_NDIR_BLOCKS.
Definition KR_DIND_BLOCK := KR_IND_BLOCK + 1.
Definition KR_TIND_BLOCK := KR_DIND_BLOCK + 1.
Definition KR_N_BLOCKS := KR_TIND_BLOCK + 1.

(** Inode flags; the values are those of the [FS_*_FL] flags of the kernel's
    user interface that kr.h gives them. *)
Definition KR_SECRM_FL := 0x1.
Definition KR_UNRM_FL := 0x2.
Definition KR_COMPR_FL := 0x4.
Definition KR_SYNC_FL := 0x8.
Definition KR_IMMUTABLE_FL := 0x10.
Definition KR_APPEND_FL := 0x20.
Definition KR_NODUMP_FL := 0x40.
Definition KR_NOATIME_FL := 0x80.
Definition KR_DIRTY_FL := 0x100.
Definition KR_COMPRBLK_FL := 0x200.
Definition KR_NOCOMP_FL := 0x400.
Definition KR_ECOMPR_FL := 0x800.
Definition KR_BTREE_FL := 0x1000.
Definition KR_INDEX_FL := 0x1000.
Definition KR_IMAGIC_FL := 0x2000.
Definition KR_JOURNAL_DATA_FL := 0x4000.
Definition KR_NOTAIL_FL := 0x8000.
Definition KR_DIRSYNC_FL := 0x10000.
Definition KR_TOPDIR_FL := 0x20000.
Definition KR_RESERVED_FL := 0x80000000.
Definition KR_FL_USER_VISIBLE := 0x0003DFFF.
Definition KR_FL_USER_MODIFIABLE := 0x000380FF.

Definition KR_FL_INHERITED : Z :=
  fold_right Z.lor 0
    [KR_SECRM_FL; KR_UNRM_FL; KR_COMPR_FL; KR_SYNC_FL; KR_NODUMP_FL; KR_NOATIME_FL;
     KR_COMPRBLK_FL; KR_NOCOMP_FL; KR_JOURNAL_DATA_FL; KR_NOTAIL_FL; KR_DIRSYNC_FL].
(** [~(KR_DIRSYNC_FL | KR_TOPDIR_FL)], as a 32-bit mask *)
Definition KR_REG_FLMASK : Z := Z.ldiff 0xFFFFFFFF (Z.lor KR_DIRSYNC_FL KR_TOPDIR_FL).
Definition KR_OTHER_FLMASK : Z := Z.lor KR_NODUMP_FL KR_NOATIME_FL.

(** Mask out flags that are inappropriate for the given type of inode. *)
Definition kr_mask_flags (mode flags : Z) : Z :=
  if S_ISDIR mode then flags
  else if S_ISREG mode then Z.land flags KR_REG_FLMASK
  else Z.land flags KR_OTHER_FLMASK.

Definition KR_VALID_FS := 0x0001.
Definition KR_ERROR_FS := 0x0002.

Definition KR_MOUNT_CHECK := 0x000001.
Definition KR_MOUNT_OLDALLOC := 0x000002.
Definition KR_MOUNT_GRPID := 0x000004.
Definition KR_MOUNT_DEBUG := 0x000008.
Definition KR_MOUNT_ERRORS_CONT := 0x000010.
Definition KR_MOUNT_ERRORS_RO := 0x000020.
Definition KR_MOUNT_ERRORS_PANIC := 0x000040.
Definition KR_MOUNT_MINIX_DF := 0x000080.
Definition KR_MOUNT_NOBH := 0x000100.
Definition KR_MOUNT_NO_UID32 := 0x000200.
Definition KR_MOUNT_XATTR_USER := 0x004000.
Definition KR_MOUNT_POSIX_ACL := 0x008000.
Definition KR_MOUNT_XIP := 0x010000.
Definition KR_MOUNT_USRQUOTA := 0x020000.
Definition KR_MOUNT_GRPQUOTA := 0x040000.
Definition KR_MOUNT_RESERVATION := 0x080000.
(** without [CONFIG_FS_DAX] *)
Definition KR_MOUNT_DAX := 0.

Definition KR_DFL_MAX_MNT_COUNT := 20.
Definition KR_ERRORS_CONTINUE := 1.
Definition KR_ERRORS_RO := 2.
Definition KR_ERRORS_PANIC := 3.

Definition KR_GOOD_OLD_REV := 0.
Definition KR_DYNAMIC_REV := 1.
Definition KR_MAX_SUPP_REV := KR_DYNAMIC_REV.
Definition KR_GOOD_OLD_INODE_SIZE := 128.

Definition KR_FEATURE_COMPAT_EXT_ATTR := 0x0008.
Definition EXT3_FEATURE_COMPAT_HAS_JOURNAL := 0x0004.
Definition KR_FEATURE_RO_COMPAT_SPARSE_SUPER := 0x0001.
Definition KR_FEATURE_RO_COMPAT_LARGE_FILE := 0x0002.
Definition KR_FEATURE_RO_COMPAT_BTREE_DIR := 0x0004.
Definition KR_FEATURE_INCOMPAT_FILETYPE := 0x0002.
Definition KR_FEATURE_INCOMPAT_META_BG := 0x0010.
Definition KR_FEATURE_COMPAT_SUPP := KR_FEATURE_COMPAT_EXT_ATTR.
Definition KR_FEATURE_INCOMPAT_SUPP : Z :=
  Z.lor KR_FEATURE_INCOMPAT_FILETYPE KR_FEATURE_INCOMPAT_META_BG.
Definition KR_FEATURE_RO_COMPAT_SUPP : Z :=
  Z.lor (Z.lor KR_FEATURE_RO_COMPAT_SPARSE_SUPER KR_FEATURE_RO_COMPAT_LARGE_FILE)
    KR_FEATURE_RO_COMPAT_BTREE_DIR.

Definition KR_DEFM_DEBUG := 0x0001.
Definition KR_DEFM_BSDGROUPS := 0x0002.
Definition KR_DEFM_XATTR_USER := 0x0004.
Definition KR_DEFM_ACL := 0x0008.
Definition KR_DEFM_UID16 := 0x0010.

Definition KR_FT_UNKNOWN := 0.
Definition KR_FT_REG_FILE := 1.
Definition KR_FT_DIR := 2.
Definition KR_FT_CHRDEV := 3.
Definition KR_FT_BLKDEV := 4.
Definition KR_FT_FIFO := 5.
Definition KR_FT_SOCK := 6.
Definition KR_FT_SYMLINK := 7.
Definition KR_FT_MAX := 8.

Definition KR_DIR_PAD := 4.
Definition KR_DIR_ROUND := KR_DIR_PAD - 1.
Definition KR_DIR_REC_LEN (name_len : Z) : Z :=
  Z.ldiff (name_len + 8 + KR_DIR_ROUND) KR_DIR_ROUND.
Definition KR_MAX_REC_LEN := 65535.

Definition KR_STATE_NEW := 0x00000001.

(** ** Structures *)

(** A window of reserved blocks. *)
Record kr_reserve_window := ReserveWindow {
  _rsv_start : Z;  (* first block reserved *)
  _rsv_end : Z;  (* last block reserved, or 0 *)
}.
Definition eta_reserve_window (r : kr_reserve_window) : kr_reserve_window :=
  ReserveWindow (_rsv_start r) (_rsv_end r).

(** A node of the tree of reservation windows; its links are the tree's. *)
Record kr_reserve_window_node := ReserveWindowNode {
  rsv_goal_size : Z;
  rsv_alloc_hit : Z;
  rsv_window : kr_reserve_window;
}.
Definition eta_rsv_node (r : kr_reserve_window_node) : kr_reserve_window_node :=
  ReserveWindowNode (rsv_goal_size r) (rsv_alloc_hit r) (rsv_window r).

Definition rsv_start (r : kr_reserve_window_node) : Z := _rsv_start (rsv_window r).
Definition rsv_end (r : kr_reserve_window_node) : Z := _rsv_end (rsv_window r).

(** [rsv_window_node] is the address of the node in the store of windows. *)
Record kr_block_alloc_info := BlockAllocInfo {
  rsv_window_node : Z;
  last_alloc_logical_block : Z;
  last_alloc_physical_block : Z;
}.
Definition eta_block_alloc_info (r : kr_block_alloc_info) : kr_block_alloc_info :=
  BlockAllocInfo (rsv_window_node r) (last_alloc_logical_block r) (last_alloc_physical_block r).

Definition set_last_alloc_logical_block (v : Z) (r : kr_block_alloc_info) : kr_block_alloc_info :=
  ltac:(set_field (eta_block_alloc_info r) (last_alloc_logical_block r) v).
Definition set_last_alloc_physical_block (v : Z) (r : kr_block_alloc_info) : kr_block_alloc_info :=
  ltac:(set_field (eta_block_alloc_info r) (last_alloc_physical_block r) v).

(** The super block on disk ([struct kr_super_block]); the fields of the
    structure that no function of the module reads are left out. *)
Record kr_super_block := KrSuperBlock {
  es_inodes_count : Z;
  es_blocks_count : Z;
  es_r_blocks_count : Z;
  es_free_blocks_count : Z;
  es_free_inodes_count : Z;
  es_first_data_block : Z;
  es_log_block_size : Z;
  es_log_frag_size : Z;
  es_blocks_per_group : Z;
  es_frags_per_group : Z;
  es_inodes_per_group : Z;
  es_mtime : Z;
  es_wtime : Z;
  es_mnt_count : Z;
  es_max_mnt_count : Z;
  es_magic : Z;
  es_state : Z;
  es_errors : Z;
  es_minor_rev_level : Z;
  es_lastcheck : Z;
  es_checkinterval : Z;
  es_creator_os : Z;
  es_rev_level : Z;
  es_def_resuid : Z;
  es_def_resgid : Z;
  es_first_ino : Z;
  es_inode_size : Z;
  es_block_group_nr : Z;
  es_feature_compat : Z;
  es_feature_incompat : Z;
  es_feature_ro_compat : Z;
  es_uuid : list Z;
  es_default_mount_opts : Z;
  es_first_meta_bg : Z;
}.
Definition eta_super_block (r : kr_super_block) : kr_super_block :=
  KrSuperBlock (es_inodes_count r) (es_blocks_count r) (es_r_blocks_count r)
    (es_free_blocks_count r) (es_free_inodes_count r) (es_first_data_block r)
    (es_log_block_size r) (es_log_frag_size r) (es_blocks_per_group r)
    (es_frags_per_group r) (es_inodes_per_group r) (es_mtime r) (es_wtime r)
    (es_mnt_count r) (es_max_mnt_count r) (es_magic r) (es_state r) (es_errors r)
    (es_minor_rev_level r) (es_lastcheck r) (es_checkinterval r) (es_creator_os r)
    (es_rev_level r) (es_def_resuid r) (es_def_resgid r) (es_first_ino r)
    (es_inode_size r) (es_block_group_nr r) (es_feature_compat r)
    (es_feature_incompat r) (es_feature_ro_compat r) (es_uuid r)
    (es_default_mount_opts r) (es_first_meta_bg r).

Definition set_es_feature_compat (v : Z) (r : kr_super_block) : kr_super_block :=
  ltac:(set_field (eta_super_block r) (es_feature_compat r) v).
Definition set_es_free_blocks_count (v : Z) (r : kr_super_block) : kr_super_block :=
  ltac:(set_field (eta_super_block r) (es_free_blocks_count r) v).
Definition set_es_free_inodes_count (v : Z) (r : kr_super_block) : kr_super_block :=
  ltac:(set_field (eta_super_block r) (es_free_inodes_count r) v).
Definition set_es_mtime (v : Z) (r : kr_super_block) : kr_super_block :=
  ltac:(set_field (eta_super_block r) (es_mtime r) v).
Definition set_es_wtime (v : Z) (r : kr_super_block) : kr_super_block :=
  ltac:(set_field (eta_super_block r) (es_wtime r) v).
Definition set_es_mnt_count (v : Z) (r : kr_super_block) : kr_super_block :=
  ltac:(set_field (eta_super_block r) (es_mnt_count r) v).
Definition set_es_max_mnt_count (v : Z) (r : kr_super_block) : kr_super_block :=
  ltac:(set_field (eta_super_block r) (es_max_mnt_count r) v).
Definition set_es_state (v : Z) (r : kr_super_block) : kr_super_block :=
  ltac:(set_field (eta_super_block r) (es_state r) v).
Definition set_es_rev_level (v : Z) (r : kr_super_block) : kr_super_block :=
  ltac:(set_field (eta_super_block r) (es_rev_level r) v).
Definition set_es_first_ino (v : Z) (r : kr_super_block) : kr_super_block :=
  ltac:(set_field (eta_super_block r) (es_first_ino r) v).
Definition set_es_inode_size (v : Z) (r : kr_super_block) : kr_super_block :=
  ltac:(set_field (eta_super_block r) (es_inode_size r) v).
Definition set_es_feature_ro_compat (v : Z) (r : kr_super_block) : kr_super_block :=
  ltac:(set_field (eta_super_block r) (es_feature_ro_compat r) v).

Definition has_compat_feature (es : kr_super_block) (mask : Z) : bool :=
  has (es_feature_compat es) mask.
Definition has_ro_compat_feature (es : kr_super_block) (mask : Z) : bool :=
  has (es_feature_ro_compat es) mask.
Definition has_incompat_feature (es : kr_super_block) (mask : Z) : bool :=
  has (es_feature_incompat es) mask.

(** A group descriptor. *)
Record kr_group_desc := GroupDesc {
  bg_block_bitmap : Z;
  bg_inode_bitmap : Z;
  bg_inode_table : Z;
  bg_free_blocks_count : Z;
  bg_free_inodes_count : Z;
  bg_used_dirs_count : Z;
}.
Definition eta_group_desc (r : kr_group_desc) : kr_group_desc :=
  GroupDesc (bg_block_bitmap r) (bg_inode_bitmap r) (bg_inode_table r) (bg_free_blocks_count r)
    (bg_free_inodes_count r) (bg_used_dirs_count r).

Definition set_bg_free_blocks_count (v : Z) (r : kr_group_desc) : kr_group_desc :=
  ltac:(set_field (eta_group_desc r) (bg_free_blocks_count r) v).
Definition set_bg_free_inodes_count (v : Z) (r : kr_group_desc) : kr_group_desc :=
  ltac:(set_field (eta_group_desc r) (bg_free_inodes_count r) v).
Definition set_bg_used_dirs_count (v : Z) (r : kr_group_desc) : kr_group_desc :=
  ltac:(set_field (eta_group_desc r) (bg_used_dirs_count r) v).

(** The super block in memory ([struct kr_sb_info]), less its locks; the
    buffers it points to are parts of the state below, and the three per-cpu
    counters are their exact sums. *)
Record kr_sb_info := KrSbInfo {
  s_frag_size : Z;
  s_frags_per_block : Z;
  s_inodes_per_block : Z;
  s_frags_per_group : Z;
  s_blocks_per_group : Z;
  s_inodes_per_group : Z;
  s_itb_per_group : Z;
  s_gdb_count : Z;
  s_desc_per_block : Z;
  s_groups_count : Z;
  s_overhead_last : Z;
  s_blocks_last : Z;
  s_mount_opt : Z;
  s_sb_block : Z;
  s_resuid : Z;
  s_resgid : Z;
  s_mount_state : Z;
  s_addr_per_block_bits : Z;
  s_desc_per_block_bits : Z;
  s_inode_size : Z;
  s_first_ino : Z;
  s_next_generation : Z;
  s_debts : list Z;
  s_freeblocks_counter : Z;
  s_freeinodes_counter : Z;
  s_dirs_counter : Z;
}.
Definition eta_sb_info (r : kr_sb_info) : kr_sb_info :=
  KrSbInfo (s_frag_size r) (s_frags_per_block r) (s_inodes_per_block r) (s_frags_per_group r)
    (s_blocks_per_group r) (s_inodes_per_group r) (s_itb_per_group r) (s_gdb_count r)
    (s_desc_per_block r) (s_groups_count r) (s_overhead_last r) (s_blocks_last r)
    (s_mount_opt r) (s_sb_block r) (s_resuid r) (s_resgid r) (s_mount_state r)
    (s_addr_per_block_bits r) (s_desc_per_block_bits r) (s_inode_size r)
    (s_first_ino r) (s_next_generation r) (s_debts r) (s_freeblocks_counter r)
    (s_freeinodes_counter r) (s_dirs_counter r).

Definition set_s_overhead_last (v : Z) (r : kr_sb_info) : kr_sb_info :=
  ltac:(set_field (eta_sb_info r) (s_overhead_last r) v).
Definition set_s_blocks_last (v : Z) (r : kr_sb_info) : kr_sb_info :=
  ltac:(set_field (eta_sb_info r) (s_blocks_last r) v).
Definition set_s_mount_opt (v : Z) (r : kr_sb_info) : kr_sb_info :=
  ltac:(set_field (eta_sb_info r) (s_mount_opt r) v).
Definition set_s_resuid (v : Z) (r : kr_sb_info) : kr_sb_info :=
  ltac:(set_field (eta_sb_info r) (s_resuid r) v).
Definition set_s_resgid (v : Z) (r : kr_sb_info) : kr_sb_info :=
  ltac:(set_field (eta_sb_info r) (s_resgid r) v).
Definition set_s_mount_state (v : Z) (r : kr_sb_info) : kr_sb_info :=
  ltac:(set_field (eta_sb_info r) (s_mount_state r) v).
Definition set_s_gdb_count (v : Z) (r : kr_sb_info) : kr_sb_info :=
  ltac:(set_field (eta_sb_info r) (s_gdb_count r) v).
Definition set_s_next_generation (v : Z) (r : kr_sb_info) : kr_sb_info :=
  ltac:(set_field (eta_sb_info r) (s_next_generation r) v).
Definition set_s_debts (v : list Z) (r : kr_sb_info) : kr_sb_info :=
  ltac:(set_field (eta_sb_info r) (s_debts r) v).
Definition set_s_freeblocks_counter (v : Z) (r : kr_sb_info) : kr_sb_info :=
  ltac:(set_field (eta_sb_info r) (s_freeblocks_counter r) v).
Definition set_s_freeinodes_counter (v : Z) (r : kr_sb_info) : kr_sb_info :=
  ltac:(set_field (eta_sb_info r) (s_freeinodes_counter r) v).
Definition set_s_dirs_counter (v : Z) (r : kr_sb_info) : kr_sb_info :=
  ltac:(set_field (eta_sb_info r) (s_dirs_counter r) v).

(** The part of an inode in memory that is the file system's
    ([struct kr_inode_info]). *)
Record kr_inode_info := KrInodeInfo {
  i_data : list Z;
  ei_flags : Z;
  i_faddr : Z;
  i_frag_no : Z;
  i_frag_size : Z;
  i_state : Z;
  i_file_acl : Z;
  i_dir_acl : Z;
  i_dtime : Z;
  i_block_group : Z;
  i_block_alloc_info : option kr_block_alloc_info;
  i_dir_start_lookup : Z;
}.
Definition eta_inode_info (r : kr_inode_info) : kr_inode_info :=
  KrInodeInfo (i_data r) (ei_flags r) (i_faddr r) (i_frag_no r) (i_frag_size r) (i_state r)
    (i_file_acl r) (i_dir_acl r) (i_dtime r) (i_block_group r) (i_block_alloc_info r)
    (i_dir_start_lookup r).

Definition set_i_file_acl (v : Z) (r : kr_inode_info) : kr_inode_info :=
  ltac:(set_field (eta_inode_info r) (i_file_acl r) v).
Definition set_i_data (v : list Z) (r : kr_inode_info) : kr_inode_info :=
  ltac:(set_field (eta_inode_info r) (i_data r) v).
Definition set_ei_flags (v : Z) (r : kr_inode_info) : kr_inode_info :=
  ltac:(set_field (eta_inode_info r) (ei_flags r) v).
Definition set_i_state (v : Z) (r : kr_inode_info) : kr_inode_info :=
  ltac:(set_field (eta_inode_info r) (i_state r) v).
Definition set_i_dtime (v : Z) (r : kr_inode_info) : kr_inode_info :=
  ltac:(set_field (eta_inode_info r) (i_dtime r) v).
Definition set_i_block_alloc_info (v : option kr_block_alloc_info) (r : kr_inode_info) : kr_inode_info :=
  ltac:(set_field (eta_inode_info r) (i_block_alloc_info r) v).
Definition set_i_dir_start_lookup (v : Z) (r : kr_inode_info) : kr_inode_info :=
  ltac:(set_field (eta_inode_info r) (i_dir_start_lookup r) v).

(** An inode in memory: the fields of the kernel's [struct inode] the module
    uses, and [KR_I(inode)]. *)
Record inode := Inode {
  i_ino : Z;
  i_mode : Z;
  i_uid : Z;
  i_gid : Z;
  i_nlink : Z;
  i_size : Z;
  i_blocks : Z;
  i_atime : Z;
  i_mtime : Z;
  i_ctime : Z;
  i_generation : Z;
  i_version : Z;
  i_flags : Z;
  i_rdev : Z;
  KR_I : kr_inode_info;
}.
Definition eta_inode (r : inode) : inode :=
  Inode (i_ino r) (i_mode r) (i_uid r) (i_gid r) (i_nlink r) (i_size r) (i_blocks r)
    (i_atime r) (i_mtime r) (i_ctime r) (i_generation r) (i_version r) (i_flags r)
    (i_rdev r) (KR_I r).

Definition set_i_nlink (v : Z) (r : inode) : inode :=
  ltac:(set_field (eta_inode r) (i_nlink r) v).
Definition set_i_size (v : Z) (r : inode) : inode :=
  ltac:(set_field (eta_inode r) (i_size r) v).
Definition set_i_mtime (v : Z) (r : inode) : inode :=
  ltac:(set_field (eta_inode r) (i_mtime r) v).
Definition set_i_ctime (v : Z) (r : inode) : inode :=
  ltac:(set_field (eta_inode r) (i_ctime r) v).
Definition set_i_generation (v : Z) (r : inode) : inode :=
  ltac:(set_field (eta_inode r) (i_generation r) v).
Definition set_i_version (v : Z) (r : inode) : inode :=
  ltac:(set_field (eta_inode r) (i_version r) v).
Definition set_i_flags (v : Z) (r : inode) : inode :=
  ltac:(set_field (eta_inode r) (i_flags r) v).
Definition set_i_blocks (v : Z) (r : inode) : inode :=
  ltac:(set_field (eta_inode r) (i_blocks r) v).
Definition set_i_rdev (v : Z) (r : inode) : inode :=
  ltac:(set_field (eta_inode r) (i_rdev r) v).
Definition set_KR_I (v : kr_inode_info) (r : inode) : inode :=
  ltac:(set_field (eta_inode r) (KR_I r) v).

