(* ===== verification/InodeFlags.v ===== *)
(** * The flags of an inode, on disk and in memory (inode.c)

    [kr_set_inode_flags] copies the flags of the disk inode into the flags of the
    VFS inode, [kr_get_inode_flags] copies them back. *)

From S2P Require Import Prelude Kr.

(** [if (b) f |= mask;] *)
Definition set_if (b : bool) (mask f : Z) : Z := if b then Z.lor f mask else f.

Definition lor_all (l : list Z) : Z := foldr Z.lor 0 l.

(** [dax] is [test_opt(inode->i_sb, DAX)]. *)
Definition kr_set_inode_flags (dax : bool) (inode : inode) : Kr.inode :=
  let flags := ei_flags (KR_I inode) in
  let f := clr (i_flags inode)
             (lor_all [S_SYNC; S_APPEND; S_IMMUTABLE; S_NOATIME; S_DIRSYNC; S_DAX]) in
  let f := set_if (has flags KR_SYNC_FL) S_SYNC f in
  let f := set_if (has flags KR_APPEND_FL) S_APPEND f in
  let f := set_if (has flags KR_IMMUTABLE_FL) S_IMMUTABLE f in
  let f := set_if (has flags KR_NOATIME_FL) S_NOATIME f in
  let f := set_if (has flags KR_DIRSYNC_FL) S_DIRSYNC f in
  let f := set_if (dax && S_ISREG (i_mode inode)) S_DAX f in
  set_i_flags f inode.

Definition kr_get_inode_flags (inode : inode) : Kr.inode :=
  let flags := i_flags inode in
  let f := clr (ei_flags (KR_I inode))
             (lor_all [KR_SYNC_FL; KR_APPEND_FL; KR_IMMUTABLE_FL; KR_NOATIME_FL; KR_DIRSYNC_FL]) in
  let f := set_if (has flags S_SYNC) KR_SYNC_FL f in
  let f := set_if (has flags S_APPEND) KR_APPEND_FL f in
  let f := set_if (has flags S_IMMUTABLE) KR_IMMUTABLE_FL f in
  let f := set_if (has flags S_NOATIME) KR_NOATIME_FL f in
  let f := set_if (has flags S_DIRSYNC) KR_DIRSYNC_FL f in
  set_KR_I (set_ei_flags f (KR_I inode)) inode.

(** ** Bits of masks *)

Lemma land_pow2 x k : 0 <= k -> Z.land x (2 ^ k) = if Z.testbit x k then 2 ^ k else 0.
Proof.
  intros Hk. apply Z.bits_inj'. intros n Hn. rewrite Z.land_spec, Z.pow2_bits_eqb by done.
  destruct (Z.eqb_spec k n) as [->|Hne].
  - destruct (Z.testbit x n) eqn:Hx; simpl; [by rewrite Z.pow2_bits_true|by rewrite Z.bits_0].
  - rewrite andb_false_r. destruct (Z.testbit x k); [by rewrite Z.pow2_bits_false|by rewrite Z.bits_0].
Qed.

Lemma has_pow2 x k : 0 <= k -> has x (2 ^ k) = Z.testbit x k.
Proof.
  intros Hk. unfold has. rewrite land_pow2 by done.
  assert (0 < 2 ^ k) by (by apply Z.pow_pos_nonneg).
  destruct (Z.testbit x k); [|done]. destruct (Z.eqb_spec (2 ^ k) 0); [lia|done].
Qed.

Lemma testbit_set_if b k f n : 0 <= k -> 0 <= n ->
  Z.testbit (set_if b (2 ^ k) f) n = Z.testbit f n || b && (k =? n).
Proof.
  intros Hk Hn. unfold set_if. destruct b; simpl; [|by rewrite orb_false_r].
  by rewrite Z.lor_spec, Z.pow2_bits_eqb.
Qed.

Lemma testbit_clr f m n : Z.testbit (clr f m) n = Z.testbit f n && negb (Z.testbit m n).
Proof. unfold clr. apply Z.ldiff_spec. Qed.

(** The flags as powers of two. *)
Ltac as_pow2 :=
  change S_SYNC with (2 ^ 0); change S_NOATIME with (2 ^ 1); change S_APPEND with (2 ^ 2);
  change S_IMMUTABLE with (2 ^ 3); change S_DIRSYNC with (2 ^ 6); change S_DAX with (2 ^ 13);
  change KR_SYNC_FL with (2 ^ 3); change KR_IMMUTABLE_FL with (2 ^ 4);
  change KR_APPEND_FL with (2 ^ 5); change KR_NOATIME_FL with (2 ^ 7);
  change KR_DIRSYNC_FL with (2 ^ 16).

(** Bit [n] of the flags in memory, after they were copied from the disk inode. *)
Lemma set_flags_bit dax i n : 0 <= n ->
  Z.testbit (i_flags (kr_set_inode_flags dax i)) n =
    let d := Z.testbit (ei_flags (KR_I i)) in
    if n =? 0 then d 3 else if n =? 1 then d 7 else if n =? 2 then d 5
    else if n =? 3 then d 4 else if n =? 6 then d 16
    else if n =? 13 then dax && S_ISREG (i_mode i) else Z.testbit (i_flags i) n.
Proof.
  intros Hn. unfold kr_set_inode_flags. cbn [i_flags set_i_flags lor_all foldr]. as_pow2.
  rewrite !testbit_set_if, !testbit_clr, !Z.lor_spec, !Z.pow2_bits_eqb, Z.bits_0, !has_pow2 by lia.
  cbv zeta. rewrite !(Z.eqb_sym _ n).
  destruct (Z.eqb_spec n 0), (Z.eqb_spec n 1), (Z.eqb_spec n 2), (Z.eqb_spec n 3),
    (Z.eqb_spec n 6), (Z.eqb_spec n 13); try lia; cbn [andb orb negb];
    by rewrite ?andb_false_r, ?andb_true_r, ?orb_false_r.
Qed.

(** The flags of the disk inode survive the round trip through the VFS inode. *)
Lemma get_set_flags dax i :
  ei_flags (KR_I (kr_get_inode_flags (kr_set_inode_flags dax i))) = ei_flags (KR_I i).
Proof.
  apply Z.bits_inj'. intros n Hn. unfold kr_get_inode_flags.
  cbn [KR_I set_KR_I ei_flags set_ei_flags lor_all foldr]. as_pow2.
  set (d := Z.testbit (ei_flags (KR_I i))).
  assert (Hbit : forall k m, Z.testbit (i_flags (kr_set_inode_flags dax i)) k = d m ->
    0 <= k -> has (i_flags (kr_set_inode_flags dax i)) (2 ^ k) = d m)
    by (intros k m <- Hk; by apply has_pow2).
  rewrite (Hbit 0 3), (Hbit 2 5), (Hbit 3 4), (Hbit 1 7), (Hbit 6 16)
    by (try lia; by rewrite set_flags_bit).
  rewrite !testbit_set_if, testbit_clr, !Z.lor_spec, !Z.pow2_bits_eqb, Z.bits_0 by lia.
  change (Z.testbit (ei_flags (KR_I (kr_set_inode_flags dax i))) n) with (d n).
  destruct (Z.eqb_spec 3 n), (Z.eqb_spec 4 n), (Z.eqb_spec 5 n), (Z.eqb_spec 7 n),
    (Z.eqb_spec 16 n); try lia; try subst n; cbn [andb orb negb].
  all: rewrite ?andb_false_r, ?andb_true_r, ?orb_false_r; done.
Qed.
