(* ===== verification/Rsv.v ===== *)
(** * Block reservation windows (balloc.c)

    A file reserves a window of blocks ahead of its allocations.  The windows
    live in a store, where the inodes that own them change them in place, and a
    red-black tree links them in the order of their blocks; the state of this
    file is the two together. *)

From stdpp Require Import sorting.
From S2P Require Import Prelude Bits Kr.

(** ** The tree

    The file system walks the links of the tree itself when it searches and when
    it adds a window; rebalancing, unlinking and the in-order walk are the
    kernel's rbtree library, used through [RbTree]. *)
Inductive tree := Leaf | Node (l : tree) (n : Z) (r : tree).

Fixpoint inorder (t : tree) : list Z :=
  match t with
  | Leaf => []
  | Node l n r => inorder l ++ n :: inorder r
  end.

Class RbTree := {
  rb_first : tree -> option Z;
  rb_next : tree -> Z -> option Z;
  rb_prev : tree -> Z -> option Z;
  rb_insert_color : Z -> tree -> tree;
  rb_erase : Z -> tree -> tree;
}.

Class RbLaws (R : RbTree) := {
  rb_first_law : forall t, rb_first t = head (inorder t);
  rb_next_law : forall t n l1 l2, inorder t = l1 ++ n :: l2 -> NoDup (inorder t) ->
    rb_next t n = head l2;
  rb_prev_law : forall t n l1 l2, inorder t = l1 ++ n :: l2 -> NoDup (inorder t) ->
    rb_prev t n = last l1;
  rb_insert_color_law : forall t n, inorder (rb_insert_color n t) = inorder t;
  rb_erase_law : forall t n, NoDup (inorder t) ->
    inorder (rb_erase n t) = filter (fun m => m <> n) (inorder t);
}.

(** ** The state *)

Record rsvst := RsvSt {
  rsv_store : gmap Z kr_reserve_window_node;  (* the windows, by address *)
  rsv_root : tree;                            (* s_rsv_window_root *)
}.

(** The address of [s_rsv_window_head], the dummy window that starts the list. *)
Definition rsv_head : Z := 0.

Definition no_window : kr_reserve_window_node := ReserveWindowNode 0 0 (ReserveWindow 0 0).
Definition rsv_at (st : rsvst) (n : Z) : kr_reserve_window_node :=
  default no_window (rsv_store st !! n).
Definition rsv_put (n : Z) (w : kr_reserve_window_node) (st : rsvst) : rsvst :=
  RsvSt (<[n := w]> (rsv_store st)) (rsv_root st).
Definition set_root (t : tree) (st : rsvst) : rsvst := RsvSt (rsv_store st) t.

(** The windows in the tree, in order. *)
Definition wins (st : rsvst) : list Z := inorder (rsv_root st).

(** The outcome of a trylock, which the environment decides. *)
Class Trylock := spin_trylock : bool.

Section Ops.
Context `{BitOps, RbTree, Trylock}.

(** *** Geometry *)

(** [s_blocks_per_group] and [s_first_data_block] *)
Variables bpg fdb : Z.

Definition kr_group_first_block_no (group_no : Z) : Z := u64 (u64 (group_no * bpg) + fdb).

(** *** Operations *)

Definition rsv_is_empty (rsv : kr_reserve_window) : bool :=
  _rsv_end rsv =? KR_RESERVE_WINDOW_NOT_ALLOCATED.

Definition goal_in_my_reservation (rsv : kr_reserve_window) (grp_goal group : Z) : bool :=
  let group_first_block := kr_group_first_block_no group in
  let group_last_block := u64 (group_first_block + bpg - 1) in
  if (_rsv_start rsv >? group_last_block) || (_rsv_end rsv <? group_first_block) then false
  else if (grp_goal >=? 0) && ((u64 (grp_goal + group_first_block) <? _rsv_start rsv)
                               || (u64 (grp_goal + group_first_block) >? _rsv_end rsv))
  then false
  else true.

(** The walk down the tree: whether it met the window that holds the goal, and
    the last window it met. *)
Fixpoint search_walk (st : rsvst) (t : tree) (goal rsv : Z) : bool * Z :=
  match t with
  | Leaf => (false, rsv)
  | Node l n r =>
      if goal <? rsv_start (rsv_at st n) then search_walk st l goal n
      else if goal >? rsv_end (rsv_at st n) then search_walk st r goal n
      else (true, n)
  end.

Definition search_reserve_window (st : rsvst) (goal : Z) : option Z :=
  match rsv_root st with
  | Leaf => None
  | Node _ n _ =>
      let '(found, rsv) := search_walk st (rsv_root st) goal n in
      if found then Some rsv
      else if rsv_start (rsv_at st rsv) >? goal then rb_prev (rsv_root st) rsv
      else Some rsv
  end.

(** The place of a new window, whose first block is [start]; [None] when that
    block lies in a window of the tree. *)
Fixpoint rb_link_node (st : rsvst) (t : tree) (start n : Z) : option tree :=
  match t with
  | Leaf => Some (Node Leaf n Leaf)
  | Node l m r =>
      if start <? rsv_start (rsv_at st m) then
        l' ← rb_link_node st l start n; Some (Node l' m r)
      else if start >? rsv_end (rsv_at st m) then
        r' ← rb_link_node st r start n; Some (Node l m r')
      else None
  end.

Definition kr_rsv_window_add (rsv : Z) : M rsvst unit :=
  st ← gets id;
  match rb_link_node st (rsv_root st) (rsv_start (rsv_at st rsv)) rsv with
  | Some t => modify (set_root (rb_insert_color rsv t))
  | None => halt BugOn
  end.

Definition rsv_window_remove (rsv : Z) : M rsvst unit :=
  modify (fun st => rsv_put rsv
    (ReserveWindowNode (rsv_goal_size (rsv_at st rsv)) 0
       (ReserveWindow KR_RESERVE_WINDOW_NOT_ALLOCATED KR_RESERVE_WINDOW_NOT_ALLOCATED)) st) ;;
  modify (fun st => set_root (rb_erase rsv (rsv_root st)) st).

(** The node that [kr_init_block_alloc_info] sets up at the address [kmalloc]
    gave it; [reservation] is the mount option. *)
Definition init_window (reservation : bool) : kr_reserve_window_node :=
  ReserveWindowNode (if reservation then KR_DEFAULT_RESERVE_BLOCKS else 0) 0
    (ReserveWindow KR_RESERVE_WINDOW_NOT_ALLOCATED KR_RESERVE_WINDOW_NOT_ALLOCATED).

Definition discard_window (rsv : Z) : M rsvst unit :=
  st ← gets id;
  when (negb (rsv_is_empty (rsv_window (rsv_at st rsv)))) (rsv_window_remove rsv).

Definition bitmap_search_next_usable_block (start : Z) (bh : list Z) (maxblocks : Z) : Z :=
  let next := find_next_zero_bit_le bh maxblocks start in
  if next >=? maxblocks then -1 else next.

(** One turn of the search for a gap, at [cur] with the list at [rsv]: the gap
    and the window before it, [None] when the search has failed. *)
Definition next_gap (st : rsvst) (size last_block : Z) (p : Z * Z)
    : M rsvst ((Z * Z) + option (Z * Z)) :=
  let '(cur, rsv) := p in
  let cur := if cur <=? rsv_end (rsv_at st rsv) then u64 (rsv_end (rsv_at st rsv) + 1) else cur in
  if cur >? last_block then mret (inr None)
  else match rb_next (rsv_root st) rsv with
       | None => mret (inr (Some (cur, rsv)))
       | Some next =>
           if u64 (cur + size) <=? rsv_start (rsv_at st next)
           then mret (inr (Some (cur, rsv)))
           else mret (inl (cur, next))
       end.

Definition find_next_reservable_window (search_head : option Z)
    (my_rsv start_block last_block : Z) : M rsvst Z :=
  st ← gets id;
  let size := s32 (rsv_goal_size (rsv_at st my_rsv)) in
  match search_head with
  | None => mret (-1)
  | Some head =>
      r ← loop (S (length (wins st))) (next_gap st size last_block) (start_block, head);
      match r with
      | None => mret (-1)
      | Some (cur, prev) =>
          when (negb (prev =? my_rsv) && negb (rsv_is_empty (rsv_window (rsv_at st my_rsv))))
            (rsv_window_remove my_rsv) ;;
          modify (fun st => rsv_put my_rsv
            (ReserveWindowNode (rsv_goal_size (rsv_at st my_rsv)) 0
               (ReserveWindow cur (u64 (cur + size - 1)))) st) ;;
          when (negb (prev =? my_rsv)) (kr_rsv_window_add my_rsv) ;;
          mret 0
      end
  end.

(** The loop of [alloc_new_reservation], entered at its label [retry]. *)
Definition retry_window (my_rsv group_first_block group_end_block : Z) (bitmap : list Z)
    (p : option Z * Z) : M rsvst ((option Z * Z) + Z) :=
  let '(search_head, start_block) := p in
  ret ← find_next_reservable_window search_head my_rsv start_block group_end_block;
  if ret =? -1 then
    st ← gets id;
    when (negb (rsv_is_empty (rsv_window (rsv_at st my_rsv)))) (rsv_window_remove my_rsv) ;;
    mret (inr (-1))
  else
    st ← gets id;
    let first_free_block := bitmap_search_next_usable_block
      (s32 (rsv_start (rsv_at st my_rsv) - group_first_block)) bitmap
      (s32 (group_end_block - group_first_block + 1)) in
    if first_free_block <? 0 then
      when (negb (rsv_is_empty (rsv_window (rsv_at st my_rsv)))) (rsv_window_remove my_rsv) ;;
      mret (inr (-1))
    else
      let start_block := u64 (first_free_block + group_first_block) in
      if (start_block >=? rsv_start (rsv_at st my_rsv))
         && (start_block <=? rsv_end (rsv_at st my_rsv))
      then mret (inr 0)
      else mret (inl (Some my_rsv, start_block)).

Definition alloc_new_reservation (my_rsv grp_goal group : Z) (bitmap : list Z) : M rsvst Z :=
  let group_first_block := kr_group_first_block_no group in
  let group_end_block := u64 (group_first_block + (bpg - 1)) in
  let start_block := if grp_goal <? 0 then group_first_block
                     else u64 (grp_goal + group_first_block) in
  w ← gets (fun st => rsv_at st my_rsv);
  let size := rsv_goal_size w in
  let search :=
    search_head ← gets (fun st => search_reserve_window st start_block);
    loop (S (Z.to_nat bpg)) (retry_window my_rsv group_first_block group_end_block bitmap)
      (search_head, start_block) in
  if rsv_is_empty (rsv_window w) then search
  else if (rsv_start w <=? group_end_block) && (rsv_end w >? group_end_block)
          && (start_block >=? rsv_start w)
  then mret (-1)
  else
    when (rsv_alloc_hit w >? u64 (rsv_end w - rsv_start w + 1) / 2)
      (modify (rsv_put my_rsv
         (ReserveWindowNode (u32 (Z.min (size * 2) KR_MAX_RESERVE_BLOCKS)) (rsv_alloc_hit w)
            (rsv_window w)))) ;;
    search.

Definition try_to_extend_reservation (my_rsv size : Z) : M rsvst unit :=
  if negb spin_trylock then mret tt
  else
    st ← gets id;
    let w := rsv_at st my_rsv in
    let put_end e := modify (rsv_put my_rsv
      (ReserveWindowNode (rsv_goal_size w) (rsv_alloc_hit w) (ReserveWindow (rsv_start w) e))) in
    match rb_next (rsv_root st) my_rsv with
    | None => put_end (u64 (rsv_end w + size))
    | Some next =>
        if u64 (rsv_start (rsv_at st next) - rsv_end w - 1) >=? u64 size
        then put_end (u64 (rsv_end w + size))
        else put_end (u64 (rsv_start (rsv_at st next) - 1))
    end.

End Ops.

(** ** A reference implementation of the tree library *)

Fixpoint next_in (l : list Z) (n : Z) : option Z :=
  match l with
  | [] => None
  | m :: l' => if decide (m = n) then head l' else next_in l' n
  end.
Fixpoint spine (l : list Z) : tree :=
  match l with
  | [] => Leaf
  | n :: l' => Node Leaf n (spine l')
  end.

Definition rbtree_ref : RbTree := {|
  rb_first := fun t => head (inorder t);
  rb_next := fun t n => next_in (inorder t) n;
  rb_prev := fun t n => next_in (reverse (inorder t)) n;
  rb_insert_color := fun _ t => t;
  rb_erase := fun n t => spine (filter (fun m => m <> n) (inorder t));
|}.

Lemma inorder_spine l : inorder (spine l) = l.
Proof. induction l as [|n l IH]; simpl; [done|]. by rewrite IH. Qed.

Lemma next_in_app l1 n l2 : n ∉ l1 -> next_in (l1 ++ n :: l2) n = head l2.
Proof.
  induction l1 as [|m l1 IH]; simpl; intros Hn.
  - by rewrite decide_True.
  - rewrite decide_False by set_solver. apply IH. set_solver.
Qed.

Lemma rblaws_ref : RbLaws rbtree_ref.
Proof.
  split; simpl; try done.
  - intros t n l1 l2 -> Hnd. apply next_in_app.
    apply NoDup_app in Hnd. destruct Hnd as (_ & Hnd & _). set_solver.
  - intros t n l1 l2 -> Hnd. apply NoDup_app in Hnd. destruct Hnd as (_ & _ & Hnd).
    apply NoDup_cons in Hnd. destruct Hnd as [Hn _].
    rewrite reverse_app, reverse_cons, <- (assoc_L (++)). simpl.
    rewrite next_in_app by (by rewrite elem_of_reverse).
    induction l1 as [|l1 m _] using rev_ind; [done|].
    by rewrite reverse_snoc, last_snoc.
  - intros t n Hnd. apply inorder_spine.
Qed.

(** ** The invariant

    The windows of the tree are in order and disjoint, the first is the dummy
    window, and a file's window is in the tree exactly when it is not empty. *)
Definition before (st : rsvst) (a b : Z) : Prop :=
  rsv_end (rsv_at st a) < rsv_start (rsv_at st b).
#[export] Instance before_dec st a b : Decision (before st a b).
Proof. unfold before. apply _. Defined.

Definition valid_window (w : kr_reserve_window_node) : Prop :=
  0 <= rsv_start w <= rsv_end w /\ rsv_end w < 1099511627776.

Record rsv_ord (st : rsvst) : Prop := {
  wf_sorted : StronglySorted (before st) (wins st);
  wf_valid : Forall (fun n => valid_window (rsv_at st n)) (wins st);
}.

Record rsv_wf (st : rsvst) : Prop := {
  wf_ord :> rsv_ord st;
  wf_head : head (wins st) = Some rsv_head;
  wf_dummy : rsv_end (rsv_at st rsv_head) = 0;
  wf_linked : forall n, n <> rsv_head -> (n ∈ wins st <-> rsv_end (rsv_at st n) <> 0);
}.

(** The windows but [my]. *)
Definition without (my : Z) (l : list Z) : list Z := filter (fun m => m <> my) l.

(** An operation on the window [my] leaves the windows of the others alone. *)
Definition only_mine (my : Z) (st st' : rsvst) : Prop :=
  (forall m, m <> my -> rsv_at st' m = rsv_at st m) /\
  without my (wins st') = without my (wins st).

Lemma rsv_at_put_eq n w st : rsv_at (rsv_put n w st) n = w.
Proof. unfold rsv_at, rsv_put. simpl. by rewrite lookup_insert_eq. Qed.
Lemma rsv_at_put_ne n m w st : m <> n -> rsv_at (rsv_put n w st) m = rsv_at st m.
Proof. intros. unfold rsv_at, rsv_put. simpl. by rewrite lookup_insert_ne. Qed.

Lemma only_mine_refl my st : only_mine my st st.
Proof. done. Qed.
Lemma only_mine_trans my st1 st2 st3 :
  only_mine my st1 st2 -> only_mine my st2 st3 -> only_mine my st1 st3.
Proof.
  intros [H1 H2] [H3 H4]. split; [|congruence].
  intros m Hm. by rewrite H3, H1.
Qed.
Lemma only_mine_put my w st : only_mine my st (rsv_put my w st).
Proof. split; [|done]. intros. by apply rsv_at_put_ne. Qed.

Lemma without_none my l : my ∉ l -> without my l = l.
Proof.
  unfold without. induction l as [|m l IH]; intros H; [done|].
  rewrite filter_cons_True by set_solver. rewrite IH; [done|set_solver].
Qed.
Lemma without_split my l1 l2 : my ∉ l1 -> my ∉ l2 -> without my (l1 ++ my :: l2) = l1 ++ l2.
Proof.
  intros. unfold without. rewrite filter_app, filter_cons_False by naive_solver.
  fold (without my l1) (without my l2). by rewrite !without_none.
Qed.
Lemma elem_of_without my l m : m ∈ without my l <-> (m <> my /\ m ∈ l).
Proof. unfold without. by rewrite list_elem_of_filter. Qed.
Lemma without_idem my l : without my (without my l) = without my l.
Proof. apply without_none. rewrite elem_of_without. by intros [? _]. Qed.

Section Ord.
Variable st : rsvst.
Hypothesis Hwf : rsv_ord st.

Lemma wf_window n : n ∈ wins st -> valid_window (rsv_at st n).
Proof. pose proof (wf_valid _ Hwf) as H. rewrite Forall_forall in H. apply H. Qed.

Lemma wf_before l1 l2 a b : wins st = l1 ++ l2 -> a ∈ l1 -> b ∈ l2 -> before st a b.
Proof.
  intros H. pose proof (wf_sorted _ Hwf) as Hs. rewrite H in Hs.
  by apply StronglySorted_app_1_elem_of.
Qed.

Lemma wf_around l1 n l2 : wins st = l1 ++ n :: l2 ->
  Forall (fun m => rsv_end (rsv_at st m) < rsv_start (rsv_at st n)) l1 /\
  Forall (fun m => rsv_end (rsv_at st n) < rsv_start (rsv_at st m)) l2.
Proof.
  intros Hw. split; apply Forall_forall; intros m Hm.
  - apply (wf_before l1 (n :: l2) m n Hw Hm). apply list_elem_of_here.
  - apply (wf_before (l1 ++ [n]) l2 n m); [|by apply elem_of_app; right; apply list_elem_of_here|done].
    by rewrite <- (assoc_L (++)).
Qed.

Lemma wf_nodup : NoDup (wins st).
Proof.
  pose proof (wf_sorted _ Hwf) as Hs. pose proof (wf_valid _ Hwf) as Hv.
  induction Hs as [|a l Hs IH Ha]; [constructor|].
  apply Forall_cons in Hv as [Hva Hv]. constructor; [|by apply IH].
  intros Hin. rewrite Forall_forall in Ha. specialize (Ha a Hin).
  unfold before, valid_window in *. lia.
Qed.

Lemma wf_split_notin l1 n l2 : wins st = l1 ++ n :: l2 -> (n ∉ l1) /\ (n ∉ l2).
Proof.
  intros H. pose proof wf_nodup as Hnd. rewrite H in Hnd.
  apply NoDup_app in Hnd as (_ & H1 & H2). apply NoDup_cons in H2 as [H2 _].
  split; [|done]. intros Hin. by apply (H1 n Hin), list_elem_of_here.
Qed.

End Ord.

Lemma wf_head_in st : rsv_wf st -> rsv_head ∈ wins st /\ rsv_start (rsv_at st rsv_head) = 0.
Proof.
  intros Hwf.
  pose proof (wf_head _ Hwf) as Hh. pose proof (wf_dummy _ Hwf) as Hd.
  assert (rsv_head ∈ wins st) as Hin.
  { destruct (wins st); [done|]. simplify_eq/=. apply list_elem_of_here. }
  split; [done|]. destruct (wf_window _ Hwf _ Hin) as [H _]. lia.
Qed.


Section Facts.
Context {B : BitOps} {BL : BitLaws B} {R : RbTree} {RL : RbLaws R} {T : Trylock}.

(** *** Searching *)

(** The list of the windows, around the root of a subtree. *)
Lemma subtree_around st l1 l n r l2 : wins st = l1 ++ inorder (Node l n r) ++ l2 ->
  wins st = (l1 ++ inorder l) ++ n :: inorder r ++ l2.
Proof. intros ->. simpl. by rewrite <- !(assoc_L (++)). Qed.

Lemma search_walk_spec st goal : rsv_ord st -> forall t rsv l1 l2,
  wins st = l1 ++ inorder t ++ l2 ->
  Forall (fun m => rsv_end (rsv_at st m) < goal) l1 ->
  Forall (fun m => goal < rsv_start (rsv_at st m)) l2 ->
  (t = Leaf -> last l1 = Some rsv \/ head l2 = Some rsv) ->
  let '(found, r) := search_walk st t goal rsv in
  if found then r ∈ wins st /\ rsv_start (rsv_at st r) <= goal <= rsv_end (rsv_at st r)
  else exists k1 k2, wins st = k1 ++ k2 /\
    Forall (fun m => rsv_end (rsv_at st m) < goal) k1 /\
    Forall (fun m => goal < rsv_start (rsv_at st m)) k2 /\
    (last k1 = Some r \/ head k2 = Some r).
Proof.
  intros Hwf. induction t as [|l IHl n r IHr]; intros rsv l1 l2 Hw H1 H2 Hrsv; cbn [search_walk].
  { exists l1, l2. auto. }
  apply subtree_around in Hw.
  destruct (wf_around _ Hwf _ _ _ Hw) as [Hl Hr].
  assert (n ∈ wins st) as Hn by (rewrite Hw; set_solver).
  pose proof (wf_window _ Hwf _ Hn) as [[Hn1 Hn2] _].
  destruct (Z.ltb_spec goal (rsv_start (rsv_at st n))) as [Hlt|Hge].
  - apply (IHl n l1 (n :: inorder r ++ l2)); [|done| |by right].
    + rewrite Hw. by rewrite <- !(assoc_L (++)).
    + constructor; [done|]. eapply Forall_impl; [exact Hr|]. simpl. lia.
  - destruct (rsv_end (rsv_at st n) <? goal) eqn:Hgt; rewrite Z.gtb_ltb, Hgt; [|split; [done|lia]].
    apply (IHr n (l1 ++ inorder l ++ [n]) l2); [| |done|].
    + rewrite Hw. by rewrite <- !(assoc_L (++)).
    + rewrite (assoc_L (++)), Forall_app, Forall_singleton. split; [|lia].
      eapply Forall_impl; [exact Hl|]. simpl. lia.
    + intros _. left. by rewrite (assoc_L (++)), last_snoc.
Qed.

(** Backing up from the window after the goal: the dummy window is before it. *)
Lemma search_back st goal k1 k2 r : rsv_wf st -> 0 <= goal -> wins st = k1 ++ k2 ->
  Forall (fun m => rsv_end (rsv_at st m) < goal) k1 ->
  Forall (fun m => goal < rsv_start (rsv_at st m)) k2 -> head k2 = Some r ->
  exists r' l1 l2,
    (if rsv_start (rsv_at st r) >? goal then rb_prev (rsv_root st) r else Some r) = Some r' /\
    wins st = l1 ++ r' :: l2 /\ rsv_start (rsv_at st r') <= goal /\
    Forall (fun m => rsv_end (rsv_at st m) < goal) l1 /\
    Forall (fun m => goal < rsv_start (rsv_at st m)) l2.
Proof.
  intros Hwf Hgoal Hsp H1 H2 Hr. destruct (wf_head_in _ Hwf) as [_ Hh0].
  destruct k2 as [|r2 l2]; [done|]. simplify_eq/=. pose proof (Forall_inv H2) as Hgt.
  simpl in Hgt. replace (rsv_start (rsv_at st r) >? goal) with true by lia.
  rewrite (rb_prev_law _ _ _ _ Hsp (wf_nodup _ Hwf)).
  destruct k1 as [|p l1 _] using rev_ind.
  { pose proof (wf_head _ Hwf) as Hh. rewrite Hsp in Hh. simplify_eq/=. lia. }
  rewrite <- (assoc_L (++)) in Hsp. simpl in Hsp.
  rewrite last_snoc. rewrite Forall_app, Forall_singleton in H1. destruct H1 as [H1 Hp].
  assert (p ∈ wins st) as Hin by (rewrite Hsp; set_solver).
  pose proof (wf_window _ Hwf _ Hin) as [Hv _].
  exists p, l1, (r :: l2). split_and!; [done|done|lia|done|done].
Qed.

(** The search finds the window the goal lies in, or the one before it. *)
Lemma search_spec st goal : rsv_wf st -> 0 <= goal ->
  exists r l1 l2, search_reserve_window st goal = Some r /\ wins st = l1 ++ r :: l2 /\
    rsv_start (rsv_at st r) <= goal /\
    Forall (fun m => rsv_end (rsv_at st m) < goal) l1 /\
    Forall (fun m => goal < rsv_start (rsv_at st m)) l2.
Proof.
  intros Hwf Hgoal. destruct (wf_head_in _ Hwf) as [Hhin Hh0]. unfold search_reserve_window.
  destruct (rsv_root st) as [|tl n tr] eqn:Ht.
  { exfalso. unfold wins in Hhin. rewrite Ht in Hhin. set_solver. }
  rewrite <- Ht.
  pose proof (search_walk_spec st goal Hwf (rsv_root st) n [] []) as Hs.
  rewrite app_nil_r in Hs. specialize (Hs eq_refl (List.Forall_nil _) (List.Forall_nil _)).
  destruct (search_walk st (rsv_root st) goal n) as [found r].
  specialize (Hs ltac:(congruence)). destruct found.
  - destruct Hs as [Hin Hr]. apply list_elem_of_split in Hin as (l1 & l2 & Hsp).
    destruct (wf_around _ Hwf _ _ _ Hsp) as [Ha Hb].
    exists r, l1, l2. split_and!; [done|done|lia| |]; eapply Forall_impl; try eassumption; simpl; lia.
  - destruct Hs as (k1 & k2 & Hsp & H1 & H2 & [Hr|Hr]).
    + apply last_Some in Hr as [l1 ->]. rewrite <- (assoc_L (++)) in Hsp. simpl in Hsp.
      rewrite Forall_app, Forall_singleton in H1. destruct H1 as [H1 Hre].
      assert (r ∈ wins st) as Hin by (rewrite Hsp; set_solver).
      pose proof (wf_window _ Hwf _ Hin) as [Hv _].
      replace (rsv_start (rsv_at st r) >? goal) with false by lia.
      exists r, l1, k2. split_and!; [done|done|lia|done|done].
    + apply (search_back st goal k1 k2 r); done.
Qed.

(** *** Adding and removing a window *)

(** A block that lies in no window splits the list in one way. *)
Lemma split_le st start a1 a2 b1 b2 : rsv_ord st ->
  wins st = a1 ++ a2 -> wins st = b1 ++ b2 ->
  Forall (fun m => rsv_end (rsv_at st m) < start) b1 ->
  Forall (fun m => start < rsv_start (rsv_at st m)) a2 -> (length b1 <= length a1)%nat.
Proof.
  intros Hwf Ha Hb Hb1 Ha2. destruct (decide (length a1 < length b1)%nat) as [Hlt|]; [|lia].
  rewrite Ha in Hb. apply app_eq_inv in Hb as [(k & -> & ->)|(k & -> & ->)].
  - rewrite length_app in *. lia.
  - destruct k as [|x k]; [rewrite app_nil_r in *; lia|].
    rewrite Forall_app, !Forall_cons in Hb1. rewrite <- app_comm_cons, Forall_cons in Ha2.
    assert (x ∈ wins st) as Hin by (rewrite Ha; set_solver).
    pose proof (wf_window _ Hwf _ Hin) as [? _]. lia.
Qed.

Lemma split_unique st start a1 a2 b1 b2 : rsv_ord st ->
  wins st = a1 ++ a2 -> wins st = b1 ++ b2 ->
  Forall (fun m => rsv_end (rsv_at st m) < start) (a1 ++ b1) ->
  Forall (fun m => start < rsv_start (rsv_at st m)) (b2 ++ a2) -> a1 = b1 /\ a2 = b2.
Proof.
  rewrite !Forall_app. intros Hwf Ha Hb [Ha1 Hb1] [Hb2 Ha2].
  apply app_inj_1; [|by rewrite <- Ha, <- Hb].
  apply Nat.le_antisymm; eapply split_le; eauto.
Qed.

(** The first block of the new window lies between [k1] and [k2]. *)
Lemma rb_link_node_spec st start my : rsv_ord st -> forall t l1 l2 k1 k2,
  wins st = l1 ++ inorder t ++ l2 -> wins st = k1 ++ k2 ->
  Forall (fun m => rsv_end (rsv_at st m) < start) (l1 ++ k1) ->
  Forall (fun m => start < rsv_start (rsv_at st m)) (k2 ++ l2) ->
  exists t', rb_link_node st t start my = Some t' /\
    l1 ++ inorder t' ++ l2 = k1 ++ my :: k2.
Proof.
  intros Hwf. induction t as [|l IHl n r IHr]; intros l1 l2 k1 k2 Hw Hk H1 H2; cbn [rb_link_node].
  { destruct (split_unique st start l1 l2 k1 k2) as [-> ->]; try done.
    by exists (Node Leaf my Leaf). }
  apply subtree_around in Hw.
  destruct (wf_around _ Hwf _ _ _ Hw) as [Hl Hr].
  assert (n ∈ wins st) as Hn by (rewrite Hw; set_solver).
  pose proof (wf_window _ Hwf _ Hn) as [[Hn1 Hn2] _].
  rewrite Forall_app in H1, H2. destruct H1 as [H1l H1k], H2 as [H2k H2l].
  destruct (Z.ltb_spec start (rsv_start (rsv_at st n))) as [Hlt|Hge].
  - destruct (IHl l1 (n :: inorder r ++ l2) k1 k2) as (t' & -> & He); [|done| | |].
    + rewrite Hw. by rewrite <- !(assoc_L (++)).
    + by apply Forall_app.
    + apply Forall_app. split; [done|]. constructor; [done|].
      eapply Forall_impl; [exact Hr|]. simpl. lia.
    + exists (Node t' n r). split; [done|]. simpl. rewrite <- He. by rewrite <- !(assoc_L (++)).
  - destruct (rsv_end (rsv_at st n) <? start) eqn:Hgt; rewrite Z.gtb_ltb, Hgt.
    + destruct (IHr (l1 ++ inorder l ++ [n]) l2 k1 k2) as (t' & -> & He); [|done| | |].
      * rewrite Hw. by rewrite <- !(assoc_L (++)).
      * apply Forall_app. split; [|done].
        rewrite (assoc_L (++)), Forall_app, Forall_singleton. split; [|lia].
        eapply Forall_impl; [exact Hl|]. simpl. lia.
      * by apply Forall_app.
      * exists (Node l n t'). split; [done|]. simpl. rewrite <- He. by rewrite <- !(assoc_L (++)).
    + exfalso. rewrite Hk in Hn. rewrite Forall_forall in H1k, H2k.
      apply elem_of_app in Hn as [Hn|Hn]; [specialize (H1k n Hn)|specialize (H2k n Hn)]; simpl in *; lia.
Qed.

Lemma ord_ext st st' : rsv_ord st -> wins st' = wins st ->
  (forall m, m ∈ wins st -> rsv_at st' m = rsv_at st m) -> rsv_ord st'.
Proof.
  intros [Hs Hv] Hw Hat. split; rewrite Hw.
  - clear Hw. induction Hs as [|a l Hs IH Ha]; [constructor|].
    apply Forall_cons in Hv as [_ Hv].
    constructor; [apply IH; [done|]; intros; apply Hat; set_solver|].
    apply Forall_forall. intros m Hm. rewrite Forall_forall in Ha. specialize (Ha m Hm).
    unfold before in *. rewrite !Hat by set_solver. done.
  - rewrite Forall_forall in *. intros m Hm. rewrite Hat by done. by apply Hv.
Qed.

(** A window leaves the tree. *)
Lemma wf_out my st st' : rsv_wf st -> my <> rsv_head ->
  (forall m, m <> my -> rsv_at st' m = rsv_at st m) ->
  wins st' = without my (wins st) -> rsv_end (rsv_at st' my) = 0 -> rsv_wf st'.
Proof.
  intros [[Hs Hv] Hh Hd Hl] Hmy Hat Hw Hend.
  assert (forall m, m ∈ wins st' <-> (m <> my /\ m ∈ wins st)) as Hin
    by (intros; rewrite Hw; apply elem_of_without).
  split; [split| | |].
  - rewrite Hw. clear -Hs Hat. induction Hs as [|a l Hs IH Ha]; [constructor|].
    unfold without. destruct (decide (a = my)) as [->|Hne].
    { rewrite filter_cons_False by naive_solver. exact IH. }
    rewrite filter_cons_True by done. constructor; [exact IH|].
    apply Forall_forall. intros m [Hm Hml]%list_elem_of_filter.
    rewrite Forall_forall in Ha. specialize (Ha m Hml). unfold before in *. by rewrite !Hat.
  - rewrite Forall_forall in *. intros m [Hm Hml]%Hin. rewrite Hat by done. by apply Hv.
  - rewrite Hw. destruct (wins st) as [|h l]; [done|]. simplify_eq/=. unfold without.
    by rewrite filter_cons_True.
  - by rewrite Hat.
  - intros m Hm. rewrite Hin. destruct (decide (m = my)) as [->|Hne]; [naive_solver|].
    rewrite Hat by done. specialize (Hl m Hm). naive_solver.
Qed.

(** A window enters the tree, or moves within its gap. *)
Lemma wf_in my st st' k1 k2 : rsv_wf st -> my <> rsv_head ->
  (forall m, m <> my -> rsv_at st' m = rsv_at st m) ->
  without my (wins st) = k1 ++ k2 -> wins st' = k1 ++ my :: k2 ->
  Forall (fun m => rsv_end (rsv_at st m) < rsv_start (rsv_at st' my)) k1 ->
  Forall (fun m => rsv_end (rsv_at st' my) < rsv_start (rsv_at st m)) k2 ->
  valid_window (rsv_at st' my) -> rsv_head ∈ k1 -> rsv_wf st'.
Proof.
  intros Hwf Hmy Hat Hw Hw' H1 H2 Hval Hhead.
  assert (rsv_wf (RsvSt (<[my := no_window]> (rsv_store st)) (spine (k1 ++ k2)))) as Hout.
  { apply (wf_out my st); [done|done| | |].
    - intros m Hm. unfold rsv_at. simpl. by rewrite lookup_insert_ne.
    - unfold wins. simpl. by rewrite inorder_spine.
    - unfold rsv_at. simpl. by rewrite lookup_insert_eq. }
  set (st0 := RsvSt _ _) in Hout.
  assert (forall m, m <> my -> rsv_at st' m = rsv_at st0 m) as Hat0.
  { intros m Hm. rewrite Hat by done. unfold rsv_at, st0. simpl. by rewrite lookup_insert_ne. }
  assert (wins st0 = k1 ++ k2) as Hw0 by (unfold wins; simpl; apply inorder_spine).
  assert (forall m, m ∈ k1 ++ k2 -> m <> my) as Hne.
  { intros m Hm. rewrite <- Hw in Hm. by apply elem_of_without in Hm as [? _]. }
  destruct Hout as [[Hs Hv] Hh Hd Hl]. rewrite Hw0 in *.
  assert (rsv_ord (set_root (spine (k1 ++ k2)) st')) as [Hs' Hv'].
  { apply (ord_ext st0); [split; by rewrite Hw0|unfold wins; simpl; by rewrite inorder_spine|].
    intros m Hm. rewrite Hw0 in Hm. change (rsv_at st' m = rsv_at st0 m). by apply Hat0, Hne. }
  unfold wins in Hs', Hv'. simpl in Hs', Hv'. rewrite inorder_spine in Hs', Hv'.
  apply StronglySorted_app in Hs' as (Hx & Hs1 & Hs2). apply Forall_app in Hv' as [Hv1 Hv2].
  rewrite !Forall_forall in H1, H2.
  split; [split| | |]; rewrite ?Hw'.
  - apply StronglySorted_app. split_and!; [|done|].
    + intros a b Ha [->|Hb]%elem_of_cons; [|by apply Hx].
      unfold before. rewrite Hat by (apply Hne; set_solver). by apply H1.
    + apply StronglySorted_cons. split; [|done]. apply Forall_forall. intros m Hm.
      unfold before. rewrite (Hat m) by (apply Hne; set_solver). by apply H2.
  - by rewrite Forall_app, Forall_cons.
  - destruct k1 as [|h k1]; [set_solver|]. done.
  - by rewrite Hat0.
  - intros m Hm. destruct (decide (m = my)) as [->|Hmm].
    + split; [|set_solver]. intros _. pose proof (H1 _ Hhead).
      rewrite (wf_dummy _ Hwf) in *. unfold valid_window in Hval. lia.
    + rewrite Hat0 by done. rewrite <- Hl by done. set_solver.
Qed.

(** *** Looking for a gap *)

Definition gap_after (st : rsvst) (size lo last : Z) (c p : Z) : Prop :=
  exists k1 k2, wins st = k1 ++ p :: k2 /\
    Forall (fun m => rsv_end (rsv_at st m) < c) (k1 ++ [p]) /\
    Forall (fun m => c + size <= rsv_start (rsv_at st m)) k2 /\ lo <= c <= last.

Lemma gap_loop st size last : rsv_ord st -> 0 < size < 2147483648 ->
  last < 1099511627776 -> forall l2 l1 rsv cur fuel,
  wins st = l1 ++ rsv :: l2 -> Forall (fun m => rsv_end (rsv_at st m) < cur) l1 ->
  0 <= cur -> (length l2 < fuel)%nat ->
  exists res, loop fuel (next_gap st size last) (cur, rsv) st = Ret res st /\
    match res with
    | None => True
    | Some (c, p) => gap_after st size cur last c p
    end.
Proof.
  intros Hwf Hsize Hlast. induction l2 as [|next l2 IH];
    intros l1 rsv cur fuel Hw Hl1 Hcur Hfuel; destruct fuel as [|fuel]; try (simpl in Hfuel; lia).
  all: assert (rsv ∈ wins st) as Hin by (rewrite Hw; set_solver).
  all: pose proof (wf_window _ Hwf _ Hin) as [Hv1 Hv2].
  all: cbn [loop]; unfold mbind, M_bind, next_gap; cbv zeta.
  all: set (c := if cur <=? rsv_end (rsv_at st rsv) then u64 (rsv_end (rsv_at st rsv) + 1) else cur).
  all: assert (cur <= c /\ rsv_end (rsv_at st rsv) < c) as [Hc1 Hc2]
    by (unfold c; destruct (Z.leb_spec cur (rsv_end (rsv_at st rsv))); wraps; lia).
  all: destruct (c >? last) eqn:Hgt; [by exists None|].
  all: assert (Forall (fun m => rsv_end (rsv_at st m) < c) (l1 ++ [rsv])) as Hbefore
    by (rewrite Forall_app, Forall_singleton; split; [|done];
        eapply Forall_impl; [exact Hl1|]; simpl; lia).
  all: rewrite (rb_next_law _ _ _ _ Hw (wf_nodup _ Hwf)); simpl.
  { exists (Some (c, rsv)). split; [done|]. exists l1, []. split_and!; try done; lia. }
  wraps. destruct (Z.leb_spec (c + size) (rsv_start (rsv_at st next))) as [Hle|Hlt].
  - exists (Some (c, rsv)). split; [done|]. exists l1, (next :: l2).
    split_and!; try done; [|lia].
    constructor; [done|]. rewrite cons_middle, (assoc_L (++)) in Hw.
    destruct (wf_around _ Hwf (l1 ++ [rsv]) next l2) as [_ Ha]; [done|].
    assert (next ∈ wins st) as Hinn by (rewrite Hw; set_solver).
    pose proof (wf_window _ Hwf _ Hinn) as [Hn _].
    eapply Forall_impl; [exact Ha|]. simpl. lia.
  - destruct (IH (l1 ++ [rsv]) next c fuel) as (res & Hrun & Hres); [|done|lia|simpl in Hfuel; lia|].
    { rewrite Hw. by rewrite <- (assoc_L (++)). }
    exists res. split; [exact Hrun|]. destruct res as [[c' p]|]; [|done].
    destruct Hres as (k1 & k2 & Hk & Ha & Hb & Hc). exists k1, k2. split_and!; try done; lia.
Qed.

(** *** Removing *)

Lemma remove_spec my st : rsv_wf st -> my <> rsv_head ->
  exists st', rsv_window_remove my st = Ret tt st' /\ rsv_wf st' /\ only_mine my st st' /\
    wins st' = without my (wins st) /\ rsv_end (rsv_at st' my) = 0 /\
    rsv_goal_size (rsv_at st' my) = rsv_goal_size (rsv_at st my).
Proof.
  intros Hwf Hmy. set (w := ReserveWindowNode (rsv_goal_size (rsv_at st my)) 0 (ReserveWindow 0 0)).
  exists (set_root (rb_erase my (rsv_root st)) (rsv_put my w st)).
  assert (wins (set_root (rb_erase my (rsv_root st)) (rsv_put my w st)) = without my (wins st)) as Hw
    by (unfold wins; simpl; apply rb_erase_law, (wf_nodup _ Hwf)).
  assert (forall m, rsv_at (set_root (rb_erase my (rsv_root st)) (rsv_put my w st)) m =
    rsv_at (rsv_put my w st) m) as Hat by done.
  split; [done|]. split_and!.
  - apply (wf_out my st); [done|done| |done|].
    + intros m Hm. rewrite Hat. by apply rsv_at_put_ne.
    + by rewrite Hat, rsv_at_put_eq.
  - split; [|rewrite Hw; apply without_idem].
    intros m Hm. rewrite Hat. by apply rsv_at_put_ne.
  - done.
  - by rewrite Hat, rsv_at_put_eq.
  - by rewrite Hat, rsv_at_put_eq.
Qed.

(** A window that is not empty is removed; an empty one is not in the tree. *)
Lemma discard_spec my st : rsv_wf st -> my <> rsv_head ->
  exists st', when (negb (rsv_is_empty (rsv_window (rsv_at st my)))) (rsv_window_remove my) st
      = Ret tt st' /\ rsv_wf st' /\ only_mine my st st' /\
    wins st' = without my (wins st) /\ rsv_end (rsv_at st' my) = 0 /\
    rsv_goal_size (rsv_at st' my) = rsv_goal_size (rsv_at st my).
Proof.
  intros Hwf Hmy. unfold when, rsv_is_empty. fold (rsv_end (rsv_at st my)).
  unfold KR_RESERVE_WINDOW_NOT_ALLOCATED.
  destruct (Z.eqb_spec (rsv_end (rsv_at st my)) 0) as [He|Hne]; simpl.
  - exists st. split_and!; try done. symmetry. apply without_none.
    rewrite (wf_linked _ Hwf my Hmy). naive_solver.
  - by apply remove_spec.
Qed.

(** *** Adding *)

(** [my], outside of the tree, gets a window that fits a gap of the list. *)
Lemma add_spec my st st1 k1 k2 : rsv_wf st -> my <> rsv_head ->
  wins st = k1 ++ k2 -> wins st1 = wins st -> my ∉ wins st ->
  (forall m, m <> my -> rsv_at st1 m = rsv_at st m) ->
  valid_window (rsv_at st1 my) -> rsv_head ∈ k1 ->
  Forall (fun m => rsv_end (rsv_at st m) < rsv_start (rsv_at st1 my)) k1 ->
  Forall (fun m => rsv_end (rsv_at st1 my) < rsv_start (rsv_at st m)) k2 ->
  exists t, kr_rsv_window_add my st1 = Ret tt (set_root t st1) /\ inorder t = k1 ++ my :: k2.
Proof.
  intros Hwf Hmy Hw Hw1 Hout Hat Hval Hhead H1 H2.
  assert (rsv_ord st1) as Hord.
  { apply (ord_ext st); [apply Hwf|done|]. intros m Hm. apply Hat. by intros ->. }
  destruct (rb_link_node_spec st1 (rsv_start (rsv_at st1 my)) my Hord (rsv_root st1) [] [] k1 k2)
    as (t & Ht & He).
  - by rewrite app_nil_r.
  - by rewrite Hw1.
  - rewrite Forall_forall in *. intros m Hm. rewrite (Hat m); [by apply H1|].
    intros ->. apply Hout. rewrite Hw. apply elem_of_app. by left.
  - rewrite app_nil_r. rewrite Forall_forall in *. intros m Hm.
    rewrite (Hat m); [specialize (H2 m Hm); simpl in H2; destruct Hval; lia|].
    intros ->. apply Hout. rewrite Hw. apply elem_of_app. by right.
  - exists (rb_insert_color my t). rewrite app_nil_r in He. simpl in He. split.
    + unfold kr_rsv_window_add, mbind, M_bind. simpl. by rewrite Ht.
    + by rewrite rb_insert_color_law.
Qed.

(** *** A new window *)

Record gap_request (st : rsvst) (my : Z) (lo last : Z) : Prop := {
  gr_wf : rsv_wf st;
  gr_mine : my <> rsv_head;
  gr_size : 0 < rsv_goal_size (rsv_at st my) < 2147483648;
  gr_lo : 0 <= lo;
  gr_last : last < 549755813888;
}.

(** The window [my] has just been set to [goal_size] blocks from [lo] on. *)
Record new_window (st st' : rsvst) (my lo last : Z) : Prop := {
  nw_wf : rsv_wf st';
  nw_others : only_mine my st st';
  nw_in : my ∈ wins st';
  nw_start : lo <= rsv_start (rsv_at st' my) <= last;
  nw_end : rsv_end (rsv_at st' my)
    = rsv_start (rsv_at st' my) + rsv_goal_size (rsv_at st my) - 1;
  nw_size : rsv_goal_size (rsv_at st' my) = rsv_goal_size (rsv_at st my);
}.

Lemma gap_without st my size c p k1 k2 : rsv_wf st -> my <> rsv_head -> 0 < size -> 0 <= c ->
  wins st = k1 ++ p :: k2 ->
  Forall (fun m => rsv_end (rsv_at st m) < c) (k1 ++ [p]) ->
  Forall (fun m => c + size <= rsv_start (rsv_at st m)) k2 ->
  without my (wins st) = without my (k1 ++ [p]) ++ without my k2 /\
  rsv_head ∈ without my (k1 ++ [p]) /\
  Forall (fun m => rsv_end (rsv_at st m) < c) (without my (k1 ++ [p])) /\
  Forall (fun m => c + size <= rsv_start (rsv_at st m)) (without my k2).
Proof.
  intros Hwf Hmy Hsize Hc Hw H1 H2. rewrite cons_middle, (assoc_L (++)) in Hw. split_and!.
  - rewrite Hw. unfold without. by rewrite filter_app.
  - apply elem_of_without. split; [done|].
    destruct (wf_head_in _ Hwf) as [Hin Hs]. rewrite Hw in Hin.
    apply elem_of_app in Hin as [Hin|Hin]; [done|].
    rewrite Forall_forall in H2. specialize (H2 _ Hin). simpl in H2. lia.
  - rewrite !Forall_forall in *. intros m [_ Hm]%elem_of_without. by apply H1.
  - rewrite !Forall_forall in *. intros m [_ Hm]%elem_of_without. by apply H2.
Qed.

(** The part of [find_next_reservable_window] after the gap is found. *)
Lemma book_spec st my lo last c p : gap_request st my lo last ->
  let size := rsv_goal_size (rsv_at st my) in
  gap_after st size lo last c p ->
  exists st', (when (negb (p =? my) && negb (rsv_is_empty (rsv_window (rsv_at st my))))
            (rsv_window_remove my) ;;
          modify (fun st => rsv_put my
            (ReserveWindowNode (rsv_goal_size (rsv_at st my)) 0
               (ReserveWindow c (u64 (c + size - 1)))) st) ;;
          when (negb (p =? my)) (kr_rsv_window_add my) ;; mret 0) st = Ret 0 st' /\
    new_window st st' my lo last.
Proof.
  intros [Hwf Hmy Hsize Hlo Hlast] size (k1 & k2 & Hw & H1 & H2 & Hc). subst size.
  set (size := rsv_goal_size (rsv_at st my)) in *.
  destruct (gap_without st my size c p k1 k2) as (Hw' & Hhead & H1' & H2');
    [done|done|lia|lia|done|done|done|].
  assert (forall s, rsv_goal_size (rsv_at s my) = size ->
    let w := ReserveWindowNode (rsv_goal_size (rsv_at s my)) 0 (ReserveWindow c (u64 (c + size - 1))) in
    valid_window w /\ rsv_end w = c + size - 1 /\ rsv_start w = c) as Hnew.
  { intros s Hs. unfold valid_window, rsv_end, rsv_start. simpl. wraps. lia. }
  destruct (Z.eqb_spec p my) as [->|Hp]; simpl.
  - destruct (wf_split_notin _ Hwf _ _ _ Hw) as [Hn1 Hn2].
    eexists. split; [done|]. destruct (Hnew st eq_refl) as (Hv & He & Hs).
    assert (without my (k1 ++ [my]) = k1) as Hk1
      by (change [my] with (my :: []); rewrite without_split by set_solver; apply app_nil_r).
    rewrite Hk1 in *. rewrite (without_none my k2) in * by done.
    split; rewrite ?rsv_at_put_eq; try done; [|by apply only_mine_put|].
    + apply (wf_in my st _ k1 k2); rewrite ?rsv_at_put_eq; try done.
      * intros. by apply rsv_at_put_ne.
      * rewrite He. eapply Forall_impl; [exact H2'|]. simpl. lia.
    + change (my ∈ wins st). rewrite Hw. set_solver.
  - destruct (discard_spec my st Hwf Hmy) as (s1 & Hrun & Hwf1 & Hom & Hw1 & He1 & Hg1).
    unfold mbind, M_bind. rewrite Hrun. simpl.
    set (s2 := rsv_put my _ s1). destruct (Hnew s1 Hg1) as (Hv & He & Hs).
    destruct (add_spec my s1 s2 (without my (k1 ++ [p])) (without my k2)) as (t & Hadd & Ht);
      unfold s2; rewrite ?rsv_at_put_eq; try done.
    + by rewrite Hw1.
    + rewrite Hw1, elem_of_without. naive_solver.
    + intros. by apply rsv_at_put_ne.
    + rewrite Hs. rewrite Forall_forall in *. intros m Hm. rewrite (proj1 Hom); [by apply H1'|].
      by apply elem_of_without in Hm as [? _].
    + rewrite He. rewrite Forall_forall in *. intros m Hm. rewrite (proj1 Hom).
      * specialize (H2' m Hm). simpl in H2'. lia.
      * by apply elem_of_without in Hm as [? _].
    + fold s2. rewrite Hadd. eexists. split; [done|].
      assert (forall m, rsv_at (set_root t s2) m = rsv_at s2 m) as Hat by done.
      assert (rsv_at s2 my = ReserveWindowNode (rsv_goal_size (rsv_at s1 my)) 0
        (ReserveWindow c (u64 (c + size - 1)))) as Hmyat by apply rsv_at_put_eq.
      assert (forall m, m <> my -> rsv_at (set_root t s2) m = rsv_at st m) as Hat'
        by (intros m Hm; rewrite Hat; unfold s2; rewrite rsv_at_put_ne by done; by apply Hom).
      split; rewrite ?Hat, ?Hmyat; try done.
      * apply (wf_in my st _ (without my (k1 ++ [p])) (without my k2));
          rewrite ?Hat, ?Hmyat; try done.
        rewrite He. eapply Forall_impl; [exact H2'|]. simpl. lia.
      * split; [done|]. unfold wins at 1. simpl. rewrite Ht, Hw'.
        rewrite without_split by (rewrite elem_of_without; naive_solver). done.
      * unfold wins. simpl. rewrite Ht. set_solver.
Qed.

Lemma find_next_spec st my lo last head l1 l2 : gap_request st my lo last ->
  wins st = l1 ++ head :: l2 -> Forall (fun m => rsv_end (rsv_at st m) < lo) l1 ->
  exists ret st', find_next_reservable_window (Some head) my lo last st = Ret ret st' /\
    (ret = -1 /\ st' = st \/ ret = 0 /\ new_window st st' my lo last).
Proof.
  intros Hreq Hw Hl1. pose proof Hreq as [Hwf Hmy Hsize Hlo Hlast].
  unfold find_next_reservable_window. rewrite (bind_Ret (gets id) _ st st st) by done.
  cbv beta zeta. wraps. destruct (gap_loop st (rsv_goal_size (rsv_at st my)) last Hwf Hsize ltac:(lia)
    l2 l1 head lo (S (length (wins st)))) as (res & Hrun & Hres); [done|done|done| |].
  { rewrite Hw, length_app. simpl. lia. }
  rewrite (bind_Ret _ _ _ _ _ Hrun). destruct res as [[c p]|].
  - destruct (book_spec st my lo last c p Hreq Hres) as (st' & Hbook & Hnew).
    exists 0, st'. split; [exact Hbook|]. by right.
  - exists (-1), st. split; [done|]. by left.
Qed.

(** *** Allocating a reservation *)

Definition geometry (bpg fdb group : Z) (bitmap : list Z) : Prop :=
  0 < bpg < 1073741824 /\ bpg <= nbits bitmap /\ 0 <= group /\ 0 <= fdb /\
  group * bpg + fdb + bpg < 549755813888.

Lemma group_first bpg fdb group bitmap : geometry bpg fdb group bitmap ->
  kr_group_first_block_no bpg fdb group = group * bpg + fdb /\
  0 <= group * bpg + fdb < 549755813888 - bpg.
Proof.
  intros (H1 & H2 & H3 & H4 & H5). unfold kr_group_first_block_no.
  assert (0 <= group * bpg) by (apply Z.mul_nonneg_nonneg; lia). wraps. lia.
Qed.

(** The window [my] holds a free block of the group, whose first block is [gfb]. *)
Definition window_has_free (st : rsvst) (my gfb bpg : Z) (bitmap : list Z) : Prop :=
  exists b, 0 <= b < bpg /\ bit bitmap b = false /\
    rsv_start (rsv_at st my) <= gfb + b <= rsv_end (rsv_at st my).

(** What a reservation in the group of first block [gfb] has done, by its answer. *)
Record reserved (st st' : rsvst) (my gfb bpg lo : Z) (bitmap : list Z) (ret : Z) : Prop := {
  res_wf : rsv_wf st';
  res_others : only_mine my st st';
  res_size : rsv_goal_size (rsv_at st' my) = rsv_goal_size (rsv_at st my);
  res_ret : ret = -1 \/ ret = 0;
  res_lost : ret = -1 -> rsv_end (rsv_at st' my) = 0;
  res_got : ret = 0 -> my ∈ wins st' /\ window_has_free st' my gfb bpg bitmap /\
    lo <= rsv_start (rsv_at st' my) < gfb + bpg /\
    rsv_end (rsv_at st' my) = rsv_start (rsv_at st' my) + rsv_goal_size (rsv_at st' my) - 1;
}.

Definition retry_inv (st0 : rsvst) (my last : Z) (p : option Z * Z) (st : rsvst) : Prop :=
  gap_request st my (snd p) last /\ snd p <= last /\ only_mine my st0 st /\
  rsv_goal_size (rsv_at st my) = rsv_goal_size (rsv_at st0 my) /\
  exists head l1 l2, fst p = Some head /\ wins st = l1 ++ head :: l2 /\
    Forall (fun m => rsv_end (rsv_at st m) < snd p) l1.

(** A search that fails discards the window. *)
Lemma give_up_spec st0 st my gfb bpg lo bitmap : rsv_wf st -> my <> rsv_head ->
  only_mine my st0 st -> rsv_goal_size (rsv_at st my) = rsv_goal_size (rsv_at st0 my) ->
  runs (when (negb (rsv_is_empty (rsv_window (rsv_at st my)))) (rsv_window_remove my) ;;
        mret (inr (-1) : (option Z * Z) + Z)) never
    (fun r st' => match r with
                  | inl _ => False
                  | inr ret => reserved st0 st' my gfb bpg lo bitmap ret
                  end) st.
Proof.
  intros Hwf Hmy Hom Hsz. destruct (discard_spec my st Hwf Hmy)
    as (st' & Hrun & Hwf' & Hom' & _ & He & Hsz').
  unfold runs, mbind, M_bind. rewrite Hrun. simpl. split; try done; [|by rewrite Hsz'|by left].
  by eapply only_mine_trans.
Qed.

Lemma retry_step bpg fdb group bitmap st0 st my lo0 p :
  geometry bpg fdb group bitmap ->
  let gfb := group * bpg + fdb in
  gfb <= lo0 <= snd p -> retry_inv st0 my (gfb + bpg - 1) p st ->
  runs (retry_window my gfb (gfb + bpg - 1) bitmap p) never
    (fun r st' => match r with
     | inl p' => retry_inv st0 my (gfb + bpg - 1) p' st' /\ snd p < snd p'
     | inr ret => reserved st0 st' my gfb bpg lo0 bitmap ret
     end) st.
Proof.
  intros Hgeo gfb Hlo (Hreq & Hle & Hom & Hsz & head & l1 & l2 & Hh & Hw & Hl1).
  destruct (group_first _ _ _ _ Hgeo) as [_ Hgb]. fold gfb in Hgb.
  destruct Hgeo as (Hbpg & Hbits & _). destruct p as [sh lo]. simpl in *. subst sh.
  destruct (find_next_spec st my lo (gfb + bpg - 1) head l1 l2 Hreq Hw Hl1)
    as (ret & st1 & Hrun & Hres).
  unfold retry_window. apply runs_bind. unfold runs at 1. rewrite Hrun.
  pose proof Hreq as [Hwf Hmy Hsize Hlo' Hlast].
  destruct Hres as [[-> ->]|[-> Hnew]]; simpl.
  { apply runs_bind, runs_gets.
    eapply runs_mono; [by apply (give_up_spec st0)|]. by intros [?|?] ? ?. }
  apply runs_bind, runs_gets. destruct Hnew as [Hwf1 Hom1 Hin Hst Hend Hsz1].
  simpl in *. wraps. replace (gfb + bpg - 1 - gfb + 1) with bpg by lia. wraps.
  set (s0 := rsv_start (rsv_at st1 my)) in *. unfold bitmap_search_next_usable_block.
  pose proof (find_zero_bounds bitmap bpg (s0 - gfb) ltac:(lia) Hbits) as Hr.
  pose proof (find_zero_at bitmap bpg (s0 - gfb) ltac:(lia) Hbits) as Hfree.
  set (r := find_next_zero_bit_le bitmap bpg (s0 - gfb)) in *.
  assert (only_mine my st0 st1) as Hom01 by (by eapply only_mine_trans).
  destruct (r >=? bpg) eqn:Hge; simpl.
  { eapply runs_mono; [apply (give_up_spec st0); try done; by rewrite Hsz1|].
    by intros [?|?] ? ?. }
  replace (r <? 0) with false by lia. wraps.
  destruct ((r + gfb >=? s0) && (r + gfb <=? rsv_end (rsv_at st1 my))) eqn:Hinw; apply runs_ret.
  - split; try done; [by rewrite Hsz1|by right|]. intros _. split; [done|].
    split; [|split; [lia|by rewrite Hend, Hsz1]].
    exists r. split_and!; [lia|lia|apply Hfree; lia|fold s0; lia|lia].
  - split; [|simpl; lia]. split_and!; simpl; try done; [|lia|by rewrite Hsz1|].
    + split; try done; lia.
    + apply list_elem_of_split in Hin as (k1 & k2 & Hk). exists my, k1, k2. split_and!; try done.
      destruct (wf_around _ Hwf1 _ _ _ Hk) as [Hb _].
      eapply Forall_impl; [exact Hb|]. simpl. fold s0. lia.
Qed.

Lemma search_loop_spec bpg fdb group bitmap st0 st my lo :
  geometry bpg fdb group bitmap ->
  let gfb := group * bpg + fdb in
  gfb <= lo < gfb + bpg -> rsv_wf st -> my <> rsv_head -> only_mine my st0 st ->
  rsv_goal_size (rsv_at st my) = rsv_goal_size (rsv_at st0 my) ->
  0 < rsv_goal_size (rsv_at st my) < 2147483648 ->
  runs (search_head ← gets (fun st => search_reserve_window st lo);
        loop (S (Z.to_nat bpg)) (retry_window my gfb (gfb + bpg - 1) bitmap) (search_head, lo))
    never (fun ret st' => reserved st0 st' my gfb bpg lo bitmap ret) st.
Proof.
  intros Hgeo gfb Hlo Hwf Hmy Hom Hsz Hsize.
  destruct (group_first _ _ _ _ Hgeo) as [_ Hgb]. fold gfb in Hgb.
  apply runs_bind, runs_gets.
  destruct (search_spec st lo Hwf ltac:(lia)) as (r & l1 & l2 & -> & Hw & _ & Hl1 & _).
  eapply (runs_loop never (fun p s => lo <= snd p /\ retry_inv st0 my (gfb + bpg - 1) p s)
    (fun p _ => gfb + bpg - 1 - snd p)).
  - intros p s [Hp Hinv]. split; [destruct Hinv as (_ & ? & _); lia|].
    eapply runs_mono; [apply (retry_step bpg fdb group bitmap st0 s my lo p); [done| |done];
      unfold gfb in *; lia|].
    intros [p'|ret] s'; [|done]. intros [Hinv' Hlt]. split; [split; [lia|done]|lia].
  - split; [done|]. split_and!; simpl; try done; [split; try done; simpl; lia|lia|].
    by exists r, l1, l2.
  - simpl. lia.
Qed.

(** [alloc_new_reservation] finds a window with a free block of the group, or
    answers that there is none; the windows of other files are left alone. *)
Record rsv_result (st st' : rsvst) (my gfb bpg lo : Z) (bitmap : list Z) (ret : Z) : Prop := {
  ar_wf : rsv_wf st';
  ar_others : only_mine my st st';
  ar_size : 0 < rsv_goal_size (rsv_at st' my)
              <= Z.max (rsv_goal_size (rsv_at st my)) KR_MAX_RESERVE_BLOCKS;
  ar_ret : ret = -1 \/ ret = 0;
  ar_lost : ret = -1 -> rsv_end (rsv_at st' my) = 0 \/
    rsv_window (rsv_at st' my) = rsv_window (rsv_at st my);
  ar_got : ret = 0 -> my ∈ wins st' /\ window_has_free st' my gfb bpg bitmap /\
    lo <= rsv_start (rsv_at st' my) < gfb + bpg /\
    rsv_end (rsv_at st' my) = rsv_start (rsv_at st' my) + rsv_goal_size (rsv_at st' my) - 1;
}.

Lemma grow_wf st my size hit : rsv_wf st ->
  rsv_wf (rsv_put my (ReserveWindowNode size hit (rsv_window (rsv_at st my))) st).
Proof.
  intros Hwf. set (w := ReserveWindowNode _ _ _).
  assert (forall m, rsv_start (rsv_at (rsv_put my w st) m) = rsv_start (rsv_at st m) /\
    rsv_end (rsv_at (rsv_put my w st) m) = rsv_end (rsv_at st m)) as Hat.
  { intros m. destruct (decide (m = my)) as [->|]; [by rewrite rsv_at_put_eq|].
    by rewrite rsv_at_put_ne. }
  destruct Hwf as [[Hs Hv] Hh Hd Hl]. split; [split|done| |].
  - change (wins (rsv_put my w st)) with (wins st). clear -Hs Hat.
    induction Hs as [|a l Hs IH Ha]; constructor; [done|].
    eapply Forall_impl; [exact Ha|]. unfold before. intros m.
    by rewrite (proj1 (Hat m)), (proj2 (Hat a)).
  - change (wins (rsv_put my w st)) with (wins st). eapply Forall_impl; [exact Hv|].
    unfold valid_window. intros m. by rewrite (proj1 (Hat m)), (proj2 (Hat m)).
  - by rewrite (proj2 (Hat _)).
  - intros n Hn. rewrite (proj2 (Hat n)). by apply Hl.
Qed.

Lemma alloc_new_reservation_spec bpg fdb group bitmap st my grp_goal :
  geometry bpg fdb group bitmap -> -1 <= grp_goal < bpg -> rsv_wf st -> my <> rsv_head ->
  0 < rsv_goal_size (rsv_at st my) < 1073741824 ->
  let gfb := group * bpg + fdb in
  runs (alloc_new_reservation bpg fdb my grp_goal group bitmap) never
    (fun ret st' => rsv_result st st' my gfb bpg (gfb + Z.max grp_goal 0) bitmap ret) st.
Proof.
  intros Hgeo Hgoal Hwf Hmy Hsize gfb. set (lo := gfb + Z.max grp_goal 0).
  destruct (group_first _ _ _ _ Hgeo) as [Hgf Hgb]. fold gfb in Hgf, Hgb.
  assert (0 < bpg < 1073741824) as Hbpg by apply Hgeo.
  unfold alloc_new_reservation. rewrite Hgf. wraps.
  apply runs_bind, runs_gets. cbv zeta.
  assert ((if grp_goal <? 0 then gfb else u64 (grp_goal + gfb)) = lo) as ->
    by (unfold lo; destruct (Z.ltb_spec grp_goal 0); wraps; lia).
  replace (gfb + (bpg - 1)) with (gfb + bpg - 1) by lia.
  assert (forall st1, rsv_wf st1 -> only_mine my st st1 ->
    0 < rsv_goal_size (rsv_at st1 my) <= Z.max (rsv_goal_size (rsv_at st my)) KR_MAX_RESERVE_BLOCKS ->
    runs (search_head ← gets (fun st => search_reserve_window st lo);
          loop (S (Z.to_nat bpg)) (retry_window my gfb (gfb + bpg - 1) bitmap) (search_head, lo))
      never (fun ret st' => rsv_result st st' my gfb bpg lo bitmap ret) st1) as Hsearch.
  { unfold KR_MAX_RESERVE_BLOCKS. intros st1 Hwf1 Hom1 Hs1. eapply runs_mono.
    - apply (search_loop_spec bpg fdb group bitmap st1 st1 my lo); try done;
        unfold lo, gfb in *; lia.
    - intros ret st' [H1 H2 H3 H4 H5 H6]. split; try done; [by eapply only_mine_trans| |by left; auto].
      unfold KR_MAX_RESERVE_BLOCKS. lia. }
  destruct (rsv_is_empty (rsv_window (rsv_at st my))) eqn:He; [apply Hsearch; try done; lia|].
  destruct (_ && _ && _).
  { apply runs_ret. split; try done; [lia|by left|by right]. }
  apply runs_bind, runs_when; intros _; [|apply Hsearch; try done; lia].
  apply runs_modify. apply Hsearch; [by apply grow_wf|by apply only_mine_put|].
  rewrite rsv_at_put_eq. simpl. unfold KR_MAX_RESERVE_BLOCKS. wraps. lia.
Qed.

(** *** Extending a window *)

(** The last block a window may reach is the one before the next window. *)
Lemma extend_put st my l1 l2 e : rsv_wf st -> my <> rsv_head -> wins st = l1 ++ my :: l2 ->
  rsv_end (rsv_at st my) <= e < 1099511627776 ->
  Forall (fun m => e < rsv_start (rsv_at st m)) l2 ->
  let w := rsv_at st my in
  let st' := rsv_put my (ReserveWindowNode (rsv_goal_size w) (rsv_alloc_hit w)
               (ReserveWindow (rsv_start w) e)) st in
  rsv_wf st' /\ only_mine my st st' /\ wins st' = wins st.
Proof.
  intros Hwf Hmy Hw He Hl2 w st'.
  destruct (wf_split_notin _ Hwf _ _ _ Hw) as [Hn1 Hn2].
  destruct (wf_around _ Hwf _ _ _ Hw) as [Ha _].
  assert (my ∈ wins st) as Hin
    by (rewrite Hw; apply elem_of_app; right; apply list_elem_of_here).
  destruct (wf_window _ Hwf _ Hin) as [Hv _].
  split_and!; [|by apply only_mine_put|done].
  apply (wf_in my st _ l1 l2); unfold st'; rewrite ?rsv_at_put_eq; try done.
  - intros. by apply rsv_at_put_ne.
  - rewrite Hw. by apply without_split.
  - unfold valid_window, rsv_end, rsv_start in *. simpl. fold w in Hv, He. lia.
  - pose proof (wf_head _ Hwf) as Hhd. rewrite Hw in Hhd.
    destruct l1 as [|h l1]; simplify_eq/=. apply list_elem_of_here.
Qed.

Lemma try_to_extend_spec st my size : rsv_wf st -> my <> rsv_head -> my ∈ wins st ->
  0 <= size -> rsv_end (rsv_at st my) + size < 1099511627776 ->
  exists st', try_to_extend_reservation my size st = Ret tt st' /\
    rsv_wf st' /\ only_mine my st st' /\ wins st' = wins st /\
    rsv_goal_size (rsv_at st' my) = rsv_goal_size (rsv_at st my) /\
    rsv_start (rsv_at st' my) = rsv_start (rsv_at st my) /\
    rsv_end (rsv_at st my) <= rsv_end (rsv_at st' my) <= rsv_end (rsv_at st my) + size.
Proof.
  intros Hwf Hmy Hin Hs0 Hs. pose proof (wf_window _ Hwf _ Hin) as [Hv1 Hv2].
  apply list_elem_of_split in Hin as (l1 & l2 & Hw).
  destruct (wf_around _ Hwf _ _ _ Hw) as [_ Hl2].
  unfold try_to_extend_reservation. destruct spin_trylock; simpl;
    [|exists st; split_and!; try done; lia].
  unfold mbind, M_bind, gets. cbn [id]. rewrite (rb_next_law _ _ _ _ Hw (wf_nodup _ Hwf)).
  assert (forall e, rsv_end (rsv_at st my) <= e <= rsv_end (rsv_at st my) + size ->
    Forall (fun m => e < rsv_start (rsv_at st m)) l2 ->
    exists st', modify (rsv_put my (ReserveWindowNode (rsv_goal_size (rsv_at st my))
      (rsv_alloc_hit (rsv_at st my)) (ReserveWindow (rsv_start (rsv_at st my)) e))) st = Ret tt st' /\
    rsv_wf st' /\ only_mine my st st' /\ wins st' = wins st /\
    rsv_goal_size (rsv_at st' my) = rsv_goal_size (rsv_at st my) /\
    rsv_start (rsv_at st' my) = rsv_start (rsv_at st my) /\
    rsv_end (rsv_at st my) <= rsv_end (rsv_at st' my) <= rsv_end (rsv_at st my) + size) as Hput.
  { intros e He Hf. destruct (extend_put st my l1 l2 e Hwf Hmy Hw ltac:(lia) Hf) as (H1 & H2 & H3).
    eexists. split; [done|]. split_and!; try done; rewrite rsv_at_put_eq; done || apply He. }
  destruct l2 as [|next l2]; simpl; [wraps; apply Hput; [lia|done]|].
  assert (next ∈ wins st) as Hnx by (rewrite Hw; set_solver).
  pose proof (wf_window _ Hwf _ Hnx) as [Hn1 Hn2].
  pose proof (Forall_inv Hl2) as Hlt. simpl in Hlt.
  assert (Forall (fun m => rsv_start (rsv_at st next) <= rsv_start (rsv_at st m)) (next :: l2)) as Hmin.
  { constructor; [lia|]. rewrite cons_middle, (assoc_L (++)) in Hw.
    destruct (wf_around _ Hwf (l1 ++ [my]) next l2) as [_ H2]; [done|].
    eapply Forall_impl; [exact H2|]. simpl. lia. }
  rewrite !Z.geb_leb. wraps.
  destruct (Z.leb_spec size (rsv_start (rsv_at st next) - rsv_end (rsv_at st my) - 1)).
  all: apply Hput; [lia|]; eapply Forall_impl; [exact Hmin|]; simpl; lia.
Qed.

End Facts.
