(* ===== verification/State.v ===== *)
(** * The state of a mounted file system, and its group descriptors

    The state every function of the file system works on: the super block on
    disk and in memory, the blocks of group descriptors, the buffers of the
    device, the reservation windows and the inodes in memory.  On top of it the
    functions everything calls: reporting an error ([kr_error] and [kr_sync_super]
    of super.c), finding a group descriptor ([kr_get_group_desc] of balloc.c) and
    the sums over the groups. *)

From S2P Require Import Prelude Bits Kr Rsv.

(** A buffer, as [mark_buffer_dirty] names it. *)
Inductive buffer :=
| BufBlock (b : Z)   (* the buffer of block [b] *)
| BufDesc (i : Z)    (* [s_group_desc[i]] *)
| BufSuper.          (* [s_sbh] *)

(** The calls to the kernel that return nothing the module looks at. *)
Inductive kcall :=
| mark_buffer_dirty (b : buffer)
| mark_buffer_dirty_inode (b : buffer) (ino : Z)
| sync_dirty_buffer (b : buffer)
| mark_inode_dirty (ino : Z)
| dquot_charge_block (ino n : Z)       (* a [dquot_alloc_block] that returned 0 *)
| dquot_free_block_nodirty (ino n : Z)
| dquot_charge_inode (ino : Z)         (* a [dquot_alloc_inode] that returned 0 *)
| dquot_free_inode (ino : Z)
| dquot_drop (ino : Z)
| make_bad_inode (ino : Z)
| unlock_new_inode (ino : Z)
| iput (ino : Z)
| bforget (b : Z)
| sb_breadahead (b : Z)
| clear_buffer_write_io_error
| sync_inode (ino : Z)
| unmap_underlying_metadata (b : Z)
| issue_zeroout (b n : Z)              (* an [sb_issue_zeroout] that returned 0 *)
| truncate_setsize (ino size : Z)
| truncate_pagecache (ino size : Z)
| truncate_inode_pages (ino : Z)
| sync_mapping_buffers (ino : Z)
| invalidate_inode_buffers (ino : Z)
| clear_inode (ino : Z)
| iget_failed (ino : Z)
| init_special_inode (ino mode dev : Z)
| kfree_alloc_info (addr : Z)
| block_write_end (ino pos len : Z)
| d_instantiate (ino : Z)
| d_tmpfile (ino : Z)
| ihold (ino : Z)
| discard_new_inode.                   (* make_bad_inode and iput, of an inode without a number *)

(** What the module asks of the kernel, whose code is not the module's. *)
Class Kernel := {
  sb_getblk_ok : Z -> bool;          (* sb_getblk(b) is not NULL *)
  bh_read_ok : Z -> bool;            (* reading block b from the device succeeds *)
  kmalloc_ok : bool;
  percpu_counter_read_positive : Z -> Z;
  capable_sys_resource : bool;
  current_fsuid : Z;
  in_group_p : Z -> bool;
  get_seconds : Z;
  prandom_u32 : Z;
  dquot_alloc_block : Z -> Z -> Z;   (* 0 or a negative error *)
  dquot_initialize : Z -> Z;
  dquot_alloc_inode : Z -> Z;
  buffer_write_io_error : bool;      (* of s_sbh *)
  new_inode_ok : bool;               (* new_inode(sb) is not NULL *)
  inode_init_owner : inode -> Z -> Z * Z * Z;  (* mode, uid and gid of a new inode *)
  current_time : Z;
  bdi_congested : bool;              (* for reading or for writing *)
  current_pid : Z;
  kmalloc_addr : rsvst -> Z;         (* the address of a new [kr_block_alloc_info] *)
  sb_issue_zeroout : Z -> Z -> Z;    (* 0 or a negative error *)
  truncate_page : Z -> Z -> Z;       (* block_truncate_page and its variants: 0 or an error *)
  iget_new_ok : bool;                (* iget_locked(sb, ino) is not NULL *)
  bh_write_ok : Z -> bool;           (* writing block b to the device succeeds *)
  sync_inode_metadata : Z -> Z;      (* 0 or an error *)
}.

Record krfs := Krfs {
  fs_flags : Z;                                    (* sb->s_flags *)
  fs_blocksize_bits : Z;                           (* sb->s_blocksize_bits *)
  fs_es : kr_super_block;                          (* sbi->s_es *)
  fs_sbi : kr_sb_info;
  fs_desc : list (option (list kr_group_desc));    (* sbi->s_group_desc[i]->b_data *)
  fs_bufs : gmap Z (list Z);                       (* the data of the blocks *)
  fs_uptodate : gset Z;                            (* the buffers that are up to date *)
  fs_rsv : rsvst;
  fs_inodes : gmap Z inode;                        (* by inode number *)
  fs_trace : list kcall;                           (* the latest call first *)
}.
Definition eta_krfs (r : krfs) : krfs :=
  Krfs (fs_flags r) (fs_blocksize_bits r) (fs_es r) (fs_sbi r) (fs_desc r) (fs_bufs r)
    (fs_uptodate r) (fs_rsv r) (fs_inodes r) (fs_trace r).

Definition set_fs_flags (v : Z) (r : krfs) : krfs := ltac:(set_field (eta_krfs r) (fs_flags r) v).
Definition set_fs_es (v : kr_super_block) (r : krfs) : krfs :=
  ltac:(set_field (eta_krfs r) (fs_es r) v).
Definition set_fs_sbi (v : kr_sb_info) (r : krfs) : krfs :=
  ltac:(set_field (eta_krfs r) (fs_sbi r) v).
Definition set_fs_desc (v : list (option (list kr_group_desc))) (r : krfs) : krfs :=
  ltac:(set_field (eta_krfs r) (fs_desc r) v).
Definition set_fs_bufs (v : gmap Z (list Z)) (r : krfs) : krfs :=
  ltac:(set_field (eta_krfs r) (fs_bufs r) v).
Definition set_fs_uptodate (v : gset Z) (r : krfs) : krfs :=
  ltac:(set_field (eta_krfs r) (fs_uptodate r) v).
Definition set_fs_rsv (v : rsvst) (r : krfs) : krfs :=
  ltac:(set_field (eta_krfs r) (fs_rsv r) v).
Definition set_fs_inodes (v : gmap Z inode) (r : krfs) : krfs :=
  ltac:(set_field (eta_krfs r) (fs_inodes r) v).
Definition set_fs_trace (v : list kcall) (r : krfs) : krfs :=
  ltac:(set_field (eta_krfs r) (fs_trace r) v).

Definition fs_blocksize (fs : krfs) : Z := Z.shiftl 1 (fs_blocksize_bits fs).
Definition test_opt (opt : Z) (fs : krfs) : bool := has (s_mount_opt (fs_sbi fs)) opt.
Definition sb_rdonly (fs : krfs) : bool := has (fs_flags fs) MS_RDONLY.

(** *** Access to the state *)

Definition log (c : kcall) : M krfs unit := modify (fun fs => set_fs_trace (c :: fs_trace fs) fs).
Definition upd_es (f : kr_super_block -> kr_super_block) : M krfs unit :=
  modify (fun fs => set_fs_es (f (fs_es fs)) fs).
Definition upd_sbi (f : kr_sb_info -> kr_sb_info) : M krfs unit :=
  modify (fun fs => set_fs_sbi (f (fs_sbi fs)) fs).

(** The data of a block; a block beyond the device has none. *)
Definition buf_get (b : Z) : M krfs (list Z) :=
  fs ← gets id;
  match fs_bufs fs !! b with
  | Some d => mret d
  | None => halt Fault
  end.
Definition buf_set (b : Z) (d : list Z) : M krfs unit :=
  modify (fun fs => set_fs_bufs (<[b := d]> (fs_bufs fs)) fs).

(** A descriptor is addressed by the index of its block and its place there. *)
Definition gdp : Type := Z * Z.
Definition find_desc (l : list (option (list kr_group_desc))) (p : gdp) : option kr_group_desc :=
  match l !! Z.to_nat p.1 with
  | Some (Some l) => l !! Z.to_nat p.2
  | _ => None
  end.
Definition put_desc (p : gdp) (d : kr_group_desc) (l : list (option (list kr_group_desc)))
    : list (option (list kr_group_desc)) :=
  alter (fmap (M := option) <[Z.to_nat p.2 := d]>) (Z.to_nat p.1) l.
Definition desc_get (p : gdp) : M krfs kr_group_desc :=
  fs ← gets id;
  match find_desc (fs_desc fs) p with
  | Some d => mret d
  | None => halt Fault
  end.
Definition desc_set (p : gdp) (d : kr_group_desc) : M krfs unit :=
  modify (fun fs => set_fs_desc (put_desc p d (fs_desc fs)) fs).

Section Ops.
Context `{Kernel}.

(** *** Errors

    [kr_error] marks the file system, writes the super block and then does what
    the mount options say.  Writing the super block sums over the descriptors
    with the spinlock [s_lock] held, and a descriptor that is not loaded calls
    [kr_error] again, which takes the lock unless the file system is read-only:
    the functions that may run under the lock take the error report they make
    as an argument. *)
Definition error_action : M krfs unit :=
  fs ← gets id;
  if test_opt KR_MOUNT_ERRORS_PANIC fs then halt Panic
  else when (test_opt KR_MOUNT_ERRORS_RO fs)
         (modify (fun fs => set_fs_flags (Z.lor (fs_flags fs) MS_RDONLY) fs)).

(** [kr_error], called with [s_lock] held. *)
Definition kr_error_locked : M krfs unit :=
  fs ← gets id;
  if negb (sb_rdonly fs) then halt Deadlock else error_action.

Definition kr_get_group_desc_with (error : M krfs unit) (block_group : Z) : M krfs (option gdp) :=
  fs ← gets id;
  let sbi := fs_sbi fs in
  let block_group := u32 block_group in
  if block_group >=? s_groups_count sbi then error ;; mret None
  else
    let group_desc := Z.shiftr block_group (s_desc_per_block_bits sbi) in
    let offset := Z.land block_group (s_desc_per_block sbi - 1) in
    match fs_desc fs !! Z.to_nat group_desc with
    | None => halt Fault
    | Some None => error ;; mret None
    | Some (Some _) => mret (Some (group_desc, offset))
    end.

(** The sum of a field over the descriptors that are loaded. *)
Fixpoint sum_groups (error : M krfs unit) (field : kr_group_desc -> Z) (n : nat) (i sum : Z)
    : M krfs Z :=
  match n with
  | O => mret sum
  | S n' =>
      desc ← kr_get_group_desc_with error i;
      match desc with
      | None => sum_groups error field n' (i + 1) sum
      | Some p => d ← desc_get p; sum_groups error field n' (i + 1) (u64 (sum + field d))
      end
  end.

Definition count_groups (error : M krfs unit) (field : kr_group_desc -> Z) : M krfs Z :=
  fs ← gets id;
  sum_groups error field (Z.to_nat (s_groups_count (fs_sbi fs))) 0 0.

Definition kr_count_free_blocks_with (error : M krfs unit) : M krfs Z :=
  count_groups error bg_free_blocks_count.
Definition kr_count_free_inodes_with (error : M krfs unit) : M krfs Z :=
  count_groups error bg_free_inodes_count.

Definition kr_clear_super_error : M krfs unit :=
  when buffer_write_io_error (log clear_buffer_write_io_error).

Definition kr_sync_super (wait : bool) : M krfs unit :=
  kr_clear_super_error ;;
  b ← kr_count_free_blocks_with kr_error_locked;
  upd_es (set_es_free_blocks_count (u32 b)) ;;
  i ← kr_count_free_inodes_with kr_error_locked;
  upd_es (set_es_free_inodes_count (u32 i)) ;;
  upd_es (set_es_wtime (u32 get_seconds)) ;;
  log (mark_buffer_dirty BufSuper) ;;
  when wait (log (sync_dirty_buffer BufSuper)).

Definition kr_error : M krfs unit :=
  fs ← gets id;
  when (negb (sb_rdonly fs))
    (upd_sbi (fun sbi => set_s_mount_state (Z.lor (s_mount_state sbi) KR_ERROR_FS) sbi) ;;
     upd_es (fun es => set_es_state (Z.lor (es_state es) KR_ERROR_FS) es) ;;
     kr_sync_super true) ;;
  error_action.

Definition kr_get_group_desc (block_group : Z) : M krfs (option gdp) :=
  kr_get_group_desc_with kr_error block_group.
Definition kr_count_free_blocks : M krfs Z := kr_count_free_blocks_with kr_error.
Definition kr_count_free_inodes : M krfs Z := kr_count_free_inodes_with kr_error.
Definition kr_count_dirs : M krfs Z := count_groups kr_error bg_used_dirs_count.

(** [sb_bread], [bh_submit_read]: read a block unless it is up to date. *)
Definition buffer_uptodate (b : Z) : M krfs bool := gets (fun fs => bool_decide (b ∈ fs_uptodate fs)).
Definition bh_submit_read (b : Z) : M krfs bool :=
  if bh_read_ok b then modify (fun fs => set_fs_uptodate (({[b]} : gset Z) ∪ fs_uptodate fs) fs) ;; mret true
  else mret false.
Definition sb_bread (b : Z) : M krfs (option Z) :=
  up ← buffer_uptodate b;
  if (up : bool) then mret (Some b)
  else ok ← bh_submit_read b; mret (if (ok : bool) then Some b else None).

End Ops.

(** ** The part of the state the allocators work on

    Reporting an error and logging a call leave it alone; so do the marks on the
    buffers and the counters of the super block. *)
Record core := Core {
  c_bits : Z;                  (* s_blocksize_bits *)
  c_bpg : Z;                   (* s_blocks_per_group *)
  c_ipg : Z;                   (* s_inodes_per_group *)
  c_itb : Z;                   (* s_itb_per_group *)
  c_fdb : Z;                   (* s_first_data_block *)
  c_nblocks : Z;               (* s_blocks_count *)
  c_ninodes : Z;               (* s_inodes_count *)
  c_first_ino : Z;             (* s_first_ino *)
  c_ngroups : Z;               (* s_groups_count *)
  c_dpb : Z;                   (* s_desc_per_block *)
  c_dpb_bits : Z;
  c_desc : list (option (list kr_group_desc));
  c_bufs : gmap Z (list Z);
  c_rsv : rsvst;
  c_inodes : gmap Z inode;
  c_sbi : kr_sb_info;          (* less s_mount_state *)
}.
Definition core_of (fs : krfs) : core :=
  let sbi := fs_sbi fs in let es := fs_es fs in
  Core (fs_blocksize_bits fs) (s_blocks_per_group sbi) (s_inodes_per_group sbi)
    (s_itb_per_group sbi) (es_first_data_block es) (es_blocks_count es) (es_inodes_count es)
    (s_first_ino sbi) (s_groups_count sbi) (s_desc_per_block sbi) (s_desc_per_block_bits sbi)
    (fs_desc fs) (fs_bufs fs) (fs_rsv fs) (fs_inodes fs) (set_s_mount_state 0 sbi).
Definition eta_core (c : core) : core :=
  Core (c_bits c) (c_bpg c) (c_ipg c) (c_itb c) (c_fdb c) (c_nblocks c) (c_ninodes c)
    (c_first_ino c) (c_ngroups c) (c_dpb c) (c_dpb_bits c) (c_desc c) (c_bufs c) (c_rsv c)
    (c_inodes c) (c_sbi c).
Definition set_c_desc (v : list (option (list kr_group_desc))) (c : core) : core :=
  ltac:(set_field (eta_core c) (c_desc c) v).
Definition set_c_bufs (v : gmap Z (list Z)) (c : core) : core :=
  ltac:(set_field (eta_core c) (c_bufs c) v).
Definition set_c_rsv (v : rsvst) (c : core) : core :=
  ltac:(set_field (eta_core c) (c_rsv c) v).
Definition set_c_inodes (v : gmap Z inode) (c : core) : core :=
  ltac:(set_field (eta_core c) (c_inodes c) v).
Definition set_c_sbi (v : kr_sb_info) (c : core) : core :=
  ltac:(set_field (eta_core c) (c_sbi c) v).

(** The descriptor of a group, and its place. *)
Definition gdp_of (c : core) (g : Z) : gdp :=
  (Z.shiftr g (c_dpb_bits c), Z.land g (c_dpb c - 1)).
Definition no_desc : kr_group_desc := GroupDesc 0 0 0 0 0 0.
Definition group_desc (c : core) (g : Z) : kr_group_desc :=
  default no_desc (find_desc (c_desc c) (gdp_of c g)).

(** The first block of a group and the number of its blocks. *)
Definition group_first (c : core) (g : Z) : Z := g * c_bpg c + c_fdb c.
Definition group_size (c : core) (g : Z) : Z :=
  Z.min (c_bpg c) (c_nblocks c - group_first c g).

Definition block_bitmap (c : core) (g : Z) : list Z :=
  default [] (c_bufs c !! bg_block_bitmap (group_desc c g)).
Definition inode_bitmap (c : core) (g : Z) : list Z :=
  default [] (c_bufs c !! bg_inode_bitmap (group_desc c g)).

(** What mounting has checked of a group ([kr_check_descriptors]): its bitmaps
    and its inode table lie in it. *)
Record group_ok (c : core) (g : Z) : Prop := {
  gk_desc : is_Some (find_desc (c_desc c) (gdp_of c g));
  gk_bb : group_first c g <= bg_block_bitmap (group_desc c g) < group_first c g + group_size c g;
  gk_ib : group_first c g <= bg_inode_bitmap (group_desc c g) < group_first c g + group_size c g;
  gk_it : group_first c g <= bg_inode_table (group_desc c g) /\
          bg_inode_table (group_desc c g) + c_itb c <= group_first c g + group_size c g;
  gk_bbuf : is_Some (c_bufs c !! bg_block_bitmap (group_desc c g));
  gk_ibuf : is_Some (c_bufs c !! bg_inode_bitmap (group_desc c g));
  gk_bsize : len (block_bitmap c g) = 2 ^ c_bits c;
  gk_isize : len (inode_bitmap c g) = 2 ^ c_bits c;
  gk_free : 0 <= bg_free_blocks_count (group_desc c g) < 65536;
  gk_ifree : 0 <= bg_free_inodes_count (group_desc c g) < 65536;
  gk_dirs : 0 <= bg_used_dirs_count (group_desc c g) < 65536;
  gk_apart : bg_block_bitmap (group_desc c g) <> bg_inode_bitmap (group_desc c g);
}.

Record core_ok (c : core) : Prop := {
  ck_bits : 10 <= c_bits c <= 12;
  ck_bpg : 0 < c_bpg c <= 8 * 2 ^ c_bits c;
  ck_ipg : 0 < c_ipg c <= 8 * 2 ^ c_bits c;
  ck_itb : 0 < c_itb c < 65536;
  ck_fdb : 0 <= c_fdb c;
  ck_nblocks : (c_ngroups c - 1) * c_bpg c + c_fdb c < c_nblocks c
                 <= c_ngroups c * c_bpg c + c_fdb c;
  ck_blocks32 : c_nblocks c < 4294967296;
  ck_ngroups : 0 < c_ngroups c < 2147483648;
  ck_dpb : c_dpb c = 2 ^ c_dpb_bits c;
  ck_dpb_bits : 0 <= c_dpb_bits c;
  ck_desc : Forall (fun o => is_Some o) (c_desc c);
  ck_groups : forall g, 0 <= g < c_ngroups c -> group_ok c g;
}.

(** ** Facts *)

Section Groups.
Variable c : core.
Hypothesis Hc : core_ok c.

Lemma gdp_of_spec g : 0 <= g -> g = c_dpb c * (gdp_of c g).1 + (gdp_of c g).2 /\
  0 <= (gdp_of c g).1 /\ 0 <= (gdp_of c g).2 < c_dpb c.
Proof.
  intros Hg. unfold gdp_of. simpl. rewrite (ck_dpb _ Hc).
  pose proof (ck_dpb_bits _ Hc) as Hb.
  replace (2 ^ c_dpb_bits c - 1) with (Z.ones (c_dpb_bits c)) by (rewrite Z.ones_equiv; lia).
  rewrite Z.land_ones, Z.shiftr_div_pow2 by done.
  assert (0 < 2 ^ c_dpb_bits c) as Hp by (by apply Z.pow_pos_nonneg).
  pose proof (Z.mod_pos_bound g _ Hp). pose proof (Z.div_mod g (2 ^ c_dpb_bits c)).
  split; [lia|]. split; [by apply Z.div_pos|done].
Qed.

(** Distinct groups have distinct descriptors. *)
Lemma gdp_of_inj g g' : 0 <= g -> 0 <= g' -> gdp_of c g = gdp_of c g' -> g = g'.
Proof.
  intros Hg Hg' He. destruct (gdp_of_spec g Hg) as [H1 _]. destruct (gdp_of_spec g' Hg') as [H2 _].
  rewrite H1, H2, He. done.
Qed.

Lemma find_put_eq l p d : is_Some (find_desc l p) -> find_desc (put_desc p d l) p = Some d.
Proof.
  unfold find_desc, put_desc. intros [d0 Hd]. rewrite list_lookup_alter.
  destruct (l !! Z.to_nat p.1) as [[l'|]|]; simplify_eq/=. rewrite decide_True by done. simpl.
  apply list_lookup_insert_eq. by eapply lookup_lt_Some.
Qed.

Lemma find_put_ne l p q d : 0 <= p.1 -> 0 <= p.2 -> 0 <= q.1 -> 0 <= q.2 -> p <> q ->
  find_desc (put_desc p d l) q = find_desc l q.
Proof.
  intros Hp1 Hp2 Hq1 Hq2 Hne. unfold find_desc, put_desc.
  rewrite list_lookup_alter. case_decide as Hd; [|done].
  assert (p.1 = q.1) as H1 by lia. assert (p.2 <> q.2) as H2
    by (intros H2; apply Hne; destruct p, q; simpl in *; congruence).
  rewrite Hd. destruct (l !! Z.to_nat q.1) as [[l'|]|]; simpl; [|done|done].
  apply list_lookup_insert_ne. lia.
Qed.

Lemma put_desc_loaded l p d : Forall (fun o => is_Some o) l ->
  Forall (fun o : option (list kr_group_desc) => is_Some o) (put_desc p d l).
Proof.
  intros H. apply Forall_alter; [done|]. intros o _ [x ->]. by exists (<[Z.to_nat p.2 := d]> x).
Qed.

(** Writing the descriptor of the group [g]. *)
Lemma find_desc_put g g' d : 0 <= g < c_ngroups c -> 0 <= g' ->
  find_desc (put_desc (gdp_of c g) d (c_desc c)) (gdp_of c g') =
    if decide (g' = g) then Some d else find_desc (c_desc c) (gdp_of c g').
Proof.
  intros Hg Hg'. case_decide as He.
  - subst g'. apply find_put_eq, (gk_desc _ _ (ck_groups _ Hc g Hg)).
  - destruct (gdp_of_spec g) as (_ & H1 & H2); [lia|]. destruct (gdp_of_spec g' Hg') as (_ & H3 & H4).
    apply find_put_ne; try lia. intros Hp. apply He. symmetry. apply gdp_of_inj; [lia|done|done].
Qed.

(** A group ends where the next one begins, and the last one at the end of the device. *)
Lemma group_bounds g : 0 <= g < c_ngroups c ->
  0 <= group_first c g /\ 0 < group_size c g <= c_bpg c /\
  group_first c g + group_size c g <= c_nblocks c /\
  (g < c_ngroups c - 1 -> group_size c g = c_bpg c).
Proof.
  intros Hg. pose proof (ck_nblocks _ Hc). pose proof (ck_bpg _ Hc). pose proof (ck_fdb _ Hc).
  unfold group_size, group_first.
  assert (g * c_bpg c <= (c_ngroups c - 1) * c_bpg c) by (apply Z.mul_le_mono_nonneg_r; lia).
  assert (0 <= g * c_bpg c) by (apply Z.mul_nonneg_nonneg; lia).
  split; [lia|]. split; [lia|]. split; [lia|]. intros Hlt.
  assert ((g + 1) * c_bpg c <= (c_ngroups c - 1) * c_bpg c) by (apply Z.mul_le_mono_nonneg_r; lia).
  lia.
Qed.

(** Blocks of distinct groups are distinct. *)
Lemma groups_apart g g' b b' : 0 <= g < c_ngroups c -> 0 <= g' < c_ngroups c -> g <> g' ->
  group_first c g <= b < group_first c g + group_size c g ->
  group_first c g' <= b' < group_first c g' + group_size c g' -> b <> b'.
Proof.
  intros Hg Hg' Hne Hb Hb' ->. pose proof (ck_bpg _ Hc).
  destruct (group_bounds g Hg) as (_ & Hs & _). destruct (group_bounds g' Hg') as (_ & Hs' & _).
  unfold group_first in *.
  assert (g < g' \/ g' < g) as [Hlt|Hlt] by lia.
  - assert ((g + 1) * c_bpg c <= g' * c_bpg c) by (apply Z.mul_le_mono_nonneg_r; lia). lia.
  - assert ((g' + 1) * c_bpg c <= g * c_bpg c) by (apply Z.mul_le_mono_nonneg_r; lia). lia.
Qed.

End Groups.

(** *** Going around the groups *)

Definition next_group (c : core) (g : Z) : Z := if g + 1 >=? c_ngroups c then 0 else g + 1.

Lemma next_group_mod c g : 0 < c_ngroups c -> 0 <= g < c_ngroups c ->
  next_group c g = (g + 1) mod c_ngroups c /\ 0 <= next_group c g < c_ngroups c.
Proof.
  intros Hn Hg. unfold next_group. destruct (g + 1 >=? c_ngroups c) eqn:Hge; [|rewrite Z.mod_small; lia].
  replace (g + 1) with (c_ngroups c) by lia. rewrite Z.mod_same; lia.
Qed.

(** The groups the loop visits after [g]. *)
Fixpoint visits (c : core) (n : nat) (g : Z) (g' : Z) : Prop :=
  match n with
  | O => False
  | S n' => g' = next_group c g \/ visits c n' (next_group c g) g'
  end.

Lemma visits_geo c c' n : c_ngroups c' = c_ngroups c -> forall g g',
  visits c' n g g' <-> visits c n g g'.
Proof.
  intros Hn. induction n as [|n IH]; intros g g'; simpl; [done|].
  unfold next_group in *. rewrite Hn. by rewrite IH.
Qed.

(** A loop over as many groups as there are visits every group. *)
Lemma visits_mod c g' : 0 < c_ngroups c -> forall n g k, 0 <= g < c_ngroups c ->
  1 <= k <= Z.of_nat n -> g' = (g + k) mod c_ngroups c -> visits c n g g'.
Proof.
  intros Hn. induction n as [|n IH]; intros g k Hg Hk ->; simpl; [lia|].
  destruct (next_group_mod c g Hn Hg) as [He Hr].
  destruct (decide (k = 1)) as [->|Hne]; [by left|right].
  apply (IH _ (k - 1)); [done|lia|]. rewrite He, Zplus_mod_idemp_l. f_equal. lia.
Qed.

Lemma visits_all c g g' : 0 <= g < c_ngroups c -> 0 <= g' < c_ngroups c ->
  visits c (Z.to_nat (c_ngroups c)) g g'.
Proof.
  intros Hg Hg'. destruct (decide (g < g')) as [Hlt|Hge].
  - apply (visits_mod c g' ltac:(lia) _ g (g' - g)); [done|lia|].
    rewrite Z.mod_small; lia.
  - apply (visits_mod c g' ltac:(lia) _ g (g' - g + c_ngroups c)); [done|lia|].
    replace (g + (g' - g + c_ngroups c)) with (g' + 1 * c_ngroups c) by lia.
    rewrite Z.mod_add, Z.mod_small; lia.
Qed.

(** *** Writing a descriptor or a buffer *)

(** The descriptor [d'] has the places of [d]. *)
Definition same_places (d d' : kr_group_desc) : Prop :=
  bg_block_bitmap d' = bg_block_bitmap d /\ bg_inode_bitmap d' = bg_inode_bitmap d /\
  bg_inode_table d' = bg_inode_table d.
Definition counts_ok (d : kr_group_desc) : Prop :=
  0 <= bg_free_blocks_count d < 65536 /\ 0 <= bg_free_inodes_count d < 65536 /\
  0 <= bg_used_dirs_count d < 65536.

Definition with_desc (c : core) (g : Z) (d : kr_group_desc) : core :=
  set_c_desc (put_desc (gdp_of c g) d (c_desc c)) c.
Definition with_buf (c : core) (b : Z) (v : list Z) : core :=
  set_c_bufs (<[b := v]> (c_bufs c)) c.

Section Updates.
Variable c : core.
Hypothesis Hc : core_ok c.

Lemma group_desc_with g g' d : 0 <= g < c_ngroups c -> 0 <= g' ->
  group_desc (with_desc c g d) g' = if decide (g' = g) then d else group_desc c g'.
Proof.
  intros Hg Hg'. unfold group_desc.
  change (find_desc (c_desc (with_desc c g d)) (gdp_of (with_desc c g d) g')) with
    (find_desc (put_desc (gdp_of c g) d (c_desc c)) (gdp_of c g')).
  rewrite find_desc_put by done. by case_decide.
Qed.

Lemma group_counts g : 0 <= g < c_ngroups c -> counts_ok (group_desc c g).
Proof. intros Hg. destruct (ck_groups _ Hc g Hg). done. Qed.

Lemma with_desc_ok g d : 0 <= g < c_ngroups c -> same_places (group_desc c g) d -> counts_ok d ->
  core_ok (with_desc c g d).
Proof.
  intros Hg (H1 & H2 & H3) (H4 & H5 & H6). destruct Hc. split; try done.
  - by apply put_desc_loaded.
  - intros g' Hg'. pose proof (ck_groups0 g' Hg') as [].
    assert (Hd : group_desc (with_desc c g d) g' = if decide (g' = g) then d else group_desc c g')
      by (apply group_desc_with; [done|apply Hg']).
    split; unfold block_bitmap, inode_bitmap in *; try rewrite Hd;
      change (group_first (with_desc c g d) g') with (group_first c g');
      change (group_size (with_desc c g d) g') with (group_size c g');
      change (c_bufs (with_desc c g d)) with (c_bufs c);
      change (c_bits (with_desc c g d)) with (c_bits c);
      change (c_itb (with_desc c g d)) with (c_itb c).
    all: try (case_decide; subst; rewrite ?H1, ?H2, ?H3; done).
    change (is_Some (find_desc (put_desc (gdp_of c g) d (c_desc c)) (gdp_of c g'))).
    rewrite find_desc_put by (done || lia). by case_decide.
Qed.

Lemma with_buf_ok b v : len v = 2 ^ c_bits c -> core_ok (with_buf c b v).
Proof.
  intros Hv. assert (forall b', is_Some (c_bufs c !! b') -> is_Some (c_bufs (with_buf c b v) !! b')) as Hs
    by (intros b' H'; unfold with_buf; cbn; rewrite lookup_insert_is_Some'; by right).
  assert (forall b', len (default [] (c_bufs c !! b')) = 2 ^ c_bits c ->
    len (default [] (c_bufs (with_buf c b v) !! b')) = 2 ^ c_bits c) as Hl.
  { intros b' H'. unfold with_buf; cbn. destruct (decide (b = b')) as [->|].
    - by rewrite lookup_insert_eq.
    - by rewrite lookup_insert_ne. }
  destruct Hc. split; try done. intros g' Hg'. pose proof (ck_groups0 g' Hg') as [].
  split; try done; [by apply Hs|by apply Hs|by apply Hl|by apply Hl].
Qed.

(** A bitmap of the group [g] is in a block of its own. *)
Lemma bitmaps_with_bb g v g' : 0 <= g < c_ngroups c -> 0 <= g' < c_ngroups c ->
  let c' := with_buf c (bg_block_bitmap (group_desc c g)) v in
  block_bitmap c' g' = (if decide (g' = g) then v else block_bitmap c g') /\
  inode_bitmap c' g' = inode_bitmap c g'.
Proof.
  intros Hg Hg'. pose proof (ck_groups _ Hc g Hg) as Hgk. pose proof (ck_groups _ Hc g' Hg') as Hgk'.
  unfold block_bitmap, inode_bitmap, with_buf; cbn. case_decide as He.
  - subst g'. rewrite lookup_insert_eq, lookup_insert_ne; [done|]. apply Hgk.
  - rewrite !lookup_insert_ne; [done| |];
      apply (groups_apart c Hc g g'); try done; try (by apply not_eq_sym); apply Hgk || apply Hgk'.
Qed.

Lemma bitmaps_with_ib g v g' : 0 <= g < c_ngroups c -> 0 <= g' < c_ngroups c ->
  let c' := with_buf c (bg_inode_bitmap (group_desc c g)) v in
  inode_bitmap c' g' = (if decide (g' = g) then v else inode_bitmap c g') /\
  block_bitmap c' g' = block_bitmap c g'.
Proof.
  intros Hg Hg'. pose proof (ck_groups _ Hc g Hg) as Hgk. pose proof (ck_groups _ Hc g' Hg') as Hgk'.
  unfold block_bitmap, inode_bitmap, with_buf; cbn. case_decide as He.
  - subst g'. rewrite lookup_insert_eq, lookup_insert_ne; [done|]. apply not_eq_sym, Hgk.
  - rewrite !lookup_insert_ne; [done| |];
      apply (groups_apart c Hc g g'); try done; try (by apply not_eq_sym); apply Hgk || apply Hgk'.
Qed.

Lemma with_rsv_ok r : core_ok (set_c_rsv r c).
Proof. destruct Hc. split; try done. intros g Hg. destruct (ck_groups0 g Hg). by split. Qed.
Lemma with_sbi_ok r : core_ok (set_c_sbi r c).
Proof. destruct Hc. split; try done. intros g Hg. destruct (ck_groups0 g Hg). by split. Qed.
Lemma with_inodes_ok r : core_ok (set_c_inodes r c).
Proof. destruct Hc. split; try done. intros g Hg. destruct (ck_groups0 g Hg). by split. Qed.

End Updates.

(** *** The functions of this file *)

(** The sum of a field over the first [n] groups from [i]. *)
Fixpoint group_sum (c : core) (field : kr_group_desc -> Z) (n : nat) (i : Z) : Z :=
  match n with
  | O => 0
  | S n' => field (group_desc c i) + group_sum c field n' (i + 1)
  end.

(** The descriptors are loaded, as they are from early in a mount on. *)
Record loaded (c : core) : Prop := {
  ld_ngroups : 0 < c_ngroups c < 2147483648;
  ld_desc : forall g, 0 <= g < c_ngroups c -> is_Some (find_desc (c_desc c) (gdp_of c g));
  ld_counts : forall g, 0 <= g < c_ngroups c -> counts_ok (group_desc c g);
}.
Lemma core_loaded c : core_ok c -> loaded c.
Proof.
  intros Hc. split; [apply Hc| |].
  - intros g Hg. apply (ck_groups _ Hc g Hg).
  - intros g Hg. by apply group_counts.
Qed.

Section Facts.
Context `{Kernel}.
Implicit Types (fs : krfs) (E : stop -> Prop).

Lemma get_group_desc_loaded error fs g : loaded (core_of fs) -> 0 <= g < s_groups_count (fs_sbi fs) ->
  kr_get_group_desc_with error g fs = Ret (Some (gdp_of (core_of fs) g)) fs.
Proof.
  intros Hc Hg. pose proof (ld_ngroups _ Hc) as Hn. cbn in Hn.
  unfold kr_get_group_desc_with, mbind, M_bind, gets. cbn [id]. wraps.
  replace (g >=? s_groups_count (fs_sbi fs)) with false by lia.
  destruct (ld_desc _ Hc g Hg) as [d Hd]. unfold find_desc, gdp_of in Hd. cbn in Hd.
  destruct (fs_desc fs !! _) as [[l|]|]; done.
Qed.

Lemma desc_get_loaded fs g : loaded (core_of fs) -> 0 <= g < s_groups_count (fs_sbi fs) ->
  desc_get (gdp_of (core_of fs) g) fs = Ret (group_desc (core_of fs) g) fs.
Proof.
  intros Hc Hg. destruct (ld_desc _ Hc g Hg) as [d Hd].
  unfold desc_get, group_desc, mbind, M_bind, gets. cbn [id]. rewrite Hd. cbn in Hd. by rewrite Hd.
Qed.

Lemma sum_groups_loaded error field fs : loaded (core_of fs) -> forall n i sum,
  0 <= i -> i + Z.of_nat n <= s_groups_count (fs_sbi fs) -> 0 <= sum < 18446744073709551616 ->
  sum_groups error field n i sum fs = Ret (u64 (sum + group_sum (core_of fs) field n i)) fs.
Proof.
  intros Hc. induction n as [|n IH]; intros i sum Hi Hn Hs; simpl.
  { rewrite Z.add_0_r. by wraps. }
  rewrite (bind_Ret _ _ _ _ _ (get_group_desc_loaded error fs i Hc ltac:(lia))).
  rewrite (bind_Ret _ _ _ _ _ (desc_get_loaded fs i Hc ltac:(lia))).
  rewrite IH; [|lia|lia|apply u64_range]. f_equal.
  unfold u64. rewrite Zplus_mod_idemp_l. f_equal. lia.
Qed.

(** Summing over the groups changes nothing; nothing overflows. *)
Lemma group_sum_bounds c field n : (forall g, 0 <= g < c_ngroups c -> 0 <= field (group_desc c g) < 65536) ->
  forall i, 0 <= i -> i + Z.of_nat n <= c_ngroups c ->
  0 <= group_sum c field n i <= Z.of_nat n * 65535.
Proof.
  intros Hf. induction n as [|n IH]; intros i Hi Hn; simpl; [lia|].
  pose proof (Hf i ltac:(lia)). specialize (IH (i + 1) ltac:(lia) ltac:(lia)). lia.
Qed.

Definition total (c : core) (field : kr_group_desc -> Z) : Z :=
  group_sum c field (Z.to_nat (c_ngroups c)) 0.

Lemma count_groups_loaded error field fs : loaded (core_of fs) ->
  (forall g, 0 <= g < c_ngroups (core_of fs) -> 0 <= field (group_desc (core_of fs) g) < 65536) ->
  count_groups error field fs = Ret (total (core_of fs) field) fs.
Proof.
  intros Hc Hf. pose proof (ld_ngroups _ Hc) as Hn. cbn in Hn.
  unfold count_groups, mbind, M_bind, gets. cbn [id].
  rewrite (sum_groups_loaded error field fs Hc) by lia. f_equal.
  pose proof (group_sum_bounds (core_of fs) field (Z.to_nat (s_groups_count (fs_sbi fs))) Hf 0
    ltac:(lia)) as Hb. cbn [c_ngroups core_of] in Hb.
  unfold total. cbn [c_ngroups core_of] in *. rewrite u64_small; lia.
Qed.

Lemma count_free_blocks_loaded error fs : loaded (core_of fs) ->
  kr_count_free_blocks_with error fs = Ret (total (core_of fs) bg_free_blocks_count) fs.
Proof. intros Hc. apply count_groups_loaded; [done|]. intros g Hg. apply (ld_counts _ Hc g Hg). Qed.

Lemma count_free_inodes_loaded error fs : loaded (core_of fs) ->
  kr_count_free_inodes_with error fs = Ret (total (core_of fs) bg_free_inodes_count) fs.
Proof. intros Hc. apply count_groups_loaded; [done|]. intros g Hg. apply (ld_counts _ Hc g Hg). Qed.

Lemma count_dirs_loaded fs : loaded (core_of fs) ->
  kr_count_dirs fs = Ret (total (core_of fs) bg_used_dirs_count) fs.
Proof. intros Hc. apply count_groups_loaded; [done|]. intros g Hg. apply (ld_counts _ Hc g Hg). Qed.

(** *** Writing the super block and reporting an error *)

(** The super block after [kr_sync_super]. *)
Definition synced_es (c : core) (es : kr_super_block) : kr_super_block :=
  set_es_wtime (u32 get_seconds)
    (set_es_free_inodes_count (u32 (total c bg_free_inodes_count))
       (set_es_free_blocks_count (u32 (total c bg_free_blocks_count)) es)).

Lemma sync_super_loaded wait fs : loaded (core_of fs) ->
  exists tr, kr_sync_super wait fs =
    Ret tt (set_fs_trace tr (set_fs_es (synced_es (core_of fs) (fs_es fs)) fs)).
Proof.
  intros Hc. unfold kr_sync_super.
  set (fs1 := if buffer_write_io_error
              then set_fs_trace (clear_buffer_write_io_error :: fs_trace fs) fs else fs).
  assert (kr_clear_super_error fs = Ret tt fs1) as H1
    by (unfold kr_clear_super_error, fs1; by destruct buffer_write_io_error).
  assert (core_of fs1 = core_of fs /\ exists t, fs1 = set_fs_trace t fs) as [Hcore [t Ht]].
  { unfold fs1. destruct buffer_write_io_error; split; try done; [by eexists|].
    exists (fs_trace fs). by destruct fs. }
  rewrite (bind_Ret _ _ _ _ _ H1).
  rewrite (bind_Ret _ _ _ _ _ (count_free_blocks_loaded _ fs1 ltac:(by rewrite Hcore))).
  rewrite (bind_Ret (upd_es _) _ fs1 tt _ eq_refl). cbv beta. rewrite Hcore.
  set (fs2 := set_fs_es _ fs1).
  assert (core_of fs2 = core_of fs) as Hcore2 by (by rewrite <- Hcore).
  rewrite (bind_Ret _ _ _ _ _ (count_free_inodes_loaded _ fs2 ltac:(by rewrite Hcore2))).
  rewrite Hcore2. unfold fs2. rewrite Ht. clear. destruct wait; by eexists.
Qed.

(** What [kr_error] leaves: the error is on the super block of a file system that
    can be written, and the mount options say whether it still can be. *)
Record erred (fs fs' : krfs) : Prop := {
  er_core : core_of fs' = core_of fs;
  er_uptodate : fs_uptodate fs' = fs_uptodate fs;
  er_sbi : fs_sbi fs' = if sb_rdonly fs then fs_sbi fs
           else set_s_mount_state (Z.lor (s_mount_state (fs_sbi fs)) KR_ERROR_FS) (fs_sbi fs);
  er_es : fs_es fs' = if sb_rdonly fs then fs_es fs
          else synced_es (core_of fs) (set_es_state (Z.lor (es_state (fs_es fs)) KR_ERROR_FS) (fs_es fs));
  er_flags : fs_flags fs' = if test_opt KR_MOUNT_ERRORS_RO fs
             then Z.lor (fs_flags fs) MS_RDONLY else fs_flags fs;
  er_panic : test_opt KR_MOUNT_ERRORS_PANIC fs = false;
}.

Lemma kr_error_loaded fs : loaded (core_of fs) ->
  runs kr_error (fun w => w = Panic /\ test_opt KR_MOUNT_ERRORS_PANIC fs = true)
    (fun _ fs' => erred fs fs') fs.
Proof.
  intros Hc. unfold kr_error. step. step. cbn [id]. step.
  assert (forall fs1, core_of fs1 = core_of fs -> fs_uptodate fs1 = fs_uptodate fs ->
    fs_flags fs1 = fs_flags fs -> test_opt KR_MOUNT_ERRORS_PANIC fs1 = test_opt KR_MOUNT_ERRORS_PANIC fs ->
    test_opt KR_MOUNT_ERRORS_RO fs1 = test_opt KR_MOUNT_ERRORS_RO fs ->
    fs_sbi fs1 = (if sb_rdonly fs then fs_sbi fs
           else set_s_mount_state (Z.lor (s_mount_state (fs_sbi fs)) KR_ERROR_FS) (fs_sbi fs)) ->
    fs_es fs1 = (if sb_rdonly fs then fs_es fs
          else synced_es (core_of fs) (set_es_state (Z.lor (es_state (fs_es fs)) KR_ERROR_FS) (fs_es fs))) ->
    runs error_action (fun w => w = Panic /\ test_opt KR_MOUNT_ERRORS_PANIC fs = true)
      (fun _ fs' => erred fs fs') fs1) as Hact.
  { intros fs1 H1 H2 H3 H4 H5 H6 H7. unfold error_action. step. step. cbn [id]. rewrite H4.
    destruct (test_opt KR_MOUNT_ERRORS_PANIC fs) eqn:Hp; [done|]. rewrite H5.
    destruct (test_opt KR_MOUNT_ERRORS_RO fs) eqn:Hr; split; rewrite ?Hr; try done;
      cbn; by rewrite H3. }
  destruct (sb_rdonly fs) eqn:Hro; cbn [negb].
  { apply runs_when; [done|]. intros _. by apply Hact. }
  apply runs_when; [intros _|done]. step. unfold upd_sbi, upd_es. step. step. step.
  set (fs1 := set_fs_es _ _). assert (core_of fs1 = core_of fs) as Hcore by done.
  destruct (sync_super_loaded true fs1) as [tr Hrun]; [by rewrite Hcore|].
  unfold runs at 1. rewrite Hrun. rewrite Hcore. by apply Hact.
Qed.

(** For a file system that is mounted. *)
Lemma get_group_desc_run error fs g : core_ok (core_of fs) -> 0 <= g < s_groups_count (fs_sbi fs) ->
  kr_get_group_desc_with error g fs = Ret (Some (gdp_of (core_of fs) g)) fs.
Proof. intros Hc%core_loaded. by apply get_group_desc_loaded. Qed.
Lemma desc_get_run fs g : core_ok (core_of fs) -> 0 <= g < s_groups_count (fs_sbi fs) ->
  desc_get (gdp_of (core_of fs) g) fs = Ret (group_desc (core_of fs) g) fs.
Proof. intros Hc%core_loaded. by apply desc_get_loaded. Qed.
Lemma count_groups_run error field fs : core_ok (core_of fs) ->
  (forall g, 0 <= g < c_ngroups (core_of fs) -> 0 <= field (group_desc (core_of fs) g) < 65536) ->
  count_groups error field fs = Ret (total (core_of fs) field) fs.
Proof. intros Hc%core_loaded. by apply count_groups_loaded. Qed.
Lemma count_free_blocks_run error fs : core_ok (core_of fs) ->
  kr_count_free_blocks_with error fs = Ret (total (core_of fs) bg_free_blocks_count) fs.
Proof. intros Hc%core_loaded. by apply count_free_blocks_loaded. Qed.
Lemma count_free_inodes_run error fs : core_ok (core_of fs) ->
  kr_count_free_inodes_with error fs = Ret (total (core_of fs) bg_free_inodes_count) fs.
Proof. intros Hc%core_loaded. by apply count_free_inodes_loaded. Qed.
Lemma count_dirs_run fs : core_ok (core_of fs) ->
  kr_count_dirs fs = Ret (total (core_of fs) bg_used_dirs_count) fs.
Proof. intros Hc%core_loaded. by apply count_dirs_loaded. Qed.
Lemma sync_super_run wait fs : core_ok (core_of fs) ->
  exists tr, kr_sync_super wait fs =
    Ret tt (set_fs_trace tr (set_fs_es (synced_es (core_of fs) (fs_es fs)) fs)).
Proof. intros Hc%core_loaded. by apply sync_super_loaded. Qed.
Lemma kr_error_spec fs : core_ok (core_of fs) ->
  runs kr_error (fun w => w = Panic /\ test_opt KR_MOUNT_ERRORS_PANIC fs = true)
    (fun _ fs' => erred fs fs') fs.
Proof. intros Hc%core_loaded. by apply kr_error_loaded. Qed.

(** [kr_error] in a proof that does not look at what it writes. *)
Lemma kr_error_core_loaded E fs : loaded (core_of fs) -> E Panic ->
  runs kr_error E (fun _ fs' => core_of fs' = core_of fs /\ fs_uptodate fs' = fs_uptodate fs) fs.
Proof.
  intros Hc HE. pose proof (kr_error_loaded fs Hc) as He. unfold runs in *.
  destruct (kr_error fs); [destruct He; by split|]. by destruct He as [-> _].
Qed.
Lemma kr_error_core E fs : core_ok (core_of fs) -> E Panic ->
  runs kr_error E (fun _ fs' => core_of fs' = core_of fs /\ fs_uptodate fs' = fs_uptodate fs) fs.
Proof. intros Hc%core_loaded. by apply kr_error_core_loaded. Qed.

End Facts.
