(* ===== verification/Bitmap.v ===== *)
(** * Allocation in the bitmap of one group (balloc.c)

    [find_next_usable_block] and [kr_try_to_allocate], on the bitmap of the
    group.  Setting a bit takes the lock of the group, so a step of this file is
    one atomic test-and-set. *)

From S2P Require Import Prelude Bits Kr Rsv.

Section Ops.
Context `{BitOps}.

(** [s_blocks_per_group] and [s_first_data_block] *)
Variables bpg fdb : Z.

(** [ext2_set_bit_atomic], an access out of the bitmap being a fault. *)
Definition ext2_set_bit_atomic (i : Z) : M (list Z) bool :=
  d ← gets id;
  if (i <? 0) || (i >=? nbits d) then halt Fault
  else
    modify (fun d => snd (test_and_set_bit_le i d)) ;;
    mret (fst (test_and_set_bit_le i d)).

Definition find_next_usable_block (start : Z) (bh : list Z) (maxblocks : Z) : Z :=
  let scan :=
    let here := if start <? 0 then 0 else start in
    let p := Z.shiftr here 3 in
    let r := memscan bh p 0 (Z.shiftr (maxblocks + 7) 3 - p) in
    let next := Z.shiftl r 3 in
    if (next <? maxblocks) && (next >=? here) then next
    else bitmap_search_next_usable_block here bh maxblocks in
  if start >? 0 then
    let end_goal := Z.ldiff (start + 63) 63 in
    let end_goal := if end_goal >? maxblocks then maxblocks else end_goal in
    let here := find_next_zero_bit_le bh end_goal start in
    if here <? end_goal then here else scan
  else scan.

(** The range of the allocation, and the goal in it. *)
Definition allocation_range (group grp_goal : Z) (my_rsv : option kr_reserve_window) : Z * Z * Z :=
  match my_rsv with
  | Some rsv =>
      let group_first_block := kr_group_first_block_no bpg fdb group in
      let start := if _rsv_start rsv >=? group_first_block
                   then s32 (_rsv_start rsv - group_first_block) else 0 in
      let end_ := s32 (_rsv_end rsv - group_first_block + 1) in
      let end_ := if u64 end_ >? bpg then bpg else end_ in
      if (start <=? grp_goal) && (grp_goal <? end_) then (grp_goal, end_, grp_goal)
      else (start, end_, -1)
  | None => (if grp_goal >? 0 then grp_goal else 0, bpg, grp_goal)
  end.

(** The seven steps back from the free block that was found. *)
Fixpoint step_back (n : nat) (d : list Z) (start grp_goal : Z) : Z :=
  match n with
  | O => grp_goal
  | S n' => if (grp_goal >? start) && negb (test_bit_le (grp_goal - 1) d)
            then step_back n' d start (grp_goal - 1) else grp_goal
  end.

(** The code from [repeat] on: the first block claimed, [None] at [fail_access]. *)
Definition claim_first (no_rsv : bool) (end_ : Z) (p : Z * Z)
    : M (list Z) ((Z * Z) + option Z) :=
  let '(start, grp_goal) := p in
  d ← gets id;
  let found := find_next_usable_block start d end_ in
  let grp_goal :=
    if grp_goal <? 0 then
      if (found >=? 0) && no_rsv then step_back 7 d start found else found
    else grp_goal in
  if grp_goal <? 0 then mret (inr None)
  else
    taken ← ext2_set_bit_atomic grp_goal;
    if (taken : bool) then
      if grp_goal + 1 >=? end_ then mret (inr None)
      else mret (inl (grp_goal + 1, grp_goal + 1))
    else mret (inr (Some grp_goal)).

(** The blocks after the first: [num] of them are claimed, up to [grp_goal]. *)
Definition claim_more (end_ count : Z) (p : Z * Z) : M (list Z) ((Z * Z) + (Z * Z)) :=
  let '(grp_goal, num) := p in
  if (num <? count) && (grp_goal <? end_) then
    taken ← ext2_set_bit_atomic grp_goal;
    if (taken : bool) then mret (inr p) else mret (inl (grp_goal + 1, num + 1))
  else mret (inr p).

(** The answer is the block and the number claimed there ([count] on return). *)
Definition kr_try_to_allocate (group grp_goal count : Z) (my_rsv : option kr_reserve_window)
    : M (list Z) (Z * Z) :=
  let '(start, end_, grp_goal) := allocation_range group grp_goal my_rsv in
  bug_on (u64 start >? bpg) ;;
  first ← loop (S (S (Z.to_nat bpg)))
            (claim_first (match my_rsv with None => true | Some _ => false end) end_)
            (start, grp_goal);
  match first with
  | None => mret (-1, 0)
  | Some b =>
      r ← loop (S (Z.to_nat bpg)) (claim_more end_ count) (b + 1, 1);
      let '(grp_goal, num) := r in mret (s32 (grp_goal - num), num)
  end.

End Ops.

(** ** Facts *)

Section Facts.
Context {B : BitOps} {BL : BitLaws B}.

(** The bits of [lo, hi) are set. *)
Definition full (d : list Z) (lo hi : Z) : Prop := forall j, lo <= j < hi -> bit d j = true.
(** The bits of [lo, hi) are clear. *)
Definition free (d : list Z) (lo hi : Z) : Prop := forall j, lo <= j < hi -> bit d j = false.

(** [d'] is [d] with the bits of [lo, hi) set. *)
Definition claimed (d d' : list Z) (lo hi : Z) : Prop :=
  len d' = len d /\ forall j, 0 <= j -> bit d' j = bit d j || ((lo <=? j) && (j <? hi)).

Lemma claimed_nbits d d' lo hi : claimed d d' lo hi -> nbits d' = nbits d.
Proof. intros [H _]. unfold nbits. lia. Qed.

Lemma claimed_refl d lo : claimed d d lo lo.
Proof.
  split; [done|]. intros j _.
  destruct (Z.leb_spec lo j), (Z.ltb_spec j lo); simpl; try lia; by rewrite orb_false_r.
Qed.

Lemma claimed_same d d' a : claimed d d' a a <-> len d' = len d /\ forall j, 0 <= j -> bit d' j = bit d j.
Proof.
  assert (forall j, (a <=? j) && (j <? a) = false) as Ha by lia.
  unfold claimed. setoid_rewrite Ha. by setoid_rewrite orb_false_r.
Qed.

Lemma claimed_after d0 d d' a x y : claimed d0 d a a -> claimed d d' x y -> claimed d0 d' x y.
Proof.
  intros [Hl Hb]%claimed_same [Hl' Hb']. split; [congruence|].
  intros j Hj. by rewrite Hb', Hb.
Qed.

Lemma claimed_snoc d d' lo hi : claimed d d' lo hi -> 0 <= lo <= hi -> hi < nbits d ->
  claimed d (snd (test_and_set_bit_le hi d')) lo (hi + 1).
Proof.
  intros Hc Hle Hhi. pose proof (claimed_nbits _ _ _ _ Hc) as Hn. destruct Hc as [Hl Hb].
  split; [by rewrite set_bit_len|].
  intros j Hj. rewrite set_bit_law by lia. rewrite Hb by done.
  destruct (Z.eqb_spec j hi), (Z.leb_spec lo j), (Z.ltb_spec j hi), (Z.ltb_spec j (hi + 1));
    destruct (bit d j); simpl; done || lia.
Qed.

Lemma claimed_set d lo : 0 <= lo < nbits d -> claimed d (snd (test_and_set_bit_le lo d)) lo (lo + 1).
Proof. intros. apply claimed_snoc; [apply claimed_refl|lia|lia]. Qed.

(** Setting a bit that is set changes nothing. *)
Lemma set_again d i j : 0 <= i < nbits d -> 0 <= j -> bit d i = true ->
  bit (snd (test_and_set_bit_le i d)) j = bit d j.
Proof.
  intros Hi Hj Hb. rewrite set_bit_law by done.
  destruct (Z.eqb_spec j i) as [->|]; [by rewrite Hb|done].
Qed.

Lemma search_next_spec start d max :
  0 <= start < max -> max <= nbits d ->
  let r := bitmap_search_next_usable_block start d max in
  (r = -1 /\ full d start max) \/ (start <= r < max /\ bit d r = false).
Proof.
  intros Hs Hm. unfold bitmap_search_next_usable_block. cbv zeta.
  pose proof (find_zero_bounds d max start ltac:(lia) Hm) as Hb.
  pose proof (find_zero_at d max start ltac:(lia) Hm) as Ha.
  destruct (find_next_zero_bit_le d max start >=? max) eqn:Hge; [left|right; split; [lia|apply Ha; lia]].
  split; [done|]. intros j Hj. apply (find_zero_before d max start); lia.
Qed.

(** The search finds a free block of the range, unless there is none. *)
Lemma find_next_usable_spec start d max :
  0 <= start < max -> max <= nbits d ->
  let r := find_next_usable_block start d max in
  (r = -1 /\ full d start max) \/ (start <= r < max /\ bit d r = false).
Proof.
  intros Hs Hm. unfold find_next_usable_block. cbv zeta.
  assert ((start <? 0) = false) as -> by lia.
  assert (forall b : bool,
   let r := if b then Z.shiftl (memscan d (Z.shiftr start 3) 0
              (Z.shiftr (max + 7) 3 - Z.shiftr start 3)) 3
            else bitmap_search_next_usable_block start d max in
   (b = true -> start <= Z.shiftl (memscan d (Z.shiftr start 3) 0
              (Z.shiftr (max + 7) 3 - Z.shiftr start 3)) 3 < max) ->
   (r = -1 /\ full d start max) \/ (start <= r < max /\ bit d r = false)) as Hscan.
  { intros [|] r Hr; [|by apply search_next_spec]. specialize (Hr eq_refl). right.
    split; [done|]. subst r. rewrite !Z.shiftr_div_pow2 in * by lia. rewrite Z.shiftl_mul_pow2 in * by lia.
    change (2 ^ 3) with 8 in *. set (p := start / 8) in *. set (n := (max + 7) / 8 - p) in *.
    assert (0 <= p /\ 0 <= n) as [Hp Hn] by (unfold n, p; Z.to_euclidean_division_equations; lia).
    pose proof (memscan_bounds d p 0 n Hp Hn) as Hb.
    assert (memscan d p 0 n < p + n) as Hlt
      by (unfold n, p in *; Z.to_euclidean_division_equations; lia).
    apply bit_of_zero_byte. rewrite Z.div_mul by lia. by apply memscan_at. }
  assert (forall x m, (x <? m) && (x >=? start) = true -> start <= x < m) as Hand by lia.
  destruct (start >? 0) eqn:Hpos; [|apply Hscan, Hand].
  set (eg := if Z.ldiff (start + 63) 63 >? max then max else _).
  assert (eg <= max) as He by (unfold eg; destruct (_ >? max) eqn:?; lia).
  destruct (find_next_zero_bit_le d eg start <? eg) eqn:Hlt; [|apply Hscan, Hand].
  right. destruct (decide (start < eg)) as [Hse|Hse].
  - pose proof (find_zero_bounds d eg start ltac:(lia) ltac:(lia)).
    split; [lia|]. apply find_zero_at; lia.
  - rewrite find_zero_past in Hlt by lia. lia.
Qed.

Lemma step_back_spec d start : forall n g, 0 <= start <= g -> bit d g = false ->
  start <= step_back n d start g <= g /\ bit d (step_back n d start g) = false.
Proof.
  induction n as [|n IH]; intros g Hg Hb; simpl; [split; [lia|done]|].
  destruct (g >? start) eqn:Hgt; simpl; [|split; [lia|done]].
  rewrite test_bit_law by lia. destruct (bit d (g - 1)) eqn:Hb1; simpl; [split; [lia|done]|].
  destruct (IH (g - 1)) as [H1 H2]; [lia|done|]. split; [lia|done].
Qed.

(** What an allocation in [lo, hi) did. *)
Definition try_result (d d' : list Z) (lo hi count ret num : Z) : Prop :=
  (ret = -1 /\ num = 0 /\ full d lo hi /\ claimed d d' lo lo) \/
  (0 <= ret /\ lo <= ret /\ 1 <= num <= Z.max 1 count /\ ret + num <= hi /\
   free d ret (ret + num) /\ claimed d d' ret (ret + num)).

Lemma set_bit_run d i : 0 <= i < nbits d ->
  ext2_set_bit_atomic i d = Ret (bit d i) (snd (test_and_set_bit_le i d)).
Proof.
  intros Hi. unfold ext2_set_bit_atomic, mbind, M_bind, gets. simpl.
  replace ((i <? 0) || (i >=? nbits d)) with false by lia. simpl.
  by rewrite set_bit_old by lia.
Qed.

(** The loop of [claim_first] from a goal on. *)
Definition first_inv (d : list Z) (lo hi : Z) (p : Z * Z) (d' : list Z) : Prop :=
  claimed d d' lo lo /\ 0 <= lo /\ hi <= nbits d /\
  ((p = (lo, lo) \/ lo < hi /\ fst p = lo /\ snd p = -1) \/
   (snd p = fst p /\ lo <= snd p < hi /\ full d lo (snd p))).

Lemma claim_first_step no_rsv d lo hi p d' : lo < hi -> first_inv d lo hi p d' ->
  runs (claim_first no_rsv hi p) never (fun r d'' => match r with
    | inl p' => first_inv d lo hi p' d'' /\ hi - snd p' < hi - snd p
    | inr None => full d lo hi /\ claimed d d'' lo lo
    | inr (Some b) => lo <= b < hi /\ bit d b = false /\ claimed d d'' b (b + 1)
    end) d'.
Proof.
  intros Hlt ((Hl & Hb) & Hlo & Hhi & Hp). destruct p as [start g]. simpl in Hp.
  assert (nbits d' = nbits d) as Hn by (unfold nbits; lia).
  assert (forall j, 0 <= j -> bit d' j = bit d j) as Hbit.
  { intros j Hj. rewrite Hb by done.
    destruct (Z.leb_spec lo j), (Z.ltb_spec j lo); simpl; try lia; by rewrite orb_false_r. }
  unfold claim_first. step. step. cbn [id]. cbv zeta.
  set (g1 := if g <? 0 then _ else g).
  assert ((g1 = -1 /\ full d lo hi) \/
    (lo <= g1 < hi /\ g <= g1 /\ (bit d g1 = false \/ full d lo g1))) as Hg1.
  { subst g1. destruct (Z.ltb_spec g 0) as [Hneg|Hnn]; [|right; split; [|split; [lia|right]]].
    - assert (start = lo) as -> by (destruct Hp as [[?|?]|?]; simplify_eq; lia).
      destruct (find_next_usable_spec lo d' hi) as [[Hf Hfull]|[Hf Hfree]]; [lia|lia| |].
      + rewrite Hf. simpl. left. split; [done|]. intros j Hj. rewrite <- Hbit by lia. by apply Hfull.
      + right. assert (forall x, lo <= x < hi -> bit d' x = false ->
          lo <= x < hi /\ g <= x /\ (bit d x = false \/ full d lo x)) as Hx.
        { intros x Hx Hxb. split; [done|]. split; [lia|]. left. rewrite <- Hbit by lia. done. }
        destruct (find_next_usable_block lo d' hi >=? 0); cbn [andb]; [|by apply Hx].
        destruct no_rsv; [|by apply Hx].
        destruct (step_back_spec d' lo 7 (find_next_usable_block lo d' hi)) as [H1 H2]; [lia|done|].
        apply Hx; [lia|done].
    - destruct Hp as [[?|?]|(? & ? & _)]; simplify_eq; lia.
    - destruct Hp as [[?|?]|(? & ? & ?)]; simplify_eq; [intros j Hj; lia|lia|done]. }
  destruct Hg1 as [[-> Hfull]|(Hr & Hge & Hg1)]; simpl; [step; split; [done|split; done]|].
  replace (g1 <? 0) with false by lia. step.
  unfold runs at 1. rewrite set_bit_run by lia. rewrite Hbit by lia.
  destruct (bit d g1) eqn:Hbg.
  - destruct Hg1 as [?|Hpre]; [done|].
    assert (full d lo (g1 + 1)) as Hfull'
      by (intros j Hj; destruct (decide (j = g1)) as [->|]; [done|apply Hpre; lia]).
    assert (claimed d (snd (test_and_set_bit_le g1 d')) lo lo) as Hc.
    { split; [by rewrite set_bit_len|]. intros j Hj.
      rewrite set_again by (rewrite ?Hbit; done || lia). by apply Hb. }
    destruct (g1 + 1 >=? hi) eqn:Hend; step.
    + split; [|done]. intros j Hj. apply Hfull'. lia.
    + simpl. split; [|lia]. split; [done|]. simpl. split_and!; try lia.
      right. split; [done|]. split; [lia|done].
  - step. split; [done|]. split; [done|].
    assert (claimed d d' g1 g1) as Hc.
    { split; [done|]. intros j Hj. rewrite Hbit by done.
      destruct (Z.leb_spec g1 j), (Z.ltb_spec j g1); simpl; try lia; by rewrite orb_false_r. }
    apply claimed_snoc; [done|lia|lia].
Qed.

Lemma claim_more_step d b hi count p d' : 0 <= b -> hi <= nbits d ->
  let inv (p : Z * Z) d' := 1 <= snd p <= Z.max 1 count /\ fst p = b + snd p /\ fst p <= hi /\
    free d b (fst p) /\ claimed d d' b (fst p) in
  inv p d' ->
  runs (claim_more hi count p) never (fun r d'' => match r with
    | inl p' => inv p' d'' /\ hi - fst p' < hi - fst p
    | inr p' => inv p' d''
    end) d'.
Proof.
  intros Hb Hhi inv Hinv. pose proof Hinv as (H1 & H2 & H3 & Hfree & Hc).
  destruct p as [g num]. simpl in *.
  pose proof (claimed_nbits _ _ _ _ Hc) as Hn.
  unfold claim_more. destruct ((num <? count) && (g <? hi)) eqn:Hcond; [|by step].
  step. unfold runs at 1. rewrite set_bit_run by lia.
  assert (bit d' g = bit d g) as Hg.
  { rewrite (proj2 Hc) by lia. replace ((b <=? g) && (g <? g)) with false by lia. by rewrite orb_false_r. }
  destruct (bit d' g) eqn:Hbg; step.
  - assert (claimed d (snd (test_and_set_bit_le g d')) b g) as Hc'.
    { split; [by rewrite set_bit_len; apply Hc|].
      intros j Hj. rewrite set_again by (done || lia). by apply Hc. }
    unfold inv. simpl. split; [lia|]. split; [lia|]. split; [lia|]. by split.
  - assert (free d b (g + 1)) as Hfree'.
    { intros j Hj. destruct (decide (j = g)) as [->|]; [congruence|apply Hfree; lia]. }
    unfold inv. simpl. split; [|lia]. split; [lia|]. split; [lia|]. split; [lia|]. split; [done|].
    apply (claimed_snoc _ _ _ _ Hc); lia.
Qed.

(** The range [kr_try_to_allocate] works on. *)
Definition range_of (bpg gfb grp_goal : Z) (my_rsv : option kr_reserve_window) : Z * Z :=
  match my_rsv with
  | Some rsv =>
      let lo := Z.max 0 (_rsv_start rsv - gfb) in
      let hi := Z.min bpg (_rsv_end rsv - gfb + 1) in
      (if (lo <=? grp_goal) && (grp_goal <? hi) then grp_goal else lo, hi)
  | None => (Z.max 0 grp_goal, bpg)
  end.

(** A window that lies in the group in part. *)
Definition meets (bpg gfb : Z) (my_rsv : option kr_reserve_window) : Prop :=
  match my_rsv with
  | Some rsv => 0 <= _rsv_start rsv <= _rsv_end rsv /\ _rsv_end rsv < 1099511627776 /\
      _rsv_start rsv < gfb + bpg /\ gfb <= _rsv_end rsv /\ _rsv_end rsv < gfb + 2147483647
  | None => True
  end.

Lemma allocation_range_spec bpg fdb group grp_goal my_rsv d :
  geometry bpg fdb group d -> -1 <= grp_goal < bpg ->
  let gfb := group * bpg + fdb in
  meets bpg gfb my_rsv ->
  let '(start, end_, goal) := allocation_range bpg fdb group grp_goal my_rsv in
  let '(lo, hi) := range_of bpg gfb grp_goal my_rsv in
  start = lo /\ end_ = hi /\ 0 <= lo < hi /\ hi <= bpg /\ (goal = lo \/ goal = -1).
Proof.
  intros Hgeo Hgoal gfb Hm. destruct (group_first _ _ _ _ Hgeo) as [Hgf Hgb]. fold gfb in Hgf, Hgb.
  assert (0 < bpg < 1073741824) as Hbpg by apply Hgeo.
  unfold allocation_range, range_of. destruct my_rsv as [rsv|]; simpl in Hm.
  - rewrite Hgf. wraps.
    assert ((if (_rsv_end rsv - gfb + 1 >? bpg) then bpg else _rsv_end rsv - gfb + 1)
      = Z.min bpg (_rsv_end rsv - gfb + 1)) as -> by (destruct (_ >? _) eqn:?; lia).
    assert ((if _rsv_start rsv >=? gfb then s32 (_rsv_start rsv - gfb) else 0)
      = Z.max 0 (_rsv_start rsv - gfb)) as ->
      by (destruct (_rsv_start rsv >=? gfb) eqn:?; wraps; lia).
    destruct ((_ <=? grp_goal) && _) eqn:He; split_and!; lia.
  - destruct (grp_goal >? 0) eqn:He; split_and!; lia.
Qed.

(** [kr_try_to_allocate] claims a run of free blocks of its range, at most as
    many as it was asked for, and changes no other bit; it fails only when the
    range is full. *)
Lemma kr_try_to_allocate_spec bpg fdb group grp_goal count my_rsv d :
  geometry bpg fdb group d -> -1 <= grp_goal < bpg ->
  let gfb := group * bpg + fdb in
  meets bpg gfb my_rsv ->
  let '(lo, hi) := range_of bpg gfb grp_goal my_rsv in
  runs (kr_try_to_allocate bpg fdb group grp_goal count my_rsv) never
    (fun r d' => try_result d d' lo hi count (fst r) (snd r)) d.
Proof.
  intros Hgeo Hgoal gfb Hm.
  pose proof (allocation_range_spec _ _ _ _ _ _ Hgeo Hgoal Hm) as Hr. fold gfb in Hr.
  assert (0 < bpg < 1073741824 /\ bpg <= nbits d) as [Hbpg Hbits] by (split; apply Hgeo).
  unfold kr_try_to_allocate. destruct (allocation_range _ _ _ _ _) as [[start end_] goal].
  destruct (range_of _ _ _ _) as [lo hi]. destruct Hr as (-> & -> & Hlo & Hhi & Hg).
  step. apply runs_bug_on; [wraps; lia|]. step.
  eapply runs_mono.
  - eapply (runs_loop never (first_inv d lo hi) (fun p _ => hi - snd p)).
    + intros p s Hi. split; [|apply claim_first_step; [lia|exact Hi]].
      destruct Hi as (_ & _ & _ & [[->|(_ & _ & ->)]|(_ & ? & _)]); simpl; lia.
    + split_and!; [apply claimed_refl|lia|lia|]. left.
      destruct Hg as [->| ->]; [by left|right]. simpl. lia.
    + simpl. lia.
  - intros [b|] d'; cbv beta iota; [|intros [Hf Hc]; step; left; done].
    intros (Hb & Hfb & Hc). step.
    eapply runs_mono.
    + eapply (runs_loop never (fun p d' => 1 <= snd p <= Z.max 1 count /\ fst p = b + snd p /\
        fst p <= hi /\ free d b (fst p) /\ claimed d d' b (fst p)) (fun p _ => hi - fst p)).
      * intros p s Hi. split; [lia|]. apply claim_more_step; [lia|lia|exact Hi].
      * simpl. split_and!; try lia; [|exact Hc].
        intros j Hj. by replace j with b by lia.
      * simpl. lia.
    + intros [g num] s; simpl. intros (Hn & -> & Hh & Hf & Hc'). step. right. simpl.
      replace (b + num - num) with b by lia. wraps. split_and!; try done; lia.
Qed.

End Facts.
