(* ===== verification/Alloc.v ===== *)
(** * Allocation in one group, through a reservation window (balloc.c)

    [kr_try_to_allocate_with_rsv] combines the windows of Rsv.v with the bitmap
    of Bitmap.v: a file that has a window claims blocks of the group only from
    it, and gets a new window when the old one is exhausted. *)

From S2P Require Import Prelude Bits Kr Rsv Bitmap.

(** The windows and the bitmap of the group. *)
Definition grpst : Type := rsvst * list Z.
Definition on_rsv {A} (m : M rsvst A) : M grpst A := lift fst (fun r s => (r, s.2)) m.
Definition on_bits {A} (m : M (list Z) A) : M grpst A := lift snd (fun d s => (s.1, d)) m.

Section Ops.
Context `{BitOps, RbTree, Trylock}.
Variables bpg fdb : Z.

(** The window is made ready: the goal to go on with, or [None] at the [break]. *)
Definition prepare_window (my_rsv group count grp_goal ret : Z) : M grpst (option Z * Z) :=
  let group_first_block := kr_group_first_block_no bpg fdb group in
  w ← gets (fun s => rsv_at s.1 my_rsv);
  if rsv_is_empty (rsv_window w) || (ret <? 0)
     || negb (goal_in_my_reservation bpg fdb (rsv_window w) grp_goal group)
  then
    when (rsv_goal_size w <? count)
      (on_rsv (modify (rsv_put my_rsv
         (ReserveWindowNode (u32 count) (rsv_alloc_hit w) (rsv_window w))))) ;;
    bitmap ← gets snd;
    ret ← on_rsv (alloc_new_reservation bpg fdb my_rsv grp_goal group bitmap);
    if ret <? 0 then mret (None, ret)
    else
      w ← gets (fun s => rsv_at s.1 my_rsv);
      mret (Some (if goal_in_my_reservation bpg fdb (rsv_window w) grp_goal group
                  then grp_goal else -1), ret)
  else if grp_goal >=? 0 then
    let curr := s32 (rsv_end w - (grp_goal + group_first_block) + 1) in
    when (u64 curr <? count)
      (on_rsv (try_to_extend_reservation my_rsv (s32 (u64 (count - curr))))) ;;
    mret (Some grp_goal, ret)
  else mret (Some grp_goal, ret).

(** One turn of the loop; the state of the loop is [(grp_goal, ret)]. *)
Definition rsv_turn (my_rsv group count : Z) (p : Z * Z) : M grpst ((Z * Z) + (Z * Z)) :=
  let '(grp_goal, ret) := p in
  let group_first_block := kr_group_first_block_no bpg fdb group in
  let group_last_block := u64 (group_first_block + (bpg - 1)) in
  g ← prepare_window my_rsv group count grp_goal ret;
  let '(goal, ret) := g in
  match goal with
  | None => mret (inr (ret, count))
  | Some grp_goal =>
      w ← gets (fun s => rsv_at s.1 my_rsv);
      bug_on ((rsv_start w >? group_last_block) || (rsv_end w <? group_first_block)) ;;
      r ← on_bits (kr_try_to_allocate bpg fdb group grp_goal count (Some (rsv_window w)));
      let '(ret, num) := r in
      if ret >=? 0 then
        on_rsv (modify (rsv_put my_rsv
          (ReserveWindowNode (rsv_goal_size w) (u32 (rsv_alloc_hit w + num)) (rsv_window w)))) ;;
        mret (inr (ret, num))
      else mret (inl (grp_goal, ret))
  end.

(** The answer is the block, or a negative number, and [count] on return. *)
Definition kr_try_to_allocate_with_rsv (group grp_goal : Z) (my_rsv : option Z) (count : Z)
    : M grpst (Z * Z) :=
  match my_rsv with
  | None => on_bits (kr_try_to_allocate bpg fdb group grp_goal count None)
  | Some my_rsv => loop 2 (rsv_turn my_rsv group count) (grp_goal, 0)
  end.

End Ops.

(** ** Facts *)

Section Facts.
Context {B : BitOps} {BL : BitLaws B} {R : RbTree} {RL : RbLaws R} {T : Trylock}.

(** The window of a file that allocates: its size is at most [size]. *)
Record rsv_ready (st : rsvst) (my size : Z) : Prop := {
  rr_wf : rsv_wf st;
  rr_mine : my <> rsv_head;
  rr_goal : 0 < rsv_goal_size (rsv_at st my) < 268435456;
  rr_size : rsv_end (rsv_at st my) <> 0 ->
    rsv_end (rsv_at st my) < rsv_start (rsv_at st my) + size;
}.

Lemma rsv_in_window st my : rsv_wf st -> my <> rsv_head ->
  rsv_is_empty (rsv_window (rsv_at st my)) = false -> my ∈ wins st.
Proof.
  intros Hwf Hmy He. apply (wf_linked _ Hwf my Hmy). unfold rsv_is_empty in He.
  by apply Z.eqb_neq in He.
Qed.

Lemma goal_in_spec bpg fdb group bitmap w goal : geometry bpg fdb group bitmap ->
  -1 <= goal < bpg ->
  let gfb := group * bpg + fdb in
  goal_in_my_reservation bpg fdb w goal group = true ->
  _rsv_start w < gfb + bpg /\ gfb <= _rsv_end w /\
  (0 <= goal -> _rsv_start w <= gfb + goal <= _rsv_end w).
Proof.
  intros Hgeo Hgoal gfb. destruct (group_first _ _ _ _ Hgeo) as [Hgf Hgb]. fold gfb in Hgf, Hgb.
  assert (0 < bpg < 1073741824) as Hbpg by apply Hgeo.
  unfold goal_in_my_reservation. rewrite Hgf. cbv zeta. wraps.
  destruct ((_rsv_start w >? gfb + bpg - 1) || (_rsv_end w <? gfb)) eqn:H1; [done|].
  destruct (goal >=? 0) eqn:Hg; cbn [andb]; [|intros _; lia]. wraps.
  destruct ((goal + gfb <? _rsv_start w) || (goal + gfb >? _rsv_end w)) eqn:H2; [done|]. lia.
Qed.

(** The size a window can grow to while its file allocates [count] blocks. *)
Definition window_bound (size count goal : Z) : Z :=
  Z.max size 268435456 + if goal <? 0 then 0 else count.

(** The range in the group that is left of the window for the goal [g]. *)
Definition open_range (st : rsvst) (my bpg gfb g : Z) : Z * Z :=
  range_of bpg gfb g (Some (rsv_window (rsv_at st my))).

(** What making the window ready does. *)
Record prepared (st st' : rsvst) (my bpg gfb bound : Z) (d : list Z) (fresh : Prop)
    (goal : option Z) (ret : Z) : Prop := {
  pr_ready : rsv_ready st' my bound;
  pr_others : only_mine my st st';
  pr_goal : match goal with
            | None => ret < 0
            | Some g =>
                my ∈ wins st' /\ -1 <= g < bpg /\
                meets bpg gfb (Some (rsv_window (rsv_at st' my))) /\
                (fresh -> exists b, bit d b = false /\
                   (open_range st' my bpg gfb g).1 <= b < (open_range st' my bpg gfb g).2)
            end;
}.

Lemma ready_meets st my bpg gfb bound : rsv_wf st -> my ∈ wins st ->
  rsv_end (rsv_at st my) < rsv_start (rsv_at st my) + bound -> bound < 1073741823 ->
  bpg < 1073741824 ->
  rsv_start (rsv_at st my) < gfb + bpg -> gfb <= rsv_end (rsv_at st my) ->
  meets bpg gfb (Some (rsv_window (rsv_at st my))).
Proof.
  intros Hwf Hin Hb Hb1 Hbpg H1 H2. destruct (wf_window _ Hwf _ Hin) as [Hv1 Hv2].
  unfold rsv_start, rsv_end in *. simpl. lia.
Qed.

(** The path through [alloc_new_reservation]. *)
Lemma prepare_new bpg fdb group d st my size count goal :
  geometry bpg fdb group d -> -1 <= goal < bpg -> 1 <= count < 268435456 ->
  rsv_ready st my size -> size <= 536870912 ->
  let gfb := group * bpg + fdb in
  runs (when (rsv_goal_size (rsv_at st my) <? count)
      (on_rsv (modify (rsv_put my
         (ReserveWindowNode (u32 count) (rsv_alloc_hit (rsv_at st my)) (rsv_window (rsv_at st my)))))) ;;
    bitmap ← gets snd;
    ret ← on_rsv (alloc_new_reservation bpg fdb my goal group bitmap);
    if ret <? 0 then mret (None, ret)
    else
      w ← gets (fun s => rsv_at s.1 my);
      mret (Some (if goal_in_my_reservation bpg fdb (rsv_window w) goal group
                  then goal else -1), ret)) never
    (fun r s => s.2 = d /\ prepared st s.1 my bpg gfb (Z.max size 268435456) d True r.1 r.2) (st, d).
Proof.
  intros Hgeo Hgoal Hcount [Hwf Hmy Hgs Hsz] Hsize gfb.
  set (st1 := if rsv_goal_size (rsv_at st my) <? count then
    rsv_put my (ReserveWindowNode (u32 count) (rsv_alloc_hit (rsv_at st my))
      (rsv_window (rsv_at st my))) st else st).
  apply runs_bind.
  assert (forall Q, Q tt (st1, d) -> runs (when (rsv_goal_size (rsv_at st my) <? count)
      (on_rsv (modify (rsv_put my (ReserveWindowNode (u32 count) (rsv_alloc_hit (rsv_at st my))
        (rsv_window (rsv_at st my))))))) never Q (st, d)) as Hwhen
    by (intros Q; unfold st1; destruct (_ <? count); done).
  apply Hwhen. clear Hwhen. cbv beta. step. step. step. cbn [snd].
  assert (rsv_wf st1 /\ only_mine my st st1 /\
    rsv_goal_size (rsv_at st1 my) = Z.max (rsv_goal_size (rsv_at st my)) count /\
    rsv_window (rsv_at st1 my) = rsv_window (rsv_at st my)) as (Hwf1 & Hom1 & Hgs1 & Hwin1).
  { unfold st1. destruct (Z.ltb_spec (rsv_goal_size (rsv_at st my)) count); [|split_and!; try done; lia].
    rewrite rsv_at_put_eq. simpl. wraps. split_and!; [by apply grow_wf|by apply only_mine_put|lia|done]. }
  clearbody st1. unfold on_rsv at 1. step. cbn [fst].
  call (alloc_new_reservation_spec bpg fdb group d st1 my goal); try done; try lia.
  intros ret st' [Hwf' Hom' Hgs' Hret Hlost Hgot]. fold gfb in Hgot.
  unfold KR_MAX_RESERVE_BLOCKS in Hgs'.
  assert (only_mine my st st') as Hom by (by eapply only_mine_trans).
  destruct (Z.ltb_spec ret 0) as [Hneg|Hnn].
  - step. split; [done|]. cbn [fst snd]. split; [split; try done; [lia|]|done|done].
    intros Hne. destruct Hlost as [He|He]; [lia|done|].
    unfold rsv_end, rsv_start in *. rewrite He, Hwin1 in *. specialize (Hsz Hne). lia.
  - assert (ret = 0) as -> by lia. destruct (Hgot eq_refl) as (Hin & (b & Hb & Hfree & Hbw) & Hst & Hend).
    step. step. split; [done|]. cbn [fst snd].
    split; [split; try done; lia|done|]. split; [done|].
    destruct (goal_in_my_reservation _ _ _ _ _) eqn:Hg.
    + destruct (goal_in_spec _ _ _ _ _ _ Hgeo Hgoal Hg) as (H1 & H2 & H3). fold gfb in H1, H2, H3.
      fold (rsv_start (rsv_at st' my)) in H1, H3. fold (rsv_end (rsv_at st' my)) in H2, H3.
      split; [done|]. split; [apply (ready_meets _ _ _ _ (Z.max size 268435456)); try done; try lia; apply Hgeo|].
      intros _. exists b. split; [done|]. unfold open_range, range_of.
      fold (rsv_start (rsv_at st' my)) (rsv_end (rsv_at st' my)).
      destruct (_ && _) eqn:Hc; cbn [fst snd]; lia.
    + split; [lia|]. split; [apply (ready_meets _ _ _ _ (Z.max size 268435456)); try done; try lia; apply Hgeo|].
      intros _. exists b. split; [done|]. unfold open_range, range_of.
      fold (rsv_start (rsv_at st' my)) (rsv_end (rsv_at st' my)).
      destruct (_ && _) eqn:Hc; cbn [fst snd]; lia.
Qed.

(** The path that keeps the window, and makes it longer for a goal in it. *)
Lemma prepare_keep bpg fdb group d st my size count goal (ret : Z) :
  geometry bpg fdb group d -> -1 <= goal < bpg -> 1 <= count < 268435456 ->
  rsv_ready st my size -> size <= 536870912 ->
  rsv_is_empty (rsv_window (rsv_at st my)) = false ->
  goal_in_my_reservation bpg fdb (rsv_window (rsv_at st my)) goal group = true ->
  let gfb := group * bpg + fdb in
  runs (if goal >=? 0 then
      let curr := s32 (rsv_end (rsv_at st my) - (goal + kr_group_first_block_no bpg fdb group) + 1) in
      when (u64 curr <? count)
        (on_rsv (try_to_extend_reservation my (s32 (u64 (count - curr))))) ;;
      mret (Some goal, ret)
    else mret (Some goal, ret)) never
    (fun r s => s.2 = d /\
       prepared st s.1 my bpg gfb (window_bound size count goal) d False r.1 r.2) (st, d).
Proof.
  intros Hgeo Hgoal Hcount [Hwf Hmy Hgs Hsz] Hsize He Hg gfb.
  destruct (group_first _ _ _ _ Hgeo) as [Hgf Hgb]. fold gfb in Hgf, Hgb.
  destruct (goal_in_spec _ _ _ _ _ _ Hgeo Hgoal Hg) as (H1 & H2 & H3). fold gfb in H1, H2, H3.
  fold (rsv_start (rsv_at st my)) in H1, H3. fold (rsv_end (rsv_at st my)) in H2, H3.
  pose proof (rsv_in_window _ _ Hwf Hmy He) as Hin.
  assert (rsv_end (rsv_at st my) <> 0) as Hne by by apply (wf_linked _ Hwf my Hmy).
  specialize (Hsz Hne).
  assert (bpg < 1073741824) as Hbpg by apply Hgeo.
  assert (forall bound, bound < 1073741823 -> rsv_end (rsv_at st my) < rsv_start (rsv_at st my) + bound ->
    prepared st st my bpg gfb bound d False (Some goal) ret) as Hsame.
  { intros bound Hb1 Hb2. split; [split; try done; lia|done|]. split; [done|]. split; [done|].
    split; [|done]. by apply (ready_meets _ _ _ _ bound). }
  unfold window_bound. destruct (Z.ltb_spec goal 0); destruct (goal >=? 0) eqn:Hge; try lia.
  { step. split; [done|]. apply Hsame; lia. }
  cbv zeta. rewrite Hgf. wraps. step. step; [|step; split; [done|apply Hsame; lia]].
  unfold on_rsv. step. wraps.
  destruct (try_to_extend_spec st my (count - (rsv_end (rsv_at st my) - (goal + gfb) + 1)) Hwf Hmy Hin)
    as (st' & Hrun & Hwf' & Hom & Hw & Hgs' & Hst & Hend); [lia|lia|].
  unfold runs at 1. cbn [fst]. rewrite Hrun. step. split; [done|]. cbn [fst snd].
  split; [split; try done; lia|done|]. rewrite Hw. split; [done|]. split; [done|].
  split; [|done].
  apply (ready_meets _ _ _ _ (Z.max size 268435456 + count)); rewrite ?Hw; try done; lia.
Qed.

Lemma prepared_mono st st' my bpg gfb b b' d (P P' : Prop) goal ret :
  prepared st st' my bpg gfb b d P goal ret -> b <= b' -> (P' -> P) ->
  prepared st st' my bpg gfb b' d P' goal ret.
Proof.
  intros [[? ? ? Hs] Ho Hg] Hb HP. split; [split; try done|done|].
  - intros Hne. specialize (Hs Hne). lia.
  - destruct goal as [g|]; [|done]. destruct Hg as (? & ? & ? & Hf).
    split_and!; auto; lia.
Qed.

Lemma prepare_window_spec bpg fdb group d st my size count goal ret :
  geometry bpg fdb group d -> -1 <= goal < bpg -> 1 <= count < 268435456 ->
  rsv_ready st my size -> size <= 536870912 ->
  let gfb := group * bpg + fdb in
  runs (prepare_window bpg fdb my group count goal ret) never
    (fun r s => s.2 = d /\ prepared st s.1 my bpg gfb
         (window_bound size count (if ret <? 0 then -1 else goal)) d (ret < 0) r.1 r.2) (st, d).
Proof.
  intros Hgeo Hgoal Hcount Hr Hsize gfb. unfold prepare_window. cbv zeta. step. step. cbn [fst].
  destruct (rsv_is_empty (rsv_window (rsv_at st my)) || (ret <? 0) || negb _) eqn:Hnew.
  - eapply runs_mono; [by apply (prepare_new bpg fdb group d st my size)|].
    intros [g r] s [Hs Hp]. split; [done|]. eapply prepared_mono; [exact Hp| |done].
    unfold window_bound. destruct ((if ret <? 0 then -1 else goal) <? 0); lia.
  - apply orb_false_elim in Hnew as [[He Hneg]%orb_false_elim Hg%negb_false_iff].
    rewrite Hneg. eapply runs_mono; [by apply (prepare_keep bpg fdb group d st my size)|].
    intros [g r] s [Hs Hp]. split; [done|]. eapply prepared_mono; [exact Hp|reflexivity|].
    apply Z.ltb_ge in Hneg. lia.
Qed.

(** What the allocation has done: the blocks are in the window of the file. *)
Record with_rsv (st st' : rsvst) (my bpg gfb bound count : Z) (d d' : list Z) (ret num : Z)
    : Prop := {
  wr_ready : rsv_ready st' my bound;
  wr_others : only_mine my st st';
  wr_ret : (ret < 0 /\ num = count /\ claimed d d' 0 0) \/
    (0 <= ret /\ ret + num <= bpg /\ 1 <= num <= count /\
     free d ret (ret + num) /\ claimed d d' ret (ret + num) /\
     rsv_start (rsv_at st' my) <= gfb + ret /\ gfb + ret + num - 1 <= rsv_end (rsv_at st' my));
}.

Definition turn_inv (bpg count size : Z) (my : Z) (st0 : rsvst) (d0 : list Z)
    (p : Z * Z) (s : grpst) : Prop :=
  -1 <= fst p < bpg /\ claimed d0 s.2 0 0 /\ only_mine my st0 s.1 /\ rsv_ready s.1 my size.

Lemma bump_ready st my bound hit : rsv_ready st my bound ->
  let w := rsv_at st my in
  let st' := rsv_put my (ReserveWindowNode (rsv_goal_size w) hit (rsv_window w)) st in
  rsv_ready st' my bound /\ only_mine my st st' /\ rsv_window (rsv_at st' my) = rsv_window w.
Proof.
  intros [Hwf Hmy Hgs Hsz] w st'.
  assert (rsv_at st' my = ReserveWindowNode (rsv_goal_size w) hit (rsv_window w)) as Hat
    by apply rsv_at_put_eq.
  split; [|split; [apply only_mine_put|by rewrite Hat]].
  split; [by apply grow_wf|done|by rewrite Hat|by unfold rsv_end, rsv_start; rewrite Hat].
Qed.

(** One turn: it ends the loop, except when a kept window is found full. *)
Lemma rsv_turn_spec bpg fdb group d0 st0 my size count p s :
  geometry bpg fdb group d0 -> 1 <= count < 268435456 -> size <= 536870912 ->
  let gfb := group * bpg + fdb in
  turn_inv bpg count size my st0 d0 p s ->
  runs (rsv_turn bpg fdb my group count p) never
    (fun r s' => match r with
     | inl p' => turn_inv bpg count (window_bound size count (fst p)) my st0 d0 p' s' /\
         0 <= snd p /\ snd p' < 0
     | inr (ret, num) => with_rsv st0 s'.1 my bpg gfb
         (window_bound size count (if snd p <? 0 then -1 else fst p)) count d0 s'.2 ret num
     end) s.
Proof.
  intros Hgeo Hcount Hsize gfb (Hgoal & Hc & Hom & Hr). destruct p as [goal ret], s as [st d].
  cbn [fst snd] in *.
  assert (geometry bpg fdb group d) as Hgeo'.
  { unfold geometry in *. by rewrite (claimed_nbits _ _ _ _ Hc). }
  destruct (group_first _ _ _ _ Hgeo) as [Hgf Hgb]. fold gfb in Hgf, Hgb.
  assert (0 < bpg) as Hbpg by apply Hgeo.
  unfold rsv_turn. cbv zeta. step.
  eapply runs_mono; [by apply (prepare_window_spec bpg fdb group d st my size count goal ret)|].
  cbv beta. intros [g r] [st' d'] [Hd [Hr' Hom' Hg]]. fold gfb in Hg. cbn [fst snd] in *. subst d'.
  assert (only_mine my st0 st') as Hom0 by (by eapply only_mine_trans).
  destruct g as [g|]; [|step; split; [done|done|left; done]].
  destruct Hg as (Hin & Hg & Hm & Hfresh). rewrite Hgf. wraps.
  step. step. cbn [fst]. step.
  apply runs_bug_on; [unfold meets in Hm; unfold rsv_start, rsv_end; lia|].
  unfold on_bits. step. step. cbn [snd].
  pose proof (kr_try_to_allocate_spec bpg fdb group g count (Some (rsv_window (rsv_at st' my))) d
    Hgeo' Hg Hm) as Htry. fold gfb in Htry. unfold open_range in Hfresh.
  destruct (range_of _ _ _ _) as [lo hi] eqn:Hrange.
  eapply runs_mono; [exact Htry|]. intros [ret' num] d'. cbn [fst snd] in *.
  intros [(-> & -> & Hfull & Hcl)|(H1 & H2 & H3 & H4 & Hf & Hcl)].
  - assert (0 <= ret) as Hret.
    { destruct (decide (ret < 0)) as [Hneg|]; [|lia].
      destruct (Hfresh Hneg) as (b & Hb & Hbr). cbn [fst snd] in Hbr. rewrite Hfull in Hb by done. done. }
    replace (ret <? 0) with false in * by lia. change (-1 >=? 0) with false. cbv iota.
    step. cbn [fst snd]. split; [|lia].
    split; [done|]. split; [|done]. cbn [snd].
    apply (claimed_after _ _ _ _ _ _ Hc). by apply claimed_same, (claimed_same _ _ lo).
  - replace (ret' >=? 0) with true by lia. cbv iota. unfold on_rsv. step. step. step. cbn [fst snd].
    destruct (bump_ready st' my _ (u32 (rsv_alloc_hit (rsv_at st' my) + num)) Hr') as (Hb1 & Hb2 & Hb3).
    split; [done|by eapply only_mine_trans|right].
    cbn [fst snd] in *. unfold rsv_start, rsv_end. rewrite Hb3.
    assert (_rsv_start (rsv_window (rsv_at st' my)) <= gfb + lo /\
      gfb + hi - 1 <= _rsv_end (rsv_window (rsv_at st' my)) /\ hi <= bpg) as (Hlo & Hhi & Hhb).
    { unfold range_of in Hrange. destruct (_ && _) eqn:?; simplify_eq; lia. }
    split; [done|]. split; [lia|]. split; [lia|]. split; [|split; [by eapply claimed_after|lia]].
    intros j Hj. rewrite <- (proj2 (proj1 (claimed_same _ _ _) Hc)) by lia. by apply Hf.
Qed.

(** [kr_try_to_allocate_with_rsv] claims free blocks of the group, all of them in
    the window of the file, and ends after two turns at most. *)
Lemma kr_try_to_allocate_with_rsv_spec bpg fdb group d st my size count goal :
  geometry bpg fdb group d -> -1 <= goal < bpg -> 1 <= count < 268435456 ->
  rsv_ready st my size -> window_bound size count goal <= 536870912 ->
  runs (kr_try_to_allocate_with_rsv bpg fdb group goal (Some my) count) never
    (fun r s => with_rsv st s.1 my bpg (group * bpg + fdb) (window_bound size count goal) count
       d s.2 r.1 r.2) (st, d).
Proof.
  intros Hgeo Hgoal Hcount Hr Hsize. unfold kr_try_to_allocate_with_rsv.
  set (bound := window_bound size count goal).
  assert (size <= bound) as Hb2
    by (unfold bound, window_bound; destruct (goal <? 0); lia).
  assert (window_bound bound count (-1) = bound) as Hbb
    by (unfold bound, window_bound; destruct (goal <? 0); simpl; lia).
  apply (runs_loop never
    (fun p s => turn_inv bpg count bound my st d p s /\ snd p < 0 \/
                turn_inv bpg count size my st d p s /\ p = (goal, 0))
    (fun p _ => if snd p <? 0 then 0 else 1)).
  - intros p s Hinv. split; [destruct (_ <? 0); lia|].
    destruct Hinv as [[Hinv Hneg]|[Hinv ->]].
    + eapply runs_mono; [by apply (rsv_turn_spec bpg fdb group d st my bound count)|].
      intros [p'|[ret num]] s'; [lia|]. cbn [fst snd].
      replace (snd p <? 0) with true by lia. by rewrite Hbb.
    + eapply runs_mono; [apply (rsv_turn_spec bpg fdb group d st my size count); try done; lia|].
      intros [p'|[ret num]] s'; cbn [fst snd]; [|done].
      intros (Hinv' & _ & Hneg). split; [left; by split|].
      replace (snd p' <? 0) with true by lia. done.
  - right. split; [|done]. split; [done|]. split; [apply claimed_refl|done].
  - done.
Qed.

End Facts.
