(* ===== verification/Balloc.v ===== *)
(** * Allocating and freeing blocks (balloc.c)

    The functions of balloc.c on the whole file system: reading the bitmap of a
    group, freeing a run of blocks, and allocating blocks near a goal, in every
    group if it must.  The windows, the bitmaps and the allocation in one group
    are Rsv.v, Bitmap.v and Alloc.v. *)

From S2P Require Import Prelude Bits Kr Rsv Bitmap Alloc State.

(** [in_range(b, first, len)], on unsigned longs *)
Definition in_range (b first len : Z) : bool := (b >=? first) && (b <=? u64 (u64 (first + len) - 1)).

Section Ops.
Context `{BitOps, RbTree, Trylock, Kernel}.

(** A bit of a buffer; an index outside of the buffer is a fault. *)
Definition kr_test_bit (offset : Z) (d : list Z) : M krfs bool :=
  if (offset <? 0) || (offset >=? nbits d) then halt Fault else mret (test_bit_le offset d).
Definition kr_find_next_zero_bit (d : list Z) (size offset : Z) : M krfs Z :=
  if (offset <? 0) || (size >? nbits d) then halt Fault
  else mret (find_next_zero_bit_le d size offset).
Definition ext2_clear_bit_atomic (b i : Z) : M krfs bool :=
  d ← buf_get b;
  if (i <? 0) || (i >=? nbits d) then halt Fault
  else
    buf_set b (snd (test_and_clear_bit_le i d)) ;;
    mret (fst (test_and_clear_bit_le i d)).

(** *** The bitmap of a group *)

Definition kr_valid_block_bitmap (desc : kr_group_desc) (block_group : Z) (d : list Z)
    : M krfs bool :=
  fs ← gets id;
  let itb := s_itb_per_group (fs_sbi fs) in
  let group_first_block := kr_group_first_block_no (s_blocks_per_group (fs_sbi fs))
        (es_first_data_block (fs_es fs)) block_group in
  let err_out := kr_error ;; mret false in
  b ← kr_test_bit (s32 (bg_block_bitmap desc - group_first_block)) d;
  if negb b then err_out
  else
    b ← kr_test_bit (s32 (bg_inode_bitmap desc - group_first_block)) d;
    if negb b then err_out
    else
      let offset := s32 (bg_inode_table desc - group_first_block) in
      next_zero_bit ← kr_find_next_zero_bit d (u64 (offset + itb)) offset;
      if s32 next_zero_bit >=? u64 (offset + itb) then mret true else err_out.

(** The answer is the block of the bitmap. *)
Definition read_block_bitmap (block_group : Z) : M krfs (option Z) :=
  desc ← kr_get_group_desc block_group;
  match desc with
  | None => mret None
  | Some p =>
      desc ← desc_get p;
      let bitmap_blk := bg_block_bitmap desc in
      if negb (sb_getblk_ok bitmap_blk) then kr_error ;; mret None
      else
        up ← buffer_uptodate bitmap_blk;
        if (up : bool) then mret (Some bitmap_blk)
        else
          ok ← bh_submit_read bitmap_blk;
          if negb ok then kr_error ;; mret None
          else
            d ← buf_get bitmap_blk;
            kr_valid_block_bitmap desc block_group d ;;
            mret (Some bitmap_blk)
  end.

Definition group_adjust_blocks (p : gdp) (count : Z) : M krfs unit :=
  when (negb (count =? 0))
    (desc ← desc_get p;
     desc_set p (set_bg_free_blocks_count (u16 (bg_free_blocks_count desc + count)) desc) ;;
     log (mark_buffer_dirty (BufDesc p.1))).

(** *** The reservation of an inode *)

(** [addr] is what [kmalloc] answers. *)
Definition kr_init_block_alloc_info (ino addr : Z) : M krfs unit :=
  fs ← gets id;
  let reservation := test_opt KR_MOUNT_RESERVATION fs in
  when kmalloc_ok
    (modify (fun fs => set_fs_rsv (rsv_put addr (init_window reservation) (fs_rsv fs)) fs)) ;;
  modify (fun fs => set_fs_inodes (alter (fun inode =>
    set_KR_I (set_i_block_alloc_info
      (if kmalloc_ok then Some (BlockAllocInfo addr 0 0) else None) (KR_I inode)) inode) ino
    (fs_inodes fs)) fs).

Definition kr_discard_reservation (ino : Z) : M krfs unit :=
  fs ← gets id;
  match i_block_alloc_info ∘ KR_I <$> fs_inodes fs !! ino with
  | Some (Some block_i) =>
      lift fs_rsv set_fs_rsv (discard_window (rsv_window_node block_i))
  | _ => mret tt
  end.

(** *** Freeing *)

(** The loop over the bits; the answer is [group_freed]. *)
Fixpoint clear_bits (n : nat) (bitmap_blk bit i group_freed : Z) : M krfs Z :=
  match n with
  | O => mret group_freed
  | S n' =>
      was ← ext2_clear_bit_atomic bitmap_blk (bit + i);
      if (was : bool) then clear_bits n' bitmap_blk bit (i + 1) (u32 (group_freed + 1))
      else kr_error ;; clear_bits n' bitmap_blk bit (i + 1) group_freed
  end.

(** Whether a run of blocks touches the bitmaps or the inode table of the group. *)
Definition in_system_zone (fs : krfs) (desc : kr_group_desc) (block count : Z) : bool :=
  let itb := s_itb_per_group (fs_sbi fs) in
  in_range (bg_block_bitmap desc) block count || in_range (bg_inode_bitmap desc) block count ||
  in_range block (bg_inode_table desc) itb ||
  in_range (u64 (u64 (block + count) - 1)) (bg_inode_table desc) itb.

(** The part of the run in one group, once its bitmap is read; the answer is the
    rest of the run, or the number of blocks freed. *)
Definition free_with_bitmap (bitmap_blk block_group block bit count overflow freed : Z)
    : M krfs ((Z * Z * Z) + Z) :=
  desc ← kr_get_group_desc block_group;
  match desc with
  | None => mret (inr freed)
  | Some p =>
      desc ← desc_get p;
      fs ← gets id;
      if in_system_zone fs desc block count then kr_error ;; mret (inr freed)
      else
        group_freed ← clear_bits (Z.to_nat count) bitmap_blk bit 0 0;
        log (mark_buffer_dirty (BufBlock bitmap_blk)) ;;
        fs ← gets id;
        when (has (fs_flags fs) MS_SYNCHRONOUS)
          (log (sync_dirty_buffer (BufBlock bitmap_blk))) ;;
        group_adjust_blocks p (s32 group_freed) ;;
        let freed := u32 (freed + group_freed) in
        if negb (overflow =? 0) then mret (inl (u64 (block + count), overflow, freed))
        else mret (inr freed)
  end.

(** The code from [do_more] to the [goto]. *)
Definition free_in_group (p : Z * Z * Z) : M krfs ((Z * Z * Z) + Z) :=
  let '(block, count, freed) := p in
  fs ← gets id;
  let bpg := s_blocks_per_group (fs_sbi fs) in
  let fdb := es_first_data_block (fs_es fs) in
  let block_group := u64 (block - fdb) / bpg in
  let bit := u64 (block - fdb) mod bpg in
  let overflow := if u64 (bit + count) >? bpg then u64 (u64 (bit + count) - bpg) else 0 in
  let count := u64 (count - overflow) in
  bitmap_bh ← read_block_bitmap block_group;
  match bitmap_bh with
  | None => mret (inr freed)
  | Some bitmap_blk => free_with_bitmap bitmap_blk block_group block bit count overflow freed
  end.

Definition kr_free_blocks (ino block count : Z) : M krfs unit :=
  fs ← gets id;
  let es := fs_es fs in
  freed ←
    (if (block <? es_first_data_block es) || (u64 (block + count) <? block)
        || (u64 (block + count) >? es_blocks_count es)
     then kr_error ;; mret 0
     else loop (S (Z.to_nat (s_groups_count (fs_sbi fs)))) free_in_group (block, count, 0));
  when (negb (freed =? 0))
    (upd_sbi (fun sbi => set_s_freeblocks_counter (s_freeblocks_counter sbi + freed) sbi) ;;
     log (dquot_free_block_nodirty ino freed) ;;
     log (mark_inode_dirty ino)).

(** *** Allocating *)

Definition kr_has_free_blocks (fs : krfs) : bool :=
  let sbi := fs_sbi fs in
  let free_blocks := percpu_counter_read_positive (s_freeblocks_counter sbi) in
  let root_blocks := es_r_blocks_count (fs_es fs) in
  negb ((free_blocks <? u64 (root_blocks + 1)) && negb capable_sys_resource
        && negb (s_resuid sbi =? current_fsuid)
        && ((s_resgid sbi =? 0) || negb (in_group_p (s_resgid sbi)))).

Definition kr_data_block_valid (fs : krfs) (start_blk count : Z) : bool :=
  let es := fs_es fs in
  if (start_blk <=? es_first_data_block es) || (u64 (start_blk + count) <? start_blk)
     || (start_blk >? es_blocks_count es)
  then false
  else if (start_blk <=? s_sb_block (fs_sbi fs))
          && (u64 (start_blk + count) >=? s_sb_block (fs_sbi fs))
  then false
  else true.

(** The allocation in one group, after its descriptor was looked at; [None] is
    an input error, and the second part of the answer is [num] on return. *)
Definition allocate_in_group (group_no grp_goal : Z) (my_rsv : option Z) (num : Z)
    : M krfs (option (Z * Z)) :=
  bitmap_bh ← read_block_bitmap group_no;
  match bitmap_bh with
  | None => mret None
  | Some bitmap_blk =>
      fs ← gets id;
      d ← buf_get bitmap_blk;
      r ← lift (fun fs => (fs_rsv fs, d))
            (fun s fs => set_fs_bufs (<[bitmap_blk := s.2]> (fs_bufs fs)) (set_fs_rsv s.1 fs))
            (kr_try_to_allocate_with_rsv (s_blocks_per_group (fs_sbi fs))
               (es_first_data_block (fs_es fs)) group_no grp_goal my_rsv num);
      mret (Some r)
  end.

(** How the search for a group ends. *)
Inductive found :=
| FoundAt (group_no : Z) (p : gdp) (grp_alloc_blk num : Z)   (* goto allocated *)
| FoundError            (* goto io_error *)
| FoundNone (num : Z).  (* no group has a block *)

(** The loop over the other groups. *)
Fixpoint other_groups (n : nat) (group_no windowsz : Z) (my_rsv : option Z) (num : Z)
    : M krfs found :=
  match n with
  | O => mret (FoundNone num)
  | S n' =>
      fs ← gets id;
      let group_no := if group_no + 1 >=? s_groups_count (fs_sbi fs) then 0 else group_no + 1 in
      desc ← kr_get_group_desc group_no;
      match desc with
      | None => mret FoundError
      | Some p =>
          desc ← desc_get p;
          let free_blocks := bg_free_blocks_count desc in
          if (free_blocks =? 0)
             || match my_rsv with Some _ => free_blocks <=? windowsz / 2 | None => false end
          then other_groups n' group_no windowsz my_rsv num
          else
            r ← allocate_in_group group_no (-1) my_rsv num;
            match r with
            | None => mret FoundError
            | Some (blk, num) =>
                if blk >=? 0 then mret (FoundAt group_no p blk num)
                else other_groups n' group_no windowsz my_rsv num
            end
      end
  end.

(** The code from [retry_alloc] to the label [allocated]; the answer has the
    reservation it went on with. *)
Definition search_all_groups (group_no goal windowsz : Z) (my_rsv : option Z) (num : Z)
    : M krfs (found * option Z) :=
  desc ← kr_get_group_desc group_no;
  match desc with
  | None => mret (FoundError, my_rsv)
  | Some p =>
      desc ← desc_get p;
      fs ← gets id;
      let free_blocks := bg_free_blocks_count desc in
      let my_rsv := match my_rsv with
                    | Some w => if (free_blocks <? windowsz) && (free_blocks >? 0)
                                   && rsv_is_empty (rsv_window (rsv_at (fs_rsv fs) w))
                                then None else Some w
                    | None => None
                    end in
      let others num :=
        r ← other_groups (Z.to_nat (s_groups_count (fs_sbi fs))) group_no windowsz my_rsv num;
        mret (r, my_rsv) in
      if free_blocks >? 0 then
        let grp_target_blk := s32 (u64 (goal - es_first_data_block (fs_es fs))
                                     mod s_blocks_per_group (fs_sbi fs)) in
        r ← allocate_in_group group_no grp_target_blk my_rsv num;
        match r with
        | None => mret (FoundError, my_rsv)
        | Some (blk, num) =>
            if blk >=? 0 then mret (FoundAt group_no p blk num, my_rsv) else others num
        end
      else others num
  end.

(** How an allocation ends: the block, [*errp] and [*count]. *)
Definition new_blocks_result : Type := Z * Z * Z.

(** [io_error] and [out] *)
Definition undo (ino count err : Z) (performed_allocation : bool) : M krfs new_blocks_result :=
  when (negb performed_allocation)
    (log (dquot_free_block_nodirty ino count) ;; log (mark_inode_dirty ino)) ;;
  mret (0, err, count).

(** The code from [allocated]; [inl] is the [goto retry_alloc]. *)
Definition allocated (ino count group_no : Z) (p : gdp) (grp_alloc_blk num : Z)
    : M krfs (unit + new_blocks_result) :=
  desc ← desc_get p;
  fs ← gets id;
  let es := fs_es fs in
  let ret_block := u64 (grp_alloc_blk + kr_group_first_block_no
        (s_blocks_per_group (fs_sbi fs)) (es_first_data_block es) group_no) in
  if in_system_zone fs desc ret_block num then kr_error ;; mret (inl tt)
  else if u64 (u64 (ret_block + num) - 1) >=? es_blocks_count es then
    kr_error ;; r ← undo ino count (- ENOSPC) true; mret (inr r)
  else
    group_adjust_blocks p (s32 (- num)) ;;
    upd_sbi (fun sbi => set_s_freeblocks_counter (s_freeblocks_counter sbi - num) sbi) ;;
    log (mark_buffer_dirty (BufBlock (bg_block_bitmap desc))) ;;
    when (has (fs_flags fs) MS_SYNCHRONOUS)
      (log (sync_dirty_buffer (BufBlock (bg_block_bitmap desc)))) ;;
    if num <? count then
      log (dquot_free_block_nodirty ino (count - num)) ;;
      log (mark_inode_dirty ino) ;;
      mret (inr (ret_block, 0, num))
    else mret (inr (ret_block, 0, count)).

(** One turn of the code from [retry_alloc] on; the state of the loop is
    [(group_no, my_rsv, windowsz, num)]. *)
Definition alloc_turn (ino goal count goal_group : Z) (p : Z * option Z * Z * Z)
    : M krfs ((Z * option Z * Z * Z) + new_blocks_result) :=
  let '(group_no, my_rsv, windowsz, num) := p in
  r ← search_all_groups group_no goal windowsz my_rsv num;
  let '(r, my_rsv) := r in
  match r with
  | FoundError => r ← undo ino count (- EIO) false; mret (inr r)
  | FoundNone num =>
      match my_rsv with
      | Some _ => mret (inl (goal_group, None, 0, num))
      | None => r ← undo ino count (- ENOSPC) false; mret (inr r)
      end
  | FoundAt group_no p grp_alloc_blk num =>
      r ← allocated ino count group_no p grp_alloc_blk num;
      match r with
      | inl _ => mret (inl (group_no, my_rsv, windowsz, num))
      | inr r => mret (inr r)
      end
  end.

Definition kr_new_blocks (ino goal count : Z) : M krfs new_blocks_result :=
  let ret := dquot_alloc_block ino count in
  if negb (ret =? 0) then mret (0, ret, count)
  else
    log (dquot_charge_block ino count) ;;
    fs ← gets id;
    let es := fs_es fs in
    let block_i := fs_inodes fs !! ino ≫= i_block_alloc_info ∘ KR_I in
    let windowsz := match block_i with
                    | Some b => u16 (rsv_goal_size (rsv_at (fs_rsv fs) (rsv_window_node b)))
                    | None => 0
                    end in
    let my_rsv := match block_i with
                  | Some b => if windowsz >? 0 then Some (rsv_window_node b) else None
                  | None => None
                  end in
    if negb (kr_has_free_blocks fs) then undo ino count (- ENOSPC) false
    else
      let goal := if (goal <? es_first_data_block es) || (goal >=? es_blocks_count es)
                  then es_first_data_block es else goal in
      let group_no := (goal - es_first_data_block es) / s_blocks_per_group (fs_sbi fs) in
      loop (Z.to_nat (es_blocks_count es + s_blocks_per_group (fs_sbi fs) + 2))
        (alloc_turn ino goal count group_no) (group_no, my_rsv, windowsz, count).

Definition kr_new_block (ino goal : Z) : M krfs (Z * Z) :=
  r ← kr_new_blocks ino goal 1;
  let '(block, err, _) := r in mret (block, err).

End Ops.

(** *** The groups that hold a copy of the super block *)

(** [test_root]: the powers of [b], in the [int]s. *)
Fixpoint root_loop (fuel : nat) (a b num : Z) : bool :=
  match fuel with
  | O => false
  | S n => if a >? num then root_loop n a b (s32 (num * b)) else num =? a
  end.
Definition test_root (a b : Z) : bool := root_loop 32 a b b.

Definition kr_group_sparse (group : Z) : bool :=
  if group <=? 1 then true else test_root group 3 || test_root group 5 || test_root group 7.

Definition kr_bg_has_super (fs : krfs) (group : Z) : Z :=
  if has_ro_compat_feature (fs_es fs) KR_FEATURE_RO_COMPAT_SPARSE_SUPER
     && negb (kr_group_sparse group) then 0 else 1.

Definition kr_bg_num_gdb (fs : krfs) (group : Z) : Z :=
  if negb (kr_bg_has_super fs group =? 0) then s_gdb_count (fs_sbi fs) else 0.
