(* ===== verification/BallocFacts.v ===== *)
(** * The allocator of blocks is correct

    The invariant of the block bitmaps and the proofs that freeing clears
    exactly the run it is given, and that allocating hands out free blocks only. *)

From S2P Require Import Prelude Bits Kr Rsv Bitmap Alloc State Balloc.

(** The blocks the file system keeps for itself, of the group [g]. *)
Definition metadata (c : core) (g b : Z) : Prop :=
  b = bg_block_bitmap (group_desc c g) \/ b = bg_inode_bitmap (group_desc c g) \/
  bg_inode_table (group_desc c g) <= b < bg_inode_table (group_desc c g) + c_itb c.

(** The bitmap of the group marks those blocks, and the bits past the last block. *)
Definition marked (c : core) (g : Z) : Prop :=
  (forall b, metadata c g b -> bit (block_bitmap c g) (b - group_first c g) = true) /\
  (forall j, group_size c g <= j < c_bpg c -> bit (block_bitmap c g) j = true).

(** The descriptor counts the free blocks of the bitmap. *)
Definition accounted (c : core) (g : Z) : Prop :=
  bg_free_blocks_count (group_desc c g) = zeros (block_bitmap c g) 0 (Z.to_nat (c_bpg c)).

(** The invariant of the block allocator. *)
Record blocks_ok (c : core) : Prop := {
  bo_core :> core_ok c;
  bo_marked : forall g, 0 <= g < c_ngroups c -> marked c g;
  bo_accounted : forall g, 0 <= g < c_ngroups c -> accounted c g;
}.

Section Geometry.
Variable c : core.
Hypothesis Hc : core_ok c.

Lemma bitmap_bits g : 0 <= g < c_ngroups c -> c_bpg c <= nbits (block_bitmap c g) <= 32768.
Proof.
  intros Hg. unfold nbits. rewrite (gk_bsize _ _ (ck_groups _ Hc g Hg)).
  pose proof (ck_bpg _ Hc). pose proof (ck_bits _ Hc).
  assert (2 ^ c_bits c <= 2 ^ 12) by (apply Z.pow_le_mono_r; lia). lia.
Qed.

Lemma bpg_range : 0 < c_bpg c <= 32768.
Proof.
  pose proof (ck_bpg _ Hc). destruct (bitmap_bits 0); [pose proof (ck_ngroups _ Hc); lia|lia].
Qed.

Lemma core_geometry g d : 0 <= g < c_ngroups c -> nbits d = nbits (block_bitmap c g) ->
  geometry (c_bpg c) (c_fdb c) g d.
Proof.
  intros Hg Hd. pose proof bpg_range as Hb. pose proof (bitmap_bits g Hg) as Hbb.
  pose proof (ck_blocks32 _ Hc) as Hb32. pose proof (ck_fdb _ Hc) as Hf.
  destruct (group_bounds c Hc g Hg) as (Hg1 & Hg2 & Hg3 & _). unfold group_first in *.
  unfold geometry. lia.
Qed.

Lemma group_first_run g : 0 <= g < c_ngroups c ->
  kr_group_first_block_no (c_bpg c) (c_fdb c) g = State.group_first c g.
Proof.
  intros Hg. apply (Rsv.group_first _ _ _ (block_bitmap c g)). by apply core_geometry.
Qed.

(** The places of a descriptor, as offsets in the group. *)
Lemma places g : 0 <= g < c_ngroups c ->
  let d := group_desc c g in let gf := State.group_first c g in
  0 <= bg_block_bitmap d - gf < c_bpg c /\ 0 <= bg_inode_bitmap d - gf < c_bpg c /\
  0 <= bg_inode_table d - gf /\ bg_inode_table d - gf + c_itb c <= c_bpg c /\
  0 <= gf < 4294967296.
Proof.
  intros Hg. cbv zeta. destruct (ck_groups _ Hc g Hg) as [].
  destruct (group_bounds c Hc g Hg) as (Hg1 & Hg2 & Hg3 & _). pose proof (ck_blocks32 _ Hc). lia.
Qed.

End Geometry.

(** ** Blocks of the device *)

(** Whether the bitmaps say that the block [b] is in use. *)
Definition block_used (c : core) (b : Z) : bool :=
  bit (block_bitmap c ((b - c_fdb c) / c_bpg c)) ((b - c_fdb c) mod c_bpg c).

(** The number of blocks in use among the [n] from [b]. *)
Fixpoint used_count (c : core) (b : Z) (n : nat) : Z :=
  match n with
  | O => 0
  | S n' => (if block_used c b then 1 else 0) + used_count c (b + 1) n'
  end.

(** The block [b] is kept by the file system. *)
Definition is_metadata (c : core) (b : Z) : Prop :=
  exists g, 0 <= g < c_ngroups c /\ metadata c g b.

(** What the allocator of blocks may change: bitmaps, counts and windows. *)
Record blocks_changed (c c' : core) : Prop := {
  bc_frame : c' = set_c_sbi (c_sbi c') (set_c_rsv (c_rsv c')
                    (set_c_bufs (c_bufs c') (set_c_desc (c_desc c') c)));
  bc_places : forall g, 0 <= g < c_ngroups c ->
    same_places (group_desc c g) (group_desc c' g) /\
    bg_free_inodes_count (group_desc c' g) = bg_free_inodes_count (group_desc c g) /\
    bg_used_dirs_count (group_desc c' g) = bg_used_dirs_count (group_desc c g);
  bc_inodes : forall g, 0 <= g < c_ngroups c -> inode_bitmap c' g = inode_bitmap c g;
  bc_data : forall b, ~ is_metadata c b -> c_bufs c' !! b = c_bufs c !! b;
}.

(** What is metadata depends on the places of the descriptors. *)
Lemma metadata_places c c' g b : same_places (group_desc c g) (group_desc c' g) -> c_itb c' = c_itb c ->
  metadata c' g b <-> metadata c g b.
Proof. intros (H1 & H2 & H3) H4. unfold metadata. by rewrite H1, H2, H3, H4. Qed.
Lemma bitmap_is_metadata c g : 0 <= g < c_ngroups c -> is_metadata c (bg_block_bitmap (group_desc c g)).
Proof. intros Hg. exists g. split; [done|]. by left. Qed.

Lemma blocks_changed_refl c : blocks_changed c c.
Proof. split; [by destruct c|by intros|done|done]. Qed.

Lemma blocks_changed_trans c1 c2 c3 :
  blocks_changed c1 c2 -> blocks_changed c2 c3 -> blocks_changed c1 c3.
Proof.
  intros [H1 H2 H3 H7] [H4 H5 H6 H8].
  assert (c_ngroups c2 = c_ngroups c1) as Hn by by rewrite H1.
  assert (c_itb c2 = c_itb c1) as Ht by by rewrite H1.
  rewrite Hn in *. split.
  - rewrite H4 at 1. rewrite H1 at 1. done.
  - intros g Hg. destruct (H2 g Hg) as ((? & ? & ?) & ? & ?).
    destruct (H5 g Hg) as ((? & ? & ?) & ? & ?). unfold same_places. split_and!; congruence.
  - intros g Hg. rewrite H6, H3; done.
  - intros b Hb. rewrite H8; [by apply H7|]. intros (g & Hg & Hm). apply Hb. exists g. rewrite Hn in Hg.
    split; [done|]. by apply (metadata_places c1 c2 g b (proj1 (H2 g Hg)) Ht).
Qed.

(** Frames fix the geometry. *)
Lemma changed_geo c c' : blocks_changed c c' ->
  c_bits c' = c_bits c /\ c_bpg c' = c_bpg c /\ c_itb c' = c_itb c /\ c_fdb c' = c_fdb c /\
  c_nblocks c' = c_nblocks c /\ c_ngroups c' = c_ngroups c /\ c_inodes c' = c_inodes c.
Proof. intros [-> _ _ _]. done. Qed.

Section Blocks.
Variable c : core.
Hypothesis Hc : core_ok c.

(** A block of the data zone, by its group and its place there. *)
Lemma block_of g j : 0 <= j < c_bpg c ->
  (State.group_first c g + j - c_fdb c) / c_bpg c = g /\
  (State.group_first c g + j - c_fdb c) mod c_bpg c = j.
Proof.
  intros Hj. unfold State.group_first.
  replace (g * c_bpg c + c_fdb c + j - c_fdb c) with (j + g * c_bpg c) by lia.
  rewrite Z.div_add, Z.mod_add by lia. by rewrite Z.div_small, Z.mod_small by lia.
Qed.

Lemma block_used_at g j : 0 <= j < c_bpg c ->
  block_used c (State.group_first c g + j) = bit (block_bitmap c g) j.
Proof. intros Hj. unfold block_used. by destruct (block_of g j Hj) as [-> ->]. Qed.

Lemma used_count_ones g : forall n j, 0 <= j -> j + Z.of_nat n <= c_bpg c ->
  used_count c (State.group_first c g + j) n = ones (block_bitmap c g) j n.
Proof.
  induction n as [|n IH]; intros j Hj Hn; simpl; [done|].
  rewrite block_used_at by lia. rewrite <- IH by lia. do 2 f_equal. lia.
Qed.

Lemma used_count_app b n m : used_count c b (n + m) = used_count c b n + used_count c (b + Z.of_nat n) m.
Proof.
  revert b. induction n as [|n IH]; intros b; simpl; [by rewrite Z.add_0_r|].
  rewrite IH. replace (b + 1 + Z.of_nat n) with (b + Z.of_nat (S n)) by lia. lia.
Qed.

Lemma used_count_bounds n : forall b, 0 <= used_count c b n <= Z.of_nat n.
Proof. induction n as [|n IH]; intros b; simpl; [lia|]. specialize (IH (b + 1)). destruct (block_used c b); lia. Qed.

(** The group and the place of a block of the data zone. *)
Lemma block_split b : c_fdb c <= b < c_nblocks c ->
  let g := (b - c_fdb c) / c_bpg c in let j := (b - c_fdb c) mod c_bpg c in
  0 <= g < c_ngroups c /\ 0 <= j < group_size c g /\ b = State.group_first c g + j.
Proof.
  intros Hb g j. pose proof (ck_bpg _ Hc) as Hbpg. pose proof (ck_nblocks _ Hc) as Hn.
  pose proof (Z.div_mod (b - c_fdb c) (c_bpg c) ltac:(lia)) as Hdm. fold g j in Hdm.
  pose proof (Z.mod_pos_bound (b - c_fdb c) (c_bpg c) ltac:(lia)) as Hj. fold j in Hj.
  assert (0 <= g) by (apply Z.div_pos; lia).
  assert (g < c_ngroups c) by (apply Z.div_lt_upper_bound; lia).
  unfold group_size, State.group_first. lia.
Qed.

(** Metadata of a group is in the group. *)
Lemma metadata_in g b : 0 <= g < c_ngroups c -> metadata c g b ->
  State.group_first c g <= b < State.group_first c g + group_size c g.
Proof.
  intros Hg Hm. pose proof (ck_itb _ Hc). destruct (ck_groups _ Hc g Hg) as [].
  destruct Hm as [->|[->|Hm]]; lia.
Qed.

End Blocks.

Section Facts.
Context {B : BitOps} {BL : BitLaws B} {R : RbTree} {RL : RbLaws R} {T : Trylock} {K : Kernel}.
Variable E : stop -> Prop.
Hypothesis HE : E Panic.

Lemma kr_test_bit_run i d (fs : krfs) : 0 <= i < nbits d -> kr_test_bit i d fs = Ret (bit d i) fs.
Proof.
  intros Hi. unfold kr_test_bit. replace ((i <? 0) || (i >=? nbits d)) with false by lia.
  by rewrite test_bit_law by lia.
Qed.

Lemma buf_get_run b d fs : fs_bufs fs !! b = Some d -> buf_get b fs = Ret d fs.
Proof. intros Hb. unfold buf_get, mbind, M_bind, gets. cbn [id]. by rewrite Hb. Qed.

Lemma block_bitmap_get fs g : core_ok (core_of fs) -> 0 <= g < c_ngroups (core_of fs) ->
  buf_get (bg_block_bitmap (group_desc (core_of fs) g)) fs
    = Ret (block_bitmap (core_of fs) g) fs.
Proof.
  intros Hc Hg. apply buf_get_run. unfold block_bitmap.
  destruct (gk_bbuf _ _ (ck_groups _ Hc g Hg)) as [d Hd]. cbn [c_bufs core_of] in *. by rewrite Hd.
Qed.

(** Checking a bitmap reads within it, and at worst reports an error. *)
Lemma valid_block_bitmap_spec fs g : core_ok (core_of fs) -> 0 <= g < c_ngroups (core_of fs) ->
  runs (kr_valid_block_bitmap (group_desc (core_of fs) g) g (block_bitmap (core_of fs) g)) E
    (fun _ fs' => core_of fs' = core_of fs) fs.
Proof.
  intros Hc Hg. destruct (places _ Hc g Hg) as (Hp1 & Hp2 & Hp3 & Hp4 & Hp5).
  pose proof (bitmap_bits _ Hc g Hg) as Hb. pose proof (bpg_range _ Hc) as Hbpg.
  assert (runs (kr_error ;; mret false) E (fun _ fs' => core_of fs' = core_of fs) fs) as Herr.
  { step. eapply runs_mono; [by apply kr_error_core|]. intros _ fs' [Hcore _]. by step. }
  unfold kr_valid_block_bitmap. step. step. cbn [id].
  change (kr_group_first_block_no _ _ g) with (kr_group_first_block_no (c_bpg (core_of fs)) (c_fdb (core_of fs)) g).
  rewrite (group_first_run _ Hc g Hg).
  change (s_itb_per_group (fs_sbi fs)) with (c_itb (core_of fs)). pose proof (ck_itb _ Hc).
  cbv zeta. rewrite !s32_small by lia. rewrite u64_small by lia.
  step. run kr_test_bit_run; [lia|]. step; [done|].
  step. run kr_test_bit_run; [lia|]. step; [done|].
  step. unfold kr_find_next_zero_bit. replace ((_ <? 0) || _) with false by lia.
  step. step; [by step|done].
Qed.

Lemma read_block_bitmap_spec fs g : core_ok (core_of fs) -> 0 <= g < c_ngroups (core_of fs) ->
  let bb := bg_block_bitmap (group_desc (core_of fs) g) in
  runs (read_block_bitmap g) E (fun r fs' => core_of fs' = core_of fs /\
    (r = Some bb \/ r = None /\ sb_getblk_ok bb && bh_read_ok bb = false)) fs.
Proof.
  intros Hc Hg bb. unfold read_block_bitmap, kr_get_group_desc. step.
  run get_group_desc_run; [done|done|]. step. run desc_get_run; [done|done|]. cbv zeta. fold bb.
  assert (forall fs', core_of fs' = core_of fs -> sb_getblk_ok bb && bh_read_ok bb = false ->
    runs (kr_error ;; mret None) E (fun r fs' => core_of fs' = core_of fs /\
     (r = Some bb \/ r = None /\ sb_getblk_ok bb && bh_read_ok bb = false)) fs') as Herr.
  { intros fs' Hcore Hbad. step.
    eapply runs_mono; [apply kr_error_core; [by rewrite Hcore|done]|]. intros _ fs2 [Hcore2 _].
    step. split; [congruence|by right]. }
  destruct (sb_getblk_ok bb) eqn:Hgb; cbn [negb]; [|by apply Herr].
  step. unfold buffer_uptodate. step. step; [by step; split; [|left]|].
  step. unfold bh_submit_read. destruct (bh_read_ok bb) eqn:Hrd; cbn [negb]; [|by apply Herr].
  step. step. step. cbn [negb]. step. set (fs1 := set_fs_uptodate _ fs).
  assert (core_of fs1 = core_of fs) as Hcore by done.
  pose proof (block_bitmap_get fs1 g ltac:(by rewrite Hcore) Hg) as Hget. rewrite Hcore in Hget.
  fold bb in Hget. run Hget. step.
  pose proof (valid_block_bitmap_spec fs1 g ltac:(by rewrite Hcore) Hg) as Hv. rewrite Hcore in Hv.
  eapply runs_mono; [exact Hv|]. intros ok fs2 Hcore2. step. split; [done|by left].
Qed.

(** *** Freeing *)

(** [d'] is [d] with the bits of [lo, hi) clear. *)
Definition cleared (d d' : list Z) (lo hi : Z) : Prop :=
  len d' = len d /\ forall j, 0 <= j -> bit d' j = bit d j && negb ((lo <=? j) && (j <? hi)).

Lemma cleared_step d d1 d2 lo hi : 0 <= lo < nbits d -> lo < hi ->
  d1 = snd (test_and_clear_bit_le lo d) -> cleared d1 d2 (lo + 1) hi -> cleared d d2 lo hi.
Proof.
  intros Hlo Hhi -> [Hl Hb]. rewrite clear_bit_len in Hl. split; [done|].
  intros j Hj. rewrite Hb, clear_bit_law by done.
  destruct (Z.eqb_spec j lo), (Z.leb_spec (lo + 1) j), (Z.leb_spec lo j), (Z.ltb_spec j hi);
    destruct (bit d j); simpl; done || lia.
Qed.

Lemma with_buf_twice c b d1 d2 : with_buf (with_buf c b d1) b d2 = with_buf c b d2.
Proof. unfold with_buf. cbn. by rewrite insert_insert_eq. Qed.
Lemma with_buf_same c b d : c_bufs c !! b = Some d -> with_buf c b d = c.
Proof. intros Hd. unfold with_buf. rewrite insert_id by done. by destruct c. Qed.

Lemma clear_bits_spec bb : forall n bit0 i gf fs d,
  core_ok (core_of fs) -> fs_bufs fs !! bb = Some d -> len d = 2 ^ c_bits (core_of fs) ->
  0 <= bit0 + i -> bit0 + i + Z.of_nat n <= nbits d -> 0 <= gf -> gf + Z.of_nat n < 65536 ->
  runs (clear_bits n bb bit0 i gf) E (fun r fs' => exists d',
    core_of fs' = with_buf (core_of fs) bb d' /\ cleared d d' (bit0 + i) (bit0 + i + Z.of_nat n) /\
    r = gf + ones d (bit0 + i) n) fs.
Proof.
  induction n as [|n IH]; intros bit0 i gf fs d Hc Hd Hlen Hi Hn Hgf Hgn.
  { apply runs_ret. exists d. simpl. split; [by rewrite with_buf_same|]. split; [|lia].
    split; [done|]. intros j Hj. change (Z.of_nat 0) with 0.
    replace ((bit0 + i <=? j) && (j <? bit0 + i + 0)) with false by lia.
    by rewrite andb_true_r. }
  cbn [clear_bits]. step. unfold ext2_clear_bit_atomic. step. run (buf_get_run bb d fs Hd).
  replace ((bit0 + i <? 0) || (bit0 + i >=? nbits d)) with false by lia.
  step. unfold buf_set. step. step. rewrite clear_bit_old by lia.
  set (d1 := snd (test_and_clear_bit_le (bit0 + i) d)). set (fs1 := set_fs_bufs _ fs).
  assert (core_of fs1 = with_buf (core_of fs) bb d1) as Hcore by done.
  assert (len d1 = 2 ^ c_bits (core_of fs)) as Hlen1 by (unfold d1; by rewrite clear_bit_len).
  assert (forall fs2 gf2, core_of fs2 = core_of fs1 -> 0 <= gf2 -> gf2 + Z.of_nat n < 65536 ->
    gf2 = gf + (if bit d (bit0 + i) then 1 else 0) ->
    runs (clear_bits n bb bit0 (i + 1) gf2) E (fun r fs' => exists d',
      core_of fs' = with_buf (core_of fs) bb d' /\
      cleared d d' (bit0 + i) (bit0 + i + Z.of_nat (S n)) /\
      r = gf + ones d (bit0 + i) (S n)) fs2) as Hrest.
  { intros fs2 gf2 Hcore2 Hg1 Hg2 Hg3. rewrite Hcore in Hcore2.
    assert (fs_bufs fs2 !! bb = Some d1) as Hd1.
    { change (c_bufs (core_of fs2) !! bb = Some d1). rewrite Hcore2. unfold with_buf. cbn.
      apply lookup_insert_eq. }
    assert (nbits d1 = nbits d) as Hnb by (unfold nbits, d1; by rewrite clear_bit_len).
    eapply runs_mono; [apply (IH bit0 (i + 1) gf2 fs2 d1); try done; try lia|].
    - rewrite Hcore2. by apply with_buf_ok.
    - by rewrite Hcore2.
    - intros r fs' (d' & H1 & H2 & H3). exists d'. rewrite H1, Hcore2, with_buf_twice. split; [done|].
      replace (bit0 + (i + 1)) with (bit0 + i + 1) in * by lia.
      replace (bit0 + i + 1 + Z.of_nat n) with (bit0 + i + Z.of_nat (S n)) in * by lia.
      split; [by eapply cleared_step; [| |done|]; [lia|lia|]|].
      rewrite H3, Hg3. simpl. assert (ones d1 (bit0 + i + 1) n = ones d (bit0 + i + 1) n) as ->; [|lia].
      pose proof (zeros_ones d1 (bit0 + i + 1) n). pose proof (zeros_ones d (bit0 + i + 1) n).
      rewrite (zeros_ext d d1) in * by (intros j Hj; unfold d1; rewrite clear_bit_law by lia;
        by replace (j =? bit0 + i) with false by lia). lia. }
  destruct (bit d (bit0 + i)).
  - rewrite u32_small by lia. apply Hrest; [done|lia|lia|done].
  - step. eapply runs_mono; [apply kr_error_core; [rewrite Hcore; by apply with_buf_ok|done]|].
    intros _ fs2 [Hcore2 _]. apply Hrest; [done|lia|lia|lia].
Qed.

(** [group_adjust_blocks] writes the count of free blocks. *)
Lemma group_adjust_spec fs g count : core_ok (core_of fs) -> 0 <= g < c_ngroups (core_of fs) ->
  let d := group_desc (core_of fs) g in
  0 <= bg_free_blocks_count d + count < 65536 ->
  runs (group_adjust_blocks (gdp_of (core_of fs) g) count) E
    (fun _ fs' => core_of fs' = with_desc (core_of fs) g
       (set_bg_free_blocks_count (bg_free_blocks_count d + count) d) /\
       fs_flags fs' = fs_flags fs) fs.
Proof.
  intros Hc Hg d Hn. unfold group_adjust_blocks. step.
  - step. run desc_get_run; [done|done|]. fold d. step. unfold desc_set. step. unfold log. step.
    rewrite u16_small by lia. done.
  - assert (count = 0) as -> by lia. rewrite Z.add_0_r. split; [|done].
    assert (set_bg_free_blocks_count (bg_free_blocks_count d) d = d) as -> by by destruct d.
    unfold with_desc. set (c := core_of fs) in *.
    assert (put_desc (gdp_of c g) d (c_desc c) = c_desc c) as ->; [|by destruct c].
    destruct (gk_desc _ _ (ck_groups _ Hc g Hg)) as [d' Hd'].
    assert (d = d') as -> by (unfold d, group_desc; by rewrite Hd').
    unfold put_desc, find_desc in *. apply list_eq. intros k. rewrite list_lookup_alter.
    case_decide; [subst k|done]. destruct (c_desc c !! _) as [[l|]|]; [|done|done].
    simpl. by rewrite list_insert_id.
Qed.

(** Counting, around a run. *)
Lemma zeros_split d lo n size : 0 <= lo -> 0 <= n -> lo + n <= size ->
  zeros d 0 (Z.to_nat size) = zeros d 0 (Z.to_nat lo) + zeros d lo (Z.to_nat n)
    + zeros d (lo + n) (Z.to_nat (size - lo - n)).
Proof.
  intros Hlo Hn Hs.
  replace (Z.to_nat size) with (Z.to_nat lo + (Z.to_nat n + Z.to_nat (size - lo - n)))%nat by lia.
  rewrite !zeros_app. rewrite !Z2Nat.id by lia. rewrite Z.add_0_l. lia.
Qed.

Lemma zeros_cleared d d' lo n size : cleared d d' lo (lo + n) -> 0 <= lo -> 0 <= n -> lo + n <= size ->
  zeros d' 0 (Z.to_nat size) = zeros d 0 (Z.to_nat size) + ones d lo (Z.to_nat n).
Proof.
  intros [_ Hb] Hlo Hn Hs. rewrite (zeros_split d lo n), (zeros_split d' lo n) by done.
  rewrite (zeros_ext d d' 0), (zeros_ext d d' (lo + n)).
  - rewrite (zeros_all d'); [pose proof (zeros_ones d lo (Z.to_nat n)); lia|].
    intros j Hj. rewrite Hb by lia. replace ((lo <=? j) && (j <? lo + n)) with true by lia.
    by rewrite andb_false_r.
  - intros j Hj. rewrite Hb by lia. replace ((lo <=? j) && (j <? lo + n)) with false by lia.
    by rewrite andb_true_r.
  - intros j Hj. rewrite Hb by lia. replace ((lo <=? j) && (j <? lo + n)) with false by lia.
    by rewrite andb_true_r.
Qed.

Lemma zeros_claimed d d' lo n size : claimed d d' lo (lo + n) -> free d lo (lo + n) ->
  0 <= lo -> 0 <= n -> lo + n <= size ->
  zeros d' 0 (Z.to_nat size) = zeros d 0 (Z.to_nat size) - n.
Proof.
  intros [_ Hb] Hf Hlo Hn Hs. rewrite (zeros_split d lo n), (zeros_split d' lo n) by done.
  rewrite (zeros_ext d d' 0), (zeros_ext d d' (lo + n)).
  - rewrite (zeros_all d lo) by (intros j Hj; apply Hf; lia).
    assert (ones d' lo (Z.to_nat n) = Z.of_nat (Z.to_nat n)) as Ho.
    { apply ones_all. intros j Hj. rewrite Hb by lia.
      replace ((lo <=? j) && (j <? lo + n)) with true by lia. by rewrite orb_true_r. }
    pose proof (zeros_ones d' lo (Z.to_nat n)). lia.
  - intros j Hj. rewrite Hb by lia. replace ((lo <=? j) && (j <? lo + n)) with false by lia.
    by rewrite orb_false_r.
  - intros j Hj. rewrite Hb by lia. replace ((lo <=? j) && (j <? lo + n)) with false by lia.
    by rewrite orb_false_r.
Qed.

(** The bitmap of the group [g] and its count of free blocks are replaced together. *)
Definition rewrite_group (c : core) (g : Z) (d' : list Z) (free : Z) : core :=
  with_desc (with_buf c (bg_block_bitmap (group_desc c g)) d') g
    (set_bg_free_blocks_count free (group_desc c g)).

Lemma rewrite_group_spec c g d' free : blocks_ok c -> 0 <= g < c_ngroups c ->
  len d' = len (block_bitmap c g) -> 0 <= free < 65536 ->
  free = zeros d' 0 (Z.to_nat (c_bpg c)) ->
  (forall b, metadata c g b -> bit d' (b - State.group_first c g) = true) ->
  (forall j, group_size c g <= j < c_bpg c -> bit d' j = true) ->
  let c' := rewrite_group c g d' free in
  blocks_ok c' /\ blocks_changed c c' /\ c_rsv c' = c_rsv c /\ c_sbi c' = c_sbi c /\
  (forall g', 0 <= g' < c_ngroups c ->
     block_bitmap c' g' = if decide (g' = g) then d' else block_bitmap c g').
Proof.
  intros Hb Hg Hlen Hfree Hz Hm Hp c'. pose proof (bo_core _ Hb) as Hc.
  set (bb := bg_block_bitmap (group_desc c g)). set (c1 := with_buf c bb d').
  assert (core_ok c1) as Hc1.
  { apply with_buf_ok; [done|]. rewrite Hlen. apply (ck_groups _ Hc g Hg). }
  set (dn := set_bg_free_blocks_count free (group_desc c g)).
  assert (forall g', 0 <= g' < c_ngroups c -> group_desc c' g' = if decide (g' = g) then dn else group_desc c g')
    as Hd by (intros g' Hg'; apply (group_desc_with c1 Hc1); [done|apply Hg']).
  assert (forall g', 0 <= g' < c_ngroups c -> same_places (group_desc c g') (group_desc c' g')) as Hsame
    by (intros g' Hg'; rewrite Hd by done; by destruct (decide (g' = g)) as [->|]).
  assert (forall g', 0 <= g' < c_ngroups c ->
     block_bitmap c' g' = (if decide (g' = g) then d' else block_bitmap c g') /\
     inode_bitmap c' g' = inode_bitmap c g') as Hbm.
  { intros g' Hg'. destruct (Hsame g' Hg') as (H1 & H2 & _).
    unfold block_bitmap, inode_bitmap. rewrite H1, H2.
    apply (bitmaps_with_bb c Hc g d' g' Hg Hg'). }
  assert (core_ok c') as Hc'.
  { apply (with_desc_ok c1 Hc1 g dn Hg); [done|]. destruct (group_counts c Hc g Hg) as (? & ? & ?).
    by split. }
  split; [|split; [|split; [done|split; [done|intros g' Hg'; apply (Hbm g' Hg')]]]].
  - split; [done| |].
    + intros g' Hg'. destruct (Hsame g' Hg') as (H1 & H2 & H3). destruct (Hbm g' Hg') as [H4 _].
      unfold marked, metadata. rewrite H1, H2, H3, H4.
      destruct (decide (g' = g)) as [->|]; [by split|].
      by apply (bo_marked _ Hb g').
    + intros g' Hg'. unfold accounted. rewrite Hd by done. destruct (Hbm g' Hg') as [-> _].
      case_decide; [done|by apply (bo_accounted _ Hb g')].
  - split; [done| | |].
    + intros g' Hg'. split; [by apply Hsame|]. rewrite Hd by done.
      by destruct (decide (g' = g)) as [->|].
    + intros g' Hg'. apply (Hbm g' Hg').
    + intros b Hd'. apply lookup_insert_ne. intros <-. by apply Hd', bitmap_is_metadata.
Qed.

(** The first [m] blocks of the run from [b0] are free, and nothing else has
    changed; [freed] of them were in use. *)
Record freed_to (c0 : core) (b0 m : Z) (fs : krfs) (freed : Z) : Prop := {
  ft_ok : blocks_ok (core_of fs);
  ft_changed : blocks_changed c0 (core_of fs);
  ft_rsv : c_rsv (core_of fs) = c_rsv c0;
  ft_sbi : c_sbi (core_of fs) = c_sbi c0;
  ft_freed : freed = used_count c0 b0 (Z.to_nat m);
  ft_used : forall b, c_fdb c0 <= b < c_nblocks c0 ->
    block_used (core_of fs) b = block_used c0 b && negb ((b0 <=? b) && (b <? b0 + m));
}.

(** A run of blocks that files may own. *)
Record data_run (c : core) (b0 n : Z) : Prop := {
  dr_first : c_fdb c <= b0;
  dr_last : b0 + n <= c_nblocks c;
  dr_data : forall b, b0 <= b < b0 + n -> ~ is_metadata c b;
}.

Definition unreadable (c : core) (g : Z) : Prop :=
  let bb := bg_block_bitmap (group_desc c g) in sb_getblk_ok bb && bh_read_ok bb = false.

Lemma metadata_changed c c' g b : blocks_changed c c' -> 0 <= g < c_ngroups c ->
  metadata c' g b <-> metadata c g b.
Proof.
  intros Hch Hg. apply metadata_places; [by apply (bc_places _ _ Hch)|]. by destruct (changed_geo _ _ Hch) as (_ & _ & ? & _).
Qed.

Lemma is_metadata_changed c c' b : blocks_changed c c' -> is_metadata c' b <-> is_metadata c b.
Proof.
  intros Hch. destruct (changed_geo _ _ Hch) as (_ & _ & _ & _ & _ & Hn & _).
  unfold is_metadata. rewrite Hn. split; intros (g & Hg & Hm); exists g; split; try done;
    by apply (metadata_changed _ _ _ _ Hch Hg).
Qed.

(** A run of data in a group is outside of the zones [in_system_zone] looks for. *)
Lemma data_not_system fs g block n : core_ok (core_of fs) -> 0 <= g < c_ngroups (core_of fs) ->
  let c := core_of fs in
  State.group_first c g <= block -> block + n <= State.group_first c g + group_size c g -> 1 <= n ->
  (forall b, block <= b < block + n -> ~ metadata c g b) ->
  in_system_zone fs (group_desc c g) block n = false.
Proof.
  intros Hc Hg c Hb Hn Hn1 Hdata. destruct (places c Hc g Hg) as (H1 & H2 & H3 & H4 & H5).
  destruct (group_bounds c Hc g Hg) as (_ & _ & H6 & _). pose proof (ck_blocks32 c Hc).
  pose proof (ck_itb c Hc). pose proof (bpg_range c Hc).
  unfold in_system_zone, in_range. change (s_itb_per_group (fs_sbi fs)) with (c_itb c).
  wraps. set (d := group_desc c g) in *.
  pose proof (fun b Hb => Hdata b Hb) as Hd.
  assert (~ (block <= bg_block_bitmap d < block + n)) as N1 by (intros Hx; apply (Hd _ Hx); by left).
  assert (~ (block <= bg_inode_bitmap d < block + n)) as N2
    by (intros Hx; apply (Hd _ Hx); right; by left).
  assert (~ (bg_inode_table d <= block < bg_inode_table d + c_itb c)) as N3
    by (intros Hx; apply (Hd block); [lia|right; by right]).
  assert (~ (bg_inode_table d <= block + n - 1 < bg_inode_table d + c_itb c)) as N4
    by (intros Hx; apply (Hd (block + n - 1)); [lia|right; by right]).
  lia.
Qed.

(** Clearing [n] blocks of the group [g], from its block [j] on. *)
Lemma free_run_group c g j n d' : blocks_ok c -> 0 <= g < c_ngroups c ->
  0 <= j -> 1 <= n -> j + n <= group_size c g ->
  (forall b, State.group_first c g + j <= b < State.group_first c g + j + n -> ~ metadata c g b) ->
  cleared (block_bitmap c g) d' j (j + n) ->
  let free := bg_free_blocks_count (group_desc c g) + ones (block_bitmap c g) j (Z.to_nat n) in
  let c' := rewrite_group c g d' free in
  0 <= free < 65536 /\ blocks_ok c' /\ blocks_changed c c' /\ c_rsv c' = c_rsv c /\ c_sbi c' = c_sbi c /\
  (forall b, c_fdb c <= b < c_nblocks c -> block_used c' b = block_used c b &&
     negb ((State.group_first c g + j <=? b) && (b <? State.group_first c g + j + n))).
Proof.
  intros Hb Hg Hj Hn Hjn Hdata Hcl free c'. pose proof (bo_core _ Hb) as Hc.
  destruct (group_bounds c Hc g Hg) as (Hgf & Hgs & _). pose proof (bpg_range c Hc) as Hbpg.
  pose proof (bo_accounted _ Hb g Hg) as Hacc. unfold accounted in Hacc.
  assert (free = zeros d' 0 (Z.to_nat (c_bpg c))) as Hz.
  { unfold free. rewrite Hacc. symmetry. apply (zeros_cleared _ _ j n); [done|lia|lia|lia]. }
  pose proof (zeros_nonneg d' 0 (Z.to_nat (c_bpg c))).
  pose proof Hcl as [Hlen Hbits].
  destruct (rewrite_group_spec c g d' free Hb Hg Hlen) as (H1 & H2 & H3 & H4 & H5); [lia|done| | |].
  - intros b Hm. pose proof (metadata_in c Hc g b Hg Hm) as Hbi.
    rewrite Hbits by lia. rewrite (proj1 (bo_marked _ Hb g Hg) b Hm). simpl.
    destruct (decide (State.group_first c g + j <= b < State.group_first c g + j + n)) as [Hin|Hout].
    + by destruct (Hdata b Hin).
    + by replace ((j <=? b - State.group_first c g) && (b - State.group_first c g <? j + n))
        with false by lia.
  - intros k Hk. rewrite Hbits by lia. rewrite (proj2 (bo_marked _ Hb g Hg) k Hk).
    by replace ((j <=? k) && (k <? j + n)) with false by lia.
  - split; [lia|]. split; [done|]. split; [done|]. split; [done|]. split; [done|].
    intros b Hbr. destruct (block_split c Hc b Hbr) as (Hg' & Hj' & Heq).
    set (g' := (b - c_fdb c) / c_bpg c) in *. set (j' := (b - c_fdb c) mod c_bpg c) in *.
    change (block_used c' b) with (bit (block_bitmap c' g') j').
    change (block_used c b) with (bit (block_bitmap c g') j').
    rewrite H5 by done. destruct (decide (g' = g)) as [Hgg|Hne].
    + rewrite Hgg in *. rewrite Hbits by lia. do 2 f_equal.
      rewrite Heq. f_equal; lia.
    + destruct (group_bounds c Hc g' Hg') as (_ & Hgs' & _).
      assert (~ (State.group_first c g + j <= b < State.group_first c g + j + n)) as Hout
        by (intros Hx; apply (groups_apart c Hc g g' b b); try done; lia).
      replace ((_ <=? b) && (b <? _)) with false by lia. by rewrite andb_true_r.
Qed.

Lemma free_with_bitmap_spec fs g j n ov freed : blocks_ok (core_of fs) ->
  let c := core_of fs in
  0 <= g < c_ngroups c -> 0 <= j -> 1 <= n -> j + n <= group_size c g ->
  let block := State.group_first c g + j in
  (forall b, block <= b < block + n -> ~ metadata c g b) ->
  0 <= freed -> freed + n < 4294967296 ->
  runs (free_with_bitmap (bg_block_bitmap (group_desc c g)) g block j n ov freed) E
    (fun r fs' => exists d', cleared (block_bitmap c g) d' j (j + n) /\
      core_of fs' = rewrite_group c g d'
        (bg_free_blocks_count (group_desc c g) + ones (block_bitmap c g) j (Z.to_nat n)) /\
      let freed' := freed + ones (block_bitmap c g) j (Z.to_nat n) in
      r = if negb (ov =? 0) then inl (block + n, ov, freed') else inr freed') fs.
Proof.
  intros Hb c Hg Hj Hn Hjn block Hdata Hf0 Hf1. pose proof (bo_core _ Hb) as Hc. fold c in Hc.
  destruct (group_bounds c Hc g Hg) as (Hgf & Hgs & Hge & _). pose proof (bpg_range c Hc) as Hbpg.
  pose proof (bitmap_bits c Hc g Hg) as Hbits. pose proof (ck_blocks32 c Hc) as H32.
  unfold free_with_bitmap. step. unfold kr_get_group_desc.
  run get_group_desc_run; [done|done|]. step. run desc_get_run; [done|done|]. fold c.
  step. step. cbn [id].
  assert (in_system_zone fs (group_desc c g) block n = false) as ->
    by (apply data_not_system; fold c; unfold block in *; try done; lia).
  step. call (clear_bits_spec (bg_block_bitmap (group_desc c g)) (Z.to_nat n) j 0 0 fs (block_bitmap c g));
    try done; try lia.
  { unfold block_bitmap. destruct (gk_bbuf _ _ (ck_groups _ Hc g Hg)) as [d Hd].
    change (c_bufs c) with (fs_bufs fs) in *. by rewrite Hd. }
  { apply (ck_groups _ Hc g Hg). }
  fold c. rewrite Z2Nat.id by lia. rewrite Z.add_0_r, Z.add_0_l.
  intros gf fs1 (d' & Hcore1 & Hcl & ->). set (gf := ones (block_bitmap c g) j (Z.to_nat n)) in *.
  pose proof (ones_nonneg (block_bitmap c g) j (Z.to_nat n)) as Hgfb. fold gf in Hgfb.
  destruct (free_run_group c g j n d' Hb Hg Hj Hn Hjn Hdata Hcl) as (Hfree & _). fold gf in Hfree.
  step. unfold log at 1. step. step. step. step.
  assert (forall fs2, core_of fs2 = core_of fs1 ->
    runs (group_adjust_blocks (gdp_of c g) (s32 gf) ;;
          (if negb (ov =? 0) then mret (inl (u64 (block + n), ov, u32 (freed + gf)))
           else mret (inr (u32 (freed + gf))))) E
    (fun r fs' => exists d', cleared (block_bitmap c g) d' j (j + n) /\
      core_of fs' = rewrite_group c g d' (bg_free_blocks_count (group_desc c g) + gf) /\
      r = if negb (ov =? 0) then inl (block + n, ov, freed + gf) else inr (freed + gf)) fs2) as Hend.
  { intros fs2 Hcore2. rewrite Hcore1 in Hcore2. step. wraps.
    change (gdp_of c g) with (gdp_of (with_buf c (bg_block_bitmap (group_desc c g)) d') g).
    rewrite <- Hcore2. call group_adjust_spec.
    - rewrite Hcore2. apply with_buf_ok; [done|]. rewrite (proj1 Hcl). apply (ck_groups _ Hc g Hg).
    - by rewrite Hcore2.
    - by rewrite Hcore2.
    - intros _ fs3 [Hcore3 _]. rewrite Hcore2 in Hcore3.
      destruct (negb (ov =? 0)); step; exists d'; wraps; done. }
  unfold log. step; [step|]; by apply Hend.
Qed.

Lemma used_count_ext c c' n : forall b,
  (forall k, b <= k < b + Z.of_nat n -> block_used c' k = block_used c k) ->
  used_count c' b n = used_count c b n.
Proof.
  induction n as [|n IH]; intros b Hk; simpl; [done|].
  rewrite (Hk b) by lia. rewrite IH; [done|]. intros k Hkr. apply Hk. lia.
Qed.

(** Freeing one more part of the run. *)
Lemma freed_extend c0 b0 m fs freed g j n d' fs' : freed_to c0 b0 m fs freed ->
  let c := core_of fs in
  0 <= g < c_ngroups c -> 0 <= j -> 1 <= n -> j + n <= group_size c g ->
  b0 + m = State.group_first c g + j -> 0 <= m -> c_fdb c0 <= b0 ->
  (forall b, b0 + m <= b < b0 + m + n -> ~ metadata c g b) ->
  cleared (block_bitmap c g) d' j (j + n) ->
  let k := ones (block_bitmap c g) j (Z.to_nat n) in
  core_of fs' = rewrite_group c g d' (bg_free_blocks_count (group_desc c g) + k) ->
  freed_to c0 b0 (m + n) fs' (freed + k).
Proof.
  intros [Hb Hch Hrsv Hsbi Hfreed Hused] c Hg Hj Hn Hjn Heq Hm Hfirst Hdata Hcl k Hcore.
  fold c in Hb, Hch, Hrsv, Hsbi, Hused. pose proof (bo_core _ Hb) as Hc.
  destruct (changed_geo _ _ Hch) as (_ & Gbpg & _ & Gfdb & Gnb & Gng & _).
  destruct (group_bounds c Hc g Hg) as (Hgf & Hgs & Hge & _).
  rewrite Heq in Hdata.
  destruct (free_run_group c g j n d' Hb Hg Hj Hn Hjn Hdata Hcl) as (_ & H1 & H2 & H3 & H4 & H5).
  fold k in H1, H2, H3, H4, H5. rewrite <- Hcore in *.
  split; [done|by eapply blocks_changed_trans|congruence|congruence| |].
  - replace (Z.to_nat (m + n)) with (Z.to_nat m + Z.to_nat n)%nat by lia.
    rewrite used_count_app, <- Hfreed. f_equal. rewrite Z2Nat.id by lia.
    unfold k. rewrite <- used_count_ones by lia. rewrite <- Heq. apply used_count_ext.
    intros b Hbr. rewrite Hused by lia. replace (b <? b0 + m) with false by lia.
    by rewrite andb_false_r, andb_true_r.
  - intros b Hbr. rewrite H5 by lia. rewrite Hused by done. rewrite <- andb_assoc. f_equal. lia.
Qed.

Lemma free_in_group_spec c0 b0 n m fs freed : data_run c0 b0 n -> 0 <= m < n ->
  freed_to c0 b0 m fs freed ->
  runs (free_in_group (b0 + m, n - m, freed)) E (fun r fs' =>
    match r with
    | inl (block, count, freed') => exists m', m < m' < n /\ block = b0 + m' /\ count = n - m' /\
        (b0 + m' - c_fdb c0) / c_bpg c0 = (b0 + m - c_fdb c0) / c_bpg c0 + 1 /\
        freed_to c0 b0 m' fs' freed'
    | inr freed' => freed_to c0 b0 n fs' freed' \/
        exists m' g, 0 <= m' < n /\ 0 <= g < c_ngroups c0 /\ unreadable c0 g /\
          freed_to c0 b0 m' fs' freed'
    end) fs.
Proof.
  intros Hrun Hm Hft. pose proof Hft as [Hb Hch Hrsv Hsbi Hfreed Hused]. set (c := core_of fs) in *.
  destruct (changed_geo _ _ Hch) as (_ & Gbpg & Gitb & Gfdb & Gnb & Gng & _).
  pose proof (bo_core _ Hb) as Hc.
  destruct Hrun as [Hfirst Hlast Hdata].
  destruct (block_split c Hc (b0 + m)) as (Hg & Hj & Heq); [lia|].
  set (g := (b0 + m - c_fdb c) / c_bpg c) in *. set (j := (b0 + m - c_fdb c) mod c_bpg c) in *.
  destruct (group_bounds c Hc g Hg) as (Hgf & Hgs & Hge & _). pose proof (bpg_range c Hc) as Hbpg.
  pose proof (ck_blocks32 c Hc) as H32. pose proof (ck_fdb c Hc) as Hfdb.
  unfold free_in_group. step. step. cbn [id].
  change (s_blocks_per_group (fs_sbi fs)) with (c_bpg c).
  change (es_first_data_block (fs_es fs)) with (c_fdb c). cbv zeta.
  rewrite (u64_small (b0 + m - c_fdb c)) by lia. fold g j.
  rewrite (u64_small (j + (n - m))) by lia.
  assert (Hov : (if j + (n - m) >? c_bpg c then u64 (j + (n - m) - c_bpg c) else 0)
    = Z.max 0 (j + (n - m) - c_bpg c)) by (destruct (_ >? _) eqn:?; wraps; lia).
  rewrite Hov. set (ov := Z.max 0 (j + (n - m) - c_bpg c)) in *. clear Hov.
  rewrite (u64_small (n - m - ov)) by lia. set (cnt := n - m - ov).
  assert (1 <= cnt /\ j + cnt <= group_size c g) as [Hcnt Hjc]
    by (unfold cnt, ov, group_size, State.group_first in *; lia).
  assert (Hmeta : forall b, b0 + m <= b < b0 + m + cnt -> ~ metadata c g b).
  { intros b Hbr Hmb. apply (Hdata b); [unfold cnt in *; lia|].
    apply (is_metadata_changed c0 c b Hch). by exists g. }
  step. call read_block_bitmap_spec; [done|done|]. fold c.
  intros bh fs1 [Hcore1 [->|[-> Hbad]]]; cbv beta iota.
  2: { step. right. exists m, g. split; [done|]. split; [lia|]. split.
       - unfold unreadable. destruct (bc_places _ _ Hch g ltac:(lia)) as ((Hp1 & _) & _).
         by rewrite <- Hp1.
       - split; rewrite ?Hcore1; done. }
  assert (freed_to c0 b0 m fs1 freed) as Hft1 by (split; by rewrite ?Hcore1).
  pose proof (used_count_bounds c0 (Z.to_nat m) b0) as Hub. rewrite <- Hfreed in Hub.
  rewrite Heq in Hmeta |- *.
  pose proof (free_with_bitmap_spec fs1 g j cnt ov freed) as Hspec. rewrite Hcore1 in Hspec.
  eapply runs_mono; [apply Hspec; try done; unfold cnt in *; lia|].
  cbv beta. intros r fs2 (d' & Hcl & Hcore2 & ->).
  pose proof (freed_extend c0 b0 m fs1 freed g j cnt d' fs2 Hft1) as Hext. rewrite Hcore1 in Hext.
  specialize (Hext Hg ltac:(lia) Hcnt Hjc Heq ltac:(lia) Hfirst).
  rewrite Heq in Hext. specialize (Hext Hmeta Hcl Hcore2).
  destruct (Z.eqb_spec ov 0) as [Hz|Hnz]; cbn [negb].
  - left. by replace n with (m + cnt) by (unfold cnt; lia).
  - assert (Hjb : j + cnt = c_bpg c) by (unfold cnt, ov in *; lia).
    exists (m + cnt). split; [unfold cnt, ov in *; lia|].
    split; [lia|]. split; [unfold cnt; lia|]. split; [|done].
    rewrite <- Gbpg, <- Gfdb.
    replace (b0 + (m + cnt) - c_fdb c) with (b0 + m - c_fdb c + 1 * c_bpg c - j) by lia.
    replace (b0 + m - c_fdb c + 1 * c_bpg c - j) with ((g + 1) * c_bpg c)
      by (unfold State.group_first in Heq; lia).
    rewrite Z.div_mul by lia. f_equal. symmetry. apply block_of. lia.
Qed.

(** [kr_free_blocks] frees the run it is given, up to a bitmap it cannot read. *)
Lemma kr_free_blocks_spec ino fs b0 n : blocks_ok (core_of fs) -> 1 <= n ->
  let c := core_of fs in
  data_run c b0 n ->
  runs (kr_free_blocks ino b0 n) E (fun _ fs' => exists m fs1 freed,
    (m = n \/ 0 <= m < n /\ exists g, 0 <= g < c_ngroups c /\ unreadable c g) /\
    freed_to c b0 m fs1 freed /\
    core_of fs' = set_c_sbi (set_s_freeblocks_counter (s_freeblocks_counter (c_sbi c) + freed)
                               (c_sbi c)) (core_of fs1)) fs.
Proof.
  intros Hb Hn c Hrun. pose proof (bo_core _ Hb) as Hc. fold c in Hc, Hb.
  pose proof Hrun as [Hfirst Hlast Hdata]. pose proof (ck_blocks32 c Hc). pose proof (ck_fdb c Hc).
  pose proof (ck_bpg c Hc) as Hbpg. pose proof (ck_ngroups c Hc) as Hng.
  unfold kr_free_blocks. step. step. cbn [id]. step.
  change (es_first_data_block (fs_es fs)) with (c_fdb c).
  change (es_blocks_count (fs_es fs)) with (c_nblocks c). rewrite u64_small by lia.
  replace ((b0 <? c_fdb c) || (b0 + n <? b0) || (b0 + n >? c_nblocks c)) with false by lia.
  change (s_groups_count (fs_sbi fs)) with (c_ngroups c).
  assert (Hend : forall m fs1 freed, freed_to c b0 m fs1 freed ->
    (m = n \/ 0 <= m < n /\ exists g, 0 <= g < c_ngroups c /\ unreadable c g) ->
    runs (when (negb (freed =? 0))
      (upd_sbi (fun sbi => set_s_freeblocks_counter (s_freeblocks_counter sbi + freed) sbi) ;;
       log (dquot_free_block_nodirty ino freed) ;; log (mark_inode_dirty ino))) E
     (fun _ fs' => exists m fs1 freed,
      (m = n \/ 0 <= m < n /\ exists g, 0 <= g < c_ngroups c /\ unreadable c g) /\
      freed_to c b0 m fs1 freed /\
      core_of fs' = set_c_sbi (set_s_freeblocks_counter
        (s_freeblocks_counter (c_sbi c) + freed) (c_sbi c)) (core_of fs1)) fs1).
  { intros m fs1 freed Hft Hm. pose proof (ft_sbi _ _ _ _ _ Hft) as Hsbi. step.
    - unfold upd_sbi, log. steps. exists m, fs1, freed. split; [done|]. split; [done|].
      rewrite <- Hsbi. done.
    - exists m, fs1, freed. split; [done|]. split; [done|]. assert (freed = 0) as -> by lia.
      rewrite <- Hsbi, Z.add_0_r. by destruct fs1 as [????[] ?????]. }
  eapply runs_mono.
  - apply (runs_loop E (fun p fs1 => exists m, 0 <= m < n /\ p = (b0 + m, n - m, p.2) /\
        freed_to c b0 m fs1 p.2)
      (fun p _ => c_ngroups c - (p.1.1 - c_fdb c) / c_bpg c)
      free_in_group (fun freed fs1 => exists m, freed_to c b0 m fs1 freed /\
        (m = n \/ 0 <= m < n /\ exists g, 0 <= g < c_ngroups c /\ unreadable c g))).
    + intros [[block count] freed] fs1 (m & Hm & Hp & Hft). cbn [fst snd] in *.
      injection Hp as -> ->. split.
      * destruct (block_split c Hc (b0 + m)) as (Hg & _); lia.
      * eapply runs_mono; [apply (free_in_group_spec c b0 n m); done|].
        intros [[[block count] freed']|freed'] fs2.
        -- intros (m' & Hm' & -> & -> & Hgrp & Hft'). split; [|cbn [fst]; rewrite Hgrp; lia].
           exists m'. cbn [snd]. split; [lia|done].
        -- intros [Hft'|(m' & g & ? & ? & ? & ?)]; [exists n; by split; [|left]|].
           exists m'. split; [done|]. right. split; [done|]. by exists g.
    + exists 0. split; [lia|]. cbn [snd]. rewrite Z.add_0_r, Z.sub_0_r. split; [done|].
      split; try done. intros b _.
      replace ((b0 <=? b) && (b <? b0 + 0)) with false by lia. by rewrite andb_true_r.
    + destruct (block_split c Hc b0) as (Hg & _); [lia|]. cbn [fst]. lia.
  - intros freed fs1 (m & Hft & Hm). by apply (Hend m).
Qed.

End Facts.

(** ** The groups with a copy of the super block *)

(** [a] is a power of [b]. *)
Definition power_of (b a : Z) : Prop := exists k, 1 <= k /\ a = b ^ k.

Lemma root_loop_spec b top a : 2 <= b -> 0 <= top -> a < b ^ top -> b ^ (top + 1) < 2147483648 ->
  forall fuel k, 1 <= k -> k <= top -> (top - k < Z.of_nat fuel) ->
  (forall j, 1 <= j < k -> a <> b ^ j) ->
  root_loop fuel a b (b ^ k) = true <-> power_of b a.
Proof.
  intros Hb Htop Ha Hover. induction fuel as [|fuel IH]; intros k Hk Hkt Hf Hbelow; [lia|].
  cbn [root_loop]. destruct (Z.gtb_spec a (b ^ k)) as [Hgt|Hle].
  - assert (Hlt : k < top) by (apply (Z.pow_lt_mono_r_iff b); lia).
    assert (Hpow : b ^ (k + 1) <= b ^ (top + 1)) by (apply Z.pow_le_mono_r; lia).
    assert (0 < b ^ (k + 1)) by (apply Z.pow_pos_nonneg; lia).
    replace (b ^ k * b) with (b ^ (k + 1)) by (rewrite Z.pow_add_r by lia; lia). wraps.
    apply IH; [lia|lia|lia|]. intros j Hj. destruct (decide (j = k)) as [->|]; [lia|]. apply Hbelow. lia.
  - rewrite Z.eqb_eq. split; [intros <-; by exists k|]. intros (j & Hj & ->).
    destruct (decide (j < k)) as [Hlt|]; [by destruct (Hbelow j)|].
    apply Z.le_antisymm; [|done]. apply Z.pow_le_mono_r; lia.
Qed.

Lemma test_root_spec a b top : 2 <= b -> 1 <= top < 32 -> a < b ^ top -> b ^ (top + 1) < 2147483648 ->
  test_root a b = true <-> power_of b a.
Proof.
  intros Hb Htop Ha Hover. unfold test_root. rewrite <- (Z.pow_1_r b) at 2.
  apply (root_loop_spec b top a Hb ltac:(lia) Ha Hover); try lia.
Qed.

Lemma kr_group_sparse_spec group : 0 <= group <= 244140624 ->
  kr_group_sparse group = true <->
  (group <= 1 \/ power_of 3 group \/ power_of 5 group \/ power_of 7 group).
Proof.
  intros Hg. unfold kr_group_sparse. destruct (Z.leb_spec group 1) as [Hle|Hgt]; [by intuition|].
  rewrite !orb_true_iff, (test_root_spec group 3 18), (test_root_spec group 5 12),
    (test_root_spec group 7 10) by (try lia; vm_compute; done || lia).
  intuition lia.
Qed.

(** [in_range] on numbers that do not overflow. *)
Lemma in_range_spec b first n : 0 <= first -> 1 <= n -> first + n < 18446744073709551616 ->
  in_range b first n = true <-> first <= b < first + n.
Proof. intros. unfold in_range. wraps. lia. Qed.
