(* ===== verification/NewBlocks.v ===== *)
(** * kr_new_blocks hands out free blocks

    The search of the groups, and what an allocation that succeeds or fails has
    done to the bitmaps, the counts and the windows. *)

From S2P Require Import Prelude Bits Kr Rsv Bitmap Alloc State Balloc BallocFacts.

(** The windows after an allocation for a file whose window is [my]. *)
Definition rsv_moved (my : option Z) (bound : Z) (r r' : rsvst) : Prop :=
  match my with
  | None => r' = r
  | Some w => rsv_ready r' w bound /\ only_mine w r r'
  end.

(** What the file may use of the group: all of it, or what is in its window. *)
Definition in_window (my : option Z) (r : rsvst) (first n : Z) : Prop :=
  match my with
  | None => True
  | Some w => rsv_start (rsv_at r w) <= first /\ first + n - 1 <= rsv_end (rsv_at r w)
  end.

Definition can_allocate (my : option Z) (r : rsvst) (size num : Z) : Prop :=
  match my with
  | None => 0 <= num < 268435456
  | Some w => 1 <= num < 268435456 /\ rsv_ready r w size
  end.

Section Facts.
Context {B : BitOps} {BL : BitLaws B} {R : RbTree} {RL : RbLaws R} {T : Trylock} {K : Kernel}.
Variable E : stop -> Prop.
Hypothesis HE : E Panic.

(** One group has been tried: the bitmap of the group and the windows moved. *)
Record tried (c c' : core) (g goal : Z) (my : option Z) (size num blk num' : Z) : Prop := {
  tr_core : exists d' r', c' = set_c_rsv r' (with_buf c (bg_block_bitmap (group_desc c g)) d') /\
    rsv_moved my (window_bound size num goal) (c_rsv c) r' /\
    ((blk < 0 /\ claimed (block_bitmap c g) d' 0 0 /\
      match my with None => num' = 0 /\ full (block_bitmap c g) (Z.max 0 goal) (c_bpg c)
                  | Some _ => num' = num end) \/
     (0 <= blk /\ blk + num' <= c_bpg c /\ 1 <= num' <= Z.max 1 num /\
      free (block_bitmap c g) blk (blk + num') /\
      claimed (block_bitmap c g) d' blk (blk + num') /\
      in_window my r' (State.group_first c g + blk) num'));
}.

Lemma with_rsv_run fs g goal my size num : core_ok (core_of fs) ->
  let c := core_of fs in
  0 <= g < c_ngroups c -> -1 <= goal < c_bpg c ->
  can_allocate my (c_rsv c) size num -> window_bound size num goal <= 536870912 ->
  runs (kr_try_to_allocate_with_rsv (c_bpg c) (c_fdb c) g goal my num) E
    (fun r s => rsv_moved my (window_bound size num goal) (c_rsv c) s.1 /\
      ((r.1 < 0 /\ claimed (block_bitmap c g) s.2 0 0 /\
        match my with None => r.2 = 0 /\ full (block_bitmap c g) (Z.max 0 goal) (c_bpg c)
                    | Some _ => r.2 = num end) \/
       (0 <= r.1 /\ r.1 + r.2 <= c_bpg c /\ 1 <= r.2 <= Z.max 1 num /\
        free (block_bitmap c g) r.1 (r.1 + r.2) /\
        claimed (block_bitmap c g) s.2 r.1 (r.1 + r.2) /\
        in_window my s.1 (State.group_first c g + r.1) r.2))) (c_rsv c, block_bitmap c g).
Proof.
  intros Hc c Hg Hgoal Hcan Hsize.
  assert (Hgeo : geometry (c_bpg c) (c_fdb c) g (block_bitmap c g)) by by apply core_geometry.
  destruct my as [w|]; simpl in Hcan.
  - destruct Hcan as [Hnum Hr].
    pose proof (kr_try_to_allocate_with_rsv_spec _ _ _ _ (c_rsv c) w size num goal Hgeo Hgoal Hnum Hr Hsize)
      as Hs. unfold runs in *. destruct (kr_try_to_allocate_with_rsv _ _ _ _ _ _ _) as [[blk n] [r' d']|]; [|done].
    destruct Hs as [H1 H2 H3]. cbn [fst snd] in *. split; [done|].
    destruct H3 as [(? & ? & ?)|(? & ? & ? & ? & ? & ? & ?)]; [by left|right].
    unfold in_window, State.group_first. split_and!; try done; lia.
  - pose proof (kr_try_to_allocate_spec (c_bpg c) (c_fdb c) g goal num None _ Hgeo Hgoal I) as Hs.
    cbn [range_of] in Hs. unfold kr_try_to_allocate_with_rsv, on_bits. apply runs_lift. cbn [snd].
    unfold runs in *. destruct (kr_try_to_allocate _ _ _ _ _ _ _) as [[blk n] d'|]; [|done].
    cbn [fst snd] in *. split; [done|]. destruct Hs as [(-> & -> & Hf & Hcl)|(? & ? & ? & ? & ? & ?)].
    + left. split; [done|]. split; [|by split]. by apply claimed_same, (claimed_same _ _ (Z.max 0 goal)).
    + right. split_and!; try done; lia.
Qed.

Lemma allocate_in_group_spec fs g goal my size num : core_ok (core_of fs) ->
  let c := core_of fs in
  0 <= g < c_ngroups c -> -1 <= goal < c_bpg c ->
  can_allocate my (c_rsv c) size num -> window_bound size num goal <= 536870912 ->
  runs (allocate_in_group g goal my num) E (fun r fs' => match r with
    | None => core_of fs' = c /\ unreadable c g
    | Some (blk, num') => tried c (core_of fs') g goal my size num blk num'
    end) fs.
Proof.
  intros Hc c Hg Hgoal Hcan Hsize. unfold allocate_in_group. step.
  call (read_block_bitmap_spec E HE); [done|done|]. fold c.
  intros bh fs1 [Hcore1 [->|[-> Hbad]]]; [|by step].
  step. step. cbn [id]. step.
  pose proof (block_bitmap_get fs1 g ltac:(by rewrite Hcore1) ltac:(by rewrite Hcore1)) as Hget.
  rewrite Hcore1 in Hget. run Hget. step. step.
  pose proof (with_rsv_run fs1 g goal my size num) as Hrun. rewrite Hcore1 in Hrun.
  change (s_blocks_per_group (fs_sbi fs1)) with (c_bpg (core_of fs1)).
  change (es_first_data_block (fs_es fs1)) with (c_fdb (core_of fs1)).
  change (fs_rsv fs1) with (c_rsv (core_of fs1)). rewrite Hcore1.
  eapply runs_mono; [by apply Hrun|]. cbv beta. intros [blk n] [r' d'] [H1 H2]. cbn [fst snd] in *.
  step. split. exists d', r'. split; [|done]. rewrite <- Hcore1. done.
Qed.

(** *** Trying one group after the other *)

(** The search has left the bits alone and moved the window of the file only. *)
Record searched (c c' : core) (my : option Z) (bound : Z) : Prop := {
  se_frame : c' = set_c_rsv (c_rsv c') (set_c_bufs (c_bufs c') c);
  se_ok : core_ok c';
  se_bits : forall g, 0 <= g < c_ngroups c -> claimed (block_bitmap c g) (block_bitmap c' g) 0 0;
  se_inodes : forall g, 0 <= g < c_ngroups c -> inode_bitmap c' g = inode_bitmap c g;
  se_rsv : rsv_moved my bound (c_rsv c) (c_rsv c');
  se_data : forall b, ~ is_metadata c b -> c_bufs c' !! b = c_bufs c !! b;
}.

Definition ready (my : option Z) (r : rsvst) (bound : Z) : Prop :=
  match my with None => True | Some w => rsv_ready r w bound end.

Lemma moved_refl my bound r : ready my r bound -> rsv_moved my bound r r.
Proof. destruct my; simpl; [|done]. intros. split; [done|apply only_mine_refl]. Qed.

Lemma moved_trans my b1 b2 r1 r2 r3 : rsv_moved my b1 r1 r2 -> rsv_moved my b2 r2 r3 ->
  rsv_moved my b2 r1 r3.
Proof.
  destruct my as [w|]; simpl; [|by intros -> ->].
  intros [_ H1] [H2 H3]. split; [done|by eapply only_mine_trans].
Qed.

Lemma searched_refl c my bound : core_ok c -> ready my (c_rsv c) bound -> searched c c my bound.
Proof.
  intros Hc Hr. split; [by destruct c|done|intros; apply claimed_refl|done|by apply moved_refl|done].
Qed.

Lemma searched_geo c c' my bound : searched c c' my bound ->
  c_ngroups c' = c_ngroups c /\ c_bpg c' = c_bpg c /\ c_fdb c' = c_fdb c /\
  c_desc c' = c_desc c /\ c_sbi c' = c_sbi c /\
  (forall g, group_desc c' g = group_desc c g) /\ (forall g, gdp_of c' g = gdp_of c g) /\
  (forall g, State.group_first c' g = State.group_first c g) /\
  (forall g, group_size c' g = group_size c g) /\ c_itb c' = c_itb c /\
  (forall g, unreadable c' g <-> unreadable c g).
Proof. intros [-> _ _ _ _ _]. done. Qed.

Lemma searched_bit c c' my bound g j : searched c c' my bound -> 0 <= g < c_ngroups c -> 0 <= j ->
  bit (block_bitmap c' g) j = bit (block_bitmap c g) j.
Proof. intros Hs Hg Hj. by apply (proj2 (proj1 (claimed_same _ _ _) (se_bits _ _ _ _ Hs g Hg))). Qed.

Lemma searched_compose c1 c2 c3 my1 b1 my2 b2 my b : searched c1 c2 my1 b1 ->
  searched c2 c3 my2 b2 -> rsv_moved my b (c_rsv c1) (c_rsv c3) -> searched c1 c3 my b.
Proof.
  intros S1 S2 Hr. destruct (searched_geo _ _ _ _ S1) as (Hn & _).
  assert (Hm : forall b, is_metadata c2 b <-> is_metadata c1 b) by (destruct S1 as [-> _ _ _ _ _]; done).
  destruct S1 as [F1 O1 B1 I1 R1 D1], S2 as [F2 O2 B2 I2 R2 D2]. rewrite Hn in *. split.
  - rewrite F2 at 1. rewrite F1 at 1. done.
  - done.
  - intros g Hg. eapply claimed_after; [by apply B1|by apply B2].
  - intros g Hg. rewrite I2, I1; done.
  - done.
  - intros x Hx. rewrite D2; [by apply D1|]. by rewrite Hm.
Qed.

Lemma searched_trans c1 c2 c3 my b1 b2 : searched c1 c2 my b1 -> searched c2 c3 my b2 ->
  searched c1 c3 my b2.
Proof.
  intros S1 S2. eapply searched_compose; [done|done|].
  eapply moved_trans; [apply (se_rsv _ _ _ _ S1)|apply (se_rsv _ _ _ _ S2)].
Qed.

Lemma searched_after_none c1 c2 c3 my b b' : searched c1 c2 my b -> searched c2 c3 None b' ->
  searched c1 c3 my b.
Proof.
  intros S1 S2. eapply searched_compose; [done|done|].
  rewrite (se_rsv _ _ _ _ S2). apply (se_rsv _ _ _ _ S1).
Qed.

(** The invariant of the allocator survives the search. *)
Lemma searched_blocks_ok c c' my b : blocks_ok c -> searched c c' my b -> blocks_ok c'.
Proof.
  intros [Hc Hm Ha] S. destruct (searched_geo _ _ _ _ S) as (Gn & Gb & _ & _ & _ & Gd & _ & Gf & Gs & Gi & _).
  split; [apply S| |]; intros g Hg; rewrite Gn in Hg.
  - destruct (Hm g Hg) as [H1 H2]. unfold marked, metadata in *. rewrite Gd, Gf, Gs, Gb, Gi.
    pose proof (group_bounds c Hc g Hg). split; intros j Hj.
    + rewrite (searched_bit _ _ _ _ _ _ S Hg); [by apply H1|].
      pose proof (metadata_in c Hc g j Hg Hj). lia.
    + rewrite (searched_bit _ _ _ _ _ _ S Hg) by lia. by apply H2.
  - unfold accounted in *. rewrite Gd, Gb, (Ha g Hg). symmetry. apply zeros_ext. intros j Hj.
    apply (searched_bit _ _ _ _ _ _ S Hg). lia.
Qed.

(** A group that was tried in vain. *)
Lemma tried_searched c c' g goal my size num blk num' : core_ok c -> 0 <= g < c_ngroups c ->
  tried c c' g goal my size num blk num' -> blk < 0 ->
  searched c c' my (window_bound size num goal) /\
  match my with None => num' = 0 /\ full (block_bitmap c g) (Z.max 0 goal) (c_bpg c)
              | Some _ => num' = num end.
Proof.
  intros Hc Hg [(d' & r' & -> & Hr & [(_ & Hcl & Hn)|(H1 & _)])] Hblk; [|lia].
  split; [|done]. set (c' := set_c_rsv r' _).
  assert (core_ok (with_buf c (bg_block_bitmap (group_desc c g)) d')) as Hok
    by (apply with_buf_ok; [done|]; rewrite (proj1 Hcl); apply (ck_groups _ Hc g Hg)).
  split; [done|by apply with_rsv_ok| | |done|].
  - intros g' Hg'. change (block_bitmap c' g') with
      (block_bitmap (with_buf c (bg_block_bitmap (group_desc c g)) d') g').
    destruct (bitmaps_with_bb c Hc g d' g' Hg Hg') as [-> _].
    destruct (decide (g' = g)) as [->|]; [done|apply claimed_refl].
  - intros g' Hg'. apply (bitmaps_with_bb c Hc g d' g' Hg Hg').
  - intros b Hb. apply lookup_insert_ne. intros <-. by apply Hb, bitmap_is_metadata.
Qed.

(** A count of zero free blocks is a full bitmap. *)
Lemma no_free_full c g : blocks_ok c -> 0 <= g < c_ngroups c ->
  bg_free_blocks_count (group_desc c g) = 0 -> full (block_bitmap c g) 0 (c_bpg c).
Proof.
  intros Hb Hg Hz j Hj. pose proof (bo_accounted _ Hb g Hg) as Ha. unfold accounted in Ha.
  rewrite Hz, (zeros_split _ j 1) in Ha by lia.
  pose proof (zeros_nonneg (block_bitmap c g) 0 (Z.to_nat j)).
  pose proof (zeros_nonneg (block_bitmap c g) (j + 1) (Z.to_nat (c_bpg c - j - 1))).
  change (Z.to_nat 1) with 1%nat in Ha. cbn [zeros] in Ha.
  destruct (bit (block_bitmap c g) j); [done|lia].
Qed.

(** Blocks have been claimed in the group [g]. *)
Record claimed_in (c c' : core) (my : option Z) (bound num g blk num' : Z) : Prop := {
  ci_core : exists d' r', c' = set_c_rsv r' (with_buf c (bg_block_bitmap (group_desc c g)) d') /\
    rsv_moved my bound (c_rsv c) r' /\
    claimed (block_bitmap c g) d' blk (blk + num') /\
    in_window my r' (State.group_first c g + blk) num';
  ci_blk : 0 <= blk /\ blk + num' <= c_bpg c /\ 1 <= num' <= Z.max 1 num;
  ci_free : free (block_bitmap c g) blk (blk + num');
}.

(** What a search of groups answers; without a window a search that finds nothing
    has seen that the groups it visited are full. *)
Definition found_result (c c' : core) (my : option Z) (bound num : Z) (visited : Z -> Prop)
    (r : found) : Prop :=
  match r with
  | FoundError => searched c c' my bound /\ exists g, 0 <= g < c_ngroups c /\ unreadable c g
  | FoundAt g p blk n => exists c1, searched c c1 my bound /\ 0 <= g < c_ngroups c /\
      p = gdp_of c g /\ claimed_in c1 c' my bound num g blk n
  | FoundNone n => searched c c' my bound /\
      match my with
      | Some _ => n = num
      | None => 0 <= n <= num /\
          forall g, 0 <= g < c_ngroups c -> visited g -> full (block_bitmap c g) 0 (c_bpg c)
      end
  end.

Lemma tried_claimed c c' g goal my size num blk num' : tried c c' g goal my size num blk num' ->
  0 <= blk -> claimed_in c c' my (window_bound size num goal) num g blk num'.
Proof.
  intros [(d' & r' & Hc' & Hr & [(H1 & _)|(H1 & H2 & H3 & H4 & H5 & H6)])] Hblk; [lia|].
  split; [by exists d', r'|done|done].
Qed.

Lemma claimed_in_mono c c' my b num num2 g blk n : claimed_in c c' my b num g blk n ->
  Z.max 1 num <= Z.max 1 num2 -> claimed_in c c' my b num2 g blk n.
Proof. intros [H1 H2 H3] Hn. split; [done|lia|done]. Qed.

Lemma found_after c c1 c2 my b num num1 visited visited1 r :
  searched c c1 my b -> found_result c1 c2 my b num1 visited1 r ->
  match my with Some _ => num1 = num | None => 0 <= num1 <= num /\
    forall g, 0 <= g < c_ngroups c -> visited g -> full (block_bitmap c g) 0 (c_bpg c) \/ visited1 g end ->
  found_result c c2 my b num visited r.
Proof.
  intros S Hr Hn. pose proof (searched_geo _ _ _ _ S) as (Gn & Gb & _ & _ & _ & _ & Gg & _ & _ & _ & Gu).
  destruct r as [g p blk n| |n]; simpl in *.
  - destruct Hr as (c3 & S3 & Hg & Hp & Hci). rewrite Gn, Gg in *.
    exists c3. split; [by eapply searched_trans|]. split; [done|]. split; [done|].
    eapply claimed_in_mono; [done|]. destruct my; lia.
  - destruct Hr as (S2 & g & Hg & Hu). rewrite Gn in Hg. split; [by eapply searched_trans|].
    exists g. split; [done|]. by apply Gu.
  - destruct Hr as (S2 & Hn2). split; [by eapply searched_trans|].
    destruct my as [w|]; [congruence|]. destruct Hn as [Hn Hv], Hn2 as [Hn2 Hv2]. split; [lia|].
    intros g Hg Hvis. destruct (Hv g Hg Hvis) as [?|Hv1]; [done|].
    rewrite Gn in Hv2. intros j Hj.
    rewrite <- (searched_bit _ _ _ _ _ _ S Hg) by lia. apply (Hv2 g Hg Hv1). by rewrite Gb.
Qed.

Lemma other_groups_spec windowsz my bound : 268435456 <= bound <= 536870912 ->
  forall n fs g num, blocks_ok (core_of fs) -> 0 <= g < c_ngroups (core_of fs) ->
  can_allocate my (c_rsv (core_of fs)) bound num -> 
  runs (other_groups n g windowsz my num) E
    (fun r fs' => found_result (core_of fs) (core_of fs') my bound num (visits (core_of fs) n g) r) fs.
Proof.
  intros Hbound. induction n as [|n IH]; intros fs g num Hb Hg Hcan.
  { apply runs_ret. pose proof (bo_core _ Hb) as Hc. split.
    - apply searched_refl; [done|]. destruct my; [apply Hcan|done].
    - destruct my; [done|]. split; [simpl in Hcan; lia|done]. }
  pose proof (bo_core _ Hb) as Hc. set (c := core_of fs) in *. pose proof (ck_ngroups c Hc) as Hn.
  destruct (next_group_mod c g) as [_ Hnx]; [lia|done|].
  cbn [other_groups]. step. step. cbn [id].
  change (s_groups_count (fs_sbi fs)) with (c_ngroups c). fold (next_group c g). cbv zeta.
  set (g1 := next_group c g) in *.
  step. unfold kr_get_group_desc. run get_group_desc_run; [done|done|]. fold c.
  step. run desc_get_run; [done|done|]. fold c.
  assert (Hcan0 : ready my (c_rsv c) bound) by (destruct my; [apply Hcan|done]).
  assert (Hnum0 : 0 <= num) by (destruct my; simpl in Hcan; lia).
  step.
  - eapply runs_mono; [by apply IH|]. intros r fs' Hr.
    eapply found_after; [by apply searched_refl|exact Hr|].
    destruct my as [w|]; [done|]. split; [lia|]. intros g' Hg' [->|Hv]; [left|by right].
    fold g1. apply no_free_full; try done.
    match goal with H : _ || false = true |- _ => rewrite orb_false_r in H; lia end.
  - step. eapply runs_mono.
    + apply (allocate_in_group_spec fs g1 (-1) my bound num Hc Hnx); [|done|].
      * pose proof (bpg_range c Hc). fold c. lia.
      * unfold window_bound. simpl. lia.
    + fold c. intros [[blk num']|] fs1; [|intros [Hcore Hu]; step; rewrite Hcore; split;
        [by apply searched_refl|by exists g1]].
      intros Htr. assert (Hwb : window_bound bound num (-1) = bound) by (unfold window_bound; simpl; lia).
      step; [step|].
      * exists c. split; [by apply searched_refl|]. split; [done|]. split; [done|].
        rewrite <- Hwb. apply (tried_claimed _ _ _ (-1)); [done|lia].
      * destruct (tried_searched _ _ _ _ _ _ _ _ _ Hc Hnx Htr) as [S Hfull]; [lia|].
        rewrite Hwb in S. destruct (searched_geo _ _ _ _ S) as (Gn & Gb & _).
        eapply runs_mono; [apply IH|].
        -- by eapply searched_blocks_ok.
        -- by rewrite Gn.
        -- destruct my as [w|]; simpl in *; [|lia]. subst num'.
           split; [lia|]. apply (se_rsv _ _ _ _ S).
        -- intros r fs' Hr. eapply found_after; [exact S|exact Hr|].
           destruct my as [w|]; [done|]. destruct Hfull as [-> Hfull]. split; [lia|].
           intros g' Hg' [->|Hv]; [left; exact Hfull|right].
           by rewrite (visits_geo c).
Qed.

Lemma ready_mono my r a b : ready my r a -> a <= b -> ready my r b.
Proof.
  destruct my as [w|]; simpl; [|done]. intros [H1 H2 H3 H4] Hab. split; try done.
  intros Hne. specialize (H4 Hne). lia.
Qed.

Lemma can_ready my r size num : can_allocate my r size num -> ready my r size /\ 0 <= num.
Proof. destruct my; simpl; intros; [tauto || (split; [tauto|lia])|split; [done|lia]]. Qed.

Lemma can_mono my r a b num : can_allocate my r a num -> a <= b -> can_allocate my r b num.
Proof.
  destruct my as [w|]; simpl; [|done]. intros [Hn Hr] Hab. split; [done|].
  by apply (ready_mono (Some w) r a b).
Qed.

Lemma search_all_groups_spec fs g goal windowsz my size num : blocks_ok (core_of fs) ->
  let c := core_of fs in
  0 <= g < c_ngroups c -> c_fdb c <= goal < c_nblocks c ->
  can_allocate my (c_rsv c) size num -> let bound := window_bound size num 0 in bound <= 536870912 ->
  runs (search_all_groups g goal windowsz my num) E (fun r fs' =>
    (r.2 = my \/ r.2 = None) /\
    found_result c (core_of fs') r.2 bound num (fun _ => True) r.1) fs.
Proof.
  intros Hb c Hg Hgoal Hcan bound Hbound. pose proof (bo_core _ Hb) as Hc. fold c in Hc, Hb.
  pose proof (ck_fdb c Hc) as Hfdb. pose proof (ck_blocks32 c Hc) as H32.
  pose proof (bpg_range c Hc) as Hbpg.
  destruct (can_ready _ _ _ _ Hcan) as [_ Hnum].
  unfold search_all_groups. step. unfold kr_get_group_desc.
  run get_group_desc_run; [done|done|]. fold c. step. run desc_get_run; [done|done|]. fold c.
  step. step. cbn [id]. cbv zeta.
  set (my1 := match my with Some w => _ | None => None end).
  assert (Hmy1 : my1 = my \/ my1 = None)
    by (unfold my1; destruct my; [destruct (_ && _ && _)|]; auto).
  clearbody my1.
  assert (Hcan1 : can_allocate my1 (c_rsv c) size num).
  { destruct Hmy1 as [->| ->]; [done|]. destruct my; simpl in *; lia. }
  assert (Hnum1 : num < 268435456) by (destruct my1; simpl in Hcan1; lia).
  assert (Hwbd : window_bound size num 0 = Z.max size 268435456 + num) by done.
  assert (Hbnd : size <= bound /\ 268435456 <= bound <= 536870912)
    by (unfold bound in *; lia).
  assert (Hothers : forall fs1 num1, searched c (core_of fs1) my1 bound ->
    match my1 with Some _ => num1 = num | None => 0 <= num1 <= num end ->
    runs (r ← other_groups (Z.to_nat (s_groups_count (fs_sbi fs))) g windowsz my1 num1;
          mret (r, my1)) E (fun r fs' => (r.2 = my \/ r.2 = None) /\
      found_result c (core_of fs') r.2 bound num (fun _ => True) r.1) fs1).
  { intros fs1 num1 S Hn1. destruct (searched_geo _ _ _ _ S) as (Gn & _). step.
    eapply runs_mono; [apply (other_groups_spec windowsz my1 bound); [apply Hbnd| | |]|].
    - by eapply searched_blocks_ok.
    - by rewrite Gn.
    - pose proof (se_rsv _ _ _ _ S) as Hm. destruct my1 as [w|]; simpl in *; [|lia].
      subst num1. split; [lia|]. apply Hm.
    - intros r fs' Hr. step. cbn [fst snd]. split; [done|].
      eapply found_after; [exact S|exact Hr|]. destruct my1 as [w|]; [done|]. split; [done|].
      intros g' Hg' _. right. rewrite (visits_geo c) by done.
      change (s_groups_count (fs_sbi fs)) with (c_ngroups c). by apply visits_all. }
  assert (Srefl : searched c c my1 bound).
  { apply searched_refl; [done|]. apply (ready_mono _ _ size); [|lia]. by eapply can_ready. }
  step.
  - change (es_first_data_block (fs_es fs)) with (c_fdb c).
    change (s_blocks_per_group (fs_sbi fs)) with (c_bpg c). wraps.
    pose proof (Z.mod_pos_bound (goal - c_fdb c) (c_bpg c) ltac:(lia)) as Hmod. wraps.
    set (gt := (goal - c_fdb c) mod c_bpg c) in *.
    assert (Hwb : window_bound size num gt = bound)
      by (unfold bound, window_bound; by replace (gt <? 0) with false by lia).
    step. eapply runs_mono.
    + apply (allocate_in_group_spec fs g gt my1 size num Hc Hg); [fold c; lia|done|lia].
    + fold c. intros [[blk num']|] fs1; [|intros [Hcore Hu]; step; rewrite Hcore; cbn [fst snd]; split;
        [done|split; [done|by exists g]]].
      intros Htr. step; [step|].
      * cbn [fst snd]. split; [done|]. exists c. split; [done|]. split; [done|]. split; [done|].
        rewrite <- Hwb. apply (tried_claimed _ _ _ gt); [done|lia].
      * destruct (tried_searched _ _ _ _ _ _ _ _ _ Hc Hg Htr) as [S Hfull]; [lia|].
        rewrite Hwb in S. apply Hothers; [done|]. destruct my1; [done|lia].
  - by apply Hothers; [|destruct my1; [|lia]].
Qed.

(** *** The blocks that were found *)

Lemma blocks_ok_rsv c r : blocks_ok c -> blocks_ok (set_c_rsv r c).
Proof. intros [Hc Hm Ha]. split; [by apply with_rsv_ok|exact Hm|exact Ha]. Qed.
Lemma blocks_ok_sbi c s : blocks_ok c -> blocks_ok (set_c_sbi s c).
Proof. intros [Hc Hm Ha]. split; [by apply with_sbi_ok|exact Hm|exact Ha]. Qed.

(** Free blocks of a group are data: metadata and padding are marked. *)
Lemma free_is_data c g blk n : blocks_ok c -> 0 <= g < c_ngroups c -> 0 <= blk -> 1 <= n ->
  blk + n <= c_bpg c -> free (block_bitmap c g) blk (blk + n) ->
  blk + n <= group_size c g /\
  (forall b, State.group_first c g + blk <= b < State.group_first c g + blk + n -> ~ metadata c g b).
Proof.
  intros Hb Hg Hblk Hn Hbn Hf. destruct (bo_marked _ Hb g Hg) as [Hm Hp]. split.
  - destruct (decide (blk + n <= group_size c g)) as [|Hlt]; [done|].
    specialize (Hp (blk + n - 1) ltac:(lia)). rewrite Hf in Hp by lia. done.
  - intros b Hbr Hmb. specialize (Hm b Hmb). rewrite Hf in Hm by lia. done.
Qed.

(** Claiming [n] blocks of the group [g], from its block [j] on. *)
Lemma claim_group c g j n d' : blocks_ok c -> 0 <= g < c_ngroups c ->
  0 <= j -> 1 <= n -> j + n <= c_bpg c ->
  free (block_bitmap c g) j (j + n) -> claimed (block_bitmap c g) d' j (j + n) ->
  let free := bg_free_blocks_count (group_desc c g) - n in
  let c' := rewrite_group c g d' free in
  0 <= free < 65536 /\ blocks_ok c' /\ blocks_changed c c' /\ c_rsv c' = c_rsv c /\ c_sbi c' = c_sbi c /\
  (forall b, c_fdb c <= b < c_nblocks c -> block_used c' b = block_used c b ||
     ((State.group_first c g + j <=? b) && (b <? State.group_first c g + j + n))).
Proof.
  intros Hb Hg Hj Hn Hjn Hf Hcl free c'. pose proof (bo_core _ Hb) as Hc.
  destruct (group_bounds c Hc g Hg) as (Hgf & Hgs & _). pose proof (bpg_range c Hc) as Hbpg.
  pose proof (bo_accounted _ Hb g Hg) as Hacc. unfold accounted in Hacc.
  assert (Hz : free = zeros d' 0 (Z.to_nat (c_bpg c))).
  { unfold free. rewrite Hacc. symmetry. apply (zeros_claimed _ _ j n); try done; lia. }
  pose proof (zeros_nonneg d' 0 (Z.to_nat (c_bpg c))).
  pose proof Hcl as [Hlen Hbits].
  destruct (rewrite_group_spec c g d' free Hb Hg Hlen) as (H1 & H2 & H3 & H4 & H5); [lia|done| | |].
  - intros b Hm. pose proof (metadata_in c Hc g b Hg Hm) as Hbi.
    rewrite Hbits by lia. by rewrite (proj1 (bo_marked _ Hb g Hg) b Hm).
  - intros k Hk. rewrite Hbits by lia. by rewrite (proj2 (bo_marked _ Hb g Hg) k Hk).
  - split; [lia|]. split; [done|]. split; [done|]. split; [done|]. split; [done|].
    intros b Hbr. destruct (block_split c Hc b Hbr) as (Hg' & Hj' & Heq).
    set (g' := (b - c_fdb c) / c_bpg c) in *. set (j' := (b - c_fdb c) mod c_bpg c) in *.
    change (block_used c' b) with (bit (block_bitmap c' g') j').
    change (block_used c b) with (bit (block_bitmap c g') j').
    rewrite H5 by done. destruct (decide (g' = g)) as [Hgg|Hne].
    + rewrite Hgg in *. rewrite Hbits by lia. f_equal. rewrite Heq. f_equal; lia.
    + destruct (free_is_data c g j n Hb Hg Hj Hn Hjn Hf) as [Hjs _].
      destruct (group_bounds c Hc g' Hg') as (_ & Hgs' & _).
      assert (Hout : ~ (State.group_first c g + j <= b < State.group_first c g + j + n))
        by (intros Hx; apply (groups_apart c Hc g g' b b); try done; lia).
      replace ((_ <=? b) && (b <? _)) with false by lia. by rewrite orb_false_r.
Qed.

(** What an allocation of [n] blocks at [ret] has done. *)
Record new_blocks_ok (c c' : core) (my : option Z) (bound count ret n : Z) : Prop := {
  nb_ok : blocks_ok c';
  nb_changed : blocks_changed c c';
  nb_rsv : rsv_moved my bound (c_rsv c) (c_rsv c');
  nb_count : 1 <= n <= count;
  nb_range : c_fdb c <= ret /\ ret + n <= c_nblocks c;
  nb_data : forall b, ret <= b < ret + n -> ~ is_metadata c b;
  nb_free : forall b, ret <= b < ret + n -> block_used c b = false;
  nb_used : forall b, c_fdb c <= b < c_nblocks c ->
    block_used c' b = block_used c b || ((ret <=? b) && (b <? ret + n));
  nb_sbi : c_sbi c' = set_s_freeblocks_counter (s_freeblocks_counter (c_sbi c) - n) (c_sbi c);
}.

(** The core of [allocated], on the groups. *)
Lemma claimed_ok c c1 my bound num count g blk n : blocks_ok c -> claimed_in c c1 my bound num g blk n ->
  0 <= g < c_ngroups c -> num <= count -> 1 <= count ->
  let free := bg_free_blocks_count (group_desc c g) - n in
  let c2 := with_desc c1 g (set_bg_free_blocks_count free (group_desc c g)) in
  0 <= free < 65536 /\
  new_blocks_ok c (set_c_sbi (set_s_freeblocks_counter (s_freeblocks_counter (c_sbi c) - n) (c_sbi c)) c2)
    my bound count (State.group_first c g + blk) n.
Proof.
  intros Hb [(d' & r' & -> & Hr & Hcl & Hw) (Hb1 & Hb2 & Hb3) Hf] Hg Hnum Hcount free c2.
  pose proof (bo_core _ Hb) as Hc.
  destruct (claim_group c g blk n d' Hb Hg Hb1 ltac:(lia) Hb2 Hf Hcl) as (H1 & H2 & H3 & H4 & H5 & H6).
  fold free in H1, H2, H3, H4, H5, H6. split; [done|].
  destruct (free_is_data c g blk n Hb Hg Hb1 ltac:(lia) Hb2 Hf) as [Hs Hd].
  destruct (group_bounds c Hc g Hg) as (Hgf & Hgs & Hge & _).
  assert (Hfirst : c_fdb c <= State.group_first c g)
    by (unfold State.group_first; pose proof (bpg_range c Hc); lia).
  change c2 with (set_c_rsv r' (rewrite_group c g d' free)).
  split; [by apply blocks_ok_sbi, blocks_ok_rsv| |done|lia|lia| | | |done].
  - destruct H3 as [F P I D]. split; [rewrite F at 1; done|exact P|exact I|exact D].
  - intros b Hbr (g' & Hg' & Hm). pose proof (metadata_in c Hc g' b Hg' Hm) as Hin.
    destruct (decide (g' = g)) as [->|Hne]; [by apply (Hd b)|].
    apply (groups_apart c Hc g' g b b); try done. lia.
  - intros b Hbr. replace b with (State.group_first c g + (b - State.group_first c g)) by lia.
    rewrite block_used_at by lia. apply Hf. lia.
  - intros b Hbr. by apply H6.
Qed.

(** The run that was claimed passes the checks of [allocated]. *)
Lemma allocated_spec c fs ino count my bound num g blk n : blocks_ok c ->
  claimed_in c (core_of fs) my bound num g blk n ->
  0 <= g < c_ngroups c -> num <= count -> 1 <= count < 268435456 ->
  runs (allocated ino count g (gdp_of c g) blk n) E (fun r fs' =>
    r = inr (State.group_first c g + blk, 0, n) /\
    new_blocks_ok c (core_of fs') my bound count (State.group_first c g + blk) n) fs.
Proof.
  intros Hb Hci Hg Hnum Hcount. pose proof (bo_core _ Hb) as Hc.
  pose proof Hci as [(d' & r' & Hcore & _ & Hcl & _) (Hb1 & Hb2 & Hb3) Hf].
  destruct (claimed_ok _ _ _ _ _ _ _ _ _ Hb Hci Hg Hnum ltac:(lia)) as (Hfree & Hok).
  destruct (free_is_data c g blk n Hb Hg Hb1 ltac:(lia) Hb2 Hf) as [Hs Hd].
  destruct (group_bounds c Hc g Hg) as (Hgf & Hgs & Hge & _). pose proof (ck_blocks32 c Hc) as H32.
  assert (Hc1 : core_ok (core_of fs)).
  { rewrite Hcore. apply with_rsv_ok, with_buf_ok; [done|]. rewrite (proj1 Hcl).
    apply (ck_groups _ Hc g Hg). }
  assert (Hd1 : group_desc (core_of fs) g = group_desc c g) by by rewrite Hcore.
  assert (Hp1 : gdp_of c g = gdp_of (core_of fs) g) by by rewrite Hcore.
  assert (Hg1 : 0 <= g < c_ngroups (core_of fs)) by by rewrite Hcore.
  assert (Hgeo1 : State.group_first (core_of fs) g = State.group_first c g /\
    group_size (core_of fs) g = group_size c g /\ c_nblocks (core_of fs) = c_nblocks c)
    by by rewrite Hcore.
  destruct Hgeo1 as (Hgf1 & Hgs1 & Hnb1).
  unfold allocated. rewrite Hp1. step. run desc_get_run; [done|done|]. rewrite Hd1.
  step. step. cbn [id]. cbv zeta.
  change (kr_group_first_block_no _ _ g) with
    (kr_group_first_block_no (c_bpg (core_of fs)) (c_fdb (core_of fs)) g).
  rewrite (group_first_run _ Hc1 g Hg1), Hgf1. wraps.
  replace (blk + State.group_first c g) with (State.group_first c g + blk) by lia.
  set (ret := State.group_first c g + blk) in *.
  assert (in_system_zone fs (group_desc c g) ret n = false) as ->.
  { rewrite <- Hd1. apply data_not_system; try done; rewrite ?Hgf1, ?Hgs1; unfold ret; try lia.
    intros b Hbr Hm. apply (Hd b Hbr). by rewrite Hcore in Hm. }
  change (es_blocks_count (fs_es fs)) with (c_nblocks (core_of fs)). rewrite Hnb1. wraps.
  replace (ret + n - 1 >=? c_nblocks c) with false by (unfold ret; lia).
  step. wraps. eapply runs_mono; [apply (group_adjust_spec E fs g (- n) Hc1 Hg1); rewrite Hd1; lia|].
  rewrite Hd1. intros [] fs2 [Hcore2 _].
  assert (Hfin : forall fs3, core_of fs3 = core_of (set_fs_sbi (set_s_freeblocks_counter
      (s_freeblocks_counter (fs_sbi fs2) - n) (fs_sbi fs2)) fs2) ->
    new_blocks_ok c (core_of fs3) my bound count ret n).
  { intros fs3 ->. change (core_of (set_fs_sbi _ fs2)) with
      (set_c_sbi (set_s_freeblocks_counter (s_freeblocks_counter (c_sbi (core_of fs2)) - n)
        (c_sbi (core_of fs2))) (core_of fs2)).
    rewrite Hcore2. unfold ret. replace (c_sbi (with_desc _ _ _)) with (c_sbi c) by by rewrite Hcore.
    done. }
  unfold upd_sbi, log. do 2 step. do 2 step. step.
  step; [step|]; (step; [steps; split; [done|by apply Hfin]|
    step; split; [by replace count with n by lia|by apply Hfin]]).
Qed.

(** *** The whole allocation *)

Lemma searched_used c c' my b k : searched c c' my b -> core_ok c -> c_fdb c <= k < c_nblocks c ->
  block_used c' k = block_used c k.
Proof.
  intros S Hc Hk. destruct (searched_geo _ _ _ _ S) as (_ & Gb & Gf & _).
  destruct (block_split c Hc k Hk) as (Hg & Hj & _). unfold block_used. rewrite Gb, Gf.
  apply (searched_bit _ _ _ _ _ _ S Hg). lia.
Qed.

Lemma searched_changed c c' my b : searched c c' my b -> blocks_changed c c'.
Proof.
  intros S. destruct (searched_geo _ _ _ _ S) as (_ & _ & _ & Gl & Gs & Gd & _).
  destruct S as [F O _ I _ D]. split; [rewrite Gl, Gs; rewrite F at 1; by destruct c| |done|done].
  intros g Hg. by rewrite Gd.
Qed.

(** A search, and then blocks that were found. *)
Lemma new_blocks_after c c1 c2 my my1 bound count ret n : blocks_ok c ->
  searched c c1 my bound -> (my1 = my \/ my1 = None) ->
  new_blocks_ok c1 c2 my1 bound count ret n -> new_blocks_ok c c2 my bound count ret n.
Proof.
  intros Hb S Hmy [H1 H2 H3 H4 H5 H6 H7 H8 H9]. pose proof (bo_core _ Hb) as Hc.
  destruct (searched_geo _ _ _ _ S) as (_ & _ & Gf & _ & Gs & _).
  assert (Gn : c_nblocks c1 = c_nblocks c) by (destruct S as [-> _ _ _ _ _]; done).
  rewrite Gf, Gn, Gs in *. pose proof (searched_changed _ _ _ _ S) as Hch.
  split; try done.
  - by eapply blocks_changed_trans.
  - destruct Hmy as [->| ->]; [eapply moved_trans; [apply S|done]|].
    simpl in H3. rewrite H3. apply S.
  - intros b Hbr Hm. apply (H6 b Hbr). by apply (is_metadata_changed c c1 b Hch).
  - intros b Hbr. rewrite <- (H7 b Hbr). symmetry. apply (searched_used _ _ _ _ _ S Hc). lia.
  - intros b Hbr. rewrite H8 by done. by rewrite (searched_used _ _ _ _ _ S Hc).
Qed.

(** How [kr_new_blocks] ends, once it has begun to search. *)
Definition alloc_result (c c' : core) (my : option Z) (bound count : Z)
    (r : new_blocks_result) : Prop :=
  let '(ret, err, n) := r in
  (err = 0 /\ new_blocks_ok c c' my bound count ret n) \/
  (ret = 0 /\ n = count /\ searched c c' my bound /\
    (err = - EIO /\ (exists g, 0 <= g < c_ngroups c /\ unreadable c g) \/
     err = - ENOSPC /\ forall g, 0 <= g < c_ngroups c -> full (block_bitmap c g) 0 (c_bpg c))).

Lemma found_searched c c1 c2 my my1 bound num r : blocks_ok c -> searched c c1 my bound ->
  (my1 = my \/ my1 = None) -> found_result c1 c2 my1 bound num (fun _ => True) r ->
  match r with
  | FoundError => searched c c2 my bound /\ exists g, 0 <= g < c_ngroups c /\ unreadable c g
  | FoundNone n => searched c c2 my bound /\ match my1 with
      | Some _ => n = num
      | None => 0 <= n <= num /\
          forall g, 0 <= g < c_ngroups c -> full (block_bitmap c g) 0 (c_bpg c)
      end
  | FoundAt g p blk n => exists c3, searched c c3 my bound /\ 0 <= g < c_ngroups c3 /\
      p = gdp_of c3 g /\ claimed_in c3 c2 my1 bound num g blk n
  end.
Proof.
  intros Hb S Hmy Hr. pose proof (searched_geo _ _ _ _ S) as (Gn & Gb & _ & _ & _ & _ & Gg & _ & _ & _ & Gu).
  assert (Hcomp : forall c3, searched c1 c3 my1 bound -> searched c c3 my bound)
    by (intros c3 S3; destruct Hmy as [->| ->]; [by eapply searched_trans|by eapply searched_after_none]).
  destruct r as [g p blk n| |n]; simpl in Hr.
  - destruct Hr as (c3 & S3 & Hg & Hp & Hci). exists c3.
    destruct (searched_geo _ _ _ _ S3) as (Gn3 & _ & _ & _ & _ & _ & Gg3 & _).
    rewrite Gn3, Gg3. split; [by apply Hcomp|done].
  - destruct Hr as (S2 & g & Hg & Hu). split; [by apply Hcomp|]. exists g. rewrite Gn in Hg.
    split; [done|]. by apply Gu.
  - destruct Hr as (S2 & Hn). split; [by apply Hcomp|]. destruct my1; [done|].
    destruct Hn as [Hn Hf]. split; [done|]. rewrite Gn, Gb in Hf. intros g Hg j Hj.
    rewrite <- (searched_bit _ _ _ _ _ _ S Hg) by lia. by apply (Hf g Hg I).
Qed.

Lemma found_none_bound c c' b b' num v r : found_result c c' None b num v r ->
  found_result c c' None b' num v r.
Proof.
  assert (Hs : forall c1 c2, searched c1 c2 None b -> searched c1 c2 None b')
    by (intros c1 c2 []; by split).
  destruct r; simpl; [|by intros [? ?]; auto|by intros [? ?]; auto].
  intros (c1 & S & Hg & Hp & [H1 H2 H3]). exists c1. split; [auto|]. split; [done|]. split; [done|].
  split; done.
Qed.

Lemma undo_spec fs ino count err : runs (undo ino count err false) E
  (fun r fs' => r = (0, err, count) /\ core_of fs' = core_of fs) fs.
Proof. unfold undo, log. by steps. Qed.

Lemma alloc_turn_spec c fs ino goal count gg g my my1 windowsz size num : blocks_ok c ->
  let bound := window_bound size count 0 in
  searched c (core_of fs) my bound -> (my1 = my /\ num = count \/ my1 = None) ->
  0 <= g < c_ngroups c -> c_fdb c <= goal < c_nblocks c ->
  can_allocate my1 (c_rsv (core_of fs)) size num -> bound <= 536870912 ->
  num <= count -> 1 <= count < 268435456 ->
  runs (alloc_turn ino goal count gg (g, my1, windowsz, num)) E (fun r fs' => match r with
    | inl p => my1 <> None /\ searched c (core_of fs') my bound /\ p = (gg, None, 0, count)
    | inr r => alloc_result c (core_of fs') my bound count r
    end) fs.
Proof.
  intros Hb bound S Hmy Hg Hgoal Hcan Hsize Hnum Hcount.
  assert (Hwn : window_bound size num 0 <= 536870912) by (unfold bound, window_bound in *; simpl in *; lia).
  assert (Hb1 : blocks_ok (core_of fs)) by (by eapply searched_blocks_ok).
  destruct (searched_geo _ _ _ _ S) as (Gn & _ & Gf & _).
  assert (Gnb : c_nblocks (core_of fs) = c_nblocks c) by (destruct S as [-> _ _ _ _ _]; done).
  unfold alloc_turn. step. eapply runs_mono.
  { apply (search_all_groups_spec fs g goal windowsz my1 size num); try done; rewrite ?Gn, ?Gf, ?Gnb; done. }
  cbv beta. intros [r my2] fs1 [Hmy2 Hr]. cbn [fst snd] in *.
  assert (Hr' : found_result (core_of fs) (core_of fs1) my2 bound num (fun _ => True) r).
  { destruct my2 as [w|]; [|by eapply found_none_bound].
    destruct Hmy as [[_ ->]| ->]; [done|]. by destruct Hmy2. }
  assert (Hmy2' : my2 = my \/ my2 = None) by (destruct Hmy as [[-> _]| ->], Hmy2; auto).
  pose proof (found_searched _ _ _ _ _ _ _ _ Hb S Hmy2' Hr') as Hf.
  destruct r as [g2 p blk n| |n].
  - destruct Hf as (c3 & S3 & Hg3 & -> & Hci). step.
    eapply runs_mono; [apply (allocated_spec c3 fs1 ino count my2 bound num g2 blk n);
      try done; by apply (searched_blocks_ok c c3 my bound)|].
    cbv beta. intros r fs2 [-> Hok]. step. left. split; [done|].
    by eapply new_blocks_after.
  - step. call undo_spec. intros r fs2 [-> Hcore]. step. right. rewrite Hcore.
    split; [done|]. split; [done|]. split; [apply Hf|]. left. split; [done|]. apply Hf.
  - destruct Hf as [S2 Hn]. destruct my2 as [w|].
    + step. split; [|split; [done|]].
      * by destruct Hmy2 as [<-|?].
      * destruct Hmy as [[_ ->]| ->]; [by subst n|]. by destruct Hmy2.
    + step. call undo_spec. intros r fs2 [-> Hcore]. step. right. rewrite Hcore.
      split; [done|]. split; [done|]. split; [done|]. right. split; [done|]. apply Hn.
Qed.

(** The file whose blocks are allocated: the window its inode points to. *)
Definition inode_window (fs : krfs) (ino : Z) : option Z :=
  match fs_inodes fs !! ino ≫= i_block_alloc_info ∘ KR_I with
  | Some b => if u16 (rsv_goal_size (rsv_at (fs_rsv fs) (rsv_window_node b))) >? 0
              then Some (rsv_window_node b) else None
  | None => None
  end.

(** [kr_new_blocks] ends, and allocates free blocks of the data zone or says why
    it does not. *)
Lemma kr_new_blocks_spec fs ino goal count size : blocks_ok (core_of fs) ->
  let c := core_of fs in let my := inode_window fs ino in
  1 <= count < 268435456 -> window_bound size count 0 <= 536870912 -> ready my (c_rsv c) size ->
  runs (kr_new_blocks ino goal count) E (fun r fs' =>
    let '(ret, err, n) := r in
    alloc_result c (core_of fs') my (window_bound size count 0) count r \/
    ret = 0 /\ n = count /\ core_of fs' = c /\
      (err = dquot_alloc_block ino count /\ err <> 0 \/
       err = - ENOSPC /\ kr_has_free_blocks fs = false)) fs.
Proof.
  intros Hb c my Hcount Hsize Hready. pose proof (bo_core _ Hb) as Hc. fold c in Hb, Hc.
  pose proof (bpg_range c Hc) as Hbpg. pose proof (ck_fdb c Hc) as Hfdb.
  unfold kr_new_blocks. destruct (Z.eqb_spec (dquot_alloc_block ino count) 0) as [Hq|Hq]; cbn [negb].
  2: { step. right. split; [done|]. split; [done|]. split; [done|]. by left. }
  step. unfold log at 1. step. step. step. cbn [id].
  set (fs1 := set_fs_trace _ fs). change (fs_inodes fs1) with (fs_inodes fs).
  change (fs_rsv fs1) with (fs_rsv fs). change (kr_has_free_blocks fs1) with (kr_has_free_blocks fs).
  change (es_first_data_block (fs_es fs1)) with (c_fdb c).
  change (es_blocks_count (fs_es fs1)) with (c_nblocks c).
  change (s_blocks_per_group (fs_sbi fs1)) with (c_bpg c).
  set (windowsz := match _ with Some b => u16 _ | None => 0 end).
  assert (Hmy : match fs_inodes fs !! ino ≫= i_block_alloc_info ∘ KR_I with
    | Some b => if windowsz >? 0 then Some (rsv_window_node b) else None
    | None => None end = my) by (unfold windowsz, my, inode_window; by destruct (_ ≫= _)).
  cbv zeta. rewrite Hmy. clearbody windowsz.
  destruct (kr_has_free_blocks fs) eqn:Hfree; cbn [negb].
  2: { call undo_spec. intros r fs2 [-> Hcore]. right. split; [done|]. split; [done|].
       split; [by rewrite Hcore|]. by right. }
  set (goal' := if _ || _ then c_fdb c else goal).
  assert (Hgoal : c_fdb c <= goal' < c_nblocks c).
  { unfold goal'. destruct (group_bounds c Hc 0) as (_ & Hs & He & _); [pose proof (ck_ngroups c Hc); lia|].
    unfold State.group_first in *. destruct ((goal <? c_fdb c) || (goal >=? c_nblocks c)) eqn:?; lia. }
  destruct (block_split c Hc goal' Hgoal) as (Hg & _).
  set (g := (goal' - c_fdb c) / c_bpg c) in *. set (bound := window_bound size count 0).
  assert (Hbs : size <= bound) by (unfold bound, window_bound; simpl; lia).
  eapply runs_mono.
  - apply (runs_loop E (fun p fs2 => searched c (core_of fs2) my bound /\
        (p = (g, my, windowsz, count) /\ core_of fs2 = c \/ p = (g, None, 0, count)))
      (fun p _ => match p.1.1.2 with Some _ => 1 | None => 0 end)
      (alloc_turn ino goal' count g) (fun r fs2 => alloc_result c (core_of fs2) my bound count r)).
    + intros p fs2 [S Hp]. split; [destruct p.1.1.2; lia|].
      assert (exists my1 w, p = (g, my1, w, count) /\ (my1 = my \/ my1 = None) /\
        can_allocate my1 (c_rsv (core_of fs2)) size count) as (my1 & w & -> & Hm & Hcan).
      { destruct Hp as [[-> Hcore]| ->]; [exists my, windowsz|exists None, 0].
        - split; [done|]. split; [by left|]. rewrite Hcore. by destruct my; simpl in *; [split|lia].
        - split; [done|]. split; [by right|]. simpl. lia. }
      eapply runs_mono; [apply (alloc_turn_spec c fs2 ino goal' count g g my my1 w size count);
        try done; destruct Hm; [by left|by right]|].
      cbv beta. intros [p'|r] fs3; [|done]. intros (Hne & S' & ->). split; [split; [done|by right]|].
      cbn [fst snd]. destruct my1; [lia|done].
    + split; [by apply searched_refl; [|eapply ready_mono]|]. by left.
    + cbn [fst snd]. pose proof (ck_nblocks c Hc).
      assert (0 <= (c_ngroups c - 1) * c_bpg c)
        by (apply Z.mul_nonneg_nonneg; pose proof (ck_ngroups c Hc); lia).
      destruct my; lia.
  - intros [[ret err] n] fs2 Hr. by left.
Qed.

End Facts.
