(* ===== verification/Demo.v ===== *)
(** * A small file system

    Two groups of 32 blocks of 1 KiB and 16 inodes each, on which the theorems are
    instantiated: block 0 is the boot block, block 1 the super block, and the
    groups begin at the blocks 1 and 33. *)

From S2P Require Import Prelude Bits Kr Rsv Bitmap Alloc State Balloc BallocFacts.

#[global] Instance demo_bitops : BitOps := bitops_ref.
#[global] Instance demo_bitlaws : BitLaws demo_bitops := bitlaws_ref.
#[global] Instance demo_rbtree : RbTree := rbtree_ref.
#[global] Instance demo_rblaws : RbLaws demo_rbtree := rblaws_ref.
#[global] Instance demo_trylock : Trylock := true.
#[global] Instance demo_kernel : Kernel := {|
  sb_getblk_ok := fun _ => true;
  bh_read_ok := fun _ => true;
  kmalloc_ok := true;
  percpu_counter_read_positive := fun n => Z.max 0 n;
  capable_sys_resource := false;
  current_fsuid := 1000;
  in_group_p := fun _ => false;
  get_seconds := 1500000000;
  prandom_u32 := 5;
  dquot_alloc_block := fun _ _ => 0;
  dquot_initialize := fun _ => 0;
  dquot_alloc_inode := fun _ => 0;
  buffer_write_io_error := false;
  new_inode_ok := true;
  inode_init_owner := fun dir mode => (mode, 1000, i_gid dir);
  current_time := 1500000000;
  bdi_congested := false;
  current_pid := 7;
  kmalloc_addr := fun st => 1 + foldr Z.max 0 (map_to_list (rsv_store st)).*1;
  sb_issue_zeroout := fun _ _ => 0;
  truncate_page := fun _ _ => 0;
  iget_new_ok := true;
  bh_write_ok := fun _ => true;
  sync_inode_metadata := fun _ => 0;
|}.

(** The same kernel with another device: the blocks that can be read. *)
Definition reading (readable : Z -> bool) : Kernel := {|
  sb_getblk_ok := @sb_getblk_ok demo_kernel;
  bh_read_ok := readable;
  kmalloc_ok := @kmalloc_ok demo_kernel;
  percpu_counter_read_positive := @percpu_counter_read_positive demo_kernel;
  capable_sys_resource := @capable_sys_resource demo_kernel;
  current_fsuid := @current_fsuid demo_kernel;
  in_group_p := @in_group_p demo_kernel;
  get_seconds := @get_seconds demo_kernel;
  prandom_u32 := @prandom_u32 demo_kernel;
  dquot_alloc_block := @dquot_alloc_block demo_kernel;
  dquot_initialize := @dquot_initialize demo_kernel;
  dquot_alloc_inode := @dquot_alloc_inode demo_kernel;
  buffer_write_io_error := @buffer_write_io_error demo_kernel;
  new_inode_ok := @new_inode_ok demo_kernel;
  inode_init_owner := @inode_init_owner demo_kernel;
  current_time := @current_time demo_kernel;
  bdi_congested := @bdi_congested demo_kernel;
  current_pid := @current_pid demo_kernel;
  kmalloc_addr := @kmalloc_addr demo_kernel;
  sb_issue_zeroout := @sb_issue_zeroout demo_kernel;
  truncate_page := @truncate_page demo_kernel;
  iget_new_ok := @iget_new_ok demo_kernel;
  bh_write_ok := @bh_write_ok demo_kernel;
  sync_inode_metadata := @sync_inode_metadata demo_kernel;
|}.

Definition demo_es : kr_super_block := {|
  es_inodes_count := 32; es_blocks_count := 65; es_r_blocks_count := 0;
  es_free_blocks_count := 48; es_free_inodes_count := 18; es_first_data_block := 1;
  es_log_block_size := 0; es_log_frag_size := 0; es_blocks_per_group := 32;
  es_frags_per_group := 32; es_inodes_per_group := 16; es_mtime := 0; es_wtime := 0;
  es_mnt_count := 1; es_max_mnt_count := 20; es_magic := 0xEF53; es_state := KR_VALID_FS;
  es_errors := KR_ERRORS_CONTINUE; es_minor_rev_level := 0; es_lastcheck := 0;
  es_checkinterval := 0; es_creator_os := 0; es_rev_level := KR_DYNAMIC_REV;
  es_def_resuid := 0; es_def_resgid := 0; es_first_ino := KR_GOOD_OLD_FIRST_INO;
  es_inode_size := 128; es_block_group_nr := 0; es_feature_compat := 0;
  es_feature_incompat := KR_FEATURE_INCOMPAT_FILETYPE;
  es_feature_ro_compat := KR_FEATURE_RO_COMPAT_SPARSE_SUPER;
  es_uuid := repeat 0 16; es_default_mount_opts := 0; es_first_meta_bg := 0;
|}.

Definition demo_sbi : kr_sb_info := {|
  s_frag_size := 1024; s_frags_per_block := 1; s_inodes_per_block := 8;
  s_frags_per_group := 32; s_blocks_per_group := 32; s_inodes_per_group := 16;
  s_itb_per_group := 2; s_gdb_count := 1; s_desc_per_block := 32; s_groups_count := 2;
  s_overhead_last := 0; s_blocks_last := 0; s_mount_opt := KR_MOUNT_RESERVATION;
  s_sb_block := 1; s_resuid := 0; s_resgid := 0; s_mount_state := KR_VALID_FS;
  s_addr_per_block_bits := 8; s_desc_per_block_bits := 5; s_inode_size := 128;
  s_first_ino := KR_GOOD_OLD_FIRST_INO; s_next_generation := 7; s_debts := [0; 0];
  s_freeblocks_counter := 48; s_freeinodes_counter := 18; s_dirs_counter := 2;
|}.

(** A bitmap of 1024 bytes that begins with [l]. *)
Definition demo_map (l : list Z) : list Z := l ++ repeat 0 (1024 - length l).

(** The group 0 has the super block, the descriptors, two bitmaps, the inode table
    of two blocks and two blocks of files; the group 1 the same places. *)
Definition demo_desc : list kr_group_desc :=
  [GroupDesc 3 4 5 24 2 2; GroupDesc 35 36 37 24 16 0] ++ repeat no_desc 30.

(** Two files have a window: [9, 16] and [41, 48]; the third has an empty one. *)
Definition demo_rsv : rsvst := RsvSt
  (list_to_map [(0, ReserveWindowNode 0 0 (ReserveWindow 0 0));
                (1, ReserveWindowNode 8 0 (ReserveWindow 9 16));
                (2, ReserveWindowNode 8 0 (ReserveWindow 41 48));
                (3, ReserveWindowNode 8 0 (ReserveWindow 0 0))])
  (Node (Node Leaf 0 Leaf) 1 (Node Leaf 2 Leaf)).

Definition demo_info (group : Z) (w : option Z) : kr_inode_info := {|
  i_data := repeat 0 15; ei_flags := 0; i_faddr := 0; i_frag_no := 0; i_frag_size := 0;
  i_state := 0; i_file_acl := 0; i_dir_acl := 0; i_dtime := 0; i_block_group := group;
  i_block_alloc_info := (fun a => BlockAllocInfo a 0 0) <$> w; i_dir_start_lookup := 0;
|}.
Definition demo_inode (ino mode : Z) (w : option Z) : inode := {|
  i_ino := ino; i_mode := mode; i_uid := 0; i_gid := 0; i_nlink := 1; i_size := 1024;
  i_blocks := 2; i_atime := 0; i_mtime := 0; i_ctime := 0; i_generation := 1; i_version := 1;
  i_flags := 0; i_rdev := 0; KR_I := demo_info 0 w;
|}.

Definition demo : krfs := {|
  fs_flags := 0; fs_blocksize_bits := 10; fs_es := demo_es; fs_sbi := demo_sbi;
  fs_desc := [Some demo_desc];
  fs_bufs := list_to_map
    [(3, demo_map [255; 0; 0; 0]); (4, demo_map [255; 63]);
     (35, demo_map [255; 0; 0; 0]); (36, demo_map [0; 0])];
  fs_uptodate := {[3; 4; 35; 36]};
  fs_rsv := demo_rsv;
  fs_inodes := list_to_map [(2, demo_inode 2 (S_IFDIR + 493) None);
    (12, demo_inode 12 (S_IFREG + 420) (Some 1)); (13, demo_inode 13 (S_IFREG + 420) (Some 2));
    (14, demo_inode 14 (S_IFREG + 420) (Some 3))];
  fs_trace := [];
|}.

(** The answer of a run, and the final state of one that returns. *)
(** The answer of a run. *)
Definition answer {S A} (m : M S A) (s : S) : option A :=
  match m s with Ret a _ => Some a | Stop _ => None end.

(** Deciding a property of the first integers. *)
Lemma upto_ind (P : Z -> Prop) (n : nat) :
  Forall P (Z.of_nat <$> seq 0 n) -> forall g, 0 <= g < Z.of_nat n -> P g.
Proof.
  intros HF g Hg. rewrite Forall_forall in HF. apply HF.
  apply list_elem_of_fmap. exists (Z.to_nat g). split; [lia|]. apply elem_of_seq. lia.
Qed.

Lemma demo_rsv_wf : rsv_wf demo_rsv.
Proof.
  split; [split| | |]; try done.
  - repeat constructor.
  - repeat constructor; unfold valid_window; vm_compute; done.
  - intros n Hn. change (wins demo_rsv) with [0; 1; 2]. unfold rsv_at, demo_rsv. simpl.
    destruct (decide (n = 1)) as [->|]; [split; [done|]; intros; set_solver|].
    destruct (decide (n = 2)) as [->|]; [split; [done|]; intros; set_solver|].
    destruct (decide (n = 3)) as [->|]; [split; [set_solver|done]|].
    unfold rsv_head in Hn. rewrite !lookup_insert_ne by done. rewrite lookup_empty. simpl.
    split; [set_solver|done].
Qed.

Lemma demo_group_ok : forall g, 0 <= g < 2 -> group_ok (core_of demo) g.
Proof.
  apply (upto_ind _ 2). repeat constructor; try (vm_compute; by eauto); vm_compute; try done; by eexists.
Qed.

Lemma demo_core_ok : core_ok (core_of demo).
Proof.
  split; try (vm_compute; done); try (vm_compute; split; done).
  - repeat constructor. by eexists.
  - exact demo_group_ok.
Qed.

Lemma demo_desc_at : group_desc (core_of demo) 0 = GroupDesc 3 4 5 24 2 2 /\
  group_desc (core_of demo) 1 = GroupDesc 35 36 37 24 16 0.
Proof. by vm_compute. Qed.
Lemma demo_maps : block_bitmap (core_of demo) 0 = demo_map [255; 0; 0; 0] /\
  block_bitmap (core_of demo) 1 = demo_map [255; 0; 0; 0].
Proof. by vm_compute. Qed.

(** The places of the metadata. *)
Lemma demo_metadata g b : 0 <= g < 2 -> metadata (core_of demo) g b ->
  2 + 32 * g <= b - 1 < 6 + 32 * g.
Proof.
  destruct demo_desc_at as [H0 H1]. intros Hg Hm.
  assert (g = 0 \/ g = 1) as [->| ->] by lia; unfold metadata in Hm;
    rewrite ?H0, ?H1 in Hm; change (c_itb (core_of demo)) with 2 in Hm; simpl in Hm; lia.
Qed.

Lemma demo_marked_bits j : 0 <= j < 8 -> bit (demo_map [255; 0; 0; 0]) j = true.
Proof. apply (upto_ind (fun j => bit (demo_map [255; 0; 0; 0]) j = true) 8). by repeat constructor. Qed.

Lemma demo_ok : blocks_ok (core_of demo).
Proof.
  destruct demo_maps as [M0 M1]. split; [exact demo_core_ok| |].
  - intros g Hg. change (c_ngroups (core_of demo)) with 2 in Hg. split.
    + intros b Hb. pose proof (demo_metadata g b Hg Hb) as Hm.
      assert (block_bitmap (core_of demo) g = demo_map [255; 0; 0; 0]) as ->
        by (assert (g = 0 \/ g = 1) as [->| ->] by lia; done).
      apply demo_marked_bits. unfold State.group_first.
      change (c_bpg (core_of demo)) with 32. change (c_fdb (core_of demo)) with 1. lia.
    + intros j Hj. exfalso. unfold group_size, State.group_first in Hj.
      change (c_bpg (core_of demo)) with 32 in Hj. change (c_fdb (core_of demo)) with 1 in Hj.
      change (c_nblocks (core_of demo)) with 65 in Hj. lia.
  - apply (upto_ind (accounted (core_of demo)) 2). repeat constructor; vm_compute; done.
Qed.

