(* ===== verification/BlockTheorems.v ===== *)
(** * What the block allocator guarantees

    The properties of balloc.c, each instantiated on the file system of Demo.v. *)

From S2P Require Import Prelude Bits Kr Rsv Bitmap Alloc State Balloc BallocFacts NewBlocks Demo.

Section Allocator.
Context {B : BitOps} {BL : BitLaws B} {R : RbTree} {RL : RbLaws R} {T : Trylock} {K : Kernel}.

(** C1.  [kr_new_blocks] returns, or panics as a mount option asks.  On success
    the [n] blocks it answers were free, are data of the file system and in its
    range, are now marked in the bitmaps while no other block has changed, the
    counts of the descriptors and the counter of the super block agree, and the
    windows of the other files are untouched.  Otherwise nothing is allocated, the
    error is the quota's, [-EIO] with a bitmap that cannot be read, or [-ENOSPC]
    with every group full or the reserve reached. *)
Theorem kr_new_blocks_correct fs ino goal count size :
  blocks_ok (core_of fs) -> 1 <= count < 268435456 -> size <= 268435456 ->
  ready (inode_window fs ino) (fs_rsv fs) size ->
  runs (kr_new_blocks ino goal count) only_panic (fun r fs' =>
    let '(ret, err, n) := r in
    let c := core_of fs in let c' := core_of fs' in
    let my := inode_window fs ino in let bound := window_bound size count 0 in
    err = 0 /\ new_blocks_ok c c' my bound count ret n \/
    ret = 0 /\ n = count /\ searched c c' my bound /\
      (err = - EIO /\ (exists g, 0 <= g < c_ngroups c /\ unreadable c g) \/
       err = - ENOSPC /\ forall g, 0 <= g < c_ngroups c -> full (block_bitmap c g) 0 (c_bpg c)) \/
    ret = 0 /\ n = count /\ c' = c /\
      (err = dquot_alloc_block ino count /\ err <> 0 \/
       err = - ENOSPC /\ kr_has_free_blocks fs = false)) fs.
Proof.
  intros Hb Hcount Hsize Hr.
  eapply runs_mono; [apply kr_new_blocks_spec; try done; unfold window_bound; simpl; lia|].
  intros [[ret err] n] fs'. cbv beta iota zeta. unfold alloc_result. tauto.
Qed.

(** C17.  An allocation gives out blocks when one is free: when the quota and the
    reserve allow it and every bitmap can be read, [kr_new_blocks] does not fail
    while a block of the device is free. *)
Theorem kr_new_blocks_succeeds fs ino goal count size b :
  blocks_ok (core_of fs) -> 1 <= count < 268435456 -> size <= 268435456 ->
  ready (inode_window fs ino) (fs_rsv fs) size ->
  dquot_alloc_block ino count = 0 -> kr_has_free_blocks fs = true ->
  (forall g, 0 <= g < c_ngroups (core_of fs) -> ~ unreadable (core_of fs) g) ->
  c_fdb (core_of fs) <= b < c_nblocks (core_of fs) -> block_used (core_of fs) b = false ->
  runs (kr_new_blocks ino goal count) only_panic (fun r fs' =>
    let '(ret, err, n) := r in
    err = 0 /\ 1 <= n <= count /\
    forall x, ret <= x < ret + n -> block_used (core_of fs) x = false /\ block_used (core_of fs') x = true) fs.
Proof.
  intros Hb Hcount Hsize Hr Hq Hfree Hread Hrange Hbit.
  eapply runs_mono; [apply (kr_new_blocks_spec only_panic eq_refl fs ino goal count size); try done; unfold window_bound; simpl; lia|].
  intros [[ret err] n] fs'. set (c := core_of fs) in *.
  intros [[[-> Hok]|(_ & _ & _ & [(_ & g & Hg & Hu)|[_ Hfull]])]|(_ & _ & _ & [[-> Hne]|[_ Hno]])].
  - split; [done|]. split; [apply Hok|]. intros x Hx. split; [by apply (nb_free _ _ _ _ _ _ _ Hok)|].
    pose proof (nb_range _ _ _ _ _ _ _ Hok). rewrite (nb_used _ _ _ _ _ _ _ Hok) by lia. lia.
  - by destruct (Hread g Hg).
  - exfalso. destruct (block_split c (bo_core _ Hb) b Hrange) as (Hg & _).
    pose proof (ck_bpg _ (bo_core _ Hb)). unfold block_used in Hbit.
    rewrite (Hfull _ Hg) in Hbit; [done|]. apply Z.mod_pos_bound. lia.
  - done.
  - congruence.
Qed.

(** C9.  [kr_free_blocks] of a run of data blocks clears exactly the bits of the
    run, adds the number of blocks that were in use to the counter of free blocks
    and keeps the invariant; it stops early only at a bitmap it cannot read. *)
Theorem kr_free_blocks_correct fs ino block count :
  blocks_ok (core_of fs) -> 1 <= count -> data_run (core_of fs) block count ->
  runs (kr_free_blocks ino block count) only_panic (fun _ fs' =>
    let c := core_of fs in let c' := core_of fs' in
    exists m, (m = count \/ 0 <= m < count /\ exists g, 0 <= g < c_ngroups c /\ unreadable c g) /\
      blocks_ok c' /\ blocks_changed c c' /\ c_rsv c' = c_rsv c /\
      s_freeblocks_counter (c_sbi c')
        = s_freeblocks_counter (c_sbi c) + used_count c block (Z.to_nat m) /\
      forall b, c_fdb c <= b < c_nblocks c ->
        block_used c' b = block_used c b && negb ((block <=? b) && (b <? block + m))) fs.
Proof.
  intros Hb Hn Hrun. eapply runs_mono; [by apply kr_free_blocks_spec|].
  cbv beta. intros _ fs' (m & fs1 & freed & Hm & [H1 H2 H3 H4 H5 H6] & ->).
  exists m. split; [done|]. split; [by apply blocks_ok_sbi|].
  split; [destruct H2 as [F P I D]; split; [rewrite F at 1; done|exact P|exact I|exact D]|].
  split; [done|]. split; [simpl; by rewrite H5|done].
Qed.

(** C20.  Freeing the blocks an allocation has just given out restores the bitmaps
    and the counter of free blocks. *)
Theorem alloc_then_free fs ino goal count size :
  blocks_ok (core_of fs) -> 1 <= count < 268435456 -> size <= 268435456 ->
  ready (inode_window fs ino) (fs_rsv fs) size ->
  (forall g, 0 <= g < c_ngroups (core_of fs) -> ~ unreadable (core_of fs) g) ->
  runs (r ← kr_new_blocks ino goal count;
        let '(ret, err, n) := r in when (err =? 0) (kr_free_blocks ino ret n))
    only_panic (fun _ fs' =>
      let c := core_of fs in let c' := core_of fs' in
      blocks_ok c' /\ s_freeblocks_counter (c_sbi c') = s_freeblocks_counter (c_sbi c) /\
      forall b, c_fdb c <= b < c_nblocks c -> block_used c' b = block_used c b) fs.
Proof.
  intros Hb Hcount Hsize Hr Hread. step.
  eapply runs_mono; [apply (kr_new_blocks_spec only_panic eq_refl fs ino goal count size); try done; unfold window_bound; simpl; lia|].
  intros [[ret err] n] fs1. set (c := core_of fs) in *.
  assert (Hsame : forall my b, searched c (core_of fs1) my b -> blocks_ok (core_of fs1) /\
    s_freeblocks_counter (c_sbi (core_of fs1)) = s_freeblocks_counter (c_sbi c) /\
      forall b, c_fdb c <= b < c_nblocks c -> block_used (core_of fs1) b = block_used c b).
  { intros my b S. split; [by eapply searched_blocks_ok|]. split.
    - destruct (searched_geo _ _ _ _ S) as (_ & _ & _ & _ & -> & _). done.
    - intros k Hk. apply (searched_used _ _ _ _ _ S (bo_core _ Hb) Hk). }
  intros [[[-> Hok]|(-> & -> & S & Herr)]|(-> & -> & Hc & Herr)].
  - cbn [Z.eqb when]. pose proof Hok as [O1 O2 O3 O4 O5 O6 O7 O8 O9].
    destruct (changed_geo _ _ O2) as (_ & _ & _ & Gf & Gn & Gg & _).
    call (kr_free_blocks_spec only_panic eq_refl); [done|lia| |].
    + split; rewrite ?Gf, ?Gn; [lia|lia|]. intros b Hbr Hm. apply (O6 b Hbr).
      by apply (is_metadata_changed c (core_of fs1) b O2).
    + intros _ fs2 (m & fs3 & freed & Hm & [H1 H2 H3 H4 H5 H6] & ->).
      assert (m = n) as ->.
      { destruct Hm as [->|(_ & g & Hg & Hu)]; [done|]. exfalso. rewrite Gg in Hg.
        apply (Hread g Hg). unfold unreadable in *.
        destruct (bc_places _ _ O2 g Hg) as ((P1 & _) & _). by rewrite <- P1. }
      split; [by apply blocks_ok_sbi|]. split.
      * change (s_freeblocks_counter (c_sbi (core_of fs1)) + freed
          = s_freeblocks_counter (c_sbi c)).
        rewrite H5, O9. cbn [s_freeblocks_counter set_s_freeblocks_counter]. enough (used_count (core_of fs1) ret (Z.to_nat n) = n) by lia.
        assert (Hall : forall k b, ret <= b -> b + Z.of_nat k <= ret + n ->
          used_count (core_of fs1) b k = Z.of_nat k).
        { induction k as [|k IH]; intros b Hb1 Hb2; [done|]. cbn [used_count].
          rewrite IH by lia. rewrite O8 by lia.
          replace ((ret <=? b) && (b <? ret + n)) with true by lia. rewrite orb_true_r. lia. }
        rewrite Hall; lia.
      * intros b Hbr. change (block_used (core_of fs3) b = block_used c b).
        rewrite H6 by lia. rewrite O8 by done.
        destruct ((ret <=? b) && (b <? ret + n)) eqn:Hin; simpl.
        -- rewrite andb_false_r. symmetry. apply O7. lia.
        -- by rewrite orb_false_r, andb_true_r.
  - assert (err <> 0) by (destruct Herr as [[-> _]|[-> _]]; done).
    replace (err =? 0) with false by lia. cbn [when]. step. by eapply Hsame.
  - assert (err <> 0) by (destruct Herr as [[-> ?]|[-> _]]; done).
    replace (err =? 0) with false by lia. cbn [when]. step. by rewrite Hc.
Qed.

(** C15.  [kr_try_to_allocate_with_rsv], for a file with a window: the loop ends
    after two turns at most without a [BUG()]; blocks it claims were free, lie in
    the group and in the window the file has then, and no other bit changes; no
    other file's window changes. *)
Theorem kr_try_to_allocate_with_rsv_correct bpg fdb group bitmap st my size count goal :
  geometry bpg fdb group bitmap -> -1 <= goal < bpg -> 1 <= count < 268435456 ->
  rsv_ready st my size -> window_bound size count goal <= 536870912 ->
  runs (kr_try_to_allocate_with_rsv bpg fdb group goal (Some my) count) never
    (fun r s => let '(ret, num) := r in let '(st', bitmap') := s in
       rsv_wf st' /\ only_mine my st st' /\
       ((ret < 0 /\ num = count /\ claimed bitmap bitmap' 0 0) \/
        (0 <= ret /\ ret + num <= bpg /\ 1 <= num <= count /\
         free bitmap ret (ret + num) /\ claimed bitmap bitmap' ret (ret + num) /\
         rsv_start (rsv_at st' my) <= group * bpg + fdb + ret /\
         group * bpg + fdb + ret + num - 1 <= rsv_end (rsv_at st' my)))) (st, bitmap).
Proof.
  intros Hgeo Hgoal Hcount Hr Hsize.
  eapply runs_mono; [by apply kr_try_to_allocate_with_rsv_spec|].
  cbv beta. intros [ret num] [st' d'] [[Hwf _ _ _] Hom Hret]. done.
Qed.

(** C10.  [alloc_new_reservation] keeps the windows disjoint and those of the
    other files as they are, and when it answers 0 the new window begins in the
    group, at the goal or after it, and holds a free block of the group. *)
Theorem alloc_new_reservation_correct bpg fdb group bitmap st my grp_goal :
  geometry bpg fdb group bitmap -> -1 <= grp_goal < bpg -> rsv_wf st -> my <> rsv_head ->
  0 < rsv_goal_size (rsv_at st my) < 1073741824 ->
  let gfb := group * bpg + fdb in
  runs (alloc_new_reservation bpg fdb my grp_goal group bitmap) never
    (fun ret st' => rsv_result st st' my gfb bpg (gfb + Z.max grp_goal 0) bitmap ret) st.
Proof. apply alloc_new_reservation_spec. Qed.

(** [try_to_extend_reservation] moves the end of the window only, by at most
    [size] blocks and never into the next window. *)
Theorem try_to_extend_reservation_correct st my size :
  rsv_wf st -> my <> rsv_head -> my ∈ wins st ->
  0 <= size -> rsv_end (rsv_at st my) + size < 1099511627776 ->
  runs (try_to_extend_reservation my size) never (fun _ st' =>
    rsv_wf st' /\ only_mine my st st' /\ wins st' = wins st /\
    rsv_start (rsv_at st' my) = rsv_start (rsv_at st my) /\
    rsv_end (rsv_at st my) <= rsv_end (rsv_at st' my) <= rsv_end (rsv_at st my) + size) st.
Proof.
  intros Hwf Hmy Hin H0 Hs.
  destruct (try_to_extend_spec st my size Hwf Hmy Hin H0 Hs) as (st' & Hrun & H1 & H2 & H3 & _ & H4).
  unfold runs. by rewrite Hrun.
Qed.

(** [search_reserve_window] finds the last window that does not begin after
    the goal: the one that holds the goal, if there is one. *)
Theorem search_reserve_window_correct st goal : rsv_wf st -> 0 <= goal ->
  exists r l1 l2, search_reserve_window st goal = Some r /\ wins st = l1 ++ r :: l2 /\
    rsv_start (rsv_at st r) <= goal /\
    Forall (fun m => rsv_end (rsv_at st m) < goal) l1 /\
    Forall (fun m => goal < rsv_start (rsv_at st m)) l2.
Proof. apply search_spec. Qed.

(** [kr_try_to_allocate] ends without a [BUG_ON] or an access outside of the
    bitmap; it claims a run of free blocks of its range, at most [count] of them,
    and fails only when every block of the range is in use. *)
Theorem kr_try_to_allocate_correct bpg fdb group grp_goal count my_rsv bitmap :
  geometry bpg fdb group bitmap -> -1 <= grp_goal < bpg ->
  meets bpg (group * bpg + fdb) my_rsv ->
  runs (kr_try_to_allocate bpg fdb group grp_goal count my_rsv) never (fun r bitmap' =>
    let '(ret, num) := r in
    let '(lo, hi) := range_of bpg (group * bpg + fdb) grp_goal my_rsv in
    (ret = -1 /\ num = 0 /\ full bitmap lo hi /\ claimed bitmap bitmap' lo lo) \/
    (0 <= ret /\ lo <= ret /\ 1 <= num <= Z.max 1 count /\ ret + num <= hi /\
     free bitmap ret (ret + num) /\ claimed bitmap bitmap' ret (ret + num))) bitmap.
Proof.
  intros Hgeo Hgoal Hm.
  pose proof (kr_try_to_allocate_spec bpg fdb group grp_goal count my_rsv bitmap Hgeo Hgoal Hm) as Hs.
  cbv zeta in Hs. destruct (range_of _ _ _ _) as [lo hi].
  eapply runs_mono; [exact Hs|]. by intros [ret num].
Qed.

(** [kr_error] never blocks while the descriptors are loaded.  On a file
    system that can be written it marks the error in memory and on disk and writes
    the counts of the descriptors to the super block; it panics exactly when the
    mount asks for it and makes the file system read-only when asked. *)
Theorem kr_error_correct fs : core_ok (core_of fs) ->
  runs kr_error (fun w => w = Panic /\ test_opt KR_MOUNT_ERRORS_PANIC fs = true)
    (fun _ fs' =>
       core_of fs' = core_of fs /\ test_opt KR_MOUNT_ERRORS_PANIC fs = false /\
       fs_flags fs' = (if test_opt KR_MOUNT_ERRORS_RO fs then Z.lor (fs_flags fs) MS_RDONLY
                       else fs_flags fs) /\
       s_mount_state (fs_sbi fs') = (if sb_rdonly fs then s_mount_state (fs_sbi fs)
                       else Z.lor (s_mount_state (fs_sbi fs)) KR_ERROR_FS) /\
       es_state (fs_es fs') = (if sb_rdonly fs then es_state (fs_es fs)
                       else Z.lor (es_state (fs_es fs)) KR_ERROR_FS) /\
       (sb_rdonly fs = false ->
        es_free_blocks_count (fs_es fs') = u32 (total (core_of fs) bg_free_blocks_count) /\
        es_free_inodes_count (fs_es fs') = u32 (total (core_of fs) bg_free_inodes_count))) fs.
Proof.
  intros Hc. eapply runs_mono; [by apply kr_error_spec|].
  intros _ fs' [H1 _ H2 H3 H4 H5]. split; [done|]. split; [done|]. split; [done|].
  rewrite H2, H3. destruct (sb_rdonly fs); simpl; done.
Qed.

(** The sums the super block gets are the numbers of clear bits of the
    bitmaps: [kr_count_free_blocks] counts the free blocks. *)
Theorem kr_count_free_blocks_correct fs : blocks_ok (core_of fs) ->
  kr_count_free_blocks fs = Ret (foldr (fun g n => zeros (block_bitmap (core_of fs) g) 0
      (Z.to_nat (c_bpg (core_of fs))) + n) 0
      (seqZ 0 (c_ngroups (core_of fs)))) fs.
Proof.
  intros Hb. unfold kr_count_free_blocks. rewrite count_free_blocks_run by apply Hb. f_equal.
  unfold total. set (c := core_of fs) in *.
  assert (Hs : forall n i, 0 <= i -> i + Z.of_nat n <= c_ngroups c ->
    group_sum c bg_free_blocks_count n i = foldr (fun g n => zeros (block_bitmap c g) 0
      (Z.to_nat (c_bpg c)) + n) 0 (seqZ i (Z.of_nat n))).
  { induction n as [|n IH]; intros i Hi Hn; [done|].
    rewrite seqZ_cons by lia. cbn [group_sum foldr].
    replace (Z.succ i) with (i + 1) by lia. replace (Z.pred (Z.of_nat (S n))) with (Z.of_nat n) by lia.
    rewrite <- IH by lia. by rewrite (bo_accounted _ Hb i) by lia. }
  pose proof (ck_ngroups _ (bo_core _ Hb)) as Hn. fold c in Hn.
  rewrite Hs by lia. by rewrite Z2Nat.id by lia.
Qed.

End Allocator.

(** C38.  [kr_group_sparse] answers the groups 0 and 1 and the powers of 3, 5 and
    7, the groups that hold a copy of the super block. *)
Theorem kr_group_sparse_correct group : 0 <= group <= 244140624 ->
  kr_group_sparse group = true <->
  (group <= 1 \/ power_of 3 group \/ power_of 5 group \/ power_of 7 group).
Proof. apply kr_group_sparse_spec. Qed.

(** [kr_data_block_valid] answers whether the run begins after the first
    data block and does not step over the super block; where the run ends is not
    looked at, so a run that begins in the device and leaves it is valid, and so
    is the first block after the device. *)
Theorem kr_data_block_valid_past_end fs start count :
  0 <= start -> 0 <= count -> start + count < 18446744073709551616 ->
  (kr_data_block_valid fs start count = true <->
   es_first_data_block (fs_es fs) < start <= es_blocks_count (fs_es fs) /\
   ~ (start <= s_sb_block (fs_sbi fs) <= start + count)).
Proof.
  intros Hs Hn Ho. unfold kr_data_block_valid. wraps.
  destruct (_ || _ || _) eqn:E1; [lia|]. destruct (_ && _) eqn:E2; lia.
Qed.

(** ** On the small file system *)

(** The file 12 has the window [9, 16]: its goal is in it. *)
Example demo_new_blocks : answer (kr_new_blocks 12 10 4) demo = Some (10, 0, 4).
Proof. vm_compute. reflexivity. Qed.
(** The file 14 has none yet, and gets one. *)
Example demo_new_window : answer (kr_new_blocks 14 33 3) demo = Some (49, 0, 3).
Proof. vm_compute. reflexivity. Qed.
(** A run over the border of the groups is freed in both. *)
Example demo_free_blocks :
  answer (kr_free_blocks 12 30 3 ;; fs ← gets id; mret (s_freeblocks_counter (fs_sbi fs))) demo
    = Some 48.
Proof. vm_compute. reflexivity. Qed.

Lemma demo_ready w : 0 < w < 4 -> rsv_ready demo_rsv w 100.
Proof.
  intros Hw. split; [exact demo_rsv_wf|unfold rsv_head; lia| |];
    assert (w = 1 \/ w = 2 \/ w = 3) as [->|[->| ->]] by lia; vm_compute; done.
Qed.

Lemma demo_data_run : data_run (core_of demo) 9 5.
Proof.
  split; [vm_compute; done..|]. intros b Hb (g & Hg & Hm).
  pose proof (demo_metadata g b Hg Hm). change (c_ngroups (core_of demo)) with 2 in Hg. lia.
Qed.

Lemma demo_readable g : ~ unreadable (core_of demo) g.
Proof. by unfold unreadable. Qed.

Lemma demo_geometry : geometry 32 1 0 (demo_map [255; 0; 0; 0]).
Proof. unfold geometry. split; [lia|]. split; [|lia]. vm_compute. done. Qed.

Lemma kr_new_blocks_witness :
  runs (kr_new_blocks 12 10 4) only_panic
    (fun r fs' => let '(ret, err, n) := r in err = 0 -> blocks_ok (core_of fs') /\ 1 <= n <= 4) demo.
Proof.
  eapply runs_mono.
  - apply (kr_new_blocks_correct demo 12 10 4 100); [exact demo_ok|lia|lia|].
    apply (demo_ready 1). lia.
  - cbv beta. intros [[ret err] n] fs' [[_ [H1 _ _ H2]]|[(_ & _ & _ & [[-> _]|[-> _]])|(_ & _ & _ & Hr)]] He;
      try done. destruct Hr as [[_ Hr]|[-> _]]; done.
Defined.

Lemma kr_new_blocks_succeeds_witness :
  runs (kr_new_blocks 12 10 4) only_panic (fun r fs' =>
    let '(ret, err, n) := r in
    err = 0 /\ 1 <= n <= 4 /\
    forall x, ret <= x < ret + n -> block_used (core_of demo) x = false /\ block_used (core_of fs') x = true) demo.
Proof.
  apply (kr_new_blocks_succeeds demo 12 10 4 100 20);
    [exact demo_ok|lia|lia|by apply (demo_ready 1)|done|done|intros g _; apply demo_readable|vm_compute; done|vm_compute; done].
Defined.

Lemma kr_free_blocks_witness :
  runs (kr_free_blocks 12 9 5) only_panic
    (fun _ fs' => exists m, 0 <= m <= 5 /\ blocks_ok (core_of fs')) demo.
Proof.
  eapply runs_mono.
  - apply (kr_free_blocks_correct demo 12 9 5); [exact demo_ok|lia|exact demo_data_run].
  - cbv beta. intros _ fs' (m & Hm & H1 & _). exists m. split; [|done].
    destruct Hm as [->|[? _]]; lia.
Defined.

Lemma alloc_then_free_witness :
  runs (r ← kr_new_blocks 12 10 4;
        let '(ret, err, n) := r in when (err =? 0) (kr_free_blocks 12 ret n)) only_panic
    (fun _ fs' => s_freeblocks_counter (c_sbi (core_of fs')) = 48) demo.
Proof.
  eapply runs_mono.
  - apply (alloc_then_free demo 12 10 4 100); [exact demo_ok|lia|lia| |].
    + apply (demo_ready 1). lia.
    + intros g _. apply demo_readable.
  - cbv beta zeta. intros _ fs' (_ & -> & _). reflexivity.
Defined.

Lemma kr_try_to_allocate_with_rsv_witness :
  runs (kr_try_to_allocate_with_rsv 32 1 0 20 (Some 3) 4) never
    (fun r s => rsv_wf s.1 /\ only_mine 3 demo_rsv s.1) (demo_rsv, demo_map [255; 0; 0; 0]).
Proof.
  eapply runs_mono.
  - apply (kr_try_to_allocate_with_rsv_correct 32 1 0 _ demo_rsv 3 100 4 20);
      [exact demo_geometry|lia|lia|apply demo_ready; lia|vm_compute; done].
  - cbv beta. intros [ret num] [st' d'] (H1 & H2 & _). done.
Defined.

Lemma alloc_new_reservation_witness :
  runs (alloc_new_reservation 32 1 3 20 0 (demo_map [255; 0; 0; 0])) never
    (fun ret st' => rsv_wf st' /\ (ret = -1 \/ ret = 0)) demo_rsv.
Proof.
  eapply runs_mono.
  - apply (alloc_new_reservation_correct 32 1 0 _ demo_rsv 3 20);
      [exact demo_geometry|lia|exact demo_rsv_wf|done|vm_compute; done].
  - intros ret st' [H1 _ _ H2 _ _]. done.
Defined.

Lemma try_to_extend_reservation_witness :
  runs (try_to_extend_reservation 1 100) never
    (fun _ st' => wins st' = [0; 1; 2] /\ 16 <= rsv_end (rsv_at st' 1) <= 116) demo_rsv.
Proof.
  eapply runs_mono.
  - apply (try_to_extend_reservation_correct demo_rsv 1 100);
      [exact demo_rsv_wf|done|vm_compute; right; left|lia|vm_compute; done].
  - cbv beta. intros _ st' (_ & _ & -> & _ & H). done.
Defined.

Lemma search_reserve_window_witness :
  exists r, search_reserve_window demo_rsv 20 = Some r /\ rsv_start (rsv_at demo_rsv r) <= 20.
Proof.
  destruct (search_reserve_window_correct demo_rsv 20 demo_rsv_wf ltac:(lia))
    as (r & _ & _ & H1 & _ & H2 & _).
  by exists r.
Defined.

Lemma kr_try_to_allocate_witness :
  runs (kr_try_to_allocate 32 1 0 20 4 None) never
    (fun r d' => fst r = -1 \/ 20 <= fst r < 32) (demo_map [255; 0; 0; 0]).
Proof.
  eapply runs_mono.
  - apply (kr_try_to_allocate_correct 32 1 0 20 4 None); [exact demo_geometry|lia|done].
  - cbv beta. intros [ret num] d'. simpl. lia.
Defined.

Lemma kr_error_witness :
  runs kr_error only_panic (fun _ fs' => es_state (fs_es fs') = 3) demo.
Proof.
  eapply runs_weaken; [apply (kr_error_correct demo demo_core_ok)|by intros w [-> _]|].
  cbv beta. intros _ fs' (_ & _ & _ & _ & -> & _). reflexivity.
Defined.

Lemma kr_count_free_blocks_witness : kr_count_free_blocks demo = Ret 48 demo.
Proof.
  rewrite (kr_count_free_blocks_correct demo demo_ok).
  apply (f_equal (fun n => Ret n demo)). vm_compute. reflexivity.
Defined.

Lemma kr_group_sparse_witness : kr_group_sparse 49 = true.
Proof. apply (kr_group_sparse_correct 49 ltac:(lia)). right. right. right. by exists 2. Defined.

(** The last block of the device and the one after it. *)
Lemma kr_data_block_valid_witness :
  kr_data_block_valid demo 64 10 = true /\ kr_data_block_valid demo 65 10 = true.
Proof.
  split.
  - apply (kr_data_block_valid_past_end demo 64 10); [lia..|vm_compute; split; [done|]; by intros [H _]].
  - apply (kr_data_block_valid_past_end demo 65 10); [lia..|vm_compute; split; [done|]; by intros [H _]].
Defined.
