(* ===== verification/Ialloc.v ===== *)
(** * Allocating and freeing inodes (ialloc.c)

    The three searches for a group of a new inode, the allocation of an inode in
    the bitmaps, and its release. *)

From S2P Require Import Prelude Bits Kr Rsv State Balloc InodeFlags.

Definition INODE_COST := 64.
Definition BLOCK_COST := 256.

Section Ops.
Context `{BitOps, Kernel}.

Definition read_inode_bitmap (block_group : Z) : M krfs (option Z) :=
  desc ← kr_get_group_desc block_group;
  match desc with
  | None => mret None
  | Some p =>
      desc ← desc_get p;
      bh ← sb_bread (bg_inode_bitmap desc);
      match bh with
      | None => kr_error ;; mret None
      | Some b => mret (Some b)
      end
  end.

(** [p->field += n], on a 16-bit field of the descriptor *)
Definition add_free_inodes (n : Z) (d : kr_group_desc) : kr_group_desc :=
  set_bg_free_inodes_count (u16 (bg_free_inodes_count d + n)) d.
Definition add_used_dirs (n : Z) (d : kr_group_desc) : kr_group_desc :=
  set_bg_used_dirs_count (u16 (bg_used_dirs_count d + n)) d.

Definition kr_release_inode (group : Z) (dir : bool) : M krfs unit :=
  desc ← kr_get_group_desc group;
  match desc with
  | None => kr_error
  | Some p =>
      d ← desc_get p;
      desc_set p (let d := add_free_inodes 1 d in if dir then add_used_dirs (-1) d else d) ;;
      when dir (upd_sbi (fun sbi => set_s_dirs_counter (s_dirs_counter sbi - 1) sbi)) ;;
      log (mark_buffer_dirty (BufDesc p.1))
  end.

Definition kr_free_inode (inode : inode) : M krfs unit :=
  let ino := i_ino inode in
  log (dquot_free_inode ino) ;;
  log (dquot_drop ino) ;;
  fs ← gets id;
  let is_directory := S_ISDIR (i_mode inode) in
  let ipg := s_inodes_per_group (fs_sbi fs) in
  if (ino <? s_first_ino (fs_sbi fs)) || (ino >? es_inodes_count (fs_es fs)) then kr_error
  else
    let block_group := (ino - 1) / ipg in
    let bit := (ino - 1) mod ipg in
    bitmap_bh ← read_inode_bitmap block_group;
    match bitmap_bh with
    | None => mret tt
    | Some b =>
        was ← ext2_clear_bit_atomic b bit;
        (if (was : bool) then kr_release_inode block_group is_directory else kr_error) ;;
        log (mark_buffer_dirty (BufBlock b)) ;;
        fs ← gets id;
        when (has (fs_flags fs) MS_SYNCHRONOUS) (log (sync_dirty_buffer (BufBlock b)))
    end.

Definition kr_preread_inode (ino : Z) : M krfs unit :=
  if bdi_congested then mret tt
  else
    fs ← gets id;
    let sbi := fs_sbi fs in
    gdp ← kr_get_group_desc ((ino - 1) / s_inodes_per_group sbi);
    match gdp with
    | None => mret tt
    | Some p =>
        d ← desc_get p;
        let offset := ((ino - 1) mod s_inodes_per_group sbi) * s_inode_size sbi in
        log (sb_breadahead (bg_inode_table d + Z.shiftr offset (fs_blocksize_bits fs)))
    end.

(** *** The group of a new directory *)

(** The descriptor of a group, if it is loaded and has free inodes. *)
Definition group_with_inodes (group : Z) : M krfs (option kr_group_desc) :=
  desc ← kr_get_group_desc group;
  match desc with
  | None => mret None
  | Some p =>
      d ← desc_get p;
      mret (if bg_free_inodes_count d =? 0 then None else Some d)
  end.

(** The best group so far, and the free blocks of its descriptor. *)
Fixpoint best_group_dir (n : nat) (group avefreei : Z) (best : option (Z * Z)) : M krfs Z :=
  match n with
  | O => mret (match best with Some (g, _) => g | None => -1 end)
  | S n' =>
      desc ← group_with_inodes group;
      match desc with
      | None => best_group_dir n' (group + 1) avefreei best
      | Some d =>
          if bg_free_inodes_count d <? avefreei then best_group_dir n' (group + 1) avefreei best
          else
            let better := match best with
                          | None => true
                          | Some (_, free) => bg_free_blocks_count d >? free
                          end in
            best_group_dir n' (group + 1) avefreei
              (if better then Some (group, bg_free_blocks_count d) else best)
      end
  end.

Definition find_group_dir (parent : inode) : M krfs Z :=
  fs ← gets id;
  let ngroups := s32 (s_groups_count (fs_sbi fs)) in
  n ← kr_count_free_inodes;
  let avefreei := s32 (n / u64 ngroups) in
  best_group_dir (Z.to_nat ngroups) 0 avefreei None.

(** The first-level directories: the group with the fewest directories among
    those that are not worse than average. *)
Fixpoint best_group_orlov (n : nat) (i parent_group ngroups avefreei avefreeb : Z)
    (best_ndir best_group : Z) : M krfs Z :=
  match n with
  | O => mret best_group
  | S n' =>
      let group := Z.rem (s32 (parent_group + i)) ngroups in
      let next := best_group_orlov n' (i + 1) parent_group ngroups avefreei avefreeb in
      desc ← group_with_inodes group;
      match desc with
      | None => next best_ndir best_group
      | Some d =>
          if (bg_used_dirs_count d >=? best_ndir) || (bg_free_inodes_count d <? avefreei)
             || (bg_free_blocks_count d <? avefreeb)
          then next best_ndir best_group
          else next (bg_used_dirs_count d) group
      end
  end.

(** A walk over all groups from the group of the parent on, to the first one whose
    descriptor [ok] accepts. *)
Fixpoint first_group (ok : krfs -> Z -> kr_group_desc -> bool) (n : nat)
    (i parent_group ngroups : Z) : M krfs Z :=
  match n with
  | O => mret (-1)
  | S n' =>
      let group := Z.rem (s32 (parent_group + i)) ngroups in
      desc ← group_with_inodes group;
      match desc with
      | None => first_group ok n' (i + 1) parent_group ngroups
      | Some d =>
          fs ← gets id;
          if ok fs group d then mret group
          else first_group ok n' (i + 1) parent_group ngroups
      end
  end.

(** The limits of the walk for a directory below the first level. *)
Record orlov_limits := OrlovLimits {
  max_debt : Z; max_dirs : Z; min_blocks : Z; min_inodes : Z;
}.

Definition orlov_limits_of (fs : krfs) (avefreei avefreeb free_blocks ndirs ngroups : Z)
    : orlov_limits :=
  let inodes_per_group := s32 (s_inodes_per_group (fs_sbi fs)) in
  let bpg := s_blocks_per_group (fs_sbi fs) in
  let ndirs := if ndirs =? 0 then 1 else ndirs in
  let blocks_per_dir := s32 (u32 (es_blocks_count (fs_es fs) - free_blocks) / u32 ndirs) in
  let max_debt := s32 (bpg / Z.max blocks_per_dir BLOCK_COST) in
  let max_debt := if s32 (max_debt * INODE_COST) >? inodes_per_group
                  then Z.quot inodes_per_group INODE_COST else max_debt in
  let max_debt := if max_debt >? 255 then 255 else max_debt in
  let max_debt := if max_debt =? 0 then 1 else max_debt in
  OrlovLimits max_debt
    (s32 (Z.quot ndirs ngroups + Z.quot inodes_per_group 16))
    (s32 (u64 (avefreeb - bpg / 4)))
    (avefreei - Z.quot inodes_per_group 4).

Definition within_limits (l : orlov_limits) (fs : krfs) (group : Z) (d : kr_group_desc) : bool :=
  (default 0 (s_debts (fs_sbi fs) !! Z.to_nat group) <? max_debt l) &&
  (bg_used_dirs_count d <? max_dirs l) && (bg_free_inodes_count d >=? min_inodes l) &&
  (bg_free_blocks_count d >=? min_blocks l).

(** The code from [fallback] on. *)
Definition orlov_fallback (parent_group ngroups avefreei : Z) : M krfs Z :=
  let walk avefreei :=
    first_group (fun _ _ d => bg_free_inodes_count d >=? avefreei) (Z.to_nat ngroups) 0
      parent_group ngroups in
  group ← walk avefreei;
  if (group =? -1) && negb (avefreei =? 0) then walk 0 else mret group.

Definition find_group_orlov (parent : inode) : M krfs Z :=
  fs ← gets id;
  let sbi := fs_sbi fs in
  let parent_group := s32 (i_block_group (KR_I parent)) in
  let ngroups := s32 (s_groups_count sbi) in
  let inodes_per_group := s32 (s_inodes_per_group sbi) in
  let freei := s32 (percpu_counter_read_positive (s_freeinodes_counter sbi)) in
  let avefreei := Z.quot freei ngroups in
  let free_blocks := s32 (percpu_counter_read_positive (s_freeblocks_counter sbi)) in
  let avefreeb := Z.quot free_blocks ngroups in
  let ndirs := s32 (percpu_counter_read_positive (s_dirs_counter sbi)) in
  if (i_ino parent =? KR_ROOT_INO) || has (ei_flags (KR_I parent)) KR_TOPDIR_FL then
    let parent_group := s32 (u32 prandom_u32 mod u32 ngroups) in
    best_group ← best_group_orlov (Z.to_nat ngroups) 0 parent_group ngroups avefreei avefreeb
                   inodes_per_group (-1);
    if best_group >=? 0 then mret best_group
    else orlov_fallback parent_group ngroups avefreei
  else
    let l := orlov_limits_of fs avefreei avefreeb free_blocks ndirs ngroups in
    group ← first_group (within_limits l) (Z.to_nat ngroups) 0 parent_group ngroups;
    if group =? -1 then orlov_fallback parent_group ngroups avefreei else mret group.

(** *** The group of another inode *)

(** Whether the group has a free inode and, if [blocks], a free block. *)
Definition group_usable (blocks : bool) (group : Z) : M krfs bool :=
  desc ← kr_get_group_desc group;
  match desc with
  | None => mret false
  | Some p =>
      d ← desc_get p;
      mret (negb (bg_free_inodes_count d =? 0) && (negb blocks || negb (bg_free_blocks_count d =? 0)))
  end.

(** The quadratic hash: [i] doubles up to the number of groups. *)
Fixpoint quadratic_hash (fuel : nat) (i group ngroups : Z) : M krfs Z :=
  match fuel with
  | O => mret (-1)
  | S n =>
      if i <? ngroups then
        let group := group + i in
        let group := if group >=? ngroups then group - ngroups else group in
        ok ← group_usable true group;
        if (ok : bool) then mret group else quadratic_hash n (s32 (Z.shiftl i 1)) group ngroups
      else mret (-1)
  end.

Fixpoint linear_search (n : nat) (group ngroups : Z) : M krfs Z :=
  match n with
  | O => mret (-1)
  | S n' =>
      let group := if group + 1 >=? ngroups then 0 else group + 1 in
      ok ← group_usable false group;
      if (ok : bool) then mret group else linear_search n' group ngroups
  end.

Definition find_group_other (parent : inode) : M krfs Z :=
  fs ← gets id;
  let parent_group := s32 (i_block_group (KR_I parent)) in
  let ngroups := s32 (s_groups_count (fs_sbi fs)) in
  ok ← group_usable true parent_group;
  if (ok : bool) then mret parent_group
  else
    let group := s32 (u64 (parent_group + i_ino parent) mod ngroups) in
    group ← quadratic_hash 32 1 group ngroups;
    if negb (group =? -1) then mret group
    else linear_search (Z.to_nat ngroups) parent_group ngroups.

(** *** A new inode *)

(** One turn at the label [repeat_in_this_group]: [None] when the group is
    exhausted. *)
Definition claim_inode (bitmap_blk : Z) (ino : Z) : M krfs (Z + option Z) :=
  fs ← gets id;
  let ipg := s_inodes_per_group (fs_sbi fs) in
  d ← buf_get bitmap_blk;
  ino ← kr_find_next_zero_bit d ipg ino;
  if ino >=? ipg then mret (inr None)
  else
    buf_set bitmap_blk (snd (test_and_set_bit_le ino d)) ;;
    if fst (test_and_set_bit_le ino d) then
      if ino + 1 >=? ipg then mret (inr None) else mret (inl (ino + 1))
    else mret (inr (Some ino)).

Inductive inode_found :=
| InodeAt (group : Z) (p : gdp) (bitmap_blk ino : Z)   (* goto got *)
| InodeError                                           (* the bitmap cannot be read *)
| InodeNone.                                           (* scanned all groups *)

(** The loop over the groups. *)
Fixpoint scan_groups (n : nat) (group : Z) : M krfs inode_found :=
  match n with
  | O => mret InodeNone
  | S n' =>
      fs ← gets id;
      let next := if group + 1 =? s_groups_count (fs_sbi fs) then 0 else group + 1 in
      gdp ← kr_get_group_desc group;
      match gdp with
      | None => scan_groups n' next
      | Some p =>
          bitmap_bh ← read_inode_bitmap group;
          match bitmap_bh with
          | None => mret InodeError
          | Some b =>
              ino ← loop (S (Z.to_nat (s_inodes_per_group (fs_sbi fs)))) (claim_inode b) 0;
              match ino with
              | None => scan_groups n' next
              | Some ino => mret (InodeAt group p b ino)
              end
          end
      end
  end.

(** The accounting of a new inode in the super block and the group. *)
Definition account_inode (group : Z) (p : gdp) (dir : bool) : M krfs unit :=
  upd_sbi (fun sbi => set_s_freeinodes_counter (s_freeinodes_counter sbi - 1) sbi) ;;
  when dir (upd_sbi (fun sbi => set_s_dirs_counter (s_dirs_counter sbi + 1) sbi)) ;;
  d ← desc_get p;
  desc_set p (let d := add_free_inodes (-1) d in if dir then add_used_dirs 1 d else d) ;;
  upd_sbi (fun sbi =>
    let debt := default 0 (s_debts sbi !! Z.to_nat group) in
    set_s_debts (<[Z.to_nat group :=
      if dir then (if debt <? 255 then debt + 1 else debt)
      else (if negb (debt =? 0) then debt - 1 else debt)]> (s_debts sbi)) sbi) ;;
  log (mark_buffer_dirty (BufDesc p.1)).

(** The fields of the new inode. *)
Definition init_inode (fs : krfs) (dir : inode) (mode ino group generation : Z) : inode :=
  let '(imode, uid, gid) :=
    if test_opt KR_MOUNT_GRPID fs then (mode, current_fsuid, i_gid dir)
    else inode_init_owner dir mode in
  let ei := KrInodeInfo (repeat 0 15)
              (kr_mask_flags mode (Z.land (ei_flags (KR_I dir)) KR_FL_INHERITED))
              0 0 0 KR_STATE_NEW 0 0 0 group None 0 in
  kr_set_inode_flags (test_opt KR_MOUNT_DAX fs)
    (Inode ino imode uid gid 1 0 0 current_time current_time current_time generation 1 0 0 ei).

(** [fail] and [fail_drop] of [kr_new_inode] *)
Definition fail_new (err : Z) : M krfs (Z + Z) := log discard_new_inode ;; mret (inl err).
Definition fail_drop (ino err : Z) : M krfs (Z + Z) :=
  log (dquot_drop ino) ;;
  modify (fun fs => set_fs_inodes (alter (fun i =>
    set_i_nlink 0 (set_i_flags (Z.lor (i_flags i) S_NOQUOTA) i)) ino (fs_inodes fs)) fs) ;;
  log (unlock_new_inode ino) ;;
  log (iput ino) ;;
  mret (inl err).

(** The code from [got] on: the bit [bit] of the group is claimed. *)
Definition got_inode (dir : inode) (mode group : Z) (p : gdp) (bitmap_blk bit : Z)
    : M krfs (Z + Z) :=
  log (mark_buffer_dirty (BufBlock bitmap_blk)) ;;
  fs ← gets id;
  when (has (fs_flags fs) MS_SYNCHRONOUS) (log (sync_dirty_buffer (BufBlock bitmap_blk))) ;;
  let sbi := fs_sbi fs in
  let ino := u64 (bit + (group * s_inodes_per_group sbi + 1)) in
  if (ino <? s_first_ino sbi) || (ino >? es_inodes_count (fs_es fs)) then
    kr_error ;; fail_new (- EIO)
  else
    account_inode group p (S_ISDIR mode) ;;
    fs ← gets id;
    let generation := s_next_generation (fs_sbi fs) in
    upd_sbi (set_s_next_generation (u32 (generation + 1))) ;;
    if bool_decide (is_Some (fs_inodes fs !! ino)) then kr_error ;; fail_new (- EIO)
    else
      modify (fun fs => set_fs_inodes
        (<[ino := init_inode fs dir mode ino group generation]> (fs_inodes fs)) fs) ;;
      let err := dquot_initialize ino in
      if negb (err =? 0) then fail_drop ino err
      else
        let err := dquot_alloc_inode ino in
        if negb (err =? 0) then fail_drop ino err
        else
          log (dquot_charge_inode ino) ;;
          log (mark_inode_dirty ino) ;;
          kr_preread_inode ino ;;
          mret (inr ino).

(** The answer is an error, or the number of the new inode. *)
Definition kr_new_inode (dir : inode) (mode : Z) : M krfs (Z + Z) :=
  if negb new_inode_ok then mret (inl (- ENOMEM))
  else
    fs ← gets id;
    group ← (if S_ISDIR mode then
               if test_opt KR_MOUNT_OLDALLOC fs then find_group_dir dir else find_group_orlov dir
             else find_group_other dir);
    if group =? -1 then fail_new (- ENOSPC)
    else
      r ← scan_groups (Z.to_nat (s_groups_count (fs_sbi fs))) group;
      match r with
      | InodeError => fail_new (- EIO)
      | InodeNone => fail_new (- ENOSPC)
      | InodeAt group p b bit => got_inode dir mode group p b bit
      end.

End Ops.
