(* ===== verification/IallocFacts.v ===== *)
(** * The allocator of inodes is correct

    The searches for a group answer a group with a free inode when there is one;
    a new inode has a number that was free, and freeing it makes it free again. *)

From S2P Require Import Prelude Bits Kr Rsv Bitmap State Balloc BallocFacts InodeFlags Ialloc.

(** What a search for a group answers: a group with a free inode, or -1 when no
    group has one. *)
Definition group_found (c : core) (r : Z) : Prop :=
  0 <= r < c_ngroups c /\ 0 < bg_free_inodes_count (group_desc c r) \/
  r = -1 /\ forall g, 0 <= g < c_ngroups c -> bg_free_inodes_count (group_desc c g) = 0.

Section Searches.
Context {B : BitOps} {BL : BitLaws B} {K : Kernel}.
Variable fs : krfs.
Let c := core_of fs.
Hypothesis Hc : core_ok c.

Lemma group_with_inodes_run g : 0 <= g < c_ngroups c ->
  group_with_inodes g fs =
    Ret (if bg_free_inodes_count (group_desc c g) =? 0 then None else Some (group_desc c g)) fs.
Proof.
  intros Hg. unfold group_with_inodes, kr_get_group_desc.
  rewrite (bind_Ret _ _ _ _ _ (get_group_desc_run _ fs g Hc Hg)).
  by rewrite (bind_Ret _ _ _ _ _ (desc_get_run fs g Hc Hg)).
Qed.

Lemma group_usable_run blocks g : 0 <= g < c_ngroups c ->
  exists b, group_usable blocks g fs = Ret b fs /\
    (b = true -> 0 < bg_free_inodes_count (group_desc c g)) /\
    (b = false -> blocks = false -> bg_free_inodes_count (group_desc c g) = 0).
Proof.
  intros Hg. pose proof (group_counts c Hc g Hg) as (_ & Hi & _).
  unfold group_usable, kr_get_group_desc.
  rewrite (bind_Ret _ _ _ _ _ (get_group_desc_run _ fs g Hc Hg)).
  rewrite (bind_Ret _ _ _ _ _ (desc_get_run fs g Hc Hg)). fold c.
  eexists. split; [done|]. split; [lia|]. intros Hb ->. simpl in Hb. lia.
Qed.

(** A walk around the groups from [pg]: every group is met. *)
Lemma around g pg : c_ngroups c < 1073741824 ->
  0 <= pg < c_ngroups c -> 0 <= g < c_ngroups c ->
  exists k, 0 <= k < c_ngroups c /\ Z.rem (s32 (pg + k)) (c_ngroups c) = g.
Proof.
  intros Hn Hp Hg. exists (if pg <=? g then g - pg else g - pg + c_ngroups c).
  destruct (Z.leb_spec pg g); (split; [lia|]).
  - wraps. rewrite Z.rem_small; lia.
  - wraps. replace (pg + (g - pg + c_ngroups c)) with (g + 1 * c_ngroups c) by lia.
    rewrite Z.rem_mod_nonneg, Z.mod_add, Z.mod_small; lia.
Qed.

(** The groups of the walk, while the sum does not overflow. *)
Lemma walk_group pg i : 0 <= pg < c_ngroups c -> 0 <= i -> pg + i < 2147483648 ->
  0 <= Z.rem (s32 (pg + i)) (c_ngroups c) < c_ngroups c.
Proof. intros. wraps. apply Z.rem_bound_pos; lia. Qed.

Lemma first_group_run ok pg : 0 <= pg < c_ngroups c -> c_ngroups c < 1073741824 ->
  forall n i, 0 <= i -> i + Z.of_nat n <= c_ngroups c ->
  exists r, first_group ok n i pg (c_ngroups c) fs = Ret r fs /\
    (0 <= r < c_ngroups c /\ 0 < bg_free_inodes_count (group_desc c r) \/
     r = -1 /\ forall k, i <= k < i + Z.of_nat n ->
       let g := Z.rem (s32 (pg + k)) (c_ngroups c) in
       bg_free_inodes_count (group_desc c g) = 0 \/ ok fs g (group_desc c g) = false).
Proof.
  intros Hp Hn. induction n as [|n IH]; intros i Hi Hin.
  { exists (-1). split; [done|]. right. split; [done|]. intros k Hk. lia. }
  cbn [first_group]. pose proof (walk_group pg i Hp Hi ltac:(lia)) as Hg.
  set (g := Z.rem (s32 (pg + i)) (c_ngroups c)) in *.
  rewrite (bind_Ret _ _ _ _ _ (group_with_inodes_run g Hg)).
  pose proof (group_counts c Hc g Hg) as (_ & Hf & _).
  destruct (IH (i + 1) ltac:(lia) ltac:(lia)) as (r & Hrun & Hr).
  assert (Hskip : bg_free_inodes_count (group_desc c g) = 0 \/ ok fs g (group_desc c g) = false ->
    0 <= r < c_ngroups c /\ 0 < bg_free_inodes_count (group_desc c r) \/
     r = -1 /\ forall k, i <= k < i + Z.of_nat (S n) ->
       let g := Z.rem (s32 (pg + k)) (c_ngroups c) in
       bg_free_inodes_count (group_desc c g) = 0 \/ ok fs g (group_desc c g) = false).
  { intros Hno. destruct Hr as [Hr|[-> Hr]]; [by left|right]. split; [done|]. intros k Hk.
    destruct (decide (k = i)) as [->|]; [done|]. apply Hr. lia. }
  destruct (Z.eqb_spec (bg_free_inodes_count (group_desc c g)) 0) as [Hz|Hnz].
  - exists r. split; [done|]. apply Hskip. by left.
  - rewrite (bind_Ret (gets id) _ fs fs fs eq_refl). cbv beta.
    destruct (ok fs g (group_desc c g)) eqn:Hok.
    + exists g. split; [done|]. left. lia.
    + exists r. split; [done|]. apply Hskip. by right.
Qed.

Lemma orlov_fallback_run pg ave : 0 <= pg < c_ngroups c -> c_ngroups c < 1073741824 ->
  exists r, orlov_fallback pg (c_ngroups c) ave fs = Ret r fs /\ group_found c r.
Proof.
  intros Hp Hn. unfold orlov_fallback.
  assert (Hwalk : forall a, exists r, first_group (fun _ _ d => bg_free_inodes_count d >=? a)
      (Z.to_nat (c_ngroups c)) 0 pg (c_ngroups c) fs = Ret r fs /\
    (0 <= r < c_ngroups c /\ 0 < bg_free_inodes_count (group_desc c r) \/
     r = -1 /\ (a = 0 -> forall g, 0 <= g < c_ngroups c -> bg_free_inodes_count (group_desc c g) = 0))).
  { intros a. destruct (first_group_run (fun _ _ d => bg_free_inodes_count d >=? a) pg Hp Hn
      (Z.to_nat (c_ngroups c)) 0) as (r & Hrun & Hr); [lia|lia|].
    exists r. split; [done|]. destruct Hr as [Hr|[-> Hr]]; [by left|right]. split; [done|].
    intros -> g Hg. destruct (around g pg Hn Hp Hg) as (k & Hk & Hkg).
    destruct (Hr k) as [Hz|Hno]; [lia|by rewrite Hkg in Hz|]. rewrite Hkg in Hno.
    pose proof (group_counts c Hc g Hg) as (_ & Hf & _). lia. }
  destruct (Hwalk ave) as (r & Hrun & Hr). rewrite (bind_Ret _ _ _ _ _ Hrun).
  destruct ((r =? -1) && negb (ave =? 0)) eqn:Hagain.
  - destruct (Hwalk 0) as (r0 & Hrun0 & Hr0). exists r0. split; [done|].
    destruct Hr0 as [?|[-> ?]]; [by left|right]. auto.
  - exists r. split; [done|]. destruct Hr as [?|[-> Hr]]; [by left|right]. split; [done|].
    apply Hr. lia.
Qed.

Lemma best_group_orlov_run pg af ab : 0 <= pg < c_ngroups c -> c_ngroups c < 1073741824 ->
  forall n i bn bg, 0 <= i -> i + Z.of_nat n <= c_ngroups c ->
  (bg = -1 \/ 0 <= bg < c_ngroups c /\ 0 < bg_free_inodes_count (group_desc c bg)) ->
  exists r, best_group_orlov n i pg (c_ngroups c) af ab bn bg fs = Ret r fs /\
    (r = -1 \/ 0 <= r < c_ngroups c /\ 0 < bg_free_inodes_count (group_desc c r)).
Proof.
  intros Hp Hn. induction n as [|n IH]; intros i bn bg Hi Hin Hbg; [by exists bg|].
  cbn [best_group_orlov]. pose proof (walk_group pg i Hp Hi ltac:(lia)) as Hg.
  set (g := Z.rem (s32 (pg + i)) (c_ngroups c)) in *.
  rewrite (bind_Ret _ _ _ _ _ (group_with_inodes_run g Hg)).
  pose proof (group_counts c Hc g Hg) as (_ & Hf & _).
  destruct (Z.eqb_spec (bg_free_inodes_count (group_desc c g)) 0); [apply IH; lia || done|].
  destruct (_ || _ || _); apply IH; try lia; right; lia.
Qed.

Lemma find_group_orlov_run parent : c_ngroups c < 1073741824 ->
  0 <= i_block_group (KR_I parent) < c_ngroups c ->
  exists r, find_group_orlov parent fs = Ret r fs /\ group_found c r.
Proof.
  intros Hn Hp. pose proof (ck_ngroups c Hc) as Hng. unfold find_group_orlov.
  rewrite (bind_Ret (gets id) _ fs fs fs eq_refl). cbv zeta.
  change (s_groups_count (fs_sbi fs)) with (c_ngroups c). rewrite (s32_small (c_ngroups c)) by lia.
  rewrite (s32_small (i_block_group (KR_I parent))) by lia.
  destruct ((i_ino parent =? KR_ROOT_INO) || _).
  - assert (Hpg : 0 <= s32 (u32 prandom_u32 mod u32 (c_ngroups c)) < c_ngroups c).
    { rewrite (u32_small (c_ngroups c)) by lia.
      pose proof (Z.mod_pos_bound (u32 prandom_u32) (c_ngroups c) ltac:(lia)). wraps. lia. }
    set (pg := s32 _) in *.
    destruct (best_group_orlov_run pg
      (Z.quot (s32 (percpu_counter_read_positive (s_freeinodes_counter (fs_sbi fs)))) (c_ngroups c))
      (Z.quot (s32 (percpu_counter_read_positive (s_freeblocks_counter (fs_sbi fs)))) (c_ngroups c))
      Hpg Hn (Z.to_nat (c_ngroups c)) 0 (s32 (s_inodes_per_group (fs_sbi fs))) (-1)) as (r & Hrun & Hr);
      [lia|lia|by left|].
    rewrite (bind_Ret _ _ _ _ _ Hrun). destruct Hr as [->|Hr].
    + by apply orlov_fallback_run.
    + replace (r >=? 0) with true by lia. exists r. split; [done|]. by left.
  - edestruct first_group_run as (r & Hrun & Hr); [exact Hp|done|done| |].
    2: rewrite (bind_Ret _ _ _ _ _ Hrun); destruct Hr as [Hr|[-> _]].
    + lia.
    + replace (r =? -1) with false by lia. exists r. split; [done|]. by left.
    + by apply orlov_fallback_run.
Qed.

(** The searches of the other inodes. *)
Lemma quadratic_hash_run : forall fuel i g, 0 <= i -> 0 <= g < c_ngroups c ->
  c_ngroups c < 1073741824 ->
  exists r, quadratic_hash fuel i g (c_ngroups c) fs = Ret r fs /\
    (r = -1 \/ 0 <= r < c_ngroups c /\ 0 < bg_free_inodes_count (group_desc c r)).
Proof.
  induction fuel as [|fuel IH]; intros i g Hi Hg Hn; [exists (-1); auto|].
  cbn [quadratic_hash]. destruct (Z.ltb_spec i (c_ngroups c)); [|exists (-1); auto].
  set (g1 := if g + i >=? c_ngroups c then _ else _).
  assert (Hg1 : 0 <= g1 < c_ngroups c) by (unfold g1; destruct (_ >=? _) eqn:?; lia).
  destruct (group_usable_run true g1 Hg1) as (b & Hrun & Hb & _).
  rewrite (bind_Ret _ _ _ _ _ Hrun). destruct b.
  - exists g1. split; [done|]. right. split; [done|]. by apply Hb.
  - rewrite Z.shiftl_mul_pow2 by lia. wraps. apply IH; lia.
Qed.

Lemma linear_search_run : forall n g, 0 <= g < c_ngroups c ->
  exists r, linear_search n g (c_ngroups c) fs = Ret r fs /\
    (0 <= r < c_ngroups c /\ 0 < bg_free_inodes_count (group_desc c r) \/
     r = -1 /\ forall g', visits c n g g' -> bg_free_inodes_count (group_desc c g') = 0).
Proof.
  induction n as [|n IH]; intros g Hg.
  { exists (-1). split; [done|]. by right. }
  cbn [linear_search visits]. cbv zeta. fold (next_group c g).
  destruct (next_group_mod c g ltac:(lia) Hg) as [_ Hnx].
  destruct (group_usable_run false (next_group c g) Hnx) as (b & Hrun & Hb1 & Hb2).
  rewrite (bind_Ret _ _ _ _ _ Hrun). destruct b.
  - exists (next_group c g). split; [done|]. left. split; [done|]. by apply Hb1.
  - destruct (IH _ Hnx) as (r & Hr & Hres). exists r. split; [done|].
    destruct Hres as [?|[-> Hres]]; [by left|right]. split; [done|].
    intros g' [->|Hv]; [by apply Hb2|by apply Hres].
Qed.

Lemma find_group_other_run parent : c_ngroups c < 1073741824 ->
  0 <= i_block_group (KR_I parent) < c_ngroups c ->
  exists r, find_group_other parent fs = Ret r fs /\ group_found c r.
Proof.
  intros Hn Hp. unfold find_group_other. rewrite (bind_Ret (gets id) _ fs fs fs eq_refl). cbv zeta.
  change (s_groups_count (fs_sbi fs)) with (c_ngroups c). rewrite (s32_small (c_ngroups c)) by lia.
  rewrite (s32_small (i_block_group (KR_I parent))) by lia.
  destruct (group_usable_run true _ Hp) as (b & Hrun & Hb & _).
  rewrite (bind_Ret _ _ _ _ _ Hrun). destruct b; [eexists; split; [done|left]; split; [done|by apply Hb]|].
  pose proof (Z.mod_pos_bound (u64 (i_block_group (KR_I parent) + i_ino parent)) (c_ngroups c)
    ltac:(lia)) as Hm.
  rewrite s32_small by lia.
  destruct (quadratic_hash_run 32 1 _ ltac:(lia) Hm Hn) as (r & Hr & Hres).
  rewrite (bind_Ret _ _ _ _ _ Hr). destruct Hres as [->|Hres].
  - cbn [Z.eqb negb]. destruct (linear_search_run (Z.to_nat (c_ngroups c)) _ Hp) as (r & Hr2 & Hres).
    exists r. split; [done|]. destruct Hres as [?|[-> Hres]]; [by left|right]. split; [done|].
    intros g Hg. apply Hres. by apply visits_all.
  - replace (r =? -1) with false by lia. exists r. split; [done|]. by left.
Qed.

(** The search of the old allocator for directories: it passes over the groups
    below the average [ave]. *)
Lemma best_group_dir_run ave : forall n g best, 0 <= g -> g + Z.of_nat n <= c_ngroups c ->
  (forall b f, best = Some (b, f) -> 0 <= b < c_ngroups c /\ 0 < bg_free_inodes_count (group_desc c b)) ->
  exists r, best_group_dir n g ave best fs = Ret r fs /\
    (0 <= r < c_ngroups c /\ 0 < bg_free_inodes_count (group_desc c r) \/
     r = -1 /\ best = None /\ forall g', g <= g' < g + Z.of_nat n ->
       bg_free_inodes_count (group_desc c g') <= Z.max 0 (ave - 1)).
Proof.
  induction n as [|n IH]; intros g best Hg Hn Hbest.
  { destruct best as [[b f]|]; eexists; (split; [done|]); [left; by apply (Hbest b f)|].
    right. split_and!; [done|done|lia]. }
  cbn [best_group_dir]. rewrite (bind_Ret _ _ _ _ _ (group_with_inodes_run g ltac:(lia))).
  pose proof (group_counts c Hc g ltac:(lia)) as (_ & Hf & _).
  assert (Hskip : bg_free_inodes_count (group_desc c g) <= Z.max 0 (ave - 1) ->
    exists r, best_group_dir n (g + 1) ave best fs = Ret r fs /\
    (0 <= r < c_ngroups c /\ 0 < bg_free_inodes_count (group_desc c r) \/
     r = -1 /\ best = None /\ forall g', g <= g' < g + Z.of_nat (S n) ->
       bg_free_inodes_count (group_desc c g') <= Z.max 0 (ave - 1))).
  { intros Hno. destruct (IH (g + 1) best ltac:(lia) ltac:(lia) Hbest) as (r & Hr & Hres).
    exists r. split; [done|]. destruct Hres as [?|(-> & Hb & Hres)]; [by left|right].
    split_and!; [done|done|]. intros g' Hg'. destruct (decide (g' = g)) as [->|]; [done|].
    apply Hres. lia. }
  destruct (Z.eqb_spec (bg_free_inodes_count (group_desc c g)) 0); [apply Hskip; lia|].
  destruct (Z.ltb_spec (bg_free_inodes_count (group_desc c g)) ave); [apply Hskip; lia|].
  destruct best as [[b f]|].
  - destruct (_ >? _).
    all: edestruct (IH (g + 1)) as (r & Hr & Hres); [lia|lia| |exists r; split; [exact Hr|]].
    1, 3: intros b' f' [=]; subst; first [by apply (Hbest b' f')|lia].
    all: destruct Hres as [?|(_ & [=] & _)]; by left.
  - edestruct (IH (g + 1)) as (r & Hr & Hres); [lia|lia| |exists r; split; [exact Hr|]].
    + intros b' f' [=]; subst; lia.
    + destruct Hres as [?|(_ & [=] & _)]; by left.
Qed.

Lemma group_sum_le f m : forall n i, 0 <= i -> i + Z.of_nat n <= c_ngroups c ->
  (forall g, i <= g < i + Z.of_nat n -> f (group_desc c g) <= m) ->
  group_sum c f n i <= Z.of_nat n * m.
Proof.
  induction n as [|n IH]; intros i Hi Hn Hf; simpl; [lia|].
  pose proof (Hf i ltac:(lia)). pose proof (IH (i + 1) ltac:(lia) ltac:(lia)
    ltac:(intros g Hg; apply Hf; lia)). lia.
Qed.

(** The average is at most the largest count: the search misses no free inode. *)
Lemma find_group_dir_run parent : exists r, find_group_dir parent fs = Ret r fs /\ group_found c r.
Proof.
  pose proof (ck_ngroups c Hc) as Hng. unfold find_group_dir.
  rewrite (bind_Ret (gets id) _ fs fs fs eq_refl). cbv zeta.
  unfold kr_count_free_inodes. rewrite (bind_Ret _ _ _ _ _ (count_free_inodes_run _ fs Hc)). fold c.
  change (s_groups_count (fs_sbi fs)) with (c_ngroups c). rewrite (s32_small (c_ngroups c)) by lia.
  rewrite u64_small by lia. set (T := total c bg_free_inodes_count).
  pose proof (group_sum_bounds c bg_free_inodes_count (Z.to_nat (c_ngroups c))
    ltac:(intros g Hg; apply (group_counts c Hc g Hg)) 0 ltac:(lia) ltac:(lia)) as HT.
  fold (total c bg_free_inodes_count) in HT. fold T in HT.
  assert (Hq : 0 <= T / c_ngroups c <= 65535).
  { split; [apply Z.div_pos; lia|]. apply Z.div_le_upper_bound; lia. }
  rewrite s32_small by lia.
  destruct (best_group_dir_run (T / c_ngroups c) (Z.to_nat (c_ngroups c)) 0 None) as (r & Hr & Hres);
    [lia|lia|done|].
  exists r. split; [done|]. destruct Hres as [?|(-> & _ & Hres)]; [by left|right]. split; [done|].
  pose proof (group_sum_le bg_free_inodes_count (Z.max 0 (T / c_ngroups c - 1)) (Z.to_nat (c_ngroups c)) 0
    ltac:(lia) ltac:(lia) Hres) as Hle.
  fold (total c bg_free_inodes_count) in Hle. fold T in Hle.
  pose proof (Z.mul_div_le T (c_ngroups c) ltac:(lia)) as Hdiv.
  assert (Hq0 : T / c_ngroups c = 0) by nia.
  intros g Hg. pose proof (Hres g ltac:(lia)). pose proof (group_counts c Hc g Hg) as (_ & Hf & _). lia.
Qed.

End Searches.
