(* ===== verification/NewInode.v ===== *)
(** * Allocating and freeing an inode is correct

    The invariant of the inode bitmaps; a new inode has a number that was free,
    in the group the search has chosen, and freeing an inode frees its number. *)

From S2P Require Import Prelude Bits Kr Rsv Bitmap State Balloc BallocFacts InodeFlags Ialloc IallocFacts.

(** Whether the bitmaps say that the inode [ino] is in use. *)
Definition inode_used (c : core) (ino : Z) : bool :=
  bit (inode_bitmap c ((ino - 1) / c_ipg c)) ((ino - 1) mod c_ipg c).

(** The descriptor counts the free inodes of the bitmap. *)
Definition accounted_inodes (c : core) (g : Z) : Prop :=
  bg_free_inodes_count (group_desc c g) = zeros (inode_bitmap c g) 0 (Z.to_nat (c_ipg c)).

(** The numbers of the inodes: mkfs has made as many inodes as the groups hold. *)
Record numbered (c : core) : Prop := {
  io_core :> core_ok c;
  io_ngroups : c_ngroups c < 1073741824;
  io_ninodes : c_ninodes c = c_ngroups c * c_ipg c;
}.

(** The invariant of the inode allocator: the counts are right, and the reserved
    inodes are marked. *)
Record inodes_ok (c : core) : Prop := {
  io_numbered :> numbered c;
  io_accounted : forall g, 0 <= g < c_ngroups c -> accounted_inodes c g;
  io_reserved : forall ino, 1 <= ino <= c_ninodes c -> ino < c_first_ino c -> inode_used c ino = true;
}.

(** The inodes in memory are in use. *)
Definition cached_used (c : core) : Prop :=
  forall ino, is_Some (c_inodes c !! ino) -> 1 <= ino <= c_ninodes c /\ inode_used c ino = true.

(** What the allocator of inodes may change. *)
Record inodes_changed (c c' : core) : Prop := {
  ic_frame : c' = set_c_sbi (c_sbi c') (set_c_inodes (c_inodes c')
                    (set_c_bufs (c_bufs c') (set_c_desc (c_desc c') c)));
  ic_places : forall g, 0 <= g < c_ngroups c ->
    same_places (group_desc c g) (group_desc c' g) /\
    bg_free_blocks_count (group_desc c' g) = bg_free_blocks_count (group_desc c g);
  ic_blocks : forall g, 0 <= g < c_ngroups c -> block_bitmap c' g = block_bitmap c g;
}.

Lemma inodes_changed_refl c : inodes_changed c c.
Proof. split; [by destruct c|done|done]. Qed.

Section Numbers.
Variable c : core.
Hypothesis Hc : numbered c.

(** The number of an inode, by its group and its place there. *)
Lemma ino_of g j : 0 <= j < c_ipg c ->
  (j + (g * c_ipg c + 1) - 1) / c_ipg c = g /\ (j + (g * c_ipg c + 1) - 1) mod c_ipg c = j.
Proof.
  intros Hj. replace (j + (g * c_ipg c + 1) - 1) with (j + g * c_ipg c) by lia.
  rewrite Z.div_add, Z.mod_add by lia. by rewrite Z.div_small, Z.mod_small by lia.
Qed.

Lemma ino_split ino : 1 <= ino <= c_ninodes c ->
  let g := (ino - 1) / c_ipg c in let j := (ino - 1) mod c_ipg c in
  0 <= g < c_ngroups c /\ 0 <= j < c_ipg c /\ ino = j + (g * c_ipg c + 1).
Proof.
  intros Hi g j. pose proof (ck_ipg _ Hc) as Hipg. pose proof (io_ninodes _ Hc) as Hn.
  pose proof (Z.div_mod (ino - 1) (c_ipg c) ltac:(lia)) as Hdm. fold g j in Hdm.
  pose proof (Z.mod_pos_bound (ino - 1) (c_ipg c) ltac:(lia)) as Hj. fold j in Hj.
  assert (0 <= g) by (apply Z.div_pos; lia).
  assert (g < c_ngroups c) by (apply Z.div_lt_upper_bound; lia). lia.
Qed.

Lemma ino_bound g j : 0 <= g < c_ngroups c -> 0 <= j < c_ipg c ->
  1 <= j + (g * c_ipg c + 1) <= c_ninodes c.
Proof.
  intros Hg Hj. rewrite (io_ninodes _ Hc).
  assert (g * c_ipg c <= (c_ngroups c - 1) * c_ipg c) by (apply Z.mul_le_mono_nonneg_r; lia).
  assert (0 <= g * c_ipg c) by (apply Z.mul_nonneg_nonneg; lia). lia.
Qed.

Lemma ipg_range : 0 < c_ipg c <= 32768.
Proof.
  pose proof (ck_ipg _ Hc). pose proof (ck_bits _ Hc).
  assert (2 ^ c_bits c <= 2 ^ 12) by (apply Z.pow_le_mono_r; lia). lia.
Qed.

Lemma ibitmap_bits g : 0 <= g < c_ngroups c -> c_ipg c <= nbits (inode_bitmap c g).
Proof.
  intros Hg. unfold nbits. rewrite (gk_isize _ _ (ck_groups _ Hc g Hg)). pose proof (ck_ipg _ Hc). lia.
Qed.

Lemma inode_used_at g j : 0 <= j < c_ipg c ->
  inode_used c (j + (g * c_ipg c + 1)) = bit (inode_bitmap c g) j.
Proof. intros Hj. unfold inode_used. by destruct (ino_of g j Hj) as [-> ->]. Qed.

End Numbers.

Section Rewrite.
Variable c : core.
Hypothesis Hc : inodes_ok c.

(** The inode bitmap of the group [g] and its counts are replaced together. *)
Definition rewrite_inodes (g : Z) (d' : list Z) (desc' : kr_group_desc) : core :=
  with_desc (with_buf c (bg_inode_bitmap (group_desc c g)) d') g desc'.

Lemma rewrite_inodes_spec g d' desc' : 0 <= g < c_ngroups c ->
  len d' = len (inode_bitmap c g) -> same_places (group_desc c g) desc' -> counts_ok desc' ->
  bg_free_blocks_count desc' = bg_free_blocks_count (group_desc c g) ->
  bg_free_inodes_count desc' = zeros d' 0 (Z.to_nat (c_ipg c)) ->
  (forall j, 0 <= j < c_ipg c -> j + (g * c_ipg c + 1) < c_first_ino c -> bit d' j = true) ->
  let c' := rewrite_inodes g d' desc' in
  inodes_ok c' /\ inodes_changed c c' /\
  (forall g', 0 <= g' < c_ngroups c ->
     inode_bitmap c' g' = if decide (g' = g) then d' else inode_bitmap c g').
Proof.
  intros Hg Hlen Hsp Hct Hfb Hz Hres c'. pose proof (io_core _ Hc) as Hcore.
  set (ib := bg_inode_bitmap (group_desc c g)). set (c1 := with_buf c ib d').
  assert (core_ok c1) as Hc1.
  { apply with_buf_ok; [done|]. rewrite Hlen. apply (ck_groups _ Hcore g Hg). }
  assert (forall g', 0 <= g' < c_ngroups c -> group_desc c' g' = if decide (g' = g) then desc' else group_desc c g')
    as Hd by (intros g' Hg'; apply (group_desc_with c1 Hc1); [done|apply Hg']).
  assert (forall g', 0 <= g' < c_ngroups c -> same_places (group_desc c g') (group_desc c' g')) as Hsame
    by (intros g' Hg'; rewrite Hd by done; by destruct (decide (g' = g)) as [->|]).
  assert (forall g', 0 <= g' < c_ngroups c ->
     inode_bitmap c' g' = (if decide (g' = g) then d' else inode_bitmap c g') /\
     block_bitmap c' g' = block_bitmap c g') as Hbm.
  { intros g' Hg'. destruct (Hsame g' Hg') as (H1 & H2 & _).
    unfold block_bitmap, inode_bitmap. rewrite H1, H2.
    apply (bitmaps_with_ib c Hcore g d' g' Hg Hg'). }
  assert (core_ok c') as Hc' by (by apply (with_desc_ok c1 Hc1 g desc' Hg)).
  split_and!.
  - split; [split; [done|apply Hc|apply Hc]| |].
    + intros g' Hg'. unfold accounted_inodes. rewrite Hd by done. destruct (Hbm g' Hg') as [-> _].
      case_decide; [done|by apply (io_accounted _ Hc g')].
    + intros ino Hi Hf. destruct (ino_split c Hc ino Hi) as (Hg' & Hj & He).
      unfold inode_used. change (c_ipg c') with (c_ipg c).
      destruct (Hbm _ Hg') as [-> _]. case_decide as Heq.
      * apply Hres; [done|]. rewrite <- Heq, <- He. exact Hf.
      * by apply (io_reserved _ Hc ino).
  - split; [done| |].
    + intros g' Hg'. split; [by apply Hsame|]. rewrite Hd by done. by destruct (decide (g' = g)) as [->|].
    + intros g' Hg'. apply (Hbm g' Hg').
  - intros g' Hg'. apply (Hbm g' Hg').
Qed.

End Rewrite.

(** What the fields of the super block and of the inodes do not matter to. *)
Lemma inodes_ok_set c sbi ins : inodes_ok c -> inodes_ok (set_c_sbi sbi (set_c_inodes ins c)).
Proof.
  intros Hc. pose proof (io_core _ Hc) as Hcore. destruct Hc as [[] ? ?]. split; [split|..]; try done.
  apply with_sbi_ok, with_inodes_ok, Hcore.
Qed.
Lemma inodes_changed_set c c' sbi ins : inodes_changed c c' ->
  inodes_changed c (set_c_sbi sbi (set_c_inodes ins c')).
Proof. intros [H1 H2 H3]. split; [|exact H2|exact H3]. by rewrite H1 at 1. Qed.

Section Facts.
Context {B : BitOps} {BL : BitLaws B} {R : RbTree} {RL : RbLaws R} {T : Trylock} {K : Kernel}.
Variable E : stop -> Prop.
Hypothesis HE : E Panic.

Definition inode_bitmap_lost (c : core) (g : Z) : Prop :=
  bh_read_ok (bg_inode_bitmap (group_desc c g)) = false.

Lemma read_inode_bitmap_spec fs g : core_ok (core_of fs) -> 0 <= g < c_ngroups (core_of fs) ->
  let ib := bg_inode_bitmap (group_desc (core_of fs) g) in
  runs (read_inode_bitmap g) E (fun r fs' => core_of fs' = core_of fs /\
    (r = Some ib \/ r = None /\ bh_read_ok ib = false)) fs.
Proof.
  intros Hc Hg ib. unfold read_inode_bitmap, kr_get_group_desc. step.
  run get_group_desc_run; [done|done|]. step. run desc_get_run; [done|done|]. fold ib. step.
  unfold sb_bread. step. unfold buffer_uptodate. step. step; [by step; step; split; [|left]|].
  step. unfold bh_submit_read. destruct (bh_read_ok ib) eqn:Hrd.
  - steps. split; [done|by left].
  - steps. eapply runs_mono; [by apply kr_error_core|]. intros _ fs' [Hcore _]. step.
    split; [done|by right].
Qed.

Lemma inode_bitmap_get fs g : core_ok (core_of fs) -> 0 <= g < c_ngroups (core_of fs) ->
  buf_get (bg_inode_bitmap (group_desc (core_of fs) g)) fs = Ret (inode_bitmap (core_of fs) g) fs.
Proof.
  intros Hc Hg. apply buf_get_run. unfold inode_bitmap.
  destruct (gk_ibuf _ _ (ck_groups _ Hc g Hg)) as [d Hd]. cbn [c_bufs core_of] in *. by rewrite Hd.
Qed.

(** Claiming an inode in the bitmap of the group [g]: the first free one, unless
    the group is full. *)
Lemma claim_spec fs g n : inodes_ok (core_of fs) -> 0 <= g < c_ngroups (core_of fs) ->
  let c := core_of fs in let ib := bg_inode_bitmap (group_desc c g) in
  runs (loop (S n) (claim_inode ib) 0) E (fun r fs' =>
    match r with
    | None => core_of fs' = c /\ forall j, 0 <= j < c_ipg c -> bit (inode_bitmap c g) j = true
    | Some i => 0 <= i < c_ipg c /\ bit (inode_bitmap c g) i = false /\
        exists d', claimed (inode_bitmap c g) d' i (i + 1) /\ core_of fs' = with_buf c ib d'
    end) fs.
Proof.
  intros Hc Hg c ib. pose proof (ipg_range c Hc) as Hipg. pose proof (ibitmap_bits c Hc g Hg) as Hnb.
  cbn [loop]. unfold claim_inode. step. step. step. cbn [id]. step. run inode_bitmap_get; [apply Hc|done|].
  fold c ib. change (s_inodes_per_group (fs_sbi fs)) with (c_ipg c). set (d := inode_bitmap c g) in *.
  step. unfold kr_find_next_zero_bit. replace ((0 <? 0) || (c_ipg c >? nbits d)) with false by lia. step.
  pose proof (find_zero_bounds d (c_ipg c) 0 ltac:(lia) Hnb) as Hi.
  set (i := find_next_zero_bit_le d (c_ipg c) 0) in *.
  destruct (i >=? c_ipg c) eqn:Hge.
  - steps. split; [done|]. intros j Hj. apply (find_zero_before d (c_ipg c) 0); [lia|done|]. fold i. lia.
  - assert (i < c_ipg c) as Hlt by lia.
    pose proof (find_zero_at d (c_ipg c) 0 ltac:(lia) Hnb Hlt) as Hbit. fold i in Hbit.
    step. unfold buf_set. step. rewrite set_bit_old, Hbit by lia. steps. split; [lia|]. split; [done|].
    eexists. split; [apply claimed_set; lia|done].
Qed.

(** What the loop over the groups leaves, started at the group [g]. *)
Definition scanned (c : core) (g n : Z) (r : inode_found) (fs' : krfs) : Prop :=
  match r with
  | InodeAt g' p b i => 0 <= g' < c_ngroups c /\ p = gdp_of c g' /\
      b = bg_inode_bitmap (group_desc c g') /\ 0 <= i < c_ipg c /\ bit (inode_bitmap c g') i = false /\
      exists d', claimed (inode_bitmap c g') d' i (i + 1) /\ core_of fs' = with_buf c b d'
  | InodeError => core_of fs' = c /\ exists g', 0 <= g' < c_ngroups c /\ inode_bitmap_lost c g'
  | InodeNone => core_of fs' = c /\ forall k j, 0 <= k < n -> 0 <= j < c_ipg c ->
      bit (inode_bitmap c ((g + k) mod c_ngroups c)) j = true
  end.

Lemma scan_groups_spec c : inodes_ok c -> forall n g fs, core_of fs = c -> 0 <= g < c_ngroups c ->
  runs (scan_groups n g) E (fun r fs' => scanned c g (Z.of_nat n) r fs' /\
    (1 <= Z.of_nat n -> ~ inode_bitmap_lost c g -> 0 < bg_free_inodes_count (group_desc c g) ->
     exists p b i, r = InodeAt g p b i)) fs.
Proof.
  intros Hc. induction n as [|n IH]; intros g fs Hfs Hg.
  { cbn [scan_groups]. step. split; [|lia]. split; [done|lia]. }
  cbn [scan_groups]. step. step. cbn [id]. step. unfold kr_get_group_desc.
  assert (Hcore : core_ok (core_of fs)) by (rewrite Hfs; apply Hc).
  assert (Hg' : 0 <= g < c_ngroups (core_of fs)) by (by rewrite Hfs).
  run get_group_desc_run; [done|done|]. step.
  eapply runs_mono; [by apply read_inode_bitmap_spec|]. cbv beta zeta. rewrite Hfs.
  intros r fs1 [Hfs1 [->|[-> Hlost]]]; cbv iota.
  2: { step. split; [split; [done|by exists g]|]. intros _ Hno. by destruct Hno. }
  step. pose proof (claim_spec fs1 g (Z.to_nat (s_inodes_per_group (fs_sbi fs)))) as Hclaim.
  rewrite Hfs1 in Hclaim. specialize (Hclaim Hc Hg). cbv zeta in Hclaim.
  eapply runs_mono; [exact Hclaim|]. intros [i|] fs2.
  - intros (Hi & Hb & d' & Hd' & Hfs2). step. split; [|by eauto]. cbn. by eauto 10.
  - intros [Hfs2 Hfull].
    replace (g + 1 =? s_groups_count (fs_sbi fs)) with (g + 1 >=? c_ngroups c)
      by (change (s_groups_count (fs_sbi fs)) with (c_ngroups (core_of fs)); rewrite Hfs; lia).
    fold (next_group c g). destruct (next_group_mod c g ltac:(lia) Hg) as [He Hnx].
    eapply runs_mono; [by apply IH|]. intros r fs3 [Hs _]. split.
    + destruct r; try done. destruct Hs as [Hfs3 Hs]. split; [done|]. intros k j Hk Hj.
      destruct (decide (k = 0)) as [->|]; [rewrite Z.add_0_r, Z.mod_small by lia; by apply Hfull|].
      replace ((g + k) mod c_ngroups c) with ((next_group c g + (k - 1)) mod c_ngroups c);
        [apply Hs; lia|]. rewrite He, Zplus_mod_idemp_l. f_equal. lia.
    + intros _ _ Hpos. rewrite (io_accounted _ Hc g Hg) in Hpos. exfalso.
      pose proof (zeros_ones (inode_bitmap c g) 0 (Z.to_nat (c_ipg c))) as Hzo.
      rewrite ones_all in Hzo; [lia|]. intros j Hj. apply Hfull. lia.
Qed.

Lemma search_run fs dir mode : core_ok (core_of fs) -> c_ngroups (core_of fs) < 1073741824 ->
  0 <= i_block_group (KR_I dir) < c_ngroups (core_of fs) ->
  exists r, (if S_ISDIR mode then
               if test_opt KR_MOUNT_OLDALLOC fs then find_group_dir dir else find_group_orlov dir
             else find_group_other dir) fs = Ret r fs /\ group_found (core_of fs) r.
Proof.
  intros Hc Hn Hp. destruct (S_ISDIR mode); [destruct (test_opt _ fs)|].
  - by apply find_group_dir_run.
  - by apply find_group_orlov_run.
  - by apply find_group_other_run.
Qed.

Lemma preread_spec fs ino : inodes_ok (core_of fs) -> 1 <= ino <= c_ninodes (core_of fs) ->
  runs (kr_preread_inode ino) E (fun _ fs' => core_of fs' = core_of fs) fs.
Proof.
  intros Hc Hi. unfold kr_preread_inode. step; [by step|]. step. step. cbn [id]. step.
  unfold kr_get_group_desc. destruct (ino_split _ Hc ino Hi) as (Hg & _ & _).
  run get_group_desc_run; [apply Hc|exact Hg|]. step. run desc_get_run; [apply Hc|exact Hg|].
  unfold log. by step.
Qed.

(** What claiming the inode [ino] for a file of the mode [mode] does. *)
Record claims (c c' : core) (mode ino : Z) (i : inode) : Prop := {
  cl_range : Z.max 1 (c_first_ino c) <= ino <= c_ninodes c;
  cl_free : inode_used c ino = false;
  cl_ok : inodes_ok c';
  cl_cached : cached_used c';
  cl_changed : inodes_changed c c';
  cl_used : forall i, 1 <= i <= c_ninodes c -> inode_used c' i = inode_used c i || (i =? ino);
  cl_inodes : c_inodes c' = <[ino := i]> (c_inodes c);
  cl_ino : i_ino i = ino;
  cl_group : i_block_group (KR_I i) = (ino - 1) / c_ipg c;
  cl_freeinodes : s_freeinodes_counter (c_sbi c') = s_freeinodes_counter (c_sbi c) - 1;
  cl_dirs : s_dirs_counter (c_sbi c') = s_dirs_counter (c_sbi c) + (if S_ISDIR mode then 1 else 0);
}.

(** The code from [got] to the insertion of the inode. *)
Lemma claims_intro c g i d' mode sbi n : inodes_ok c -> cached_used c -> 0 <= g < c_ngroups c ->
  0 <= i < c_ipg c -> bit (inode_bitmap c g) i = false -> claimed (inode_bitmap c g) d' i (i + 1) ->
  let desc := group_desc c g in
  let desc' := if S_ISDIR mode then add_used_dirs 1 (add_free_inodes (-1) desc)
               else add_free_inodes (-1) desc in
  let ino := i + (g * c_ipg c + 1) in
  i_ino n = ino -> i_block_group (KR_I n) = g ->
  s_freeinodes_counter sbi = s_freeinodes_counter (c_sbi c) - 1 ->
  s_dirs_counter sbi = s_dirs_counter (c_sbi c) + (if S_ISDIR mode then 1 else 0) ->
  claims c (set_c_sbi sbi (set_c_inodes (<[ino := n]> (c_inodes c)) (rewrite_inodes c g d' desc')))
    mode ino n.
Proof.
  intros Hc Hcu Hg Hi Hb Hcl desc desc' ino Hino Hbg Hfi Hdir.
  pose proof (ino_bound c Hc g i Hg Hi) as Hbound. fold ino in Hbound.
  assert (inode_used c ino = false) as Hfree by (unfold ino; by rewrite inode_used_at).
  pose proof (group_counts c Hc g Hg) as (Hc1 & Hc2 & Hc3).
  pose proof (zeros_claimed _ _ i 1 (c_ipg c) Hcl ltac:(intros j Hj; by replace j with i by lia)
    ltac:(lia) ltac:(lia) ltac:(lia)) as Hz.
  rewrite <- (io_accounted _ Hc g Hg) in Hz. fold desc in Hc1, Hc2, Hc3, Hz.
  pose proof (zeros_nonneg d' 0 (Z.to_nat (c_ipg c))).
  assert (same_places desc desc' /\ counts_ok desc' /\
    bg_free_blocks_count desc' = bg_free_blocks_count desc /\
    bg_free_inodes_count desc' = zeros d' 0 (Z.to_nat (c_ipg c))) as (H1 & H2 & H3 & H4).
  { pose proof (u16_range (bg_used_dirs_count desc + 1)).
    assert (u16 (bg_free_inodes_count desc + -1) = zeros d' 0 (Z.to_nat (c_ipg c))) by (wraps; lia).
    unfold desc', counts_ok. destruct (S_ISDIR mode); cbn; split_and!; try done; lia. }
  destruct Hcl as [Hlen Hbits].
  destruct (rewrite_inodes_spec c Hc g d' desc' Hg Hlen H1 H2 H3 H4) as (Hok & Hch & Hbm).
  { intros j Hj Hf. rewrite Hbits by lia. rewrite <- (inode_used_at c g j Hj).
    rewrite (io_reserved _ Hc); [done|by apply (ino_bound c Hc)|done]. }
  set (c1 := rewrite_inodes c g d' desc') in *.
  assert (Hused : forall k, 1 <= k <= c_ninodes c -> inode_used c1 k = inode_used c k || (k =? ino)).
  { intros k Hk. destruct (ino_split c Hc k Hk) as (Hgk & Hjk & Hek).
    unfold inode_used. change (c_ipg c1) with (c_ipg c). rewrite Hbm by done. case_decide as He.
    - rewrite He in *. rewrite Hbits by lia. f_equal. unfold ino. lia.
    - replace (k =? ino) with false; [by rewrite orb_false_r|]. symmetry. apply Z.eqb_neq. intros ->.
      apply He. unfold ino. by destruct (ino_of c g i Hi) as [-> _]. }
  split; try done.
  - pose proof (io_reserved _ Hc ino Hbound). split; [|lia].
    destruct (decide (ino < c_first_ino c)); [|lia]. rewrite Hfree in *. by intuition.
  - by apply inodes_ok_set.
  - intros k Hk. cbn in Hk. rewrite lookup_insert_is_Some' in Hk.
    change (1 <= k <= c_ninodes c /\ inode_used c1 k = true).
    assert (k = ino \/ is_Some (c_inodes c !! k)) as Hk' by (destruct Hk as [<-|]; auto).
    assert (1 <= k <= c_ninodes c /\ inode_used c k || (k =? ino) = true) as [Hk1 Hk2].
    { destruct Hk' as [->|Hk']; [by rewrite Z.eqb_refl, orb_true_r|].
      by destruct (Hcu k Hk') as [? ->]. }
    split; [done|]. by rewrite Hused.
  - by apply inodes_changed_set.
  - rewrite Hbg. unfold ino. by destruct (ino_of c g i Hi) as [-> _].
Qed.

Lemma account_spec fs g dir : core_ok (core_of fs) -> 0 <= g < c_ngroups (core_of fs) ->
  let c := core_of fs in let desc := group_desc c g in
  let desc' := if dir : bool then add_used_dirs 1 (add_free_inodes (-1) desc)
               else add_free_inodes (-1) desc in
  runs (account_inode g (gdp_of c g) dir) E (fun _ fs' => exists sbi,
    core_of fs' = set_c_sbi sbi (with_desc c g desc') /\
    s_freeinodes_counter sbi = s_freeinodes_counter (c_sbi c) - 1 /\
    s_dirs_counter sbi = s_dirs_counter (c_sbi c) + (if dir then 1 else 0)) fs.
Proof.
  intros Hc Hg c desc desc'. unfold account_inode, upd_sbi, log, desc_set. step. step. step.
  set (fs1 := set_fs_sbi _ fs).
  assert (core_ok (core_of fs1)) as Hc1 by (apply (with_sbi_ok c Hc)).
  destruct dir; cbn [when]; steps.
  - set (fs2 := set_fs_sbi _ fs1). assert (core_ok (core_of fs2)) as Hc2 by (apply (with_sbi_ok c Hc)).
    change (gdp_of c g) with (gdp_of (core_of fs2) g). run desc_get_run; [done|done|]. steps.
    eexists. split; [reflexivity|]. cbn. split; [done|lia].
  - change (gdp_of c g) with (gdp_of (core_of fs1) g). run desc_get_run; [done|done|]. steps.
    eexists. split; [reflexivity|]. cbn. split; [done|lia].
Qed.

(** The answers of [kr_new_inode], and what it leaves. *)
Inductive new_inode_result (c : core) (mode : Z) (c' : core) : Z + Z -> Prop :=
| NoMemory : new_inode_ok = false -> c' = c -> new_inode_result c mode c' (inl (- ENOMEM))
| NoSpace : (forall ino, 1 <= ino <= c_ninodes c -> inode_used c ino = true) -> c' = c ->
    new_inode_result c mode c' (inl (- ENOSPC))
| NoRead g : 0 <= g < c_ngroups c -> inode_bitmap_lost c g -> c' = c ->
    new_inode_result c mode c' (inl (- EIO))
| NoQuota ino i err : claims c c' mode ino i -> i_nlink i = 0 -> err <> 0 ->
    err = dquot_initialize ino \/ err = dquot_alloc_inode ino ->
    new_inode_result c mode c' (inl err)
| NewInode ino i : claims c c' mode ino i -> i_nlink i = 1 -> new_inode_result c mode c' (inr ino).

(** The code from [got] on, with the bit [i] of the group [g] claimed. *)
Lemma got_spec dir mode fs c g i d' : inodes_ok c -> cached_used c -> 0 <= g < c_ngroups c ->
  0 <= i < c_ipg c -> bit (inode_bitmap c g) i = false -> claimed (inode_bitmap c g) d' i (i + 1) ->
  core_of fs = with_buf c (bg_inode_bitmap (group_desc c g)) d' ->
  runs (got_inode dir mode g (gdp_of c g) (bg_inode_bitmap (group_desc c g)) i) E
    (fun r fs' => new_inode_result c mode (core_of fs') r) fs.
Proof.
  intros Hc Hcu Hg Hi Hb Hcl Hfs. pose proof (io_core _ Hc) as Hcore.
  pose proof (ino_bound c Hc g i Hg Hi) as Hbound. set (ino := i + (g * c_ipg c + 1)) in *.
  assert (inode_used c ino = false) as Hfree by (unfold ino; by rewrite inode_used_at).
  set (c1 := with_buf c (bg_inode_bitmap (group_desc c g)) d') in *.
  assert (core_ok c1) as Hc1.
  { apply with_buf_ok; [done|]. destruct Hcl as [-> _]. apply (ck_groups _ Hcore g Hg). }
  unfold got_inode. step. unfold log at 1. step. step. step. cbn [id].
  set (fs0 := set_fs_trace _ fs). assert (core_of fs0 = c1) as Hfs0 by done. clearbody fs0. step.
  eapply (runs_mono _ _ (fun _ fs1 => core_of fs1 = c1)); [by step|]. intros _ fs1 Hfs1.
  change (s_inodes_per_group (fs_sbi fs0)) with (c_ipg (core_of fs0)).
  change (s_first_ino (fs_sbi fs0)) with (c_first_ino (core_of fs0)).
  change (es_inodes_count (fs_es fs0)) with (c_ninodes (core_of fs0)). rewrite Hfs0. cbv zeta.
  change (c_ipg c1) with (c_ipg c). change (c_first_ino c1) with (c_first_ino c).
  change (c_ninodes c1) with (c_ninodes c). fold ino.
  assert (c_ninodes c <= 1073741824 * 32768) as Hmax.
  { rewrite (io_ninodes _ Hc). pose proof (io_ngroups _ Hc). pose proof (ipg_range c Hc).
    apply Z.mul_le_mono_nonneg; lia. }
  rewrite u64_small by lia.
  assert (c_first_ino c <= ino) as Hfirst.
  { destruct (Z.ltb_spec ino (c_first_ino c)) as [Hlt|]; [|done].
    by rewrite (io_reserved _ Hc ino) in Hfree. }
  replace ((ino <? c_first_ino c) || (ino >? c_ninodes c)) with false by lia. step.
  change (gdp_of c g) with (gdp_of c1 g).
  pose proof (account_spec fs1 g (S_ISDIR mode)) as Hacc. rewrite Hfs1 in Hacc. cbv zeta in Hacc.
  eapply runs_mono; [by apply Hacc|]. cbv beta. intros _ fs2 (sbi & Hfs2 & Hfi & Hdir).
  set (desc' := if S_ISDIR mode then _ else _) in Hfs2.
  step. step. cbn [id]. step. unfold upd_sbi. step.
  set (gen := s_next_generation (fs_sbi fs2)). set (fs3 := set_fs_sbi _ fs2).
  assert (core_of fs3 = set_c_sbi (set_s_next_generation (u32 (gen + 1)) sbi) (with_desc c1 g desc')) as Hfs3.
  { transitivity (set_c_sbi (set_s_next_generation (u32 (gen + 1)) (c_sbi (core_of fs2))) (core_of fs2));
      [done|]. by rewrite Hfs2. }
  assert (fs_inodes fs2 = c_inodes c) as Hins by (change (c_inodes (core_of fs2) = c_inodes c); by rewrite Hfs2).
  rewrite bool_decide_eq_false_2; [cbv iota|].
  2: { rewrite Hins. intros Hin%Hcu. rewrite Hfree in Hin. by destruct Hin. }
  step. step. set (n := init_inode fs2 dir mode ino g gen).
  assert (Hclaims : forall n' fs', i_ino n' = ino -> i_block_group (KR_I n') = g ->
    core_of fs' = set_c_inodes (<[ino := n']> (c_inodes c)) (core_of fs3) ->
    claims c (core_of fs') mode ino n').
  { intros n' fs' Hn1 Hn2 Hfs'. pose proof (claims_intro c g i d' mode
      (set_s_next_generation (u32 (gen + 1)) sbi) n' Hc Hcu Hg Hi Hb Hcl Hn1 Hn2 Hfi Hdir) as Hcs.
    fold ino in Hcs. rewrite Hfs', Hfs3. exact Hcs. }
  set (fs4 := set_fs_inodes _ fs3).
  assert (core_of fs4 = set_c_inodes (<[ino := n]> (c_inodes c)) (core_of fs3)) as Hfs4
    by (rewrite <- Hins; done).
  assert (Hn : i_ino n = ino /\ i_block_group (KR_I n) = g /\ i_nlink n = 1).
  { unfold n, init_inode. destruct (if test_opt KR_MOUNT_GRPID fs2 then _ else _) as [[? ?] ?]. done. }
  destruct Hn as (Hn1 & Hn2 & Hn3).
  assert (Hdrop : forall err, err <> 0 -> err = dquot_initialize ino \/ err = dquot_alloc_inode ino ->
    runs (fail_drop ino err) E (fun r fs' => new_inode_result c mode (core_of fs') r) fs4).
  { intros err Hne Herr. unfold fail_drop, log. steps.
    eapply NoQuota; [apply (Hclaims (set_i_nlink 0 (set_i_flags (Z.lor (i_flags n) S_NOQUOTA) n)))| | |];
      try done. cbn. rewrite alter_insert_eq, Hins. by cbn. }
  destruct (Z.eqb_spec (dquot_initialize ino) 0); cbn [negb]; [|apply Hdrop; auto].
  destruct (Z.eqb_spec (dquot_alloc_inode ino) 0); cbn [negb]; [|apply Hdrop; auto].
  unfold log. step. step. step. step. set (fs5 := set_fs_trace _ _).
  pose proof (Hclaims n fs5 Hn1 Hn2 Hfs4) as Hcs.
  step. eapply runs_mono; [apply preread_spec; [apply (cl_ok _ _ _ _ _ Hcs)|]|].
  { change (c_ninodes (core_of fs5)) with (c_ninodes (core_of fs4)). rewrite Hfs4, Hfs3. exact Hbound. }
  cbv beta. intros _ fs6 Hfs6. step. rewrite Hfs6. by apply (NewInode _ _ _ ino n).
Qed.

(** A new inode is one that was free; there is none only if every inode is in use. *)
Lemma kr_new_inode_spec dir mode fs : let c := core_of fs in
  inodes_ok c -> cached_used c -> 0 <= i_block_group (KR_I dir) < c_ngroups c ->
  runs (kr_new_inode dir mode) E (fun r fs' => new_inode_result c mode (core_of fs') r) fs.
Proof.
  intros c Hc Hcu Hp. pose proof (io_core _ Hc) as Hcore. unfold kr_new_inode.
  destruct new_inode_ok eqn:Hnew; cbn [negb]; [|step; by apply NoMemory].
  step. step. cbn [id]. cbv zeta. step. unfold fail_new, log.
  destruct (search_run fs dir mode Hcore (io_ngroups _ Hc) Hp) as (g & Hrun & Hfound). run Hrun.
  fold c in Hfound. destruct Hfound as [[Hg Hpos]|[-> Hnone]].
  2: { cbn [Z.eqb Pos.eqb]. steps. apply NoSpace; [|done]. intros ino Hi.
       destruct (ino_split c Hc ino Hi) as (Hg & Hj & _).
       pose proof (Hnone _ Hg) as Hz. rewrite (io_accounted _ Hc _ Hg) in Hz.
       apply (zeros_none _ _ _ Hz). lia. }
  replace (g =? -1) with false by lia. step.
  eapply runs_mono; [apply (scan_groups_spec c Hc); [done|done]|]. cbv beta. intros r fs1 [Hs _].
  destruct r as [g' p b i| |]; cbv iota.
  - destruct Hs as (Hg' & -> & -> & Hi & Hb & d' & Hd' & Hfs1). by eapply got_spec.
  - destruct Hs as (Hfs1 & g' & Hg' & Hl). steps. eapply NoRead; [exact Hg'|done|done].
  - destruct Hs as [Hfs1 Hfull]. steps. apply NoSpace; [|done]. intros ino Hi.
    destruct (ino_split c Hc ino Hi) as (Hg' & Hj & _). unfold inode_used.
    set (g' := (ino - 1) / c_ipg c) in *.
    assert (exists k, 0 <= k < c_ngroups c /\ (g + k) mod c_ngroups c = g') as (k & Hk & <-).
    { exists ((g' - g) mod c_ngroups c). split; [apply Z.mod_pos_bound; lia|].
      rewrite Zplus_mod_idemp_r. replace (g + (g' - g)) with g' by lia. by apply Z.mod_small. }
    apply Hfull; [|done]. change (s_groups_count (fs_sbi fs)) with (c_ngroups c). lia.
Qed.

(** What freeing the inode [ino] of the mode [mode] does: its number is free, and
    the counts of its group are right.  The counter of free inodes of the super
    block is not touched. *)
Record frees (c c' : core) (mode ino : Z) : Prop := {
  fr_ok : inodes_ok c';
  fr_changed : inodes_changed c c';
  fr_used : forall i, 1 <= i <= c_ninodes c -> inode_used c' i = inode_used c i && negb (i =? ino);
  fr_inodes : c_inodes c' = c_inodes c;
  fr_freeinodes : s_freeinodes_counter (c_sbi c') = s_freeinodes_counter (c_sbi c);
  fr_dirs : s_dirs_counter (c_sbi c') = s_dirs_counter (c_sbi c)
              - (if inode_used c ino && S_ISDIR mode then 1 else 0);
}.

Lemma with_desc_same c g : core_ok c -> 0 <= g < c_ngroups c -> with_desc c g (group_desc c g) = c.
Proof.
  intros Hc Hg. unfold with_desc.
  assert (put_desc (gdp_of c g) (group_desc c g) (c_desc c) = c_desc c) as ->; [|by destruct c].
  destruct (gk_desc _ _ (ck_groups _ Hc g Hg)) as [d Hd].
  assert (group_desc c g = d) as -> by (unfold group_desc; by rewrite Hd).
  unfold put_desc, find_desc in *. apply list_eq. intros k. rewrite list_lookup_alter.
  case_decide; [subst k|done]. destruct (c_desc c !! _) as [[l|]|]; [|done|done].
  simpl. by rewrite list_insert_id.
Qed.

(** The descriptor of the group, after an inode of it was freed. *)
Definition freed_desc (was dir : bool) (d : kr_group_desc) : kr_group_desc :=
  if was then if dir then add_used_dirs (-1) (add_free_inodes 1 d) else add_free_inodes 1 d else d.

Lemma frees_intro c g j d' mode sbi : inodes_ok c -> 0 <= g < c_ngroups c -> 0 <= j < c_ipg c ->
  cleared (inode_bitmap c g) d' j (j + 1) ->
  let ino := j + (g * c_ipg c + 1) in let was := bit (inode_bitmap c g) j in
  c_first_ino c <= ino ->
  s_freeinodes_counter sbi = s_freeinodes_counter (c_sbi c) ->
  s_dirs_counter sbi = s_dirs_counter (c_sbi c) - (if was && S_ISDIR mode then 1 else 0) ->
  frees c (set_c_sbi sbi (rewrite_inodes c g d' (freed_desc was (S_ISDIR mode) (group_desc c g)))) mode ino.
Proof.
  intros Hc Hg Hj Hcl ino was Hfirst Hfi Hdir.
  pose proof (ino_bound c Hc g j Hg Hj) as Hbound. fold ino in Hbound.
  assert (inode_used c ino = was) as Hwas by (unfold ino; by rewrite inode_used_at).
  set (desc := group_desc c g). pose proof (group_counts c Hc g Hg) as (Hc1 & Hc2 & Hc3).
  pose proof (zeros_cleared _ _ j 1 (c_ipg c) Hcl ltac:(lia) ltac:(lia) ltac:(lia)) as Hz.
  rewrite <- (io_accounted _ Hc g Hg) in Hz. fold desc in Hc1, Hc2, Hc3, Hz.
  change (ones (inode_bitmap c g) j (Z.to_nat 1)) with ((if was then 1 else 0) + 0) in Hz.
  pose proof (zeros_nonneg d' 0 (Z.to_nat (c_ipg c))). pose proof (ipg_range c Hc).
  set (desc' := freed_desc was (S_ISDIR mode) desc).
  assert (same_places desc desc' /\ counts_ok desc' /\
    bg_free_blocks_count desc' = bg_free_blocks_count desc /\
    bg_free_inodes_count desc' = zeros d' 0 (Z.to_nat (c_ipg c))) as (H1 & H2 & H3 & H4).
  { pose proof (u16_range (bg_used_dirs_count desc + -1)). unfold desc', freed_desc.
    destruct was; [|split_and!; try done; lia].
    assert (u16 (bg_free_inodes_count desc + 1) = zeros d' 0 (Z.to_nat (c_ipg c))) by (wraps; lia).
    unfold counts_ok. destruct (S_ISDIR mode); cbn; split_and!; try done; lia. }
  destruct Hcl as [Hlen Hbits].
  destruct (rewrite_inodes_spec c Hc g d' desc' Hg Hlen H1 H2 H3 H4) as (Hok & Hch & Hbm).
  { intros k Hk Hf. rewrite Hbits by lia. rewrite <- (inode_used_at c g k Hk).
    rewrite (io_reserved _ Hc); [|by apply (ino_bound c Hc)|done].
    replace ((j <=? k) && (k <? j + 1)) with false; [done|]. unfold ino in Hfirst. lia. }
  set (c1 := rewrite_inodes c g d' desc') in *.
  split; try done.
  - apply (inodes_ok_set _ sbi (c_inodes c1)) in Hok. exact Hok.
  - apply (inodes_changed_set _ _ sbi (c_inodes c1)) in Hch. exact Hch.
  - intros k Hk. destruct (ino_split c Hc k Hk) as (Hgk & Hjk & Hek).
    change (inode_used c1 k = inode_used c k && negb (k =? ino)).
    unfold inode_used. change (c_ipg c1) with (c_ipg c). rewrite Hbm by done. case_decide as He.
    + rewrite He in *. rewrite Hbits by lia. do 2 f_equal. unfold ino. lia.
    + replace (k =? ino) with false; [by rewrite andb_true_r|]. symmetry. apply Z.eqb_neq. intros ->.
      apply He. unfold ino. by destruct (ino_of c g j Hj) as [-> _].
  - cbn. by rewrite Hdir, Hwas.
Qed.

Lemma release_spec fs g dir : core_ok (core_of fs) -> 0 <= g < c_ngroups (core_of fs) ->
  let c := core_of fs in
  runs (kr_release_inode g dir) E (fun _ fs' => exists sbi,
    core_of fs' = set_c_sbi sbi (with_desc c g (freed_desc true dir (group_desc c g))) /\
    s_freeinodes_counter sbi = s_freeinodes_counter (c_sbi c) /\
    s_dirs_counter sbi = s_dirs_counter (c_sbi c) - (if dir then 1 else 0)) fs.
Proof.
  intros Hc Hg c. unfold kr_release_inode, kr_get_group_desc, log, desc_set, upd_sbi. step.
  run get_group_desc_run; [done|done|]. step. run desc_get_run; [done|done|].
  destruct dir; steps; eexists; (split; [reflexivity|]); cbn; split; done || lia.
Qed.

Lemma kr_free_inode_spec inode fs : let c := core_of fs in let ino := i_ino inode in
  inodes_ok c -> 0 < c_first_ino c ->
  runs (kr_free_inode inode) E (fun _ fs' => let c' := core_of fs' in
    frees c c' (i_mode inode) ino \/
    c' = c /\ ((ino < c_first_ino c \/ c_ninodes c < ino) \/
              inode_bitmap_lost c ((ino - 1) / c_ipg c))) fs.
Proof.
  intros c ino Hc Hfirst. pose proof (io_core _ Hc) as Hcore. unfold kr_free_inode. fold ino.
  unfold log. step. step. step. step. step. step. cbn [id].
  set (fs1 := set_fs_trace _ _). assert (core_of fs1 = c) as Hfs1 by done. clearbody fs1.
  change (s_inodes_per_group (fs_sbi fs1)) with (c_ipg (core_of fs1)).
  change (s_first_ino (fs_sbi fs1)) with (c_first_ino (core_of fs1)).
  change (es_inodes_count (fs_es fs1)) with (c_ninodes (core_of fs1)).
  assert (core_ok (core_of fs1)) as Hcore1 by (by rewrite Hfs1).
  step.
  { eapply runs_mono; [by apply kr_error_core|]. cbv beta. intros _ fs2 [Hfs2 _]. right. rewrite Hfs2, Hfs1 in *.
    split; [done|]. left. lia. }
  rewrite Hfs1 in *. assert (1 <= ino <= c_ninodes c) as Hi by lia.
  destruct (ino_split c Hc ino Hi) as (Hg & Hj & He).
  set (g := (ino - 1) / c_ipg c) in *. set (j := (ino - 1) mod c_ipg c) in *. step.
  pose proof (read_inode_bitmap_spec fs1 g) as Hread. rewrite Hfs1 in Hread.
  eapply runs_mono; [by apply Hread|]. cbv beta zeta. intros r fs2 [Hfs2 [->|[-> Hl]]]; cbv iota.
  2: { step. right. rewrite Hfs2. split; [done|by right]. }
  pose proof (inode_bitmap_get fs2 g) as Hget. rewrite Hfs2 in Hget.
  pose proof (ibitmap_bits c Hc g Hg) as Hnb.
  step. unfold ext2_clear_bit_atomic. step. run Hget; [done|done|].
  set (d := inode_bitmap c g) in *. replace ((j <? 0) || (j >=? nbits d)) with false by lia.
  step. unfold buf_set. step. step. rewrite clear_bit_old by lia.
  set (d' := snd (test_and_clear_bit_le j d)).
  assert (cleared d d' j (j + 1)) as Hcl.
  { split; [apply clear_bit_len|]. intros k Hk. unfold d'. rewrite clear_bit_law by lia.
    destruct (Z.eqb_spec k j), (Z.leb_spec j k), (Z.ltb_spec k (j + 1)); simpl; try lia; by destruct (bit d k). }
  set (fs3 := set_fs_bufs _ fs2). set (c1 := with_buf c (bg_inode_bitmap (group_desc c g)) d').
  assert (core_of fs3 = c1) as Hfs3.
  { transitivity (with_buf (core_of fs2) (bg_inode_bitmap (group_desc c g)) d'); [done|by rewrite Hfs2]. }
  assert (core_ok c1) as Hc1.
  { apply with_buf_ok; [done|]. destruct Hcl as [-> _]. apply (ck_groups _ Hcore g Hg). }
  step. eapply (runs_mono _ _ (fun _ fs4 => frees c (core_of fs4) (i_mode inode) ino)).
  - pose proof (frees_intro c g j d' (i_mode inode)) as Hfr.
    fold d in Hfr. rewrite <- He in Hfr. destruct (bit d j) eqn:Hbit.
    + pose proof (release_spec fs3 g (S_ISDIR (i_mode inode))) as Hrel. rewrite Hfs3 in Hrel.
      eapply runs_mono; [by apply Hrel|]. cbv beta. intros _ fs4 (sbi & -> & Hs1 & Hs2).
      apply Hfr; try done. lia.
    + eapply runs_mono; [apply kr_error_core; [by rewrite Hfs3|done]|]. cbv beta. intros _ fs4 [Hfs4 _].
      assert (core_of fs4 = set_c_sbi (c_sbi c) (rewrite_inodes c g d' (group_desc c g))) as ->.
      { rewrite Hfs4, Hfs3. unfold rewrite_inodes. fold c1.
        change (group_desc c g) with (group_desc c1 g). rewrite with_desc_same by done. by destruct c. }
      apply Hfr; try done; cbn [andb]; lia.
  - cbv beta. intros _ fs4 Hfr. unfold log. step. step. step. step. cbn [id]. step; by left.
Qed.

End Facts.
