(* ===== verification/InodeTheorems.v ===== *)
(** * What the inode allocator guarantees

    The properties of ialloc.c and of the inode flags, instantiated on the file
    system of Demo.v. *)

From S2P Require Import Prelude Bits Kr Rsv Bitmap State Balloc BallocFacts InodeFlags Ialloc IallocFacts NewInode Demo.

Section Allocator.
Context {B : BitOps} {BL : BitLaws B} {R : RbTree} {RL : RbLaws R} {T : Trylock} {K : Kernel}.

(** C6.  [kr_new_inode] returns, or panics as a mount option asks.  Its answers
    are those of [new_inode_result]: a number that was free and outside of the
    reserved ones, now marked while no other has changed, with the counts of its
    group and the inode in memory agreeing ([claims]); [-ENOSPC] only when every
    inode is in use; [-EIO] only when a bitmap cannot be read; [-ENOMEM]; or the
    error of the quota, the inode then being given up with no links. *)
Theorem kr_new_inode_correct dir mode fs :
  inodes_ok (core_of fs) -> cached_used (core_of fs) ->
  0 <= i_block_group (KR_I dir) < c_ngroups (core_of fs) ->
  runs (kr_new_inode dir mode) only_panic
    (fun r fs' => new_inode_result (core_of fs) mode (core_of fs') r) fs.
Proof. intros. by apply kr_new_inode_spec. Qed.

(** C21.  [kr_free_inode] makes the number free, keeps every other inode and the
    invariant of the bitmaps, and counts the inode and the directory in its group;
    it does nothing for a reserved number, one past the last, or a bitmap that
    cannot be read.  Freeing an inode that is free changes no number. *)
Theorem kr_free_inode_correct inode fs :
  inodes_ok (core_of fs) -> 0 < c_first_ino (core_of fs) ->
  runs (kr_free_inode inode) only_panic (fun _ fs' =>
    let c := core_of fs in let c' := core_of fs' in let ino := i_ino inode in
    frees c c' (i_mode inode) ino \/
    c' = c /\ ((ino < c_first_ino c \/ c_ninodes c < ino) \/
              inode_bitmap_lost c ((ino - 1) / c_ipg c))) fs.
Proof. intros. by apply kr_free_inode_spec. Qed.

(** A file made by [kr_new_inode] and freed. *)
Definition make_and_free (dir : inode) (mode : Z) : M krfs bool :=
  r ← kr_new_inode dir mode;
  match r with
  | inl _ => mret false
  | inr ino =>
      i ← gets (fun fs => fs_inodes fs !! ino);
      match i with
      | None => mret false
      | Some i => kr_free_inode i ;; mret true
      end
  end.

(** C39.  Making an inode and freeing it restores the bitmaps, but the counter of
    free inodes of the super block, which the allocator of directories looks at,
    has lost one: [kr_new_inode] decrements it, and nothing increments it. *)
Theorem make_and_free_leaks dir mode fs :
  inodes_ok (core_of fs) -> cached_used (core_of fs) -> 0 < c_first_ino (core_of fs) ->
  0 <= i_block_group (KR_I dir) < c_ngroups (core_of fs) ->
  (forall b, bh_read_ok b = true) ->
  runs (make_and_free dir mode) only_panic (fun done fs' =>
    let c := core_of fs in let c' := core_of fs' in
    done = true ->
      inodes_ok c' /\ (forall i, 1 <= i <= c_ninodes c -> inode_used c' i = inode_used c i) /\
      s_freeinodes_counter (c_sbi c') = s_freeinodes_counter (c_sbi c) - 1) fs.
Proof.
  intros Hc Hcu Hf Hp Hread. unfold make_and_free. step.
  eapply runs_mono; [by apply (kr_new_inode_spec only_panic)|]. cbv beta zeta. intros [e|ino] fs1 Hr; [by step|].
  inversion Hr as [| | | |ino' i Hcl _ Heq]; subst ino'. step. step.
  assert (fs_inodes fs1 !! ino = Some i) as Hi.
  { change (c_inodes (core_of fs1) !! ino = Some i). rewrite (cl_inodes _ _ _ _ _ Hcl). apply lookup_insert_eq. }
  rewrite Hi. step. pose proof Hcl as [H1 H2 H3 _ H4 H5 _ H6 _ H7 _].
  assert (Hgeo : c_first_ino (core_of fs1) = c_first_ino (core_of fs) /\
    c_ninodes (core_of fs1) = c_ninodes (core_of fs)) by (rewrite (ic_frame _ _ H4); done).
  destruct Hgeo as [Hg1 Hg2].
  eapply runs_mono; [apply (kr_free_inode_spec only_panic); [done|done|by rewrite Hg1]|].
  cbv beta zeta. intros _ fs2 [[F1 F2 F3 F4 F5 F6]|[_ [Hbad|Hl]]].
  - step. intros _. split; [done|]. split; [|by rewrite F5].
    intros k Hk. rewrite F3 by (by rewrite Hg2). rewrite H5 by done. rewrite H6.
    destruct (Z.eqb_spec k ino) as [->|]; cbn [negb]; [by rewrite H2, andb_false_r|].
    by rewrite orb_false_r, andb_true_r.
  - lia.
  - unfold inode_bitmap_lost in Hl. by rewrite Hread in Hl.
Qed.

(** Each of the three searches answers a group with a free inode, or -1 when
    no group has one: the averages and limits they work with pass over no inode. *)
Theorem find_group_correct fs parent :
  core_ok (core_of fs) -> c_ngroups (core_of fs) < 1073741824 ->
  0 <= i_block_group (KR_I parent) < c_ngroups (core_of fs) ->
  Forall (fun find => exists r, find fs = Ret r fs /\ group_found (core_of fs) r)
    [find_group_dir parent; find_group_orlov parent; find_group_other parent].
Proof.
  intros Hc Hn Hp. repeat constructor;
    [by apply find_group_dir_run|by apply find_group_orlov_run|by apply find_group_other_run].
Qed.

End Allocator.

(** The flags of the disk inode survive [kr_set_inode_flags] followed by
    [kr_get_inode_flags], and the first sets the flags of the VFS inode bit by bit. *)
Theorem inode_flags_round_trip dax i :
  ei_flags (KR_I (kr_get_inode_flags (kr_set_inode_flags dax i))) = ei_flags (KR_I i) /\
  forall k : nat, let n := Z.of_nat k in
    Z.testbit (i_flags (kr_set_inode_flags dax i)) n =
    let d := Z.testbit (ei_flags (KR_I i)) in
    if n =? 0 then d 3 else if n =? 1 then d 7 else if n =? 2 then d 5
    else if n =? 3 then d 4 else if n =? 6 then d 16
    else if n =? 13 then dax && S_ISREG (i_mode i) else Z.testbit (i_flags i) n.
Proof. split; [apply get_set_flags|]. intros k n. apply set_flags_bit. lia. Qed.

(** ** On the small file system *)

Lemma demo_inodes_ok : inodes_ok (core_of demo).
Proof.
  split; [split; [exact demo_core_ok|done|done]| |].
  - apply (upto_ind (accounted_inodes (core_of demo)) 2). repeat constructor; vm_compute; done.
  - intros ino Hi Hf. change (c_first_ino (core_of demo)) with 11 in Hf.
    assert (Hall : forall k, 0 <= k < 10 -> inode_used (core_of demo) (k + 1) = true)
      by (apply (upto_ind (fun k => inode_used (core_of demo) (k + 1) = true) 10); by repeat constructor).
    replace ino with (ino - 1 + 1) by lia. apply Hall. lia.
Qed.

Lemma demo_cached : cached_used (core_of demo).
Proof.
  intros ino. change (c_inodes (core_of demo)) with (fs_inodes demo). unfold demo. cbn [fs_inodes].
  intros [i Hi]. apply elem_of_list_to_map_2 in Hi.
  rewrite !elem_of_cons in Hi. destruct Hi as [[= -> ->]|[[= -> ->]|[[= -> ->]|[[= -> ->]|Hi]]]];
    [vm_compute; done..|]. by apply elem_of_nil in Hi.
Qed.

(** The directory new files are made in. *)
Definition demo_root : inode := demo_inode 2 (S_IFDIR + 493) None.

Lemma kr_new_inode_witness :
  runs (kr_new_inode demo_root (S_IFREG + 420)) only_panic
    (fun r fs' => forall ino, r = inr ino -> 11 <= ino <= 32 /\ inodes_ok (core_of fs')) demo.
Proof.
  eapply runs_mono.
  - apply (kr_new_inode_correct demo_root (S_IFREG + 420) demo);
      [exact demo_inodes_ok|exact demo_cached|vm_compute; done].
  - cbv beta. intros r fs' Hr ino ->. inversion Hr as [| | | |ino' i [Hrange _ Hok] _ Heq]; subst.
    change (c_first_ino (core_of demo)) with 11 in Hrange.
    change (c_ninodes (core_of demo)) with 32 in Hrange. split; [lia|done].
Defined.

Lemma kr_free_inode_witness :
  runs (kr_free_inode (demo_inode 13 (S_IFREG + 420) None)) only_panic
    (fun _ fs' => inodes_ok (core_of fs') /\ inode_used (core_of fs') 13 = false) demo.
Proof.
  eapply runs_mono.
  - apply (kr_free_inode_correct (demo_inode 13 (S_IFREG + 420) None) demo);
      [exact demo_inodes_ok|vm_compute; done].
  - cbv beta zeta. intros _ fs' [[H1 _ H2]|[_ [[Hbad|Hbad]|Hbad]]]; [|exfalso; by vm_compute in Hbad..].
    split; [done|]. rewrite H2; [reflexivity|vm_compute; done].
Defined.

Lemma make_and_free_witness :
  runs (make_and_free demo_root (S_IFREG + 420)) only_panic
    (fun done fs' => done = true -> s_freeinodes_counter (c_sbi (core_of fs')) = 17) demo.
Proof.
  eapply runs_mono.
  - apply (make_and_free_leaks demo_root (S_IFREG + 420) demo);
      [exact demo_inodes_ok|exact demo_cached|vm_compute; done|vm_compute; done|done].
  - cbv beta zeta. intros b fs' H Hb. by destruct (H Hb) as (_ & _ & ->).
Defined.

Lemma find_group_witness :
  Forall (fun find => exists r, find demo = Ret r demo /\ r <> -1)
    [find_group_dir demo_root; find_group_orlov demo_root; find_group_other demo_root].
Proof.
  eapply Forall_impl.
  - apply (find_group_correct demo demo_root); [exact demo_core_ok|done|vm_compute; done].
  - cbv beta. intros f (r & H1 & [[H2 _]|[-> H2]]); exists r || exists (-1); (split; [done|]); [lia|].
    specialize (H2 1 ltac:(done)). by vm_compute in H2.
Defined.

(** A file made in the root gets the first free inode of its group. *)
Example demo_new_inode :
  match kr_new_inode demo_root (S_IFREG + 420) demo with
  | Ret r fs' => r = inr 15 /\ s_freeinodes_counter (fs_sbi fs') = 17
  | Stop _ => False
  end.
Proof. vm_compute. done. Qed.
