(* ===== verification/BlockMap.v ===== *)
(** * The blocks of a file (inode.c)

    The tree of pointers from an inode to the blocks of its data: the path of a
    block, reading the chain of pointers along it, and allocating what is missing
    of it ([kr_get_blocks]). *)

From S2P Require Import Prelude Bits Kr Rsv Bitmap Alloc State Balloc.

(** The state of an inode in memory; [ino] names it. *)
Definition inode_get (ino : Z) : M krfs inode :=
  fs ← gets id;
  match fs_inodes fs !! ino with
  | Some i => mret i
  | None => halt Fault
  end.
Definition inode_upd (f : inode -> inode) (ino : Z) : M krfs unit :=
  modify (fun fs => set_fs_inodes (alter f ino (fs_inodes fs)) fs).

(** [KR_ADDR_PER_BLOCK] *)
Definition KR_ADDR_PER_BLOCK (fs : krfs) : Z := fs_blocksize fs / 4.

(** The flags of an inode, and of its file system, that ask for synchronous writes. *)
Definition IS_SYNC (fs : krfs) (i : inode) : bool :=
  has (fs_flags fs) MS_SYNCHRONOUS || has (i_flags i) S_SYNC.
Definition IS_DIRSYNC (fs : krfs) (i : inode) : bool :=
  has (fs_flags fs) (Z.lor MS_SYNCHRONOUS MS_DIRSYNC) || has (i_flags i) (Z.lor S_SYNC S_DIRSYNC).
Definition IS_DAX (i : inode) : bool := has (i_flags i) S_DAX.
Definition inode_needs_sync (fs : krfs) (i : inode) : bool :=
  IS_SYNC fs i || S_ISDIR (i_mode i) && IS_DIRSYNC fs i.

(** ** The path of a block *)

(** The offsets of the pointers (none when the block is out of range), and the
    number of blocks that follow in the last table. *)
Definition kr_block_to_path (ptrs ptrs_bits i_block : Z) : list Z * Z :=
  let direct_blocks := KR_NDIR_BLOCKS in
  let indirect_blocks := ptrs in
  let double_blocks := s32 (Z.shiftl 1 (ptrs_bits * 2)) in
  let boundary final b := final - 1 - Z.land b (ptrs - 1) in
  if i_block <? 0 then ([], boundary 0 i_block)
  else if i_block <? direct_blocks then ([i_block], boundary direct_blocks i_block)
  else
    let b := i_block - direct_blocks in
    if b <? indirect_blocks then ([KR_IND_BLOCK; b], boundary ptrs b)
    else
      let b := b - indirect_blocks in
      if b <? double_blocks then
        ([KR_DIND_BLOCK; Z.shiftr b ptrs_bits; Z.land b (ptrs - 1)], boundary ptrs b)
      else
        let b := b - double_blocks in
        if Z.shiftr b (ptrs_bits * 2) <? ptrs then
          ([KR_TIND_BLOCK; Z.shiftr b (ptrs_bits * 2);
            Z.land (Z.shiftr b ptrs_bits) (ptrs - 1); Z.land b (ptrs - 1)], boundary ptrs b)
        else ([], boundary 0 b).

(** ** Pointers *)

(** Where a block number is stored: in [i_data] of an inode, in the buffer of an
    indirect block, or in a variable of the caller. *)
Inductive slot :=
| InInode (ino n : Z)
| InBlock (b n : Z)
| Local (v : Z).

(** The slot [n] of the same table. *)
Definition slot_at (p : slot) (n : Z) : slot :=
  match p with
  | InInode ino _ => InInode ino n
  | InBlock b _ => InBlock b n
  | Local v => Local v
  end.
Definition slot_index (p : slot) : Z :=
  match p with InInode _ n | InBlock _ n => n | Local _ => 0 end.
(** [p + k] *)
Definition slot_add (p : slot) (k : Z) : slot := slot_at p (slot_index p + k).

Definition slot_get (p : slot) : M krfs Z :=
  match p with
  | InInode ino n =>
      i ← inode_get ino;
      if (n <? 0) || (n >=? len (i_data (KR_I i))) then halt Fault
      else mret (nth (Z.to_nat n) (i_data (KR_I i)) 0)
  | InBlock b n =>
      d ← buf_get b;
      if (n <? 0) || (4 * n + 4 >? len d) then halt Fault else mret (get32 d (4 * n))
  | Local v => mret v
  end.

Definition set_pointer (n v : Z) (i : inode) : inode :=
  set_KR_I (set_i_data (<[Z.to_nat n := u32 v]> (i_data (KR_I i))) (KR_I i)) i.

(** Clearing a variable nothing reads again does nothing. *)
Definition slot_set (p : slot) (v : Z) : M krfs unit :=
  match p with
  | InInode ino n =>
      i ← inode_get ino;
      if (n <? 0) || (n >=? len (i_data (KR_I i))) then halt Fault
      else inode_upd (set_pointer n v) ino
  | InBlock b n =>
      d ← buf_get b;
      if (n <? 0) || (4 * n + 4 >? len d) then halt Fault else buf_set b (put32 d (4 * n) v)
  | Local _ => mret tt
  end.

Record Indirect := Ind {
  ind_p : slot;
  ind_key : Z;
  ind_bh : option Z;
}.

Section Ops.
Context `{BitOps, RbTree, Trylock, Kernel}.

(** ** Reading a chain *)

Definition add_chain (bh : option Z) (v : slot) : M krfs Indirect :=
  key ← slot_get v; mret (Ind v key bh).

Fixpoint verify_chain (chain : list Indirect) : M krfs bool :=
  match chain with
  | [] => mret true
  | from :: rest =>
      v ← slot_get (ind_p from);
      if ind_key from =? v then verify_chain rest else mret false
  end.

(** How [kr_get_branch] ends: the chain it has filled, whether the whole branch was
    there ([NULL] is returned), and [*err]. *)
Definition branch_result : Type := list Indirect * bool * Z.

(** The loop: [p] is the last triple of [chain], its key not zero. *)
Fixpoint read_branch (offsets : list Z) (chain : list Indirect) (p : Indirect)
    : M krfs branch_result :=
  match offsets with
  | [] => mret (chain, true, 0)
  | offset :: offsets' =>
      bh ← sb_bread (ind_key p);
      match bh with
      | None => mret (chain, false, - EIO)
      | Some b =>
          same ← verify_chain chain;
          if negb same then mret (chain, false, - EAGAIN)
          else
            p ← add_chain (Some b) (InBlock b offset);
            let chain := chain ++ [p] in
            if ind_key p =? 0 then mret (chain, false, 0) else read_branch offsets' chain p
      end
  end.

Definition kr_get_branch (ino : Z) (offsets : list Z) : M krfs branch_result :=
  match offsets with
  | [] => halt Fault
  | offset :: offsets' =>
      p ← add_chain None (InInode ino offset);
      if ind_key p =? 0 then mret ([p], false, 0) else read_branch offsets' [p] p
  end.

(** ** The goal of an allocation *)

(** The last of the [n] first slots of the table of [p] that is not zero. *)
Fixpoint previous_block (n : nat) (p : slot) : M krfs Z :=
  match n with
  | O => mret 0
  | S n' =>
      v ← slot_get (slot_at p (Z.of_nat n'));
      if negb (v =? 0) then mret v else previous_block n' p
  end.

Definition kr_find_near (ino : Z) (ind : Indirect) : M krfs Z :=
  prev ← previous_block (Z.to_nat (slot_index (ind_p ind))) (ind_p ind);
  if negb (prev =? 0) then mret prev
  else
    match ind_bh ind with
    | Some b => mret b
    | None =>
        i ← inode_get ino;
        fs ← gets id;
        let bpg := s_blocks_per_group (fs_sbi fs) in
        let bg_start := kr_group_first_block_no bpg (es_first_data_block (fs_es fs))
                          (i_block_group (KR_I i)) in
        let colour := Z.rem current_pid 16 * (bpg / 16) in
        mret (u64 (bg_start + colour))
    end.

Definition kr_find_goal (ino block : Z) (partial : Indirect) : M krfs Z :=
  i ← inode_get ino;
  match i_block_alloc_info (KR_I i) with
  | Some block_i =>
      if (block =? u32 (last_alloc_logical_block block_i + 1))
         && negb (last_alloc_physical_block block_i =? 0)
      then mret (u64 (last_alloc_physical_block block_i + 1))
      else kr_find_near ino partial
  | None => kr_find_near ino partial
  end.

(** ** Allocating a branch *)

(** The zero pointers that follow [p], from [count] on. *)
Fixpoint count_zeroes (fuel : nat) (p : slot) (count blks blocks_to_boundary : Z) : M krfs Z :=
  match fuel with
  | O => halt OutOfFuel
  | S n =>
      if (count <? blks) && (count <=? blocks_to_boundary) then
        v ← slot_get (slot_add p count);
        if v =? 0 then count_zeroes n p (count + 1) blks blocks_to_boundary else mret count
      else mret count
  end.

Definition kr_blks_to_allocate (branch : Indirect) (k blks blocks_to_boundary : Z) : M krfs Z :=
  if k >? 0 then
    mret (if blks <? blocks_to_boundary + 1 then blks else blocks_to_boundary + 1)
  else
    count_zeroes (S (Z.to_nat blocks_to_boundary)) (ind_p branch) 1 blks blocks_to_boundary.

(** The inner [while]: the blocks [current_block], ... go to the indirect blocks
    that have none yet. *)
Definition give_indirect (indirect_blks : Z) (new_blocks : list Z) (current_block count : Z)
    : list Z * Z * Z :=
  let n := Z.min (indirect_blks - len new_blocks) count in
  (new_blocks ++ ((fun k => u64 (current_block + Z.of_nat k)) <$> seq 0 (Z.to_nat n)),
   u64 (current_block + Z.max 0 n), count - Z.max 0 n).

(** The first failed allocation frees the blocks of the others. *)
Fixpoint free_each (ino : Z) (blocks : list Z) : M krfs unit :=
  match blocks with
  | [] => mret tt
  | b :: rest => kr_free_blocks ino b 1 ;; free_each ino rest
  end.

(** One turn of the loop; the state is the target and the blocks so far. *)
Definition alloc_blocks_turn (ino goal indirect_blks : Z) (p : Z * list Z)
    : M krfs ((Z * list Z) + (list Z * Z * Z)) :=
  let '(target, new_blocks) := p in
  r ← kr_new_blocks ino goal target;
  let '(current_block, err, count) := r in
  if negb (err =? 0) then
    free_each ino new_blocks ;;
    when (negb (len new_blocks =? 0)) (log (mark_inode_dirty ino)) ;;
    mret (inr (new_blocks, 0, err))
  else
    let target := s32 (target - count) in
    let '(new_blocks, current_block, count) :=
      give_indirect indirect_blks new_blocks current_block count in
    if count >? 0 then mret (inr (new_blocks ++ [current_block], count, 0))
    else mret (inl (target, new_blocks)).

(** The answer is [new_blocks], the number of direct blocks, and [*err]. *)
Definition kr_alloc_blocks (ino goal indirect_blks blks : Z) : M krfs (list Z * Z * Z) :=
  loop (S (S (Z.to_nat indirect_blks))) (alloc_blocks_turn ino goal indirect_blks)
    (s32 (blks + indirect_blks), []).

(** The pointers to the blocks after the first one. *)
Fixpoint point_to_rest (p : slot) (i : Z) (n : nat) (current_block : Z) : M krfs unit :=
  match n with
  | O => mret tt
  | S n' =>
      let current_block := u64 (current_block + 1) in
      slot_set (slot_add p i) (u32 current_block) ;;
      point_to_rest p (i + 1) n' current_block
  end.

(** The loop over the indirect blocks, at the [n]th; [None] is the failure of
    [sb_getblk]. *)
Fixpoint build_branch (ino indirect_blks num : Z) (n : Z) (new_blocks offsets : list Z)
    (branch : list Indirect) : M krfs (list Indirect * bool) :=
  match new_blocks, offsets with
  | parent :: ((child :: _) as rest), offset :: offsets' =>
      if negb (sb_getblk_ok parent) then mret (branch, false)
      else
        fs ← gets id;
        buf_set parent (repeat 0 (Z.to_nat (fs_blocksize fs))) ;;
        let p := InBlock parent offset in
        slot_set p (u32 child) ;;
        when (n =? indirect_blks) (point_to_rest p 1 (Z.to_nat (num - 1)) child) ;;
        modify (fun fs => set_fs_uptodate (({[parent]} : gset Z) ∪ fs_uptodate fs) fs) ;;
        log (mark_buffer_dirty_inode (BufBlock parent) ino) ;;
        i ← inode_get ino;
        fs ← gets id;
        when (S_ISDIR (i_mode i) && IS_DIRSYNC fs i) (log (sync_dirty_buffer (BufBlock parent))) ;;
        build_branch ino indirect_blks num (n + 1) rest offsets'
          (branch ++ [Ind p (u32 child) (Some parent)])
  | _, _ => mret (branch, true)
  end.

(** [bforget] of the buffers of the branch that were made. *)
Fixpoint forget_branch (branch : list Indirect) : M krfs unit :=
  match branch with
  | [] => mret tt
  | i :: rest =>
      match ind_bh i with Some b => log (bforget b) | None => mret tt end ;;
      forget_branch rest
  end.

(** The answer is the error, the branch and the number of direct blocks; [offsets]
    are those of the triples after [first]. *)
Definition kr_alloc_branch (ino indirect_blks blks goal : Z) (offsets : list Z) (first : Indirect)
    : M krfs (Z * list Indirect * Z) :=
  r ← kr_alloc_blocks ino goal indirect_blks blks;
  let '(new_blocks, num, err) := r in
  if negb (err =? 0) then mret (err, [first], blks)
  else
    let top := Ind (ind_p first) (u32 (nth 0 new_blocks 0)) (ind_bh first) in
    r ← build_branch ino indirect_blks num 1 new_blocks offsets [top];
    let '(branch, ok) := r in
    if (ok : bool) then mret (0, branch, num)
    else
      forget_branch (tail branch) ;;
      free_each ino (take (Z.to_nat indirect_blks) new_blocks) ;;
      kr_free_blocks ino (nth (Z.to_nat indirect_blks) new_blocks 0) num ;;
      mret (- ENOMEM, branch, blks).

Definition kr_splice_branch (ino block : Z) (branch : list Indirect) (num blks : Z) : M krfs unit :=
  match branch with
  | [] => halt Fault
  | where_ :: _ =>
      slot_set (ind_p where_) (ind_key where_) ;;
      when ((num =? 0) && (blks >? 1))
        (point_to_rest (ind_p where_) 1 (Z.to_nat (blks - 1)) (ind_key where_)) ;;
      let last_key := ind_key (nth (Z.to_nat num) branch where_) in
      inode_upd (fun i => set_KR_I (set_i_block_alloc_info
        ((fun a => BlockAllocInfo (rsv_window_node a) (u32 (block + blks - 1))
                     (u64 (last_key + blks - 1))) <$> i_block_alloc_info (KR_I i)) (KR_I i)) i) ino ;;
      match ind_bh where_ with
      | Some b => log (mark_buffer_dirty_inode (BufBlock b) ino)
      | None => mret tt
      end ;;
      inode_upd (set_i_ctime current_time) ino ;;
      log (mark_inode_dirty ino)
  end.

(** ** Looking up and allocating blocks *)

(** The loop that maps more blocks; [None] is the [-EAGAIN] of a changed chain. *)
Fixpoint map_more (fuel : nat) (chain : list Indirect) (p : slot)
    (first_block count maxblocks blocks_to_boundary : Z) : M krfs (option Z) :=
  match fuel with
  | O => halt OutOfFuel
  | S n =>
      if (count <? maxblocks) && (count <=? blocks_to_boundary) then
        same ← verify_chain chain;
        if negb same then mret None
        else
          blk ← slot_get (slot_add p count);
          if blk =? u64 (first_block + count)
          then map_more n chain p first_block (count + 1) maxblocks blocks_to_boundary
          else mret (Some count)
      else mret (Some count)
  end.

Record mapped := Mapped {
  m_ret : Z;               (* the number of blocks, 0, or an error *)
  m_bno : option Z;        (* [*bno], when it is set *)
  m_new : bool;
  m_boundary : bool;
}.

Definition no_ind : Indirect := Ind (Local 0) 0 None.

(** The code from [got_it] on. *)
Definition got_it (chain : list Indirect) (count blocks_to_boundary : Z) (new : bool) : mapped :=
  Mapped count (if count >? 0 then Some (ind_key (List.last chain no_ind)) else None) new
    (count >? blocks_to_boundary).
(** [cleanup] with an error or 0 *)
Definition cleanup (err : Z) : mapped := Mapped err None false false.

(** The allocation, with [truncate_mutex] held: [chain] ends with the missing
    link. *)
Definition allocate_branch (ino iblock maxblocks blocks_to_boundary : Z) (offsets : list Z)
    (chain : list Indirect) : M krfs mapped :=
  i ← inode_get ino;
  fs ← gets id;
  when (S_ISREG (i_mode i) && negb (bool_decide (is_Some (i_block_alloc_info (KR_I i)))))
    (kr_init_block_alloc_info ino (kmalloc_addr (fs_rsv fs))) ;;
  let partial := List.last chain no_ind in
  goal ← kr_find_goal ino iblock partial;
  let indirect_blks := len offsets - len chain in
  count ← kr_blks_to_allocate partial indirect_blks maxblocks blocks_to_boundary;
  r ← kr_alloc_branch ino indirect_blks count goal (drop (length chain) offsets) partial;
  let '(err, branch, count) := r in
  if negb (err =? 0) then mret (cleanup err)
  else
    let chain := removelast chain ++ branch in
    let key := ind_key (List.last chain no_ind) in
    i ← inode_get ino;
    let dax_err := if IS_DAX i then sb_issue_zeroout key count else 0 in
    when (IS_DAX i)
      (for_ (Z.to_nat count) 0 (fun k => log (unmap_underlying_metadata (key + k))) ;;
       when (dax_err =? 0) (log (issue_zeroout key count))) ;;
    if negb (dax_err =? 0) then mret (cleanup dax_err)
    else
      kr_splice_branch ino iblock branch indirect_blks count ;;
      mret (got_it chain count blocks_to_boundary (negb (IS_DAX i))).

(** [other] is what other threads do to the file between the first look at the
    chain and [mutex_lock(&ei->truncate_mutex)]. *)
Definition kr_get_blocks (other : M krfs unit) (ino iblock maxblocks : Z) (create : bool)
    : M krfs mapped :=
  bug_on (maxblocks =? 0) ;;
  fs ← gets id;
  let '(offsets, blocks_to_boundary) :=
    kr_block_to_path (KR_ADDR_PER_BLOCK fs) (s_addr_per_block_bits (fs_sbi fs)) iblock in
  match offsets with
  | [] => mret (cleanup (- EIO))
  | _ =>
      r ← kr_get_branch ino offsets;
      let '(chain, found, err) := r in
      let partial := List.last chain no_ind in
      more ← (if found : bool
              then map_more (Z.to_nat (blocks_to_boundary + 2)) chain (ind_p partial)
                     (ind_key partial) 1 maxblocks blocks_to_boundary
              else mret (Some 0));
      match found, more with
      | true, Some count => mret (got_it chain count blocks_to_boundary false)
      | _, _ =>
          let err := if found then - EAGAIN else err in
          if negb create || (err =? - EIO) then mret (cleanup err)
          else
            other ;;
            same ← (if err =? - EAGAIN then mret false else verify_chain chain);
            r ← (if negb same then kr_get_branch ino offsets else mret (chain, false, err));
            let '(chain, found, err) := r in
            if (found : bool) then
              mret (if negb (err =? 0) then cleanup err
                    else got_it chain 1 blocks_to_boundary false)
            else allocate_branch ino iblock maxblocks blocks_to_boundary offsets chain
      end
  end.

(** [bh_result] after [kr_get_block]. *)
Record bh_result := BhResult {
  bh_blocknr : option Z;   (* when it is mapped *)
  bh_size : Z;
  bh_new : bool;
  bh_boundary : bool;
}.

Definition kr_get_block (other : M krfs unit) (ino iblock b_size : Z) (create : bool)
    : M krfs (Z * bh_result) :=
  fs ← gets id;
  let max_blocks := u32 (Z.shiftr b_size (fs_blocksize_bits fs)) in
  r ← kr_get_blocks other ino iblock max_blocks create;
  if m_ret r <=? 0 then mret (m_ret r, BhResult None b_size false false)
  else mret (0, BhResult (m_bno r) (Z.shiftl (m_ret r) (fs_blocksize_bits fs)) (m_new r)
                  (m_boundary r)).

End Ops.
