(* ===== verification/PathFacts.v ===== *)
(** * The path of a block is right

    The offsets [kr_block_to_path] answers are in the range of their tables and
    determine the block; the blocks up to the boundary follow in the same table. *)

From S2P Require Import Prelude Kr Rsv State BlockMap.

(** The number of blocks a file can have. *)
Definition max_file_blocks (ptrs : Z) : Z := KR_NDIR_BLOCKS + ptrs + ptrs * ptrs + ptrs * ptrs * ptrs.

(** The offsets of a path: the slots of the inode say how many tables follow. *)
Definition path_ok (ptrs : Z) (offsets : list Z) : Prop :=
  match offsets with
  | [a] => 0 <= a < KR_NDIR_BLOCKS
  | [t; a] => t = KR_IND_BLOCK /\ 0 <= a < ptrs
  | [t; a; b] => t = KR_DIND_BLOCK /\ 0 <= a < ptrs /\ 0 <= b < ptrs
  | [t; a; b; c] => t = KR_TIND_BLOCK /\ 0 <= a < ptrs /\ 0 <= b < ptrs /\ 0 <= c < ptrs
  | _ => False
  end.

(** The block a path leads to. *)
Definition path_block (ptrs : Z) (offsets : list Z) : Z :=
  match offsets with
  | [a] => a
  | [_; a] => KR_NDIR_BLOCKS + a
  | [_; a; b] => KR_NDIR_BLOCKS + ptrs + a * ptrs + b
  | [_; a; b; c] => KR_NDIR_BLOCKS + ptrs + ptrs * ptrs + a * (ptrs * ptrs) + b * ptrs + c
  | _ => -1
  end.

(** The size of the table the last offset points into. *)
Definition last_table (ptrs : Z) (offsets : list Z) : Z :=
  match offsets with [_] => KR_NDIR_BLOCKS | _ => ptrs end.

Section Path.
Variables ptrs bits : Z.
Hypothesis Hbits : 8 <= bits <= 10.
Hypothesis Hptrs : ptrs = 2 ^ bits.

Lemma ptrs_range : 256 <= ptrs <= 1024.
Proof.
  rewrite Hptrs. assert (2 ^ 8 <= 2 ^ bits) by (apply Z.pow_le_mono_r; lia).
  assert (2 ^ bits <= 2 ^ 10) by (apply Z.pow_le_mono_r; lia). lia.
Qed.

Lemma land_ptrs b : 0 <= b -> Z.land b (ptrs - 1) = b mod ptrs.
Proof.
  intros Hb. rewrite Hptrs. replace (2 ^ bits - 1) with (Z.ones bits) by (rewrite Z.ones_equiv; lia).
  apply Z.land_ones. lia.
Qed.
Lemma shiftr_ptrs b : Z.shiftr b bits = b / ptrs.
Proof. rewrite Hptrs. apply Z.shiftr_div_pow2. lia. Qed.
Lemma shiftr_ptrs2 b : Z.shiftr b (bits * 2) = b / (ptrs * ptrs).
Proof. rewrite Hptrs. rewrite Z.shiftr_div_pow2 by lia. rewrite <- Z.pow_add_r by lia. do 2 f_equal. lia. Qed.
Lemma double_blocks : s32 (Z.shiftl 1 (bits * 2)) = ptrs * ptrs.
Proof.
  pose proof ptrs_range. rewrite Z.shiftl_mul_pow2 by lia.
  replace (2 ^ (bits * 2)) with (ptrs * ptrs).
  - rewrite s32_small; nia.
  - rewrite Hptrs, <- Z.pow_add_r by lia. f_equal. lia.
Qed.

(** The arithmetic of the tables. *)
Lemma split2 b : 0 <= b < ptrs * ptrs -> 0 <= b / ptrs < ptrs /\ 0 <= b mod ptrs < ptrs /\
  b = b / ptrs * ptrs + b mod ptrs.
Proof.
  intros Hb. pose proof ptrs_range. pose proof (Z.div_mod b ptrs ltac:(lia)).
  pose proof (Z.mod_pos_bound b ptrs ltac:(lia)).
  split; [|lia]. split; [apply Z.div_pos; lia|]. apply Z.div_lt_upper_bound; lia.
Qed.
Lemma split3 b : 0 <= b < ptrs * ptrs * ptrs ->
  0 <= b / (ptrs * ptrs) < ptrs /\ 0 <= (b / ptrs) mod ptrs < ptrs /\ 0 <= b mod ptrs < ptrs /\
  b = b / (ptrs * ptrs) * (ptrs * ptrs) + (b / ptrs) mod ptrs * ptrs + b mod ptrs.
Proof.
  intros Hb. pose proof ptrs_range. pose proof (Z.div_mod b ptrs ltac:(lia)) as H1.
  pose proof (Z.mod_pos_bound b ptrs ltac:(lia)).
  pose proof (Z.div_mod (b / ptrs) ptrs ltac:(lia)) as H2.
  pose proof (Z.mod_pos_bound (b / ptrs) ptrs ltac:(lia)).
  rewrite Z.div_div in H2 by lia.
  split; [|nia]. split; [apply Z.div_pos; nia|]. apply Z.div_lt_upper_bound; nia.
Qed.

(** In range, the path leads to the block, and the boundary counts the slots that
    follow in the last table. *)
Lemma block_to_path_in i : 0 <= i < max_file_blocks ptrs ->
  let '(offsets, boundary) := kr_block_to_path ptrs bits i in
  path_ok ptrs offsets /\ path_block ptrs offsets = i /\
  boundary = last_table ptrs offsets - 1 - List.last offsets 0.
Proof.
  intros Hi. pose proof ptrs_range as Hp. unfold max_file_blocks in Hi.
  unfold kr_block_to_path. rewrite double_blocks. cbv zeta.
  change KR_NDIR_BLOCKS with 12 in *.
  destruct (Z.ltb_spec i 0); [lia|]. destruct (Z.ltb_spec i 12).
  { cbn. change KR_NDIR_BLOCKS with 12. rewrite land_ptrs, Z.mod_small by lia. lia. }
  destruct (Z.ltb_spec (i - 12) ptrs).
  { cbn. change KR_NDIR_BLOCKS with 12. rewrite land_ptrs, Z.mod_small by lia. lia. }
  destruct (Z.ltb_spec (i - 12 - ptrs) (ptrs * ptrs)).
  { cbn. change KR_NDIR_BLOCKS with 12. rewrite land_ptrs, shiftr_ptrs by lia.
    destruct (split2 (i - 12 - ptrs) ltac:(lia)) as (H3 & H4 & H5). lia. }
  set (b := i - 12 - ptrs - ptrs * ptrs). assert (0 <= b < ptrs * ptrs * ptrs) as Hb by (unfold b; lia).
  destruct (split3 b Hb) as (H3 & H4 & H5 & H6). rewrite shiftr_ptrs2.
  replace (b / (ptrs * ptrs) <? ptrs) with true by lia.
  cbn. change KR_NDIR_BLOCKS with 12. rewrite shiftr_ptrs. rewrite !land_ptrs; [|lia|apply Z.div_pos; lia].
  split; [lia|]. split; [unfold b in *; lia|lia].
Qed.

Lemma block_to_path_out i : i < 0 \/ max_file_blocks ptrs <= i ->
  (kr_block_to_path ptrs bits i).1 = [].
Proof.
  intros Hi. pose proof ptrs_range as Hp. unfold max_file_blocks in Hi.
  unfold kr_block_to_path. rewrite double_blocks. cbv zeta. change KR_NDIR_BLOCKS with 12 in *.
  destruct (Z.ltb_spec i 0); [done|]. destruct Hi as [|Hi]; [lia|].
  destruct (Z.ltb_spec i 12); [nia|].
  destruct (Z.ltb_spec (i - 12) ptrs); [nia|].
  destruct (Z.ltb_spec (i - 12 - ptrs) (ptrs * ptrs)); [nia|].
  rewrite shiftr_ptrs2. destruct (Z.ltb_spec ((i - 12 - ptrs - ptrs * ptrs) / (ptrs * ptrs)) ptrs); [|done].
  assert (ptrs <= (i - 12 - ptrs - ptrs * ptrs) / (ptrs * ptrs)); [|lia].
  apply Z.div_le_lower_bound; nia.
Qed.

(** A path determines its block, and a block its path. *)
Lemma path_block_range offsets : path_ok ptrs offsets -> 0 <= path_block ptrs offsets < max_file_blocks ptrs.
Proof.
  pose proof ptrs_range. unfold max_file_blocks. change KR_NDIR_BLOCKS with 12.
  destruct offsets as [|a [|b [|c [|d [|]]]]]; simpl; change KR_NDIR_BLOCKS with 12; try done; nia.
Qed.

Lemma path_block_inj o1 o2 : path_ok ptrs o1 -> path_ok ptrs o2 ->
  path_block ptrs o1 = path_block ptrs o2 -> o1 = o2.
Proof.
  pose proof ptrs_range as Hp.
  assert (Hdiv : forall a b c d, 0 <= b < ptrs -> 0 <= d < ptrs -> a * ptrs + b = c * ptrs + d -> a = c /\ b = d)
    by (intros; assert (a = c) by nia; lia).
  destruct o1 as [|a1 [|b1 [|c1 [|d1 [|]]]]], o2 as [|a2 [|b2 [|c2 [|d2 [|]]]]];
    simpl; change KR_NDIR_BLOCKS with 12; try done; intros H1 H2 He.
  1, 6, 11, 16: idtac.
  all: try (exfalso; nia).
  - congruence.
  - f_equal; [lia|]. f_equal. lia.
  - destruct H1 as (-> & H3 & H4), H2 as (-> & H5 & H6).
    destruct (Hdiv b1 c1 b2 c2) as [-> ->]; [lia..|done].
  - destruct H1 as (-> & H3 & H4 & H5), H2 as (-> & H6 & H7 & H8).
    destruct (Hdiv (b1 * ptrs + c1) d1 (b2 * ptrs + c2) d2) as [Hbc ->]; [lia|lia|lia|].
    destruct (Hdiv b1 c1 b2 c2) as [-> ->]; [lia..|done].
Qed.

(** The paths up to the boundary differ in the last offset only. *)
Lemma path_next i k offsets boundary : 0 <= i < max_file_blocks ptrs ->
  kr_block_to_path ptrs bits i = (offsets, boundary) -> 0 <= k <= boundary ->
  (kr_block_to_path ptrs bits (i + k)).1 = removelast offsets ++ [List.last offsets 0 + k].
Proof.
  intros Hi Hpath Hk. pose proof (block_to_path_in i Hi) as Hin. rewrite Hpath in Hin.
  destruct Hin as (Hok & Hblk & Hbd).
  set (o' := removelast offsets ++ [List.last offsets 0 + k]).
  assert (path_ok ptrs o' /\ path_block ptrs o' = i + k) as [Hok' Hblk'].
  { unfold o'. destruct offsets as [|a [|b [|c [|d [|]]]]]; simpl in *; try done;
      change KR_NDIR_BLOCKS with 12 in *; lia. }
  assert (0 <= i + k < max_file_blocks ptrs) as Hik by (rewrite <- Hblk'; by apply path_block_range).
  pose proof (block_to_path_in (i + k) Hik) as Hin'.
  destruct (kr_block_to_path ptrs bits (i + k)) as [o2 b2]. destruct Hin' as (Hok2 & Hblk2 & _).
  cbn [fst]. apply path_block_inj; [done..|]. lia.
Qed.

End Path.
