(* ===== verification/BlockMapFacts.v ===== *)
(** * Looking up the blocks of a file

    The tree of pointers as a function from paths to block numbers, and the proofs
    that [kr_get_branch] and a plain look-up of [kr_get_blocks] read it. *)

From S2P Require Import Prelude Bits Kr Rsv Bitmap Alloc State Balloc BallocFacts BlockMap PathFacts.

(** ** The tree *)

(** The pointer [n] of the indirect block [b]. *)
Definition table (c : core) (b n : Z) : Z := get32 (default [] (c_bufs c !! b)) (4 * n).

Fixpoint walk (c : core) (v : Z) (offsets : list Z) : Z :=
  match offsets with
  | [] => v
  | o :: rest => if v =? 0 then 0 else walk c (table c v o) rest
  end.

(** The block at the end of a path from the inode [i], 0 for a hole. *)
Definition tree (c : core) (i : inode) (offsets : list Z) : Z :=
  match offsets with
  | [] => 0
  | o :: rest => walk c (nth (Z.to_nat o) (i_data (KR_I i)) 0) rest
  end.

(** The indirect block [b] is in the buffers. *)
Definition indirect_ok (c : core) (b : Z) : Prop :=
  exists d, c_bufs c !! b = Some d /\ len d = 2 ^ c_bits c /\ bytes d.

(** The pointers of an inode are 32-bit numbers, and its indirect blocks are blocks. *)
Record file_ok (c : core) (ino : Z) (i : inode) : Prop := {
  fk_inode : c_inodes c !! ino = Some i;
  fk_len : len (i_data (KR_I i)) = KR_N_BLOCKS;
  fk_range : Forall (fun v => 0 <= v < 4294967296) (i_data (KR_I i));
  fk_tables : forall pre, pre <> [] -> (exists o, path_ok (2 ^ (c_bits c - 2)) (pre ++ o) /\ o <> []) ->
    tree c i pre <> 0 -> indirect_ok c (tree c i pre);
}.

(** The slot that holds the last pointer of a path. *)
Definition leaf_slot (c : core) (ino : Z) (i : inode) (offsets : list Z) : slot :=
  match removelast offsets with
  | [] => InInode ino (List.last offsets 0)
  | pre => InBlock (tree c i pre) (List.last offsets 0)
  end.

(** The value of a slot. *)
Definition slot_val (c : core) (p : slot) : option Z :=
  match p with
  | InInode ino n =>
      i ← c_inodes c !! ino;
      if (n <? 0) || (n >=? len (i_data (KR_I i))) then None
      else Some (nth (Z.to_nat n) (i_data (KR_I i)) 0)
  | InBlock b n =>
      d ← c_bufs c !! b;
      if (n <? 0) || (4 * n + 4 >? len d) then None else Some (get32 d (4 * n))
  | Local v => Some v
  end.

Definition chain_ok (c : core) (chain : list Indirect) : Prop :=
  Forall (fun p => slot_val c (ind_p p) = Some (ind_key p)) chain.

(** The buffer of the table a slot is in. *)
Definition slot_bh (p : slot) : option Z := match p with InBlock b _ => Some b | _ => None end.

(** The chain follows the path [pre]. *)
Record chain_at (c : core) (ino : Z) (i : inode) (pre : list Z) (chain : list Indirect) : Prop := {
  ca_some : chain <> [];
  ca_len : length chain = length pre;
  ca_ok : chain_ok c chain;
  ca_key : ind_key (List.last chain no_ind) = tree c i pre;
  ca_slot : ind_p (List.last chain no_ind) = leaf_slot c ino i pre;
  ca_links : forall k p, chain !! k = Some p ->
    ind_p p = leaf_slot c ino i (take (S k) pre) /\ ind_bh p = slot_bh (ind_p p);
}.

Lemma walk_snoc c offsets o : forall v, walk c v (offsets ++ [o]) =
  let b := walk c v offsets in if b =? 0 then 0 else table c b o.
Proof.
  induction offsets as [|o' rest IH]; intros v; cbn [walk app]; [done|].
  destruct (Z.eqb_spec v 0); [done|apply IH].
Qed.
Lemma tree_snoc c i pre o : pre <> [] -> tree c i (pre ++ [o]) =
  let b := tree c i pre in if b =? 0 then 0 else table c b o.
Proof. destruct pre as [|o' rest]; [done|]. intros _. apply walk_snoc. Qed.
Lemma walk_app_zero c o2 : forall o1 v, walk c v o1 = 0 -> walk c v (o1 ++ o2) = 0.
Proof.
  induction o1 as [|o rest IH]; intros v; cbn [walk app].
  - intros ->. by destruct o2.
  - destruct (Z.eqb_spec v 0); [done|apply IH].
Qed.
Lemma tree_app_zero c i o1 o2 : o1 <> [] -> tree c i o1 = 0 -> tree c i (o1 ++ o2) = 0.
Proof. destruct o1; [done|]. intros _. apply walk_app_zero. Qed.

Lemma leaf_snoc c ino i pre o : pre <> [] ->
  leaf_slot c ino i (pre ++ [o]) = InBlock (tree c i pre) o.
Proof. intros Hp. unfold leaf_slot. rewrite removelast_last, last_last. by destruct pre. Qed.

Lemma inode_get_run ino i fs : fs_inodes fs !! ino = Some i -> inode_get ino fs = Ret i fs.
Proof. intros Hi. unfold inode_get, mbind, M_bind, gets. cbn [id]. by rewrite Hi. Qed.

Section Reads.
Context {B : BitOps} {BL : BitLaws B} {R : RbTree} {RL : RbLaws R} {T : Trylock} {K : Kernel}.
Variable E : stop -> Prop.

Lemma slot_get_run p v fs : slot_val (core_of fs) p = Some v -> slot_get p fs = Ret v fs.
Proof.
  destruct p as [ino n|b n|v']; cbn [slot_val slot_get]; [| |by intros [= ->]].
  - change (c_inodes (core_of fs)) with (fs_inodes fs). intros Hv.
    unfold inode_get, mbind, M_bind, gets. cbn [id].
    destruct (fs_inodes fs !! ino) as [i|]; [|done]. cbn in *. destruct (_ || _); [done|]. by injection Hv as ->.
  - change (c_bufs (core_of fs)) with (fs_bufs fs). intros Hv.
    unfold buf_get, mbind, M_bind, gets. cbn [id].
    destruct (fs_bufs fs !! b) as [d|]; [|done]. cbn in *. destruct (_ || _); [done|]. by injection Hv as ->.
Qed.

Lemma add_chain_run bh p v fs : slot_val (core_of fs) p = Some v -> add_chain bh p fs = Ret (Ind p v bh) fs.
Proof. intros Hv. unfold add_chain. by rewrite (bind_Ret _ _ _ _ _ (slot_get_run _ _ _ Hv)). Qed.

(** Nothing else runs while a chain is read: it is as it was. *)
Lemma verify_chain_run chain fs : chain_ok (core_of fs) chain -> verify_chain chain fs = Ret true fs.
Proof.
  intros Hc. induction Hc as [|p chain Hp _ IH]; cbn [verify_chain]; [done|].
  rewrite (bind_Ret _ _ _ _ _ (slot_get_run _ _ _ Hp)). by rewrite Z.eqb_refl.
Qed.

Lemma sb_bread_spec b fs : runs (sb_bread b) E (fun r fs' => core_of fs' = core_of fs /\
  (r = Some b \/ r = None /\ bh_read_ok b = false)) fs.
Proof.
  unfold sb_bread, buffer_uptodate, bh_submit_read. step. step. step; [step; by auto|].
  step. destruct (bh_read_ok b) eqn:Hr; steps; by auto.
Qed.

(** What [kr_get_branch] answers on the path [offsets]. *)
Definition branch_read (c : core) (ino : Z) (i : inode) (offsets : list Z) (r : branch_result) : Prop :=
  let '(chain, found, err) := r in
  exists pre rest, offsets = pre ++ rest /\ pre <> [] /\ chain_at c ino i pre chain /\
    if found : bool then rest = [] /\ err = 0 /\ tree c i pre <> 0
    else err = 0 /\ tree c i pre = 0 /\ (removelast pre <> [] -> tree c i (removelast pre) <> 0) \/
         err = - EIO /\ rest <> [] /\ tree c i pre <> 0 /\ bh_read_ok (tree c i pre) = false.

Lemma table_slot fs b o : indirect_ok (core_of fs) b -> 0 <= o < 2 ^ (fs_blocksize_bits fs - 2) ->
  10 <= fs_blocksize_bits fs -> slot_val (core_of fs) (InBlock b o) = Some (table (core_of fs) b o).
Proof.
  intros (d & Hd & Hl & _) Ho Hb. unfold slot_val, table. rewrite Hd. cbn [mbind option_bind default].
  assert (2 ^ c_bits (core_of fs) = 4 * 2 ^ (fs_blocksize_bits fs - 2)) as Hp.
  { change (c_bits (core_of fs)) with (fs_blocksize_bits fs).
    replace (fs_blocksize_bits fs) with (2 + (fs_blocksize_bits fs - 2)) at 1 by lia.
    rewrite Z.pow_add_r by lia. lia. }
  replace ((o <? 0) || (4 * o + 4 >? len d)) with false by lia. done.
Qed.

(** The offsets of a path after the first are in the range of a table. *)
Lemma path_tail_range ptrs pre o rest : pre <> [] -> path_ok ptrs (pre ++ o :: rest) -> 0 <= o < ptrs.
Proof.
  intros Hp Hok. destruct pre as [|a [|b [|c [|d pre]]]]; [done| | | |];
    destruct rest as [|e [|f [|g rest]]]; simpl in Hok; try (destruct pre; simpl in Hok); try done; lia.
Qed.

Section File.
Variables (ino : Z) (i : inode) (offsets : list Z).

Lemma read_branch_spec c : file_ok c ino i -> 10 <= c_bits c ->
  (exists z, path_ok (2 ^ (c_bits c - 2)) (offsets ++ z)) -> forall rest pre chain fs, core_of fs = c -> offsets = pre ++ rest -> pre <> [] ->
  chain_at c ino i pre chain -> tree c i pre <> 0 ->
  runs (read_branch rest chain (List.last chain no_ind)) E
    (fun r fs' => core_of fs' = c /\ branch_read c ino i offsets r) fs.
Proof.
  intros Hf Hbits [z Hpath]. induction rest as [|o rest IH]; intros pre chain fs Hfs Hoff Hpre Hch Hkey.
  { cbn [read_branch]. step. split; [done|]. exists pre, []. by rewrite Hoff. }
  cbn [read_branch]. step. rewrite (ca_key _ _ _ _ _ Hch).
  eapply runs_mono; [apply sb_bread_spec|]. cbv beta. rewrite Hfs.
  intros r fs1 [Hfs1 [->|[-> Hbad]]]; cbv iota.
  2: { step. split; [done|]. exists pre, (o :: rest). split_and!; [done|done|done|]. right. by split_and!. }
  step. run verify_chain_run; [rewrite Hfs1; apply Hch|]. cbn [negb]. step.
  rewrite Hoff, <- app_assoc in Hpath. pose proof (path_tail_range _ _ _ _ Hpre Hpath) as Ho.
  assert (slot_val (core_of fs1) (InBlock (tree c i pre) o) = Some (table (core_of fs1) (tree c i pre) o)) as Hslot.
  { assert (fs_blocksize_bits fs1 = c_bits c) as Hbb by (by rewrite <- Hfs1).
    apply table_slot; rewrite ?Hfs1, ?Hbb; [|done..].
    apply (fk_tables _ _ _ Hf pre Hpre); [by exists ((o :: rest) ++ z)|done]. }
  run (add_chain_run _ _ _ _ Hslot). rewrite Hfs1 in *.
  set (p := Ind _ _ _). change (ind_key p) with (table c (tree c i pre) o).
  assert (tree c i (pre ++ [o]) = table c (tree c i pre) o) as Htree.
  { rewrite tree_snoc by done. cbv zeta. by replace (tree c i pre =? 0) with false by lia. }
  assert (chain_at c ino i (pre ++ [o]) (chain ++ [p])) as Hch'.
  { destruct Hch as [H1 H2 H3 H4 H5 H6]. split.
    - by destruct chain.
    - rewrite !length_app, H2. done.
    - apply Forall_app. split; [done|]. by repeat constructor.
    - rewrite last_last. by rewrite Htree.
    - rewrite last_last. by rewrite leaf_snoc.
    - intros k q Hq. apply lookup_app_Some in Hq as [Hq|[Hk Hq]].
      + rewrite take_app_le by (apply lookup_lt_Some in Hq; lia). by apply H6.
      + apply list_lookup_singleton_Some in Hq as [Hk0 <-]. rewrite take_ge by (rewrite length_app; simpl; lia).
        by rewrite leaf_snoc. }
  assert (pre ++ [o] <> []) as Hne by by destruct pre.
  assert (offsets = (pre ++ [o]) ++ rest) as Hoff' by (by rewrite <- app_assoc).
  destruct (Z.eqb_spec (table c (tree c i pre) o) 0) as [Hz|Hnz].
  - step. split; [done|]. exists (pre ++ [o]), rest. split_and!; [done|done|done|]. left.
    rewrite Htree, removelast_last. done.
  - pose proof (IH (pre ++ [o]) (chain ++ [p]) fs1 Hfs1 Hoff' Hne Hch') as Hrest.
    rewrite last_last, Htree in Hrest. by apply Hrest.
Qed.

(** Reading the beginning of a path. *)
Lemma kr_get_branch_stem c fs : file_ok c ino i -> 10 <= c_bits c -> offsets <> [] ->
  (exists z, path_ok (2 ^ (c_bits c - 2)) (offsets ++ z)) -> core_of fs = c ->
  runs (kr_get_branch ino offsets) E (fun r fs' => core_of fs' = c /\ branch_read c ino i offsets r) fs.
Proof.
  intros Hf Hbits Hne Hpath Hfs. unfold kr_get_branch. destruct offsets as [|o rest] eqn:Ho; [done|].
  assert (0 <= o < KR_N_BLOCKS) as Hrange.
  { change KR_N_BLOCKS with 15. destruct Hpath as [z Hz]. simpl in Hz.
    destruct (rest ++ z) as [|? [|? [|? [|]]]]; simpl in Hz; try done;
      unfold KR_TIND_BLOCK, KR_DIND_BLOCK, KR_IND_BLOCK, KR_NDIR_BLOCKS in Hz; lia. }
  assert (slot_val (core_of fs) (InInode ino o) = Some (nth (Z.to_nat o) (i_data (KR_I i)) 0)) as Hslot.
  { rewrite Hfs. cbn [slot_val]. rewrite (fk_inode _ _ _ Hf). cbn [mbind option_bind].
    rewrite (fk_len _ _ _ Hf). by replace ((o <? 0) || (o >=? KR_N_BLOCKS)) with false by lia. }
  step. run (add_chain_run _ _ _ _ Hslot).
  set (p := Ind _ _ _). change (ind_key p) with (nth (Z.to_nat o) (i_data (KR_I i)) 0).
  assert (chain_at c ino i [o] [p]) as Hch.
  { split; try done; [repeat constructor; by rewrite <- Hfs|]. by intros k q [-> <-]%list_lookup_singleton_Some. }
  destruct (Z.eqb_spec (nth (Z.to_nat o) (i_data (KR_I i)) 0) 0) as [Hz|Hnz].
  - step. split; [done|]. exists [o], rest. split_and!; [done|done|done|]. by left.
  - rewrite <- Ho. change p with (List.last [p] no_ind) at 2.
    apply (read_branch_spec c Hf Hbits ltac:(by rewrite Ho) rest [o] [p]); try done.
Qed.

Lemma kr_get_branch_spec c fs : file_ok c ino i -> 10 <= c_bits c ->
  path_ok (2 ^ (c_bits c - 2)) offsets -> core_of fs = c ->
  runs (kr_get_branch ino offsets) E (fun r fs' => core_of fs' = c /\ branch_read c ino i offsets r) fs.
Proof.
  intros Hf Hbits Hpath. apply kr_get_branch_stem; [done|done|by intros He; rewrite He in Hpath|].
  exists []. by rewrite app_nil_r.
Qed.

(** The pointers next to the last one of the path. *)
Lemma next_slot c k : file_ok c ino i -> 10 <= c_bits c -> 0 <= k ->
  let ptrs := 2 ^ (c_bits c - 2) in
  path_ok ptrs offsets -> List.last offsets 0 + k < last_table ptrs offsets ->
  (removelast offsets <> [] -> tree c i (removelast offsets) <> 0) ->
  let o' := removelast offsets ++ [List.last offsets 0 + k] in
  slot_val c (slot_add (leaf_slot c ino i offsets) k) = Some (tree c i o') /\
  0 <= tree c i o' < 4294967296.
Proof.
  intros Hf Hbits Hk ptrs Hok Hlt Hpre o'.
  assert (offsets <> []) as Hne by (by destruct offsets).
  pose proof (app_removelast_last 0 Hne) as Hsplit. unfold leaf_slot, o'.
  set (pre := removelast offsets) in *. set (l := List.last offsets 0) in *.
  destruct pre as [|p0 pre'] eqn:Hp.
  - cbn [app] in *. rewrite Hsplit in Hok, Hlt. cbn in Hok, Hlt. change KR_NDIR_BLOCKS with 12 in *.
    pose proof (fk_len _ _ _ Hf) as Hl. change KR_N_BLOCKS with 15 in Hl.
    cbn [slot_add slot_at slot_index slot_val]. rewrite (fk_inode _ _ _ Hf). cbn [mbind option_bind].
    rewrite Hl. replace ((l + k <? 0) || (l + k >=? 15)) with false by lia.
    split; [done|]. cbn [tree walk]. unfold len in Hl.
    pose proof (fk_range _ _ _ Hf) as Hr. rewrite Forall_forall in Hr. apply Hr.
    rewrite nth_lookup. destruct (i_data (KR_I i) !! Z.to_nat (l + k)) as [v|] eqn:Hv.
    + simpl. by eapply list_elem_of_lookup_2.
    + apply lookup_ge_None in Hv. lia.
  - rewrite <- Hp in *. assert (pre <> []) as Hpne by (by rewrite Hp).
    specialize (Hpre Hpne). rewrite Hsplit in Hok.
    assert (0 <= l < ptrs) as Hl by (by apply (path_tail_range ptrs pre l [] Hpne)).
    assert (last_table ptrs offsets = ptrs) as Hlast.
    { rewrite Hsplit. rewrite Hp. by destruct pre'. }
    rewrite Hlast in Hlt. rewrite tree_snoc by done. cbv zeta.
    replace (tree c i pre =? 0) with false by lia.
    assert (indirect_ok c (tree c i pre)) as Hind
      by (apply (fk_tables _ _ _ Hf pre Hpne); [by exists [l]|done]).
    cbn [slot_add slot_at slot_index]. destruct Hind as (d & Hd & Hlen & Hby).
    unfold slot_val, table. rewrite Hd. cbn [mbind option_bind default]. split; [|by apply get32_bytes].
    assert (2 ^ c_bits c = 4 * ptrs) as Hpw.
    { unfold ptrs. replace (c_bits c) with (2 + (c_bits c - 2)) at 1 by lia. rewrite Z.pow_add_r by lia. lia. }
    by replace ((l + k <? 0) || (4 * (l + k) + 4 >? len d)) with false by lia.
Qed.

(** Mapping more blocks stops at the first one that does not follow. *)
Lemma map_more_spec c chain maxblocks boundary : file_ok c ino i -> 10 <= c_bits c ->
  let ptrs := 2 ^ (c_bits c - 2) in
  path_ok ptrs offsets -> boundary = last_table ptrs offsets - 1 - List.last offsets 0 ->
  boundary < 4096 ->
  (removelast offsets <> [] -> tree c i (removelast offsets) <> 0) -> chain_ok c chain ->
  let bno := tree c i offsets in let next k := removelast offsets ++ [List.last offsets 0 + k] in
  forall fuel count fs, core_of fs = c -> 1 <= count -> boundary + 1 - count < Z.of_nat fuel ->
  count <= maxblocks -> count <= boundary + 1 ->
  (forall k, 0 <= k < count -> tree c i (next k) = bno + k) ->
  runs (map_more fuel chain (leaf_slot c ino i offsets) bno count maxblocks boundary) E
    (fun r fs' => core_of fs' = c /\ exists n, r = Some n /\ count <= n <= maxblocks /\
       n <= boundary + 1 /\ forall k, 0 <= k < n -> tree c i (next k) = bno + k) fs.
Proof.
  intros Hf Hbits ptrs Hok Hbd Hbd2 Hpre Hch bno next.
  induction fuel as [|fuel IH]; intros count fs Hfs Hc1 Hfuel Hmax Hb1 Hall; [lia|].
  cbn [map_more]. destruct ((count <? maxblocks) && (count <=? boundary)) eqn:Hgo.
  2: { step. split; [done|]. exists count. split_and!; [done|lia|lia|lia|done]. }
  step. run verify_chain_run; [by rewrite Hfs|]. cbn [negb]. step.
  destruct (next_slot c count Hf Hbits ltac:(lia) Hok ltac:(fold ptrs; lia) Hpre) as [Hslot Hrange].
  fold (next count) in Hslot, Hrange. rewrite <- Hfs in Hslot at 1. run (slot_get_run _ _ _ Hslot).
  destruct (next_slot c 0 Hf Hbits ltac:(lia) Hok ltac:(fold ptrs; lia) Hpre) as [_ Hr0].
  fold (next 0) in Hr0. rewrite Hall in Hr0 by lia.
  rewrite u64_small by lia. destruct (Z.eqb_spec (tree c i (next count)) (bno + count)) as [He|Hne].
  - eapply runs_mono; [apply (IH (count + 1)); try done; try lia|].
    + intros k Hk. destruct (decide (k = count)) as [->|]; [done|]. apply Hall. lia.
    + cbv beta. intros r fs' (H1 & n & H2 & H3 & H4). split; [done|]. exists n. split_and!; [done|lia|lia|lia|apply H4].
  - step. split; [done|]. exists count. split_and!; [done|lia|lia|lia|done].
Qed.

End File.

(** What a look-up of the blocks from [iblock] on answers. *)
Definition looked_up (c : core) (bits : Z) (i : inode) (iblock maxblocks : Z) (m : mapped) : Prop :=
  let path k := (kr_block_to_path (2 ^ bits) bits (iblock + k)).1 in
  m_ret m = - EIO /\ m_bno m = None /\ (path 0 = [] \/ exists b, bh_read_ok b = false) \/
  m_ret m = 0 /\ m_bno m = None /\ tree c i (path 0) = 0 \/
  1 <= m_ret m <= maxblocks /\ m_new m = false /\
    m_boundary m = (m_ret m >? (kr_block_to_path (2 ^ bits) bits iblock).2) /\
    exists bno, m_bno m = Some bno /\ bno <> 0 /\
      forall k, 0 <= k < m_ret m -> tree c i (path k) = bno + k.

(** The geometry of the pointers. *)
Definition addr_ok (fs : krfs) : Prop :=
  10 <= fs_blocksize_bits fs <= 12 /\
  s_addr_per_block_bits (fs_sbi fs) = fs_blocksize_bits fs - 2.

Lemma addr_per_block fs : addr_ok fs -> KR_ADDR_PER_BLOCK fs = 2 ^ (fs_blocksize_bits fs - 2).
Proof.
  intros [Hb _]. unfold KR_ADDR_PER_BLOCK, fs_blocksize. rewrite Z.shiftl_mul_pow2 by lia.
  replace (fs_blocksize_bits fs) with (2 + (fs_blocksize_bits fs - 2)) at 1 by lia.
  rewrite Z.pow_add_r by lia. rewrite Z.mul_1_l, Z.mul_comm. apply Z.div_mul. lia.
Qed.

(** What runs once the first look at the chain has found a hole. *)
Definition fill_hole (other : M krfs unit) (ino iblock maxblocks boundary : Z) (offsets : list Z)
    (chain : list Indirect) : M krfs mapped :=
  other ;;
  same ← verify_chain chain;
  r ← (if negb same then kr_get_branch ino offsets else mret (chain, false, 0));
  let '(chain, found, err) := r in
  if (found : bool) then
    mret (if negb (err =? 0) then cleanup err else got_it chain 1 boundary false)
  else allocate_branch ino iblock maxblocks boundary offsets chain.

Lemma kr_get_blocks_look other ino i iblock maxblocks create Q fs : let c := core_of fs in
  let bits := fs_blocksize_bits fs - 2 in
  addr_ok fs -> file_ok c ino i -> 1 <= maxblocks ->
  (forall m fs', core_of fs' = c -> looked_up c bits i iblock maxblocks m ->
     (m_ret m = 0 -> create = false) -> Q m fs') ->
  (forall fs1 offsets boundary chain pre rest, create = true -> core_of fs1 = c ->
     kr_block_to_path (2 ^ bits) bits iblock = (offsets, boundary) -> path_ok (2 ^ bits) offsets ->
     boundary = last_table (2 ^ bits) offsets - 1 - List.last offsets 0 ->
     offsets = pre ++ rest -> pre <> [] -> chain_at c ino i pre chain -> tree c i pre = 0 ->
     (removelast pre <> [] -> tree c i (removelast pre) <> 0) ->
     runs (fill_hole other ino iblock maxblocks boundary offsets chain) E Q fs1) ->
  runs (kr_get_blocks other ino iblock maxblocks create) E Q fs.
Proof.
  intros c bits Haddr Hf Hmax HQ Hhole. pose proof (addr_per_block fs Haddr) as Hptrs. destruct Haddr as [Hb Hab].
  unfold kr_get_blocks. step. step; [lia|]. step. step. cbn [id]. rewrite Hptrs, Hab.
  fold bits. assert (8 <= bits <= 10) as Hbits by (unfold bits; lia).
  unfold looked_up in HQ. rewrite !Z.add_0_r in HQ.
  destruct (decide (0 <= iblock < max_file_blocks (2 ^ bits))) as [Hi|Hi].
  2: { pose proof (block_to_path_out _ _ Hbits eq_refl iblock ltac:(lia)) as Hp.
       destruct (kr_block_to_path _ _ iblock) as [offsets boundary]. cbn in Hp. subst offsets.
       step. apply HQ; [done| |done]. left. split_and!; [done|done|by left]. }
  pose proof (block_to_path_in _ _ Hbits eq_refl iblock Hi) as Hin.
  pose proof (fun k o b => path_next _ _ Hbits eq_refl iblock k o b Hi) as Hnext.
  destruct (kr_block_to_path _ _ iblock) as [offsets boundary] eqn:Hpath.
  destruct Hin as (Hok & Hblk & Hbd). specialize (fun k => Hnext k offsets boundary eq_refl).
  specialize (fun fs1 => Hhole fs1 offsets boundary).
  assert (offsets <> []) as Hne by by destruct offsets.
  assert (0 <= boundary < 4096) as Hbr.
  { pose proof (ptrs_range _ _ Hbits eq_refl). rewrite Hbd.
    destruct offsets as [|a [|b [|d [|e [|]]]]]; simpl in Hok |- *; try done;
      change KR_NDIR_BLOCKS with 12 in *; lia. }
  destruct offsets as [|o0 rest] eqn:Ho; [done|]. rewrite <- Ho in *. cbn [fst snd] in *.
  step. eapply runs_mono; [apply (kr_get_branch_spec ino i offsets c); [done|apply Hb|done|done]|]. cbv beta.
  intros [[chain found] err] fs1 [Hfs1 (pre & rest' & Hoff & Hpre & Hch & Hres)].
  destruct found.
  - destruct Hres as (-> & -> & Hnz). rewrite app_nil_r in Hoff. subst pre.
    assert (removelast offsets <> [] -> tree c i (removelast offsets) <> 0) as Hrl.
    { intros Hr Hz. apply Hnz. rewrite (app_removelast_last 0 Hne). by apply tree_app_zero. }
    step. rewrite (ca_key _ _ _ _ _ Hch), (ca_slot _ _ _ _ _ Hch).
    eapply runs_mono.
    { apply (map_more_spec ino i offsets c chain maxblocks boundary Hf ltac:(apply Hb) Hok Hbd ltac:(lia) Hrl
        (ca_ok _ _ _ _ _ Hch) (Z.to_nat (boundary + 2)) 1 fs1 Hfs1); try lia.
      intros k Hk. replace k with 0 by lia. rewrite !Z.add_0_r.
      by rewrite <- (app_removelast_last 0 Hne). }
    cbv beta. intros more fs2 [Hfs2 (n & -> & Hn1 & Hn2 & Hall)]. step.
    unfold got_it. rewrite (ca_key _ _ _ _ _ Hch). replace (n >? 0) with true by lia.
    apply HQ; cbn [m_ret m_new m_boundary m_bno]; [done| |lia]. right. right.
    split; [lia|]. split; [done|]. split; [done|].
    exists (tree c i offsets). split; [done|]. split; [done|]. intros k Hk. rewrite Hnext by lia. by apply Hall.
  - step. step. destruct Hres as [(-> & Hz & Hrl)|(-> & _ & _ & Hbad)].
    2: { rewrite orb_true_r. step. apply HQ; [done| |done]. left. split; [done|]. split; [done|]. right. by eexists. }
    rewrite orb_false_r. destruct create; cbn [negb]; cbv iota.
    + apply (Hhole fs1 chain pre rest'); done.
    + step. apply HQ; [done| |done]. right. left. split; [done|]. split; [done|]. rewrite Hoff. by apply tree_app_zero.
Qed.

Lemma kr_get_blocks_lookup other ino i iblock maxblocks fs : let c := core_of fs in
  addr_ok fs -> file_ok c ino i -> 1 <= maxblocks ->
  runs (kr_get_blocks other ino iblock maxblocks false) E
    (fun m fs' => core_of fs' = c /\ looked_up c (fs_blocksize_bits fs - 2) i iblock maxblocks m) fs.
Proof. intros c Haddr Hf Hmax. by apply (kr_get_blocks_look other ino i). Qed.

End Reads.
