(* ===== verification/AllocBranch.v ===== *)
(** * Allocating the blocks of a branch

    [kr_alloc_blocks] gets the indirect blocks and the first data blocks in as few
    runs as it can, and gives back what it has when a later run fails. *)

From S2P Require Import Prelude Bits Kr Rsv Bitmap Alloc State Balloc BallocFacts NewBlocks BlockMap.

(** The blocks of a run. *)
Definition run_of (b n : Z) : list Z := (fun k => b + Z.of_nat k) <$> seq 0 (Z.to_nat n).

Lemma elem_run b n x : x ∈ run_of b n <-> b <= x < b + Z.max 0 n.
Proof.
  unfold run_of. rewrite list_elem_of_fmap. split.
  - intros (k & -> & Hk%elem_of_seq). lia.
  - intros Hx. exists (Z.to_nat (x - b)). split; [lia|]. apply elem_of_seq. lia.
Qed.
Lemma len_run b n : len (run_of b n) = Z.max 0 n.
Proof. unfold len, run_of. rewrite length_fmap, length_seq. lia. Qed.
Lemma NoDup_run b n : NoDup (run_of b n).
Proof. apply NoDup_fmap_2; [intros x y; lia|apply NoDup_seq]. Qed.
Lemma run_split b n m : 0 <= m <= n -> run_of b n = run_of b m ++ run_of (b + m) (n - m).
Proof.
  intros Hm. unfold run_of. replace (Z.to_nat n) with (Z.to_nat m + Z.to_nat (n - m))%nat by lia.
  rewrite seq_app, fmap_app. f_equal. replace (0 + Z.to_nat m)%nat with (Z.to_nat m + 0)%nat by lia.
  rewrite <- fmap_add_seq, <- list_fmap_compose. apply list_fmap_ext. intros k x _. simpl. lia.
Qed.

(** From [c] to [c'] the blocks of [l], which were free blocks of data, have become
    used; nothing else has changed but the window [my] of the file, whose size is at
    most [bound]. *)
Record holds (my : option Z) (bound : Z) (c c' : core) (l : list Z) : Prop := {
  ho_ok : blocks_ok c';
  ho_changed : blocks_changed c c';
  ho_rsv : rsv_moved my bound (c_rsv c) (c_rsv c');
  ho_blocks : Forall (fun b => c_fdb c <= b < c_nblocks c /\ ~ is_metadata c b /\
                        block_used c b = false) l;
  ho_nodup : NoDup l;
  ho_used : forall b, c_fdb c <= b < c_nblocks c ->
    block_used c' b = block_used c b || bool_decide (b ∈ l);
  ho_sbi : c_sbi c' = set_s_freeblocks_counter (s_freeblocks_counter (c_sbi c) - len l) (c_sbi c);
}.

Lemma moved_mono my b b' r r' : rsv_moved my b r r' -> b <= b' -> rsv_moved my b' r r'.
Proof.
  destruct my as [w|]; [|done]. intros [H1 H2] Hb. split; [|done].
  by apply (ready_mono (Some w) r' b).
Qed.
Lemma moved_ready my b r r' : rsv_moved my b r r' -> ready my r' b.
Proof. destruct my; [by intros [? _]|done]. Qed.
(** Another move, of the same window or of none. *)
Lemma moved_after my my1 b1 b2 r1 r2 r3 : rsv_moved my b1 r1 r2 -> my1 = my \/ my1 = None ->
  rsv_moved my1 b2 r2 r3 -> b1 <= b2 -> rsv_moved my b2 r1 r3.
Proof.
  intros H1 [->| ->] H2 Hb; [by eapply moved_trans|]. simpl in H2. subst r3. by eapply moved_mono.
Qed.

Lemma holds_refl my bound c : blocks_ok c -> ready my (c_rsv c) bound -> holds my bound c c [].
Proof.
  intros Hb Hr. split; try done.
  - apply blocks_changed_refl.
  - by apply moved_refl.
  - constructor.
  - intros b _. rewrite bool_decide_eq_false_2 by (by intros ?%elem_of_nil). by rewrite orb_false_r.
  - change (len []) with 0. rewrite Z.sub_0_r. by destruct (c_sbi c).
Qed.

(** One more run. *)
Lemma holds_mono my b b' c c' l : holds my b c c' l -> b <= b' -> holds my b' c c' l.
Proof. intros [H1 H2 H3 H4 H5 H6 H7] Hb. split; try done. by eapply moved_mono. Qed.

Lemma holds_new my my1 b0 c c1 c2 l bound count ret n : holds my b0 c c1 l -> my1 = my \/ my1 = None ->
  b0 <= bound -> new_blocks_ok c1 c2 my1 bound count ret n -> holds my bound c c2 (l ++ run_of ret n).
Proof.
  intros [H1 H2 H3 H4 H5 H6 H7] Hmy Hbb [N1 N2 N3 N4 N5 N6 N7 N8 N9].
  destruct (changed_geo _ _ H2) as (_ & _ & _ & Gf & Gn & _ & _). rewrite Gf, Gn in *.
  assert (Hfree : forall b, b ∈ run_of ret n -> c_fdb c <= b < c_nblocks c /\ ~ is_metadata c b /\
    block_used c b = false /\ b ∉ l).
  { intros b Hin%elem_run. split; [lia|]. split.
    - intros Hm. apply (N6 b ltac:(lia)). by apply (is_metadata_changed c c1 b H2).
    - pose proof (N7 b ltac:(lia)) as Hu. rewrite H6 in Hu by lia. apply orb_false_iff in Hu as [? Hl].
      split; [done|]. by apply bool_decide_eq_false in Hl. }
  split.
  - done.
  - by eapply blocks_changed_trans.
  - by eapply moved_after.
  - apply Forall_app. split; [done|]. apply Forall_forall. intros b Hin.
    destruct (Hfree b Hin) as (? & ? & ? & _). done.
  - apply NoDup_app. split; [done|]. split; [|apply NoDup_run]. intros b Hin Hin2.
    by destruct (Hfree b Hin2) as (_ & _ & _ & ?).
  - intros b Hbr. rewrite N8, H6 by done. rewrite <- orb_assoc. f_equal.
    destruct (decide (b ∈ l)) as [Hl|Hl].
    + rewrite !bool_decide_eq_true_2; [done|set_solver|done].
    + rewrite bool_decide_eq_false_2 by done. cbn [orb].
      destruct ((ret <=? b) && (b <? ret + n)) eqn:Hr; symmetry.
      * apply bool_decide_eq_true_2, elem_of_app. right. apply elem_run. lia.
      * apply bool_decide_eq_false_2. intros [?|Hin%elem_run]%elem_of_app; [done|]. lia.
  - rewrite N9, H7, len_app, len_run. replace (Z.max 0 n) with n by lia.
    cbn [s_freeblocks_counter set_s_freeblocks_counter].
    replace (s_freeblocks_counter (c_sbi c) - len l - n) with (s_freeblocks_counter (c_sbi c) - (len l + n)) by lia.
    by destruct (c_sbi c).
Qed.

Section Facts.
Context {B : BitOps} {BL : BitLaws B} {R : RbTree} {RL : RbLaws R} {T : Trylock} {K : Kernel}.
Variable E : stop -> Prop.
Hypothesis HE : E Panic.

(** A search that fails changes nothing. *)
Lemma holds_searched my my1 b0 c c1 c2 l bound : holds my b0 c c1 l -> my1 = my \/ my1 = None ->
  b0 <= bound -> searched c1 c2 my1 bound -> holds my bound c c2 l.
Proof.
  intros [H1 H2 H3 H4 H5 H6 H7] Hmy Hbb S.
  destruct (searched_geo _ _ _ _ S) as (Gn & _ & _ & _ & Gs & Gd & _).
  destruct (changed_geo _ _ H2) as (_ & _ & _ & Gf & Gnb & _ & _).
  split; try done.
  - by eapply searched_blocks_ok.
  - eapply blocks_changed_trans; [done|]. by eapply searched_changed.
  - eapply moved_after; [done|done|apply S|done].
  - intros b Hb. rewrite <- H6 by done. apply (searched_used _ _ _ _ _ S (bo_core _ H1)). by rewrite Gf, Gnb.
  - by rewrite Gs.
Qed.

(** All the blocks of a run are in use. *)
Lemma used_count_all c b n : (forall x, b <= x < b + Z.of_nat n -> block_used c x = true) ->
  used_count c b n = Z.of_nat n.
Proof.
  revert b. induction n as [|n IH]; intros b Hu; [done|]. cbn [used_count]. rewrite Hu by lia.
  rewrite IH; [lia|]. intros x Hx. apply Hu. lia.
Qed.

(** Freeing a run of the blocks that are held. *)
Lemma holds_free_run my bound c b n l ino fs : 1 <= n -> holds my bound c (core_of fs) (run_of b n ++ l) ->
  (forall g, 0 <= g < c_ngroups c -> ~ unreadable c g) ->
  runs (kr_free_blocks ino b n) E (fun _ fs' => holds my bound c (core_of fs') l) fs.
Proof.
  intros Hn [H1 H2 H3 H4 H5 H6 H7] Hread. set (c1 := core_of fs) in *.
  destruct (changed_geo _ _ H2) as (_ & _ & _ & Gf & Gn & Gg & _).
  apply Forall_app in H4 as [Hrun0 H4]. rewrite Forall_forall in Hrun0.
  apply NoDup_app in H5 as (_ & Hbl & H5).
  assert (Hblk : forall x, b <= x < b + n -> c_fdb c <= x < c_nblocks c /\ ~ is_metadata c x /\
    block_used c x = false /\ block_used c1 x = true).
  { intros x Hx. assert (x ∈ run_of b n) as Hin by (apply elem_run; lia).
    destruct (Hrun0 x Hin) as (X1 & X2 & X3). split_and!; [lia|lia|done|done|].
    rewrite H6 by done. rewrite bool_decide_eq_true_2 by (apply elem_of_app; by left). apply orb_true_r. }
  assert (data_run c1 b n) as Hrun.
  { destruct (Hblk b ltac:(lia)) as (? & _), (Hblk (b + n - 1) ltac:(lia)) as (? & _).
    split; [lia|lia|]. intros x Hx Hm. apply (is_metadata_changed c c1 x H2) in Hm. by apply (Hblk x Hx). }
  eapply runs_mono; [apply (kr_free_blocks_spec E HE ino fs b n H1 Hn Hrun)|].
  cbv beta. fold c1. intros _ fs2 (m & fs1 & freed & Hm & [F1 F2 F3 F4 F5 F6] & Hcore).
  assert (m = n) as ->.
  { destruct Hm as [->|(Hm & g & Hg & Hu)]; [done|]. exfalso. rewrite Gg in Hg. apply (Hread g Hg).
    destruct (bc_places _ _ H2 g Hg) as ((P1 & _) & _). unfold unreadable in *. by rewrite <- P1. }
  assert (freed = n) as ->.
  { rewrite F5, used_count_all; [lia|]. intros x Hx. apply Hblk. lia. }
  split; rewrite ?Hcore; try done.
  - by apply blocks_ok_sbi.
  - eapply blocks_changed_trans; [exact H2|]. destruct F2 as [Fr P I D].
    split; [rewrite Fr at 1; done|exact P|exact I|exact D].
  - change (rsv_moved my bound (c_rsv c) (c_rsv (core_of fs1))). by rewrite F3.
  - intros x Hx. change (block_used (core_of fs1) x = block_used c x || bool_decide (x ∈ l)).
    rewrite F6 by (rewrite Gf, Gn; done). rewrite H6 by done.
    destruct (decide (b <= x < b + n)) as [Hin|Hne].
    + replace ((b <=? x) && (x <? b + n)) with true by lia. rewrite andb_false_r.
      destruct (Hblk x Hin) as (_ & _ & -> & _). cbn [orb]. symmetry. apply bool_decide_eq_false_2.
      apply Hbl. apply elem_run. lia.
    + replace ((b <=? x) && (x <? b + n)) with false by lia. rewrite andb_true_r. f_equal.
      apply bool_decide_ext. rewrite elem_of_app, elem_run. split; [intros [?|?]; [lia|done]|by right].
  - cbn [c_sbi set_c_sbi]. rewrite H7. cbn [s_freeblocks_counter set_s_freeblocks_counter].
    rewrite len_app, len_run. replace (Z.max 0 n) with n by lia.
    replace (s_freeblocks_counter (c_sbi c) - (n + len l) + n) with (s_freeblocks_counter (c_sbi c) - len l) by lia.
    by destruct (c_sbi c).
Qed.

Lemma holds_free_each my bound c ino l2 l : (forall g, 0 <= g < c_ngroups c -> ~ unreadable c g) ->
  forall fs, holds my bound c (core_of fs) (l ++ l2) ->
  runs (free_each ino l) E (fun _ fs' => holds my bound c (core_of fs') l2) fs.
Proof.
  intros Hread. induction l as [|b l IH]; intros fs Hh; cbn [free_each]; [by step|].
  step. eapply runs_mono; [apply (holds_free_run my bound c b 1 (l ++ l2)); [lia| |done]|].
  - replace (run_of b 1) with [b] by (unfold run_of; simpl; by rewrite Z.add_0_r). exact Hh.
  - cbv beta. intros _ fs1 Hh1. by apply IH.
Qed.

(** The part of a run that goes to the indirect blocks. *)
Lemma give_indirect_spec indirect_blks l b n : 1 <= n -> 0 <= b -> b + n < 4294967296 -> len l <= indirect_blks ->
  let k := Z.min (indirect_blks - len l) n in
  give_indirect indirect_blks l b n = (l ++ run_of b k, b + k, n - k).
Proof.
  intros Hn Hb Hbn Hl k. unfold give_indirect. fold k. replace (Z.max 0 k) with k by lia.
  rewrite u64_small by lia. do 2 f_equal. f_equal. unfold run_of. apply list_fmap_ext.
  intros i x Hx%lookup_seq. rewrite u64_small; lia.
Qed.

(** The answer of [kr_alloc_blocks]: the blocks are held, or none is. *)
Definition blocks_held (my : option Z) (bound : Z) (c c' : core) (indirect_blks blks : Z) (r : list Z * Z * Z) : Prop :=
  let '(new_blocks, num, err) := r in
  err = 0 /\ len new_blocks = indirect_blks + 1 /\ 1 <= num <= blks /\
    holds my bound c c' (take (Z.to_nat indirect_blks) new_blocks
                ++ run_of (nth (Z.to_nat indirect_blks) new_blocks 0) num) \/
  err <> 0 /\ num = 0 /\ holds my bound c c' [].

(** The window of the file stays, or is switched off. *)
Lemma inode_window_same c fs fs' ino bound : blocks_changed c (core_of fs') -> c = core_of fs ->
  rsv_moved (inode_window fs ino) bound (c_rsv c) (c_rsv (core_of fs')) ->
  inode_window fs' ino = inode_window fs ino \/ inode_window fs' ino = None.
Proof.
  intros Hch -> Hr. destruct (changed_geo _ _ Hch) as (_ & _ & _ & _ & _ & _ & Hi).
  change (fs_inodes fs' = fs_inodes fs) in Hi. unfold inode_window in *. rewrite Hi.
  destruct (_ ≫= _) as [b|]; [|by left].
  destruct (u16 (rsv_goal_size (rsv_at (fs_rsv fs) (rsv_window_node b))) >? 0) eqn:Hz.
  - case_match; [by left|by right].
  - simpl in Hr. change (fs_rsv fs' = fs_rsv fs) in Hr. rewrite Hr, Hz. by left.
Qed.

(** The size of the window while at most [w] blocks are allocated [n] times. *)
Definition window_limit (size w n : Z) : Z := Z.max size 268435456 + n * w.

Section Branch.
Variables (fs0 : krfs) (ino goal size indirect_blks blks : Z).
Let c := core_of fs0.
Let my := inode_window fs0 ino.
Let w := blks + indirect_blks.
Hypothesis Hread : forall g, 0 <= g < c_ngroups c -> ~ unreadable c g.
Hypothesis Hblks : 1 <= blks.
Hypothesis Hlimit : window_limit size w (indirect_blks + 1) < 536870912.
Let limit := window_limit size w (indirect_blks + 1).

Definition turn_held (l : list Z) (r : Z * list Z + list Z * Z * Z) (c' : core) : Prop :=
  match r with
  | inl (target, l') => target = w - len l' /\ len l < len l' <= indirect_blks /\
      holds my (window_limit size w (len l')) c c' l'
  | inr res => blocks_held my limit c c' indirect_blks blks res
  end.

Lemma limit_mono n m : 0 <= indirect_blks -> n <= m -> window_limit size w n <= window_limit size w m.
Proof. intros Hi Hnm. unfold window_limit. assert (n * w <= m * w) by (apply Z.mul_le_mono_nonneg_r; unfold w; lia). lia. Qed.

Lemma alloc_failed l n err fs : 0 <= indirect_blks -> err <> 0 -> n <= indirect_blks + 1 ->
  holds my (window_limit size w n) c (core_of fs) l ->
  runs (free_each ino l ;; when (negb (len l =? 0)) (log (mark_inode_dirty ino)) ;;
        mret (inr (l, 0, err))) E (fun r fs' => turn_held l r (core_of fs')) fs.
Proof using All.
  intros Hi He Hn Hh. step. eapply runs_mono; [apply (holds_free_each my (window_limit size w n) c ino []); [done|by rewrite app_nil_r]|].
  cbv beta. intros _ fs2 Hh2.
  assert (Hres : forall fs3, core_of fs3 = core_of fs2 -> turn_held l (inr (l, 0, err)) (core_of fs3)).
  { intros fs3 ->. right. split; [done|]. split; [done|]. eapply holds_mono; [done|]. by apply limit_mono. }
  step. unfold log. step; [step|]; step; by apply Hres.
Qed.

Lemma alloc_blocks_turn_spec l fs : len l <= indirect_blks ->
  holds my (window_limit size w (len l)) c (core_of fs) l ->
  runs (alloc_blocks_turn ino goal indirect_blks (w - len l, l)) E
    (fun r fs' => turn_held l r (core_of fs')) fs.
Proof using All.
  intros Hl Hh. pose proof Hh as [H1 H2 H3 _ _ _ _]. pose proof (len_nonneg l) as Hl0.
  pose proof (inode_window_same c fs0 fs ino _ H2 eq_refl H3) as Hmy. fold my in Hmy.
  destruct (changed_geo _ _ H2) as (_ & _ & _ & Gf & Gn & _ & _).
  assert (Hmax : w - len l < 268435456 /\ 1 <= w - len l /\ w < 268435456).
  { unfold window_limit in Hlimit. assert (w <= (indirect_blks + 1) * w) by (unfold w; nia). unfold w in *. lia. }
  pose proof (limit_mono (len l + 1) (indirect_blks + 1) ltac:(lia) ltac:(lia)) as Hlm.
  assert (Hwb : window_bound (window_limit size w (len l)) (w - len l) 0 <= window_limit size w (len l + 1)).
  { unfold window_bound, window_limit. simpl. assert (0 <= len l * w) by (unfold w; nia). lia. }
  unfold alloc_blocks_turn. step. eapply runs_mono.
  { apply (kr_new_blocks_spec E HE fs ino goal _ (window_limit size w (len l)) H1); [lia|lia|].
    apply moved_ready in H3. by destruct Hmy as [->| ->]. }
  cbv beta zeta. intros [[ret err] n] fs1 Hres.
  set (wb := window_bound _ _ _) in *.
  assert (Hwb0 : window_limit size w (len l) <= wb) by (unfold wb, window_bound; simpl; lia).
  destruct Hres as [[(-> & N)|(-> & -> & S & Herr)]|(-> & -> & Hcore & Herr)].
  2: { assert (err <> 0) by (destruct Herr as [[-> _]|[-> _]]; done).
       replace (err =? 0) with false by lia. cbn [negb]. apply (alloc_failed l (len l + 1)); [lia|done|lia|].
       eapply holds_mono; [|exact Hwb]. by eapply holds_searched. }
  2: { assert (err <> 0) by (destruct Herr as [[-> ?]|[-> _]]; done).
       replace (err =? 0) with false by lia. cbn [negb]. apply (alloc_failed l (len l)); [lia|done|lia|]. by rewrite Hcore. }
  cbn [Z.eqb negb]. pose proof (holds_new _ _ _ _ _ _ _ _ _ _ _ Hh Hmy Hwb0 N) as Hh1.
  apply (holds_mono _ _ (window_limit size w (len l + 1))) in Hh1; [|done].
  pose proof (nb_count _ _ _ _ _ _ _ N) as Hn. pose proof (nb_range _ _ _ _ _ _ _ N) as Hr.
  pose proof (bo_core _ H1) as Hcore. pose proof (ck_blocks32 _ Hcore). pose proof (ck_fdb _ Hcore).
  rewrite give_indirect_spec by lia.
  set (k := Z.min (indirect_blks - len l) n). rewrite (run_split ret n k) in Hh1 by lia.
  rewrite app_assoc in Hh1. assert (len (l ++ run_of ret k) = len l + k) as Hlk
    by (rewrite len_app, len_run; lia).
  cbv beta iota zeta. destruct (Z.gtb_spec (n - k) 0) as [Hpos|Hz].
  - assert (k = indirect_blks - len l) as Hk by lia. step. left. split; [done|].
    assert (Z.to_nat indirect_blks = length (l ++ run_of ret k)) as Hlen by (unfold len in Hlk; unfold len in *; lia).
    split; [rewrite len_app; rewrite Hlk; unfold len at 2; simpl; lia|]. split; [unfold w in *; lia|].
    rewrite Hlen, take_app_length, app_nth2, Nat.sub_diag by lia. eapply holds_mono; [exact Hh1|]. done.
  - assert (k = n) as Hk by lia. step. rewrite s32_small by lia. split; [lia|]. split; [lia|].
    replace (n - k) with 0 in Hh1 by lia. change (run_of (ret + k) 0) with (@nil Z) in Hh1.
    rewrite app_nil_r in Hh1. eapply holds_mono; [exact Hh1|]. apply limit_mono; lia.
Qed.

Lemma kr_alloc_blocks_spec : blocks_ok c -> ready my (c_rsv c) size -> 0 <= indirect_blks ->
  runs (kr_alloc_blocks ino goal indirect_blks blks) E
    (fun r fs' => blocks_held my limit c (core_of fs') indirect_blks blks r) fs0.
Proof using All.
  intros Hb Hw Hi. assert (w < 268435456) by (unfold window_limit in Hlimit; assert (w <= (indirect_blks + 1) * w) by (unfold w; nia); lia).
  unfold kr_alloc_blocks. rewrite s32_small by (unfold w in *; lia).
  apply (runs_loop E
    (fun p fs' => let '(target, l) := p in target = w - len l /\
       len l <= indirect_blks /\ holds my (window_limit size w (len l)) c (core_of fs') l)
    (fun p _ => indirect_blks - len p.2)).
  - intros [target l] fs1 (-> & Hl & Hh). cbn [snd]. split; [lia|].
    eapply runs_mono; [by apply alloc_blocks_turn_spec|]. cbv beta.
    intros [[target l']|res] fs2; [|done]. intros (-> & Hl' & Hh'). cbn [snd]. split; [|lia]. split; [done|].
    split; [lia|done].
  - split; [change (len []) with 0; unfold w; lia|]. split; [done|]. apply holds_refl; [done|].
    apply (ready_mono _ _ size); [done|]. unfold window_limit. change (len []) with 0. lia.
  - cbn [snd]. change (len []) with 0. lia.
Qed.

End Branch.

End Facts.
