(* ===== verification/FileTree.v ===== *)
(** * The tree of the blocks of a file

    Writing rows of pointers, and what hanging a new branch into the tree of a
    file does to it: the paths of the new blocks lead to them, and every other path
    leads to where it led. *)

From S2P Require Import Prelude Bits Kr Rsv Bitmap Alloc State Balloc BallocFacts NewBlocks BlockMap PathFacts BlockMapFacts AllocBranch.

(** A block a file may own. *)
Definition data_block (c : core) (b : Z) : Prop := c_fdb c <= b < c_nblocks c /\ ~ is_metadata c b.

Lemma blocks_ok_inodes c ins : blocks_ok c -> blocks_ok (set_c_inodes ins c).
Proof. intros [H1 H2 H3]. split; [by apply with_inodes_ok|exact H2|exact H3]. Qed.

(** A pointer of the inode. *)
Definition pointer (i : inode) (k : Z) : Z := nth (Z.to_nat k) (i_data (KR_I i)) 0.

Lemma pointer_set i k k' v : 0 <= k -> k < len (i_data (KR_I i)) -> 0 <= k' ->
  pointer (set_pointer k v i) k' = if k' =? k then u32 v else pointer i k'.
Proof.
  intros Hk Hlen Hk'. unfold pointer, set_pointer, len in *. cbn. rewrite !nth_lookup.
  destruct (Z.eqb_spec k' k) as [->|Hne].
  - rewrite list_lookup_insert_eq by lia. done.
  - rewrite list_lookup_insert_ne by lia. done.
Qed.
Lemma len_set_pointer k v i : len (i_data (KR_I (set_pointer k v i))) = len (i_data (KR_I i)).
Proof. unfold len, set_pointer. cbn. by rewrite length_insert. Qed.

(** ** Writing slots *)

Definition slot_put (c : core) (p : slot) (v : Z) : core :=
  match p with
  | InInode ino n => set_c_inodes (alter (set_pointer n v) ino (c_inodes c)) c
  | InBlock b n => with_buf c b (put32 (default [] (c_bufs c !! b)) (4 * n) v)
  | Local _ => c
  end.
(** [v], [v + 1], ... in [n] slots from [p] on. *)
Fixpoint row_put (c : core) (p : slot) (n : nat) (v : Z) : core :=
  match n with
  | O => c
  | S n' => row_put (slot_put c p v) (slot_add p 1) n' (v + 1)
  end.

Definition same_table (p q : slot) : bool :=
  match p, q with
  | InInode a _, InInode b _ | InBlock a _, InBlock b _ => a =? b
  | _, _ => false
  end.

Lemma slot_add_0 p : slot_add p 0 = p.
Proof. destruct p; unfold slot_add; simpl; by rewrite ?Z.add_0_r. Qed.
Lemma slot_add_add p j k : slot_add (slot_add p j) k = slot_add p (j + k).
Proof. destruct p; unfold slot_add; simpl; by rewrite ?Z.add_assoc. Qed.

Lemma slot_put_val c p v q : is_Some (slot_val c p) -> (forall x, p <> Local x) -> 0 <= v < 4294967296 ->
  slot_val (slot_put c p v) q =
    if same_table p q && (slot_index q =? slot_index p) then Some v else slot_val c q.
Proof.
  intros [w Hw] Hl Hv. destruct p as [ino n|b n|x]; [| |by destruct (Hl x)]; cbn [slot_val slot_put] in *.
  - destruct (c_inodes c !! ino) as [i|] eqn:Hi; [|done]. cbn [mbind option_bind] in Hw.
    destruct ((n <? 0) || _) eqn:Hr; [done|]. destruct q as [ino' n'|b' n'|x']; [|done..].
    cbn [same_table slot_index slot_val c_inodes set_c_inodes].
    destruct (Z.eqb_spec ino ino') as [<-|Hne]; cbn [andb]; [|by rewrite lookup_alter_ne].
    rewrite lookup_alter_eq, Hi. cbn [fmap option_fmap option_map mbind option_bind].
    rewrite len_set_pointer.
    destruct (Z.eqb_spec n' n) as [->|Hn]; [rewrite Hr|]; unfold pointer in *.
    + f_equal. pose proof (pointer_set i n n v) as Hp. unfold pointer in Hp. rewrite Hp by lia.
      rewrite Z.eqb_refl. by apply u32_small.
    + destruct ((n' <? 0) || _) eqn:Hr'; [done|]. f_equal.
      pose proof (pointer_set i n n' v) as Hp. unfold pointer in Hp. rewrite Hp by lia.
      by replace (n' =? n) with false by lia.
  - destruct (c_bufs c !! b) as [d|] eqn:Hd; [|done]. cbn [mbind option_bind default] in *.
    destruct ((n <? 0) || _) eqn:Hr; [done|]. destruct q as [ino' n'|b' n'|x']; [done| |done].
    cbn [same_table slot_index slot_val]. unfold with_buf. cbn [c_bufs set_c_bufs].
    destruct (Z.eqb_spec b b') as [<-|Hne]; cbn [andb]; [|by rewrite lookup_insert_ne].
    rewrite lookup_insert_eq. rewrite Hd. cbn. rewrite len_put32.
    destruct (Z.eqb_spec n' n) as [->|Hn]; [rewrite Hr|].
    + f_equal. apply get32_put32_eq; lia.
    + destruct ((n' <? 0) || _) eqn:Hr'; [done|]. f_equal. apply get32_put32_ne; lia.
Qed.

Lemma same_table_add p q k : same_table (slot_add p k) q = same_table p q.
Proof. by destruct p, q. Qed.
Lemma slot_index_add p k : (forall x, p <> Local x) -> slot_index (slot_add p k) = slot_index p + k.
Proof. intros Hl. destruct p as [| |x]; try done. by destruct (Hl x). Qed.
Lemma same_table_refl p k : (forall x, p <> Local x) -> same_table p (slot_add p k) = true.
Proof. intros Hl. destruct p as [| |x]; simpl; [apply Z.eqb_refl..|]. by destruct (Hl x). Qed.
Lemma slot_add_local p k : (forall x, p <> Local x) -> forall x, slot_add p k <> Local x.
Proof. intros Hl x. by destruct p as [| |y]; try done; destruct (Hl y). Qed.

Lemma row_put_val n : forall c p v q, (forall x, p <> Local x) ->
  (forall k, 0 <= k < Z.of_nat n -> is_Some (slot_val c (slot_add p k))) ->
  0 <= v -> v + Z.of_nat n <= 4294967296 ->
  slot_val (row_put c p n v) q =
    if same_table p q && (slot_index p <=? slot_index q) && (slot_index q <? slot_index p + Z.of_nat n)
    then Some (v + (slot_index q - slot_index p)) else slot_val c q.
Proof.
  induction n as [|n IH]; intros c p v q Hl Hok Hv Hn; cbn [row_put].
  { destruct (same_table p q); cbn [andb]; [|done]. change (Z.of_nat 0) with 0.
    destruct (Z.leb_spec (slot_index p) (slot_index q)), (Z.ltb_spec (slot_index q) (slot_index p + 0)); done || lia. }
  assert (is_Some (slot_val c p)) as Hp by (rewrite <- (slot_add_0 p); apply Hok; lia).
  replace (Z.of_nat (S n)) with (Z.of_nat n + 1) in * by lia.
  rewrite IH; [|by apply slot_add_local| |lia|lia].
  - rewrite same_table_add, (slot_index_add p 1) by done. rewrite slot_put_val by (done || lia).
    destruct (same_table p q); cbn [andb]; [|done].
    pose proof (Zle_0_nat n) as HN. revert HN.
    generalize (slot_index p) as x, (slot_index q) as y, (Z.of_nat n) as N. intros x y N HN.
    destruct (decide (x <= y < x + (N + 1))) as [Hin|Hout].
    + replace ((x <=? y) && (y <? x + (N + 1))) with true by lia.
      destruct (decide (y = x)) as [Heq|Hne].
      * replace ((x + 1 <=? y) && (y <? x + 1 + N)) with false by lia. replace (y =? x) with true by lia. f_equal. lia.
      * replace ((x + 1 <=? y) && (y <? x + 1 + N)) with true by lia. f_equal. lia.
    + replace ((x <=? y) && (y <? x + (N + 1))) with false by lia.
      replace ((x + 1 <=? y) && (y <? x + 1 + N)) with false by lia. by replace (y =? x) with false by lia.
  - intros k Hk. rewrite slot_add_add. rewrite slot_put_val by (done || lia).
    rewrite same_table_refl by done. destruct (_ && _); [by eexists|]. apply Hok. lia.
Qed.

(** A row changes nothing but its table. *)
Record row_frame (c c' : core) (p : slot) : Prop := {
  rf_frame : c' = set_c_inodes (c_inodes c') (set_c_bufs (c_bufs c') c);
  rf_bufs : forall b, (forall n, p <> InBlock b n) -> c_bufs c' !! b = c_bufs c !! b;
  rf_buf : forall b n d, p = InBlock b n -> c_bufs c !! b = Some d ->
    exists d', c_bufs c' !! b = Some d' /\ len d' = len d /\ (bytes d -> bytes d');
  rf_inodes : forall j, (forall n, p <> InInode j n) -> c_inodes c' !! j = c_inodes c !! j;
  rf_inode : forall j n i, p = InInode j n -> c_inodes c !! j = Some i ->
    exists l, c_inodes c' !! j = Some (set_KR_I (set_i_data l (KR_I i)) i) /\
      len l = len (i_data (KR_I i)) /\
      (Forall (fun v => 0 <= v < 4294967296) (i_data (KR_I i)) -> Forall (fun v => 0 <= v < 4294967296) l);
}.

Lemma row_frame_refl c p : row_frame c c p.
Proof.
  split; try done.
  - by destruct c.
  - intros b n d _ Hd. by exists d.
  - intros j n i _ Hi. exists (i_data (KR_I i)). split; [|done].
    destruct i as [? ? ? ? ? ? ? ? ? ? ? ? ? ? ei]. by destruct ei.
Qed.

Lemma row_frame_put c p v : row_frame c (slot_put c p v) p.
Proof.
  destruct p as [ino n|b n|x]; [| |apply row_frame_refl]; split; try done; cbn [slot_put].
  - intros j Hj. apply lookup_alter_ne. intros <-. by apply (Hj n).
  - intros j n' i [= <- <-] Hi. cbn [c_inodes set_c_inodes]. rewrite lookup_alter_eq, Hi.
    eexists. split; [reflexivity|]. unfold len. rewrite length_insert. split; [done|].
    intros Hf. apply Forall_insert; [done|apply u32_range].
  - intros b' Hb. apply lookup_insert_ne. intros <-. by apply (Hb n).
  - intros b' n' d [= <- <-] Hd. unfold with_buf. cbn [c_bufs set_c_bufs].
    rewrite lookup_insert_eq, Hd. cbn. eexists. split; [reflexivity|]. rewrite len_put32.
    split; [done|]. apply bytes_put32.
Qed.

Lemma row_frame_trans c1 c2 c3 p : row_frame c1 c2 p -> row_frame c2 c3 p -> row_frame c1 c3 p.
Proof.
  intros [F1 B1 D1 I1 N1] [F2 B2 D2 I2 N2]. split.
  - rewrite F2 at 1. rewrite F1 at 1. done.
  - intros b Hb. by rewrite B2, B1.
  - intros b n d Hp Hd. destruct (D1 b n d Hp Hd) as (d1 & H1 & L1 & Y1).
    destruct (D2 b n d1 Hp H1) as (d2 & H2 & L2 & Y2). exists d2. split; [done|]. split; [lia|auto].
  - intros j Hj. by rewrite I2, I1.
  - intros j n i Hp Hi. destruct (N1 j n i Hp Hi) as (l1 & H1 & L1 & Y1).
    destruct (N2 j n _ Hp H1) as (l2 & H2 & L2 & Y2). exists l2. split; [done|].
    split; [simpl in L2; lia|simpl in Y2; auto].
Qed.

Lemma row_frame_add c c' p k : row_frame c c' (slot_add p k) -> row_frame c c' p.
Proof.
  intros [F B D I N]. split; [done| | | |].
  - intros b Hb. apply B. intros n Hn. destruct p as [|b' n'|]; try done.
    injection Hn as -> _. by apply (Hb n').
  - intros b n d -> Hd. by apply (D b (n + k) d).
  - intros j Hj. apply I. intros n Hn. destruct p as [j' n'| |]; try done.
    injection Hn as -> _. by apply (Hj n').
  - intros j n i -> Hi. by apply (N j (n + k) i).
Qed.

Lemma row_frame_row n : forall c p v, row_frame c (row_put c p n v) p.
Proof.
  induction n as [|n IH]; intros c p v; cbn [row_put]; [apply row_frame_refl|].
  eapply row_frame_trans; [apply row_frame_put|]. apply (row_frame_add _ _ _ 1), IH.
Qed.

(** ** Stems *)

(** The nonempty beginnings of paths. *)
Definition stem (ptrs : Z) (p : list Z) : Prop := p <> [] /\ exists r, path_ok ptrs (p ++ r).

(** No path goes on after its end. *)
Lemma path_ends ptrs p r : path_ok ptrs p -> path_ok ptrs (p ++ r) -> r = [].
Proof.
  unfold path_ok, KR_TIND_BLOCK, KR_DIND_BLOCK, KR_IND_BLOCK, KR_NDIR_BLOCKS.
  destruct p as [|a [|b [|d [|e [|f p]]]]]; try done; simpl;
    destruct r as [|x1 [|x2 [|x3 [|x4 r]]]]; try done; simpl; intros; exfalso; lia.
Qed.
Lemma stem_path ptrs p : path_ok ptrs p -> stem ptrs p.
Proof. intros Hp. split; [by intros ->|]. exists []. by rewrite app_nil_r. Qed.
Lemma stem_app ptrs p r : p <> [] -> stem ptrs (p ++ r) -> stem ptrs p.
Proof. intros Hp [_ [r' Hr]]. split; [done|]. exists (r ++ r'). by rewrite app_assoc. Qed.
(** A stem that goes on is not a path. *)
Lemma stem_inner ptrs p r : p <> [] -> r <> [] -> stem ptrs (p ++ r) -> stem ptrs p /\ ~ path_ok ptrs p.
Proof.
  intros Hp Hr Hs. split; [by eapply stem_app|]. intros Hok. destruct Hs as [_ [r' Hr']].
  rewrite <- app_assoc in Hr'. apply (path_ends _ _ _ Hok) in Hr'. by destruct r.
Qed.
Lemma stem_index ptrs p o : p <> [] -> stem ptrs (p ++ [o]) -> 0 <= o < ptrs.
Proof. intros Hp [_ [r Hr]]. rewrite <- app_assoc in Hr. by apply (path_tail_range ptrs p o r). Qed.
Lemma stem_first ptrs o r : stem ptrs (o :: r) -> 0 <= o < KR_N_BLOCKS.
Proof.
  change KR_N_BLOCKS with 15. intros [_ [r' Hr]]. simpl in Hr.
  destruct (r ++ r') as [|a [|b [|d [|]]]]; simpl in Hr; try done;
    unfold KR_TIND_BLOCK, KR_DIND_BLOCK, KR_IND_BLOCK, KR_NDIR_BLOCKS in Hr; lia.
Qed.
(** The slots next to the last one of a path end paths too. *)
Lemma path_next_ok ptrs p o k : path_ok ptrs (p ++ [o]) -> 0 <= k -> o + k < last_table ptrs (p ++ [o]) ->
  path_ok ptrs (p ++ [o + k]).
Proof.
  destruct p as [|a [|b [|d [|e [|f p]]]]]; simpl; try done; unfold KR_NDIR_BLOCKS; try lia.
  all: intros H; exfalso; by destruct p.
Qed.

(** ** Hanging a row into the tree *)

Lemma walk_zero c r : walk c 0 r = 0.
Proof. by destruct r. Qed.
Lemma walk_app c r s : forall v, walk c v (r ++ s) = walk c (walk c v r) s.
Proof.
  induction r as [|o r IH]; intros v; cbn [walk app]; [done|].
  destruct (Z.eqb_spec v 0); [by rewrite walk_zero|apply IH].
Qed.
Lemma tree_app c i p r : p <> [] -> tree c i (p ++ r) = walk c (tree c i p) r.
Proof. destruct p as [|o p]; [done|]. intros _. apply walk_app. Qed.
Lemma tree_one c i o : tree c i [o] = pointer i o.
Proof. done. Qed.

(** The slots [o], ..., [o + n - 1] of the table at the end of [p] have become [v],
    ..., [v + n - 1]. *)
Record rehung (ptrs : Z) (c c' : core) (i i' : inode) (p : list Z) (o n v : Z) : Prop := {
  rh_table : forall q x, q <> [] -> stem ptrs (q ++ [x]) -> tree c i q <> 0 ->
    table c' (tree c i q) x =
      if decide (q = p /\ o <= x < o + n) then v + (x - o) else table c (tree c i q) x;
  rh_inode : forall x, 0 <= x < KR_N_BLOCKS ->
    pointer i' x = if decide (p = [] /\ o <= x < o + n) then v + (x - o) else pointer i x;
}.

Lemma rehung_other ptrs c c' i i' p o n v : rehung ptrs c c' i i' p o n v ->
  forall q, stem ptrs q -> (forall k, 0 <= k < n -> ~ (p ++ [o + k]) `prefix_of` q) ->
  tree c' i' q = tree c i q.
Proof.
  intros [Ht Hi] q. induction q as [|x q IH] using rev_ind; intros Hs Hno; [by destruct Hs|].
  assert (Hx : p = q -> ~ (o <= x < o + n)).
  { intros -> Hx. apply (Hno (x - o)); [lia|]. by replace (o + (x - o)) with x by lia. }
  destruct (decide (q = [])) as [->|Hq].
  - rewrite app_nil_l, !tree_one. rewrite Hi by (by apply (stem_first ptrs x [])).
    rewrite decide_False; [done|]. intros [-> ?]. by apply Hx.
  - rewrite !tree_snoc by done. cbv zeta. rewrite IH.
    + destruct (Z.eqb_spec (tree c i q) 0) as [|Hz]; [done|]. rewrite Ht by done.
      rewrite decide_False; [done|]. intros [-> ?]. by apply Hx.
    + by eapply stem_app.
    + intros k Hk Hp. apply (Hno k Hk). by apply prefix_app_r.
Qed.

Lemma rehung_row ptrs c c' i i' p o n v : rehung ptrs c c' i i' p o n v ->
  (p <> [] -> tree c i p <> 0) -> forall k, 0 <= k < n -> stem ptrs (p ++ [o + k]) ->
  tree c' i' (p ++ [o + k]) = v + k.
Proof.
  intros Hr Hp k Hk Hs. destruct (decide (p = [])) as [->|Hne].
  - rewrite app_nil_l, tree_one. rewrite (rh_inode _ _ _ _ _ _ _ _ _ Hr) by (by apply (stem_first ptrs _ [])).
    rewrite decide_True by (split; [done|lia]). lia.
  - specialize (Hp Hne). rewrite tree_snoc by done. cbv zeta.
    rewrite (rehung_other _ _ _ _ _ _ _ _ _ Hr p).
    + replace (tree c i p =? 0) with false by lia.
      rewrite (rh_table _ _ _ _ _ _ _ _ _ Hr) by done. rewrite decide_True by (split; [done|lia]). lia.
    + by eapply stem_app.
    + intros j _ Hpre%prefix_length. rewrite length_app in Hpre. simpl in Hpre. lia.
Qed.

(** ** The invariant of a file

    Every pointer of the tree leads to a block of data that is in use, the inner
    ones to a table, and no two of them to the same block. *)

Definition ptrs_of (c : core) : Z := 2 ^ (c_bits c - 2).

Record tree_ok (c : core) (ino : Z) (i : inode) : Prop := {
  tk_inode : c_inodes c !! ino = Some i;
  tk_len : len (i_data (KR_I i)) = KR_N_BLOCKS;
  tk_range : Forall (fun v => 0 <= v < 4294967296) (i_data (KR_I i));
  tk_block : forall p, stem (ptrs_of c) p -> tree c i p <> 0 ->
    data_block c (tree c i p) /\ block_used c (tree c i p) = true;
  tk_table : forall p, stem (ptrs_of c) p -> ~ path_ok (ptrs_of c) p -> tree c i p <> 0 ->
    indirect_ok c (tree c i p);
  tk_inj : forall p q, stem (ptrs_of c) p -> stem (ptrs_of c) q -> tree c i p <> 0 ->
    tree c i p = tree c i q -> p = q;
}.

Lemma tree_ok_file c ino i : tree_ok c ino i -> file_ok c ino i.
Proof.
  intros [H1 H2 H3 _ H5 _]. split; try done. intros pre Hpre (o & Hok & Ho) Hz.
  destruct (stem_inner (ptrs_of c) pre o Hpre Ho (stem_path _ _ Hok)). by apply H5.
Qed.

(** The slot [o] of the table at the end of [p]. *)
Definition slot_of (c : core) (ino : Z) (i : inode) (p : list Z) (o : Z) : slot :=
  match p with [] => InInode ino o | _ => InBlock (tree c i p) o end.
Lemma leaf_slot_of c ino i p o : leaf_slot c ino i (p ++ [o]) = slot_of c ino i p o.
Proof. unfold leaf_slot. rewrite removelast_last, last_last. by destruct p. Qed.

Lemma table_val c b x : 10 <= c_bits c -> indirect_ok c b -> 0 <= x < ptrs_of c ->
  slot_val c (InBlock b x) = Some (table c b x).
Proof.
  intros Hb (d & Hd & Hl & _) Hx. unfold slot_val, table. rewrite Hd. cbn [mbind option_bind default].
  assert (2 ^ c_bits c = 4 * ptrs_of c) as Hp.
  { unfold ptrs_of. replace (c_bits c) with (2 + (c_bits c - 2)) at 1 by lia.
    rewrite Z.pow_add_r by lia. lia. }
  by replace ((x <? 0) || (4 * x + 4 >? len d)) with false by lia.
Qed.
Lemma pointer_val c ino i x : c_inodes c !! ino = Some i -> len (i_data (KR_I i)) = KR_N_BLOCKS ->
  0 <= x < KR_N_BLOCKS -> slot_val c (InInode ino x) = Some (pointer i x).
Proof.
  intros Hi Hl Hx. unfold slot_val. rewrite Hi. cbn [mbind option_bind]. rewrite Hl.
  by replace ((x <? 0) || (x >=? KR_N_BLOCKS)) with false by lia.
Qed.

Lemma slot_of_val c ino i p o : tree_ok c ino i -> 10 <= c_bits c -> stem (ptrs_of c) (p ++ [o]) ->
  (p <> [] -> tree c i p <> 0) -> slot_val c (slot_of c ino i p o) = Some (tree c i (p ++ [o])).
Proof.
  intros Hk Hb Hs Hp. destruct p as [|a p'] eqn:He.
  - apply pointer_val; [apply Hk|apply Hk|]. by apply (stem_first (ptrs_of c) o []).
  - rewrite <- He in *. assert (p <> []) as Hne by by rewrite He. specialize (Hp Hne).
    rewrite tree_snoc by done. cbv zeta. replace (tree c i p =? 0) with false by lia.
    replace (slot_of c ino i p o) with (InBlock (tree c i p) o) by by rewrite He.
    destruct (stem_inner _ p [o] Hne ltac:(done) Hs) as [Hs1 Hn1].
    apply table_val; [done|by apply Hk|by eapply stem_index].
Qed.

Lemma in_block_dec s b : (exists m, s = InBlock b m) \/ (forall m, s <> InBlock b m).
Proof.
  destruct s as [|b' m|]; [by right| |by right]. destruct (decide (b' = b)) as [->|Hne]; [left; by eexists|].
  right. intros m' [= Hb _]. done.
Qed.
Lemma in_inode_dec s ino : (exists m, s = InInode ino m) \/ (forall m, s <> InInode ino m).
Proof.
  destruct s as [j m| |]; [|by right..]. destruct (decide (j = ino)) as [->|Hne]; [left; by eexists|].
  right. intros m' [= Hb _]. done.
Qed.

(** Tables and the inode stay well-formed. *)
Lemma row_indirect c c' s b : row_frame c c' s -> indirect_ok c b -> indirect_ok c' b.
Proof.
  intros Hf (d & Hd & Hld & Hyd). assert (c_bits c' = c_bits c) as Hbits by by rewrite (rf_frame _ _ _ Hf).
  unfold indirect_ok. rewrite Hbits. destruct (in_block_dec s b) as [[m Hm]|Hno].
  - destruct (rf_buf _ _ _ Hf b m d Hm Hd) as (d' & H1 & H2 & H3). exists d'. split; [done|].
    split; [lia|auto].
  - exists d. by rewrite (rf_bufs _ _ _ Hf).
Qed.
Lemma row_inode c c' s ino i : row_frame c c' s -> c_inodes c !! ino = Some i ->
  len (i_data (KR_I i)) = KR_N_BLOCKS -> Forall (fun v => 0 <= v < 4294967296) (i_data (KR_I i)) ->
  exists i', c_inodes c' !! ino = Some i' /\ (exists l, i' = set_KR_I (set_i_data l (KR_I i)) i) /\
    len (i_data (KR_I i')) = KR_N_BLOCKS /\ Forall (fun v => 0 <= v < 4294967296) (i_data (KR_I i')).
Proof.
  intros Hf Hi Hl Hr. destruct (in_inode_dec s ino) as [[m Hm]|Hno].
  - destruct (rf_inode _ _ _ Hf ino m i Hm Hi) as (l & H1 & H2 & H3).
    eexists. split; [exact H1|]. split; [by eexists|]. cbn. rewrite H2. auto.
  - exists i. rewrite (rf_inodes _ _ _ Hf) by done. split; [done|]. split; [|done]. exists (i_data (KR_I i)).
    destruct i as [? ? ? ? ? ? ? ? ? ? ? ? ? ? ei]. by destruct ei.
Qed.

(** A row written into the table of [p]. *)
Lemma row_rehung c ino i p o n v : tree_ok c ino i -> 10 <= c_bits c -> 1 <= n ->
  (forall k, 0 <= k < n -> stem (ptrs_of c) (p ++ [o + k])) -> (p <> [] -> tree c i p <> 0) ->
  0 <= v -> v + n <= 4294967296 ->
  let c' := row_put c (slot_of c ino i p o) (Z.to_nat n) v in
  exists i', c_inodes c' !! ino = Some i' /\ (exists l, i' = set_KR_I (set_i_data l (KR_I i)) i) /\
    len (i_data (KR_I i')) = KR_N_BLOCKS /\ Forall (fun v => 0 <= v < 4294967296) (i_data (KR_I i')) /\
    (forall b, indirect_ok c b -> indirect_ok c' b) /\
    rehung (ptrs_of c) c c' i i' p o n v.
Proof.
  intros Hk Hb Hn Hs Hp Hv Hvn c'. set (s := slot_of c ino i p o) in *.
  assert (Hl : forall x, s <> Local x) by (unfold s; by destruct p).
  pose proof (row_frame_row (Z.to_nat n) c s v) as Hf. fold c' in Hf.
  assert (Hok : forall k, 0 <= k < n -> is_Some (slot_val c (slot_add s k))).
  { intros k Hkr. replace (slot_add s k) with (slot_of c ino i p (o + k)) by (unfold s; by destruct p).
    eexists. apply slot_of_val; try done. by apply Hs. }
  assert (Hval : forall q, slot_val c' q = if same_table s q && (slot_index s <=? slot_index q) &&
    (slot_index q <? slot_index s + n) then Some (v + (slot_index q - slot_index s)) else slot_val c q).
  { intros q. pose proof (row_put_val (Z.to_nat n) c s v q Hl) as Hr. rewrite Z2Nat.id in Hr by lia.
    apply Hr; [done|lia|lia]. }
  assert (Hind : forall b, indirect_ok c b -> indirect_ok c' b) by (intros b; by eapply row_indirect).
  destruct (row_inode c c' s ino i Hf) as (i' & Hi' & Hset & Hlen & Hrange); [apply Hk..|].
  exists i'. split_and!; [done|done|done|done|done|]. split.
  - intros q x Hq Hqx Hz. destruct (stem_inner _ q [x] Hq ltac:(done) Hqx) as [Hq1 Hq2].
    pose proof (stem_index _ _ _ Hq Hqx) as Hx.
    pose proof (Hval (InBlock (tree c i q) x)) as Hvq.
    rewrite (table_val c) in Hvq by (try done; by apply Hk).
    rewrite (table_val c') in Hvq; cycle 1.
    { by rewrite (rf_frame _ _ _ Hf). } { by apply Hind, Hk. }
    { unfold ptrs_of in *. by rewrite (rf_frame _ _ _ Hf). }
    destruct (decide (q = p)) as [->|Hne].
    + assert (s = InBlock (tree c i p) o) as Hso by (unfold s; by destruct p). rewrite Hso in Hvq.
      cbn [same_table slot_index] in Hvq. rewrite Z.eqb_refl in Hvq. cbn [andb] in Hvq.
      destruct (decide (o <= x < o + n)) as [Hin|Hout].
      * rewrite decide_True by done. replace ((o <=? x) && (x <? o + n)) with true in Hvq by lia. congruence.
      * rewrite decide_False by tauto. replace ((o <=? x) && (x <? o + n)) with false in Hvq by lia. congruence.
    + rewrite decide_False by tauto.
      assert (same_table s (InBlock (tree c i q) x) = false) as Hst.
      { unfold s. destruct p as [|a p'] eqn:He; [done|]. rewrite <- He in *.
        assert (slot_of c ino i p o = InBlock (tree c i p) o) as -> by by rewrite He.
        apply Z.eqb_neq. intros Heq. apply Hne. symmetry. apply (tk_inj _ _ _ Hk); try done.
        - apply (stem_app _ p [o + 0]); [by rewrite He|]. apply Hs. lia.
        - apply Hp. by rewrite He. }
      rewrite Hst in Hvq. cbn [andb] in Hvq. congruence.
  - intros x Hx. pose proof (Hval (InInode ino x)) as Hvx.
    rewrite (pointer_val c ino i) in Hvx by (try done; apply Hk).
    rewrite (pointer_val c' ino i') in Hvx by done.
    destruct (decide (p = [])) as [->|Hne].
    + unfold s in Hvx. cbn [slot_of same_table slot_index] in Hvx. rewrite Z.eqb_refl in Hvx.
      cbn [andb] in Hvx. destruct (decide (o <= x < o + n)) as [Hin|Hout].
      * rewrite decide_True by done. replace ((o <=? x) && (x <? o + n)) with true in Hvx by lia. congruence.
      * rewrite decide_False by tauto. replace ((o <=? x) && (x <? o + n)) with false in Hvx by lia. congruence.
    + rewrite decide_False by tauto. replace (same_table s (InInode ino x)) with false in Hvx
        by (unfold s; by destruct p). cbn [andb] in Hvx. congruence.
Qed.

(** ** A branch of new tables *)

(** The table [b] has [n] pointers from [o] on, to [v], [v + 1], ..., and no others. *)
Definition is_table (c : core) (b o n v : Z) : Prop :=
  indirect_ok c b /\
  forall x, 0 <= x < ptrs_of c -> table c b x = if decide (o <= x < o + n) then v + (x - o) else 0.

(** The blocks [nbs] but the last are tables, each with a pointer to the next one
    at the offset [rest] gives; the last table has [num] pointers. *)
Fixpoint tables_built (c : core) (nbs rest : list Z) (num : Z) : Prop :=
  match rest, nbs with
  | o :: rest', b :: ((child :: _) as nbs') =>
      is_table c b o (match rest' with [] => num | _ => 1 end) child /\ tables_built c nbs' rest' num
  | [], [_] => True
  | _, _ => False
  end.

(** The new blocks with their paths, when the branch hangs at [p]: the tables, and
    the [num] blocks of data. *)
Fixpoint branch_news (p nbs rest : list Z) (num : Z) : list (list Z * Z) :=
  match rest, nbs with
  | o :: rest', b :: nbs' => (p, b) :: branch_news (p ++ [o]) nbs' rest' num
  | [], b :: _ => (fun k => (removelast p ++ [List.last p 0 + Z.of_nat k], b + Z.of_nat k))
                    <$> seq 0 (Z.to_nat num)
  | _, [] => []
  end.

Lemma branch_news_blocks num rest : forall p nbs, length nbs = S (length rest) ->
  (branch_news p nbs rest num).*2 = take (length rest) nbs ++ run_of (nth (length rest) nbs 0) num.
Proof.
  induction rest as [|o rest IH]; intros p [|b nbs] Hl; simpl in Hl; try done; simpl.
  - unfold run_of. by rewrite <- list_fmap_compose.
  - f_equal. apply IH. lia.
Qed.

Lemma branch_news_row p o b nbs num q v : (q, v) ∈ branch_news (p ++ [o]) (b :: nbs) [] num <->
  exists k, 0 <= k < num /\ q = p ++ [o + k] /\ v = b + k.
Proof.
  cbn [branch_news]. rewrite removelast_last, last_last, list_elem_of_fmap. split.
  - intros (k & [= -> ->] & Hk%elem_of_seq). exists (Z.of_nat k). split; [lia|done].
  - intros (k & Hk & -> & ->). exists (Z.to_nat k). rewrite elem_of_seq. rewrite Z2Nat.id by lia.
    split; [done|lia].
Qed.

Lemma elem_fst {A B} (l : list (A * B)) x : x ∈ l.*1 <-> exists y, (x, y) ∈ l.
Proof.
  rewrite list_elem_of_fmap. split; [intros ([x' y] & -> & Hin); by exists y|].
  intros (y & Hin). by exists (x, y).
Qed.

(** The paths of the news are stems below [p], or next to it when it is a path. *)
Lemma branch_news_stems ptrs num rest : forall p nbs q, p <> [] -> path_ok ptrs (p ++ rest) ->
  List.last (p ++ rest) 0 + num <= last_table ptrs (p ++ rest) ->
  q ∈ (branch_news p nbs rest num).*1 ->
  stem ptrs q /\ (length p <= length q)%nat /\ (rest <> [] -> p `prefix_of` q) /\
  (path_ok ptrs q <-> length q = length (p ++ rest)).
Proof.
  induction rest as [|o rest IH]; intros p [|b nbs] q Hp Hok Hlast Hq; try by apply elem_of_nil in Hq.
  - rewrite app_nil_r in *. destruct (exists_last Hp) as (p' & o & ->).
    apply elem_fst in Hq as (v & Hq). apply branch_news_row in Hq as (k & Hk & -> & _).
    rewrite last_last in Hlast. assert (path_ok ptrs (p' ++ [o + k])) as Hok' by (apply path_next_ok; [done|lia..]).
    split; [by apply stem_path|]. rewrite !length_app. simpl. split; [lia|]. split; [done|]. split; [lia|done].
  - assert (Hs : stem ptrs (p ++ o :: rest)) by by apply stem_path.
    destruct (stem_inner ptrs p (o :: rest) Hp ltac:(done) Hs) as [Hs1 Hn1].
    cbn [branch_news] in Hq. rewrite fmap_cons in Hq. apply elem_of_cons in Hq as [->|Hq].
    + simpl. split; [done|]. split; [lia|]. split; [done|]. rewrite length_app. simpl. split; [done|lia].
    + assert ((p ++ [o]) ++ rest = p ++ o :: rest) as He by (by rewrite <- app_assoc).
      destruct (IH (p ++ [o]) nbs q) as (H1 & H2 & H3 & H4); [by destruct p|by rewrite He|by rewrite He|done|].
      rewrite length_app in H2. simpl in H2. split; [done|]. split; [lia|]. split.
      * intros _. destruct rest as [|o2 rest'].
        -- apply elem_fst in Hq as (v & Hq). destruct nbs; [by apply elem_of_nil in Hq|].
           apply branch_news_row in Hq as (k & _ & -> & _). by eexists.
        -- destruct (H3 ltac:(done)) as [r ->]. exists (o :: r). by rewrite <- app_assoc.
      * by rewrite H4, He.
Qed.

(** What the tree has below [p] once the first table hangs there. *)
Lemma branch_tree c i num rest : forall p nbs, p <> [] -> rest <> [] -> length nbs = S (length rest) ->
  path_ok (ptrs_of c) (p ++ rest) -> List.last (p ++ rest) 0 + num <= ptrs_of c ->
  tables_built c nbs rest num -> Forall (fun b => b <> 0) nbs -> tree c i p = hd 0 nbs ->
  (forall q v, (q, v) ∈ branch_news p nbs rest num -> tree c i q = v) /\
  (forall q, stem (ptrs_of c) q -> p `prefix_of` q -> q ∉ (branch_news p nbs rest num).*1 -> tree c i q = 0).
Proof.
  induction rest as [|o rest IH]; intros p [|b [|child nbs]] Hp Hr Hl Hok Hlast Ht Hnz Htree; try done.
  cbn [tables_built] in Ht. destruct Ht as [[Hind Hrow] Ht]. cbn [hd] in Htree.
  apply Forall_cons in Hnz as [Hb Hnz].
  assert (Hstep : forall x, stem (ptrs_of c) (p ++ [x]) -> tree c i (p ++ [x]) =
    if decide (o <= x < o + match rest with [] => num | _ => 1 end) then child + (x - o) else 0).
  { intros x Hs. rewrite tree_snoc by done. cbv zeta. rewrite Htree.
    replace (b =? 0) with false by lia. apply Hrow. by apply (stem_index _ p). }
  assert (He : (p ++ [o]) ++ rest = p ++ o :: rest) by by rewrite <- app_assoc.
  assert (Hpo : p ++ [o] <> []) by by destruct p.
  assert (Hso : stem (ptrs_of c) (p ++ [o])) by (apply (stem_app _ _ rest); [done|rewrite He; by apply stem_path]).
  assert (Hout : forall x r, stem (ptrs_of c) (p ++ x :: r) -> ~ (o <= x < o + match rest with [] => num | _ => 1 end) ->
    tree c i (p ++ x :: r) = 0).
  { intros x r Hs Hx. assert (p ++ x :: r = (p ++ [x]) ++ r) as Hxr by by rewrite <- app_assoc.
    rewrite Hxr in *. apply tree_app_zero; [by destruct p|].
    rewrite Hstep by (by apply (stem_app _ _ r); [destruct p|]). by rewrite decide_False. }
  destruct rest as [|o2 rest'].
  - assert (Hnext : forall x, o <= x < o + num -> path_ok (ptrs_of c) (p ++ [x])).
    { intros x Hx. replace x with (o + (x - o)) by lia. apply path_next_ok; [done|lia|].
      rewrite last_last in Hlast. destruct p as [|a [|]]; try done; simpl; lia. }
    split.
    + intros q v Hq. cbn [branch_news] in Hq. apply elem_of_cons in Hq as [[= -> ->]|Hq]; [done|].
      apply (branch_news_row p o child []) in Hq as (k & Hk & -> & ->).
      rewrite Hstep by (apply stem_path, Hnext; lia). rewrite decide_True by lia. lia.
    + intros q Hs [r ->] Hq. destruct r as [|x r].
      { destruct Hq. rewrite app_nil_r. cbn [branch_news]. rewrite fmap_cons. apply elem_of_cons. by left. }
      destruct (decide (o <= x < o + num)) as [Hx|Hx]; [|by apply Hout].
      assert (p ++ x :: r = (p ++ [x]) ++ r) as Hxr by by rewrite <- app_assoc.
      rewrite Hxr in *. destruct Hs as [_ [r' Hr']]. rewrite <- app_assoc in Hr'.
      apply (path_ends _ _ _ (Hnext x Hx)), app_eq_nil in Hr' as [-> _].
      destruct Hq. rewrite app_nil_r. apply elem_fst. exists (child + (x - o)).
      cbn [branch_news]. apply elem_of_cons. right. apply (branch_news_row p o child []). exists (x - o).
      split; [lia|]. split; [|done]. do 2 f_equal. lia.
  - destruct (IH (p ++ [o]) (child :: nbs)) as [H1 H2]; try done.
    + simpl in *. lia.
    + by rewrite He.
    + by rewrite He.
    + rewrite Hstep by done. rewrite decide_True by lia. cbn [hd]. lia.
    + split.
      * intros q v Hq. change (branch_news p (b :: child :: nbs) (o :: o2 :: rest') num) with
          ((p, b) :: branch_news (p ++ [o]) (child :: nbs) (o2 :: rest') num) in Hq.
        apply elem_of_cons in Hq as [[= -> ->]|Hq]; [done|]. by apply H1.
      * intros q Hs [r ->] Hq. change (branch_news p (b :: child :: nbs) (o :: o2 :: rest') num) with
          ((p, b) :: branch_news (p ++ [o]) (child :: nbs) (o2 :: rest') num) in Hq.
        rewrite fmap_cons, not_elem_of_cons in Hq. destruct Hq as [Hq1 Hq2]. destruct r as [|x r].
        { by rewrite app_nil_r in Hq1. }
        destruct (decide (x = o)) as [->|Hx]; [|apply Hout; [done|lia]].
        apply H2; [done| |done]. exists r. by rewrite <- app_assoc.
Qed.

(** The new tables are tables. *)
Lemma branch_news_tables c num rest : forall p nbs q v, length nbs = S (length rest) ->
  p <> [] -> tables_built c nbs rest num -> (q, v) ∈ branch_news p nbs rest num ->
  length q <> length (p ++ rest) -> indirect_ok c v.
Proof.
  induction rest as [|o rest IH]; intros p [|b nbs] q v Hl Hp Ht Hq Hlen; try done.
  - destruct (exists_last Hp) as (p' & o & ->). apply (branch_news_row p' o b nbs) in Hq as (k & _ & -> & _).
    rewrite app_nil_r, !length_app in Hlen. done.
  - destruct nbs as [|child nbs]; [done|]. cbn [tables_built] in Ht. destruct Ht as [[Hind _] Ht].
    change (branch_news p (b :: child :: nbs) (o :: rest) num) with
      ((p, b) :: branch_news (p ++ [o]) (child :: nbs) rest num) in Hq.
    apply elem_of_cons in Hq as [[= -> ->]|Hq]; [done|].
    apply (IH (p ++ [o]) (child :: nbs) q v); [simpl in *; lia|by destruct p|done|done|].
    by rewrite <- app_assoc.
Qed.

(** ** Keeping the invariant *)

(** The blocks of files that are in use are as they were. *)
Record kept (c c' : core) : Prop := {
  kp_bits : c_bits c' = c_bits c;
  kp_data : forall b, data_block c' b <-> data_block c b;
  kp_used : forall b, data_block c b -> block_used c b = true -> block_used c' b = true;
  kp_bufs : forall b, data_block c b -> block_used c b = true -> c_bufs c' !! b = c_bufs c !! b;
}.

Lemma kept_table c c' b x : kept c c' -> data_block c b -> block_used c b = true ->
  table c' b x = table c b x.
Proof. intros Hk Hd Hu. unfold table. by rewrite (kp_bufs _ _ Hk). Qed.

Lemma tree_kept c c' ino i i' : tree_ok c ino i -> kept c c' -> i_data (KR_I i') = i_data (KR_I i) ->
  forall q, stem (ptrs_of c) q -> tree c' i' q = tree c i q.
Proof.
  intros Ht Hk Hd q Hs. apply (rehung_other (ptrs_of c) c c' i i' [] 0 0 0); [|done|lia]. split.
  - intros p x Hp Hpx Hz. rewrite decide_False by lia.
    destruct (stem_inner _ p [x] Hp ltac:(done) Hpx) as [Hs1 _].
    destruct (tk_block _ _ _ Ht p Hs1 Hz). by apply kept_table.
  - intros x Hx. rewrite decide_False by lia. unfold pointer. by rewrite Hd.
Qed.

Lemma tree_ok_kept c c' ino i i' : tree_ok c ino i -> kept c c' -> i_data (KR_I i') = i_data (KR_I i) ->
  c_inodes c' !! ino = Some i' -> tree_ok c' ino i'.
Proof.
  intros Ht Hk Hd Hi. pose proof (tree_kept _ _ _ _ _ Ht Hk Hd) as Htree.
  assert (ptrs_of c' = ptrs_of c) as Hp by (unfold ptrs_of; by rewrite (kp_bits _ _ Hk)).
  destruct Ht as [H1 H2 H3 H4 H5 H6]. split; rewrite ?Hd, ?Hp; try done.
  - intros p Hs. rewrite Htree by done. intros Hz. destruct (H4 p Hs Hz).
    split; [by apply (kp_data _ _ Hk)|by apply (kp_used _ _ Hk)].
  - intros p Hs Hn. rewrite Htree by done. intros Hz. destruct (H4 p Hs Hz).
    destruct (H5 p Hs Hn Hz) as (d & ?). exists d. by rewrite (kp_bufs _ _ Hk), (kp_bits _ _ Hk).
  - intros p q Hs1 Hs2. rewrite !Htree by done. by apply H6.
Qed.

(** New blocks in a tree. *)
Lemma tree_ok_news c c' ino i i' news : tree_ok c ino i -> ptrs_of c' = ptrs_of c ->
  (forall b, data_block c' b <-> data_block c b) ->
  (forall b, data_block c b -> block_used c b = true -> block_used c' b = true) ->
  c_inodes c' !! ino = Some i' -> len (i_data (KR_I i')) = KR_N_BLOCKS ->
  Forall (fun v => 0 <= v < 4294967296) (i_data (KR_I i')) ->
  (forall q v, (q, v) ∈ news -> tree c' i' q = v /\ data_block c v /\ block_used c' v = true /\
     (stem (ptrs_of c) q -> ~ path_ok (ptrs_of c) q -> indirect_ok c' v)) ->
  (forall q v, (q, v) ∈ news -> forall p, stem (ptrs_of c) p -> tree c i p <> v) ->
  (forall q, stem (ptrs_of c) q -> q ∉ news.*1 -> tree c' i' q = tree c i q) ->
  NoDup news.*2 ->
  (forall q, stem (ptrs_of c) q -> ~ path_ok (ptrs_of c) q -> tree c i q <> 0 -> indirect_ok c' (tree c i q)) ->
  tree_ok c' ino i'.
Proof.
  intros Ht Hp Hdata Hused Hi Hlen Hrange Hnews Hfresh Hold Hnd Hind.
  assert (Hcase : forall q, (exists v, (q, v) ∈ news) \/ q ∉ news.*1).
  { intros q. destruct (decide (q ∈ news.*1)) as [Hq|Hq]; [left|by right]. by apply elem_fst. }
  split; rewrite ?Hp; try done.
  - intros q Hs. destruct (Hcase q) as [[v Hq]|Hq].
    + destruct (Hnews q v Hq) as (-> & Hd & Hu & _). intros _. split; [by apply Hdata|done].
    + rewrite Hold by done. intros Hz. destruct (tk_block _ _ _ Ht q Hs Hz). split; [by apply Hdata|auto].
  - intros q Hs Hn. destruct (Hcase q) as [[v Hq]|Hq].
    + destruct (Hnews q v Hq) as (-> & _ & _ & Hv). intros _. by apply Hv.
    + rewrite Hold by done. by apply Hind.
  - intros q1 q2 Hs1 Hs2. destruct (Hcase q1) as [[v1 Hq1]|Hq1], (Hcase q2) as [[v2 Hq2]|Hq2].
    + destruct (Hnews _ _ Hq1) as (-> & _), (Hnews _ _ Hq2) as (-> & _). intros _ <-.
      apply list_elem_of_lookup_1 in Hq1 as [k1 Hk1], Hq2 as [k2 Hk2].
      assert (k1 = k2) as ->; [|congruence].
      apply (NoDup_lookup _ k1 k2 v1 Hnd); by rewrite list_lookup_fmap, ?Hk1, ?Hk2.
    + rewrite (Hold q2) by done. destruct (Hnews _ _ Hq1) as (-> & _). intros _ Heq.
      by destruct (Hfresh _ _ Hq1 q2 Hs2).
    + rewrite (Hold q1) by done. destruct (Hnews _ _ Hq2) as (-> & _). intros _ Heq.
      by destruct (Hfresh _ _ Hq2 q1 Hs1).
    + rewrite !Hold by done. by apply Ht.
Qed.
