(* ===== verification/BuildBranch.v ===== *)
(** * Building a branch

    [kr_alloc_branch] holds the blocks of a branch and fills its tables; when it
    cannot, it gives the blocks back. *)

From S2P Require Import Prelude Bits Kr Rsv Bitmap Alloc State Balloc BallocFacts NewBlocks BlockMap PathFacts BlockMapFacts AllocBranch FileTree.

(** Only the contents of the blocks of [l] have changed. *)
Record scribbled (l : list Z) (c c' : core) : Prop := {
  sc_frame : c' = set_c_bufs (c_bufs c') c;
  sc_bufs : forall b, b ∉ l -> c_bufs c' !! b = c_bufs c !! b;
}.

Lemma scribbled_refl l c : scribbled l c c.
Proof. split; [by destruct c|done]. Qed.
Lemma scribbled_trans l c1 c2 c3 : scribbled l c1 c2 -> scribbled l c2 c3 -> scribbled l c1 c3.
Proof.
  intros [F1 B1] [F2 B2]. split; [rewrite F2 at 1; by rewrite F1 at 1|].
  intros b Hb. by rewrite B2, B1.
Qed.
Lemma scribbled_sub l l' c c' : scribbled l c c' -> (forall b, b ∈ l -> b ∈ l') -> scribbled l' c c'.
Proof. intros [F B] Hl. split; [done|]. intros b Hb. apply B. intros Hin. by apply Hb, Hl. Qed.

Lemma scribbled_bitmaps l c c' g : scribbled l c c' -> (forall b, b ∈ l -> ~ is_metadata c b) ->
  0 <= g < c_ngroups c -> block_bitmap c' g = block_bitmap c g /\ inode_bitmap c' g = inode_bitmap c g.
Proof.
  intros [F B] Hl Hg. unfold block_bitmap, inode_bitmap.
  assert (forall g, group_desc c' g = group_desc c g) as -> by (intros; by rewrite F).
  rewrite !B; [done| |]; intros Hin; apply (Hl _ Hin); exists g; (split; [done|]); unfold metadata; auto.
Qed.

Lemma scribbled_ok l c c' : scribbled l c c' -> (forall b, b ∈ l -> ~ is_metadata c b) -> blocks_ok c -> blocks_ok c'.
Proof.
  intros Hs Hl [Hc Hm Ha]. pose proof (fun g => scribbled_bitmaps l c c' g Hs Hl) as Hbm.
  destruct Hs as [F B]. assert (forall g, group_desc c' g = group_desc c g) as Hd by (intros; by rewrite F).
  assert (c_ngroups c' = c_ngroups c) as Hn by by rewrite F.
  assert (forall b, is_metadata c b -> c_bufs c' !! b = c_bufs c !! b) as Hmb
    by (intros b Hb; apply B; intros Hin; by apply (Hl b)).
  split.
  - destruct Hc as [K1 K2 K3 K4 K5 K6 K7 K8 K9 K10 K11 K12]. rewrite F. split; try done.
    intros g Hg. destruct (K12 g Hg) as [G1 G2 G3 G4 G5 G6 G7 G8 G9 G10].
    assert (is_metadata c (bg_block_bitmap (group_desc c g)) /\ is_metadata c (bg_inode_bitmap (group_desc c g)))
      as [M1 M2] by (split; exists g; (split; [done|]); unfold metadata; auto).
    destruct (Hbm g Hg) as [Hb1 Hb2]. rewrite <- F. split; try (by rewrite F); rewrite ?Hd, ?Hb1, ?Hb2.
    all: first [by rewrite Hmb | by rewrite F | idtac].
  - intros g Hg. rewrite Hn in Hg. destruct (Hm g Hg) as [H1 H2]. destruct (Hbm g Hg) as [Hb1 _].
    unfold marked. rewrite Hb1. rewrite F. by split.
  - intros g Hg. rewrite Hn in Hg. pose proof (Ha g Hg) as Hag. destruct (Hbm g Hg) as [Hb1 _].
    unfold accounted in *. rewrite Hb1, Hd. by rewrite F.
Qed.

Lemma splice_maps {A} (l : list Z) (m0 m2 : gmap Z A) :
  exists m : gmap Z A, forall b, m !! b = if decide (b ∈ l) then m2 !! b else m0 !! b.
Proof.
  exists (filter (fun p => p.1 ∈ l) m2 ∪ filter (fun p => p.1 ∉ l) m0). intros b.
  destruct (decide (b ∈ l)) as [Hin|Hout].
  - destruct (m2 !! b) as [x|] eqn:Hx.
    + apply lookup_union_Some_l, map_lookup_filter_Some. by split.
    + rewrite lookup_union_None_2; [done| |].
      * apply map_lookup_filter_None. by left.
      * apply map_lookup_filter_None. right. by intros x _ Hno.
  - rewrite lookup_union_r.
    + destruct (m0 !! b) as [x|] eqn:Hx.
      * apply map_lookup_filter_Some. by split.
      * apply map_lookup_filter_None. by left.
    + apply map_lookup_filter_None. right. by intros x _ Hno.
Qed.

Lemma scribbled_used l c c' b : scribbled l c c' -> (forall b, b ∈ l -> ~ is_metadata c b) -> core_ok c ->
  c_fdb c <= b < c_nblocks c -> block_used c' b = block_used c b.
Proof.
  intros Hs Hl Hc Hb. destruct (block_split c Hc b Hb) as (Hg & _).
  destruct (scribbled_bitmaps l c c' _ Hs Hl Hg) as [Hbm _]. destruct Hs as [F B].
  unfold block_used. rewrite F. cbn [c_bpg c_fdb set_c_bufs]. rewrite F in Hbm. by rewrite Hbm.
Qed.

(** What has been written into blocks of data does not matter to the bitmaps: it is
    as if it had been there before the allocation. *)
Lemma holds_scribbled my bound c c1 c2 l l' : holds my bound c c1 l -> scribbled l' c1 c2 ->
  (forall b, b ∈ l' -> ~ is_metadata c b) -> blocks_ok c ->
  exists c0, scribbled l' c c0 /\ holds my bound c0 c2 l.
Proof.
  intros [H1 H2 H3 H4 H5 H6 H7] Hs Hl Hb. destruct (splice_maps l' (c_bufs c) (c_bufs c2)) as [m Hm].
  exists (set_c_bufs m c). assert (Hs0 : scribbled l' c (set_c_bufs m c)).
  { split; [done|]. intros b Hin. cbn [c_bufs set_c_bufs]. by rewrite Hm, decide_False. }
  split; [done|]. destruct (changed_geo _ _ H2) as (_ & _ & _ & Gf & Gn & Gg & _).
  assert (Hl1 : forall b, b ∈ l' -> ~ is_metadata c1 b)
    by (intros b Hin Hmb; apply (Hl b Hin); by apply (is_metadata_changed c c1 b H2)).
  pose proof (fun g => scribbled_bitmaps l' c1 c2 g Hs Hl1) as Hbm.
  pose proof (fun g => scribbled_bitmaps l' c _ g Hs0 Hl) as Hbm0. rewrite Gg in Hbm.
  pose proof Hs as [F B]. assert (Hd2 : forall g, group_desc c2 g = group_desc c1 g) by (intros; by rewrite F).
  split.
  - by eapply scribbled_ok.
  - destruct H2 as [Fr P I D]. split.
    + rewrite F at 1. rewrite Fr at 1. rewrite F. done.
    + intros g Hg. rewrite Hd2. by apply P.
    + intros g Hg. destruct (Hbm g Hg) as [_ ->], (Hbm0 g Hg) as [_ ->]. by apply I.
    + intros b Hmb. cbn [c_bufs set_c_bufs]. rewrite Hm. destruct (decide (b ∈ l')) as [|Hout]; [done|].
      rewrite B by done. by apply D.
  - by rewrite F.
  - eapply Forall_impl; [exact H4|]. cbv beta. intros b (X1 & X2 & X3). split; [done|]. split; [done|].
    by rewrite (scribbled_used _ _ _ _ Hs0 Hl (bo_core _ Hb)).
  - done.
  - intros b Hbr. rewrite (scribbled_used l' c1 c2 b Hs Hl1 (bo_core _ H1)) by (rewrite Gf, Gn; exact Hbr).
    rewrite (scribbled_used l' c _ b Hs0 Hl (bo_core _ Hb)) by exact Hbr. by apply H6.
  - by rewrite F.
Qed.

Section Facts.
Context {B : BitOps} {BL : BitLaws B} {R : RbTree} {RL : RbLaws R} {T : Trylock} {K : Kernel}.
Variable E : stop -> Prop.
Hypothesis HE : E Panic.

(** ** Writing pointers *)

Lemma slot_set_spec p v w fs : slot_val (core_of fs) p = Some w -> (forall x, p <> Local x) ->
  runs (slot_set p v) E (fun _ fs' => core_of fs' = slot_put (core_of fs) p v) fs.
Proof.
  intros Hw Hl. destruct p as [ino n|b n|x]; [| |by destruct (Hl x)]; unfold slot_set; step;
    cbn [slot_val] in Hw.
  - change (c_inodes (core_of fs)) with (fs_inodes fs) in Hw. unfold inode_get. step. step. cbn [id].
    destruct (fs_inodes fs !! ino) as [i|]; [|done]. step. cbn [mbind option_bind] in Hw.
    destruct (_ || _); [done|]. unfold inode_upd. by step.
  - change (c_bufs (core_of fs)) with (fs_bufs fs) in Hw. unfold buf_get. step. step. cbn [id].
    destruct (fs_bufs fs !! b) as [d|] eqn:Hd; [|done]. step. cbn [mbind option_bind] in Hw.
    destruct (_ || _); [done|]. unfold buf_set. step. cbn [slot_put].
    change (c_bufs (core_of fs)) with (fs_bufs fs). by rewrite Hd.
Qed.

Lemma point_to_rest_spec p : (forall x, p <> Local x) -> forall n i cb fs,
  (forall k, i <= k < i + Z.of_nat n -> is_Some (slot_val (core_of fs) (slot_add p k))) ->
  0 <= cb -> cb + Z.of_nat n < 4294967296 ->
  runs (point_to_rest p i n cb) E
    (fun _ fs' => core_of fs' = row_put (core_of fs) (slot_add p i) n (cb + 1)) fs.
Proof.
  intros Hl. induction n as [|n IH]; intros i cb fs Hok Hcb Hn; cbn [point_to_rest row_put]; [by step|].
  destruct (Hok i ltac:(lia)) as [w Hw]. rewrite u64_small by lia. rewrite u32_small by lia. step.
  eapply runs_mono; [apply (slot_set_spec _ _ w); [done|by apply slot_add_local]|]. cbv beta.
  intros _ fs1 Hfs1. eapply runs_mono; [apply IH|].
  - intros k Hk. rewrite Hfs1, slot_put_val by first [done|by eexists|by apply slot_add_local|lia].
    destruct (_ && _); [by eexists|]. apply Hok. lia.
  - lia.
  - lia.
  - cbv beta. intros _ fs2 ->. rewrite Hfs1, slot_add_add. done.
Qed.

(** A pointer and, with [b], those after it. *)
Lemma write_row {A} p v n m b (k : M krfs A) Q fs : (forall x, p <> Local x) -> 1 <= n -> 0 <= v ->
  v + n <= 4294967296 -> (b = true -> m = n) -> (b = false -> n = 1) ->
  (forall j, 0 <= j < n -> is_Some (slot_val (core_of fs) (slot_add p j))) ->
  (forall fs', core_of fs' = row_put (core_of fs) p (Z.to_nat n) v -> runs k E Q fs') ->
  runs (slot_set p v ;; when b (point_to_rest p 1 (Z.to_nat (m - 1)) v) ;; k) E Q fs.
Proof.
  intros Hl Hn Hv Hvn Hb1 Hb2 Hok Hk. destruct (Hok 0 ltac:(lia)) as [w Hw]. rewrite slot_add_0 in Hw.
  step. eapply runs_mono; [by apply (slot_set_spec p v w)|]. cbv beta. intros _ fs1 Hfs1. step. step.
  - rewrite (Hb1 H). eapply runs_mono; [apply (point_to_rest_spec p Hl)|].
    + intros j Hj. rewrite Hfs1, slot_put_val by first [done|by eexists|lia].
      destruct (_ && _); [by eexists|]. apply Hok. lia.
    + lia.
    + lia.
    + cbv beta. intros _ fs2 Hfs2. apply Hk. rewrite Hfs2, Hfs1.
      replace (Z.to_nat n) with (S (Z.to_nat (n - 1))) by lia. done.
  - apply Hk. rewrite Hfs1, (Hb2 H). done.
Qed.

(** ** Filling the tables *)

Lemma get8_zeros n o : get8 (repeat 0 n) o = 0.
Proof. unfold get8. apply nth_repeat. Qed.
Lemma get32_zeros n o : get32 (repeat 0 n) o = 0.
Proof. unfold get32, get16. by rewrite !get8_zeros. Qed.

(** A table of zeros with a row. *)
Lemma new_table c b o n v : 10 <= c_bits c -> 1 <= n -> 0 <= v -> v + n <= 4294967296 ->
  0 <= o -> o + n <= ptrs_of c ->
  let c1 := with_buf c b (repeat 0 (Z.to_nat (2 ^ c_bits c))) in
  let c2 := row_put c1 (InBlock b o) (Z.to_nat n) v in
  (forall j, 0 <= j < n -> is_Some (slot_val c1 (slot_add (InBlock b o) j))) /\
  is_table c2 b o n v /\ scribbled [b] c c2.
Proof.
  intros Hb Hn Hv Hvn Ho Hon c1 c2.
  assert (Hp : ptrs_of c1 = ptrs_of c) by done.
  assert (Hi1 : indirect_ok c1 b).
  { eexists. split; [apply lookup_insert_eq|]. change (c_bits c1) with (c_bits c).
    assert (0 < 2 ^ c_bits c) by (apply Z.pow_pos_nonneg; lia). split.
    - unfold len. rewrite repeat_length. lia.
    - apply Forall_forall. intros x Hx%list_elem_of_In%repeat_spec. by subst. }
  assert (Hval1 : forall x, 0 <= x < ptrs_of c -> slot_val c1 (InBlock b x) = Some 0).
  { intros x Hx. rewrite table_val by done. unfold table, c1, with_buf. cbn [c_bufs set_c_bufs].
    rewrite lookup_insert_eq. f_equal. apply get32_zeros. }
  assert (Hok : forall j, 0 <= j < n -> is_Some (slot_val c1 (slot_add (InBlock b o) j))).
  { intros j Hj. change (slot_add (InBlock b o) j) with (InBlock b (o + j)). rewrite Hval1 by lia. by eexists. }
  split; [done|]. pose proof (row_frame_row (Z.to_nat n) c1 (InBlock b o) v) as Hf. fold c2 in Hf.
  assert (Hbits : c_bits c2 = c_bits c) by (by rewrite (rf_frame _ _ _ Hf)).
  assert (Hi2 : indirect_ok c2 b) by (by eapply row_indirect).
  split.
  - split; [done|]. unfold ptrs_of. rewrite Hbits. fold (ptrs_of c). intros x Hx.
    pose proof (row_put_val (Z.to_nat n) c1 (InBlock b o) v (InBlock b x)) as Hrv.
    rewrite Z2Nat.id in Hrv by lia. fold c2 in Hrv. rewrite (table_val c2) in Hrv;
      [|by rewrite Hbits|done|unfold ptrs_of; by rewrite Hbits].
    specialize (Hrv ltac:(done) Hok Hv Hvn). cbn [same_table slot_index] in Hrv. rewrite Z.eqb_refl in Hrv.
    cbn [andb] in Hrv. rewrite Hval1 in Hrv by done. case_decide as Hd.
    + replace ((o <=? x) && (x <? o + n)) with true in Hrv by lia. congruence.
    + replace ((o <=? x) && (x <? o + n)) with false in Hrv by lia. congruence.
  - split.
    + assert (c_inodes c2 = c_inodes c) as Hci.
      { apply map_eq. intros j. by rewrite (rf_inodes _ _ _ Hf). }
      rewrite (rf_frame _ _ _ Hf) at 1. rewrite Hci. by destruct c.
    + intros b' Hb'. rewrite (rf_bufs _ _ _ Hf).
      * apply lookup_insert_ne. intros <-. apply Hb'. by constructor.
      * intros m [= <-]. apply Hb'. by constructor.
Qed.

Lemma is_table_same c c' b o n v : c_bits c' = c_bits c -> c_bufs c' !! b = c_bufs c !! b ->
  is_table c b o n v -> is_table c' b o n v.
Proof.
  intros Hb Hs [(d & Hd) Ht]. unfold is_table, indirect_ok, ptrs_of, table in *. rewrite Hb, Hs.
  split; [by exists d|done].
Qed.

Lemma forget_branch_spec l fs : runs (forget_branch l) E (fun _ fs' => core_of fs' = core_of fs) fs.
Proof.
  revert fs. induction l as [|[p k [b|]] l IH]; intros fs; cbn [forget_branch ind_bh]; [by step| |].
  - step. unfold log. step. eapply runs_mono; [apply IH|]. done.
  - step. step. apply IH.
Qed.

Lemma build_branch_spec ino indirect_blks num : 1 <= num -> forall offsets nbs n branch fs,
  let c := core_of fs in
  length nbs = S (length offsets) -> n = indirect_blks + 1 - len offsets -> 10 <= c_bits c ->
  NoDup nbs -> Forall (fun b => 0 <= b < 4294967296) nbs -> List.last nbs 0 + num <= 4294967296 ->
  Forall (fun o => 0 <= o < ptrs_of c) offsets -> List.last offsets 0 + num <= ptrs_of c ->
  is_Some (c_inodes c !! ino) ->
  runs (build_branch ino indirect_blks num n nbs offsets branch) E (fun r fs' =>
    scribbled (take (length offsets) nbs) c (core_of fs') /\
    (r.2 = true -> tables_built (core_of fs') nbs offsets num /\
      exists l, r.1 = branch ++ l /\ length l = length offsets /\
        (offsets <> [] -> ind_key (List.last l no_ind) = List.last nbs 0))) fs.
Proof.
  intros Hnum. induction offsets as [|o offsets IH];
    intros [|parent [|child nbs]] n branch fs c Hlen Hn Hbits Hnd Hr Hlast Ho Hlo Hino; try done.
  { cbn [build_branch]. step. split; [apply scribbled_refl|]. intros _. split; [done|].
    exists []. by rewrite app_nil_r. }
  cbn [build_branch]. destruct (sb_getblk_ok parent); cbn [negb].
  2: { step. split; [apply scribbled_refl|done]. }
  apply Forall_cons in Hr as [Hpr Hr]. apply Forall_cons in Ho as [Hoo Ho].
  apply NoDup_cons in Hnd as [Hpn Hnd]. pose proof Hr as [Hcr _]%Forall_cons.
  step. step. cbn [id]. step. apply runs_modify. cbv zeta.
  set (z := repeat 0 (Z.to_nat (fs_blocksize fs))). set (fs1 := set_fs_bufs _ fs).
  set (m := match offsets with [] => num | _ => 1 end).
  assert (Hm1 : 1 <= m /\ child + m <= 4294967296 /\ o + m <= ptrs_of c).
  { unfold m. destruct offsets; [|lia]. destruct nbs; [|done]. simpl in Hlast, Hlo. lia. }
  assert (Hz : z = repeat 0 (Z.to_nat (2 ^ c_bits c))).
  { unfold z, fs_blocksize. rewrite Z.shiftl_mul_pow2, Z.mul_1_l by (change (0 <= c_bits c); lia). done. }
  assert (Hcore1 : core_of fs1 = with_buf c parent (repeat 0 (Z.to_nat (2 ^ c_bits c)))) by by rewrite <- Hz.
  destruct (new_table c parent o m child Hbits) as (Hok & Htab & Hscr); [lia..|].
  rewrite u32_small by lia. rewrite <- Hcore1 in *.
  apply (write_row _ _ m); [done|lia|lia|lia| | |exact Hok|].
  { intros Heq. unfold m. destruct offsets; [done|]. rewrite Z.eqb_eq in Heq. unfold len in *. simpl in *. lia. }
  { intros Heq. unfold m. destruct offsets; [|done]. rewrite Z.eqb_neq in Heq. unfold len in *. simpl in *. lia. }
  intros fs2 Hfs2. rewrite <- Hfs2 in Htab, Hscr. step. step. step. apply runs_modify. cbv beta.
  set (fs3 := set_fs_trace _ _). assert (Hcore3 : core_of fs3 = core_of fs2) by done.
  assert (Hfr : c_bits (core_of fs2) = c_bits c /\ c_inodes (core_of fs2) = c_inodes c)
    by (by rewrite (sc_frame _ _ _ Hscr)). destruct Hfr as [Hb2 Hi2].
  destruct Hino as [i Hi]. assert (fs_inodes fs3 !! ino = Some i) as Hi3
    by (change (c_inodes (core_of fs3) !! ino = Some i); by rewrite Hcore3, Hi2).
  step. unfold inode_get. step. step. cbn [id]. rewrite Hi3. step. step. step. cbn [id]. step.
  assert (Hgo : forall fs4, core_of fs4 = core_of fs3 ->
    runs (build_branch ino indirect_blks num (n + 1) (child :: nbs) offsets
      (branch ++ [Ind (InBlock parent o) child (Some parent)])) E (fun r fs' =>
      scribbled (take (length (o :: offsets)) (parent :: child :: nbs)) c (core_of fs') /\
      (r.2 = true -> tables_built (core_of fs') (parent :: child :: nbs) (o :: offsets) num /\
        exists l, r.1 = branch ++ l /\ length l = length (o :: offsets) /\
          (o :: offsets <> [] -> ind_key (List.last l no_ind) = List.last (parent :: child :: nbs) 0))) fs4).
  { intros fs4 Hfs4. rewrite Hcore3 in Hfs4. eapply runs_mono.
    - apply (IH (child :: nbs)); unfold ptrs_of; rewrite ?Hfs4, ?Hb2, ?Hi2; try done.
      + simpl in *. lia.
      + unfold len in *. simpl in *. lia.
      + destruct offsets; [|done]. change (List.last [o] 0) with o in Hlo. change (List.last [] 0) with 0.
        fold (ptrs_of c). lia.
    - cbv beta. intros [br ok] fs5 [Hs5 Hok5]. rewrite Hfs4 in Hs5. split.
      + eapply scribbled_trans; [eapply scribbled_sub; [exact Hscr|]|eapply scribbled_sub; [exact Hs5|]].
        * intros b ->%list_elem_of_singleton. by left.
        * intros b Hb. by right.
      + intros Hokt. destruct (Hok5 Hokt) as (Ht5 & l & Hbr & Hll & Hkey). split.
        * split; [|done]. apply (is_table_same (core_of fs2)); [by rewrite (sc_frame _ _ _ Hs5)| |exact Htab].
          apply (sc_bufs _ _ _ Hs5). intros Hin. apply Hpn.
          by apply (subseteq_take (length offsets)).
        * cbn [fst] in *. exists (Ind (InBlock parent o) child (Some parent) :: l).
          split; [by rewrite Hbr, <- app_assoc|]. split; [simpl; lia|]. intros _.
          destruct offsets as [|o2 offsets]; [destruct l; [|done]; by destruct nbs|].
          destruct l; [done|]. apply Hkey. done. }
  unfold log. step; [step|]; by apply Hgo.
Qed.

(** ** Allocating a branch *)

Lemma last_nth k l : length l = S k -> List.last l 0 = nth k l 0.
Proof.
  revert k. induction l as [|x l IH]; intros k Hl; [done|]. destruct l as [|y l].
  - simpl in Hl. by assert (k = 0%nat) as -> by lia.
  - destruct k as [|k]; [done|]. simpl in Hl. change (List.last (x :: y :: l) 0) with (List.last (y :: l) 0).
    rewrite (IH k) by (simpl; lia). done.
Qed.

Lemma take_nth k l : length l = S k -> l = take k l ++ [nth k l 0].
Proof.
  intros Hl. rewrite <- (take_drop k l) at 1. f_equal.
  destruct (drop k l) as [|x [|y l']] eqn:Hd; pose proof (f_equal length Hd) as Hdl;
    rewrite length_drop in Hdl; simpl in Hdl; try lia.
  f_equal. rewrite <- (take_drop k l), Hd. rewrite app_nth2; rewrite length_take; [|lia].
  by replace (k - k `min` length l)%nat with 0%nat by lia.
Qed.

(** The blocks of a branch, as [kr_alloc_blocks] holds them. *)
Lemma held_blocks my bound c c1 k nbs num : holds my bound c c1 (take k nbs ++ run_of (nth k nbs 0) num) ->
  length nbs = S k -> 1 <= num -> blocks_ok c ->
  NoDup nbs /\ Forall (fun b => 0 <= b < 4294967296) nbs /\ List.last nbs 0 + num <= 4294967296 /\
  (forall b, b ∈ take k nbs ++ run_of (nth k nbs 0) num -> data_block c b /\ block_used c b = false).
Proof.
  intros Hh Hl Hn Hb. set (b0 := nth k nbs 0) in *.
  pose proof (ck_blocks32 c (bo_core _ Hb)) as H32. pose proof (ck_fdb c (bo_core _ Hb)) as Hf.
  pose proof (ho_blocks _ _ _ _ _ Hh) as Hblk. rewrite Forall_forall in Hblk.
  assert (Hdata : forall b, b ∈ take k nbs ++ run_of b0 num -> data_block c b /\ block_used c b = false)
    by (intros b Hin; destruct (Hblk b Hin) as (? & ? & ?); done).
  pose proof (take_nth k nbs Hl) as Hsplit. fold b0 in Hsplit.
  assert (Hin0 : forall j, 0 <= j < num -> b0 + j ∈ take k nbs ++ run_of b0 num)
    by (intros j Hj; apply elem_of_app; right; apply elem_run; lia).
  assert (Hsub : forall b, b ∈ nbs -> b ∈ take k nbs ++ run_of b0 num).
  { intros b. rewrite Hsplit at 1. rewrite !elem_of_app. intros [?|Hs]; [by left|].
    apply list_elem_of_singleton in Hs as ->.
    right. apply elem_run. lia. }
  split; [|split; [|split; [|done]]].
  - pose proof (ho_nodup _ _ _ _ _ Hh) as Hnd. apply NoDup_app in Hnd as (H1 & H2 & _). rewrite Hsplit.
    apply NoDup_app. split; [done|]. split; [|apply NoDup_singleton]. intros b Hin Hs.
    apply list_elem_of_singleton in Hs as ->. apply (H2 b0 Hin). apply elem_run. lia.
  - apply Forall_forall. intros b Hin. destruct (Hdata b (Hsub b Hin)) as [[? _] _]. lia.
  - rewrite (last_nth k) by done. fold b0. destruct (Hdata (b0 + (num - 1)) (Hin0 (num - 1) ltac:(lia))) as [[? _] _]. lia.
Qed.

Section Branch.
Variables (fs0 : krfs) (ino goal size blks : Z) (offsets : list Z) (first : Indirect).
Let c := core_of fs0.
Let my := inode_window fs0 ino.
Let limit := window_limit size (blks + len offsets) (len offsets + 1).

(** How [kr_alloc_branch] ends: [nbs] are the tables and the first block of data. *)
Definition branch_done (r : Z * list Indirect * Z) (c' : core) : Prop :=
  let '(err, branch, num) := r in
  (err = 0 /\ exists nbs c1 l, length nbs = S (length offsets) /\ 1 <= num <= blks /\
    holds my limit c c1 (take (length offsets) nbs ++ run_of (nth (length offsets) nbs 0) num) /\
    scribbled (take (length offsets) nbs) c1 c' /\ tables_built c' nbs offsets num /\
    branch = Ind (ind_p first) (hd 0 nbs) (ind_bh first) :: l /\ length l = length offsets /\
    ind_key (List.last branch no_ind) = nth (length offsets) nbs 0) \/
  (err <> 0 /\ exists c0 l, scribbled l c c0 /\
    (forall b, b ∈ l -> data_block c b /\ block_used c b = false) /\ holds my limit c0 c' []).

Hypothesis Hok : blocks_ok c.
Hypothesis Hready : ready my (c_rsv c) size.
Hypothesis Hread : forall g, 0 <= g < c_ngroups c -> ~ unreadable c g.
Hypothesis Hblks : 1 <= blks.
Hypothesis Hlimit : limit < 536870912.
Hypothesis Hoff : Forall (fun o => 0 <= o < ptrs_of c) offsets.
Hypothesis Hlast : List.last offsets 0 + blks <= ptrs_of c.
Hypothesis Hino : is_Some (c_inodes c !! ino).

(** The tables could not be made: all the blocks are given back. *)
Lemma branch_undone c1 nbs num branch fs : length nbs = S (length offsets) -> 1 <= num ->
  holds my limit c c1 (take (length offsets) nbs ++ run_of (nth (length offsets) nbs 0) num) ->
  scribbled (take (length offsets) nbs) c1 (core_of fs) ->
  runs (forget_branch (tail branch) ;;
        free_each ino (take (Z.to_nat (len offsets)) nbs) ;;
        kr_free_blocks ino (nth (Z.to_nat (len offsets)) nbs 0) num ;;
        mret (- ENOMEM, branch, blks)) E (fun r fs' => branch_done r (core_of fs')) fs.
Proof using HE Hok Hread BL RL.
  intros Hl Hn Hh Hs. replace (Z.to_nat (len offsets)) with (length offsets) by (unfold len; lia).
  destruct (held_blocks _ _ _ _ _ _ _ Hh Hl Hn Hok) as (_ & _ & _ & Hdata).
  destruct (holds_scribbled _ _ _ _ _ _ _ Hh Hs) as (c0 & Hs0 & Hh0); [|done|].
  { intros b Hb. apply Hdata. apply elem_of_app. by left. }
  assert (Hread0 : forall g, 0 <= g < c_ngroups c0 -> ~ unreadable c0 g).
  { intros g Hg. rewrite (sc_frame _ _ _ Hs0) in Hg. unfold unreadable. rewrite (sc_frame _ _ _ Hs0).
    by apply Hread. }
  step. eapply runs_mono; [apply forget_branch_spec|]. cbv beta. intros _ fs1 Hfs1. step.
  eapply runs_mono; [eapply (holds_free_each E HE my limit c0); [done|by rewrite Hfs1]|].
  cbv beta. intros _ fs2 Hh2. step. eapply runs_mono.
  { apply (holds_free_run E HE my limit c0 _ _ []); [done|by rewrite app_nil_r|done]. }
  cbv beta. intros _ fs3 Hh3. step. right. split; [done|]. exists c0, (take (length offsets) nbs).
  split; [done|]. split; [|done]. intros b Hb. apply Hdata. apply elem_of_app. by left.
Qed.

Lemma kr_alloc_branch_spec :
  runs (kr_alloc_branch ino (len offsets) blks goal offsets first) E
    (fun r fs' => branch_done r (core_of fs')) fs0.
Proof using All.
  unfold kr_alloc_branch. step. eapply runs_mono.
  { apply (kr_alloc_blocks_spec E HE fs0 ino goal size (len offsets) blks); try done. apply len_nonneg. }
  fold c my limit. cbv beta. intros [[nbs num] err] fs1 [(-> & Hl & Hn & Hh)|(He & _ & Hh)].
  2: { replace (err =? 0) with false by lia. cbn [negb]. step. right. split; [done|]. exists c, [].
       split; [apply scribbled_refl|]. split; [|done]. intros b Hb. by apply elem_of_nil in Hb. }
  assert (Hlen : length nbs = S (length offsets)) by (unfold len in Hl; lia).
  replace (Z.to_nat (len offsets)) with (length offsets) in Hh by (unfold len; lia).
  destruct (held_blocks _ _ _ _ _ _ _ Hh Hlen ltac:(lia) Hok) as (Hnd & Hr & Hlst & Hdata).
  pose proof (changed_geo _ _ (ho_changed _ _ _ _ _ Hh)) as (Gb & _ & _ & _ & _ & _ & Gi).
  cbn [Z.eqb negb]. cbv zeta. step. eapply runs_mono.
  { apply (build_branch_spec ino (len offsets) num); unfold ptrs_of; rewrite ?Gb, ?Gi; try done; try lia.
    apply (ck_bits c (bo_core _ Hok)). fold (ptrs_of c). lia. }
  cbv beta. intros [branch [|]] fs2 [Hs Hbt]; cbn [fst snd] in *.
  - destruct (Hbt eq_refl) as (Ht & l & -> & Hll & Hkey). step. left. split; [done|].
    assert (u32 (nth 0 nbs 0) = hd 0 nbs) as Hu.
    { destruct nbs as [|b nbs]; [done|]. apply Forall_cons in Hr as [Hb _]. by apply u32_small. }
    exists nbs, (core_of fs1), l. rewrite Hu. split_and!; try done; try lia.
    rewrite <- (last_nth (length offsets)) by done. cbn [app].
    destruct offsets as [|o offs] eqn:Hof.
    + destruct l; [|done]. cbn. destruct nbs as [|b [|]]; done.
    + destruct l as [|i0 l]; [done|]. change (List.last (?x :: i0 :: l) no_ind) with (List.last (i0 :: l) no_ind).
      by apply Hkey.
  - apply (branch_undone (core_of fs1)); [done|lia|done|done].
Qed.

End Branch.

End Facts.
