(* ===== verification/GetBlocks.v ===== *)
(** * Allocating the blocks of a file

    [kr_get_blocks] with [create]: the branch that is built hangs in the tree of the
    file, and the invariant of the file is kept. *)

From S2P Require Import Prelude Bits Kr Rsv Bitmap Alloc State Balloc BallocFacts NewBlocks BlockMap PathFacts BlockMapFacts AllocBranch FileTree BuildBranch.

(** Of an inode only the pointers, the place of the last allocation and the time of
    the change have changed. *)
Definition same_file (i i' : inode) : Prop :=
  i' = set_i_ctime (i_ctime i')
         (set_KR_I (set_i_data (i_data (KR_I i'))
            (set_i_block_alloc_info (i_block_alloc_info (KR_I i')) (KR_I i))) i).

Lemma same_file_refl i : same_file i i.
Proof. destruct i as [? ? ? ? ? ? ? ? ? ? ? ? ? ? ei]. by destruct ei. Qed.
Lemma same_file_trans i1 i2 i3 : same_file i1 i2 -> same_file i2 i3 -> same_file i1 i3.
Proof. unfold same_file. intros H1 H2. rewrite H2 at 1. rewrite H1. done. Qed.
Lemma same_file_data l i : same_file i (set_KR_I (set_i_data l (KR_I i)) i).
Proof. destruct i as [? ? ? ? ? ? ? ? ? ? ? ? ? ? ei]. by destruct ei. Qed.

(** The file [ino] has got the blocks of [news] at their paths: they were free, and
    nothing else has changed in its tree, in the blocks of other files, or in other
    inodes. *)
Record grown (c c' : core) (ino : Z) (i i' : inode) (news : list (list Z * Z)) : Prop := {
  gr_ok : blocks_ok c';
  gr_tree : tree_ok c' ino i';
  gr_same : same_file i i';
  gr_bits : c_bits c' = c_bits c;
  gr_data : forall b, data_block c' b <-> data_block c b;
  gr_new : forall q b, (q, b) ∈ news -> stem (ptrs_of c) q /\ tree c i q = 0 /\ tree c' i' q = b /\
    data_block c b /\ block_used c b = false;
  gr_old : forall q, stem (ptrs_of c) q -> q ∉ news.*1 -> tree c' i' q = tree c i q;
  gr_nodup : NoDup news.*2;
  gr_used : forall b, c_fdb c <= b < c_nblocks c ->
    block_used c' b = block_used c b || bool_decide (b ∈ news.*2);
  gr_count : c_sbi c' = set_s_freeblocks_counter (s_freeblocks_counter (c_sbi c) - len news) (c_sbi c);
  gr_bufs : forall b, data_block c b -> block_used c b = true ->
    (forall q, stem (ptrs_of c) q -> ~ path_ok (ptrs_of c) q -> tree c i q <> b) ->
    c_bufs c' !! b = c_bufs c !! b;
  gr_inodes : forall j, j <> ino -> c_inodes c' !! j = c_inodes c !! j;
}.

(** The block 0 is not free: it is outside of the groups, or holds the super block. *)
Definition zero_used (c : core) : Prop := c_fdb c <= 0 -> block_used c 0 = true.

(** Only the inodes and blocks of data have changed. *)
Lemma data_written c c' (l : list Z) : c' = set_c_inodes (c_inodes c') (set_c_bufs (c_bufs c') c) ->
  (forall b, b ∉ l -> c_bufs c' !! b = c_bufs c !! b) -> (forall b, b ∈ l -> ~ is_metadata c b) ->
  blocks_ok c ->
  blocks_ok c' /\ (forall b, c_fdb c <= b < c_nblocks c -> block_used c' b = block_used c b).
Proof.
  intros F Hb Hl Hok. assert (Hs : scribbled l c (set_c_inodes (c_inodes c) c')).
  { split; [rewrite F at 1; by destruct c|done]. }
  split.
  - assert (c' = set_c_inodes (c_inodes c') (set_c_inodes (c_inodes c) c')) as -> by by destruct c'.
    apply blocks_ok_inodes. by eapply scribbled_ok.
  - intros b Hbr. rewrite <- (scribbled_used l c _ b Hs Hl (bo_core _ Hok) Hbr). done.
Qed.

Lemma tables_built_same c c' num rest : c_bits c' = c_bits c -> forall nbs,
  (forall b, b ∈ take (length rest) nbs -> c_bufs c' !! b = c_bufs c !! b) ->
  tables_built c nbs rest num -> tables_built c' nbs rest num.
Proof.
  intros Hb. induction rest as [|o rest IH]; intros [|b [|child nbs]] Hs Ht; try done.
  cbn [tables_built] in *. destruct Ht as [Ht1 Ht2]. split.
  - apply (is_table_same c); [done| |done]. apply Hs. by left.
  - apply (IH (child :: nbs)); [|exact Ht2]. intros x Hx. apply Hs. by right.
Qed.

(** The blocks that are held have not been in a file. *)
Lemma holds_kept my bound c c2 c3 l l' : blocks_ok c -> holds my bound c c2 l -> scribbled l' c2 c3 ->
  (forall b, b ∈ l' -> b ∈ l) ->
  kept c c3 /\ blocks_ok c3 /\ c_inodes c3 = c_inodes c /\ c_sbi c3 = c_sbi c2 /\
  (forall b, c_fdb c <= b < c_nblocks c -> block_used c3 b = block_used c b || bool_decide (b ∈ l)).
Proof.
  intros Hok [H1 H2 H3 H4 H5 H6 H7] Hs Hl. rewrite Forall_forall in H4.
  destruct (changed_geo _ _ H2) as (Gb & _ & _ & Gf & Gn & _ & Gi).
  assert (Hm : forall b, is_metadata c3 b <-> is_metadata c b).
  { intros b. rewrite <- (is_metadata_changed c c2 b H2). by rewrite (sc_frame _ _ _ Hs). }
  assert (Hl2 : forall b, b ∈ l' -> ~ is_metadata c2 b).
  { intros b Hb Hmb. apply (is_metadata_changed c c2 b H2) in Hmb. by apply (H4 b (Hl b Hb)). }
  assert (Hfr : c_bits c3 = c_bits c2 /\ c_fdb c3 = c_fdb c2 /\ c_nblocks c3 = c_nblocks c2 /\
    c_inodes c3 = c_inodes c2 /\ c_sbi c3 = c_sbi c2) by by rewrite (sc_frame _ _ _ Hs).
  destruct Hfr as (Fb & Ff & Fn & Fi & Fs).
  assert (Hu : forall b, c_fdb c <= b < c_nblocks c -> block_used c3 b = block_used c b || bool_decide (b ∈ l)).
  { intros b Hb. rewrite (scribbled_used l' c2 c3 b Hs Hl2 (bo_core _ H1)) by (rewrite Gf, Gn; done). by apply H6. }
  split; [|split; [by eapply scribbled_ok|split; [congruence|split; done]]]. split.
  - congruence.
  - intros b. unfold data_block. rewrite Hm, Ff, Fn, Gf, Gn. done.
  - intros b [Hb _] Hub. rewrite Hu by done. by rewrite Hub.
  - intros b [Hb Hmb] Hub. rewrite (sc_bufs _ _ _ Hs); [by apply H2|]. intros Hin.
    destruct (H4 b (Hl b Hin)) as (_ & _ & Hf). congruence.
Qed.

Section Hang.
Variables (c : core) (ino : Z) (i : inode) (pre rest : list Z) (o : Z).
Let p := pre ++ [o].
Hypothesis Hok : blocks_ok c.
Hypothesis Hz : zero_used c.
Hypothesis Ht : tree_ok c ino i.
Hypothesis Hpath : path_ok (ptrs_of c) (p ++ rest).
Hypothesis Hmiss : tree c i p = 0.
Hypothesis Hpre : pre <> [] -> tree c i pre <> 0.

Variables (my : option Z) (bound : Z) (c2 c3 : core) (nbs : list Z) (num : Z).
Let held := take (length rest) nbs ++ run_of (nth (length rest) nbs 0) num.
Let n := match rest with [] => num | _ => 1 end.
Hypothesis Hnum : 1 <= num.
Hypothesis Hlen : length nbs = S (length rest).
Hypothesis Hlast : List.last (p ++ rest) 0 + num <= last_table (ptrs_of c) (p ++ rest).
Hypothesis Hzero : rest = [] -> forall k, 0 <= k < num -> tree c i (pre ++ [o + k]) = 0.
Hypothesis Hholds : holds my bound c c2 held.
Hypothesis Hscr : scribbled (take (length rest) nbs) c2 c3.
Hypothesis Hbuilt : tables_built c3 nbs rest num.

Let c4 := row_put c3 (slot_of c ino i pre o) (Z.to_nat n) (hd 0 nbs).
Let news := branch_news p nbs rest num.

Lemma hang_stems k : 0 <= k < n -> stem (ptrs_of c) (pre ++ [o + k]).
Proof using All.
  intros Hk. unfold n in Hk. destruct rest as [|o2 rest'] eqn:Hr.
  - rewrite app_nil_r in *. unfold p in *. rewrite last_last in Hlast. apply stem_path, path_next_ok; [done|lia..].
  - replace (o + k) with o by lia. apply (stem_app _ _ (o2 :: rest')); [by destruct pre|]. by apply stem_path.
Qed.

Lemma hang_n : 1 <= n.
Proof using Hnum. unfold n. clear - Hnum. destruct rest; lia. Qed.

Lemma hang_key : 0 <= hd 0 nbs /\ hd 0 nbs + n <= 4294967296.
Proof using All.
  destruct (held_blocks my bound c c2 (length rest) nbs num Hholds Hlen Hnum Hok) as (_ & Hr & Hl & _).
  destruct nbs as [|b nbs'] eqn:Hn; [done|]. apply Forall_cons in Hr as [Hb _]. unfold n. cbn [hd].
  destruct rest; [|lia]. destruct nbs'; [|done]. simpl in Hl. lia.
Qed.

(** The tree before the branch hangs is the tree of the file. *)
Lemma hang_before : (forall q, stem (ptrs_of c) q -> tree c3 i q = tree c i q) /\ tree_ok c3 ino i /\
  kept c c3 /\ ptrs_of c3 = ptrs_of c /\ slot_of c ino i pre o = slot_of c3 ino i pre o /\
  (pre <> [] -> tree c3 i pre <> 0).
Proof using All.
  pose proof hang_stems as Hst. pose proof hang_n as Hn1.
  destruct (holds_kept my bound c c2 c3 held (take (length rest) nbs) Hok Hholds Hscr) as (Hk & _ & Hi & _).
  { intros b Hb. apply elem_of_app. by left. }
  pose proof (tree_kept c c3 ino i i Ht Hk eq_refl) as Htree.
  assert (Hs : pre <> [] -> stem (ptrs_of c) pre).
  { intros Hp. apply (stem_app _ _ [o + 0]); [done|]. apply Hst. lia. }
  split; [done|]. split; [apply (tree_ok_kept c c3 ino i i); try done; rewrite Hi; apply Ht|].
  split; [done|]. split; [unfold ptrs_of; by rewrite (kp_bits _ _ Hk)|]. split.
  - unfold slot_of. destruct pre as [|a pre'] eqn:Hp; [done|]. rewrite <- Hp in *. rewrite Htree; [done|].
    apply Hs. by rewrite Hp.
  - intros Hp. rewrite Htree by auto. by apply Hpre.
Qed.

Lemma hang_slots j : 0 <= j < n -> is_Some (slot_val c3 (slot_add (slot_of c ino i pre o) j)).
Proof using All.
  intros Hj. destruct hang_before as (Htree & Ht3 & Hk & Hptrs & Hslot & Hp3). rewrite Hslot.
  replace (slot_add (slot_of c3 ino i pre o) j) with (slot_of c3 ino i pre (o + j)) by by destruct pre.
  eexists. apply slot_of_val; [done| |rewrite Hptrs; by apply hang_stems|done].
  rewrite (kp_bits _ _ Hk). apply (ck_bits c (bo_core _ Hok)).
Qed.

Lemma hang_row : exists i4, c_inodes c4 !! ino = Some i4 /\ same_file i i4 /\
  len (i_data (KR_I i4)) = KR_N_BLOCKS /\ Forall (fun v => 0 <= v < 4294967296) (i_data (KR_I i4)) /\
  (forall b, indirect_ok c3 b -> indirect_ok c4 b) /\
  (forall q, stem (ptrs_of c) q -> tree c3 i q = tree c i q) /\ tree_ok c3 ino i /\
  rehung (ptrs_of c) c3 c4 i i4 pre o n (hd 0 nbs).
Proof using All.
  pose proof hang_key as Hhd. destruct hang_before as (Htree & Ht3 & Hk & Hptrs & Hslot & Hp3).
  unfold c4. rewrite Hslot.
  destruct (row_rehung c3 ino i pre o n (hd 0 nbs) Ht3) as (i4 & H1 & (l & H2) & H3 & H4 & H5 & H6); try lia.
  - rewrite (kp_bits _ _ Hk). apply (ck_bits c (bo_core _ Hok)).
  - apply hang_n.
  - rewrite Hptrs. apply hang_stems.
  - done.
  - exists i4. rewrite Hptrs in H6. split_and!; try done. rewrite H2. apply same_file_data.
Qed.

(** The held blocks are new to every tree. *)
Lemma hang_fresh b : b ∈ held -> data_block c b /\ block_used c b = false /\ b <> 0 /\
  forall q, stem (ptrs_of c) q -> tree c i q <> b.
Proof using All.
  intros Hb. destruct (held_blocks my bound c c2 (length rest) nbs num Hholds Hlen Hnum Hok) as (_ & _ & _ & Hd).
  destruct (Hd b Hb) as [Hdb Hub]. assert (Hnz : b <> 0).
  { intros ->. destruct Hdb as [Hr _]. rewrite Hz in Hub; [done|lia]. }
  split_and!; [done|done|done|]. intros q Hs Hq.
  destruct (tk_block _ _ _ Ht q Hs ltac:(by rewrite Hq)) as [_ Hu]. rewrite Hq in Hu. congruence.
Qed.

(** The tables of the branch are not where it hangs. *)
Lemma hang_built : tables_built c4 nbs rest num.
Proof using All.
  pose proof hang_stems as Hst. pose proof hang_fresh as Hfr. pose proof hang_n.
  pose proof (row_frame_row (Z.to_nat n) c3 (slot_of c ino i pre o) (hd 0 nbs)) as Hrf. fold c4 in Hrf.
  apply (tables_built_same c3); [by rewrite (rf_frame _ _ _ Hrf)| |done].
  intros b Hb. apply (rf_bufs _ _ _ Hrf). intros m Hm.
  destruct (Hfr b ltac:(apply elem_of_app; by left)) as (_ & _ & _ & Hno).
  apply (Hno pre); [|unfold slot_of in Hm; destruct pre; [done|by injection Hm]].
  apply (stem_app _ _ [o + 0]); [by intros ->|]. apply Hst. lia.
Qed.

Section Tree.
Variable i4 : inode.
Hypothesis Hreh : rehung (ptrs_of c) c3 c4 i i4 pre o n (hd 0 nbs).
Hypothesis Htree : forall q, stem (ptrs_of c) q -> tree c3 i q = tree c i q.

Definition hung : Prop :=
  (forall q v, (q, v) ∈ news -> tree c4 i4 q = v) /\
  (forall q, stem (ptrs_of c) q -> q ∉ news.*1 -> tree c4 i4 q = tree c i q).

Lemma hang_pre : pre <> [] -> tree c3 i pre <> 0.
Proof using All.
  intros Hne. pose proof hang_n. rewrite Htree; [by apply Hpre|].
  apply (stem_app _ _ [o + 0]); [done|]. apply hang_stems. lia.
Qed.

(** The blocks of data go to pointers that are there. *)
Lemma hang_data : rest = [] -> hung.
Proof using All.
  intros Hr. pose proof hang_stems as Hst. assert (n = num) as Hnn by (unfold n; by rewrite Hr).
  assert (Hone : exists b, nbs = [b]) by (rewrite Hr in Hlen; destruct nbs as [|b [|]]; [done|by exists b|done]).
  destruct Hone as [b Hb]. unfold hung, news. rewrite Hr, Hb. split.
  - intros q v Hq. apply (branch_news_row pre o b []) in Hq as (k & Hk & -> & ->).
    replace b with (hd 0 nbs) by by rewrite Hb.
    apply (rehung_row _ _ _ _ _ _ _ _ _ Hreh hang_pre); [lia|]. apply Hst. lia.
  - intros q Hs Hq. rewrite (rehung_other _ _ _ _ _ _ _ _ _ Hreh q Hs); [by apply Htree|].
    intros k Hk [r ->]. assert (path_ok (ptrs_of c) (pre ++ [o + k])) as Hpk.
    { rewrite Hr, app_nil_r in Hpath, Hlast. unfold p in *. rewrite last_last in Hlast.
      apply path_next_ok; [done|lia|lia]. }
    destruct Hs as [_ [r' Hr']]. rewrite <- app_assoc in Hr'.
    apply (path_ends _ _ _ Hpk), app_eq_nil in Hr' as [-> _]. apply Hq. rewrite app_nil_r.
    apply elem_fst. exists (b + k). apply (branch_news_row pre o b []). exists k. split; [lia|done].
Qed.

(** New tables hang at a pointer that is there. *)
Lemma hang_tables : rest <> [] -> hung.
Proof using All.
  intros Hr. pose proof hang_stems as Hst. pose proof hang_built as Hb4. pose proof hang_fresh as Hfr.
  assert (n = 1) as Hnn by (unfold n; by destruct rest).
  assert (Hp0 : stem (ptrs_of c) p) by (unfold p; replace o with (o + 0) by lia; apply Hst; lia).
  assert (Hroot : tree c4 i4 p = hd 0 nbs).
  { pose proof (rehung_row _ _ _ _ _ _ _ _ _ Hreh hang_pre 0 ltac:(lia)) as Hrow.
    rewrite !Z.add_0_r in Hrow. by apply Hrow. }
  assert (Hptrs : ptrs_of c4 = ptrs_of c).
  { unfold ptrs_of, c4. rewrite (rf_frame _ _ _ (row_frame_row _ _ _ _)). cbn [c_bits set_c_inodes set_c_bufs].
    by rewrite (sc_frame _ _ _ Hscr), (bc_frame _ _ (ho_changed _ _ _ _ _ Hholds)). }
  destruct (branch_tree c4 i4 num rest p nbs) as [HA HB]; rewrite ?Hptrs; try done.
  - by destruct pre.
  - assert (last_table (ptrs_of c) (p ++ rest) = ptrs_of c) as Hlt; [|lia].
    unfold p. rewrite <- app_assoc. destruct rest; [done|]. by destruct pre as [|? [|]].
  - destruct (held_blocks my bound c c2 (length rest) nbs num Hholds Hlen Hnum Hok) as (Hnd & _).
    apply Forall_forall. intros b Hb. destruct (Hfr b) as (_ & _ & ? & _); [|done].
    rewrite (take_nth (length rest) nbs Hlen) in Hb. apply elem_of_app in Hb as [Hb|Hb].
    { apply elem_of_app. by left. }
    apply list_elem_of_singleton in Hb as ->. apply elem_of_app. right. apply elem_run. lia.
  - rewrite Hptrs in HB. split; [exact HA|]. intros q Hs Hq. destruct (decide (p `prefix_of` q)) as [Hpq|Hpq].
    + rewrite HB by done. destruct Hpq as [r ->]. symmetry. apply tree_app_zero; [by destruct pre|done].
    + rewrite (rehung_other _ _ _ _ _ _ _ _ _ Hreh q Hs); [by apply Htree|].
      intros k Hk Hpk. apply Hpq. unfold p. by replace o with (o + k) by lia.
Qed.

Lemma hang_hung : hung.
Proof using All. destruct (decide (rest = [])); [by apply hang_data|by apply hang_tables]. Qed.

End Tree.

(** What the row of the branch and the last change of the inode leave of [c3]. *)
Lemma hang_written c5 : c5 = set_c_inodes (c_inodes c5) c4 ->
  (forall b, block_used c b = true -> data_block c b ->
     (forall q, stem (ptrs_of c) q -> ~ path_ok (ptrs_of c) q -> tree c i q <> b) -> c_bufs c5 !! b = c_bufs c3 !! b) /\
  blocks_ok c5 /\ (forall b, data_block c5 b <-> data_block c3 b) /\ c_sbi c5 = c_sbi c3 /\ c_bits c5 = c_bits c3 /\
  (forall b, c_fdb c3 <= b < c_nblocks c3 -> block_used c5 b = block_used c3 b).
Proof using All.
  intros F5. pose proof hang_stems as Hst. pose proof hang_n as Hn1.
  destruct (holds_kept my bound c c2 c3 held (take (length rest) nbs) Hok Hholds Hscr) as (Hk & Hok3 & _).
  { intros b Hb. apply elem_of_app. by left. }
  pose proof (row_frame_row (Z.to_nat n) c3 (slot_of c ino i pre o) (hd 0 nbs)) as Hrf. fold c4 in Hrf.
  assert (F : c5 = set_c_inodes (c_inodes c5) (set_c_bufs (c_bufs c5) c3)).
  { rewrite F5 at 1. rewrite (rf_frame _ _ _ Hrf). by rewrite F5, (rf_frame _ _ _ Hrf). }
  assert (Hb5 : c_bufs c5 = c_bufs c4) by by rewrite F5.
  assert (Hpres : pre <> [] -> stem (ptrs_of c) pre /\ ~ path_ok (ptrs_of c) pre).
  { intros Hne. apply (stem_inner _ pre [o + 0]); [done|done|]. apply Hst. lia. }
  assert (Hslot : forall b m, slot_of c ino i pre o = InBlock b m -> pre <> [] /\ b = tree c i pre).
  { intros b m Hm. unfold slot_of in Hm. destruct pre; [done|]. by injection Hm as <- _. }
  split.
  { intros b Hu Hd Hno. rewrite Hb5. apply (rf_bufs _ _ _ Hrf). intros m Hm.
    destruct (Hslot b m Hm) as [Hne ->]. destruct (Hpres Hne). by apply (Hno pre). }
  destruct (data_written c3 c5 (match pre with [] => [] | _ => [tree c i pre] end) F) as [H1 H2]; [| |done|].
  - intros b Hb. rewrite Hb5. apply (rf_bufs _ _ _ Hrf). intros m Hm. destruct (Hslot b m Hm) as [Hne ->].
    apply Hb. destruct pre; [done|]. by apply list_elem_of_singleton.
  - intros b Hb Hm. destruct (decide (pre = [])) as [He|Hne].
    { clear - He Hb. rewrite He in Hb. by apply elem_of_nil in Hb. }
    assert (b = tree c i pre) as -> by (destruct pre; [done|]; by apply list_elem_of_singleton in Hb).
    destruct (tk_block _ _ _ Ht pre (proj1 (Hpres Hne)) (Hpre Hne)) as [Hd _].
    by apply (kp_data _ _ Hk) in Hd as [_ Hd].
  - split; [done|]. split; [|split; [by rewrite F|split; [by rewrite F|done]]].
    intros b. unfold data_block, is_metadata. by rewrite F.
Qed.

Lemma hang_new q b : (q, b) ∈ news -> b ∈ held /\ stem (ptrs_of c) q /\ tree c i q = 0 /\
  (~ path_ok (ptrs_of c) q -> indirect_ok c4 b).
Proof using All.
  intros Hq. assert (Hp : p <> []) by (unfold p; by destruct pre).
  assert (Hb : b ∈ held).
  { unfold held. rewrite <- (branch_news_blocks num rest p nbs Hlen). apply list_elem_of_fmap. by exists (q, b). }
  assert (Hq1 : q ∈ news.*1) by (apply elem_fst; by exists b).
  destruct (branch_news_stems (ptrs_of c) num rest p nbs q Hp Hpath Hlast Hq1) as (Hs & _ & Hpq & Hpk).
  split; [done|]. split; [done|]. split.
  - destruct (decide (rest = [])) as [Hr|Hr].
    + unfold news in Hq. destruct nbs as [|b0 nbs'] eqn:Hn; [done|]. rewrite Hr in Hq.
      apply (branch_news_row pre o b0 nbs') in Hq as (k & Hk & -> & _). by apply Hzero.
    + destruct (Hpq Hr) as [r ->]. by apply tree_app_zero.
  - intros Hn. apply (branch_news_tables c4 num rest p nbs q b Hlen Hp hang_built Hq). by rewrite <- Hpk.
Qed.

Lemma hang_grown g : (forall i, same_file i (g i) /\ i_data (KR_I (g i)) = i_data (KR_I i)) ->
  let c5 := set_c_inodes (alter g ino (c_inodes c4)) c4 in
  exists i5, grown c c5 ino i i5 news.
Proof using All.
  intros Hg c5. destruct hang_row as (i4 & R1 & R2 & R3 & R4 & R5 & R6 & R7 & R8).
  destruct (hang_hung i4 R8 R6) as [HA HB]. destruct (hang_written c5 eq_refl) as (W1 & W2 & W3 & W4 & W5 & W6).
  destruct (holds_kept my bound c c2 c3 held (take (length rest) nbs) Hok Hholds Hscr) as (Hk & _ & Hi3 & Hs3 & Hu3).
  { intros b Hb. apply elem_of_app. by left. }
  pose proof (branch_news_blocks num rest p nbs Hlen) as Hblk. fold news held in Hblk.
  assert (H5 : forall q, tree c5 (g i4) q = tree c4 i4 q).
  { intros q. destruct (Hg i4) as [_ Hd]. unfold tree. rewrite Hd. destruct q as [|x q]; [done|].
    generalize (nth (Z.to_nat x) (i_data (KR_I i4)) 0). induction q as [|y q IH]; intros v; [done|].
    cbn [walk]. destruct (v =? 0); [done|]. apply IH. }
  assert (Hptrs : ptrs_of c3 = ptrs_of c) by (unfold ptrs_of; by rewrite (kp_bits _ _ Hk)).
  assert (Hused : forall b, c_fdb c <= b < c_nblocks c ->
    block_used c5 b = block_used c b || bool_decide (b ∈ news.*2)).
  { intros b Hb. rewrite Hblk, <- Hu3 by done. apply W6.
    rewrite (sc_frame _ _ _ Hscr). destruct (changed_geo _ _ (ho_changed _ _ _ _ _ Hholds)) as (_ & _ & _ & Gf & Gn & _).
    cbn [c_fdb c_nblocks set_c_bufs]. by rewrite Gf, Gn. }
  assert (Hd3 : forall b, data_block c3 b <-> data_block c b) by apply Hk.
  assert (Hnew : forall q b, (q, b) ∈ news -> data_block c b /\ block_used c b = false)
    by (intros q b Hq; destruct (hang_new q b Hq) as (Hb & _); by destruct (hang_fresh b Hb) as (? & ? & _)).
  exists (g i4). split.
  - done.
  - apply (tree_ok_news c3 c5 ino i (g i4) news R7); rewrite ?Hptrs.
    + unfold ptrs_of. rewrite W5. fold (ptrs_of c3). done.
    + done.
    + intros b Hd Hu. apply Hd3 in Hd as [Hd _]. rewrite W6; [done|].
      rewrite (sc_frame _ _ _ Hscr). destruct (changed_geo _ _ (ho_changed _ _ _ _ _ Hholds)) as (_ & _ & _ & Gf & Gn & _).
      cbn [c_fdb c_nblocks set_c_bufs]. by rewrite Gf, Gn.
    + unfold c5. cbn [c_inodes set_c_inodes]. by rewrite lookup_alter_eq, R1.
    + by rewrite (proj2 (Hg i4)).
    + by rewrite (proj2 (Hg i4)).
    + intros q v Hq. rewrite H5, (HA q v Hq). destruct (Hnew q v Hq) as [Hd _].
      split; [done|]. split; [by apply Hd3|]. split.
      * rewrite Hused by apply Hd. rewrite bool_decide_eq_true_2; [apply orb_true_r|].
        apply list_elem_of_fmap. by exists (q, v).
      * intros _ Hn. destruct (hang_new q v Hq) as (_ & _ & _ & Hi). by apply Hi.
    + intros q v Hq q' Hs'. rewrite R6 by done. destruct (hang_new q v Hq) as (Hb & _).
      by apply (hang_fresh v Hb).
    + intros q Hs Hq. rewrite H5, R6 by done. by apply HB.
    + rewrite Hblk. apply Hholds.
    + intros q Hs Hn Hnz. apply (R5 (tree c3 i q)). apply (tk_table _ _ _ R7); rewrite ?Hptrs; done.
  - eapply same_file_trans; [exact R2|]. apply Hg.
  - rewrite W5. apply Hk.
  - intros b. by rewrite W3, Hd3.
  - intros q b Hq. rewrite H5, (HA q b Hq). destruct (hang_new q b Hq) as (_ & Hs & Hz0 & _). 
    by destruct (Hnew q b Hq).
  - intros q Hs Hq. rewrite H5. by apply HB.
  - rewrite Hblk. apply Hholds.
  - done.
  - rewrite W4, Hs3, (ho_sbi _ _ _ _ _ Hholds). rewrite <- Hblk. unfold len. by rewrite length_fmap.
  - intros b Hd Hu Hno. rewrite W1 by done. by apply Hk.
  - intros j Hj. unfold c5. cbn [c_inodes set_c_inodes]. rewrite lookup_alter_ne by done. rewrite <- Hi3.
    apply (rf_inodes _ _ _ (row_frame_row _ _ _ _)). intros m Hm. unfold slot_of in Hm.
    destruct pre; [|done]. by injection Hm as <- _.
Qed.

End Hang.

(** A branch that could not be had leaves the file as it was. *)
Lemma not_grown my bound c c0 c' ino i l : blocks_ok c -> tree_ok c ino i -> scribbled l c c0 ->
  (forall b, b ∈ l -> data_block c b /\ block_used c b = false) -> holds my bound c0 c' [] ->
  grown c c' ino i i [].
Proof.
  intros Hok Ht Hs Hl Hh.
  assert (Hm : forall b, b ∈ l -> ~ is_metadata c b) by (intros b Hb; apply (Hl b Hb)).
  pose proof (scribbled_ok l c c0 Hs Hm Hok) as Hok0.
  pose proof (scribbled_used l c c0) as Hu0.
  destruct (holds_kept my bound c0 c' c' [] [] Hok0 Hh (scribbled_refl _ _)) as (Hk & Hok' & Hi & _ & Hu); [done|].
  assert (Hfr : c_bits c0 = c_bits c /\ c_fdb c0 = c_fdb c /\ c_nblocks c0 = c_nblocks c /\ c_inodes c0 = c_inodes c /\
    c_sbi c0 = c_sbi c /\ forall b, data_block c0 b <-> data_block c b)
    by (unfold data_block, is_metadata; by rewrite (sc_frame _ _ _ Hs)).
  destruct Hfr as (Gb & Gf & Gn & Gi & Gs & Gd). rewrite Gf, Gn in Hu.
  assert (Hu' : forall b, c_fdb c <= b < c_nblocks c -> block_used c' b = block_used c b).
  { intros b Hb. rewrite Hu by done. rewrite (Hu0 b Hs Hm (bo_core _ Hok) Hb).
    rewrite bool_decide_eq_false_2 by (by intros ?%elem_of_nil). apply orb_false_r. }
  assert (Hk' : kept c c').
  { split.
    - rewrite (kp_bits _ _ Hk). done.
    - intros b. by rewrite (kp_data _ _ Hk), Gd.
    - intros b [Hb _] Hub. by rewrite Hu'.
    - intros b Hd Hub. rewrite (kp_bufs _ _ Hk).
      + apply (sc_bufs _ _ _ Hs). intros Hin. destruct (Hl b Hin). congruence.
      + by apply Gd.
      + rewrite (Hu0 b Hs Hm (bo_core _ Hok)); [done|apply Hd]. }
  split; try done.
  - apply (tree_ok_kept c c' ino i i); try done. rewrite Hi, Gi. apply Ht.
  - apply same_file_refl.
  - apply Hk'.
  - apply Hk'.
  - intros q b Hin. by apply elem_of_nil in Hin.
  - intros q Hsq _. by apply (tree_kept c c' ino i i).
  - apply NoDup_nil_2.
  - intros b Hb. rewrite Hu' by done. rewrite bool_decide_eq_false_2; [by rewrite orb_false_r|]. by intros ?%elem_of_nil.
  - rewrite (ho_sbi _ _ _ _ _ Hh), Gs. done.
  - intros b Hd Hub _. by apply Hk'.
  - intros j _. by rewrite Hi, Gi.
Qed.

(** The window that is made first does not matter. *)
Lemma tree_window c r ins i i1 : i_data (KR_I i1) = i_data (KR_I i) ->
  forall q, tree (set_c_inodes ins (set_c_rsv r c)) i1 q = tree c i q.
Proof.
  intros Hd q. destruct q as [|x q]; [done|]. unfold tree. rewrite Hd.
  generalize (nth (Z.to_nat x) (i_data (KR_I i)) 0). induction q as [|y q IH]; intros v; [done|].
  cbn [walk]. destruct (v =? 0); [done|]. apply IH.
Qed.

Lemma grown_after c c' ino i i1 i' news r ins : grown (set_c_inodes ins (set_c_rsv r c)) c' ino i1 i' news ->
  same_file i i1 -> i_data (KR_I i1) = i_data (KR_I i) -> (forall j, j <> ino -> ins !! j = c_inodes c !! j) ->
  grown c c' ino i i' news.
Proof.
  intros [H1 H2 H3 H4 H5 H6 H7 H8 H9 H10 H11 H12] Ht Hd Hins.
  pose proof (tree_window c r ins i i1 Hd) as Htree.
  split; try done.
  - by eapply same_file_trans.
  - intros q b Hq. destruct (H6 q b Hq) as (? & ? & ? & ? & ?). rewrite Htree in *. done.
  - intros q Hs Hq. rewrite <- Htree. by apply H7.
  - intros b Hdb Hu Hno. apply H11; [done|done|]. intros q. rewrite Htree. apply Hno.
  - intros j Hj. rewrite H12 by done. by apply Hins.
Qed.

Section Facts.
Context {B : BitOps} {BL : BitLaws B} {R : RbTree} {RL : RbLaws R} {T : Trylock} {K : Kernel}.
Variable E : stop -> Prop.
Hypothesis HE : E Panic.

(** ** The window of the file *)

(** [kmalloc] gives an address that is not in use. *)
Definition fresh_addr (st : rsvst) : Prop :=
  kmalloc_addr st <> rsv_head /\ rsv_store st !! kmalloc_addr st = None.

Lemma new_window st a b : rsv_wf st -> a <> rsv_head -> rsv_store st !! a = None ->
  let st' := rsv_put a (init_window b) st in
  rsv_wf st' /\ rsv_at st' a = init_window b.
Proof.
  intros Hwf Ha Hn st'. split; [|by apply rsv_at_put_eq].
  assert (Hnot : a ∉ wins st).
  { intros Hin. apply (wf_linked _ Hwf a Ha) in Hin. apply Hin. unfold rsv_at. by rewrite Hn. }
  assert (Hat : forall m, m ∈ wins st -> rsv_at st' m = rsv_at st m)
    by (intros m Hm; apply rsv_at_put_ne; by intros ->).
  destruct Hwf as [[H1 H2] H3 H4 H5]. split; [split| | |]; change (wins st') with (wins st).
  - revert H1 Hat. clear. induction (wins st) as [|x l IH]; intros Hs Hat; [constructor|].
    inversion_clear Hs as [|? ? Hs1 Hx]. constructor.
    + apply IH; [done|]. intros m Hm. apply Hat. by right.
    + rewrite Forall_forall in Hx |- *. intros y Hy. unfold before. rewrite !Hat by (by constructor).
      by apply Hx.
  - rewrite Forall_forall in H2 |- *. intros m Hm. rewrite Hat by done. by apply H2.
  - done.
  - unfold st'. by rewrite rsv_at_put_ne.
  - intros m Hm. destruct (decide (m = a)) as [->|Hne].
    + unfold st'. rewrite rsv_at_put_eq. split; [done|]. intros Hz. by destruct Hz.
    + unfold st'. rewrite rsv_at_put_ne by done. by apply H5.
Qed.

(** The file can allocate: its window is well-formed, or a new one is made. *)
Definition can_grow (fs : krfs) (ino : Z) (i : inode) (size : Z) : Prop :=
  ready (inode_window fs ino) (fs_rsv fs) size /\
  (S_ISREG (i_mode i) = true -> i_block_alloc_info (KR_I i) = None ->
     rsv_wf (fs_rsv fs) /\ fresh_addr (fs_rsv fs)).

Lemma init_window_spec fs ino i size : fs_inodes fs !! ino = Some i -> can_grow fs ino i size ->
  runs (when (S_ISREG (i_mode i) && negb (bool_decide (is_Some (i_block_alloc_info (KR_I i)))))
          (kr_init_block_alloc_info ino (kmalloc_addr (fs_rsv fs)))) E (fun _ fs1 =>
    exists i1 r ins, core_of fs1 = set_c_inodes ins (set_c_rsv r (core_of fs)) /\ ins !! ino = Some i1 /\
      same_file i i1 /\ i_data (KR_I i1) = i_data (KR_I i) /\
      (forall j, j <> ino -> ins !! j = c_inodes (core_of fs) !! j) /\
      ready (inode_window fs1 ino) (fs_rsv fs1) size) fs.
Proof.
  intros Hi [Hr Hnew]. step.
  2: { exists i, (fs_rsv fs), (fs_inodes fs). split_and!; try done. apply same_file_refl. }
  apply andb_true_iff in H as [Hreg Hinfo]. apply negb_true_iff, bool_decide_eq_false in Hinfo.
  assert (i_block_alloc_info (KR_I i) = None) as Hnone by (destruct (i_block_alloc_info (KR_I i)); [by destruct Hinfo|done]).
  destruct (Hnew Hreg Hnone) as (Hwf & Ha & Hst). set (a := kmalloc_addr (fs_rsv fs)) in *.
  unfold kr_init_block_alloc_info. step. step. cbn [id]. cbv zeta.
  set (upd := fun inode => set_KR_I (set_i_block_alloc_info (if kmalloc_ok then Some (BlockAllocInfo a 0 0) else None) (KR_I inode)) inode).
  assert (Htu : same_file i (upd i)) by (destruct i as [? ? ? ? ? ? ? ? ? ? ? ? ? ? ei]; by destruct ei).
  step. step.
  - step. step. exists (upd i), (rsv_put a (init_window (test_opt KR_MOUNT_RESERVATION fs)) (fs_rsv fs)),
      (alter upd ino (fs_inodes fs)). split_and!; try done.
    + by rewrite lookup_alter_eq, Hi.
    + intros j Hj. by rewrite lookup_alter_ne.
    + destruct (new_window (fs_rsv fs) a (test_opt KR_MOUNT_RESERVATION fs) Hwf Ha Hst) as [Hw Hat].
      unfold inode_window. cbn [fs_inodes set_fs_inodes fs_rsv set_fs_rsv]. rewrite lookup_alter_eq, Hi.
      cbn [fmap option_fmap option_map mbind option_bind compose]. unfold upd. rewrite H.
      cbn [KR_I set_KR_I i_block_alloc_info set_i_block_alloc_info rsv_window_node].
      rewrite Hat. destruct (_ >? 0) eqn:Hg; [|done]. split; try done; rewrite ?Hat; [|by destruct (test_opt _ _)].
      destruct (test_opt KR_MOUNT_RESERVATION fs); [vm_compute; done|]. vm_compute in Hg. done.
  - step. exists (upd i), (fs_rsv fs), (alter upd ino (fs_inodes fs)). split_and!; try done.
    + by rewrite lookup_alter_eq, Hi.
    + intros j Hj. by rewrite lookup_alter_ne.
    + unfold inode_window. cbn [fs_inodes set_fs_inodes fs_rsv]. rewrite lookup_alter_eq, Hi.
      cbn [fmap option_fmap option_map mbind option_bind compose]. unfold upd. by rewrite H.
Qed.

(** ** The goal and the number of blocks *)

(** The slots of the table at the end of [pre]. *)
Lemma slots_readable c ino i pre o k : tree_ok c ino i -> 10 <= c_bits c -> stem (ptrs_of c) (pre ++ [o]) ->
  (pre <> [] -> tree c i pre <> 0) -> 0 <= k <= o -> is_Some (slot_val c (slot_of c ino i pre k)).
Proof.
  intros Ht Hb Hs Hp Hk. destruct pre as [|a pre'] eqn:He.
  - assert (0 <= o < KR_N_BLOCKS) by (by apply (stem_first (ptrs_of c) o [])).
    unfold slot_of. rewrite (pointer_val c ino i); [by eexists|apply Ht|apply Ht|lia].
  - rewrite <- He in *. assert (pre <> []) as Hne by by rewrite He.
    replace (slot_of c ino i pre k) with (InBlock (tree c i pre) k) by by rewrite He.
    destruct (stem_inner _ pre [o] Hne ltac:(done) Hs) as [Hs1 Hn1].
    pose proof (stem_index _ _ _ Hne Hs). rewrite table_val; [by eexists|done| |lia].
    apply Ht; auto.
Qed.

Lemma previous_block_spec p fs : forall n,
  (forall k, 0 <= k < Z.of_nat n -> is_Some (slot_val (core_of fs) (slot_at p k))) ->
  exists v, previous_block n p fs = Ret v fs.
Proof.
  induction n as [|n IH]; intros Hok; cbn [previous_block]; [by eexists|].
  destruct (Hok (Z.of_nat n) ltac:(lia)) as [v Hv]. rewrite (bind_Ret _ _ _ _ _ (slot_get_run _ _ _ Hv)).
  destruct (negb (v =? 0)); [by eexists|]. apply IH. intros k Hk. apply Hok. lia.
Qed.

Lemma kr_find_goal_spec ino block partial fs i : fs_inodes fs !! ino = Some i ->
  (forall k, 0 <= k < slot_index (ind_p partial) -> is_Some (slot_val (core_of fs) (slot_at (ind_p partial) k))) ->
  runs (kr_find_goal ino block partial) E (fun _ fs' => fs' = fs) fs.
Proof.
  intros Hi Hok.
  assert (Hnear : runs (kr_find_near ino partial) E (fun _ fs' => fs' = fs) fs).
  { unfold kr_find_near. step.
    destruct (previous_block_spec (ind_p partial) fs (Z.to_nat (slot_index (ind_p partial)))) as [v Hv].
    { intros k Hk. apply Hok. lia. }
    run Hv. step; [by step|]. destruct (ind_bh partial); [by step|]. unfold inode_get. step. step. step. cbn [id].
    rewrite Hi. step. step. step. cbn [id]. by step. }
  unfold kr_find_goal, inode_get. step. step. step. cbn [id]. rewrite Hi. step.
  destruct (i_block_alloc_info (KR_I i)); [|done]. step; [by step|done].
Qed.

Lemma count_zeroes_spec p blks boundary fs : forall fuel count,
  (forall k, 0 <= k <= boundary -> is_Some (slot_val (core_of fs) (slot_add p k))) ->
  1 <= count -> boundary + 1 - count < Z.of_nat fuel -> count <= blks -> count <= boundary + 1 ->
  (forall k, 1 <= k < count -> slot_val (core_of fs) (slot_add p k) = Some 0) ->
  exists n, count_zeroes fuel p count blks boundary fs = Ret n fs /\ 1 <= n <= blks /\ n <= boundary + 1 /\
    forall k, 1 <= k < n -> slot_val (core_of fs) (slot_add p k) = Some 0.
Proof.
  induction fuel as [|fuel IH]; intros count Hok Hc Hf Hb1 Hb2 Hz; [lia|]. cbn [count_zeroes].
  destruct ((count <? blks) && (count <=? boundary)) eqn:Hgo; [|by exists count].
  destruct (Hok count ltac:(lia)) as [v Hv]. rewrite (bind_Ret _ _ _ _ _ (slot_get_run _ _ _ Hv)).
  destruct (Z.eqb_spec v 0) as [->|]; [|by exists count].
  apply IH; try done; try lia. intros k Hk. destruct (decide (k = count)) as [->|]; [done|]. apply Hz. lia.
Qed.

Lemma kr_blks_to_allocate_spec branch k blks boundary fs : 1 <= blks -> 0 <= boundary ->
  (forall j, 0 <= j <= boundary -> k = 0 -> is_Some (slot_val (core_of fs) (slot_add (ind_p branch) j))) -> 0 <= k ->
  exists n, kr_blks_to_allocate branch k blks boundary fs = Ret n fs /\ 1 <= n <= blks /\ n <= boundary + 1 /\
    (k = 0 -> forall j, 1 <= j < n -> slot_val (core_of fs) (slot_add (ind_p branch) j) = Some 0).
Proof.
  intros Hb Hbd Hok Hk. unfold kr_blks_to_allocate. destruct (Z.gtb_spec k 0) as [Hpos|Hz].
  - eexists. split; [reflexivity|]. destruct (Z.ltb_spec blks (boundary + 1)); split_and!; lia || intros; lia.
  - assert (k = 0) as -> by lia. destruct (count_zeroes_spec (ind_p branch) blks boundary fs
      (S (Z.to_nat boundary)) 1) as (n & H1 & H2 & H3 & H4); try lia.
    + intros j Hj. by apply Hok.
    + by exists n.
Qed.

(** ** Hanging the branch *)

Lemma kr_splice_branch_spec ino block p key bh l num count n fs :
  (forall x, p <> Local x) -> 1 <= n -> 0 <= key -> key + n <= 4294967296 -> 0 <= num -> 1 <= count ->
  n = (if num =? 0 then count else 1) ->
  (forall j, 0 <= j < n -> is_Some (slot_val (core_of fs) (slot_add p j))) ->
  runs (kr_splice_branch ino block (Ind p key bh :: l) num count) E (fun _ fs' => exists g,
    (forall i, same_file i (g i) /\ i_data (KR_I (g i)) = i_data (KR_I i)) /\
    let c4 := row_put (core_of fs) p (Z.to_nat n) key in
    core_of fs' = set_c_inodes (alter g ino (c_inodes c4)) c4) fs.
Proof.
  intros Hl Hn Hk Hkn Hnum Hc Heq Hok. unfold kr_splice_branch. cbn [ind_p ind_key ind_bh].
  apply (write_row E p key n count); try done.
  { intros Hb. rewrite Heq. by replace (num =? 0) with true by lia. }
  { intros Hb. rewrite Heq. destruct (Z.eqb_spec num 0); [|done]. simpl in Hb. lia. }
  intros fs1 Hfs1. cbv zeta. step. apply runs_modify. cbv beta.
  set (f1 := fun i => set_KR_I _ i). set (fs2 := set_fs_inodes _ fs1).
  assert (Hend : forall fs3, core_of fs3 = core_of fs2 ->
    runs (inode_upd (set_i_ctime current_time) ino ;; log (mark_inode_dirty ino)) E (fun _ fs' => exists g,
      (forall i, same_file i (g i) /\ i_data (KR_I (g i)) = i_data (KR_I i)) /\
      let c4 := row_put (core_of fs) p (Z.to_nat n) key in
      core_of fs' = set_c_inodes (alter g ino (c_inodes c4)) c4) fs3).
  { intros fs3 Hfs3. unfold inode_upd, log. step. step. step.
    exists (set_i_ctime current_time ∘ f1). split.
    - intros i. split; [|done]. destruct i as [? ? ? ? ? ? ? ? ? ? ? ? ? ? ei]. by destruct ei.
    - cbv zeta. rewrite <- Hfs1.
      change (core_of (set_fs_trace _ _)) with
        (set_c_inodes (alter (set_i_ctime current_time) ino (c_inodes (core_of fs3))) (core_of fs3)).
      rewrite Hfs3. change (core_of fs2) with (set_c_inodes (alter f1 ino (c_inodes (core_of fs1))) (core_of fs1)).
      cbn [c_inodes set_c_inodes]. by rewrite alter_alter_eq. }
  destruct bh; step; [unfold log at 1; step; by apply Hend|step; by apply Hend].
Qed.

End Facts.
