(* ===== verification/CreateFacts.v ===== *)
(** * Mapping blocks, allocating those that are missing

    [kr_get_blocks] with [create]: the look-up, the allocation of the missing
    branch, and what the tree of the file answers afterwards. *)

From S2P Require Import Prelude Bits Kr Rsv Bitmap Alloc State Balloc BallocFacts NewBlocks BlockMap PathFacts BlockMapFacts AllocBranch FileTree BuildBranch GetBlocks.

Lemma app_last_cons {A} (d : A) l x l' : List.last (l ++ x :: l') d = List.last (x :: l') d.
Proof. induction l as [|y l IH]; [done|]. rewrite <- IH. cbn [app]. destruct (l ++ x :: l') eqn:He; [by destruct l|done]. Qed.

(** The blocks of data in a branch, with their paths. *)
Lemma branch_news_data num rest : forall p nbs q v, length nbs = S (length rest) -> p <> [] ->
  ((q, v) ∈ branch_news p nbs rest num /\ length q = length (p ++ rest)) <->
  exists k, 0 <= k < num /\ q = removelast (p ++ rest) ++ [List.last (p ++ rest) 0 + k] /\
    v = nth (length rest) nbs 0 + k.
Proof.
  induction rest as [|o rest IH]; intros p [|b nbs] q v Hl Hp; try done.
  - rewrite app_nil_r. destruct (exists_last Hp) as (p' & o & ->). rewrite removelast_last, last_last.
    rewrite (branch_news_row p' o b nbs). simpl. split; [by intros [? _]|].
    intros (k & Hk & -> & ->). split; [by exists k|]. by rewrite !length_app.
  - assert (He : p ++ o :: rest = (p ++ [o]) ++ rest) by by rewrite <- app_assoc.
    rewrite He. cbn [length nth]. rewrite <- (IH (p ++ [o]) nbs q v); [|simpl in *; lia|by destruct p].
    change (branch_news p (b :: nbs) (o :: rest) num) with ((p, b) :: branch_news (p ++ [o]) nbs rest num).
    rewrite elem_of_cons. split; [|intros [? ?]; auto]. intros [[[= -> ->]|Hin] Hlen]; [|done].
    exfalso. rewrite !length_app in Hlen. simpl in Hlen. lia.
Qed.

Section Facts.
Context {B : BitOps} {BL : BitLaws B} {R : RbTree} {RL : RbLaws R} {T : Trylock} {K : Kernel}.
Variable E : stop -> Prop.
Hypothesis HE : E Panic.

(** What an allocation for the path [offsets] leaves and answers. *)
Definition created (c c' : core) (ino : Z) (i : inode) (maxblocks boundary : Z) (offsets : list Z) (m : mapped) : Prop :=
  exists i' news, grown c c' ino i i' news /\
    (m_ret m <> 0 /\ m_bno m = None /\ news = [] \/
     1 <= m_ret m <= maxblocks /\ m_ret m <= boundary + 1 /\ m_new m = true /\
     m_boundary m = (m_ret m >? boundary) /\ exists bno, m_bno m = Some bno /\
       forall q b, path_ok (ptrs_of c) q -> ((q, b) ∈ news <-> exists k, 0 <= k < m_ret m /\
         q = removelast offsets ++ [List.last offsets 0 + k] /\ b = bno + k)).

Section Branch.
Variables (fs : krfs) (ino : Z) (i : inode) (iblock maxblocks size : Z).
Let c := core_of fs.
Variables (pre rest : list Z) (o : Z) (chain : list Indirect).
Let p := pre ++ [o].
Let offsets := p ++ rest.
Let boundary := last_table (ptrs_of c) offsets - 1 - List.last offsets 0.
Hypothesis Haddr : addr_ok fs.
Hypothesis Hok : blocks_ok c.
Hypothesis Hz : zero_used c.
Hypothesis Ht : tree_ok c ino i.
Hypothesis Hdax : IS_DAX i = false.
Hypothesis Hread : forall g, 0 <= g < c_ngroups c -> ~ unreadable c g.
Hypothesis Hgrow : can_grow fs ino i size.
Hypothesis Hsize : size <= 268435456.
Hypothesis Hmax : 1 <= maxblocks.
Hypothesis Hpath : path_ok (ptrs_of c) offsets.
Hypothesis Hch : chain_at c ino i p chain.
Hypothesis Hmiss : tree c i p = 0.
Hypothesis Hpre : pre <> [] -> tree c i pre <> 0.

Lemma offsets_geo : 256 <= ptrs_of c <= 1024 /\ 0 <= boundary < ptrs_of c /\ len rest <= 3 /\
  Forall (fun o => 0 <= o < ptrs_of c) rest /\ 0 <= List.last offsets 0 /\
  (rest <> [] -> List.last rest 0 + (last_table (ptrs_of c) offsets - List.last offsets 0) = ptrs_of c).
Proof using All.
  assert (Hp : 256 <= ptrs_of c <= 1024).
  { apply (ptrs_range _ (c_bits c - 2)); [|done]. destruct Haddr as [Hb _]. change (c_bits c) with (fs_blocksize_bits fs). lia. }
  split; [done|]. unfold boundary, offsets, p in *. revert Hpath. clear - Hp. 
  destruct pre as [|a [|b [|d [|e pre']]]]; destruct rest as [|x [|y [|z [|]]]]; simpl; try done;
    unfold len, KR_NDIR_BLOCKS; simpl; intros H.
  all: try (split_and!; [lia..|repeat constructor; lia|lia|done || intros; lia]).
  all: exfalso; by destruct pre'.
Qed.

(** The allocation, once the window is there: [i1] is the inode then. *)
Lemma branch_allocated fs1 i1 : let c1 := core_of fs1 in
  blocks_ok c1 -> zero_used c1 -> tree_ok c1 ino i1 -> ptrs_of c1 = ptrs_of c ->
  (forall g, 0 <= g < c_ngroups c1 -> ~ unreadable c1 g) ->
  ready (inode_window fs1 ino) (fs_rsv fs1) size ->
  (forall q, tree c1 i1 q = tree c i q) -> same_file i i1 ->
  forall count goal partial, ind_p partial = slot_of c1 ino i1 pre o ->
  1 <= count <= maxblocks -> count <= boundary + 1 ->
  (rest = [] -> forall k, 1 <= k < count -> tree c1 i1 (pre ++ [o + k]) = 0) ->
  runs (r ← kr_alloc_branch ino (len rest) count goal rest partial;
        let '(err, branch, count) := r in
        if negb (err =? 0) then mret (cleanup err)
        else
          let chain := removelast chain ++ branch in
          let key := ind_key (List.last chain no_ind) in
          i ← inode_get ino;
          let dax_err := if IS_DAX i then sb_issue_zeroout key count else 0 in
          when (IS_DAX i)
            (for_ (Z.to_nat count) 0 (fun k => log (unmap_underlying_metadata (key + k))) ;;
             when (dax_err =? 0) (log (issue_zeroout key count))) ;;
          if negb (dax_err =? 0) then mret (cleanup dax_err)
          else
            kr_splice_branch ino iblock branch (len rest) count ;;
            mret (got_it chain count boundary (negb (IS_DAX i)))) E
    (fun m fs' => created c1 (core_of fs') ino i1 maxblocks boundary offsets m) fs1.
Proof using All.
  intros c1 Hok1 Hz1 Ht1 Hptrs Hread1 Hready Htree Htou count goal partial Hpp Hcount Hcb Hzero.
  destruct offsets_geo as (Hg1 & Hg2 & Hg3 & Hg4 & Hg5 & Hg6).
  assert (Hlast : List.last offsets 0 + count <= last_table (ptrs_of c) offsets) by (unfold boundary in Hcb; lia).
  step. eapply runs_mono.
  { apply (kr_alloc_branch_spec E HE fs1 ino goal size count rest partial); try done; try lia.
    - unfold window_limit. pose proof (len_nonneg rest). nia.
    - change (Forall (fun o => 0 <= o < ptrs_of c1) rest). by rewrite Hptrs.
    - fold c1. rewrite Hptrs. destruct (decide (rest = [])) as [Hr|Hr]; [rewrite Hr; simpl; lia|].
      rewrite <- (Hg6 Hr). lia.
    - eexists. apply Ht1. }
  cbv beta. fold c1. intros [[err branch] num] fs2 [Hd|(He & c0 & l & Hs & Hl & Hh)].
  2: { replace (err =? 0) with false by lia. cbn [negb]. step. exists i1, []. split; [|by left].
       by eapply not_grown. }
  destruct Hd as (-> & nbs & c2 & l & Hlen & Hnum & Hh & Hs & Hb & -> & Hll & Hkey).
  cbn [Z.eqb negb]. cbv zeta.
  destruct (holds_kept _ _ _ _ _ _ _ Hok1 Hh Hs) as (_ & _ & Hi3 & _).
  { intros b Hin. apply elem_of_app. by left. }
  assert (Hi2 : fs_inodes fs2 !! ino = Some i1).
  { change (c_inodes (core_of fs2) !! ino = Some i1). rewrite Hi3. apply Ht1. }
  assert (Hdax1 : IS_DAX i1 = false) by (unfold IS_DAX in *; by rewrite Htou).
  step. unfold inode_get. step. step. cbn [id]. rewrite Hi2. step. rewrite Hdax1. cbn [when negb].
  step. step. cbn [Z.eqb negb]. step. rewrite Hpp.
  set (n := match rest with [] => num | _ => 1 end).
  assert (Hnum1 : 1 <= num) by lia.
  destruct (held_blocks _ _ _ _ _ nbs num Hh Hlen Hnum1 Hok1) as (_ & Hr32 & Hl32 & _).
  assert (Hpath1 : path_ok (ptrs_of c1) ((pre ++ [o]) ++ rest)) by by rewrite Hptrs.
  assert (Hmiss1 : tree c1 i1 (pre ++ [o]) = 0) by by rewrite Htree.
  assert (Hpre1 : pre <> [] -> tree c1 i1 pre <> 0) by by rewrite Htree.
  assert (Hlast1 : List.last ((pre ++ [o]) ++ rest) 0 + num <= last_table (ptrs_of c1) ((pre ++ [o]) ++ rest)).
  { rewrite Hptrs. change ((pre ++ [o]) ++ rest) with offsets. lia. }
  assert (Hzero1 : rest = [] -> forall k, 0 <= k < num -> tree c1 i1 (pre ++ [o + k]) = 0).
  { intros Hr k Hk. destruct (decide (k = 0)) as [->|]; [by rewrite Z.add_0_r|]. apply Hzero; [done|lia]. }
  pose proof (hang_slots c1 ino i1 pre rest o Hok1 Hz1 Ht1 Hpath1 Hmiss1 Hpre1 _ _ c2 (core_of fs2) nbs num
    Hnum1 Hlen Hlast1 Hzero1 Hh Hs Hb) as Hslots.
  pose proof (hang_key c1 ino i1 pre rest o Hok1 Hz1 Ht1 Hpath1 Hmiss1 Hpre1 _ _ c2 (core_of fs2) nbs num
    Hnum1 Hlen Hlast1 Hzero1 Hh Hs Hb) as Hkeys.
  pose proof (hang_grown c1 ino i1 pre rest o Hok1 Hz1 Ht1 Hpath1 Hmiss1 Hpre1 _ _ c2 (core_of fs2) nbs num
    Hnum1 Hlen Hlast1 Hzero1 Hh Hs Hb) as Hgrown.
  fold n in Hslots, Hkeys, Hgrown.
  eapply runs_mono.
  { apply (kr_splice_branch_spec E ino iblock (slot_of c1 ino i1 pre o) (hd 0 nbs) (ind_bh partial) l (len rest) num n fs2).
    - intros x. unfold slot_of. by destruct pre.
    - unfold n. destruct rest; lia.
    - lia.
    - lia.
    - apply len_nonneg.
    - lia.
    - unfold n. by destruct rest.
    - exact Hslots. }
  cbv beta zeta. intros _ fs3 (g & Hg & Hcore). step. rewrite Hcore.
  destruct (Hgrown g Hg) as [i5 Hgr]. exists i5, (branch_news (pre ++ [o]) nbs rest num). split; [exact Hgr|].
  right. unfold got_it. cbn [m_ret m_new m_boundary m_bno negb].
  split; [lia|]. split; [lia|]. split; [done|]. split; [done|].
  exists (nth (length rest) nbs 0). replace (num >? 0) with true by lia.
  split.
  { f_equal. rewrite <- Hkey, Hpp. rewrite (app_last_cons no_ind). done. }
  intros q b Hq. change offsets with ((pre ++ [o]) ++ rest). rewrite <- (branch_news_data num rest (pre ++ [o]) nbs q b Hlen) by by destruct pre.
  split; [|by intros [? _]]. intros Hin. split; [done|].
  destruct (branch_news_stems (ptrs_of c1) num rest (pre ++ [o]) nbs q) as (_ & _ & _ & Hqq); [by destruct pre|done|done| |by apply Hqq].
  apply elem_fst. by exists b.
Qed.

(** The window that is made first changes neither the tree nor the blocks. *)
Lemma with_window c1 i1 r ins : c1 = set_c_inodes ins (set_c_rsv r c) -> ins !! ino = Some i1 ->
  i_data (KR_I i1) = i_data (KR_I i) ->
  blocks_ok c1 /\ zero_used c1 /\ tree_ok c1 ino i1 /\ (forall q, tree c1 i1 q = tree c i q).
Proof using Hok Hz Ht.
  intros -> Hi1 Hd. split; [by apply blocks_ok_inodes, blocks_ok_rsv|]. split; [exact Hz|].
  pose proof (tree_window c r ins i i1 Hd) as Htree. split; [|done].
  destruct Ht as [H1 H2 H3 H4 H5 H6]. split; rewrite ?Hd; try done.
  - intros q. rewrite Htree. apply H4.
  - intros q. rewrite Htree. apply H5.
  - intros q1 q2. rewrite !Htree. apply H6.
Qed.

Lemma allocate_branch_spec :
  runs (allocate_branch ino iblock maxblocks boundary offsets chain) E
    (fun m fs' => created c (core_of fs') ino i maxblocks boundary offsets m) fs.
Proof using All.
  destruct offsets_geo as (Hg1 & Hg2 & Hg3 & Hg4 & Hg5 & Hg6).
  assert (Hi : fs_inodes fs !! ino = Some i) by apply Ht.
  assert (Hlc : length chain = length p) by apply Hch.
  assert (Hst : forall k, 0 <= k <= boundary -> rest = [] -> stem (ptrs_of c) (pre ++ [o + k])).
  { intros k Hk Hr. unfold boundary, offsets in *. rewrite Hr, app_nil_r in *. unfold p in *. rewrite last_last in *.
    apply stem_path, path_next_ok; [done|lia..]. }
  assert (Hst0 : stem (ptrs_of c) (pre ++ [o])) by (apply (stem_app _ _ rest); [by destruct pre|by apply stem_path]).
  unfold allocate_branch. step. run (inode_get_run _ _ _ Hi). step. step. cbn [id]. step. eapply runs_mono; [by apply (init_window_spec E fs ino i size)|].
  cbv beta. intros _ fs1 (i1 & r & ins & Hc1 & Hi1 & Htou & Hd & Hins & Hready). cbv zeta.
  destruct (with_window (core_of fs1) i1 r ins Hc1 Hi1 Hd) as (Hok1 & Hz1 & Ht1 & Htree).
  assert (Hp1 : ptrs_of (core_of fs1) = ptrs_of c) by by rewrite Hc1.
  assert (Hbits : 10 <= c_bits (core_of fs1)) by (rewrite Hc1; apply Haddr).
  assert (Hpre1 : pre <> [] -> tree (core_of fs1) i1 pre <> 0) by (intros ?; rewrite Htree; auto).
  set (partial := List.last chain no_ind) in *.
  assert (Hpp : ind_p partial = slot_of (core_of fs1) ino i1 pre o).
  { unfold partial. rewrite (ca_slot _ _ _ _ _ Hch). unfold p. rewrite leaf_slot_of.
    unfold slot_of. by rewrite Htree. }
  assert (Hidx : slot_index (ind_p partial) = o) by (rewrite Hpp; unfold slot_of; by destruct pre).
  assert (Hadd : forall k, slot_add (ind_p partial) k = slot_of (core_of fs1) ino i1 pre (o + k))
    by (intros k; rewrite Hpp; unfold slot_of; by destruct pre).
  assert (Hat : forall k, slot_at (ind_p partial) k = slot_of (core_of fs1) ino i1 pre k)
    by (intros k; rewrite Hpp; unfold slot_of; by destruct pre).
  step. eapply runs_mono.
  { apply (kr_find_goal_spec E ino iblock partial fs1 i1); [apply Ht1|]. intros k Hk. rewrite Hat.
    apply (slots_readable _ ino i1 pre o); try done; [by rewrite Hp1|lia]. }
  cbv beta. intros goal fs1' ->.
  replace (len offsets - len chain) with (len rest) by (unfold offsets, len; rewrite length_app; lia).
  replace (drop (length chain) offsets) with rest by (unfold offsets; by rewrite Hlc, drop_app_length).
  destruct (kr_blks_to_allocate_spec partial (len rest) maxblocks boundary fs1) as (n & Hrun & Hn1 & Hn2 & Hnz);
    [done|lia| |apply len_nonneg|].
  { intros j Hj Hr. rewrite Hadd. assert (rest = []) as Hr' by (destruct rest; [done|unfold len in Hr; simpl in Hr; lia]).
    eexists. apply slot_of_val; [done|done| |done]. rewrite Hp1. by apply Hst. }
  step. run Hrun. eapply runs_mono.
  { apply (branch_allocated fs1 i1); try done; try lia.
    - intros g. rewrite Hc1. apply Hread.
    - intros Hr k Hk. assert (len rest = 0) as Hr0 by by rewrite Hr. specialize (Hnz Hr0 k ltac:(lia)). rewrite Hadd in Hnz.
      rewrite slot_of_val in Hnz; [by injection Hnz|done|done| |done]. rewrite Hp1. apply Hst; [lia|done]. }
  cbv beta. intros m fs2 (i' & news & Hgr & Hm). exists i', news. split.
  - rewrite Hc1 in Hgr. by eapply grown_after.
  - by rewrite Hp1 in Hm.
Qed.

End Branch.

Lemma can_grow_core fs fs1 ino i size : core_of fs1 = core_of fs -> can_grow fs ino i size -> can_grow fs1 ino i size.
Proof.
  intros Hc. assert (fs_inodes fs1 = fs_inodes fs /\ fs_rsv fs1 = fs_rsv fs) as [Hi Hr].
  { split; [change (c_inodes (core_of fs1) = fs_inodes fs)|change (c_rsv (core_of fs1) = fs_rsv fs)]; by rewrite Hc. }
  unfold can_grow, inode_window. by rewrite Hi, Hr.
Qed.
Lemma addr_ok_core fs fs1 : core_of fs1 = core_of fs -> addr_ok fs -> addr_ok fs1.
Proof.
  intros Hc. unfold addr_ok. change (fs_blocksize_bits fs1) with (c_bits (core_of fs1)).
  change (s_addr_per_block_bits (fs_sbi fs1)) with (s_addr_per_block_bits (c_sbi (core_of fs1))). by rewrite Hc.
Qed.

(** What [kr_get_blocks] with [create] answers and leaves: the blocks that are there,
    or the failure of a read, with nothing changed; or what an allocation gives. *)
Definition got_blocks (c c' : core) (bits ino : Z) (i : inode) (iblock maxblocks : Z) (m : mapped) : Prop :=
  let '(offsets, boundary) := kr_block_to_path (2 ^ bits) bits iblock in
  c' = c /\ m_ret m <> 0 /\ looked_up c bits i iblock maxblocks m \/
  offsets <> [] /\ tree c i offsets = 0 /\ created c c' ino i maxblocks boundary offsets m.

Lemma kr_get_blocks_create ino i iblock maxblocks size fs : let c := core_of fs in
  addr_ok fs -> blocks_ok c -> zero_used c -> tree_ok c ino i -> IS_DAX i = false ->
  (forall g, 0 <= g < c_ngroups c -> ~ unreadable c g) -> can_grow fs ino i size ->
  size <= 268435456 -> 1 <= maxblocks ->
  runs (kr_get_blocks (mret tt) ino iblock maxblocks true) E
    (fun m fs' => got_blocks c (core_of fs') (fs_blocksize_bits fs - 2) ino i iblock maxblocks m) fs.
Proof using All.
  intros c Haddr Hok Hz Ht Hdax Hread Hgrow Hsize Hmax. pose proof (tree_ok_file c ino i Ht) as Hf.
  apply (kr_get_blocks_look E (mret tt) ino i); try done; unfold got_blocks.
  - intros m fs' Hfs' Hm Hc. destruct (kr_block_to_path _ _ _) as [offsets boundary]. left. split; [done|].
    split; [|done]. intros Hr. by specialize (Hc Hr).
  - intros fs1 offsets boundary chain p rest _ Hfs1 -> Hpath Hbd Hoff Hp Hch Hmiss Hpre.
    unfold fill_hole. step. step. step. run verify_chain_run; [rewrite Hfs1; apply Hch|]. cbn [negb]. step. step.
    destruct (exists_last Hp) as (pre & o & ->). rewrite removelast_last in Hpre. subst offsets.
    assert (Hg1 : can_grow fs1 ino i size) by (eapply can_grow_core; [exact Hfs1|done]).
    assert (Ha1 : addr_ok fs1) by (eapply addr_ok_core; [exact Hfs1|done]).
    change (2 ^ (fs_blocksize_bits fs - 2)) with (ptrs_of c) in *.
    fold c in Hfs1, Hch, Hmiss, Hpre |- *. clearbody c. subst c boundary. eapply runs_mono.
    { apply (allocate_branch_spec fs1 ino i iblock maxblocks size pre rest o chain); done. }
    cbv beta. intros m fs2 Hm. right. split; [by destruct pre|]. split; [|exact Hm].
    by apply tree_app_zero; [destruct pre|].
Qed.

(** The tree is sound afterwards, and leads to the first block of the answer. *)
Lemma got_blocks_after ino i iblock maxblocks fs fs1 m : let c := core_of fs in let c1 := core_of fs1 in
  let bits := fs_blocksize_bits fs - 2 in
  addr_ok fs -> zero_used c -> tree_ok c ino i ->
  got_blocks c c1 bits ino i iblock maxblocks m ->
  addr_ok fs1 /\ fs_blocksize_bits fs1 - 2 = bits /\ exists i1, tree_ok c1 ino i1 /\
    forall bno, m_bno m = Some bno -> bno <> 0 /\ tree c1 i1 (kr_block_to_path (2 ^ bits) bits iblock).1 = bno.
Proof.
  intros c c1 bits Haddr Hz Ht Hgot. unfold got_blocks in Hgot.
  assert (8 <= bits <= 10) as Hbits by (destruct Haddr; unfold bits; lia).
  destruct (kr_block_to_path (2 ^ bits) bits iblock) as [offsets boundary] eqn:Hpath. cbn [fst].
  destruct Hgot as [(Hc1 & _ & Hm)|(Hne & Hmiss & i' & news & Hg & Hm)].
  - split; [by apply (addr_ok_core fs)|]. split.
    { unfold bits. change (fs_blocksize_bits fs1) with (c_bits c1). by rewrite Hc1. }
    exists i. rewrite Hc1. split; [done|]. intros bno Hb.
    destruct Hm as [(_ & Hn & _)|[(_ & Hn & _)|(Hr & _ & _ & b & Hn & Hb0 & Htree)]]; rewrite Hn in Hb; try done.
    injection Hb as <-. split; [done|]. specialize (Htree 0 ltac:(lia)). by rewrite !Z.add_0_r, Hpath in Htree.
  - assert (Hbb : c_bits c1 = c_bits c) by apply Hg. change (fs_blocksize_bits fs1 = fs_blocksize_bits fs) in Hbb.
    assert (addr_ok fs1) as Ha1.
    { destruct Haddr as [Hb Ha]. split; rewrite Hbb; [done|]. 
      change (s_addr_per_block_bits (c_sbi c1) = fs_blocksize_bits fs - 2). by rewrite (gr_count _ _ _ _ _ _ Hg). }
    split; [done|]. split; [by rewrite Hbb|]. exists i'. split; [apply Hg|]. intros bno Hb.
    destruct Hm as [(_ & Hn & _)|(Hr & _ & _ & _ & b & Hn & Hnews)]; rewrite Hn in Hb; [done|]. injection Hb as <-.
    assert (0 <= iblock < max_file_blocks (2 ^ bits)) as Hi.
    { destruct (decide (0 <= iblock < max_file_blocks (2 ^ bits))); [done|].
      pose proof (block_to_path_out _ _ Hbits eq_refl iblock ltac:(lia)) as Hp. by rewrite Hpath in Hp. }
    pose proof (block_to_path_in _ _ Hbits eq_refl iblock Hi) as Hin. rewrite Hpath in Hin. destruct Hin as (Hok & _).
    assert ((offsets, b) ∈ news) as Hin.
    { apply Hnews; [done|]. exists 0. rewrite !Z.add_0_r. split; [lia|]. by rewrite <- (app_removelast_last 0 Hne). }
    destruct (gr_new _ _ _ _ _ _ Hg _ _ Hin) as (_ & _ & Htb & [Hd _] & Hu). split; [|done].
    intros ->. rewrite Hz in Hu; [done|lia].
Qed.

End Facts.
