(* ===== verification/Truncate.v ===== *)
(** * Truncating a file (inode.c)

    Freeing the blocks past an offset: finding the branch that is shared with the
    blocks that stay, freeing data and subtrees, and the callers of it. *)

From S2P Require Import Prelude Bits Kr Rsv Bitmap Alloc State Balloc InodeFlags Ialloc BlockMap.

Section Ops.
Context `{BitOps, RbTree, Trylock, Kernel}.

(** The slots [from], ..., [from + n - 1] of the table of [p]. *)
Definition slots (p : slot) (from : Z) (n : nat) : list slot :=
  (fun k => slot_at p (from + Z.of_nat k)) <$> seq 0 n.

Fixpoint all_zeroes (l : list slot) : M krfs bool :=
  match l with
  | [] => mret true
  | p :: rest => v ← slot_get p; if negb (v =? 0) then mret false else all_zeroes rest
  end.

(** *** The shared branch *)

(** [for (k = depth; k > 1 && !offsets[k-1]; k--)] : the path less the zero
    offsets at its end. *)
Fixpoint drop_zeroes (k : nat) (offsets : list Z) : list Z :=
  match k with
  | O => take 1 offsets
  | S k' =>
      if nth (S k') offsets 0 =? 0 then drop_zeroes k' offsets else take (S (S k')) offsets
  end.

(** [for (p = partial; p > chain && all_zeroes(...); p--)], as an index of the
    chain. *)
Fixpoint last_used (n : nat) (chain : list Indirect) : M krfs nat :=
  match n with
  | O => mret O
  | S n' =>
      let p := nth n chain no_ind in
      z ← all_zeroes (slots (ind_p p) 0 (Z.to_nat (slot_index (ind_p p))));
      if (z : bool) then last_used n' chain else mret n
  end.

(** The answer is the chain up to the element returned, and [*top]. *)
Definition kr_find_shared (ino : Z) (offsets : list Z) : M krfs (list Indirect * Z) :=
  let offs := drop_zeroes (length offsets - 1) offsets in
  r ← kr_get_branch ino offs;
  let '(chain, _, _) := r in
  let partial := List.last chain no_ind in
  v ← slot_get (ind_p partial);
  if (ind_key partial =? 0) && negb (v =? 0) then mret (chain, 0)
  else
    n ← last_used (length chain - 1) chain;
    let p := nth n chain no_ind in
    let kept := take (S n) chain in
    if bool_decide (S n = length offs) && negb (bool_decide (n = O)) then
      mret (take n chain ++ [Ind (slot_add (ind_p p) (-1)) (ind_key p) (ind_bh p)], 0)
    else
      top ← slot_get (ind_p p);
      slot_set (ind_p p) 0 ;;
      mret (kept, top).

(** *** Freeing *)

(** The loop; [block_to_free] and [count] are the run to free next. *)
Fixpoint free_data_loop (ino : Z) (l : list slot) (block_to_free count : Z) : M krfs (Z * Z) :=
  match l with
  | [] => mret (block_to_free, count)
  | p :: rest =>
      nr ← slot_get p;
      if nr =? 0 then free_data_loop ino rest block_to_free count
      else
        slot_set p 0 ;;
        if count =? 0 then free_data_loop ino rest nr 1
        else if block_to_free =? u64 (nr - count) then
          free_data_loop ino rest block_to_free (u64 (count + 1))
        else
          kr_free_blocks ino block_to_free count ;;
          log (mark_inode_dirty ino) ;;
          free_data_loop ino rest nr 1
  end.

Definition kr_free_data (ino : Z) (l : list slot) : M krfs unit :=
  r ← free_data_loop ino l 0 0;
  let '(block_to_free, count) := r in
  when (count >? 0) (kr_free_blocks ino block_to_free count ;; log (mark_inode_dirty ino)).

(** [each f l]: the loop over the slots. *)
Fixpoint each (f : slot -> M krfs unit) (l : list slot) : M krfs unit :=
  match l with
  | [] => mret tt
  | p :: rest => f p ;; each f rest
  end.

Fixpoint kr_free_branches (depth : nat) (ino : Z) (l : list slot) : M krfs unit :=
  match depth with
  | O => kr_free_data ino l
  | S depth =>
      each (fun p =>
        nr ← slot_get p;
        if nr =? 0 then mret tt
        else
          slot_set p 0 ;;
          bh ← sb_bread nr;
          match bh with
          | None => kr_error
          | Some b =>
              fs ← gets id;
              kr_free_branches depth ino (slots (InBlock b 0) 0 (Z.to_nat (KR_ADDR_PER_BLOCK fs))) ;;
              log (bforget b) ;;
              kr_free_blocks ino nr 1 ;;
              log (mark_inode_dirty ino)
          end) l
  end.

(** *** Truncating *)

(** [while (partial > chain)]: the ends of the indirect blocks of the chain, the
    last one first; [chain] is reversed and [depth] that of its first element. *)
Fixpoint clear_ends (ino addr_per_block : Z) (depth : nat) (chain : list Indirect) : M krfs unit :=
  match chain with
  | [] | [_] => mret tt
  | partial :: rest =>
      let from := slot_index (ind_p partial) + 1 in
      kr_free_branches depth ino (slots (ind_p partial) from (Z.to_nat (addr_per_block - from))) ;;
      match ind_bh partial with
      | Some b => log (mark_buffer_dirty_inode (BufBlock b) ino)
      | None => halt Fault
      end ;;
      clear_ends ino addr_per_block (S depth) rest
  end.

(** One case of the switch: the subtree at the slot [n] of the inode. *)
Definition kill_subtree (ino n : Z) (depth : nat) : M krfs unit :=
  nr ← slot_get (InInode ino n);
  when (negb (nr =? 0))
    (slot_set (InInode ino n) 0 ;;
     log (mark_inode_dirty ino) ;;
     kr_free_branches depth ino [Local nr]).

(** The switch falls through from the case of [offsets[0]] on. *)
Definition kill_subtrees (ino first : Z) : M krfs unit :=
  when (negb ((first =? KR_IND_BLOCK) || (first =? KR_DIND_BLOCK) || (first =? KR_TIND_BLOCK)))
    (kill_subtree ino KR_IND_BLOCK 1) ;;
  when (negb ((first =? KR_DIND_BLOCK) || (first =? KR_TIND_BLOCK)))
    (kill_subtree ino KR_DIND_BLOCK 2) ;;
  when (negb (first =? KR_TIND_BLOCK)) (kill_subtree ino KR_TIND_BLOCK 3).

Definition truncate_blocks (ino offset : Z) : M krfs unit :=
  fs ← gets id;
  let addr_per_block := KR_ADDR_PER_BLOCK fs in
  let iblock := Z.shiftr (s64 (offset + fs_blocksize fs - 1)) (fs_blocksize_bits fs) in
  let '(offsets, _) := kr_block_to_path addr_per_block (s_addr_per_block_bits (fs_sbi fs)) iblock in
  match offsets with
  | [] => mret tt
  | first :: rest =>
      (match rest with
       | [] => kr_free_data ino (slots (InInode ino 0) first (Z.to_nat (KR_NDIR_BLOCKS - first)))
       | _ =>
           r ← kr_find_shared ino offsets;
           let '(chain, nr) := r in
           let depth := (length offsets - length chain)%nat in
           when (negb (nr =? 0))
             (match chain with
              | [_] => log (mark_inode_dirty ino)
              | _ => match ind_bh (List.last chain no_ind) with
                     | Some b => log (mark_buffer_dirty_inode (BufBlock b) ino)
                     | None => halt Fault
                     end
              end ;;
              kr_free_branches depth ino [Local nr]) ;;
           clear_ends ino addr_per_block depth (rev chain)
       end) ;;
      kill_subtrees ino first ;;
      kr_discard_reservation ino
  end.

Definition kr_inode_is_fast_symlink (fs : krfs) (i : inode) : bool :=
  let ea_blocks := if negb (i_file_acl (KR_I i) =? 0) then Z.shiftr (fs_blocksize fs) 9 else 0 in
  S_ISLNK (i_mode i) && (i_blocks i - ea_blocks =? 0).

Definition has_blocks (i : inode) : bool :=
  S_ISREG (i_mode i) || S_ISDIR (i_mode i) || S_ISLNK (i_mode i).
Definition IS_APPEND (i : inode) : bool := has (i_flags i) S_APPEND.
Definition IS_IMMUTABLE (i : inode) : bool := has (i_flags i) S_IMMUTABLE.

Definition kr_truncate_blocks (ino offset : Z) : M krfs unit :=
  i ← inode_get ino;
  fs ← gets id;
  if negb (has_blocks i) then mret tt
  else if kr_inode_is_fast_symlink fs i then mret tt
  else if IS_APPEND i || IS_IMMUTABLE i then mret tt
  else truncate_blocks ino offset.

Definition kr_write_failed (ino to : Z) : M krfs unit :=
  i ← inode_get ino;
  when (to >? i_size i)
    (log (truncate_pagecache ino (i_size i)) ;; kr_truncate_blocks ino (i_size i)).

Definition kr_setsize (ino newsize : Z) : M krfs Z :=
  i ← inode_get ino;
  fs ← gets id;
  if negb (has_blocks i) then mret (- EINVAL)
  else if kr_inode_is_fast_symlink fs i then mret (- EINVAL)
  else if IS_APPEND i || IS_IMMUTABLE i then mret (- EPERM)
  else
    let error := truncate_page ino newsize in
    if negb (error =? 0) then mret error
    else
      inode_upd (set_i_size newsize) ino ;;
      log (truncate_setsize ino newsize) ;;
      truncate_blocks ino newsize ;;
      inode_upd (fun i => set_i_mtime current_time (set_i_ctime current_time i)) ino ;;
      i ← inode_get ino;
      fs ← gets id;
      (if inode_needs_sync fs i then log (sync_mapping_buffers ino) ;; log (sync_inode ino)
       else log (mark_inode_dirty ino)) ;;
      mret 0.

End Ops.
