(* ===== verification/FreeData.v ===== *)
(** * Freeing the data of a file

    [kr_free_data] over the direct blocks of an inode clears the pointers and
    frees exactly the blocks they named, in as few runs as it can. *)

From S2P Require Import Prelude Bits Kr Rsv Bitmap Alloc State Balloc BallocFacts NewBlocks InodeFlags Ialloc BlockMap PathFacts BlockMapFacts FileTree Truncate.

(** The blocks of [l] are freed; the inodes are as [c'] has them. *)
Record data_freed (c c' : core) (l : list Z) : Prop := {
  df_ok : blocks_ok c';
  df_changed : blocks_changed (set_c_inodes (c_inodes c') c) c';
  df_rsv : c_rsv c' = c_rsv c;
  df_used : forall b, c_fdb c <= b < c_nblocks c ->
    block_used c' b = block_used c b && negb (bool_decide (b ∈ l));
}.

Lemma data_freed_refl c : blocks_ok c -> data_freed c c [].
Proof.
  intros Hb. split; [done| |done|].
  - assert (set_c_inodes (c_inodes c) c = c) as -> by by destruct c. apply blocks_changed_refl.
  - intros b _. rewrite bool_decide_eq_false_2 by (by intros ?%elem_of_nil). by rewrite andb_true_r.
Qed.

(** Storing an inode. *)
Lemma data_freed_inodes c c' l ins : data_freed c c' l -> data_freed c (set_c_inodes ins c') l.
Proof.
  intros [H1 [F P I D] H3 H4]. split; [by apply blocks_ok_inodes| |done|done].
  split; [|exact P|exact I|exact D]. rewrite F at 1. done.
Qed.

(** The inode with the pointers [from], ..., [from + n - 1] cleared. *)
Fixpoint clear_pointers (from : Z) (n : nat) (i : inode) : inode :=
  match n with
  | O => i
  | S n' => clear_pointers (from + 1) n' (set_pointer from 0 i)
  end.

(** A zero pointer stays. *)
Lemma set_pointer_id k i : 0 <= k < len (i_data (KR_I i)) -> pointer i k = 0 -> set_pointer k 0 i = i.
Proof.
  intros Hk Hz. unfold set_pointer, pointer, len in *.
  assert (<[Z.to_nat k := u32 0]> (i_data (KR_I i)) = i_data (KR_I i)) as ->.
  { apply list_insert_id. rewrite nth_lookup in Hz.
    destruct (i_data (KR_I i) !! Z.to_nat k) as [v|] eqn:Hv; [by simpl in Hz; subst|].
    apply lookup_ge_None in Hv. lia. }
  destruct i as [? ? ? ? ? ? ? ? ? ? ? ? ? ? ei]. by destruct ei.
Qed.

Section Facts.
Context {B : BitOps} {BL : BitLaws B} {R : RbTree} {RL : RbLaws R} {T : Trylock} {K : Kernel}.
Variable E : stop -> Prop.
Hypothesis HE : E Panic.

(** Freeing a run of data blocks. *)
Lemma data_freed_run c fs l ino b n : data_freed c (core_of fs) l -> 1 <= n ->
  (forall x, b <= x < b + n -> data_block c x) ->
  (forall g, 0 <= g < c_ngroups c -> ~ unreadable c g) ->
  runs (kr_free_blocks ino b n) E (fun _ fs' => c_inodes (core_of fs') = c_inodes (core_of fs) /\
    forall l', (forall x, x ∈ l' <-> x ∈ l \/ b <= x < b + n) -> data_freed c (core_of fs') l') fs.
Proof.
  intros [H1 H2 H3 H4] Hn Hdata Hread. set (c1 := core_of fs) in *.
  destruct (changed_geo _ _ H2) as (_ & _ & _ & Gf & Gn & Gg & _).
  change (c_fdb c1 = c_fdb c) in Gf. change (c_nblocks c1 = c_nblocks c) in Gn.
  change (c_ngroups c1 = c_ngroups c) in Gg.
  assert (Hmeta : forall x, is_metadata c1 x <-> is_metadata c x)
    by (intros x; apply (is_metadata_changed _ _ x H2)).
  assert (data_run c1 b n) as Hrun.
  { destruct (Hdata b ltac:(lia)) as [Hb1 _], (Hdata (b + n - 1) ltac:(lia)) as [Hb2 _].
    split; [rewrite Gf; lia|rewrite Gn; lia|].
    intros x Hx Hm. apply (Hdata x Hx). by apply Hmeta. }
  eapply runs_mono; [apply (kr_free_blocks_spec E HE ino fs b n H1 Hn Hrun)|].
  cbv beta. fold c1. intros _ fs2 (m & fs1 & freed & Hm & [F1 F2 F3 F4 F5 F6] & Hcore).
  assert (m = n) as ->.
  { destruct Hm as [->|(Hm & g & Hg & Hu)]; [done|]. exfalso. rewrite Gg in Hg. apply (Hread g Hg).
    destruct (bc_places _ _ H2 g Hg) as ((P1 & _) & _).
    change (bg_block_bitmap (group_desc c1 g) = bg_block_bitmap (group_desc c g)) in P1.
    unfold unreadable in *. by rewrite <- P1. }
  destruct (changed_geo _ _ F2) as (_ & _ & _ & _ & _ & _ & Gi).
  split; [rewrite Hcore; exact Gi|]. intros l' Hl'. split; rewrite ?Hcore.
  - by apply blocks_ok_sbi.
  - change (c_inodes (set_c_sbi _ (core_of fs1))) with (c_inodes (core_of fs1)). rewrite Gi.
    eapply blocks_changed_trans; [exact H2|].
    destruct F2 as [Fr P I D]. split; [rewrite Fr at 1; done|exact P|exact I|exact D].
  - change (c_rsv (core_of fs1) = c_rsv c). by rewrite F3.
  - intros x Hx. change (block_used (core_of fs1) x = block_used c x && negb (bool_decide (x ∈ l'))).
    rewrite F6 by (rewrite Gf, Gn; done). rewrite H4 by done. rewrite <- andb_assoc. f_equal.
    rewrite <- negb_orb. f_equal. destruct ((b <=? x) && (x <? b + n)) eqn:Hin.
    + rewrite orb_true_r. symmetry. apply bool_decide_eq_true_2, Hl'. right. lia.
    + rewrite orb_false_r. apply bool_decide_ext. rewrite Hl'. split; [by left|intros [?|?]; [done|lia]].
Qed.

(** The loop, at the slot [k] of the inode: [l] are the blocks freed and [seen]
    those that were named; the run [b, b + n) is still to be freed. *)
Definition pending (c : core) (seen l : list Z) (b n : Z) : Prop :=
  0 <= n < 4096 /\ (n = 0 -> seen = l) /\ (forall x, b <= x < b + n -> data_block c x) /\
  forall x, x ∈ seen <-> x ∈ l \/ b <= x < b + n.

Lemma slots_cons ino k m : slots (InInode ino 0) k (S m) = InInode ino k :: slots (InInode ino 0) (k + 1) m.
Proof.
  unfold slots. cbn [seq fmap list_fmap slot_at]. rewrite Z.add_0_r. f_equal.
  rewrite <- (fmap_S_seq 0), <- list_fmap_compose. apply list_fmap_ext. intros j x _. simpl. f_equal. lia.
Qed.
Lemma slot_get_inode ino k i fs : fs_inodes fs !! ino = Some i -> 0 <= k < len (i_data (KR_I i)) ->
  slot_get (InInode ino k) fs = Ret (pointer i k) fs.
Proof.
  intros Hi Hk. apply slot_get_run. cbn [slot_val]. change (c_inodes (core_of fs)) with (fs_inodes fs).
  rewrite Hi. cbn. unfold pointer. by replace ((k <? 0) || (k >=? len (i_data (KR_I i)))) with false by lia.
Qed.
Lemma slot_set_inode ino k v i fs : fs_inodes fs !! ino = Some i -> 0 <= k < len (i_data (KR_I i)) ->
  slot_set (InInode ino k) v fs = Ret tt (set_fs_inodes (<[ino := set_pointer k v i]> (fs_inodes fs)) fs).
Proof.
  intros Hi Hk. unfold slot_set, inode_get, inode_upd, mbind, M_bind, gets, modify, id. rewrite Hi.
  unfold mret, M_ret. cbn beta iota. replace ((k <? 0) || (k >=? len (i_data (KR_I i)))) with false by lia. do 2 f_equal.
  apply map_eq. intros j. destruct (decide (j = ino)) as [->|Hne].
  - rewrite lookup_alter_eq, Hi, lookup_insert_eq. done.
  - rewrite lookup_alter_ne, lookup_insert_ne; done.
Qed.

(** What one turn does to the run that is pending. *)
Lemma pending_first c l nr : data_block c nr -> pending c (nr :: l) l nr 1.
Proof.
  intros Hd. split; [lia|]. split; [lia|]. split; [intros x Hx; by replace x with nr by lia|].
  intros x. rewrite elem_of_cons. split; [intros [->|?]; [right; lia|by left]|intros [?|?]; [by right|left; lia]].
Qed.
Lemma pending_more c seen l b n : pending c seen l b n -> n + 1 < 4096 -> 1 <= n -> data_block c (b + n) ->
  pending c (b + n :: seen) l b (n + 1).
Proof.
  intros (H1 & H2 & H3 & H4) Hn H1n Hd. split; [lia|]. split; [lia|]. split.
  - intros x Hx. destruct (decide (x = b + n)) as [->|]; [done|]. apply H3. lia.
  - intros x. rewrite elem_of_cons, H4.
    assert (b <= x < b + (n + 1) <-> x = b + n \/ b <= x < b + n) by lia. tauto.
Qed.

Lemma free_data_loop_spec c ino : (forall g, 0 <= g < c_ngroups c -> ~ unreadable c g) ->
  blocks_ok c ->
  forall m k b n i l seen fs, 0 <= k -> k + Z.of_nat m <= len (i_data (KR_I i)) ->
  data_freed c (core_of fs) l -> pending c seen l b n -> n + Z.of_nat m < 4096 ->
  c_inodes (core_of fs) !! ino = Some i ->
  (forall j, k <= j < k + Z.of_nat m -> pointer i j = 0 \/ data_block c (pointer i j)) ->
  runs (free_data_loop ino (slots (InInode ino 0) k m) b n) E (fun r fs' => exists l' seen',
    data_freed c (core_of fs') l' /\ pending c seen' l' r.1 r.2 /\
    c_inodes (core_of fs') = <[ino := clear_pointers k m i]> (c_inodes (core_of fs)) /\
    forall x, x ∈ seen' <-> x ∈ seen \/ exists j, k <= j < k + Z.of_nat m /\ x = pointer i j /\ x <> 0) fs.
Proof.
  intros Hread Hbok. pose proof (ck_fdb c (bo_core _ Hbok)) as Hfdb.
  pose proof (ck_blocks32 c (bo_core _ Hbok)) as H32.
  induction m as [|m IH]; intros k b n i l seen fs Hk Hlen Hdf Hpe Hn Hi Hptr.
  { change (slots (InInode ino 0) k 0) with (@nil slot). cbn [free_data_loop]. step. exists l, seen. split_and!; [done|done| |].
    - cbn [clear_pointers]. by rewrite insert_id.
    - intros x. split; [by left|]. intros [?|(j & Hj & _)]; [done|lia]. }
  rewrite slots_cons. cbn [free_data_loop]. step. run slot_get_inode; [done|lia|].
  assert (Hsplit : forall x, (exists j, k <= j < k + Z.of_nat (S m) /\ x = pointer i j /\ x <> 0) <->
    x = pointer i k /\ x <> 0 \/
    exists j, k + 1 <= j < k + 1 + Z.of_nat m /\ x = pointer (set_pointer k 0 i) j /\ x <> 0).
  { intros x. split.
    - intros (j & Hj & -> & Hz). destruct (decide (j = k)) as [->|]; [by left|right].
      exists j. rewrite pointer_set by lia. replace (j =? k) with false by lia. split; [lia|done].
    - intros [[-> ?]|(j & Hj & -> & Hz)]; [by exists k; split; [lia|]|]. exists j.
      revert Hz. rewrite pointer_set by lia. replace (j =? k) with false by lia. split; [lia|done]. }
  assert (Hset : forall fs1 b1 n1 l1 seen1, data_freed c (core_of fs1) l1 -> pending c seen1 l1 b1 n1 ->
    n1 + Z.of_nat m < 4096 ->
    c_inodes (core_of fs1) = <[ino := set_pointer k 0 i]> (c_inodes (core_of fs)) ->
    (forall x, x ∈ seen1 <-> x ∈ seen \/ x = pointer i k /\ x <> 0) ->
    runs (free_data_loop ino (slots (InInode ino 0) (k + 1) m) b1 n1) E (fun r fs' => exists l' seen',
      data_freed c (core_of fs') l' /\ pending c seen' l' r.1 r.2 /\
      c_inodes (core_of fs') = <[ino := clear_pointers k (S m) i]> (c_inodes (core_of fs)) /\
      forall x, x ∈ seen' <-> x ∈ seen \/ exists j, k <= j < k + Z.of_nat (S m) /\ x = pointer i j /\ x <> 0) fs1).
  { intros fs1 b1 n1 l1 seen1 Hdf1 Hpe1 Hn1 Hi1 Hseen1. eapply runs_mono.
    - apply (IH (k + 1) b1 n1 (set_pointer k 0 i) l1 seen1); rewrite ?len_set_pointer; try done; try lia.
      + by rewrite Hi1, lookup_insert_eq.
      + intros j Hj. rewrite pointer_set by lia. replace (j =? k) with false by lia. apply Hptr. lia.
    - cbv beta. intros r fs2 (l' & seen' & R1 & R2 & R3 & R4). exists l', seen'. split_and!; [done|done| |].
      + rewrite R3, Hi1, insert_insert_eq. done.
      + intros x. rewrite R4, Hseen1, Hsplit. tauto. }
  destruct (Z.eqb_spec (pointer i k) 0) as [Hz|Hnz].
  { apply (Hset fs b n l seen); [done|done|lia| |].
    - rewrite set_pointer_id by (done || lia). by rewrite insert_id.
    - intros x. split; [by left|]. intros [?|[-> ?]]; done. }
  destruct (Hptr k ltac:(lia)) as [?|Hdk]; [done|]. set (nr := pointer i k) in *.
  assert (Hnr : 0 <= nr < 4294967296) by (destruct Hdk; lia).
  step. run slot_set_inode; [done|lia|].
  set (fs1 := set_fs_inodes _ fs).
  assert (Hdf1 : data_freed c (core_of fs1) l) by exact (data_freed_inodes c (core_of fs) l _ Hdf).
  pose proof Hpe as (Hp1 & Hp2 & Hp3 & Hp4).
  destruct (Z.eqb_spec n 0) as [->|Hn0].
  { rewrite (Hp2 eq_refl) in *. apply (Hset fs1 nr 1 l (nr :: l)); [done|by apply pending_first|lia|done|].
    intros x. rewrite elem_of_cons. split; [intros [->|?]; [by right|by left]|intros [?|[-> _]]; [by right|by left]]. }
  assert (Hb : 0 <= b /\ b + n < 4294967296).
  { destruct (Hp3 b ltac:(lia)) as [? _], (Hp3 (b + n - 1) ltac:(lia)) as [? _]. lia. }
  destruct (Z.eqb_spec b (u64 (nr - n))) as [Hbn|Hbn].
  - assert (nr = b + n) as Hnrb by (unfold u64 in Hbn; Z.to_euclidean_division_equations; lia).
    rewrite u64_small by lia. apply (Hset fs1 b (n + 1) l (b + n :: seen)); [done| |lia|done|].
    + apply pending_more; [done|lia|lia|by rewrite <- Hnrb].
    + rewrite <- Hnrb. intros x. rewrite elem_of_cons.
      split; [intros [->|?]; [by right|by left]|intros [?|[-> _]]; [by right|by left]].
  - step. eapply runs_mono; [apply (data_freed_run c fs1 l ino b n Hdf1); [lia|done|done]|].
    cbv beta. intros _ fs2 [Hino Hdf2]. step. unfold log. step.
    apply (Hset _ nr 1 seen (nr :: seen)); [|by apply pending_first|lia|exact Hino|].
    + apply Hdf2. done.
    + intros x. rewrite elem_of_cons.
      split; [intros [->|?]; [by right|by left]|intros [?|[-> _]]; [by right|by left]].
Qed.

(** All the direct slots from [k] on. *)
Lemma kr_free_data_spec fs ino k m i : let c := core_of fs in
  blocks_ok c -> (forall g, 0 <= g < c_ngroups c -> ~ unreadable c g) ->
  0 <= k -> k + Z.of_nat m <= len (i_data (KR_I i)) -> Z.of_nat m < 4096 ->
  c_inodes c !! ino = Some i ->
  (forall j, k <= j < k + Z.of_nat m -> pointer i j = 0 \/ data_block c (pointer i j)) ->
  runs (kr_free_data ino (slots (InInode ino 0) k m)) E (fun _ fs' => exists l,
    (forall x, x ∈ l <-> exists j, k <= j < k + Z.of_nat m /\ x = pointer i j /\ x <> 0) /\
    data_freed c (core_of fs') l /\
    c_inodes (core_of fs') = <[ino := clear_pointers k m i]> (c_inodes c)) fs.
Proof.
  intros c Hb Hread Hk Hlen Hm Hi Hptr. unfold kr_free_data. step. eapply runs_mono.
  - apply (free_data_loop_spec c ino Hread Hb m k 0 0 i [] []); try done; try lia.
    + by apply data_freed_refl.
    + split; [lia|]. split; [done|]. split; [lia|]. intros x. split; [by left|]. intros [?|?]; [done|lia].
  - cbv beta. intros [b n] fs1 (l & seen & D1 & (P1 & P2 & P3 & P4) & D3 & D4). cbn [fst snd] in *.
    assert (Hs : forall x, x ∈ seen <-> exists j, k <= j < k + Z.of_nat m /\ x = pointer i j /\ x <> 0).
    { intros x. rewrite D4. split; [intros [?%elem_of_nil|?]; done|by right]. }
    step.
    + step. eapply runs_mono; [apply (data_freed_run c fs1 l ino b n D1); [lia|done|done]|].
      cbv beta. intros _ fs2 [Hino Hdf2]. unfold log. step. exists seen. split; [done|].
      split; [by apply Hdf2|]. change (c_inodes (core_of fs2) = <[ino:=clear_pointers k m i]> (c_inodes c)).
      rewrite Hino. exact D3.
    + assert (seen = l) as -> by (apply P2; lia). by exists l.
Qed.

End Facts.
