(* ===== verification/Super.v ===== *)
(** * The super block and the mount options (super.c)

    Parsing and showing the options, setting up a mount, checking the group
    descriptors, writing the super block, freezing, remounting and [statfs]. *)

From Stdlib Require Import Ascii.
From stdpp Require Import strings.
From S2P Require Import Prelude Bits Kr Rsv State Balloc.

(** ** Mount options *)

Inductive opt :=
| Opt_bsd_df | Opt_minix_df | Opt_grpid | Opt_nogrpid
| Opt_resgid | Opt_resuid | Opt_sb | Opt_err_cont | Opt_err_panic
| Opt_err_ro | Opt_nouid32 | Opt_nocheck | Opt_debug
| Opt_oldalloc | Opt_orlov | Opt_nobh | Opt_user_xattr | Opt_nouser_xattr
| Opt_acl | Opt_noacl | Opt_xip | Opt_dax | Opt_ignore | Opt_err | Opt_quota
| Opt_usrquota | Opt_grpquota | Opt_reservation | Opt_noreservation.

Definition tokens : list (opt * string) := [
  (Opt_bsd_df, "bsddf"); (Opt_minix_df, "minixdf"); (Opt_grpid, "grpid");
  (Opt_grpid, "bsdgroups"); (Opt_nogrpid, "nogrpid"); (Opt_nogrpid, "sysvgroups");
  (Opt_resgid, "resgid=%u"); (Opt_resuid, "resuid=%u"); (Opt_sb, "sb=%u");
  (Opt_err_cont, "errors=continue"); (Opt_err_panic, "errors=panic");
  (Opt_err_ro, "errors=remount-ro"); (Opt_nouid32, "nouid32"); (Opt_nocheck, "check=none");
  (Opt_nocheck, "nocheck"); (Opt_debug, "debug"); (Opt_oldalloc, "oldalloc");
  (Opt_orlov, "orlov"); (Opt_nobh, "nobh"); (Opt_user_xattr, "user_xattr");
  (Opt_nouser_xattr, "nouser_xattr"); (Opt_acl, "acl"); (Opt_noacl, "noacl");
  (Opt_xip, "xip"); (Opt_dax, "dax"); (Opt_grpquota, "grpquota"); (Opt_ignore, "noquota");
  (Opt_quota, "quota"); (Opt_usrquota, "usrquota"); (Opt_reservation, "reservation");
  (Opt_noreservation, "noreservation")]%string.

(** The parser of the kernel (lib/parser.c), the user namespace, and how the kernel
    is built: whether it has quotas. *)
Class MountKernel := {
  match_pattern : string -> string -> option (list string);  (* pattern, string: arguments *)
  match_int : string -> option Z;
  simple_strtoul : string -> Z * string;                     (* the number, and the rest *)
  make_kuid : Z -> option Z;                                 (* when it is valid *)
  make_kgid : Z -> option Z;
  config_quota : bool;
}.

(** [strsep(&options, ",")], to its end *)
Fixpoint strsep (s : string) : list string :=
  match s with
  | EmptyString => [EmptyString]
  | String c rest =>
      if Ascii.eqb c ","%char then EmptyString :: strsep rest
      else match strsep rest with
           | p :: ps => String c p :: ps
           | [] => [String c EmptyString]
           end
  end.

Definition set_opt (o : Z) (sbi : kr_sb_info) : kr_sb_info :=
  set_s_mount_opt (Z.lor (s_mount_opt sbi) o) sbi.
Definition clear_opt (o : Z) (sbi : kr_sb_info) : kr_sb_info :=
  set_s_mount_opt (clr (s_mount_opt sbi) o) sbi.

Section Options.
Context `{MountKernel}.

(** [match_token]: the first pattern of the table that matches. *)
Fixpoint match_token (table : list (opt * string)) (p : string) : opt * list string :=
  match table with
  | [] => (Opt_err, [])
  | (o, pattern) :: rest =>
      match match_pattern pattern p with
      | Some args => (o, args)
      | None => match_token rest p
      end
  end.

(** One option; [None] is [return 0]. *)
Definition apply_option (token : opt) (args : list string) (sbi : kr_sb_info)
    : option kr_sb_info :=
  match token with
  | Opt_bsd_df => Some (clear_opt KR_MOUNT_MINIX_DF sbi)
  | Opt_minix_df => Some (set_opt KR_MOUNT_MINIX_DF sbi)
  | Opt_grpid => Some (set_opt KR_MOUNT_GRPID sbi)
  | Opt_nogrpid => Some (clear_opt KR_MOUNT_GRPID sbi)
  | Opt_resuid =>
      option ← match_int (nth 0 args EmptyString);
      uid ← make_kuid option;
      Some (set_s_resuid uid sbi)
  | Opt_resgid =>
      option ← match_int (nth 0 args EmptyString);
      gid ← make_kgid option;
      Some (set_s_resgid gid sbi)
  | Opt_sb => Some sbi
  | Opt_err_panic =>
      Some (set_opt KR_MOUNT_ERRORS_PANIC
              (clear_opt KR_MOUNT_ERRORS_RO (clear_opt KR_MOUNT_ERRORS_CONT sbi)))
  | Opt_err_ro =>
      Some (set_opt KR_MOUNT_ERRORS_RO
              (clear_opt KR_MOUNT_ERRORS_PANIC (clear_opt KR_MOUNT_ERRORS_CONT sbi)))
  | Opt_err_cont =>
      Some (set_opt KR_MOUNT_ERRORS_CONT
              (clear_opt KR_MOUNT_ERRORS_PANIC (clear_opt KR_MOUNT_ERRORS_RO sbi)))
  | Opt_nouid32 => Some (set_opt KR_MOUNT_NO_UID32 sbi)
  | Opt_nocheck => Some (clear_opt KR_MOUNT_CHECK sbi)
  | Opt_debug => Some (set_opt KR_MOUNT_DEBUG sbi)
  | Opt_oldalloc => Some (set_opt KR_MOUNT_OLDALLOC sbi)
  | Opt_orlov => Some (clear_opt KR_MOUNT_OLDALLOC sbi)
  | Opt_nobh => Some (set_opt KR_MOUNT_NOBH sbi)
  | Opt_user_xattr | Opt_nouser_xattr => Some sbi
  | Opt_acl | Opt_noacl => Some sbi                  (* CONFIG_KR_FS_POSIX_ACL is never defined *)
  | Opt_xip => Some (set_opt KR_MOUNT_XIP sbi)
  | Opt_dax => Some sbi
  | Opt_quota | Opt_usrquota =>
      Some (if config_quota then set_opt KR_MOUNT_USRQUOTA sbi else sbi)
  | Opt_grpquota => Some (if config_quota then set_opt KR_MOUNT_GRPQUOTA sbi else sbi)
  | Opt_reservation => Some (set_opt KR_MOUNT_RESERVATION sbi)
  | Opt_noreservation => Some (clear_opt KR_MOUNT_RESERVATION sbi)
  | Opt_ignore => Some sbi
  | Opt_err => None
  end.

(** The loop over the options; the answer is what [parse_options] returns. *)
Fixpoint parse_loop (l : list string) (sbi : kr_sb_info) : bool * kr_sb_info :=
  match l with
  | [] => (true, sbi)
  | EmptyString :: rest => parse_loop rest sbi
  | p :: rest =>
      let '(token, args) := match_token tokens p in
      match apply_option token args sbi with
      | None => (false, sbi)
      | Some sbi => parse_loop rest sbi
      end
  end.

Definition parse_options (options : option string) (sbi : kr_sb_info) : bool * kr_sb_info :=
  match options with
  | None => (true, sbi)
  | Some s => parse_loop (strsep s) sbi
  end.

(** The defaults [kr_fill_super] sets before it parses the options; the ids of the
    initial user namespace are the numbers themselves. *)
Definition default_errors (es : kr_super_block) : Z :=
  if es_errors es =? KR_ERRORS_PANIC then KR_MOUNT_ERRORS_PANIC
  else if es_errors es =? KR_ERRORS_CONTINUE then KR_MOUNT_ERRORS_CONT
  else KR_MOUNT_ERRORS_RO.
Definition default_options (es : kr_super_block) (sbi : kr_sb_info) : kr_sb_info :=
  let def_mount_opts := es_default_mount_opts es in
  let sbi := if has def_mount_opts KR_DEFM_DEBUG then set_opt KR_MOUNT_DEBUG sbi else sbi in
  let sbi := if has def_mount_opts KR_DEFM_BSDGROUPS then set_opt KR_MOUNT_GRPID sbi else sbi in
  let sbi := if has def_mount_opts KR_DEFM_UID16 then set_opt KR_MOUNT_NO_UID32 sbi else sbi in
  let sbi := set_opt (default_errors es) sbi in
  let sbi := set_s_resgid (es_def_resgid es) (set_s_resuid (es_def_resuid es) sbi) in
  set_opt KR_MOUNT_RESERVATION sbi.

(** [get_sb_block]: the block of the super block, and the options that are left. *)
Definition get_sb_block (data : option string) : Z * option string :=
  match data with
  | None => (1, None)
  | Some options =>
      if negb (String.prefix "sb=" options) then (1, data)
      else
        let '(sb_block, rest) := simple_strtoul (String.substring 3 (String.length options - 3) options) in
        match rest with
        | EmptyString => (sb_block, Some rest)
        | String c rest' => if Ascii.eqb c ","%char then (sb_block, Some rest') else (1, data)
        end
  end.

End Options.

(** [kr_show_options]: the options that are printed, in order; [num] prints a
    number. *)
Definition kr_show_options (num : Z -> string) (quota : bool) (es : kr_super_block)
    (sbi : kr_sb_info) : list string :=
  let def_mount_opts := es_default_mount_opts es in
  let opt o := has (s_mount_opt sbi) o in
  let show (b : bool) (s : string) := if b then [s] else [] in
  List.concat [show (negb (s_sb_block sbi =? 1)%Z) (",sb=" +:+ num (s_sb_block sbi));
  show (opt KR_MOUNT_MINIX_DF) ",minixdf";
  show (opt KR_MOUNT_GRPID) ",grpid";
  show (negb (opt KR_MOUNT_GRPID) && has def_mount_opts KR_DEFM_BSDGROUPS) ",nogrpid";
  show (negb (s_resuid sbi =? 0)%Z || negb (es_def_resuid es =? 0)%Z) (",resuid=" +:+ num (s_resuid sbi));
  show (negb (s_resgid sbi =? 0)%Z || negb (es_def_resgid es =? 0)%Z) (",resgid=" +:+ num (s_resgid sbi));
  show (opt KR_MOUNT_ERRORS_RO &&
        ((es_errors es =? KR_ERRORS_PANIC)%Z || (es_errors es =? KR_ERRORS_CONTINUE)%Z))
    ",errors=remount-ro";
  show (opt KR_MOUNT_ERRORS_CONT) ",errors=continue";
  show (opt KR_MOUNT_ERRORS_PANIC) ",errors=panic";
  show (opt KR_MOUNT_NO_UID32) ",nouid32";
  show (opt KR_MOUNT_DEBUG) ",debug";
  show (opt KR_MOUNT_OLDALLOC) ",oldalloc";
  show (opt KR_MOUNT_NOBH) ",nobh";
  show (quota && opt KR_MOUNT_USRQUOTA) ",usrquota";
  show (quota && opt KR_MOUNT_GRPQUOTA) ",grpquota";
  show (negb (opt KR_MOUNT_RESERVATION)) ",noreservation"]%string.

(** ** Revisions and limits *)

(** [kr_update_dynamic_rev] *)
Definition kr_update_dynamic_rev (es : kr_super_block) : kr_super_block :=
  if es_rev_level es >? KR_GOOD_OLD_REV then es
  else
    set_es_rev_level KR_DYNAMIC_REV
      (set_es_inode_size KR_GOOD_OLD_INODE_SIZE
        (set_es_first_ino KR_GOOD_OLD_FIRST_INO es)).

(** Of the kernel's headers ext2_fs.h and magic.h *)
Definition EXT2_SUPER_MAGIC : Z := 0xEF53.
Definition EXT2_NAME_LEN : Z := 255.
Definition EXT2_LINK_MAX : Z := 32000.

(** [MAX_LFS_FILESIZE] of a 64-bit machine *)
Definition MAX_LFS_FILESIZE : Z := 9223372036854775807.

Definition kr_max_size (bits : Z) : Z :=
  let res := KR_NDIR_BLOCKS in
  let upper_limit := Z.shiftl 1 32 - 1 in
  let upper_limit := Z.shiftr upper_limit (bits - 9) in
  let meta_blocks := 1 in
  let meta_blocks := s32 (meta_blocks + (1 + Z.shiftl 1 (bits - 2))) in
  let meta_blocks := s32 (meta_blocks + (1 + Z.shiftl 1 (bits - 2) + Z.shiftl 1 (2 * (bits - 2)))) in
  let upper_limit := s64 (Z.shiftl (s64 (upper_limit - meta_blocks)) bits) in
  let res := s64 (res + Z.shiftl 1 (bits - 2)) in
  let res := s64 (res + Z.shiftl 1 (2 * (bits - 2))) in
  let res := s64 (res + Z.shiftl 1 (3 * (bits - 2))) in
  let res := s64 (Z.shiftl res bits) in
  let res := if res >? upper_limit then upper_limit else res in
  if res >? MAX_LFS_FILESIZE then MAX_LFS_FILESIZE else res.

(** [kr_setup_super]: the flags that are forced, and the super block. *)
Definition kr_setup_super (es : kr_super_block) (read_only : bool) : Z * kr_super_block :=
  let res := if es_rev_level es >? KR_MAX_SUPP_REV then MS_RDONLY else 0 in
  if read_only then (res, es)
  else
    let es := if es_max_mnt_count es =? 0 then set_es_max_mnt_count KR_DFL_MAX_MNT_COUNT es else es in
    (res, set_es_mnt_count (u16 (es_mnt_count es + 1)) es).

(** [descriptor_loc] *)
Definition descriptor_loc (fs : krfs) (logic_sb_block nr : Z) : Z :=
  let es := fs_es fs in let sbi := fs_sbi fs in
  if negb (has_incompat_feature es KR_FEATURE_INCOMPAT_META_BG) || (nr <? es_first_meta_bg es)
  then u64 (logic_sb_block + nr + 1)
  else
    let bg := u64 (s_desc_per_block sbi * nr) in
    let has_super := if negb (kr_bg_has_super fs bg =? 0) then 1 else 0 in
    u64 (kr_group_first_block_no (s_blocks_per_group sbi) (es_first_data_block es) bg + has_super).

Section Ops.
Context `{Kernel}.

(** ** Checking the descriptors *)

(** The conditions on the group [i] with the descriptor [d]. *)
Definition descriptor_fits (fs : krfs) (i : Z) (d : kr_group_desc) : bool :=
  let sbi := fs_sbi fs in
  let first_block := kr_group_first_block_no (s_blocks_per_group sbi) (es_first_data_block (fs_es fs)) i in
  let last_block := if i =? s_groups_count sbi - 1 then u32 (es_blocks_count (fs_es fs) - 1)
                    else u64 (first_block + (s_blocks_per_group sbi - 1)) in
  negb ((bg_block_bitmap d <? first_block) || (bg_block_bitmap d >? last_block)) &&
  negb ((bg_inode_bitmap d <? first_block) || (bg_inode_bitmap d >? last_block)) &&
  negb ((bg_inode_table d <? first_block)
        || (u64 (bg_inode_table d + s_itb_per_group sbi - 1) >? last_block)).

Fixpoint check_groups (n : nat) (i : Z) : M krfs bool :=
  match n with
  | O => mret true
  | S n' =>
      gdp ← kr_get_group_desc i;
      match gdp with
      | None => halt Fault
      | Some p =>
          d ← desc_get p;
          fs ← gets id;
          if negb (descriptor_fits fs i d) then kr_error ;; mret false else check_groups n' (i + 1)
      end
  end.

Definition kr_check_descriptors : M krfs bool :=
  fs ← gets id;
  check_groups (Z.to_nat (s_groups_count (fs_sbi fs))) 0.

(** ** Writing the super block *)

Definition kr_sync_fs (wait : bool) : M krfs Z :=
  fs ← gets id;
  when (has (es_state (fs_es fs)) KR_VALID_FS)
    (upd_es (fun es => set_es_state (clr (es_state es) KR_VALID_FS) es)) ;;
  kr_sync_super wait ;;
  mret 0.

Definition kr_write_super : M krfs unit :=
  fs ← gets id;
  when (negb (sb_rdonly fs)) (kr_sync_fs true ;; mret tt).

(** Writing the state of the mount to the super block. *)
Definition store_mount_state : M krfs unit :=
  fs ← gets id;
  upd_es (set_es_state (s_mount_state (fs_sbi fs))).

(** [removed] is whether unlinked files are still open ([s_remove_count]). *)
Definition kr_freeze (removed : bool) : M krfs Z :=
  if removed then kr_sync_fs true ;; mret 0
  else store_mount_state ;; kr_sync_super true ;; mret 0.

Definition kr_unfreeze : M krfs Z := kr_write_super ;; mret 0.

(** [kr_put_super], up to the release of its memory. *)
Definition kr_put_super : M krfs unit :=
  fs ← gets id;
  when (negb (sb_rdonly fs)) (store_mount_state ;; kr_sync_super true) ;;
  modify (set_fs_desc []).

(** ** Remounting *)

Definition set_posixacl (opts flags : Z) : Z :=
  Z.lor (clr flags MS_POSIXACL) (if has opts KR_MOUNT_POSIX_ACL then MS_POSIXACL else 0).

Section Remount.
Context `{MountKernel}.
(** [sync_filesystem(sb)], and what [dquot_suspend] returns. *)
Variables (sync_filesystem : M krfs unit) (dquot_suspend : Z).

(** [restore_opts] *)
Definition restore_opts (old : krfs) (err : Z) : M krfs Z :=
  upd_sbi (fun sbi =>
    set_s_resgid (s_resgid (fs_sbi old)) (set_s_resuid (s_resuid (fs_sbi old))
      (set_s_mount_opt (s_mount_opt (fs_sbi old)) sbi))) ;;
  modify (set_fs_flags (fs_flags old)) ;;
  mret err.

Definition kr_remount (flags : Z) (data : option string) : M krfs Z :=
  sync_filesystem ;;
  old ← gets id;
  let '(ok, sbi) := parse_options data (fs_sbi old) in
  upd_sbi (fun _ => sbi) ;;
  if negb ok then restore_opts old (- EINVAL)
  else
    modify (fun fs => set_fs_flags (set_posixacl (s_mount_opt (fs_sbi fs)) (fs_flags fs)) fs) ;;
    upd_sbi (fun sbi =>
      if has (Z.lxor (s_mount_opt sbi) (s_mount_opt (fs_sbi old))) KR_MOUNT_DAX
      then set_s_mount_opt (Z.lxor (s_mount_opt sbi) KR_MOUNT_DAX) sbi else sbi) ;;
    fs ← gets id;
    let es := fs_es fs in
    if Bool.eqb (has flags MS_RDONLY) (sb_rdonly fs) then mret 0
    else if has flags MS_RDONLY then
      if has (es_state es) KR_VALID_FS || negb (has (s_mount_state (fs_sbi fs)) KR_VALID_FS)
      then mret 0
      else
        store_mount_state ;;
        upd_es (set_es_mtime (u32 get_seconds)) ;;
        if dquot_suspend <? 0 then restore_opts old dquot_suspend
        else kr_sync_super true ;; mret 0
    else if has_ro_compat_feature es (clr 4294967295 KR_FEATURE_RO_COMPAT_SUPP) then
      restore_opts old (- EROFS)
    else
      upd_sbi (set_s_mount_state (es_state es)) ;;
      let '(res, es) := kr_setup_super es false in
      upd_es (fun _ => es) ;;
      when (res =? 0) (modify (fun fs => set_fs_flags (clr (fs_flags fs) MS_RDONLY) fs)) ;;
      kr_write_super ;;
      mret 0.

End Remount.

(** ** [statfs] *)

Record kstatfs := Kstatfs {
  f_type : Z; f_bsize : Z; f_blocks : Z; f_bfree : Z; f_bavail : Z; f_files : Z; f_ffree : Z;
  f_namelen : Z; f_fsid : Z * Z;
}.

(** The blocks of the super blocks and of the descriptors of the groups. *)
Fixpoint super_overhead (fs : krfs) (n : nat) (i : Z) : Z :=
  match n with
  | O => 0
  | S n' => kr_bg_has_super fs i + kr_bg_num_gdb fs i + super_overhead fs n' (i + 1)
  end.

Definition fs_overhead (fs : krfs) : Z :=
  let sbi := fs_sbi fs in
  u64 (es_first_data_block (fs_es fs) + super_overhead fs (Z.to_nat (s_groups_count sbi)) 0
       + s_groups_count sbi * (2 + s_itb_per_group sbi)).

Definition get64 (d : list Z) (o : Z) : Z := get32 d o + 4294967296 * get32 d (o + 4).

Definition kr_statfs : M krfs kstatfs :=
  fs ← gets id;
  (if test_opt KR_MOUNT_MINIX_DF fs then upd_sbi (set_s_overhead_last 0)
   else when (negb (s_blocks_last (fs_sbi fs) =? es_blocks_count (fs_es fs)))
     (upd_sbi (fun sbi => set_s_blocks_last (es_blocks_count (fs_es fs))
                            (set_s_overhead_last (fs_overhead fs) sbi)))) ;;
  bfree ← kr_count_free_blocks_with kr_error_locked;
  upd_es (set_es_free_blocks_count (u32 bfree)) ;;
  ffree ← kr_count_free_inodes_with kr_error_locked;
  upd_es (set_es_free_inodes_count (u32 ffree)) ;;
  fs ← gets id;
  let es := fs_es fs in
  let bavail := if bfree <? es_r_blocks_count es then 0 else u64 (bfree - es_r_blocks_count es) in
  let fsid := Z.lxor (get64 (es_uuid es) 0) (get64 (es_uuid es) 8) in
  mret (Kstatfs EXT2_SUPER_MAGIC (fs_blocksize fs)
          (u64 (es_blocks_count es - s_overhead_last (fs_sbi fs))) bfree bavail
          (es_inodes_count es) ffree EXT2_NAME_LEN
          (Z.land fsid 4294967295, Z.land (Z.shiftr fsid 32) 4294967295)).

End Ops.
