(* ===== verification/OptionFacts.v ===== *)
(** * The mount options: invariants, and showing and parsing them

    What every list of options keeps true of the options in force, and that the
    text [kr_show_options] prints is parsed back to the options it was printed from. *)

From Stdlib Require Import Ascii.
From stdpp Require Import strings.
From S2P Require Import Prelude Bits Kr Rsv State Super.

(** ** Bits of the options *)

Lemma has_lor x o p : has (Z.lor x o) p = has x p || has o p.
Proof.
  unfold has. rewrite Z.land_lor_distr_l.
  destruct (Z.eqb_spec (Z.land x p) 0) as [H1|H1], (Z.eqb_spec (Z.land o p) 0) as [H2|H2]; cbn [negb orb].
  - by rewrite H1, H2.
  - rewrite H1, Z.lor_0_l. by destruct (Z.eqb_spec (Z.land o p) 0).
  - rewrite H2, Z.lor_0_r. by destruct (Z.eqb_spec (Z.land x p) 0).
  - destruct (Z.eqb_spec (Z.lor (Z.land x p) (Z.land o p)) 0) as [H|]; [|done].
    by apply Z.lor_eq_0_iff in H as [? _].
Qed.
Lemma has_clr x o p : has (clr x o) p = has x (clr p o).
Proof. unfold has, clr. do 2 f_equal. apply Z.bits_inj'. intros n Hn.
  rewrite !Z.land_spec, !Z.ldiff_spec. by destruct (Z.testbit x n), (Z.testbit p n), (Z.testbit o n).
Qed.

(** One option of the record. *)
Definition opt_on (sbi : kr_sb_info) (o : Z) : bool := has (s_mount_opt sbi) o.

Lemma on_set o p sbi : opt_on (set_opt o sbi) p = opt_on sbi p || has o p.
Proof. apply has_lor. Qed.
Lemma on_clear o p sbi : opt_on (clear_opt o sbi) p = opt_on sbi (clr p o).
Proof. apply has_clr. Qed.
Lemma on_if (b : bool) s1 s2 p : opt_on (if b then s1 else s2) p = if b then opt_on s1 p else opt_on s2 p.
Proof. by destruct b. Qed.
Lemma on_ids u g s p : opt_on (set_s_resgid g (set_s_resuid u s)) p = opt_on s p.
Proof. done. Qed.
Lemma on_none sbi : opt_on sbi 0 = false.
Proof. unfold opt_on, has. by rewrite Z.land_0_r. Qed.

(** A change that is made under a condition. *)
Definition cond (b : bool) (f : kr_sb_info -> kr_sb_info) (s : kr_sb_info) : kr_sb_info :=
  if b then f s else s.
(** One of the policies on errors. *)
Definition errors (o o1 o2 : Z) (s : kr_sb_info) : kr_sb_info := set_opt o (clear_opt o1 (clear_opt o2 s)).

Lemma on_cond_set b o s p : opt_on (cond b (set_opt o) s) p = opt_on s p || b && has o p.
Proof. destruct b; [apply on_set|]. cbn. by rewrite orb_false_r. Qed.
Lemma on_cond_clear b o s p : clr p o = 0 -> opt_on (cond b (clear_opt o) s) p = negb b && opt_on s p.
Proof. intros Ho. destruct b; [|done]. cbn. by rewrite on_clear, Ho, on_none. Qed.
Lemma on_cond_clear_other b o s p : clr p o = p -> opt_on (cond b (clear_opt o) s) p = opt_on s p.
Proof. intros Ho. destruct b; [|done]. cbn. by rewrite on_clear, Ho. Qed.
Lemma on_cond_errors b o o1 o2 s p : clr (clr p o1) o2 = 0 ->
  opt_on (cond b (errors o o1 o2) s) p = negb b && opt_on s p || b && has o p.
Proof.
  intros Ho. destruct b; cbn; [|by rewrite orb_false_r].
  unfold errors. by rewrite on_set, !on_clear, Ho, on_none.
Qed.
Lemma on_cond_errors_other b o o1 o2 s p : clr (clr p o1) o2 = p ->
  opt_on (cond b (errors o o1 o2) s) p = opt_on s p || b && has o p.
Proof.
  intros Ho. destruct b; cbn; [|by rewrite orb_false_r]. unfold errors. by rewrite on_set, !on_clear, Ho.
Qed.
Lemma on_cond_resuid b u s p : opt_on (cond b (set_s_resuid u) s) p = opt_on s p.
Proof. by destruct b. Qed.
Lemma on_cond_resgid b u s p : opt_on (cond b (set_s_resgid u) s) p = opt_on s p.
Proof. by destruct b. Qed.

(** [on] computes what is known of the options after one more. *)
Ltac masks :=
  repeat match goal with
    | |- context [clr ?p ?o] => let v := eval vm_compute in (clr p o) in change (clr p o) with v
    | |- context [has ?p ?o] =>
        let v := eval vm_compute in (has p o) in
        match v with true => idtac | false => idtac end; change (has p o) with v
    end.
Ltac on := repeat rewrite ?on_set, ?on_clear, ?on_if; cbv delta [KR_MOUNT_CHECK KR_MOUNT_OLDALLOC
    KR_MOUNT_GRPID KR_MOUNT_DEBUG KR_MOUNT_ERRORS_CONT KR_MOUNT_ERRORS_RO KR_MOUNT_ERRORS_PANIC
    KR_MOUNT_MINIX_DF KR_MOUNT_NOBH KR_MOUNT_NO_UID32 KR_MOUNT_XATTR_USER KR_MOUNT_POSIX_ACL
    KR_MOUNT_XIP KR_MOUNT_USRQUOTA KR_MOUNT_GRPQUOTA KR_MOUNT_RESERVATION KR_MOUNT_DAX]; masks;
  rewrite ?on_none, ?orb_false_r, ?orb_true_r.

(** ** The options in force *)

(** What a mount keeps true of its options: exactly one policy on errors, the
    defaults that no option clears, and no quota the kernel does not have. *)
Record options_ok (quota : bool) (es : kr_super_block) (sbi : kr_sb_info) : Prop := {
  oo_errors : (opt_on sbi KR_MOUNT_ERRORS_CONT, opt_on sbi KR_MOUNT_ERRORS_RO,
               opt_on sbi KR_MOUNT_ERRORS_PANIC)
              ∈ [(true, false, false); (false, true, false); (false, false, true)];
  oo_debug : has (es_default_mount_opts es) KR_DEFM_DEBUG = true -> opt_on sbi KR_MOUNT_DEBUG = true;
  oo_uid16 : has (es_default_mount_opts es) KR_DEFM_UID16 = true -> opt_on sbi KR_MOUNT_NO_UID32 = true;
  oo_quota : quota = false ->
    opt_on sbi KR_MOUNT_USRQUOTA = false /\ opt_on sbi KR_MOUNT_GRPQUOTA = false;
}.

(** The fields that options leave alone. *)
Definition same_but_options (s s' : kr_sb_info) : Prop :=
  s' = set_s_resgid (s_resgid s') (set_s_resuid (s_resuid s') (set_s_mount_opt (s_mount_opt s') s)).

Lemma default_on es sbi p : s_mount_opt sbi = 0 -> opt_on (default_options es sbi) p =
  has (es_default_mount_opts es) KR_DEFM_DEBUG && has KR_MOUNT_DEBUG p
  || has (es_default_mount_opts es) KR_DEFM_BSDGROUPS && has KR_MOUNT_GRPID p
  || has (es_default_mount_opts es) KR_DEFM_UID16 && has KR_MOUNT_NO_UID32 p
  || has (default_errors es) p || has KR_MOUNT_RESERVATION p.
Proof.
  intros Hz. assert (opt_on sbi p = false) as H0 by (unfold opt_on; by rewrite Hz).
  unfold default_options. rewrite on_set. f_equal. rewrite on_ids, on_set. f_equal.
  rewrite on_if, on_set, on_if, on_set, on_if, on_set, H0.
  destruct (has _ KR_DEFM_DEBUG), (has _ KR_DEFM_BSDGROUPS), (has _ KR_DEFM_UID16);
    cbn [andb orb]; by rewrite ?orb_false_r.
Qed.

Lemma default_options_ok quota es sbi : s_mount_opt sbi = 0 -> options_ok quota es (default_options es sbi).
Proof.
  intros Hz. split.
  - rewrite !default_on by done. unfold default_errors.
    destruct (has _ KR_DEFM_DEBUG), (has _ KR_DEFM_BSDGROUPS), (has _ KR_DEFM_UID16),
      (es_errors es =? KR_ERRORS_PANIC), (es_errors es =? KR_ERRORS_CONTINUE); vm_compute; set_solver.
  - intros Hd. by rewrite default_on, Hd.
  - intros Hu. rewrite default_on, Hu by done. by rewrite !orb_true_r.
  - intros _. rewrite !default_on by done. unfold default_errors.
    by destruct (has _ KR_DEFM_DEBUG), (has _ KR_DEFM_BSDGROUPS), (has _ KR_DEFM_UID16),
      (es_errors es =? KR_ERRORS_PANIC), (es_errors es =? KR_ERRORS_CONTINUE).
Qed.

Section Parse.
Context {MK : MountKernel}.

Lemma apply_option_ok es token args sbi sbi' : options_ok config_quota es sbi ->
  apply_option token args sbi = Some sbi' -> options_ok config_quota es sbi'.
Proof.
  assert (Hkeep : forall s, (forall p, opt_on s p = opt_on sbi p) -> options_ok config_quota es sbi ->
    options_ok config_quota es s).
  { intros s Hs [H1 H2 H3 H4]. split; rewrite ?Hs; done. }
  assert (Hid : forall f, (x ← f; Some (set_s_resuid x sbi)) = Some sbi' \/
    (x ← f; Some (set_s_resgid x sbi)) = Some sbi' -> options_ok config_quota es sbi ->
    options_ok config_quota es sbi').
  { intros [x|] [[= <-]|[= <-]] Ho; by apply Hkeep. }
  intros Ho. pose proof Ho as [H1 H2 H3 H4].
  destruct token; cbn [apply_option]; intros Ha;
    try (injection Ha as <-; first
      [ exact Ho
      | destruct config_quota eqn:Hq; [|exact Ho]; split; on; [exact H1|exact H2|exact H3|done]
      | split; on; first [done | exact H1 | apply elem_of_cons; try (by left); right; set_solver] ]).
  - destruct (match_int _); [|done]. by eapply Hid; [right|].
  - destruct (match_int _); [|done]. by eapply Hid; [left|].
  - done.
Qed.

Lemma apply_option_frame token args sbi sbi' : apply_option token args sbi = Some sbi' ->
  same_but_options sbi sbi'.
Proof.
  unfold same_but_options, set_opt, clear_opt.
  destruct token; cbn [apply_option]; intros Ha;
    try (injection Ha as <-; first [by destruct sbi | by destruct config_quota; destruct sbi]).
  - destruct (match_int _); [|done]. cbn in Ha. destruct (make_kgid _); [|done].
    injection Ha as <-. by destruct sbi.
  - destruct (match_int _); [|done]. cbn in Ha. destruct (make_kuid _); [|done].
    injection Ha as <-. by destruct sbi.
  - done.
Qed.

Lemma same_but_refl s : same_but_options s s.
Proof. by destruct s. Qed.
Lemma same_but_trans s1 s2 s3 : same_but_options s1 s2 -> same_but_options s2 s3 -> same_but_options s1 s3.
Proof. unfold same_but_options. intros -> ->. by destruct s1. Qed.

Lemma parse_loop_inv (P : kr_sb_info -> Prop) l : forall sbi,
  (forall t a s s', P s -> apply_option t a s = Some s' -> P s') -> P sbi -> P (parse_loop l sbi).2.
Proof.
  induction l as [|p l IH]; intros sbi Hstep HP; cbn [parse_loop]; [done|].
  destruct p as [|ch p]; [by apply IH|]. destruct (match_token tokens (String ch p)) as [t a].
  destruct (apply_option t a sbi) as [s|] eqn:Ha; [|done]. apply IH; [done|]. by eapply Hstep.
Qed.

Lemma parse_options_frame o sbi : same_but_options sbi (parse_options o sbi).2.
Proof.
  destruct o as [s|]; [|apply same_but_refl].
  cbn [parse_options]. apply (parse_loop_inv (same_but_options sbi)); [|apply same_but_refl].
  intros t a s1 s2 H1 H2. eapply same_but_trans; [done|]. by eapply apply_option_frame.
Qed.

Lemma parse_options_ok es o sbi : options_ok config_quota es sbi ->
  options_ok config_quota es (parse_options o sbi).2 /\ same_but_options sbi (parse_options o sbi).2.
Proof.
  intros Ho. split; [|apply parse_options_frame]. destruct o as [s|]; [|done].
  cbn [parse_options]. apply parse_loop_inv; [|done]. intros t a s1 s2. apply apply_option_ok.
Qed.

End Parse.
