(* ===== verification/ShowFacts.v ===== *)
(** * Showing the options and parsing them again

    The text [kr_show_options] prints is a list of options behind commas; parsed
    from the defaults of the same super block it gives the options back. *)

From Stdlib Require Import Ascii.
From stdpp Require Import strings.
From S2P Require Import Prelude Bits Kr Rsv State Super OptionFacts.

(** ** Text *)

(** What is printed one after the other. *)
Definition text (l : list string) : string := foldr String.app EmptyString l.

Fixpoint comma_free (s : string) : bool :=
  match s with
  | EmptyString => true
  | String c rest => negb (Ascii.eqb c ","%char) && comma_free rest
  end.
Fixpoint percent_free (s : string) : bool :=
  match s with
  | EmptyString => true
  | String c rest => negb (Ascii.eqb c "%"%char) && percent_free rest
  end.

Lemma comma_free_app s t : comma_free (s +:+ t) = comma_free s && comma_free t.
Proof. induction s as [|c s IH]; [done|].
  change (String c s +:+ t) with (String c (s +:+ t)). cbn [comma_free]. by rewrite IH, andb_assoc.
Qed.

Lemma string_app_nil s : s +:+ EmptyString = s.
Proof. induction s as [|c s IH]; [done|]. by change (String c (s +:+ EmptyString) = String c s); rewrite IH. Qed.

Lemma strsep_comma s t : comma_free s = true -> strsep (s +:+ String ","%char t) = s :: strsep t.
Proof.
  induction s as [|c s IH]; intros Hs; [done|]. cbn in Hs. apply andb_true_iff in Hs as [Hc Hs].
  change (String c s +:+ String ","%char t) with (String c (s +:+ String ","%char t)).
  cbn [strsep]. apply negb_true_iff in Hc. by rewrite Hc, IH.
Qed.
Lemma strsep_free s : comma_free s = true -> strsep s = [s].
Proof.
  induction s as [|c s IH]; intros Hs; [done|]. cbn in Hs. apply andb_true_iff in Hs as [Hc Hs].
  cbn [strsep]. apply negb_true_iff in Hc. by rewrite Hc, IH.
Qed.
Lemma strsep_text l : Forall (fun p => comma_free p = true) l ->
  strsep (text (String ","%char <$> l)) = EmptyString :: l.
Proof.
  intros Hl. destruct l as [|p l]; [done|].
  change (text (String ","%char <$> p :: l)) with (EmptyString +:+ String ","%char (p +:+ text (String ","%char <$> l))).
  rewrite strsep_comma by done. f_equal. revert p Hl.
  induction l as [|q l IH]; intros p [Hp Hl]%Forall_cons.
  - change (text (String ","%char <$> [])) with EmptyString. by rewrite string_app_nil, strsep_free.
  - change (text (String ","%char <$> q :: l)) with (String ","%char (q +:+ text (String ","%char <$> l))).
    rewrite strsep_comma by done. f_equal. by apply IH.
Qed.

(** ** The kernel's parser *)

(** What lib/parser.c documents of patterns without an argument and of those that
    end in [%u]; [num] prints a number in decimal. *)
Class ParserLaws (MK : MountKernel) (num : Z -> string) : Prop := {
  pattern_literal : forall p s, percent_free p = true ->
    match_pattern p s = if bool_decide (s = p) then Some [] else None;
  pattern_number : forall pre n, percent_free pre = true -> 0 <= n < 2147483648 ->
    match_pattern (pre +:+ "%u") (pre +:+ num n) = Some [num n];
  pattern_other : forall pre s, percent_free pre = true -> String.prefix pre s = false ->
    match_pattern (pre +:+ "%u") s = None;
  match_int_num : forall n, 0 <= n < 2147483648 -> match_int (num n) = Some n;
  kuid_valid : forall n, 0 <= n < 2147483648 -> make_kuid n = Some n;
  kgid_valid : forall n, 0 <= n < 2147483648 -> make_kgid n = Some n;
  num_comma : forall n, comma_free (num n) = true;
}.

(** ** One option *)

Section Show.
Context {MK : MountKernel} {num : Z -> string} {PL : ParserLaws MK num}.

(** The pattern with an argument, less [%u]. *)
Definition number_prefix (p : string) : option string :=
  let pre := String.substring 0 (String.length p - 2) p in
  if bool_decide (p = pre +:+ "%u") && percent_free pre then Some pre else None.

(** The token of a text that is a literal of the table. *)
Fixpoint literal_token (table : list (opt * string)) (p : string) : option opt :=
  match table with
  | [] => None
  | (o, pattern) :: rest =>
      if percent_free pattern then
        if bool_decide (p = pattern) then Some o else literal_token rest p
      else match number_prefix pattern with
           | Some pre => if String.prefix pre p then None else literal_token rest p
           | None => None
           end
  end.

Lemma literal_token_ok table p o : literal_token table p = Some o -> match_token table p = (o, []).
Proof.
  induction table as [|[o' pattern] rest IH]; cbn [literal_token match_token]; [done|].
  destruct (percent_free pattern) eqn:Hp.
  - rewrite pattern_literal by done. by case_bool_decide; [intros [= ->]|].
  - unfold number_prefix. set (pre := String.substring _ _ _).
    destruct (bool_decide_reflect (pattern = pre +:+ "%u")) as [Heq|]; [|done]. cbn [andb].
    destruct (percent_free pre) eqn:Hpre; [|done].
    destruct (String.prefix pre p) eqn:Hpp; [done|]. intros Hr.
    rewrite Heq, pattern_other by done. by apply IH.
Qed.

(** Parsing what is printed when [b]. *)
Lemma parse_shown (b : bool) p token args s f rest :
  p <> EmptyString -> match_token tokens p = (token, args) -> apply_option token args s = Some (f s) ->
  parse_loop ((if b then [p] else []) ++ rest) s = parse_loop rest (cond b f s).
Proof.
  intros Hp Ht Ha. destruct b; [|done]. cbn [app parse_loop].
  destruct p; [done|]. by rewrite Ht, Ha.
Qed.
Lemma parse_literal (b : bool) p token s f rest : p <> EmptyString ->
  literal_token tokens p = Some token -> apply_option token [] s = Some (f s) ->
  parse_loop ((if b then [p] else []) ++ rest) s = parse_loop rest (cond b f s).
Proof. intros Hp Ht. apply parse_shown; [done|]. by apply literal_token_ok. Qed.

(** Parsing an option with a number. *)
Ltac literals := repeat
  (cbn [match_token]; rewrite pattern_literal by reflexivity; rewrite bool_decide_eq_false_2 by discriminate).
Lemma token_resgid n : 0 <= n < 2147483648 -> match_token tokens ("resgid=" +:+ num n) = (Opt_resgid, [num n]).
Proof.
  intros Hn. unfold tokens. literals. cbn [match_token].
  by rewrite (pattern_number "resgid=" n eq_refl Hn).
Qed.
Lemma token_resuid n : 0 <= n < 2147483648 -> match_token tokens ("resuid=" +:+ num n) = (Opt_resuid, [num n]).
Proof.
  intros Hn. unfold tokens. literals. cbn [match_token].
  rewrite (pattern_other "resgid=" ("resuid=" +:+ num n)) by reflexivity.
  by rewrite (pattern_number "resuid=" n eq_refl Hn).
Qed.
Lemma token_sb n : 0 <= n < 2147483648 -> match_token tokens ("sb=" +:+ num n) = (Opt_sb, [num n]).
Proof.
  intros Hn. unfold tokens. literals. cbn [match_token].
  rewrite (pattern_other "resgid=" ("sb=" +:+ num n)), (pattern_other "resuid=" ("sb=" +:+ num n)) by reflexivity.
  by rewrite (pattern_number "sb=" n eq_refl Hn).
Qed.

Lemma parse_resuid (b : bool) n s rest : 0 <= n < 2147483648 ->
  parse_loop ((if b then ["resuid=" +:+ num n] else []) ++ rest) s =
  parse_loop rest (cond b (set_s_resuid n) s).
Proof.
  intros Hn. apply (parse_shown b _ Opt_resuid [num n] s (set_s_resuid n)); [done|by apply token_resuid|].
  cbn [apply_option nth]. rewrite match_int_num by done. cbn. by rewrite kuid_valid.
Qed.
Lemma parse_resgid (b : bool) n s rest : 0 <= n < 2147483648 ->
  parse_loop ((if b then ["resgid=" +:+ num n] else []) ++ rest) s =
  parse_loop rest (cond b (set_s_resgid n) s).
Proof.
  intros Hn. apply (parse_shown b _ Opt_resgid [num n] s (set_s_resgid n)); [done|by apply token_resgid|].
  cbn [apply_option nth]. rewrite match_int_num by done. cbn. by rewrite kgid_valid.
Qed.
Lemma parse_sb (b : bool) n s rest : 0 <= n < 2147483648 ->
  parse_loop ((if b then ["sb=" +:+ num n] else []) ++ rest) s = parse_loop rest s.
Proof.
  intros Hn. rewrite (parse_shown b _ Opt_sb [num n] s id); [|done|by apply token_sb|done]. by destruct b.
Qed.

(** ** All the options *)

(** The options printed, less the commas. *)
Definition shown (quota : bool) (es : kr_super_block) (sbi : kr_sb_info) : list string :=
  let def_mount_opts := es_default_mount_opts es in
  let opt o := opt_on sbi o in
  let show (b : bool) (s : string) := if b then [s] else [] in
  List.concat [show (negb (s_sb_block sbi =? 1)%Z) ("sb=" +:+ num (s_sb_block sbi));
  show (opt KR_MOUNT_MINIX_DF) "minixdf";
  show (opt KR_MOUNT_GRPID) "grpid";
  show (negb (opt KR_MOUNT_GRPID) && has def_mount_opts KR_DEFM_BSDGROUPS) "nogrpid";
  show (negb (s_resuid sbi =? 0)%Z || negb (es_def_resuid es =? 0)%Z) ("resuid=" +:+ num (s_resuid sbi));
  show (negb (s_resgid sbi =? 0)%Z || negb (es_def_resgid es =? 0)%Z) ("resgid=" +:+ num (s_resgid sbi));
  show (opt KR_MOUNT_ERRORS_RO &&
        ((es_errors es =? KR_ERRORS_PANIC)%Z || (es_errors es =? KR_ERRORS_CONTINUE)%Z))
    "errors=remount-ro";
  show (opt KR_MOUNT_ERRORS_CONT) "errors=continue";
  show (opt KR_MOUNT_ERRORS_PANIC) "errors=panic";
  show (opt KR_MOUNT_NO_UID32) "nouid32";
  show (opt KR_MOUNT_DEBUG) "debug";
  show (opt KR_MOUNT_OLDALLOC) "oldalloc";
  show (opt KR_MOUNT_NOBH) "nobh";
  show (quota && opt KR_MOUNT_USRQUOTA) "usrquota";
  show (quota && opt KR_MOUNT_GRPQUOTA) "grpquota";
  show (negb (opt KR_MOUNT_RESERVATION)) "noreservation"]%string.

Lemma show_options_shown quota es sbi :
  kr_show_options num quota es sbi = String ","%char <$> shown quota es sbi.
Proof.
  unfold kr_show_options, shown, opt_on. cbv zeta. rewrite (List.concat_map (String ","%char)).
  cbn [List.map List.concat]. repeat (apply f_equal2; [by case_match|]). done.
Qed.

Lemma comma_free_show (b : bool) p : comma_free p = true ->
  Forall (fun p => comma_free p = true) (if b then [p] else []).
Proof. intros Hp. destruct b; by repeat constructor. Qed.
Lemma shown_comma_free quota es sbi : Forall (fun p => comma_free p = true) (shown quota es sbi).
Proof.
  assert (Hn : forall pre n, comma_free pre = true -> comma_free (pre +:+ num n) = true)
    by (intros pre n Hpre; by rewrite comma_free_app, Hpre, num_comma).
  unfold shown. cbv zeta. cbn [List.concat].
  repeat (apply Forall_app; split; [apply comma_free_show; first [reflexivity | by apply Hn]|]).
  constructor.
Qed.

(** The options that are shown. *)
Definition shown_options : list Z :=
  [KR_MOUNT_OLDALLOC; KR_MOUNT_GRPID; KR_MOUNT_DEBUG; KR_MOUNT_ERRORS_CONT; KR_MOUNT_ERRORS_RO;
   KR_MOUNT_ERRORS_PANIC; KR_MOUNT_MINIX_DF; KR_MOUNT_NOBH; KR_MOUNT_NO_UID32; KR_MOUNT_USRQUOTA;
   KR_MOUNT_GRPQUOTA; KR_MOUNT_RESERVATION].

(** The options after the text is parsed. *)
Definition reparsed (quota : bool) (es : kr_super_block) (sbi d : kr_sb_info) : kr_sb_info :=
  let opt o := opt_on sbi o in
  cond (negb (opt KR_MOUNT_RESERVATION)) (clear_opt KR_MOUNT_RESERVATION)
  (cond (quota && opt KR_MOUNT_GRPQUOTA) (set_opt KR_MOUNT_GRPQUOTA)
  (cond (quota && opt KR_MOUNT_USRQUOTA) (set_opt KR_MOUNT_USRQUOTA)
  (cond (opt KR_MOUNT_NOBH) (set_opt KR_MOUNT_NOBH)
  (cond (opt KR_MOUNT_OLDALLOC) (set_opt KR_MOUNT_OLDALLOC)
  (cond (opt KR_MOUNT_DEBUG) (set_opt KR_MOUNT_DEBUG)
  (cond (opt KR_MOUNT_NO_UID32) (set_opt KR_MOUNT_NO_UID32)
  (cond (opt KR_MOUNT_ERRORS_PANIC) (errors KR_MOUNT_ERRORS_PANIC KR_MOUNT_ERRORS_RO KR_MOUNT_ERRORS_CONT)
  (cond (opt KR_MOUNT_ERRORS_CONT) (errors KR_MOUNT_ERRORS_CONT KR_MOUNT_ERRORS_PANIC KR_MOUNT_ERRORS_RO)
  (cond (opt KR_MOUNT_ERRORS_RO && ((es_errors es =? KR_ERRORS_PANIC) || (es_errors es =? KR_ERRORS_CONTINUE)))
    (errors KR_MOUNT_ERRORS_RO KR_MOUNT_ERRORS_PANIC KR_MOUNT_ERRORS_CONT)
  (cond (negb (s_resgid sbi =? 0) || negb (es_def_resgid es =? 0)) (set_s_resgid (s_resgid sbi))
  (cond (negb (s_resuid sbi =? 0) || negb (es_def_resuid es =? 0)) (set_s_resuid (s_resuid sbi))
  (cond (negb (opt KR_MOUNT_GRPID) && has (es_default_mount_opts es) KR_DEFM_BSDGROUPS)
    (clear_opt KR_MOUNT_GRPID)
  (cond (opt KR_MOUNT_GRPID) (set_opt KR_MOUNT_GRPID)
  (cond (opt KR_MOUNT_MINIX_DF) (set_opt KR_MOUNT_MINIX_DF) d)))))))))))))).

Definition id_range (n : Z) : Prop := 0 <= n < 2147483648.

(** [lit f]: the next option is a literal, with the effect [f]. *)
Ltac lit f := erewrite (parse_literal _ _ _ _ f); [|done|reflexivity|reflexivity].

Lemma parse_loop_shown es sbi d : id_range (s_sb_block sbi) -> id_range (s_resuid sbi) ->
  id_range (s_resgid sbi) ->
  parse_loop (shown config_quota es sbi) d = (true, reparsed config_quota es sbi d).
Proof.
  intros Hsb Hu Hg. unfold shown. cbv zeta. cbn [List.concat]. rewrite parse_sb by done.
  lit (set_opt KR_MOUNT_MINIX_DF). lit (set_opt KR_MOUNT_GRPID). lit (clear_opt KR_MOUNT_GRPID).
  rewrite parse_resuid, parse_resgid by done.
  lit (errors KR_MOUNT_ERRORS_RO KR_MOUNT_ERRORS_PANIC KR_MOUNT_ERRORS_CONT).
  lit (errors KR_MOUNT_ERRORS_CONT KR_MOUNT_ERRORS_PANIC KR_MOUNT_ERRORS_RO).
  lit (errors KR_MOUNT_ERRORS_PANIC KR_MOUNT_ERRORS_RO KR_MOUNT_ERRORS_CONT).
  lit (set_opt KR_MOUNT_NO_UID32). lit (set_opt KR_MOUNT_DEBUG). lit (set_opt KR_MOUNT_OLDALLOC).
  lit (set_opt KR_MOUNT_NOBH). unfold reparsed. cbv zeta.
  destruct config_quota eqn:Hq; cbn [andb app].
  - erewrite (parse_literal _ _ _ _ (set_opt KR_MOUNT_USRQUOTA)); [|done|reflexivity|cbn [apply_option]; by rewrite Hq].
    erewrite (parse_literal _ _ _ _ (set_opt KR_MOUNT_GRPQUOTA)); [|done|reflexivity|cbn [apply_option]; by rewrite Hq].
    lit (clear_opt KR_MOUNT_RESERVATION). reflexivity.
  - lit (clear_opt KR_MOUNT_RESERVATION). reflexivity.
Qed.

End Show.

(** What the parsed options are. *)
Ltac push := repeat match goal with
  | |- context [opt_on (cond ?b (set_opt ?o) ?s) ?p] => rewrite (on_cond_set b o s p)
  | |- context [opt_on (cond ?b (clear_opt ?o) ?s) ?p] =>
      first [ rewrite (on_cond_clear b o s p) by reflexivity
            | rewrite (on_cond_clear_other b o s p) by reflexivity ]
  | |- context [opt_on (cond ?b (errors ?o ?o1 ?o2) ?s) ?p] =>
      first [ rewrite (on_cond_errors b o o1 o2 s p) by reflexivity
            | rewrite (on_cond_errors_other b o o1 o2 s p) by reflexivity ]
  | |- context [opt_on (cond ?b (set_s_resuid ?u) ?s) ?p] => rewrite (on_cond_resuid b u s p)
  | |- context [opt_on (cond ?b (set_s_resgid ?u) ?s) ?p] => rewrite (on_cond_resgid b u s p)
  end.

(** Evaluates the tests between options that are constants. *)
Ltac consts := repeat match goal with
  | |- context [has ?p ?o] => is_const p; is_const o; let v := eval vm_compute in (has p o) in change (has p o) with v
  end; rewrite ?andb_true_r, ?andb_false_r, ?orb_false_r; cbn [andb orb].

Lemma reparsed_on quota es sbi d : s_mount_opt d = 0 -> options_ok quota es sbi ->
  Forall (fun o => opt_on (reparsed quota es sbi (default_options es d)) o = opt_on sbi o) shown_options.
Proof.
  intros Hz [He Hd Hu Hq].
  assert (Hqs : quota && opt_on sbi KR_MOUNT_USRQUOTA = opt_on sbi KR_MOUNT_USRQUOTA /\
                quota && opt_on sbi KR_MOUNT_GRPQUOTA = opt_on sbi KR_MOUNT_GRPQUOTA).
  { destruct quota; [done|]. by destruct (Hq eq_refl) as [-> ->]. }
  assert (Hd' : has (es_default_mount_opts es) KR_DEFM_DEBUG || opt_on sbi KR_MOUNT_DEBUG
                = opt_on sbi KR_MOUNT_DEBUG) by (destruct (has _ KR_DEFM_DEBUG); [by rewrite Hd|done]).
  assert (Hu' : has (es_default_mount_opts es) KR_DEFM_UID16 || opt_on sbi KR_MOUNT_NO_UID32
                = opt_on sbi KR_MOUNT_NO_UID32) by (destruct (has _ KR_DEFM_UID16); [by rewrite Hu|done]).
  destruct Hqs as [Hq1 Hq2]. unfold reparsed. cbv zeta. rewrite Hq1, Hq2.
  repeat (apply Forall_cons_2); [..|apply Forall_nil_2]; push; rewrite default_on by done;
    unfold default_errors; destruct (es_errors es =? KR_ERRORS_PANIC), (es_errors es =? KR_ERRORS_CONTINUE);
    consts; rewrite ?negb_involutive; try reflexivity.
  all: repeat (apply elem_of_cons in He as [[= He1 He2 He3]|He]; [rewrite ?He1, ?He2, ?He3|]);
    try (by apply elem_of_nil in He); try reflexivity.
  all: destruct (has (es_default_mount_opts es) KR_DEFM_BSDGROUPS), (opt_on sbi KR_MOUNT_GRPID);
    try reflexivity; first [exact Hd' | exact Hu' | apply andb_true_r].
Qed.

(** The fields that are not options, and the ids. *)
Lemma cond_keep {A} (g : kr_sb_info -> A) b f s : (forall s, g (f s) = g s) -> g (cond b f s) = g s.
Proof. intros Hf. by destruct b. Qed.
Ltac keep := repeat (rewrite cond_keep by done).
Lemma reparsed_ids quota es sbi d :
  let s := reparsed quota es sbi (default_options es d) in
  s_resuid s = s_resuid sbi /\ s_resgid s = s_resgid sbi.
Proof.
  intros s. unfold s, reparsed. cbv zeta.
  assert (Hu : s_resuid (default_options es d) = es_def_resuid es) by done.
  assert (Hg : s_resgid (default_options es d) = es_def_resgid es) by done.
  split; keep; unfold cond at 1.
  - destruct (_ || _) eqn:Hb; [done|]. keep. rewrite Hu. lia.
  - destruct (_ || _) eqn:Hb; [done|]. keep. rewrite Hg. lia.
Qed.
