(* ===== verification/InodeDisk.v ===== *)
(** * Inodes on the disk (inode.c)

    Finding the inode of a number in the inode table, reading it ([kr_iget]) and
    writing it back, and the functions that change attributes and evict. *)

From S2P Require Import Prelude Bits Kr Rsv Bitmap Alloc State Balloc InodeFlags Ialloc BlockMap Truncate Super.

(** Device numbers, the short user numbers of old programs, and the end of a
    symbolic link, as the kernel has them. *)
Class InodeKernel := {
  old_decode_dev : Z -> Z;
  new_decode_dev : Z -> Z;
  old_valid_dev : Z -> bool;
  old_encode_dev : Z -> Z;
  new_encode_dev : Z -> Z;
  fs_high2lowuid : Z -> Z;
  fs_high2lowgid : Z -> Z;
  nd_terminate_link : list Z -> Z -> Z -> list Z;   (* the array, the length, the maximum *)
  transfer_quota : Z -> Z;                          (* dquot_transfer: 0 or an error *)
}.

(** ** The disk inode

    [struct kr_inode]: its fields by their offsets in its 128 bytes. *)
Definition raw_i_mode := 0.
Definition raw_i_uid_low := 2.
Definition raw_i_size := 4.
Definition raw_i_atime := 8.
Definition raw_i_ctime := 12.
Definition raw_i_mtime := 16.
Definition raw_i_dtime := 20.
Definition raw_i_gid_low := 24.
Definition raw_i_links_count := 26.
Definition raw_i_blocks := 28.
Definition raw_i_flags := 32.
Definition raw_i_block (n : Z) := 40 + 4 * n.
Definition raw_i_generation := 100.
Definition raw_i_file_acl := 104.
Definition raw_i_dir_acl := 108.
Definition raw_i_size_high := raw_i_dir_acl.
Definition raw_i_faddr := 112.
Definition raw_i_frag := 116.
Definition raw_i_fsize := 117.
Definition raw_i_uid_high := 120.
Definition raw_i_gid_high := 122.

(** ** Reading *)

(** What [kr_iget] takes from the bytes [d] from the offset [o] on: up to the test
    of a deleted inode, and then the rest.  [no_uid32] is the mount option. *)
Definition ids_of_raw (no_uid32 : bool) (d : list Z) (o : Z) : Z * Z :=
  let uid := get16 d (o + raw_i_uid_low) in
  let gid := get16 d (o + raw_i_gid_low) in
  if no_uid32 then (uid, gid)
  else (Z.lor uid (Z.shiftl (get16 d (o + raw_i_uid_high)) 16),
        Z.lor gid (Z.shiftl (get16 d (o + raw_i_gid_high)) 16)).

Definition raw_deleted (d : list Z) (o : Z) : bool :=
  (get16 d (o + raw_i_links_count) =? 0) &&
  ((get16 d (o + raw_i_mode) =? 0) || negb (get32 d (o + raw_i_dtime) =? 0)).

Definition data_of_raw (d : list Z) (o : Z) : list Z :=
  (fun n => get32 d (o + raw_i_block (Z.of_nat n))) <$> seq 0 15.

Definition inode_of_raw (no_uid32 : bool) (ipg ino : Z) (d : list Z) (o : Z) : inode :=
  let mode := get16 d (o + raw_i_mode) in
  let '(uid, gid) := ids_of_raw no_uid32 d o in
  let size := get32 d (o + raw_i_size) in
  let size := if S_ISREG mode then Z.lor size (Z.shiftl (get32 d (o + raw_i_size_high)) 32) else size in
  let dir_acl := if S_ISREG mode then 0 else get32 d (o + raw_i_dir_acl) in
  Inode ino mode uid gid (get16 d (o + raw_i_links_count)) size
    (get32 d (o + raw_i_blocks)) (s32 (get32 d (o + raw_i_atime))) (s32 (get32 d (o + raw_i_mtime)))
    (s32 (get32 d (o + raw_i_ctime))) (get32 d (o + raw_i_generation)) 1 0 0
    (KrInodeInfo (data_of_raw d o) (get32 d (o + raw_i_flags)) (get32 d (o + raw_i_faddr))
       (get8 d (o + raw_i_frag)) (get8 d (o + raw_i_fsize)) 0 (get32 d (o + raw_i_file_acl))
       dir_acl 0 ((ino - 1) / ipg) None 0).

(** ** Writing *)

Fixpoint put_block_array (d : list Z) (o n : Z) (l : list Z) : list Z :=
  match l with
  | [] => d
  | v :: rest => put_block_array (put32 d (o + raw_i_block n) v) o (n + 1) rest
  end.

Definition put_ids `{InodeKernel} (no_uid32 : bool) (i : inode) (d : list Z) (o : Z) : list Z :=
  let keep_high := negb no_uid32 && (i_dtime (KR_I i) =? 0) in
  let low_uid := if no_uid32 then fs_high2lowuid (i_uid i) else u16 (i_uid i) in
  let low_gid := if no_uid32 then fs_high2lowgid (i_gid i) else u16 (i_gid i) in
  let high_uid := if keep_high then u16 (Z.shiftr (i_uid i) 16) else 0 in
  let high_gid := if keep_high then u16 (Z.shiftr (i_gid i) 16) else 0 in
  let d := put16 d (o + raw_i_uid_low) low_uid in
  let d := put16 d (o + raw_i_gid_low) low_gid in
  let d := put16 d (o + raw_i_uid_high) high_uid in
  put16 d (o + raw_i_gid_high) high_gid.

Definition put_blocks_or_dev `{InodeKernel} (i : inode) (d : list Z) (o : Z) : list Z :=
  if S_ISCHR (i_mode i) || S_ISBLK (i_mode i) then
    if old_valid_dev (i_rdev i) then
      put32 (put32 d (o + raw_i_block 0) (old_encode_dev (i_rdev i))) (o + raw_i_block 1) 0
    else
      put32 (put32 (put32 d (o + raw_i_block 0) 0) (o + raw_i_block 1) (new_encode_dev (i_rdev i)))
        (o + raw_i_block 2) 0
  else put_block_array d o 0 (i_data (KR_I i)).

(** The fields [__kr_write_inode] writes over the bytes [d] from [o] on, in its
    order; [i] is the inode after [kr_get_inode_flags]. *)
Definition raw_of_inode `{InodeKernel} (no_uid32 : bool) (i : inode) (d : list Z) (o : Z) : list Z :=
  let ei := KR_I i in
  let d := put16 d (o + raw_i_mode) (i_mode i) in
  let d := put_ids no_uid32 i d o in
  let d := put16 d (o + raw_i_links_count) (i_nlink i) in
  let d := put32 d (o + raw_i_size) (i_size i) in
  let d := put32 d (o + raw_i_atime) (i_atime i) in
  let d := put32 d (o + raw_i_ctime) (i_ctime i) in
  let d := put32 d (o + raw_i_mtime) (i_mtime i) in
  let d := put32 d (o + raw_i_blocks) (i_blocks i) in
  let d := put32 d (o + raw_i_dtime) (i_dtime ei) in
  let d := put32 d (o + raw_i_flags) (ei_flags ei) in
  let d := put32 d (o + raw_i_faddr) (i_faddr ei) in
  let d := put8 d (o + raw_i_frag) (i_frag_no ei) in
  let d := put8 d (o + raw_i_fsize) (i_frag_size ei) in
  let d := put32 d (o + raw_i_file_acl) (i_file_acl ei) in
  let d := if negb (S_ISREG (i_mode i)) then put32 d (o + raw_i_dir_acl) (i_dir_acl ei)
           else put32 d (o + raw_i_size_high) (Z.shiftr (i_size i) 32) in
  let d := put32 d (o + raw_i_generation) (i_generation i) in
  put_blocks_or_dev i d o.

Section Ops.
Context `{BitOps, RbTree, Trylock, Kernel, InodeKernel}.

(** The block of the inode [ino] and its place there, or an error. *)
Definition kr_get_inode (ino : Z) : M krfs (Z + Z * Z) :=
  fs ← gets id;
  let sbi := fs_sbi fs in
  if negb (ino =? KR_ROOT_INO) && (ino <? s_first_ino sbi) || (ino >? es_inodes_count (fs_es fs)) then
    kr_error ;; mret (inl (- EINVAL))
  else
    let block_group := u64 (ino - 1) / s_inodes_per_group sbi in
    gdp ← kr_get_group_desc block_group;
    match gdp with
    | None => mret (inl (- EIO))
    | Some p =>
        d ← desc_get p;
        let offset := u64 (u64 (ino - 1) mod s_inodes_per_group sbi * s_inode_size sbi) in
        let block := u64 (bg_inode_table d + Z.shiftr offset (fs_blocksize_bits fs)) in
        bh ← sb_bread block;
        match bh with
        | None => kr_error ;; mret (inl (- EIO))
        | Some b => mret (inr (b, Z.land offset (fs_blocksize fs - 1)))
        end
    end.

(** The operations of an inode by its type; for a symbolic link in the inode and
    for a device they change the inode. *)
Definition set_operations (fs : krfs) (d : list Z) (o : Z) (i : inode) : inode :=
  if S_ISREG (i_mode i) || S_ISDIR (i_mode i) then i
  else if S_ISLNK (i_mode i) then
    if kr_inode_is_fast_symlink fs i then
      set_KR_I (set_i_data (nd_terminate_link (i_data (KR_I i)) (i_size i) 59) (KR_I i)) i
    else i
  else
    let dev := if negb (get32 d (o + raw_i_block 0) =? 0)
               then old_decode_dev (get32 d (o + raw_i_block 0))
               else new_decode_dev (get32 d (o + raw_i_block 1)) in
    if S_ISCHR (i_mode i) || S_ISBLK (i_mode i) then set_i_rdev dev i else i.

(** The answer is an error or the number of the inode, which is then in memory. *)
Definition kr_iget (ino : Z) : M krfs (Z + Z) :=
  fs ← gets id;
  if bool_decide (is_Some (fs_inodes fs !! ino)) then mret (inr ino)
  else if negb iget_new_ok then mret (inl (- ENOMEM))
  else
    let bad_inode err := log (iget_failed ino) ;; mret (inl err) in
    r ← kr_get_inode ino;
    match r with
    | inl err => bad_inode err
    | inr (b, o) =>
        d ← buf_get b;
        fs ← gets id;
        if raw_deleted d o then bad_inode (- ESTALE)
        else
          let i := inode_of_raw (test_opt KR_MOUNT_NO_UID32 fs) (s_inodes_per_group (fs_sbi fs)) ino d o in
          let acl := i_file_acl (KR_I i) in
          if negb (acl =? 0) && negb (kr_data_block_valid fs acl 1) then
            kr_error ;; bad_inode (- EFSCORRUPTED)
          else
            let i := set_operations fs d o i in
            let i := kr_set_inode_flags (test_opt KR_MOUNT_DAX fs) i in
            modify (fun fs => set_fs_inodes (<[ino := i]> (fs_inodes fs)) fs) ;;
            log (unlock_new_inode ino) ;;
            mret (inr ino)
    end.

(** [if (inode->i_size > 0x7fffffff)]: the first large file of the file system. *)
Definition note_large_file (i : inode) : M krfs unit :=
  fs ← gets id;
  when (S_ISREG (i_mode i) && (u64 (i_size i) >? 0x7fffffff)
        && (negb (has_ro_compat_feature (fs_es fs) KR_FEATURE_RO_COMPAT_LARGE_FILE)
            || (es_rev_level (fs_es fs) =? KR_GOOD_OLD_REV)))
    (upd_es kr_update_dynamic_rev ;;
     upd_es (fun es => set_es_feature_ro_compat
       (Z.lor (es_feature_ro_compat es) KR_FEATURE_RO_COMPAT_LARGE_FILE) es) ;;
     kr_write_super).

Fixpoint zero_bytes (d : list Z) (o : Z) (n : nat) : list Z :=
  match n with
  | O => d
  | S n' => zero_bytes (put8 d o 0) (o + 1) n'
  end.

Definition write_inode (ino : Z) (do_sync : bool) : M krfs Z :=
  r ← kr_get_inode ino;
  match r with
  | inl _ => mret (- EIO)
  | inr (b, o) =>
      inode_upd kr_get_inode_flags ino ;;
      i ← inode_get ino;
      note_large_file i ;;
      d ← buf_get b;
      fs ← gets id;
      let d := if has (i_state (KR_I i)) KR_STATE_NEW
               then zero_bytes d o (Z.to_nat (s_inode_size (fs_sbi fs))) else d in
      buf_set b (raw_of_inode (test_opt KR_MOUNT_NO_UID32 fs) i d o) ;;
      log (mark_buffer_dirty (BufBlock b)) ;;
      when do_sync (log (sync_dirty_buffer (BufBlock b))) ;;
      inode_upd (fun i => set_KR_I (set_i_state (clr (i_state (KR_I i)) KR_STATE_NEW) (KR_I i)) i) ino ;;
      mret (if do_sync && negb (bh_write_ok b) then - EIO else 0)
  end.

Definition kr_write_inode (ino : Z) (sync_all : bool) : M krfs Z := write_inode ino sync_all.

(** Reached through a file handle. *)
Definition kr_nfs_get_inode (ino generation : Z) : M krfs (Z + Z) :=
  fs ← gets id;
  if (ino <? s_first_ino (fs_sbi fs)) && negb (ino =? KR_ROOT_INO) then mret (inl (- ESTALE))
  else if ino >? es_inodes_count (fs_es fs) then mret (inl (- ESTALE))
  else
    r ← kr_iget ino;
    match r with
    | inl err => mret (inl err)
    | inr ino =>
        i ← inode_get ino;
        if negb (generation =? 0) && negb (i_generation i =? generation) then
          log (iput ino) ;; mret (inl (- ESTALE))
        else mret (inr ino)
    end.

(** *** The end of an inode

    [bad] is [is_bad_inode(inode)]. *)
Definition kr_evict_inode (ino : Z) (bad : bool) : M krfs unit :=
  i ← inode_get ino;
  let want_delete := (i_nlink i =? 0) && negb bad in
  when (negb want_delete) (log (dquot_drop ino)) ;;
  log (truncate_inode_pages ino) ;;
  when want_delete
    (inode_upd (fun i => set_KR_I (set_i_dtime (u32 get_seconds) (KR_I i)) i) ino ;;
     log (mark_inode_dirty ino) ;;
     i ← inode_get ino;
     fs ← gets id;
     write_inode ino (inode_needs_sync fs i) ;;
     inode_upd (set_i_size 0) ino ;;
     i ← inode_get ino;
     when (negb (i_blocks i =? 0)) (kr_truncate_blocks ino 0)) ;;
  log (invalidate_inode_buffers ino) ;;
  log (clear_inode ino) ;;
  kr_discard_reservation ino ;;
  i ← inode_get ino;
  inode_upd (fun i => set_KR_I (set_i_block_alloc_info None (KR_I i)) i) ino ;;
  match i_block_alloc_info (KR_I i) with
  | Some a => log (kfree_alloc_info (rsv_window_node a))
  | None => mret tt
  end ;;
  when want_delete (i ← inode_get ino; kr_free_inode i).

(** *** Changing attributes *)

(** [struct iattr]; a field is [None] when [ia_valid] does not have it. *)
Record iattr := Iattr {
  ia_mode : option Z;
  ia_uid : option Z;
  ia_gid : option Z;
  ia_size : option Z;
}.

Section Setattr.
(** [setattr_prepare], [is_quota_modification], [setattr_copy] and
    [posix_acl_chmod]. *)
Variables (setattr_prepare : inode -> iattr -> Z) (is_quota_modification : inode -> iattr -> bool)
  (setattr_copy : iattr -> inode -> inode) (posix_acl_chmod : inode -> Z).

Definition kr_setattr (ino : Z) (iattr : iattr) : M krfs Z :=
  i ← inode_get ino;
  let error := setattr_prepare i iattr in
  if negb (error =? 0) then mret error
  else
    let error := if is_quota_modification i iattr then dquot_initialize ino else 0 in
    if negb (error =? 0) then mret error
    else
      let changes (new : option Z) (old : Z) :=
        match new with Some v => negb (v =? old) | None => false end in
      let error := if changes (ia_uid iattr) (i_uid i) || changes (ia_gid iattr) (i_gid i)
                   then transfer_quota ino else 0 in
      if negb (error =? 0) then mret error
      else
        error ← (match ia_size iattr with
                 | Some size => if negb (size =? i_size i) then kr_setsize ino size else mret 0
                 | None => mret 0
                 end);
        if negb (error =? 0) then mret error
        else
          inode_upd (setattr_copy iattr) ino ;;
          i ← inode_get ino;
          let error := match ia_mode iattr with Some _ => posix_acl_chmod i | None => 0 end in
          log (mark_inode_dirty ino) ;;
          mret error.

End Setattr.
End Ops.
