(* ===== verification/Mount.v ===== *)
(** * Mounting (super.c: [kr_fill_super])

    Finding the super block on the device, the options, the geometry, the group
    descriptors, the counters and the root inode. *)

From stdpp Require Import strings.
From S2P Require Import Prelude Bits Kr Rsv Bitmap Alloc State Balloc InodeFlags Ialloc BlockMap Truncate Super InodeDisk.

(** The device and the calls of the kernel that a mount makes. *)
Class MountDevice := {
  sb_min_blocksize : Z;                     (* sb_min_blocksize(sb, BLOCK_SIZE) *)
  sb_set_blocksize : Z -> bool;             (* whether sb_set_blocksize succeeds *)
  read_super : Z -> Z -> option (list Z);   (* sb_bread of the super block: size, block *)
  device_blocks : Z -> gmap Z (list Z);     (* the blocks of the device, by the block size *)
  bdev_dax_supported : Z -> Z;
  kzalloc_ok : bool;                        (* sbi and its s_blockgroup_lock *)
  kmalloc_array_ok : Z -> bool;             (* s_group_desc, s_debts: the number of elements *)
  get_random_u32 : Z;                       (* get_random_bytes of s_next_generation *)
  percpu_counter_init : Z -> Z;             (* 0 or an error; the value *)
  d_make_root_ok : bool;
}.

(** ** The disk format *)

(** [struct kr_super_block], from the offset [o] of its block. *)
Definition es_of_raw (d : list Z) (o : Z) : kr_super_block :=
  let le32 k := get32 d (o + k) in let le16 k := get16 d (o + k) in {|
  es_inodes_count := le32 0; es_blocks_count := le32 4; es_r_blocks_count := le32 8;
  es_free_blocks_count := le32 12; es_free_inodes_count := le32 16; es_first_data_block := le32 20;
  es_log_block_size := le32 24; es_log_frag_size := le32 28; es_blocks_per_group := le32 32;
  es_frags_per_group := le32 36; es_inodes_per_group := le32 40; es_mtime := le32 44; es_wtime := le32 48;
  es_mnt_count := le16 52; es_max_mnt_count := le16 54; es_magic := le16 56; es_state := le16 58;
  es_errors := le16 60; es_minor_rev_level := le16 62; es_lastcheck := le32 64;
  es_checkinterval := le32 68; es_creator_os := le32 72; es_rev_level := le32 76;
  es_def_resuid := le16 80; es_def_resgid := le16 82; es_first_ino := le32 84;
  es_inode_size := le16 88; es_block_group_nr := le16 90; es_feature_compat := le32 92;
  es_feature_incompat := le32 96; es_feature_ro_compat := le32 100;
  es_uuid := (fun k => get8 d (o + 104 + Z.of_nat k)) <$> seq 0 16;
  es_default_mount_opts := le32 256; es_first_meta_bg := le32 260;
|}.

(** [struct kr_group_desc], 32 bytes each. *)
Definition desc_of_raw (d : list Z) (k : nat) : kr_group_desc :=
  let o := 32 * Z.of_nat k in
  GroupDesc (get32 d o) (get32 d (o + 4)) (get32 d (o + 8)) (get16 d (o + 12)) (get16 d (o + 14))
    (get16 d (o + 16)).
Definition descs_of_raw (d : list Z) : list kr_group_desc :=
  desc_of_raw d <$> seq 0 (Z.to_nat (len d / 32)).

(** ** The geometry *)

Definition is_power_of_2 (n : Z) : bool := negb (n =? 0) && (Z.land n (n - 1) =? 0).

(** The size of an inode and the first one that is not reserved. *)
Definition inode_geometry (blocksize : Z) (es : kr_super_block) : option (Z * Z) :=
  if es_rev_level es =? KR_GOOD_OLD_REV then Some (KR_GOOD_OLD_INODE_SIZE, KR_GOOD_OLD_FIRST_INO)
  else
    let size := es_inode_size es in
    if (size <? KR_GOOD_OLD_INODE_SIZE) || negb (is_power_of_2 size) || (size >? blocksize) then None
    else Some (size, s32 (es_first_ino es)).

(** From the size of an inode to the number of groups, with the tests that refuse
    the super block; [b_size] is the size of its buffer.  A shift by the width of
    an [int] or more, which C does not define, gives 0. *)
Definition read_geometry (blocksize b_size : Z) (es : kr_super_block) (sbi : kr_sb_info)
    : option kr_sb_info :=
  '(inode_size, first_ino) ← inode_geometry blocksize es;
  let frag_size := u64 (s32 (Z.shiftl KR_MIN_FRAG_SIZE (es_log_frag_size es))) in
  if frag_size =? 0 then None
  else
    let frags_per_block := blocksize / frag_size in
    let blocks_per_group := es_blocks_per_group es in
    let frags_per_group := es_frags_per_group es in
    let inodes_per_group := es_inodes_per_group es in
    if inode_size =? 0 then None
    else
      let inodes_per_block := blocksize / inode_size in
      if (inodes_per_block =? 0) || (inodes_per_group =? 0) then None
      else
        let itb_per_group := inodes_per_group / inodes_per_block in
        let desc_per_block := blocksize / 32 in
        if negb (es_magic es =? EXT2_SUPER_MAGIC) then None
        else if negb (blocksize =? b_size) then None
        else if negb (blocksize =? frag_size) then None
        else if blocks_per_group >? blocksize * 8 then None
        else if frags_per_group >? blocksize * 8 then None
        else if inodes_per_group >? blocksize * 8 then None
        else if blocks_per_group =? 0 then None
        else
          let groups_count :=
            u32 (es_blocks_count es - es_first_data_block es - 1) / blocks_per_group + 1 in
          Some (KrSbInfo frag_size frags_per_block inodes_per_block frags_per_group blocks_per_group
            inodes_per_group itb_per_group (s_gdb_count sbi) desc_per_block groups_count
            (s_overhead_last sbi) (s_blocks_last sbi) (s_mount_opt sbi) (s_sb_block sbi) (s_resuid sbi)
            (s_resgid sbi) (es_state es) (Z.log2 (blocksize / 4)) (Z.log2 desc_per_block)
            inode_size first_ino (s_next_generation sbi) (s_debts sbi) (s_freeblocks_counter sbi)
            (s_freeinodes_counter sbi) (s_dirs_counter sbi)).

(** [kzalloc] of [sbi], with [s_sb_block]. *)
Definition new_sbi (sb_block : Z) : kr_sb_info :=
  KrSbInfo 0 0 0 0 0 0 0 0 0 0 0 0 0 sb_block 0 0 0 0 0 0 0 0 [] 0 0 0.

Definition BLOCK_SIZE : Z := 1024.

(** The block of the super block, and its offset there. *)
Definition super_place (blocksize sb_block : Z) : Z * Z :=
  (u64 (sb_block * BLOCK_SIZE) / blocksize, u64 (sb_block * BLOCK_SIZE) mod blocksize).

Section Ops.
Context `{BitOps, RbTree, Trylock, Kernel, InodeKernel, MountKernel, MountDevice}.

(** What is known of the file system before anything of it is read but the super
    block. *)
Record prepared := Prepared {
  pr_flags : Z;
  pr_blocksize : Z;
  pr_logic_sb_block : Z;
  pr_es : kr_super_block;
  pr_sbi : kr_sb_info;
}.

(** The super block at the size it asks for: "if the blocksize doesn't match,
    re-read the thing". *)
Definition reread_super (sb_block blocksize : Z) (first : Z * list Z * Z) (es : kr_super_block)
    : option (Z * Z * list Z * kr_super_block) :=
  let '(logic_sb_block, d, s_blocksize) := first in
  if s_blocksize =? blocksize then Some (blocksize, logic_sb_block, d, es)
  else if negb (sb_set_blocksize blocksize) then None
  else
    let '(logic_sb_block, offset) := super_place blocksize sb_block in
    d ← read_super blocksize logic_sb_block;
    let es := es_of_raw d offset in
    if negb (es_magic es =? EXT2_SUPER_MAGIC) then None
    else Some (blocksize, logic_sb_block, d, es).

(** Up to the allocation of [s_group_desc]; every failure so far is [-EINVAL]. *)
Definition prepare_mount (flags : Z) (data : option string) : option prepared :=
  let '(sb_block, data) := get_sb_block data in
  if negb kzalloc_ok then None
  else
    let blocksize := sb_min_blocksize in
    if blocksize =? 0 then None
    else
      let '(logic_sb_block, offset) :=
        if negb (blocksize =? BLOCK_SIZE) then super_place blocksize sb_block else (sb_block, 0) in
      d ← read_super blocksize logic_sb_block;
      let es := es_of_raw d offset in
      if negb (es_magic es =? EXT2_SUPER_MAGIC) then None
      else
        let '(ok, sbi) := parse_options data (default_options es (new_sbi sb_block)) in
        if negb ok then None
        else
          let flags := set_posixacl (s_mount_opt sbi) flags in
          if has_incompat_feature es (clr 4294967295 KR_FEATURE_INCOMPAT_SUPP) then None
          else if negb (has flags MS_RDONLY)
                  && has_ro_compat_feature es (clr 4294967295 KR_FEATURE_RO_COMPAT_SUPP) then None
          else
            let s_blocksize := blocksize in
            let blocksize := s32 (Z.shiftl BLOCK_SIZE (es_log_block_size es)) in
            if has (s_mount_opt sbi) KR_MOUNT_DAX && negb (bdev_dax_supported blocksize =? 0) then None
            else
              '(blocksize, logic_sb_block, d, es) ←
                reread_super sb_block blocksize (logic_sb_block, d, s_blocksize) es;
              sbi ← read_geometry blocksize (len d) es sbi;
              Some (Prepared flags blocksize logic_sb_block es sbi).

(** The descriptors: [n] blocks from the block [i] of them. *)
Fixpoint read_descs (logic_sb_block : Z) (n : nat) (i : Z)
    : M krfs (option (list (option (list kr_group_desc)))) :=
  match n with
  | O => mret (Some [])
  | S n' =>
      fs ← gets id;
      bh ← sb_bread (descriptor_loc fs logic_sb_block i);
      match bh with
      | None => mret None
      | Some b =>
          d ← buf_get b;
          l ← read_descs logic_sb_block n' (i + 1);
          mret ((fun l => Some (descs_of_raw d) :: l) <$> l)
      end
  end.

(** [RB_ROOT], and the dummy window alone in the memory. *)
Definition rsv_init : rsvst := RsvSt {[rsv_head := no_window]} Leaf.

(** The three counters; the answer is [err]. *)
Definition init_counters : M krfs Z :=
  b ← kr_count_free_blocks;
  upd_sbi (set_s_freeblocks_counter b) ;;
  let err := percpu_counter_init b in
  if negb (err =? 0) then mret err
  else
    i ← kr_count_free_inodes;
    upd_sbi (set_s_freeinodes_counter i) ;;
    let err := percpu_counter_init i in
    if negb (err =? 0) then mret err
    else
      n ← kr_count_dirs;
      upd_sbi (set_s_dirs_counter n) ;;
      mret (percpu_counter_init n).

(** The root inode, and the last steps. *)
Definition mount_root : M krfs Z :=
  root ← kr_iget KR_ROOT_INO;
  match root with
  | inl err => mret err
  | inr ino =>
      i ← inode_get ino;
      if negb (S_ISDIR (i_mode i)) || (i_blocks i =? 0) || (i_size i =? 0) then
        log (iput ino) ;; mret (- EINVAL)
      else if negb d_make_root_ok then log (iput ino) ;; mret (- ENOMEM)
      else
        fs ← gets id;
        let '(res, es) := kr_setup_super (fs_es fs) (sb_rdonly fs) in
        upd_es (fun _ => es) ;;
        when (negb (res =? 0)) (modify (fun fs => set_fs_flags (Z.lor (fs_flags fs) MS_RDONLY) fs)) ;;
        kr_write_super ;;
        mret 0
  end.

(** From the descriptors on. *)
Definition load_mount (logic_sb_block : Z) : M krfs Z :=
  fs ← gets id;
  let sbi := fs_sbi fs in
  let db_count := s32 ((s_groups_count sbi + s_desc_per_block sbi - 1) / s_desc_per_block sbi) in
  if negb (kmalloc_array_ok db_count) then mret (- EINVAL)
  else if negb (kmalloc_array_ok (s_groups_count sbi)) then mret (- EINVAL)
  else
    upd_sbi (set_s_debts (repeat 0 (Z.to_nat (s_groups_count sbi)))) ;;
    descs ← read_descs logic_sb_block (Z.to_nat db_count) 0;
    match descs with
    | None => mret (- EINVAL)
    | Some l =>
        modify (set_fs_desc l) ;;
        ok ← kr_check_descriptors;
        if negb ok then mret (- EINVAL)
        else
          upd_sbi (fun sbi => set_s_next_generation get_random_u32 (set_s_gdb_count db_count sbi)) ;;
          lift fs_rsv set_fs_rsv (kr_rsv_window_add rsv_head) ;;
          err ← init_counters;
          if negb (err =? 0) then mret (- EINVAL) else mount_root
    end.

(** [kr_fill_super] on a file system that is mounted with the flags [flags]; the
    answer is 0 or an error.  On an error the memory of the mount is released. *)
Definition kr_fill_super (flags : Z) (data : option string) : M krfs Z :=
  match prepare_mount flags data with
  | None => mret (- EINVAL)
  | Some p =>
      modify (fun _ => Krfs (pr_flags p) (Z.log2 (pr_blocksize p)) (pr_es p) (pr_sbi p) []
        (device_blocks (pr_blocksize p)) ∅ rsv_init ∅ []) ;;
      load_mount (pr_logic_sb_block p)
  end.

End Ops.
