(* ===== verification/MountFacts.v ===== *)
(** * What a mount establishes

    The geometry the super block passes with, the check of the group descriptors,
    and the state [kr_fill_super] leaves when it succeeds. *)

From stdpp Require Import strings.
From S2P Require Import Prelude Bits Kr Rsv Bitmap Alloc State Balloc InodeFlags Ialloc BlockMap Truncate Super OptionFacts InodeDisk Mount.

(** ** The geometry *)

(** The fields of the super block are what 16 and 32 bits hold. *)
Record es_ranged (es : kr_super_block) : Prop := {
  er_blocks : 0 <= es_blocks_count es < 4294967296;
  er_fdb : 0 <= es_first_data_block es < 4294967296;
  er_log : 0 <= es_log_block_size es;
  er_bpg : 0 <= es_blocks_per_group es < 4294967296;
  er_ipg : 0 <= es_inodes_per_group es < 4294967296;
  er_isize : 0 <= es_inode_size es < 65536;
}.
Lemma es_of_raw_ranged d o : bytes d -> es_ranged (es_of_raw d o).
Proof.
  intros Hd. split; cbn; try by apply get32_bytes.
  - by apply get16_bytes.
Qed.

Lemma is_power_of_2_spec n : 0 <= n < 65536 -> is_power_of_2 n = true -> exists k, 0 <= k < 16 /\ n = 2 ^ k.
Proof.
  intros Hn Hp. unfold is_power_of_2 in Hp. apply andb_true_iff in Hp as [H0 Hl].
  apply Z.eqb_eq in Hl. assert (0 < n) as Hpos by (destruct (Z.eqb_spec n 0); [done|lia]).
  set (k := Z.log2 n). exists k. pose proof (Z.log2_nonneg n). fold k in H.
  assert (Hk : 2 ^ k <= n < 2 ^ Z.succ k) by (apply Z.log2_spec; lia).
  assert (k < 16) as Hk16 by (apply (Z.pow_lt_mono_r_iff 2); lia). split; [lia|].
  destruct (decide (n = 2 ^ k)) as [|Hne]; [done|exfalso].
  assert (Hbit : Z.testbit (Z.land n (n - 1)) k = true).
  { rewrite Z.land_spec. apply andb_true_iff. split.
    - by apply Z.bit_log2.
    - replace k with (Z.log2 (n - 1)); [apply Z.bit_log2; lia|].
      apply Z.log2_unique; [lia|]. lia. }
  rewrite Hl in Hbit. by rewrite Z.bits_0 in Hbit.
Qed.

(** What the geometry is, of a super block [es] and the block size [2 ^ n]. *)
Record geometry_ok (n : Z) (es : kr_super_block) (sbi : kr_sb_info) : Prop := {
  ge_frag : s_frag_size sbi = 2 ^ n;
  ge_bpg : s_blocks_per_group sbi = es_blocks_per_group es /\ 0 < es_blocks_per_group es <= 8 * 2 ^ n;
  ge_ipg : s_inodes_per_group sbi = es_inodes_per_group es /\ 0 < es_inodes_per_group es <= 8 * 2 ^ n;
  ge_isize : exists k, 7 <= k <= n /\ s_inode_size sbi = 2 ^ k /\
               s_inodes_per_block sbi = 2 ^ (n - k) /\
               s_itb_per_group sbi = es_inodes_per_group es / 2 ^ (n - k);
  ge_dpb : s_desc_per_block sbi = 2 ^ (n - 5) /\ s_desc_per_block_bits sbi = n - 5;
  ge_addr : s_addr_per_block_bits sbi = n - 2;
  ge_groups : s_groups_count sbi =
    u32 (es_blocks_count es - es_first_data_block es - 1) / es_blocks_per_group es + 1;
}.

Lemma pow2_div n k : 0 <= k <= n -> 2 ^ n / 2 ^ k = 2 ^ (n - k).
Proof. intros Hk. rewrite Z.pow_sub_r by lia. done. Qed.

Lemma inode_geometry_spec n es isize first : 10 <= n <= 12 -> es_ranged es ->
  inode_geometry (2 ^ n) es = Some (isize, first) -> exists k, 7 <= k <= n /\ isize = 2 ^ k.
Proof.
  intros Hn He. unfold inode_geometry. destruct (es_rev_level es =? KR_GOOD_OLD_REV).
  { intros [= <- _]. exists 7. by split; [lia|]. }
  destruct (_ || _) eqn:Hb; [done|]. intros [= <- _].
  apply orb_false_iff in Hb as [Hb H3]. apply orb_false_iff in Hb as [H1 H2].
  apply negb_false_iff in H2. destruct (is_power_of_2_spec _ (er_isize _ He) H2) as (k & Hk & Heq).
  exists k. split; [|done]. change KR_GOOD_OLD_INODE_SIZE with (2 ^ 7) in H1. rewrite Heq in H1, H3.
  assert (7 <= k) by (apply (Z.pow_le_mono_r_iff 2); lia).
  assert (k <= n) by (apply (Z.pow_le_mono_r_iff 2); lia). lia.
Qed.

Lemma read_geometry_spec n b_size es sbi sbi' : 10 <= n <= 12 -> es_ranged es ->
  read_geometry (2 ^ n) b_size es sbi = Some sbi' ->
  geometry_ok n es sbi' /\ s_mount_opt sbi' = s_mount_opt sbi.
Proof.
  intros Hn He. unfold read_geometry.
  destruct (inode_geometry (2 ^ n) es) as [[isize first]|] eqn:Hi; [|done]. cbn [mbind option_bind].
  destruct (inode_geometry_spec n es isize first Hn He Hi) as (k & Hk & ->).
  assert (0 < 2 ^ k) by (apply Z.pow_pos_nonneg; lia).
  rewrite pow2_div by lia. change 32 with (2 ^ 5). rewrite pow2_div by lia. change 4 with (2 ^ 2).
  rewrite pow2_div by lia. rewrite !Z.log2_pow2 by lia.
  set (frag := u64 _). destruct (frag =? 0); [done|]. destruct (2 ^ k =? 0); [done|].
  destruct (_ || _) eqn:Hz; [done|]. apply orb_false_iff in Hz as [_ Hipg].
  destruct (negb _); [done|]. destruct (negb _); [done|]. destruct (negb (2 ^ n =? frag)) eqn:Hfr; [done|].
  destruct (es_blocks_per_group es >? _) eqn:H1; [done|].
  destruct (es_frags_per_group es >? _) eqn:H2; [done|].
  destruct (es_inodes_per_group es >? _) eqn:H3; [done|].
  destruct (es_blocks_per_group es =? 0) eqn:H4; [done|]. intros [= <-].
  pose proof (er_bpg _ He). pose proof (er_ipg _ He). split; [|done].
  split; cbn; try done; try lia.
  by exists k.
Qed.

(** ** The check of the descriptors *)

(** The bitmaps and the inode table of a group lie in it. *)
Definition group_last (c : core) (g : Z) : Z :=
  if g =? c_ngroups c - 1 then u32 (c_nblocks c - 1) else group_first c g + (c_bpg c - 1).
Record group_placed (c : core) (g : Z) : Prop := {
  gp_bb : group_first c g <= bg_block_bitmap (group_desc c g) <= group_last c g;
  gp_ib : group_first c g <= bg_inode_bitmap (group_desc c g) <= group_last c g;
  gp_it : group_first c g <= bg_inode_table (group_desc c g) /\
          1 <= bg_inode_table (group_desc c g) + c_itb c <= group_last c g + 1;
}.

(** The numbers of a mount that do not overflow. *)
Record sized (c : core) : Prop := {
  sz_bpg : 0 < c_bpg c <= 32768;
  sz_fdb : 0 <= c_fdb c < 4294967296;
  sz_itb : 0 <= c_itb c < 65536;
  sz_ngroups : 0 < c_ngroups c < 2147483648;
  sz_places : forall g, 0 <= g < c_ngroups c ->
    0 <= bg_block_bitmap (group_desc c g) < 4294967296 /\
    0 <= bg_inode_bitmap (group_desc c g) < 4294967296 /\
    0 <= bg_inode_table (group_desc c g) < 4294967296;
}.

Lemma descriptor_fits_spec fs g : let c := core_of fs in sized c -> 0 <= g < c_ngroups c ->
  descriptor_fits fs g (group_desc c g) = true <-> group_placed c g.
Proof.
  intros c [Hb Hf Hi Hn Hp] Hg. destruct (Hp g Hg) as (P1 & P2 & P3). unfold descriptor_fits.
  assert (Hgb : 0 <= g * c_bpg c <= 2147483648 * 32768)
    by (split; [apply Z.mul_nonneg_nonneg; lia|apply Z.mul_le_mono_nonneg; lia]).
  change (s_blocks_per_group (fs_sbi fs)) with (c_bpg c). change (es_first_data_block (fs_es fs)) with (c_fdb c).
  change (es_blocks_count (fs_es fs)) with (c_nblocks c). change (s_groups_count (fs_sbi fs)) with (c_ngroups c).
  change (s_itb_per_group (fs_sbi fs)) with (c_itb c).
  assert (kr_group_first_block_no (c_bpg c) (c_fdb c) g = group_first c g) as ->
    by (unfold kr_group_first_block_no, group_first; wraps; lia).
  assert ((if g =? c_ngroups c - 1 then u32 (c_nblocks c - 1) else u64 (group_first c g + (c_bpg c - 1)))
    = group_last c g) as ->
    by (unfold group_last, group_first in *; destruct (_ =? _); [done|by wraps]).
  assert (-1 <= group_last c g < 18446744073709551615 - 1).
  { unfold group_last, group_first. destruct (_ =? _); [|lia]. pose proof (u32_range (c_nblocks c - 1)). lia. }
  rewrite !andb_true_iff, !negb_true_iff, !orb_false_iff, !Z.ltb_ge, !Z.gtb_ltb, !Z.ltb_ge.
  destruct (decide (bg_inode_table (group_desc c g) + c_itb c = 0)) as [Hz|Hz].
  - rewrite Hz. change (u64 (0 - 1)) with 18446744073709551615.
    split; [lia|]. intros [_ _ Q]. lia.
  - rewrite u64_small by lia. split; [intros; split; lia|]. intros [Q1 Q2 Q3]. lia.
Qed.

Section Facts.
Context {K : Kernel}.
Variable E : stop -> Prop.
Hypothesis HE : E Panic.

Lemma check_groups_spec c : loaded c -> sized c -> forall n i fs, core_of fs = c ->
  0 <= i -> i + Z.of_nat n <= c_ngroups c ->
  runs (check_groups n i) E (fun r fs' => core_of fs' = c /\ fs_uptodate fs' = fs_uptodate fs /\
    (r = true <-> forall g, i <= g < i + Z.of_nat n -> group_placed c g)) fs.
Proof.
  intros Hl Hs. induction n as [|n IH]; intros i fs Hc Hi Hn; cbn [check_groups].
  { step. split_and!; [done|done|]. split; [lia|done]. }
  pose proof Hl as Hlf. rewrite <- Hc in Hlf.
  step. unfold kr_get_group_desc. run get_group_desc_loaded; [done|cbn; rewrite <- Hc in *; cbn in *; lia|].
  step. run desc_get_loaded; [done|rewrite <- Hc in *; cbn in *; lia|]. step. step. cbn [id].
  pose proof (descriptor_fits_spec fs i) as Hfit. rewrite Hc in Hfit. specialize (Hfit Hs ltac:(lia)).
  rewrite Hc. destruct (descriptor_fits fs i (group_desc c i)); cbn [negb].
  - eapply runs_mono; [apply (IH (i + 1) fs Hc); lia|]. cbv beta. intros r fs1 (H1 & H2 & H3).
    split_and!; [done|done|]. rewrite H3. split.
    + intros Ha g Hg. destruct (decide (g = i)) as [->|]; [by apply Hfit|]. apply Ha. lia.
    + intros Ha g Hg. apply Ha. lia.
  - step. eapply runs_mono; [by apply kr_error_core_loaded|]. cbv beta. intros _ fs1 (H1 & H2). step.
    split_and!; [congruence|done|]. split; [done|]. intros Ha.
    assert (false = true) by (apply Hfit, Ha; lia). done.
Qed.

Lemma kr_check_descriptors_spec fs : let c := core_of fs in loaded c -> sized c ->
  runs kr_check_descriptors E (fun r fs' => core_of fs' = c /\ fs_uptodate fs' = fs_uptodate fs /\
    (r = true <-> forall g, 0 <= g < c_ngroups c -> group_placed c g)) fs.
Proof.
  intros c Hl Hs. unfold kr_check_descriptors. step. step. cbn [id].
  pose proof (sz_ngroups _ Hs) as Hn. change (s_groups_count (fs_sbi fs)) with (c_ngroups c).
  eapply runs_mono; [apply (check_groups_spec c Hl Hs (Z.to_nat (c_ngroups c)) 0 fs); [done|lia|lia]|].
  cbv beta. rewrite Z2Nat.id by lia. rewrite Z.add_0_l. done.
Qed.

End Facts.

(** ** The device *)

(** What the kernel documents of the calls of a mount. *)
Class DeviceLaws (MD : MountDevice) : Prop := {
  min_blocksize_law : sb_min_blocksize = 0 \/ exists n, 10 <= n <= 12 /\ sb_min_blocksize = 2 ^ n;
  set_blocksize_law : forall s, sb_set_blocksize s = true -> exists n, 9 <= n <= 12 /\ s = 2 ^ n;
  read_super_law : forall s b d, read_super s b = Some d -> len d = s /\ bytes d;
  device_law : forall s b d, device_blocks s !! b = Some d -> len d = s /\ bytes d;
  kmalloc_array_law : forall n, kmalloc_array_ok n = true -> 0 <= n < 2147483648;
}.

(** A block size that is a shift of 1024 is not 512. *)
Lemma shifted_size k m : 0 <= k -> 9 <= m <= 12 -> s32 (Z.shiftl BLOCK_SIZE k) = 2 ^ m -> 10 <= m.
Proof.
  intros Hk Hm Hs. destruct (decide (m = 9)) as [->|]; [exfalso|lia].
  unfold s32 in Hs. rewrite Z.shiftl_mul_pow2 in Hs by lia. change BLOCK_SIZE with 1024 in Hs.
  change (2 ^ 9) with 512 in Hs. generalize dependent (2 ^ k). intros x Hs.
  Z.to_euclidean_division_equations; lia.
Qed.

(** The options of a super block only look at [s_mount_opt]. *)
Lemma options_ok_opt q es s s' : s_mount_opt s' = s_mount_opt s -> options_ok q es s -> options_ok q es s'.
Proof. intros Ho [H1 H2 H3 H4]. unfold opt_on in *. split; unfold opt_on; by rewrite Ho. Qed.

Section Prepare.
Context {MK : MountKernel} {MD : MountDevice} {DL : DeviceLaws MD}.

Record prepared_ok (p : prepared) : Prop := {
  po_size : exists n, 10 <= n <= 12 /\ pr_blocksize p = 2 ^ n /\ geometry_ok n (pr_es p) (pr_sbi p);
  po_ranged : es_ranged (pr_es p);
  po_options : exists es, options_ok config_quota es (pr_sbi p);
}.

Lemma reread_super_spec sb_block blocksize logic d size es r :
  es_ranged es -> (exists n, 10 <= n <= 12 /\ size = 2 ^ n) -> len d = size ->
  reread_super sb_block (s32 (Z.shiftl BLOCK_SIZE blocksize)) (logic, d, size) es = Some r -> 0 <= blocksize ->
  exists n logic' d' es', r = (2 ^ n, logic', d', es') /\ 10 <= n <= 12 /\ len d' = 2 ^ n /\ es_ranged es'.
Proof.
  intros He (n & Hn & ->) Hd. unfold reread_super. destruct (Z.eqb_spec (2 ^ n) (s32 (Z.shiftl BLOCK_SIZE blocksize))) as [Heq|_].
  - intros [= <-] _. rewrite <- Heq. by exists n, logic, d, es.
  - destruct (sb_set_blocksize _) eqn:Hs; [|done]. cbn [negb].
    destruct (set_blocksize_law _ Hs) as (m & Hm & Hms). unfold super_place.
    destruct (read_super _ _) as [d'|] eqn:Hr; [|done]. cbn [mbind option_bind].
    destruct (negb _); [done|]. intros [= <-] Hb. destruct (read_super_law _ _ _ Hr) as [Hl Hbd].
    rewrite Hms in *. pose proof (shifted_size _ _ Hb Hm Hms).
    eexists m, _, d', _. split; [done|]. split; [lia|]. split; [done|]. by apply es_of_raw_ranged.
Qed.

Lemma prepare_mount_spec flags data p : prepare_mount flags data = Some p -> prepared_ok p.
Proof.
  unfold prepare_mount. destruct (get_sb_block data) as [sb_block data'].
  destruct kzalloc_ok; [|done]. cbn [negb].
  destruct (Z.eqb_spec sb_min_blocksize 0) as [|Hmin]; [done|].
  destruct min_blocksize_law as [?|Hsize]; [done|].
  destruct (if negb (sb_min_blocksize =? BLOCK_SIZE) then _ else _) as [logic offset].
  destruct (read_super _ _) as [d|] eqn:Hr; [|done]. cbn [mbind option_bind].
  destruct (read_super_law _ _ _ Hr) as [Hl Hbd]. set (es := es_of_raw d offset).
  assert (es_ranged es) as He by by apply es_of_raw_ranged.
  destruct (negb (es_magic es =? _)); [done|].
  pose proof (parse_options_ok es data' (default_options es (new_sbi sb_block))
    (default_options_ok config_quota es (new_sbi sb_block) eq_refl)) as [Ho _].
  destruct (parse_options data' _) as [ok sbi]. cbn [snd] in Ho. destruct ok; [|done]. cbn [negb].
  destruct (has_incompat_feature _ _); [done|]. destruct (_ && has_ro_compat_feature _ _); [done|].
  destruct (_ && negb (bdev_dax_supported _ =? 0)); [done|].
  destruct (reread_super _ _ _ _) as [r|] eqn:Hrr; [|done].
  destruct (reread_super_spec _ _ _ _ _ _ _ He Hsize Hl Hrr (er_log _ He))
    as (n & logic' & d' & es' & -> & Hn & Hd' & He'). cbn [mbind option_bind].
  destruct (read_geometry _ _ _ _) as [sbi'|] eqn:Hg; [|done]. intros [= <-].
  destruct (read_geometry_spec n _ es' sbi sbi' Hn He' Hg) as [Hgeo Hopt].
  split; cbn; [by exists n|done|]. exists es. by apply (options_ok_opt _ _ sbi).
Qed.

End Prepare.

(** ** Loading the descriptors *)

Section Load.
Context {K : Kernel}.
Variable E : stop -> Prop.
Hypothesis HE : E Panic.

(** The blocks in memory are blocks of the size [s], and a read that succeeds
    finds one. *)
Record dev_ok (s : Z) (fs : krfs) : Prop := {
  dv_bufs : forall b d, fs_bufs fs !! b = Some d -> len d = s /\ bytes d;
  dv_read : forall b, bh_read_ok b = true -> is_Some (fs_bufs fs !! b);
  dv_up : forall b, b ∈ fs_uptodate fs -> is_Some (fs_bufs fs !! b);
}.
Lemma dev_ok_bufs s fs fs' : fs_bufs fs' = fs_bufs fs -> fs_uptodate fs' = fs_uptodate fs ->
  dev_ok s fs -> dev_ok s fs'.
Proof. intros Hb Hu [H1 H2 H3]. split; by rewrite ?Hb, ?Hu. Qed.
Lemma dev_ok_same s fs fs' : core_of fs' = core_of fs -> fs_uptodate fs' = fs_uptodate fs ->
  dev_ok s fs -> dev_ok s fs'.
Proof. intros Hc. apply dev_ok_bufs. apply (f_equal c_bufs Hc). Qed.

Lemma sb_bread_dev s b fs : dev_ok s fs ->
  runs (sb_bread b) E (fun r fs' => core_of fs' = core_of fs /\ dev_ok s fs' /\
    (forall b', r = Some b' -> b' = b /\ is_Some (fs_bufs fs' !! b))) fs.
Proof.
  intros Hd. unfold sb_bread, buffer_uptodate, bh_submit_read. step. step. step.
  - apply bool_decide_eq_true in H. step. split_and!; [done|done|]. intros b' [= <-].
    split; [done|]. by apply (dv_up _ _ Hd).
  - step. destruct (bh_read_ok b) eqn:Hr.
    + steps. split_and!; [done| |]; [|intros b' [= <-]; split; [done|by apply (dv_read _ _ Hd)]].
      destruct Hd as [H1 H2 H3]. split; [done|done|]. intros b' Hb'. cbn in Hb'.
      apply elem_of_union in Hb' as [->%elem_of_singleton|?]; [by apply H2|by apply H3].
    + steps. by split_and!.
Qed.

Definition descs_loaded (s : Z) (l : list (option (list kr_group_desc))) : Prop :=
  Forall (fun o => exists d, o = Some (descs_of_raw d) /\ bytes d /\ len d = s) l.

Lemma read_descs_spec s logic n : forall i fs, dev_ok s fs ->
  runs (read_descs logic n i) E (fun r fs' => core_of fs' = core_of fs /\ dev_ok s fs' /\
    forall l, r = Some l -> length l = n /\ descs_loaded s l) fs.
Proof.
  induction n as [|n IH]; intros i fs Hd; cbn [read_descs].
  { step. split_and!; [done|done|]. intros l [= <-]. split; [done|constructor]. }
  step. step. cbn [id]. step. eapply runs_mono; [by apply sb_bread_dev|]. cbv beta.
  intros r fs1 (H1 & H2 & H3). destruct r as [b|]; [|by step; split_and!].
  destruct (H3 b eq_refl) as [-> [d Hb]]. step.
  eapply runs_call; [unfold buf_get, mbind, M_bind, gets, id; by rewrite Hb|]. cbv beta.
  step. eapply runs_mono; [by apply IH|]. cbv beta. intros r fs2 (H4 & H5 & H6). step.
  split_and!; [congruence|done|]. intros l Hl. destruct r as [l'|]; [|done]. injection Hl as <-.
  destruct (H6 l' eq_refl) as [H7 H8]. split; [by simpl; f_equal|]. constructor; [|done].
  exists d. destruct (dv_bufs _ _ H2 _ _ Hb). done.
Qed.

(** Every group has its descriptor, with counts and places that 16 and 32 bits hold. *)
Lemma find_loaded s l p : descs_loaded s l -> (Z.to_nat p.1 < length l)%nat -> 0 <= p.2 < s / 32 ->
  exists d k, find_desc l p = Some (desc_of_raw d k) /\ bytes d.
Proof.
  intros Hl Hp1 Hp2. unfold find_desc. destruct (lookup_lt_is_Some_2 _ _ Hp1) as [o Ho]. rewrite Ho.
  destruct (Forall_lookup_1 _ _ _ _ Hl Ho) as (d & -> & Hb & Hd). exists d, (Z.to_nat p.2). split; [|done].
  unfold descs_of_raw. rewrite list_lookup_fmap, Hd, lookup_seq_lt by lia. done.
Qed.

Lemma gdp_split c g : c_dpb c = 2 ^ c_dpb_bits c -> 0 <= c_dpb_bits c -> 0 <= g ->
  gdp_of c g = (g / c_dpb c, g mod c_dpb c).
Proof.
  intros Hd Hb Hg. unfold gdp_of. rewrite Z.shiftr_div_pow2, Hd by lia.
  replace (2 ^ c_dpb_bits c - 1) with (Z.ones (c_dpb_bits c)) by (rewrite Z.ones_equiv; lia).
  by rewrite Z.land_ones by lia.
Qed.

Lemma descs_loaded_core c s l n : 10 <= n <= 12 -> s = 2 ^ n -> c_dpb c = 2 ^ (n - 5) -> c_dpb_bits c = n - 5 ->
  0 < c_ngroups c < 2147483648 -> descs_loaded s l ->
  Z.of_nat (length l) = (c_ngroups c + c_dpb c - 1) / c_dpb c ->
  let c' := set_c_desc l c in
  loaded c' /\ (forall g, 0 <= g < c_ngroups c ->
    0 <= bg_block_bitmap (group_desc c' g) < 4294967296 /\
    0 <= bg_inode_bitmap (group_desc c' g) < 4294967296 /\
    0 <= bg_inode_table (group_desc c' g) < 4294967296).
Proof.
  intros Hn Hs Hd Hbits Hng Hl Hlen c'.
  assert (32 <= c_dpb c) by (rewrite Hd; change 32 with (2 ^ 5); apply Z.pow_le_mono_r; lia).
  assert (Hfind : forall g, 0 <= g < c_ngroups c -> exists d k,
    find_desc (c_desc c') (gdp_of c' g) = Some (desc_of_raw d k) /\ bytes d).
  { intros g Hg. change (gdp_of c' g) with (gdp_of c g). change (c_desc c') with l.
    rewrite (gdp_split c g) by (rewrite ?Hbits; done || lia). apply (find_loaded s); [done| |]; cbn [fst snd].
    - pose proof (Z.div_pos g (c_dpb c) ltac:(lia) ltac:(lia)).
      assert (g / c_dpb c < (c_ngroups c + c_dpb c - 1) / c_dpb c); [|lia].
      apply Z.div_lt_upper_bound; [lia|].
      pose proof (Z.div_mod (c_ngroups c + c_dpb c - 1) (c_dpb c) ltac:(lia)).
      pose proof (Z.mod_pos_bound (c_ngroups c + c_dpb c - 1) (c_dpb c) ltac:(lia)). lia.
    - replace (s / 32) with (c_dpb c) by (rewrite Hs, Hd; change 32 with (2 ^ 5); by rewrite pow2_div by lia).
      apply Z.mod_pos_bound. lia. }
  assert (Hgd : forall g, 0 <= g < c_ngroups c -> exists d k,
    group_desc c' g = desc_of_raw d k /\ bytes d).
  { intros g Hg. destruct (Hfind g Hg) as (d & k & Hf & Hb). exists d, k. unfold group_desc. by rewrite Hf. }
  split; [split; [done| |]|].
  - intros g Hg. destruct (Hfind g Hg) as (d & k & Hf & _). by rewrite Hf.
  - intros g Hg. destruct (Hgd g Hg) as (d & k & -> & Hb). unfold counts_ok. cbn.
    split_and!; by apply get16_bytes.
  - intros g Hg. destruct (Hgd g Hg) as (d & k & -> & Hb). cbn. split_and!; by apply get32_bytes.
Qed.

End Load.

(** ** The last steps *)

(** The core [c] of a file system whose super block and descriptors have passed
    the tests of a mount. *)
Record formed (c : core) : Prop := {
  fo_bits : 10 <= c_bits c <= 12;
  fo_sized : sized c;
  fo_bpg : c_bpg c <= 8 * 2 ^ c_bits c;
  fo_ipg : 0 < c_ipg c <= 8 * 2 ^ c_bits c;
  fo_dpb : c_dpb c = 2 ^ c_dpb_bits c /\ 0 <= c_dpb_bits c;
  fo_addr : s_addr_per_block_bits (c_sbi c) = c_bits c - 2;
  fo_loaded : loaded c;
  fo_desc : Forall (fun o => is_Some o) (c_desc c);
  fo_placed : forall g, 0 <= g < c_ngroups c -> group_placed c g;
  fo_blocks : 0 <= c_nblocks c < 4294967296 /\ (c_nblocks c <> 0 ->
    (c_ngroups c - 1) * c_bpg c + c_fdb c < c_nblocks c <= c_ngroups c * c_bpg c + c_fdb c);
}.

(** ... and of one that has just been mounted. *)
Record mounted (c : core) : Prop := {
  mt_formed :> formed c;
  mt_bufs : forall b d, c_bufs c !! b = Some d -> len d = 2 ^ c_bits c;
  mt_rsv : rsv_wf (c_rsv c);
  mt_counters : s_freeblocks_counter (c_sbi c) = total c bg_free_blocks_count /\
    s_freeinodes_counter (c_sbi c) = total c bg_free_inodes_count /\
    s_dirs_counter (c_sbi c) = total c bg_used_dirs_count;
  mt_root : exists i, c_inodes c !! KR_ROOT_INO = Some i /\ S_ISDIR (i_mode i) = true /\
    i_blocks i <> 0 /\ i_size i <> 0;
}.

(** The windows, the counters and the inodes have no part in the first. *)
Lemma formed_change c r s ins : s_addr_per_block_bits s = s_addr_per_block_bits (c_sbi c) ->
  formed c -> formed (set_c_inodes ins (set_c_sbi s (set_c_rsv r c))).
Proof.
  intros Hs [F1 [S1 S2 S3 S4 S5] F3 F4 F5 F6 [L1 L2 L3] F8 F9 F10]. split; try done.
  - by cbn; rewrite Hs.
  - intros g Hg. by destruct (F9 g Hg).
Qed.

Lemma total_same c c' f : c_ngroups c' = c_ngroups c -> (forall g, group_desc c' g = group_desc c g) ->
  total c' f = total c f.
Proof.
  intros Hn Hg. unfold total. rewrite Hn. generalize (Z.to_nat (c_ngroups c)) 0.
  intros n. induction n as [|n IH]; intros i; cbn; [done|]. by rewrite IH, Hg.
Qed.

(** The number of groups covers the device and no more. *)
Lemma groups_cover c : sized c -> 0 <= c_nblocks c < 4294967296 ->
  c_ngroups c = u32 (c_nblocks c - c_fdb c - 1) / c_bpg c + 1 ->
  (forall g, 0 <= g < c_ngroups c -> group_placed c g) -> c_nblocks c <> 0 ->
  (c_ngroups c - 1) * c_bpg c + c_fdb c < c_nblocks c <= c_ngroups c * c_bpg c + c_fdb c.
Proof.
  intros Hs Hnb Hng Hp Hnz. pose proof (sz_bpg _ Hs). pose proof (sz_fdb _ Hs). pose proof (sz_ngroups _ Hs).
  destruct (Hp (c_ngroups c - 1) ltac:(lia)) as [[P1 P2] _ _].
  unfold group_last in P2. rewrite Z.eqb_refl in P2. rewrite u32_small in P2 by lia.
  unfold group_first in P1.
  assert (0 <= (c_ngroups c - 1) * c_bpg c) by (apply Z.mul_nonneg_nonneg; lia).
  rewrite u32_small in Hng by lia.
  pose proof (Z.div_mod (c_nblocks c - c_fdb c - 1) (c_bpg c) ltac:(lia)).
  pose proof (Z.mod_pos_bound (c_nblocks c - c_fdb c - 1) (c_bpg c) ltac:(lia)). nia.
Qed.

(** The tree with the dummy window alone. *)
Lemma rsv_init_add `{RbLaws} : exists st, kr_rsv_window_add rsv_head rsv_init = Ret tt st /\ rsv_wf st.
Proof.
  eexists. split; [reflexivity|].
  assert (Hw : wins (set_root (rb_insert_color rsv_head (Node Leaf rsv_head Leaf)) rsv_init) = [rsv_head])
    by (unfold wins; cbn; by rewrite rb_insert_color_law).
  assert (Hat : forall n, rsv_at (set_root (rb_insert_color rsv_head (Node Leaf rsv_head Leaf)) rsv_init) n = no_window).
  { intros n. unfold rsv_at. cbn. destruct (decide (n = rsv_head)) as [->|Hne].
    - by rewrite lookup_insert_eq.
    - by rewrite lookup_insert_ne. }
  split; rewrite ?Hw; [split; rewrite Hw| | |].
  - repeat constructor.
  - repeat constructor; rewrite ?Hat; cbn; lia.
  - done.
  - by rewrite Hat.
  - intros n Hn. rewrite Hat. cbn. split; [|done]. by intros ->%list_elem_of_singleton.
Qed.

(** A file system that has just been mounted is one the allocators can work on, if
    the device is not empty, the inode table has a block, and the bitmaps of each
    group are two blocks that can be read: what the mount does not look at. *)
Lemma mounted_core_ok c : mounted c -> c_nblocks c <> 0 -> 0 < c_itb c ->
  (forall g, 0 <= g < c_ngroups c -> let d := group_desc c g in
     bg_block_bitmap d <> bg_inode_bitmap d /\
     is_Some (c_bufs c !! bg_block_bitmap d) /\ is_Some (c_bufs c !! bg_inode_bitmap d)) -> core_ok c.
Proof.
  intros [[F1 [S1 S2 S3 S4 S5] F3 F4 [F5 F5'] F6 [L1 L2 L3] F8 F9 [F10 F11]] Hbufs _ _ _] Hnz Hitb Hg.
  specialize (F11 Hnz). split; try done; try lia.
  intros g Hr. destruct (Hg g Hr) as (Hne & [d1 Hd1] & [d2 Hd2]). destruct (F9 g Hr) as [P1 P2 P3].
  assert (Hlast : group_last c g + 1 = group_first c g + group_size c g).
  { unfold group_last, group_size, group_first. destruct (Z.eqb_spec g (c_ngroups c - 1)) as [->|].
    - rewrite u32_small by lia. lia.
    - assert (g + 2 <= c_ngroups c) by lia.
      assert ((g + 1) * c_bpg c <= (c_ngroups c - 1) * c_bpg c) by (apply Z.mul_le_mono_nonneg_r; lia). lia. }
  destruct (L3 g Hr) as (Q1 & Q2 & Q3).
  split; try done; try lia; try by eexists.
  - by apply L2.
  - unfold block_bitmap. rewrite Hd1. by apply (Hbufs _ _ Hd1).
  - unfold inode_bitmap. rewrite Hd2. by apply (Hbufs _ _ Hd2).
Qed.

Section Root.
Context {B : BitOps} {R : RbTree} {T : Trylock} {K : Kernel} {IK : InodeKernel}.
Variable E : stop -> Prop.
Hypothesis HE : E Panic.

Lemma get_group_desc_any g fs : loaded (core_of fs) ->
  runs (kr_get_group_desc g) E (fun r fs' => core_of fs' = core_of fs /\ fs_uptodate fs' = fs_uptodate fs /\
    (r = None \/ exists g', 0 <= g' < c_ngroups (core_of fs) /\ r = Some (gdp_of (core_of fs) g'))) fs.
Proof.
  intros Hl. unfold kr_get_group_desc. pose proof (u32_range g) as Hg.
  assert (Hu : kr_get_group_desc_with kr_error g fs = kr_get_group_desc_with kr_error (u32 g) fs)
    by (unfold kr_get_group_desc_with; by rewrite (u32_small (u32 g))).
  unfold runs. rewrite Hu. fold (runs (kr_get_group_desc_with kr_error (u32 g)) E
    (fun r fs' => core_of fs' = core_of fs /\ fs_uptodate fs' = fs_uptodate fs /\
    (r = None \/ exists g', 0 <= g' < c_ngroups (core_of fs) /\ r = Some (gdp_of (core_of fs) g'))) fs).
  destruct (decide (u32 g < c_ngroups (core_of fs))) as [Hlt|Hge].
  - run get_group_desc_loaded; [done|cbn; cbn in Hlt; lia|]. split_and!; [done|done|]. right. exists (u32 g). by split; [lia|].
  - unfold kr_get_group_desc_with. step. step. cbn [id]. rewrite (u32_small (u32 g)) by lia.
    change (s_groups_count (fs_sbi fs)) with (c_ngroups (core_of fs)).
    replace (u32 g >=? c_ngroups (core_of fs)) with true by lia. step.
    eapply runs_mono; [by apply kr_error_core_loaded|]. cbv beta. intros _ fs1 [H1 H2]. step. split_and!; auto.
Qed.

Lemma kr_get_inode_dev s ino fs : loaded (core_of fs) -> dev_ok s fs ->
  runs (kr_get_inode ino) E (fun r fs' => core_of fs' = core_of fs /\ dev_ok s fs' /\
    match r with inl err => err <> 0 | inr (b, _) => is_Some (fs_bufs fs' !! b) end) fs.
Proof.
  intros Hl Hd. unfold kr_get_inode. step. step. cbn [id]. step.
  { step. eapply runs_mono; [by apply kr_error_core_loaded|]. cbv beta. intros _ fs1 [H1 H2]. step.
    split_and!; [done|by eapply dev_ok_same|done]. }
  step. eapply runs_mono; [by apply get_group_desc_any|]. cbv beta. intros r fs1 (H1 & H2 & H3).
  assert (dev_ok s fs1) as Hd1 by by eapply dev_ok_same.
  destruct H3 as [->|(g & Hg & ->)]; [by step; split_and!|].
  step. rewrite <- H1 in Hg |- *. run desc_get_loaded; [by rewrite H1|exact Hg|]. step.
  eapply runs_mono; [by apply (sb_bread_dev E s)|]. cbv beta. intros r fs2 (H4 & H5 & H6).
  destruct r as [b|].
  - step. split_and!; [congruence|done|]. by destruct (H6 b eq_refl) as [-> ?].
  - step. eapply runs_mono; [apply kr_error_core_loaded; [by rewrite H4, H1|done]|]. cbv beta.
    intros _ fs3 [H7 H8]. step. split_and!; [congruence|by eapply dev_ok_same|done].
Qed.

(** Reading an inode into memory. *)
Lemma kr_iget_dev s ino fs : loaded (core_of fs) -> dev_ok s fs ->
  runs (kr_iget ino) E (fun r fs' => dev_ok s fs' /\
    core_of fs' = set_c_inodes (c_inodes (core_of fs')) (core_of fs) /\
    match r with inl err => err <> 0 | inr j => j = ino /\ is_Some (c_inodes (core_of fs') !! ino) end) fs.
Proof.
  intros Hl Hd. unfold kr_iget. step. step. cbn [id]. step.
  { apply bool_decide_eq_true in H. step. split_and!; [done|by destruct fs|done|done]. }
  step; [step; split_and!; [done|by destruct fs|done]|].
  step. eapply runs_mono; [by apply kr_get_inode_dev|]. cbv beta. intros r fs1 (H1 & H2 & H3).
  assert (Hsame : forall fs2, core_of fs2 = core_of fs -> core_of fs2 = set_c_inodes (c_inodes (core_of fs2)) (core_of fs))
    by (intros fs2 ->; by destruct fs).
  destruct r as [err|[b o]].
  { unfold log. steps. split_and!; [by apply (dev_ok_same s fs1)|by apply Hsame; exact H1|done]. }
  destruct H3 as [d Hb]. step.
  eapply runs_call; [unfold buf_get, mbind, M_bind, gets, id; by rewrite Hb|]. cbv beta.
  step. step. cbn [id]. step.
  { unfold log. steps. split_and!; [by apply (dev_ok_same s fs1)|by apply Hsame; exact H1|done]. }
  step.
  { step. eapply runs_mono; [apply kr_error_core_loaded; [by rewrite H1|done]|]. cbv beta.
    intros _ fs2 [H7 H8]. unfold log. steps.
    split_and!; [eapply (dev_ok_same s fs1); [done|done|done]|apply Hsame; exact (eq_trans H7 H1)|done]. }
  unfold log. steps. split_and!.
  - destruct H2 as [V1 V2 V3]. by split.
  - match goal with |- core_of ?f = _ => change (core_of f) with (set_c_inodes (c_inodes (core_of f)) (core_of fs1)) end.
    by rewrite H1.
  - done.
  - cbn. rewrite lookup_insert_eq. by eexists.
Qed.

Lemma kr_write_super_core fs : loaded (core_of fs) ->
  runs kr_write_super E (fun _ fs' => core_of fs' = core_of fs /\ fs_uptodate fs' = fs_uptodate fs) fs.
Proof.
  intros Hl. unfold kr_write_super, kr_sync_fs. step. step. cbn [id]. step; [|done].
  assert (Hsync : forall fs1, core_of fs1 = core_of fs -> fs_uptodate fs1 = fs_uptodate fs ->
    runs (kr_sync_super true) E (fun _ s' => runs (mret 0) E (fun _ s'' => runs (mret tt) E
      (fun _ fs' => core_of fs' = core_of fs /\ fs_uptodate fs' = fs_uptodate fs) s'') s') fs1).
  { intros fs1 H1 H2. destruct (sync_super_loaded true fs1) as [tr Hrun]; [by rewrite H1|].
    unfold runs at 1. rewrite Hrun. steps. done. }
  step. step. step. cbn [id]. step. step.
  - unfold upd_es. step. step. by apply Hsync.
  - step. by apply Hsync.
Qed.


(** *** The whole mount *)

Section Mount.
Context {RL : RbLaws R} {MK : MountKernel} {MD : MountDevice} {DL : DeviceLaws MD}.

(** What is known before the root inode is read: all but the root. *)
Definition nearly (c : core) : Prop := forall i, S_ISDIR (i_mode i) = true -> i_blocks i <> 0 -> i_size i <> 0 ->
  forall ins, ins !! KR_ROOT_INO = Some i -> mounted (set_c_inodes ins c).

Lemma init_counters_spec fs : loaded (core_of fs) ->
  runs init_counters E (fun err fs' => fs_uptodate fs' = fs_uptodate fs /\ (err = 0 ->
    core_of fs' = set_c_sbi (set_s_dirs_counter (total (core_of fs) bg_used_dirs_count)
      (set_s_freeinodes_counter (total (core_of fs) bg_free_inodes_count)
        (set_s_freeblocks_counter (total (core_of fs) bg_free_blocks_count) (c_sbi (core_of fs))))) (core_of fs))) fs.
Proof.
  intros Hl. unfold init_counters, kr_count_free_blocks, kr_count_free_inodes.
  step. run count_free_blocks_loaded; [done|]. step. apply runs_modify. cbv beta zeta.
  set (fs1 := set_fs_sbi _ fs). assert (Hl1 : loaded (core_of fs1)) by (destruct Hl; by split).
  step; [step; split; [done|lia]|].
  step. run count_free_inodes_loaded; [exact Hl1|]. step. apply runs_modify. cbv beta zeta.
  set (fs2 := set_fs_sbi _ fs1). assert (Hl2 : loaded (core_of fs2)) by (destruct Hl; by split).
  step; [step; split; [done|lia]|].
  step. run count_dirs_loaded; [exact Hl2|]. step. apply runs_modify. cbv beta zeta. step. split; [done|].
  intros _.
  assert (Ht1 : forall f, total (core_of fs1) f = total (core_of fs) f)
    by (intros f; by apply total_same).
  assert (Ht2 : forall f, total (core_of fs2) f = total (core_of fs) f)
    by (intros f; by apply total_same).
  rewrite Ht2. unfold fs2. rewrite Ht1. done.
Qed.

Lemma setup_super_core fs ro : core_of (set_fs_es (kr_setup_super (fs_es fs) ro).2 fs) = core_of fs.
Proof. unfold kr_setup_super. destruct ro; [done|]. by destruct (es_max_mnt_count (fs_es fs) =? 0). Qed.

Lemma mount_root_spec s fs : dev_ok s fs -> loaded (core_of fs) -> nearly (core_of fs) ->
  runs mount_root E (fun err fs' => err = 0 -> mounted (core_of fs')) fs.
Proof.
  intros Hd Hl Hn. unfold mount_root. step. eapply runs_mono; [by apply (kr_iget_dev s)|]. cbv beta.
  intros r fs1 (H1 & H2 & H3). destruct r as [err|j]; [by step|].
  destruct H3 as [-> [i Hi]]. step.
  eapply runs_call.
  { unfold inode_get, mbind, M_bind, gets, id. change (fs_inodes fs1) with (c_inodes (core_of fs1)). by rewrite Hi. }
  cbv beta. step; [unfold log; by steps|]. apply orb_false_iff in H as [H Hsz].
  apply orb_false_iff in H as [Hdir Hblk]. apply negb_false_iff in Hdir.
  step; [unfold log; by steps|]. step. step. cbn [id].
  pose proof (setup_super_core fs1 (sb_rdonly fs1)) as Hset.
  destruct (kr_setup_super (fs_es fs1) (sb_rdonly fs1)) as [res es]. cbn [snd] in Hset.
  step. apply runs_modify. cbv beta.
  assert (Hm : mounted (core_of fs1)) by (rewrite H2; apply (Hn i); [done|lia|lia|done]).
  assert (Hend : forall fs2, core_of fs2 = core_of fs1 ->
    runs (kr_write_super ;; mret 0) E (fun err fs' => err = 0 -> mounted (core_of fs')) fs2).
  { intros fs2 Hc. step. eapply runs_mono; [apply kr_write_super_core; rewrite Hc; apply Hm|].
    cbv beta. intros _ fs3 [H4 _]. step. intros _. by rewrite H4, Hc. }
  step. step; [apply runs_modify|]; by apply Hend.
Qed.

(** The counters and the root inode, on a file system that is formed. *)
Lemma counters_and_root s fs : s = 2 ^ fs_blocksize_bits fs -> dev_ok s fs -> formed (core_of fs) -> rsv_wf (fs_rsv fs) ->
  runs (err ← init_counters; if negb (err =? 0) then mret (- EINVAL) else mount_root) E
    (fun err fs' => err = 0 -> mounted (core_of fs')) fs.
Proof.
  intros Hs Hd Hf Hr. step. eapply runs_mono; [apply init_counters_spec, Hf|]. cbv beta.
  intros err fs1 [H1 H2]. step; [by step|]. specialize (H2 ltac:(lia)).
  assert (Hf1 : forall ins, formed (set_c_inodes ins (core_of fs1)))
    by (intros ins; rewrite H2; by apply (formed_change (core_of fs) (c_rsv (core_of fs)))).
  apply (mount_root_spec s).
  - apply (dev_ok_bufs s fs); [apply (f_equal c_bufs H2)|done|done].
  - rewrite H2. destruct (fo_loaded _ Hf). by split.
  - intros i Hdir Hblk Hsz ins Hi. split; [by apply Hf1| | | |by exists i].
    + rewrite H2. intros b d Hb. cbn. rewrite <- Hs. by apply (dv_bufs _ _ Hd b).
    + rewrite H2. done.
    + rewrite H2. split_and!; symmetry; by apply total_same.
Qed.

(** The descriptors of a super block with a good geometry. *)
Lemma formed_checked n fs l : 10 <= n <= 12 -> fs_blocksize_bits fs = n -> es_ranged (fs_es fs) ->
  geometry_ok n (fs_es fs) (fs_sbi fs) -> s_groups_count (fs_sbi fs) < 2147483648 ->
  descs_loaded (2 ^ n) l -> Z.of_nat (length l) =
    (s_groups_count (fs_sbi fs) + s_desc_per_block (fs_sbi fs) - 1) / s_desc_per_block (fs_sbi fs) ->
  let c := set_c_desc l (core_of fs) in
  loaded c /\ sized c /\ ((forall g, 0 <= g < c_ngroups c -> group_placed c g) -> formed c).
Proof.
  intros Hn Hbits He [G1 [G2 G2'] [G3 G3'] (k & Hk & G4 & G5 & G6) [G7 G8] G9 G10] Hng Hl Hlen c.
  assert (H2n : 8 * 2 ^ n <= 32768)
    by (change 32768 with (8 * 2 ^ 12); apply Z.mul_le_mono_nonneg_l; [lia|]; apply Z.pow_le_mono_r; lia).
  pose proof (er_blocks _ He) as Hnb.
  assert (Hng1 : 0 < s_groups_count (fs_sbi fs)).
  { rewrite G10. pose proof (u32_range (es_blocks_count (fs_es fs) - es_first_data_block (fs_es fs) - 1)).
    pose proof (Z.div_pos (u32 (es_blocks_count (fs_es fs) - es_first_data_block (fs_es fs) - 1))
      (es_blocks_per_group (fs_es fs)) ltac:(lia) ltac:(lia)). lia. }
  destruct (descs_loaded_core (core_of fs) (2 ^ n) l n Hn eq_refl G7 G8 ltac:(cbn; lia) Hl Hlen)
    as [Hload Hplaces]. fold c in Hload, Hplaces.
  assert (Hsized : sized c).
  { split; [cbn; lia|apply He| |cbn; lia|exact Hplaces].
    cbn. rewrite G6. assert (0 < 2 ^ (n - k)) by (apply Z.pow_pos_nonneg; lia).
    split; [apply Z.div_pos; lia|]. apply Z.div_lt_upper_bound; [done|]. nia. }
  split; [done|]. split; [done|]. intros Hplaced.
  split; try done; cbn; rewrite ?Hbits, ?G2, ?G3, ?G7, ?G8; try done; try lia.
  - eapply Forall_impl; [exact Hl|]. intros o (d & -> & _). by eexists.
  - split; [done|]. intros Hnz. pose proof (groups_cover c Hsized Hnb) as Hcov. cbn in Hcov.
    rewrite G2 in Hcov. by apply Hcov.
Qed.

Lemma load_mount_spec logic n fs : 10 <= n <= 12 -> fs_blocksize_bits fs = n -> es_ranged (fs_es fs) ->
  geometry_ok n (fs_es fs) (fs_sbi fs) -> dev_ok (2 ^ n) fs -> fs_rsv fs = rsv_init ->
  runs (load_mount logic) E (fun err fs' => err = 0 -> mounted (core_of fs')) fs.
Proof.
  intros Hn Hbits He Hgeo Hd Hrsv.
  assert (Hdpb : 32 <= s_desc_per_block (fs_sbi fs))
    by (rewrite (proj1 (ge_dpb _ _ _ Hgeo)); change 32 with (2 ^ 5); apply Z.pow_le_mono_r; lia).
  unfold load_mount. step. step. cbn [id]. cbv zeta. step; [by step|]. step; [by step|].
  apply negb_false_iff in H0. pose proof (kmalloc_array_law _ H0) as Hng.
  set (db := (s_groups_count (fs_sbi fs) + s_desc_per_block (fs_sbi fs) - 1) / s_desc_per_block (fs_sbi fs)).
  assert (Hdb : 0 <= db < 2147483648)
    by (unfold db; split; [apply Z.div_pos; lia|apply Z.div_lt_upper_bound; [lia|nia]]).
  rewrite (s32_small db) by lia. step. apply runs_modify. cbv beta. step. set (fs1 := set_fs_sbi _ fs).
  assert (dev_ok (2 ^ n) fs1) as Hd1 by by (destruct Hd; split).
  eapply runs_mono; [by apply (read_descs_spec E (2 ^ n))|]. cbv beta.
  intros r fs2 (H1 & H2 & H3). destruct r as [l|]; [|by step].
  destruct (H3 l eq_refl) as [Hlen Hl]. step. step. step. set (fs3 := set_fs_desc l fs2).
  assert (Hgeo1 : geometry_ok n (fs_es fs1) (fs_sbi fs1)) by (by destruct Hgeo; split).
  destruct (formed_checked n fs1 l Hn Hbits He Hgeo1 ltac:(cbn; lia) Hl ltac:(cbn; fold db; lia))
    as (Hload & Hsized & Hformed).
  assert (Hc3 : core_of fs3 = set_c_desc l (core_of fs1)) by (rewrite <- H1; done).
  rewrite <- Hc3 in Hload, Hsized, Hformed.
  eapply runs_mono; [apply (kr_check_descriptors_spec E HE fs3); done|].
  cbv beta. intros ok fs4 (H4 & H5 & H6). step; [by step|].
  specialize (Hformed (proj1 H6 ltac:(by destruct ok))).
  step. apply runs_modify. cbv beta. step. set (fs5 := set_fs_sbi _ fs4).
  destruct rsv_init_add as (st & Hadd & Hwf).
  assert (Hrsv5 : fs_rsv fs5 = rsv_init) by (change (c_rsv (core_of fs4) = rsv_init); by rewrite H4, Hc3).
  eapply runs_call; [unfold lift; rewrite Hrsv5, Hadd; reflexivity|]. cbv beta.
  set (fs6 := set_fs_rsv st fs5).
  apply (counters_and_root (2 ^ n)); [| | |exact Hwf].
  - change (2 ^ n = 2 ^ c_bits (core_of fs4)). by rewrite H4, Hc3, <- Hbits.
  - apply (dev_ok_bufs _ fs2); [exact (f_equal c_bufs H4)|exact H5|done].
  - rewrite <- H4 in Hformed.
    exact (formed_change (core_of fs4) st (c_sbi (core_of fs6)) (c_inodes (core_of fs4)) eq_refl Hformed).
Qed.

Lemma kr_fill_super_spec flags data p fs : prepare_mount flags data = Some p ->
  (forall b, bh_read_ok b = true -> is_Some (device_blocks (pr_blocksize p) !! b)) ->
  runs (kr_fill_super flags data) E (fun err fs' => err = 0 -> mounted (core_of fs')) fs.
Proof.
  intros Hp Hread. destruct (prepare_mount_spec _ _ _ Hp) as [(n & Hn & Hs & Hgeo) He _].
  unfold kr_fill_super. rewrite Hp. step. step. rewrite Hs, Z.log2_pow2 in * by lia.
  apply (load_mount_spec _ n); try done. split; cbn; [apply device_law|done|].
  intros b Hb. by apply elem_of_empty in Hb.
Qed.
End Mount.
End Root.
