(* ===== verification/SuperFacts.v ===== *)
(** * Remounting, limits and [statfs] *)

From Stdlib Require Import Ascii.
From stdpp Require Import strings.
From S2P Require Import Prelude Bits Kr Rsv Bitmap Alloc State Balloc BlockMap PathFacts Super OptionFacts InodeDisk Mount MountFacts.

(** ** Remounting *)

(** The options in force. *)
Definition options_of (sbi : kr_sb_info) : Z * Z * Z := (s_mount_opt sbi, s_resuid sbi, s_resgid sbi).

Lemma no_dax x : has x KR_MOUNT_DAX = false.
Proof. unfold has. change KR_MOUNT_DAX with 0. by rewrite Z.land_0_r. Qed.

Lemma rdonly_posixacl opts flags : has (set_posixacl opts flags) MS_RDONLY = has flags MS_RDONLY.
Proof.
  unfold set_posixacl. rewrite has_lor, has_clr. change (clr MS_RDONLY MS_POSIXACL) with MS_RDONLY.
  destruct (has opts _); by rewrite orb_false_r.
Qed.

Section Remount.
Context {K : Kernel} {MK : MountKernel}.
Variable E : stop -> Prop.
Hypothesis HE : E Panic.
Variables (sync_filesystem : M krfs unit) (dquot_suspend : Z).
Hypothesis Hsync : forall fs, runs sync_filesystem E (fun _ fs' =>
  core_of fs' = core_of fs /\ fs_flags fs' = fs_flags fs) fs.

(** The options and the flags after a remount from [fs] with the answer [err]. *)
Definition remounted (flags : Z) (data : option string) (fs : krfs) (err : Z) (fs' : krfs) : Prop :=
  core_of fs' = set_c_sbi (c_sbi (core_of fs')) (core_of fs) /\
  same_but_options (c_sbi (core_of fs)) (c_sbi (core_of fs')) /\
  if err =? 0 then
    (parse_options data (c_sbi (core_of fs))).1 = true /\
    options_of (c_sbi (core_of fs')) = options_of (parse_options data (c_sbi (core_of fs))).2 /\
    (has (fs_flags fs') MS_RDONLY = false -> has (fs_flags fs) MS_RDONLY = false \/
       has flags MS_RDONLY = false)
  else options_of (c_sbi (core_of fs')) = options_of (c_sbi (core_of fs)) /\ fs_flags fs' = fs_flags fs.

(** Parsing does not look at the state of the mount. *)
Lemma apply_option_state t a s st : apply_option t a (set_s_mount_state st s) =
  set_s_mount_state st <$> apply_option t a s.
Proof.
  destruct t; try done; cbn [apply_option].
  - destruct (match_int _); [|done]. cbn. by destruct (make_kgid _).
  - destruct (match_int _); [|done]. cbn. by destruct (make_kuid _).
  - by destruct config_quota.
  - by destruct config_quota.
  - by destruct config_quota.
Qed.
Lemma parse_loop_state l st : forall s, parse_loop l (set_s_mount_state st s) =
  ((parse_loop l s).1, set_s_mount_state st (parse_loop l s).2).
Proof.
  induction l as [|p l IH]; intros s; cbn [parse_loop]; [done|]. destruct p as [|ch p]; [apply IH|].
  destruct (match_token tokens (String ch p)) as [t a]. rewrite apply_option_state.
  destruct (apply_option t a s); cbn; [apply IH|done].
Qed.
Lemma parse_options_state o st s : parse_options o (set_s_mount_state st s) =
  ((parse_options o s).1, set_s_mount_state st (parse_options o s).2).
Proof. destruct o; [apply parse_loop_state|done]. Qed.

Lemma loaded_options c s : loaded c -> loaded (set_c_sbi s c).
Proof. intros [H1 H2 H3]. by split. Qed.

Lemma core_options old sbi flags : same_but_options (fs_sbi old) sbi ->
  core_of (set_fs_flags flags (set_fs_sbi sbi old)) = set_c_sbi (set_s_mount_state 0 sbi) (core_of old).
Proof. unfold same_but_options. by intros ->. Qed.

(** The state after the options are parsed, and before the flags are looked at. *)
Definition reoptioned (data : option string) (old : krfs) : krfs :=
  let sbi := (parse_options data (fs_sbi old)).2 in
  set_fs_flags (set_posixacl (s_mount_opt sbi) (fs_flags old)) (set_fs_sbi sbi old).

(** A remount that succeeds from there. *)
Lemma remounted_ok flags data fs old fs' : core_of old = core_of fs -> fs_flags old = fs_flags fs ->
  (parse_options data (fs_sbi old)).1 = true -> core_of fs' = core_of (reoptioned data old) ->
  (has (fs_flags fs') MS_RDONLY = false -> has (fs_flags fs) MS_RDONLY = false \/ has flags MS_RDONLY = false) ->
  remounted flags data fs 0 fs'.
Proof.
  intros Hc Hf Hp Hc' Hro. pose proof (parse_options_frame data (fs_sbi old)) as Hs.
  unfold reoptioned in Hc'. rewrite core_options in Hc' by done. unfold remounted. cbn [Z.eqb].
  rewrite Hc', <- Hc. change (c_sbi (core_of old)) with (set_s_mount_state 0 (fs_sbi old)).
  rewrite parse_options_state. cbn [fst snd].
  set (sbi := (parse_options data (fs_sbi old)).2) in *.
  split_and!; [done| |done|done|done].
  unfold same_but_options in *. cbn. rewrite Hs at 1. done.
Qed.

(** A remount that fails after any change of the options. *)
Lemma restore_spec flags data fs old err s : core_of old = core_of fs -> fs_flags old = fs_flags fs ->
  core_of s = set_c_sbi (c_sbi (core_of s)) (core_of old) ->
  same_but_options (c_sbi (core_of old)) (c_sbi (core_of s)) -> err <> 0 ->
  runs (restore_opts old err) E (remounted flags data fs) s.
Proof.
  intros Hc Hf Hs Hsame He. unfold restore_opts. step. apply runs_modify. cbv beta. step. apply runs_modify.
  cbv beta. step. unfold remounted. replace (err =? 0) with false by lia.
  set (fs' := set_fs_flags _ _).
  assert (Hc' : c_sbi (core_of fs') = c_sbi (core_of old)).
  { unfold same_but_options in Hsame. change (c_sbi (core_of s)) with (set_s_mount_state 0 (fs_sbi s)) in Hsame.
    change (c_sbi (core_of fs')) with (set_s_resgid (s_resgid (fs_sbi old)) (set_s_resuid (s_resuid (fs_sbi old))
      (set_s_mount_opt (s_mount_opt (fs_sbi old)) (set_s_mount_state 0 (fs_sbi s))))).
    rewrite Hsame. done. }
  assert (Hcore : core_of fs' = core_of old).
  { change (core_of fs') with (set_c_sbi (c_sbi (core_of fs')) (core_of s)). rewrite Hc', Hs. by destruct old. }
  rewrite Hcore, Hc. split_and!; [by destruct fs|apply same_but_refl|done|done].
Qed.

Lemma kr_remount_spec flags data fs : loaded (core_of fs) ->
  runs (kr_remount sync_filesystem dquot_suspend flags data) E (remounted flags data fs) fs.
Proof.
  intros Hl. unfold kr_remount. step. eapply runs_mono; [apply Hsync|]. cbv beta. intros _ old [Hc Hf].
  step. step. cbn [id]. pose proof (parse_options_frame data (fs_sbi old)) as Hs.
  pose proof (remounted_ok flags data fs old) as Hok. unfold reoptioned in Hok.
  destruct (parse_options data (fs_sbi old)) as [ok sbi]. cbn [fst snd] in Hs, Hok.
  set (s2 := set_fs_flags (set_posixacl (s_mount_opt sbi) (fs_flags old)) (set_fs_sbi sbi old)) in *.
  assert (Hs2 : core_of s2 = set_c_sbi (set_s_mount_state 0 sbi) (core_of old)) by by apply core_options.
  assert (Hrest : forall err s, core_of s = core_of s2 -> err <> 0 ->
    runs (restore_opts old err) E (remounted flags data fs) s).
  { intros err s Hcs He. apply restore_spec; [done|done| | |done].
    - by rewrite Hcs, Hs2.
    - rewrite Hcs, Hs2. cbn. unfold same_but_options in *. by rewrite Hs at 1. }
  assert (Hld : loaded (core_of s2)) by (rewrite Hs2; apply loaded_options; by rewrite Hc).
  assert (Hro2 : sb_rdonly s2 = has (fs_flags fs) MS_RDONLY)
    by (unfold sb_rdonly, s2; cbn; by rewrite rdonly_posixacl, Hf).
  step. apply runs_modify. cbv beta. destruct ok; cbn [negb]; [|apply Hrest; [by rewrite Hs2; apply (core_options old sbi (fs_flags old))|done]].
  step. apply runs_modify. cbv beta. step.
  assert (Hdax : upd_sbi (fun sbi0 => if has (Z.lxor (s_mount_opt sbi0) (s_mount_opt (fs_sbi old))) KR_MOUNT_DAX
      then set_s_mount_opt (Z.lxor (s_mount_opt sbi0) KR_MOUNT_DAX) sbi0 else sbi0) s2 = Ret tt s2)
    by (unfold upd_sbi, modify; rewrite no_dax; by destruct old).
  eapply runs_call; [exact Hdax|]. cbv beta. step. step. cbn [id]. rewrite Hro2.
  step; [step; apply Hok; try done; intros Hr; left; by rewrite <- Hro2|].
  apply eqb_false_iff in H. step.
  - (* to read-only *)
    step; [step; apply Hok; try done; intros Hr; left; by rewrite <- Hro2|].
    unfold store_mount_state. step. step. step. cbn [id]. apply runs_modify. cbv beta.
    step. apply runs_modify. cbv beta. step; [by apply Hrest; [|lia]|]. step.
    set (s3 := set_fs_es _ _). destruct (sync_super_loaded true s3) as [tr Hrun]; [exact Hld|].
    eapply runs_call; [exact Hrun|]. cbv beta. step. apply Hok; try done.
    intros Hr. left. by rewrite <- Hro2.
  - (* to read-write *)
    step; [by apply Hrest|]. step. apply runs_modify. cbv beta.
    set (s3 := set_fs_sbi _ s2). assert (Hs3 : core_of s3 = core_of s2) by done.
    pose proof (setup_super_core s3 false) as Hset. change (fs_es s3) with (fs_es s2) in Hset.
    destruct (kr_setup_super (fs_es s2) false) as [res es]. cbn [snd] in Hset.
    step. apply runs_modify. cbv beta. step.
    assert (Hend : forall s, core_of s = core_of s2 ->
      runs (kr_write_super ;; mret 0) E (remounted flags data fs) s).
    { intros s Hcs. step. eapply runs_mono; [apply (kr_write_super_core E); by rewrite Hcs|].
      cbv beta. intros _ s4 [H4 _]. step. apply Hok; try done; [congruence|]. by right. }
    step; [apply runs_modify|]; apply Hend; done.
Qed.

End Remount.

(** ** [statfs] *)

(** The overhead [statfs] takes off the size of the device: the blocks of metadata,
    from the cache when the size is the one they were counted for. *)
Definition statfs_overhead (fs : krfs) : Z :=
  if test_opt KR_MOUNT_MINIX_DF fs then 0
  else if s_blocks_last (fs_sbi fs) =? es_blocks_count (fs_es fs) then s_overhead_last (fs_sbi fs)
  else fs_overhead fs.

Section Statfs.
Context {K : Kernel}.

Lemma kr_statfs_run fs : loaded (core_of fs) -> let c := core_of fs in
  let bfree := total c bg_free_blocks_count in let ffree := total c bg_free_inodes_count in
  exists fs', kr_statfs fs = Ret
    (Kstatfs EXT2_SUPER_MAGIC (fs_blocksize fs) (u64 (c_nblocks c - statfs_overhead fs)) bfree
       (if bfree <? es_r_blocks_count (fs_es fs) then 0 else u64 (bfree - es_r_blocks_count (fs_es fs)))
       (c_ninodes c) ffree EXT2_NAME_LEN
       (let fsid := Z.lxor (get64 (es_uuid (fs_es fs)) 0) (get64 (es_uuid (fs_es fs)) 8) in
        (Z.land fsid 4294967295, Z.land (Z.shiftr fsid 32) 4294967295))) fs' /\
    fs_es fs' = set_es_free_inodes_count (u32 ffree) (set_es_free_blocks_count (u32 bfree) (fs_es fs)) /\
    core_of fs' = set_c_sbi (c_sbi (core_of fs')) c /\
    (test_opt KR_MOUNT_MINIX_DF fs = false -> s_blocks_last (fs_sbi fs') = c_nblocks c) /\
    s_overhead_last (fs_sbi fs') = statfs_overhead fs /\ s_mount_opt (fs_sbi fs') = s_mount_opt (fs_sbi fs).
Proof.
  intros Hl c bfree ffree. unfold kr_statfs.
  rewrite (bind_Ret (gets id) _ fs fs fs eq_refl). cbv beta.
  set (m := if test_opt KR_MOUNT_MINIX_DF fs then _ else _).
  assert (exists sbi, m fs = Ret tt (set_fs_sbi sbi fs) /\ s_overhead_last sbi = statfs_overhead fs /\
    (test_opt KR_MOUNT_MINIX_DF fs = false -> s_blocks_last sbi = c_nblocks c) /\
    s_mount_opt sbi = s_mount_opt (fs_sbi fs) /\
    core_of (set_fs_sbi sbi fs) = set_c_sbi (set_s_mount_state 0 sbi) c) as (sbi & Hm & Ho & Hb & Hopt & Hc).
  { unfold m, statfs_overhead. destruct (test_opt KR_MOUNT_MINIX_DF fs).
    { eexists. by split_and!. }
    destruct (Z.eqb_spec (s_blocks_last (fs_sbi fs)) (es_blocks_count (fs_es fs))) as [He|He]; cbn [negb when].
    - exists (fs_sbi fs). split; [by destruct fs|]. by split_and!.
    - eexists. by split_and!. }
  rewrite (bind_Ret _ _ _ _ _ Hm). cbv beta. set (fs1 := set_fs_sbi sbi fs) in *.
  assert (Hl1 : loaded (core_of fs1)) by (rewrite Hc; destruct Hl; by split).
  assert (Ht : forall f, total (core_of fs1) f = total c f) by (intros f; rewrite Hc; by apply total_same).
  rewrite (bind_Ret _ _ _ _ _ (count_free_blocks_loaded _ fs1 Hl1)), Ht. fold bfree. cbv beta.
  rewrite (bind_Ret (upd_es _) _ fs1 tt _ eq_refl). cbv beta. set (fs2 := set_fs_es _ fs1).
  rewrite (bind_Ret _ _ _ _ _ (count_free_inodes_loaded _ fs2 Hl1)).
  change (core_of fs2) with (core_of fs1). rewrite Ht. fold ffree. cbv beta.
  rewrite (bind_Ret (upd_es _) _ fs2 tt _ eq_refl). cbv beta. set (fs3 := set_fs_es _ fs2).
  rewrite (bind_Ret (gets id) _ fs3 fs3 fs3 eq_refl). cbv beta zeta.
  exists fs3. split; [|split_and!; try done].
  - unfold mret, M_ret. f_equal. f_equal. change (s_overhead_last (fs_sbi fs3)) with (s_overhead_last sbi). by rewrite Ho.
Qed.

End Statfs.

(** ** The largest file *)

(** A file of the largest size has only blocks that have a path, and its blocks,
    those of pointers included, fit in the 32 bits of [i_blocks], in sectors. *)
Lemma kr_max_size_spec bits : 10 <= bits <= 12 ->
  let ptrs := 2 ^ (bits - 2) in let m := kr_max_size bits in
  0 < m <= MAX_LFS_FILESIZE /\ m mod 2 ^ bits = 0 /\ m / 2 ^ bits <= max_file_blocks ptrs /\
  (m / 2 ^ bits + (1 + (1 + ptrs) + (1 + ptrs + ptrs * ptrs))) * 2 ^ (bits - 9) < 4294967296.
Proof. intros Hb. assert (bits = 10 \/ bits = 11 \/ bits = 12) as [->|[->| ->]] by lia; vm_compute; repeat split; done || (intros ?; done). Qed.
