(* ===== verification/DemoMount.v ===== *)
(** * A device to mount

    The small file system of Demo.v as bytes on a device, and the parts of the
    kernel a mount uses as concrete functions: the instances the theorems about
    mounting are tried on. *)

From Stdlib Require Import Ascii NArith DecimalString DecimalN DecimalPos.
From stdpp Require Import strings.
From S2P Require Import Prelude Bits Kr Rsv Bitmap Alloc State Balloc InodeFlags Ialloc BlockMap Truncate Super OptionFacts ShowFacts InodeDisk Mount MountFacts Demo.

(** ** The kernel's parser *)

(** [pre] of a pattern [pre%u]. *)
Fixpoint strip_u (p : string) : option string :=
  match p with
  | "%u" => Some EmptyString
  | String c rest => String c <$> strip_u rest
  | EmptyString => None
  end%string.

(** What follows [pre] in [s]. *)
Fixpoint after (pre s : string) : option string :=
  match pre, s with
  | EmptyString, _ => Some s
  | String c pre', String d s' => if Ascii.eqb c d then after pre' s' else None
  | _, _ => None
  end.

Definition demo_num (n : Z) : string := NilEmpty.string_of_uint (N.to_uint (Z.to_N n)).
Definition demo_int (s : string) : option Z := (fun d => Z.of_N (N.of_uint d)) <$> NilEmpty.uint_of_string s.
Definition is_number (s : string) : bool :=
  negb (bool_decide (s = EmptyString)) && bool_decide (is_Some (NilEmpty.uint_of_string s)).
Definition demo_match (p s : string) : option (list string) :=
  if percent_free p then if bool_decide (s = p) then Some [] else None
  else
    pre ← strip_u p;
    rest ← after pre s;
    if is_number rest then Some [rest] else None.

#[global] Instance demo_mount_kernel : MountKernel := {|
  match_pattern := demo_match; match_int := demo_int;
  simple_strtoul := fun s => (default 0 (demo_int s), EmptyString);
  make_kuid := Some; make_kgid := Some; config_quota := true;
|}.

Lemma strip_u_app pre : percent_free pre = true -> strip_u (pre +:+ "%u") = Some pre.
Proof.
  induction pre as [|c pre IH]; [done|]. change (percent_free (String c pre))
    with (negb (Ascii.eqb c "%"%char) && percent_free pre). intros [Hc Hp]%andb_true_iff.
  change (String c pre +:+ "%u") with (String c (pre +:+ "%u")). cbn [strip_u]. rewrite IH by done.
  destruct c as [[] [] [] [] [] [] [] []]; done.
Qed.
Lemma percent_app pre : percent_free (pre +:+ "%u") = false.
Proof.
  induction pre as [|c pre IH]; [done|]. change (String c pre +:+ "%u") with (String c (pre +:+ "%u")).
  cbn [percent_free]. by rewrite IH, andb_false_r.
Qed.
Lemma after_app pre s : after pre (pre +:+ s) = Some s.
Proof.
  induction pre as [|c pre IH]; [done|]. change (String c pre +:+ s) with (String c (pre +:+ s)).
  cbn [after]. by rewrite Ascii.eqb_refl.
Qed.
Lemma after_none pre : forall s, String.prefix pre s = false -> after pre s = None.
Proof.
  induction pre as [|c pre IH]; intros s Hs; [by destruct s|]. destruct s as [|d s]; [done|]. revert Hs. cbn [String.prefix after].
  destruct (ascii_dec c d) as [->|Hne]; [rewrite Ascii.eqb_refl; apply IH|].
  intros _. by destruct (Ascii.eqb_spec c d).
Qed.
Lemma demo_int_num n : 0 <= n -> demo_int (demo_num n) = Some n.
Proof.
  intros Hn. unfold demo_int, demo_num. rewrite NilEmpty.usu. cbn. rewrite DecimalN.Unsigned.of_to.
  f_equal. lia.
Qed.
Lemma uint_comma_free d : comma_free (NilEmpty.string_of_uint d) = true.
Proof. by induction d. Qed.
Lemma demo_num_number n : is_number (demo_num n) = true.
Proof.
  unfold is_number, demo_num. rewrite NilEmpty.usu. apply andb_true_iff. split.
  - apply negb_true_iff, bool_decide_eq_false_2. destruct (Z.to_N n) as [|p]; [done|]. cbn.
    pose proof (DecimalPos.Unsigned.to_uint_nonnil p). by destruct (Pos.to_uint p).
  - apply bool_decide_eq_true_2. by eexists.
Qed.

#[global] Instance demo_parser : ParserLaws demo_mount_kernel demo_num.
Proof.
  split; cbn; unfold demo_match.
  - intros p s ->. done.
  - intros pre n Hp Hn. rewrite percent_app, strip_u_app by done. cbn. rewrite after_app. cbn.
    by rewrite demo_num_number.
  - intros pre s Hp Hs. rewrite percent_app, strip_u_app by done. cbn. by rewrite after_none.
  - intros n Hn. apply demo_int_num. lia.
  - done.
  - done.
  - intros n. apply uint_comma_free.
Qed.

(** ** The device *)

(** [fields l]: 1024 bytes with the 32-bit values of [l] at their offsets. *)
Definition fields (l : list (Z * Z)) : list Z :=
  foldr (fun p d => put32 d p.1 p.2) (repeat 0 1024) l.

(** The super block: 65 blocks in two groups of 32, 16 inodes each. *)
Definition raw_super : list Z := fields
  [(0, 32); (4, 65); (12, 48); (16, 18); (20, 1); (32, 32); (36, 32); (40, 16);
   (52, 1 + 65536 * 20); (56, 0xEF53 + 65536 * KR_VALID_FS); (60, KR_ERRORS_CONTINUE);
   (76, KR_DYNAMIC_REV); (84, KR_GOOD_OLD_FIRST_INO); (88, 128);
   (96, KR_FEATURE_INCOMPAT_FILETYPE); (100, KR_FEATURE_RO_COMPAT_SPARSE_SUPER)].
Definition raw_descs : list Z := fields
  [(0, 3); (4, 4); (8, 5); (12, 24 + 65536 * 2); (16, 2);
   (32, 35); (36, 36); (40, 37); (44, 24 + 65536 * 16)].
(** The block of the inode table with the root directory. *)
Definition raw_table : list Z := fields
  [(128, S_IFDIR + 493); (132, 1024); (152, 65536 * 2); (156, 2); (168, 7)].

Definition demo_device (s : Z) : gmap Z (list Z) :=
  if s =? 1024 then list_to_map
    [(1, raw_super); (2, raw_descs); (3, demo_map [255; 0; 0; 0]); (4, demo_map [255; 63]); (5, raw_table);
     (35, demo_map [255; 0; 0; 0]); (36, demo_map [0; 0])]
  else ∅.

#[global] Instance demo_mount_device : MountDevice := {|
  sb_min_blocksize := 1024; sb_set_blocksize := fun s => (s =? 1024) || (s =? 2048) || (s =? 4096);
  read_super := fun s b => demo_device s !! b; device_blocks := demo_device; bdev_dax_supported := fun _ => 0;
  kzalloc_ok := true; kmalloc_array_ok := fun n => (0 <=? n) && (n <? 1048576); get_random_u32 := 7;
  percpu_counter_init := fun _ => 0; d_make_root_ok := true;
|}.

Lemma demo_device_blocks s b d : demo_device s !! b = Some d -> len d = s /\ bytes d.
Proof.
  unfold demo_device. destruct (Z.eqb_spec s 1024) as [->|]; [|done]. intros Hd%elem_of_list_to_map_2.
  assert (Hall : forallb (fun p => (len p.2 =? 1024) && forallb (fun v => (0 <=? v) && (v <? 256)) p.2)
    [(1, raw_super); (2, raw_descs); (3, demo_map [255; 0; 0; 0]); (4, demo_map [255; 63]); (5, raw_table);
     (35, demo_map [255; 0; 0; 0]); (36, demo_map [0; 0])] = true) by (vm_compute; reflexivity).
  rewrite forallb_forall in Hall. apply list_elem_of_In in Hd. specialize (Hall _ Hd). cbn [snd] in Hall.
  apply andb_true_iff in Hall as [Hl Hb]. split; [lia|]. apply Forall_forall. intros v Hv%list_elem_of_In.
  rewrite forallb_forall in Hb. specialize (Hb v Hv). lia.
Qed.

#[global] Instance demo_device_laws : DeviceLaws demo_mount_device.
Proof.
  split; cbn.
  - right. exists 10. by split.
  - intros s Hs. assert (s = 1024 \/ s = 2048 \/ s = 4096) as [->|[->| ->]] by lia; [exists 10|exists 11|exists 12]; by split; [lia|].
  - apply demo_device_blocks.
  - apply demo_device_blocks.
  - intros n Hn. lia.
Qed.

(** Kernel functions the demonstrations do not depend on. *)
#[global] Instance demo_inode_kernel : InodeKernel := {|
  old_decode_dev := fun v => v; new_decode_dev := fun v => v; old_valid_dev := fun v => v <? 65536;
  old_encode_dev := fun v => v; new_encode_dev := fun v => v; fs_high2lowuid := u16;
  fs_high2lowgid := u16; nd_terminate_link := fun d _ _ => d; transfer_quota := fun _ => 0;
|}.
