(* ===== verification/SuperTheorems.v ===== *)
(** * What mounting, the options and the super block guarantee

    The properties of super.c, instantiated on the device of DemoMount.v. *)

From stdpp Require Import strings.
From S2P Require Import Prelude Bits Kr Rsv Bitmap Alloc State Balloc InodeFlags Ialloc BlockMap PathFacts Truncate Super OptionFacts ShowFacts InodeDisk Mount MountFacts SuperFacts Demo BlockTheorems DemoMount.

Section Mounting.
Context {B : BitOps} {R : RbTree} {RL : RbLaws R} {T : Trylock} {K : Kernel} {IK : InodeKernel}
  {MK : MountKernel} {MD : MountDevice} {DL : DeviceLaws MD}.


(** [kr_check_descriptors] changes nothing but the marks of an error, and
    answers whether the bitmaps and the inode table of every group lie in it. *)
Theorem kr_check_descriptors_correct fs : loaded (core_of fs) -> sized (core_of fs) ->
  runs kr_check_descriptors only_panic (fun r fs' => core_of fs' = core_of fs /\
    (r = true <-> forall g, 0 <= g < c_ngroups (core_of fs) -> group_placed (core_of fs) g)) fs.
Proof.
  intros Hl Hs. eapply runs_mono; [by apply (kr_check_descriptors_spec only_panic)|].
  cbv beta. by intros r fs' (H1 & _ & H2).
Qed.

End Mounting.

Section Options.
Context {MK : MountKernel}.

(** Whatever the options, parsed or refused in the middle: exactly one policy
    on errors is in force afterwards, the defaults of the super block that no option
    clears are still there, and only the options and the two ids have changed. *)
Theorem parse_options_correct es o sbi : options_ok config_quota es sbi ->
  options_ok config_quota es (parse_options o sbi).2 /\ same_but_options sbi (parse_options o sbi).2.
Proof. apply parse_options_ok. Qed.

Context {num : Z -> string} {PL : ParserLaws MK num}.

(** C34.  Showing the options and parsing the text from the defaults of the super
    block gives back every option that is shown, and the two ids. *)
Theorem show_then_parse es sbi d : s_mount_opt d = 0 -> options_ok config_quota es sbi ->
  id_range (s_sb_block sbi) -> id_range (s_resuid sbi) -> id_range (s_resgid sbi) ->
  let '(ok, sbi') := parse_options (Some (text (kr_show_options num config_quota es sbi))) (default_options es d) in
  ok = true /\ Forall (fun o => opt_on sbi' o = opt_on sbi o) shown_options /\
  s_resuid sbi' = s_resuid sbi /\ s_resgid sbi' = s_resgid sbi.
Proof.
  intros Hd Ho Hsb Hu Hg. unfold parse_options.
  rewrite show_options_shown, strsep_text by apply shown_comma_free.
  change (parse_loop (EmptyString :: ?l)) with (parse_loop l).
  rewrite parse_loop_shown by done. split; [done|]. split; [by apply reparsed_on|]. apply reparsed_ids.
Qed.


End Options.

(**  [statfs] answers the counts of the descriptors; what it caches does not
    change its answer: a second call gives the same. *)
Theorem kr_statfs_correct `{Kernel} fs : loaded (core_of fs) ->
  runs (a ← kr_statfs; b ← kr_statfs; mret (a, b)) never (fun r fs' =>
    r.1 = r.2 /\ f_blocks r.1 = u64 (c_nblocks (core_of fs) - statfs_overhead fs) /\
    f_bfree r.1 = total (core_of fs) bg_free_blocks_count /\
    f_ffree r.1 = total (core_of fs) bg_free_inodes_count /\
    f_bavail r.1 = (if f_bfree r.1 <? es_r_blocks_count (fs_es fs) then 0
                    else u64 (f_bfree r.1 - es_r_blocks_count (fs_es fs)))) fs.
Proof.
  intros Hl. destruct (kr_statfs_run fs Hl) as (fs1 & H1 & He & Hc & Hb & Ho & Hopt).
  assert (Hl1 : loaded (core_of fs1)) by (rewrite Hc; destruct Hl; by split).
  assert (Ht : forall f, total (core_of fs1) f = total (core_of fs) f) by (intros f; rewrite Hc; by apply total_same).
  assert (Hov : statfs_overhead fs1 = statfs_overhead fs).
  { assert (Hm : test_opt KR_MOUNT_MINIX_DF fs1 = test_opt KR_MOUNT_MINIX_DF fs) by (unfold test_opt; by rewrite Hopt).
    revert Ho Hb. unfold statfs_overhead. rewrite Hm, He. destruct (test_opt KR_MOUNT_MINIX_DF fs); [done|].
    intros Ho Hb. rewrite (Hb eq_refl). change (c_nblocks (core_of fs)) with (es_blocks_count (fs_es fs)).
    cbn [es_blocks_count set_es_free_inodes_count set_es_free_blocks_count]. by rewrite Z.eqb_refl. }
  destruct (kr_statfs_run fs1 Hl1) as (fs2 & H2 & _). step. eapply runs_call; [exact H1|]. cbv beta.
  step. eapply runs_call; [exact H2|]. cbv beta. step. cbn [fst snd f_blocks f_bfree f_ffree f_bavail].
  split_and!; try done. rewrite !Ht, Hov, He, Hc. assert (fs_blocksize fs1 = fs_blocksize fs) as ->; [|done].
  unfold fs_blocksize. change (fs_blocksize_bits fs1) with (c_bits (core_of fs1)). by rewrite Hc.
Qed.

(**  Every block of a file within [s_maxbytes] has a path in the tree of
    pointers, and the sectors of the largest file, its pointers included, fit in
    the 32 bits of [i_blocks]. *)
Theorem kr_max_size_correct bits i : 10 <= bits <= 12 -> 0 <= i -> i * 2 ^ bits < kr_max_size bits ->
  let ptrs := 2 ^ (bits - 2) in
  (kr_block_to_path ptrs (bits - 2) i).1 <> [] /\
  (kr_max_size bits / 2 ^ bits + (1 + (1 + ptrs) + (1 + ptrs + ptrs * ptrs))) * 2 ^ (bits - 9) < 4294967296.
Proof.
  intros Hb Hi Hlt ptrs. destruct (kr_max_size_spec bits Hb) as (H1 & H2 & H3 & H4). split; [|exact H4].
  assert (0 < 2 ^ bits) by (apply Z.pow_pos_nonneg; lia).
  assert (i < kr_max_size bits / 2 ^ bits).
  { pose proof (Z.div_mod (kr_max_size bits) (2 ^ bits) ltac:(lia)). rewrite H2 in *. nia. }
  pose proof (block_to_path_in ptrs (bits - 2) ltac:(lia) eq_refl i ltac:(fold ptrs in H3; lia)) as Hin.
  destruct (kr_block_to_path ptrs (bits - 2) i) as [o b]. destruct Hin as (Ho & _). cbn. by intros ->.
Qed.

(** ** On the small file system *)

Definition device_kernel : Kernel := reading (fun b => bool_decide (is_Some (demo_device 1024 !! b))).
Definition demo_prepared : prepared :=
  ltac:(let x := eval vm_compute in (prepare_mount 0 None) in
        match x with Some ?p => exact p end).


Lemma demo_sized : sized (core_of demo).
Proof.
  split; [vm_compute; done..|]. apply (upto_ind _ 2). repeat constructor; vm_compute; done.
Qed.

Lemma kr_check_descriptors_witness :
  runs (kr_check_descriptors (H := device_kernel)) only_panic (fun r fs' => core_of fs' = core_of demo) demo.
Proof.
  eapply runs_mono.
  - apply (kr_check_descriptors_correct (K := device_kernel) demo); [apply core_loaded, demo_core_ok|exact demo_sized].
  - cbv beta. by intros r fs' [H _].
Defined.

Definition demo_defaults : kr_sb_info := default_options demo_es (new_sbi 1).

Lemma parse_options_witness :
  let r := parse_options (Some "errors=panic,minixdf,errors=remount-ro,unknown,nobh"%string) demo_defaults in
  r.1 = false /\ options_ok true demo_es r.2.
Proof.
  split; [vm_compute; reflexivity|].
  apply (parse_options_correct (MK := demo_mount_kernel) demo_es _ demo_defaults (default_options_ok true demo_es (new_sbi 1) eq_refl)).
Defined.

(** Options in force after a mount with a text. *)
Definition demo_options : kr_sb_info :=
  (parse_options (Some "resuid=5,errors=panic,noreservation,oldalloc,usrquota"%string) demo_defaults).2.

Lemma show_then_parse_witness :
  text (kr_show_options demo_num true demo_es demo_options) =
    ",resuid=5,errors=panic,oldalloc,usrquota,noreservation"%string /\
  let '(ok, sbi') := parse_options (Some (text (kr_show_options demo_num true demo_es demo_options))) demo_defaults in
  ok = true /\ s_resuid sbi' = 5.
Proof.
  split; [vm_compute; reflexivity|].
  pose proof (show_then_parse (MK := demo_mount_kernel) (num := demo_num) demo_es demo_options (new_sbi 1) eq_refl
    (proj1 (parse_options_ok (MK := demo_mount_kernel) demo_es _ _ (default_options_ok true demo_es (new_sbi 1) eq_refl)))) as H.
  specialize (H ltac:(vm_compute; split; congruence) ltac:(vm_compute; split; congruence)
    ltac:(vm_compute; split; congruence)).
  change (config_quota) with true in H. unfold demo_defaults.
  destruct (parse_options _ _) as [ok sbi']. destruct H as (H1 & _ & H2 & _). split; [exact H1|].
  rewrite H2. vm_compute. reflexivity.
Defined.


Lemma kr_statfs_witness :
  runs (a ← kr_statfs; b ← kr_statfs; mret (a, b)) never (fun r fs' => r.1 = r.2 /\ f_bfree r.1 = 48) demo.
Proof.
  eapply runs_mono; [apply (kr_statfs_correct demo), core_loaded, demo_core_ok|].
  cbv beta. intros r fs' (H1 & _ & -> & _). split; [exact H1|]. vm_compute. reflexivity.
Defined.

Lemma kr_max_size_witness : (kr_block_to_path 256 8 16843018).1 <> [].
Proof. apply (kr_max_size_correct 10 16843018); [lia|lia|vm_compute; reflexivity]. Defined.
