(* ===== verification/InodeDiskFacts.v ===== *)
(** * Writing an inode and reading it back

    The fields of the disk inode do not overlap: what [__kr_write_inode] stores is
    what [kr_iget] reads. *)

From S2P Require Import Prelude Bytes Kr InodeFlags InodeDisk.

Section Fields.
Implicit Types (d : list Z) (o v : Z).

(** The array of the block numbers. *)
Lemma len_put_array o l : forall n d, len (put_block_array d o n l) = len d.
Proof. induction l as [|v l IH]; intros n d; simpl; [done|]. by rewrite IH, len_put32. Qed.

Lemma get8_put_array_ne o o' l : forall n d, 0 <= o -> 0 <= n -> o + raw_i_block (n + len l) <= len d ->
  0 <= o' -> o' < o + raw_i_block n \/ o + raw_i_block (n + len l) <= o' ->
  get8 (put_block_array d o n l) o' = get8 d o'.
Proof.
  unfold raw_i_block. induction l as [|v l IH]; intros n d Ho Hn Hlen Ho' Hout; [done|].
  assert (len (v :: l) = 1 + len l) as Hl by (unfold len; simpl; lia). pose proof (len_nonneg l).
  cbn [put_block_array]. rewrite IH by (rewrite ?len_put32; lia).
  apply get8_put32_ne; unfold raw_i_block; lia.
Qed.

Lemma get32_put_array_eq o l k : forall n d, 0 <= o -> 0 <= n -> o + raw_i_block (n + len l) <= len d ->
  (k < length l)%nat -> Forall (fun v => 0 <= v < 4294967296) l ->
  get32 (put_block_array d o n l) (o + raw_i_block (n + Z.of_nat k)) = nth k l 0.
Proof.
  revert k. induction l as [|v l IH]; intros k n d Ho Hn Hlen Hk Hl; [simpl in Hk; lia|].
  assert (len (v :: l) = 1 + len l) as Hlc by (unfold len; simpl; lia). pose proof (len_nonneg l).
  apply Forall_cons in Hl as [Hv Hl]. cbn [put_block_array]. unfold raw_i_block in *. destruct k as [|k].
  - change (Z.of_nat 0) with 0. rewrite Z.add_0_r. cbn [nth].
    unfold get32, get16.
    rewrite !get8_put_array_ne by (unfold raw_i_block; rewrite ?len_put32; lia).
    change (get32 (put32 d (o + raw_i_block n) v) (o + raw_i_block n) = v).
    apply get32_put32_eq; unfold raw_i_block; lia.
  - replace (n + Z.of_nat (S k)) with (n + 1 + Z.of_nat k) by lia. cbn [nth].
    apply IH; try done; rewrite ?len_put32; simpl in Hk; lia.
Qed.

End Fields.

(** [rd] reads through the writes of the other fields; [raw_offs] makes the offsets
    numbers. *)
Ltac raw_offs := unfold raw_i_mode, raw_i_uid_low, raw_i_size, raw_i_atime, raw_i_ctime, raw_i_mtime,
  raw_i_dtime, raw_i_gid_low, raw_i_links_count, raw_i_blocks, raw_i_flags, raw_i_generation,
  raw_i_file_acl, raw_i_size_high, raw_i_dir_acl, raw_i_faddr, raw_i_frag, raw_i_fsize,
  raw_i_uid_high, raw_i_gid_high in *.
Ltac side := autorewrite with kr; lia.
Ltac rd := repeat first
  [rewrite get32_put32_u by side | rewrite get16_put16_u by side | rewrite get8_put8_eq by side
  |rewrite get32_put32_ne by side | rewrite get32_put16_ne by side | rewrite get32_put8_ne by side
  |rewrite get16_put32_ne by side | rewrite get16_put16_ne by side | rewrite get16_put8_ne by side
  |rewrite get8_put32_ne by side | rewrite get8_put16_ne by side | rewrite get8_put8_ne by side].

(** The inodes that can be stored: the ranges of their fields on the disk. *)
Record storable (i : inode) : Prop := {
  sb_mode : 0 <= i_mode i < 65536;
  sb_uid : 0 <= i_uid i < 4294967296;
  sb_gid : 0 <= i_gid i < 4294967296;
  sb_nlink : 0 <= i_nlink i < 65536;
  sb_size : 0 <= i_size i < (if S_ISREG (i_mode i) then 18446744073709551616 else 4294967296);
  sb_blocks : 0 <= i_blocks i < 4294967296;
  sb_atime : -2147483648 <= i_atime i < 2147483648;
  sb_mtime : -2147483648 <= i_mtime i < 2147483648;
  sb_ctime : -2147483648 <= i_ctime i < 2147483648;
  sb_gen : 0 <= i_generation i < 4294967296;
  sb_flags : 0 <= ei_flags (KR_I i) < 4294967296;
  sb_faddr : 0 <= i_faddr (KR_I i) < 4294967296;
  sb_frag : 0 <= i_frag_no (KR_I i) < 256;
  sb_fsize : 0 <= i_frag_size (KR_I i) < 256;
  sb_acl : 0 <= i_file_acl (KR_I i) < 4294967296;
  sb_dir_acl : 0 <= i_dir_acl (KR_I i) < 4294967296;
  sb_dtime : i_dtime (KR_I i) = 0;
  sb_len : length (i_data (KR_I i)) = 15%nat;
  sb_data : Forall (fun v => 0 <= v < 4294967296) (i_data (KR_I i));
  sb_nodev : S_ISCHR (i_mode i) || S_ISBLK (i_mode i) = false;
}.

(** What [kr_iget] makes of the parts that are not on the disk. *)
Definition reread (ipg ino : Z) (i : inode) : inode :=
  let ei := KR_I i in
  Inode ino (i_mode i) (i_uid i) (i_gid i) (i_nlink i) (i_size i) (i_blocks i) (i_atime i) (i_mtime i)
    (i_ctime i) (i_generation i) 1 0 0
    (KrInodeInfo (i_data ei) (ei_flags ei) (i_faddr ei) (i_frag_no ei) (i_frag_size ei) 0
       (i_file_acl ei) (if S_ISREG (i_mode i) then 0 else i_dir_acl ei) 0 ((ino - 1) / ipg) None 0).

Lemma lor_shift a k n : 0 <= n -> 0 <= a < 2 ^ n -> 0 <= k -> Z.lor a (Z.shiftl k n) = a + k * 2 ^ n.
Proof.
  intros Hn Ha Hk. rewrite <- Z.shiftl_mul_pow2 by done.
  apply Z.bits_inj'. intros m Hm. rewrite Z.lor_spec, Z.shiftl_spec by done.
  rewrite Z.shiftl_mul_pow2 by done.
  destruct (Z.lt_ge_cases m n) as [Hlt|Hge].
  - rewrite (Z.testbit_neg_r k) by lia. rewrite orb_false_r.
    rewrite <- (Z.mod_pow2_bits_low (a + k * 2 ^ n) n m) by lia.
    rewrite Z.mod_add by (apply Z.pow_nonzero; lia). by rewrite Z.mod_pow2_bits_low by lia.
  - assert (Z.testbit a m = false) as ->.
    { destruct (Z.eq_dec a 0) as [->|]; [by rewrite Z.bits_0|]. apply Z.bits_above_log2; [lia|].
      apply Z.log2_lt_pow2; [lia|]. eapply Z.lt_le_trans; [apply Ha|]. by apply Z.pow_le_mono_r. }
    cbn [orb]. transitivity (Z.testbit (a + k * 2 ^ n) ((m - n) + n)); [|f_equal; lia].
    rewrite <- Z.div_pow2_bits by lia. rewrite Z.div_add by (apply Z.pow_nonzero; lia).
    by rewrite Z.div_small by done.
Qed.

(** A number in two halves. *)
Lemma join_halves v : 0 <= v < 4294967296 ->
  Z.lor (u16 (u16 v)) (Z.shiftl (u16 (u16 (Z.shiftr v 16))) 16) = v.
Proof.
  intros Hv. pose proof (u16_range v). pose proof (u16_range (Z.shiftr v 16)).
  rewrite !(u16_small (u16 _)) by done. rewrite lor_shift by (change (2 ^ 16) with 65536; lia).
  rewrite Z.shiftr_div_pow2 by lia. change (2 ^ 16) with 65536. unfold u16.
  Z.to_euclidean_division_equations; lia.
Qed.
Lemma join_size v : 0 <= v < 18446744073709551616 ->
  Z.lor (u32 v) (Z.shiftl (u32 (Z.shiftr v 32)) 32) = v.
Proof.
  intros Hv. pose proof (u32_range v). pose proof (u32_range (Z.shiftr v 32)).
  rewrite lor_shift by (change (2 ^ 32) with 4294967296; lia).
  rewrite Z.shiftr_div_pow2 by lia. change (2 ^ 32) with 4294967296. unfold u32.
  Z.to_euclidean_division_equations; lia.
Qed.
Lemma time_round_trip t : -2147483648 <= t < 2147483648 -> s32 (u32 t) = t.
Proof. intros. unfold s32, u32. Z.to_euclidean_division_equations; lia. Qed.

Section RoundTrip.
Context `{InodeKernel}.
Variables (i : inode) (d : list Z) (o : Z).
Hypothesis Ho : 0 <= o.
Hypothesis Hd : o + 128 <= len d.
Hypothesis Hi : storable i.

(** The fields before the array. *)
Definition scalar_fields : list Z :=
  let ei := KR_I i in
  let d := put16 d (o + raw_i_mode) (i_mode i) in
  let d := put_ids false i d o in
  let d := put16 d (o + raw_i_links_count) (i_nlink i) in
  let d := put32 d (o + raw_i_size) (i_size i) in
  let d := put32 d (o + raw_i_atime) (i_atime i) in
  let d := put32 d (o + raw_i_ctime) (i_ctime i) in
  let d := put32 d (o + raw_i_mtime) (i_mtime i) in
  let d := put32 d (o + raw_i_blocks) (i_blocks i) in
  let d := put32 d (o + raw_i_dtime) (i_dtime ei) in
  let d := put32 d (o + raw_i_flags) (ei_flags ei) in
  let d := put32 d (o + raw_i_faddr) (i_faddr ei) in
  let d := put8 d (o + raw_i_frag) (i_frag_no ei) in
  let d := put8 d (o + raw_i_fsize) (i_frag_size ei) in
  let d := put32 d (o + raw_i_file_acl) (i_file_acl ei) in
  let d := put32 d (o + raw_i_dir_acl) (if S_ISREG (i_mode i) then Z.shiftr (i_size i) 32 else i_dir_acl ei) in
  put32 d (o + raw_i_generation) (i_generation i).

Lemma raw_of_scalar : raw_of_inode false i d o = put_block_array scalar_fields o 0 (i_data (KR_I i)).
Proof.
  unfold raw_of_inode, put_blocks_or_dev. rewrite (sb_nodev _ Hi). unfold scalar_fields.
  unfold raw_i_size_high. by destruct (S_ISREG (i_mode i)).
Qed.

Lemma len_scalar : len scalar_fields = len d.
Proof. unfold scalar_fields, put_ids. by rewrite ?len_put32, ?len_put16, ?len_put8, ?len_put32, ?len_put16. Qed.

Lemma array_len : len (i_data (KR_I i)) = 15.
Proof. unfold len. by rewrite (sb_len _ Hi). Qed.

(** Reading a scalar field goes past the array. *)
Lemma get8_raw f : 0 <= f < 40 \/ 100 <= f < 128 ->
  get8 (raw_of_inode false i d o) (o + f) = get8 scalar_fields (o + f).
Proof.
  intros Hf. rewrite raw_of_scalar. apply get8_put_array_ne; unfold raw_i_block; rewrite ?array_len, ?len_scalar; lia.
Qed.
Lemma get16_raw f : 0 <= f < 39 \/ 100 <= f < 127 ->
  get16 (raw_of_inode false i d o) (o + f) = get16 scalar_fields (o + f).
Proof. intros Hf. unfold get16. rewrite <- !Z.add_assoc, !get8_raw by lia. done. Qed.
Lemma get32_raw f : 0 <= f < 37 \/ 100 <= f < 125 ->
  get32 (raw_of_inode false i d o) (o + f) = get32 scalar_fields (o + f).
Proof. intros Hf. unfold get32. rewrite <- !Z.add_assoc, !get16_raw by lia. done. Qed.

Lemma data_raw : data_of_raw (raw_of_inode false i d o) o = i_data (KR_I i).
Proof.
  unfold data_of_raw. rewrite raw_of_scalar. apply list_eq. intros k. rewrite list_lookup_fmap.
  destruct (decide (k < 15)%nat) as [Hk|Hk].
  - rewrite lookup_seq_lt by done. cbn [fmap option_fmap option_map].
    rewrite <- (Z.add_0_l (Z.of_nat (0 + k))). cbn [Nat.add].
    rewrite get32_put_array_eq; [|lia|lia|unfold raw_i_block; rewrite array_len, len_scalar; lia|
      by rewrite (sb_len _ Hi)|apply Hi].
    rewrite (nth_lookup (i_data (KR_I i))). 
    destruct (i_data (KR_I i) !! k) as [v|] eqn:Hv; [done|].
    apply lookup_ge_None in Hv. rewrite (sb_len _ Hi) in Hv. lia.
  - rewrite lookup_seq_ge by lia. symmetry. apply lookup_ge_None. rewrite (sb_len _ Hi). lia.
Qed.

Lemma raw_round_trip ipg ino : inode_of_raw false ipg ino (raw_of_inode false i d o) o = reread ipg ino i.
Proof.
  unfold inode_of_raw, ids_of_raw. raw_offs. rewrite data_raw.
  rewrite !get32_raw, !get16_raw, !get8_raw by lia.
  unfold scalar_fields, put_ids. rewrite (sb_dtime _ Hi). cbn [negb andb Z.eqb]. raw_offs.
  rd. destruct Hi. unfold reread.
  rewrite !join_halves, !time_round_trip, (u16_small (i_mode i)), (u16_small (i_nlink i)),
    (u32_small (i_blocks i)), (u32_small (i_generation i)), (u32_small (ei_flags _)),
    (u32_small (i_faddr _)), (u8_small (i_frag_no _)), (u8_small (i_frag_size _)),
    (u32_small (i_file_acl _)) by done.
  destruct (S_ISREG (i_mode i)); [by rewrite join_size|by rewrite !u32_small].
Qed.
End RoundTrip.
