(* ===== verification/InodeStore.v ===== *)
(** * Storing an inode and finding it again

    [kr_get_inode] finds the same place for a number each time, so that [kr_iget]
    reads what [kr_write_inode] has written. *)

From S2P Require Import Prelude Bits Kr Rsv Bitmap Alloc State Balloc BallocFacts InodeFlags Ialloc IallocFacts NewInode BlockMap Truncate Super InodeDisk InodeDiskFacts PathFacts BlockMapFacts.

(** The place of an inode in the inode table of its group: block and offset. *)
Definition table_offset (c : core) (ino : Z) : Z :=
  (ino - 1) mod c_ipg c * s_inode_size (c_sbi c).
Definition inode_place (c : core) (ino : Z) : Z * Z :=
  (bg_inode_table (group_desc c ((ino - 1) / c_ipg c)) + Z.shiftr (table_offset c ino) (c_bits c),
   Z.land (table_offset c ino) (2 ^ c_bits c - 1)).

(** The inode has a place in the buffers, large enough for its fields. *)
Record placed (c : core) (ino : Z) : Prop := {
  pl_ino : 1 <= ino <= c_ninodes c;
  pl_number : ino = KR_ROOT_INO \/ c_first_ino c <= ino;
  pl_size : 0 <= s_inode_size (c_sbi c) <= 4096;
  pl_buf : exists d, c_bufs c !! (inode_place c ino).1 = Some d /\
             len d = 2 ^ c_bits c /\ (inode_place c ino).2 + 128 <= len d;
}.

Section Store.
Context {B : BitOps} {BL : BitLaws B} {R : RbTree} {RL : RbLaws R} {T : Trylock} {K : Kernel}
  {I : InodeKernel}.
Variable E : stop -> Prop.
Hypothesis HE : E Panic.

Lemma kr_get_inode_spec fs ino : let c := core_of fs in numbered c -> placed c ino ->
  runs (kr_get_inode ino) E (fun r fs' => core_of fs' = c /\
    (r = inr (inode_place c ino) \/
     r = inl (- EIO) /\ bh_read_ok (inode_place c ino).1 = false)) fs.
Proof.
  intros c Hc [Hi Hn Hs _]. pose proof (io_core _ Hc) as Hcore. unfold kr_get_inode. step. step. cbn [id].
  change (s_first_ino (fs_sbi fs)) with (c_first_ino c).
  change (es_inodes_count (fs_es fs)) with (c_ninodes c).
  change (s_inodes_per_group (fs_sbi fs)) with (c_ipg c).
  change (s_inode_size (fs_sbi fs)) with (s_inode_size (c_sbi c)).
  replace (negb (ino =? KR_ROOT_INO) && (ino <? c_first_ino c) || (ino >? c_ninodes c)) with false
    by (change KR_ROOT_INO with 2 in *; lia).
  destruct (ino_split c Hc ino Hi) as (Hg & Hj & _). pose proof (ipg_range c Hc) as Hipg.
  assert (c_ninodes c <= 1073741824 * 32768) as Hmax.
  { rewrite (io_ninodes _ Hc). pose proof (io_ngroups _ Hc). apply Z.mul_le_mono_nonneg; lia. }
  rewrite (u64_small (ino - 1)) by lia. step. unfold kr_get_group_desc.
  run get_group_desc_run; [done|exact Hg|]. step. run desc_get_run; [done|exact Hg|]. fold c.
  set (g := (ino - 1) / c_ipg c) in *.
  assert (0 <= table_offset c ino < 32768 * 4096) as Hoff.
  { unfold table_offset. split; [apply Z.mul_nonneg_nonneg; lia|].
    assert ((ino - 1) mod c_ipg c * s_inode_size (c_sbi c) <= 32767 * 4096)
      by (apply Z.mul_le_mono_nonneg; lia). lia. }
  change ((ino - 1) mod c_ipg c * s_inode_size (c_sbi c)) with (table_offset c ino).
  rewrite (u64_small (table_offset c ino)) by lia.
  change (fs_blocksize_bits fs) with (c_bits c).
  assert (0 <= Z.shiftr (table_offset c ino) (c_bits c) < 32768 * 4096) as Hsh.
  { pose proof (ck_bits _ Hcore). rewrite Z.shiftr_div_pow2 by lia.
    assert (0 < 2 ^ c_bits c) by (apply Z.pow_pos_nonneg; lia).
    split; [apply Z.div_pos; lia|]. apply Z.div_lt_upper_bound; [lia|]. nia. }
  destruct (places c Hcore g Hg) as (_ & _ & P1 & P2 & P3). pose proof (bpg_range c Hcore). pose proof (ck_itb c Hcore).
  rewrite u64_small by lia. step. eapply runs_mono.
  { apply (BlockMapFacts.sb_bread_spec E). }
  cbv beta. intros r fs1 [Hfs1 [->|[-> Hbad]]]; cbv iota.
  - step. split; [done|]. left. f_equal. unfold inode_place. f_equal.
    unfold fs_blocksize. rewrite Z.shiftl_mul_pow2 by (change (fs_blocksize_bits fs) with (c_bits c);
      pose proof (ck_bits _ Hcore); lia). by rewrite Z.mul_1_l.
  - step. eapply runs_mono; [apply kr_error_core; [by rewrite Hfs1|done]|]. cbv beta.
    intros _ fs2 [Hfs2 _]. step. split; [by rewrite Hfs2|]. by right.
Qed.

Lemma write_super_core fs : core_ok (core_of fs) ->
  runs kr_write_super E (fun _ fs' => core_of fs' = core_of fs) fs.
Proof.
  intros Hc. unfold kr_write_super. step. step. cbn [id]. step; [|done].
  step. unfold kr_sync_fs. step. step. cbn [id]. step.
  eapply (runs_mono _ _ (fun _ fs1 => core_of fs1 = core_of fs)); [by unfold upd_es; step; try step|].
  intros _ fs1 Hfs1. step. destruct (sync_super_run true fs1) as [tr Hrun]; [by rewrite Hfs1|].
  run Hrun. steps. by rewrite <- Hfs1.
Qed.

Lemma note_large_file_core i fs : core_ok (core_of fs) ->
  runs (note_large_file i) E (fun _ fs' => core_of fs' = core_of fs) fs.
Proof.
  intros Hc. unfold note_large_file. step. step. cbn [id]. step; [|done].
  unfold upd_es. step. step. step. step.
  set (fs1 := set_fs_es _ _). assert (core_of fs1 = core_of fs) as Hfs1.
  { unfold fs1, kr_update_dynamic_rev. by destruct (es_rev_level _ >? KR_GOOD_OLD_REV). }
  eapply runs_mono; [apply write_super_core; by rewrite Hfs1|]. cbv beta. intros _ fs2 ->. done.
Qed.

Lemma len_zero_bytes n : forall d o, len (zero_bytes d o n) = len d.
Proof. induction n as [|n IH]; intros d o; simpl; [done|]. by rewrite IH, len_put8. Qed.

(** What [kr_write_inode] leaves: the fields of the inode at its place. *)
Record stored (c c' : core) (ino : Z) (i : inode) : Prop := {
  so_inodes : c_inodes c' = alter (fun i => set_KR_I (set_i_state (clr (i_state (KR_I i)) KR_STATE_NEW) (KR_I i)) i)
                ino (alter kr_get_inode_flags ino (c_inodes c));
  so_bufs : exists d0 d1, let '(b, o) := inode_place c ino in
    c_bufs c !! b = Some d0 /\ len d1 = len d0 /\
    c_bufs c' = <[b := raw_of_inode (has (s_mount_opt (c_sbi c)) KR_MOUNT_NO_UID32)
                        (kr_get_inode_flags i) d1 o]> (c_bufs c);
  so_frame : c' = set_c_inodes (c_inodes c') (set_c_bufs (c_bufs c') c);
}.

Lemma write_inode_spec fs ino i sync : let c := core_of fs in
  numbered c -> placed c ino -> c_inodes c !! ino = Some i ->
  bh_read_ok (inode_place c ino).1 = true ->
  runs (write_inode ino sync) E (fun r fs' => stored c (core_of fs') ino i /\
    r = (if sync && negb (bh_write_ok (inode_place c ino).1) then - EIO else 0)) fs.
Proof.
  intros c Hc Hp Hi Hread. pose proof (io_core _ Hc) as Hcore. unfold write_inode. step.
  eapply runs_mono; [by apply kr_get_inode_spec|]. cbv beta zeta. fold c.
  intros r fs1 [Hfs1 [->|[_ Hbad]]]; [|congruence].
  destruct (inode_place c ino) as [b o] eqn:Hplace. cbv iota. cbn [fst] in *.
  step. unfold inode_upd. step. set (fs2 := set_fs_inodes _ fs1).
  assert (core_of fs2 = set_c_inodes (alter kr_get_inode_flags ino (c_inodes c)) c) as Hfs2.
  { transitivity (set_c_inodes (alter kr_get_inode_flags ino (c_inodes (core_of fs1))) (core_of fs1)); [done|].
    by rewrite Hfs1. }
  assert (c_inodes (core_of fs2) !! ino = Some (kr_get_inode_flags i)) as Hi2.
  { rewrite Hfs2. cbn [c_inodes set_c_inodes]. by rewrite lookup_alter_eq, Hi. }
  step. run (inode_get_run _ _ _ Hi2). step.
  assert (core_ok (core_of fs2)) as Hcore2 by (rewrite Hfs2; by apply with_inodes_ok).
  eapply runs_mono; [by apply note_large_file_core|]. cbv beta. intros _ fs3 Hfs3. rewrite Hfs2 in Hfs3.
  destruct (pl_buf _ _ Hp) as (d & Hd & Hbs & Hlen). fold c in Hd, Hlen. rewrite Hplace in Hd, Hlen. cbn [fst snd] in *.
  assert (fs_bufs fs3 !! b = Some d) as Hb3.
  { change (c_bufs (core_of fs3) !! b = Some d). by rewrite Hfs3. }
  step. run (buf_get_run b d fs3 Hb3). step. step. cbn [id]. cbv zeta.
  set (d1 := if has (i_state _) KR_STATE_NEW then _ else d).
  assert (len d1 = len d) as Hd1 by (unfold d1; destruct (has _ _); [apply len_zero_bytes|done]).
  replace (test_opt KR_MOUNT_NO_UID32 fs3) with (has (s_mount_opt (c_sbi c)) KR_MOUNT_NO_UID32)
    by (change (test_opt KR_MOUNT_NO_UID32 fs3) with (has (s_mount_opt (c_sbi (core_of fs3))) KR_MOUNT_NO_UID32);
        by rewrite Hfs3).
  set (raw := raw_of_inode _ _ d1 o).
  step. unfold buf_set. step. step. unfold log. step. set (fs4 := set_fs_trace _ _).
  assert (core_of fs4 = set_c_bufs (<[b := raw]> (c_bufs c)) (core_of fs3)) as Hfs4.
  { transitivity (set_c_bufs (<[b := raw]> (c_bufs (core_of fs3))) (core_of fs3)); [done|]. by rewrite Hfs3. }
  clearbody fs4. step. eapply (runs_mono _ _ (fun _ fs5 => core_of fs5 = core_of fs4)); [by step; try step|].
  intros _ fs5 Hfs5. step. step. step. split; [|done].
  set (f := fun i0 : inode => set_KR_I _ i0).
  match goal with |- stored _ ?x _ _ => assert (x = set_c_inodes (alter f ino (c_inodes (core_of fs5))) (core_of fs5)) as -> by done end.
  rewrite Hfs5, Hfs4, Hfs3. split; [done| |done]. rewrite Hplace. exists d, d1. done.
Qed.

(** The inode is written, forgotten, and read again. *)
Definition store_and_reload (ino : Z) : M krfs (Z + Z) :=
  write_inode ino true ;;
  modify (fun fs => set_fs_inodes (delete ino (fs_inodes fs)) fs) ;;
  kr_iget ino.

Lemma store_and_reload_spec fs ino i : let c := core_of fs in
  numbered c -> placed c ino -> c_inodes c !! ino = Some i ->
  (forall b, bh_read_ok b = true) -> iget_new_ok = true ->
  has (s_mount_opt (c_sbi c)) KR_MOUNT_NO_UID32 = false ->
  storable (kr_get_inode_flags i) -> S_ISREG (i_mode i) || S_ISDIR (i_mode i) = true ->
  i_nlink i <> 0 -> i_file_acl (KR_I i) = 0 ->
  runs (store_and_reload ino) E (fun r fs' => r = inr ino /\
    c_inodes (core_of fs') !! ino =
      Some (kr_set_inode_flags (has (s_mount_opt (c_sbi c)) KR_MOUNT_DAX)
              (reread (c_ipg c) ino (kr_get_inode_flags i)))) fs.
Proof.
  intros c Hc Hp Hi Hread Hnew Hno32 Hst Hty Hlink Hacl. pose proof (io_core _ Hc) as Hcore.
  set (gi := kr_get_inode_flags i) in *. unfold store_and_reload. step.
  eapply runs_mono; [by apply (write_inode_spec fs ino i)|]. cbv beta zeta. fold c.
  intros r fs1 [[Hins (d0 & d1 & Hbufs) Hframe] _].
  destruct (pl_buf _ _ Hp) as (d & Hd & Hbs & Hlen). fold c in Hd, Hlen.
  destruct (inode_place c ino) as [b o] eqn:Hplace. cbn [fst snd] in *.
  destruct Hbufs as (Hd0 & Hl & Hb). rewrite Hd in Hd0. injection Hd0 as <-. rewrite Hno32 in Hb. fold gi in Hb.
  set (raw := raw_of_inode false gi d1 o) in *.
  step. step. set (fs2 := set_fs_inodes _ fs1).
  assert (core_of fs2 = set_c_inodes (delete ino (c_inodes (core_of fs1)))
            (set_c_bufs (<[b := raw]> (c_bufs c)) c)) as Hfs2.
  { transitivity (set_c_inodes (delete ino (c_inodes (core_of fs1))) (core_of fs1)); [done|].
    rewrite Hframe at 2. by rewrite Hb. }
  assert (0 <= o /\ o + 128 <= len d1) as [Ho1 Ho2].
  { rewrite Hl. split; [|done]. replace o with ((inode_place c ino).2) by (by rewrite Hplace).
    unfold inode_place. cbn [snd]. apply Z.land_nonneg. right.
    assert (0 < 2 ^ c_bits c) by (pose proof (ck_bits _ Hcore); apply Z.pow_pos_nonneg; lia). lia. }
  set (c2 := core_of fs2) in *.
  assert (len raw = len d1) as Hraw.
  { unfold raw. rewrite raw_of_scalar by done. by rewrite len_put_array, len_scalar. }
  assert (numbered c2) as Hc2.
  { rewrite Hfs2. destruct Hc. split; [|done|done]. apply with_inodes_ok, with_buf_ok; [done|]. by rewrite Hraw, Hl. }
  assert (inode_place c2 ino = (b, o)) as Hplace2 by (rewrite Hfs2; exact Hplace).
  assert (placed c2 ino) as Hp2.
  { destruct Hp as [P1 P2 P3 _]. split; [by rewrite Hfs2|by rewrite Hfs2|by rewrite Hfs2|].
    rewrite Hplace2. exists raw. rewrite Hfs2. cbn [c_bufs set_c_bufs set_c_inodes fst snd].
    rewrite lookup_insert_eq, Hraw, Hl. done. }
  assert (fs_inodes fs2 = delete ino (c_inodes (core_of fs1))) as Hins2 by done.
  unfold kr_iget. step. step. cbn [id].
  rewrite bool_decide_eq_false_2 by (rewrite Hins2, lookup_delete_eq; by intros [? ?]).
  rewrite Hnew. cbn [negb]. step.
  eapply runs_mono; [by apply kr_get_inode_spec|]. cbv beta zeta. fold c2. rewrite Hplace2.
  intros r2 fs3 [Hfs3 [->|[_ Hbad]]]; [|by rewrite Hread in Hbad]. cbv iota.
  assert (fs_bufs fs3 !! b = Some raw) as Hraw3.
  { change (c_bufs (core_of fs3) !! b = Some raw). rewrite Hfs3, Hfs2. cbn [c_bufs set_c_bufs set_c_inodes].
    apply lookup_insert_eq. }
  step. run (buf_get_run b raw fs3 Hraw3). step. step. cbn [id].
  set (gi' := inode_of_raw _ _ _ _ _).
  assert (gi' = reread (c_ipg c) ino gi) as Hgi.
  { unfold gi'. change (s_inodes_per_group (fs_sbi fs3)) with (c_ipg (core_of fs3)).
    replace (test_opt KR_MOUNT_NO_UID32 fs3) with false.
    - rewrite Hfs3, Hfs2. by apply raw_round_trip.
    - change (test_opt KR_MOUNT_NO_UID32 fs3) with (has (s_mount_opt (c_sbi (core_of fs3))) KR_MOUNT_NO_UID32).
      by rewrite Hfs3, Hfs2. }
  assert (raw_deleted raw o = false) as ->.
  { unfold raw_deleted.
    assert (i_nlink gi' = i_nlink i) as Hnl by (rewrite Hgi; done).
    unfold gi', inode_of_raw in Hnl. destruct (ids_of_raw _ _ _) in Hnl. cbn [i_nlink] in Hnl.
    rewrite Hnl. by replace (i_nlink i =? 0) with false by lia. }
  rewrite Hgi. change (i_file_acl (KR_I (reread (c_ipg c) ino gi))) with (i_file_acl (KR_I i)).
  rewrite Hacl. cbn [Z.eqb negb andb].
  replace (set_operations fs3 raw o (reread (c_ipg c) ino gi)) with (reread (c_ipg c) ino gi).
  2: { unfold set_operations. change (i_mode (reread (c_ipg c) ino gi)) with (i_mode i). by rewrite Hty. }
  step. step. step. unfold log. step. step. split; [done|].
  match goal with |- c_inodes (core_of ?x) !! _ = _ => change (c_inodes (core_of x))
    with (<[ino := kr_set_inode_flags (has (s_mount_opt (c_sbi (core_of fs3))) KR_MOUNT_DAX) (reread (c_ipg c) ino gi)]>
            (c_inodes (core_of fs3))) end.
  rewrite lookup_insert_eq, Hfs3, Hfs2. done.
Qed.

End Store.
