(* ===== verification/FileTheorems.v ===== *)
(** * What the block map and the inode table guarantee

    The properties of inode.c, instantiated on the file system of Demo.v. *)

From S2P Require Import Prelude Bits Kr Rsv Bitmap Alloc State Balloc BallocFacts NewBlocks InodeFlags Ialloc IallocFacts NewInode BlockMap PathFacts BlockMapFacts AllocBranch FileTree Truncate FreeData Super InodeDisk InodeDiskFacts InodeStore Demo BlockTheorems DemoMount.

(** C31.  The path of a block in the range of the tree of pointers has offsets in
    the ranges of their tables and leads to that block and no other; the boundary
    is the number of blocks that follow in the last table, and their paths differ
    in the last offset only.  Out of range there is no path. *)
Theorem kr_block_to_path_correct bits i : 8 <= bits <= 10 ->
  let ptrs := 2 ^ bits in
  let '(offsets, boundary) := kr_block_to_path ptrs bits i in
  if (0 <=? i) && (i <? max_file_blocks ptrs) then
    path_ok ptrs offsets /\ path_block ptrs offsets = i /\
    (forall offsets', path_ok ptrs offsets' -> path_block ptrs offsets' = i -> offsets' = offsets) /\
    boundary = last_table ptrs offsets - 1 - List.last offsets 0 /\
    forall k, 0 <= k <= boundary ->
      (kr_block_to_path ptrs bits (i + k)).1 = removelast offsets ++ [List.last offsets 0 + k]
  else offsets = [].
Proof.
  intros Hb ptrs. destruct ((0 <=? i) && (i <? max_file_blocks ptrs)) eqn:Hr.
  - pose proof (block_to_path_in ptrs bits Hb eq_refl i ltac:(lia)) as Hin.
    pose proof (fun k o b => path_next ptrs bits Hb eq_refl i k o b ltac:(lia)) as Hnext.
    destruct (kr_block_to_path ptrs bits i) as [offsets boundary]. destruct Hin as (H1 & H2 & H3).
    split_and!; [done|done| |done|].
    + intros o' Ho' He. apply (path_block_inj ptrs bits Hb eq_refl); [done|done|congruence].
    + intros k Hk. by apply (Hnext k offsets boundary).
  - pose proof (block_to_path_out ptrs bits Hb eq_refl i ltac:(lia)) as Hout.
    by destruct (kr_block_to_path ptrs bits i).
Qed.

Section Files.
Context {B : BitOps} {BL : BitLaws B} {R : RbTree} {RL : RbLaws R} {T : Trylock} {K : Kernel}
  {I : InodeKernel}.


(** C12.  An inode that is written to its place in the inode table and read again,
    by its number, has the fields it had, those that are not on the disk apart. *)
Theorem write_then_iget fs ino i :
  numbered (core_of fs) -> placed (core_of fs) ino -> c_inodes (core_of fs) !! ino = Some i ->
  (forall b, bh_read_ok b = true) -> iget_new_ok = true ->
  has (s_mount_opt (c_sbi (core_of fs))) KR_MOUNT_NO_UID32 = false ->
  storable (kr_get_inode_flags i) -> S_ISREG (i_mode i) || S_ISDIR (i_mode i) = true ->
  i_nlink i <> 0 -> i_file_acl (KR_I i) = 0 ->
  runs (store_and_reload ino) only_panic (fun r fs' => r = inr ino /\
    c_inodes (core_of fs') !! ino =
      Some (kr_set_inode_flags (has (s_mount_opt (c_sbi (core_of fs))) KR_MOUNT_DAX)
              (reread (c_ipg (core_of fs)) ino (kr_get_inode_flags i)))) fs.
Proof. intros. by apply store_and_reload_spec. Qed.

(** C19.  Allocating the blocks of a branch ends, whatever the runs it is given:
    either all the indirect blocks and at least one block of data are held, all of
    them free before and distinct, or the error leaves none of them in use.  The
    contents of the blocks of files and the windows of other files stay. *)
Theorem kr_alloc_blocks_correct fs ino goal indirect_blks blks size :
  blocks_ok (core_of fs) -> ready (inode_window fs ino) (fs_rsv fs) size ->
  (forall g, 0 <= g < c_ngroups (core_of fs) -> ~ unreadable (core_of fs) g) ->
  0 <= indirect_blks -> 1 <= blks ->
  let limit := window_limit size (blks + indirect_blks) (indirect_blks + 1) in limit < 536870912 ->
  runs (kr_alloc_blocks ino goal indirect_blks blks) only_panic
    (fun r fs' => blocks_held (inode_window fs ino) limit (core_of fs) (core_of fs')
                    indirect_blks blks r) fs.
Proof. intros. by apply kr_alloc_blocks_spec. Qed.

(** [kr_free_data] on pointers of the inode clears them and frees the blocks
    they name and no others, however they are grouped into runs. *)
Theorem kr_free_data_correct fs ino k m i :
  blocks_ok (core_of fs) ->
  (forall g, 0 <= g < c_ngroups (core_of fs) -> ~ unreadable (core_of fs) g) ->
  0 <= k -> k + Z.of_nat m <= len (i_data (KR_I i)) -> Z.of_nat m < 4096 ->
  c_inodes (core_of fs) !! ino = Some i ->
  (forall j, k <= j < k + Z.of_nat m -> pointer i j = 0 \/ data_block (core_of fs) (pointer i j)) ->
  runs (kr_free_data ino (slots (InInode ino 0) k m)) only_panic (fun _ fs' => exists l,
    (forall x, x ∈ l <-> exists j, k <= j < k + Z.of_nat m /\ x = pointer i j /\ x <> 0) /\
    data_freed (core_of fs) (core_of fs') l /\
    c_inodes (core_of fs') = <[ino := clear_pointers k m i]> (c_inodes (core_of fs))) fs.
Proof. intros. by apply kr_free_data_spec. Qed.

End Files.

(** ** On the small file system *)

(** Another thread attaches the indirect block 20 to the file 12, and that block
    cannot be read. *)
Definition attach_20 : M krfs unit := slot_set (InInode 12 12) 20.
Definition unreadable_20 : Kernel := reading (fun b => negb (b =? 20)).

Lemma kr_block_to_path_witness :
  8 <= 8 <= 10 /\ path_block 256 (kr_block_to_path 256 8 300).1 = 300 /\
  kr_block_to_path 256 8 300 = ([13; 0; 32], 223).
Proof.
  assert (Hb : 8 <= 8 <= 10) by lia. split; [exact Hb|]. split; [|by vm_compute].
  exact (proj1 (proj2 (kr_block_to_path_correct 8 300 Hb))).
Defined.

(** The file 12 with one block and an indirect block of the group 1. *)
Definition demo_file : krfs :=
  set_fs_bufs (<[41 := put32 (demo_map []) 0 42]> (fs_bufs demo))
    (set_fs_inodes (<[12 := set_pointer 12 41 (set_pointer 0 40 (demo_inode 12 (S_IFREG + 420) None))]>
       (fs_inodes demo)) demo).
Definition demo_file_inode : inode :=
  set_pointer 12 41 (set_pointer 0 40 (demo_inode 12 (S_IFREG + 420) None)).

Lemma demo_file_ok : file_ok (core_of demo_file) 12 demo_file_inode.
Proof.
  split; [done|done|by repeat constructor|].
  intros pre Hpre (o & Hok & Ho) Hnz. change (2 ^ (c_bits (core_of demo_file) - 2)) with 256 in Hok.
  assert (Hind : forall p0, tree (core_of demo_file) demo_file_inode [p0] <> 0 -> p0 = KR_IND_BLOCK ->
    indirect_ok (core_of demo_file) (tree (core_of demo_file) demo_file_inode [p0])).
  { intros p0 _ ->. exists (put32 (demo_map []) 0 42). split; [done|]. split; [done|].
    apply bytes_put32. by repeat constructor. }
  destruct pre as [|p0 [|p1 [|p2 [|p3 pre]]]]; [done| | | |].
  - destruct o as [|o1 [|o2 [|o3 [|o4 o]]]]; [done| | | |]; simpl in Hok.
    + apply Hind; [done|]. by destruct Hok.
    + destruct Hok as (-> & _). by vm_compute in Hnz.
    + destruct Hok as (-> & _). by vm_compute in Hnz.
    + done.
  - exfalso. destruct o as [|o1 [|o2 [|o3 o]]]; [done| | |]; simpl in Hok; [| |done];
      destruct Hok as (-> & _); by vm_compute in Hnz.
  - exfalso. destruct o as [|o1 [|o2 o]]; [done| |]; simpl in Hok; [|done].
    destruct Hok as (-> & _). by vm_compute in Hnz.
  - exfalso. destruct o as [|o1 o]; [done|]. simpl in Hok. by destruct pre.
Qed.


(** The inode table of the group 0, with the places of the inodes 12 to 16. *)
Definition demo_table : krfs := set_fs_bufs (<[6 := demo_map []]> (fs_bufs demo)) demo.

Lemma demo_table_ok : numbered (core_of demo_table) /\ placed (core_of demo_table) 12.
Proof.
  split; [split; [|done|done]|split; [vm_compute; done|right; vm_compute; done|vm_compute; done|]].
  - change (core_of demo_table) with (with_buf (core_of demo) 6 (demo_map [])).
    apply with_buf_ok; [exact demo_core_ok|reflexivity].
  - exists (demo_map []). vm_compute. done.
Qed.

Lemma write_then_iget_witness :
  runs (store_and_reload 12) only_panic (fun r fs' => r = inr 12 /\
    i_size <$> c_inodes (core_of fs') !! 12 = Some 1024) demo_table.
Proof.
  destruct demo_table_ok as [H1 H2]. eapply runs_mono.
  - apply (write_then_iget (K := demo_kernel) demo_table 12 (demo_inode 12 (S_IFREG + 420) (Some 1)));
      [exact H1|exact H2|vm_compute; reflexivity|done|done|vm_compute; reflexivity| |
       vm_compute; reflexivity|done|done].
    split; [vm_compute; done..|by repeat constructor|vm_compute; reflexivity].
  - cbv beta. intros r fs' [-> ->]. split; [done|]. reflexivity.
Defined.

Lemma kr_alloc_blocks_witness :
  runs (kr_alloc_blocks 12 10 1 2) only_panic
    (fun r fs' => blocks_held (Some 1) 268435462 (core_of demo) (core_of fs') 1 2 r) demo /\
  fst <$> answer (kr_alloc_blocks 12 10 1 2) demo = Some ([10; 11], 2).
Proof.
  split; [|vm_compute; reflexivity].
  apply (kr_alloc_blocks_correct demo 12 10 1 2 100);
    [exact demo_ok|by apply (demo_ready 1)| |lia|lia|done].
  intros g _. apply demo_readable.
Defined.

(** The file 12 with the blocks 10, 11 and 13. *)
Definition demo_three : inode :=
  set_pointer 3 13 (set_pointer 1 11 (set_pointer 0 10 (demo_inode 12 (S_IFREG + 420) None))).
Definition demo_with_three : krfs := set_fs_inodes (<[12 := demo_three]> (fs_inodes demo)) demo.

Lemma demo_three_data j : 0 <= j < 0 + Z.of_nat 12 ->
  pointer demo_three j = 0 \/ data_block (core_of demo_with_three) (pointer demo_three j).
Proof.
  revert j. assert (forall b, 9 <= b < 14 -> data_block (core_of demo_with_three) b) as Hb.
  { intros b Hb. split; [change (1 <= b < 65); lia|]. intros Hm. by apply (dr_data _ _ _ demo_data_run b). }
  apply (upto_ind _ 12). repeat (apply Forall_cons_2); [..|apply Forall_nil_2];
    first [left; reflexivity | right; apply Hb; by vm_compute].
Qed.

Lemma kr_free_data_witness :
  runs (kr_free_data 12 (slots (InInode 12 0) 0 12)) only_panic (fun _ fs' => exists l,
    (forall x, x ∈ l -> x = 10 \/ x = 11 \/ x = 13) /\
    data_freed (core_of demo_with_three) (core_of fs') l) demo_with_three.
Proof.
  eapply runs_mono.
  - apply (kr_free_data_correct demo_with_three 12 0 12 demo_three);
      [by apply (blocks_ok_inodes (core_of demo)), demo_ok| |lia|vm_compute; done|lia|reflexivity|].
    + intros g _. apply demo_readable.
    + apply demo_three_data.
  - cbv beta. intros _ fs' (l & Hl & Hd & _). exists l. split; [|done]. intros x Hx.
    apply Hl in Hx as (j & Hj & -> & Hz). revert j Hj Hz.
    refine (upto_ind (fun j => pointer demo_three j <> 0 -> _) 12 _).
    repeat (apply Forall_cons_2); [..|apply Forall_nil_2]; vm_compute; tauto.
Defined.
