(* ===== verification/CreateTheorems.v ===== *)
(** * Allocating the blocks of a file: the theorems

    [kr_get_blocks] with [create]: what it answers and leaves, and that a look-up
    that follows finds the blocks. *)

From S2P Require Import Prelude Bits Kr Rsv Bitmap Alloc State Balloc BallocFacts NewBlocks BlockMap PathFacts BlockMapFacts AllocBranch FileTree BuildBranch GetBlocks CreateFacts Demo BlockTheorems.

Section Theorems.
Context {B : BitOps} {BL : BitLaws B} {R : RbTree} {RL : RbLaws R} {T : Trylock} {K : Kernel}.

(** C4. [kr_get_blocks] with [create], on a file whose tree is sound, answers the
    blocks that are mapped and changes nothing, or fails to read a table and changes
    nothing, or allocates: then the answered blocks and the new tables were free and
    are now in use, the paths of the file lead to them, every other path of the file
    leads to where it led, no block of another file and no other inode has changed,
    the count of free blocks is right, and the tree is sound again; an allocation
    that fails leaves the tree and the bitmaps as they were. *)
Theorem kr_get_blocks_create_correct ino i iblock maxblocks size fs :
  addr_ok fs -> blocks_ok (core_of fs) -> zero_used (core_of fs) -> tree_ok (core_of fs) ino i ->
  IS_DAX i = false -> (forall g, 0 <= g < c_ngroups (core_of fs) -> ~ unreadable (core_of fs) g) ->
  can_grow fs ino i size -> size <= 268435456 -> 1 <= maxblocks ->
  runs (kr_get_blocks (mret tt) ino iblock maxblocks true) only_panic
    (fun m fs' => got_blocks (core_of fs) (core_of fs') (fs_blocksize_bits fs - 2) ino i iblock maxblocks m) fs.
Proof. by apply (kr_get_blocks_create only_panic eq_refl ino i iblock maxblocks size). Qed.

(** C16. On a device that reads every block, a look-up after [kr_get_blocks] with
    [create] has answered finds the same first block, and it is not new any more. *)
Theorem create_then_lookup other ino i iblock max1 max2 size fs :
  addr_ok fs -> blocks_ok (core_of fs) -> zero_used (core_of fs) -> tree_ok (core_of fs) ino i ->
  IS_DAX i = false -> (forall g, 0 <= g < c_ngroups (core_of fs) -> ~ unreadable (core_of fs) g) ->
  can_grow fs ino i size -> size <= 268435456 -> 1 <= max1 -> 1 <= max2 ->
  (forall b, bh_read_ok b = true) ->
  runs (m1 ← kr_get_blocks (mret tt) ino iblock max1 true;
        m2 ← kr_get_blocks other ino iblock max2 false; mret (m1, m2)) only_panic
    (fun r _ => let '(m1, m2) := r in m_bno m1 <> None ->
       1 <= m_ret m2 <= max2 /\ m_bno m2 = m_bno m1 /\ m_new m2 = false) fs.
Proof.
  intros Haddr Hok Hz Ht Hdax Hread Hgrow Hsize Hmax1 Hmax2 Hbh. step.
  eapply runs_mono; [by apply (kr_get_blocks_create only_panic eq_refl ino i iblock max1 size fs)|]. cbv beta.
  intros m1 fs1 Hgot. destruct (got_blocks_after ino i iblock max1 fs fs1 m1 Haddr Hz Ht Hgot)
    as (Ha1 & Hbits & i1 & Ht1 & Hb). rewrite <- Hbits in Hb. step.
  eapply runs_mono; [apply (kr_get_blocks_lookup only_panic other ino i1 iblock max2 fs1); [done|by apply tree_ok_file|done]|].
  cbv beta. intros m2 fs2 [_ Hm2]. step. intros Hsome.
  destruct (m_bno m1) as [bno|] eqn:Hbno; [|done]. destruct (Hb bno eq_refl) as [Hnz Htree].
  unfold looked_up in Hm2. rewrite !Z.add_0_r in Hm2.
  destruct Hm2 as [(_ & _ & [Hp|[b Hbad]])|[(_ & _ & Hzero)|(Hr & Hnew & _ & b & -> & _ & Hall)]].
  - rewrite Hp in Htree. by subst bno.
  - by rewrite Hbh in Hbad.
  - congruence.
  - split; [done|]. split; [|done]. f_equal. specialize (Hall 0 ltac:(lia)). rewrite !Z.add_0_r in Hall. congruence.
Qed.

End Theorems.

(** ** Witnesses *)

Definition demo_file12 : inode := demo_inode 12 (S_IFREG + 420) (Some 1).

Lemma demo_tree_zero q : tree (core_of demo) demo_file12 q = 0.
Proof.
  destruct q as [|x q]; [done|]. unfold tree. change (i_data (KR_I demo_file12)) with (repeat 0 15).
  rewrite nth_repeat. by destruct q.
Qed.
Lemma demo_tree_ok : tree_ok (core_of demo) 12 demo_file12.
Proof.
  split; try done.
  - by repeat constructor.
  - intros p _. by rewrite demo_tree_zero.
  - intros p _ _. by rewrite demo_tree_zero.
  - intros p q _ _. by rewrite demo_tree_zero.
Qed.
Lemma demo_can_grow : can_grow demo 12 demo_file12 100.
Proof. split; [by apply (demo_ready 1)|done]. Qed.
Lemma demo_zero_used : zero_used (core_of demo).
Proof. intros H. by vm_compute in H. Qed.

Lemma demo_addr_ok : addr_ok demo.
Proof. split; [vm_compute; done|done]. Qed.

(** The block 12 of the file needs a table: both are taken from the window. *)
Lemma kr_get_blocks_create_witness :
  runs (kr_get_blocks (mret tt) 12 12 4 true) only_panic
    (fun m fs' => got_blocks (core_of demo) (core_of fs') (fs_blocksize_bits demo - 2) 12 demo_file12 12 4 m) demo /\
  m_ret <$> answer (kr_get_blocks (mret tt) 12 12 4 true) demo = Some 4.
Proof.
  split; [|vm_compute; reflexivity].
  apply (kr_get_blocks_create_correct 12 demo_file12 12 4 100 demo);
    [exact demo_addr_ok|exact demo_ok|exact demo_zero_used|exact demo_tree_ok|done| |exact demo_can_grow|lia|lia].
  intros g _. apply demo_readable.
Defined.

Lemma create_then_lookup_witness :
  runs (m1 ← kr_get_blocks (mret tt) 12 12 4 true;
        m2 ← kr_get_blocks (mret tt) 12 12 2 false; mret (m1, m2)) only_panic
    (fun r _ => let '(m1, m2) := r in m_bno m1 <> None ->
       1 <= m_ret m2 <= 2 /\ m_bno m2 = m_bno m1 /\ m_new m2 = false) demo /\
  m_bno <$> answer (kr_get_blocks (mret tt) 12 12 4 true) demo = Some (Some 16).
Proof.
  split; [|vm_compute; reflexivity].
  apply (create_then_lookup (mret tt) 12 demo_file12 12 4 2 100 demo);
    [exact demo_addr_ok|exact demo_ok|exact demo_zero_used|exact demo_tree_ok|done| |exact demo_can_grow|lia|lia|lia|done].
  intros g _. apply demo_readable.
Defined.
