(* ===== verification/FreeTree.v ===== *)
(** * Freeing trees of blocks

    [kr_free_branches] on a row of pointers clears them and frees exactly the blocks
    below them: the ones a walk of at most [depth] tables reaches. *)

From S2P Require Import Prelude Bytes Bits Kr Rsv Bitmap Alloc State Balloc BallocFacts NewBlocks InodeFlags Ialloc BlockMap PathFacts BlockMapFacts AllocBranch FileTree BuildBranch GetBlocks Truncate FreeData.

(** ** Blocks that are erased

    The blocks of [L] are freed, blocks outside of [W] keep their contents; the
    inodes and the windows are as they were. *)
Record erased (c c' : core) (L W : Z -> Prop) : Prop := {
  er_ok : blocks_ok c';
  er_frame : c' = set_c_sbi (c_sbi c') (set_c_bufs (c_bufs c') (set_c_desc (c_desc c') c));
  er_places : forall g, 0 <= g < c_ngroups c ->
    same_places (group_desc c g) (group_desc c' g) /\
    bg_free_inodes_count (group_desc c' g) = bg_free_inodes_count (group_desc c g) /\
    bg_used_dirs_count (group_desc c' g) = bg_used_dirs_count (group_desc c g);
  er_maps : forall g, 0 <= g < c_ngroups c -> inode_bitmap c' g = inode_bitmap c g;
  er_bufs : forall b, ~ is_metadata c b -> ~ W b -> c_bufs c' !! b = c_bufs c !! b;
  er_used : forall b, c_fdb c <= b < c_nblocks c -> block_used c' b = true <-> block_used c b = true /\ ~ L b;
}.

Definition nothing (b : Z) : Prop := False.
Definition both (L1 L2 : Z -> Prop) (b : Z) : Prop := L1 b \/ L2 b.

Lemma erased_geo c c' L W : erased c c' L W ->
  c_bits c' = c_bits c /\ c_fdb c' = c_fdb c /\ c_nblocks c' = c_nblocks c /\ c_ngroups c' = c_ngroups c /\
  c_inodes c' = c_inodes c /\ c_rsv c' = c_rsv c /\ c_itb c' = c_itb c.
Proof. intros [_ -> _ _ _ _]. done. Qed.
Lemma erased_metadata c c' L W b : erased c c' L W -> is_metadata c' b <-> is_metadata c b.
Proof.
  intros He. destruct (erased_geo _ _ _ _ He) as (_ & _ & _ & Gg & _ & _ & Gi). unfold is_metadata. rewrite Gg.
  split; intros (g & Hg & Hm); exists g; (split; [done|]); by apply (metadata_places c c' g b (proj1 (er_places _ _ _ _ He g Hg)) Gi).
Qed.
Lemma erased_data c c' L W b : erased c c' L W -> data_block c' b <-> data_block c b.
Proof.
  intros He. destruct (erased_geo _ _ _ _ He) as (_ & Gf & Gn & _). unfold data_block.
  by rewrite (erased_metadata _ _ _ _ b He), Gf, Gn.
Qed.
Lemma erased_unreadable `{Kernel} c c' L W g : erased c c' L W -> 0 <= g < c_ngroups c -> unreadable c' g -> unreadable c g.
Proof. intros He Hg. unfold unreadable. by destruct (er_places _ _ _ _ He g Hg) as ((-> & _) & _). Qed.

Lemma erased_refl c W : blocks_ok c -> erased c c nothing W.
Proof. intros H. split; try done; [by destruct c|]. intros b _. unfold nothing. tauto. Qed.

Lemma erased_trans c1 c2 c3 L1 W1 L2 W2 : erased c1 c2 L1 W1 -> erased c2 c3 L2 W2 ->
  erased c1 c3 (both L1 L2) (both W1 W2).
Proof.
  intros He1 He2. destruct (erased_geo _ _ _ _ He1) as (_ & Gf & Gn & Gg & _).
  pose proof (fun b => erased_metadata _ _ _ _ b He1) as Hm.
  destruct He1 as [O1 F1 P1 M1 B1 U1], He2 as [O2 F2 P2 M2 B2 U2]. rewrite Gg in *. rewrite Gf, Gn in *. split.
  - done.
  - rewrite F2 at 1. rewrite F1 at 1. done.
  - intros g Hg. destruct (P1 g Hg) as ((? & ? & ?) & ? & ?), (P2 g Hg) as ((? & ? & ?) & ? & ?).
    unfold same_places. split_and!; congruence.
  - intros g Hg. by rewrite M2, M1.
  - intros b Hb Hw. unfold both in Hw. rewrite B2; [apply B1; [done|tauto]|by rewrite Hm|tauto].
  - intros b Hb. rewrite U2, U1 by done. unfold both. tauto.
Qed.
Lemma erased_weaken c c' L W L' W' : erased c c' L W -> (forall b, L b <-> L' b) -> (forall b, W b -> W' b) -> erased c c' L' W'.
Proof. intros [O F P M B U] HL HW. split; try done; [auto|]. intros b Hb. by rewrite U, HL. Qed.

(** ** Clearing pointers *)

(** The pointer is not in the metadata. *)
Definition slot_data (c : core) (p : slot) : Prop := forall b n, p = InBlock b n -> data_block c b.

Lemma put_ok c p v : blocks_ok c -> slot_data c p ->
  blocks_ok (slot_put c p v) /\ forall b, c_fdb c <= b < c_nblocks c -> block_used (slot_put c p v) b = block_used c b.
Proof.
  intros Hok Hp. pose proof (row_frame_put c p v) as Hf.
  apply (data_written c _ (match p with InBlock b _ => [b] | _ => [] end)); [apply Hf| | |done].
  - intros b Hb. apply Hf. intros n ->. by apply Hb, list_elem_of_singleton.
  - intros b Hb. destruct p as [|b' n|]; [by apply elem_of_nil in Hb| |by apply elem_of_nil in Hb].
    apply list_elem_of_singleton in Hb as ->. by apply (Hp b' n).
Qed.

Lemma put_geo c p v : c_bits (slot_put c p v) = c_bits c /\ c_fdb (slot_put c p v) = c_fdb c /\
  c_nblocks (slot_put c p v) = c_nblocks c /\ c_ngroups (slot_put c p v) = c_ngroups c /\
  (forall g, group_desc (slot_put c p v) g = group_desc c g) /\ c_rsv (slot_put c p v) = c_rsv c /\
  (forall b, is_metadata (slot_put c p v) b <-> is_metadata c b).
Proof. by destruct p. Qed.
Lemma put_data c p v b : data_block (slot_put c p v) b <-> data_block c b.
Proof. destruct (put_geo c p v) as (_ & Hf & Hn & _ & _ & _ & Hm). unfold data_block. by rewrite Hf, Hn, Hm. Qed.
Lemma put_bufs c p v b : (forall n, p <> InBlock b n) -> c_bufs (slot_put c p v) !! b = c_bufs c !! b.
Proof. apply (row_frame_put c p v). Qed.

(** The same pointer is cleared before and after. *)
Lemma erased_put c c' L W p v : blocks_ok c -> erased c c' L W -> slot_data c p ->
  (forall b n, p = InBlock b n -> ~ W b) -> erased (slot_put c p v) (slot_put c' p v) L W.
Proof.
  intros Hok He Hp Hw. destruct (erased_geo _ _ _ _ He) as (_ & Gf & Gn & Gg & Gi & _).
  assert (Hp' : slot_data c' p) by (intros b n Hb; apply (erased_data _ _ _ _ b He); by eapply Hp).
  destruct (put_ok c p v Hok Hp) as [Hok1 Hu1]. destruct (put_ok c' p v (er_ok _ _ _ _ He) Hp') as [Hok1' Hu1'].
  destruct (put_geo c p v) as (_ & Qf & Qn & Qg & Qd & _ & Qm). destruct (put_geo c' p v) as (_ & _ & _ & _ & Qd' & _).
  destruct He as [O F P M B U]. split.
  - done.
  - clear - F. destruct p as [ino n|b n|x]; destruct c, c'; cbn in *; injection F; intros; by subst.
  - intros g Hg. rewrite Qg in Hg. rewrite Qd, Qd'. by apply P.
  - intros g Hg. rewrite Qg in Hg. pose proof (M g Hg) as Hmg. revert Hmg. unfold inode_bitmap. rewrite Qd, Qd'.
    assert (Hmeta : is_metadata c (bg_inode_bitmap (group_desc c g))) by (exists g; split; [done|]; unfold metadata; auto).
    destruct (P g Hg) as ((_ & Hbm & _) & _). rewrite Hbm. intros Hmg.
    rewrite !put_bufs; [done| |]; intros n ->; by apply (Hp _ n eq_refl).
  - intros b Hb Hnw. rewrite Qm in Hb. pose proof (B b Hb Hnw) as Hbb.
    destruct (in_block_dec p b) as [[m ->]|Hno]; [|by rewrite !put_bufs].
    cbn [slot_put]. unfold with_buf. cbn [c_bufs set_c_bufs]. by rewrite !lookup_insert_eq, Hbb.
  - intros b Hb. rewrite Qf, Qn in Hb. rewrite Hu1' by (by rewrite Gf, Gn). rewrite Hu1 by done. by apply U.
Qed.

Definition clear (c : core) (l : list slot) : core := foldl (fun c p => slot_put c p 0) c l.
Lemma clear_geo l : forall c, c_bits (clear c l) = c_bits c /\ c_rsv (clear c l) = c_rsv c /\ c_ngroups (clear c l) = c_ngroups c /\
  c_fdb (clear c l) = c_fdb c /\ c_nblocks (clear c l) = c_nblocks c /\
  (forall g, group_desc (clear c l) g = group_desc c g) /\ (forall b, data_block (clear c l) b <-> data_block c b).
Proof.
  induction l as [|p l IH]; intros c; [done|]. destruct (IH (slot_put c p 0)) as (H1 & H2 & H3 & H4 & H5 & H6 & H7).
  destruct (put_geo c p 0) as (Q1 & Q2 & Q3 & Q4 & Q5 & Q6 & _).
  change (clear c (p :: l)) with (clear (slot_put c p 0) l). split_and!; try congruence.
  intros b. by rewrite H7, put_data.
Qed.
Lemma erased_clear l W L : forall c c', blocks_ok c -> erased c c' L W -> (forall p, p ∈ l -> slot_data c p) ->
  (forall b n, InBlock b n ∈ l -> ~ W b) -> erased (clear c l) (clear c' l) L W.
Proof.
  induction l as [|p l IH]; intros c c' Hok He Hl Hw; [done|]. cbn [clear foldl].
  assert (Hp : slot_data c p) by (apply Hl; by left). apply IH.
  - by apply put_ok.
  - apply erased_put; try done. intros b n ->. apply (Hw b n). by left.
  - intros q Hq b n Hb. apply put_data. apply (Hl q) with n; [by right|done].
  - intros b n Hb. apply (Hw b n). by right.
Qed.
(** Clearing pointers in [W] alone. *)
Lemma clear_bufs l b : forall c, (forall n, InBlock b n ∉ l) -> c_bufs (clear c l) !! b = c_bufs c !! b.
Proof.
  induction l as [|p l IH]; intros c Hl; [done|]. change (clear c (p :: l)) with (clear (slot_put c p 0) l).
  rewrite IH by (intros n Hn; apply (Hl n); by right). apply put_bufs. intros n ->. apply (Hl n). by left.
Qed.
Lemma clear_ok l : forall c, blocks_ok c -> (forall p, p ∈ l -> slot_data c p) ->
  blocks_ok (clear c l) /\ forall b, c_fdb c <= b < c_nblocks c -> block_used (clear c l) b = block_used c b.
Proof.
  induction l as [|p l IH]; intros c Hok Hl; [done|]. destruct (put_ok c p 0 Hok ltac:(apply Hl; by left)) as [H1 H2].
  change (clear c (p :: l)) with (clear (slot_put c p 0) l). destruct (IH (slot_put c p 0) H1) as [H3 H4].
  { intros q Hq b n Hb. apply put_data. apply (Hl q) with n; [by right|done]. }
  split; [done|]. destruct (put_geo c p 0) as (_ & Qf & Qn & _). rewrite Qf, Qn in H4. intros b Hb. by rewrite H4, H2.
Qed.

(** ** Subtrees *)

(** A walk of at most [d] tables. *)
Definition steps (c : core) (d : nat) (r : list Z) : Prop :=
  (length r <= d)%nat /\ Forall (fun o => 0 <= o < ptrs_of c) r.
(** The blocks of the subtree at [v]. *)
Definition reach (c : core) (d : nat) (v b : Z) : Prop := exists r, steps c d r /\ walk c v r = b /\ b <> 0.

(** A subtree of data blocks, with tables above them, that has no block twice. *)
Record sub_ok (c : core) (d : nat) (v : Z) : Prop := {
  so_block : forall r, steps c d r -> walk c v r <> 0 -> data_block c (walk c v r);
  so_table : forall r, steps c d r -> (length r < d)%nat -> walk c v r <> 0 -> indirect_ok c (walk c v r);
  so_inj : forall r1 r2, steps c d r1 -> steps c d r2 -> walk c v r1 <> 0 -> walk c v r1 = walk c v r2 -> r1 = r2;
}.

Lemma steps_nil c d : steps c d [].
Proof. split; [simpl; lia|constructor]. Qed.
Lemma steps_cons c d o r : steps c (S d) (o :: r) <-> 0 <= o < ptrs_of c /\ steps c d r.
Proof. unfold steps. rewrite Forall_cons. simpl. split; intros (? & ? & ?); split_and!; try done; lia. Qed.
Lemma steps_0 c r : steps c 0 r -> r = [].
Proof. intros [Hl _]. destruct r; [done|simpl in Hl; lia]. Qed.

Lemma walk_cons c v o r : v <> 0 -> walk c v (o :: r) = walk c (table c v o) r.
Proof. intros Hv. cbn [walk]. by replace (v =? 0) with false by lia. Qed.

Lemma sub_child c d v o : sub_ok c (S d) v -> v <> 0 -> 0 <= o < ptrs_of c -> sub_ok c d (table c v o).
Proof.
  intros [Hb Ht Hi] Hv Ho. assert (Hs : forall r, steps c d r -> steps c (S d) (o :: r)) by (intros; by apply steps_cons).
  split.
  - intros r Hr. rewrite <- walk_cons by done. by apply Hb, Hs.
  - intros r Hr Hl. rewrite <- walk_cons by done. apply Ht; [by apply Hs|simpl; lia].
  - intros r1 r2 H1 H2. rewrite <- !walk_cons by done. intros Hz He.
    apply Hi in He; [by injection He|by apply Hs|by apply Hs|done].
Qed.
Lemma sub_children_apart c d v o1 o2 b : sub_ok c (S d) v -> v <> 0 -> 0 <= o1 < ptrs_of c -> 0 <= o2 < ptrs_of c -> o1 <> o2 ->
  reach c d (table c v o1) b -> reach c d (table c v o2) b -> False.
Proof.
  intros [_ _ Hi] Hv H1 H2 Hne (r1 & S1 & W1 & Hb) (r2 & S2 & W2 & _). rewrite <- walk_cons in W1, W2 by done.
  assert (o1 :: r1 = o2 :: r2) as [= ? _]; [|done]. apply Hi; [by apply steps_cons|by apply steps_cons|congruence|congruence].
Qed.
Lemma sub_root_apart c d v o : sub_ok c (S d) v -> v <> 0 -> 0 <= o < ptrs_of c -> ~ reach c d (table c v o) v.
Proof.
  intros [_ _ Hi] Hv Ho (r & S1 & W1 & _). rewrite <- walk_cons in W1 by done.
  assert ([] = o :: r) as [=]. apply Hi; [apply steps_nil|by apply steps_cons|done|done].
Qed.

Lemma reach_zero c d b : ~ reach c d 0 b.
Proof. intros (r & _ & Hw & Hb). apply Hb. rewrite <- Hw. by destruct r. Qed.
Lemma reach_root c d v : v <> 0 -> reach c d v v.
Proof. intros Hv. exists []. split; [apply steps_nil|done]. Qed.
Lemma reach_0 c v b : reach c 0 v b <-> b = v /\ v <> 0.
Proof.
  split; [|intros [-> ?]; by apply reach_root]. intros (r & Hr & Hw & Hb). rewrite (steps_0 _ _ Hr) in Hw. cbn in Hw. by subst.
Qed.
Lemma reach_S c d v b : v <> 0 -> reach c (S d) v b <-> b = v \/ exists o, 0 <= o < ptrs_of c /\ reach c d (table c v o) b.
Proof.
  intros Hv. split.
  - intros (r & Hr & Hw & Hb). destruct r as [|o r]; [by left|right]. apply steps_cons in Hr as [Ho Hr].
    exists o. split; [done|]. exists r. by rewrite <- walk_cons.
  - intros [->|(o & Ho & r & Hr & Hw & Hb)]; [by apply reach_root|]. exists (o :: r). rewrite walk_cons by done.
    by rewrite steps_cons.
Qed.
Lemma reach_data c d v b : sub_ok c d v -> reach c d v b -> data_block c b.
Proof. intros Hs (r & Hr & <- & Hz). by apply (so_block _ _ _ Hs). Qed.

(** The subtree is the same in another state. *)
Section Same.
Variables c c' : core.
Hypothesis Hbits : c_bits c' = c_bits c.
Hypothesis Hdata : forall b, data_block c' b <-> data_block c b.

Lemma ptrs_same : ptrs_of c' = ptrs_of c.
Proof using Hbits. unfold ptrs_of. by rewrite Hbits. Qed.
Lemma steps_same d r : steps c' d r <-> steps c d r.
Proof using Hbits. unfold steps. by rewrite ptrs_same. Qed.
Lemma walk_same d : forall v r, (forall b, reach c d v b -> c_bufs c' !! b = c_bufs c !! b) -> steps c d r ->
  walk c' v r = walk c v r.
Proof using.
  induction d as [|d IH]; intros v r Hb Hr; [by rewrite (steps_0 _ _ Hr)|]. destruct r as [|o r]; [done|].
  apply steps_cons in Hr as [Ho Hr]. cbn [walk]. destruct (Z.eqb_spec v 0) as [|Hv]; [done|].
  assert (table c' v o = table c v o) as -> by (unfold table; by rewrite (Hb v) by by apply reach_root).
  apply IH; [|done]. intros b Hbr. apply Hb. apply reach_S; [done|]. right. by exists o.
Qed.
Lemma reach_same d v : (forall b, reach c d v b -> c_bufs c' !! b = c_bufs c !! b) -> forall b, reach c' d v b <-> reach c d v b.
Proof using Hbits.
  intros Hb b. split; intros (r & Hr & Hw & Hz); exists r; (split; [by apply steps_same|]).
  - rewrite <- (walk_same d v r Hb); [done|by apply steps_same].
  - by rewrite (walk_same d v r Hb).
Qed.
Lemma sub_same d v : (forall b, reach c d v b -> c_bufs c' !! b = c_bufs c !! b) -> sub_ok c d v -> sub_ok c' d v.
Proof using Hbits Hdata.
  intros Hb [H1 H2 H3]. assert (Hw : forall r, steps c' d r -> walk c' v r = walk c v r).
  { intros r Hr. apply (walk_same d); [done|by apply steps_same]. }
  split.
  - intros r Hr. rewrite Hw by done. intros Hz. apply Hdata, H1; [by apply steps_same|done].
  - intros r Hr Hl. rewrite Hw by done. intros Hz. apply steps_same in Hr. destruct (H2 r Hr Hl Hz) as (d' & Hd & Hld & Hby).
    exists d'. rewrite Hbits, Hb; [done|]. by exists r.
  - intros r1 r2 Hr1 Hr2. rewrite !Hw by done. apply H3; by apply steps_same.
Qed.
End Same.

(** ** Rows of pointers *)

(** The blocks of the subtrees at the pointers [l]. *)
Definition row_reach (c : core) (d : nat) (l : list slot) (b : Z) : Prop :=
  exists p v, p ∈ l /\ slot_val c p = Some v /\ reach c d v b.

Record row_ok (c : core) (d : nat) (l : list slot) : Prop := {
  ro_val : forall p, p ∈ l -> exists v, slot_val c p = Some v /\ sub_ok c d v;
  ro_own : forall b n, InBlock b n ∈ l -> data_block c b /\ indirect_ok c b /\ ~ row_reach c d l b;
  ro_apart : forall p q v w b, p ∈ l -> q ∈ l -> p <> q -> slot_val c p = Some v -> slot_val c q = Some w ->
    reach c d v b -> reach c d w b -> False;
  ro_nodup : NoDup l;
}.

Lemma row_reach_cons c d p v l b : slot_val c p = Some v -> row_reach c d (p :: l) b <-> reach c d v b \/ row_reach c d l b.
Proof.
  intros Hv. split.
  - intros (q & w & [->|Hq]%elem_of_cons & Hw & Hr); [left; congruence|right; by exists q, w].
  - intros [Hr|(q & w & Hq & Hw & Hr)]; [exists p, v; split; [by left|done]|exists q, w; split; [by right|done]].
Qed.
Lemma row_reach_nil c d b : ~ row_reach c d [] b.
Proof. intros (p & v & Hp & _). by apply elem_of_nil in Hp. Qed.
Lemma row_reach_data c d l b : row_ok c d l -> row_reach c d l b -> data_block c b.
Proof. intros Hr (p & v & Hp & Hv & Hb). destruct (ro_val _ _ _ Hr p Hp) as (w & Hw & Hs). assert (w = v) as -> by congruence. by eapply reach_data. Qed.

Lemma row_same c c' d l : c_bits c' = c_bits c -> (forall b, data_block c' b <-> data_block c b) -> row_ok c d l ->
  (forall p, p ∈ l -> slot_val c' p = slot_val c p) -> (forall b, row_reach c d l b -> c_bufs c' !! b = c_bufs c !! b) ->
  (forall b n, InBlock b n ∈ l -> indirect_ok c' b) ->
  row_ok c' d l /\ forall b, row_reach c' d l b <-> row_reach c d l b.
Proof.
  intros Hbits Hdata [R1 R2 R3 R4] Hval Hb Hind.
  assert (Hrb : forall p v, p ∈ l -> slot_val c p = Some v -> forall b, reach c' d v b <-> reach c d v b).
  { intros p v Hp Hv. apply reach_same; [done|]. intros b Hr. apply Hb. by exists p, v. }
  assert (Hrow : forall b, row_reach c' d l b <-> row_reach c d l b).
  { intros b. split; intros (p & v & Hp & Hv & Hr); exists p, v; (split; [done|]).
    - rewrite Hval in Hv by done. split; [done|]. by apply (Hrb p v).
    - rewrite Hval by done. split; [done|]. by apply (Hrb p v). }
  split; [|done]. split.
  - intros p Hp. destruct (R1 p Hp) as (v & Hv & Hs). exists v. rewrite Hval by done. split; [done|].
    apply (sub_same c); [done|done| |done]. intros b Hr. apply Hb. by exists p, v.
  - intros b n Hp. destruct (R2 b n Hp) as (H1 & _ & H3). rewrite Hdata, Hrow. split; [done|]. split; [by eapply Hind|done].
  - intros p q v w b Hp Hq Hne. rewrite !Hval by done. intros Hv Hw. rewrite (Hrb p v), (Hrb q w) by done.
    by apply (R3 p q).
  - done.
Qed.

Lemma slot_put_other c p q : is_Some (slot_val c p) -> p <> q -> slot_val (slot_put c p 0) q = slot_val c q.
Proof.
  intros Hp Hne. destruct p as [j n|b n|x]; [| |done]; rewrite slot_put_val by (done || lia);
    destruct (_ && _) eqn:He; [|done| |done]; destruct q as [j' n'|b' n'|x']; cbn [same_table slot_index] in He; try done;
    exfalso; apply Hne; f_equal; lia.
Qed.

(** The rest of a row, when the first pointer has been cleared and no more than its
    subtree written. *)
Lemma row_next c c1 d p l v L W : row_ok c d (p :: l) -> slot_val c p = Some v ->
  erased (slot_put c p 0) c1 L W -> (forall b, W b -> reach c d v b) ->
  row_ok c1 d l /\ (forall b, row_reach c1 d l b <-> row_reach c d l b) /\ (forall b n, InBlock b n ∈ l -> ~ W b).
Proof.
  intros Hr Hv He Hw. destruct (erased_geo _ _ _ _ He) as (Gb & _ & _ & _ & Gi & _).
  destruct (put_geo c p 0) as (Qb & _). rewrite Qb in Gb.
  assert (Hdata : forall b, data_block c1 b <-> data_block c b) by (intros b; by rewrite (erased_data _ _ _ _ b He), put_data).
  pose proof (ro_nodup _ _ _ Hr) as [Hpl Hnd]%NoDup_cons.
  assert (Hne : forall q, q ∈ l -> p <> q) by (by intros q Hq ->).
  assert (Hown : forall b n, InBlock b n ∈ l -> data_block c b /\ indirect_ok c b /\ ~ W b /\ ~ row_reach c d l b).
  { intros b n Hb. destruct (ro_own _ _ _ Hr b n ltac:(by right)) as (H1 & H2 & H3).
    rewrite (row_reach_cons c d p v l b Hv) in H3. split_and!; [done|done| |tauto]. intros Hwb. apply H3. left. by apply Hw. }
  assert (Hbuf : forall b, data_block c b -> ~ W b -> c_bufs c1 !! b = c_bufs (slot_put c p 0) !! b).
  { intros b [_ Hm] Hnw. apply (er_bufs _ _ _ _ He); [|done]. by rewrite (proj2 (proj2 (proj2 (proj2 (proj2 (proj2 (put_geo c p 0))))))). }
  destruct (row_same c c1 d l) as [Hok Hreach]; try done.
  - split; [|intros b n Hb; by destruct (Hown b n Hb) as (? & ? & _ & ?)| |done].
    + intros q Hq. apply (ro_val _ _ _ Hr). by right.
    + intros q1 q2 v1 v2 b H1 H2. apply (ro_apart _ _ _ Hr q1 q2 v1 v2 b); by right.
  - intros q Hq. rewrite <- (slot_put_other c p q) by (by eauto). destruct q as [j n|b n|x]; cbn [slot_val]; [by rewrite Gi| |done].
    destruct (Hown b n Hq) as (H1 & _ & H3 & _). by rewrite Hbuf.
  - intros b Hb. assert (Hbd : data_block c b) by (destruct Hb as (q & w & Hq & Hwq & Hrq);
      destruct (ro_val _ _ _ Hr q ltac:(by right)) as (w' & Hw' & Hs); assert (w' = w) as -> by congruence; by eapply reach_data).
    rewrite Hbuf; [|done|].
    + apply put_bufs. intros n ->. destruct (ro_own _ _ _ Hr b n ltac:(by left)) as (_ & _ & H3). apply H3.
      rewrite (row_reach_cons c d _ v l b Hv). by right.
    + intros Hwb%Hw. destruct Hb as (q & w & Hq & Hwq & Hrq). by apply (ro_apart _ _ _ Hr p q v w b); [by left|by right|by apply Hne|..].
  - intros b n Hb. destruct (Hown b n Hb) as (H1 & H2 & H3 & _).
    pose proof (row_indirect c (slot_put c p 0) p b (row_frame_put c p 0) H2) as (dd & Hd & Hl & Hy).
    exists dd. rewrite Hbuf, Gb by done. rewrite Qb in Hl. done.
  - split; [done|]. split; [done|]. intros b n Hb. by destruct (Hown b n Hb) as (_ & _ & ? & _).
Qed.

Section Facts.
Context {B : BitOps} {BL : BitLaws B} {R : RbTree} {RL : RbLaws R} {T : Trylock} {K : Kernel}.
Variable E : stop -> Prop.
Hypothesis HE : E Panic.

(** Freeing a run of data blocks. *)
Lemma erased_run fs ino b n : let c := core_of fs in blocks_ok c -> 1 <= n -> (forall x, b <= x < b + n -> data_block c x) ->
  (forall g, 0 <= g < c_ngroups c -> ~ unreadable c g) ->
  runs (kr_free_blocks ino b n) E (fun _ fs' => erased c (core_of fs') (fun x => b <= x < b + n) nothing) fs.
Proof using All.
  intros c Hok Hn Hdata Hread. assert (Hrun : data_run c b n).
  { destruct (Hdata b ltac:(lia)) as [H1 _], (Hdata (b + n - 1) ltac:(lia)) as [H2 _]. split; [lia|lia|]. intros x Hx. by apply Hdata. }
  eapply runs_mono; [apply (kr_free_blocks_spec E HE ino fs b n Hok Hn Hrun)|]. cbv beta. fold c.
  intros _ fs2 (m & fs1 & freed & Hm & [F1 F2 F3 F4 F5 F6] & Hcore).
  assert (m = n) as ->.
  { destruct Hm as [->|(Hm & g & Hg & Hu)]; [done|]. by destruct (Hread g Hg). }
  destruct F2 as [Fr P I D]. rewrite Hcore. split.
  - by apply blocks_ok_sbi.
  - rewrite Fr at 1. rewrite F3. destruct c. done.
  - exact P.
  - exact I.
  - intros x Hx _. by apply D.
  - intros x Hx. change (block_used (core_of fs1) x = true <-> block_used c x = true /\ ~ b <= x < b + n).
    rewrite F6 by done. rewrite andb_true_iff, negb_true_iff, andb_false_iff, Z.leb_gt, Z.ltb_ge. split; intros [? ?]; (split; [done|lia]).
Qed.

(** A loop over a row, when each turn clears its pointer and frees its subtree. *)
Lemma each_spec d f : (forall fs p v, blocks_ok (core_of fs) -> (forall g, 0 <= g < c_ngroups (core_of fs) -> ~ unreadable (core_of fs) g) ->
    row_ok (core_of fs) d [p] -> slot_val (core_of fs) p = Some v ->
    runs (f p) E (fun _ fs' => erased (slot_put (core_of fs) p 0) (core_of fs') (reach (core_of fs) d v) (reach (core_of fs) d v)) fs) ->
  forall l fs, blocks_ok (core_of fs) -> (forall g, 0 <= g < c_ngroups (core_of fs) -> ~ unreadable (core_of fs) g) ->
  row_ok (core_of fs) d l ->
  runs (each f l) E (fun _ fs' => erased (clear (core_of fs) l) (core_of fs') (row_reach (core_of fs) d l) (row_reach (core_of fs) d l)) fs.
Proof using.
  intros Hf. induction l as [|p l IH]; intros fs Hok Hread Hrow; cbn [each].
  { step. eapply erased_weaken; [by apply (erased_refl _ nothing)| |done]. intros b. split; [done|apply row_reach_nil]. }
  set (c := core_of fs) in *. destruct (ro_val _ _ _ Hrow p ltac:(by left)) as (v & Hv & Hsub). step.
  assert (Hone : row_ok c d [p]).
  { split.
    - intros q ->%list_elem_of_singleton. by exists v.
    - intros b n Hb%list_elem_of_singleton. destruct (ro_own _ _ _ Hrow b n ltac:(rewrite <- Hb; by left)) as (H1 & H2 & H3).
      split; [done|]. split; [done|]. intros Hr. apply H3. apply (row_reach_cons c d p v [] b Hv) in Hr as [?|?%row_reach_nil]; [|done].
      apply (row_reach_cons c d p v l b Hv). by left.
    - intros q1 q2 v1 v2 b ->%list_elem_of_singleton ->%list_elem_of_singleton. done.
    - apply NoDup_singleton. }
  call (Hf fs p v Hok Hread Hone Hv). intros _ fs1 He. fold c in He.
  destruct (row_next c (core_of fs1) d p l v _ _ Hrow Hv He ltac:(done)) as (Hrow1 & Hreach & Hown).
  assert (Hslot : slot_data c p) by (intros b n ->; by apply (ro_own _ _ _ Hrow b n); left).
  destruct (put_ok c p 0 Hok Hslot) as [Hok1 _]. destruct (put_geo c p 0) as (_ & _ & _ & Qg & Qd & _).
  assert (Hread1 : forall g, 0 <= g < c_ngroups (core_of fs1) -> ~ unreadable (core_of fs1) g).
  { destruct (erased_geo _ _ _ _ He) as (_ & _ & _ & Gg & _). rewrite Gg, Qg. intros g Hg Hu.
    apply (erased_unreadable _ _ _ _ g He) in Hu; [|by rewrite Qg]. apply (Hread g Hg). revert Hu. unfold unreadable. by rewrite Qd. }
  call (IH fs1 (er_ok _ _ _ _ He) Hread1 Hrow1). intros _ fs2 He2.
  eapply erased_weaken; [eapply erased_trans; [|exact He2]|..].
  - change (clear c (p :: l)) with (clear (slot_put c p 0) l). apply erased_clear; [done|exact He| |exact Hown].
    intros q Hq b n ->. apply put_data. by apply (ro_own _ _ _ Hrow b n); right.
  - intros b. unfold both. rewrite Hreach. by rewrite (row_reach_cons c d p v l b Hv).
  - intros b. unfold both. rewrite Hreach. by rewrite (row_reach_cons c d p v l b Hv).
Qed.

(** *** Rows of data *)

Lemma put8_id d o v : 0 <= o < len d -> get8 d o = v mod 256 -> put8 d o v = d.
Proof using. intros Ho Hg. unfold put8. apply list_insert_id. by rewrite lookup_get8, Hg. Qed.
Lemma put32_zero d o : bytes d -> 0 <= o -> o + 4 <= len d -> get32 d o = 0 -> put32 d o 0 = d.
Proof using.
  intros Hb Ho Hl Hz. pose proof (get8_bytes d o Hb). pose proof (get8_bytes d (o + 1) Hb).
  pose proof (get8_bytes d (o + 2) Hb). pose proof (get8_bytes d (o + 2 + 1) Hb). unfold get32, get16 in Hz.
  unfold put32, put16. change (0 / 65536) with 0. change (0 / 256) with 0.
  rewrite (put8_id d o), (put8_id d (o + 1)), (put8_id d (o + 2)), (put8_id d (o + 2 + 1)); change (0 mod 256) with 0; lia || done.
Qed.
(** A zero pointer stays. *)
Lemma put_zero c p : slot_val c p = Some 0 -> (forall b n, p = InBlock b n -> indirect_ok c b) -> slot_put c p 0 = c.
Proof using.
  destruct p as [ino n|b n|x]; cbn [slot_val slot_put]; intros Hv Hb; [| |done].
  - destruct (c_inodes c !! ino) as [i|] eqn:Hi; [|done]. cbn [mbind option_bind] in Hv.
    destruct ((n <? 0) || (n >=? len (i_data (KR_I i)))) eqn:Hr; [done|].
    assert (alter (set_pointer n 0) ino (c_inodes c) = c_inodes c) as ->; [|by destruct c].
    apply map_eq. intros j. destruct (decide (j = ino)) as [->|]; [|by rewrite lookup_alter_ne].
    rewrite lookup_alter_eq, Hi. cbn [fmap option_fmap option_map]. f_equal. apply set_pointer_id; [lia|].
    unfold pointer. by injection Hv as ->.
  - destruct (Hb b n eq_refl) as (d & Hd & Hl & Hby). rewrite Hd in *. cbn [mbind option_bind default] in *.
    destruct ((n <? 0) || (4 * n + 4 >? len d)) eqn:Hr; [done|]. injection Hv as Hv.
    change (id d) with d. rewrite (put32_zero d (4 * n) Hby ltac:(lia) ltac:(lia) Hv). unfold with_buf. rewrite insert_id by done. by destruct c.
Qed.

(** A run that is still to be freed. *)
Definition run_of_data (c : core) (b n : Z) : Prop := 0 <= n < 4096 /\ forall x, b <= x < b + n -> data_block c x.

Lemma slot_clear_spec p v fs : slot_val (core_of fs) p = Some v ->
  runs (slot_set p 0) E (fun _ fs' => core_of fs' = slot_put (core_of fs) p 0) fs.
Proof using.
  intros Hv. destruct p as [j n|b n|x]; [by apply (slot_set_spec E _ 0 v)|by apply (slot_set_spec E _ 0 v)|]. by cbn [slot_set]; step.
Qed.

Definition no_unreadable (c : core) : Prop := forall g, 0 <= g < c_ngroups c -> ~ unreadable c g.
Lemma readable_erased c c' L W : erased c c' L W -> no_unreadable c -> no_unreadable c'.
Proof using.
  intros He Hr g Hg Hu. destruct (erased_geo _ _ _ _ He) as (_ & _ & _ & Gg & _). rewrite Gg in Hg.
  by apply (Hr g Hg), (erased_unreadable _ _ _ _ g He).
Qed.
Lemma readable_put c p v : no_unreadable c -> no_unreadable (slot_put c p v).
Proof using. intros Hr g Hg. destruct (put_geo c p v) as (_ & _ & _ & Qg & Qd & _). rewrite Qg in Hg. unfold unreadable. rewrite Qd. by apply Hr. Qed.

Lemma free_data_row ino : forall l fs b n, blocks_ok (core_of fs) -> no_unreadable (core_of fs) ->
  row_ok (core_of fs) 0 l -> run_of_data (core_of fs) b n -> n + len l < 4096 ->
  runs (free_data_loop ino l b n) E (fun r fs' => exists F,
    erased (clear (core_of fs) l) (core_of fs') F nothing /\ run_of_data (core_of fs) r.1 r.2 /\
    forall x, F x \/ r.1 <= x < r.1 + r.2 <-> row_reach (core_of fs) 0 l x \/ b <= x < b + n) fs.
Proof using All.
  induction l as [|p l IH]; intros fs b n Hok Hread Hrow Hrun Hlen; cbn [free_data_loop].
  { step. exists nothing. split; [by apply erased_refl|]. split; [done|]. intros x. cbn [fst snd]. unfold nothing.
    split; [intros [[]|?]; by right|intros [?%row_reach_nil|?]; [done|by right]]. }
  set (c := core_of fs) in *. destruct (ro_val _ _ _ Hrow p ltac:(by left)) as (v & Hv & Hsub).
  replace (len (p :: l)) with (1 + len l) in Hlen by (unfold len; cbn [length]; lia). pose proof (len_nonneg l).
  assert (Hslot : slot_data c p) by (intros x k ->; by apply (ro_own _ _ _ Hrow x k); left).
  destruct (put_ok c p 0 Hok Hslot) as [Hok0 _]. pose proof Hrun as [Hn Hdata].
  (* the rest of the loop, from a state in which the blocks of [F1] have been freed *)
  assert (Hrest : forall fs1 b1 n1 F1, erased (slot_put c p 0) (core_of fs1) F1 nothing -> run_of_data c b1 n1 -> n1 <= n + 1 ->
    (forall x, F1 x \/ b1 <= x < b1 + n1 <-> reach c 0 v x \/ b <= x < b + n) ->
    runs (free_data_loop ino l b1 n1) E (fun r fs' => exists F,
      erased (clear c (p :: l)) (core_of fs') F nothing /\ run_of_data c r.1 r.2 /\
      forall x, F x \/ r.1 <= x < r.1 + r.2 <-> row_reach c 0 (p :: l) x \/ b <= x < b + n) fs1).
  { intros fs1 b1 n1 F1 He1 Hrun1 Hn1 HF1.
    destruct (row_next c (core_of fs1) 0 p l v F1 nothing Hrow Hv He1) as (Hrow1 & Hreach1 & _); [done|].
    assert (Hd1 : forall x, data_block (core_of fs1) x <-> data_block c x) by (intros x; by rewrite (erased_data _ _ _ _ x He1), put_data).
    assert (Hrun_same : forall b' n', run_of_data (core_of fs1) b' n' <-> run_of_data c b' n').
    { intros b' n'. unfold run_of_data. split; intros [? Hx]; (split; [done|]); intros x Hbx; by apply Hd1, Hx. }
    call (IH fs1 b1 n1 (er_ok _ _ _ _ He1) (readable_erased _ _ _ _ He1 (readable_put _ _ _ Hread)) Hrow1); [by apply Hrun_same|lia|].
    intros [b2 n2] fs2 (F2 & He2 & Hrun2 & HF2). cbn [fst snd] in *. exists (both F1 F2). split; [|split; [by apply Hrun_same|]].
    - eapply erased_weaken; [eapply erased_trans with (L1 := F1) (W1 := nothing); [|exact He2]|done|by intros x [[]|[]]].
      change (clear c (p :: l)) with (clear (slot_put c p 0) l). apply erased_clear; [done|exact He1| |by intros ? ? _ []].
      intros q Hq x k ->. apply put_data. by apply (ro_own _ _ _ Hrow x k); right.
    - intros x. specialize (HF1 x). specialize (HF2 x). rewrite Hreach1 in HF2.
      rewrite (row_reach_cons c 0 p v l x Hv). unfold both. tauto. }
  step. run slot_get_run; [exact Hv|]. destruct (Z.eqb_spec v 0) as [->|Hnz].
  { apply (Hrest fs b n nothing).
    - rewrite put_zero; [by apply erased_refl|done|]. intros x k ->. by apply (ro_own _ _ _ Hrow x k); left.
    - done.
    - lia.
    - intros x. unfold nothing. split; [intros [[]|?]; by right|intros [?%reach_zero|?]; [done|by right]]. }
  assert (Hvd : data_block c v) by (apply (so_block _ _ _ Hsub [] (steps_nil c 0)); done).
  pose proof (ck_fdb _ (bo_core _ Hok)) as Hfdb. pose proof (ck_blocks32 _ (bo_core _ Hok)) as H32.
  assert (Hvr : 0 <= v < 4294967296) by (destruct Hvd; lia).
  step. call (slot_clear_spec p v fs Hv). fold c. intros _ fs1 Hfs1.
  assert (He1 : erased (slot_put c p 0) (core_of fs1) nothing nothing) by (rewrite Hfs1; by apply erased_refl).
  destruct (Z.eqb_spec n 0) as [->|Hn0].
  { apply (Hrest fs1 v 1 nothing); [done| |lia|].
    - split; [lia|]. intros x Hx. by replace x with v by lia.
    - intros x. rewrite reach_0. unfold nothing. lia. }
  assert (Hbr : 0 <= b /\ b + n < 4294967296) by (destruct (Hdata b ltac:(lia)) as [? _], (Hdata (b + n - 1) ltac:(lia)) as [? _]; lia).
  destruct (Z.eqb_spec b (u64 (v - n))) as [Hbn|Hbn].
  - assert (v = b + n) as -> by (unfold u64 in Hbn; Z.to_euclidean_division_equations; lia).
    rewrite u64_small by lia. apply (Hrest fs1 b (n + 1) nothing); [done| |lia|].
    + split; [lia|]. intros x Hx. destruct (decide (x = b + n)) as [->|]; [done|]. apply Hdata. lia.
    + intros x. rewrite reach_0. unfold nothing. lia.
  - step. pose proof (erased_run fs1 ino b n) as Hspec. cbv zeta in Hspec. rewrite Hfs1 in Hspec.
    eapply runs_mono; [apply Hspec; [done|lia| |by apply readable_put]|].
    { intros x Hx. by apply put_data, Hdata. }
    cbv beta. intros _ fs2 He2. step. unfold log. step. apply (Hrest _ v 1 (fun x => b <= x < b + n)); [exact He2| |lia|].
    + split; [lia|]. intros x Hx. by replace x with v by lia.
    + intros x. rewrite reach_0. lia.
Qed.

Lemma kr_free_data_row ino l fs : blocks_ok (core_of fs) -> no_unreadable (core_of fs) -> row_ok (core_of fs) 0 l -> len l < 4096 ->
  runs (kr_free_data ino l) E (fun _ fs' => erased (clear (core_of fs) l) (core_of fs')
    (row_reach (core_of fs) 0 l) (row_reach (core_of fs) 0 l)) fs.
Proof using All.
  intros Hok Hread Hrow Hlen. unfold kr_free_data. step.
  eapply runs_mono; [apply (free_data_row ino l fs 0 0); [done|done|done| |lia]|].
  { split; [lia|]. intros x Hx. lia. }
  cbv beta. intros [b n] fs1 (F & He & [Hn Hdata] & HF). cbn [fst snd] in *.
  destruct (clear_geo l (core_of fs)) as (_ & _ & Cg & _ & _ & Cd & Cdata).
  step.
  - step. pose proof (erased_run fs1 ino b n) as Hspec. cbv zeta in Hspec.
    eapply runs_mono; [apply Hspec; [apply He|lia| |]|].
    + intros x Hx. apply (erased_data _ _ _ _ x He), Cdata. by apply Hdata.
    + apply (readable_erased _ _ _ _ He). intros g Hg. rewrite Cg in Hg. unfold unreadable. rewrite Cd. by apply Hread.
    + cbv beta. intros _ fs2 He2. unfold log. step.
      eapply erased_weaken; [eapply erased_trans; [exact He|exact He2]| |by intros x [[]|[]]].
      intros x. unfold both. rewrite HF. split; [intros [?|?]; [done|lia]|by left].
  - eapply erased_weaken; [exact He| |done]. intros x. specialize (HF x).
    split; [intros Hx; destruct HF as [HF _]; destruct HF as [?|?]; [by left|done|lia]|].
    intros Hx. destruct HF as [_ HF]. destruct HF as [?|?]; [by left|done|lia].
Qed.

(** *** Rows of tables *)

Lemma elem_slots p from n q : q ∈ slots p from n <-> exists k, 0 <= k < Z.of_nat n /\ q = slot_at p (from + k).
Proof using.
  unfold slots. rewrite list_elem_of_fmap. split.
  - intros (k & -> & Hk%elem_of_seq). exists (Z.of_nat k). split; [lia|done].
  - intros (k & Hk & ->). exists (Z.to_nat k). rewrite Z2Nat.id by lia. split; [done|]. apply elem_of_seq. lia.
Qed.
Lemma slot_at_inj p x y : (forall v, p <> Local v) -> slot_at p x = slot_at p y -> x = y.
Proof using. destruct p as [| |v]; intros Hl; [by intros [=]|by intros [=]|by destruct (Hl v)]. Qed.
Lemma slots_nodup p from n : (forall v, p <> Local v) -> NoDup (slots p from n).
Proof using.
  intros Hl. apply NoDup_fmap_2_strong; [|apply NoDup_seq]. intros x y _ _ He%slot_at_inj; [lia|done].
Qed.
Lemma len_slots p from n : len (slots p from n) = Z.of_nat n.
Proof using. unfold len, slots. by rewrite length_fmap, length_seq. Qed.

(** The pointers [from], ..., [from + n - 1] of the table [v]. *)
Section TableRow.
Variables (c : core) (d : nat) (v from : Z) (m : Z) (n : nat).
Hypothesis Hbits : 10 <= c_bits c.
Hypothesis Hsub : sub_ok c (S d) v.
Hypothesis Hv : v <> 0.
Hypothesis Hfrom : 0 <= from /\ from + Z.of_nat n <= ptrs_of c.

Lemma table_is : indirect_ok c v.
Proof using All. apply (so_table _ _ _ Hsub []); [apply steps_nil|simpl; lia|done]. Qed.
Lemma table_row_val o : 0 <= o < ptrs_of c -> slot_val c (InBlock v o) = Some (table c v o).
Proof using All. intros Ho. apply table_val; [done|apply table_is|done]. Qed.
Lemma table_row_reach b : row_reach c d (slots (InBlock v m) from n) b <->
  exists o, from <= o < from + Z.of_nat n /\ reach c d (table c v o) b.
Proof using All.
  split.
  - intros (p & w & (k & Hk & ->)%elem_slots & Hw & Hr). cbn [slot_at] in Hw. rewrite table_row_val in Hw by lia.
    injection Hw as <-. exists (from + k). split; [lia|done].
  - intros (o & Ho & Hr). exists (InBlock v o), (table c v o). split; [|split; [apply table_row_val; lia|done]].
    apply elem_slots. exists (o - from). split; [lia|]. cbn [slot_at]. f_equal. lia.
Qed.
Lemma table_row : row_ok c d (slots (InBlock v m) from n).
Proof using All.
  split.
  - intros p (k & Hk & ->)%elem_slots. exists (table c v (from + k)). cbn [slot_at]. split; [apply table_row_val; lia|].
    apply sub_child; [done|done|lia].
  - intros b x (k & Hk & [= -> ->])%elem_slots. split_and!; [by apply (so_block _ _ _ Hsub []); [apply steps_nil|]|apply table_is|].
    rewrite table_row_reach. intros (o & Ho & Hr). revert Hr. apply sub_root_apart; [done|done|lia].
  - intros p q w1 w2 b (k1 & H1 & ->)%elem_slots (k2 & H2 & ->)%elem_slots Hne. cbn [slot_at] in *.
    rewrite !table_row_val by lia. intros [= <-] [= <-].
    apply (sub_children_apart c d v); [done|done|lia|lia|]. intros He. apply Hne. by rewrite He.
  - by apply slots_nodup.
Qed.
End TableRow.

(** Clearing pointers of tables writes the tables. *)
Lemma erased_cleared l : forall c, blocks_ok c -> (forall p, p ∈ l -> exists b n, p = InBlock b n /\ data_block c b) ->
  erased c (clear c l) nothing (fun b => exists n, InBlock b n ∈ l).
Proof using.
  induction l as [|p l IH]; intros c Hok Hl; [by apply erased_refl|]. destruct (Hl p ltac:(by left)) as (b & n & -> & Hb).
  assert (Hp : slot_data c (InBlock b n)) by (by intros ? ? [= <- <-]). destruct (put_ok c _ 0 Hok Hp) as [Hok1 Hu1].
  change (clear c (InBlock b n :: l)) with (clear (slot_put c (InBlock b n) 0) l).
  eapply erased_weaken; [eapply (erased_trans _ _ _ nothing (fun x => x = b)); [|apply IH; [done|]]|..].
  - split; try done.
    + intros g Hg. unfold inode_bitmap. rewrite put_bufs; [done|]. intros k [= Hk]. destruct Hb as [_ Hm]. apply Hm.
      exists g. split; [done|]. unfold metadata. auto.
    + intros x Hm Hx. apply put_bufs. intros k [= ->]. by apply Hx.
    + intros x Hx. rewrite Hu1 by done. unfold nothing. tauto.
  - intros q Hq. destruct (Hl q ltac:(by right)) as (b' & n' & -> & Hb'). exists b', n'. split; [done|]. by apply put_data.
  - intros x. unfold both, nothing. tauto.
  - intros x [->|[k Hk]]; [exists n; by left|exists k; by right].
Qed.

Hypothesis Hgood : forall b, sb_getblk_ok b && bh_read_ok b = true.
Lemma all_readable c : no_unreadable c.
Proof using Hgood. intros g _. unfold unreadable. by rewrite Hgood. Qed.
Lemma sb_bread_ok b fs : runs (sb_bread b) E (fun r fs' => core_of fs' = core_of fs /\ r = Some b) fs.
Proof using Hgood.
  call (sb_bread_spec E b). intros r fs' [H1 [->|[_ Hr]]]; [done|].
  specialize (Hgood b). rewrite Hr in Hgood. by rewrite andb_false_r in Hgood.
Qed.

Lemma table_size fs : 10 <= fs_blocksize_bits fs -> KR_ADDR_PER_BLOCK fs = ptrs_of (core_of fs).
Proof using.
  intros Hb. unfold ptrs_of. change (c_bits (core_of fs)) with (fs_blocksize_bits fs).
  unfold KR_ADDR_PER_BLOCK, fs_blocksize. rewrite Z.shiftl_mul_pow2 by lia.
  replace (fs_blocksize_bits fs) with (2 + (fs_blocksize_bits fs - 2)) at 1 by lia.
  rewrite Z.pow_add_r by lia. rewrite Z.mul_1_l, Z.mul_comm. apply Z.div_mul. lia.
Qed.
Lemma ptrs_of_range c : blocks_ok c -> 256 <= ptrs_of c <= 1024.
Proof using. intros Hok. pose proof (ck_bits _ (bo_core _ Hok)). apply (ptrs_range _ (c_bits c - 2)); [lia|done]. Qed.

(** Freeing subtrees frees the blocks in them. *)
Lemma kr_free_branches_spec ino d : forall l fs, blocks_ok (core_of fs) ->
  row_ok (core_of fs) d l -> len l < 4096 ->
  runs (kr_free_branches d ino l) E (fun _ fs' => erased (clear (core_of fs) l) (core_of fs')
    (row_reach (core_of fs) d l) (row_reach (core_of fs) d l)) fs.
Proof using All.
  induction d as [|d IH]; intros l fs Hok Hrow Hlen; cbn [kr_free_branches].
  { apply kr_free_data_row; [done|apply all_readable|done|done]. }
  apply each_spec; [|done|apply all_readable|done]. clear l fs Hok Hrow Hlen.
  intros fs p v Hok _ Hrow Hv. set (c := core_of fs) in *. step. run slot_get_run; [exact Hv|].
  destruct (ro_val _ _ _ Hrow p ltac:(by left)) as (w & Hw & Hsub). assert (w = v) as -> by congruence. clear Hw.
  destruct (Z.eqb_spec v 0) as [->|Hnz].
  { step. change (core_of fs) with c. rewrite put_zero; [|done|by intros b n ->; apply (ro_own _ _ _ Hrow b n); left].
    eapply erased_weaken; [by apply (erased_refl c nothing)| |done]. intros b. split; [done|apply reach_zero]. }
  step. call (slot_clear_spec p v fs Hv). intros _ fs1 Hfs1. fold c in Hfs1. set (c1 := slot_put c p 0) in *.
  assert (Hslot : slot_data c p) by (intros b n ->; by apply (ro_own _ _ _ Hrow b n); left).
  destruct (put_ok c p 0 Hok Hslot) as [Hok1 _]. fold c1 in Hok1.
  destruct (put_geo c p 0) as (Qb & _). fold c1 in Qb.
  assert (Hb1 : forall b, reach c (S d) v b -> c_bufs c1 !! b = c_bufs c !! b).
  { intros b Hb. apply put_bufs. intros n ->. destruct (ro_own _ _ _ Hrow b n ltac:(by left)) as (_ & _ & H3). apply H3.
    apply (row_reach_cons c (S d) _ v [] b Hv). by left. }
  assert (Hdata1 : forall b, data_block c1 b <-> data_block c b) by (intros b; apply put_data).
  pose proof (sub_same c c1 Qb Hdata1 (S d) v Hb1 Hsub) as Hsub1. pose proof (reach_same c c1 Qb (S d) v Hb1) as Hreach1.
  pose proof (ck_bits _ (bo_core _ Hok1)) as Hbits. pose proof (ptrs_of_range c1 Hok1) as Hptrs.
  step. call (sb_bread_ok v fs1). intros r fs2 [Hfs2 ->]. rewrite Hfs1 in Hfs2. step. step. cbn [id]. step.
  rewrite (table_size fs2) by (change (fs_blocksize_bits fs2) with (c_bits (core_of fs2)); rewrite Hfs2; lia).
  rewrite Hfs2. set (row := slots (InBlock v 0) 0 (Z.to_nat (ptrs_of c1))).
  assert (Hin : 0 <= 0 /\ 0 + Z.of_nat (Z.to_nat (ptrs_of c1)) <= ptrs_of c1) by lia.
  pose proof (table_row c1 d v 0 0 _ (proj1 Hbits) Hsub1 Hnz Hin) as Hrow1.
  pose proof (table_row_reach c1 d v 0 0 _ (proj1 Hbits) Hsub1 Hnz Hin) as Hrr. fold row in Hrow1, Hrr.
  assert (Hvd : data_block c1 v) by (apply (so_block _ _ _ Hsub1 [] (steps_nil _ _)); done).
  call (IH row fs2); [by rewrite Hfs2|by rewrite Hfs2|unfold row; rewrite len_slots; lia|].
  rewrite Hfs2. intros _ fs3 He3. unfold log. step. step. step.
  pose proof (erased_cleared row c1 Hok1) as Hcl. destruct (clear_geo row c1) as (_ & _ & _ & _ & _ & _ & Cdata).
  pose proof (erased_run (set_fs_trace (bforget v :: fs_trace fs3) fs3) ino v 1) as Hfree. cbv zeta in Hfree.
  eapply runs_mono; [apply Hfree; [apply He3|lia| |apply all_readable]|].
  { intros x Hx. replace x with v by lia. apply (erased_data _ _ _ _ v He3). by apply Cdata. }
  cbv beta. intros _ fs4 He4. step. change (core_of (set_fs_trace _ fs4)) with (core_of fs4).
  eapply erased_weaken; [eapply erased_trans; [|eapply erased_trans; [exact He3|exact He4]]|..].
  - apply Hcl. intros q (k & Hk & ->)%elem_slots. by exists v, (0 + k).
  - intros b. unfold both, nothing. rewrite Hrr, <- (Hreach1 b), reach_S by done.
    replace (0 + Z.of_nat (Z.to_nat (ptrs_of c1))) with (ptrs_of c1) by lia.
    split; [intros [[]|[?|?]]; [by right|left; lia]|intros [->|?]; [right; right; lia|right; by left]].
  - intros b. unfold both, nothing. rewrite Hrr, <- (Hreach1 b), reach_S by done.
    replace (0 + Z.of_nat (Z.to_nat (ptrs_of c1))) with (ptrs_of c1) by lia.
    intros [[n (k & _ & [= -> _])%elem_slots]|[?|[]]]; [by left|by right].
Qed.

End Facts.
