(* ===== verification/Prune.v ===== *)
(** * Cutting the tree of a file

    Freeing the subtrees at a row of pointers takes the paths through them out of
    the tree of the file, frees their blocks, and keeps the invariant of the file. *)

From S2P Require Import Prelude Bytes Bits Kr Rsv Bitmap Alloc State Balloc BallocFacts NewBlocks InodeFlags Ialloc BlockMap PathFacts BlockMapFacts AllocBranch FileTree BuildBranch GetBlocks Truncate FreeData FreeTree.

(** ** Trees that have lost paths *)

(** The blocks at the paths of [gone]. *)
Definition lost (c : core) (i : inode) (gone : list Z -> bool) (b : Z) : Prop :=
  exists q, stem (ptrs_of c) q /\ gone q = true /\ tree c i q = b /\ b <> 0.
(** The blocks of the file. *)
Definition owned (c : core) (i : inode) : Z -> Prop := lost c i (fun _ => true).

(** The tree has lost the paths of [gone] and their blocks are free; nothing but
    blocks of the file has been written. *)
Record pruned (c c' : core) (ino : Z) (i i' : inode) (gone : list Z -> bool) : Prop := {
  pn_tree : tree_ok c' ino i';
  pn_file : exists l, i' = set_KR_I (set_i_data l (KR_I i)) i;
  pn_paths : forall q, stem (ptrs_of c) q -> tree c' i' q = if gone q then 0 else tree c i q;
  pn_erased : erased (set_c_inodes (c_inodes c') c) c' (lost c i gone) (owned c i);
  pn_inodes : forall j, j <> ino -> c_inodes c' !! j = c_inodes c !! j;
}.

Lemma lost_mono c i g1 g2 b : (forall q, g1 q = true -> g2 q = true) -> lost c i g1 b -> lost c i g2 b.
Proof. intros Hg (q & H1 & H2 & H3). exists q. auto. Qed.

Lemma erased_inodes c c' L W ins : erased c c' L W -> erased (set_c_inodes ins c) (set_c_inodes ins c') L W.
Proof.
  intros [O F P M B U]. split; [by apply blocks_ok_inodes| |exact P|exact M|exact B|exact U].
  rewrite F at 1. done.
Qed.
Lemma inodes_id c : set_c_inodes (c_inodes c) c = c.
Proof. by destruct c. Qed.

Section Pruned.
Variables (c : core) (ino : Z) (i : inode).

Lemma pruned_geo c' i' gone : pruned c c' ino i i' gone -> ptrs_of c' = ptrs_of c /\ blocks_ok c' /\
  forall b, data_block c' b <-> data_block c b.
Proof.
  intros [_ _ _ He _]. destruct (erased_geo _ _ _ _ He) as (Hb & _). split; [unfold ptrs_of; by rewrite Hb|].
  split; [apply He|]. intros b. by rewrite (erased_data _ _ _ _ b He).
Qed.

Lemma pruned_refl : blocks_ok c -> tree_ok c ino i -> pruned c c ino i i (fun _ => false).
Proof.
  intros Hok Ht. split; [done| |done| |done].
  - exists (i_data (KR_I i)). destruct i as [? ? ? ? ? ? ? ? ? ? ? ? ? ? ei]. by destruct ei.
  - rewrite inodes_id. eapply erased_weaken; [by apply (erased_refl c nothing)| |done].
    intros b. split; [done|]. by intros (q & _ & ? & _).
Qed.

Lemma pruned_ext c' i' g1 g2 : pruned c c' ino i i' g1 -> (forall q, stem (ptrs_of c) q -> g1 q = g2 q) ->
  pruned c c' ino i i' g2.
Proof.
  intros [H1 H2 H3 H4 H5] Hg. split; try done.
  - intros q Hq. by rewrite <- Hg, H3.
  - eapply erased_weaken; [exact H4| |done]. intros b.
    split; intros (q & Hq & Hgq & Hr); exists q; (split; [done|]); (split; [|done]); [by rewrite <- Hg|by rewrite Hg].
Qed.

Lemma pruned_trans c1 c2 i1 i2 g1 g2 : pruned c c1 ino i i1 g1 -> pruned c1 c2 ino i1 i2 g2 ->
  pruned c c2 ino i i2 (fun q => g1 q || g2 q).
Proof.
  intros P1 P2. destruct (pruned_geo _ _ _ P1) as (Gp & _ & _). destruct P1 as [T1 [l1 F1] Q1 E1 I1], P2 as [T2 [l2 F2] Q2 E2 I2].
  rewrite Gp in Q2.
  assert (Hlost : forall b g, lost c1 i1 g b <-> lost c i (fun q => negb (g1 q) && g q) b).
  { intros b g. unfold lost. rewrite Gp. split; intros (q & Hq & Hg & Ht & Hb).
    - rewrite Q1 in Ht by done. exists q. destruct (g1 q); [congruence|]. by rewrite Hg.
    - apply andb_true_iff in Hg as [Hg1%negb_true_iff Hg2]. exists q. rewrite Q1 by done. by rewrite Hg1. }
  split; [done| | | |].
  - exists l2. rewrite F2, F1. done.
  - intros q Hq. rewrite Q2, Q1 by done. by destruct (g1 q), (g2 q).
  - eapply erased_weaken; [eapply erased_trans; [exact (erased_inodes _ _ _ _ (c_inodes c2) E1)|]|..].
    + exact E2.
    + intros b. unfold both. rewrite Hlost. split.
      * intros [Hl|Hl]; revert Hl; apply lost_mono; intros q Hq; [by rewrite Hq|].
        apply andb_true_iff in Hq as [_ ->]. apply orb_true_r.
      * intros (q & Hq & Hg & Hr). destruct (g1 q) eqn:Hg1; [left|right]; exists q; (split; [done|]).
        -- done.
        -- rewrite Hg1. split; [exact Hg|done].
    + intros b [Hb|Hb]; [done|]. unfold owned in Hb. apply Hlost in Hb. revert Hb. by apply lost_mono.
  - intros j Hj. by rewrite I2, I1.
Qed.
End Pruned.

(** ** Clearing a row *)

#[export] Instance slot_eq_dec : EqDecision slot.
Proof. solve_decision. Defined.

Lemma slot_put_same c p : is_Some (slot_val c p) -> (forall x, p <> Local x) -> slot_val (slot_put c p 0) p = Some 0.
Proof.
  intros Hp Hl. rewrite slot_put_val by (done || lia). replace (same_table p p) with true.
  - by rewrite Z.eqb_refl.
  - symmetry. pose proof (same_table_refl p 0 Hl) as Hs. by rewrite slot_add_0 in Hs.
Qed.
Lemma clear_val l q : forall c, (forall p, p ∈ l -> is_Some (slot_val c p) /\ forall x, p <> Local x) ->
  (q ∈ l -> slot_val (clear c l) q = Some 0) /\ (q ∉ l -> slot_val (clear c l) q = slot_val c q).
Proof.
  induction l as [|p l IH]; intros c Hl; [split; [by intros ?%elem_of_nil|done]|].
  destruct (Hl p ltac:(by left)) as [Hp Hnl]. change (clear c (p :: l)) with (clear (slot_put c p 0) l).
  assert (Hval : forall q, slot_val (slot_put c p 0) q = if bool_decide (p = q) then Some 0 else slot_val c q).
  { intros q'. destruct (bool_decide_reflect (p = q')) as [<-|Hne]; [by apply slot_put_same|by apply slot_put_other]. }
  destruct (IH (slot_put c p 0)) as [H1 H2].
  { intros p' Hp'. destruct (Hl p' ltac:(by right)). rewrite Hval. split; [|done]. by destruct (bool_decide _). }
  split.
  - intros Hq. destruct (decide (q ∈ l)) as [|Hn]; [by apply H1|]. rewrite H2, Hval by done.
    apply elem_of_cons in Hq as [->|]; [|done]. by rewrite bool_decide_eq_true_2.
  - intros [Hne Hn]%not_elem_of_cons. rewrite H2, Hval by done. by rewrite bool_decide_eq_false_2 by congruence.
Qed.
Lemma clear_frame p l : forall c, (forall q, q ∈ l -> exists k, q = slot_add p k) -> row_frame c (clear c l) p.
Proof.
  induction l as [|q l IH]; intros c Hl; [apply row_frame_refl|]. destruct (Hl q ltac:(by left)) as [k ->].
  change (clear c (slot_add p k :: l)) with (clear (slot_put c (slot_add p k) 0) l).
  eapply row_frame_trans; [apply (row_frame_add _ _ _ k), row_frame_put|]. apply IH. intros q Hq. apply Hl. by right.
Qed.

(** The paths through the entries [o], ..., [o + n - 1] of the table at [s]. *)
Fixpoint in_row (s : list Z) (o n : Z) (q : list Z) : bool :=
  match s, q with
  | [], x :: _ => (o <=? x) && (x <? o + n)
  | a :: s', x :: q' => (a =? x) && in_row s' o n q'
  | _, [] => false
  end.
Lemma in_row_iff s o n q : in_row s o n q = true <-> exists k r, 0 <= k < n /\ q = s ++ (o + k) :: r.
Proof.
  revert q. induction s as [|a s IH]; intros [|x q]; cbn [in_row app]; try (split; [done|]; by intros (k & r & _ & ?)).
  - rewrite andb_true_iff, Z.leb_le, Z.ltb_lt. split.
    + intros Hx. exists (x - o), q. split; [lia|]. f_equal. lia.
    + intros (k & r & Hk & [= -> ->]). lia.
  - rewrite andb_true_iff, Z.eqb_eq, IH. split.
    + intros [-> (k & r & Hk & ->)]. by exists k, r.
    + intros (k & r & Hk & [= -> ->]). split; [done|]. by exists k, r.
Qed.
Lemma in_row_snoc s o n q x : in_row s o n (q ++ [x]) = true <-> in_row s o n q = true \/ q = s /\ o <= x < o + n.
Proof.
  rewrite !in_row_iff. split.
  - intros (k & r & Hk & He). destruct r as [|y r _] using rev_ind.
    + apply app_inj_tail in He as [-> ->]. right. split; [done|lia].
    + rewrite app_comm_cons, app_assoc in He. apply app_inj_tail in He as [-> ->]. left. by exists k, r.
  - intros [(k & r & Hk & ->)|[-> Hx]].
    + exists k, (r ++ [x]). split; [done|]. by rewrite <- app_assoc.
    + exists (x - o), []. split; [lia|]. do 2 f_equal. lia.
Qed.

Section Row.
Variables (c : core) (ino : Z) (i : inode) (pre : list Z) (o n : Z) (d : nat).
Hypothesis Hok : blocks_ok c.
Hypothesis Ht : tree_ok c ino i.
Hypothesis Hn : 0 <= n.
Hypothesis Hstem : forall k r, 0 <= k < n -> stem (ptrs_of c) (pre ++ (o + k) :: r) <-> steps c d r.
Hypothesis Hpre : pre <> [] -> tree c i pre <> 0.
Let p := slot_of c ino i pre 0.
Let l := slots p o (Z.to_nat n).

Lemma row_elem q : q ∈ l <-> exists k, 0 <= k < n /\ q = slot_of c ino i pre (o + k).
Proof using All.
  unfold l. rewrite elem_slots, Z2Nat.id by done. split; intros (k & Hk & ->); exists k; (split; [done|]); unfold p; by destruct pre.
Qed.
Lemma row_bits : 10 <= c_bits c.
Proof using All. apply (ck_bits _ (bo_core _ Hok)). Qed.
Lemma row_stem k : 0 <= k < n -> stem (ptrs_of c) (pre ++ [o + k]).
Proof using All. intros Hk. apply Hstem; [done|apply steps_nil]. Qed.
Lemma row_slot k : 0 <= k < n -> slot_val c (slot_of c ino i pre (o + k)) = Some (tree c i (pre ++ [o + k])).
Proof using All. intros Hk. apply slot_of_val; [done|apply row_bits|by apply row_stem|done]. Qed.
Lemma row_walk k r : walk c (tree c i (pre ++ [o + k])) r = tree c i (pre ++ (o + k) :: r).
Proof using All. rewrite <- tree_app by (by destruct pre). by rewrite <- app_assoc. Qed.
(** The table of the row. *)
Lemma row_pre k : 0 <= k < n -> pre <> [] -> stem (ptrs_of c) pre /\ ~ path_ok (ptrs_of c) pre.
Proof using All. intros Hk Hne. apply (stem_inner _ pre [o + k] Hne); [done|by apply row_stem]. Qed.

Lemma row_sub k : 0 <= k < n -> sub_ok c d (tree c i (pre ++ [o + k])).
Proof using All.
  intros Hk. split.
  - intros r Hr. rewrite row_walk. intros Hz. apply (tk_block _ _ _ Ht); [by apply Hstem|done].
  - intros r Hr Hl. rewrite row_walk. intros Hz. apply (tk_table _ _ _ Ht); [by apply Hstem| |done].
    assert (Hr0 : steps c d (r ++ [0])).
    { destruct Hr as [Hr1 Hr2]. split; [rewrite length_app; simpl; lia|]. apply Forall_app. split; [done|].
      pose proof (ptrs_of_range c Hok). repeat constructor; lia. }
    apply (stem_inner (ptrs_of c) (pre ++ (o + k) :: r) [0]); [by destruct pre|done|].
    rewrite <- app_assoc. by apply Hstem.
  - intros r1 r2 H1 H2. rewrite !row_walk. intros Hz He. apply (tk_inj _ _ _ Ht) in He; [|by apply Hstem|by apply Hstem|done].
    by apply app_inv_head in He as [=].
Qed.

Lemma row_blocks b : row_reach c d l b <-> lost c i (in_row pre o n) b.
Proof using All.
  split.
  - intros (q & v & (k & Hk & ->)%row_elem & Hv & r & Hr & Hw & Hb). rewrite row_slot in Hv by done. injection Hv as <-.
    rewrite row_walk in Hw. exists (pre ++ (o + k) :: r). split; [by apply Hstem|]. split; [|done].
    apply in_row_iff. by exists k, r.
  - intros (q & Hq & (k & r & Hk & ->)%in_row_iff & Hw & Hb). exists (slot_of c ino i pre (o + k)), (tree c i (pre ++ [o + k])).
    split; [apply row_elem; by exists k|]. split; [by apply row_slot|]. exists r. rewrite row_walk.
    split; [by apply (Hstem k)|done].
Qed.

Lemma row_is : row_ok c d l.
Proof using All.
  assert (Hown : forall b x, InBlock b x ∈ l -> exists k, 0 <= k < n /\ pre <> [] /\ b = tree c i pre).
  { intros b x (k & Hk & He)%row_elem. exists k. destruct pre as [|a pre'] eqn:Hp; [done|]. rewrite <- Hp in *.
    assert (slot_of c ino i pre (o + k) = InBlock (tree c i pre) (o + k)) as Hs by by rewrite Hp. rewrite Hs in He.
    injection He as -> _. split; [done|]. split; [by rewrite Hp|done]. }
  split.
  - intros q (k & Hk & ->)%row_elem. exists (tree c i (pre ++ [o + k])). split; [by apply row_slot|by apply row_sub].
  - intros b x Hx. destruct (Hown b x Hx) as (k & Hk & Hne & ->). destruct (row_pre k Hk Hne) as [Hs Hnp].
    pose proof (Hpre Hne) as Hz. split; [by apply (tk_block _ _ _ Ht)|]. split; [by apply (tk_table _ _ _ Ht)|].
    rewrite row_blocks. intros (q & Hq & (k' & r & Hk' & ->)%in_row_iff & He & _).
    assert (pre = pre ++ (o + k') :: r) as Hbad by (by apply (tk_inj _ _ _ Ht)).
    rewrite <- (app_nil_r pre) in Hbad at 1. by apply app_inv_head in Hbad.
  - intros q1 q2 v1 v2 b (k1 & H1 & ->)%row_elem (k2 & H2 & ->)%row_elem Hne. rewrite !row_slot by done.
    intros [= <-] [= <-] (r1 & S1 & W1 & Hb) (r2 & S2 & W2 & _). rewrite row_walk in W1, W2.
    assert (pre ++ (o + k1) :: r1 = pre ++ (o + k2) :: r2) as He.
    { apply (tk_inj _ _ _ Ht); [by apply Hstem|by apply Hstem|congruence|congruence]. }
    apply app_inv_head in He as [= He2 _]. apply Hne. by rewrite He2.
  - apply slots_nodup. unfold p. by destruct pre.
Qed.

(** The row has been cleared and its subtrees freed. *)
Variable c' : core.
Hypothesis Her : erased (clear c l) c' (row_reach c d l) (row_reach c d l).

Lemma row_frame_clear : row_frame c (clear c l) p.
Proof using All. apply clear_frame. intros q (k & Hk & ->)%row_elem. exists (o + k). unfold p. by destruct pre. Qed.

Lemma row_cleared q : (q ∈ l -> slot_val (clear c l) q = Some 0) /\ (q ∉ l -> slot_val (clear c l) q = slot_val c q).
Proof using All.
  apply clear_val. intros q' (k & Hk & ->)%row_elem. rewrite row_slot by done. split; [done|]. by destruct pre.
Qed.

(** The blocks of the paths that stay are not among those freed. *)
Lemma row_keep q : stem (ptrs_of c) q -> in_row pre o n q = false -> ~ lost c i (in_row pre o n) (tree c i q).
Proof using All.
  intros Hq Hg (q' & Hq' & Hg' & He & Hz). assert (q = q') by (by apply (tk_inj _ _ _ Ht)). subst q'. congruence.
Qed.
(** Their tables are as the clearing of the row has left them. *)
Lemma row_table q : stem (ptrs_of c) q -> ~ path_ok (ptrs_of c) q -> in_row pre o n q = false -> tree c i q <> 0 ->
  indirect_ok (clear c l) (tree c i q) /\ c_bufs c' !! tree c i q = c_bufs (clear c l) !! tree c i q.
Proof using All.
  intros Hq Hnp Hg Hz. split; [eapply row_indirect; [apply row_frame_clear|by apply (tk_table _ _ _ Ht)]|].
  apply (er_bufs _ _ _ _ Her); [|rewrite row_blocks; by apply row_keep].
  destruct (clear_geo l c) as (_ & _ & _ & _ & _ & _ & Cdata). apply (Cdata (tree c i q)). by apply (tk_block _ _ _ Ht).
Qed.

Lemma row_paths i' : c_inodes (clear c l) !! ino = Some i' -> len (i_data (KR_I i')) = KR_N_BLOCKS ->
  forall q, stem (ptrs_of c) q -> tree c' i' q = if in_row pre o n q then 0 else tree c i q.
Proof using All.
  intros Hi' Hlen. destruct (clear_geo l c) as (Cb & _).
  intros q. induction q as [|x q IH] using rev_ind; intros Hs; [by destruct Hs|].
  destruct (decide (q = [])) as [->|Hq].
  - rewrite app_nil_l, !tree_one. pose proof (stem_first _ _ _ Hs) as Hx.
    pose proof (pointer_val _ _ _ x Hi' Hlen Hx) as Hv. destruct (row_cleared (InInode ino x)) as [R1 R2].
    destruct (in_row pre o n [x]) eqn:Hg.
    + apply (in_row_snoc _ _ _ [] x) in Hg as [Hg|[He Hx']]; [by apply in_row_iff in Hg as (k & r & _ & He); destruct pre|].
      rewrite R1 in Hv; [congruence|]. apply row_elem. exists (x - o). split; [lia|]. rewrite <- He. cbn. f_equal. lia.
    + rewrite R2 in Hv.
      * rewrite (pointer_val c ino i) in Hv by (done || apply Ht). congruence.
      * intros (k & Hk & He)%row_elem. destruct pre as [|a pre'] eqn:Hp; [|done]. injection He as ->.
        cbn [in_row] in Hg. lia.
  - destruct (stem_inner _ q [x] Hq ltac:(done) Hs) as [Hsq Hnq]. rewrite !tree_snoc by done. cbv zeta. rewrite (IH Hsq).
    pose proof (stem_index _ _ _ Hq Hs) as Hx. destruct (in_row pre o n q) eqn:Hg.
    + rewrite (proj2 (in_row_snoc pre o n q x)) by by left. done.
    + destruct (Z.eqb_spec (tree c i q) 0) as [|Hz]; [by destruct (in_row pre o n (q ++ [x]))|].
      destruct (row_table q Hsq Hnq Hg Hz) as [Hi Hbq]. set (b := tree c i q) in *.
      assert (Htab : table c' b x = table (clear c l) b x) by (unfold table; by rewrite Hbq). rewrite Htab.
      pose proof row_bits as Hbits.
      assert (Hv : slot_val (clear c l) (InBlock b x) = Some (table (clear c l) b x)).
      { apply table_val; [by rewrite Cb|done|]. unfold ptrs_of. by rewrite Cb. }
      assert (Hvc : slot_val c (InBlock b x) = Some (table c b x)) by (apply table_val; [done|by apply (tk_table _ _ _ Ht)|done]).
      destruct (row_cleared (InBlock b x)) as [R1 R2].
      destruct (in_row pre o n (q ++ [x])) eqn:Hgx.
      * apply in_row_snoc in Hgx as [Hgx|[He Hx']]; [congruence|]. rewrite R1 in Hv; [congruence|].
        apply row_elem. exists (x - o). split; [lia|]. rewrite <- He. replace (o + (x - o)) with x by lia. by destruct q.
      * rewrite R2 in Hv; [congruence|]. intros (k & Hk & He)%row_elem.
        destruct (decide (pre = [])) as [Hp|Hp]; [by rewrite Hp in He|].
        assert (slot_of c ino i pre (o + k) = InBlock (tree c i pre) (o + k)) as Hs' by (by destruct pre). rewrite Hs' in He.
        injection He as He ->. destruct (row_pre k Hk Hp) as [Hsp _].
        assert (q = pre) as -> by (by apply (tk_inj _ _ _ Ht)).
        assert (in_row pre o n (pre ++ [o + k]) = true); [|congruence]. apply in_row_snoc. right. split; [done|lia].
Qed.

(** The row has been written, and nothing freed. *)
Lemma row_erased : erased (set_c_inodes (c_inodes (clear c l)) c) (clear c l) nothing (owned c i).
Proof using All.
  destruct (clear_geo l c) as (Cb & _ & Cg & Cf & Cn & Cd & Cdata).
  assert (Hsd : forall s, s ∈ l -> slot_data c s) by (intros s Hs b x ->; by apply (ro_own _ _ _ row_is b x)).
  destruct (clear_ok l c Hok Hsd) as [Hok1 Hcu].
  split; [done| | | | |].
  - pose proof (rf_frame _ _ _ row_frame_clear) as F. revert F. generalize (clear c l). intros x F.
    destruct c, x. cbn in *. injection F. intros. by subst.
  - intros g Hg. change (group_desc (set_c_inodes (c_inodes (clear c l)) c) g) with (group_desc c g). rewrite Cd. done.
  - intros g Hg. unfold inode_bitmap. rewrite Cd. rewrite clear_bufs; [done|].
    intros x Hx. destruct (Hsd _ Hx _ x eq_refl) as [_ Hm]. apply Hm. exists g. split; [done|]. unfold metadata. auto.
  - intros b Hb Hw. rewrite clear_bufs; [done|]. intros x (k & Hk & He)%row_elem. apply Hw.
    destruct (decide (pre = [])) as [Hp|Hp]; [by rewrite Hp in He|].
    assert (slot_of c ino i pre (o + k) = InBlock (tree c i pre) (o + k)) as Hs' by (by destruct pre). rewrite Hs' in He.
    injection He as -> _. exists pre. destruct (row_pre k Hk Hp) as [Hsp _]. split; [done|]. auto.
  - intros b Hb. rewrite Hcu by done. unfold nothing. change (block_used (set_c_inodes _ c) b) with (block_used c b). tauto.
Qed.

Lemma row_pruned : exists i', pruned c c' ino i i' (in_row pre o n).
Proof using All.
  destruct (row_inode c (clear c l) p ino i row_frame_clear) as (i' & Hi' & Hset & Hlen & Hrange); [apply Ht..|].
  destruct (clear_geo l c) as (Cb & _ & Cg & Cf & Cn & Cd & Cdata). destruct (erased_geo _ _ _ _ Her) as (Gb & _ & _ & _ & Gi & _).
  assert (Hptrs : ptrs_of c' = ptrs_of c) by (unfold ptrs_of; by rewrite Gb, Cb).
  pose proof (row_paths i' Hi' Hlen) as Hpaths.
  exists i'. split.
  - split; rewrite ?Hptrs; try done.
    + by rewrite Gi.
    + intros q Hq. rewrite Hpaths by done. destruct (in_row pre o n q) eqn:Hg; [done|]. intros Hz.
      destruct (tk_block _ _ _ Ht q Hq Hz) as [Hd Hu]. assert (Hd' : data_block (clear c l) (tree c i q)) by by apply Cdata.
      split; [by apply (erased_data _ _ _ _ _ Her)|]. apply (er_used _ _ _ _ Her); [apply Hd'|].
      destruct (clear_ok l c Hok) as [_ Hcu].
      { intros s Hs b x ->. by apply (ro_own _ _ _ row_is b x). }
      rewrite Hcu by apply Hd. split; [done|]. rewrite row_blocks. by apply row_keep.
    + intros q Hq Hnp. rewrite Hpaths by done. destruct (in_row pre o n q) eqn:Hg; [done|]. intros Hz.
      destruct (row_table q Hq Hnp Hg Hz) as [(dd & Hd & Hl & Hy) Hb]. exists dd. by rewrite Hb, Gb.
    + intros q1 q2 H1 H2. rewrite !Hpaths by done. destruct (in_row pre o n q1), (in_row pre o n q2); try done. by apply Ht.
  - done.
  - done.
  - rewrite Gi. eapply erased_weaken; [eapply erased_trans; [exact row_erased|exact Her]|..].
    + intros b. unfold both, nothing. rewrite row_blocks. tauto.
    + intros b [Hb|Hb%row_blocks]; [done|]. revert Hb. by apply lost_mono.
  - intros j Hj. rewrite Gi. apply row_frame_clear. intros x Hx. apply Hj. unfold p in Hx. destruct pre; [by injection Hx|done].
Qed.
End Row.
