(* ===== verification/TruncateFacts.v ===== *)
(** * What truncation does to the tree of a file

    The parts of [truncate_blocks]: the subtrees at the ends of the inode, the
    branch shared with the blocks that stay, and the ends of its tables. *)

From S2P Require Import Prelude Bytes Bits Kr Rsv Bitmap Alloc State Balloc BallocFacts NewBlocks InodeFlags Ialloc BlockMap PathFacts BlockMapFacts AllocBranch FileTree BuildBranch GetBlocks Truncate FreeData FreeTree Prune.

(** ** The shape of the tree *)

(** The number of tables below a pointer of the inode. *)
Definition levels (a : Z) : nat :=
  if a <? KR_IND_BLOCK then 0 else if a =? KR_IND_BLOCK then 1 else if a =? KR_DIND_BLOCK then 2 else 3.

Lemma levels_eq a : levels a = if a <? 12 then 0%nat else if a =? 12 then 1%nat else if a =? 13 then 2%nat else 3%nat.
Proof. done. Qed.
(** The first block below a stem. *)
Lemma zeros_path ptrs a q : 1 <= ptrs -> 0 <= a < KR_N_BLOCKS -> (length q <= levels a)%nat ->
  Forall (fun o => 0 <= o < ptrs) q -> path_ok ptrs ((a :: q) ++ repeat 0 (levels a - length q)).
Proof.
  intros Hp Ha Hl Hq. change KR_N_BLOCKS with 15 in Ha. rewrite levels_eq in *.
  destruct q as [|x [|y [|z [|w q]]]]; rewrite ?Forall_cons in Hq;
    destruct (Z.ltb_spec a 12), (Z.eqb_spec a 12), (Z.eqb_spec a 13); simpl in *;
    unfold KR_TIND_BLOCK, KR_DIND_BLOCK, KR_IND_BLOCK, KR_NDIR_BLOCKS in *; lia.
Qed.
Lemma stem_iff ptrs a q : 1 <= ptrs ->
  stem ptrs (a :: q) <-> 0 <= a < KR_N_BLOCKS /\ (length q <= levels a)%nat /\ Forall (fun o => 0 <= o < ptrs) q.
Proof.
  intros Hp. split.
  - intros [_ [r Hr]]. change KR_N_BLOCKS with 15. rewrite levels_eq.
    destruct q as [|x [|y [|z [|w q]]]]; destruct r as [|x1 [|x2 [|x3 [|x4 r]]]]; simpl in Hr; try done;
      unfold KR_TIND_BLOCK, KR_DIND_BLOCK, KR_IND_BLOCK, KR_NDIR_BLOCKS in *; rewrite ?Forall_cons, Forall_nil;
      destruct (Z.ltb_spec a 12), (Z.eqb_spec a 12), (Z.eqb_spec a 13); simpl; lia.
  - intros (Ha & Hl & Hq). split; [done|]. eexists. by apply zeros_path.
Qed.

(** The paths through an entry. *)
Lemma stem_below c s x r : 1 <= ptrs_of c -> stem (ptrs_of c) (s ++ [x]) ->
  stem (ptrs_of c) (s ++ x :: r) <-> steps c (levels (hd x s) - length s) r.
Proof.
  intros Hp Hs. unfold steps. destruct s as [|a s]; cbn [app hd] in *.
  - apply stem_iff in Hs as (Ha & _ & _); [|done]. rewrite stem_iff by done. simpl length.
    split; [intros (_ & ? & ?); split; [lia|done]|intros [? ?]; split_and!; [lia..|done]].
  - apply stem_iff in Hs as (Ha & Hl & [Hf1 [Hx _]%Forall_cons]%Forall_app); [|done].
    rewrite stem_iff, length_app, Forall_app, Forall_cons by done. rewrite length_app in Hl. simpl in *.
    split; [intros (_ & ? & _ & _ & ?); split; [lia|done]|intros [? ?]; split; [done|split; [lia|done]]].
Qed.

(** ** The order of paths *)

(** [q] leaves [s] at a greater offset. *)
Fixpoint after (s q : list Z) : bool :=
  match s, q with
  | o :: s', x :: q' => (o <? x) || (o =? x) && after s' q'
  | _, _ => false
  end.
(** It does below the inode. *)
Definition ends (s q : list Z) : bool :=
  match s, q with
  | o :: s', x :: q' => (o =? x) && after s' q'
  | _, _ => false
  end.

Lemma after_irrefl s : after s s = false.
Proof. induction s as [|o s IH]; cbn; [done|]. rewrite IH. lia. Qed.
Lemma after_asym s : forall q, after s q = true -> after q s = false.
Proof. induction s as [|o s IH]; intros [|x q]; cbn; try done. intros Ha. specialize (IH q). destruct (after s q), (after q s); lia. Qed.
Lemma after_behind u s q : after (u ++ s) (u ++ q) = after s q.
Proof. induction u as [|a u IH]; cbn; [done|]. by rewrite IH, Z.ltb_irrefl, Z.eqb_refl. Qed.
Lemma after_split s : forall q, after s q = true -> exists u o x s' q', s = u ++ o :: s' /\ q = u ++ x :: q' /\ o < x.
Proof.
  induction s as [|o s IH]; intros [|x q]; cbn; try done. destruct (Z.ltb_spec o x) as [Hlt|Hge]; cbn [orb].
  - intros _. by exists [], o, x, s, q.
  - destruct (Z.eqb_spec o x) as [->|]; [|done]. cbn [andb]. intros (u & o' & x' & s' & q' & -> & -> & Ho)%IH.
    by exists (x :: u), o', x', s', q'.
Qed.
(** Nothing comes before zeros. *)
Lemma after_zeros n : forall q, Forall (fun o => 0 <= o) q -> after q (repeat 0 n) = false.
Proof.
  induction n as [|n IH]; intros [|x q] Hq; cbn; try done. apply Forall_cons in Hq as [Hx Hq]. rewrite (IH q Hq). lia.
Qed.
Lemma after_snoc N s o : forall q, Forall (fun x => x < N) q ->
  after (s ++ [o]) q = after s q || in_row s (o + 1) (N - (o + 1)) q.
Proof.
  induction s as [|a s IH]; intros [|x q] Hq; cbn [app after in_row]; try done; apply Forall_cons in Hq as [Hx Hq].
  - destruct q; cbn [after]; lia.
  - rewrite (IH q Hq). destruct (after s q), (in_row s (o + 1) (N - (o + 1)) q); lia.
Qed.

(** Zeros leave before an offset that is not zero. *)
Lemma zeros_after s o w : Forall (fun x => 0 <= x) s -> 0 < o -> forall n, (length s < n)%nat ->
  after (repeat 0 n) (s ++ o :: w) = true.
Proof.
  intros Hs Ho. induction Hs as [|a s Ha Hs IH]; intros [|n] Hn; try (simpl in Hn; lia); cbn [repeat app after].
  - by replace (0 <? o) with true by lia.
  - rewrite IH by (simpl in Hn; lia). lia.
Qed.
(** Leaving the end at [o - 1]: what is not before [o]. *)
Lemma after_pred u o n : forall q, Forall (fun x => 0 <= x) q -> ~ q `prefix_of` u ->
  after (u ++ [o - 1]) q = negb (after q (u ++ o :: repeat 0 n)).
Proof.
  induction u as [|a u IH]; intros [|x q] Hq Hp; cbn [app after]; try (by destruct Hp; apply prefix_nil); apply Forall_cons in Hq as [Hx Hq].
  - rewrite (after_zeros n q Hq). destruct q; cbn [after]; lia.
  - destruct (Z.eqb_spec a x) as [->|Hne].
    + rewrite (IH q Hq) by (intros Hq'; by apply Hp, prefix_cons). replace (x =? x) with true by lia.
      destruct (after q _); lia.
    + replace (x =? a) with false by lia. lia.
Qed.
(** What is not before [u ++ o :: w] leaves [u ++ [o]] or goes through it. *)
Lemma after_through u o w : forall q, ~ q `prefix_of` u -> after q (u ++ o :: w) = false ->
  in_row u o 1 q || after (u ++ [o]) q = true.
Proof.
  induction u as [|a u IH]; intros [|x q] Hp; cbn [app after in_row]; try (by destruct Hp; apply prefix_nil).
  - destruct (after q w), q; cbn; lia.
  - intros Ha. destruct (Z.eqb_spec a x) as [->|Hne].
    + rewrite Z.ltb_irrefl, Z.eqb_refl in *. cbn [orb andb] in *.
      specialize (IH q ltac:(intros Hq'; by apply Hp, prefix_cons) Ha). destruct (in_row u o 1 q), (after (u ++ [o]) q); lia.
    + lia.
Qed.
Lemma after_weaken u o w : forall q, after (u ++ [o]) q = true -> after (u ++ o :: w) q = true.
Proof.
  induction u as [|a u IH]; intros [|x q]; cbn [app after]; try done.
  - destruct q; cbn [after]; lia.
  - specialize (IH q). destruct (after (u ++ [o]) q), (after (u ++ o :: w) q); lia.
Qed.

(** The order of paths is that of their blocks. *)
Lemma digits_lt ptrs a b x y : 0 <= b < ptrs -> 0 <= y < ptrs ->
  (a * ptrs + b <? x * ptrs + y) = (a <? x) || (a =? x) && (b <? y).
Proof.
  intros Hb Hy. destruct (Z.ltb_spec a x); [cbn; apply Z.ltb_lt; nia|]. destruct (Z.eqb_spec a x) as [->|].
  - cbn. destruct (Z.ltb_spec b y); [apply Z.ltb_lt|apply Z.ltb_ge]; lia.
  - cbn. apply Z.ltb_ge. nia.
Qed.
Lemma after_block ptrs p q : 1 <= ptrs -> path_ok ptrs p -> path_ok ptrs q ->
  after p q = (path_block ptrs p <? path_block ptrs q).
Proof.
  intros Hp. destruct p as [|a [|b [|d [|e [|]]]]], q as [|x [|y [|u [|w [|]]]]]; simpl; try done;
    unfold KR_TIND_BLOCK, KR_DIND_BLOCK, KR_IND_BLOCK, KR_NDIR_BLOCKS; intros H1 H2.
  1: lia.
  all: repeat (match goal with H : _ = _ /\ _ |- _ => destruct H as [-> H] end).
  all: try (match goal with |- (?l || _) = ?r => first [replace l with true by lia; replace r with true by nia; done
    | replace l with false by lia; match goal with |- (_ || (?m && _)) = _ => replace m with false by lia end;
      replace r with false by nia; done] end).
  - lia.
  - pose proof (digits_lt ptrs b d y u ltac:(lia) ltac:(lia)) as Hd. cbn. rewrite andb_false_r, orb_false_r, <- Hd.
    destruct (Z.ltb_spec (b * ptrs + d) (y * ptrs + u)); lia.
  - pose proof (digits_lt ptrs (b * ptrs + d) e (y * ptrs + u) w ltac:(lia) ltac:(lia)) as Hd.
    assert ((b * ptrs + d =? y * ptrs + u) = (b =? y) && (d =? u)) as He.
    { destruct (Z.eqb_spec b y) as [->|]; cbn; [destruct (Z.eqb_spec d u); lia|]. apply Z.eqb_neq. nia. }
    rewrite He, (digits_lt ptrs b d y u) in Hd by lia. cbn. rewrite andb_false_r, orb_false_r.
    transitivity ((b * ptrs + d) * ptrs + e <? (y * ptrs + u) * ptrs + w); [rewrite Hd|].
    + destruct (b <? y), (b =? y), (d <? u), (d =? u), (e <? w); done.
    + destruct (Z.ltb_spec ((b * ptrs + d) * ptrs + e) ((y * ptrs + u) * ptrs + w)); lia.
Qed.

(** ** Freeing rows of the file *)

Section Facts.
Context {B : BitOps} {BL : BitLaws B} {R : RbTree} {RL : RbLaws R} {T : Trylock} {K : Kernel}.
Variable E : stop -> Prop.
Hypothesis HE : E Panic.
Hypothesis Hgood : forall b, sb_getblk_ok b && bh_read_ok b = true.

(** What a part of the truncation does: it takes the paths of [gone] from the tree. *)
Definition prunes (c : core) (ino : Z) (i : inode) (gone : list Z -> bool) {A} (_ : A) (fs' : krfs) : Prop :=
  exists i', pruned c (core_of fs') ino i i' gone.

Lemma free_row ino i s o n d fs : let c := core_of fs in blocks_ok c -> tree_ok c ino i -> 0 <= n <= 1024 ->
  (forall k, 0 <= k < n -> stem (ptrs_of c) (s ++ [o + k]) /\ d = (levels (hd (o + k)%Z s) - length s)%nat) ->
  (s <> [] -> tree c i s <> 0) ->
  runs (kr_free_branches d ino (slots (slot_of c ino i s 0) o (Z.to_nat n))) E (prunes c ino i (in_row s o n)) fs.
Proof using All.
  intros c Hok Ht Hn Hs Hpre. pose proof (ptrs_of_range c Hok) as Hp.
  assert (Hstem : forall k r, 0 <= k < n -> stem (ptrs_of c) (s ++ (o + k) :: r) <-> steps c d r).
  { intros k r Hk. destruct (Hs k Hk) as [Hsk ->]. apply stem_below; [lia|done]. }
  assert (Hn0 : 0 <= n) by lia.
  call (kr_free_branches_spec E HE Hgood ino d (slots (slot_of c ino i s 0) o (Z.to_nat n)) fs); [done| | |].
  - by apply row_is.
  - rewrite len_slots. lia.
  - intros [] fs' He. apply (row_pruned c ino i s o n d Hok Ht Hn0 Hstem Hpre _ He).
Qed.

(** A subtree whose pointer has been cleared. *)
Lemma free_top ino i s o fs (k : M krfs unit) : forall c, core_of fs = slot_put c (slot_of c ino i s o) 0 ->
  blocks_ok c -> tree_ok c ino i -> stem (ptrs_of c) (s ++ [o]) -> (s <> [] -> tree c i s <> 0) ->
  (forall fs' Q, core_of fs' = core_of fs -> (forall fs'', core_of fs'' = core_of fs' -> Q tt fs'') -> runs k E Q fs') ->
  let v := tree c i (s ++ [o]) in
  runs (when (negb (v =? 0)) (k ;; kr_free_branches (levels (hd o s) - length s) ino [Local v])) E
    (prunes c ino i (in_row s o 1)) fs.
Proof using All.
  intros c Hfs Hok Ht Hs Hpre Hk v. pose proof (ptrs_of_range c Hok) as Hp. set (d := (levels (hd o s) - length s)%nat).
  assert (Hstem : forall k r, 0 <= k < 1 -> stem (ptrs_of c) (s ++ (o + k) :: r) <-> steps c d r).
  { intros j r Hj. replace (o + j) with o by lia. apply stem_below; [lia|done]. }
  set (p := slot_of c ino i s o) in *. pose proof (row_is c ino i s o 1 d Hok Ht ltac:(lia) Hstem Hpre) as Hrow.
  pose proof (row_slot c ino i s o 1 d Hok Ht ltac:(lia) Hstem Hpre 0 ltac:(lia)) as Hv. rewrite Z.add_0_r in Hv. fold p v in Hv.
  assert (Hl : slots (slot_of c ino i s 0) o (Z.to_nat 1) = [p]).
  { unfold slots, p. change (Z.to_nat 1) with 1%nat. cbn [seq fmap list_fmap]. change (Z.of_nat 0) with 0. rewrite Z.add_0_r. by destruct s. }
  assert (Hfin : forall c', erased (clear c [p]) c' (row_reach c d [p]) (row_reach c d [p]) -> exists i', pruned c c' ino i i' (in_row s o 1)).
  { intros c' He. apply (row_pruned c ino i s o 1 d Hok Ht ltac:(lia) Hstem Hpre). by rewrite Hl. }
  rewrite Hl in Hrow. pose proof (ro_own _ _ _ Hrow) as Hown. unfold when. destruct (Z.eqb_spec v 0) as [Hz|Hz]; cbn [negb].
  { step. apply Hfin. rewrite Hfs. rewrite Hz in Hv.
    eapply erased_weaken; [apply (erased_refl _ nothing)| |done].
    - cbn. rewrite put_zero; [done|done|]. intros b x Hb. apply (Hown b x). rewrite Hb. by left.
    - intros b. split; [done|]. intros [Hb|Hb]%(row_reach_cons c d p 0 [] b Hv); [by apply reach_zero in Hb|by apply row_reach_nil in Hb]. }
  step. apply Hk; [done|]. intros fs1 Hfs1. rewrite Hfs in Hfs1. set (c1 := slot_put c p 0) in *.
  destruct (ro_val _ _ _ Hrow p ltac:(by left)) as (w & Hw & Hsub). assert (w = v) as -> by congruence.
  assert (Hslot : slot_data c p) by (intros b x Hb; apply (Hown b x); rewrite Hb; by left).
  destruct (put_ok c p 0 Hok Hslot) as [Hok1 _]. destruct (put_geo c p 0) as (Qb & _).
  assert (Hb1 : forall b, reach c d v b -> c_bufs c1 !! b = c_bufs c !! b).
  { intros b Hb. apply put_bufs. intros x Hx. destruct (Hown b x ltac:(rewrite Hx; by left)) as (_ & _ & H3). apply H3.
    apply (row_reach_cons c d p v [] b Hv). by left. }
  assert (Hdata1 : forall b, data_block c1 b <-> data_block c b) by (intros b; apply put_data).
  pose proof (sub_same c c1 Qb Hdata1 d v Hb1 Hsub) as Hsub1. pose proof (reach_same c c1 Qb d v Hb1) as Hreach1.
  assert (Hloc : forall b, row_reach c1 d [Local v] b <-> row_reach c d [p] b).
  { intros b. rewrite (row_reach_cons c1 d (Local v) v [] b eq_refl), (row_reach_cons c d p v [] b Hv), Hreach1.
    pose proof (row_reach_nil c1 d b). pose proof (row_reach_nil c d b). tauto. }
  call (kr_free_branches_spec E HE Hgood ino d [Local v] fs1); rewrite ?Hfs1; [done| |done|].
  - split.
    + intros q ->%list_elem_of_singleton. by exists v.
    + by intros b x ?%list_elem_of_singleton.
    + intros q1 q2 v1 v2 b ->%list_elem_of_singleton ->%list_elem_of_singleton. done.
    + apply NoDup_singleton.
  - intros [] fs2 He. apply Hfin. eapply erased_weaken; [exact He|exact Hloc|]. intros b. apply Hloc.
Qed.

(** One part after another. *)
Lemma prunes_bind {A A'} (m : M krfs A) (k : A -> M krfs A') c ino i g1 g2 fs :
  runs m E (prunes c ino i g1) fs ->
  (forall a fs1 i1, pruned c (core_of fs1) ino i i1 g1 -> runs (k a) E (prunes (core_of fs1) ino i1 g2) fs1) ->
  runs (m ≫= k) E (prunes c ino i (fun q => g1 q || g2 q)) fs.
Proof using.
  intros Hm Hk. step. eapply runs_mono; [exact Hm|]. cbv beta. intros a fs1 [i1 P1].
  eapply runs_mono; [by apply (Hk a fs1 i1)|]. cbv beta. intros a' fs2 [i2 P2]. exists i2. by eapply pruned_trans.
Qed.
Lemma prunes_ext {A} (m : M krfs A) c ino i g1 g2 fs : runs m E (prunes c ino i g1) fs ->
  (forall q, stem (ptrs_of c) q -> g1 q = g2 q) -> runs m E (prunes c ino i g2) fs.
Proof using. intros Hm Hg. eapply runs_mono; [exact Hm|]. cbv beta. intros a fs1 [i1 P1]. exists i1. by eapply pruned_ext. Qed.
Lemma prunes_nothing {A} (a : A) c ino i fs : core_of fs = c -> blocks_ok c -> tree_ok c ino i ->
  runs (mret a) E (prunes c ino i (fun _ => false)) fs.
Proof using. intros Hfs Hok Ht. step. exists i. rewrite Hfs. by apply pruned_refl. Qed.

(** *** The subtrees at the end of the inode *)

Lemma kill_subtree_spec ino i a fs : let c := core_of fs in blocks_ok c -> tree_ok c ino i ->
  KR_NDIR_BLOCKS <= a < KR_N_BLOCKS -> runs (kill_subtree ino a (levels a)) E (prunes c ino i (in_row [] a 1)) fs.
Proof using All.
  intros c Hok Ht Ha. pose proof (ptrs_of_range c Hok) as Hp. change KR_NDIR_BLOCKS with 12 in Ha.
  assert (Ha0 : 0 <= a < KR_N_BLOCKS) by (change KR_N_BLOCKS with 15 in *; lia).
  pose proof (pointer_val c ino i a (tk_inode _ _ _ Ht) (tk_len _ _ _ Ht) Ha0) as Hv.
  assert (Hs : stem (ptrs_of c) ([] ++ [a])).
  { apply stem_iff; [lia|]. split; [done|]. split; [simpl; lia|done]. }
  pose proof (fun fs1 k Hk => free_top ino i [] a fs1 k c Hk Hok Ht Hs ltac:(done)) as Htop. cbn [length hd app] in Htop.
  rewrite Nat.sub_0_r, tree_one in Htop.
  unfold kill_subtree. step. run slot_get_run; [exact Hv|]. destruct (Z.eqb_spec (pointer i a) 0) as [Hz|Hz].
  - specialize (Htop fs (mret tt)). rewrite Hz in *. apply Htop; [|intros; by step; auto]. cbn [slot_of].
    rewrite put_zero; [done|done|by intros b x [=]].
  - cbn [negb when]. step. call (slot_clear_spec E (InInode ino a) _ fs Hv). intros _ fs1 Hfs1.
    specialize (Htop fs1 (log (mark_inode_dirty ino)) Hfs1). replace (pointer i a =? 0) with false in Htop by lia.
    apply Htop. intros fs2 Q Hfs2 HQ. unfold log. step. by apply HQ.
Qed.

(** The slots of the inode after [first] with tables below them. *)
Definition kills (first : Z) (q : list Z) : bool :=
  match q with x :: _ => (KR_NDIR_BLOCKS <=? x) && (first <? x) | [] => false end.

Lemma kill_when ino i a b fs : let c := core_of fs in blocks_ok c -> tree_ok c ino i ->
  KR_NDIR_BLOCKS <= a < KR_N_BLOCKS ->
  runs (when b (kill_subtree ino a (levels a))) E (prunes c ino i (fun q => b && in_row [] a 1 q)) fs.
Proof using All.
  intros c Hok Ht Ha. destruct b; cbn [when andb]; [by apply kill_subtree_spec|by apply prunes_nothing].
Qed.
Lemma kill_subtrees_spec ino i first fs : let c := core_of fs in blocks_ok c -> tree_ok c ino i ->
  0 <= first < KR_N_BLOCKS -> runs (kill_subtrees ino first) E (prunes c ino i (kills first)) fs.
Proof using All.
  intros c Hok Ht Hf. unfold kill_subtrees. change KR_N_BLOCKS with 15 in *.
  eapply prunes_ext; [eapply prunes_bind; [by apply (kill_when ino i KR_IND_BLOCK)|]|].
  - intros _ fs1 i1 P1. destruct (pruned_geo _ _ _ _ _ _ P1) as (_ & Hok1 & _).
    eapply prunes_bind; [apply (kill_when ino i1 KR_DIND_BLOCK); [done|apply P1|done]|].
    intros _ fs2 i2 P2. destruct (pruned_geo _ _ _ _ _ _ P2) as (_ & Hok2 & _).
    apply (kill_when ino i2 KR_TIND_BLOCK); [done|apply P2|done].
  - cbv beta. intros [|x q] Hq; [by destruct Hq|]. apply stem_iff in Hq as (Hx & _); [|pose proof (ptrs_of_range c Hok); lia].
    change KR_N_BLOCKS with 15 in Hx. cbn [in_row kills].
    unfold KR_TIND_BLOCK, KR_DIND_BLOCK, KR_IND_BLOCK, KR_NDIR_BLOCKS. lia.
Qed.

(** *** The ends of the tables of a chain *)

(** The chain, the last one first, holds the slots of the path [s]. *)
Fixpoint chain_of (c : core) (ino : Z) (i : inode) (s : list Z) (rchain : list Indirect) : Prop :=
  match rchain with
  | [] => s = []
  | p :: rest => exists s' o, s = s' ++ [o] /\ ind_p p = slot_of c ino i s' o /\ ind_bh p = slot_bh (ind_p p) /\
      (s' <> [] -> tree c i s' <> 0) /\ chain_of c ino i s' rest
  end.

Lemma chain_of_same c c' ino i i' rchain : forall s, chain_of c ino i s rchain ->
  (forall u, u <> [] -> u `prefix_of` removelast s -> tree c' i' u = tree c i u) -> chain_of c' ino i' s rchain.
Proof using.
  induction rchain as [|p rest IH]; intros s; [done|]. intros (s' & o & -> & Hp & Hbh & Hz & Hrest) Hs.
  rewrite removelast_last in Hs. exists s', o. split; [done|].
  assert (Hslot : slot_of c' ino i' s' o = slot_of c ino i s' o).
  { destruct s' as [|a s'']; [done|]. unfold slot_of. by rewrite Hs. }
  rewrite Hslot. split; [done|]. split; [done|]. split.
  - intros Hne. rewrite Hs by done. by apply Hz.
  - apply IH; [done|]. intros u Hu Hpre. apply Hs; [done|]. etrans; [exact Hpre|].
    destruct s' as [|y s'' _] using rev_ind; [done|]. rewrite removelast_last. by eexists.
Qed.

Lemma clear_ends_spec ino : forall rchain s depth fs i, let c := core_of fs in blocks_ok c -> tree_ok c ino i ->
  stem (ptrs_of c) s -> chain_of c ino i s rchain -> depth = (levels (hd 0%Z s) - (length s - 1))%nat ->
  runs (clear_ends ino (ptrs_of c) depth rchain) E (prunes c ino i (ends s)) fs.
Proof using All.
  induction rchain as [|p rest IH]; intros s depth fs i c Hok Ht Hstem Hch Hd; [by destruct Hstem|].
  cbn in Hch. destruct Hch as (s' & o & -> & Hp & Hbh & Hz & Hrest). destruct rest as [|p' rest].
  { cbn in Hrest. subst s'. cbn [clear_ends]. eapply prunes_ext; [by apply prunes_nothing|].
    intros [|x q] _; cbn [app ends]; [done|]. by rewrite andb_false_r. }
  assert (Hne : s' <> []) by (intros ->; cbn in Hrest; destruct Hrest as (u & y & Hu & _); by destruct u).
  set (rest0 := p' :: rest) in *. change (clear_ends ino (ptrs_of c) depth (p :: rest0)) with
    (let from := slot_index (ind_p p) + 1 in
     kr_free_branches depth ino (slots (ind_p p) from (Z.to_nat (ptrs_of c - from))) ;;
     match ind_bh p with
     | Some b => log (mark_buffer_dirty_inode (BufBlock b) ino)
     | None => halt Fault
     end ;;
     clear_ends ino (ptrs_of c) (S depth) rest0).
  pose proof (ptrs_of_range c Hok) as Hptrs. destruct s' as [|a s'']; [done|]. set (s' := a :: s'') in *.
  pose proof Hstem as Hst. apply (stem_iff _ a (s'' ++ [o])) in Hst as (Ha & Hl & [Hf1 [Ho _]%Forall_cons]%Forall_app); [|lia].
  rewrite length_app in Hl. simpl in Hl.
  assert (Hdepth : depth = (levels a - length s')%nat).
  { rewrite Hd. unfold s'. rewrite length_app. simpl. lia. }
  assert (Hpo : ind_p p = InBlock (tree c i s') o) by by rewrite Hp. rewrite Hpo in *. cbn [slot_index slot_bh] in *. cbv zeta.
  eapply prunes_ext; [eapply (prunes_bind _ _ c ino i (in_row s' (o + 1) (ptrs_of c - (o + 1))) (ends s'))|].
  - change (slots (InBlock (tree c i s') o)) with (slots (slot_of c ino i s' 0)).
    apply free_row; [done|done|lia| |done]. intros k Hk. split; [|done].
    fold c. apply (stem_iff (ptrs_of c) a (s'' ++ [o + 1 + k])); [lia|]. rewrite length_app, Forall_app. simpl.
    split; [done|]. split; [lia|]. split; [done|]. repeat constructor; lia.
  - intros _ fs1 i1 P1. rewrite Hbh. unfold log. step. step.
    destruct (pruned_geo _ _ _ _ _ _ P1) as (Gp & Hok1 & _). rewrite <- Gp.
    apply (IH s' (S depth) (set_fs_trace _ fs1) i1 Hok1 (pn_tree _ _ _ _ _ _ P1)).
    + change (stem (ptrs_of (core_of fs1)) s'). rewrite Gp. by apply (stem_app _ s' [o]).
    + apply (chain_of_same c _ ino i i1 rest0 s' Hrest). intros u Hu Hpre.
      assert (Hpre' : u `prefix_of` s').
      { etrans; [exact Hpre|]. destruct s' as [|y w _] using rev_ind; [done|]. rewrite removelast_last. by eexists. }
      assert (Hsu : stem (ptrs_of c) u).
      { destruct Hpre' as [w Hw]. apply (stem_app _ u (w ++ [o])); [done|]. by rewrite app_assoc, <- Hw. }
      etrans; [exact (pn_paths _ _ _ _ _ _ P1 u Hsu)|]. destruct (in_row s' (o + 1) _ u) eqn:Hg; [|done].
      apply in_row_iff in Hg as (k & r & _ & ->). apply prefix_length in Hpre'. rewrite length_app in Hpre'. simpl in Hpre'. lia.
    + unfold s' in *. cbn [hd]. simpl length in *. lia.
  - cbv beta. intros [|x q] Hq; [by destruct Hq|]. apply stem_iff in Hq as (_ & _ & Hq); [|lia].
    unfold s'. cbn [app ends in_row]. rewrite (after_snoc (ptrs_of c) s'' o q); [|eapply Forall_impl; [exact Hq|]; cbv beta; lia].
    destruct (a =? x), (after s'' q), (in_row s'' (o + 1) (ptrs_of c - (o + 1)) q); done.
Qed.

End Facts.
