(* ===== verification/FindShared.v ===== *)
(** * Finding the branch that is shared

    [kr_find_shared] on the path of the first block to go: the chain of the tables
    that stay, and the top of the branch that does not. *)

From S2P Require Import Prelude Bytes Bits Kr Rsv Bitmap Alloc State Balloc BallocFacts NewBlocks InodeFlags Ialloc BlockMap PathFacts BlockMapFacts AllocBranch FileTree BuildBranch GetBlocks Truncate FreeData FreeTree Prune TruncateFacts.

(** ** Dropping the zeros at the end of a path *)

Lemma drop_zeros j : forall l : list Z, (forall m, (j <= m < length l)%nat -> nth m l 0 = 0) ->
  drop j l = repeat 0 (length l - j).
Proof.
  intros l Hl. apply (nth_ext _ _ 0 0); rewrite length_drop; [by rewrite repeat_length|].
  intros m Hm. rewrite nth_repeat. rewrite !nth_lookup, lookup_drop, <- nth_lookup. apply Hl. lia.
Qed.
Lemma take_snoc_nth k (l : list Z) : (k < length l)%nat -> take (S k) l = take k l ++ [nth k l 0].
Proof.
  intros Hk. destruct (lookup_lt_is_Some_2 l k Hk) as [x Hx]. rewrite (take_S_r l k x Hx), nth_lookup, Hx. done.
Qed.

Lemma drop_zeroes_spec k offsets : (k < length offsets)%nat ->
  (forall m, (k < m < length offsets)%nat -> nth m offsets 0 = 0) ->
  exists u o n, drop_zeroes k offsets = u ++ [o] /\ offsets = (u ++ [o]) ++ repeat 0 n /\ (u = [] \/ o <> 0).
Proof.
  revert offsets. induction k as [|k IH]; intros offsets Hk Hz; cbn [drop_zeroes].
  - destruct offsets as [|a l]; [simpl in Hk; lia|]. exists [], a, (length l).
    pose proof (drop_zeros 1 (a :: l) ltac:(intros; apply Hz; lia)) as Hd. cbn in Hd. rewrite Nat.sub_0_r in Hd.
    rewrite <- Hd. split; [done|]. split; [done|by left].
  - destruct (Z.eqb_spec (nth (S k) offsets 0) 0) as [He|He].
    + apply IH; [lia|]. intros m Hm. destruct (decide (m = S k)) as [->|]; [done|]. apply Hz. lia.
    + exists (take (S k) offsets), (nth (S k) offsets 0), (length offsets - S (S k))%nat.
      rewrite <- (drop_zeros (S (S k))) by (intros; apply Hz; lia). rewrite <- take_snoc_nth by done.
      split; [done|]. split; [by rewrite take_drop|by right].
Qed.

(** ** The outcome *)

(** The path is [s ++ o :: w].  Either the tables of [s] and the entries before [o]
    of the last one stay, or the branch at the entry [o] of that table is taken out
    of the tree: there are no blocks of it before the path. *)
Definition shared (c c' : core) (ino : Z) (i : inode) (offsets : list Z) (r : list Indirect * Z) : Prop :=
  let '(chain, nr) := r in exists s o w, offsets = s ++ o :: w /\ (s <> [] -> tree c i s <> 0) /\
    ((exists n, w = repeat 0 n) /\ s <> [] /\ o <> 0 /\ nr = 0 /\ c' = c /\ chain_of c ino i (s ++ [o - 1]) (rev chain) \/
     (s = [] \/ o <> 0) /\
     nr = tree c i (s ++ [o]) /\ c' = slot_put c (slot_of c ino i s o) 0 /\ chain_of c ino i (s ++ [o]) (rev chain) /\
     forall r, Forall (fun x => 0 <= x) r -> after r w = true -> tree c i (s ++ o :: r) = 0).

Lemma chain_of_length c ino i rchain : forall s, chain_of c ino i s rchain -> length rchain = length s.
Proof.
  induction rchain as [|p rest IH]; intros s; [by intros ->|]. intros (s' & o & -> & _ & _ & _ & Hr).
  rewrite length_app. simpl. rewrite (IH s' Hr). lia.
Qed.

Section Facts.
Context {B : BitOps} {BL : BitLaws B} {R : RbTree} {RL : RbLaws R} {T : Trylock} {K : Kernel}.
Variable E : stop -> Prop.
Hypothesis Hgood : forall b, sb_getblk_ok b && bh_read_ok b = true.

Lemma all_zeroes_spec l fs : (forall p, p ∈ l -> is_Some (slot_val (core_of fs) p)) ->
  exists b, all_zeroes l fs = Ret b fs /\ (b = true -> forall p, p ∈ l -> slot_val (core_of fs) p = Some 0) /\ (l = [] -> b = true).
Proof using.
  induction l as [|p l IH]; intros Hl; cbn [all_zeroes].
  { exists true. split; [done|]. split; [|done]. by intros _ p ?%elem_of_nil. }
  destruct (Hl p ltac:(by left)) as [v Hv]. destruct IH as (b & Hb & Hz & _); [intros q Hq; apply Hl; by right|].
  rewrite (bind_Ret _ _ _ _ _ (slot_get_run _ _ _ Hv)). destruct (Z.eqb_spec v 0) as [->|Hne]; cbn [negb].
  - exists b. split; [done|]. split; [|done]. intros Hbt q [->|Hq]%elem_of_cons; [done|by apply Hz].
  - exists false. done.
Qed.

Section Chain.
Variables (c : core) (ino : Z) (i : inode) (pre : list Z) (chain : list Indirect).
Hypothesis Hok : blocks_ok c.
Hypothesis Ht : tree_ok c ino i.
Hypothesis Hch : chain_at c ino i pre chain.
Hypothesis Hstem : stem (ptrs_of c) pre.
Hypothesis Hinner : forall u, u <> [] -> u `prefix_of` removelast pre -> tree c i u <> 0.

Lemma pre_split k : (k < length pre)%nat -> take (S k) pre = take k pre ++ [nth k pre 0] /\
  stem (ptrs_of c) (take k pre ++ [nth k pre 0]) /\ (take k pre <> [] -> tree c i (take k pre) <> 0).
Proof using All.
  intros Hk. pose proof (take_snoc_nth k pre Hk) as Hs. split; [done|]. split.
  - rewrite <- Hs. apply (stem_app _ _ (drop (S k) pre)); [rewrite Hs; by intros [_ ?]%app_eq_nil|by rewrite take_drop].
  - intros Hne. apply Hinner; [done|]. destruct pre as [|a u _] using rev_ind; [simpl in Hk; lia|]. rewrite removelast_last.
    rewrite length_app in Hk. simpl in Hk. rewrite take_app_le by lia. by apply prefix_take.
Qed.
Lemma pre_link k p : chain !! k = Some p -> (k < length pre)%nat /\
  ind_p p = slot_of c ino i (take k pre) (nth k pre 0) /\ ind_bh p = slot_bh (ind_p p).
Proof using All.
  intros Hp. assert (Hk : (k < length pre)%nat) by (rewrite <- (ca_len _ _ _ _ _ Hch); by apply lookup_lt_Some in Hp).
  destruct (ca_links _ _ _ _ _ Hch k p Hp) as [H1 H2]. split; [done|]. split; [|done].
  by rewrite H1, (proj1 (pre_split k Hk)), leaf_slot_of.
Qed.

Lemma chain_of_take k : (k <= length pre)%nat -> chain_of c ino i (take k pre) (rev (take k chain)).
Proof using All.
  induction k as [|k IH]; intros Hk; [done|].
  destruct (lookup_lt_is_Some_2 chain k) as [p Hp]; [rewrite (ca_len _ _ _ _ _ Hch); lia|].
  rewrite (take_S_r chain k p Hp), rev_app_distr. destruct (pre_split k ltac:(lia)) as (-> & _ & Hz).
  destruct (pre_link k p Hp) as (_ & H1 & H2). cbn [rev app chain_of].
  exists (take k pre), (nth k pre 0). split; [done|]. split; [done|]. split; [done|]. split; [done|]. apply IH. lia.
Qed.

Lemma last_used_spec n fs : core_of fs = c -> (n < length pre)%nat -> exists m, last_used n chain fs = Ret m fs /\
  (m <= n)%nat /\ (m = O \/ nth m pre 0 <> 0) /\
  forall j x, (m < j <= n)%nat -> 0 <= x < nth j pre 0 -> tree c i (take j pre ++ [x]) = 0.
Proof using All.
  intros Hfs. induction n as [|n IH]; intros Hn; cbn [last_used].
  { exists O. split; [done|]. split; [done|]. split; [by left|]. intros; lia. }
  destruct (lookup_lt_is_Some_2 chain (S n)) as [p Hp]; [rewrite (ca_len _ _ _ _ _ Hch); lia|].
  assert (Hnth : nth (S n) chain no_ind = p) by by rewrite nth_lookup, Hp. rewrite Hnth.
  destruct (pre_link (S n) p Hp) as (_ & H1 & _). destruct (pre_split (S n) Hn) as (_ & Hs & Hz).
  set (u := take (S n) pre) in *. set (o := nth (S n) pre 0) in *.
  assert (Hu : u <> []) by (intros Hu; apply (f_equal length) in Hu; unfold u in Hu; rewrite length_take in Hu; change (length (@nil Z)) with 0%nat in Hu; lia). specialize (Hz Hu).
  assert (Hslot : slot_of c ino i u o = InBlock (tree c i u) o) by (by destruct u). rewrite Hslot in H1. rewrite H1. cbn [slot_index].
  pose proof (stem_index _ _ _ Hu Hs) as Ho. destruct (stem_inner _ u [o] Hu ltac:(done) Hs) as [Hsu Hnu].
  pose proof (ck_bits _ (bo_core _ Hok)) as Hbits.
  assert (Hval : forall k, 0 <= k < o -> slot_val c (InBlock (tree c i u) k) = Some (tree c i (u ++ [k]))).
  { intros k Hk. rewrite table_val by (lia || by apply (tk_table _ _ _ Ht)). rewrite tree_snoc by done. cbv zeta.
    by replace (tree c i u =? 0) with false by lia. }
  destruct (all_zeroes_spec (slots (InBlock (tree c i u) o) 0 (Z.to_nat o)) fs) as (b & Hb & Hzero & Hnil).
  { intros q (k & Hk & ->)%elem_slots. rewrite Hfs. cbn [slot_at]. rewrite Hval by lia. done. }
  rewrite (bind_Ret _ _ _ _ _ Hb). destruct b.
  - destruct (IH ltac:(lia)) as (m & Hm1 & Hm2 & Hm3 & Hm4). exists m. split; [done|]. split; [lia|]. split; [done|].
    intros j x Hj Hx. destruct (decide (j = S n)) as [->|]; [|apply Hm4; [lia|done]]. fold u o in Hx |- *.
    specialize (Hzero eq_refl (InBlock (tree c i u) x)). rewrite Hfs, Hval in Hzero by done.
    injection Hzero as ->; [done|]. apply elem_slots. exists x. split; [lia|done].
  - exists (S n). split; [done|]. split; [done|]. split; [|intros; lia]. right. fold o. intros Ho0. rewrite Ho0 in Hnil. by discriminate Hnil.
Qed.
End Chain.

(** What is before the path in the branch that is taken out are holes. *)
Lemma shared_holes c i pre m n : (m < length pre)%nat -> forall v,
  (tree c i pre = 0 \/ exists z, v = repeat 0 z) ->
  (forall j x, (m < j <= n)%nat -> 0 <= x < nth j pre 0 -> tree c i (take j pre ++ [x]) = 0) -> n = (length pre - 1)%nat ->
  forall r, Forall (fun x => 0 <= x) r -> after r (drop (S m) pre ++ v) = true -> tree c i (take m pre ++ nth m pre 0 :: r) = 0.
Proof using.
  intros Hm v Hend Hbelow -> r Hr Ha. apply after_split in Ha as (r1 & x & y & r2 & w2 & -> & Hw & Hxy).
  apply Forall_app in Hr as [_ [Hx _]%Forall_cons].
  set (pm := take (S m) pre). assert (Hpm : take m pre ++ nth m pre 0 :: r1 ++ x :: r2 = pm ++ r1 ++ x :: r2).
  { unfold pm. rewrite take_snoc_nth by done. by rewrite <- app_assoc. }
  rewrite Hpm. assert (Hne : pm <> []) by (unfold pm; destruct pre; [simpl in Hm; lia|done]).
  assert (Hsplit : pre = pm ++ drop (S m) pre) by (unfold pm; by rewrite take_drop).
  apply app_eq_inv in Hw as [(m2 & H1 & H2)|(r1' & H1 & H2)].
  - destruct m2 as [|y' m2].
    + (* past the end of the chain *)
      rewrite app_nil_r in H1. cbn in H2. rewrite app_assoc. destruct Hend as [Hz|[z ->]].
      * rewrite <- H1, <- Hsplit. apply tree_app_zero; [by rewrite Hsplit; destruct pm|done].
      * destruct z; [done|]. injection H2 as -> _. lia.
    + injection H2 as -> _. assert (Hj : take (S m + length r1) pre = pm ++ r1).
      { rewrite Hsplit, H1, app_assoc, take_app_le by (rewrite length_app; unfold pm; rewrite length_take; lia).
        apply take_ge. rewrite length_app. unfold pm. rewrite length_take. lia. }
      assert (Hy : nth (S m + length r1) pre 0 = y').
      { rewrite Hsplit, H1, app_assoc, app_nth2; rewrite length_app; unfold pm; rewrite length_take; [|lia].
        by replace (S m + length r1 - (S m `min` length pre + length r1))%nat with 0%nat by lia. }
      assert (Hlen : (S m + length r1 < length pre)%nat).
      { apply (f_equal length) in Hsplit. rewrite H1, !length_app in Hsplit. unfold pm in Hsplit. rewrite length_take in Hsplit.
        simpl length in Hsplit. lia. }
      assert (Hzero : tree c i ((pm ++ r1) ++ [x]) = 0) by (rewrite <- Hj; apply Hbelow; [lia|rewrite Hy; lia]).
      replace (pm ++ r1 ++ x :: r2) with (((pm ++ r1) ++ [x]) ++ r2) by (by rewrite <- !app_assoc).
      apply tree_app_zero; [by destruct pm|done].
  - rewrite app_assoc. destruct Hend as [Hz|[z Hz]].
    + rewrite H1, app_assoc, <- Hsplit, <- app_assoc. apply tree_app_zero; [by rewrite Hsplit; destruct pm|done].
    + assert (Hin : y ∈ repeat 0 z) by (rewrite <- Hz, H2; apply elem_of_app; right; by left).
      apply list_elem_of_In, repeat_spec in Hin. lia.
Qed.

Lemma kr_find_shared_spec ino i offsets fs : let c := core_of fs in blocks_ok c -> tree_ok c ino i ->
  path_ok (ptrs_of c) offsets ->
  runs (kr_find_shared ino offsets) E (fun r fs' => shared c (core_of fs') ino i offsets r) fs.
Proof using All.
  intros c Hok Ht Hpath. pose proof (ck_bits _ (bo_core _ Hok)) as Hbits.
  destruct (drop_zeroes_spec (length offsets - 1) offsets) as (u & o & z & Hdrop & Hoffs & Huo); [by destruct offsets; [|simpl; lia]|intros; lia|].
  unfold kr_find_shared. rewrite Hdrop. step.
  call (kr_get_branch_stem E ino i (u ++ [o]) c fs); [by apply tree_ok_file|lia|by destruct u| |done|].
  { exists (repeat 0 z). by rewrite <- Hoffs. }
  intros [[chain found] err] fs1 [Hfs1 (pre & rest & Hpre & Hne & Hch & Hcase)].
  assert (Hfacts : (rest = [] \/ tree c i pre = 0) /\ (removelast pre <> [] -> tree c i (removelast pre) <> 0)).
  { pose proof (app_removelast_last 0 Hne) as Hs. destruct found; [|destruct Hcase as [(_ & ? & ?)|(_ & _ & _ & Hr)]].
    - destruct Hcase as (-> & _ & Hz). split; [by left|]. intros Hr H0. apply Hz. rewrite Hs. by apply tree_app_zero.
    - split; [by right|done].
    - specialize (Hgood (tree c i pre)). rewrite Hr, andb_false_r in Hgood. done. }
  destruct Hfacts as [Hend Hrl].
  assert (Hinner : forall v, v <> [] -> v `prefix_of` removelast pre -> tree c i v <> 0).
  { intros v Hv [v' Hv'] H0. apply Hrl; [rewrite Hv'; by destruct v|]. rewrite Hv'. by apply tree_app_zero. }
  assert (Hstem : stem (ptrs_of c) pre).
  { split; [done|]. exists (rest ++ repeat 0 z). by rewrite app_assoc, <- Hpre, <- Hoffs. }
  assert (Hlast : slot_val (core_of fs1) (ind_p (List.last chain no_ind)) = Some (tree c i pre)).
  { rewrite Hfs1, <- (ca_key _ _ _ _ _ Hch). pose proof (ca_ok _ _ _ _ _ Hch) as Hco. pose proof (ca_some _ _ _ _ _ Hch) as Hcn.
    destruct (exists_last Hcn) as (l & x & ->). rewrite last_last. apply Forall_app in Hco as [_ Hx]. by apply Forall_cons in Hx as [? _]. }
  step. run slot_get_run; [exact Hlast|]. rewrite (ca_key _ _ _ _ _ Hch).
  replace ((tree c i pre =? 0) && negb (tree c i pre =? 0)) with false by (by destruct (tree c i pre =? 0)).
  pose proof (ca_len _ _ _ _ _ Hch) as Hlc. assert (Hlp : (0 < length pre)%nat) by (destruct pre; [done|simpl; lia]).
  destruct (last_used_spec c ino i pre chain Hok Ht Hch Hstem Hinner (length chain - 1) fs1 Hfs1 ltac:(lia)) as (m & Hm & Hm1 & Hm2 & Hm3).
  step. run Hm. destruct (lookup_lt_is_Some_2 chain m) as [p Hp]; [lia|].
  assert (Hnth : nth m chain no_ind = p) by by rewrite nth_lookup, Hp. rewrite Hnth.
  destruct (pre_link c ino i pre chain Hok Ht Hch Hstem Hinner m p Hp) as (Hmp & Hpp & Hpbh).
  destruct (pre_split c ino i pre chain Hok Ht Hch Hstem Hinner m Hmp) as (Hts & Hstm & Hz).
  pose proof (chain_of_take c ino i pre chain Hok Ht Hch Hstem Hinner) as Hct.
  set (s := take m pre) in *. set (x := nth m pre 0) in *.
  assert (Hlp2 : (length pre <= S (length u))%nat).
  { apply (f_equal length) in Hpre. rewrite !length_app in Hpre. simpl in Hpre. lia. }
  destruct (bool_decide_reflect (S m = length (u ++ [o]))) as [Hml|Hml]; [destruct (bool_decide_reflect (m = 0%nat)) as [Hm0|Hm0]|];
    cbn [andb negb].
  2: { (* the whole path is read, and its last table stays *)
    rewrite length_app in Hml. simpl in Hml. assert (rest = []) as ->.
    { apply (f_equal length) in Hpre. rewrite !length_app in Hpre. simpl in Hpre. destruct rest; [done|simpl in Hpre; lia]. }
    rewrite app_nil_r in Hpre. step. exists u, o, (repeat 0 z).
    assert (Hsu : s = u) by (unfold s; rewrite <- Hpre; rewrite take_app_le by lia; apply take_ge; lia).
    assert (Hxo : x = o).
    { unfold x. rewrite <- Hpre, app_nth2 by lia. by replace (m - length u)%nat with 0%nat by lia. }
    rewrite Hsu, Hxo in *. split; [by rewrite Hoffs, <- app_assoc|]. split; [done|]. left.
    assert (Hu : u <> []) by (intros ->; simpl in Hml; lia).
    split_and!; [by eexists|done|by destruct Hm2|done|done|].
    rewrite rev_app_distr. cbn [rev app chain_of ind_p ind_bh]. exists u, (o - 1).
    split; [done|]. rewrite Hpbh, Hpp. split; [by destruct u|]. split; [by destruct u|]. split; [done|].
    replace u with (take m pre) by exact Hsu. apply Hct. lia. }
  all: step; assert (Hval : slot_val (core_of fs1) (ind_p p) = Some (tree c i (s ++ [x]))) by
    (rewrite Hfs1, Hpp; apply slot_of_val; [done|lia|done|done]); run slot_get_run; [exact Hval|]; step;
    call (slot_clear_spec E _ _ fs1 Hval); intros _ fs2 Hfs2; step; rewrite Hfs1, Hpp in Hfs2;
    exists s, x, (drop (S m) pre ++ rest ++ repeat 0 z); (split; [|split; [done|right; split; [by destruct Hm2 as [->|]; [left|right]|split; [done|split; [done|split]]]]]).
  1, 4: rewrite Hoffs, Hpre, <- app_assoc; rewrite <- (take_drop (S m) pre) at 1; rewrite Hts, <- !app_assoc; done.
  1, 3: rewrite <- Hts; apply Hct; lia.
  all: apply (shared_holes c i pre m (length chain - 1) Hmp (rest ++ repeat 0 z)); [|exact Hm3|lia].
  all: destruct Hend as [->|]; [right; by exists z|by left].
Qed.

End Facts.
