(* ===== verification/TruncateTheorems.v ===== *)
(** * Truncating a file: the theorems

    [truncate_blocks] takes exactly the blocks past the offset from the file, and
    the tables that only led to them, and frees them. *)

From S2P Require Import Prelude Bytes Bits Kr Rsv Bitmap Alloc State Balloc BallocFacts NewBlocks InodeFlags Ialloc BlockMap PathFacts BlockMapFacts AllocBranch FileTree BuildBranch GetBlocks CreateFacts Truncate FreeData FreeTree Prune TruncateFacts FindShared Demo BlockTheorems CreateTheorems.

(** The blocks from [iblock] on are gone: the paths to the blocks before it lead
    where they led, no table stays that leads only to the others, a block is free now
    exactly if it was or a path that led to it leads nowhere, and nothing but the tables of the file has been written. *)
Record truncated (c c' : core) (ino : Z) (i i' : inode) (iblock : Z) : Prop := {
  tr_ok : blocks_ok c';
  tr_tree : tree_ok c' ino i';
  tr_file : exists l, i' = set_KR_I (set_i_data l (KR_I i)) i;
  tr_blocks : forall q, path_ok (ptrs_of c) q ->
    tree c' i' q = if path_block (ptrs_of c) q <? iblock then tree c i q else 0;
  tr_tables : forall q, stem (ptrs_of c) q -> tree c' i' q = tree c i q \/ tree c' i' q = 0;
  tr_empty : forall q, stem (ptrs_of c) q ->
    (forall r, path_ok (ptrs_of c) (q ++ r) -> iblock <= path_block (ptrs_of c) (q ++ r)) -> tree c' i' q = 0;
  tr_used : forall b, c_fdb c <= b < c_nblocks c -> block_used c' b = true <->
    block_used c b = true /\ ~ exists q, stem (ptrs_of c) q /\ tree c i q = b /\ b <> 0 /\ tree c' i' q = 0;
  tr_bufs : forall b, ~ is_metadata c b -> ~ owned c i b -> c_bufs c' !! b = c_bufs c !! b;
  tr_inodes : forall j, j <> ino -> c_inodes c' !! j = c_inodes c !! j;
}.

(** The window of the file. *)
Definition own_window (fs : krfs) (ino : Z) : option Z :=
  rsv_window_node <$> (fs_inodes fs !! ino ≫= i_block_alloc_info ∘ KR_I).
(** It holds no blocks any more, and the other windows are as they were. *)
Definition window_dropped (my : option Z) (st st' : rsvst) : Prop :=
  rsv_wf st' /\ match my with
    | Some w => wins st' = without w (wins st) /\ rsv_end (rsv_at st' w) = 0 /\ only_mine w st st'
    | None => st' = st
    end.

(** What is left and what goes, by the path of the first block to go. *)
Record cuts (c : core) (i : inode) (offsets : list Z) (gone : list Z -> bool) : Prop := {
  cu_gone : forall q, stem (ptrs_of c) q ->
    (forall r, path_ok (ptrs_of c) (q ++ r) -> after (q ++ r) offsets = false) -> gone q = true;
  cu_hole : forall q, path_ok (ptrs_of c) q -> after q offsets = true -> gone q = true -> tree c i q = 0;
}.

Lemma pruned_truncated c c' ino i i' offsets gone : blocks_ok c -> path_ok (ptrs_of c) offsets ->
  pruned c c' ino i i' gone -> cuts c i offsets gone ->
  truncated c c' ino i i' (path_block (ptrs_of c) offsets).
Proof.
  intros Hok Hpath P [H1 H2]. destruct (pruned_geo _ _ _ _ _ _ P) as (Gp & Hok' & _). pose proof (ptrs_of_range c Hok) as Hp.
  destruct P as [P1 P2 P3 P4 P5]. split; try done.
  - intros q Hq. rewrite P3 by by apply stem_path.
    rewrite <- (after_block (ptrs_of c) q offsets) by (done || lia). destruct (after q offsets) eqn:Ha.
    + destruct (gone q) eqn:Hg; [|done]. symmetry. by apply H2.
    + rewrite (H1 q); [done|by apply stem_path|]. intros r Hr. apply (path_ends _ _ _ Hq) in Hr. subst r. by rewrite app_nil_r.
  - intros q Hq. rewrite P3 by done. destruct (gone q); auto.
  - intros q Hq Hr. rewrite P3 by done. rewrite (H1 q Hq); [done|]. intros r Hqr. specialize (Hr r Hqr).
    rewrite (after_block (ptrs_of c)) by (done || lia). by apply Z.ltb_ge.
  - intros b Hb. rewrite (er_used _ _ _ _ P4 b Hb). change (block_used (set_c_inodes _ c) b) with (block_used c b).
    assert (lost c i gone b <-> exists q, stem (ptrs_of c) q /\ tree c i q = b /\ b <> 0 /\ tree c' i' q = 0) as ->; [|done].
    split; intros (q & Hq & Hr); exists q; (split; [done|]).
    + destruct Hr as (Hg & Ht & Hz). split; [done|]. split; [done|]. by rewrite P3, Hg.
    + destruct Hr as (Ht & Hz & Hzero). rewrite P3 in Hzero by done. destruct (gone q); [done|]. by subst b.
  - intros b Hm Hw. by apply (er_bufs _ _ _ _ P4).
Qed.

Lemma path_levels ptrs a q : path_ok ptrs (a :: q) -> length q = levels a.
Proof.
  destruct q as [|x [|y [|z [|]]]]; simpl; try done; unfold levels, KR_TIND_BLOCK, KR_DIND_BLOCK, KR_IND_BLOCK.
  - intros Ha. by replace (a <? KR_NDIR_BLOCKS) with true by lia.
  - by intros [-> _].
  - by intros [-> _].
  - by intros [-> _].
Qed.
Lemma path_nonneg ptrs q : 1 <= ptrs -> path_ok ptrs q -> Forall (fun o => 0 <= o) q.
Proof.
  intros Hp Hq. destruct q as [|a q]; [done|]. apply stem_path, stem_iff in Hq as (Ha & _ & Hf); [|done].
  constructor; [lia|]. eapply Forall_impl; [exact Hf|]. cbv beta. lia.
Qed.

(** The part of the truncation before the switch, then the switch. *)
Lemma after_ends first s q : s <> [] -> hd 0 s = first -> KR_NDIR_BLOCKS <= first ->
  ends s q || kills first q = after s q.
Proof.
  destruct s as [|a s]; [done|]. intros _ <- Ha. destruct q as [|x q]; cbn [ends kills after hd] in *; [done|].
  destruct (after s q), (Z.leb_spec KR_NDIR_BLOCKS x), (Z.ltb_spec a x), (Z.eqb_spec a x); cbn; lia || done.
Qed.
Lemma leaf_not_before ptrs q s o w : path_ok ptrs q -> path_ok ptrs (s ++ o :: w) -> ~ q `prefix_of` s.
Proof.
  intros Hq Hs [r ->]. rewrite <- app_assoc in Hs. apply (path_ends _ _ _ Hq) in Hs. by apply app_eq_nil in Hs as [_ ?].
Qed.
Lemma after_longer q r : forall p, after q p = true -> after (q ++ r) p = true.
Proof.
  induction q as [|x q IH]; intros [|o p]; cbn [app after]; try done. specialize (IH p).
  destruct (x <? o), (x =? o), (after q p); cbn; auto.
Qed.
(** A stem with nothing before a path is not the beginning of a part of it whose next
    offset is not zero. *)
Lemma not_before ptrs q s o w : 1 <= ptrs -> stem ptrs q -> path_ok ptrs (s ++ o :: w) -> s = [] \/ o <> 0 ->
  (forall r, path_ok ptrs (q ++ r) -> after (q ++ r) (s ++ o :: w) = false) ->
  ~ q `prefix_of` s /\ after q (s ++ o :: w) = false /\ Forall (fun x => 0 <= x) q.
Proof.
  intros Hp Hq Hs Ho Hr. destruct q as [|a q]; [by destruct Hq|]. pose proof (proj1 (stem_iff _ _ _ Hp) Hq) as (Ha & Hl & Hf).
  pose proof (zeros_path ptrs a q Hp Ha Hl Hf) as Hz. specialize (Hr _ Hz). split; [|split].
  - intros [s2 ->]. destruct Ho as [Ho|Ho]; [done|]. rewrite <- app_assoc, after_behind in Hr.
    pose proof (path_nonneg _ _ Hp Hs) as Hnn. rewrite <- app_assoc in Hnn, Hs. apply Forall_app in Hnn as [_ Hnn].
    apply Forall_app in Hnn as [H2 [Ho2 _]%Forall_cons].
    rewrite zeros_after in Hr; [done|done|lia|]. cbn [app] in Hs. apply path_levels in Hs. rewrite !length_app in Hs.
    simpl in Hs. lia.
  - destruct (after (a :: q) (s ++ o :: w)) eqn:Ha'; [|done]. by rewrite (after_longer _ _ _ Ha') in Hr.
  - constructor; [lia|]. eapply Forall_impl; [exact Hf|]. cbv beta. lia.
Qed.

Lemma cuts_direct c i first : 1 <= ptrs_of c -> 0 <= first < KR_NDIR_BLOCKS ->
  cuts c i [first] (fun q => in_row [] first (KR_NDIR_BLOCKS - first) q || kills first q).
Proof.
  intros Hp Hf. assert (Hx : forall x q, after (x :: q) [first] = (x <? first)) by (intros x q; cbn; destruct q; cbn; lia).
  split; intros [|x q] Hq; try done.
  - by destruct Hq.
  - pose proof (proj1 (stem_iff _ _ _ Hp) Hq) as (Ha & Hl & Hfo). intros Hr. specialize (Hr _ (zeros_path _ x q Hp Ha Hl Hfo)).
    cbn [app] in Hr. rewrite Hx in Hr. cbn [in_row kills]. lia.
  - rewrite Hx. cbn [in_row kills]. lia.
Qed.
Lemma cuts_last c i s o n : 1 <= ptrs_of c -> path_ok (ptrs_of c) (s ++ o :: repeat 0 n) -> s <> [] -> o <> 0 ->
  KR_NDIR_BLOCKS <= hd 0 s ->
  cuts c i (s ++ o :: repeat 0 n) (fun q => ends (s ++ [o - 1]) q || kills (hd 0 s) q).
Proof.
  intros Hp Hpath Hs Ho Hf.
  assert (He : forall q, ends (s ++ [o - 1]) q || kills (hd 0 s) q = after (s ++ [o - 1]) q).
  { intros q. apply after_ends; [by destruct s|by destruct s|done]. }
  split; intros q Hq; rewrite He.
  - intros Hr. destruct (not_before (ptrs_of c) q s o (repeat 0 n) Hp Hq Hpath (or_intror Ho) Hr) as (H1 & H2 & H3).
    by rewrite (after_pred s o n q H3 H1), H2.
  - intros Ha. rewrite (after_pred s o n q), Ha; [done|by eapply path_nonneg|by eapply leaf_not_before].
Qed.
Lemma cuts_top c i s o w : 1 <= ptrs_of c -> path_ok (ptrs_of c) (s ++ o :: w) -> s = [] \/ o <> 0 -> KR_NDIR_BLOCKS <= hd o s ->
  (forall r, Forall (fun x => 0 <= x) r -> after r w = true -> tree c i (s ++ o :: r) = 0) ->
  cuts c i (s ++ o :: w) (fun q => (in_row s o 1 q || ends (s ++ [o]) q) || kills (hd o s) q).
Proof.
  intros Hp Hpath Ho Hf Hholes.
  assert (He : forall q, (in_row s o 1 q || ends (s ++ [o]) q) || kills (hd o s) q = in_row s o 1 q || after (s ++ [o]) q).
  { intros q. rewrite <- orb_assoc, after_ends; [done|by destruct s|by destruct s|done]. }
  split; intros q Hq; rewrite He.
  - intros Hr. destruct (not_before (ptrs_of c) q s o w Hp Hq Hpath Ho Hr) as (H1 & H2 & _). by apply (after_through s o w q).
  - intros Ha [Hg|Hg]%orb_true_iff.
    + apply in_row_iff in Hg as (k & r & Hk & ->). replace (o + k) with o in * by lia. apply Hholes.
      * apply path_nonneg in Hq; [|done]. by apply Forall_app in Hq as [_ [_ ?]%Forall_cons].
      * rewrite after_behind in Ha. cbn [after] in Ha. by rewrite Z.ltb_irrefl, Z.eqb_refl in Ha.
    + apply (after_weaken s o w) in Hg. apply after_asym in Hg. congruence.
Qed.

Section Facts.
Context {B : BitOps} {BL : BitLaws B} {R : RbTree} {RL : RbLaws R} {T : Trylock} {K : Kernel}.
Variable E : stop -> Prop.
Hypothesis HE : E Panic.
Hypothesis Hgood : forall b, sb_getblk_ok b && bh_read_ok b = true.

(** Freeing what [kr_find_shared] has found, and the ends of the tables above it. *)
Definition cut_branch (ino addr_per_block : Z) (offsets : list Z) : M krfs unit :=
  r ← kr_find_shared ino offsets;
  let '(chain, nr) := r in
  let depth := (length offsets - length chain)%nat in
  when (negb (nr =? 0))
    (match chain with
     | [_] => log (mark_inode_dirty ino)
     | _ => match ind_bh (List.last chain no_ind) with
            | Some b => log (mark_buffer_dirty_inode (BufBlock b) ino)
            | None => halt Fault
            end
     end ;;
     kr_free_branches depth ino [Local nr]) ;;
  clear_ends ino addr_per_block depth (rev chain).

(** The log of a chain whose last table is in a buffer. *)
Lemma log_chain c ino i s o chain fs Q : chain_of c ino i (s ++ [o]) (rev chain) ->
  (forall fs', core_of fs' = core_of fs -> Q tt fs') ->
  runs (match chain with
     | [_] => log (mark_inode_dirty ino)
     | _ => match ind_bh (List.last chain no_ind) with
            | Some b => log (mark_buffer_dirty_inode (BufBlock b) ino)
            | None => halt Fault
            end
     end) E Q fs.
Proof using.
  intros Hch HQ. pose proof (chain_of_length _ _ _ _ _ Hch) as Hl. rewrite length_rev, length_app in Hl. simpl in Hl.
  assert (Hlog : forall x, runs (log x) E Q fs) by (intros x; unfold log; step; by apply HQ).
  destruct chain as [|x1 [|x2 l]]; [simpl in Hl; lia|apply Hlog|].
  destruct (exists_last (l := x1 :: x2 :: l) ltac:(done)) as (l' & p & Hlp). rewrite Hlp in Hch |- *. rewrite last_last.
  rewrite rev_app_distr in Hch. cbn [rev app chain_of] in Hch. destruct Hch as (s' & o' & Hs & Hp & Hbh & _).
  apply app_inj_tail in Hs as [<- <-]. rewrite Hbh, Hp.
  destruct s as [|a s]; [simpl in Hl; lia|]. cbn [slot_of slot_bh]. apply Hlog.
Qed.

Lemma cut_branch_spec ino i first rest fs : let c := core_of fs in let offsets := first :: rest in
  blocks_ok c -> tree_ok c ino i -> path_ok (ptrs_of c) offsets -> rest <> [] ->
  runs (cut_branch ino (ptrs_of c) offsets) E (fun _ fs' => exists gone i', pruned c (core_of fs') ino i i' gone /\
    cuts c i offsets (fun q => gone q || kills first q)) fs.
Proof using All.
  intros c offsets Hok Ht Hpath Hrest. pose proof (ptrs_of_range c Hok) as Hp. pose proof (path_levels _ _ _ Hpath) as Hlev.
  assert (Hfirst : KR_NDIR_BLOCKS <= first).
  { unfold offsets in Hpath. change KR_NDIR_BLOCKS with 12. destruct rest as [|x [|y [|z [|]]]]; simpl in Hpath; try done;
      unfold KR_TIND_BLOCK, KR_DIND_BLOCK, KR_IND_BLOCK, KR_NDIR_BLOCKS in Hpath; lia. }
  unfold cut_branch. step. call (kr_find_shared_spec E Hgood ino i offsets fs Hok Ht Hpath).
  intros [chain nr] fs1 (s & o & w & Hoff & Hz & Hcase). fold c in Hcase.
  assert (Hhd : hd o s = first) by (unfold offsets in Hoff; destruct s; [by injection Hoff|by injection Hoff]).
  assert (Hso : stem (ptrs_of c) (s ++ [o])).
  { apply (stem_app _ _ w); [by destruct s|]. rewrite <- app_assoc. cbn [app]. rewrite <- Hoff. by apply stem_path. }
  assert (Hlen : forall x, chain_of c ino i (s ++ [x]) (rev chain) -> (length offsets - length chain = levels first - length s)%nat).
  { intros x Hch. apply chain_of_length in Hch. rewrite length_rev, length_app in Hch. unfold offsets. simpl in *. lia. }
  destruct Hcase as [([n ->] & Hs & Ho & -> & Hfs1 & Hch)|(Hso0 & -> & Hfs1 & Hch & Hholes)].
  - (* the last table stays *)
    rewrite (Hlen _ Hch). cbn [Z.eqb negb when]. step. step.
    assert (Hstem' : stem (ptrs_of c) (s ++ [o - 1])).
    { destruct s as [|a s']; [done|]. apply (stem_iff _ a (s' ++ [o])) in Hso as (H1 & H2 & [H3 [H4 _]%Forall_cons]%Forall_app); [|lia].
      apply (stem_iff _ a (s' ++ [o - 1])); [lia|]. rewrite length_app in *. split; [done|]. split; [done|].
      apply Forall_app. split; [done|]. repeat constructor; lia. }
    pose proof (clear_ends_spec E HE Hgood ino (rev chain) (s ++ [o - 1]) (levels first - length s) fs1 i) as Hce.
    cbv zeta in Hce. rewrite Hfs1 in Hce. eapply runs_mono; [apply Hce; try done|].
    + rewrite length_app. destruct s; [done|]. cbn [hd app] in *. subst first. simpl length. f_equal. lia.
    + cbv beta. intros [] fs2 [i' P]. exists (ends (s ++ [o - 1])), i'. split; [done|]. rewrite Hoff.
      assert (first = hd 0 s) as -> by (by destruct s). rewrite Hoff in Hpath. apply cuts_last; [lia|done|done|done|by destruct s; subst].
  - (* the branch is taken out *)
    rewrite (Hlen _ Hch). eapply runs_mono; [eapply (prunes_bind E _ _ c ino i (in_row s o 1) (ends (s ++ [o])))|].
    + assert (Hlv : levels first = levels (hd o s)) by by rewrite Hhd. rewrite Hlv.
      apply (free_top E HE Hgood ino i s o fs1 _ c Hfs1 Hok Ht Hso Hz). intros fs' Q Hfs' HQ. by apply (log_chain c ino i s o).
    + intros _ fs2 i1 P1. destruct (pruned_geo _ _ _ _ _ _ P1) as (Gp & Hok1 & _). rewrite <- Gp.
      apply (clear_ends_spec E HE Hgood ino (rev chain) (s ++ [o]) _ fs2 i1 Hok1 (pn_tree _ _ _ _ _ _ P1)).
      * by rewrite Gp.
      * apply (chain_of_same c _ ino i i1 _ _ Hch). rewrite removelast_last. intros u Hu Hpre.
        assert (Hsu : stem (ptrs_of c) u).
        { destruct Hpre as [v Hv]. apply (stem_app _ u (v ++ [o])); [done|]. by rewrite app_assoc, <- Hv. }
        rewrite (pn_paths _ _ _ _ _ _ P1 u Hsu). destruct (in_row s o 1 u) eqn:Hg; [|done].
        apply in_row_iff in Hg as (k & r & _ & ->). apply prefix_length in Hpre. rewrite length_app in Hpre. simpl in Hpre. lia.
      * rewrite length_app. simpl length. replace (hd 0 (s ++ [o])) with first by (by destruct s). f_equal. lia.
    + cbv beta. intros [] fs2 [i' P]. eexists _, i'. split; [exact P|]. rewrite Hoff. rewrite <- Hhd. rewrite Hoff in Hpath.
      apply cuts_top; [lia|done|done|by rewrite Hhd|done].
Qed.

(** The reservation is dropped at the end. *)
Lemma kr_discard_reservation_spec ino fs : rsv_wf (fs_rsv fs) -> own_window fs ino <> Some rsv_head ->
  runs (kr_discard_reservation ino) E (fun _ fs' => exists st', core_of fs' = set_c_rsv st' (core_of fs) /\
    window_dropped (own_window fs ino) (fs_rsv fs) st') fs.
Proof using All.
  intros Hwf Hmy. unfold kr_discard_reservation, own_window in *. step. step. change (id fs) with fs.
  destruct (fs_inodes fs !! ino) as [i|]; cbn [fmap option_fmap option_map mbind option_bind compose] in *; [|step; exists (fs_rsv fs); split; done].
  destruct (i_block_alloc_info (KR_I i)) as [info|]; cbn [fmap option_fmap option_map mbind option_bind compose] in *; [|step; exists (fs_rsv fs); split; done].
  apply runs_lift. unfold discard_window. step. step. change (id (fs_rsv fs)) with (fs_rsv fs).
  destruct (discard_spec (rsv_window_node info) (fs_rsv fs) Hwf ltac:(congruence)) as (st' & Hrun & H1 & H2 & H3 & H4 & _).
  run Hrun. exists st'. split; [done|]. by split.
Qed.

(** The first block to go. *)
Definition first_gone (fs : krfs) (offset : Z) : Z := (offset + fs_blocksize fs - 1) / fs_blocksize fs.

Lemma first_gone_run fs offset : blocks_ok (core_of fs) -> 0 <= offset ->
  first_gone fs offset < max_file_blocks (ptrs_of (core_of fs)) ->
  Z.shiftr (s64 (offset + fs_blocksize fs - 1)) (fs_blocksize_bits fs) = first_gone fs offset /\ 0 <= first_gone fs offset.
Proof using.
  intros Hok Ho Hmax. pose proof (ck_bits _ (bo_core _ Hok)) as Hb. change (c_bits (core_of fs)) with (fs_blocksize_bits fs) in Hb.
  pose proof (ptrs_of_range _ Hok) as Hp. unfold first_gone, max_file_blocks in *. change KR_NDIR_BLOCKS with 12 in Hmax.
  assert (Hbs : fs_blocksize fs = 2 ^ fs_blocksize_bits fs) by (unfold fs_blocksize; rewrite Z.shiftl_mul_pow2 by lia; lia).
  assert (H2 : 2 ^ 10 <= 2 ^ fs_blocksize_bits fs <= 2 ^ 12) by (split; apply Z.pow_le_mono_r; lia).
  change (2 ^ 10) with 1024 in H2. change (2 ^ 12) with 4096 in H2. rewrite Hbs in *. set (bs := 2 ^ fs_blocksize_bits fs) in *.
  assert (Hub : offset + bs - 1 < 4398046511104 * 4096).
  { pose proof (Z.div_mod (offset + bs - 1) bs ltac:(lia)). pose proof (Z.mod_pos_bound (offset + bs - 1) bs ltac:(lia)).
    set (q := (offset + bs - 1) / bs) in *. set (P := ptrs_of (core_of fs)) in *.
    assert (P * P <= 1048576) by nia. assert (P * P * P <= 1073741824) by nia. nia. }
  split; [|apply Z.div_pos; lia]. rewrite Z.shiftr_div_pow2 by lia. fold bs. f_equal.
  unfold s64. rewrite Z.mod_small; lia.
Qed.

Lemma truncate_blocks_spec ino i offset fs : let c := core_of fs in addr_ok fs -> blocks_ok c -> tree_ok c ino i ->
  rsv_wf (fs_rsv fs) -> own_window fs ino <> Some rsv_head ->
  0 <= offset -> first_gone fs offset < max_file_blocks (ptrs_of c) ->
  runs (truncate_blocks ino offset) E (fun _ fs' => exists i', truncated c (core_of fs') ino i i' (first_gone fs offset) /\
    window_dropped (own_window fs ino) (fs_rsv fs) (fs_rsv fs')) fs.
Proof using All.
  intros c [Hb Hbits] Hok Ht Hwf Hmy Ho Hmax. destruct (first_gone_run fs offset Hok Ho Hmax) as [Hib Hib0].
  pose proof (ptrs_of_range c Hok) as Hptrs. unfold truncate_blocks. step. step. change (id fs) with fs.
  rewrite (table_size fs) by lia. fold c. rewrite Hib, Hbits.
  pose proof (block_to_path_in (ptrs_of c) (fs_blocksize_bits fs - 2) ltac:(lia) eq_refl (first_gone fs offset) ltac:(done)) as Hpath.
  destruct (kr_block_to_path (ptrs_of c) (fs_blocksize_bits fs - 2) (first_gone fs offset)) as [offsets boundary].
  destruct Hpath as (Hpath & Hblock & _). destruct offsets as [|first rest]; [done|]. rewrite <- Hblock.
  assert (Hfirst : 0 <= first < KR_N_BLOCKS) by (apply stem_path, stem_iff in Hpath as (? & _); [done|lia]).
  (* the switch and the reservation *)
  assert (Hend : forall fs1 gone i1, pruned c (core_of fs1) ino i i1 gone ->
    cuts c i (first :: rest) (fun q => gone q || kills first q) ->
    runs (kill_subtrees ino first ;; kr_discard_reservation ino) E
      (fun _ fs' => exists i', truncated c (core_of fs') ino i i' (path_block (ptrs_of c) (first :: rest)) /\
         window_dropped (own_window fs ino) (fs_rsv fs) (fs_rsv fs')) fs1).
  { intros fs1 gone i1 P1 Hcut. destruct (pruned_geo _ _ _ _ _ _ P1) as (_ & Hok1 & _). step.
    eapply runs_mono; [apply (kill_subtrees_spec E HE Hgood ino i1 first fs1 Hok1 (pn_tree _ _ _ _ _ _ P1) Hfirst)|].
    cbv beta. intros u fs2 [i2 P2]. pose proof (pruned_trans _ _ _ _ _ _ _ _ _ P1 P2) as P. clear P1 P2 i1 u.
    assert (Hrsv : fs_rsv fs2 = fs_rsv fs).
    { destruct (erased_geo _ _ _ _ (pn_erased _ _ _ _ _ _ P)) as (_ & _ & _ & _ & _ & Hr & _). exact Hr. }
    assert (Hown : own_window fs2 ino = own_window fs ino).
    { unfold own_window. change (fs_inodes fs2) with (c_inodes (core_of fs2)). rewrite (tk_inode _ _ _ (pn_tree _ _ _ _ _ _ P)).
      change (fs_inodes fs) with (c_inodes c). rewrite (tk_inode _ _ _ Ht). by destruct (pn_file _ _ _ _ _ _ P) as [l ->]. }
    eapply runs_mono; [apply (kr_discard_reservation_spec ino fs2); [by rewrite Hrsv|by rewrite Hown]|].
    cbv beta. intros _ fs3 (st & Hfs3 & Hdrop). rewrite Hown, Hrsv in Hdrop. exists i2.
    assert (fs_rsv fs3 = st) as -> by (change (c_rsv (core_of fs3) = st); by rewrite Hfs3). split; [|done].
    destruct (pruned_truncated _ _ _ _ _ _ _ Hok Hpath P Hcut) as [T1 T2 T3 T4 T5 T6 T7 T8 T9].
    assert (Htr : forall q, tree (core_of fs3) i2 q = tree (core_of fs2) i2 q).
    { intros q. rewrite Hfs3. exact (tree_window (core_of fs2) st (c_inodes (core_of fs2)) i2 i2 eq_refl q). }
    split; try done; try (rewrite Hfs3; done).
    - rewrite Hfs3. by apply blocks_ok_rsv.
    - destruct (pruned_geo _ _ _ _ _ _ P) as (Gp & _). apply (tree_ok_kept (core_of fs2) _ ino i2 i2 T2); try done.
      + rewrite Hfs3. by split.
      + rewrite Hfs3. apply T2.
    - intros q Hq. rewrite Htr. by apply T4.
    - intros q Hq. rewrite Htr. by apply T5.
    - intros q Hq Hr. rewrite Htr. by apply T6.
    - intros b Hbr. assert (block_used (core_of fs3) b = block_used (core_of fs2) b) as -> by by rewrite Hfs3.
      rewrite (T7 b Hbr). by setoid_rewrite Htr. }
  step. destruct rest as [|x rest].
  - (* direct blocks *)
    change (slots (InInode ino 0)) with (slots (slot_of c ino i [] 0)).
    change (kr_free_data ino) with (kr_free_branches 0 ino). simpl in Hpath.
    eapply runs_mono; [apply (free_row E HE Hgood ino i [] first (KR_NDIR_BLOCKS - first) 0 fs Hok Ht); [unfold KR_NDIR_BLOCKS in *; lia| |done]|].
    + intros k Hk. cbn [app hd length]. split; [|unfold levels; by replace (first + k <? KR_IND_BLOCK) with true by (unfold KR_IND_BLOCK; lia)].
      apply stem_path. simpl. lia.
    + cbv beta. intros [] fs1 [i1 P1]. apply (Hend fs1 _ i1 P1). apply cuts_direct; lia.
  - change (runs (cut_branch ino (ptrs_of c) (first :: x :: rest)) E (fun _ s' => runs (kill_subtrees ino first ;; kr_discard_reservation ino) E
      (fun _ fs' => exists i', truncated c (core_of fs') ino i i' (path_block (ptrs_of c) (first :: x :: rest)) /\
         window_dropped (own_window fs ino) (fs_rsv fs) (fs_rsv fs')) s') fs).
    eapply runs_mono; [apply (cut_branch_spec ino i first (x :: rest) fs Hok Ht Hpath); done|].
    cbv beta. intros [] fs1 (gone & i1 & P1 & Hcut). by apply (Hend fs1 gone i1).
Qed.
End Facts.

Section Theorems.
Context {B : BitOps} {BL : BitLaws B} {R : RbTree} {RL : RbLaws R} {T : Trylock} {K : Kernel}.

(** A file that can be truncated. *)
Record can_truncate (fs : krfs) (ino : Z) (i : inode) : Prop := {
  ct_addr : addr_ok fs;
  ct_blocks : blocks_ok (core_of fs);
  ct_tree : tree_ok (core_of fs) ino i;
  ct_rsv : rsv_wf (fs_rsv fs);
  ct_window : own_window fs ino <> Some rsv_head;
}.

(** C5. [truncate_blocks], on a device that reads every block and a file whose tree is
    sound, returns and leaves a sound tree without the blocks from the first whole
    block past the offset on: the paths to the blocks before it lead where they led,
    the blocks past it and the tables that led only to them are free, every other
    block and inode is as it was, and the file's reservation window is dropped. *)
Theorem truncate_blocks_correct ino i offset fs :
  (forall b, sb_getblk_ok b && bh_read_ok b = true) -> can_truncate fs ino i ->
  0 <= offset -> first_gone fs offset < max_file_blocks (ptrs_of (core_of fs)) ->
  runs (truncate_blocks ino offset) only_panic (fun _ fs' => exists i',
    truncated (core_of fs) (core_of fs') ino i i' (first_gone fs offset) /\
    window_dropped (own_window fs ino) (fs_rsv fs) (fs_rsv fs')) fs.
Proof. intros Hgood [H1 H2 H3 H4 H5]. by apply truncate_blocks_spec. Qed.

(** A file with another size has the same tree. *)
Lemma can_truncate_size fs ino i size : can_truncate fs ino i ->
  let fs' := set_fs_inodes (alter (set_i_size size) ino (fs_inodes fs)) fs in
  can_truncate fs' ino (set_i_size size i) /\ own_window fs' ino = own_window fs ino.
Proof.
  intros [H1 H2 H3 H4 H5] fs'. pose proof (tk_inode _ _ _ H3) as Hi.
  assert (Hi' : fs_inodes fs' !! ino = Some (set_i_size size i)).
  { unfold fs'. cbn [fs_inodes set_fs_inodes]. rewrite lookup_alter_eq. change (fs_inodes fs) with (c_inodes (core_of fs)). by rewrite Hi. }
  assert (Hw : own_window fs' ino = own_window fs ino).
  { unfold own_window. rewrite Hi'. change (fs_inodes fs) with (c_inodes (core_of fs)). by rewrite Hi. }
  split; [|done]. split; [exact H1| | |exact H4|by rewrite Hw].
  - change (core_of fs') with (set_c_inodes (fs_inodes fs') (core_of fs)). by apply blocks_ok_inodes.
  - apply (tree_ok_kept (core_of fs) _ ino i _ H3); [by split|done|exact Hi'].
Qed.

(** C37. [kr_setsize] refuses what has no blocks with [-EINVAL], what may only grow or
    may not change with [-EPERM], and answers the error of clearing the rest of the
    last page, all without a change; otherwise it answers 0, and the file has the
    new size, the time, and no blocks past it, as [truncate_blocks] leaves them. *)
Theorem kr_setsize_correct ino i newsize fs :
  (forall b, sb_getblk_ok b && bh_read_ok b = true) -> can_truncate fs ino i ->
  0 <= newsize -> first_gone fs newsize < max_file_blocks (ptrs_of (core_of fs)) ->
  runs (kr_setsize ino newsize) only_panic (fun r fs' =>
    let e := if negb (has_blocks i) || kr_inode_is_fast_symlink fs i then - EINVAL
             else if IS_APPEND i || IS_IMMUTABLE i then - EPERM else truncate_page ino newsize in
    r = e /\ if negb (e =? 0) then fs' = fs else
      let resized := set_c_inodes (alter (set_i_size newsize) ino (fs_inodes fs)) (core_of fs) in
      exists c i', truncated resized c ino (set_i_size newsize i) i' (first_gone fs newsize) /\
        window_dropped (own_window fs ino) (fs_rsv fs) (c_rsv c) /\
        core_of fs' = set_c_inodes (<[ino := set_i_mtime current_time (set_i_ctime current_time i')]> (c_inodes c)) c) fs.
Proof.
  intros Hgood Hct Ho Hmax. pose proof (tk_inode _ _ _ (ct_tree _ _ _ Hct)) as Hi. change (c_inodes (core_of fs)) with (fs_inodes fs) in Hi.
  unfold kr_setsize. step. run (inode_get_run ino i fs Hi). step. step. change (id fs) with fs.
  destruct (has_blocks i); cbn [negb orb]; [|by step]. destruct (kr_inode_is_fast_symlink fs i); [by step|].
  destruct (IS_APPEND i || IS_IMMUTABLE i); [by step|]. cbv zeta.
  destruct (Z.eqb_spec (truncate_page ino newsize) 0) as [He|He]; cbn [negb]; [|by step].
  rewrite He. step. unfold inode_upd at 1. step. step. unfold log at 1. step.
  set (fs1 := set_fs_inodes (alter (set_i_size newsize) ino (fs_inodes fs)) fs).
  destruct (can_truncate_size fs ino i newsize Hct) as [Hct1 Hw1]. fold fs1 in Hct1, Hw1.
  set (fs2 := set_fs_trace _ _). step.
  eapply runs_mono; [apply (truncate_blocks_correct ino (set_i_size newsize i) newsize fs2 Hgood); [|done|done]|].
  { destruct Hct1 as [C1 C2 C3 C4 C5]. split; [exact C1|exact C2|exact C3|exact C4|exact C5]. }
  cbv beta. intros _ fs3 (i' & Htr & Hdrop). change (own_window fs2 ino) with (own_window fs1 ino) in Hdrop. rewrite Hw1 in Hdrop.
  step. unfold inode_upd. step. pose proof (tk_inode _ _ _ (tr_tree _ _ _ _ _ _ Htr)) as Hi3.
  change (c_inodes (core_of fs3)) with (fs_inodes fs3) in Hi3.
  set (fs4 := set_fs_inodes _ fs3).
  assert (Hfs4 : core_of fs4 = set_c_inodes (<[ino := set_i_mtime current_time (set_i_ctime current_time i')]> (fs_inodes fs3)) (core_of fs3)).
  { unfold fs4. change (core_of (set_fs_inodes ?x fs3)) with (set_c_inodes x (core_of fs3)). f_equal.
    apply map_eq. intros j. destruct (decide (j = ino)) as [->|]; [by rewrite lookup_alter_eq, lookup_insert_eq, Hi3|].
    by rewrite lookup_alter_ne, lookup_insert_ne. }
  assert (Hi4 : exists i4, fs_inodes fs4 !! ino = Some i4).
  { eexists. change (fs_inodes fs4) with (c_inodes (core_of fs4)). rewrite Hfs4. cbn [c_inodes set_c_inodes]. by rewrite lookup_insert_eq. }
  destruct Hi4 as [i4 Hi4]. step. run (inode_get_run ino i4 fs4 Hi4). step. step.
  assert (Hend : forall fs5, core_of fs5 = core_of fs4 -> 0 = 0 /\ exists c i5,
      truncated (core_of fs2) c ino (set_i_size newsize i) i5 (first_gone fs newsize) /\
      window_dropped (own_window fs ino) (fs_rsv fs) (c_rsv c) /\
      core_of fs5 = set_c_inodes (<[ino := set_i_mtime current_time (set_i_ctime current_time i5)]> (c_inodes c)) c).
  { intros fs5 ->. split; [done|]. exists (core_of fs3), i'. split; [exact Htr|]. split; [exact Hdrop|exact Hfs4]. }
  destruct (inode_needs_sync _ i4); unfold log; steps; by apply Hend.
Qed.
End Theorems.

(** ** Witnesses *)

(** The file 12 after its blocks 12 to 15 have been allocated, with a table. *)
Definition demo_grown : krfs :=
  match kr_get_blocks (mret tt) 12 12 4 true demo with Ret _ fs => fs | Stop _ => demo end.

Lemma demo_grown_rsv : rsv_wf (fs_rsv demo_grown).
Proof.
  assert (fs_rsv demo_grown = RsvSt
    (list_to_map [(0, ReserveWindowNode 0 0 (ReserveWindow 0 0));
                (1, ReserveWindowNode 8 5 (ReserveWindow 9 19));
                (2, ReserveWindowNode 8 0 (ReserveWindow 41 48));
                (3, ReserveWindowNode 8 0 (ReserveWindow 0 0))])
    (Node (Node Leaf 0 Leaf) 1 (Node Leaf 2 Leaf))) as -> by (vm_compute; reflexivity).
  split; [split| | |]; try done.
  - repeat constructor.
  - repeat constructor; unfold valid_window; vm_compute; done.
  - intros n Hn. change (wins _) with [0; 1; 2]. unfold rsv_at. simpl.
    destruct (decide (n = 1)) as [->|]; [split; [done|]; intros; set_solver|].
    destruct (decide (n = 2)) as [->|]; [split; [done|]; intros; set_solver|].
    destruct (decide (n = 3)) as [->|]; [split; [set_solver|done]|].
    unfold rsv_head in Hn. rewrite !lookup_insert_ne by done. rewrite lookup_empty. simpl.
    split; [set_solver|done].
Qed.
Lemma demo_grown_file : exists i, can_truncate demo_grown 12 i.
Proof.
  pose proof (kr_get_blocks_create only_panic eq_refl 12 demo_file12 12 4 100 demo demo_addr_ok demo_ok demo_zero_used
    demo_tree_ok eq_refl ltac:(intros g _; apply demo_readable) demo_can_grow ltac:(lia) ltac:(lia)) as Hg.
  unfold runs in Hg. destruct (kr_get_blocks (mret tt) 12 12 4 true demo) as [m fs|w] eqn:Hrun; [|by vm_compute in Hrun].
  assert (demo_grown = fs) as He by (unfold demo_grown; by rewrite Hrun).
  assert (Hm : m_ret m = 4 /\ m_new m = true).
  { assert (answer (kr_get_blocks (mret tt) 12 12 4 true) demo = Some m) as Ha by (unfold answer; by rewrite Hrun).
    vm_compute in Ha. clear - Ha. injection Ha as <-. split; reflexivity. }
  unfold got_blocks in Hg. destruct (kr_block_to_path _ _ _) as [offsets boundary].
  destruct Hg as [(_ & _ & Hl)|(_ & _ & i & news & Hg & _)].
  { exfalso. destruct Hm as [Hm1 Hm2]. destruct Hl as [(Hl & _)|[(Hl & _)|(_ & Hl & _)]]; [rewrite Hm1 in Hl; discriminate Hl..|].
    rewrite Hm2 in Hl. discriminate Hl. }
  exists i. rewrite He. split.
  - rewrite <- He. split; vm_compute; [split; discriminate|reflexivity].
  - apply Hg.
  - apply Hg.
  - rewrite <- He. exact demo_grown_rsv.
  - rewrite <- He. vm_compute. discriminate.
Qed.

(** The blocks 14 and 15 of the file go. *)
Lemma truncate_blocks_witness : exists i,
  runs (truncate_blocks 12 14000) only_panic (fun _ fs' => exists i',
    truncated (core_of demo_grown) (core_of fs') 12 i i' 14 /\
    window_dropped (Some 1) (fs_rsv demo_grown) (fs_rsv fs')) demo_grown /\
  answer (truncate_blocks 12 14000 ;; fs ← gets id; mret ((fun b => block_used (core_of fs) b) <$> [15; 16; 17; 18; 19])) demo_grown =
    Some [true; true; true; false; false].
Proof.
  destruct demo_grown_file as [i Hi]. exists i. split; [|vm_compute; reflexivity].
  apply (truncate_blocks_correct 12 i 14000 demo_grown); [done|exact Hi|lia|vm_compute; reflexivity].
Defined.

Lemma kr_setsize_witness : exists i,
  runs (kr_setsize 12 14000) only_panic (fun r fs' =>
    let e := if negb (has_blocks i) || kr_inode_is_fast_symlink demo_grown i then - EINVAL
             else if IS_APPEND i || IS_IMMUTABLE i then - EPERM else truncate_page 12 14000 in
    r = e /\ if negb (e =? 0) then fs' = demo_grown else
      let resized := set_c_inodes (alter (set_i_size 14000) 12 (fs_inodes demo_grown)) (core_of demo_grown) in
      exists c i', truncated resized c 12 (set_i_size 14000 i) i' (first_gone demo_grown 14000) /\
        window_dropped (own_window demo_grown 12) (fs_rsv demo_grown) (c_rsv c) /\
        core_of fs' = set_c_inodes (<[12 := set_i_mtime current_time (set_i_ctime current_time i')]> (c_inodes c)) c) demo_grown /\
  answer (r ← kr_setsize 12 14000; i ← inode_get 12; fs ← gets id;
          mret (r, i_size i, (fun b => block_used (core_of fs) b) <$> [17; 18])) demo_grown = Some (0, 14000, [true; false]).
Proof.
  destruct demo_grown_file as [i Hi]. exists i. split; [|vm_compute; reflexivity].
  apply (kr_setsize_correct 12 i 14000 demo_grown); [done|exact Hi|lia|vm_compute; reflexivity].
Defined.
