(* ===== verification/Quota.v ===== *)
(** * Quota files (super.c)

    [kr_quota_read] and [kr_quota_write] copy bytes of a quota file block by block
    through the buffer cache, past the cache of its pages. *)

From S2P Require Import Prelude Bytes Bits Kr Rsv Bitmap Alloc State Balloc BlockMap.

Section Ops.
Context `{BitOps, RbTree, Trylock, Kernel}.

(** The bytes of the next turn: up to the end of the block. *)
Definition tocopy (blocksize offset left : Z) : Z :=
  if blocksize - offset <? left then blocksize - offset else left.

(** The loop of [kr_quota_read]; the answer is the error, or 0, and the bytes that
    have been copied to [data]. *)
Fixpoint quota_read_loop (fuel : nat) (ino blk offset toread : Z) (data : list Z) : M krfs (Z * list Z) :=
  match fuel with
  | O => halt OutOfFuel
  | S n =>
      if toread >? 0 then
        fs ← gets id;
        let tocopy := tocopy (fs_blocksize fs) offset toread in
        r ← kr_get_block (mret tt) ino blk (fs_blocksize fs) false;
        let '(err, tmp_bh) := r in
        if err <? 0 then mret (err, data)
        else
          piece ← match bh_blocknr tmp_bh with
                  | None => mret (Some (repeat 0 (Z.to_nat tocopy)))   (* a hole *)
                  | Some b =>
                      bh ← sb_bread b;
                      match bh with
                      | None => mret None
                      | Some b => d ← buf_get b; mret (Some (sub d offset tocopy))
                      end
                  end;
          match piece with
          | None => mret (- EIO, data)
          | Some l => quota_read_loop n ino (blk + 1) 0 (toread - tocopy) (data ++ l)
          end
      else mret (0, data)
  end.

(** [ino] is the inode [sb_dqopt(sb)->files[type]]. *)
Definition kr_quota_read (ino len off : Z) : M krfs (Z * list Z) :=
  i ← inode_get ino;
  fs ← gets id;
  let blk := Z.shiftr off (fs_blocksize_bits fs) in
  let offset := Z.land off (fs_blocksize fs - 1) in
  if off >? i_size i then mret (0, [])
  else
    let len := if u64 (off + len) >? i_size i then i_size i - off else len in
    r ← quota_read_loop (Z.to_nat (len / fs_blocksize fs) + 3) ino blk offset len [];
    let '(err, data) := r in
    mret (if err <? 0 then err else len, data).

(** The loop of [kr_quota_write]; the answer is the error and [towrite] at [out].
    [other] is what other threads do to the file while it looks for a block. *)
Fixpoint quota_write_loop (fuel : nat) (other : M krfs unit) (ino blk offset towrite : Z) (data : list Z)
    : M krfs (Z * Z) :=
  match fuel with
  | O => halt OutOfFuel
  | S n =>
      if towrite >? 0 then
        fs ← gets id;
        let tocopy := tocopy (fs_blocksize fs) offset towrite in
        r ← kr_get_block other ino blk (fs_blocksize fs) true;
        let '(err, tmp_bh) := r in
        if err <? 0 then mret (err, towrite)
        else
          match bh_blocknr tmp_bh with
          | None => halt Fault   (* [b_blocknr] has not been set *)
          | Some b =>
              let whole := (offset =? 0) && (tocopy =? fs_blocksize fs) in
              bh ← (if whole then mret (if sb_getblk_ok b then Some b else None) else sb_bread b);
              match bh with
              | None => mret (- EIO, towrite)
              | Some b =>
                  let piece := take (Z.to_nat tocopy) data in
                  (if whole then buf_set b piece
                   else d ← buf_get b; buf_set b (put_bytes d offset piece)) ;;
                  modify (fun fs => set_fs_uptodate (({[b]} : gset Z) ∪ fs_uptodate fs) fs) ;;
                  log (mark_buffer_dirty (BufBlock b)) ;;
                  quota_write_loop n other ino (blk + 1) 0 (towrite - tocopy) (drop (Z.to_nat tocopy) data)
              end
          end
      else mret (0, towrite)
  end.

Definition kr_quota_write (other : M krfs unit) (ino : Z) (data : list Z) (off : Z) : M krfs Z :=
  fs ← gets id;
  let blk := Z.shiftr off (fs_blocksize_bits fs) in
  let offset := Z.land off (fs_blocksize fs - 1) in
  r ← quota_write_loop (Z.to_nat (len data / fs_blocksize fs) + 3) other ino blk offset (len data) data;
  let '(err, towrite) := r in
  if len data =? towrite then mret err
  else
    inode_upd (fun i => if i_size i <? off + len data - towrite then set_i_size (off + len data - towrite) i else i) ino ;;
    inode_upd (fun i => set_i_version (u64 (i_version i + 1)) i) ino ;;
    inode_upd (fun i => set_i_mtime current_time (set_i_ctime current_time i)) ino ;;
    log (mark_inode_dirty ino) ;;
    mret (len data - towrite).

End Ops.
