(* ===== verification/QuotaTheorems.v ===== *)
(** * What reading and writing a quota file does

    A file as a function from offsets to bytes, through its tree of blocks:
    [kr_quota_read] answers its values, and [kr_quota_write] into blocks that are
    there changes the values written and no others. *)

From stdpp Require Import list_numbers.
From S2P Require Import Prelude Bytes Bits Kr Rsv Bitmap Alloc State Balloc BallocFacts NewBlocks InodeFlags BlockMap PathFacts BlockMapFacts AllocBranch FileTree BuildBranch GetBlocks CreateFacts Demo BlockTheorems CreateTheorems TruncateTheorems Quota.

(** ** The bytes of a file *)

Definition path_of (c : core) (blk : Z) : list Z := (kr_block_to_path (ptrs_of c) (c_bits c - 2) blk).1.
Definition file_block (c : core) (i : inode) (blk : Z) : Z := tree c i (path_of c blk).
Definition file_byte (c : core) (i : inode) (x : Z) : Z :=
  let b := file_block c i (x / 2 ^ c_bits c) in
  if b =? 0 then 0 else get8 (default [] (c_bufs c !! b)) (x mod 2 ^ c_bits c).
Definition file_bytes (c : core) (i : inode) (x n : Z) : list Z := file_byte c i <$> seqZ x n.

(** The data of the block are in the buffers. *)
Definition loaded (c : core) (b : Z) : Prop := exists d, c_bufs c !! b = Some d /\ len d = 2 ^ c_bits c /\ bytes d.

(** The bytes a file can have. *)
Definition max_bytes (c : core) : Z := max_file_blocks (ptrs_of c) * 2 ^ c_bits c.

Lemma file_bytes_app c i x n m : 0 <= n -> 0 <= m -> file_bytes c i x (n + m) = file_bytes c i x n ++ file_bytes c i (x + n) m.
Proof. intros Hn Hm. unfold file_bytes. by rewrite seqZ_app, fmap_app. Qed.
Lemma len_file_bytes c i x n : 0 <= n -> len (file_bytes c i x n) = n.
Proof. intros Hn. unfold file_bytes, len. rewrite length_fmap, length_seqZ. lia. Qed.
Lemma get8_file_bytes c i x n k : 0 <= k < n -> get8 (file_bytes c i x n) k = file_byte c i (x + k).
Proof.
  intros Hk. unfold get8, file_bytes. rewrite nth_lookup, list_lookup_fmap.
  rewrite lookup_seqZ_lt by lia. cbn. f_equal. lia.
Qed.

(** Offsets within a block. *)
Lemma block_offset bs x k : 0 < bs -> 0 <= x -> 0 <= k -> x mod bs + k < bs ->
  (x + k) / bs = x / bs /\ (x + k) mod bs = x mod bs + k.
Proof.
  intros Hbs Hx Hk Hlt. pose proof (Z.div_mod x bs ltac:(lia)) as Hd. pose proof (Z.mod_pos_bound x bs Hbs).
  split; [symmetry; apply (Z.div_unique _ _ _ (x mod bs + k)); lia|symmetry; apply (Z.mod_unique _ _ (x / bs)); lia].
Qed.
Lemma next_block bs x : 0 < bs -> 0 <= x ->
  (x + (bs - x mod bs)) / bs = x / bs + 1 /\ (x + (bs - x mod bs)) mod bs = 0.
Proof.
  intros Hbs Hx. pose proof (Z.div_mod x bs ltac:(lia)) as Hd.
  split; [symmetry; apply (Z.div_unique _ _ _ 0); lia|symmetry; apply (Z.mod_unique _ _ (x / bs + 1)); lia].
Qed.

(** A piece of a block. *)
Section Piece.
Variables (c : core) (i : inode) (x n : Z).
Let bs := 2 ^ c_bits c.
Let b := file_block c i (x / bs).
Hypothesis Hbs : 0 < bs.
Hypothesis Hx : 0 <= x.
Hypothesis Hn : 0 <= n /\ x mod bs + n <= bs.

Lemma piece_byte k : 0 <= k < n -> file_byte c i (x + k) =
  if b =? 0 then 0 else get8 (default [] (c_bufs c !! b)) (x mod bs + k).
Proof using All. intros Hk. unfold file_byte. fold bs. by destruct (block_offset bs x k) as [-> ->]; [lia..|]. Qed.
Lemma piece_hole : b = 0 -> repeat 0 (Z.to_nat n) = file_bytes c i x n.
Proof using All.
  intros Hb. apply list_eq. intros k. unfold file_bytes. rewrite list_lookup_fmap. destruct (decide (Z.of_nat k < n)) as [Hk|Hk].
  - rewrite lookup_seqZ_lt by lia. cbn. rewrite piece_byte by lia. rewrite Hb. cbn.
    destruct (lookup_lt_is_Some_2 (repeat 0 (Z.to_nat n)) k) as [v Hv]; [rewrite repeat_length; lia|]. rewrite Hv. f_equal.
    pose proof (nth_repeat 0 (Z.to_nat n) k) as He. rewrite nth_lookup, Hv in He. done.
  - rewrite lookup_seqZ_ge by lia. cbn. apply lookup_ge_None. rewrite repeat_length. lia.
Qed.
Lemma piece_data d : b <> 0 -> c_bufs c !! b = Some d -> len d = bs -> sub d (x mod bs) n = file_bytes c i x n.
Proof using All.
  intros Hb Hd Hl. pose proof (Z.mod_pos_bound x bs Hbs). apply sub_eq; [lia|lia|apply len_file_bytes; lia|].
  intros k Hk. rewrite get8_file_bytes by done. rewrite piece_byte by done. replace (b =? 0) with false by lia. by rewrite Hd.
Qed.
End Piece.

(** A block of data at the end of a path gets other bytes. *)
Section WriteBlock.
Variables (c : core) (ino : Z) (i : inode) (q : list Z) (d : list Z).
Hypothesis Hok : blocks_ok c.
Hypothesis Ht : tree_ok c ino i.
Hypothesis Hq : path_ok (ptrs_of c) q.
Let b := tree c i q.
Hypothesis Hb : b <> 0.
Let c' := with_buf c b d.

Lemma wb_stem : stem (ptrs_of c) q.
Proof using Hq. by apply stem_path. Qed.
Lemma wb_data : data_block c b.
Proof using All. by apply (tk_block _ _ _ Ht); [apply wb_stem|]. Qed.
Lemma wb_ok : blocks_ok c' /\ forall x, c_fdb c <= x < c_nblocks c -> block_used c' x = block_used c x.
Proof using All.
  apply (data_written c c' [b]); [done| | |done].
  - intros x Hx. apply lookup_insert_ne. intros <-. apply Hx. by left.
  - intros x ->%list_elem_of_singleton. apply wb_data.
Qed.
Lemma wb_tree r : stem (ptrs_of c) r -> tree c' i r = tree c i r.
Proof using All.
  intros Hr. apply (rehung_other (ptrs_of c) c c' i i [] 0 0 0); [|done|lia]. split.
  - intros p x Hp Hpx Hz. rewrite decide_False by lia. unfold table, c', with_buf. cbn [c_bufs set_c_bufs].
    destruct (decide (b = tree c i p)) as [He|He]; [|by rewrite lookup_insert_ne]. exfalso.
    destruct (stem_inner _ p [x] Hp ltac:(done) Hpx) as [Hs Hn]. apply Hn.
    assert (q = p) as <- by (by apply (tk_inj _ _ _ Ht); [apply wb_stem| | |]). done.
  - intros x Hx. by rewrite decide_False by lia.
Qed.
Lemma wb_tree_ok : tree_ok c' ino i.
Proof using All.
  destruct wb_ok as [_ Hu]. destruct Ht as [H1 H2 H3 H4 H5 H6]. split; try done.
  - intros p Hp. rewrite wb_tree by done. intros Hz. destruct (H4 p Hp Hz) as [Hd Hused]. split; [done|].
    rewrite Hu by apply Hd. done.
  - intros p Hp Hn. rewrite wb_tree by done. intros Hz. destruct (H5 p Hp Hn Hz) as (t & Hbt & Hl). exists t. split; [|done].
    unfold c', with_buf. cbn [c_bufs set_c_bufs]. rewrite lookup_insert_ne; [done|]. intros He. apply Hn.
    assert (q = p) as <- by (apply H6; [apply wb_stem|done|done|done]). done.
  - intros p1 p2 Hp1 Hp2. rewrite !wb_tree by done. by apply H6.
Qed.
End WriteBlock.

Section Facts.
Context {B : BitOps} {BL : BitLaws B} {R : RbTree} {RL : RbLaws R} {T : Trylock} {K : Kernel}.
Variable E : stop -> Prop.

(** ** One block *)

Lemma blocksize_pow fs : 10 <= fs_blocksize_bits fs -> fs_blocksize fs = 2 ^ c_bits (core_of fs) /\
  1024 <= 2 ^ c_bits (core_of fs).
Proof using.
  intros Hb. unfold fs_blocksize. change (c_bits (core_of fs)) with (fs_blocksize_bits fs).
  rewrite Z.shiftl_mul_pow2 by lia. split; [lia|]. change 1024 with (2 ^ 10). apply Z.pow_le_mono_r; lia.
Qed.

(** Mapping a block that is there, or reading a hole. *)
Lemma get_block_spec other ino i blk create fs : let c := core_of fs in addr_ok fs -> file_ok c ino i ->
  (forall b, bh_read_ok b = true) -> 0 <= blk < max_file_blocks (ptrs_of c) ->
  create = false \/ file_block c i blk <> 0 ->
  runs (kr_get_block other ino blk (fs_blocksize fs) create) E (fun r fs' => core_of fs' = c /\ r.1 = 0 /\
    bh_blocknr r.2 = if file_block c i blk =? 0 then None else Some (file_block c i blk)) fs.
Proof using All.
  intros c Haddr Hf Hread Hblk Hc. pose proof Haddr as [Hb _]. destruct (blocksize_pow fs ltac:(lia)) as [Hbs Hge].
  assert (Hbits : 8 <= fs_blocksize_bits fs - 2 <= 10) by lia.
  pose proof (block_to_path_in (ptrs_of c) (fs_blocksize_bits fs - 2) Hbits eq_refl blk Hblk) as Hin.
  change (ptrs_of c) with (2 ^ (fs_blocksize_bits fs - 2)) in Hin.
  unfold kr_get_block. step. step. change (id fs) with fs.
  assert (u32 (Z.shiftr (fs_blocksize fs) (fs_blocksize_bits fs)) = 1) as ->.
  { rewrite Hbs. change (c_bits (core_of fs)) with (fs_blocksize_bits fs). rewrite Z.shiftr_div_pow2 by lia.
    rewrite Z.div_same by (apply Z.pow_nonzero; lia). done. }
  assert (Hfb : file_block c i blk = tree c i (kr_block_to_path (2 ^ (fs_blocksize_bits fs - 2)) (fs_blocksize_bits fs - 2) blk).1) by done.
  step. apply (kr_get_blocks_look E other ino i blk 1 create); [done|done|lia| |].
  - intros m fs' Hfs' Hm Hret. unfold looked_up in Hm. fold c in Hm. rewrite !Z.add_0_r, <- Hfb in Hm.
    destruct Hm as [(_ & _ & Hm)|[(Hr & Hn & Hz)|(Hr & _ & _ & bno & Hn & Hnz & Hall)]].
    + exfalso. destruct Hm as [Hp|[b Hb']]; [|by rewrite Hread in Hb'].
      destruct (kr_block_to_path _ _ blk) as [offsets boundary]. cbn in Hp. subst offsets. by destruct Hin.
    + rewrite Hr. cbn [Z.leb Z.compare]. step. rewrite Hz. done.
    + replace (m_ret m <=? 0) with false by lia. step. split; [done|]. split; [done|]. cbn [snd bh_blocknr].
      specialize (Hall 0 ltac:(lia)). rewrite !Z.add_0_r, <- Hfb in Hall. rewrite Hall, Hn. by replace (bno =? 0) with false by lia.
  - intros fs1 offsets boundary chain pre rest Hct _ Hpath _ _ Hoff Hpre _ Hz _. exfalso.
    destruct Hc as [Hc|Hc]; [congruence|]. apply Hc. rewrite Hfb, Hpath. cbn. rewrite Hoff. by apply tree_app_zero.
Qed.

(** ** Reading *)

(** The blocks of the bytes are holes or in the buffers. *)
Definition readable_file (c : core) (i : inode) (x n : Z) : Prop := forall y, x <= y < x + n ->
  let b := file_block c i (y / 2 ^ c_bits c) in b <> 0 -> loaded c b.

Lemma quota_read_loop_spec ino i c : file_ok c ino i -> (forall b, bh_read_ok b = true) ->
  forall fuel x toread data fs, core_of fs = c -> addr_ok fs -> 0 <= x -> 0 <= toread -> x + toread <= max_bytes c ->
  readable_file c i x toread -> toread + x mod 2 ^ c_bits c <= (Z.of_nat fuel - 1) * 2 ^ c_bits c ->
  runs (quota_read_loop fuel ino (x / 2 ^ c_bits c) (x mod 2 ^ c_bits c) toread data) E
    (fun r fs' => core_of fs' = c /\ r = (0, data ++ file_bytes c i x toread)) fs.
Proof using All.
  intros Hf Hread. induction fuel as [|fuel IH]; intros x toread data fs Hfs Haddr Hx Ht Hmax Hre Hfuel.
  { exfalso. destruct (blocksize_pow fs) as [_ Hge]; [destruct Haddr; lia|]. rewrite Hfs in Hge.
    pose proof (Z.mod_pos_bound x (2 ^ c_bits c) ltac:(lia)). lia. }
  destruct (blocksize_pow fs) as [Hbs Hge]; [destruct Haddr; lia|]. rewrite Hfs in Hbs, Hge. set (bs := 2 ^ c_bits c) in *.
  pose proof (Z.mod_pos_bound x bs ltac:(lia)) as Hmod. cbn [quota_read_loop].
  destruct (Z.gtb_spec toread 0) as [Hpos|Hzero].
  2: { replace toread with 0 by lia. step. split; [done|]. unfold file_bytes. cbn. by rewrite app_nil_r. }
  step. step. change (id fs) with fs. rewrite Hbs.
  set (n := tocopy bs (x mod bs) toread). assert (Hn : 0 < n <= toread /\ x mod bs + n <= bs /\ (n = bs - x mod bs \/ n = toread)).
  { unfold n, tocopy. destruct (Z.ltb_spec (bs - x mod bs) toread); lia. }
  assert (Hblk : 0 <= x / bs < max_file_blocks (ptrs_of c)).
  { split; [apply Z.div_pos; lia|]. apply Z.div_lt_upper_bound; [lia|]. unfold max_bytes in Hmax. fold bs in Hmax. lia. }
  pose proof (get_block_spec (mret tt) ino i (x / bs) false fs) as Hgb. cbv zeta in Hgb. rewrite Hbs, Hfs in Hgb.
  step. eapply runs_mono; [apply Hgb; auto|]. cbv beta. intros [err bh] fs1 (Hfs1 & Herr & Hbh). cbn [fst snd] in Herr, Hbh.
  subst err. cbn [Z.ltb Z.compare].
  assert (Haddr1 : addr_ok fs1) by (eapply addr_ok_core; [|exact Haddr]; congruence).
  (* the next turn *)
  assert (Hnext : forall fs2 l, core_of fs2 = c -> l = file_bytes c i x n ->
    runs (quota_read_loop fuel ino (x / bs + 1) 0 (toread - n) (data ++ l)) E
      (fun r fs' => core_of fs' = c /\ r = (0, data ++ file_bytes c i x toread)) fs2).
  { intros fs2 l Hfs2 ->. assert (Haddr2 : addr_ok fs2) by (eapply addr_ok_core; [|exact Haddr]; congruence).
    replace (file_bytes c i x toread) with (file_bytes c i x n ++ file_bytes c i (x + n) (toread - n))
      by (rewrite <- file_bytes_app by lia; f_equal; lia).
    destruct (proj2 (proj2 Hn)) as [Hfull|Hlast].
    - destruct (next_block bs x ltac:(lia) Hx) as [H1 H2]. rewrite <- Hfull in H1, H2. rewrite app_assoc.
      pose proof (IH (x + n) (toread - n) (data ++ file_bytes c i x n) fs2) as Hih. rewrite H1, H2 in Hih.
      apply Hih; [done|done|lia|lia|lia| |nia]. intros y Hy. apply Hre. lia.
    - destruct fuel as [|fuel']; [exfalso; nia|]. replace (toread - n) with 0 by lia. cbn [quota_read_loop].
      change (0 >? 0) with false. cbv iota. step. split; [done|]. unfold file_bytes. cbn. by rewrite app_nil_r. }
  step. rewrite Hbh. destruct (Z.eqb_spec (file_block c i (x / bs)) 0) as [Hz|Hnz].
  - step. apply Hnext; [done|]. apply piece_hole; [lia|done|fold bs; lia|done].
  - step. call (sb_bread_spec E (file_block c i (x / bs)) fs1). intros r fs2 [Hfs2 [->|[_ Hbad]]]; [|by rewrite Hread in Hbad].
    rewrite Hfs1 in Hfs2. destruct (Hre x ltac:(lia) Hnz) as (d & Hd & Hl & _). fold bs in Hd, Hl. cbv iota. step.
    assert (Hget : buf_get (file_block c i (x / bs)) fs2 = Ret d fs2).
    { unfold buf_get, mbind, M_bind, gets, id. change (fs_bufs fs2) with (c_bufs (core_of fs2)). by rewrite Hfs2, Hd. }
    run Hget. step. apply Hnext; [done|]. by apply (piece_data c i x n); [lia|done|fold bs; lia|..].
Qed.

Lemma split_offset fs off : 10 <= fs_blocksize_bits fs -> 0 <= off ->
  Z.shiftr off (fs_blocksize_bits fs) = off / 2 ^ c_bits (core_of fs) /\
  Z.land off (fs_blocksize fs - 1) = off mod 2 ^ c_bits (core_of fs).
Proof using.
  intros Hb Ho. destruct (blocksize_pow fs Hb) as [-> _]. change (c_bits (core_of fs)) with (fs_blocksize_bits fs).
  split; [apply Z.shiftr_div_pow2; lia|]. rewrite <- Z.land_ones by lia. f_equal. rewrite Z.ones_equiv. lia.
Qed.
(** The turns the loops may take. *)
Lemma quota_fuel bs len x : 0 < bs -> 0 <= len -> 0 <= x < bs -> len + x <= (Z.of_nat (Z.to_nat (len / bs) + 3) - 1) * bs.
Proof using.
  intros Hbs Hl Hx. pose proof (Z.div_mod len bs ltac:(lia)). pose proof (Z.mod_pos_bound len bs Hbs).
  pose proof (Z.div_pos len bs Hl Hbs). replace (Z.of_nat (Z.to_nat (len / bs) + 3)) with (len / bs + 3) by lia. nia.
Qed.

(** The number of bytes there are to read. *)
Definition read_count (i : inode) (len off : Z) : Z := if off >? i_size i then 0 else Z.min len (i_size i - off).

Lemma kr_quota_read_spec ino i len off fs : let c := core_of fs in addr_ok fs -> file_ok c ino i ->
  (forall b, bh_read_ok b = true) -> 0 <= off -> 0 <= len -> off + len < 18446744073709551616 ->
  0 <= i_size i <= max_bytes c -> readable_file c i off (read_count i len off) ->
  runs (kr_quota_read ino len off) E (fun r fs' => core_of fs' = c /\
    r = (read_count i len off, file_bytes c i off (read_count i len off))) fs.
Proof using All.
  intros c Haddr Hf Hread Ho Hl Hol Hsize Hre. pose proof (fk_inode _ _ _ Hf) as Hi. change (c_inodes c) with (fs_inodes fs) in Hi.
  pose proof Haddr as [Hb _]. destruct (blocksize_pow fs ltac:(lia)) as [Hbs Hge]. destruct (split_offset fs off ltac:(lia) Ho) as [Hdiv Hmod].
  unfold kr_quota_read, read_count in *. step. run (inode_get_run ino i fs Hi). step. step. change (id fs) with fs.
  destruct (Z.gtb_spec off (i_size i)) as [Hgt|Hle]; [by step|]. rewrite u64_small by lia.
  assert ((if off + len >? i_size i then i_size i - off else len) = Z.min len (i_size i - off)) as ->.
  { destruct (Z.gtb_spec (off + len) (i_size i)); lia. }
  set (n := Z.min len (i_size i - off)) in *. rewrite Hdiv, Hmod, Hbs.
  pose proof (Z.mod_pos_bound off (2 ^ c_bits (core_of fs)) ltac:(lia)) as Hm. step.
  call (quota_read_loop_spec ino i c Hf Hread (Z.to_nat (n / 2 ^ c_bits c) + 3) off n [] fs); try done; try lia.
  - apply quota_fuel; fold c in Hge, Hm; lia.
  - intros [err data] fs' [Hfs' [= -> ->]]. step. done.
Qed.

(** ** Writing *)

(** The bytes of the file in [x], [x + 1], ... have become [l]; nothing else has
    changed but the buffers of its blocks. *)
Record wrote (c c' : core) (ino : Z) (i : inode) (x : Z) (l : list Z) : Prop := {
  wr_ok : blocks_ok c';
  wr_tree : tree_ok c' ino i;
  wr_frame : c' = set_c_bufs (c_bufs c') c;
  wr_bytes : forall y, 0 <= y < max_bytes c -> file_byte c' i y =
    if (x <=? y) && (y <? x + len l) then get8 l (y - x) else file_byte c i y;
  wr_blocks : forall blk, 0 <= blk < max_file_blocks (ptrs_of c) -> file_block c' i blk = file_block c i blk;
  wr_loaded : forall blk, 0 <= blk < max_file_blocks (ptrs_of c) -> loaded c (file_block c i blk) ->
    loaded c' (file_block c i blk);
  wr_others : forall b, (forall blk, 0 <= blk < max_file_blocks (ptrs_of c) -> file_block c i blk <> b) ->
    c_bufs c' !! b = c_bufs c !! b;
  wr_used : forall b, c_fdb c <= b < c_nblocks c -> block_used c' b = block_used c b;
}.

Lemma wrote_nil c ino i x : blocks_ok c -> tree_ok c ino i -> wrote c c ino i x [].
Proof using.
  intros Hok Ht. split; try done; [by destruct c|]. intros y _. destruct ((x <=? y) && _) eqn:Hr; [|done].
  change (len []) with 0 in Hr. lia.
Qed.
Lemma wrote_app c c1 c2 ino i x l1 l2 : wrote c c1 ino i x l1 -> wrote c1 c2 ino i (x + len l1) l2 ->
  wrote c c2 ino i x (l1 ++ l2).
Proof using.
  intros [O1 T1 F1 B1 K1 L1 N1 U1] [O2 T2 F2 B2 K2 L2 N2 U2].
  assert (Hp : ptrs_of c1 = ptrs_of c) by (unfold ptrs_of; by rewrite F1).
  assert (Hm : max_bytes c1 = max_bytes c) by (unfold max_bytes; rewrite Hp; by rewrite F1).
  assert (Hg : c_fdb c1 = c_fdb c /\ c_nblocks c1 = c_nblocks c) by by rewrite F1.
  rewrite Hp, Hm in *. destruct Hg as [Hg1 Hg2]. rewrite Hg1, Hg2 in U2. split; try done.
  - rewrite F2 at 1. rewrite F1 at 1. done.
  - intros y Hy. rewrite B2, B1 by done. rewrite len_app. pose proof (len_nonneg l1). pose proof (len_nonneg l2).
    destruct ((x + len l1 <=? y) && (y <? x + len l1 + len l2)) eqn:H2.
    + replace ((x <=? y) && (y <? x + (len l1 + len l2))) with true by lia. unfold get8, len in *.
      rewrite app_nth2 by lia. f_equal. lia.
    + destruct ((x <=? y) && (y <? x + len l1)) eqn:H1.
      * replace ((x <=? y) && (y <? x + (len l1 + len l2))) with true by lia. unfold get8, len in *. by rewrite app_nth1 by lia.
      * by replace ((x <=? y) && (y <? x + (len l1 + len l2))) with false by lia.
  - intros blk Hb. by rewrite K2, K1.
  - intros blk Hb Hl. rewrite <- (K1 blk Hb). apply L2; [done|]. rewrite K1 by done. by apply L1.
  - intros b Hb. rewrite N2, N1; [done|done|]. intros blk Hblk. rewrite K1 by done. by apply Hb.
  - intros b Hb. by rewrite U2, U1.
Qed.

Lemma path_of_ok c blk : blocks_ok c -> 0 <= blk < max_file_blocks (ptrs_of c) ->
  path_ok (ptrs_of c) (path_of c blk) /\ path_block (ptrs_of c) (path_of c blk) = blk.
Proof using.
  intros Hok Hb. pose proof (ck_bits _ (bo_core _ Hok)).
  pose proof (block_to_path_in (ptrs_of c) (c_bits c - 2) ltac:(lia) eq_refl blk Hb) as Hin. unfold path_of.
  destruct (kr_block_to_path (ptrs_of c) (c_bits c - 2) blk). by destruct Hin as (? & ? & _).
Qed.

(** A piece of one block. *)
Lemma wrote_piece c ino i x l d : blocks_ok c -> tree_ok c ino i -> 0 <= x -> x + len l <= max_bytes c -> 0 < len l ->
  x mod 2 ^ c_bits c + len l <= 2 ^ c_bits c ->
  let b := file_block c i (x / 2 ^ c_bits c) in b <> 0 -> len d = 2 ^ c_bits c -> bytes d ->
  (forall j, 0 <= j < 2 ^ c_bits c -> get8 d j =
     if (x mod 2 ^ c_bits c <=? j) && (j <? x mod 2 ^ c_bits c + len l) then get8 l (j - x mod 2 ^ c_bits c)
     else get8 (default [] (c_bufs c !! b)) j) ->
  wrote c (with_buf c b d) ino i x l.
Proof using All.
  intros Hok Ht Hx Hmax Hl Hfit b Hb Hd Hby Hdata. set (bs := 2 ^ c_bits c) in *.
  pose proof (ck_bits _ (bo_core _ Hok)) as Hbits. assert (0 < bs) as Hbs by (apply Z.pow_pos_nonneg; lia).
  pose proof (Z.mod_pos_bound x bs Hbs) as Hmod. pose proof (Z.div_mod x bs ltac:(lia)) as Hdiv.
  assert (Hrange : forall y, 0 <= y < max_bytes c -> 0 <= y / bs < max_file_blocks (ptrs_of c)).
  { intros y Hy. split; [apply Z.div_pos; lia|]. apply Z.div_lt_upper_bound; [lia|]. unfold max_bytes in Hy. fold bs in Hy. lia. }
  destruct (path_of_ok c (x / bs) Hok ltac:(apply Hrange; lia)) as [Hp Hpb]. fold b in Hb.
  destruct (wb_ok c ino i _ d Hok Ht Hp Hb) as [Hok' Hused].
  pose proof (wb_tree c ino i _ d Hok Ht Hp Hb) as Htree. fold (file_block c i (x / bs)) in Hok', Hused, Htree. fold b in Hok', Hused, Htree.
  assert (Hblocks : forall blk, 0 <= blk < max_file_blocks (ptrs_of c) -> file_block (with_buf c b d) i blk = file_block c i blk).
  { intros blk Hblk. destruct (path_of_ok c blk Hok Hblk) as [Hq _]. unfold file_block.
    change (path_of (with_buf c b d) blk) with (path_of c blk). apply Htree. by apply stem_path. }
  assert (Hsame : forall blk, 0 <= blk < max_file_blocks (ptrs_of c) -> file_block c i blk = b -> blk = x / bs).
  { intros blk Hblk He. destruct (path_of_ok c blk Hok Hblk) as [Hq Hqb]. rewrite <- Hpb, <- Hqb. f_equal.
    apply (tk_inj _ _ _ Ht); [by apply stem_path|by apply stem_path| |exact He].
    change (tree c i (path_of c blk)) with (file_block c i blk). by rewrite He. }
  split.
  - done.
  - pose proof (wb_tree_ok c ino i _ d Hok Ht Hp Hb) as Hto. exact Hto.
  - by destruct c.
  - intros y Hy. unfold file_byte. change (c_bits (with_buf c b d)) with (c_bits c). fold bs. rewrite (Hblocks (y / bs)) by by apply Hrange.
    pose proof (Z.div_mod y bs ltac:(lia)) as Hdy. pose proof (Z.mod_pos_bound y bs Hbs) as Hmy.
    unfold with_buf. cbn [c_bufs set_c_bufs]. destruct (decide (y / bs = x / bs)) as [He|He].
    + rewrite He. fold b. replace (b =? 0) with false by lia. rewrite lookup_insert_eq. cbn [default]. change (id d) with d.
      rewrite Hdata by done. rewrite He in Hdy.
      destruct ((x mod bs <=? y mod bs) && (y mod bs <? x mod bs + len l)) eqn:Hr.
      * replace ((x <=? y) && (y <? x + len l)) with true by lia. f_equal. lia.
      * by replace ((x <=? y) && (y <? x + len l)) with false by lia.
    + replace ((x <=? y) && (y <? x + len l)) with false by nia.
      destruct (Z.eqb_spec (file_block c i (y / bs)) 0) as [|Hz]; [done|].
      rewrite lookup_insert_ne; [done|]. intros Hby'. apply He. apply Hsame; [by apply Hrange|done].
  - done.
  - intros blk Hblk (d0 & Hd0 & Hl0). unfold loaded, with_buf. cbn [c_bufs set_c_bufs c_bits].
    destruct (decide (b = file_block c i blk)) as [He|He].
    + rewrite <- He, lookup_insert_eq. by exists d.
    + rewrite lookup_insert_ne by done. by exists d0.
  - intros b' Hb'. apply lookup_insert_ne. apply (Hb' (x / bs)). apply Hrange. lia.
  - done.
Qed.

(** The blocks of the bytes are there and in the buffers. *)
Definition mapped_file (c : core) (i : inode) (x n : Z) : Prop := forall y, x <= y < x + n ->
  let b := file_block c i (y / 2 ^ c_bits c) in b <> 0 /\ loaded c b.

Hypothesis Hgood : forall b, sb_getblk_ok b && bh_read_ok b = true.

(** One turn, at the place where the bytes are written. *)
Lemma write_piece b o l fs d (e : Z * Z) (k : M krfs (Z * Z)) Q : c_bufs (core_of fs) !! b = Some d -> 0 <= o ->
  o + len l <= len d -> bytes d -> bytes l ->
  let whole := (o =? 0) && (len l =? len d) in
  (forall fs' d', core_of fs' = with_buf (core_of fs) b d' -> len d' = len d -> bytes d' ->
     (forall j, 0 <= j < len d -> get8 d' j = if (o <=? j) && (j <? o + len l) then get8 l (j - o) else get8 d j) ->
     runs k E Q fs') ->
  runs (bh ← (if whole then mret (if sb_getblk_ok b then Some b else None) else sb_bread b);
        match bh with
        | None => mret e
        | Some b => (if whole then buf_set b l else d ← buf_get b; buf_set b (put_bytes d o l)) ;;
            modify (fun fs => set_fs_uptodate (({[b]} : gset Z) ∪ fs_uptodate fs) fs) ;;
            log (mark_buffer_dirty (BufBlock b)) ;; k
        end) E Q fs.
Proof using Hgood.
  intros Hd Ho Hl Hbd Hbl whole Hk. pose proof (len_nonneg l). destruct whole eqn:Hw.
  - apply andb_true_iff in Hw as [Ho0%Z.eqb_eq Hle%Z.eqb_eq]. specialize (Hgood b). apply andb_true_iff in Hgood as [-> _].
    step. step. step. unfold buf_set. step. step. unfold log. step. step. apply (Hk _ l); [done|done|done|].
    intros j Hj. replace ((o <=? j) && (j <? o + len l)) with true by lia. f_equal. lia.
  - step. call (sb_bread_spec E b fs). intros r fs1 [Hfs1 [->|[_ Hr]]].
    2: { specialize (Hgood b). by rewrite Hr, andb_false_r in Hgood. }
    step. step. assert (Hget : buf_get b fs1 = Ret d fs1).
    { unfold buf_get, mbind, M_bind, gets, id. change (fs_bufs fs1) with (c_bufs (core_of fs1)). by rewrite Hfs1, Hd. }
    run Hget. unfold buf_set. step. step. unfold log. step. step. apply (Hk _ (put_bytes d o l)).
    + rewrite <- Hfs1. done.
    + apply len_put_bytes.
    + by apply bytes_put_bytes.
    + intros j Hj. apply get8_put_bytes; [done|done|lia|done].
Qed.

Lemma quota_write_loop_spec other ino i : forall fuel x data c fs, core_of fs = c -> blocks_ok c -> tree_ok c ino i ->
  addr_ok fs -> 0 <= x -> x + len data <= max_bytes c -> bytes data -> mapped_file c i x (len data) ->
  len data + x mod 2 ^ c_bits c <= (Z.of_nat fuel - 1) * 2 ^ c_bits c ->
  runs (quota_write_loop fuel other ino (x / 2 ^ c_bits c) (x mod 2 ^ c_bits c) (len data) data) E
    (fun r fs' => r = (0, 0) /\ wrote c (core_of fs') ino i x data) fs.
Proof using All.
  assert (Hread : forall b, bh_read_ok b = true) by (intros b; specialize (Hgood b); by apply andb_true_iff in Hgood as [_ ?]).
  induction fuel as [|fuel IH]; intros x data c fs Hfs Hok Ht Haddr Hx Hmax Hby Hmap Hfuel;
    (destruct (blocksize_pow fs) as [Hbs Hge]; [destruct Haddr; lia|]); rewrite Hfs in Hbs, Hge; set (bs := 2 ^ c_bits c) in *;
    pose proof (Z.mod_pos_bound x bs ltac:(lia)) as Hmod; pose proof (len_nonneg data) as Hlen; [exfalso; lia|].
  cbn [quota_write_loop]. destruct (Z.gtb_spec (len data) 0) as [Hpos|Hzero].
  2: { assert (data = []) as -> by (destruct data; [done|unfold len in Hzero; simpl in Hzero; lia]). step. split; [done|].
       rewrite Hfs. by apply wrote_nil. }
  step. step. change (id fs) with fs. rewrite Hbs. set (n := tocopy bs (x mod bs) (len data)).
  assert (Hn : 0 < n <= len data /\ x mod bs + n <= bs /\ (n = bs - x mod bs \/ n = len data)).
  { unfold n, tocopy. destruct (Z.ltb_spec (bs - x mod bs) (len data)); lia. }
  assert (Hblk : 0 <= x / bs < max_file_blocks (ptrs_of c)).
  { split; [apply Z.div_pos; lia|]. apply Z.div_lt_upper_bound; [lia|]. unfold max_bytes in Hmax. fold bs in Hmax. lia. }
  destruct (Hmap x ltac:(lia)) as [Hnz (d & Hd & Hld & Hbd)]. fold bs in Hnz, Hd, Hld. set (b := file_block c i (x / bs)) in *.
  pose proof (get_block_spec other ino i (x / bs) true fs) as Hgb. cbv zeta in Hgb. rewrite Hbs, Hfs in Hgb.
  step. eapply runs_mono; [apply Hgb; [done|by apply tree_ok_file|done|done|by right]|]. cbv beta. intros [err bh] fs1 (Hfs1 & Herr & Hbh).
  cbn [fst snd] in Herr, Hbh. fold b in Hbh. replace (b =? 0) with false in Hbh by lia. subst err. cbn [Z.ltb Z.compare]. rewrite Hbh.
  set (l := take (Z.to_nat n) data). assert (Hll : len l = n) by (unfold l, len in *; rewrite length_take; lia).
  assert (Hsplit : data = l ++ drop (Z.to_nat n) data) by (unfold l; by rewrite take_drop).
  assert (Hbl : bytes l) by (by apply Forall_take).
  replace ((x mod bs =? 0) && (n =? bs)) with ((x mod bs =? 0) && (len l =? len d)) by (by rewrite Hll, Hld).
  apply (write_piece b (x mod bs) l fs1 d); [by rewrite Hfs1|lia|lia|done|done|].
  intros fs2 d' Hfs2 Hld' Hbd' Hdata. rewrite Hfs1 in Hfs2.
  assert (Hw : wrote c (core_of fs2) ino i x l).
  { rewrite Hfs2. apply wrote_piece; fold bs; try done; try lia. intros j Hj. fold b. rewrite Hd. apply Hdata. lia. }
  set (rest := drop (Z.to_nat n) data) in *.
  assert (Hlr : len data - n = len rest) by (unfold rest, len in *; rewrite length_drop; lia). rewrite Hlr.
  assert (Hc2 : c_bits (core_of fs2) = c_bits c /\ ptrs_of (core_of fs2) = ptrs_of c /\ max_bytes (core_of fs2) = max_bytes c) by by rewrite Hfs2.
  destruct Hc2 as (Cb & Cp & Cm).
  assert (Haddr2 : addr_ok fs2).
  { destruct Haddr as [A1 A2]. unfold addr_ok. change (fs_blocksize_bits fs2) with (c_bits (core_of fs2)).
    change (s_addr_per_block_bits (fs_sbi fs2)) with (s_addr_per_block_bits (c_sbi (core_of fs2))).
    rewrite <- Hfs in *. rewrite Hfs2. done. }
  cut (runs (quota_write_loop fuel other ino (x / bs + 1) 0 (len rest) rest) E
    (fun r fs' => r = (0, 0) /\ wrote (core_of fs2) (core_of fs') ino i (x + len l) rest) fs2).
  { intros Hrest. eapply runs_mono; [exact Hrest|]. cbv beta. intros r fs' [-> Hwr]. split; [done|]. rewrite Hsplit. by eapply wrote_app. }
  destruct (proj2 (proj2 Hn)) as [Hfull|Hlast].
  - destruct (next_block bs x ltac:(lia) Hx) as [H1 H2]. rewrite <- Hfull in H1, H2.
    pose proof (IH (x + n) rest (core_of fs2) fs2 eq_refl (wr_ok _ _ _ _ _ _ Hw) (wr_tree _ _ _ _ _ _ Hw) Haddr2) as Hih.
    rewrite Cb in Hih. fold bs in Hih. rewrite H1, H2, Cm in Hih. rewrite Hll. apply Hih; [lia|lia|by apply Forall_drop| |nia].
    intros y Hy. rewrite Cb. fold bs. destruct (Hmap y ltac:(lia)) as [Hnzy Hly]. fold bs in Hnzy, Hly.
    assert (Hyr : 0 <= y / bs < max_file_blocks (ptrs_of c)).
    { split; [apply Z.div_pos; lia|]. apply Z.div_lt_upper_bound; [lia|]. unfold max_bytes in Hmax. fold bs in Hmax. lia. }
    cbv zeta. rewrite (wr_blocks _ _ _ _ _ _ Hw) by done. split; [done|]. by apply (wr_loaded _ _ _ _ _ _ Hw).
  - destruct fuel as [|fuel']; [exfalso; nia|]. assert (Hr0 : len rest = 0) by lia.
    assert (rest = []) as -> by (destruct rest; [done|unfold len in Hr0; simpl in Hr0; lia]). cbn [quota_write_loop].
    change (len []) with 0. cbn [Z.gtb Z.compare]. step. split; [done|]. apply wrote_nil; apply Hw.
Qed.

(** The inode after [n] bytes have been written at [off]. *)
Definition written_inode (off n : Z) (i : inode) : inode :=
  set_i_mtime current_time (set_i_ctime current_time (set_i_version (u64 (i_version i + 1))
    (if i_size i <? off + n then set_i_size (off + n) i else i))).

Lemma kr_quota_write_spec other ino i data off fs : let c := core_of fs in addr_ok fs -> blocks_ok c -> tree_ok c ino i ->
  0 <= off -> off + len data <= max_bytes c -> bytes data -> data <> [] -> mapped_file c i off (len data) ->
  runs (kr_quota_write other ino data off) E (fun r fs' => r = len data /\ exists c', wrote c c' ino i off data /\
      core_of fs' = set_c_inodes (<[ino := written_inode off (len data) i]> (c_inodes c')) c') fs.
Proof using All.
  intros c Haddr Hok Ht Ho Hmax Hby Hne Hmap. pose proof Haddr as [Hb _]. destruct (blocksize_pow fs ltac:(lia)) as [Hbs Hge].
  destruct (split_offset fs off ltac:(lia) Ho) as [Hdiv Hmod]. pose proof (len_nonneg data) as Hl.
  pose proof (Z.mod_pos_bound off (2 ^ c_bits (core_of fs)) ltac:(lia)) as Hm.
  unfold kr_quota_write. step. step. change (id fs) with fs. rewrite Hdiv, Hmod, Hbs. step.
  call (quota_write_loop_spec other ino i (Z.to_nat (len data / 2 ^ c_bits (core_of fs)) + 3) off data c fs); try done.
  { fold c in Hge, Hm |- *. apply quota_fuel; lia. }
  intros [err towrite] fs1 [[= -> ->] Hw].
  assert (0 < len data) by (destruct data; [done|unfold len; simpl; lia]). replace (len data =? 0) with false by lia.
  unfold inode_upd, log. steps.
  assert (Hi : c_inodes (core_of fs1) !! ino = Some i) by apply (tk_inode _ _ _ (wr_tree _ _ _ _ _ _ Hw)).
  split; [lia|]. exists (core_of fs1). split; [exact Hw|].
  transitivity (set_c_inodes (alter (fun i => set_i_mtime current_time (set_i_ctime current_time i)) ino
    (alter (fun i => set_i_version (u64 (i_version i + 1)) i) ino
      (alter (fun i => if i_size i <? off + len data - 0 then set_i_size (off + len data - 0) i else i) ino
        (c_inodes (core_of fs1))))) (core_of fs1)); [done|]. f_equal. rewrite Z.sub_0_r.
  apply map_eq. intros j. destruct (decide (j = ino)) as [->|]; [|by rewrite !lookup_alter_ne, lookup_insert_ne].
  rewrite !lookup_alter_eq, lookup_insert_eq, Hi. cbn. unfold written_inode. by destruct (i_size i <? off + len data).
Qed.

(** The file afterwards, with its inode. *)
Lemma written_after c c' ino i off data : blocks_ok c -> tree_ok c ino i -> wrote c c' ino i off data ->
  let i' := written_inode off (len data) i in
  let c'' := set_c_inodes (<[ino := i']> (c_inodes c')) c' in
  tree_ok c'' ino i' /\ max_bytes c'' = max_bytes c /\
  (forall x, file_byte c'' i' x = file_byte c' i x) /\
  forall blk, 0 <= blk < max_file_blocks (ptrs_of c) -> file_block c'' i' blk = file_block c i blk /\
    (loaded c (file_block c i blk) -> loaded c'' (file_block c i blk)).
Proof using All.
  intros Hok Ht Hw i' c''. assert (Hdata : i_data (KR_I i') = i_data (KR_I i)).
  { unfold i', written_inode. by destruct (i_size i <? off + len data). }
  assert (Htree : forall q, tree c'' i' q = tree c' i q).
  { intros q. pose proof (tree_window c' (c_rsv c') (<[ino := i']> (c_inodes c')) i i' Hdata q) as H. rewrite <- H.
    unfold c''. by destruct c'. }
  assert (Hbits : c_bits c'' = c_bits c') by done. assert (Hbl : forall blk, file_block c'' i' blk = file_block c' i blk).
  { intros blk. unfold file_block. by rewrite Htree. }
  split; [|split; [|split]].
  - apply (tree_ok_kept c' c'' ino i i' (wr_tree _ _ _ _ _ _ Hw)); [by split|done|].
    unfold c''. cbn [c_inodes set_c_inodes]. by rewrite lookup_insert_eq.
  - change (max_bytes c'') with (max_bytes c'). unfold max_bytes, ptrs_of. by rewrite (wr_frame _ _ _ _ _ _ Hw).
  - intros x. unfold file_byte. rewrite Hbl. done.
  - intros blk Hblk. rewrite Hbl. split; [by apply (wr_blocks _ _ _ _ _ _ Hw)|]. by apply (wr_loaded _ _ _ _ _ _ Hw).
Qed.

End Facts.

Section Theorems.
Context {B : BitOps} {BL : BitLaws B} {R : RbTree} {RL : RbLaws R} {T : Trylock} {K : Kernel}.

(** C24. [kr_quota_read] answers the bytes of the file from [off] on, as many as asked
    for up to the end of the file, zeros for its holes, and changes nothing but what
    is read into the buffers. *)
Theorem kr_quota_read_correct ino i len off fs : let c := core_of fs in
  addr_ok fs -> file_ok c ino i -> (forall b, bh_read_ok b = true) -> 0 <= off -> 0 <= len ->
  off + len < 18446744073709551616 -> 0 <= i_size i <= max_bytes c ->
  readable_file c i off (read_count i len off) ->
  runs (kr_quota_read ino len off) never (fun r fs' => core_of fs' = c /\
    r = (read_count i len off, file_bytes c i off (read_count i len off))) fs.
Proof. intros. by apply kr_quota_read_spec. Qed.

(** C13. [kr_quota_write] to blocks the file has writes all the bytes: the bytes of the
    file from [off] on are those of the data and the others are as they were, the
    size has grown to the end of what was written if it was smaller, and no other
    block, no bitmap and no other inode has changed. *)
Theorem kr_quota_write_correct other ino i data off fs : let c := core_of fs in
  addr_ok fs -> blocks_ok c -> tree_ok c ino i -> (forall b, sb_getblk_ok b && bh_read_ok b = true) ->
  0 <= off -> off + len data <= max_bytes c -> bytes data -> data <> [] -> mapped_file c i off (len data) ->
  runs (kr_quota_write other ino data off) never (fun r fs' => r = len data /\
    exists c', wrote c c' ino i off data /\
      core_of fs' = set_c_inodes (<[ino := written_inode off (len data) i]> (c_inodes c')) c') fs.
Proof. intros c. intros. by apply kr_quota_write_spec. Qed.

(** C25. What [kr_quota_write] has written to blocks of the file, [kr_quota_read]
    reads again. *)
Theorem quota_write_then_read other ino i data off fs : let c := core_of fs in
  addr_ok fs -> blocks_ok c -> tree_ok c ino i -> (forall b, sb_getblk_ok b && bh_read_ok b = true) ->
  0 <= off -> off + len data <= max_bytes c -> bytes data -> data <> [] -> mapped_file c i off (len data) ->
  0 <= i_size i <= max_bytes c -> max_bytes c < 18446744073709551616 ->
  runs (n ← kr_quota_write other ino data off; r ← kr_quota_read ino (len data) off; mret (n, r)) never
    (fun r _ => r = (len data, (len data, data))) fs.
Proof.
  intros c Haddr Hok Ht Hgood Ho Hmax Hby Hne Hmap Hsize H64. pose proof (len_nonneg data) as Hl. step.
  eapply runs_mono; [by apply (kr_quota_write_spec never Hgood other ino i data off fs)|]. cbv beta.
  intros n fs1 [-> (c' & Hw & Hfs1)]. destruct (written_after never Hgood c c' ino i off data Hok Ht Hw) as (Ht1 & Hm1 & Hb1 & Hk1).
  set (i' := written_inode off (len data) i) in *. rewrite <- Hfs1 in *.
  assert (Hsz : i_size i' = Z.max (i_size i) (off + len data)).
  { unfold i', written_inode. cbn. destruct (Z.ltb_spec (i_size i) (off + len data)); cbn; lia. }
  assert (Hcnt : read_count i' (len data) off = len data).
  { unfold read_count. rewrite Hsz. destruct (Z.gtb_spec off (Z.max (i_size i) (off + len data))); lia. }
  assert (Hbits : c_bits (core_of fs1) = c_bits c /\ c_sbi (core_of fs1) = c_sbi c).
  { rewrite Hfs1. cbn. by rewrite (wr_frame _ _ _ _ _ _ Hw). }
  destruct Hbits as [Hbits Hsbi].
  assert (Haddr1 : addr_ok fs1).
  { destruct Haddr as [A1 A2]. unfold addr_ok. change (fs_blocksize_bits fs1) with (c_bits (core_of fs1)).
    change (s_addr_per_block_bits (fs_sbi fs1)) with (s_addr_per_block_bits (c_sbi (core_of fs1))). by rewrite Hbits, Hsbi. }
  assert (Hbs : 1024 <= 2 ^ c_bits c) by (apply (blocksize_pow fs); destruct Haddr; lia).
  step. eapply runs_mono; [apply (kr_quota_read_spec never ino i' (len data) off fs1)|].
  - done.
  - by apply tree_ok_file.
  - intros b. specialize (Hgood b). by apply andb_true_iff in Hgood as [_ ?].
  - done.
  - done.
  - lia.
  - rewrite Hsz, Hm1. lia.
  - rewrite Hcnt. intros y Hy. rewrite Hbits. destruct (Hmap y Hy) as [Hnz Hld].
    assert (Hyr : 0 <= y / 2 ^ c_bits c < max_file_blocks (ptrs_of c)).
    { split; [apply Z.div_pos; lia|]. apply Z.div_lt_upper_bound; [lia|]. unfold max_bytes in Hmax. lia. }
    destruct (Hk1 _ Hyr) as [He Hl1]. cbv zeta. rewrite He. intros _. by apply Hl1.
  - cbv beta. intros r fs2 [_ ->]. step. rewrite Hcnt. do 2 f_equal. unfold file_bytes. apply list_eq. intros k.
    rewrite list_lookup_fmap. destruct (decide (Z.of_nat k < len data)) as [Hk|Hk].
    + assert (Hyr : 0 <= off + Z.of_nat k < max_bytes c) by lia.
      rewrite lookup_seqZ_lt by lia. cbn. rewrite Hb1, (wr_bytes _ _ _ _ _ _ Hw _ Hyr).
      replace ((off <=? off + Z.of_nat k) && (off + Z.of_nat k <? off + len data)) with true by lia.
      replace (off + Z.of_nat k - off) with (Z.of_nat k) by lia. rewrite <- lookup_get8 by lia. by rewrite Nat2Z.id.
    + rewrite lookup_seqZ_ge by lia. cbn. symmetry. apply lookup_ge_None. unfold len in Hk. lia.
Qed.
End Theorems.

(** ** Witnesses *)

(** The file 12 with the blocks 12 and 13 in the buffers. *)
Definition demo_quota : krfs :=
  set_fs_bufs (<[17 := repeat 7 1024]> (<[16 := repeat 7 1024]> (fs_bufs demo_grown))) demo_grown.
Definition demo_quota_inode : inode := default demo_file12 (fs_inodes demo_grown !! 12).

Lemma demo_seven : bytes (repeat 7 1024).
Proof. apply Forall_forall. intros x Hx%list_elem_of_In%repeat_spec. lia. Qed.
(** Loading the blocks 12 and 13 of a file. *)
Lemma load_two g i d : addr_ok g -> blocks_ok (core_of g) -> tree_ok (core_of g) 12 i -> ptrs_of (core_of g) = 256 ->
  tree (core_of g) i [12; 0] = 16 -> tree (core_of g) i [12; 1] = 17 ->
  let g' := set_fs_bufs (<[17 := d]> (<[16 := d]> (fs_bufs g))) g in
  addr_ok g' /\ blocks_ok (core_of g') /\ tree_ok (core_of g') 12 i.
Proof.
  intros Ha Hok Ht Hp H0 H1 g'. set (c := core_of g) in *.
  assert (Hp0 : path_ok (ptrs_of c) [12; 0]) by (rewrite Hp; split; [done|lia]).
  assert (Hp1 : path_ok (ptrs_of c) [12; 1]) by (rewrite Hp; split; [done|lia]).
  assert (Hz0 : tree c i [12; 0] <> 0) by lia. destruct (wb_ok c 12 i [12; 0] d Hok Ht Hp0 Hz0) as [O1 _].
  pose proof (wb_tree_ok c 12 i [12; 0] d Hok Ht Hp0 Hz0) as T1.
  pose proof (wb_tree c 12 i [12; 0] d Hok Ht Hp0 Hz0 [12; 1] (stem_path _ _ Hp1)) as H11. rewrite H1, H0 in *.
  assert (Hz1 : tree (with_buf c 16 d) i [12; 1] <> 0) by lia.
  destruct (wb_ok (with_buf c 16 d) 12 i [12; 1] d O1 T1 Hp1 Hz1) as [O2 _].
  pose proof (wb_tree_ok (with_buf c 16 d) 12 i [12; 1] d O1 T1 Hp1 Hz1) as T2. rewrite H11 in O2, T2.
  split; [destruct Ha; by split|]. split; [exact O2|exact T2].
Qed.
Lemma demo_quota_ok : addr_ok demo_quota /\ blocks_ok (core_of demo_quota) /\ tree_ok (core_of demo_quota) 12 demo_quota_inode.
Proof.
  destruct demo_grown_file as [i [H1 H2 H3 _ _]].
  assert (i = demo_quota_inode) as ->.
  { pose proof (tk_inode _ _ _ H3) as Hi. unfold demo_quota_inode. change (c_inodes (core_of demo_grown)) with (fs_inodes demo_grown) in Hi. by rewrite Hi. }
  apply load_two; [exact H1|exact H2|exact H3|vm_compute; reflexivity..].
Qed.

(** The end of the block 12 and the beginning of the block 13. *)
Definition demo_bytes : list Z := [1; 2; 3; 4; 5; 6; 7; 8].
Lemma demo_quota_blocks : forall y, 13308 <= y < 13308 + 8 ->
  let b := file_block (core_of demo_quota) demo_quota_inode (y / 2 ^ c_bits (core_of demo_quota)) in
  b <> 0 /\ loaded (core_of demo_quota) b.
Proof.
  intros y Hy. assert (2 ^ c_bits (core_of demo_quota) = 1024) as -> by (vm_compute; reflexivity).
  assert (H12 : file_block (core_of demo_quota) demo_quota_inode 12 = 16) by (vm_compute; reflexivity).
  assert (H13 : file_block (core_of demo_quota) demo_quota_inode 13 = 17) by (vm_compute; reflexivity).
  assert (Hl : loaded (core_of demo_quota) 16 /\ loaded (core_of demo_quota) 17).
  { split; exists (repeat 7 1024); (split; [vm_compute; reflexivity|split; [vm_compute; reflexivity|exact demo_seven]]). }
  destruct (decide (y < 13312)).
  - replace (y / 1024) with 12 by (apply (Z.div_unique _ _ _ (y - 12288)); lia). cbv zeta. rewrite H12. split; [lia|exact (proj1 Hl)].
  - replace (y / 1024) with 13 by (apply (Z.div_unique _ _ _ (y - 13312)); lia). cbv zeta. rewrite H13. split; [lia|exact (proj2 Hl)].
Qed.

Lemma kr_quota_read_witness :
  runs (kr_quota_read 12 8 1020) never (fun r fs' => core_of fs' = core_of demo_quota /\
    r = (read_count demo_quota_inode 8 1020, file_bytes (core_of demo_quota) demo_quota_inode 1020 (read_count demo_quota_inode 8 1020))) demo_quota /\
  answer (kr_quota_read 12 8 1020) demo_quota = Some (4, [0; 0; 0; 0]).
Proof.
  destruct demo_quota_ok as (H1 & H2 & H3). split; [|vm_compute; reflexivity].
  apply (kr_quota_read_correct 12 demo_quota_inode 8 1020 demo_quota);
    [exact H1|by apply tree_ok_file|done|lia|lia|lia|vm_compute; split; discriminate|].
  intros y Hy. assert (read_count demo_quota_inode 8 1020 = 4) as He by (vm_compute; reflexivity). rewrite He in Hy.
  assert (2 ^ c_bits (core_of demo_quota) = 1024) as -> by (vm_compute; reflexivity).
  replace (y / 1024) with 0 by (apply (Z.div_unique _ _ _ y); lia).
  assert (file_block (core_of demo_quota) demo_quota_inode 0 = 0) as -> by (vm_compute; reflexivity). cbv zeta. intros Hz. destruct Hz. reflexivity.
Defined.

Lemma kr_quota_write_witness :
  runs (kr_quota_write (mret tt) 12 demo_bytes 13308) never (fun r fs' => r = len demo_bytes /\
    exists c', wrote (core_of demo_quota) c' 12 demo_quota_inode 13308 demo_bytes /\
      core_of fs' = set_c_inodes (<[12 := written_inode 13308 (len demo_bytes) demo_quota_inode]> (c_inodes c')) c') demo_quota /\
  answer (kr_quota_write (mret tt) 12 demo_bytes 13308 ;; i ← inode_get 12; a ← buf_get 16; b ← buf_get 17;
          mret (i_size i, sub a 1018 6, sub b 0 6)) demo_quota = Some (13316, [7; 7; 1; 2; 3; 4], [5; 6; 7; 8; 7; 7]).
Proof.
  destruct demo_quota_ok as (H1 & H2 & H3). split; [|vm_compute; reflexivity].
  apply (kr_quota_write_correct (mret tt) 12 demo_quota_inode demo_bytes 13308 demo_quota);
    [exact H1|exact H2|exact H3|done|lia|vm_compute; discriminate|repeat constructor; lia|done|exact demo_quota_blocks].
Defined.

Lemma quota_write_then_read_witness :
  runs (n ← kr_quota_write (mret tt) 12 demo_bytes 13308; r ← kr_quota_read 12 (len demo_bytes) 13308; mret (n, r)) never
    (fun r _ => r = (len demo_bytes, (len demo_bytes, demo_bytes))) demo_quota.
Proof.
  destruct demo_quota_ok as (H1 & H2 & H3).
  apply (quota_write_then_read (mret tt) 12 demo_quota_inode demo_bytes 13308 demo_quota);
    [exact H1|exact H2|exact H3|done|lia|vm_compute; discriminate|repeat constructor; lia|done|exact demo_quota_blocks|
     vm_compute; split; discriminate|vm_compute; reflexivity].
Defined.

(** The write of a part of a block that a hole was in leaves the rest of the new block
    as the device has it: reading the file then shows bytes that were never
    written to it. *)
Definition demo_stale : krfs := set_fs_bufs (<[15 := repeat 7 1024]> (fs_bufs demo)) demo.
Example quota_write_shows_stale :
  answer (kr_quota_write (mret tt) 12 [1; 2] 4 ;; kr_quota_read 12 8 0) demo_stale = Some (8, [7; 7; 7; 7; 1; 2; 7; 7]).
Proof. vm_compute. reflexivity. Qed.
