(* ===== verification/Dir.v ===== *)
(** * Directories (dir.c)

    A directory is a file whose pages hold records of variable length.  This file
    has the page cache the functions of dir.c work in, and these functions: the
    check of a page, looking up, adding and deleting an entry, making an empty
    directory, telling whether one is empty, and reading one. *)

From S2P Require Import Prelude Bytes Bits Kr Rsv Bitmap Alloc State Balloc BlockMap.

(** Pages are of 4 KiB, as on x86; the code for pages of 64 KiB is not compiled. *)
Definition PAGE_SHIFT : Z := 12.
Definition PAGE_SIZE : Z := 4096.

(** ** The page cache

    A page belongs to an inode and has a number there.  [pg_count] is the number
    of its references, each of them taken by [kr_get_page] with its mapping. *)
Record page := Page {
  pg_data : list Z;
  pg_checked : bool;      (* PageChecked *)
  pg_error : bool;        (* PageError *)
  pg_count : Z;
}.
Definition set_pg_data (v : list Z) (p : page) : page :=
  Page v (pg_checked p) (pg_error p) (pg_count p).
Definition set_pg_checked (p : page) : page := Page (pg_data p) true (pg_error p) (pg_count p).
Definition set_pg_error (p : page) : page := Page (pg_data p) (pg_checked p) true (pg_count p).
Definition add_pg_count (n : Z) (p : page) : page :=
  Page (pg_data p) (pg_checked p) (pg_error p) (pg_count p + n).

(** The file system and the pages of its directories, by inode and number. *)
Record vfs := Vfs {
  v_fs : krfs;
  v_pages : gmap (Z * Z) page;
}.
Definition set_v_fs (fs : krfs) (s : vfs) : vfs := Vfs fs (v_pages s).
Definition set_v_pages (l : gmap (Z * Z) page) (s : vfs) : vfs := Vfs (v_fs s) l.

(** What the kernel does for a directory. *)
Class DirKernel := {
  read_page : krfs -> Z -> Z -> option (list Z);  (* the data of a page of an inode, from the disk *)
  (* __block_write_begin(page, pos, len, get_block), on a page that is up to date *)
  block_write_begin : (Z -> Z -> bool -> M krfs (Z * bh_result)) -> Z -> Z -> M krfs Z;
  write_one_page : Z -> Z -> Z;                   (* 0 or an error *)
  grab_cache_page_ok : bool;                      (* grab_cache_page is not NULL *)
  fresh_page : list Z;                            (* the content of a page it has allocated *)
  (* dir_emit(ctx, name, len, ino, type) after the entries so far: there is room for one more *)
  dir_emit_ok : list (list Z * Z * Z) -> list Z * Z * Z -> bool;
}.

(** ** The record of an entry

    [struct kr_dir_entry_2] at the offset [o] of a page. *)
Definition de_inode (d : list Z) (o : Z) : Z := get32 d o.
Definition de_rec_len (d : list Z) (o : Z) : Z := get16 d (o + 4).
Definition de_name_len (d : list Z) (o : Z) : Z := get8 d (o + 6).
Definition de_file_type (d : list Z) (o : Z) : Z := get8 d (o + 7).
Definition de_name (d : list Z) (o : Z) : list Z := sub d (o + 8) (de_name_len d o).

(** [KR_FT_...] to the [DT_...] of the kernel. *)
Definition kr_filetype_table : list Z := [0; 8; 4; 2; 6; 1; 12; 10].

(** The table has [S_IFMT >> S_SHIFT] = 15 entries. *)
Definition kr_type_by_mode : list Z :=
  [0; KR_FT_FIFO; KR_FT_CHRDEV; 0; KR_FT_DIR; 0; KR_FT_BLKDEV; 0; KR_FT_REG_FILE; 0;
   KR_FT_SYMLINK; 0; KR_FT_SOCK; 0; 0].

Definition kr_rec_len_from_disk (dlen : Z) : Z := dlen.
Definition kr_rec_len_to_disk (len : Z) : Z := u16 len.
Definition kr_next_entry (d : list Z) (o : Z) : Z := o + kr_rec_len_from_disk (de_rec_len d o).

(** [dir_pages], an inline function of the kernel. *)
Definition dir_pages (i : inode) : Z := Z.shiftr (i_size i + PAGE_SIZE - 1) PAGE_SHIFT.

Definition kr_chunk_size (fs : krfs) : Z := fs_blocksize fs.

(** The offset into page [page_nr] after its last valid byte. *)
Definition kr_last_byte (i : inode) (page_nr : Z) : Z :=
  let last_byte := u32 (u32 (i_size i) - Z.shiftl page_nr PAGE_SHIFT) in
  if last_byte >? PAGE_SIZE then PAGE_SIZE else last_byte.

(** *** The loops over the records of a page *)

(** Every turn of a loop goes on by a length that is not 0. *)
Definition page_fuel : nat := S (Z.to_nat PAGE_SIZE).

(** The loop of [kr_check_page]: where it ends, or [None] at a bad entry. *)
Fixpoint check_entries (fuel : nat) (d : list Z) (chunk_size max_inumber limit offs : Z) : option Z :=
  match fuel with
  | O => None
  | S n =>
      if offs <=? u32 (limit - KR_DIR_REC_LEN 1) then
        let rec_len := kr_rec_len_from_disk (de_rec_len d offs) in
        if rec_len <? KR_DIR_REC_LEN 1 then None
        else if negb (Z.land rec_len 3 =? 0) then None
        else if rec_len <? KR_DIR_REC_LEN (de_name_len d offs) then None
        else if negb (clr (Z.lxor (offs + rec_len - 1) offs) (chunk_size - 1) =? 0) then None
        else if de_inode d offs >? max_inumber then None
        else check_entries n d chunk_size max_inumber limit (offs + rec_len)
      else Some offs
  end.

Definition kr_match (len : Z) (name : list Z) (d : list Z) (o : Z) : bool :=
  if negb (len =? de_name_len d o) then false
  else if de_inode d o =? 0 then false
  else bool_decide (sub d (o + 8) len = take (Z.to_nat len) name).

(** [kr_validate_entry]: an offset of an entry at or after [offset], in its chunk. *)
Fixpoint validate (fuel : nat) (d : list Z) (p offset : Z) : Z :=
  match fuel with
  | O => p
  | S n =>
      if p <? offset then
        if de_rec_len d p =? 0 then p else validate n d (kr_next_entry d p) offset
      else p
  end.
Definition kr_validate_entry (d : list Z) (offset chunk_size : Z) : Z :=
  validate page_fuel d (clr offset (chunk_size - 1)) offset.

Inductive found :=
| Found (o : Z)
| NotFound
| ZeroLength.      (* an entry of length 0 *)

(** The inner loop of [kr_find_entry]; [limit] is its [kaddr]. *)
Fixpoint find_in_page (fuel : nat) (d : list Z) (name : list Z) (limit o : Z) : found :=
  match fuel with
  | O => NotFound
  | S n =>
      if o <=? limit then
        if de_rec_len d o =? 0 then ZeroLength
        else if kr_match (len name) name d o then Found o
        else find_in_page n d name limit (kr_next_entry d o)
      else NotFound
  end.

Inductive room :=
| HitEnd (o : Z)                        (* the entry is at the size of the directory *)
| RoomAt (o name_len rec_len : Z)       (* there is room in this entry *)
| Exists
| NoLength                              (* an entry of length 0 *)
| NoRoom.

(** The inner loop of [kr_add_link]; [limit] is its [kaddr]. *)
Fixpoint find_room (fuel : nat) (d : list Z) (name : list Z) (reclen dir_end limit o : Z) : room :=
  match fuel with
  | O => NoRoom
  | S n =>
      if o <=? limit then
        if o =? dir_end then HitEnd o
        else if de_rec_len d o =? 0 then NoLength
        else if kr_match (len name) name d o then Exists
        else
          let name_len := KR_DIR_REC_LEN (de_name_len d o) in
          let rec_len := kr_rec_len_from_disk (de_rec_len d o) in
          if (de_inode d o =? 0) && (rec_len >=? reclen) then RoomAt o name_len rec_len
          else if rec_len >=? name_len + reclen then RoomAt o name_len rec_len
          else find_room n d name reclen dir_end limit (o + rec_len)
      else NoRoom
  end.

(** The loop of [kr_delete_entry] to the entry before the one at [o]: [pde], or
    [None] at an entry of length 0. *)
Fixpoint entry_before (fuel : nat) (d : list Z) (pde : option Z) (o de : Z) : option (option Z) :=
  match fuel with
  | O => None
  | S n =>
      if de <? o then
        if de_rec_len d de =? 0 then None else entry_before n d (Some de) o (kr_next_entry d de)
      else Some pde
  end.

Inductive emptiness :=
| Empty
| NotEmpty
| EmptyError.      (* an entry of length 0: [kr_error], and not empty *)

(** Whether the entry keeps the directory [ino] from being empty. *)
Definition keeps (ino : Z) (d : list Z) (o : Z) : bool :=
  if de_inode d o =? 0 then false
  else if negb (get8 d (o + 8) =? 46) then true
  else if de_name_len d o >? 2 then true
  else if de_name_len d o <? 2 then negb (de_inode d o =? u32 ino)
  else negb (get8 d (o + 9) =? 46).

(** The inner loop of [kr_empty_dir]; [limit] is its [kaddr]. *)
Fixpoint page_empty (fuel : nat) (ino : Z) (d : list Z) (limit o : Z) : emptiness :=
  match fuel with
  | O => Empty
  | S n =>
      if o <=? limit then
        if de_rec_len d o =? 0 then EmptyError
        else if keeps ino d o then NotEmpty
        else page_empty n ino d limit (kr_next_entry d o)
      else Empty
  end.

Section Ops.
Context `{BitOps, RbTree, Trylock, Kernel, DirKernel}.

(** ** Pages *)

Definition on_fs {A} (m : M krfs A) : M vfs A := lift v_fs set_v_fs m.
Definition dir_inode (ino : Z) : M vfs inode := on_fs (inode_get ino).
Definition upd_page (k : Z * Z) (f : page -> page) : M vfs unit :=
  modify (fun s => set_v_pages (alter f k (v_pages s)) s).
Definition page_data (k : Z * Z) : M vfs (list Z) :=
  s ← gets id;
  match v_pages s !! k with
  | Some p => mret (pg_data p)
  | None => halt Fault
  end.

(** [read_mapping_page]: the page that is in the cache, or read into it. *)
Definition read_mapping_page (k : Z * Z) : M vfs (option page) :=
  s ← gets id;
  match v_pages s !! k with
  | Some p =>
      modify (set_v_pages (<[k := add_pg_count 1 p]> (v_pages s))) ;; mret (Some (add_pg_count 1 p))
  | None =>
      match read_page (v_fs s) k.1 k.2 with
      | None => mret None
      | Some d =>
          modify (set_v_pages (<[k := Page d false false 1]> (v_pages s))) ;;
          mret (Some (Page d false false 1))
      end
  end.

Definition kr_put_page (k : Z * Z) : M vfs unit := upd_page k (add_pg_count (-1)).

Definition kr_commit_chunk (k : Z * Z) (pos len : Z) : M vfs Z :=
  let dir := k.1 in
  on_fs (inode_upd (fun i => set_i_version (u64 (i_version i + 1)) i) dir) ;;
  on_fs (log (block_write_end dir pos len)) ;;
  i ← dir_inode dir;
  when (pos + len >? i_size i)
    (on_fs (inode_upd (set_i_size (pos + len)) dir ;; log (mark_inode_dirty dir))) ;;
  s ← gets id;
  if IS_DIRSYNC (v_fs s) i then
    let err := write_one_page k.1 k.2 in
    mret (if negb (err =? 0) then err else sync_inode_metadata dir)
  else mret 0.

(** [limit] of [kr_check_page]: [None] when the size of the directory is bad. *)
Definition page_limit (chunk_size : Z) (i : inode) (index : Z) : option Z :=
  if Z.shiftr (i_size i) PAGE_SHIFT =? index then
    let limit := Z.land (i_size i) (PAGE_SIZE - 1) in
    if negb (Z.land limit (chunk_size - 1) =? 0) then None else Some limit
  else Some PAGE_SIZE.

(** Whether [kr_check_page] finds the page to be good. *)
Definition page_good (chunk_size max_inumber : Z) (i : inode) (index : Z) (d : list Z) : bool :=
  match page_limit chunk_size i index with
  | None => false
  | Some limit =>
      if limit =? 0 then true
      else match check_entries page_fuel d chunk_size max_inumber limit 0 with
           | None => false
           | Some offs => offs =? limit
           end
  end.

Definition kr_check_page (k : Z * Z) (quiet : bool) : M vfs bool :=
  dir ← dir_inode k.1;
  d ← page_data k;
  s ← gets id;
  if page_good (kr_chunk_size (v_fs s)) (es_inodes_count (fs_es (v_fs s))) dir k.2 d then
    upd_page k set_pg_checked ;; mret true
  else
    when (negb quiet) (on_fs kr_error) ;;
    upd_page k set_pg_error ;; mret false.

(** The page, mapped, or an error. *)
Definition kr_get_page (dir n : Z) (quiet : bool) : M vfs (Z + Z * Z) :=
  let k := (dir, n) in
  r ← read_mapping_page k;
  match r with
  | None => mret (inl (- EIO))
  | Some p =>
      if pg_checked p then mret (inr k)
      else if pg_error p then kr_put_page k ;; mret (inl (- EIO))
      else
        ok ← kr_check_page k quiet;
        if negb ok then kr_put_page k ;; mret (inl (- EIO)) else mret (inr k)
  end.

Definition kr_prepare_chunk (k : Z * Z) (pos len : Z) : M vfs Z :=
  on_fs (block_write_begin (kr_get_block (mret tt) k.1) pos len).

(** The type of the entry at [o]; a file type the table does not have is read
    past its end. *)
Definition kr_set_de_type (k : Z * Z) (o ino : Z) : M vfs unit :=
  i ← dir_inode ino;
  s ← gets id;
  if has_incompat_feature (fs_es (v_fs s)) KR_FEATURE_INCOMPAT_FILETYPE then
    match kr_type_by_mode !! Z.to_nat (Z.shiftr (Z.land (i_mode i) S_IFMT) 12) with
    | Some t => upd_page k (fun p => set_pg_data (put8 (pg_data p) (o + 7) t) p)
    | None => halt Fault
    end
  else upd_page k (fun p => set_pg_data (put8 (pg_data p) (o + 7) 0) p).

Definition upd_data (k : Z * Z) (f : list Z -> list Z) : M vfs unit :=
  upd_page k (fun p => set_pg_data (f (pg_data p)) p).

(** [dir->i_mtime = dir->i_ctime = now], [KR_BTREE_FL] cleared, and marked dirty. *)
Definition touch_dir (dir : Z) (update_times : bool) : M vfs unit :=
  when update_times
    (on_fs (inode_upd (fun i => set_i_mtime current_time (set_i_ctime current_time i)) dir)) ;;
  on_fs (inode_upd (fun i => set_KR_I (set_ei_flags (clr (ei_flags (KR_I i)) KR_BTREE_FL) (KR_I i)) i) dir) ;;
  on_fs (log (mark_inode_dirty dir)).

(** ** Looking up *)

(** One turn of the loop over the pages; the state is the page and
    [dir_has_error], the answer the page and the offset. *)
Definition find_turn (dir : Z) (name : list Z) (start npages : Z) (p : Z * bool)
    : M vfs ((Z * bool) + option (Z * Z)) :=
  let '(n, dir_has_error) := p in
  i ← dir_inode dir;
  r ← kr_get_page dir n dir_has_error;
  let next (dir_has_error : bool) : M vfs ((Z * bool) + option (Z * Z)) :=
    let n := if n + 1 >=? npages then 0 else n + 1 in
    if n >? Z.shiftr (i_blocks i) (PAGE_SHIFT - 9) then on_fs kr_error ;; mret (inr None)
    else if negb (n =? start) then mret (inl (n, dir_has_error))
    else mret (inr None) in
  match r with
  | inl _ => next true
  | inr k =>
      d ← page_data k;
      match find_in_page page_fuel d name (u32 (kr_last_byte i n - KR_DIR_REC_LEN (len name))) 0 with
      | ZeroLength => on_fs kr_error ;; kr_put_page k ;; mret (inr None)
      | Found o =>
          on_fs (inode_upd (fun i => set_KR_I (set_i_dir_start_lookup n (KR_I i)) i) dir) ;;
          mret (inr (Some (n, o)))
      | NotFound => kr_put_page k ;; next dir_has_error
      end
  end.

(** The answer is the number of the page, which is held, and the offset there. *)
Definition kr_find_entry (dir : Z) (name : list Z) : M vfs (option (Z * Z)) :=
  i ← dir_inode dir;
  let npages := dir_pages i in
  if npages =? 0 then mret None
  else
    let start := i_dir_start_lookup (KR_I i) in
    let start := if start >=? npages then 0 else start in
    loop (S (Z.to_nat npages)) (find_turn dir name start npages) (start, false).

Definition kr_dotdot (dir : Z) : M vfs (option (Z * Z)) :=
  r ← kr_get_page dir 0 false;
  match r with
  | inl _ => mret None
  | inr k => d ← page_data k; mret (Some (0, kr_next_entry d 0))
  end.

Definition kr_inode_by_name (dir : Z) (name : list Z) : M vfs Z :=
  de ← kr_find_entry dir name;
  match de with
  | None => mret 0
  | Some (n, o) =>
      d ← page_data (dir, n);
      kr_put_page (dir, n) ;;
      mret (de_inode d o)
  end.

(** ** Changing *)

Definition kr_set_link (dir n o : Z) (inode : Z) (update_times : bool) : M vfs unit :=
  let k := (dir, n) in
  d ← page_data k;
  let pos := Z.shiftl n PAGE_SHIFT + o in
  let len := kr_rec_len_from_disk (de_rec_len d o) in
  err ← kr_prepare_chunk k pos len;
  bug_on (negb (err =? 0)) ;;
  upd_data k (fun d => put32 d o inode) ;;
  kr_set_de_type k o inode ;;
  _ ← kr_commit_chunk k pos len;
  kr_put_page k ;;
  touch_dir dir update_times.

(** The code of [kr_add_link] from [got_it] on, up to [out_put]. *)
Definition got_room (k : Z * Z) (o name_len rec_len : Z) (name : list Z) (inode : Z) : M vfs Z :=
  let pos := Z.shiftl k.2 PAGE_SHIFT + o in
  err ← kr_prepare_chunk k pos rec_len;
  if negb (err =? 0) then kr_put_page k ;; mret err
  else
    d ← page_data k;
    o ← (if negb (de_inode d o =? 0) then
           upd_data k (fun d =>
             put16 (put16 d (o + name_len + 4) (kr_rec_len_to_disk (rec_len - name_len)))
               (o + 4) (kr_rec_len_to_disk name_len)) ;;
           mret (o + name_len)
         else mret o);
    upd_data k (fun d => put32 (put_bytes (put8 d (o + 6) (len name)) (o + 8) name) o inode) ;;
    kr_set_de_type k o inode ;;
    err ← kr_commit_chunk k pos rec_len;
    touch_dir k.1 true ;;
    kr_put_page k ;; mret err.

(** One turn of the loop over the pages. *)
Definition add_turn (dir : Z) (name : list Z) (inode : Z) (n : Z) : M vfs (Z + Z) :=
  i ← dir_inode dir;
  r ← kr_get_page dir n false;
  match r with
  | inl err => mret (inr err)
  | inr k =>
      d ← page_data k;
      s ← gets id;
      let chunk_size := kr_chunk_size (v_fs s) in
      let reclen := KR_DIR_REC_LEN (len name) in
      match find_room page_fuel d name reclen (kr_last_byte i n) (PAGE_SIZE - reclen) 0 with
      | HitEnd o =>
          upd_data k (fun d => put32 (put16 d (o + 4) (kr_rec_len_to_disk chunk_size)) o 0) ;;
          err ← got_room k o 0 (u16 chunk_size) name inode;
          mret (inr err)
      | RoomAt o name_len rec_len =>
          err ← got_room k o (u16 name_len) (u16 rec_len) name inode; mret (inr err)
      | Exists => kr_put_page k ;; mret (inr (- EEXIST))
      | NoLength => on_fs kr_error ;; kr_put_page k ;; mret (inr (- EIO))
      | NoRoom => kr_put_page k ;; mret (inl (n + 1))
      end
  end.

(** [for (n = 0; n <= npages; n++)], with the [BUG] after it. *)
Fixpoint add_pages (fuel : nat) (dir : Z) (name : list Z) (inode n : Z) : M vfs Z :=
  match fuel with
  | O => halt BugOn
  | S fuel =>
      r ← add_turn dir name inode n;
      match r with
      | inl n => add_pages fuel dir name inode n
      | inr err => mret err
      end
  end.

(** The directory, the name and the inode, which the dentry holds. *)
Definition kr_add_link (dir : Z) (name : list Z) (inode : Z) : M vfs Z :=
  i ← dir_inode dir;
  add_pages (S (Z.to_nat (dir_pages i))) dir name inode 0.

(** The entry at [o] of the page [k]. *)
Definition kr_delete_entry (k : Z * Z) (o : Z) : M vfs Z :=
  d ← page_data k;
  s ← gets id;
  let from := clr o (kr_chunk_size (v_fs s) - 1) in
  let to := o + kr_rec_len_from_disk (de_rec_len d o) in
  match entry_before page_fuel d None o from with
  | None => on_fs kr_error ;; kr_put_page k ;; mret (- EIO)
  | Some pde =>
      let from := default from pde in
      let pos := Z.shiftl k.2 PAGE_SHIFT + from in
      err ← kr_prepare_chunk k pos (to - from);
      bug_on (negb (err =? 0)) ;;
      upd_data k (fun d =>
        put32 (match pde with
               | Some p => put16 d (p + 4) (kr_rec_len_to_disk (to - from))
               | None => d
               end) o 0) ;;
      err ← kr_commit_chunk k pos (to - from);
      touch_dir k.1 true ;;
      kr_put_page k ;; mret err
  end.

(** The first chunk of a directory: the entries "." and "..". *)
Definition kr_make_empty (inode parent : Z) : M vfs Z :=
  let k := (inode, 0) in
  s ← gets id;
  let chunk_size := kr_chunk_size (v_fs s) in
  if negb grab_cache_page_ok then mret (- ENOMEM)
  else
    (* grab_cache_page: the page that is in the cache, or a new one *)
    modify (fun s => set_v_pages
      (<[k := add_pg_count 1 (default (Page fresh_page false false 0)
                                (v_pages s !! k))]> (v_pages s)) s) ;;
    err ← kr_prepare_chunk k 0 chunk_size;
    if negb (err =? 0) then kr_put_page k ;; mret err
    else
      upd_data k (fun d => put_bytes d 0 (repeat 0 (Z.to_nat chunk_size))) ;;
      let dot := 0 in
      upd_data k (fun d =>
        put32 (put_bytes (put16 (put8 d (dot + 6) 1) (dot + 4) (kr_rec_len_to_disk (KR_DIR_REC_LEN 1)))
                 (dot + 8) [46; 0; 0; 0]) dot inode) ;;
      kr_set_de_type k dot inode ;;
      let dotdot := KR_DIR_REC_LEN 1 in
      upd_data k (fun d =>
        put_bytes
          (put32 (put16 (put8 d (dotdot + 6) 2) (dotdot + 4)
                    (kr_rec_len_to_disk (chunk_size - KR_DIR_REC_LEN 1))) dotdot parent)
          (dotdot + 8) [46; 46; 0; 0]) ;;
      kr_set_de_type k dotdot inode ;;
      err ← kr_commit_chunk k 0 chunk_size;
      kr_put_page k ;; mret err.

(** ** Empty directories *)

(** The loop over the pages, from [n] on. *)
Fixpoint empty_pages (m : nat) (ino n : Z) (dir_has_error : bool) : M vfs Z :=
  match m with
  | O => mret 1
  | S m =>
      i ← dir_inode ino;
      r ← kr_get_page ino n dir_has_error;
      match r with
      | inl _ => empty_pages m ino (n + 1) true
      | inr k =>
          d ← page_data k;
          match page_empty page_fuel ino d (u32 (kr_last_byte i n - KR_DIR_REC_LEN 1)) 0 with
          | EmptyError => on_fs kr_error ;; kr_put_page k ;; mret 0
          | NotEmpty => kr_put_page k ;; mret 0
          | Empty => kr_put_page k ;; empty_pages m ino (n + 1) dir_has_error
          end
      end
  end.

Definition kr_empty_dir (ino : Z) : M vfs Z :=
  i ← dir_inode ino;
  empty_pages (Z.to_nat (dir_pages i)) ino 0 false.

(** ** Reading a directory *)

(** An entry as [dir_emit] gets it: the name, the inode and the type. *)
Definition emitted : Type := list Z * Z * Z.

Definition d_type_of (types : bool) (d : list Z) (o : Z) : Z :=
  if types && (de_file_type d o <? KR_FT_MAX)
  then nth (Z.to_nat (de_file_type d o)) kr_filetype_table 0 else 0.

Inductive emission :=
| EmitEnd (pos : Z) (l : list emitted)      (* the page is done *)
| EmitFull (pos : Z) (l : list emitted)     (* there was no room *)
| EmitError (pos : Z) (l : list emitted).   (* an entry of length 0 *)

(** The loop over the entries of a page; [pos] is [ctx->pos]. *)
Fixpoint emit_entries (fuel : nat) (types : bool) (d : list Z) (limit o pos : Z)
    (l : list emitted) : emission :=
  match fuel with
  | O => EmitEnd pos l
  | S n =>
      if o <=? limit then
        if de_rec_len d o =? 0 then EmitError pos l
        else
          let e := (de_name d o, de_inode d o, d_type_of types d o) in
          let next := emit_entries n types d limit (kr_next_entry d o)
                        (pos + kr_rec_len_from_disk (de_rec_len d o)) in
          if de_inode d o =? 0 then next l
          else if negb (dir_emit_ok l e) then EmitFull pos l
          else next (l ++ [e])
      else EmitEnd pos l
  end.

(** What [kr_readdir] keeps: [ctx->pos], what it has emitted, and [f_version]. *)
Record dir_context := DirContext {
  ctx_pos : Z;
  ctx_emitted : list emitted;
  f_version : Z;
}.

(** The loop over [m] pages from [n] on; [offset] is that of the first entry. *)
Fixpoint read_pages (m : nat) (ino n offset : Z) (types need_revalidate : bool) (c : dir_context)
    : M vfs (Z * dir_context) :=
  match m with
  | O => mret (0, c)
  | S m =>
      i ← dir_inode ino;
      r ← kr_get_page ino n false;
      match r with
      | inl err =>
          on_fs kr_error ;;
          mret (err, DirContext (ctx_pos c + PAGE_SIZE - offset) (ctx_emitted c) (f_version c))
      | inr k =>
          d ← page_data k;
          s ← gets id;
          let chunk_size := kr_chunk_size (v_fs s) in
          let revalidated := need_revalidate && negb (offset =? 0) in
          let offset := if revalidated then kr_validate_entry d offset chunk_size else offset in
          let pos := if revalidated then Z.shiftl n PAGE_SHIFT + offset else ctx_pos c in
          let version := if need_revalidate then i_version i else f_version c in
          let limit := kr_last_byte i n - KR_DIR_REC_LEN 1 in
          match emit_entries page_fuel types d limit offset pos (ctx_emitted c) with
          | EmitError pos l => on_fs kr_error ;; kr_put_page k ;; mret (- EIO, DirContext pos l version)
          | EmitFull pos l => kr_put_page k ;; mret (0, DirContext pos l version)
          | EmitEnd pos l =>
              kr_put_page k ;;
              read_pages m ino (n + 1) 0 types false (DirContext pos l version)
          end
      end
  end.

Definition kr_readdir (ino : Z) (c : dir_context) : M vfs (Z * dir_context) :=
  i ← dir_inode ino;
  s ← gets id;
  let pos := ctx_pos c in
  let offset := Z.land pos (PAGE_SIZE - 1) in
  let n := Z.shiftr pos PAGE_SHIFT in
  let npages := dir_pages i in
  let need_revalidate := negb (f_version c =? i_version i) in
  if pos >? i_size i - KR_DIR_REC_LEN 1 then mret (0, c)
  else
    let types := has_incompat_feature (fs_es (v_fs s)) KR_FEATURE_INCOMPAT_FILETYPE in
    read_pages (Z.to_nat (npages - n)) ino n offset types need_revalidate c.

End Ops.
