(* ===== verification/DirPage.v ===== *)
(** * The records of a page of a directory

    What the loops of dir.c find on a page whose records follow each other up to
    its end ([chain]), and how changing one record changes the chain. *)

From S2P Require Import Prelude Bytes Bits Kr Rsv Bitmap Alloc State Balloc BlockMap Dir.

(** ** Records *)

Lemma rec_len_val n : KR_DIR_REC_LEN n = 4 * ((n + 11) / 4).
Proof.
  unfold KR_DIR_REC_LEN. change KR_DIR_ROUND with (Z.ones 2).
  change (n + 8 + Z.ones 2) with (n + 8 + 3). replace (n + 8 + 3) with (n + 11) by lia. rewrite Z.ldiff_ones_r, Z.shiftl_mul_pow2, Z.shiftr_div_pow2 by lia.
  change (2 ^ 2) with 4. lia.
Qed.

Lemma clr_pow2 x k : 0 <= k -> clr x (2 ^ k - 1) = 2 ^ k * (x / 2 ^ k).
Proof.
  intros Hk. unfold clr. replace (2 ^ k - 1) with (Z.ones k) by (rewrite Z.ones_equiv; lia).
  rewrite Z.ldiff_ones_r, Z.shiftl_mul_pow2, Z.shiftr_div_pow2 by lia. lia.
Qed.

Lemma same_chunk a b k : 0 <= k -> clr (Z.lxor a b) (2 ^ k - 1) = 0 <-> a / 2 ^ k = b / 2 ^ k.
Proof.
  intros Hk. rewrite clr_pow2 by done. rewrite <- !Z.shiftr_div_pow2, Z.shiftr_lxor by done.
  assert (0 < 2 ^ k) by (apply Z.pow_pos_nonneg; lia).
  rewrite Z.mul_eq_0, Z.lxor_eq_0_iff. lia.
Qed.

Section Chains.
(** The size of a chunk is [2 ^ bits]; inodes are numbered up to [max]. *)
Variables bits max : Z.

(** A record at [o] that [kr_check_page] accepts. *)
Record record_ok (d : list Z) (o : Z) : Prop := {
  ok_min : 12 <= de_rec_len d o;
  ok_align : de_rec_len d o mod 4 = 0;
  ok_name : KR_DIR_REC_LEN (de_name_len d o) <= de_rec_len d o;
  ok_chunk : (o + de_rec_len d o - 1) / 2 ^ bits = o / 2 ^ bits;
  ok_inode : de_inode d o <= max;
}.

(** The records at the offsets [l] follow each other from [o] to [lim]. *)
Fixpoint chain (d : list Z) (o lim : Z) (l : list Z) : Prop :=
  match l with
  | [] => o = lim
  | x :: l => x = o /\ record_ok d o /\ chain d (o + de_rec_len d o) lim l
  end.

Lemma chain_le d o lim l : chain d o lim l -> o <= lim.
Proof.
  revert o. induction l as [|x l IH]; intros o; simpl; [lia|].
  intros (_ & Hok & H). apply IH in H. pose proof (ok_min _ _ Hok). lia.
Qed.

Lemma chain_in d o lim l x : chain d o lim l -> x ∈ l ->
  o <= x /\ record_ok d x /\ x + de_rec_len d x <= lim.
Proof.
  revert o. induction l as [|y l IH]; intros o Hc Hx; [set_solver|].
  destruct Hc as (-> & Hok & Hc). pose proof (ok_min _ _ Hok).
  apply elem_of_cons in Hx as [->|Hx].
  - apply chain_le in Hc. split_and!; [lia|done|lia].
  - destruct (IH _ Hc Hx) as (H1 & H2 & H3). split_and!; [lia|done|done].
Qed.

Lemma chain_app d a c l1 l2 :
  chain d a c (l1 ++ l2) <-> exists b, chain d a b l1 /\ chain d b c l2.
Proof.
  revert a. induction l1 as [|x l1 IH]; intros a; simpl.
  - split; [intros H; by exists a|]. by intros (b & -> & H).
  - rewrite IH. split.
    + intros (-> & Hok & b & H1 & H2). exists b. by split_and!.
    + intros (b & (-> & Hok & H1) & H2). split_and!; [done|done|]. by exists b.
Qed.

Lemma chain_split d a c l x : chain d a c l -> x ∈ l ->
  exists l1 l2, l = l1 ++ x :: l2 /\ chain d a x l1 /\ record_ok d x /\
    chain d (x + de_rec_len d x) c l2.
Proof.
  intros Hc Hx. apply list_elem_of_split in Hx as (l1 & l2 & ->).
  apply chain_app in Hc as (b & H1 & -> & Hok & H2). by exists l1, l2.
Qed.

Lemma chain_nodup d a c l : chain d a c l -> NoDup l.
Proof.
  revert a. induction l as [|x l IH]; intros a; [constructor|]. intros (-> & Hok & Hc).
  constructor; [|by apply (IH _ Hc)]. intros Hin. apply (chain_in _ _ _ _ _ Hc) in Hin.
  pose proof (ok_min _ _ Hok). lia.
Qed.

Lemma chain_unique d a c l l' : chain d a c l -> chain d a c l' -> l = l'.
Proof.
  revert a l'. induction l as [|x l IH]; intros a [|y l'] H1 H2; try done.
  - destruct H1, H2 as (_ & Hok & H2). apply chain_le in H2. pose proof (ok_min _ _ Hok). lia.
  - destruct H2, H1 as (_ & Hok & H1). apply chain_le in H1. pose proof (ok_min _ _ Hok). lia.
  - destruct H1 as (-> & _ & H1), H2 as (-> & _ & H2). f_equal. by apply (IH _ _ H1).
Qed.

(** *** Records that do not change *)

(** The record at [o] is the same in [d] and [d']. *)
Definition same_record (d d' : list Z) (o : Z) : Prop :=
  de_inode d' o = de_inode d o /\ de_rec_len d' o = de_rec_len d o /\
  de_name d' o = de_name d o /\ de_file_type d' o = de_file_type d o /\
  de_name_len d' o = de_name_len d o.

Lemma name_fits d o : bytes d -> record_ok d o -> o + 8 + de_name_len d o <= o + de_rec_len d o.
Proof.
  intros Hb Hok. pose proof (ok_name _ _ Hok) as Hn. rewrite rec_len_val in Hn.
  Z.to_euclidean_division_equations; lia.
Qed.

Lemma record_same d d' o lim : bytes d -> len d' = len d -> 0 <= o -> lim <= len d ->
  record_ok d o -> o + de_rec_len d o <= lim -> same_on d d' o (o + de_rec_len d o) ->
  same_record d d' o /\ record_ok d' o.
Proof.
  intros Hb Hl Ho Hlim Hok Hfit Hs. pose proof (ok_min _ _ Hok) as Hmin.
  pose proof (name_fits _ _ Hb Hok) as Hnf. pose proof (get8_bytes d (o + 6) Hb) as Hn0.
  assert (de_rec_len d' o = de_rec_len d o) as Hr.
  { unfold de_rec_len. apply get16_same. eapply same_on_weaken; [exact Hs|lia|lia]. }
  assert (de_inode d' o = de_inode d o) as Hi.
  { unfold de_inode. apply get32_same. eapply same_on_weaken; [exact Hs|lia|lia]. }
  assert (de_name_len d' o = de_name_len d o) as Hnl by (unfold de_name_len; rewrite Hs by lia; done).
  assert (de_file_type d' o = de_file_type d o) as Hf by (unfold de_file_type; rewrite Hs by lia; done).
  split.
  - unfold same_record. split_and!; try done. unfold de_name. rewrite Hnl. unfold de_name_len in *.
    apply sub_ext; try lia. eapply same_on_weaken; [exact Hs|lia|lia].
  - destruct Hok. split; rewrite ?Hr, ?Hi, ?Hnl; done.
Qed.

Lemma chain_same d d' a c l : bytes d -> len d' = len d -> 0 <= a -> c <= len d ->
  same_on d d' a c -> chain d a c l ->
  chain d' a c l /\ forall x, x ∈ l -> same_record d d' x.
Proof.
  intros Hb Hl Ha Hc Hs. revert a Ha Hs. induction l as [|x l IH]; intros a Ha Hs.
  - intros H. split; [done|]. intros x Hx. by apply elem_of_nil in Hx.
  - intros (-> & Hok & H). pose proof (ok_min _ _ Hok). pose proof (chain_le _ _ _ _ H).
    destruct (record_same d d' a c) as [Hsr Hok']; try done.
    { eapply same_on_weaken; [exact Hs|lia|lia]. }
    destruct (IH (a + de_rec_len d a)) as [H3 H4]; [lia| |done|].
    { eapply same_on_weaken; [exact Hs|lia|lia]. }
    split.
    + simpl. destruct Hsr as (_ & Hr & _). rewrite Hr. done.
    + intros y Hy. apply elem_of_cons in Hy as [->|Hy]; [done|]. by apply H4.
Qed.

(** Changing the records between [b] and [c]. *)
Lemma chain_replace d d' lim l1 l2 l3 m b c : bytes d -> len d' = len d -> lim <= len d ->
  0 <= b -> chain d 0 b l1 -> chain d c lim l3 -> b <= c ->
  same_on d d' 0 b -> same_on d d' c lim -> chain d' b c m -> l2 = l1 ++ m ++ l3 ->
  chain d' 0 lim l2 /\ forall x, x ∈ l1 \/ x ∈ l3 -> same_record d d' x.
Proof.
  intros Hb Hl Hlim Hb0 H1 H3 Hbc Hs1 Hs3 Hm ->. pose proof (chain_le _ _ _ _ H3).
  destruct (chain_same d d' 0 b l1) as [H1' Hr1]; try done; [lia|].
  destruct (chain_same d d' c lim l3) as [H3' Hr3]; try done; [lia|].
  split; [|intros x [Hx|Hx]; eauto].
  apply chain_app. exists b. split; [done|]. apply chain_app. by exists c.
Qed.

(** ** The loops *)

Lemma record_okb d o : bytes d -> 0 <= bits ->
  let rec_len := de_rec_len d o in
  record_ok d o <->
  (rec_len <? KR_DIR_REC_LEN 1) = false /\ negb (Z.land rec_len 3 =? 0) = false /\
  (rec_len <? KR_DIR_REC_LEN (de_name_len d o)) = false /\
  negb (clr (Z.lxor (o + rec_len - 1) o) (2 ^ bits - 1) =? 0) = false /\
  (de_inode d o >? max) = false.
Proof.
  intros Hb Hbits rec_len. change (KR_DIR_REC_LEN 1) with 12.
  change 3 with (Z.ones 2). rewrite Z.land_ones by lia. change (2 ^ 2) with 4.
  pose proof (same_chunk (o + rec_len - 1) o bits Hbits) as Hs.
  rewrite !negb_false_iff, !Z.eqb_eq, !Z.ltb_ge, Hs.
  split; [intros [? ? ? ? ?]; split_and!; unfold rec_len; lia|].
  intros (? & ? & ? & ? & ?). split; unfold rec_len in *; lia.
Qed.

(** The check accepts a page just when its records follow each other to the limit. *)
Lemma check_entries_spec d lim : bytes d -> 0 <= bits -> 12 <= lim <= PAGE_SIZE ->
  forall fuel o, 0 <= o <= lim -> lim - o < Z.of_nat fuel ->
  (exists l, chain d o lim l) <-> check_entries fuel d (2 ^ bits) max lim o = Some lim.
Proof.
  intros Hb Hbits Hlim. unfold PAGE_SIZE in Hlim.
  induction fuel as [|fuel IH]; intros o Ho Hf; [lia|]. cbn [check_entries].
  unfold kr_rec_len_from_disk. change (KR_DIR_REC_LEN 1) with 12 at 1. wraps.
  destruct (Z.leb_spec o (lim - 12)) as [Hle|Hgt].
  - pose proof (record_okb d o Hb Hbits) as Hok. cbv zeta in Hok.
    destruct (_ <? KR_DIR_REC_LEN 1) eqn:E1; [|destruct (negb (Z.land _ 3 =? 0)) eqn:E2;
      [|destruct (_ <? KR_DIR_REC_LEN (de_name_len d o)) eqn:E3;
      [|destruct (negb (clr _ _ =? 0)) eqn:E4; [|destruct (de_inode d o >? max) eqn:E5]]]].
    all: try (split; [intros ([|x l] & Hc); [simpl in Hc; lia|];
      destruct Hc as (_ & Hr & _); apply Hok in Hr; intuition congruence|done]).
    assert (record_ok d o) as Hr by (apply Hok; done). pose proof (ok_min _ _ Hr) as Hmin.
    destruct (Z.leb_spec (o + de_rec_len d o) lim) as [Hfit|Hout].
    + rewrite <- IH by lia. split.
      * intros ([|x l] & Hc); [simpl in Hc; lia|]. destruct Hc as (_ & _ & Hc). by exists l.
      * intros (l & Hc). by exists (o :: l).
    + split.
      * intros ([|x l] & Hc); [simpl in Hc; lia|]. destruct Hc as (_ & _ & Hc).
        apply chain_le in Hc. lia.
      * destruct fuel as [|n]; [done|]. cbn [check_entries].
        change (KR_DIR_REC_LEN 1) with 12 at 1. wraps.
        destruct (Z.leb_spec (o + de_rec_len d o) (lim - 12)); [lia|]. intros [=]. lia.
  - split.
    + intros ([|x l] & Hc); [simpl in Hc; by subst|]. destruct Hc as (_ & Hok & Hc).
      apply chain_le in Hc. pose proof (ok_min _ _ Hok). lia.
    + intros [=]. by exists [].
Qed.

(** The record at [o] is in use and has the name. *)
Definition names (d : list Z) (o : Z) (name : list Z) : Prop :=
  de_inode d o <> 0 /\ de_name d o = name.

Lemma match_spec d o name : bytes d -> 0 <= o -> record_ok d o -> o + de_rec_len d o <= len d ->
  kr_match (len name) name d o = true <-> names d o name.
Proof.
  intros Hb Ho Hok Hfit. pose proof (name_fits _ _ Hb Hok). pose proof (get8_bytes d (o + 6) Hb).
  assert (len (de_name d o) = de_name_len d o) as Hl.
  { unfold de_name. apply len_sub; unfold de_name_len in *; lia. }
  unfold kr_match, names. rewrite (take_ge name) by (unfold len; lia).
  destruct (Z.eqb_spec (len name) (de_name_len d o)) as [He|He]; cbn [negb].
  - destruct (Z.eqb_spec (de_inode d o) 0); [split; [done|by intros []]|].
    rewrite bool_decide_eq_true. unfold de_name. rewrite He. intuition.
  - split; [done|]. intros [_ <-]. congruence.
Qed.

Lemma match_false d o name : bytes d -> 0 <= o -> record_ok d o -> o + de_rec_len d o <= len d ->
  kr_match (len name) name d o = false -> ~ names d o name.
Proof. intros Hb Ho Hok Hfit Hm Hn. apply match_spec in Hn; [congruence|done..]. Qed.

Lemma find_in_page_spec d name lim : bytes d -> 0 <= lim <= len d ->
  forall fuel o l, 0 <= o -> chain d o lim l -> lim - o < Z.of_nat fuel ->
  match find_in_page fuel d name (lim - KR_DIR_REC_LEN (len name)) o with
  | Found x => x ∈ l /\ names d x name
  | NotFound => forall x, x ∈ l -> ~ names d x name
  | ZeroLength => False
  end.
Proof.
  intros Hb Hlim. induction fuel as [|fuel IH]; intros o l Ho Hc Hf; [apply chain_le in Hc; lia|].
  cbn [find_in_page]. destruct (Z.leb_spec o (lim - KR_DIR_REC_LEN (len name))) as [Hle|Hgt].
  - destruct l as [|x l].
    + simpl in Hc. rewrite rec_len_val in Hle. pose proof (len_nonneg name).
      Z.to_euclidean_division_equations; lia.
    + destruct Hc as (-> & Hok & Hc). pose proof (ok_min _ _ Hok). pose proof (chain_le _ _ _ _ Hc).
      destruct (Z.eqb_spec (de_rec_len d o) 0); [lia|].
      destruct (kr_match _ _ _ _) eqn:Hm.
      * apply match_spec in Hm; [|done|lia|done|lia]. split; [set_solver|done].
      * apply match_false in Hm; [|done|lia|done|lia].
        specialize (IH (o + de_rec_len d o) l). unfold kr_next_entry, kr_rec_len_from_disk.
        destruct (find_in_page _ _ _ _ _).
        -- destruct IH; [lia|done|lia|]. split; [set_solver|done].
        -- intros y Hy. apply elem_of_cons in Hy as [->|Hy]; [done|]. apply IH; [lia|done|lia|done].
        -- apply IH; [lia|done|lia].
  - intros x Hx [Hn <-]. apply (chain_in _ _ _ _ _ Hc) in Hx as (H1 & Hok & H2).
    pose proof (ok_name _ _ Hok) as Hnm. pose proof (name_fits _ _ Hb Hok).
    pose proof (get8_bytes d (x + 6) Hb). unfold de_name in Hgt.
    rewrite len_sub in Hgt by (unfold de_name_len in *; lia). lia.
Qed.

(** There is room for a record of the length [reclen] in the record at [o]. *)
Definition roomy (d : list Z) (o reclen : Z) : Prop :=
  de_inode d o = 0 /\ reclen <= de_rec_len d o \/
  KR_DIR_REC_LEN (de_name_len d o) + reclen <= de_rec_len d o.

Lemma find_room_spec d name lim : bytes d -> len d = PAGE_SIZE -> 0 <= lim <= len d ->
  let reclen := KR_DIR_REC_LEN (len name) in
  forall fuel o l, 0 <= o -> chain d o lim l -> lim - o < Z.of_nat fuel ->
  match find_room fuel d name reclen lim (PAGE_SIZE - reclen) o with
  | HitEnd x => x = lim /\ lim <= PAGE_SIZE - reclen
  | RoomAt x name_len rec_len => x ∈ l /\ name_len = KR_DIR_REC_LEN (de_name_len d x) /\
      rec_len = de_rec_len d x /\ roomy d x reclen
  | Exists => exists x, x ∈ l /\ names d x name
  | NoLength => False
  | NoRoom => PAGE_SIZE - reclen < lim
  end.
Proof.
  intros Hb Hld Hlim reclen. induction fuel as [|fuel IH]; intros o l Ho Hc Hf;
    [apply chain_le in Hc; lia|].
  cbn [find_room]. destruct (Z.leb_spec o (PAGE_SIZE - reclen)) as [Hle|Hgt].
  2: { apply chain_le in Hc. lia. }
  destruct l as [|x l].
  - simpl in Hc. subst. rewrite Z.eqb_refl. done.
  - destruct Hc as (-> & Hok & Hc). pose proof (ok_min _ _ Hok). pose proof (chain_le _ _ _ _ Hc).
    destruct (Z.eqb_spec o lim); [lia|]. destruct (Z.eqb_spec (de_rec_len d o) 0); [lia|].
    destruct (kr_match _ _ _ _) eqn:Hm.
    { apply match_spec in Hm; [|done|lia|done|lia]. exists o. split; [apply elem_of_cons; auto|done]. }
    unfold kr_rec_len_from_disk, roomy.
    destruct ((de_inode d o =? 0) && (de_rec_len d o >=? reclen)) eqn:H1.
    { split_and!; [apply elem_of_cons; auto|done|done|left; lia]. }
    destruct (de_rec_len d o >=? KR_DIR_REC_LEN (de_name_len d o) + reclen) eqn:H2; [split_and!; [apply elem_of_cons; auto|done|done|right; lia]|].
    specialize (IH (o + de_rec_len d o) l ltac:(lia) Hc ltac:(lia)).
    destruct (find_room _ _ _ _ _ _ _); try done.
    + destruct IH as (? & ?). split; [apply elem_of_cons; auto|done].
    + destruct IH as (y & ? & ?). exists y. split; [apply elem_of_cons; auto|done].
Qed.

(** The chunk of a record begins with a record. *)
Lemma chain_chunk d a o c l : 0 <= bits -> chain d a o l -> a <= c <= o -> c mod 2 ^ bits = 0 ->
  exists l1 l2, l = l1 ++ l2 /\ chain d a c l1 /\ chain d c o l2.
Proof.
  intros Hbits. assert (0 < 2 ^ bits) as Hpos by (apply Z.pow_pos_nonneg; lia).
  revert a. induction l as [|x l IH]; intros a Hc Hr Hm.
  - simpl in Hc. exists [], []. simpl. split_and!; [done|lia|lia].
  - destruct (decide (a = c)) as [->|Hne]; [exists [], (x :: l); by split_and!|].
    destruct Hc as (-> & Hok & Hc). pose proof (ok_chunk _ _ Hok) as Hch.
    pose proof (ok_min _ _ Hok).
    assert (a + de_rec_len d a <= c) as Hle.
    { assert (a / 2 ^ bits < c / 2 ^ bits) as Hlt.
      { apply Z.div_lt_upper_bound; [done|]. rewrite <- Z_div_exact_full_2 by lia. lia. }
      rewrite <- Hch in Hlt.
      pose proof (Z.mul_div_le (a + de_rec_len d a - 1) (2 ^ bits) Hpos).
      pose proof (Z.mod_pos_bound (a + de_rec_len d a - 1) (2 ^ bits) Hpos).
      pose proof (Z_div_mod_eq_full (a + de_rec_len d a - 1) (2 ^ bits)).
      pose proof (Z_div_mod_eq_full c (2 ^ bits)). nia. }
    destruct (IH _ Hc) as (l1 & l2 & -> & H1 & H2); [lia|done|].
    exists (a :: l1), l2. split_and!; [done|done|done].
Qed.

Lemma entry_before_spec d o : forall fuel de pde l, 0 <= de -> chain d de o l ->
  o - de < Z.of_nat fuel ->
  entry_before fuel d pde o de = Some (match last l with Some x => Some x | None => pde end).
Proof.
  induction fuel as [|fuel IH]; intros de pde l Hde Hc Hf; [apply chain_le in Hc; lia|].
  cbn [entry_before]. destruct l as [|x l].
  - simpl in Hc. destruct (Z.ltb_spec de o); [lia|done].
  - destruct Hc as (-> & Hok & Hc). pose proof (ok_min _ _ Hok). pose proof (chain_le _ _ _ _ Hc).
    destruct (Z.ltb_spec de o); [|lia]. destruct (Z.eqb_spec (de_rec_len d de) 0); [lia|].
    unfold kr_next_entry, kr_rec_len_from_disk. rewrite (IH _ _ l) by (done || lia).
    rewrite last_cons. by destruct (last l).
Qed.

(** ** The entries of a page *)

(** The name, the inode and the type of the entry at [o]. *)
Definition entry (d : list Z) (o : Z) : list Z * Z * Z := (de_name d o, de_inode d o, de_file_type d o).

(** The page with the records [l] holds the entry [e] at [x]. *)
Definition holds (d : list Z) (l : list Z) (x : Z) (e : list Z * Z * Z) : Prop :=
  x ∈ l /\ de_inode d x <> 0 /\ entry d x = e.

Lemma same_entry d d' x : same_record d d' x -> entry d' x = entry d x.
Proof. intros (H1 & _ & H2 & H3 & _). unfold entry. congruence. Qed.

Lemma holds_same d d' l x e : (forall x, x ∈ l -> same_record d d' x) ->
  holds d' l x e <-> holds d l x e.
Proof.
  intros Hs. split; intros (Hx & Hn & He); destruct (Hs x Hx) as (H1 & H2 & H3 & H4 & _);
    (split_and!; [done| |]); unfold entry in *; congruence.
Qed.

Lemma holds_app d l1 l2 x e : holds d (l1 ++ l2) x e <-> holds d l1 x e \/ holds d l2 x e.
Proof. unfold holds. rewrite elem_of_app. tauto. Qed.

Lemma holds_cons d y l x e :
  holds d (y :: l) x e <-> x = y /\ de_inode d y <> 0 /\ entry d y = e \/ holds d l x e.
Proof.
  unfold holds. rewrite elem_of_cons. split; [intros ([->|?] & ? & ?)|]; [tauto..|].
  intros [(-> & ? & ?)|?]; tauto.
Qed.

(** *** Writing fields *)

Lemma get8_put8_off d o j v : 0 <= o -> 0 <= j -> j <> o -> get8 (put8 d o v) j = get8 d j.
Proof.
  intros. unfold get8, put8. rewrite !nth_lookup, list_lookup_insert_ne by lia. done.
Qed.

Lemma same_put8 d o v a c : 0 <= o -> 0 <= a -> o < a \/ c <= o -> same_on d (put8 d o v) a c.
Proof. intros ? ? ? j Hj. apply get8_put8_off; lia. Qed.
Lemma same_put16 d o v a c : 0 <= o -> 0 <= a -> o + 2 <= a \/ c <= o -> same_on d (put16 d o v) a c.
Proof.
  intros ? ? ? j Hj. unfold put16. rewrite !get8_put8_off by lia. done.
Qed.
Lemma same_put32 d o v a c : 0 <= o -> 0 <= a -> o + 4 <= a \/ c <= o -> same_on d (put32 d o v) a c.
Proof.
  intros ? ? ? j Hj. unfold put32, put16. rewrite !get8_put8_off by lia. done.
Qed.
Lemma same_put_bytes d o l a c : 0 <= o -> 0 <= a -> o + len l <= a \/ c <= o ->
  same_on d (put_bytes d o l) a c.
Proof.
  intros Ho Ha. revert d o Ho. induction l as [|b l IH]; intros d o Ho Hd j Hj; [done|].
  replace (len (b :: l)) with (1 + len l) in Hd by (unfold len; cbn [length]; lia).
  pose proof (len_nonneg l). simpl put_bytes. rewrite IH by lia. apply get8_put8_off; lia.
Qed.
Lemma same_trans d d' d'' a c : same_on d d' a c -> same_on d' d'' a c -> same_on d d'' a c.
Proof. intros H1 H2 j Hj. rewrite H2, H1 by done. done. Qed.

End Chains.

(** [kept]: bytes that writes elsewhere leave alone. *)
Ltac kept :=
  lazymatch goal with
  | |- same_on ?d ?d _ _ => intros ? ?; reflexivity
  | |- same_on _ (put8 _ _ _) _ _ => eapply same_trans; [|apply same_put8; lia]; kept
  | |- same_on _ (put16 _ _ _) _ _ => eapply same_trans; [|apply same_put16; lia]; kept
  | |- same_on _ (put32 _ _ _) _ _ => eapply same_trans; [|apply same_put32; lia]; kept
  | |- same_on _ (put_bytes _ _ _) _ _ => eapply same_trans; [|apply same_put_bytes; lia]; kept
  end.

Section Changes.
Variables bits max : Z.
Hypothesis Hbits : 0 <= bits.
Abbreviation record_ok := (record_ok bits max).
Abbreviation chain := (chain bits max).

(** *** Deleting an entry *)

(** What [kr_delete_entry] writes; [pde] is the entry before the one at [o]. *)
Definition deleted (d : list Z) (pde : option Z) (o : Z) : list Z :=
  put32 (match pde with
         | Some p => put16 d (p + 4) (kr_rec_len_to_disk (o + de_rec_len d o - p))
         | None => d
         end) o 0.

Lemma deleted_first d o lim l : bytes d -> lim <= len d -> 0 <= o -> chain d o lim (o :: l) ->
  chain (deleted d None o) o lim (o :: l) /\
  forall x e, holds (deleted d None o) (o :: l) x e <-> holds d (o :: l) x e /\ x <> o.
Proof.
  intros Hb Hl Ho (_ & Hok & Hc). pose proof (ok_min _ _ _ _ Hok) as Hmin.
  pose proof (chain_le _ _ _ _ _ _ Hc) as Hle. pose proof (name_fits _ _ _ _ Hb Hok) as Hnf.
  pose proof (get8_bytes d (o + 6) Hb) as Hn0. unfold deleted.
  destruct (chain_same bits max d (put32 d o 0) (o + de_rec_len d o) lim l)
    as [Hc' Hs]; try done; [apply len_put32|lia|kept|].
  assert (de_rec_len (put32 d o 0) o = de_rec_len d o) as Hr by (apply get16_same; kept).
  assert (de_inode (put32 d o 0) o = 0) as Hi by (apply get32_put32_eq; lia).
  assert (de_name_len (put32 d o 0) o = de_name_len d o) as Hnl
    by (unfold de_name_len; apply get8_put32_ne; lia).
  assert (o ∉ l) as Hnot.
  { intros Hin. apply (chain_in _ _ _ _ _ _ _ Hc) in Hin. lia. }
  split.
  - simpl. rewrite Hr. split_and!; [done| |done]. destruct Hok.
    split; rewrite ?Hr, ?Hi, ?Hnl; try done. pose proof (get32_bytes d o Hb). unfold de_inode in *. lia.
  - intros x e. rewrite !holds_cons, Hi. split.
    + intros [(_ & Hz & _)|Hh]; [done|]. rewrite (holds_same d) in Hh by done.
      split; [by right|]. intros ->. by destruct Hh.
    + intros ([(-> & _)|Hh] & Hne); [done|]. right. by rewrite (holds_same d).
Qed.

Lemma u16_pair_fits p r r' : 0 <= bits <= 12 -> 0 <= p ->
  (p + r + r' - 1) / 2 ^ bits = p / 2 ^ bits -> 0 <= r + r' -> u16 (r + r') = r + r'.
Proof.
  intros Hb Hp Hc Hr. assert (0 < 2 ^ bits) as Hpos by (apply Z.pow_pos_nonneg; lia).
  assert (2 ^ bits <= 2 ^ 12) by (apply Z.pow_le_mono_r; lia).
  pose proof (Z.mul_div_le p (2 ^ bits) Hpos).
  pose proof (Z.mod_pos_bound (p + r + r' - 1) (2 ^ bits) Hpos).
  pose proof (Z_div_mod_eq_full (p + r + r' - 1) (2 ^ bits)) as He. rewrite Hc in He.
  apply u16_small. change (2 ^ 12) with 4096 in *. nia.
Qed.

(** The record before takes the place of the deleted one. *)
Lemma deleted_next d p o lim l : bits <= 12 -> bytes d -> lim <= len d -> 0 <= p ->
  chain d p lim (p :: o :: l) -> p / 2 ^ bits = o / 2 ^ bits ->
  chain (deleted d (Some p) o) p lim (p :: l) /\
  forall x e, holds (deleted d (Some p) o) (p :: l) x e <-> holds d (p :: o :: l) x e /\ x <> o.
Proof.
  intros Hb12 Hb Hl Hp (_ & Hokp & -> & Hoko & Hc) Hch.
  pose proof (ok_min _ _ _ _ Hokp) as Hmp. pose proof (ok_min _ _ _ _ Hoko) as Hmo.
  pose proof (chain_le _ _ _ _ _ _ Hc) as Hle.
  pose proof (name_fits _ _ _ _ Hb Hokp) as Hnf. pose proof (get8_bytes d (p + 6) Hb) as Hn0.
  set (o := p + de_rec_len d p) in *. set (r := o + de_rec_len d o - p).
  assert (u16 r = r) as Hr16.
  { unfold r. replace (o + de_rec_len d o - p) with (de_rec_len d p + de_rec_len d o) by lia.
    apply (u16_pair_fits p); [lia|lia| |lia].
    replace (p + de_rec_len d p + de_rec_len d o - 1) with (o + de_rec_len d o - 1) by lia.
    rewrite (ok_chunk _ _ _ _ Hoko). done. }
  unfold deleted, kr_rec_len_to_disk. fold r. rewrite Hr16.
  set (d' := put32 (put16 d (p + 4) r) o 0).
  assert (len d' = len d) as Hl' by (unfold d'; by autorewrite with kr).
  assert (bytes d') as Hb' by (unfold d'; auto with kr).
  destruct (chain_same bits max d d' (o + de_rec_len d o) lim l) as [Hc' Hs]; try done; try lia.
  { unfold d'. kept. }
  assert (de_rec_len d' p = r) as Hr.
  { unfold de_rec_len, d'. rewrite (get16_same (put16 d (p + 4) r)) by kept.
    pose proof (u16_range r). rewrite get16_put16_eq by lia. done. }
  assert (de_name_len d' p = de_name_len d p) as Hnl by
    (assert (same_on d d' (p + 6) (p + 7)) as Hk by (unfold d'; kept); apply Hk; lia).
  assert (de_inode d' p = de_inode d p) as Hi by (apply get32_same; unfold d'; kept).
  assert (entry d' p = entry d p) as He.
  { unfold entry. f_equal; [f_equal; [|exact Hi]|].
    - unfold de_name. rewrite Hnl. unfold de_name_len in *. apply sub_ext; try lia. unfold d'. kept.
    - assert (same_on d d' (p + 7) (p + 8)) as Hk by (unfold d'; kept).
      unfold de_file_type. apply Hk. lia. }
  assert ((o ∉ l) /\ p <> o) as [Hnot Hpo].
  { split; [|lia]. intros Hin. apply (chain_in _ _ _ _ _ _ _ Hc) in Hin. lia. }
  split.
  - cbn [DirPage.chain]. rewrite Hr. split_and!; [done| |by replace (p + r) with (o + de_rec_len d o) by lia].
    pose proof (ok_align _ _ _ _ Hokp). pose proof (ok_align _ _ _ _ Hoko).
    pose proof (ok_name _ _ _ _ Hokp). pose proof (ok_inode _ _ _ _ Hokp).
    pose proof (ok_chunk _ _ _ _ Hoko) as Hcho.
    split; rewrite ?Hr, ?Hnl, ?Hi; try lia.
    + replace r with (de_rec_len d p + de_rec_len d o) by lia.
      Z.to_euclidean_division_equations; lia.
    + replace (p + r - 1) with (o + de_rec_len d o - 1) by lia. congruence.
  - intros x e. rewrite !holds_cons, Hi, He. rewrite (holds_same d) by done. split.
    + intros [(-> & ? & ?)|Hh]; [split; [by left|done]|].
      split; [by right; right|]. intros ->. by destruct Hh.
    + intros ([?|[(-> & _)|?]] & Hne); [by left|done|by right].
Qed.

(** *** Adding an entry *)

Definition put_entry (d : list Z) (o : Z) (name : list Z) (ino t : Z) : list Z :=
  put8 (put32 (put_bytes (put8 d (o + 6) (len name)) (o + 8) name) o ino) (o + 7) t.

(** A name as the kernel hands it over, and the fields of an entry. *)
Definition name_ok (name : list Z) : Prop := bytes name /\ 1 <= len name <= 255.

Lemma put_entry_same d o name ino t a c : 0 <= o -> 0 <= a ->
  o + 8 + len name <= a \/ c <= o -> same_on d (put_entry d o name ino t) a c.
Proof. intros. pose proof (len_nonneg name). unfold put_entry. kept. Qed.

Lemma len_put_entry d o name ino t : len (put_entry d o name ino t) = len d.
Proof. unfold put_entry. by autorewrite with kr. Qed.

Lemma bytes_put_entry d o name ino t : bytes d -> bytes (put_entry d o name ino t).
Proof. unfold put_entry. auto with kr. Qed.

Lemma put_entry_fields d o name ino t : bytes d -> name_ok name -> 0 <= o ->
  o + 8 + len name <= len d -> 0 <= ino < 4294967296 -> 0 <= t < 256 ->
  let d' := put_entry d o name ino t in
  entry d' o = (name, ino, t) /\ de_name_len d' o = len name /\ de_rec_len d' o = de_rec_len d o.
Proof.
  intros Hb [Hbn Hn] Ho Hl Hino Ht d'.
  set (d1 := put8 d (o + 6) (len name)).
  set (d2 := put_bytes d1 (o + 8) name). set (d3 := put32 d2 o ino).
  assert (len d1 = len d /\ len d2 = len d /\ len d3 = len d) as (Hl1 & Hl2 & Hl3)
    by (unfold d3, d2, d1; by autorewrite with kr).
  assert (d' = put8 d3 (o + 7) t) as Hd' by done.
  assert (de_name_len d' o = len name) as Hnl.
  { unfold de_name_len. rewrite Hd', get8_put8_off by lia.
    assert (same_on d1 d3 (o + 6) (o + 7)) as Hk by (unfold d3, d2; kept).
    rewrite Hk by lia. unfold d1. rewrite get8_put8, Z.eqb_refl by lia. apply Z.mod_small. lia. }
  split_and!; [|done|].
  - unfold entry. f_equal; [f_equal|].
    + unfold de_name. rewrite Hnl. apply sub_eq; [lia|rewrite Hd', len_put8; lia|done|].
      intros k Hk. assert (same_on d2 d' (o + 8) (o + 8 + len name)) as Hs
        by (rewrite Hd'; unfold d3; kept).
      rewrite Hs by lia. unfold d2. rewrite get8_put_bytes by (done || lia).
      destruct (_ && _) eqn:E; [|lia]. f_equal. lia.
    + unfold de_inode. assert (same_on d3 d' o (o + 4)) as Hs by (rewrite Hd'; kept).
      rewrite (get32_same d3) by done. apply get32_put32_eq; lia.
    + unfold de_file_type. rewrite Hd', get8_put8, Z.eqb_refl by lia. apply Z.mod_small. lia.
  - apply get16_same. rewrite Hd'. unfold d3, d2, d1. kept.
Qed.

Lemma put_entry_ok d o name ino t : bytes d -> name_ok name -> 0 <= o ->
  0 <= ino < 4294967296 -> ino <= max -> 0 <= t < 256 ->
  KR_DIR_REC_LEN (len name) <= de_rec_len d o -> de_rec_len d o mod 4 = 0 ->
  o + de_rec_len d o <= len d ->
  (o + de_rec_len d o - 1) / 2 ^ bits = o / 2 ^ bits ->
  record_ok (put_entry d o name ino t) o.
Proof.
  intros Hb Hn Ho Hino Hmax Ht Hr Hal Hl Hch. rewrite rec_len_val in Hr. pose proof (proj2 Hn).
  destruct (put_entry_fields d o name ino t) as (He & Hnl & Hrl); try done.
  { Z.to_euclidean_division_equations; lia. }
  split; rewrite ?Hrl, ?Hnl, ?rec_len_val; try done; try (Z.to_euclidean_division_equations; lia).
  unfold entry in He. congruence.
Qed.

(** In the place of an entry that is not in use. *)
Lemma added_reuse d o lim l name ino t : bytes d -> lim <= len d -> 0 <= o ->
  chain d o lim (o :: l) -> de_inode d o = 0 -> KR_DIR_REC_LEN (len name) <= de_rec_len d o ->
  name_ok name -> 0 < ino < 4294967296 -> ino <= max -> 0 <= t < 256 ->
  let d' := put_entry d o name ino t in
  chain d' o lim (o :: l) /\
  forall x e, holds d' (o :: l) x e <-> holds d (o :: l) x e \/ x = o /\ e = (name, ino, t).
Proof.
  intros Hb Hl Ho (_ & Hok & Hc) Hz Hr Hn Hino Hmax Ht d'. pose proof (proj2 Hn) as Hn2.
  pose proof (chain_le _ _ _ _ _ _ Hc) as Hle. pose proof Hr as Hr'. rewrite rec_len_val in Hr'.
  assert (o + 8 + len name <= o + de_rec_len d o) as Hfit by (Z.to_euclidean_division_equations; lia).
  destruct (put_entry_fields d o name ino t) as (He & Hnl & Hrl); try done; try lia.
  destruct (chain_same bits max d d' (o + de_rec_len d o) lim l) as [Hc' Hs]; try done;
    [apply len_put_entry|lia|apply put_entry_same; lia|].
  fold d' in He, Hrl. split.
  - cbn [DirPage.chain]. rewrite Hrl. split_and!; [done| |done].
    apply put_entry_ok; try done; try lia; apply Hok.
  - intros x e. rewrite !holds_cons, (holds_same d) by done. rewrite Hz, He.
    unfold entry in He. split.
    + intros [(-> & _ & <-)|?]; tauto.
    + intros [[(_ & ? & _)|?]|[-> ->]]; [done|tauto|]. left. split_and!; [done| |done].
      injection He as _ -> _. lia.
Qed.

(** The record at [o] gives up what its name does not need. *)
Definition split_record (d : list Z) (o name_len rec_len : Z) : list Z :=
  put16 (put16 d (o + name_len + 4) (kr_rec_len_to_disk (rec_len - name_len)))
    (o + 4) (kr_rec_len_to_disk name_len).

Lemma added_split d o lim l name ino t : bits <= 12 -> bytes d -> lim <= len d -> 0 <= o ->
  chain d o lim (o :: l) -> de_inode d o <> 0 -> 1 <= de_name_len d o ->
  let nl := KR_DIR_REC_LEN (de_name_len d o) in
  nl + KR_DIR_REC_LEN (len name) <= de_rec_len d o ->
  name_ok name -> 0 < ino < 4294967296 -> ino <= max -> 0 <= t < 256 ->
  let d' := put_entry (split_record d o nl (de_rec_len d o)) (o + nl) name ino t in
  chain d' o lim (o :: (o + nl) :: l) /\
  forall x e, holds d' (o :: (o + nl) :: l) x e <->
    holds d (o :: l) x e \/ x = o + nl /\ e = (name, ino, t).
Proof.
  intros Hb12 Hb Hl Ho (_ & Hok & Hc) Hnz Hn1 nl Hroom Hn Hino Hmax Ht d'.
  pose proof (proj2 Hn) as Hn2. pose proof (chain_le _ _ _ _ _ _ Hc) as Hle.
  pose proof (ok_align _ _ _ _ Hok) as Hal. pose proof (ok_chunk _ _ _ _ Hok) as Hch.
  set (r := de_rec_len d o) in *.
  assert (12 <= nl /\ nl mod 4 = 0 /\ o + 8 + de_name_len d o <= o + nl) as (Hnl1 & Hnl2 & Hnl3).
  { unfold nl. rewrite rec_len_val. Z.to_euclidean_division_equations; lia. }
  assert (12 <= KR_DIR_REC_LEN (len name) /\ 8 + len name <= KR_DIR_REC_LEN (len name)) as [Hrl1 Hrl2].
  { rewrite rec_len_val. Z.to_euclidean_division_equations; lia. }
  assert (u16 nl = nl /\ u16 (r - nl) = r - nl) as [Hu1 Hu2].
  { assert (u16 r = r) as Hu by (apply u16_small, get16_bytes; done).
    pose proof (u16_range r). rewrite !u16_small; lia. }
  set (d1 := split_record d o nl r) in *.
  assert (d1 = put16 (put16 d (o + nl + 4) (r - nl)) (o + 4) nl) as Hd1
    by (unfold d1, split_record, kr_rec_len_to_disk; by rewrite Hu1, Hu2).
  assert (len d1 = len d /\ bytes d1) as [Hl1 Hb1]
    by (rewrite Hd1; autorewrite with kr; auto with kr).
  pose proof (u16_range r) as Hr16. rewrite (u16_small r) in Hr16 by (apply get16_bytes; done).
  assert (de_rec_len d1 (o + nl) = r - nl) as Hrn.
  { unfold de_rec_len. rewrite Hd1.
    rewrite (get16_same (put16 d (o + nl + 4) (r - nl))) by kept. apply get16_put16_eq; lia. }
  assert (de_rec_len d1 o = nl) as Hro.
  { unfold de_rec_len. rewrite Hd1. apply get16_put16_eq; rewrite ?len_put16; lia. }
  destruct (put_entry_fields d1 (o + nl) name ino t) as (He & Hnl & Hrl); try done; try lia.
  fold d' in He, Hnl, Hrl.
  assert (same_on d d' (o + r) lim) as Hafter.
  { unfold d'. eapply same_trans; [|apply put_entry_same; lia]. rewrite Hd1. kept. }
  destruct (chain_same bits max d d' (o + r) lim l) as [Hc' Hs]; try done;
    [unfold d'; by rewrite len_put_entry|lia|].
  assert (forall a c, 0 <= a -> c <= o + nl -> same_on d1 d' a c) as Hbefore
    by (intros; apply put_entry_same; lia).
  assert (forall a c, 0 <= a -> c <= o + nl -> o + 6 <= a \/ c <= o + 4 -> same_on d d' a c) as Hkeep.
  { intros a c Ha Hcc Hac. eapply same_trans; [|by apply Hbefore]. rewrite Hd1. kept. }
  assert (de_rec_len d' o = nl) as Hr'.
  { rewrite <- Hro. apply get16_same, Hbefore; lia. }
  assert (de_name_len d' o = de_name_len d o) as Hnlo by (apply (Hkeep (o + 6) (o + 7)); lia).
  assert (de_inode d' o = de_inode d o) as Hio by (apply get32_same, Hkeep; lia).
  assert (entry d' o = entry d o) as Heo.
  { unfold entry. f_equal; [f_equal; [|exact Hio]|apply (Hkeep (o + 7) (o + 8)); lia].
    unfold de_name. rewrite Hnlo. apply sub_ext; try lia; [unfold d'; by rewrite len_put_entry|].
    apply Hkeep; lia. }
  assert (0 < 2 ^ bits) as Hpos by (apply Z.pow_pos_nonneg; lia).
  assert (forall z, o <= z <= o + r - 1 -> z / 2 ^ bits = o / 2 ^ bits) as Hin.
  { intros z Hz. pose proof (Z.div_le_mono o z _ Hpos). pose proof (Z.div_le_mono z (o + r - 1) _ Hpos).
    lia. }
  split.
  - cbn [DirPage.chain]. rewrite Hr', Hrl, Hrn. split_and!; [done| |done| |].
    + split; rewrite ?Hr', ?Hnlo, ?Hio; try lia; [apply Hin; lia|apply Hok].
    + apply put_entry_ok; try done; try lia.
      * rewrite Hrn. Z.to_euclidean_division_equations; lia.
      * rewrite Hrn, (Hin (o + nl)) by lia.
        by replace (o + nl + (r - nl) - 1) with (o + r - 1) by lia.
    + by replace (o + nl + (r - nl)) with (o + r) by lia.
  - intros x e. rewrite !holds_cons, (holds_same d) by done. rewrite Hio, Heo, He.
    unfold entry in He. split.
    + intros [?|[(-> & _ & <-)|?]]; tauto.
    + intros [[?|?]|[-> ->]]; [tauto..|]. right. left. split_and!; [done| |done].
      injection He as _ -> _. lia.
Qed.

(** A new chunk at the end. *)
Lemma added_chunk d o name ino t : 10 <= bits <= 12 -> bytes d -> 0 <= o ->
  o mod 2 ^ bits = 0 -> o + 2 ^ bits <= len d ->
  name_ok name -> 0 < ino < 4294967296 -> ino <= max -> 0 <= t < 256 ->
  let d1 := put32 (put16 d (o + 4) (kr_rec_len_to_disk (2 ^ bits))) o 0 in
  let d' := put_entry d1 o name ino t in
  chain d' o (o + 2 ^ bits) [o] /\ same_on d d' 0 o /\
  forall x e, holds d' [o] x e <-> x = o /\ e = (name, ino, t).
Proof.
  intros Hbb Hb Ho Hal Hl Hn Hino Hmax Ht d1 d'. pose proof (proj2 Hn) as Hn2.
  assert (2 ^ 10 <= 2 ^ bits <= 2 ^ 12) as Hpow by (split; apply Z.pow_le_mono_r; lia).
  change (2 ^ 10) with 1024 in Hpow. change (2 ^ 12) with 4096 in Hpow.
  assert (u16 (2 ^ bits) = 2 ^ bits) as Hu by (apply u16_small; lia).
  assert (len d1 = len d /\ bytes d1) as [Hl1 Hb1]
    by (unfold d1; autorewrite with kr; auto with kr).
  assert (de_rec_len d1 o = 2 ^ bits) as Hr.
  { unfold de_rec_len, d1, kr_rec_len_to_disk. rewrite Hu.
    rewrite (get16_same (put16 d (o + 4) (2 ^ bits))) by kept. apply get16_put16_eq; lia. }
  assert (KR_DIR_REC_LEN (len name) <= 2 ^ bits) as Hfit.
  { rewrite rec_len_val. Z.to_euclidean_division_equations; lia. }
  destruct (put_entry_fields d1 o name ino t) as (He & Hnl & Hrl); try done; try lia.
  fold d' in He, Hrl.
  assert ((2 ^ bits) mod 4 = 0) as H4.
  { replace bits with (2 + (bits - 2)) by lia. rewrite Z.pow_add_r by lia.
    change (2 ^ 2) with 4. rewrite Z.mul_comm. apply Z_mod_mult. }
  split_and!.
  - simpl. rewrite Hrl, Hr. split_and!; [done| |done]. apply put_entry_ok; rewrite ?Hr; try done; try lia.
    pose proof (Z_div_mod_eq_full o (2 ^ bits)) as Hd. rewrite Hal in Hd.
    set (q := o / 2 ^ bits) in *. symmetry. apply (Z.div_unique _ _ _ (2 ^ bits - 1)); lia.
  - unfold d'. eapply same_trans; [|apply put_entry_same; lia]. unfold d1. kept.
  - intros x e. rewrite holds_cons, He. unfold entry in He. split.
    + intros [(-> & _ & <-)|(Hx & _)]; [done|by apply elem_of_nil in Hx].
    + intros [-> ->]. left. split_and!; [done| |done]. injection He as _ -> _. lia.
Qed.

End Changes.
