(* ===== verification/DirFacts.v ===== *)
(** * Directories as maps from names to inodes

    The invariant of a directory ([dir_ok]), the map it stands for ([dir_rep]), and
    what the functions of dir.c do to it. *)

From S2P Require Import Prelude Bytes Bits Kr Rsv Bitmap Alloc State Balloc BlockMap PathFacts Dir DirPage.

(** ** The state the directories depend on *)

Definition sizes (fs : krfs) : gmap Z Z := i_size <$> fs_inodes fs.
Definition modes (fs : krfs) : gmap Z Z := i_mode <$> fs_inodes fs.
Definition links (fs : krfs) : gmap Z Z := i_nlink <$> fs_inodes fs.

(** What is left alone by every operation on the entries of directories: the size
    of blocks, the number of inodes, the features, and the mode and the number of
    links of every inode. *)
Definition view (fs : krfs) : Z * Z * Z * gmap Z Z * gmap Z Z :=
  (fs_blocksize_bits fs, es_inodes_count (fs_es fs), es_feature_incompat (fs_es fs),
   modes fs, links fs).

(** ** Pages in the cache *)

Definition set_page (k : Z * Z) (p : page) (s : vfs) : vfs := set_v_pages (<[k := p]> (v_pages s)) s.
Definition pdata (s : vfs) (k : Z * Z) : list Z :=
  match v_pages s !! k with Some p => pg_data p | None => [] end.

Lemma alter_found {V} `{Countable K} (f : V -> V) k (m : gmap K V) v : m !! k = Some v ->
  alter f k m = <[k := f v]> m.
Proof.
  intros Hk. apply map_eq. intros j. destruct (decide (j = k)) as [->|Hne].
  - by rewrite lookup_alter_eq, Hk, lookup_insert_eq.
  - by rewrite lookup_alter_ne, lookup_insert_ne by done.
Qed.

Lemma set_page_twice k p q s : set_page k q (set_page k p s) = set_page k q s.
Proof. unfold set_page, set_v_pages. simpl. by rewrite insert_insert_eq. Qed.
Lemma set_page_same k p s : v_pages s !! k = Some p -> set_page k p s = s.
Proof. intros H. destruct s. unfold set_page, set_v_pages. simpl in *. by rewrite insert_id. Qed.
Lemma set_page_get k p s : v_pages (set_page k p s) !! k = Some p.
Proof. simpl. by rewrite lookup_insert_eq. Qed.
Lemma set_page_fs k p fs s : set_v_fs fs (set_page k p s) = set_page k p (set_v_fs fs s).
Proof. done. Qed.

Lemma upd_page_run k f p s : v_pages s !! k = Some p ->
  upd_page k f s = Ret tt (set_page k (f p) s).
Proof. intros Hk. unfold upd_page, modify, set_page. by rewrite (alter_found _ _ _ p). Qed.
Lemma upd_data_run k f p s : v_pages s !! k = Some p ->
  upd_data k f s = Ret tt (set_page k (set_pg_data (f (pg_data p)) p) s).
Proof. intros Hk. apply (upd_page_run k (fun p => set_pg_data (f (pg_data p)) p) p s Hk). Qed.
Lemma put_page_run k p s : v_pages s !! k = Some p ->
  kr_put_page k s = Ret tt (set_page k (add_pg_count (-1) p) s).
Proof. intros Hk. by apply upd_page_run. Qed.
Lemma page_data_run k p s : v_pages s !! k = Some p -> page_data k s = Ret (pg_data p) s.
Proof.
  intros Hk. unfold page_data. unfold gets, mbind, M_bind, mret, M_ret. simpl. by rewrite Hk.
Qed.
Lemma dir_inode_run s ino i : fs_inodes (v_fs s) !! ino = Some i -> dir_inode ino s = Ret i s.
Proof.
  intros Hi. unfold dir_inode, on_fs, lift, inode_get, gets, mbind, M_bind, mret, M_ret. simpl.
  rewrite Hi. by destruct s.
Qed.

(** ** What the kernel promises

    Reading a page gives a page; [__block_write_begin] answers 0 or an error and,
    with the pages up to date, touches the file system through [kr_get_block] only:
    block pointers, bitmaps and counters, not what [view] shows nor the sizes. *)
Class DirLaws `{BitOps, RbTree, Trylock, Kernel} (D : DirKernel) := {
  read_page_ok : forall fs ino n d, read_page fs ino n = Some d -> len d = PAGE_SIZE /\ bytes d;
  fresh_page_ok : len fresh_page = PAGE_SIZE /\ bytes fresh_page;
  write_begin_ok : forall ino pos n fs, is_Some (fs_inodes fs !! ino) ->
    runs (block_write_begin (kr_get_block (mret tt) ino) pos n) only_panic
      (fun r fs' => r <= 0 /\ view fs' = view fs /\ sizes fs' = sizes fs) fs;
  write_one_page_ok : forall ino n, write_one_page ino n <= 0;
  sync_inode_metadata_ok : forall ino, sync_inode_metadata ino <= 0;
}.

(** ** Directories *)

Definition pages_of (size : Z) : Z := Z.shiftr (size + PAGE_SIZE - 1) PAGE_SHIFT.
(** Where the records of the page [n] end. *)
Definition page_end (size n : Z) : Z := Z.min PAGE_SIZE (size - n * PAGE_SIZE).

Lemma PAGE_SIZE_val : PAGE_SIZE = 4096.
Proof. done. Qed.

Lemma page_fuel_ok x : x <= PAGE_SIZE -> x - 0 < Z.of_nat page_fuel.
Proof. unfold page_fuel, PAGE_SIZE. lia. Qed.

Lemma pages_of_val size : pages_of size = (size + 4095) / 4096.
Proof.
  unfold pages_of, PAGE_SIZE, PAGE_SHIFT. rewrite Z.shiftr_div_pow2 by lia.
  change (2 ^ 12) with 4096. f_equal. lia.
Qed.

Lemma last_byte_end i n : 0 <= i_size i < 2147483648 -> 0 <= n <= pages_of (i_size i) ->
  n * PAGE_SIZE <= i_size i -> kr_last_byte i n = page_end (i_size i) n.
Proof.
  intros Hs Hn Hle. unfold kr_last_byte, page_end, PAGE_SHIFT, PAGE_SIZE in *. cbv zeta.
  rewrite Z.shiftl_mul_pow2 by lia. change (2 ^ 12) with 4096. wraps.
  destruct (_ >? _) eqn:E; lia.
Qed.

(** The page can be had from the cache. *)
Definition usable (p : page) : Prop :=
  len (pg_data p) = PAGE_SIZE /\ bytes (pg_data p) /\ (pg_checked p = true \/ pg_error p = false).

(** The directory [ino] of [size] bytes has its pages in the cache; the records of
    its page [n] are at the offsets [recs n]. *)
Record dir_ok (s : vfs) (ino size : Z) (recs : Z -> list Z) : Prop := {
  do_bits : 10 <= fs_blocksize_bits (v_fs s) <= 12;
  do_size : sizes (v_fs s) !! ino = Some size;
  do_bound : 0 <= size < 2147483648;
  do_chunks : size mod 2 ^ fs_blocksize_bits (v_fs s) = 0;
  do_page : forall n, 0 <= n < pages_of size -> exists p, v_pages s !! (ino, n) = Some p /\ usable p /\
    chain (fs_blocksize_bits (v_fs s)) (es_inodes_count (fs_es (v_fs s))) (pg_data p) 0
      (page_end size n) (recs n);
}.

(** The directory has the entry [e] at the offset [o] of the page [n]. *)
Definition has_entry (s : vfs) (ino size : Z) (recs : Z -> list Z) (n o : Z) (e : list Z * Z * Z) : Prop :=
  0 <= n < pages_of size /\ holds (pdata s (ino, n)) (recs n) o e.

(** The directory stands for the map [m]: the inode and the type of each name. *)
Record dir_rep (s : vfs) (ino size : Z) (recs : Z -> list Z) (m : gmap (list Z) (Z * Z)) : Prop := {
  dr_ok : dir_ok s ino size recs;
  dr_map : forall name x t, m !! name = Some (x, t) <->
    exists n o, has_entry s ino size recs n o (name, x, t);
  dr_once : forall n o n' o' name x t x' t', has_entry s ino size recs n o (name, x, t) ->
    has_entry s ino size recs n' o' (name, x', t') -> n = n' /\ o = o';
  dr_named : forall n o name x t, has_entry s ino size recs n o (name, x, t) -> 1 <= len name;
}.

Lemma page_end_bounds size bits n : 10 <= bits <= 12 -> size mod 2 ^ bits = 0 -> 0 <= size ->
  0 <= n < pages_of size ->
  1024 <= page_end size n <= PAGE_SIZE /\ page_end size n mod 2 ^ bits = 0.
Proof.
  intros Hb Hm Hs Hn. rewrite pages_of_val in Hn. unfold page_end, PAGE_SIZE.
  assert (2 ^ 10 <= 2 ^ bits) as Hp by (apply Z.pow_le_mono_r; lia). change (2 ^ 10) with 1024 in Hp.
  assert (PAGE_SIZE = 2 ^ bits * 2 ^ (12 - bits)) as Hpage.
  { rewrite <- Z.pow_add_r by lia. replace (bits + (12 - bits)) with 12 by lia. done. }
  unfold PAGE_SIZE in Hpage. pose proof (Z_div_mod_eq_full size (2 ^ bits)) as Hd. rewrite Hm in Hd.
  set (q := size / 2 ^ bits) in *. set (r := 2 ^ (12 - bits)) in *.
  assert (size - n * 4096 = 2 ^ bits * (q - n * r)) as He by (rewrite Hd, Hpage; ring).
  assert (0 < size - n * 4096) by (Z.to_euclidean_division_equations; lia).
  assert (1 <= q - n * r) by nia.
  assert ((size - n * 4096) mod 2 ^ bits = 0) by (rewrite He, Z.mul_comm; apply Z_mod_mult).
  assert (4096 mod 2 ^ bits = 0) by (rewrite Hpage, Z.mul_comm; apply Z_mod_mult).
  destruct (Z.min_spec 4096 (size - n * 4096)) as [[? ->]|[? ->]]; (split; [nia|done]).
Qed.

Lemma shiftr12 x : Z.shiftr x PAGE_SHIFT = x / 4096.
Proof. unfold PAGE_SHIFT. by rewrite Z.shiftr_div_pow2 by lia. Qed.
Lemma land_page x : Z.land x (PAGE_SIZE - 1) = x mod 4096.
Proof.
  unfold PAGE_SIZE. change (4096 - 1) with (Z.ones 12). by rewrite Z.land_ones by lia.
Qed.
Lemma land_chunk x bits : 0 <= bits -> Z.land x (2 ^ bits - 1) = x mod 2 ^ bits.
Proof.
  intros Hb. rewrite <- Z.land_ones by done. f_equal. rewrite Z.ones_equiv. lia.
Qed.

(** The check accepts the page [n] just when its size is good and its records
    follow each other to the end. *)
Lemma page_good_spec bits max i n d : 10 <= bits <= 12 -> bytes d -> 0 <= i_size i ->
  0 <= n -> n * PAGE_SIZE <= i_size i ->
  page_good (2 ^ bits) max i n d = true <->
  (n * PAGE_SIZE = i_size i \/
   page_end (i_size i) n mod 2 ^ bits = 0 /\
   exists l, chain bits max d 0 (page_end (i_size i) n) l).
Proof.
  intros Hb Hd Hs Hn Hle. unfold page_good, page_limit.
  rewrite shiftr12, land_page, land_chunk by lia. unfold page_end, PAGE_SIZE in *.
  assert (2 ^ 10 <= 2 ^ bits) as Hp by (apply Z.pow_le_mono_r; lia). change (2 ^ 10) with 1024 in Hp.
  assert (4096 mod 2 ^ bits = 0) as H4096.
  { replace 4096 with (2 ^ (12 - bits) * 2 ^ bits); [apply Z_mod_mult|].
    rewrite <- Z.pow_add_r by lia. by replace (12 - bits + bits) with 12 by lia. }
  destruct (Z.eqb_spec (i_size i / 4096) n) as [Hq|Hq].
  - assert (i_size i mod 4096 = i_size i - n * 4096) as Hm by (Z.to_euclidean_division_equations; lia).
    assert (i_size i - n * 4096 < 4096) by (Z.to_euclidean_division_equations; lia).
    rewrite Hm, Z.min_r by lia.
    destruct (Z.eqb_spec ((i_size i - n * 4096) mod 2 ^ bits) 0) as [Hc|Hc]; cbn [negb].
    + destruct (Z.eqb_spec (i_size i - n * 4096) 0) as [He|He]; [split; [intros _; left; lia|done]|].
      assert (1024 <= i_size i - n * 4096) as Hge.
      { apply Z.mod_divide in Hc; [|lia]. apply Z.divide_pos_le in Hc; lia. }
      pose proof (check_entries_spec bits max d (i_size i - n * 4096) Hd ltac:(lia)
        ltac:(unfold PAGE_SIZE; lia) page_fuel 0 ltac:(lia) ltac:(unfold page_fuel, PAGE_SIZE; lia)) as Hck.
      destruct (check_entries _ _ _ _ _ _) as [offs|].
      * split.
        -- intros ->%Z.eqb_eq. right. split; [done|]. by apply Hck.
        -- intros [?|[_ Hex]]; [lia|]. apply Hck in Hex. injection Hex as ->. apply Z.eqb_refl.
      * split; [done|]. intros [?|[_ Hex]]; [lia|]. by apply Hck in Hex.
    + split; [done|]. intros [He|[? _]]; [|done]. rewrite He, Z.sub_diag in Hc. by rewrite Z.mod_0_l in Hc by lia.
  - assert (4096 <= i_size i - n * 4096) by (Z.to_euclidean_division_equations; lia).
    rewrite Z.min_l by lia. change (4096 =? 0) with false. cbv iota.
    pose proof (check_entries_spec bits max d 4096 Hd ltac:(lia) ltac:(unfold PAGE_SIZE; lia)
      page_fuel 0 ltac:(lia) ltac:(unfold page_fuel, PAGE_SIZE; lia)) as Hck.
    destruct (check_entries _ _ _ _ _ _) as [offs|].
    + split.
      * intros ->%Z.eqb_eq. right. split; [done|]. by apply Hck.
      * intros [?|[_ Hex]]; [lia|]. apply Hck in Hex. injection Hex as ->. done.
    + split; [done|]. intros [?|[_ Hex]]; [lia|]. by apply Hck in Hex.
Qed.

(** [s'] is [s] with some pages checked. *)
Definition marked (s s' : vfs) : Prop :=
  v_fs s' = v_fs s /\
  forall k, v_pages s' !! k = v_pages s !! k \/ v_pages s' !! k = set_pg_checked <$> v_pages s !! k.

Lemma marked_refl s : marked s s.
Proof. split; [done|]. by left. Qed.
Lemma marked_trans s s' s'' : marked s s' -> marked s' s'' -> marked s s''.
Proof.
  intros [H1 H2] [H3 H4]. split; [congruence|]. intros k. destruct (H2 k) as [E|E], (H4 k) as [E'|E'];
    rewrite E'; rewrite E; auto. right. destruct (v_pages s !! k); done.
Qed.
Lemma marked_page s k p : v_pages s !! k = Some p -> marked s (set_page k (set_pg_checked p) s).
Proof.
  intros Hk. split; [done|]. intros j. destruct (decide (j = k)) as [->|Hne].
  - right. by rewrite set_page_get, Hk.
  - left. simpl. by rewrite lookup_insert_ne.
Qed.

(** Holding a page: its reference, and the mark of the check. *)
Definition held (p : page) : page := Page (pg_data p) true (pg_error p) (pg_count p + 1).

Lemma put_held k p s : v_pages s !! k = Some p ->
  kr_put_page k (set_page k (held p) s) = Ret tt (set_page k (set_pg_checked p) s).
Proof.
  intros Hk. erewrite put_page_run by apply set_page_get. rewrite set_page_twice.
  do 2 f_equal. destruct p; unfold add_pg_count, held, set_pg_checked; simpl. f_equal; lia.
Qed.

Lemma dir_ok_pages s s' ino size recs : dir_ok s ino size recs ->
  view (v_fs s') = view (v_fs s) -> sizes (v_fs s') = sizes (v_fs s) ->
  (forall n p, v_pages s !! (ino, n) = Some p -> usable p ->
     exists p', v_pages s' !! (ino, n) = Some p' /\ usable p' /\ pg_data p' = pg_data p) ->
  dir_ok s' ino size recs.
Proof.
  intros [H1 H2 H3 H4 H5] Hv Hz Hp. unfold view in Hv. injection Hv as Hv1 Hv2 Hv3 Hv4 Hv5.
  split; rewrite ?Hv1, ?Hv2, ?Hz; try done.
  intros n Hn. destruct (H5 n Hn) as (p & Hk & Hu & Hc).
  destruct (Hp n p Hk Hu) as (p' & Hk' & Hu' & Hd). exists p'. rewrite Hd. done.
Qed.

Lemma marked_data s s' k : marked s s' -> pdata s' k = pdata s k.
Proof.
  intros [_ H]. unfold pdata. destruct (H k) as [->| ->]; [done|]. by destruct (v_pages s !! k).
Qed.

Lemma marked_ok s s' ino size recs : marked s s' -> dir_ok s ino size recs -> dir_ok s' ino size recs.
Proof.
  intros [Hf Hm] Hok. apply (dir_ok_pages s); [done|by rewrite Hf|by rewrite Hf|].
  intros n p Hk Hu. destruct (Hm (ino, n)) as [E|E]; rewrite E, Hk; simpl; eexists; (split; [done|]);
    [done|]. destruct Hu as (? & ? & _). split; [|done]. split_and!; [done|done|by left].
Qed.

Lemma dir_rep_same s s' ino size recs m : dir_rep s ino size recs m -> dir_ok s' ino size recs ->
  (forall n, 0 <= n < pages_of size -> pdata s' (ino, n) = pdata s (ino, n)) ->
  dir_rep s' ino size recs m.
Proof.
  intros [H1 H2 H3 H4] Hok Hd.
  assert (forall n o e, has_entry s' ino size recs n o e <-> has_entry s ino size recs n o e) as Hh.
  { intros. unfold has_entry. split; intros [Hn Hx]; (split; [done|]);
      [rewrite <- (Hd n Hn)|rewrite (Hd n Hn)]; done. }
  split; [done| | |].
  - intros. rewrite H2. by setoid_rewrite Hh.
  - intros *. rewrite !Hh. apply H3.
  - intros *. rewrite Hh. apply H4.
Qed.

Lemma marked_rep s s' ino size recs m : marked s s' -> dir_rep s ino size recs m ->
  dir_rep s' ino size recs m.
Proof.
  intros Hm Hr. apply (dir_rep_same s); [done|by apply (marked_ok s), Hr|].
  intros. by apply marked_data.
Qed.

Lemma sizes_lookup fs ino size : sizes fs !! ino = Some size ->
  exists i, fs_inodes fs !! ino = Some i /\ i_size i = size.
Proof.
  unfold sizes. rewrite lookup_fmap. destruct (fs_inodes fs !! ino) as [i|]; [|done].
  intros [= <-]. by exists i.
Qed.

Section Ops.
Context {B : BitOps} {BL : BitLaws B} {R : RbTree} {T : Trylock} {K : Kernel} {D : DirKernel}
  {DL : DirLaws D}.

Lemma read_cached k p s : v_pages s !! k = Some p ->
  read_mapping_page k s = Ret (Some (add_pg_count 1 p)) (set_page k (add_pg_count 1 p) s).
Proof.
  intros Hk. unfold read_mapping_page. unfold gets, modify, mbind, M_bind, mret, M_ret. simpl.
  by rewrite Hk.
Qed.

Lemma check_page_run k i p s quiet : fs_inodes (v_fs s) !! k.1 = Some i -> v_pages s !! k = Some p ->
  page_good (kr_chunk_size (v_fs s)) (es_inodes_count (fs_es (v_fs s))) i k.2 (pg_data p) = true ->
  kr_check_page k quiet s = Ret true (set_page k (set_pg_checked p) s).
Proof.
  intros Hi Hk Hg. unfold kr_check_page.
  rewrite (bind_Ret _ _ _ _ _ (dir_inode_run s _ i Hi)).
  rewrite (bind_Ret _ _ _ _ _ (page_data_run k p s Hk)).
  unfold gets at 1. rewrite (bind_Ret _ _ _ s s) by done. simpl (id s). rewrite Hg.
  by rewrite (bind_Ret _ _ _ _ _ (upd_page_run k _ p s Hk)).
Qed.

(** A page that is in the cache and whose records are in order can be had. *)
Lemma get_page_good ino n quiet i p s : fs_inodes (v_fs s) !! ino = Some i ->
  v_pages s !! (ino, n) = Some p -> pg_checked p = true \/ pg_error p = false ->
  page_good (kr_chunk_size (v_fs s)) (es_inodes_count (fs_es (v_fs s))) i n (pg_data p) = true ->
  kr_get_page ino n quiet s = Ret (inr (ino, n)) (set_page (ino, n) (held p) s).
Proof.
  intros Hi Hk Hu Hg. unfold kr_get_page.
  rewrite (bind_Ret _ _ _ _ _ (read_cached _ p s Hk)). cbv iota beta zeta.
  change (pg_checked (add_pg_count 1 p)) with (pg_checked p).
  change (pg_error (add_pg_count 1 p)) with (pg_error p).
  destruct (pg_checked p) eqn:Hc.
  - unfold mret, M_ret. do 2 f_equal. unfold add_pg_count, held. by rewrite Hc.
  - destruct Hu as [?|He]; [done|]. rewrite He.
    rewrite (bind_Ret _ _ _ _ _ (check_page_run (ino, n) i (add_pg_count 1 p)
      (set_page (ino, n) (add_pg_count 1 p) s) quiet Hi
      (set_page_get _ _ _) Hg)).
    cbn [negb]. unfold mret, M_ret. by rewrite set_page_twice.
Qed.

Lemma dir_page_good s ino size recs n p i : dir_ok s ino size recs -> 0 <= n < pages_of size ->
  v_pages s !! (ino, n) = Some p -> fs_inodes (v_fs s) !! ino = Some i -> i_size i = size ->
  page_good (kr_chunk_size (v_fs s)) (es_inodes_count (fs_es (v_fs s))) i n (pg_data p) = true.
Proof.
  intros [Hb Hs Hbd Hc Hp] Hn Hk Hi Hsz. destruct (Hp n Hn) as (p' & Hk' & (Hl & Hby & Hu) & Hch).
  assert (p' = p) as -> by congruence.
  pose proof (page_end_bounds size _ n Hb Hc ltac:(lia) Hn) as [He1 He2].
  unfold kr_chunk_size, fs_blocksize. rewrite Z.shiftl_mul_pow2, Z.mul_1_l by lia.
  subst size. apply page_good_spec; try done; try lia.
  - unfold page_end in He1. lia.
  - right. split; [done|]. by exists (recs n).
Qed.

Lemma get_page_run s ino size recs n quiet : dir_ok s ino size recs -> 0 <= n < pages_of size ->
  exists p, v_pages s !! (ino, n) = Some p /\ usable p /\
    chain (fs_blocksize_bits (v_fs s)) (es_inodes_count (fs_es (v_fs s))) (pg_data p) 0
      (page_end size n) (recs n) /\
    kr_get_page ino n quiet s = Ret (inr (ino, n)) (set_page (ino, n) (held p) s).
Proof.
  intros Hok Hn. destruct (do_page _ _ _ _ Hok n Hn) as (p & Hk & Hu & Hc).
  destruct (sizes_lookup _ _ _ (do_size _ _ _ _ Hok)) as (i & Hi & Hsz).
  exists p. split_and!; [done..|]. eapply get_page_good; try done; [apply Hu|].
  by eapply dir_page_good.
Qed.

(** ** Looking up *)

Lemma inode_upd_run f ino s :
  on_fs (inode_upd f ino) s = Ret tt (set_v_fs (set_fs_inodes (alter f ino (fs_inodes (v_fs s))) (v_fs s)) s).
Proof. done. Qed.

(** [ei->i_dir_start_lookup = n] *)
Definition started (ino n : Z) (fs : krfs) : krfs :=
  set_fs_inodes (alter (fun i => set_KR_I (set_i_dir_start_lookup n (KR_I i)) i) ino (fs_inodes fs)) fs.

(** No entry of the page [n] has the name. *)
Definition unnamed (s : vfs) (ino : Z) (recs : Z -> list Z) (name : list Z) (n : Z) : Prop :=
  forall o, o ∈ recs n -> ~ names (pdata s (ino, n)) o name.

Definition next_page (npages n : Z) : Z := if n + 1 >=? npages then 0 else n + 1.
Lemma next_page_cases npages n : 0 <= n < npages ->
  next_page npages n = n + 1 /\ n + 1 < npages \/ next_page npages n = 0 /\ n + 1 = npages.
Proof. unfold next_page. destruct (_ >=? _) eqn:E; lia. Qed.

(** A held entry with the name, found from the state [s]. *)
Definition found_at (s : vfs) (ino : Z) (recs : Z -> list Z) (name : list Z) (n o : Z) (s' : vfs) : Prop :=
  o ∈ recs n /\ names (pdata s (ino, n)) o name /\
  exists s1 p, marked s s1 /\ v_pages s1 !! (ino, n) = Some p /\
    s' = set_v_fs (started ino n (v_fs s)) (set_page (ino, n) (held p) s1).

Lemma rec_len_short n : 0 <= n <= 255 -> n + 8 <= KR_DIR_REC_LEN n <= 264.
Proof. rewrite rec_len_val. intros. Z.to_euclidean_division_equations; lia. Qed.

(** The directory has as many blocks as its size asks for. *)
Definition blocks_cover (i : inode) (size : Z) : Prop :=
  pages_of size - 1 <= Z.shiftr (i_blocks i) (PAGE_SHIFT - 9).

Lemma find_turn_spec s ino size recs i name start n err : dir_ok s ino size recs ->
  len name <= 255 -> fs_inodes (v_fs s) !! ino = Some i -> 0 <= n < pages_of size ->
  blocks_cover i size ->
  runs (find_turn ino name start (pages_of size) (n, err)) never (fun r s' =>
    match r with
    | inl (n', err') => err' = err /\ marked s s' /\ n' = next_page (pages_of size) n /\
        n' <> start /\ unnamed s ino recs name n
    | inr None => marked s s' /\ next_page (pages_of size) n = start /\ unnamed s ino recs name n
    | inr (Some (n', o)) => n' = n /\ found_at s ino recs name n o s'
    end) s.
Proof.
  intros Hok Hlen Hi Hn Hbl. destruct (sizes_lookup _ _ _ (do_size _ _ _ _ Hok)) as (i' & Hi' & Hsz).
  assert (i' = i) as -> by congruence. pose proof (do_bound _ _ _ _ Hok) as Hbd.
  destruct (get_page_run s ino size recs n err Hok Hn) as (p & Hk & Hu & Hc & Hget).
  pose proof (page_end_bounds size _ n (do_bits _ _ _ _ Hok) (do_chunks _ _ _ _ Hok) ltac:(lia) Hn)
    as [He _].
  unfold find_turn. step. run dir_inode_run; [done|]. step. run Hget. step.
  run page_data_run; [apply set_page_get|]. change (pg_data (held p)) with (pg_data p).
  rewrite last_byte_end; [|lia|subst; lia|rewrite Hsz; unfold page_end, PAGE_SIZE in *; lia].
  rewrite Hsz. destruct Hu as (Hl & Hby & _).
  pose proof (len_nonneg name) as Hl0. pose proof (rec_len_short (len name) ltac:(lia)) as Hrv.
  pose proof PAGE_SIZE_val as Hps.
  rewrite (u32_small (page_end size n - KR_DIR_REC_LEN (len name))) by lia.
  pose proof (find_in_page_spec _ _ (pg_data p) name (page_end size n) Hby ltac:(lia)
    page_fuel 0 (recs n) ltac:(lia) Hc (page_fuel_ok (page_end size n) ltac:(lia))) as Hf.
  assert (pdata s (ino, n) = pg_data p) as Hpd by (unfold pdata; by rewrite Hk).
  destruct (find_in_page _ _ _ _ _) as [o| |]; [| |done].
  - step. eapply runs_call; [apply inode_upd_run|]. step. split; [done|].
    destruct Hf as [Ho Hnm]. split; [done|]. rewrite Hpd. split; [done|].
    exists s, p. split_and!; [apply marked_refl|done|done].
  - step. run put_held; [done|]. fold (next_page (pages_of size) n).
    assert (0 <= next_page (pages_of size) n < pages_of size) as Hnx
      by (unfold next_page; destruct (_ >=? _) eqn:E; lia).
    assert (unnamed s ino recs name n) as Hun by (intros o Ho; rewrite Hpd; by apply Hf).
    apply runs_if; intros E1; [unfold blocks_cover in Hbl; lia|].
    apply runs_if; intros E2; step; (split_and!; [done || by apply marked_page..| |]); try done; lia.
Qed.

(** The pages a search from [start] has been to when it comes to [n]. *)
Definition visited (start n m : Z) : Prop :=
  if n <? start then start <= m \/ m < n else start <= m < n.

Lemma found_marked s s1 ino recs name n o s' : marked s s1 -> found_at s1 ino recs name n o s' ->
  found_at s ino recs name n o s'.
Proof.
  intros Hm (Ho & Hn & s2 & p & Hm2 & Hk & ->). split; [done|].
  rewrite (marked_data s s1) in Hn by done. split; [done|].
  exists s2, p. rewrite (proj1 Hm). split_and!; [by eapply marked_trans|done|done].
Qed.

(** Looking up a name holds the page of an entry with the name, or every record has
    been looked at. *)
Lemma kr_find_entry_spec s ino size recs i name : dir_ok s ino size recs -> len name <= 255 ->
  fs_inodes (v_fs s) !! ino = Some i -> 0 <= i_dir_start_lookup (KR_I i) ->
  blocks_cover i size ->
  runs (kr_find_entry ino name) never (fun r s' =>
    match r with
    | None => marked s s' /\ forall n, 0 <= n < pages_of size -> unnamed s ino recs name n
    | Some (n, o) => 0 <= n < pages_of size /\ found_at s ino recs name n o s'
    end) s.
Proof.
  intros Hok Hlen Hi Hst Hbl. destruct (sizes_lookup _ _ _ (do_size _ _ _ _ Hok)) as (i' & Hi' & Hsz).
  assert (i' = i) as -> by congruence. pose proof (do_bound _ _ _ _ Hok) as Hbd.
  unfold kr_find_entry. step. run dir_inode_run; [done|].
  change (dir_pages i) with (pages_of (i_size i)). rewrite Hsz.
  assert (0 <= pages_of size) as Hnp by (rewrite pages_of_val; Z.to_euclidean_division_equations; lia).
  apply runs_if; intros E0; [step; split; [apply marked_refl|intros; lia]|].
  set (start := if _ >=? _ then 0 else i_dir_start_lookup (KR_I i)).
  assert (0 <= start < pages_of size) as Hs0 by (unfold start; destruct (_ >=? _) eqn:E; lia).
  apply (runs_loop never (fun p s' => let '(n, _) := p in marked s s' /\ 0 <= n < pages_of size /\
      forall m, 0 <= m < pages_of size -> visited start n m -> unnamed s ino recs name m)
    (fun p _ => let '(n, _) := p in if n <? start then start - n else pages_of size + start - n)).
  - intros [n err] s1 (Hm & Hn & Hv). split; [destruct (_ <? _) eqn:E; lia|].
    assert (forall m, unnamed s1 ino recs name m <-> unnamed s ino recs name m) as Hun.
    { intros m. unfold unnamed. by rewrite (marked_data s s1). }
    eapply runs_mono; [apply (find_turn_spec s1 ino size recs i); try done;
      [by apply (marked_ok s)|by rewrite (proj1 Hm)]|].
    intros [[n' err']|[[n' o]|]] s2; cbv beta.
    + intros (-> & Hm2 & -> & Hne & Hnot). rewrite Hun in Hnot.
      pose proof (next_page_cases _ _ Hn) as Hnx.
      split; [split; [by eapply marked_trans|]; split; [lia|]|].
      * intros m Hm1 Hvis. destruct (decide (m = n)) as [->|]; [done|]. apply Hv; [done|].
        unfold visited in *. destruct (Z.ltb_spec (next_page (pages_of size) n) start);
          destruct (Z.ltb_spec n start); lia.
      * destruct (Z.ltb_spec (next_page (pages_of size) n) start); destruct (Z.ltb_spec n start); lia.
    + intros [-> Hf]. split; [done|]. by apply (found_marked s s1).
    + intros (Hm2 & He & Hnot). split; [by eapply marked_trans|]. rewrite Hun in Hnot.
      intros m Hm1. destruct (decide (m = n)) as [->|]; [done|]. apply Hv; [done|].
      pose proof (next_page_cases _ _ Hn) as Hnx. unfold visited.
      destruct (Z.ltb_spec n start); lia.
  - split_and!; [apply marked_refl|lia|lia|]. intros m _ Hvis. unfold visited in Hvis.
    rewrite Z.ltb_irrefl in Hvis. lia.
  - rewrite Z.ltb_irrefl. lia.
Qed.

(** ** Changing an inode *)

Lemma fmap_alter_same {V W} (g : V -> W) f k (m : gmap Z V) : (forall v, g (f v) = g v) ->
  g <$> alter f k m = g <$> m.
Proof.
  intros Hf. apply map_eq. intros j. rewrite !lookup_fmap. destruct (decide (j = k)) as [->|].
  - rewrite lookup_alter_eq. destruct (m !! k); simpl; [by rewrite Hf|done].
  - by rewrite lookup_alter_ne.
Qed.

Lemma upd_view f ino fs : (forall i, i_mode (f i) = i_mode i /\ i_nlink (f i) = i_nlink i) ->
  view (set_fs_inodes (alter f ino (fs_inodes fs)) fs) = view fs.
Proof.
  intros Hf. unfold view, modes, links. simpl.
  rewrite !fmap_alter_same; [done|intros; apply Hf..].
Qed.

Lemma upd_sizes f ino fs : (forall i, i_size (f i) = i_size i) ->
  sizes (set_fs_inodes (alter f ino (fs_inodes fs)) fs) = sizes fs.
Proof. intros Hf. unfold sizes. simpl. by apply fmap_alter_same. Qed.

(** The effect of an operation on the directory [ino] that leaves it [size] bytes
    and the pages as they are. *)
Definition settled (s : vfs) (ino size : Z) (s' : vfs) : Prop :=
  v_pages s' = v_pages s /\ view (v_fs s') = view (v_fs s) /\
  sizes (v_fs s') = <[ino := size]> (sizes (v_fs s)).

Lemma settled_trans s s' s'' ino size size' : settled s ino size s' -> settled s' ino size' s'' ->
  settled s ino size' s''.
Proof.
  intros (H1 & H2 & H3) (H4 & H5 & H6). split_and!; [congruence..|].
  by rewrite H6, H3, insert_insert_eq.
Qed.

Lemma upd_settled s ino size f : sizes (v_fs s) !! ino = Some size ->
  (forall i, i_mode (f i) = i_mode i /\ i_nlink (f i) = i_nlink i /\ i_size (f i) = i_size i) ->
  settled s ino size (set_v_fs (set_fs_inodes (alter f ino (fs_inodes (v_fs s))) (v_fs s)) s).
Proof.
  intros Hs Hf. split_and!; [done|apply upd_view; intros; split; apply Hf|].
  cbn [v_fs set_v_fs]. rewrite upd_sizes by (intros; apply Hf). by rewrite insert_id.
Qed.

Lemma log_settled s ino size c : sizes (v_fs s) !! ino = Some size ->
  on_fs (log c) s = Ret tt (set_v_fs (set_fs_trace (c :: fs_trace (v_fs s)) (v_fs s)) s) /\
  settled s ino size (set_v_fs (set_fs_trace (c :: fs_trace (v_fs s)) (v_fs s)) s).
Proof. intros Hs. split; [done|]. split_and!; [done..|]. simpl. by rewrite insert_id. Qed.

Lemma settled_size s ino size s' : settled s ino size s' -> sizes (v_fs s') !! ino = Some size.
Proof. intros (_ & _ & ->). by rewrite lookup_insert_eq. Qed.

Lemma run_upd s ino size f (E : stop -> Prop) (Q : unit -> vfs -> Prop) :
  sizes (v_fs s) !! ino = Some size ->
  (forall i, i_mode (f i) = i_mode i /\ i_nlink (f i) = i_nlink i /\ i_size (f i) = i_size i) ->
  (forall s', settled s ino size s' -> Q tt s') -> runs (on_fs (inode_upd f ino)) E Q s.
Proof. intros Hs Hf HQ. eapply runs_call; [apply inode_upd_run|]. by apply HQ, upd_settled. Qed.

Lemma run_log s ino size c (E : stop -> Prop) (Q : unit -> vfs -> Prop) :
  sizes (v_fs s) !! ino = Some size -> (forall s', settled s ino size s' -> Q tt s') ->
  runs (on_fs (log c)) E Q s.
Proof.
  intros Hs HQ. destruct (log_settled s ino size c Hs) as [Hr Hst].
  eapply runs_call; [exact Hr|]. by apply HQ.
Qed.

Lemma touch_dir_spec E s ino size b : sizes (v_fs s) !! ino = Some size ->
  runs (touch_dir ino b) E (fun _ s' => settled s ino size s') s.
Proof.
  intros Hs. unfold touch_dir. step.
  assert (forall s1, settled s ino size s1 -> runs
    (on_fs (inode_upd (fun i => set_KR_I (set_ei_flags (clr (ei_flags (KR_I i)) KR_BTREE_FL) (KR_I i)) i) ino) ;;
     on_fs (log (mark_inode_dirty ino))) E (fun _ s' => settled s ino size s') s1) as Hrest.
  { intros s1 H1. step. eapply run_upd; [by apply (settled_size s)|done|]. intros s2 H2.
    eapply run_log; [by apply (settled_size s1)|]. intros s3 H3.
    eapply settled_trans; [eapply settled_trans; [exact H1|exact H2]|exact H3]. }
  step.
  - eapply run_upd; [done|done|]. exact Hrest.
  - apply Hrest. split_and!; [done..|]. by rewrite insert_id.
Qed.

Lemma commit_spec E s k size pos n : sizes (v_fs s) !! k.1 = Some size ->
  runs (kr_commit_chunk k pos n) E
    (fun r s' => r <= 0 /\ settled s k.1 (Z.max size (pos + n)) s') s.
Proof.
  intros Hs. unfold kr_commit_chunk. step. eapply run_upd; [done|done|]. intros s1 H1.
  step. eapply run_log; [by apply (settled_size s)|]. intros s2 H2. step.
  assert (settled s k.1 size s2) as H12 by (by eapply settled_trans).
  destruct (sizes_lookup _ _ _ (settled_size _ _ _ _ H12)) as (i & Hi & Hsz).
  run dir_inode_run; [done|]. step.
  assert (forall s', settled s k.1 (Z.max size (pos + n)) s' ->
    runs (s0 ← gets id; if IS_DIRSYNC (v_fs s0) i then
        (let err := write_one_page k.1 k.2 in
         mret (if negb (err =? 0) then err else sync_inode_metadata k.1))
      else mret 0) E (fun r s' => r <= 0 /\ settled s k.1 (Z.max size (pos + n)) s') s') as Hend.
  { intros s' H'. step. step. apply runs_if; intros _; cbv zeta; step; (split; [|done]); [|lia].
    pose proof (write_one_page_ok k.1 k.2). pose proof (sync_inode_metadata_ok k.1).
    destruct (negb _); lia. }
  step.
  - eapply runs_call; [done|]. apply Hend. eapply settled_trans; [exact H12|].
    rewrite Z.max_r by lia. split_and!; [done| |].
    + by apply (upd_view (set_i_size (pos + n)) k.1 (v_fs s2)).
    + unfold sizes. simpl. apply map_eq. intros j. rewrite lookup_fmap.
      destruct (decide (j = k.1)) as [->|].
      * rewrite lookup_alter_eq, lookup_insert_eq, Hi. done.
      * by rewrite lookup_alter_ne, lookup_insert_ne, lookup_fmap.
  - apply Hend. by rewrite Z.max_l by lia.
Qed.

(** ** Writing an entry *)

(** The type of the entries of inodes with the mode [mode]; [None] is past the end
    of the table. *)
Definition de_type (incompat mode : Z) : option Z :=
  if has incompat KR_FEATURE_INCOMPAT_FILETYPE
  then kr_type_by_mode !! Z.to_nat (Z.shiftr (Z.land mode S_IFMT) 12) else Some 0.

Lemma de_type_byte f mode t : de_type f mode = Some t -> 0 <= t < 256.
Proof.
  unfold de_type. destruct (has _ _); [|intros [= <-]; lia].
  intros Ht. assert (Forall (fun t => 0 <= t < 256) kr_type_by_mode) as Hall
    by (repeat (apply Forall_cons; split; [by vm_compute|]); by apply Forall_nil).
  by apply (Forall_lookup_1 _ _ _ _ Hall Ht).
Qed.

Lemma modes_lookup fs ino mode : modes fs !! ino = Some mode ->
  exists i, fs_inodes fs !! ino = Some i /\ i_mode i = mode.
Proof.
  unfold modes. rewrite lookup_fmap. destruct (fs_inodes fs !! ino) as [i|]; [|done].
  intros [= <-]. by exists i.
Qed.

Lemma set_de_type_run k o ino p t mode s : v_pages s !! k = Some p ->
  modes (v_fs s) !! ino = Some mode -> de_type (es_feature_incompat (fs_es (v_fs s))) mode = Some t ->
  kr_set_de_type k o ino s = Ret tt (set_page k (set_pg_data (put8 (pg_data p) (o + 7) t) p) s).
Proof.
  intros Hk Hm Ht. destruct (modes_lookup _ _ _ Hm) as (i & Hi & <-). unfold kr_set_de_type.
  rewrite (bind_Ret _ _ _ _ _ (dir_inode_run s _ i Hi)).
  unfold gets at 1. rewrite (bind_Ret _ _ _ s s) by done. cbv beta.
  unfold de_type in Ht. unfold has_incompat_feature. simpl (v_fs (id s)).
  destruct (has _ _); [rewrite Ht|injection Ht as <-].
  - apply (upd_page_run k (fun p => set_pg_data (put8 (pg_data p) (o + 7) t) p) p s Hk).
  - apply (upd_page_run k (fun p => set_pg_data (put8 (pg_data p) (o + 7) 0) p) p s Hk).
Qed.

(** Writing the fields of the entry, and its type. *)
Lemma write_entry_run k o name ino p t mode s : v_pages s !! k = Some p ->
  modes (v_fs s) !! ino = Some mode -> de_type (es_feature_incompat (fs_es (v_fs s))) mode = Some t ->
  (upd_data k (fun d => put32 (put_bytes (put8 d (o + 6) (len name)) (o + 8) name) o ino) ;;
   kr_set_de_type k o ino) s =
  Ret tt (set_page k (set_pg_data (put_entry (pg_data p) o name ino t) p) s).
Proof.
  intros Hk Hm Ht. rewrite (bind_Ret _ _ _ _ _ (upd_data_run k _ p s Hk)).
  erewrite set_de_type_run; [|apply set_page_get|exact Hm|exact Ht].
  rewrite set_page_twice. done.
Qed.

(** [s'] differs from [s] in the page [k], which is [p] now, and in what writing to
    the directory [k.1] of [size] bytes changes. *)
Definition rewritten (s : vfs) (k : Z * Z) (p : page) (size : Z) (s' : vfs) : Prop :=
  v_pages s' = <[k := p]> (v_pages s) /\ view (v_fs s') = view (v_fs s) /\
  sizes (v_fs s') = <[k.1 := size]> (sizes (v_fs s)).

Lemma prepare_spec s k size pos n : sizes (v_fs s) !! k.1 = Some size ->
  runs (kr_prepare_chunk k pos n) only_panic (fun r s' => r <= 0 /\ settled s k.1 size s') s.
Proof.
  intros Hs. destruct (sizes_lookup _ _ _ Hs) as (i & Hi & _).
  unfold kr_prepare_chunk, on_fs. apply runs_lift.
  call (write_begin_ok k.1 pos n (v_fs s) (ex_intro _ _ Hi)). intros r fs' (Hr & Hv & Hz).
  split; [done|]. split_and!; [done|done|]. cbn [v_fs set_v_fs]. by rewrite Hz, insert_id.
Qed.

(** What [got_room] writes over the page [d]. *)
Definition room_data (d : list Z) (o name_len rec_len : Z) (name : list Z) (ino t : Z) : list Z :=
  if negb (de_inode d o =? 0)
  then put_entry (split_record d o name_len rec_len) (o + name_len) name ino t
  else put_entry d o name ino t.

Lemma got_room_spec s k p size o name_len rec_len name ino mode t : v_pages s !! k = Some p ->
  sizes (v_fs s) !! k.1 = Some size -> modes (v_fs s) !! ino = Some mode ->
  de_type (es_feature_incompat (fs_es (v_fs s))) mode = Some t ->
  runs (got_room k o name_len rec_len name ino) only_panic (fun r s' => r <= 0 /\
    (rewritten s k (add_pg_count (-1) (set_pg_data (room_data (pg_data p) o name_len rec_len name ino t) p))
       (Z.max size (Z.shiftl k.2 PAGE_SHIFT + o + rec_len)) s' \/
     r < 0 /\ rewritten s k (add_pg_count (-1) p) size s')) s.
Proof.
  intros Hk Hs Hm Ht. unfold got_room. step.
  call (prepare_spec s k size _ _ Hs). intros err s1 (Herr & Hp1 & Hv1 & Hz1).
  assert (v_pages s1 !! k = Some p) as Hk1 by by rewrite Hp1.
  apply runs_if; intros He.
  { step. run put_page_run; [done|]. step. split; [done|]. right. split; [lia|].
    split_and!; [by rewrite <- Hp1|done|done]. }
  step. run page_data_run; [done|]. step.
  set (o' := if negb (de_inode (pg_data p) o =? 0) then o + name_len else o).
  set (p1 := if negb (de_inode (pg_data p) o =? 0)
             then set_pg_data (split_record (pg_data p) o name_len rec_len) p else p).
  apply (runs_mono _ _ (fun a s' => a = o' /\ s' = set_page k p1 s1)).
  { unfold o', p1. destruct (negb (de_inode (pg_data p) o =? 0)).
    - step. run upd_data_run; [done|]. by step.
    - step. split; [done|]. symmetry. by apply set_page_same. }
  intros a s2 [-> ->]. fold o'.
  assert (modes (v_fs s1) = modes (v_fs s) /\
    es_feature_incompat (fs_es (v_fs s1)) = es_feature_incompat (fs_es (v_fs s))) as [Hm1 Hf1]
    by (unfold view in Hv1; by injection Hv1).
  step. run upd_data_run; [apply set_page_get|]. rewrite set_page_twice. step.
  run set_de_type_run; [apply set_page_get|cbn [v_fs set_page set_v_pages]; by rewrite Hm1
    |cbn [v_fs set_page set_v_pages]; by rewrite Hf1|]. rewrite set_page_twice.
  set (p2 := set_pg_data (put8 _ _ _) _). step.
  call (commit_spec only_panic (set_page k p2 s1) k size); [cbn [v_fs set_page set_v_pages]; rewrite Hz1;
    apply lookup_insert_eq|].
  intros r s3 (Hr & H3). step.
  call (touch_dir_spec only_panic s3 k.1 _ true (settled_size _ _ _ _ H3)). intros _ s4 H4.
  pose proof (settled_trans _ _ _ _ _ _ H3 H4) as (Hp4 & Hv4 & Hz4).
  step. run put_page_run; [rewrite Hp4; apply set_page_get|]. step. split; [done|]. left.
  split_and!.
  - cbn [v_pages set_page set_v_pages]. rewrite Hp4. cbn [v_pages set_page set_v_pages].
    rewrite insert_insert_eq, Hp1. do 2 f_equal. unfold p2, p1, o', room_data.
    by destruct (negb (de_inode (pg_data p) o =? 0)).
  - cbn [v_fs set_page set_v_pages]. rewrite Hv4. cbn [v_fs set_page set_v_pages]. done.
  - cbn [v_fs set_page set_v_pages]. rewrite Hz4. cbn [v_fs set_page set_v_pages].
    rewrite Hz1, insert_insert_eq. done.
Qed.

End Ops.
