(* ===== verification/DirOps.v ===== *)
(** * Adding and deleting the entries of a directory

    What [kr_add_link], [kr_delete_entry] and [kr_set_link] do to the map a directory
    stands for, and where they leave the other entries. *)

From S2P Require Import Prelude Bytes Bits Kr Rsv Bitmap Alloc State Balloc BlockMap PathFacts Dir DirPage DirFacts.

(** ** Pages *)

Section Pages.
Variables bits max : Z.
Hypothesis Hbits : 10 <= bits <= 12.

(** The records up to [o] stay, those from there on are [l2]. *)
Lemma tail_change d d' l1 l2 o lim : bytes d -> len d' = len d -> o <= len d ->
  chain bits max d 0 o l1 -> same_on d d' 0 o -> chain bits max d' o lim l2 ->
  chain bits max d' 0 lim (l1 ++ l2) /\
  forall x e, holds d' (l1 ++ l2) x e <-> holds d l1 x e \/ holds d' l2 x e.
Proof.
  intros Hb Hl Ho H1 Hs H2.
  destruct (chain_same bits max d d' 0 o l1) as [H1' Hr]; try done.
  split; [apply chain_app; by exists o|]. intros x e. by rewrite holds_app, (holds_same d).
Qed.

(** The entries in use have names. *)
Definition named (d : list Z) (l : list Z) : Prop :=
  forall x, x ∈ l -> de_inode d x <> 0 -> 1 <= de_name_len d x.

Lemma room_added d l o lim name ino t : bytes d -> lim <= len d ->
  chain bits max d 0 lim l -> named d l -> o ∈ l -> roomy d o (KR_DIR_REC_LEN (len name)) ->
  name_ok name -> 0 < ino < 4294967296 -> ino <= max -> 0 <= t < 256 ->
  let d' := room_data d o (u16 (KR_DIR_REC_LEN (de_name_len d o))) (u16 (de_rec_len d o)) name ino t in
  len d' = len d /\ bytes d' /\ exists l' o', chain bits max d' 0 lim l' /\
    forall x e, holds d' l' x e <-> holds d l x e \/ x = o' /\ e = (name, ino, t).
Proof.
  intros Hb Hl Hc Hnamed Ho Hroom Hn Hino Hmax Ht d'.
  destruct (chain_split _ _ _ _ _ _ _ Hc Ho) as (l1 & l2 & -> & H1 & Hok & H2).
  pose proof (chain_le _ _ _ _ _ _ H1) as Ho0. pose proof (chain_le _ _ _ _ _ _ H2) as Hfit.
  pose proof (ok_min _ _ _ _ Hok) as Hmin. pose proof (ok_name _ _ _ _ Hok) as Hnm.
  pose proof (get16_bytes d (o + 4) Hb) as Hr16. fold (de_rec_len d o) in Hr16.
  pose proof (rec_len_short (len name) ltac:(destruct Hn; lia)) as Hrl.
  pose proof (rec_len_val (de_name_len d o)) as Hrv.
  pose proof (get8_bytes d (o + 6) Hb) as Hnl0. fold (de_name_len d o) in Hnl0.
  assert (0 <= KR_DIR_REC_LEN (de_name_len d o)) by (rewrite Hrv; Z.to_euclidean_division_equations; lia).
  unfold d', room_data. rewrite !u16_small by lia.
  destruct (Z.eqb_spec (de_inode d o) 0) as [Hz|Hnz]; cbn [negb].
  - assert (KR_DIR_REC_LEN (len name) <= de_rec_len d o) as Hfits by (destruct Hroom as [[_ ?]|?]; lia).
    split; [apply len_put_entry|]. split; [by apply bytes_put_entry|].
    destruct (added_reuse bits max ltac:(lia) d o lim l2 name ino t) as [Hc' Hh]; try done.
    destruct (tail_change d (put_entry d o name ino t) l1 (o :: l2) o lim) as [Hc2 Hh2]; try done;
      [apply len_put_entry|lia|apply put_entry_same; lia|].
    exists (l1 ++ o :: l2), o. split; [done|]. intros x e. rewrite Hh2, Hh, holds_app. tauto.
  - destruct Hroom as [[? _]|Hroom]; [done|].
    set (nl := KR_DIR_REC_LEN (de_name_len d o)) in *.
    assert (len (split_record d o nl (de_rec_len d o)) = len d /\
      bytes (split_record d o nl (de_rec_len d o))) as [Hsl Hsb]
      by (unfold split_record; autorewrite with kr; auto with kr).
    split; [by rewrite len_put_entry|]. split; [by apply bytes_put_entry|].
    assert (1 <= de_name_len d o) as Hn1
      by (apply (Hnamed o); [apply elem_of_app; right; apply elem_of_cons; auto|done]).
    destruct (added_split bits max ltac:(lia) d o lim l2 name ino t) as [Hc' Hh]; try done; [lia|].
    fold nl in Hc', Hh. set (d'' := put_entry (split_record d o nl (de_rec_len d o)) (o + nl) name ino t) in *.
    destruct (tail_change d d'' l1 (o :: (o + nl) :: l2) o lim) as [Hc2 Hh2]; try done;
      [unfold d''; by rewrite len_put_entry|lia| |].
    { unfold d''. eapply same_trans; [|apply put_entry_same; lia]. unfold split_record. kept. }
    exists (l1 ++ o :: (o + nl) :: l2), (o + nl). split; [done|].
    intros x e. rewrite Hh2, Hh, holds_app. tauto.
Qed.

Lemma chunk_added d l o name ino t : bytes d -> o + 2 ^ bits <= len d -> o mod 2 ^ bits = 0 ->
  chain bits max d 0 o l ->
  name_ok name -> 0 < ino < 4294967296 -> ino <= max -> 0 <= t < 256 ->
  let d' := room_data (put32 (put16 d (o + 4) (kr_rec_len_to_disk (2 ^ bits))) o 0) o 0
              (u16 (2 ^ bits)) name ino t in
  len d' = len d /\ bytes d' /\ chain bits max d' 0 (o + 2 ^ bits) (l ++ [o]) /\
  forall x e, holds d' (l ++ [o]) x e <-> holds d l x e \/ x = o /\ e = (name, ino, t).
Proof.
  intros Hb Hl Hal Hc Hn Hino Hmax Ht d'. pose proof (chain_le _ _ _ _ _ _ Hc) as Ho0.
  assert (2 ^ 10 <= 2 ^ bits) as Hpow by (apply Z.pow_le_mono_r; lia). change (2 ^ 10) with 1024 in Hpow.
  set (d1 := put32 (put16 d (o + 4) (kr_rec_len_to_disk (2 ^ bits))) o 0) in *.
  assert (d' = put_entry d1 o name ino t) as Hd'.
  { unfold d', room_data. assert (de_inode d1 o = 0) as ->; [|done].
    apply get32_put32_eq; rewrite ?len_put16; lia. }
  assert (len d1 = len d /\ bytes d1) as [Hl1 Hb1]
    by (unfold d1; autorewrite with kr; auto with kr).
  rewrite Hd'. split; [by rewrite len_put_entry|]. split; [by apply bytes_put_entry|].
  destruct (added_chunk bits max ltac:(lia) d o name ino t) as (Hc' & Hs & Hh); try done.
  fold d1 in Hc', Hs, Hh.
  destruct (tail_change d (put_entry d1 o name ino t) l [o] o (o + 2 ^ bits)) as [Hc2 Hh2]; try done;
    [by rewrite len_put_entry|lia|].
  split; [done|]. intros x e. by rewrite Hh2, Hh.
Qed.

Lemma len_deleted d pde o : len (deleted d pde o) = len d.
Proof. unfold deleted. destruct pde; by autorewrite with kr. Qed.
Lemma bytes_deleted d pde o : bytes d -> bytes (deleted d pde o).
Proof. unfold deleted. destruct pde; auto with kr. Qed.

(** Deleting: the entry before it in its chunk takes its place. *)
Lemma entry_deleted d l o lim : bytes d -> lim <= len d -> lim <= PAGE_SIZE ->
  chain bits max d 0 lim l -> o ∈ l ->
  exists pde l', entry_before page_fuel d None o (clr o (2 ^ bits - 1)) = Some pde /\
    chain bits max (deleted d pde o) 0 lim l' /\
    forall x e, holds (deleted d pde o) l' x e <-> holds d l x e /\ x <> o.
Proof.
  intros Hb Hl Hlim Hc Ho. destruct (chain_split _ _ _ _ _ _ _ Hc Ho) as (l1 & l2 & -> & H1 & Hok & H2).
  pose proof (chain_le _ _ _ _ _ _ H1) as Ho0. pose proof (chain_le _ _ _ _ _ _ H2) as Hfit.
  pose proof (ok_min _ _ _ _ Hok) as Hmin.
  assert (0 < 2 ^ bits) as Hpos by (apply Z.pow_pos_nonneg; lia).
  rewrite clr_pow2 by lia. set (c := 2 ^ bits * (o / 2 ^ bits)).
  pose proof (Z.mul_div_le o (2 ^ bits) Hpos) as Hc1. fold c in Hc1.
  assert (0 <= c) as Hc0 by (unfold c; pose proof (Z.div_pos o (2 ^ bits) ltac:(lia) Hpos); nia).
  destruct (chain_chunk bits max d 0 o c l1) as (la & lb & -> & Ha & Hb1); try done; [lia| |].
  { unfold c. rewrite Z.mul_comm. apply Z_mod_mult. }
  rewrite (entry_before_spec bits max d o page_fuel c None lb); [|done|done|].
  2: { unfold page_fuel. lia. }
  assert (forall l x a b e, chain bits max d a b l -> b <= o -> holds d l x e -> x <> o) as Hbefore.
  { intros l x a b e Hl0 Hbo (Hx & _) ->. apply (chain_in _ _ _ _ _ _ _ Hl0) in Hx as (_ & Hx & Hx2).
    pose proof (ok_min _ _ _ _ Hx). lia. }
  assert (0 <= bits) as Hbits0 by lia.
  destruct lb as [|q lb _] using rev_ind.
  - simpl in Hb1. exists None, (la ++ o :: l2).
    destruct (deleted_first bits max Hbits0 d o lim l2) as [Hd Hh]; try done.
    destruct (tail_change d (deleted d None o) la (o :: l2) o lim) as [Hd2 Hh2]; try done;
      [apply len_deleted|lia|by rewrite <- Hb1|unfold deleted; kept|].
    split; [done|]. split; [done|]. intros x e. rewrite Hh2, Hh, app_nil_r, holds_app.
    pose proof (Hbefore la x 0 c e Ha Hc1). tauto.
  - apply chain_app in Hb1 as (b & Hlb & -> & Hokq & Hbo). simpl in Hbo.
    pose proof (ok_min _ _ _ _ Hokq). pose proof (chain_le _ _ _ _ _ _ Hlb).
    rewrite last_snoc. exists (Some b), ((la ++ lb) ++ b :: l2).
    assert (b / 2 ^ bits = o / 2 ^ bits) as Hsame.
    { apply Z.le_antisymm; [apply Z.div_le_mono; lia|].
      replace (o / 2 ^ bits) with (c / 2 ^ bits); [apply Z.div_le_mono; lia|].
      unfold c. rewrite Z.mul_comm, Z.div_mul by lia. done. }
    assert (chain bits max d b lim (b :: o :: l2)) as Hcb by (simpl; rewrite Hbo; done).
    destruct (deleted_next bits max Hbits0 d b o lim l2) as [Hd Hh]; try done; try lia.
    assert (chain bits max d 0 b (la ++ lb)) as Hab by (apply chain_app; by exists c).
    destruct (tail_change d (deleted d (Some b) o) (la ++ lb) (b :: l2) b lim) as [Hd2 Hh2]; try done;
      [apply len_deleted|lia|unfold deleted; kept|].
    split; [done|]. split; [done|]. intros x e.
    rewrite Hh2, Hh. replace ((la ++ lb ++ [b]) ++ o :: l2) with ((la ++ lb) ++ b :: o :: l2)
      by (by rewrite <- !app_assoc).
    rewrite (holds_app d (la ++ lb)). pose proof (Hbefore (la ++ lb) x 0 b e Hab ltac:(lia)). tauto.
Qed.

End Pages.

(** ** The map *)

Section Map.
Context {B : BitOps} {R : RbTree} {T : Trylock} {K : Kernel}.

Definition set_rec (recs : Z -> list Z) (n : Z) (l : list Z) (j : Z) : list Z :=
  if j =? n then l else recs j.

(** One page of the directory has changed. *)
Lemma page_changed s s' ino size size' recs n p l : dir_ok s ino size recs ->
  rewritten s (ino, n) p size' s' -> usable p ->
  0 <= n < pages_of size' -> 0 <= size' < 2147483648 ->
  size' mod 2 ^ fs_blocksize_bits (v_fs s) = 0 ->
  chain (fs_blocksize_bits (v_fs s)) (es_inodes_count (fs_es (v_fs s))) (pg_data p) 0
    (page_end size' n) l ->
  (forall j, j <> n -> 0 <= j < pages_of size' <-> 0 <= j < pages_of size) ->
  (forall j, j <> n -> 0 <= j < pages_of size -> page_end size' j = page_end size j) ->
  dir_ok s' ino size' (set_rec recs n l) /\
  forall j o e, has_entry s' ino size' (set_rec recs n l) j o e <->
    j = n /\ holds (pg_data p) l o e \/ j <> n /\ has_entry s ino size recs j o e.
Proof.
  intros [H1 H2 H3 H4 H5] (Hp & Hv & Hz) Hu Hn Hs Hm Hc Hj He.
  assert (forall j, j <> n -> v_pages s' !! (ino, j) = v_pages s !! (ino, j)) as Hother
    by (intros; rewrite Hp, lookup_insert_ne by congruence; done).
  assert (v_pages s' !! (ino, n) = Some p) as Hmine by (by rewrite Hp, lookup_insert_eq).
  unfold view in Hv. injection Hv as Hv1 Hv2 Hv3 Hv4 Hv5.
  split.
  - split; rewrite ?Hv1, ?Hv2; try done; [by rewrite Hz, lookup_insert_eq|].
    intros j Hjr. unfold set_rec. destruct (Z.eqb_spec j n) as [->|Hne].
    + by exists p.
    + rewrite Hother by done. apply Hj in Hjr; [|done]. destruct (H5 j Hjr) as (q & Hq & Hqu & Hqc).
      exists q. by rewrite He.
  - intros j o e. unfold has_entry, set_rec. destruct (Z.eqb_spec j n) as [->|Hne].
    + unfold pdata. rewrite Hmine. tauto.
    + unfold pdata. rewrite Hother by done. rewrite Hj by done. tauto.
Qed.

Lemma rep_same s s' ino size size' recs recs' m : dir_rep s ino size recs m ->
  dir_ok s' ino size' recs' ->
  (forall j o e, has_entry s' ino size' recs' j o e <-> has_entry s ino size recs j o e) ->
  dir_rep s' ino size' recs' m.
Proof.
  intros [H1 H2 H3 H4] Hok Hh. split; [done| | |].
  - intros. rewrite H2. by setoid_rewrite Hh.
  - intros *. rewrite !Hh. apply H3.
  - intros *. rewrite Hh. apply H4.
Qed.

Lemma rep_insert s s' ino size size' recs recs' m n o name x t : dir_rep s ino size recs m ->
  m !! name = None -> dir_ok s' ino size' recs' -> 1 <= len name ->
  (forall j o' e, has_entry s' ino size' recs' j o' e <->
     has_entry s ino size recs j o' e \/ j = n /\ o' = o /\ e = (name, x, t)) ->
  dir_rep s' ino size' recs' (<[name := (x, t)]> m).
Proof.
  intros [H1 H2 H3 H4] Hnone Hok Hlen Hh.
  assert (forall j o' x' t', ~ has_entry s ino size recs j o' (name, x', t')) as Hno.
  { intros j o' x' t' He. assert (m !! name = Some (x', t')) by (apply H2; by exists j, o'). congruence. }
  split; [done| | |].
  - intros name' x' t'. setoid_rewrite Hh. destruct (decide (name' = name)) as [->|Hne].
    + rewrite lookup_insert_eq. split.
      * intros [= -> ->]. exists n, o. by right.
      * intros (j & o' & [He|(_ & _ & [= -> ->])]); [by apply Hno in He|done].
    + rewrite lookup_insert_ne by done. rewrite H2. split.
      * intros (j & o' & He). exists j, o'. by left.
      * intros (j & o' & [He|(_ & _ & [= ? _ _])]); [by exists j, o'|done].
  - intros j o1 j' o2 name' x1 t1 x2 t2. rewrite !Hh.
    intros [E1|(-> & -> & He1)] [E2|(-> & -> & He2)]; simplify_eq;
      [by apply (H3 _ _ _ _ _ _ _ _ _ E1 E2)|by apply Hno in E1|by apply Hno in E2|done].
  - intros j o' name' x' t'. rewrite Hh. intros [E|(_ & _ & [= -> -> ->])]; [by apply H4 in E|done].
Qed.

Lemma rep_delete s s' ino size recs recs' m n o name x t : dir_rep s ino size recs m ->
  has_entry s ino size recs n o (name, x, t) -> dir_ok s' ino size recs' ->
  (forall j o' e, has_entry s' ino size recs' j o' e <->
     has_entry s ino size recs j o' e /\ ~ (j = n /\ o' = o)) ->
  dir_rep s' ino size recs' (delete name m).
Proof.
  intros [H1 H2 H3 H4] Hin Hok Hh. split; [done| | |].
  - intros name' x' t'. setoid_rewrite Hh. destruct (decide (name' = name)) as [->|Hne].
    + rewrite lookup_delete_eq. split; [done|]. intros (j & o' & He & Hne). exfalso. apply Hne.
      apply (H3 _ _ _ _ _ _ _ _ _ He Hin).
    + rewrite lookup_delete_ne by done. rewrite H2. split.
      * intros (j & o' & He). exists j, o'. split; [done|]. intros [-> ->].
        destruct He as [_ (_ & _ & He)], Hin as [_ (_ & _ & Hin)]. congruence.
      * intros (j & o' & He & _). by exists j, o'.
  - intros *. rewrite !Hh. intros [E1 _] [E2 _]. by apply (H3 _ _ _ _ _ _ _ _ _ E1 E2).
  - intros *. rewrite Hh. intros [E _]. by apply H4 in E.
Qed.

End Map.

(** ** Sizes *)

Lemma chunk_divides bits : 10 <= bits <= 12 -> 1024 <= 2 ^ bits <= 4096 /\ 4096 mod 2 ^ bits = 0.
Proof.
  intros Hb. assert (2 ^ 10 <= 2 ^ bits) by (apply Z.pow_le_mono_r; lia).
  assert (2 ^ bits <= 2 ^ 12) by (apply Z.pow_le_mono_r; lia).
  split; [done|]. replace 4096 with (2 ^ (12 - bits) * 2 ^ bits); [apply Z_mod_mult|].
  rewrite <- Z.pow_add_r by lia. by replace (12 - bits + bits) with 12 by lia.
Qed.

Lemma multiple_gap x y c : 0 < c -> x mod c = 0 -> y mod c = 0 -> x < y -> x + c <= y.
Proof.
  intros Hc Hx Hy Hlt. assert ((y - x) mod c = 0) as Hd by (rewrite Zminus_mod, Hx, Hy; done).
  apply Z.mod_divide in Hd; [|lia]. apply Z.divide_pos_le in Hd; lia.
Qed.

Lemma page_end_chunks bits size n : 10 <= bits <= 12 -> size mod 2 ^ bits = 0 ->
  page_end size n mod 2 ^ bits = 0.
Proof.
  intros Hb Hs. destruct (chunk_divides bits Hb) as [_ H4]. unfold page_end, PAGE_SIZE.
  destruct (Z.min_spec 4096 (size - n * 4096)) as [[_ ->]|[_ ->]]; [done|].
  rewrite Zminus_mod, Hs, Zmult_mod, H4, Z.mul_0_r. done.
Qed.

(** A directory grows in the page that is not full. *)
Lemma grow_size bits size n : 10 <= bits <= 12 -> size mod 2 ^ bits = 0 -> 0 <= n ->
  n * PAGE_SIZE <= size -> page_end size n < PAGE_SIZE ->
  page_end size n + 2 ^ bits <= PAGE_SIZE /\ size = n * PAGE_SIZE + page_end size n /\
  pages_of (size + 2 ^ bits) = n + 1 /\ page_end (size + 2 ^ bits) n = page_end size n + 2 ^ bits /\
  (size + 2 ^ bits) mod 2 ^ bits = 0 /\ (n < pages_of size -> n + 1 = pages_of size) /\
  (pages_of size <= n -> n = pages_of size) /\
  (forall j, j < n -> page_end (size + 2 ^ bits) j = page_end size j).
Proof.
  intros Hb Hs Hn Hle Hlt. pose proof (page_end_chunks bits size n Hb Hs) as Hpe.
  destruct (chunk_divides bits Hb) as [Hc H4]. set (c := 2 ^ bits) in *.
  pose proof (multiple_gap (page_end size n) 4096 c ltac:(lia) Hpe H4 Hlt) as Hgap.
  rewrite !pages_of_val. unfold page_end, PAGE_SIZE in *.
  assert ((size + c) mod c = 0) by (rewrite <- (Z.mul_1_l c) at 1; by rewrite Z_mod_plus_full).
  split_and!; try done; try lia; try (Z.to_euclidean_division_equations; lia).
Qed.

(** ** [kr_add_link] *)

(** The references to a page. *)
Definition refs (s : vfs) (k : Z * Z) : Z :=
  match v_pages s !! k with Some p => pg_count p | None => 0 end.

(** An operation on the directory [ino] that leaves it [size] bytes: the rest of the
    file system is as it was, pages that have been checked apart, and every
    reference to a page has been given back. *)
Definition changed (s : vfs) (ino size : Z) (s' : vfs) : Prop :=
  view (v_fs s') = view (v_fs s) /\ sizes (v_fs s') = <[ino := size]> (sizes (v_fs s)) /\
  (forall k, refs s' k = refs s k) /\
  (forall k, k.1 <> ino ->
     v_pages s' !! k = v_pages s !! k \/ v_pages s' !! k = set_pg_checked <$> v_pages s !! k).

Lemma marked_changed s s1 ino size s' : marked s s1 -> changed s1 ino size s' -> changed s ino size s'.
Proof.
  intros [Hf Hm] (H1 & H2 & H3 & H4). rewrite Hf in *. split_and!; [done|done| |].
  - intros k. rewrite H3. unfold refs. destruct (Hm k) as [->| ->]; [done|].
    by destruct (v_pages s !! k).
  - intros k Hk. destruct (H4 k Hk) as [->| ->], (Hm k) as [E|E]; rewrite E; auto.
    right. by destruct (v_pages s !! k).
Qed.

Lemma marked_changed_same s s' ino size : marked s s' -> sizes (v_fs s) !! ino = Some size ->
  changed s ino size s'.
Proof.
  intros Hm Hs. eapply marked_changed; [exact Hm|]. split_and!; [done| |done|auto].
  destruct Hm as [-> _]. by rewrite insert_id.
Qed.

Lemma rewritten_changed s ino n p size s' : rewritten s (ino, n) p size s' ->
  pg_count p = refs s (ino, n) -> changed s ino size s'.
Proof.
  intros (Hp & Hv & Hz) Hc. split_and!; [done|done| |].
  - intros k. unfold refs at 1. rewrite Hp. destruct (decide (k = (ino, n))) as [->|Hne].
    + by rewrite lookup_insert_eq.
    + by rewrite lookup_insert_ne.
  - intros k Hk. left. rewrite Hp, lookup_insert_ne; [done|]. intros <-. done.
Qed.

Lemma changed_other s ino size s' ino' size' recs m : changed s ino size s' -> ino' <> ino ->
  dir_rep s ino' size' recs m -> dir_rep s' ino' size' recs m.
Proof.
  intros (Hv & Hz & _ & Hp) Hne Hr. pose proof (dr_ok _ _ _ _ _ Hr) as Hok.
  assert (forall n p, v_pages s !! (ino', n) = Some p -> usable p ->
    exists p', v_pages s' !! (ino', n) = Some p' /\ usable p' /\ pg_data p' = pg_data p) as Hpages.
  { intros n p Hk (? & ? & Hu). destruct (Hp (ino', n) Hne) as [E|E]; rewrite E, Hk; simpl; eexists;
      (split; [done|]); (split; [|done]); split_and!; try done. by left. }
  apply (dir_rep_same s); [done| |].
  - destruct Hok as [H1 H2 H3 H4 H5]. unfold view in Hv. injection Hv as Hv1 Hv2 Hv3 Hv4 Hv5.
    split; rewrite ?Hv1, ?Hv2; try done; [by rewrite Hz, lookup_insert_ne|].
    intros n Hn. destruct (H5 n Hn) as (p & Hk & Hu & Hc).
    destruct (Hpages n p Hk Hu) as (p' & Hk' & Hu' & Hd). exists p'. by rewrite Hd.
  - intros n Hn. destruct (do_page _ _ _ _ Hok n Hn) as (p & Hk & Hu & _).
    destruct (Hpages n p Hk Hu) as (p' & Hk' & _ & Hd). unfold pdata. by rewrite Hk, Hk'.
Qed.

Section Ops.
Context {B : BitOps} {BL : BitLaws B} {R : RbTree} {T : Trylock} {K : Kernel} {D : DirKernel}
  {DL : DirLaws D}.

(** The page after the last is in order if it is in the cache. *)
Definition next_usable (s : vfs) (ino size : Z) : Prop :=
  forall p, v_pages s !! (ino, pages_of size) = Some p -> usable p.

(** A page in order that is held, got from the state [s]. *)
Definition got_page (s : vfs) (k : Z * Z) (p : page) (s' : vfs) : Prop :=
  s' = set_page k p s /\ usable p /\ pg_checked p = true /\ pg_count p = refs s k + 1.

Lemma held_got s k p : v_pages s !! k = Some p -> usable p -> got_page s k (held p) (set_page k (held p) s).
Proof.
  intros Hk (? & ? & _). unfold got_page, refs. rewrite Hk.
  split_and!; try done. split_and!; try done. by left.
Qed.

(** Getting a page of the directory or the one after its last, which may have to be
    read. *)
Lemma get_page_next s ino size recs n : dir_ok s ino size recs -> next_usable s ino size ->
  0 <= n <= pages_of size -> n * PAGE_SIZE <= size ->
  runs (kr_get_page ino n false) never (fun r s' =>
    r = inl (- EIO) /\ s' = s \/
    r = inr (ino, n) /\ exists p, got_page s (ino, n) p s' /\
      (n < pages_of size -> exists q, v_pages s !! (ino, n) = Some q /\ p = held q)) s.
Proof.
  intros Hok Hnext Hn Hle. destruct (decide (n < pages_of size)) as [Hlt|Hge].
  - destruct (get_page_run s ino size recs n false Hok ltac:(lia)) as (p & Hk & Hu & _ & Hget).
    eapply runs_call; [exact Hget|]. right. split; [done|]. exists (held p).
    split; [by apply held_got|]. intros _. by exists p.
  - assert (n = pages_of size) as -> by lia. rewrite pages_of_val in Hle. unfold PAGE_SIZE in Hle.
    assert (pages_of size * PAGE_SIZE = size) as Hsize
      by (rewrite pages_of_val; unfold PAGE_SIZE; Z.to_euclidean_division_equations; lia).
    destruct (sizes_lookup _ _ _ (do_size _ _ _ _ Hok)) as (i & Hi & Hsz).
    assert (forall d, bytes d -> page_good (kr_chunk_size (v_fs s)) (es_inodes_count (fs_es (v_fs s))) i
      (pages_of size) d = true) as Hgood.
    { intros d Hd. unfold kr_chunk_size, fs_blocksize.
      rewrite Z.shiftl_mul_pow2, Z.mul_1_l by (pose proof (do_bits _ _ _ _ Hok); lia).
      pose proof (do_bits _ _ _ _ Hok). pose proof (do_bound _ _ _ _ Hok).
      apply page_good_spec; try done; try lia; left; lia. }
    destruct (v_pages s !! (ino, pages_of size)) as [p|] eqn:Hk.
    + pose proof (Hnext p Hk) as Hu. eapply runs_call.
      { eapply get_page_good; [exact Hi|exact Hk|apply Hu|apply Hgood, Hu]. }
      right. split; [done|]. exists (held p). split; [by apply held_got|lia].
    + unfold kr_get_page. step. unfold read_mapping_page. step. step. cbn [id]. rewrite Hk. cbn [fst snd].
      destruct (read_page (v_fs s) ino (pages_of size)) as [d|] eqn:Hd; [|step; by left].
      destruct (read_page_ok _ _ _ _ Hd) as [Hl Hb]. step. step. step. cbn [pg_checked pg_error].
      step. eapply runs_call.
      { apply (check_page_run (ino, pages_of size) i (Page d false false 1)); [exact Hi| |by apply Hgood].
        apply set_page_get. }
      cbn [negb]. step. right. split; [done|]. exists (Page d true false 1). split; [|lia].
      split_and!; [apply set_page_twice|split_and!; try done; by left|done|].
      unfold refs. by rewrite Hk.
Qed.

(** The entries of the directory are still where they were. *)
Definition entries_kept (s : vfs) (ino size : Z) (recs : Z -> list Z) (s' : vfs) (size' : Z)
    (recs' : Z -> list Z) : Prop :=
  forall n o e, has_entry s ino size recs n o e -> has_entry s' ino size' recs' n o e.

Lemma marked_has_entry s s' ino size recs n o e : marked s s' ->
  has_entry s' ino size recs n o e <-> has_entry s ino size recs n o e.
Proof. intros Hm. unfold has_entry. by rewrite (marked_data s s'). Qed.

(** What adding the entry [e] under [name] comes to. *)
Definition add_result (s : vfs) (dir size : Z) (recs : Z -> list Z) (m : gmap (list Z) (Z * Z))
    (name : list Z) (ino t : Z) (r : Z) (s' : vfs) : Prop :=
  r <= 0 /\
  ((exists size' recs', changed s dir size' s' /\
      dir_rep s' dir size' recs' (<[name := (ino, t)]> m) /\
      entries_kept s dir size recs s' size' recs') \/
   r < 0 /\ changed s dir size s' /\ exists recs', dir_rep s' dir size recs' m /\
     entries_kept s dir size recs s' size recs').

Lemma marked_add_result s s1 dir size recs m name ino t r s' : marked s s1 ->
  add_result s1 dir size recs m name ino t r s' -> add_result s dir size recs m name ino t r s'.
Proof.
  intros Hm (Hr & H). split; [done|].
  destruct H as [(sz & rc & Hc & Hd & Hk)|(Hlt & Hc & rc & Hd & Hk)]; [left; exists sz, rc|right].
  - split_and!; [by eapply marked_changed|done|]. intros n o e He. apply Hk. by apply (marked_has_entry s).
  - split_and!; [done|by eapply marked_changed|]. exists rc. split; [done|].
    intros n o e He. apply Hk. by apply (marked_has_entry s).
Qed.

Lemma dir_names s ino size recs m n p : dir_rep s ino size recs m -> 0 <= n < pages_of size ->
  v_pages s !! (ino, n) = Some p -> bytes (pg_data p) -> len (pg_data p) = PAGE_SIZE ->
  chain (fs_blocksize_bits (v_fs s)) (es_inodes_count (fs_es (v_fs s))) (pg_data p) 0
    (page_end size n) (recs n) -> named (pg_data p) (recs n).
Proof.
  intros Hr Hn Hk Hb Hl Hc x Hx Hnz.
  destruct (chain_in _ _ _ _ _ _ _ Hc Hx) as (Hx0 & Hok & Hx1).
  pose proof (name_fits _ _ _ _ Hb Hok). pose proof (get8_bytes (pg_data p) (x + 6) Hb) as Hnl.
  assert (page_end size n <= PAGE_SIZE) by (unfold page_end; lia).
  assert (1 <= len (de_name (pg_data p) x)) as Hlen.
  { apply (dr_named _ _ _ _ _ Hr n x _ (de_inode (pg_data p) x) (de_file_type (pg_data p) x)).
    split; [done|]. unfold pdata. rewrite Hk. done. }
  unfold de_name in Hlen. rewrite len_sub in Hlen by (unfold de_name_len in *; lia). done.
Qed.

(** A page has been rewritten, with the entries it had. *)
Lemma rewritten_same s s' dir size recs m n p : dir_rep s dir size recs m ->
  rewritten s (dir, n) p size s' -> usable p -> 0 <= n ->
  (n < pages_of size -> same_on (pdata s (dir, n)) (pg_data p) 0 (page_end size n)) ->
  exists recs', dir_rep s' dir size recs' m /\ entries_kept s dir size recs s' size recs'.
Proof.
  intros Hr Hrw Hu Hn Hs. pose proof (dr_ok _ _ _ _ _ Hr) as Hok.
  destruct (decide (n < pages_of size)) as [Hlt|Hge].
  - destruct (do_page _ _ _ _ Hok n ltac:(lia)) as (q & Hk & (Hql & Hqb & _) & Hc).
    assert (pdata s (dir, n) = pg_data q) as Hq by (unfold pdata; by rewrite Hk).
    specialize (Hs Hlt). rewrite Hq in Hs. assert (page_end size n <= PAGE_SIZE) by (unfold page_end; lia).
    destruct (chain_same (fs_blocksize_bits (v_fs s)) (es_inodes_count (fs_es (v_fs s)))
      (pg_data q) (pg_data p) 0 (page_end size n) (recs n)) as [Hc' Hsr]; try done;
      [destruct Hu; lia|lia|].
    destruct (page_changed s s' dir size size recs n p (recs n)) as [Hok' Hh]; try done;
      [apply Hok..|].
    assert (forall j o e, has_entry s' dir size (set_rec recs n (recs n)) j o e <->
      has_entry s dir size recs j o e) as Hiff.
    { intros j o e. rewrite Hh. unfold has_entry. rewrite (holds_same (pg_data q)) by done.
      destruct (decide (j = n)) as [->|Hne]; [rewrite Hq|]; intuition lia. }
    exists (set_rec recs n (recs n)). split; [by apply (rep_same s s' dir size size recs)|].
    intros j o e. apply Hiff.
  - exists recs. destruct Hrw as (Hp & Hv & Hz).
    assert (forall j, 0 <= j < pages_of size -> v_pages s' !! (dir, j) = v_pages s !! (dir, j)) as Hsame.
    { intros j Hj. rewrite Hp, lookup_insert_ne; [done|]. intros [= ?]. lia. }
    split; [apply (dir_rep_same s); [done| |]|].
    + destruct Hok as [H1 H2 H3 H4 H5]. unfold view in Hv. injection Hv as Hv1 Hv2 Hv3 Hv4 Hv5.
      split; rewrite ?Hv1, ?Hv2; try done; [by rewrite Hz, lookup_insert_eq|].
      intros j Hj. rewrite Hsame by done. by apply H5.
    + intros j Hj. unfold pdata. by rewrite Hsame.
    + intros j o e [Hj He]. split; [done|]. unfold pdata. by rewrite Hsame.
Qed.

Lemma rewritten_got s k p q size s1 s' : got_page s k p s1 -> rewritten s1 k q size s' ->
  rewritten s k q size s'.
Proof.
  intros (-> & _) (Hp & Hv & Hz). split_and!; [|done|done].
  rewrite Hp. cbn [v_pages set_page set_v_pages]. by rewrite insert_insert_eq.
Qed.

Lemma usable_put p d : pg_checked p = true -> len d = PAGE_SIZE -> bytes d ->
  usable (add_pg_count (-1) (set_pg_data d p)).
Proof. intros. split_and!; [done|done|by left]. Qed.

(** Where the new entry goes, and the page with it. *)
Lemma added_result s dir size recs m n p s1 s' size' d' l' o' name ino t r :
  dir_rep s dir size recs m -> m !! name = None -> name_ok name ->
  got_page s (dir, n) p s1 -> 0 <= n -> len d' = PAGE_SIZE -> bytes d' ->
  rewritten s1 (dir, n) (add_pg_count (-1) (set_pg_data d' p)) size' s' ->
  (forall l, l = (if n <? pages_of size then recs n else []) ->
     forall x e, holds d' l' x e <-> holds (pg_data p) l x e \/ x = o' /\ e = (name, ino, t)) ->
  (n < pages_of size -> pg_data p = pdata s (dir, n)) ->
  0 <= n < pages_of size' -> 0 <= size' < 2147483648 ->
  size' mod 2 ^ fs_blocksize_bits (v_fs s) = 0 ->
  chain (fs_blocksize_bits (v_fs s)) (es_inodes_count (fs_es (v_fs s))) d' 0 (page_end size' n) l' ->
  (forall j, j <> n -> 0 <= j < pages_of size' <-> 0 <= j < pages_of size) ->
  (forall j, j <> n -> 0 <= j < pages_of size -> page_end size' j = page_end size j) ->
  r <= 0 -> add_result s dir size recs m name ino t r s'.
Proof.
  intros Hr Hnone Hname Hgot Hn Hl Hb Hrw Hh Hpd Hn' Hsz Hmod Hc Hj He Hr0. split; [done|]. left.
  pose proof (rewritten_got _ _ _ _ _ _ _ Hgot Hrw) as Hrw'. destruct Hgot as (_ & _ & Hck & Hcnt).
  destruct (page_changed s s' dir size size' recs n _ l' (dr_ok _ _ _ _ _ Hr) Hrw') as [Hok' Hent];
    try done; [by apply usable_put|].
  assert (forall j x e, has_entry s' dir size' (set_rec recs n l') j x e <->
    has_entry s dir size recs j x e \/ j = n /\ x = o' /\ e = (name, ino, t)) as Hiff; [|exists size', (set_rec recs n l'); split_and!].
  - intros j x e. rewrite Hent. cbn [pg_data add_pg_count set_pg_data]. rewrite (Hh _ eq_refl). unfold has_entry.
    destruct (Z.ltb_spec n (pages_of size)) as [Hlt|Hge].
    + rewrite Hpd by done. split.
      * intros [(-> & [?|[-> ->]])|(? & ? & ?)]; [left; split; [lia|done]|by right|by left].
      * intros [[? Hx]|(-> & -> & ->)]; [|left; tauto].
        destruct (decide (j = n)) as [->|]; [left; tauto|by right].
    + split.
      * intros [(-> & [(Hx & _)|[-> ->]])|(? & ? & ?)]; [by apply elem_of_nil in Hx|by right|by left].
      * intros [[? Hx]|(-> & -> & ->)]; [|left; tauto]. right. split; [lia|done].
  - eapply rewritten_changed; [exact Hrw'|]. simpl. rewrite Hcnt. unfold refs. lia.
  - eapply (rep_insert s); [exact Hr|done|done|destruct Hname; lia|exact Hiff].
  - intros j x e Hx. apply Hiff. by left.
Qed.

Lemma rewritten_over s k p q size s' : rewritten (set_page k p s) k q size s' ->
  rewritten s k q size s'.
Proof.
  intros (Hp & Hv & Hz). split_and!; [|done|done].
  rewrite Hp. cbn [v_pages set_page set_v_pages]. by rewrite insert_insert_eq.
Qed.

(** What the name and the inode of a new entry must be. *)
Record new_entry (s : vfs) (name : list Z) (ino t : Z) : Prop := {
  ne_name : name_ok name;
  ne_mode : exists mode, modes (v_fs s) !! ino = Some mode /\
    de_type (es_feature_incompat (fs_es (v_fs s))) mode = Some t;
  ne_ino : 0 < ino < 4294967296;
  ne_max : ino <= es_inodes_count (fs_es (v_fs s));
}.

Lemma new_entry_byte s name ino t : new_entry s name ino t -> 0 <= t < 256.
Proof. intros [_ (mode & _ & Ht) _ _]. by eapply de_type_byte. Qed.

Lemma new_entry_view s s' name ino t : view (v_fs s') = view (v_fs s) -> new_entry s name ino t ->
  new_entry s' name ino t.
Proof.
  unfold view. intros [= H1 H2 H3 H4 H5] [? (mode & ? & ?) ? ?].
  split; rewrite ?H2; try done. exists mode. by rewrite H4, H3.
Qed.

Lemma add_unchanged s dir size recs m n p s1 s' name ino t r : dir_rep s dir size recs m ->
  got_page s (dir, n) p s1 -> 0 <= n -> r < 0 ->
  (forall d, len d = PAGE_SIZE -> bytes d ->
     (n < pages_of size -> same_on (pdata s (dir, n)) d 0 (page_end size n)) ->
   rewritten s1 (dir, n) (add_pg_count (-1) (set_pg_data d p)) size s' ->
   add_result s dir size recs m name ino t r s').
Proof.
  intros Hr Hgot Hn Hlt d Hl Hb Hsame Hrw. split; [lia|]. right. split; [done|].
  pose proof (rewritten_got _ _ _ _ _ _ _ Hgot Hrw) as Hrw'. destruct Hgot as (_ & _ & Hck & Hcnt).
  split.
  - eapply rewritten_changed; [exact Hrw'|]. simpl. rewrite Hcnt. unfold refs. lia.
  - eapply (rewritten_same s s'); [exact Hr|exact Hrw'|by apply usable_put|done|exact Hsame].
Qed.

(** The entry goes into a record with room. *)
Lemma add_in_room s dir size recs m n p s1 o name ino t : dir_rep s dir size recs m ->
  m !! name = None -> new_entry s name ino t -> got_page s (dir, n) p s1 ->
  0 <= n < pages_of size -> pg_data p = pdata s (dir, n) ->
  chain (fs_blocksize_bits (v_fs s)) (es_inodes_count (fs_es (v_fs s))) (pg_data p) 0
    (page_end size n) (recs n) -> named (pg_data p) (recs n) ->
  o ∈ recs n -> roomy (pg_data p) o (KR_DIR_REC_LEN (len name)) ->
  runs (got_room (dir, n) o (u16 (KR_DIR_REC_LEN (de_name_len (pg_data p) o)))
          (u16 (de_rec_len (pg_data p) o)) name ino) only_panic
    (add_result s dir size recs m name ino t) s1.
Proof.
  intros Hr Hnone Hne Hgot Hn Hpd Hc Hnamed Ho Hroom. pose proof (dr_ok _ _ _ _ _ Hr) as Hok.
  pose proof (new_entry_byte _ _ _ _ Hne) as Ht. destruct Hne as [Hname (mode & Hmode & Htype) Hino Hmax].
  assert (page_end size n <= PAGE_SIZE /\ page_end size n <= size - n * PAGE_SIZE) as [He1 He2]
    by (unfold page_end; lia).
  pose proof Hgot as (Hs1 & (Hl & Hb & _) & Hck & _).
  assert (v_pages s1 !! (dir, n) = Some p) as Hk1 by (rewrite Hs1; apply set_page_get).
  assert (v_fs s1 = v_fs s) as Hf1 by by rewrite Hs1.
  destruct (chain_in _ _ _ _ _ _ _ Hc Ho) as (Ho0 & _ & Hfit).
  pose proof (get16_bytes (pg_data p) (o + 4) Hb) as Hr16. fold (de_rec_len (pg_data p) o) in Hr16.
  eapply runs_mono; [apply (got_room_spec s1 (dir, n) p size _ _ _ _ _ mode t Hk1); rewrite Hf1;
    try done; apply Hok|].
  intros r s' (Hr0 & [Hrw|[Hlt Hrw]]).
  - destruct (room_added (fs_blocksize_bits (v_fs s)) (es_inodes_count (fs_es (v_fs s)))
      (do_bits _ _ _ _ Hok) (pg_data p) (recs n) o (page_end size n) name ino t)
      as (Hl' & Hb' & l' & o' & Hc' & Hh); try done; [lia|].
    cbn [snd] in Hrw. rewrite (u16_small (de_rec_len _ _)) in Hrw at 2 by lia.
    replace (Z.max size _) with size in Hrw.
    2: { unfold PAGE_SHIFT. rewrite Z.shiftl_mul_pow2 by lia. change (2 ^ 12) with PAGE_SIZE. lia. }
    eapply added_result; try exact Hrw; try done; try lia; try (by apply Hok).
    intros l ->. destruct (Z.ltb_spec n (pages_of size)); [done|lia].
  - eapply (add_unchanged _ _ _ _ _ _ _ _ _ _ _ _ _ Hr Hgot ltac:(lia) Hlt (pg_data p)); try done.
    intros _. rewrite Hpd. by intros j Hj.
Qed.

(** The records of the page [n], or of the page after the last. *)
Definition recs_of (size : Z) (recs : Z -> list Z) (n : Z) : list Z :=
  if n <? pages_of size then recs n else [].

(** The entry goes into a new chunk at the end of the directory. *)
Lemma add_at_end s dir size recs m n p s1 name ino t : dir_rep s dir size recs m ->
  m !! name = None -> new_entry s name ino t -> got_page s (dir, n) p s1 ->
  0 <= n -> n * PAGE_SIZE <= size -> size + PAGE_SIZE < 2147483648 ->
  (n < pages_of size -> pg_data p = pdata s (dir, n)) ->
  chain (fs_blocksize_bits (v_fs s)) (es_inodes_count (fs_es (v_fs s))) (pg_data p) 0
    (page_end size n) (recs_of size recs n) ->
  page_end size n < PAGE_SIZE ->
  let o := page_end size n in
  let chunk_size := kr_chunk_size (v_fs s1) in
  runs (upd_data (dir, n) (fun d => put32 (put16 d (o + 4) (kr_rec_len_to_disk chunk_size)) o 0) ;;
        err ← got_room (dir, n) o 0 (u16 chunk_size) name ino; mret (inr err)) only_panic
    (fun (r : Z + Z) s' => match r with
                 | inl _ => False
                 | inr r => add_result s dir size recs m name ino t r s'
                 end) s1.
Proof.
  intros Hr Hnone Hne Hgot Hn Hle Hbig Hpd Hc Hlt o chunk_size. pose proof (dr_ok _ _ _ _ _ Hr) as Hok.
  pose proof (new_entry_byte _ _ _ _ Hne) as Ht. destruct Hne as [Hname (mode & Hmode & Htype) Hino Hmax].
  pose proof Hgot as (Hs1 & (Hl & Hb & _) & Hck & _).
  assert (v_pages s1 !! (dir, n) = Some p) as Hk1 by (rewrite Hs1; apply set_page_get).
  assert (v_fs s1 = v_fs s) as Hf1 by by rewrite Hs1.
  pose proof (do_bits _ _ _ _ Hok) as Hbits. set (bits := fs_blocksize_bits (v_fs s)) in *.
  assert (chunk_size = 2 ^ bits) as ->.
  { unfold chunk_size, kr_chunk_size, fs_blocksize. rewrite Hf1, Z.shiftl_mul_pow2 by lia. fold bits. lia. }
  destruct (grow_size bits size n Hbits (do_chunks _ _ _ _ Hok) Hn Hle Hlt)
    as (Hg1 & Hg2 & Hg3 & Hg4 & Hg5 & Hg6 & Hg7 & Hg8). fold o in Hg1, Hg2, Hg4.
  destruct (chunk_divides bits Hbits) as [Hch _].
  pose proof (page_end_chunks bits size n Hbits (do_chunks _ _ _ _ Hok)) as Hal.
  assert (0 <= o) as Ho0 by (unfold o, page_end; lia).
  step. run upd_data_run; [exact Hk1|].
  set (d1 := put32 (put16 (pg_data p) (o + 4) (kr_rec_len_to_disk (2 ^ bits))) o 0).
  assert (len d1 = PAGE_SIZE /\ bytes d1) as [Hl1 Hb1]
    by (unfold d1; autorewrite with kr; auto with kr).
  step. eapply runs_mono.
  { apply (got_room_spec (set_page (dir, n) (set_pg_data d1 p) s1) (dir, n) (set_pg_data d1 p) size
      o 0 (u16 (2 ^ bits)) name ino mode t); [apply set_page_get|..];
      cbn [v_fs set_page set_v_pages]; rewrite Hf1; try done; apply Hok. }
  intros r s' (Hr0 & Hend). step. destruct Hend as [Hrw|[Hneg Hrw]]; apply rewritten_over in Hrw.
  - destruct (chunk_added bits (es_inodes_count (fs_es (v_fs s))) Hbits (pg_data p)
      (recs_of size recs n) o name ino t) as (Hl' & Hb' & Hc' & Hh); try done; [lia|].
    fold d1 in Hl', Hb', Hc', Hh. cbn [snd pg_data set_pg_data] in Hrw.
    replace (Z.max size _) with (size + 2 ^ bits) in Hrw.
    2: { unfold PAGE_SHIFT. rewrite Z.shiftl_mul_pow2, u16_small by lia.
         change (2 ^ 12) with PAGE_SIZE. lia. }
    eapply (added_result s dir size recs m n p s1 s' (size + 2 ^ bits)); try exact Hrw; try done; try lia.
    + intros l ->. exact Hh.
    + pose proof (do_bound _ _ _ _ Hok). lia.
    + rewrite Hg4. exact Hc'.
    + intros j Hj Hjr. apply Hg8. lia.
  - eapply (add_unchanged _ _ _ _ _ _ _ _ _ _ _ _ _ Hr Hgot ltac:(lia) Hneg d1); try done.
    intros Hlt'. rewrite <- Hpd by done. fold o. unfold d1. kept.
Qed.

Lemma last_page_end size n : 0 <= size -> pages_of size <= n -> n * PAGE_SIZE <= size ->
  page_end size n = 0.
Proof.
  rewrite pages_of_val. unfold page_end, PAGE_SIZE. intros.
  Z.to_euclidean_division_equations; lia.
Qed.

Lemma recs_chain s ino size recs n d : dir_ok s ino size recs -> 0 <= n <= pages_of size ->
  n * PAGE_SIZE <= size -> (n < pages_of size -> d = pdata s (ino, n)) ->
  chain (fs_blocksize_bits (v_fs s)) (es_inodes_count (fs_es (v_fs s))) d 0
    (page_end size n) (recs_of size recs n).
Proof.
  intros Hok Hn Hle Hd. unfold recs_of. destruct (Z.ltb_spec n (pages_of size)) as [Hlt|Hge].
  - destruct (do_page _ _ _ _ Hok n ltac:(lia)) as (q & Hk & _ & Hc). rewrite Hd by done.
    unfold pdata. by rewrite Hk.
  - simpl. pose proof (do_bound _ _ _ _ Hok). by rewrite last_page_end by lia.
Qed.

Lemma add_turn_spec s dir size recs m name ino t n : dir_rep s dir size recs m ->
  next_usable s dir size -> m !! name = None -> new_entry s name ino t ->
  size + PAGE_SIZE < 2147483648 -> 0 <= n <= pages_of size -> n * PAGE_SIZE <= size ->
  runs (add_turn dir name ino n) only_panic (fun r s' =>
    match r with
    | inl n' => n' = n + 1 /\ n < pages_of size /\ (n + 1) * PAGE_SIZE <= size /\ marked s s'
    | inr r => add_result s dir size recs m name ino t r s'
    end) s.
Proof.
  intros Hr Hnext Hnone Hne Hbig Hn Hle. pose proof (dr_ok _ _ _ _ _ Hr) as Hok.
  destruct (sizes_lookup _ _ _ (do_size _ _ _ _ Hok)) as (i & Hi & Hsz).
  pose proof (do_bound _ _ _ _ Hok) as Hbd. unfold add_turn. step. run dir_inode_run; [done|]. step.
  eapply runs_weaken; [apply (get_page_next s dir size recs n Hok Hnext Hn Hle)|done|].
  intros r s1 [[-> ->]|[-> (p & Hgot & Hheld)]].
  { step. split; [done|]. right. split; [done|]. split; [|exists recs; split; [done|by intros j o e [? ?]]].
    apply marked_changed_same; [apply marked_refl|apply Hok]. }
  pose proof Hgot as (Hs1 & (Hl & Hb & _) & Hck & Hcnt).
  assert (v_pages s1 !! (dir, n) = Some p) as Hk1 by (rewrite Hs1; apply set_page_get).
  assert (n < pages_of size -> pg_data p = pdata s (dir, n)) as Hpd.
  { intros Hlt. destruct (Hheld Hlt) as (q & Hq & ->). unfold pdata. by rewrite Hq. }
  pose proof (recs_chain s dir size recs n (pg_data p) Hok Hn Hle Hpd) as Hc.
  assert (v_fs s1 = v_fs s) as Hf1 by by rewrite Hs1.
  assert (0 <= page_end size n <= PAGE_SIZE) as Hpe by (unfold page_end, PAGE_SIZE in *; lia).
  cbv zeta. step. run page_data_run; [exact Hk1|]. step. step. cbv zeta.
  rewrite last_byte_end by (rewrite Hsz; lia || done). rewrite Hsz.
  pose proof (find_room_spec _ _ (pg_data p) name (page_end size n) Hb Hl ltac:(lia) page_fuel 0
    (recs_of size recs n) ltac:(lia) Hc (page_fuel_ok (page_end size n) ltac:(lia))) as Hf.
  pose proof (rec_len_short (len name) ltac:(destruct Hne as [[_ ?] _ _ _]; lia)) as Hrl.
  assert (forall x, x ∈ recs_of size recs n -> n < pages_of size /\ x ∈ recs n) as Hin.
  { intros x. unfold recs_of. destruct (Z.ltb_spec n (pages_of size)); [done|].
    by intros Hx%elem_of_nil. }
  destruct (find_room _ _ _ _ _ _ _) as [o|o nl rl| | |].
  - destruct Hf as [-> Hroom]. eapply runs_mono.
    { eapply (add_at_end s dir size recs m n p s1); try done; [lia|]. pose proof (len_nonneg name). lia. }
    by intros [?|r] s'.
  - destruct Hf as (Ho & -> & -> & Hroom). destruct (Hin _ Ho) as [Hlt Ho'].
    assert (recs_of size recs n = recs n) as Hrecs by (unfold recs_of; destruct (Z.ltb_spec n (pages_of size)); [done|lia]).
    rewrite Hrecs in Hc. destruct (Hheld Hlt) as (q & Hq & ->). step. eapply runs_mono.
    { eapply (add_in_room s dir size recs m n (held q) s1); try done; [lia|by apply Hpd|].
      apply (dir_names s dir size recs m n q); try done; lia. }
    intros r s' Hres. by step.
  - destruct Hf as (x & Hx & Hnm). exfalso. destruct (Hin _ Hx) as [Hlt Hx'].
    rewrite Hpd in Hnm by done. destruct Hnm as [Hnz Hnm].
    assert (m !! name = Some (de_inode (pdata s (dir, n)) x, de_file_type (pdata s (dir, n)) x)) as Hsome.
    { apply (dr_map _ _ _ _ _ Hr). exists n, x. split; [lia|]. split_and!; [done|done|].
      unfold entry. by rewrite Hnm. }
    congruence.
  - done.
  - pose proof (do_bits _ _ _ _ Hok) as Hbits. destruct (chunk_divides _ Hbits) as [Hch H4].
    pose proof (page_end_chunks _ size n Hbits (do_chunks _ _ _ _ Hok)) as Hal.
    assert (page_end size n = PAGE_SIZE) as Hfull.
    { destruct (decide (page_end size n < PAGE_SIZE)) as [Hlt|]; [|lia].
      pose proof (multiple_gap (page_end size n) PAGE_SIZE (2 ^ fs_blocksize_bits (v_fs s)) ltac:(lia) Hal H4 Hlt). lia. }
    assert (n < pages_of size) as Hlt.
    { destruct (decide (n < pages_of size)); [done|].
      rewrite last_page_end in Hfull by lia. unfold PAGE_SIZE in Hfull. lia. }
    destruct (Hheld Hlt) as (q & Hq & ->). rewrite Hs1. step. run put_held; [exact Hq|]. step.
    split_and!; [done|done| |by apply marked_page]. unfold page_end in Hfull. lia.
Qed.

Lemma marked_next_usable s s' ino size : marked s s' -> next_usable s ino size ->
  next_usable s' ino size.
Proof.
  intros [_ Hm] Hn p Hk. destruct (Hm (ino, pages_of size)) as [E|E]; rewrite E in Hk; [by apply Hn|].
  apply fmap_Some in Hk as (q & Hq & ->). destruct (Hn q Hq) as (? & ? & _). split_and!; auto.
Qed.

Lemma marked_new_entry s s' name ino t : marked s s' -> new_entry s name ino t -> new_entry s' name ino t.
Proof. intros [Hf _]. apply new_entry_view. by rewrite Hf. Qed.

(** Adding an entry returns: the directory stands for its map with the name, or an
    error has left the map alone. *)
Lemma kr_add_link_spec s dir size recs m name ino t : dir_rep s dir size recs m ->
  next_usable s dir size -> m !! name = None -> new_entry s name ino t ->
  size + PAGE_SIZE < 2147483648 ->
  runs (kr_add_link dir name ino) only_panic (add_result s dir size recs m name ino t) s.
Proof.
  intros Hr Hnext Hnone Hne Hbig. pose proof (dr_ok _ _ _ _ _ Hr) as Hok.
  destruct (sizes_lookup _ _ _ (do_size _ _ _ _ Hok)) as (i & Hi & Hsz).
  pose proof (do_bound _ _ _ _ Hok) as Hbd.
  unfold kr_add_link. step. run dir_inode_run; [done|].
  change (dir_pages i) with (pages_of (i_size i)). rewrite Hsz.
  assert (forall fuel n s1, marked s s1 -> 0 <= n -> n * PAGE_SIZE <= size ->
    n + Z.of_nat fuel = pages_of size + 1 -> (0 < fuel)%nat ->
    runs (add_pages fuel dir name ino n) only_panic (add_result s dir size recs m name ino t) s1) as Hloop.
  { induction fuel as [|fuel IH]; intros n s1 Hm Hn Hle Hf Hpos; [lia|]. cbn [add_pages]. step.
    eapply runs_mono.
    { apply (add_turn_spec s1 dir size recs m name ino t n); try done; try lia;
        [by apply (marked_rep s)|by apply (marked_next_usable s)|by apply (marked_new_entry s)]. }
    intros [n'|r] s2; cbv beta iota.
    - intros (-> & Hlt & Hle' & Hm'). apply IH; [by eapply marked_trans|lia|done|lia|lia].
    - intros Hres. step. by eapply marked_add_result. }
  apply Hloop; [apply marked_refl|lia|lia| |lia].
  assert (0 <= pages_of size) by (rewrite pages_of_val; Z.to_euclidean_division_equations; lia). lia.
Qed.

(** ** Finding by the map *)

Lemma started_view ino n fs : view (started ino n fs) = view fs.
Proof. by apply upd_view. Qed.
Lemma started_sizes ino n fs : sizes (started ino n fs) = sizes fs.
Proof. by apply upd_sizes. Qed.

(** The page [k] is held once more than in [s], with the file system the same but
    for where the next search starts. *)
Lemma found_rep s ino size recs m name n o s' : dir_rep s ino size recs m ->
  0 <= n < pages_of size -> found_at s ino recs name n o s' ->
  dir_rep s' ino size recs m /\ changed s ino size (set_page (ino, n)
    (add_pg_count (-1) (default (Page [] false false 0) (v_pages s' !! (ino, n)))) s') /\
  refs s' (ino, n) = refs s (ino, n) + 1 /\
  exists x t, has_entry s' ino size recs n o (name, x, t) /\ m !! name = Some (x, t).
Proof.
  intros Hr Hn (Ho & [Hnz Hnm] & s1 & p & Hm & Hk & ->).
  pose proof (marked_rep _ _ _ _ _ _ Hm Hr) as Hr1.
  set (s' := set_v_fs (started ino n (v_fs s)) (set_page (ino, n) (held p) s1)).
  assert (v_pages s' !! (ino, n) = Some (held p)) as Hk' by (unfold s'; simpl; by rewrite lookup_insert_eq).
  assert (dir_rep s' ino size recs m) as Hr'.
  { apply (dir_rep_same s1); [done| |].
    - apply (dir_ok_pages s1); [apply Hr1| | |].
      + unfold s'. cbn [v_fs set_v_fs]. by rewrite started_view, (proj1 Hm).
      + unfold s'. cbn [v_fs set_v_fs]. by rewrite started_sizes, (proj1 Hm).
      + intros j q Hq (? & ? & ?). destruct (decide (j = n)) as [->|Hne].
        * exists (held p). assert (q = p) as -> by congruence. split_and!; try done. split_and!; try done. by left.
        * exists q. unfold s'. simpl. rewrite lookup_insert_ne by congruence. done.
    - intros j Hj. unfold pdata, s'. simpl. destruct (decide (j = n)) as [->|Hne].
      + by rewrite lookup_insert_eq, Hk.
      + by rewrite lookup_insert_ne by congruence. }
  assert (has_entry s' ino size recs n o (name, de_inode (pg_data p) o, de_file_type (pg_data p) o)) as He.
  { rewrite <- (marked_data s s1) in Hnm, Hnz by done. unfold pdata in Hnm, Hnz. rewrite Hk in Hnm, Hnz.
    split; [done|]. unfold pdata. rewrite Hk'. split_and!; [done|done|]. unfold entry. simpl. by rewrite Hnm. }
  assert (refs s1 (ino, n) = refs s (ino, n)) as Href.
  { unfold refs. destruct (proj2 Hm (ino, n)) as [->| ->]; [done|]. by destruct (v_pages s !! _). }
  assert (pg_count p = refs s (ino, n)) as Hcnt by (rewrite <- Href; unfold refs; by rewrite Hk).
  split; [done|]. split; [|split].
  - rewrite Hk'. simpl. split_and!.
    + cbn [v_fs set_page set_v_pages]. unfold s'. cbn [v_fs set_v_fs]. apply started_view.
    + cbn [v_fs set_page set_v_pages]. unfold s'. cbn [v_fs set_v_fs]. rewrite started_sizes.
      by rewrite insert_id by apply Hr.
    + intros k. unfold refs at 1. simpl. destruct (decide (k = (ino, n))) as [->|Hne].
      * rewrite lookup_insert_eq. simpl. lia.
      * rewrite !lookup_insert_ne by done. fold (refs s1 k). unfold refs.
        destruct (proj2 Hm k) as [->| ->]; [done|]. by destruct (v_pages s !! _).
    + intros k Hne. simpl. rewrite !lookup_insert_ne by (intros <-; done). apply Hm.
  - unfold refs at 1. rewrite Hk'. simpl. lia.
  - exists (de_inode (pg_data p) o), (de_file_type (pg_data p) o). split; [done|].
    apply (dr_map _ _ _ _ _ Hr'). by exists n, o.
Qed.

(** ** Deleting *)

(** [s'] is [s] after an operation on the directory [k.1] of [size] bytes that has
    given back one reference to its page [k]. *)
Definition released (s : vfs) (k : Z * Z) (size : Z) (s' : vfs) : Prop :=
  view (v_fs s') = view (v_fs s) /\ sizes (v_fs s') = <[k.1 := size]> (sizes (v_fs s)) /\
  (forall j, refs s' j = refs s j - if decide (j = k) then 1 else 0) /\
  (forall j, j.1 <> k.1 ->
     v_pages s' !! j = v_pages s !! j \/ v_pages s' !! j = set_pg_checked <$> v_pages s !! j).

Lemma rewritten_released s k p size s' : rewritten s k p size s' -> pg_count p = refs s k - 1 ->
  released s k size s'.
Proof.
  intros (Hp & Hv & Hz) Hc. split_and!; [done|done| |].
  - intros j. unfold refs at 1. rewrite Hp. destruct (decide (j = k)) as [->|Hne].
    + by rewrite lookup_insert_eq.
    + rewrite lookup_insert_ne by done. fold (refs s j). lia.
  - intros j Hj. left. rewrite Hp, lookup_insert_ne; [done|]. by intros <-.
Qed.

Definition panic_or_bug (w : stop) : Prop := w = Panic \/ w = BugOn.

(** Deleting an entry whose page is held: the directory stands for its map without
    the name.  The [BUG_ON] is that of a chunk that cannot be written to. *)
Lemma kr_delete_entry_spec s dir size recs m n o name x t : dir_rep s dir size recs m ->
  has_entry s dir size recs n o (name, x, t) ->
  runs (kr_delete_entry (dir, n) o) panic_or_bug (fun r s' => r <= 0 /\
    released s (dir, n) size s' /\ exists recs', dir_rep s' dir size recs' (delete name m)) s.
Proof.
  intros Hr Hent. pose proof Hent as (Hn & Ho & _). pose proof (dr_ok _ _ _ _ _ Hr) as Hok.
  destruct (do_page _ _ _ _ Hok n Hn) as (p & Hk & (Hl & Hb & Hu) & Hc).
  pose proof (do_bits _ _ _ _ Hok) as Hbits.
  assert (page_end size n <= PAGE_SIZE) as Hpe by (unfold page_end; lia).
  unfold kr_delete_entry. step. run page_data_run; [exact Hk|]. step. step. cbv zeta.
  unfold kr_chunk_size, fs_blocksize. cbn [id].
  rewrite Z.shiftl_mul_pow2, Z.mul_1_l by lia.
  destruct (entry_deleted _ _ Hbits (pg_data p) (recs n) o (page_end size n) Hb ltac:(lia) Hpe Hc Ho)
    as (pde & l' & -> & Hc' & Hh).
  step. eapply runs_weaken; [apply (prepare_spec s (dir, n) size); apply Hok|by left|].
  intros err s1 (Herr & Hp1 & Hv1 & Hz1).
  step. unfold bug_on. destruct (negb (err =? 0)); [by right|]. step.
  step. run upd_data_run; [by rewrite Hp1|].
  set (p1 := set_pg_data _ p).
  assert (p1 = set_pg_data (deleted (pg_data p) pde o) p) as Hp1' by (by destruct pde).
  step. call (commit_spec panic_or_bug (set_page (dir, n) p1 s1) (dir, n) size);
    [cbn [v_fs set_page set_v_pages]; rewrite Hz1; apply lookup_insert_eq|].
  intros r s2 (Hr2 & H2). step.
  call (touch_dir_spec panic_or_bug s2 dir _ true (settled_size _ _ _ _ H2)). intros _ s3 H3.
  pose proof (settled_trans _ _ _ _ _ _ H2 H3) as (Hp3 & Hv3 & Hz3).
  step. run put_page_run; [rewrite Hp3; apply set_page_get|]. step. split; [lia|].
  set (s4 := set_page (dir, n) (add_pg_count (-1) p1) s3).
  assert (Z.max size (Z.shiftl n PAGE_SHIFT + default (clr o (2 ^ fs_blocksize_bits (v_fs s) - 1)) pde +
    (o + de_rec_len (pg_data p) o - default (clr o (2 ^ fs_blocksize_bits (v_fs s) - 1)) pde)) = size) as Hmax.
  { destruct (chain_in _ _ _ _ _ _ _ Hc Ho) as (_ & _ & Hfit).
    assert (page_end size n <= size - n * PAGE_SIZE) by (unfold page_end; lia).
    unfold PAGE_SHIFT. rewrite Z.shiftl_mul_pow2 by lia. change (2 ^ 12) with PAGE_SIZE. lia. }
  assert (rewritten s (dir, n) (add_pg_count (-1) p1) size s4) as Hrw.
  { split_and!.
    - unfold s4. cbn [v_pages set_page set_v_pages]. rewrite Hp3. cbn [v_pages set_page set_v_pages].
      by rewrite insert_insert_eq, Hp1.
    - unfold s4. cbn [v_fs set_page set_v_pages]. rewrite Hv3. exact Hv1.
    - unfold s4. cbn [v_fs set_page set_v_pages]. rewrite Hz3. cbn [v_fs set_page set_v_pages].
      rewrite Hz1, insert_insert_eq. cbn [fst snd]. unfold kr_rec_len_from_disk. by rewrite Hmax. }
  split.
  - eapply rewritten_released; [exact Hrw|]. unfold refs. rewrite Hk, Hp1'. simpl. lia.
  - destruct (page_changed s s4 dir size size recs n (add_pg_count (-1) p1) l') as [Hok' Hh']; try done.
    + rewrite Hp1'. split_and!; [by rewrite <- Hl, <- (len_deleted (pg_data p) pde o)|by apply bytes_deleted|done].
    + apply Hok.
    + apply Hok.
    + by rewrite Hp1'.
    + exists (set_rec recs n l'). eapply (rep_delete s); [exact Hr|exact Hent|done|].
      intros j o' e. rewrite Hh', Hp1'. cbn [pg_data add_pg_count set_pg_data]. rewrite Hh.
      unfold has_entry, pdata. destruct (decide (j = n)) as [->|Hne]; [rewrite Hk|]; intuition lia.
Qed.

(** ** [kr_set_link] *)

(** The record at [o] gets another inode and type. *)
Definition relinked (d : list Z) (o ino t : Z) : list Z := put8 (put32 d o ino) (o + 7) t.

Lemma rep_relink s s' ino size recs recs' m n o name x t x' t' : dir_rep s ino size recs m ->
  has_entry s ino size recs n o (name, x, t) -> dir_ok s' ino size recs' ->
  (forall j o' e, has_entry s' ino size recs' j o' e <->
     has_entry s ino size recs j o' e /\ ~ (j = n /\ o' = o) \/ j = n /\ o' = o /\ e = (name, x', t')) ->
  dir_rep s' ino size recs' (<[name := (x', t')]> m).
Proof.
  intros [H1 H2 H3 H4] Hin Hok Hh.
  assert (forall j o' y u, has_entry s ino size recs j o' (name, y, u) -> j = n /\ o' = o) as Honce
    by (intros j o' y u He; apply (H3 _ _ _ _ _ _ _ _ _ He Hin)).
  split; [done| | |].
  - intros name' y u. setoid_rewrite Hh. destruct (decide (name' = name)) as [->|Hne].
    + rewrite lookup_insert_eq. split.
      * intros [= -> ->]. exists n, o. by right.
      * intros (j & o' & [[He Hno]|(_ & _ & [= -> ->])]); [by apply Honce in He|done].
    + rewrite lookup_insert_ne by done. rewrite H2. split.
      * intros (j & o' & He). exists j, o'. left. split; [done|]. intros [-> ->].
        destruct He as [_ (_ & _ & He)], Hin as [_ (_ & _ & Hin)]. congruence.
      * intros (j & o' & [[He _]|(_ & _ & [= ? _ _])]); [by exists j, o'|done].
  - intros j o1 j' o2 name' y u y' u'. rewrite !Hh.
    intros [[E1 N1]|(-> & -> & He1)] [[E2 N2]|(-> & -> & He2)]; simplify_eq;
      [by apply (H3 _ _ _ _ _ _ _ _ _ E1 E2)|by apply Honce in E1|by apply Honce in E2|done].
  - intros j o' name' y u. rewrite Hh. intros [[E _]|(_ & _ & [= -> -> ->])]; [by apply H4 in E|].
    by apply H4 in Hin.
Qed.

Lemma relinked_page bits max d l lim o ino t : bytes d -> lim <= len d ->
  chain bits max d 0 lim l -> o ∈ l -> de_inode d o <> 0 -> 0 < ino < 4294967296 -> ino <= max ->
  0 <= t < 256 ->
  chain bits max (relinked d o ino t) 0 lim l /\
  forall x e, holds (relinked d o ino t) l x e <->
    holds d l x e /\ x <> o \/ x = o /\ e = (de_name d o, ino, t).
Proof.
  intros Hb Hl Hc Ho Hnz Hino Hmax Ht. pose proof (chain_nodup _ _ _ _ _ _ Hc) as Hnd.
  destruct (chain_split _ _ _ _ _ _ _ Hc Ho) as (l1 & l2 & -> & H1 & Hok & H2).
  pose proof (chain_le _ _ _ _ _ _ H1) as Ho0. pose proof (chain_le _ _ _ _ _ _ H2) as Hfit.
  pose proof (ok_min _ _ _ _ Hok) as Hmin. pose proof (name_fits _ _ _ _ Hb Hok) as Hnf.
  pose proof (get8_bytes d (o + 6) Hb) as Hn0. unfold relinked. set (d' := put8 (put32 d o ino) (o + 7) t).
  assert (len d' = len d) as Hl' by (unfold d'; by autorewrite with kr).
  assert (de_rec_len d' o = de_rec_len d o) as Hr by (apply get16_same; unfold d'; kept).
  assert (de_name_len d' o = de_name_len d o) as Hnl.
  { assert (same_on d d' (o + 6) (o + 7)) as Hk by (unfold d'; kept). apply Hk. lia. }
  assert (de_inode d' o = ino) as Hi.
  { unfold de_inode, d'. rewrite (get32_same (put32 d o ino)) by kept. apply get32_put32_eq; lia. }
  assert (entry d' o = (de_name d o, ino, t)) as He.
  { unfold entry. rewrite Hi. f_equal; [f_equal|].
    - unfold de_name. rewrite Hnl. unfold de_name_len in *. apply sub_ext; try lia. unfold d'. kept.
    - unfold de_file_type, d'. rewrite get8_put8, Z.eqb_refl by (rewrite ?len_put32; lia).
      apply Z.mod_small. lia. }
  destruct (chain_same bits max d d' (o + de_rec_len d o) lim l2) as [H2' Hs2]; try done; try lia.
  { unfold d'. kept. }
  destruct (tail_change bits max d d' l1 (o :: l2) o lim) as [Hc' Hh]; try done; try lia.
  { unfold d'. kept. }
  { simpl. rewrite Hr. split_and!; [done| |done]. destruct Hok. split; rewrite ?Hr, ?Hnl, ?Hi; done. }
  split; [done|]. intros x e. rewrite Hh, holds_app, !holds_cons, (holds_same d d' l2) by done. rewrite Hi, He.
  assert (forall l, holds d l o e -> o ∈ l) as Hel by (by intros l []).
  apply NoDup_app in Hnd as (_ & Hd1 & Hd2). apply NoDup_cons in Hd2 as [Hd2 _].
  assert (~ holds d l1 o e /\ ~ holds d l2 o e) as [Hno1 Hno2].
  { split; intros Hx%Hel; [apply (Hd1 _ Hx), elem_of_cons; auto|done]. }
  split.
  - intros [Hx|[(-> & _ & <-)|Hx]]; [left|by right|left]; (split; [tauto|]); by intros ->.
  - intros [[[Hx|[(-> & _)|Hx]] Hne]|[-> ->]]; [tauto|done|tauto|]. right. left. split_and!; [done|lia|done].
Qed.

Lemma kr_set_link_spec s dir size recs m n o name x t ino t' b : dir_rep s dir size recs m ->
  has_entry s dir size recs n o (name, x, t) -> new_entry s name ino t' ->
  runs (kr_set_link dir n o ino b) panic_or_bug (fun _ s' =>
    released s (dir, n) size s' /\ exists recs', dir_rep s' dir size recs' (<[name := (ino, t')]> m) /\
      forall j o' e, ~ (j = n /\ o' = o) -> has_entry s dir size recs j o' e ->
        has_entry s' dir size recs' j o' e) s.
Proof.
  intros Hr Hent Hne. pose proof (new_entry_byte _ _ _ _ Hne) as Ht.
  destruct Hne as [Hname (mode & Hmode & Htype) Hino Hmax].
  pose proof Hent as (Hn & Ho & Hnz & Hentry). pose proof (dr_ok _ _ _ _ _ Hr) as Hok.
  destruct (do_page _ _ _ _ Hok n Hn) as (p & Hk & (Hl & Hb & Hu) & Hc).
  assert (page_end size n <= PAGE_SIZE /\ page_end size n <= size - n * PAGE_SIZE) as [Hpe Hpe2]
    by (unfold page_end; lia).
  assert (pdata s (dir, n) = pg_data p) as Hpd by (unfold pdata; by rewrite Hk).
  rewrite Hpd in Hnz, Hentry.
  unfold kr_set_link. step. run page_data_run; [exact Hk|]. cbv zeta. step.
  eapply runs_weaken; [apply (prepare_spec s (dir, n) size); apply Hok|by left|].
  intros err s1 (Herr & Hp1 & Hv1 & Hz1).
  step. unfold bug_on. destruct (negb (err =? 0)); [by right|]. step.
  assert (modes (v_fs s1) = modes (v_fs s) /\
    es_feature_incompat (fs_es (v_fs s1)) = es_feature_incompat (fs_es (v_fs s))) as [Hm1 Hf1]
    by (unfold view in Hv1; by injection Hv1).
  step. run upd_data_run; [by rewrite Hp1|]. step.
  run set_de_type_run; [apply set_page_get|cbn [v_fs set_page set_v_pages]; by rewrite Hm1
    |cbn [v_fs set_page set_v_pages]; by rewrite Hf1|]. rewrite set_page_twice.
  set (p2 := set_pg_data (put8 _ _ _) _).
  assert (p2 = set_pg_data (relinked (pg_data p) o ino t') p) as Hp2 by done.
  step. call (commit_spec panic_or_bug (set_page (dir, n) p2 s1) (dir, n) size);
    [cbn [v_fs set_page set_v_pages]; rewrite Hz1; apply lookup_insert_eq|].
  intros r s2 (Hr2 & H2). pose proof H2 as (Hpg2 & _). step.
  run put_page_run; [rewrite Hpg2; apply set_page_get|].
  set (s3 := set_page (dir, n) (add_pg_count (-1) p2) s2).
  pose proof (settled_size _ _ _ _ H2 : sizes (v_fs s3) !! dir = _) as Hsz3.
  call (touch_dir_spec panic_or_bug s3 dir _ b Hsz3). intros _ s4 (Hp4 & Hv4 & Hz4).
  assert (Z.max size (Z.shiftl n PAGE_SHIFT + o + de_rec_len (pg_data p) o) = size) as Hmx.
  { destruct (chain_in _ _ _ _ _ _ _ Hc Ho) as (_ & _ & Hfit).
    unfold PAGE_SHIFT. rewrite Z.shiftl_mul_pow2 by lia. change (2 ^ 12) with PAGE_SIZE. lia. }
  assert (rewritten s (dir, n) (add_pg_count (-1) p2) size s4) as Hrw.
  { destruct H2 as (_ & Hv2 & Hz2). split_and!.
    - rewrite Hp4. unfold s3. cbn [v_pages set_page set_v_pages]. rewrite Hpg2.
      cbn [v_pages set_page set_v_pages]. by rewrite !insert_insert_eq, Hp1.
    - rewrite Hv4. unfold s3. cbn [v_fs set_page set_v_pages]. rewrite Hv2. exact Hv1.
    - rewrite Hz4. unfold s3. cbn [v_fs set_page set_v_pages]. rewrite Hz2.
      cbn [v_fs set_page set_v_pages fst]. rewrite Hz1, !insert_insert_eq.
      unfold kr_rec_len_from_disk. by rewrite Hmx. }
  split.
  - eapply rewritten_released; [exact Hrw|]. unfold refs. rewrite Hk, Hp2. simpl. lia.
  - destruct (relinked_page _ _ (pg_data p) (recs n) (page_end size n) o ino t' Hb ltac:(lia) Hc Ho Hnz Hino Hmax Ht)
      as [Hc' Hh].
    destruct (page_changed s s4 dir size size recs n (add_pg_count (-1) p2) (recs n)) as [Hok' Hh']; try done.
    + rewrite Hp2. unfold relinked. split_and!; simpl; [by autorewrite with kr|auto with kr|done].
    + apply Hok.
    + apply Hok.
    + assert (forall j o' e, has_entry s4 dir size (set_rec recs n (recs n)) j o' e <->
        has_entry s dir size recs j o' e /\ ~ (j = n /\ o' = o) \/
        j = n /\ o' = o /\ e = (name, ino, t')) as Hiff.
      { intros j o' e. rewrite Hh', Hp2. cbn [pg_data add_pg_count set_pg_data]. rewrite Hh.
        assert (de_name (pg_data p) o = name) as -> by (unfold entry in Hentry; congruence).
        unfold has_entry. destruct (decide (j = n)) as [->|Hne']; [rewrite Hpd|]; intuition lia. }
      exists (set_rec recs n (recs n)). split; [by eapply (rep_relink s)|].
      intros j o' e Hne' He. apply Hiff. by left.
Qed.

(** ** Searching, and giving pages back *)

(** The directory can be searched: it has no fewer blocks than its size asks for. *)
Definition searchable (s : vfs) (dir size : Z) : Prop := exists i,
  fs_inodes (v_fs s) !! dir = Some i /\ 0 <= i_dir_start_lookup (KR_I i) /\ blocks_cover i size.

(** The directory stands for [m]. *)
Definition stands_for (s : vfs) (dir size : Z) (m : gmap (list Z) (Z * Z)) : Prop :=
  exists recs, dir_rep s dir size recs m.

Lemma find_in_map s dir size recs m name : dir_rep s dir size recs m -> len name <= 255 ->
  searchable s dir size ->
  runs (kr_find_entry dir name) never (fun r s' =>
    match r with
    | None => marked s s' /\ m !! name = None
    | Some (n, o) => 0 <= n < pages_of size /\ found_at s dir recs name n o s'
    end) s.
Proof.
  intros Hr Hlen (i & Hi & Hst & Hbl). pose proof (dr_ok _ _ _ _ _ Hr) as Hok.
  eapply runs_mono; [by apply (kr_find_entry_spec s dir size recs i name)|].
  intros [[n o]|] s'; cbv beta iota; [done|]. intros (Hm & Hno). split; [done|].
  destruct (m !! name) as [[x t]|] eqn:Hx; [|done]. exfalso.
  apply (dr_map _ _ _ _ _ Hr) in Hx as (n & o & Hn & Ho & Hnz & He). apply (Hno n Hn o Ho).
  split; [done|]. unfold entry in He. congruence.
Qed.

Lemma released_changed s ino n p size s' s'' : changed s ino size (set_page (ino, n) p s') ->
  refs s' (ino, n) = refs s (ino, n) + 1 -> released s' (ino, n) size s'' -> changed s ino size s''.
Proof.
  intros (H1 & H2 & H3 & H4) Hc (G1 & G2 & G3 & G4). cbn [v_fs set_page set_v_pages] in H1, H2.
  split_and!.
  - congruence.
  - rewrite G2. cbn [fst]. by rewrite H2, insert_insert_eq.
  - intros k. rewrite G3. destruct (decide (k = (ino, n))) as [->|Hne]; [lia|].
    specialize (H3 k). unfold refs in H3 at 1. cbn [v_pages set_page set_v_pages] in H3.
    rewrite lookup_insert_ne in H3 by done. fold (refs s' k) in H3. lia.
  - intros k Hk. specialize (H4 k Hk). cbn [v_pages set_page set_v_pages] in H4.
    rewrite lookup_insert_ne in H4 by (by intros <-).
    destruct (G4 k Hk) as [->| ->], H4 as [->| ->]; auto. right. by destruct (v_pages s !! k).
Qed.

End Ops.
