(* ===== verification/DirEmpty.v ===== *)
(** * Empty directories

    When [kr_empty_dir] finds a directory to be empty, and the directory that
    [kr_make_empty] makes. *)

From S2P Require Import Prelude Bytes Bits Kr Rsv Bitmap Alloc State Balloc BlockMap PathFacts Dir DirPage DirFacts DirOps.

(** ** Empty pages *)

Definition dot : list Z := [46].
Definition dotdot : list Z := [46; 46].

(** An entry a directory that is empty may have. *)
Definition harmless (ino : Z) (e : list Z * Z * Z) : Prop :=
  e.1.1 = dotdot \/ e.1.1 = dot /\ e.1.2 = u32 ino.

#[export] Instance harmless_dec ino e : Decision (harmless ino e).
Proof. unfold harmless. apply _. Defined.

Section Empty.
Variables bits max : Z.

Lemma sub_cons d o n : 0 <= o -> 1 <= n -> o + n <= len d -> sub d o n = get8 d o :: sub d (o + 1) (n - 1).
Proof.
  intros Ho Hn Hl.
  assert (len (sub d (o + 1) (n - 1)) = n - 1) as Hs by (apply len_sub; lia).
  apply sub_eq; [done|done| |].
  - unfold len in *. cbn [length]. lia.
  - intros k Hk. destruct (decide (k = 0)) as [->|]; [by rewrite Z.add_0_r|].
    unfold get8 at 2. replace (Z.to_nat k) with (S (Z.to_nat (k - 1))) by lia. simpl.
    fold (get8 (sub d (o + 1) (n - 1)) (k - 1)).
    assert (Some (get8 (sub d (o + 1) (n - 1)) (k - 1)) = Some (get8 d (o + k))) as He; [|congruence].
    rewrite <- lookup_get8 by lia. rewrite lookup_sub by lia. do 2 f_equal. lia.
Qed.

Lemma sub_nil d o : sub d o 0 = [].
Proof. done. Qed.

Lemma keeps_spec ino d o : bytes d -> 0 <= o -> record_ok bits max d o ->
  o + de_rec_len d o <= len d -> (de_inode d o <> 0 -> 1 <= de_name_len d o) ->
  keeps ino d o = true <-> de_inode d o <> 0 /\ ~ harmless ino (entry d o).
Proof.
  intros Hb Ho Hok Hl Hn. pose proof (name_fits _ _ _ _ Hb Hok) as Hfit.
  unfold keeps, harmless, entry, dot, dotdot, de_name. cbn [fst snd].
  destruct (Z.eqb_spec (de_inode d o) 0) as [Hz|Hz]; [split; [done|by intros []]|].
  specialize (Hn Hz). rewrite sub_cons by lia.
  destruct (Z.eqb_spec (get8 d (o + 8)) 46) as [->|H1]; cbn [negb].
  2: { split; [|done]. intros _. split; [done|]. intros [[= ? _]|[[= ? _] _]]; done. }
  destruct (de_name_len d o >? 2) eqn:H2.
  { split; [|done]. intros _. split; [done|]. rewrite !(sub_cons d (o + 8 + 1)) by lia.
    rewrite (sub_cons d (o + 8 + 1 + 1)) by lia. intros [[=]|[[=] _]]. }
  destruct (de_name_len d o <? 2) eqn:H3.
  - replace (de_name_len d o - 1) with 0 by lia. rewrite sub_nil.
    destruct (Z.eqb_spec (de_inode d o) (u32 ino)) as [->|Hi]; cbn [negb]; (split; [|intros [_ Hh]]).
    + done.
    + exfalso. apply Hh. by right.
    + intros _. split; [done|]. intros [[=]|[_ ?]]; done.
    + done.
  - replace (de_name_len d o) with 2 by lia. rewrite sub_cons by lia.
    replace (2 - 1 - 1) with 0 by lia. rewrite sub_nil. replace (o + 8 + 1) with (o + 9) by lia.
    destruct (Z.eqb_spec (get8 d (o + 9)) 46) as [->|Hi]; cbn [negb]; (split; [|intros [_ Hh]]).
    + done.
    + exfalso. apply Hh. by left.
    + intros _. split; [done|]. intros [[= ?]|[[=] _]]; done.
    + done.
Qed.

Lemma page_empty_spec ino d lim : bytes d -> 0 <= lim <= len d ->
  forall fuel o l, 0 <= o -> chain bits max d o lim l -> named d l -> lim - o < Z.of_nat fuel ->
  match page_empty fuel ino d (lim - KR_DIR_REC_LEN 1) o with
  | Empty => forall x e, holds d l x e -> harmless ino e
  | NotEmpty => exists x e, holds d l x e /\ ~ harmless ino e
  | EmptyError => False
  end.
Proof.
  intros Hb Hlim. change (KR_DIR_REC_LEN 1) with 12.
  induction fuel as [|fuel IH]; intros o l Ho Hc Hn Hf; [apply chain_le in Hc; lia|].
  cbn [page_empty]. destruct l as [|x l].
  - simpl in Hc. destruct (Z.leb_spec o (lim - 12)); [lia|]. intros x e (Hx & _).
    by apply elem_of_nil in Hx.
  - destruct Hc as (-> & Hok & Hc). pose proof (ok_min _ _ _ _ Hok). pose proof (chain_le _ _ _ _ _ _ Hc).
    destruct (Z.leb_spec o (lim - 12)); [|lia]. destruct (Z.eqb_spec (de_rec_len d o) 0); [lia|].
    pose proof (keeps_spec ino d o Hb Ho Hok ltac:(lia) (Hn o ltac:(apply elem_of_cons; auto))) as Hk.
    destruct (keeps ino d o) eqn:E.
    + destruct Hk as [[Hk1 Hk2] _]; [done|]. exists o, (entry d o). split; [|done].
      split_and!; [apply elem_of_cons; auto|done|done].
    + unfold kr_next_entry, kr_rec_len_from_disk.
      specialize (IH (o + de_rec_len d o) l ltac:(lia) Hc
        ltac:(intros y Hy; apply Hn, elem_of_cons; auto) ltac:(lia)).
      destruct (page_empty _ _ _ _ _); [| |done].
      * intros y e. rewrite holds_cons. intros [(-> & Hz & <-)|Hy]; [|by apply (IH y)].
        destruct (decide (harmless ino (entry d o))) as [|Hnh]; [done|].
        destruct Hk as [_ Hk]. by discriminate Hk.
      * destruct IH as (y & e & Hy & He). exists y, e. split; [|done]. rewrite holds_cons. by right.
Qed.

End Empty.

(** ** The first chunk of a directory *)

(** What [kr_make_empty] writes over the page [d]. *)
Definition cleared (d : list Z) (chunk_size : Z) : list Z := put_bytes d 0 (repeat 0 (Z.to_nat chunk_size)).
Definition with_dot (d : list Z) (ino t : Z) : list Z :=
  put8 (put32 (put_bytes (put16 (put8 d 6 1) 4 12) 8 [46; 0; 0; 0]) 0 ino) 7 t.
Definition with_dotdot (d : list Z) (chunk_size parent t : Z) : list Z :=
  put8 (put_bytes (put32 (put16 (put8 d 18 2) 16 (chunk_size - 12)) 12 parent) 20 [46; 46; 0; 0]) 19 t.
Definition empty_data (d : list Z) (chunk_size ino parent t : Z) : list Z :=
  with_dotdot (with_dot (cleared d chunk_size) ino t) chunk_size parent t.

Lemma byte_kept d d' j v : get8 d j = v -> same_on d d' j (j + 1) -> get8 d' j = v.
Proof. intros <- Hs. apply Hs. lia. Qed.

Section First.
Variables bits max : Z.
Hypothesis Hbits : 10 <= bits <= 12.

Lemma len_empty_data d cs ino parent t : len (empty_data d cs ino parent t) = len d.
Proof. unfold empty_data, with_dotdot, with_dot, cleared. by autorewrite with kr. Qed.
Lemma bytes_empty_data d cs ino parent t : bytes d -> bytes (empty_data d cs ino parent t).
Proof. unfold empty_data, with_dotdot, with_dot, cleared. auto 15 with kr. Qed.

Lemma with_dot_fields d ino t : bytes d -> 12 <= len d -> 0 <= ino < 4294967296 -> 0 <= t < 256 ->
  let d' := with_dot d ino t in
  entry d' 0 = (dot, ino, t) /\ de_rec_len d' 0 = 12 /\ de_name_len d' 0 = 1.
Proof.
  intros Hb Hl Hino Ht d'. unfold d', with_dot. set (d1 := put16 (put8 d 6 1) 4 12).
  set (d2 := put_bytes d1 8 [46; 0; 0; 0]). set (d3 := put32 d2 0 ino).
  assert (len d1 = len d /\ len d2 = len d /\ len d3 = len d) as (Hl1 & Hl2 & Hl3)
    by (unfold d3, d2, d1; by autorewrite with kr).
  assert (de_name_len (put8 d3 7 t) 0 = 1) as Hnl.
  { apply (byte_kept (put8 d 6 1)); [rewrite get8_put8 by lia; done|]. unfold d3, d2, d1. kept. }
  split_and!; [| |done].
  - unfold entry. f_equal; [f_equal|].
    + unfold de_name. rewrite Hnl, sub_cons by (rewrite ?len_put8; lia). unfold dot. f_equal.
      apply (byte_kept d2); [|unfold d3; kept]. unfold d2.
      rewrite get8_put_bytes by (unfold len in *; simpl; repeat constructor; lia). done.
    + unfold de_inode. rewrite (get32_same d3) by kept. unfold d3. apply get32_put32_eq; lia.
    + unfold de_file_type. rewrite get8_put8 by lia. simpl. apply Z.mod_small. lia.
  - unfold de_rec_len. rewrite (get16_same d1) by (unfold d3, d2; kept). unfold d1.
    apply get16_put16_eq; rewrite ?len_put8; lia.
Qed.

Lemma with_dotdot_fields d cs parent t : bytes d -> 1024 <= cs <= 4096 -> cs <= len d ->
  0 <= parent < 4294967296 -> 0 <= t < 256 ->
  let d' := with_dotdot d cs parent t in
  entry d' 12 = (dotdot, parent, t) /\ de_rec_len d' 12 = cs - 12 /\ de_name_len d' 12 = 2 /\
  same_on d d' 0 12.
Proof.
  intros Hb Hc Hl Hp Ht d'. unfold d', with_dotdot. set (d1 := put16 (put8 d 18 2) 16 (cs - 12)).
  set (d2 := put32 d1 12 parent). set (d3 := put_bytes d2 20 [46; 46; 0; 0]).
  assert (len d1 = len d /\ len d2 = len d /\ len d3 = len d) as (Hl1 & Hl2 & Hl3)
    by (unfold d3, d2, d1; by autorewrite with kr).
  assert (de_name_len (put8 d3 19 t) 12 = 2) as Hnl.
  { apply (byte_kept (put8 d 18 2)); [rewrite get8_put8 by lia; done|]. unfold d3, d2, d1. kept. }
  assert (forall k, 20 <= k < 22 -> get8 d3 k = 46) as Hname.
  { intros k Hk. unfold d3. rewrite get8_put_bytes by (unfold len in *; simpl; repeat constructor; lia).
    assert (k = 20 \/ k = 21) as [->| ->] by lia; done. }
  split_and!; [| |done|].
  - unfold entry. f_equal; [f_equal|].
    + unfold de_name. rewrite Hnl, !sub_cons by (rewrite ?len_put8; lia). unfold dotdot.
      f_equal; [|f_equal]; (eapply byte_kept; [apply Hname; lia|kept]).
    + unfold de_inode. rewrite (get32_same d2) by (unfold d3; kept). apply get32_put32_eq; lia.
    + unfold de_file_type. rewrite get8_put8 by lia. simpl. apply Z.mod_small. lia.
  - unfold de_rec_len. rewrite (get16_same d1) by (unfold d3, d2; kept). unfold d1.
    apply get16_put16_eq; rewrite ?len_put8; lia.
  - unfold d3, d2, d1. kept.
Qed.

Lemma empty_page d ino parent t : bytes d -> len d = PAGE_SIZE -> 0 < ino < 4294967296 ->
  ino <= max -> 0 < parent < 4294967296 -> parent <= max -> 0 <= t < 256 ->
  let d' := empty_data d (2 ^ bits) ino parent t in
  chain bits max d' 0 (2 ^ bits) [0; 12] /\
  forall x e, holds d' [0; 12] x e <->
    x = 0 /\ e = (dot, ino, t) \/ x = 12 /\ e = (dotdot, parent, t).
Proof.
  intros Hb Hl Hino Him Hpar Hpm Ht d'. destruct (chunk_divides bits Hbits) as [Hc _].
  unfold PAGE_SIZE in Hl. set (d1 := cleared d (2 ^ bits)).
  assert (bytes d1 /\ len d1 = 4096) as [Hb1 Hl1]
    by (unfold d1, cleared; split; [auto with kr|by autorewrite with kr]).
  assert (bytes (with_dot d1 ino t) /\ len (with_dot d1 ino t) = 4096) as [Hb2 Hl2]
    by (unfold with_dot; split; [auto 10 with kr|by autorewrite with kr]).
  destruct (with_dot_fields d1 ino t) as (He & Hr & Hn); try done; [lia|lia|].
  destruct (with_dotdot_fields (with_dot d1 ino t) (2 ^ bits) parent t) as (He' & Hr' & Hn' & Hs);
    try done; try lia. 
  change (with_dotdot (with_dot d1 ino t) (2 ^ bits) parent t) with d' in He', Hr', Hn', Hs.
  assert (same_record (with_dot d1 ino t) d' 0) as (Hs1 & Hs2 & Hs3 & Hs4 & Hs5).
  { apply (record_same bits max (with_dot d1 ino t) d' 0 4096);
      [done|unfold d'; by rewrite len_empty_data, Hl2|lia|lia| |rewrite Hr; lia|by rewrite Hr].
    unfold entry in He. assert (de_inode (with_dot d1 ino t) 0 = ino) as Hi by congruence.
    split; rewrite ?Hr, ?Hn, ?Hi; try done. rewrite !Z.div_small by lia. done. }
  assert (entry d' 0 = (dot, ino, t)) as He0 by (unfold entry in *; congruence).
  pose proof (f_equal (fun e => e.1.2) He0 : de_inode d' 0 = ino) as Hi0.
  pose proof (f_equal (fun e => e.1.2) He' : de_inode d' 12 = parent) as Hi12.
  assert ((2 ^ bits) mod 4 = 0) as H4.
  { replace bits with (2 + (bits - 2)) by lia. rewrite Z.pow_add_r by lia.
    change (2 ^ 2) with 4. rewrite Z.mul_comm. apply Z_mod_mult. }
  split.
  - cbn [chain]. rewrite Hs2, Hr, Z.add_0_l, Hr'. split_and!; [done| |done| |lia].
    + split; rewrite ?Hs2, ?Hs5, ?Hr, ?Hn, ?Hi0; try done. rewrite !Z.div_small by lia. done.
    + split; rewrite ?Hr', ?Hn', ?Hi12; try done; try lia.
      * Z.to_euclidean_division_equations; lia.
      * change (KR_DIR_REC_LEN 2) with 12. lia.
      * rewrite !Z.div_small by lia. done.
  - intros x e. rewrite !holds_cons, He0, He', Hi0, Hi12. split.
    + intros [(-> & _ & <-)|[(-> & _ & <-)|(Hx & _)]]; [by left|by right|by apply elem_of_nil in Hx].
    + intros [[-> ->]|[-> ->]]; [left; split_and!; [done|lia|done]|].
      right. left. split_and!; [done|lia|done].
Qed.

End First.

Section Ops.
Context {B : BitOps} {BL : BitLaws B} {R : RbTree} {T : Trylock} {K : Kernel} {D : DirKernel}
  {DL : DirLaws D}.

(** ** Empty directories *)

(** A directory is found to be empty just when its map has no names but "." for
    itself and "..". *)
Lemma kr_empty_dir_spec s dir size recs m : dir_rep s dir size recs m ->
  runs (kr_empty_dir dir) never (fun r s' => marked s s' /\
    (r = 1 /\ (forall name x t, m !! name = Some (x, t) -> harmless dir (name, x, t)) \/
     r = 0 /\ exists name x t, m !! name = Some (x, t) /\ ~ harmless dir (name, x, t))) s.
Proof.
  intros Hr. pose proof (dr_ok _ _ _ _ _ Hr) as Hok.
  destruct (sizes_lookup _ _ _ (do_size _ _ _ _ Hok)) as (i & Hi & Hsz).
  pose proof (do_bound _ _ _ _ Hok) as Hbd. pose proof (do_bits _ _ _ _ Hok) as Hbits.
  unfold kr_empty_dir. step. run dir_inode_run; [done|].
  change (dir_pages i) with (pages_of (i_size i)). rewrite Hsz.
  assert (forall k n s1, marked s s1 -> 0 <= n -> n + Z.of_nat k = pages_of size ->
    (forall j o e, j < n -> has_entry s dir size recs j o e -> harmless dir e) ->
    runs (empty_pages k dir n false) never (fun r s' => marked s s' /\
      (r = 1 /\ (forall name x t, m !! name = Some (x, t) -> harmless dir (name, x, t)) \/
       r = 0 /\ exists name x t, m !! name = Some (x, t) /\ ~ harmless dir (name, x, t))) s1) as Hloop.
  { induction k as [|k IH]; intros n s1 Hm Hn Hk Hbefore; cbn [empty_pages].
    - step. split; [done|]. left. split; [done|]. intros name x t Hx.
      apply (dr_map _ _ _ _ _ Hr) in Hx as (j & o & He). apply (Hbefore j o); [|done].
      destruct He as [? _]. lia.
    - step. run dir_inode_run; [rewrite (proj1 Hm); exact Hi|].
      pose proof (marked_rep _ _ _ _ _ _ Hm Hr) as Hr1.
      destruct (get_page_run s1 dir size recs n false (dr_ok _ _ _ _ _ Hr1) ltac:(lia))
        as (p & Hp & (Hl & Hb & _) & Hc & Hget).
      pose proof (page_end_bounds size _ n Hbits (do_chunks _ _ _ _ Hok) ltac:(lia) ltac:(lia)) as [He _].
      pose proof PAGE_SIZE_val as Hps.
      step. run Hget. step. run page_data_run; [apply set_page_get|].
      rewrite last_byte_end by (rewrite Hsz; unfold page_end in He; lia). rewrite Hsz.
      rewrite (u32_small (page_end size n - KR_DIR_REC_LEN 1))
        by (change (KR_DIR_REC_LEN 1) with 12; lia).
      change (pg_data (held p)) with (pg_data p).
      pose proof (dir_names s1 dir size recs m n p Hr1 ltac:(lia) Hp Hb Hl Hc) as Hnm.
      pose proof (page_empty_spec _ _ dir (pg_data p) (page_end size n) Hb ltac:(lia) page_fuel 0 (recs n)
        ltac:(lia) Hc Hnm (page_fuel_ok (page_end size n) ltac:(lia))) as Hpe.
      assert (pdata s (dir, n) = pg_data p) as Hpd
        by (rewrite <- (marked_data s s1) by done; unfold pdata; by rewrite Hp).
      assert (marked s (set_page (dir, n) (set_pg_checked p) s1)) as Hm'
        by (eapply marked_trans; [exact Hm|by apply marked_page]).
      destruct (page_empty _ _ _ _ _); [| |done].
      + step. run put_held; [done|]. apply IH; [done|lia|lia|]. intros j o e Hj Hj2.
        destruct (decide (j = n)) as [->|]; [|apply (Hbefore j o); [lia|done]].
        destruct Hj2 as [_ Hj2]. rewrite Hpd in Hj2. by apply (Hpe o).
      + step. run put_held; [done|]. step. split; [done|]. right. split; [done|].
        destruct Hpe as (o & [[name x] t] & Hh & Hnh). exists name, x, t. split; [|done].
        apply (dr_map _ _ _ _ _ Hr). exists n, o. split; [lia|]. by rewrite Hpd. }
  assert (0 <= pages_of size) by (rewrite pages_of_val; Z.to_euclidean_division_equations; lia).
  apply Hloop; [apply marked_refl|done|lia|]. intros j o e Hj [? _]. lia.
Qed.

(** ** [kr_make_empty] *)

Definition empty_map (ino parent t : Z) : gmap (list Z) (Z * Z) :=
  <[dot := (ino, t)]> {[dotdot := (parent, t)]}.

Lemma empty_rep s ino bits p t parent : fs_blocksize_bits (v_fs s) = bits -> 10 <= bits <= 12 ->
  sizes (v_fs s) !! ino = Some (2 ^ bits) -> v_pages s !! (ino, 0) = Some p -> usable p ->
  chain bits (es_inodes_count (fs_es (v_fs s))) (pg_data p) 0 (2 ^ bits) [0; 12] ->
  (forall x e, holds (pg_data p) [0; 12] x e <->
    x = 0 /\ e = (dot, ino, t) \/ x = 12 /\ e = (dotdot, parent, t)) ->
  dir_rep s ino (2 ^ bits) (fun _ => [0; 12]) (empty_map ino parent t).
Proof.
  intros Hbits Hb Hs Hk Hu Hc Hh. destruct (chunk_divides bits Hb) as [Hcs _].
  assert (pages_of (2 ^ bits) = 1) as Hp by (rewrite pages_of_val; Z.to_euclidean_division_equations; lia).
  assert (forall n o e, has_entry s ino (2 ^ bits) (fun _ => [0; 12]) n o e <->
    n = 0 /\ (o = 0 /\ e = (dot, ino, t) \/ o = 12 /\ e = (dotdot, parent, t))) as Hent.
  { intros n o e. unfold has_entry. rewrite Hp. split.
    - intros [Hn Hx]. assert (n = 0) as -> by lia. unfold pdata in Hx. rewrite Hk in Hx. by apply Hh in Hx.
    - intros [-> Hx]. split; [lia|]. unfold pdata. rewrite Hk. by apply Hh. }
  split.
  - split; rewrite ?Hbits; try done; [lia| |].
    + apply Z_mod_same_full.
    + intros n Hn. assert (n = 0) as -> by lia. exists p. split_and!; [done..|].
      replace (page_end (2 ^ bits) 0) with (2 ^ bits); [done|]. unfold page_end, PAGE_SIZE. lia.
  - intros name x u. setoid_rewrite Hent. unfold empty_map. rewrite lookup_insert_Some, lookup_singleton_Some.
    split.
    + intros [[<- [= <- <-]]|(_ & <- & [= <- <-])]; [by exists 0, 0; auto|by exists 0, 12; auto].
    + intros (n & o & _ & [[_ [= -> -> ->]]|[_ [= -> -> ->]]]); [by left|by right].
  - intros n o n' o' name x u x' u'. rewrite !Hent. intros [-> E1] [-> E2]. split; [done|].
    destruct E1 as [[-> [= -> -> ->]]|[-> [= -> -> ->]]], E2 as [[-> E2]|[-> E2]]; done.
  - intros n o name x u. rewrite Hent. intros [_ [[_ [= -> _ _]]|[_ [= -> _ _]]]]; by vm_compute.
Qed.

(** A new directory gets the entries "." and ".."; an error leaves it without a
    block. *)
Lemma kr_make_empty_spec s ino parent mode t bits :
  fs_blocksize_bits (v_fs s) = bits -> 10 <= bits <= 12 -> sizes (v_fs s) !! ino = Some 0 ->
  (forall p, v_pages s !! (ino, 0) = Some p -> usable p) ->
  modes (v_fs s) !! ino = Some mode -> de_type (es_feature_incompat (fs_es (v_fs s))) mode = Some t ->
  0 < ino < 4294967296 -> ino <= es_inodes_count (fs_es (v_fs s)) ->
  0 < parent < 4294967296 -> parent <= es_inodes_count (fs_es (v_fs s)) ->
  runs (kr_make_empty ino parent) only_panic (fun r s' => r <= 0 /\
    (changed s ino (2 ^ bits) s' /\
       dir_rep s' ino (2 ^ bits) (fun _ => [0; 12]) (empty_map ino parent t) \/
     r < 0 /\ changed s ino 0 s')) s.
Proof.
  intros Hbits Hb Hs Hu Hm Ht Hino Him Hpar Hpm. destruct (chunk_divides bits Hb) as [Hcs _].
  unfold kr_make_empty. step. step. cbv zeta. cbn [id].
  assert (kr_chunk_size (v_fs s) = 2 ^ bits) as ->.
  { unfold kr_chunk_size, fs_blocksize. rewrite Hbits, Z.shiftl_mul_pow2 by lia. lia. }
  apply runs_if; intros Hg.
  { step. split; [done|]. right. split; [done|].
    eapply marked_changed_same; [apply marked_refl|done]. }
  set (p0 := default (Page fresh_page false false 0) (v_pages s !! (ino, 0))).
  assert (usable p0) as (Hl0 & Hb0 & Hu0).
  { unfold p0. destruct (v_pages s !! (ino, 0)) as [q|] eqn:Hq; [by apply Hu|].
    destruct fresh_page_ok. split_and!; auto. }
  assert (pg_count p0 = refs s (ino, 0)) as Hc0 by (unfold p0, refs; by destruct (v_pages s !! _)).
  step. step. fold p0. change (set_v_pages _ s) with (set_page (ino, 0) (add_pg_count 1 p0) s).
  set (p1 := add_pg_count 1 p0). step.
  eapply runs_weaken; [apply (prepare_spec (set_page (ino, 0) p1 s) (ino, 0) 0); exact Hs|done|].
  intros err s1 (Herr & Hp1 & Hv1 & Hz1). cbn [v_fs set_page set_v_pages] in Hv1, Hz1.
  assert (v_pages s1 !! (ino, 0) = Some p1) as Hk1 by (rewrite Hp1; apply set_page_get).
  apply runs_if; intros He.
  { step. run put_page_run; [exact Hk1|]. step. split; [done|]. right. split; [lia|].
    eapply (rewritten_changed s ino 0 (add_pg_count (-1) p1)); [|simpl; lia].
    split_and!; [|done|done]. cbn [v_pages set_page set_v_pages]. rewrite Hp1.
    cbn [v_pages set_page set_v_pages]. by rewrite insert_insert_eq. }
  assert (modes (v_fs s1) = modes (v_fs s) /\
    es_feature_incompat (fs_es (v_fs s1)) = es_feature_incompat (fs_es (v_fs s))) as [Hm1 Hf1]
    by (unfold view in Hv1; by injection Hv1).
  step. run upd_data_run; [exact Hk1|]. step. run upd_data_run; [apply set_page_get|].
  rewrite set_page_twice. step.
  run set_de_type_run; [apply set_page_get|cbn [v_fs set_page set_v_pages]; by rewrite Hm1
    |cbn [v_fs set_page set_v_pages]; by rewrite Hf1|]. rewrite set_page_twice.
  step. run upd_data_run; [apply set_page_get|]. rewrite set_page_twice.
  step. run set_de_type_run; [apply set_page_get|cbn [v_fs set_page set_v_pages]; by rewrite Hm1
    |cbn [v_fs set_page set_v_pages]; by rewrite Hf1|]. rewrite set_page_twice.
  change (KR_DIR_REC_LEN 1) with 12. unfold kr_rec_len_to_disk. change (u16 12) with 12.
  rewrite (u16_small (2 ^ bits - 12)) by lia.
  match goal with |- context [set_page (ino, 0) ?p s1] => set (p2 := p) end.
  assert (p2 = set_pg_data (empty_data (pg_data p0) (2 ^ bits) ino parent t) p1) as Hp2 by done.
  assert (sizes (v_fs s1) !! ino = Some 0) as Hs1 by (rewrite Hz1; apply lookup_insert_eq).
  step. call (commit_spec only_panic (set_page (ino, 0) p2 s1) (ino, 0) 0); [exact Hs1|].
  intros r s2 (Hr & Hpg2 & Hv2 & Hz2). step.
  run put_page_run; [rewrite Hpg2; apply set_page_get|]. step. split; [done|]. left.
  set (s3 := set_page (ino, 0) (add_pg_count (-1) p2) s2).
  assert (rewritten s (ino, 0) (add_pg_count (-1) p2) (2 ^ bits) s3) as Hrw.
  { unfold s3. split_and!; cbn [v_pages v_fs set_page set_v_pages].
    - rewrite Hpg2. cbn [v_pages set_page set_v_pages]. rewrite Hp1.
      cbn [v_pages set_page set_v_pages]. by rewrite !insert_insert_eq.
    - rewrite Hv2. exact Hv1.
    - rewrite Hz2. cbn [v_fs set_page set_v_pages fst]. rewrite Hz1, !insert_insert_eq.
      do 2 f_equal. lia. }
  clearbody s3. split; [eapply rewritten_changed; [exact Hrw|rewrite Hp2; simpl; lia]|].
  destruct Hrw as (Hpg & Hv & Hz). unfold view in Hv. injection Hv as Hw1 Hw2 Hw3 Hw4 Hw5.
  destruct (empty_page bits (es_inodes_count (fs_es (v_fs s))) Hb (pg_data p0) ino parent t)
    as [Hc Hh]; try done; [by eapply de_type_byte|].
  apply (empty_rep s3 ino bits (add_pg_count (-1) p2)).
  - by rewrite Hw1.
  - done.
  - by rewrite Hz, lookup_insert_eq.
  - by rewrite Hpg, lookup_insert_eq.
  - rewrite Hp2. split_and!; [by rewrite <- Hl0; apply len_empty_data|by apply bytes_empty_data|done].
  - rewrite Hw2, Hp2. exact Hc.
  - rewrite Hp2. exact Hh.
Qed.

End Ops.
