(* ===== verification/DirRead.v ===== *)
(** * Reading a directory

    What [kr_readdir] emits: the entries from the position on, as far as there is
    room for them, and where it leaves the position. *)

From S2P Require Import Prelude Bytes Bits Kr Rsv Bitmap Alloc State Balloc BlockMap PathFacts Dir DirPage DirFacts DirOps.

(** The entry at [o] as [dir_emit] gets it; those of the offsets [l] in use. *)
Definition emitted_at (types : bool) (d : list Z) (o : Z) : emitted :=
  (de_name d o, de_inode d o, d_type_of types d o).
Definition used (types : bool) (d : list Z) (l : list Z) : list emitted :=
  emitted_at types d <$> filter (fun o => de_inode d o <> 0) l.

Lemma used_app types d l1 l2 : used types d (l1 ++ l2) = used types d l1 ++ used types d l2.
Proof. unfold used. by rewrite filter_app, fmap_app. Qed.
Lemma used_in_use types d x l : de_inode d x <> 0 ->
  used types d (x :: l) = emitted_at types d x :: used types d l.
Proof. intros. unfold used. by rewrite filter_cons_True. Qed.
Lemma used_unused types d x l : de_inode d x = 0 -> used types d (x :: l) = used types d l.
Proof. intros. unfold used. rewrite filter_cons_False; [done|lia]. Qed.

Lemma filter_keep {A} (P : A -> Prop) `{!forall x, Decision (P x)} l : Forall P l -> filter P l = l.
Proof. induction 1 as [|x l Hx _ IH]; [done|]. by rewrite filter_cons_True, IH. Qed.
Lemma filter_drop {A} (P : A -> Prop) `{!forall x, Decision (P x)} l :
  Forall (fun x => ~ P x) l -> filter P l = [].
Proof. induction 1 as [|x l Hx _ IH]; [done|]. by rewrite filter_cons_False, IH. Qed.

Section Pages.
Context {D : DirKernel}.
Variables bits max : Z.

(** The loop over the records [r] of a page, from [o] to [lim]. *)
Lemma emit_entries_spec types d lim : bytes d -> 0 <= lim ->
  forall fuel o pos l r, chain bits max d o lim r -> lim - o < Z.of_nat fuel ->
  match emit_entries fuel types d (lim - KR_DIR_REC_LEN 1) o pos l with
  | EmitEnd p l' => p = pos + (lim - o) /\ l' = l ++ used types d r
  | EmitFull p l' => exists r1 x r2, r = r1 ++ x :: r2 /\ p = pos + (x - o) /\
      l' = l ++ used types d r1 /\ de_inode d x <> 0 /\ dir_emit_ok l' (emitted_at types d x) = false
  | EmitError _ _ => False
  end.
Proof.
  intros Hb Hlim. change (KR_DIR_REC_LEN 1) with 12.
  induction fuel as [|fuel IH]; intros o pos l r Hc Hf; [apply chain_le in Hc; lia|].
  cbn [emit_entries]. destruct r as [|x r].
  { simpl in Hc. subst. destruct (Z.leb_spec lim (lim - 12)); [lia|]. unfold used.
    rewrite app_nil_r. split; [lia|done]. }
  destruct Hc as (-> & Hok & Hc). pose proof (ok_min _ _ _ _ Hok). pose proof (chain_le _ _ _ _ _ _ Hc).
  destruct (Z.leb_spec o (lim - 12)); [|lia]. destruct (Z.eqb_spec (de_rec_len d o) 0); [lia|].
  cbv zeta. unfold kr_next_entry, kr_rec_len_from_disk. fold (emitted_at types d o).
  assert (forall l1, match emit_entries fuel types d (lim - 12) (o + de_rec_len d o)
      (pos + de_rec_len d o) l1 with
    | EmitEnd p l' => p = pos + (lim - o) /\ l' = l1 ++ used types d r
    | EmitFull p l' => exists r1 x r2, r = r1 ++ x :: r2 /\ p = pos + (x - o) /\
        l' = l1 ++ used types d r1 /\ de_inode d x <> 0 /\ dir_emit_ok l' (emitted_at types d x) = false
    | EmitError _ _ => False
    end) as Hrest.
  { intros l1. specialize (IH (o + de_rec_len d o) (pos + de_rec_len d o) l1 r Hc ltac:(lia)).
    destruct (emit_entries _ _ _ _ _ _ _); [|destruct IH as (r1 & x & r2 & E1 & E2 & E3)|done].
    - destruct IH as [-> ->]. split; [lia|done].
    - exists r1, x, r2. split_and!; [done|lia|apply E3..]. }
  destruct (Z.eqb_spec (de_inode d o) 0) as [Hz|Hnz].
  - specialize (Hrest l). destruct (emit_entries _ _ _ _ _ _ _); [|destruct Hrest as (r1 & x & r2 & -> & -> & E3)|done].
    + by rewrite used_unused by done.
    + exists (o :: r1), x, r2. by rewrite used_unused by done.
  - destruct (dir_emit_ok l (emitted_at types d o)) eqn:He; cbn [negb].
    + specialize (Hrest (l ++ [emitted_at types d o])).
      destruct (emit_entries _ _ _ _ _ _ _); [|destruct Hrest as (r1 & x & r2 & -> & -> & E3)|done].
      * by rewrite used_in_use, <- app_assoc in * by done.
      * exists (o :: r1), x, r2. by rewrite used_in_use, <- app_assoc in * by done.
    + exists [], o, r. unfold used at 1. simpl. rewrite app_nil_r. split_and!; try done. lia.
Qed.

(** [kr_validate_entry] leaves the offset of a record alone. *)
Lemma validate_spec d o : forall fuel p l, chain bits max d p o l -> o - p < Z.of_nat fuel ->
  validate fuel d p o = o.
Proof.
  induction fuel as [|fuel IH]; intros p l Hc Hf; [apply chain_le in Hc; lia|].
  cbn [validate]. destruct l as [|x l]; [simpl in Hc; subst; by rewrite Z.ltb_irrefl|].
  destruct Hc as (-> & Hok & Hc). pose proof (ok_min _ _ _ _ Hok). pose proof (chain_le _ _ _ _ _ _ Hc).
  destruct (Z.ltb_spec p o); [|lia]. destruct (Z.eqb_spec (de_rec_len d p) 0); [lia|].
  unfold kr_next_entry, kr_rec_len_from_disk. by apply (IH _ l); [|lia].
Qed.

Lemma kr_validate_entry_spec d lim l o : 0 <= bits -> chain bits max d 0 lim l -> lim <= PAGE_SIZE ->
  o ∈ l -> kr_validate_entry d o (2 ^ bits) = o.
Proof.
  intros Hbits Hc Hl Ho. assert (0 < 2 ^ bits) as Hp by (apply Z.pow_pos_nonneg; lia).
  destruct (chain_split _ _ _ _ _ _ _ Hc Ho) as (l1 & l2 & -> & H1 & Hok & H2).
  pose proof (chain_le _ _ _ _ _ _ H1). pose proof (chain_le _ _ _ _ _ _ H2).
  pose proof (ok_min _ _ _ _ Hok).
  unfold kr_validate_entry. rewrite clr_pow2 by done.
  pose proof (Z.mul_div_le o (2 ^ bits) Hp).
  destruct (chain_chunk _ _ d 0 o (2 ^ bits * (o / 2 ^ bits)) l1 Hbits H1) as (k1 & k2 & _ & _ & Hk).
  - split; [|done]. apply Z.mul_nonneg_nonneg; [lia|]. apply Z.div_pos; lia.
  - rewrite Z.mul_comm. apply Z_mod_mult.
  - apply (validate_spec d o _ _ k2 Hk). unfold page_fuel. unfold PAGE_SIZE in *.
    assert (0 <= o / 2 ^ bits) by (apply Z.div_pos; lia). nia.
Qed.

(** The records from that at [x] on are those at [x] or later. *)
Lemma chain_from d lim l1 x l2 : chain bits max d 0 lim (l1 ++ x :: l2) ->
  filter (fun y => x <= y) (l1 ++ x :: l2) = x :: l2.
Proof.
  intros Hc. apply chain_app in Hc as (b & H1 & -> & Hok & H2). rewrite filter_app.
  rewrite filter_drop, filter_keep; [done| |].
  - constructor; [lia|]. apply Forall_forall. intros y Hy.
    destruct (chain_in _ _ _ _ _ _ _ H2 Hy) as (Hy1 & _). pose proof (ok_min _ _ _ _ Hok). lia.
  - apply Forall_forall. intros y Hy.
    destruct (chain_in _ _ _ _ _ _ _ H1 Hy) as (_ & Hy1 & Hy2). pose proof (ok_min _ _ _ _ Hy1). lia.
Qed.
End Pages.

(** ** Positions

    A position is that of an entry, or the end of the directory. *)
Definition at_entry (recs : Z -> list Z) (size pos : Z) : Prop :=
  pos = size \/ 0 <= pos / PAGE_SIZE < pages_of size /\ pos mod PAGE_SIZE ∈ recs (pos / PAGE_SIZE).

Lemma page_pos n x : 0 <= x < PAGE_SIZE ->
  (n * PAGE_SIZE + x) / PAGE_SIZE = n /\ (n * PAGE_SIZE + x) mod PAGE_SIZE = x.
Proof. unfold PAGE_SIZE. intros. split; Z.to_euclidean_division_equations; lia. Qed.

Section Listing.
(** The data of the pages and the offsets of their records. *)
Variables (data : Z -> list Z) (recs : Z -> list Z) (types : bool).

(** The entries of [m] pages from [n] on. *)
Fixpoint later_pages (m : nat) (n : Z) : list emitted :=
  match m with
  | O => []
  | S m => used types (data n) (recs n) ++ later_pages m (n + 1)
  end.

(** The entries from the position [pos] on. *)
Definition listing (size pos : Z) : list emitted :=
  let n := pos / PAGE_SIZE in
  if n <? pages_of size then
    used types (data n) (filter (fun x => pos mod PAGE_SIZE <= x) (recs n)) ++
    later_pages (Z.to_nat (pages_of size - n - 1)) (n + 1)
  else [].

Variables (bits max size : Z).
Hypothesis Hbits : 10 <= bits <= 12.
Hypothesis Hsize : 0 <= size.
Hypothesis Hchunks : size mod 2 ^ bits = 0.
Hypothesis Hchain : forall n, 0 <= n < pages_of size ->
  chain bits max (data n) 0 (page_end size n) (recs n).

Lemma page_end_at n : 0 <= n < pages_of size -> 1024 <= page_end size n <= PAGE_SIZE.
Proof. intros Hn. by apply (page_end_bounds size bits). Qed.

Lemma listing_at n l1 x l2 : 0 <= n < pages_of size -> recs n = l1 ++ x :: l2 -> 0 <= x < PAGE_SIZE ->
  listing size (n * PAGE_SIZE + x) =
  used types (data n) (x :: l2) ++ later_pages (Z.to_nat (pages_of size - n - 1)) (n + 1).
Proof.
  intros Hn Hr Hx. destruct (page_pos n x Hx) as [E1 E2]. unfold listing. rewrite E1, E2.
  destruct (Z.ltb_spec n (pages_of size)); [|lia].
  pose proof (Hchain n Hn) as Hc. rewrite Hr in *. by rewrite (chain_from bits max _ _ _ _ _ Hc).
Qed.

Lemma first_record n : 0 <= n < pages_of size -> exists l, recs n = 0 :: l.
Proof.
  intros Hn. pose proof (Hchain n Hn) as Hc. pose proof (page_end_at n Hn).
  destruct (recs n) as [|x l]; simpl in Hc; [lia|]. destruct Hc as [-> _]. by exists l.
Qed.

Lemma record_in_page n x : 0 <= n < pages_of size -> x ∈ recs n -> 0 <= x < PAGE_SIZE /\
  n * PAGE_SIZE + x + KR_DIR_REC_LEN 1 <= size.
Proof.
  intros Hn Hx. destruct (chain_in _ _ _ _ _ _ _ (Hchain n Hn) Hx) as (H1 & Hok & H2).
  pose proof (ok_min _ _ _ _ Hok). pose proof (page_end_at n Hn). change (KR_DIR_REC_LEN 1) with 12.
  unfold page_end in *. unfold PAGE_SIZE in *. lia.
Qed.

(** After the page [n] comes the next one, or the end. *)
Lemma page_done n : 0 <= n < pages_of size ->
  let pos := n * PAGE_SIZE + page_end size n in
  at_entry recs size pos /\
  listing size pos = later_pages (Z.to_nat (pages_of size - n - 1)) (n + 1) /\
  (n + 1 < pages_of size -> pos = (n + 1) * PAGE_SIZE + 0 /\ 0 ∈ recs (n + 1)) /\
  (n + 1 = pages_of size -> pos = size).
Proof.
  intros Hn pos. pose proof (page_end_at n Hn) as He. pose proof (pages_of_val size) as Hpv.
  destruct (decide (n + 1 < pages_of size)) as [Hlt|Hge].
  - assert (pos = (n + 1) * PAGE_SIZE + 0) as ->.
    { unfold pos, page_end. unfold PAGE_SIZE. Z.to_euclidean_division_equations; lia. }
    destruct (first_record (n + 1) ltac:(lia)) as [l Hl].
    assert (0 ∈ recs (n + 1)) as Hin by (rewrite Hl; apply elem_of_cons; by left).
    destruct (page_pos (n + 1) 0 ltac:(done)) as [E1 E2].
    split; [right; rewrite E1, E2; split; [lia|done]|]. split; [|split; [done|lia]].
    rewrite (listing_at (n + 1) [] 0 l) by (done || lia). rewrite <- Hl.
    by replace (Z.to_nat (pages_of size - n - 1))
      with (S (Z.to_nat (pages_of size - (n + 1) - 1))) by lia.
  - assert (pos = size) as ->.
    { unfold pos, page_end. unfold PAGE_SIZE. Z.to_euclidean_division_equations; lia. }
    split; [by left|]. split; [|split; [lia|done]].
    replace (pages_of size - n - 1) with 0 by lia. simpl. unfold listing.
    destruct (Z.ltb_spec (size / PAGE_SIZE) (pages_of size)) as [Hlt|]; [|done].
    assert (size / PAGE_SIZE = n) as -> by (unfold PAGE_SIZE in *; Z.to_euclidean_division_equations; lia).
    replace (pages_of size - n - 1) with 0 by lia. simpl. rewrite app_nil_r.
    rewrite filter_drop; [done|]. apply Forall_forall. intros x Hx.
    destruct (chain_in _ _ _ _ _ _ _ (Hchain n Hn) Hx) as (_ & Hok & H2).
    pose proof (ok_min _ _ _ _ Hok). unfold page_end in H2. unfold PAGE_SIZE in *.
    Z.to_euclidean_division_equations; lia.
Qed.

Lemma listing_end : listing size size = [].
Proof.
  destruct (decide (pages_of size = 0)) as [Hz|Hz].
  - unfold listing. rewrite Hz. destruct (Z.ltb_spec (size / PAGE_SIZE) 0); [|done].
    unfold PAGE_SIZE in *. Z.to_euclidean_division_equations; lia.
  - assert (0 <= pages_of size - 1 < pages_of size) as Hn.
    { pose proof (pages_of_val size). Z.to_euclidean_division_equations; lia. }
    destruct (page_done _ Hn) as (_ & Hl & _ & He). rewrite He in Hl by lia. rewrite Hl.
    by replace (pages_of size - (pages_of size - 1) - 1) with 0 by lia.
Qed.
End Listing.

(** ** The loop over the pages *)
Section Ops.
Context {B : BitOps} {BL : BitLaws B} {R : RbTree} {T : Trylock} {K : Kernel} {D : DirKernel}
  {DL : DirLaws D}.

Definition dir_listing (s : vfs) (ino size : Z) (recs : Z -> list Z) (types : bool) (pos : Z) : list emitted :=
  listing (fun n => pdata s (ino, n)) recs types size pos.

(** Reading has emitted the entries from the position of [c] on, up to that of [c'],
    and stopped there at the end or for want of room. *)
Record read_on (s : vfs) (ino size : Z) (recs : Z -> list Z) (types : bool) (c c' : dir_context) : Prop := {
  ro_at : at_entry recs size (ctx_pos c');
  ro_emitted : exists l, ctx_emitted c' = ctx_emitted c ++ l /\
    dir_listing s ino size recs types (ctx_pos c) = l ++ dir_listing s ino size recs types (ctx_pos c');
  ro_stop : ctx_pos c' = size \/ exists e rest,
    dir_listing s ino size recs types (ctx_pos c') = e :: rest /\ dir_emit_ok (ctx_emitted c') e = false;
}.

Lemma read_on_trans s ino size recs types c c1 c' l1 : ctx_emitted c1 = ctx_emitted c ++ l1 ->
  dir_listing s ino size recs types (ctx_pos c) = l1 ++ dir_listing s ino size recs types (ctx_pos c1) ->
  read_on s ino size recs types c1 c' -> read_on s ino size recs types c c'.
Proof.
  intros H1 H2 [Ha (l & He & Hl) Hs]. split; [done| |done]. exists (l1 ++ l).
  by rewrite He, H1, H2, Hl, <- !app_assoc.
Qed.

Lemma read_pages_spec s ino size recs types : dir_ok s ino size recs ->
  forall m n offset rv c s1, marked s s1 -> 0 <= n -> Z.of_nat m = pages_of size - n ->
  (m <> O -> ctx_pos c = n * PAGE_SIZE + offset /\ offset ∈ recs n) ->
  (m = O -> ctx_pos c = size) ->
  runs (read_pages m ino n offset types rv c) never
    (fun r s' => r.1 = 0 /\ marked s s' /\ read_on s ino size recs types c r.2) s1.
Proof.
  intros Hok. pose proof (do_bits _ _ _ _ Hok) as Hbits. pose proof (do_bound _ _ _ _ Hok) as Hbd.
  pose proof (do_chunks _ _ _ _ Hok) as Hch. set (bits := fs_blocksize_bits (v_fs s)) in *.
  assert (forall n, 0 <= n < pages_of size -> chain bits (es_inodes_count (fs_es (v_fs s)))
    (pdata s (ino, n)) 0 (page_end size n) (recs n)) as Hchain.
  { intros n Hn. destruct (do_page _ _ _ _ Hok n Hn) as (p & Hp & _ & Hc). unfold pdata. by rewrite Hp. }
  destruct (sizes_lookup _ _ _ (do_size _ _ _ _ Hok)) as (i & Hi & Hsz).
  induction m as [|m IH]; intros n offset rv c s1 Hm Hn Hk Hpos Hend; cbn [read_pages].
  { step. split_and!; [done|done|]. specialize (Hend eq_refl). split; rewrite ?Hend; [by left| |by left].
    exists []. cbn [snd]. rewrite app_nil_r, Hend. done. }
  destruct (Hpos ltac:(done)) as [Hctx Hoff].
  assert (0 <= n < pages_of size) as Hnp by lia. clear Hpos Hend.
  destruct (record_in_page _ recs bits _ size ltac:(done) ltac:(lia) Hch Hchain n offset Hnp Hoff) as [Ho _].
  destruct (page_done _ recs types bits _ size ltac:(done) ltac:(lia) Hch Hchain n Hnp)
    as (Hat & Hlist & Hnext & Hlast).
  destruct (chain_split _ _ _ _ _ _ _ (Hchain n Hnp) Hoff) as (l1 & l2 & Hr & Hc1 & Hoko & Hc2).
  pose proof (listing_at _ recs types bits _ size Hchain n l1 offset l2 Hnp Hr Ho) as Hl0.
  pose proof (page_end_at bits size ltac:(done) ltac:(lia) Hch n Hnp) as Hpe.
  step. run dir_inode_run; [rewrite (proj1 Hm); exact Hi|].
  destruct (get_page_run s1 ino size recs n false (marked_ok _ _ _ _ _ Hm Hok) Hnp)
    as (p & Hp & (Hlen & Hb & _) & Hc & Hget).
  step. run Hget. step. run page_data_run; [apply set_page_get|]. step. step. cbv zeta. cbn [id].
  change (pg_data (held p)) with (pg_data p). cbn [v_fs set_page set_v_pages].
  assert (pdata s (ino, n) = pg_data p) as Hpd
    by (rewrite <- (marked_data s s1) by done; unfold pdata; by rewrite Hp).
  assert (kr_chunk_size (v_fs s1) = 2 ^ bits) as ->.
  { unfold kr_chunk_size, fs_blocksize. rewrite (proj1 Hm), Z.shiftl_mul_pow2 by (unfold bits in *; lia). unfold bits. lia. }
  rewrite last_byte_end by (rewrite Hsz; unfold page_end in Hpe; lia). rewrite Hsz.
  assert (forall b : bool, (if b then kr_validate_entry (pg_data p) offset (2 ^ bits) else offset) = offset) as Hval.
  { intros []; [|done]. rewrite <- Hpd. eapply kr_validate_entry_spec; [lia|by apply Hchain|lia|done]. }
  rewrite Hval. 
  assert (Z.shiftl n PAGE_SHIFT + offset = ctx_pos c) as Hsh
    by (rewrite Hctx; unfold PAGE_SHIFT, PAGE_SIZE; rewrite Z.shiftl_mul_pow2 by lia; lia).
  rewrite Hsh. replace (if rv && negb (offset =? 0) then ctx_pos c else ctx_pos c) with (ctx_pos c) by by destruct (_ && _).
  cbv beta in Hl0. rewrite Hpd in Hl0, Hoko, Hc2.
  pose proof (emit_entries_spec bits (es_inodes_count (fs_es (v_fs s))) types (pg_data p)
    (page_end size n) Hb ltac:(lia) page_fuel offset (ctx_pos c) (ctx_emitted c) (offset :: l2)
    ltac:(by split) ltac:(unfold page_fuel; lia)) as Hem.
  assert (marked s (set_page (ino, n) (set_pg_checked p) s1)) as Hm'
    by (eapply marked_trans; [exact Hm|by apply marked_page]).
  destruct (emit_entries _ _ _ _ _ _ _) as [p' l'|p' l'|]; [| |done].
  - destruct Hem as [-> ->]. step. run put_held; [done|].
    replace (ctx_pos c + (page_end size n - offset)) with (n * PAGE_SIZE + page_end size n) by lia.
    eapply runs_mono; [apply IH; cbn [ctx_pos]; [done|lia|lia| |]|].
    + intros Hmz. apply Hnext. lia.
    + intros ->. apply Hlast. lia.
    + intros [r c'] s' (Hr0 & Hm2 & Hro). split_and!; [done|done|].
      eapply read_on_trans; [| |exact Hro]; cbn [ctx_pos ctx_emitted]; [done|].
      unfold dir_listing. by rewrite Hctx, Hlist, Hl0.
  - destruct Hem as (r1 & x & r2 & Hsplit & -> & -> & Hnz & Hno). step. run put_held; [done|]. step.
    split_and!; [done|done|].
    replace (ctx_pos c + (x - offset)) with (n * PAGE_SIZE + x) by lia.
    assert (recs n = (l1 ++ r1) ++ x :: r2) as Hr' by (rewrite Hr, Hsplit, <- app_assoc; done).
    assert (x ∈ recs n) as Hx by (rewrite Hr'; set_solver).
    destruct (record_in_page _ recs bits _ size ltac:(done) ltac:(lia) Hch Hchain n x Hnp Hx) as [Hxb _].
    pose proof (listing_at _ recs types bits _ size Hchain n (l1 ++ r1) x r2 Hnp Hr' Hxb) as Hlx.
    cbv beta in Hlx. rewrite Hpd in Hlx. destruct (page_pos n x Hxb) as [E1 E2]. split; cbn [fst snd ctx_pos ctx_emitted].
    + right. rewrite E1, E2. by split.
    + exists (used types (pg_data p) r1). split; [done|]. unfold dir_listing.
      rewrite Hctx, Hl0, Hlx, Hsplit, used_app, <- app_assoc. done.
    + right. unfold dir_listing. rewrite Hlx, used_in_use by done. by do 2 eexists.
Qed.

Lemma kr_readdir_spec s ino size recs c : dir_ok s ino size recs -> at_entry recs size (ctx_pos c) ->
  runs (kr_readdir ino c) never (fun r s' => r.1 = 0 /\ marked s s' /\
    read_on s ino size recs (has_incompat_feature (fs_es (v_fs s)) KR_FEATURE_INCOMPAT_FILETYPE) c r.2) s.
Proof.
  intros Hok Hat. pose proof (do_bits _ _ _ _ Hok) as Hbits. pose proof (do_bound _ _ _ _ Hok) as Hbd.
  destruct (sizes_lookup _ _ _ (do_size _ _ _ _ Hok)) as (i & Hi & Hsz).
  assert (forall n, 0 <= n < pages_of size -> chain (fs_blocksize_bits (v_fs s))
    (es_inodes_count (fs_es (v_fs s))) (pdata s (ino, n)) 0 (page_end size n) (recs n)) as Hchain.
  { intros n Hn. destruct (do_page _ _ _ _ Hok n Hn) as (p & Hp & _ & Hc). unfold pdata. by rewrite Hp. }
  unfold kr_readdir. step. run dir_inode_run; [done|]. step. step. cbv zeta. cbn [id].
  change (dir_pages i) with (pages_of (i_size i)). rewrite Hsz, shiftr12, land_page.
  change 4096 with PAGE_SIZE. apply runs_if; intros E1.
  { step. split_and!; [done|apply marked_refl|].
    destruct Hat as [He|[Hn Hx]].
    - split; [by left| |by left]. exists []. cbn [snd]. rewrite app_nil_r. done.
    - destruct (record_in_page _ recs _ _ size ltac:(done) ltac:(lia) (do_chunks _ _ _ _ Hok) Hchain _ _ Hn Hx) as [_ Hx2].
      exfalso. pose proof (Z_div_mod_eq_full (ctx_pos c) PAGE_SIZE). lia. }
  destruct Hat as [He|[Hn Hx]]; [change (KR_DIR_REC_LEN 1) with 12 in E1; lia|].
  apply (read_pages_spec s ino size recs _ Hok); [apply marked_refl|lia|lia| |lia].
  intros _. split; [|done]. pose proof (Z_div_mod_eq_full (ctx_pos c) PAGE_SIZE). lia.
Qed.
End Ops.

(** ** The listing of the whole directory is the map *)

(** The type [dir_emit] gets for the type of an entry. *)
Definition emitted_type (types : bool) (t : Z) : Z :=
  if types && (t <? KR_FT_MAX) then nth (Z.to_nat t) kr_filetype_table 0 else 0.

Lemma used_elem types d l e : e ∈ used types d l <->
  exists x, x ∈ l /\ de_inode d x <> 0 /\ e = emitted_at types d x.
Proof.
  unfold used. rewrite list_elem_of_fmap. setoid_rewrite list_elem_of_filter. naive_solver.
Qed.

Lemma later_pages_elem data recs types e : forall m n, e ∈ later_pages data recs types m n <->
  exists j, n <= j < n + Z.of_nat m /\ e ∈ used types (data j) (recs j).
Proof.
  induction m as [|m IH]; intros n; cbn [later_pages].
  - rewrite elem_of_nil. split; [done|]. intros (j & ? & _). lia.
  - rewrite elem_of_app, IH. split.
    + intros [He|(j & Hj & He)]; [exists n|exists j]; (split; [lia|done]).
    + intros (j & Hj & He). destruct (decide (j = n)) as [->|]; [by left|right].
      exists j. split; [lia|done].
Qed.

Lemma listing_start data recs types size : 0 <= size ->
  (forall n x, 0 <= n < pages_of size -> x ∈ recs n -> 0 <= x) ->
  listing data recs types size 0 = later_pages data recs types (Z.to_nat (pages_of size)) 0.
Proof.
  intros Hs Hr. unfold listing. change (0 / PAGE_SIZE) with 0. change (0 mod PAGE_SIZE) with 0.
  destruct (Z.ltb_spec 0 (pages_of size)) as [Hp|Hp].
  - replace (Z.to_nat (pages_of size)) with (S (Z.to_nat (pages_of size - 0 - 1))) by lia.
    cbn [later_pages]. rewrite filter_keep; [done|]. apply Forall_forall. intros x Hx.
    by apply (Hr 0).
  - by replace (Z.to_nat (pages_of size)) with O by lia.
Qed.

Lemma listing_map s ino size recs m types : dir_rep s ino size recs m ->
  let l := dir_listing s ino size recs types 0 in
  NoDup ((fun e => e.1.1) <$> l) /\
  forall name x dt, (name, x, dt) ∈ l <-> exists t, m !! name = Some (x, t) /\ dt = emitted_type types t.
Proof.
  intros Hr l. pose proof (dr_ok _ _ _ _ _ Hr) as Hok.
  assert (forall n, 0 <= n < pages_of size -> chain (fs_blocksize_bits (v_fs s))
    (es_inodes_count (fs_es (v_fs s))) (pdata s (ino, n)) 0 (page_end size n) (recs n)) as Hchain.
  { intros n Hn. destruct (do_page _ _ _ _ Hok n Hn) as (p & Hp & _ & Hc). unfold pdata. by rewrite Hp. }
  assert (l = later_pages (fun n => pdata s (ino, n)) recs types (Z.to_nat (pages_of size)) 0) as ->.
  { apply listing_start; [apply (do_bound _ _ _ _ Hok)|]. intros n x Hn Hx.
    by apply (chain_in _ _ _ _ _ _ _ (Hchain n Hn)) in Hx as (? & _). }
  assert (forall n x, 0 <= n < pages_of size -> x ∈ recs n -> de_inode (pdata s (ino, n)) x <> 0 ->
    has_entry s ino size recs n x (entry (pdata s (ino, n)) x)) as Hent by (by intros).
  split.
  - assert (forall k n, 0 <= n -> n + Z.of_nat k = pages_of size -> NoDup ((fun e => e.1.1) <$>
      later_pages (fun n => pdata s (ino, n)) recs types k n)) as Hnd.
    { induction k as [|k IH]; intros n Hn Hk; [constructor|]. cbn [later_pages]. rewrite fmap_app.
      apply NoDup_app. split_and!; [| |apply IH; lia].
      - unfold used. rewrite <- list_fmap_compose. apply NoDup_fmap_2_strong.
        + intros x y (Hx & Hxl)%list_elem_of_filter (Hy & Hyl)%list_elem_of_filter Hxy.
          eapply (dr_once _ _ _ _ _ Hr n x n y); [apply Hent; [lia|done..]|].
          cbn in Hxy. rewrite Hxy. by apply Hent; [lia|..].
        + apply NoDup_filter. eapply chain_nodup, Hchain. lia.
      - intros name (e1 & -> & (x & Hx & Hnx & ->)%used_elem)%list_elem_of_fmap
          (e2 & He & (j & Hj & (y & Hy & Hny & ->)%used_elem)%later_pages_elem)%list_elem_of_fmap.
        cbn in He. destruct (dr_once _ _ _ _ _ Hr n x j y (de_name (pdata s (ino, n)) x)
          (de_inode (pdata s (ino, n)) x) (de_file_type (pdata s (ino, n)) x)
          (de_inode (pdata s (ino, j)) y) (de_file_type (pdata s (ino, j)) y)).
        + apply Hent; [lia|done..].
        + rewrite He. apply Hent; [lia|done..].
        + lia. }
    destruct (decide (0 <= pages_of size)); [apply Hnd; lia|].
    replace (Z.to_nat (pages_of size)) with O by lia. constructor.
  - intros name x dt. rewrite later_pages_elem. setoid_rewrite used_elem. split.
    + intros (n & Hn & o & Ho & Hnz & [= -> -> ->]). eexists. split; [|reflexivity].
      apply (dr_map _ _ _ _ _ Hr). exists n, o. apply Hent; [lia|done..].
    + intros (t & Hm & ->). apply (dr_map _ _ _ _ _ Hr) in Hm as (n & o & Hn & Ho & Hnz & He).
      exists n. split; [lia|]. exists o. split_and!; [done..|].
      unfold entry in He. unfold emitted_at. injection He as <- <- <-. done.
Qed.
