(* ===== verification/DemoDir.v ===== *)
(** * A small directory

    The directory of inode 2 of the small file system: one block with the entries
    "." and "..", its page in the cache. *)

From S2P Require Import Prelude Bytes Bits Kr Rsv Bitmap Alloc State Balloc BlockMap PathFacts Dir DirPage DirFacts DirOps DirEmpty Demo.

#[global] Instance demo_dirkernel : DirKernel := {|
  read_page := fun _ _ _ => Some (repeat 0 4096);
  block_write_begin := fun _ _ _ => mret 0;
  write_one_page := fun _ _ => 0;
  grab_cache_page_ok := true;
  fresh_page := repeat 0 4096;
  dir_emit_ok := fun _ _ => true;
|}.

Lemma zero_page : len (repeat 0 4096) = PAGE_SIZE /\ bytes (repeat 0 4096).
Proof. split; [reflexivity|]. generalize 4096%nat. induction n; simpl; constructor; [lia|done]. Qed.

#[global] Instance demo_dirlaws : DirLaws demo_dirkernel.
Proof.
  split; try done.
  - intros fs ino n d [= <-]. exact zero_page.
  - exact zero_page.
Qed.

Definition demo_page : page := Page (empty_data (repeat 0 4096) 1024 2 2 2) false false 0.
Definition demo_dir : vfs := Vfs demo {[(2, 0) := demo_page]}.

Lemma demo_dir_rep : dir_rep demo_dir 2 1024 (fun _ => [0; 12]) (empty_map 2 2 2).
Proof.
  destruct zero_page as [Hl Hb].
  destruct (empty_page 10 32 ltac:(lia) (repeat 0 4096) 2 2 2) as [Hc Hh]; try done.
  apply (empty_rep demo_dir 2 10 demo_page); try done.
  split_and!; [|by apply bytes_empty_data|by right]. by rewrite <- Hl; apply len_empty_data.
Qed.

(** It can be searched, and the name "ab" can be linked in it. *)
Definition ab : list Z := [97; 98].

Lemma demo_new_entry : new_entry demo_dir ab 12 1.
Proof.
  split; [split; [repeat constructor; lia|vm_compute; split; done]| |lia|vm_compute; done].
  exists (S_IFREG + 420). split; vm_compute; reflexivity.
Qed.

(** Two directories: that of inode 2, and an empty one of inode 15. *)
Definition two_dirs : vfs := Vfs
  (set_fs_inodes (<[15 := demo_inode 15 (S_IFDIR + 493) None]> (fs_inodes demo)) demo)
  (<[(15, 0) := Page (empty_data (repeat 0 4096) 1024 15 2 2) false false 0]> {[(2, 0) := demo_page]}).

Lemma two_dirs_rep ino : ino = 2 \/ ino = 15 ->
  dir_rep two_dirs ino 1024 (fun _ => [0; 12]) (empty_map ino 2 2).
Proof.
  intros Hino. destruct zero_page as [Hl Hb].
  destruct (empty_page 10 32 ltac:(lia) (repeat 0 4096) ino 2 2) as [Hc Hh]; try lia; try done.
  apply (empty_rep two_dirs ino 10 (Page (empty_data (repeat 0 4096) 1024 ino 2 2) false false 0)); try done.
  - destruct Hino as [->| ->]; by vm_compute.
  - destruct Hino as [->| ->]; reflexivity.
  - split_and!; [|by apply bytes_empty_data|by right]. by rewrite <- Hl; apply len_empty_data.
Qed.
