(* ===== verification/DirTheorems.v ===== *)
(** * What the directories guarantee

    The properties of dir.c: the functions on entries as a refinement of a map from
    names to inodes, the page check, empty directories, and reading a directory. *)

From S2P Require Import Prelude Bytes Bits Kr Rsv Bitmap Alloc State Balloc BlockMap PathFacts Dir DirPage DirFacts DirOps DirEmpty DirRead Demo DemoDir.

(** ** The specification

    A directory is a map from names to inodes, with the type of each. *)
Inductive dir_op :=
| Lookup (name : list Z)
| Link (name : list Z) (ino : Z)
| Unlink (name : list Z)
| Relink (name : list Z) (ino : Z).

Inductive dir_spec (type_of : Z -> Z) :
    dir_op -> gmap (list Z) (Z * Z) -> Z -> gmap (list Z) (Z * Z) -> Prop :=
| spec_found name m x t : m !! name = Some (x, t) -> dir_spec type_of (Lookup name) m x m
| spec_missing name m : m !! name = None -> dir_spec type_of (Lookup name) m 0 m
| spec_link name ino m r : m !! name = None -> r <= 0 ->
    dir_spec type_of (Link name ino) m r (<[name := (ino, type_of ino)]> m)
| spec_no_link name ino m r : r < 0 -> dir_spec type_of (Link name ino) m r m
| spec_unlink name m x t r : m !! name = Some (x, t) -> r <= 0 ->
    dir_spec type_of (Unlink name) m r (delete name m)
| spec_no_unlink name m : m !! name = None -> dir_spec type_of (Unlink name) m (- ENOENT) m
| spec_relink name ino m x t : m !! name = Some (x, t) ->
    dir_spec type_of (Relink name ino) m 0 (<[name := (ino, type_of ino)]> m)
| spec_no_relink name ino m : m !! name = None -> dir_spec type_of (Relink name ino) m (- ENOENT) m.

Section Directories.
Context {B : BitOps} {BL : BitLaws B} {R : RbTree} {T : Trylock} {K : Kernel} {D : DirKernel}
  {DL : DirLaws D}.

(** The calls of namei.c for each of them. *)
Definition run_op (dir : Z) (op : dir_op) : M vfs Z :=
  match op with
  | Lookup name => kr_inode_by_name dir name
  | Link name ino => kr_add_link dir name ino
  | Unlink name =>
      de ← kr_find_entry dir name;
      match de with
      | None => mret (- ENOENT)
      | Some (n, o) => kr_delete_entry (dir, n) o
      end
  | Relink name ino =>
      de ← kr_find_entry dir name;
      match de with
      | None => mret (- ENOENT)
      | Some (n, o) => kr_set_link dir n o ino true ;; mret 0
      end
  end.

(** What an operation takes for granted: the VFS looks a name up before it links
    it, and the inode has a type. *)
Definition ready (type_of : Z -> Z) (s : vfs) (dir size : Z) (m : gmap (list Z) (Z * Z)) (op : dir_op) : Prop :=
  match op with
  | Lookup name | Unlink name => len name <= 255 /\ searchable s dir size
  | Link name ino => m !! name = None /\ new_entry s name ino (type_of ino) /\
      next_usable s dir size /\ size + PAGE_SIZE < 2147483648
  | Relink name ino => new_entry s name ino (type_of ino) /\ searchable s dir size
  end.

(** What [dir_refines] says of one operation. *)
Definition refined (type_of : Z -> Z) (s : vfs) (dir : Z) (m : gmap (list Z) (Z * Z)) (op : dir_op) : Prop :=
  runs (run_op dir op) panic_or_bug (fun r s' => exists size' m',
    dir_spec type_of op m r m' /\ stands_for s' dir size' m' /\ changed s dir size' s') s.

Lemma marked_stands s s' dir size recs m : dir_rep s dir size recs m -> marked s s' ->
  stands_for s' dir size m /\ changed s dir size s'.
Proof.
  intros Hr Hm. split; [exists recs; by eapply marked_rep|]. apply marked_changed_same; [done|].
  apply (dr_ok _ _ _ _ _ Hr).
Qed.

Lemma lookup_refined type_of s dir size recs m name : dir_rep s dir size recs m ->
  len name <= 255 -> searchable s dir size -> refined type_of s dir m (Lookup name).
Proof.
  intros Hr Hlen Hse. unfold refined. cbn [run_op]. unfold kr_inode_by_name. step.
  eapply runs_weaken; [by apply (find_in_map s dir size recs m name)|done|].
  intros [[n o]|] s'; cbv beta iota.
  - intros (Hn & Hf). destruct (found_rep s dir size recs m name n o s' Hr Hn Hf)
      as (Hr' & Hch & Href & x & t & Hent & Hm).
    destruct (do_page _ _ _ _ (dr_ok _ _ _ _ _ Hr') n Hn) as (p & Hp & Hu & _).
    step. run page_data_run; [exact Hp|]. step. run put_page_run; [exact Hp|]. step.
    rewrite Hp in Hch. exists size, m. split_and!; [| |exact Hch].
    + destruct Hent as (_ & _ & _ & He). unfold pdata in He. rewrite Hp in He.
      assert (de_inode (pg_data p) o = x) as -> by (unfold entry in He; congruence).
      by eapply spec_found.
    + destruct (rewritten_same s' (set_page (dir, n) (add_pg_count (-1) p) s') dir size recs m n
        (add_pg_count (-1) p)) as (recs' & Hrep & _); [exact Hr'| |by destruct Hu as (? & ? & ?)|apply Hn| |by exists recs'].
      * split_and!; [reflexivity|done|]. cbn [v_fs set_page set_v_pages fst].
        by rewrite insert_id by apply (dr_ok _ _ _ _ _ Hr').
      * intros _. unfold pdata. rewrite Hp. by intros j Hj.
  - intros [Hm Hnone]. step. exists size, m. split; [by apply spec_missing|]. by eapply marked_stands.
Qed.

Lemma link_refined type_of s dir size recs m name ino : dir_rep s dir size recs m ->
  m !! name = None -> new_entry s name ino (type_of ino) -> next_usable s dir size ->
  size + PAGE_SIZE < 2147483648 -> refined type_of s dir m (Link name ino).
Proof.
  intros Hr Hnone Hne Hnext Hbig. unfold refined. cbn [run_op].
  eapply runs_weaken; [by apply (kr_add_link_spec s dir size recs m name ino (type_of ino))|by left|].
  intros r s' (Hr0 & [(size' & recs' & Hch & Hr' & _)|(Hlt & Hch & recs' & Hr' & _)]).
  - exists size', (<[name := (ino, type_of ino)]> m). split_and!; [by apply spec_link|by exists recs'|done].
  - exists size, m. split_and!; [by apply spec_no_link|by exists recs'|done].
Qed.

Lemma unlink_refined type_of s dir size recs m name : dir_rep s dir size recs m ->
  len name <= 255 -> searchable s dir size -> refined type_of s dir m (Unlink name).
Proof.
  intros Hr Hlen Hse. unfold refined. cbn [run_op]. step.
  eapply runs_weaken; [by apply (find_in_map s dir size recs m name)|done|].
  intros [[n o]|] s'; cbv beta iota.
  - intros (Hn & Hf). destruct (found_rep s dir size recs m name n o s' Hr Hn Hf)
      as (Hr' & Hch & Href & x & t & Hent & Hm).
    eapply runs_mono; [by apply (kr_delete_entry_spec s' dir size recs m n o name x t)|].
    intros r s'' (Hr0 & Hrel & Hr''). exists size, (delete name m).
    split_and!; [by eapply spec_unlink|done|by eapply released_changed].
  - intros [Hm Hnone]. step. exists size, m. split; [by apply spec_no_unlink|]. by eapply marked_stands.
Qed.

Lemma relink_refined type_of s dir size recs m name ino : dir_rep s dir size recs m ->
  new_entry s name ino (type_of ino) -> searchable s dir size -> refined type_of s dir m (Relink name ino).
Proof.
  intros Hr Hne Hse. unfold refined. cbn [run_op]. step.
  assert (len name <= 255) as Hlen by (destruct Hne as [[_ ?] _ _ _]; lia).
  eapply runs_weaken; [by apply (find_in_map s dir size recs m name)|done|].
  intros [[n o]|] s'; cbv beta iota.
  - intros (Hn & Hf). destruct (found_rep s dir size recs m name n o s' Hr Hn Hf)
      as (Hr' & Hch & Href & x & t & Hent & Hm). step.
    eapply runs_mono; [apply (kr_set_link_spec s' dir size recs m n o name x t ino (type_of ino)); try done|].
    { eapply new_entry_view; [|exact Hne]. by destruct Hch as (? & _). }
    intros _ s'' (Hrel & recs'' & Hr'' & _). step. exists size, (<[name := (ino, type_of ino)]> m).
    split_and!; [by eapply spec_relink|by exists recs''|by eapply released_changed].
  - intros [Hm Hnone]. step. exists size, m. split; [by apply spec_no_relink|]. by eapply marked_stands.
Qed.


(** ** Pages *)

(** What [kr_check_page] asks of the page [n] of a directory of [size] bytes: the
    directory ends before it, or its records follow each other to the end of the
    page or of the directory, which is that of a block. *)
Definition page_accepted (fs : krfs) (size n : Z) (d : list Z) : Prop :=
  n * PAGE_SIZE = size \/
  page_end size n mod 2 ^ fs_blocksize_bits fs = 0 /\
  exists l, chain (fs_blocksize_bits fs) (es_inodes_count (fs_es fs)) d 0 (page_end size n) l.

(** C14.  The check of a page accepts it just when its records are in order, and
    marks it accordingly.  A page that is not is reported, unless the directory has
    been already, and the mount options may make a panic of it. *)
Theorem kr_check_page_correct s k i p quiet : loaded (core_of (v_fs s)) ->
  fs_inodes (v_fs s) !! k.1 = Some i -> v_pages s !! k = Some p -> bytes (pg_data p) ->
  10 <= fs_blocksize_bits (v_fs s) <= 12 -> 0 <= i_size i -> 0 <= k.2 -> k.2 * PAGE_SIZE <= i_size i ->
  runs (kr_check_page k quiet)
    (fun w => w = Panic /\ quiet = false /\ test_opt KR_MOUNT_ERRORS_PANIC (v_fs s) = true)
    (fun ok s' => (ok = true <-> page_accepted (v_fs s) (i_size i) k.2 (pg_data p)) /\
       v_pages s' = <[k := (if ok then set_pg_checked else set_pg_error) p]> (v_pages s) /\
       if ok || quiet then v_fs s' = v_fs s else erred (v_fs s) (v_fs s')) s.
Proof.
  intros Hld Hi Hp Hb Hbits Hs Hn Hle. unfold kr_check_page. step. run dir_inode_run; [done|].
  step. run page_data_run; [exact Hp|]. step. step. cbn [id].
  pose proof (page_good_spec _ (es_inodes_count (fs_es (v_fs s))) i k.2 (pg_data p) Hbits Hb Hs Hn Hle) as Hg.
  fold (page_accepted (v_fs s) (i_size i) k.2 (pg_data p)) in Hg.
  assert (kr_chunk_size (v_fs s) = 2 ^ fs_blocksize_bits (v_fs s)) as ->.
  { unfold kr_chunk_size, fs_blocksize. rewrite Z.shiftl_mul_pow2 by lia. lia. }
  apply runs_if; intros E; rewrite E in Hg.
  - step. run upd_page_run; [exact Hp|]. step. done.
  - step. step.
    + destruct quiet; [done|]. apply runs_lift. eapply runs_weaken; [by apply kr_error_loaded| |].
      * by intros w [-> ?].
      * cbv beta. intros _ fs' He. step. run upd_page_run; [exact Hp|]. step. done.
    + destruct quiet; [|done]. step. run upd_page_run; [exact Hp|]. step. done.
Qed.

(** ** Empty directories *)

(** [kr_empty_dir] finds the directory to be empty just when it has no name but
    "." for itself and "..", and changes nothing but the marks of checked pages. *)
Theorem kr_empty_dir_correct s dir size m : stands_for s dir size m ->
  runs (kr_empty_dir dir) never (fun r s' => marked s s' /\
    r = if bool_decide (map_Forall (fun name e => harmless dir (name, e.1, e.2)) m) then 1 else 0) s.
Proof.
  intros (recs & Hr). call kr_empty_dir_spec; [exact Hr|]. intros r s' (Hm & Hres). split; [done|].
  case_bool_decide as Hall; destruct Hres as [[-> Hh]|[-> (name & x & t & Hx & Hn)]]; try done.
  - by specialize (Hall _ _ Hx).
  - exfalso. apply Hall. intros name [x t] Hx. by apply Hh.
Qed.

(** A directory whose pages are all marked bad is found to be empty, whatever
    it holds: [rmdir] of it goes through. *)
Theorem kr_empty_dir_bad_pages s dir i : fs_inodes (v_fs s) !! dir = Some i ->
  (forall n, 0 <= n < dir_pages i -> exists p, v_pages s !! (dir, n) = Some p /\
     pg_checked p = false /\ pg_error p = true) ->
  runs (kr_empty_dir dir) never (fun r s' => r = 1 /\ s' = s) s.
Proof.
  intros Hi Hbad. unfold kr_empty_dir. step. run dir_inode_run; [done|].
  assert (forall m n err, 0 <= n -> n + Z.of_nat m <= Z.max 0 (dir_pages i) ->
    runs (empty_pages m dir n err) never (fun r s' => r = 1 /\ s' = s) s) as Hloop.
  { induction m as [|m IH]; intros n err Hn Hm; cbn [empty_pages]; [by step|].
    step. run dir_inode_run; [done|]. step.
    destruct (Hbad n ltac:(lia)) as (p & Hp & Hc & He).
    assert (kr_get_page dir n err s = Ret (inl (- EIO)) s) as Hget.
    { unfold kr_get_page. cbv zeta. rewrite (bind_Ret _ _ _ _ _ (read_cached _ _ _ Hp)).
      cbn [add_pg_count pg_checked pg_error]. rewrite Hc, He.
      rewrite (bind_Ret _ _ _ _ _ (put_page_run _ _ _ (set_page_get _ _ _))), set_page_twice.
      rewrite set_page_same; [done|]. rewrite Hp. f_equal. destruct p. unfold add_pg_count. simpl. f_equal. lia. }
    run Hget. apply IH; lia. }
  apply Hloop; lia.
Qed.

(** A new directory, where [kr_make_empty] goes through, stands for "." and ".."
    and is found to be empty. *)
Theorem make_then_empty s ino parent mode t bits :
  fs_blocksize_bits (v_fs s) = bits -> 10 <= bits <= 12 -> sizes (v_fs s) !! ino = Some 0 ->
  (forall p, v_pages s !! (ino, 0) = Some p -> usable p) ->
  modes (v_fs s) !! ino = Some mode -> de_type (es_feature_incompat (fs_es (v_fs s))) mode = Some t ->
  0 < ino < 4294967296 -> ino <= es_inodes_count (fs_es (v_fs s)) ->
  0 < parent < 4294967296 -> parent <= es_inodes_count (fs_es (v_fs s)) ->
  runs (err ← kr_make_empty ino parent;
        if err =? 0 then kr_empty_dir ino else mret err) only_panic
    (fun r s' => r < 0 \/ r = 1 /\ stands_for s' ino (2 ^ bits) (empty_map ino parent t)) s.
Proof.
  intros Hbits Hb Hs Hu Hm Ht Hino Him Hpar Hpm. step.
  call kr_make_empty_spec; [done..|]. intros r s1 (Hr & Hres).
  apply runs_if; intros E; [|step; left; lia].
  destruct Hres as [[_ Hrep]|[? _]]; [|lia].
  eapply runs_weaken; [by eapply kr_empty_dir_spec|done|]. cbv beta. intros e s2 (Hmk & He).
  right. split; [|by eexists; eapply marked_rep].
  destruct He as [[-> _]|(_ & name & x & u & Hx & Hno)]; [done|]. exfalso. apply Hno.
  unfold empty_map in Hx. apply lookup_insert_Some in Hx as [[<- [= <- <-]]|[_ Hx]].
  - right. split; [done|]. cbn [fst snd]. symmetry. apply u32_small; lia.
  - apply lookup_singleton_Some in Hx as [<- _]. by left.
Qed.

(** ** Reading a directory *)

(** Whether entries have a type. *)
Definition types_of (s : vfs) : bool :=
  has_incompat_feature (fs_es (v_fs s)) KR_FEATURE_INCOMPAT_FILETYPE.

(** C23.  Reading a directory from an entry on emits the entries that follow it, in
    their order, until the end or until there is no room for the next one; the
    position it leaves is that of this entry, from which another call goes on. *)
Theorem kr_readdir_correct s dir size recs c : dir_ok s dir size recs -> at_entry recs size (ctx_pos c) ->
  runs (kr_readdir dir c) never (fun r s' => r.1 = 0 /\ marked s s' /\
    read_on s dir size recs (types_of s) c r.2) s.
Proof. apply kr_readdir_spec. Qed.

(** Reading the whole of a directory gives each of its names once, with the
    inode and the type of the map. *)
Theorem kr_readdir_complete s dir size m version : stands_for s dir size m ->
  (forall l e, dir_emit_ok l e = true) ->
  runs (kr_readdir dir (DirContext 0 [] version)) never (fun r s' =>
    r.1 = 0 /\ ctx_pos r.2 = size /\ NoDup ((fun e => e.1.1) <$> ctx_emitted r.2) /\
    forall name x dt, (name, x, dt) ∈ ctx_emitted r.2 <->
      exists t, m !! name = Some (x, t) /\ dt = emitted_type (types_of s) t) s.
Proof.
  intros (recs & Hr) Hroom. pose proof (dr_ok _ _ _ _ _ Hr) as Hok.
  assert (at_entry recs size 0) as Hat.
  { unfold at_entry. change (0 / PAGE_SIZE) with 0. change (0 mod PAGE_SIZE) with 0.
    pose proof (do_bound _ _ _ _ Hok). destruct (decide (size = 0)) as [->|Hz]; [by left|right].
    assert (0 <= 0 < pages_of size) as Hn by (rewrite pages_of_val; Z.to_euclidean_division_equations; lia).
    split; [done|]. destruct (do_page _ _ _ _ Hok 0 Hn) as (p & _ & _ & Hc).
    pose proof (page_end_bounds size _ 0 (do_bits _ _ _ _ Hok) (do_chunks _ _ _ _ Hok) ltac:(lia) Hn) as [He _].
    destruct (recs 0) as [|x l]; simpl in Hc; [lia|]. destruct Hc as [-> _]. apply elem_of_cons. by left. }
  pose proof (listing_map s dir size recs m (types_of s) Hr) as Hl. cbv zeta in Hl.
  call kr_readdir_spec; [exact Hok|exact Hat|]. intros [r c'] s' (Hr0 & _ & [Ha (l & He & Hls) Hstop]).
  cbn [fst snd ctx_pos ctx_emitted] in *.
  destruct Hstop as [Hpos|(e & rest & _ & Hno)]; [|by rewrite Hroom in Hno].
  rewrite Hpos in Hls. fold (types_of s) in Hls.
  assert (dir_listing s dir size recs (types_of s) size = []) as Hend.
  { eapply (listing_end _ recs (types_of s) _ (es_inodes_count (fs_es (v_fs s)))); try apply Hok.
    intros n Hn. destruct (do_page _ _ _ _ Hok n Hn) as (p & Hp & _ & Hc). unfold pdata. by rewrite Hp. }
  rewrite Hend, app_nil_r in Hls. rewrite He, <- Hls. cbn [app]. split_and!; [done|done|apply Hl..].
Qed.

End Directories.

(** ** Witnesses *)


(** The page of the small directory is in order. *)
Lemma kr_check_page_witness : runs (kr_check_page (2, 0) false)
  (fun w => w = Panic /\ false = false /\ test_opt KR_MOUNT_ERRORS_PANIC (v_fs demo_dir) = true)
  (fun ok s' => (ok = true <-> page_accepted (v_fs demo_dir) 1024 0 (pg_data demo_page)) /\
     v_pages s' = <[(2, 0) := (if ok then set_pg_checked else set_pg_error) demo_page]> (v_pages demo_dir) /\
     if ok || false then v_fs s' = v_fs demo_dir else erred (v_fs demo_dir) (v_fs s')) demo_dir.
Proof.
  apply (kr_check_page_correct demo_dir (2, 0) (demo_inode 2 (S_IFDIR + 493) None) demo_page false).
  - apply core_loaded, demo_core_ok.
  - vm_compute. reflexivity.
  - reflexivity.
  - apply bytes_empty_data, zero_page.
  - split; vm_compute; done.
  - vm_compute. done.
  - done.
  - vm_compute. done.
Defined.

Lemma kr_empty_dir_witness : runs (kr_empty_dir 2) never (fun r s' => marked demo_dir s' /\ r = 1) demo_dir.
Proof.
  call (kr_empty_dir_correct demo_dir 2 1024 (empty_map 2 2 2)); [by exists (fun _ => [0; 12]); apply demo_dir_rep|].
  intros r s' [H1 ->]. split; [exact H1|]. vm_compute. reflexivity.
Defined.

(** The small directory with a file in it and its page marked bad. *)
Definition bad_dir : vfs := set_v_pages {[(2, 0) := Page (put_entry (pg_data demo_page) 12 ab 12 1) false true 0]} demo_dir.

Lemma kr_empty_dir_bad_pages_witness : runs (kr_empty_dir 2) never (fun r s' => r = 1 /\ s' = bad_dir) bad_dir.
Proof.
  apply (kr_empty_dir_bad_pages bad_dir 2 (demo_inode 2 (S_IFDIR + 493) None)); [done|].
  intros n Hn. change (0 <= n < 1) in Hn. assert (n = 0) as -> by lia. by eexists.
Defined.

(** A directory that has just been allocated. *)
Definition fresh_dir : vfs :=
  set_v_fs (set_fs_inodes (<[15 := set_i_size 0 (demo_inode 15 (S_IFDIR + 493) None)]> (fs_inodes demo)) demo) demo_dir.

Lemma make_then_empty_witness :
  runs (err ← kr_make_empty 15 2; if err =? 0 then kr_empty_dir 15 else mret err) only_panic
    (fun r s' => r < 0 \/ r = 1 /\ stands_for s' 15 1024 (empty_map 15 2 2)) fresh_dir /\
  answer (err ← kr_make_empty 15 2; if err =? 0 then kr_empty_dir 15 else mret err) fresh_dir = Some 1.
Proof.
  split; [|vm_compute; reflexivity].
  apply (make_then_empty fresh_dir 15 2 (S_IFDIR + 493) 2 10); try done; by vm_compute.
Defined.

Lemma kr_readdir_witness : runs (kr_readdir 2 (DirContext 12 [] 1)) never (fun r s' => r.1 = 0 /\
  marked demo_dir s' /\ read_on demo_dir 2 1024 (fun _ => [0; 12]) true (DirContext 12 [] 1) r.2) demo_dir.
Proof.
  apply (kr_readdir_correct demo_dir 2 1024 (fun _ => [0; 12]) (DirContext 12 [] 1)).
  - apply demo_dir_rep.
  - right. change (ctx_pos _) with 12. split; [by vm_compute|]. change (12 mod PAGE_SIZE) with 12. set_solver.
Defined.

Lemma kr_readdir_complete_witness :
  runs (kr_readdir 2 (DirContext 0 [] 1)) never (fun r s' =>
    r.1 = 0 /\ ctx_pos r.2 = 1024 /\ NoDup ((fun e => e.1.1) <$> ctx_emitted r.2) /\
    forall name x dt, (name, x, dt) ∈ ctx_emitted r.2 <->
      exists t, empty_map 2 2 2 !! name = Some (x, t) /\ dt = emitted_type true t) demo_dir.
Proof.
  apply (kr_readdir_complete demo_dir 2 1024 (empty_map 2 2 2) 1); [|done].
  exists (fun _ => [0; 12]). apply demo_dir_rep.
Defined.
