(* ===== verification/Namei.v ===== *)
(** * Names (namei.c)

    The functions of the VFS on the names of a directory: looking up, creating,
    linking, removing and renaming.  A dentry is given by its directory, its name
    and, where it has one, its inode. *)

From S2P Require Import Prelude Bytes Bits Kr Rsv Bitmap Alloc State Balloc InodeFlags Ialloc BlockMap Truncate Super InodeDisk Dir.

Definition S_IRWXUGO : Z := 511.
Definition RENAME_NOREPLACE : Z := 1.

(** What the kernel does with the text of a symbolic link of its own blocks:
    [page_symlink(inode, symname, len)]. *)
Class NameiKernel := {
  page_symlink : Z -> list Z -> Z -> M vfs Z;
}.

(** What a lookup gives: an error, or what [d_splice_alias] or [d_obtain_alias] is
    called with: no inode, an error as a pointer, or an inode. *)
Inductive dentry_result :=
| LookupError (err : Z)
| Alias (inode : option (Z + Z)).

(** [i_data] of a fast symbolic link: the bytes of its text. *)
Definition link_data (data : list Z) (symname : list Z) : list Z :=
  data_of_raw (put_bytes (put_block_array (repeat 0 100) 0 0 data) (raw_i_block 0) (symname ++ [0])) 0.

Section Ops.
Context `{BitOps, RbTree, Trylock, Kernel, InodeKernel, DirKernel, NameiKernel}.

Definition upd_inode (f : inode -> inode) (ino : Z) : M vfs unit := on_fs (inode_upd f ino).
Definition note (c : kcall) : M vfs unit := on_fs (log c).

(** [drop_nlink], [inode_inc_link_count] and [inode_dec_link_count] of the kernel:
    one link less or more, and the inode to be written. *)
Definition drop_nlink (ino : Z) : M vfs unit := upd_inode (fun i => set_i_nlink (u32 (i_nlink i - 1)) i) ino.
Definition inode_inc_link_count (ino : Z) : M vfs unit :=
  upd_inode (fun i => set_i_nlink (u32 (i_nlink i + 1)) i) ino ;; note (mark_inode_dirty ino).
Definition inode_dec_link_count (ino : Z) : M vfs unit :=
  drop_nlink ino ;; note (mark_inode_dirty ino).

(** ** Looking up *)

Definition kr_lookup (dir : Z) (name : list Z) : M vfs dentry_result :=
  if len name >? EXT2_NAME_LEN then mret (LookupError (- ENAMETOOLONG))
  else
    ino ← kr_inode_by_name dir name;
    if negb (ino =? 0) then
      inode ← on_fs (kr_iget ino);
      match inode with
      | inl err =>
          if err =? - ESTALE then on_fs kr_error ;; mret (LookupError (- EIO))
          else mret (Alias (Some (inl err)))
      | inr ino => mret (Alias (Some (inr ino)))
      end
    else mret (Alias None).

Definition kr_get_parent (child : Z) : M vfs dentry_result :=
  ino ← kr_inode_by_name child [46; 46];
  if ino =? 0 then mret (LookupError (- ENOENT))
  else inode ← on_fs (kr_iget ino); mret (Alias (Some inode)).

(** ** Making *)

Definition kr_add_nondir (dir : Z) (name : list Z) (inode : Z) : M vfs Z :=
  err ← kr_add_link dir name inode;
  if err =? 0 then note (unlock_new_inode inode) ;; note (d_instantiate inode) ;; mret 0
  else
    inode_dec_link_count inode ;;
    note (unlock_new_inode inode) ;;
    note (iput inode) ;;
    mret err.

(** [kr_new_inode] in the directory [dir]. *)
Definition new_inode_in (dir mode : Z) : M vfs (Z + Z) :=
  i ← dir_inode dir; on_fs (kr_new_inode i mode).

Definition kr_create (dir : Z) (name : list Z) (mode : Z) : M vfs Z :=
  let err := dquot_initialize dir in
  if negb (err =? 0) then mret err
  else
    inode ← new_inode_in dir mode;
    match inode with
    | inl err => mret err
    | inr inode => note (mark_inode_dirty inode) ;; kr_add_nondir dir name inode
    end.

(** An inode without a name; [d_tmpfile] takes its link away. *)
Definition kr_tmpfile (dir : Z) (mode : Z) : M vfs Z :=
  inode ← new_inode_in dir mode;
  match inode with
  | inl err => mret err
  | inr inode =>
      note (mark_inode_dirty inode) ;; note (d_tmpfile inode) ;;
      note (unlock_new_inode inode) ;; mret 0
  end.

Definition kr_mknod (dir : Z) (name : list Z) (mode rdev : Z) : M vfs Z :=
  let err := dquot_initialize dir in
  if negb (err =? 0) then mret err
  else
    inode ← new_inode_in dir mode;
    match inode with
    | inl err => mret err
    | inr inode =>
        i ← dir_inode inode;
        note (init_special_inode inode (i_mode i) rdev) ;;
        when (S_ISCHR (i_mode i) || S_ISBLK (i_mode i)) (upd_inode (set_i_rdev rdev) inode) ;;
        note (mark_inode_dirty inode) ;;
        kr_add_nondir dir name inode
    end.

(** The 60 bytes of [i_data] hold a text that is short enough. *)
Definition kr_symlink (dir : Z) (name symname : list Z) : M vfs Z :=
  s ← gets id;
  let l := u32 (len symname + 1) in
  if l >? fs_blocksize (v_fs s) then mret (- ENAMETOOLONG)
  else
    let err := dquot_initialize dir in
    if negb (err =? 0) then mret err
    else
      inode ← new_inode_in dir (Z.lor S_IFLNK S_IRWXUGO);
      match inode with
      | inl err => mret err
      | inr inode =>
          err ← (if l >? 60 then page_symlink inode symname l
                 else
                   upd_inode (fun i => set_i_size (l - 1)
                     (set_KR_I (set_i_data (link_data (i_data (KR_I i)) symname) (KR_I i)) i)) inode ;;
                   mret 0);
          if negb (err =? 0) then
            inode_dec_link_count inode ;; note (unlock_new_inode inode) ;; note (iput inode) ;; mret err
          else note (mark_inode_dirty inode) ;; kr_add_nondir dir name inode
      end.

Definition kr_link (inode dir : Z) (name : list Z) : M vfs Z :=
  let err := dquot_initialize dir in
  if negb (err =? 0) then mret err
  else
    upd_inode (set_i_ctime current_time) inode ;;
    inode_inc_link_count inode ;;
    note (ihold inode) ;;
    err ← kr_add_link dir name inode;
    if err =? 0 then note (d_instantiate inode) ;; mret 0
    else inode_dec_link_count inode ;; note (iput inode) ;; mret err.

Definition kr_mkdir (dir : Z) (name : list Z) (mode : Z) : M vfs Z :=
  let err := dquot_initialize dir in
  if negb (err =? 0) then mret err
  else
    inode_inc_link_count dir ;;
    inode ← new_inode_in dir (Z.lor S_IFDIR mode);
    match inode with
    | inl err => inode_dec_link_count dir ;; mret err
    | inr inode =>
        let out_fail err :=
          inode_dec_link_count inode ;; inode_dec_link_count inode ;;
          note (unlock_new_inode inode) ;; note (iput inode) ;;
          inode_dec_link_count dir ;; mret err in
        inode_inc_link_count inode ;;
        err ← kr_make_empty inode dir;
        if negb (err =? 0) then out_fail err
        else
          err ← kr_add_link dir name inode;
          if negb (err =? 0) then out_fail err
          else note (unlock_new_inode inode) ;; note (d_instantiate inode) ;; mret err
    end.

(** ** Removing *)

Definition kr_unlink (dir : Z) (name : list Z) (inode : Z) : M vfs Z :=
  let err := dquot_initialize dir in
  if negb (err =? 0) then mret err
  else
    de ← kr_find_entry dir name;
    match de with
    | None => mret (- ENOENT)
    | Some (n, o) =>
        err ← kr_delete_entry (dir, n) o;
        if negb (err =? 0) then mret err
        else
          d ← dir_inode dir;
          upd_inode (set_i_ctime (i_ctime d)) inode ;;
          inode_dec_link_count inode ;;
          mret 0
    end.

Definition kr_rmdir (dir : Z) (name : list Z) (inode : Z) : M vfs Z :=
  empty ← kr_empty_dir inode;
  if empty =? 0 then mret (- ENOTEMPTY)
  else
    err ← kr_unlink dir name inode;
    when (err =? 0)
      (upd_inode (set_i_size 0) inode ;; inode_dec_link_count inode ;; inode_dec_link_count dir) ;;
    mret err.

(** ** Renaming *)

(** The part that makes the new name: [None], or an error for [out_dir].  [dir_de]
    says whether the inode is a directory. *)
Definition rename_new (dir_de : bool) (old_inode new_dir : Z) (new_name : list Z)
    (new_inode : option Z) : M vfs (option Z) :=
  match new_inode with
  | Some new_inode =>
      empty ← (if dir_de then kr_empty_dir new_inode else mret 1);
      if empty =? 0 then mret (Some (- ENOTEMPTY))
      else
        new_de ← kr_find_entry new_dir new_name;
        match new_de with
        | None => mret (Some (- ENOENT))
        | Some (n, o) =>
            kr_set_link new_dir n o old_inode true ;;
            upd_inode (set_i_ctime current_time) new_inode ;;
            when dir_de (drop_nlink new_inode) ;;
            inode_dec_link_count new_inode ;;
            mret None
        end
  | None =>
      err ← kr_add_link new_dir new_name old_inode;
      if negb (err =? 0) then mret (Some err)
      else when dir_de (inode_inc_link_count new_dir) ;; mret None
  end.

Definition kr_rename (old_dir : Z) (old_name : list Z) (old_inode : Z) (new_dir : Z)
    (new_name : list Z) (new_inode : option Z) (flags : Z) : M vfs Z :=
  if negb (clr flags RENAME_NOREPLACE =? 0) then mret (- EINVAL)
  else
    let err := dquot_initialize old_dir in
    if negb (err =? 0) then mret err
    else
      let err := dquot_initialize new_dir in
      if negb (err =? 0) then mret err
      else
        old_de ← kr_find_entry old_dir old_name;
        match old_de with
        | None => mret (- ENOENT)
        | Some (old_n, old_o) =>
            i ← dir_inode old_inode;
            dir_de ← (if S_ISDIR (i_mode i) then kr_dotdot old_inode else mret None);
            if S_ISDIR (i_mode i) && bool_decide (dir_de = None) then
              kr_put_page (old_dir, old_n) ;; mret (- EIO)
            else
              failed ← rename_new (S_ISDIR (i_mode i)) old_inode new_dir new_name new_inode;
              match failed with
              | Some err =>
                  match dir_de with
                  | Some (n, _) => kr_put_page (old_inode, n)
                  | None => mret tt
                  end ;;
                  kr_put_page (old_dir, old_n) ;; mret err
              | None =>
                  upd_inode (set_i_ctime current_time) old_inode ;;
                  note (mark_inode_dirty old_inode) ;;
                  _ ← kr_delete_entry (old_dir, old_n) old_o;
                  match dir_de with
                  | Some (n, o) =>
                      (if negb (old_dir =? new_dir) then kr_set_link old_inode n o new_dir false
                       else kr_put_page (old_inode, n)) ;;
                      inode_dec_link_count old_dir
                  | None => mret tt
                  end ;;
                  mret 0
              end
        end.

End Ops.
