(* ===== verification/NameiFacts.v ===== *)
(** * Names and link counts

    What the functions of namei.c on the names of one directory do to its map and
    to the link counts of the inodes. *)

From S2P Require Import Prelude Bytes Bits Kr Rsv Bitmap Alloc State Balloc InodeFlags Ialloc BlockMap Truncate Super InodeDisk PathFacts Dir DirPage DirFacts DirOps DirEmpty Namei.

(** What no operation on names changes. *)
Definition settings (fs : krfs) : Z * Z * Z * gmap Z Z :=
  (fs_blocksize_bits fs, es_inodes_count (fs_es fs), es_feature_incompat (fs_es fs), modes fs).

Lemma view_settings fs fs' : view fs' = view fs <-> settings fs' = settings fs /\ links fs' = links fs.
Proof. unfold view, settings. split; [by intros [= -> -> -> -> ->]|by intros [[= -> -> -> ->] ->]]. Qed.

(** Some fields of inodes have changed: neither modes nor sizes, and the link counts
    as [g] says. *)
Definition touched (s : vfs) (g : gmap Z Z -> gmap Z Z) (s' : vfs) : Prop :=
  v_pages s' = v_pages s /\ settings (v_fs s') = settings (v_fs s) /\
  sizes (v_fs s') = sizes (v_fs s) /\ links (v_fs s') = g (links (v_fs s)).

Lemma touched_trans s g s' g' s'' : touched s g s' -> touched s' g' s'' ->
  touched s (fun l => g' (g l)) s''.
Proof. intros (H1 & H2 & H3 & H4) (G1 & G2 & G3 & G4). split_and!; congruence. Qed.

(** One link more, and one less, of [ino]. *)
Definition more (ino : Z) (l : gmap Z Z) : gmap Z Z := alter (fun n => u32 (n + 1)) ino l.
Definition less (ino : Z) (l : gmap Z Z) : gmap Z Z := alter (fun n => u32 (n - 1)) ino l.

Lemma less_more ino l : map_Forall (fun _ n => 0 <= n < 4294967296) l -> less ino (more ino l) = l.
Proof.
  intros Hl. apply map_eq. intros j. unfold less, more. destruct (decide (j = ino)) as [->|Hne].
  - rewrite !lookup_alter_eq. destruct (l !! ino) as [n|] eqn:Hn; simpl; [|done].
    specialize (Hl _ _ Hn). cbv beta in Hl. f_equal. unfold u32. rewrite Zminus_mod_idemp_l.
    replace (n + 1 - 1) with n by lia. apply Z.mod_small. lia.
  - by rewrite !lookup_alter_ne.
Qed.

Lemma fmap_alter_link (f : inode -> inode) (g : Z -> Z) ino (m : gmap Z inode) :
  (forall i, i_nlink (f i) = g (i_nlink i)) -> i_nlink <$> alter f ino m = alter g ino (i_nlink <$> m).
Proof.
  intros Hf. apply map_eq. intros j. rewrite lookup_fmap. destruct (decide (j = ino)) as [->|Hne].
  - rewrite !lookup_alter_eq, lookup_fmap. destruct (m !! ino); simpl; [by rewrite Hf|done].
  - by rewrite !lookup_alter_ne, lookup_fmap by done.
Qed.

(** ** What an operation on the directory [dir] leaves

    The directory has [size] bytes, the page [k] is held [c] times more often than
    before, and the link counts are [l]. *)
Definition evolved (s : vfs) (dir size : Z) (k : Z * Z) (c : Z) (l : gmap Z Z) (s' : vfs) : Prop :=
  settings (v_fs s') = settings (v_fs s) /\ sizes (v_fs s') = <[dir := size]> (sizes (v_fs s)) /\
  links (v_fs s') = l /\ (forall j, refs s' j = refs s j + if decide (j = k) then c else 0) /\
  (forall j, j.1 <> dir ->
     v_pages s' !! j = v_pages s !! j \/ v_pages s' !! j = set_pg_checked <$> v_pages s !! j).

Lemma pages_trans (s s' s'' : vfs) (j : Z * Z) :
  v_pages s' !! j = v_pages s !! j \/ v_pages s' !! j = set_pg_checked <$> v_pages s !! j ->
  v_pages s'' !! j = v_pages s' !! j \/ v_pages s'' !! j = set_pg_checked <$> v_pages s' !! j ->
  v_pages s'' !! j = v_pages s !! j \/ v_pages s'' !! j = set_pg_checked <$> v_pages s !! j.
Proof.
  intros [E|E] [E'|E']; rewrite E', E; auto. right. by destruct (v_pages s !! j).
Qed.

Lemma changed_evolved s dir size s' k : changed s dir size s' -> evolved s dir size k 0 (links (v_fs s)) s'.
Proof.
  intros (H1 & H2 & H3 & H4). apply view_settings in H1 as [H1 H1']. split_and!; try done.
  intros j. rewrite H3. destruct (decide _); lia.
Qed.
Lemma evolved_none s dir size k k' l s' : evolved s dir size k 0 l s' -> evolved s dir size k' 0 l s'.
Proof.
  intros (H1 & H2 & H3 & H4 & H5). split_and!; try done. intros j. rewrite H4.
  destruct (decide _), (decide _); lia.
Qed.
Lemma evolved_changed s dir size k c l s' size' s'' : evolved s dir size k c l s' ->
  changed s' dir size' s'' -> evolved s dir size' k c l s''.
Proof.
  intros (H1 & H2 & H3 & H4 & H5) (G1 & G2 & G3 & G4). apply view_settings in G1 as [G1 G1'].
  split_and!; [congruence|by rewrite G2, H2, insert_insert_eq|congruence| |].
  - intros j. by rewrite G3, H4.
  - intros j Hj. eapply pages_trans; [by apply H5|by apply G4].
Qed.
Lemma evolved_touched s dir size k c l s' g s'' : evolved s dir size k c l s' ->
  touched s' g s'' -> evolved s dir size k c (g l) s''.
Proof.
  intros (H1 & H2 & H3 & H4 & H5) (G1 & G2 & G3 & G4).
  split_and!; [congruence|congruence|congruence| |]; intros j; unfold refs; rewrite G1; [apply H4|apply H5].
Qed.
Lemma touched_evolved s dir size k c l g s' s'' : touched s g s' -> evolved s' dir size k c l s'' ->
  evolved s dir size k c l s''.
Proof.
  intros (G1 & G2 & G3 & G4) (H1 & H2 & H3 & H4 & H5).
  split_and!; [congruence|congruence|congruence| |].
  - intros j. rewrite H4. unfold refs. by rewrite G1.
  - intros j Hj. specialize (H5 j Hj). by rewrite G1 in H5.
Qed.
Lemma evolved_released s dir size k l s' s'' : evolved s dir size k 1 l s' -> k.1 = dir ->
  released s' k size s'' -> evolved s dir size k 0 l s''.
Proof.
  intros (H1 & H2 & H3 & H4 & H5) Hk (G1 & G2 & G3 & G4). apply view_settings in G1 as [G1 G1'].
  rewrite Hk in *. split_and!; [congruence|by rewrite G2, H2, insert_insert_eq|congruence| |].
  - intros j. rewrite G3, H4. destruct (decide (j = k)); lia.
  - intros j Hj. eapply pages_trans; [by apply H5|by apply G4].
Qed.

Lemma evolved_trans s dir size k c l s' size' k' l' s'' : evolved s dir size k c l s' ->
  evolved s' dir size' k' 0 l' s'' -> evolved s dir size' k c l' s''.
Proof.
  intros (H1 & H2 & H3 & H4 & H5) (G1 & G2 & G3 & G4 & G5).
  split_and!; [congruence|by rewrite G2, H2, insert_insert_eq|done| |].
  - intros j. rewrite G4, H4. destruct (decide (j = k')); lia.
  - intros j Hj. eapply pages_trans; [by apply H5|by apply G5].
Qed.

(** The page of an entry that was found is held. *)
Lemma found_evolved s dir size recs m name n o s' : dir_rep s dir size recs m ->
  0 <= n < pages_of size -> found_at s dir recs name n o s' ->
  evolved s dir size (dir, n) 1 (links (v_fs s)) s'.
Proof.
  intros Hr Hn Hf. destruct (found_rep s dir size recs m name n o s' Hr Hn Hf)
    as (_ & (H1 & H2 & H3 & H4) & Href & _).
  apply view_settings in H1 as [H1 H1']. split_and!; try done.
  - intros j. destruct (decide (j = (dir, n))) as [->|Hne]; [done|]. specialize (H3 j).
    unfold refs in H3 at 1. cbn [v_pages set_page set_v_pages] in H3.
    rewrite lookup_insert_ne in H3 by done. fold (refs s' j) in H3. lia.
  - intros j Hj. specialize (H4 j Hj). cbn [v_pages set_page set_v_pages] in H4.
    rewrite lookup_insert_ne in H4; [done|]. by intros <-.
Qed.

Lemma found_entry_kept s dir size recs name n o s' j o' e : found_at s dir recs name n o s' ->
  has_entry s' dir size recs j o' e <-> has_entry s dir size recs j o' e.
Proof.
  intros (_ & _ & s1 & p & Hm & Hk & ->). rewrite <- (marked_has_entry s s1) by done.
  unfold has_entry, pdata. cbn [v_pages set_v_fs set_page set_v_pages].
  destruct (decide (j = n)) as [->|Hne]; [by rewrite lookup_insert_eq, Hk|].
  by rewrite lookup_insert_ne by congruence.
Qed.

Lemma found_next_usable s dir size recs name n o s' : 0 <= n < pages_of size ->
  found_at s dir recs name n o s' -> next_usable s dir size -> next_usable s' dir size.
Proof.
  intros Hn (_ & _ & s1 & p & Hm & _ & ->) Hnext q Hq. cbn [v_pages set_v_fs set_page set_v_pages] in Hq.
  rewrite lookup_insert_ne in Hq by (intros [= ?]; lia). by apply (marked_next_usable s s1 dir size).
Qed.

Lemma found_searchable s dir size recs name n o s' : 0 <= n -> found_at s dir recs name n o s' ->
  searchable s dir size -> searchable s' dir size.
Proof.
  intros Hn (_ & _ & s1 & p & Hm & _ & ->) (i & Hi & Hst & Hbl).
  exists (set_KR_I (set_i_dir_start_lookup n (KR_I i)) i).
  split_and!; [|done|done]. cbn [v_fs set_v_fs]. unfold started. cbn [fs_inodes set_fs_inodes].
  by rewrite lookup_alter_eq, Hi.
Qed.

(** ** The directory and fields of inodes *)
Lemma touched_rep s g s' dir size recs m : touched s g s' -> dir_rep s dir size recs m ->
  dir_rep s' dir size recs m.
Proof.
  intros (H1 & H2 & H3 & _) Hr. unfold settings in H2. injection H2 as E1 E2 E3 E4.
  apply (dir_rep_same s); [done| |by intros; unfold pdata; rewrite H1].
  destruct Hr as [[G1 G2 G3 G4 G5] _ _ _]. split; rewrite ?E1, ?E2, ?H3; try done.
  intros n Hn. rewrite H1. by apply G5.
Qed.
Lemma touched_entry s g s' dir size recs n o e : touched s g s' ->
  has_entry s' dir size recs n o e <-> has_entry s dir size recs n o e.
Proof. intros (H1 & _). unfold has_entry, pdata. by rewrite H1. Qed.
Lemma settings_new_entry s s' name ino t : settings (v_fs s') = settings (v_fs s) ->
  new_entry s name ino t -> new_entry s' name ino t.
Proof.
  unfold settings. intros [= H1 H2 H3 H4] [? (mode & ? & ?) ? ?].
  split; rewrite ?H2; try done. exists mode. by rewrite H4, H3.
Qed.
Lemma entry_unique s dir size recs n o e e' : has_entry s dir size recs n o e ->
  has_entry s dir size recs n o e' -> e = e'.
Proof. intros (_ & _ & _ & <-) (_ & _ & _ & <-). done. Qed.

Section Ops.
Context {B : BitOps} {BL : BitLaws B} {R : RbTree} {T : Trylock} {K : Kernel} {D : DirKernel}
  {DL : DirLaws D}.

Lemma upd_inode_spec E f g ino s :
  (forall i, i_mode (f i) = i_mode i /\ i_size (f i) = i_size i /\ i_nlink (f i) = g (i_nlink i)) ->
  runs (upd_inode f ino) E (fun _ s' => touched s (alter g ino) s') s.
Proof.
  intros Hf. eapply runs_call; [apply inode_upd_run|]. split_and!; [done| | |].
  - unfold settings, modes. cbn. rewrite fmap_alter_same; [done|apply Hf].
  - apply upd_sizes. apply Hf.
  - unfold links. cbn. apply fmap_alter_link, Hf.
Qed.

Lemma alter_id ino (l : gmap Z Z) : alter id ino l = l.
Proof.
  apply map_eq. intros j. destruct (decide (j = ino)) as [->|Hne].
  - rewrite lookup_alter_eq. by destruct (l !! ino).
  - by rewrite lookup_alter_ne.
Qed.
Lemma upd_field_spec E f ino s :
  (forall i, i_mode (f i) = i_mode i /\ i_size (f i) = i_size i /\ i_nlink (f i) = i_nlink i) ->
  runs (upd_inode f ino) E (fun _ s' => touched s id s') s.
Proof.
  intros Hf. eapply runs_mono; [by apply (upd_inode_spec E f id)|]. cbv beta.
  intros _ s' (H1 & H2 & H3 & H4). split_and!; try done. by rewrite H4, alter_id.
Qed.
Lemma note_spec E c s : runs (note c) E (fun _ s' => touched s id s') s.
Proof. eapply runs_call; [done|]. by split_and!. Qed.

Lemma inc_link_spec E ino s : runs (inode_inc_link_count ino) E (fun _ s' => touched s (more ino) s') s.
Proof.
  unfold inode_inc_link_count. step. call (upd_inode_spec E _ (fun n => u32 (n + 1)) ino s); [done|].
  intros _ s1 H1. call note_spec. intros _ s2 H2. exact (touched_trans _ _ _ _ _ H1 H2).
Qed.
Lemma dec_link_spec E ino s : runs (inode_dec_link_count ino) E (fun _ s' => touched s (less ino) s') s.
Proof.
  unfold inode_dec_link_count, drop_nlink. step. call (upd_inode_spec E _ (fun n => u32 (n - 1)) ino s); [done|].
  intros _ s1 H1. call note_spec. intros _ s2 H2. exact (touched_trans _ _ _ _ _ H1 H2).
Qed.

(** Giving back a page of the directory. *)
Lemma put_released E s dir size recs m n : dir_rep s dir size recs m -> 0 <= n < pages_of size ->
  runs (kr_put_page (dir, n)) E (fun _ s' => released s (dir, n) size s' /\
    exists recs', dir_rep s' dir size recs' m) s.
Proof.
  intros Hr Hn. destruct (do_page _ _ _ _ (dr_ok _ _ _ _ _ Hr) n Hn) as (p & Hp & Hu & _).
  run put_page_run; [exact Hp|].
  assert (rewritten s (dir, n) (add_pg_count (-1) p) size (set_page (dir, n) (add_pg_count (-1) p) s)) as Hrw.
  { split_and!; [done|done|]. cbn [v_fs set_page set_v_pages fst]. by rewrite insert_id by apply Hr. }
  split.
  - eapply rewritten_released; [exact Hrw|]. unfold refs. rewrite Hp. simpl. lia.
  - destruct (rewritten_same _ _ _ _ _ _ _ _ Hr Hrw) as (recs' & H' & _);
      [by destruct Hu as (? & ? & ?)|apply Hn| |by exists recs'].
    intros _. unfold pdata. rewrite Hp. by intros j Hj.
Qed.

End Ops.
