(* ===== verification/NameiTheorems.v ===== *)
(** * What the operations on names guarantee

    The properties of namei.c: links, removals and renames as operations on the map
    of a directory and the link counts of the inodes, and the removal of a
    directory. *)

From S2P Require Import Prelude Bytes Bits Kr Rsv Bitmap Alloc State Balloc InodeFlags Ialloc BlockMap Truncate Super InodeDisk PathFacts Dir DirPage DirFacts DirOps DirEmpty Namei NameiFacts Demo DemoDir.

(** ** The specification

    The state is the map of the directory and the link counts. *)
Inductive names_op :=
| NLink (name : list Z) (ino : Z)
| NUnlink (name : list Z) (ino : Z)
| NRename (old new : list Z) (ino : Z) (target : option Z).

(** An answer other than 0 leaves the link counts alone.  It leaves the map alone as
    well, unless the error came with the last step, writing the directory: the
    entry has then been added or removed. *)
Inductive names_spec (type_of : Z -> Z) :
    names_op -> gmap (list Z) (Z * Z) -> gmap Z Z -> Z -> gmap (list Z) (Z * Z) -> gmap Z Z -> Prop :=
| ns_failed op m l r : r <> 0 -> names_spec type_of op m l r m l
| ns_link name ino m l : m !! name = None ->
    names_spec type_of (NLink name ino) m l 0 (<[name := (ino, type_of ino)]> m) (more ino l)
| ns_link_uncounted name ino m l r : m !! name = None -> r <> 0 ->
    names_spec type_of (NLink name ino) m l r (<[name := (ino, type_of ino)]> m) l
| ns_unlink name ino m l x t : m !! name = Some (x, t) ->
    names_spec type_of (NUnlink name ino) m l 0 (delete name m) (less ino l)
| ns_unlink_counted name ino m l r x t : m !! name = Some (x, t) -> r <> 0 ->
    names_spec type_of (NUnlink name ino) m l r (delete name m) l
| ns_rename old new ino m l x t : m !! old = Some (x, t) -> m !! new = None ->
    names_spec type_of (NRename old new ino None) m l 0
      (delete old (<[new := (ino, type_of ino)]> m)) l
| ns_rename_both old new ino m l r x t : m !! old = Some (x, t) -> m !! new = None -> r <> 0 ->
    names_spec type_of (NRename old new ino None) m l r (<[new := (ino, type_of ino)]> m) l
| ns_rename_over old new ino target m l x t y u : m !! old = Some (x, t) -> m !! new = Some (y, u) ->
    names_spec type_of (NRename old new ino (Some target)) m l 0
      (delete old (<[new := (ino, type_of ino)]> m)) (less target l).

Section Names.
Context {B : BitOps} {BL : BitLaws B} {R : RbTree} {T : Trylock} {K : Kernel} {IK : InodeKernel}
  {D : DirKernel} {DL : DirLaws D}.

Definition run_names (dir : Z) (op : names_op) : M vfs Z :=
  match op with
  | NLink name ino => kr_link ino dir name
  | NUnlink name ino => kr_unlink dir name ino
  | NRename old new ino target => kr_rename dir old ino dir new target 0
  end.

(** A name that is not there can be added. *)
Definition addable (type_of : Z -> Z) (s : vfs) (dir size : Z) (m : gmap (list Z) (Z * Z))
    (name : list Z) (ino : Z) : Prop :=
  m !! name = None /\ new_entry s name ino (type_of ino) /\ next_usable s dir size /\
  size + PAGE_SIZE < 2147483648.

(** What the VFS has seen to: the names have been looked up, and a rename is one of
    a file that is not a directory, to another name. *)
Definition names_ready (type_of : Z -> Z) (s : vfs) (dir size : Z) (m : gmap (list Z) (Z * Z))
    (op : names_op) : Prop :=
  match op with
  | NLink name ino => addable type_of s dir size m name ino
  | NUnlink name ino => len name <= 255 /\ searchable s dir size
  | NRename old new ino target =>
      len old <= 255 /\ searchable s dir size /\ old <> new /\ new_entry s new ino (type_of ino) /\
      (exists mode, modes (v_fs s) !! ino = Some mode /\ S_ISDIR mode = false) /\
      (target = None -> addable type_of s dir size m new ino)
  end.

Definition counted (l : gmap Z Z) : Prop := map_Forall (fun _ n => 0 <= n < 4294967296) l.

(** What one operation comes to, from [s] on. *)
Definition names_result (type_of : Z -> Z) (s : vfs) (dir : Z) (m : gmap (list Z) (Z * Z))
    (op : names_op) (r : Z) (s' : vfs) : Prop :=
  exists size' m' l', names_spec type_of op m (links (v_fs s)) r m' l' /\
    stands_for s' dir size' m' /\ evolved s dir size' (dir, 0) 0 l' s'.

Lemma unchanged_result type_of s dir size m op r s' recs : r <> 0 -> dir_rep s' dir size recs m ->
  evolved s dir size (dir, 0) 0 (links (v_fs s)) s' -> names_result type_of s dir m op r s'.
Proof. intros Hr Hrep Hev. exists size, m, (links (v_fs s)). split_and!; [by constructor|by exists recs|done]. Qed.

Lemma start_evolved s dir size recs m k : dir_rep s dir size recs m ->
  evolved s dir size k 0 (links (v_fs s)) s.
Proof. intros Hr. apply changed_evolved, marked_changed_same; [apply marked_refl|apply Hr]. Qed.

Lemma link_names type_of s dir size recs m name ino : dir_rep s dir size recs m ->
  counted (links (v_fs s)) -> addable type_of s dir size m name ino ->
  runs (kr_link ino dir name) panic_or_bug (names_result type_of s dir m (NLink name ino)) s.
Proof.
  intros Hr Hl (Hnone & Hne & Hnext & Hbig). unfold kr_link. cbv zeta.
  apply runs_if; intros Hq.
  { step. eapply unchanged_result; [lia|exact Hr|by eapply start_evolved]. }
  step. call (upd_field_spec panic_or_bug (set_i_ctime current_time) ino s); [done|]. intros _ s1 H1.
  step. call inc_link_spec. intros _ s2 H2. step. call note_spec. intros _ s3 H3.
  pose proof (touched_trans _ _ _ _ _ (touched_trans _ _ _ _ _ H1 H2) H3) as H. cbv beta in H. clear H1 H2 H3.
  change (fun l => id (more ino (id l))) with (more ino) in H.
  assert (next_usable s3 dir size) as Hnext3 by (intros q; rewrite (proj1 H); apply Hnext).
  step. eapply runs_weaken; [apply (kr_add_link_spec s3 dir size recs m name ino (type_of ino)); try done|by left|].
  { by eapply touched_rep. } { by eapply (settings_new_entry s), Hne; apply H. }
  intros r s4 [Hr0 Hres].
  assert (exists size' m' recs', changed s3 dir size' s4 /\ dir_rep s4 dir size' recs' m' /\
    (m' = <[name := (ino, type_of ino)]> m \/ m' = m /\ r < 0)) as (size' & m' & recs' & Hch & Hr4 & Hm').
  { destruct Hres as [(size' & recs' & Hch & Hr' & _)|(Hlt & Hch & recs' & Hr' & _)];
      eexists _, _, recs'; split_and!; try done; [by left|by right]. }
  assert (evolved s dir size' (dir, 0) 0 (more ino (links (v_fs s))) s4) as Hev.
  { eapply touched_evolved; [exact H|]. destruct H as (_ & _ & _ & <-). by apply changed_evolved. }
  apply runs_if; intros Hz.
  - step. call note_spec. intros _ s5 H5. step. destruct Hm' as [->|[_ ?]]; [|lia].
    eexists size', _, _. split_and!; [by apply ns_link|exists recs'; by eapply touched_rep|].
    exact (evolved_touched _ _ _ _ _ _ _ _ _ Hev H5).
  - step. call dec_link_spec. intros _ s5 H5. step. call note_spec. intros _ s6 H6. step.
    pose proof (evolved_touched _ _ _ _ _ _ _ _ _ (evolved_touched _ _ _ _ _ _ _ _ _ Hev H5) H6) as Hev6.
    cbv beta in Hev6. unfold id in Hev6. rewrite less_more in Hev6 by done.
    assert (stands_for s6 dir size' m') as Hst
      by (exists recs'; eapply touched_rep; [exact H6|]; by eapply touched_rep).
    exists size', m', (links (v_fs s)). split_and!; [|done|done].
    destruct Hm' as [->|[-> ?]]; [apply ns_link_uncounted; [done|lia]|apply ns_failed; lia].
Qed.

Lemma unlink_names type_of s dir size recs m name ino : dir_rep s dir size recs m ->
  len name <= 255 -> searchable s dir size ->
  runs (kr_unlink dir name ino) panic_or_bug (names_result type_of s dir m (NUnlink name ino)) s.
Proof.
  intros Hr Hlen Hse. unfold kr_unlink. cbv zeta. apply runs_if; intros Hq.
  { step. eapply unchanged_result; [lia|exact Hr|by eapply start_evolved]. }
  step. eapply runs_weaken; [by apply (find_in_map s dir size recs m name)|done|].
  intros [[n o]|] s1; cbv beta iota.
  2: { intros [Hm _]. step. eapply unchanged_result; [done|by eapply marked_rep|].
       apply changed_evolved, marked_changed_same; [done|apply Hr]. }
  intros (Hn & Hf). destruct (found_rep s dir size recs m name n o s1 Hr Hn Hf)
    as (Hr1 & _ & _ & x & t & Hent & Hm).
  pose proof (found_evolved s dir size recs m name n o s1 Hr Hn Hf) as Hev.
  step. eapply runs_mono; [by apply (kr_delete_entry_spec s1 dir size recs m n o name x t)|].
  intros r s2 (Hr0 & Hrel & recs2 & Hr2).
  pose proof (evolved_released _ _ _ _ _ _ _ Hev eq_refl Hrel) as Hev2. apply evolved_none with (k' := (dir, 0)) in Hev2.
  apply runs_if; intros Hz.
  { step. eexists size, _, _. split_and!; [eapply ns_unlink_counted; [done|lia]|by exists recs2|done]. }
  destruct (sizes_lookup _ _ _ (do_size _ _ _ _ (dr_ok _ _ _ _ _ Hr2))) as (d & Hd & _).
  step. run dir_inode_run; [exact Hd|]. step.
  call (upd_field_spec panic_or_bug (set_i_ctime (i_ctime d)) ino s2); [done|]. intros _ s3 H3.
  step. call dec_link_spec. intros _ s4 H4. step.
  eexists size, _, _. split_and!; [by eapply ns_unlink| |].
  - exists recs2. eapply touched_rep; [exact H4|]. by eapply touched_rep.
  - exact (evolved_touched _ _ _ _ _ _ _ _ _ (evolved_touched _ _ _ _ _ _ _ _ _ Hev2 H3) H4).
Qed.

(** The new name of a file: the answer is an error, or the directory has it. *)
Definition renamed (type_of : Z -> Z) (s : vfs) (dir size : Z) (recs : Z -> list Z)
    (m : gmap (list Z) (Z * Z)) (new : list Z) (ino : Z) (target : option Z) (failed : option Z) (s' : vfs) : Prop :=
  exists size' recs' m', dir_rep s' dir size' recs' m' /\
  (forall n o e, e.1.1 <> new -> has_entry s dir size recs n o e -> has_entry s' dir size' recs' n o e) /\
  match failed with
  | Some r => r <> 0 /\ evolved s dir size' (dir, 0) 0 (links (v_fs s)) s' /\
      (m' = m \/ m' = <[new := (ino, type_of ino)]> m /\ target = None)
  | None => m' = <[new := (ino, type_of ino)]> m /\
      evolved s dir size' (dir, 0) 0
        (match target with Some t => less t (links (v_fs s)) | None => links (v_fs s) end) s' /\
      match target with Some _ => is_Some (m !! new) | None => True end
  end.

Lemma rename_new_names type_of s dir size recs m new ino target : dir_rep s dir size recs m ->
  new_entry s new ino (type_of ino) -> searchable s dir size ->
  (target = None -> addable type_of s dir size m new ino) ->
  runs (rename_new false ino dir new target) panic_or_bug (renamed type_of s dir size recs m new ino target) s.
Proof.
  intros Hr Hne Hse Hadd. unfold rename_new. destruct target as [target|].
  - step. step. cbn [Z.eqb].
    assert (len new <= 255) as Hlen by (destruct Hne as [[_ ?] _ _ _]; lia).
    step. eapply runs_weaken; [by apply (find_in_map s dir size recs m new)|done|].
    intros [[n o]|] s1; cbv beta iota.
    2: { intros [Hm _]. step. exists size, recs, m. split; [by eapply marked_rep|].
         split; [intros j o' e _; by apply (marked_has_entry s)|]. split; [done|]. split; [|by left]. apply changed_evolved, marked_changed_same; [done|apply Hr]. }
    intros (Hn & Hf). destruct (found_rep s dir size recs m new n o s1 Hr Hn Hf)
      as (Hr1 & Hch & Href & x & t & Hent & Hm). step.
    eapply runs_mono; [apply (kr_set_link_spec s1 dir size recs m n o new x t ino (type_of ino)); try done|].
    { eapply new_entry_view; [|exact Hne]. by destruct Hch as (? & _). }
    intros _ s2 (Hrel & recs2 & Hr2 & Hkept). pose proof (released_changed _ _ _ _ _ _ _ Hch Href Hrel) as Hch2.
    step. call (upd_field_spec panic_or_bug (set_i_ctime current_time) target s2); [done|]. intros _ s3 H3.
    step. step; [done|]. step. call dec_link_spec. intros _ s4 H4. step.
    pose proof (touched_trans _ _ _ _ _ H3 H4) as Ht. exists size, recs2, (<[new := (ino, type_of ino)]> m).
    split; [by eapply touched_rep|]. split; [|split; [done|]; split; [|by eexists]].
    2: exact (evolved_touched _ _ _ _ _ _ _ _ _ (changed_evolved _ _ _ _ _ Hch2) Ht).
    + intros j o' e Hname He. apply (touched_entry _ _ _ _ _ _ _ _ _ Ht).
      apply Hkept; [|by apply (found_entry_kept s dir size recs new n o s1)].
      intros [-> ->]. apply Hname. apply (found_entry_kept s dir size recs new n o s1) in He; [|done].
      by rewrite (entry_unique _ _ _ _ _ _ _ _ He Hent).
  - destruct (Hadd eq_refl) as (Hnone & _ & Hnext & Hbig). step.
    eapply runs_weaken; [by apply (kr_add_link_spec s dir size recs m new ino (type_of ino))|by left|].
    intros r s1 (Hr0 & Hres). apply runs_if; intros Hz.
    + step. destruct Hres as [(size' & recs' & Hch & Hr' & Hk)|(Hlt & Hch & recs' & Hr' & Hk)];
        exists size', recs' || exists size, recs'; eexists; (split; [exact Hr'|]);
        (split; [intros j o' e _; apply Hk|]); (split; [lia|]); (split; [by apply changed_evolved|]); auto.
    + destruct Hres as [(size' & recs' & Hch & Hr' & Hk)|(Hlt & _)]; [|lia].
      step. step; [done|]. step. exists size', recs'. eexists. split; [exact Hr'|].
      split; [intros n o e _; apply Hk|]. split; [done|]. by split; [apply changed_evolved|].
Qed.

Lemma rename_names type_of s dir size recs m old new ino target : dir_rep s dir size recs m ->
  names_ready type_of s dir size m (NRename old new ino target) ->
  runs (kr_rename dir old ino dir new target 0) panic_or_bug
    (names_result type_of s dir m (NRename old new ino target)) s.
Proof.
  intros Hr (Hlen & Hse & Hdiff & Hne & (mode & Hmode & Hfile) & Hadd). unfold kr_rename. cbv zeta.
  change (negb (clr 0 RENAME_NOREPLACE =? 0)) with false. cbv iota.
  apply runs_if; intros Hq.
  { step. eapply unchanged_result; [lia|exact Hr|by eapply start_evolved]. }
  rewrite Hq.
  step. eapply runs_weaken; [by apply (find_in_map s dir size recs m old)|done|].
  intros [[n o]|] s1; cbv beta iota.
  2: { intros [Hm _]. step. eapply unchanged_result; [done|by eapply marked_rep|].
       apply changed_evolved, marked_changed_same; [done|apply Hr]. }
  intros (Hn & Hf). destruct (found_rep s dir size recs m old n o s1 Hr Hn Hf)
    as (Hr1 & _ & _ & x & t & Hent & Hm).
  pose proof (found_evolved s dir size recs m old n o s1 Hr Hn Hf) as Hev.
  pose proof Hev as (Hset & _ & Hlinks & _). pose proof (settings_new_entry _ _ _ _ _ Hset Hne) as Hne1.
  assert (modes (v_fs s1) !! ino = Some mode) as Hmode1 by (unfold settings in Hset; injection Hset as _ _ _ ->; done).
  destruct (modes_lookup _ _ _ Hmode1) as (i & Hi & <-).
  step. run dir_inode_run; [exact Hi|]. rewrite Hfile. step. step. cbn [andb]. step.
  eapply runs_mono; [apply (rename_new_names type_of s1 dir size recs m new ino target Hr1 Hne1)|].
  { by eapply found_searchable; [apply Hn|..]. }
  { intros Ht. destruct (Hadd Ht) as (? & _ & Hnext & ?). split_and!; [done|done| |done].
    by eapply found_next_usable. }
  intros [r|] s2 (size2 & recs2 & m2 & Hr2 & Hkept & Hres); cbv beta iota in Hres |- *;
    assert (has_entry s2 dir size2 recs2 n o (old, x, t)) as Hent2 by (by apply Hkept).
  - destruct Hres as (Hr0 & Hev2 & Hm2). rewrite Hlinks in Hev2.
    pose proof (evolved_trans _ _ _ _ _ _ _ _ _ _ _ Hev Hev2) as Hev3. step. step. step.
    call (put_released panic_or_bug s2 dir size2 recs2 m2 n Hr2); [apply Hent2|].
    intros _ s3 (Hrel & recs3 & Hr3). step.
    pose proof (evolved_none _ _ _ _ (dir, 0) _ _ (evolved_released _ _ _ _ _ _ _ Hev3 eq_refl Hrel)) as Hev4.
    exists size2, m2, (links (v_fs s)). split_and!; [|by exists recs3|done].
    destruct Hm2 as [->|[-> ->]]; [by apply ns_failed|]. destruct (Hadd eq_refl). by eapply ns_rename_both.
  - destruct Hres as (-> & Hev2 & Htgt). rewrite Hlinks in Hev2.
    pose proof (evolved_trans _ _ _ _ _ _ _ _ _ _ _ Hev Hev2) as Hev3.
    step. call (upd_field_spec panic_or_bug (set_i_ctime current_time) ino s2); [done|]. intros _ s3 H3.
    step. call note_spec. intros _ s4 H4. pose proof (touched_trans _ _ _ _ _ H3 H4) as Ht. cbv beta in Ht.
    step. eapply runs_mono; [apply (kr_delete_entry_spec s4 dir size2 recs2 (<[new := (ino, type_of ino)]> m) n o old x t)|].
    { by eapply touched_rep. } { by apply (touched_entry _ _ _ _ _ _ _ _ _ Ht). }
    intros r s5 (_ & Hrel & recs5 & Hr5). step. step. step.
    pose proof (evolved_released _ _ _ _ _ _ _ (evolved_touched _ _ _ _ _ _ _ _ _ Hev3 Ht) eq_refl Hrel) as Hev5.
    apply evolved_none with (k' := (dir, 0)) in Hev5. unfold id in Hev5.
    eexists size2, _, _. split_and!; [|by exists recs5|exact Hev5].
    destruct target as [target|].
    + destruct Htgt as [[y u] Hy]. by eapply ns_rename_over.
    + destruct (Hadd eq_refl). by eapply ns_rename.
Qed.


(** ** Removing a directory *)

(** The size of the inode [ino] becomes 0. *)
Lemma clear_size_spec E s dir size recs m ino : dir_rep s dir size recs m -> ino <> dir ->
  runs (upd_inode (set_i_size 0) ino) E (fun _ s' => dir_rep s' dir size recs m /\
    links (v_fs s') = links (v_fs s) /\ sizes (v_fs s') = alter (fun _ => 0) ino (sizes (v_fs s))) s.
Proof.
  intros Hr Hne. eapply runs_call; [apply inode_upd_run|].
  assert (sizes (set_fs_inodes (alter (set_i_size 0) ino (fs_inodes (v_fs s))) (v_fs s)) =
    alter (fun _ => 0) ino (sizes (v_fs s))) as Hsz.
  { unfold sizes. cbn. apply map_eq. intros j. rewrite lookup_fmap. destruct (decide (j = ino)) as [->|Hj].
    - rewrite !lookup_alter_eq, lookup_fmap. by destruct (fs_inodes (v_fs s) !! ino).
    - by rewrite !lookup_alter_ne, lookup_fmap by done. }
  split_and!; [|unfold links; cbn; by apply fmap_alter_same|exact Hsz].
  apply (dir_rep_same s); [done| |done]. destruct Hr as [[H1 H2 H3 H4 H5] _ _ _].
  split; try done. cbn [v_fs set_v_fs]. rewrite Hsz. by rewrite lookup_alter_ne.
Qed.

Definition is_empty (ino : Z) (m : gmap (list Z) (Z * Z)) : Prop :=
  map_Forall (fun name e => harmless ino (name, e.1, e.2)) m.


End Names.

(** ** Witnesses *)


