(* ===== verification/Ioctl.v ===== *)
(** * Requests on a file (ioctl.c, file.c)

    Reading and setting the flags, the generation and the size of the reservation
    window of an inode, and what happens when a file is closed or synchronised. *)

From S2P Require Import Prelude Bits Kr Rsv Bitmap Alloc State Balloc InodeFlags BlockMap.

(** What the VFS and the process decide. *)
Class UserKernel := {
  mnt_want_write_file : Z;                (* 0 or an error *)
  inode_owner_or_capable : inode -> bool;
  capable_linux_immutable : bool;
  get_user : Z -> option Z;               (* the 32 bits at an address, or a fault *)
  put_user_ok : Z -> bool;                (* the address can be written to *)
  generic_file_fsync : Z;                 (* 0 or an error *)
  test_and_clear_eio : bool;              (* AS_EIO was set on the mapping of the device *)
}.

(** The numbers of requests: [_IOC(dir, type, nr, size)]. *)
Definition IOC (dir type nr size : Z) : Z :=
  Z.lor (Z.shiftl dir 30) (Z.lor (Z.shiftl size 16) (Z.lor (Z.shiftl type 8) nr)).
Definition IOR (type nr size : Z) : Z := IOC 2 type nr size.
Definition IOW (type nr size : Z) : Z := IOC 1 type nr size.

(** A [long] has 8 bytes, an [int] 4; ['f'] is 102 and ['v'] 118. *)
Definition KR_IOC_GETFLAGS : Z := IOR 102 1 8.
Definition KR_IOC_SETFLAGS : Z := IOW 102 2 8.
Definition KR_IOC_GETVERSION : Z := IOR 118 1 8.
Definition KR_IOC_SETVERSION : Z := IOW 118 2 8.
Definition KR_IOC_GETRSVSZ : Z := IOR 102 5 8.
Definition KR_IOC_SETRSVSZ : Z := IOW 102 6 8.
Definition KR_IOC32_GETFLAGS : Z := IOR 102 1 4.
Definition KR_IOC32_SETFLAGS : Z := IOW 102 2 4.
Definition KR_IOC32_GETVERSION : Z := IOR 118 1 4.
Definition KR_IOC32_SETVERSION : Z := IOW 118 2 4.
Definition ENOIOCTLCMD : Z := 515.

Section Ops.
Context `{BitOps, RbTree, Trylock, Kernel, UserKernel}.

(** An answer, and the value stored at the address of the argument. *)
Definition answered : Type := Z * option Z.
Definition put_user (v arg : Z) : answered :=
  if put_user_ok arg then (0, Some (u32 v)) else (- EFAULT, None).

Definition IS_NOQUOTA (i : inode) : bool := has (i_flags i) S_NOQUOTA.

(** [KR_IOC_SETFLAGS], between [mnt_want_write_file] and [mnt_drop_write_file]. *)
Definition set_flags (ino arg : Z) : M krfs Z :=
  i ← inode_get ino;
  if negb (inode_owner_or_capable i) then mret (- EACCES)
  else
    match get_user arg with
    | None => mret (- EFAULT)
    | Some v =>
        let flags := kr_mask_flags (i_mode i) (u32 v) in
        if IS_NOQUOTA i then mret (- EPERM)
        else
          let oldflags := ei_flags (KR_I i) in
          if negb (Z.land (Z.lxor flags oldflags) (Z.lor KR_APPEND_FL KR_IMMUTABLE_FL) =? 0)
             && negb capable_linux_immutable then mret (- EPERM)
          else
            let flags := Z.land flags KR_FL_USER_MODIFIABLE in
            let flags := Z.lor flags (clr oldflags KR_FL_USER_MODIFIABLE) in
            fs ← gets id;
            inode_upd (fun i => kr_set_inode_flags (test_opt KR_MOUNT_DAX fs)
              (set_KR_I (set_ei_flags flags (KR_I i)) i)) ino ;;
            inode_upd (set_i_ctime current_time) ino ;;
            log (mark_inode_dirty ino) ;;
            mret 0
    end.

(** [KR_IOC_SETVERSION], in the same place. *)
Definition set_version (ino arg : Z) : M krfs Z :=
  match get_user arg with
  | None => mret (- EFAULT)
  | Some v =>
      inode_upd (fun i => set_i_generation (u32 v) (set_i_ctime current_time i)) ino ;;
      log (mark_inode_dirty ino) ;;
      mret 0
  end.

(** [KR_IOC_SETRSVSZ], under [truncate_mutex]. *)
Definition set_rsv_size (ino rsv_window_size : Z) : M krfs unit :=
  let size := if rsv_window_size >? KR_MAX_RESERVE_BLOCKS then KR_MAX_RESERVE_BLOCKS
              else rsv_window_size in
  i ← inode_get ino;
  fs ← gets id;
  when (bool_decide (i_block_alloc_info (KR_I i) = None))
    (kr_init_block_alloc_info ino (kmalloc_addr (fs_rsv fs))) ;;
  i ← inode_get ino;
  match i_block_alloc_info (KR_I i) with
  | Some b =>
      let a := rsv_window_node b in
      modify (fun fs => set_fs_rsv
        (rsv_put a (ReserveWindowNode size (rsv_alloc_hit (rsv_at (fs_rsv fs) a))
                      (rsv_window (rsv_at (fs_rsv fs) a))) (fs_rsv fs)) fs)
  | None => mret tt
  end.

Definition kr_ioctl (ino cmd arg : Z) : M krfs answered :=
  if cmd =? KR_IOC_GETFLAGS then
    inode_upd kr_get_inode_flags ino ;;
    i ← inode_get ino;
    mret (put_user (Z.land (ei_flags (KR_I i)) KR_FL_USER_VISIBLE) arg)
  else if cmd =? KR_IOC_SETFLAGS then
    if negb (mnt_want_write_file =? 0) then mret (mnt_want_write_file, None)
    else ret ← set_flags ino arg; mret (ret, None)
  else if cmd =? KR_IOC_GETVERSION then
    i ← inode_get ino; mret (put_user (i_generation i) arg)
  else if cmd =? KR_IOC_SETVERSION then
    i ← inode_get ino;
    if negb (inode_owner_or_capable i) then mret (- EPERM, None)
    else if negb (mnt_want_write_file =? 0) then mret (mnt_want_write_file, None)
    else ret ← set_version ino arg; mret (ret, None)
  else if cmd =? KR_IOC_GETRSVSZ then
    i ← inode_get ino;
    fs ← gets id;
    match i_block_alloc_info (KR_I i) with
    | Some b =>
        if test_opt KR_MOUNT_RESERVATION fs && S_ISREG (i_mode i)
        then mret (put_user (u16 (rsv_goal_size (rsv_at (fs_rsv fs) (rsv_window_node b)))) arg)
        else mret (- ENOTTY, None)
    | None => mret (- ENOTTY, None)
    end
  else if cmd =? KR_IOC_SETRSVSZ then
    i ← inode_get ino;
    fs ← gets id;
    if negb (test_opt KR_MOUNT_RESERVATION fs) || negb (S_ISREG (i_mode i)) then mret (- ENOTTY, None)
    else if negb (inode_owner_or_capable i) then mret (- EACCES, None)
    else
      match get_user arg with
      | None => mret (- EFAULT, None)
      | Some v =>
          if negb (mnt_want_write_file =? 0) then mret (mnt_want_write_file, None)
          else set_rsv_size ino (u16 v) ;; mret (0, None)
      end
  else mret (- ENOTTY, None).

(** The requests of a process of 32 bits; [arg] is the address [compat_ptr] gives. *)
Definition kr_compat_ioctl (ino cmd arg : Z) : M krfs answered :=
  if cmd =? KR_IOC32_GETFLAGS then kr_ioctl ino KR_IOC_GETFLAGS arg
  else if cmd =? KR_IOC32_SETFLAGS then kr_ioctl ino KR_IOC_SETFLAGS arg
  else if cmd =? KR_IOC32_GETVERSION then kr_ioctl ino KR_IOC_GETVERSION arg
  else if cmd =? KR_IOC32_SETVERSION then kr_ioctl ino KR_IOC_SETVERSION arg
  else mret (- ENOIOCTLCMD, None).

(** ** Closing and synchronising (file.c) *)

Definition kr_release_file (ino : Z) (write : bool) : M krfs Z :=
  when write (kr_discard_reservation ino) ;; mret 0.

Definition kr_fsync : M krfs Z :=
  let ret := generic_file_fsync in
  if (ret =? - EIO) || test_and_clear_eio then kr_error ;; mret (- EIO) else mret ret.

End Ops.

(** ** Setting flags and reading them back *)

(** The flags an inode of this type may have. *)
Definition settable (mode n : Z) : bool :=
  if S_ISDIR mode then true
  else if S_ISREG mode then Z.testbit KR_REG_FLMASK n
  else Z.testbit KR_OTHER_FLMASK n.

Lemma mask_flags_bit mode flags n : 0 <= n ->
  Z.testbit (kr_mask_flags mode flags) n = Z.testbit flags n && settable mode n.
Proof.
  intros Hn. unfold kr_mask_flags, settable. destruct (S_ISDIR mode); [by rewrite andb_true_r|].
  destruct (S_ISREG mode); apply Z.land_spec.
Qed.

(** The flags [KR_IOC_SETFLAGS] leaves for the value [v]. *)
Definition new_flags (i : inode) (v : Z) : Z :=
  Z.lor (Z.land (kr_mask_flags (i_mode i) (u32 v)) KR_FL_USER_MODIFIABLE)
    (clr (ei_flags (KR_I i)) KR_FL_USER_MODIFIABLE).

Lemma new_flags_bit i v n : 0 <= n ->
  Z.testbit (new_flags i v) n =
  if Z.testbit KR_FL_USER_MODIFIABLE n then Z.testbit (u32 v) n && settable (i_mode i) n
  else Z.testbit (ei_flags (KR_I i)) n.
Proof.
  intros Hn. unfold new_flags. rewrite Z.lor_spec, Z.land_spec, testbit_clr, mask_flags_bit by done.
  destruct (Z.testbit KR_FL_USER_MODIFIABLE n); [by rewrite andb_true_r, andb_false_r, orb_false_r|].
  by rewrite andb_false_r, andb_true_r.
Qed.
