(* ===== verification/IoctlTheorems.v ===== *)
(** * What the requests on a file guarantee

    The property of ioctl.c, instantiated on the file system of Demo.v. *)

From S2P Require Import Prelude Bits Kr Rsv Bitmap Alloc State Balloc InodeFlags BlockMap PathFacts BlockMapFacts Ioctl Demo.

Section Requests.
Context {B : BitOps} {R : RbTree} {T : Trylock} {K : Kernel} {U : UserKernel}.

Lemma inode_upd_found f ino fs :
  inode_upd f ino fs = Ret tt (set_fs_inodes (alter f ino (fs_inodes fs)) fs).
Proof. done. Qed.

(** The inode after [KR_IOC_SETFLAGS] with the value [v]. *)
Definition flags_set (dax : bool) (v : Z) (i : inode) : inode :=
  set_i_ctime current_time (kr_set_inode_flags dax (set_KR_I (set_ei_flags (new_flags i v) (KR_I i)) i)).

(** The append-only and the immutable flag of the value are those of the inode. *)
Definition protected_kept (i : inode) (v : Z) : Prop :=
  Z.land (Z.lxor (kr_mask_flags (i_mode i) (u32 v)) (ei_flags (KR_I i))) (Z.lor KR_APPEND_FL KR_IMMUTABLE_FL) = 0.

Lemma set_flags_run ino arg i fs : fs_inodes fs !! ino = Some i ->
  runs (set_flags ino arg) never (fun r fs' =>
    r = 0 /\ (exists v, get_user arg = Some v /\ (capable_linux_immutable = true \/ protected_kept i v) /\
      fs_inodes fs' = <[ino := flags_set (test_opt KR_MOUNT_DAX fs) v i]> (fs_inodes fs)) \/
    r < 0 /\ fs' = fs) fs.
Proof.
  intros Hi. unfold set_flags, log. step. run inode_get_run; [done|].
  apply runs_if; intros E1; [by step; right|].
  destruct (get_user arg) as [v|] eqn:Hv; [|by step; right]. cbv zeta.
  apply runs_if; intros E2; [by step; right|]. apply runs_if; intros E3; [by step; right|].
  step. step. cbn [id]. step. run inode_upd_found. step. run inode_upd_found. step. step. step.
  left. split; [done|]. exists v. split; [done|]. split.
  - apply andb_false_iff in E3 as [E3|E3]; [right|left].
    + apply negb_false_iff, Z.eqb_eq in E3. exact E3.
    + by apply negb_false_iff in E3.
  - cbn [fs_inodes set_fs_inodes set_fs_trace]. apply map_eq. intros j.
    destruct (decide (j = ino)) as [->|Hne].
    + by rewrite !lookup_alter_eq, Hi, lookup_insert_eq.
    + by rewrite !lookup_alter_ne, lookup_insert_ne by done.
Qed.

Lemma protected_bits i v n : protected_kept i v -> n = 4 \/ n = 5 ->
  Z.testbit (new_flags i v) n = Z.testbit (ei_flags (KR_I i)) n.
Proof.
  intros Hp Hn. apply (f_equal (fun x => Z.testbit x n)) in Hp.
  rewrite Z.land_spec, Z.lxor_spec, Z.bits_0, mask_flags_bit in Hp by lia. rewrite new_flags_bit by lia.
  assert (Z.testbit (Z.lor KR_APPEND_FL KR_IMMUTABLE_FL) n = true /\
    Z.testbit KR_FL_USER_MODIFIABLE n = true) as [H1 H2] by (destruct Hn as [-> | ->]; done).
  rewrite H1, andb_true_r in Hp. rewrite H2. by apply xorb_eq.
Qed.

(** What setting the flags of [i] from the address [arg] comes to: [i'] after its
    flags have been read. *)
Definition flags_result (arg r : Z) (i i' : inode) : Prop :=
  r = 0 /\ (exists v, get_user arg = Some v /\
    forall n, 0 <= n -> Z.testbit (ei_flags (KR_I i')) n =
      if Z.testbit KR_FL_USER_MODIFIABLE n then Z.testbit (u32 v) n && settable (i_mode i) n
      else Z.testbit (ei_flags (KR_I i)) n) /\
    (capable_linux_immutable = false -> forall n, n = 4 \/ n = 5 ->
       Z.testbit (ei_flags (KR_I i')) n = Z.testbit (ei_flags (KR_I i)) n) \/
  r < 0 /\ i' = kr_get_inode_flags i.

(** C36.  Setting the flags and reading them back: each flag the user may change is
    that of the value, if the type of the file allows it, and every other flag is as
    it was; without the capability the append-only and the immutable flag are as
    they were; and what is read are these flags, as far as the user may see them.
    When the request fails nothing has changed. *)
Theorem set_then_get_flags ino arg to i fs : fs_inodes fs !! ino = Some i -> mnt_want_write_file <= 0 ->
  runs (r ← kr_ioctl ino KR_IOC_SETFLAGS arg; g ← kr_ioctl ino KR_IOC_GETFLAGS to; mret (r.1, g)) never
    (fun '(r, g) fs' => exists i', fs_inodes fs' = <[ino := i']> (fs_inodes fs) /\
       g = put_user (Z.land (ei_flags (KR_I i')) KR_FL_USER_VISIBLE) to /\
       flags_result arg r i i') fs.
Proof.
  intros Hi Hw. step. change (kr_ioctl ino KR_IOC_SETFLAGS arg) with
    (if negb (mnt_want_write_file =? 0) then mret (mnt_want_write_file, None)
     else ret ← set_flags ino arg; mret (ret, None) : M krfs answered).
  assert (forall r fs1 i1, fs_inodes fs1 = <[ino := i1]> (fs_inodes fs) ->
    (r = 0 /\ (exists v, get_user arg = Some v /\ (capable_linux_immutable = true \/ protected_kept i v) /\
       i1 = flags_set (test_opt KR_MOUNT_DAX fs) v i) \/ r < 0 /\ i1 = i) ->
    runs (g ← kr_ioctl ino KR_IOC_GETFLAGS to; mret ((r, @None Z).1, g)) never
    (fun '(r, g) fs' => exists i', fs_inodes fs' = <[ino := i']> (fs_inodes fs) /\
       g = put_user (Z.land (ei_flags (KR_I i')) KR_FL_USER_VISIBLE) to /\
       flags_result arg r i i') fs1) as Hget.
  { intros r fs1 i1 H1 Hr. step. change (kr_ioctl ino KR_IOC_GETFLAGS to) with
      (inode_upd kr_get_inode_flags ino ;; i ← inode_get ino;
       mret (put_user (Z.land (ei_flags (KR_I i)) KR_FL_USER_VISIBLE) to) : M krfs answered).
    step. run inode_upd_found. step.
    assert (alter kr_get_inode_flags ino (fs_inodes fs1) = <[ino := kr_get_inode_flags i1]> (fs_inodes fs)) as Hal.
    { rewrite H1. apply map_eq. intros j. destruct (decide (j = ino)) as [->|Hne].
      - by rewrite lookup_alter_eq, !lookup_insert_eq.
      - by rewrite lookup_alter_ne, !lookup_insert_ne by done. }
    run (inode_get_run ino (kr_get_inode_flags i1)); [cbn [fs_inodes set_fs_inodes]; by rewrite Hal, lookup_insert_eq|].
    step. step. exists (kr_get_inode_flags i1). cbn [fs_inodes set_fs_inodes]. split; [exact Hal|]. split; [done|].
    destruct Hr as [[-> (v & Hv & Hcap & ->)]|[Hr ->]]; [left|by right]. split; [done|].
    assert (ei_flags (KR_I (kr_get_inode_flags (flags_set (test_opt KR_MOUNT_DAX fs) v i))) = new_flags i v) as ->
      by (change (new_flags i v) with (ei_flags (KR_I (set_KR_I (set_ei_flags (new_flags i v) (KR_I i)) i)));
          apply get_set_flags).
    split.
    - exists v. split; [done|]. intros n Hn. by apply new_flags_bit.
    - intros Hno n Hn. destruct Hcap as [Hcap|Hcap]; [congruence|]. by apply protected_bits. }
  apply runs_if; intros E.
  - step. apply (Hget _ _ i); [by rewrite insert_id|]. right. split; [lia|done].
  - step. call set_flags_run; [exact Hi|]. intros r fs1 Hr. step.
    destruct Hr as [[-> (v & Hv & Hcap & Hfs)]|[Hr ->]].
    + apply (Hget _ _ (flags_set (test_opt KR_MOUNT_DAX fs) v i)); [done|]. left. split; [done|]. by exists v.
    + apply (Hget _ _ i); [by rewrite insert_id|]. by right.
Qed.

End Requests.

(** A process that owns the file, without capabilities, asks for the flags
    [KR_SYNC_FL], [KR_NOATIME_FL] and [KR_TOPDIR_FL]. *)
#[global] Instance demo_user : UserKernel := {|
  mnt_want_write_file := 0;
  inode_owner_or_capable := fun _ => true;
  capable_linux_immutable := false;
  get_user := fun _ => Some (Z.lor KR_SYNC_FL (Z.lor KR_NOATIME_FL KR_TOPDIR_FL));
  put_user_ok := fun _ => true;
  generic_file_fsync := 0;
  test_and_clear_eio := false;
|}.

Definition demo_file : inode := demo_inode 12 (S_IFREG + 420) (Some 1).

(** A regular file is not given the flag of a directory. *)
Lemma set_then_get_flags_witness :
  answer (r ← kr_ioctl 12 KR_IOC_SETFLAGS 0; g ← kr_ioctl 12 KR_IOC_GETFLAGS 0; mret (r.1, g)) demo
    = Some (0, (0, Some (Z.lor KR_SYNC_FL KR_NOATIME_FL))) /\
  runs (r ← kr_ioctl 12 KR_IOC_SETFLAGS 0; g ← kr_ioctl 12 KR_IOC_GETFLAGS 0; mret (r.1, g)) never
    (fun '(r, g) fs' => exists i', fs_inodes fs' = <[12 := i']> (fs_inodes demo) /\
       g = put_user (Z.land (ei_flags (KR_I i')) KR_FL_USER_VISIBLE) 0 /\
       flags_result 0 r demo_file i') demo.
Proof.
  split; [vm_compute; reflexivity|]. apply (set_then_get_flags 12 0 0 demo_file); [vm_compute; reflexivity|done].
Defined.
