(* ===== verification/Xattr.v ===== *)
(** * Extended attributes (Unused/xattr.c)

    An attribute block has a header, the descriptors of the attributes sorted by
    name, four zero bytes, and the values, which grow down from the end of the block.
    Inodes with the same attributes share a block; a cache finds blocks by the hash
    of their contents.  The functions call the file system by the names of ext2;
    here these are the functions of balloc.c and super.c, renamed there. *)

From Stdlib Require Import String Ascii.
From S2P Require Import Prelude Bytes Bits Kr Rsv Bitmap Alloc State Balloc BlockMap.

Definition EXT2_XATTR_MAGIC : Z := 0xEA020000.
Definition EXT2_XATTR_REFCOUNT_MAX : Z := 1024.
Definition EXT2_XATTR_INDEX_USER : Z := 1.
Definition EXT2_XATTR_INDEX_POSIX_ACL_ACCESS : Z := 2.
Definition EXT2_XATTR_INDEX_POSIX_ACL_DEFAULT : Z := 3.
Definition EXT2_XATTR_INDEX_TRUSTED : Z := 4.
Definition EXT2_XATTR_INDEX_LUSTRE : Z := 5.
Definition EXT2_XATTR_INDEX_SECURITY : Z := 6.

Definition XATTR_CREATE : Z := 1.
Definition XATTR_REPLACE : Z := 2.

(** ** The layout of a block *)

Definition EXT2_XATTR_PAD : Z := 4.
Definition EXT2_XATTR_ROUND : Z := 3.
(** [sizeof(struct ext2_xattr_header)], [sizeof(struct ext2_xattr_entry)] *)
Definition xattr_header_size : Z := 32.
Definition xattr_entry_size : Z := 16.
Definition EXT2_XATTR_LEN (name_len : Z) : Z := clr (name_len + EXT2_XATTR_ROUND + xattr_entry_size) EXT2_XATTR_ROUND.
Definition EXT2_XATTR_SIZE (size : Z) : Z := clr (size + EXT2_XATTR_ROUND) EXT2_XATTR_ROUND.

Definition h_magic (d : list Z) : Z := get32 d 0.
Definition h_refcount (d : list Z) : Z := get32 d 4.
Definition h_blocks (d : list Z) : Z := get32 d 8.
Definition h_hash (d : list Z) : Z := get32 d 12.

(** *** Memory

    A pointer into a block is an offset; an access that leaves the block is a
    [Fault]. *)
Section Memory.
Context {S : Type}.

Definition inside (d : list Z) (o n : Z) : bool := (0 <=? o) && (0 <=? n) && (o + n <=? len d).
Definition at8 (d : list Z) (o : Z) : M S Z := if inside d o 1 then mret (get8 d o) else halt Fault.
Definition at16 (d : list Z) (o : Z) : M S Z := if inside d o 2 then mret (get16 d o) else halt Fault.
Definition at32 (d : list Z) (o : Z) : M S Z := if inside d o 4 then mret (get32 d o) else halt Fault.
Definition at_bytes (d : list Z) (o n : Z) : M S (list Z) :=
  if inside d o n then mret (sub d o n) else halt Fault.

(** The fields of the entry at [e]. *)
Definition e_name_len (d : list Z) (e : Z) : M S Z := at8 d e.
Definition e_name_index (d : list Z) (e : Z) : M S Z := at8 d (e + 1).
Definition e_value_offs (d : list Z) (e : Z) : M S Z := at16 d (e + 2).
Definition e_value_block (d : list Z) (e : Z) : M S Z := at32 d (e + 4).
Definition e_value_size (d : list Z) (e : Z) : M S Z := at32 d (e + 8).
Definition e_hash (d : list Z) (e : Z) : M S Z := at32 d (e + 12).
Definition e_name (d : list Z) (e n : Z) : M S (list Z) := at_bytes d (e + xattr_entry_size) n.

Definition FIRST_ENTRY : Z := xattr_header_size.
Definition IS_LAST_ENTRY (d : list Z) (e : Z) : M S bool := v ← at32 d e; mret (v =? 0).
Definition EXT2_XATTR_NEXT (d : list Z) (e : Z) : M S Z := n ← e_name_len d e; mret (e + EXT2_XATTR_LEN n).

End Memory.

(** [memcmp]: bytes are compared as unsigned numbers. *)
Fixpoint memcmp (l1 l2 : list Z) : Z :=
  match l1, l2 with
  | a :: l1', b :: l2' => if a <? b then -1 else if b <? a then 1 else memcmp l1' l2'
  | _, _ => 0
  end.

(** *** Writing

    The state is the block. *)
Definition put_at (n : Z) (o : Z) (f : list Z -> list Z) : M (list Z) unit :=
  d ← gets id;
  if inside d o n then modify f else halt Fault.
Definition wr8 (o v : Z) : M (list Z) unit := put_at 1 o (fun d => put8 d o v).
Definition wr16 (o v : Z) : M (list Z) unit := put_at 2 o (fun d => put16 d o v).
Definition wr32 (o v : Z) : M (list Z) unit := put_at 4 o (fun d => put32 d o v).
Definition memcpy (o : Z) (l : list Z) : M (list Z) unit := put_at (len l) o (fun d => put_bytes d o l).
(** [memset(o, 0, n)] *)
Definition memset0 (o n : Z) : M (list Z) unit :=
  put_at n o (fun d => put_bytes d o (repeat 0 (Z.to_nat n))).
Definition memmove (dst src n : Z) : M (list Z) unit :=
  d ← gets id;
  if inside d src n then put_at n dst (fun d => put_bytes d dst (sub d src n)) else halt Fault.

(** [m] on the block read as a value. *)
Definition reading_block {A} (m : list Z -> M (list Z) A) : M (list Z) A := d ← gets id; m d.

(** ** Finding an attribute *)

(** How a search ends: the block is bad, the attribute is not there, or where its
    entry is. *)
Inductive search := Bad | Missing | Found (entry : Z).

(** The loop of [ext2_xattr_get]. *)
Fixpoint find_attribute {S} (fuel : nat) (d : list Z) (name_index : Z) (name : list Z) (entry : Z) : M S search :=
  match fuel with
  | O => halt OutOfFuel
  | Datatypes.S n =>
      last ← IS_LAST_ENTRY d entry;
      if (last : bool) then mret Missing
      else
        next ← EXT2_XATTR_NEXT d entry;
        if next >=? len d then mret Bad
        else
          i ← e_name_index d entry;
          l ← e_name_len d entry;
          same ← (if (name_index =? i) && (len name =? l)
                  then s ← e_name d entry l; mret (memcmp name s =? 0) else mret false);
          if (same : bool) then mret (Found entry) else find_attribute n d name_index name next
  end.

(** [if (!e->e_value_block && e->e_value_size) ...]: the value is in the block. *)
Definition has_value {S} (d : list Z) (e : Z) : M S bool :=
  b ← e_value_block d e;
  if negb (b =? 0) then mret false else s ← e_value_size d e; mret (negb (s =? 0)).

Definition lower_min {S} (d : list Z) (e min_offs : Z) : M S Z :=
  v ← has_value d e;
  if (v : bool) then offs ← e_value_offs d e; mret (if offs <? min_offs then offs else min_offs)
  else mret min_offs.

(** The order of the entries: by index, length and name. *)
Definition compare_entry {S} (d : list Z) (e name_index : Z) (name : list Z) : M S Z :=
  i ← e_name_index d e;
  if negb (name_index - i =? 0) then mret (name_index - i)
  else
    l ← e_name_len d e;
    if negb (s32 (len name - l) =? 0) then mret (s32 (len name - l))
    else s ← e_name d e (len name); mret (memcmp name s).

(** The first loop of [ext2_xattr_set]: [here], [min_offs] and [not_found], or
    [None] for a bad block. *)
Fixpoint find_here {S} (fuel : nat) (d : list Z) (name_index : Z) (name : list Z)
    (here min_offs not_found : Z) : M S (option (Z * Z * Z)) :=
  match fuel with
  | O => halt OutOfFuel
  | Datatypes.S n =>
      last ← IS_LAST_ENTRY d here;
      if (last : bool) then mret (Some (here, min_offs, not_found))
      else
        next ← EXT2_XATTR_NEXT d here;
        if next >=? len d then mret None
        else
          min_offs ← lower_min d here min_offs;
          not_found ← compare_entry d here name_index name;
          if not_found <=? 0 then mret (Some (here, min_offs, not_found))
          else find_here n d name_index name next min_offs not_found
  end.

(** The second loop: [last] and [min_offs]. *)
Fixpoint find_last {S} (fuel : nat) (d : list Z) (last min_offs : Z) : M S (option (Z * Z)) :=
  match fuel with
  | O => halt OutOfFuel
  | Datatypes.S n =>
      is_last ← IS_LAST_ENTRY d last;
      if (is_last : bool) then mret (Some (last, min_offs))
      else
        next ← EXT2_XATTR_NEXT d last;
        if next >=? len d then mret None
        else min_offs ← lower_min d last min_offs; find_last n d next min_offs
  end.

(** An entry is at least 16 bytes long. *)
Definition xattr_fuel (d : list Z) : nat := S (length d).

(** ** Changing a block *)

Definition insert_name (here last name_index : Z) (name : list Z) : M (list Z) unit :=
  let size := EXT2_XATTR_LEN (len name) in
  let rest := last - here in
  memmove (here + size) here rest ;;
  memset0 here size ;;
  wr8 (here + 1) name_index ;;
  wr8 here (len name) ;;
  memcpy (here + xattr_entry_size) name.

(** The offsets of the values below the one removed. *)
Fixpoint adjust_offsets (fuel : nat) (last offs size : Z) : M (list Z) Z :=
  match fuel with
  | O => halt OutOfFuel
  | Datatypes.S n =>
      is_last ← reading_block (fun d => IS_LAST_ENTRY d last);
      if (is_last : bool) then mret last
      else
        o ← reading_block (fun d => e_value_offs d last);
        b ← reading_block (fun d => e_value_block d last);
        when ((b =? 0) && (o <? offs)) (wr16 (last + 2) (u16 (o + size))) ;;
        next ← reading_block (fun d => EXT2_XATTR_NEXT d last);
        adjust_offsets n next offs size
  end.

(** The value of the entry found: replaced in its place ([None]), or removed, with
    the new [last] and [min_offs]. *)
Definition drop_value (here last min_offs : Z) (value : option (list Z)) : M (list Z) (option (Z * Z)) :=
  has ← reading_block (fun d => has_value d here);
  if negb has then mret (Some (last, min_offs))
  else
    offs ← reading_block (fun d => e_value_offs d here);
    value_size ← reading_block (fun d => e_value_size d here);
    let size := EXT2_XATTR_SIZE value_size in
    let v := default [] value in
    if size =? EXT2_XATTR_SIZE (len v) then
      wr32 (here + 8) (len v) ;;
      memset0 (offs + size - EXT2_XATTR_PAD) EXT2_XATTR_PAD ;;
      memcpy offs v ;;
      mret None
    else
      memmove (min_offs + size) min_offs (offs - min_offs) ;;
      memset0 min_offs size ;;
      wr16 (here + 2) 0 ;;
      d ← gets id;
      last ← adjust_offsets (xattr_fuel d) FIRST_ENTRY offs size;
      mret (Some (last, min_offs + size)).

Definition remove_name (here last : Z) (name : list Z) : M (list Z) unit :=
  let size := EXT2_XATTR_LEN (len name) in
  let last := last - size in
  memmove here (here + size) (last - here) ;;
  memset0 last size.

Definition insert_value (here min_offs : Z) (v : list Z) : M (list Z) unit :=
  wr32 (here + 8) (len v) ;;
  when (negb (len v =? 0))
    (let size := EXT2_XATTR_SIZE (len v) in
     let val := min_offs - size in
     wr16 (here + 2) (u16 val) ;;
     memset0 (val + size - EXT2_XATTR_PAD) EXT2_XATTR_PAD ;;
     memcpy val v).

(** From "Here we know that we can set the new attribute" to [skip_replace]. *)
Definition change_entry (not_found : bool) (here last min_offs name_index : Z) (name : list Z)
    (value : option (list Z)) : M (list Z) unit :=
  r ← (if not_found then insert_name here last name_index name ;; mret (Some min_offs)
       else
         r ← drop_value here last min_offs value;
         match r with
         | None => mret None
         | Some (last, min_offs) =>
             match value with
             | None => remove_name here last name
             | Some _ => mret tt
             end ;;
             mret (Some min_offs)
         end);
  match r, value with
  | Some min_offs, Some v => insert_value here min_offs v
  | _, _ => mret tt
  end.

(** ** Hashes *)

(** [char] is signed. *)
Definition s8 (b : Z) : Z := if b <? 128 then b else b - 256.
Definition hash_step (shift hash v : Z) : Z :=
  Z.lxor (Z.lxor (u32 (Z.shiftl hash shift)) (Z.shiftr hash (32 - shift))) (u32 v).

(** The 32-bit words of a value. *)
Fixpoint hash_words (n : nat) (o hash : Z) : M (list Z) Z :=
  match n with
  | O => mret hash
  | Datatypes.S n' => w ← reading_block (fun d => at32 d o); hash_words n' (o + 4) (hash_step 16 hash w)
  end.

Definition ext2_xattr_hash_entry (entry : Z) : M (list Z) unit :=
  n ← reading_block (fun d => e_name_len d entry);
  name ← reading_block (fun d => e_name d entry n);
  let hash := fold_left (fun hash b => hash_step 5 hash (s8 b)) name 0 in
  has ← reading_block (fun d => has_value d entry);
  hash ← (if (has : bool) then
            offs ← reading_block (fun d => e_value_offs d entry);
            size ← reading_block (fun d => e_value_size d entry);
            hash_words (Z.to_nat (Z.shiftr (u32 (size + EXT2_XATTR_ROUND)) 2)) offs hash
          else mret hash);
  wr32 (entry + 12) hash.

Fixpoint hash_entries (fuel : nat) (here hash : Z) : M (list Z) Z :=
  match fuel with
  | O => halt OutOfFuel
  | Datatypes.S n =>
      last ← reading_block (fun d => IS_LAST_ENTRY d here);
      if (last : bool) then mret hash
      else
        h ← reading_block (fun d => e_hash d here);
        if h =? 0 then mret 0
        else
          next ← reading_block (fun d => EXT2_XATTR_NEXT d here);
          hash_entries n next (hash_step 16 hash h)
  end.

Definition ext2_xattr_rehash (entry : Z) : M (list Z) unit :=
  ext2_xattr_hash_entry entry ;;
  d ← gets id;
  hash ← hash_entries (xattr_fuel d) FIRST_ENTRY 0;
  wr32 12 hash.

(** [change_entry] up to the call of [ext2_xattr_set2]: whether the block still has
    an attribute. *)
Definition change_block (not_found : bool) (here last min_offs name_index : Z) (name : list Z)
    (value : option (list Z)) : M (list Z) bool :=
  change_entry not_found here last min_offs name_index name value ;;
  empty ← reading_block (fun d => IS_LAST_ENTRY d FIRST_ENTRY);
  if (empty : bool) then mret false else ext2_xattr_rehash here ;; mret true.

(** The header of a new block. *)
Definition new_xattr_block (blocksize : Z) : list Z :=
  put32 (put32 (put32 (repeat 0 (Z.to_nat blocksize)) 0 EXT2_XATTR_MAGIC) 8 1) 4 1.

(** ** Comparing blocks *)

Fixpoint xattr_cmp {S} (fuel : nat) (d1 d2 : list Z) (entry1 entry2 : Z) : M S Z :=
  match fuel with
  | O => halt OutOfFuel
  | Datatypes.S n =>
      last1 ← IS_LAST_ENTRY d1 entry1;
      last2 ← IS_LAST_ENTRY d2 entry2;
      if (last1 : bool) then mret (if negb last2 then 1 else 0)
      else if (last2 : bool) then mret 1
      else
        h1 ← e_hash d1 entry1; h2 ← e_hash d2 entry2;
        i1 ← e_name_index d1 entry1; i2 ← e_name_index d2 entry2;
        l1 ← e_name_len d1 entry1; l2 ← e_name_len d2 entry2;
        s1 ← e_value_size d1 entry1; s2 ← e_value_size d2 entry2;
        if negb (h1 =? h2) || negb (i1 =? i2) || negb (l1 =? l2) || negb (s1 =? s2) then mret 1
        else
          n1 ← e_name d1 entry1 l1; n2 ← e_name d2 entry2 l1;
          if negb (memcmp n1 n2 =? 0) then mret 1
          else
            b1 ← e_value_block d1 entry1; b2 ← e_value_block d2 entry2;
            if negb (b1 =? 0) || negb (b2 =? 0) then mret (- EIO)
            else
              o1 ← e_value_offs d1 entry1; o2 ← e_value_offs d2 entry2;
              v1 ← at_bytes d1 o1 s1; v2 ← at_bytes d2 o2 s1;
              if negb (memcmp v1 v2 =? 0) then mret 1
              else
                next1 ← EXT2_XATTR_NEXT d1 entry1; next2 ← EXT2_XATTR_NEXT d2 entry2;
                xattr_cmp n d1 d2 next1 next2
  end.
Definition ext2_xattr_cmp {S} (header1 header2 : list Z) : M S Z :=
  xattr_cmp (xattr_fuel header1) header1 header2 FIRST_ENTRY FIRST_ENTRY.

(** ** The cache and the blocks of inodes *)

(** The calls of the cache of blocks, the latest first; [mb_create] is an
    [mb_cache_entry_create], which does nothing when the entry is there. *)
Inductive mb_call :=
| mb_create (hash b : Z)
| mb_delete (hash b : Z)     (* mb_cache_entry_delete_block *)
| mb_touch (b : Z).

(** The file system and its cache. *)
Record attrfs := AttrFs {
  a_fs : krfs;
  a_cache : list mb_call;
}.
Definition set_a_fs (fs : krfs) (s : attrfs) : attrfs := AttrFs fs (a_cache s).
Definition set_a_cache (l : list mb_call) (s : attrfs) : attrfs := AttrFs (a_fs s) l.

(** What the functions ask of the kernel beside [Kernel]: the blocks an
    [mb_cache_entry_find_first] and the calls of [mb_cache_entry_find_next] give for
    a hash, after the calls that have been made; and what the handlers of names need. *)
Class XattrKernel := {
  mb_cache_find : list mb_call -> Z -> list Z;
  CONFIG_EXT2_FS_POSIX_ACL : bool;
  CONFIG_EXT2_FS_SECURITY : bool;
  posix_acl_xattr_list : krfs -> Z -> bool;   (* the [list] of the handlers of access control lists *)
  capable_sys_admin : bool;
}.

(** A function of the file system, with the cache as it is. *)
Definition on_fs {A} (m : M krfs A) : M attrfs A := lift a_fs set_a_fs m.
Definition note (c : kcall) : M attrfs unit := on_fs (log c).
Definition cache_call (c : mb_call) : M attrfs unit := modify (fun s => set_a_cache (c :: a_cache s) s).

(** [m] on the buffer of block [b]. *)
Definition on_block {A} (b : Z) (m : M (list Z) A) : M attrfs A :=
  d ← on_fs (buf_get b);
  match m d with
  | Ret a d' => on_fs (buf_set b d') ;; mret a
  | Stop w => halt w
  end.
(** [m] on a copy of a block. *)
Definition on_copy {S A} (d : list Z) (m : M (list Z) A) : M S (A * list Z) :=
  match m d with
  | Ret a d' => mret (a, d')
  | Stop w => halt w
  end.

Section Ops.
Context `{BitOps, RbTree, Trylock, Kernel, XattrKernel}.

Definition file_acl (ino : Z) : M attrfs Z := i ← on_fs (inode_get ino); mret (i_file_acl (KR_I i)).
Definition set_file_acl (b : Z) (i : inode) : inode := set_KR_I (set_i_file_acl b (KR_I i)) i.

(** [HDR(bh)->h_magic != ... || HDR(bh)->h_blocks != ...] *)
Definition bad_header (d : list Z) : bool := negb (h_magic d =? EXT2_XATTR_MAGIC) || negb (h_blocks d =? 1).

Definition ext2_xattr_cache_insert (b : Z) : M attrfs unit :=
  d ← on_fs (buf_get b); cache_call (mb_create (h_hash d) b).

(** [le32_add_cpu(&HDR(bh)->h_refcount, n)] *)
Definition add_refcount (b n : Z) : M attrfs unit :=
  d ← on_fs (buf_get b); on_fs (buf_set b (put32 d 4 (u32 (h_refcount d + n)))).

(** The blocks of the cache; no other thread takes an entry out of it while the loop
    runs. *)
Fixpoint try_cached (header : list Z) (blocks : list Z) : M attrfs (option Z) :=
  match blocks with
  | [] => mret None
  | b :: rest =>
      bh ← on_fs (sb_bread b);
      match bh with
      | None => on_fs kr_error ;; try_cached header rest
      | Some _ =>
          d ← on_fs (buf_get b);
          if h_refcount d >? EXT2_XATTR_REFCOUNT_MAX then try_cached header rest
          else
            c ← ext2_xattr_cmp header d;
            if c =? 0 then cache_call (mb_touch b) ;; mret (Some b) else try_cached header rest
      end
  end.

Definition ext2_xattr_cache_find (header : list Z) : M attrfs (option Z) :=
  if h_hash header =? 0 then mret None
  else l ← gets a_cache; try_cached header (mb_cache_find l (h_hash header)).

Definition ext2_xattr_update_super_block : M attrfs unit :=
  fs ← gets a_fs;
  when (negb (has_compat_feature (fs_es fs) KR_FEATURE_COMPAT_EXT_ATTR))
    (on_fs (upd_es (fun es => set_es_feature_compat (Z.lor (es_feature_compat es) KR_FEATURE_COMPAT_EXT_ATTR) es)) ;;
     note (mark_buffer_dirty BufSuper)).

(** *** Reading *)

Definition bad_block : M attrfs (Z * option (list Z)) := on_fs kr_error ;; mret (- EIO, None).

(** [buffer] is the size of the buffer, when there is one; the answer is the size or
    an error, and what has been copied. *)
Definition ext2_xattr_get (ino name_index : Z) (name : option (list Z)) (buffer : option Z)
    : M attrfs (Z * option (list Z)) :=
  match name with
  | None => mret (- EINVAL, None)
  | Some name =>
      if len name >? 255 then mret (- ERANGE, None)
      else
        a ← file_acl ino;
        if a =? 0 then mret (- ENODATA, None)
        else
          bh ← on_fs (sb_bread a);
          match bh with
          | None => mret (- EIO, None)
          | Some _ =>
              d ← on_fs (buf_get a);
              if bad_header d then bad_block
              else
                r ← find_attribute (xattr_fuel d) d name_index name FIRST_ENTRY;
                match r with
                | Bad => bad_block
                | Missing => ext2_xattr_cache_insert a ;; mret (- ENODATA, None)
                | Found entry =>
                    b ← e_value_block d entry;
                    size ← e_value_size d entry;
                    offs ← e_value_offs d entry;
                    fs ← gets a_fs;
                    if negb (b =? 0) || (size >? fs_blocksize fs) || (offs + size >? fs_blocksize fs)
                    then bad_block
                    else
                      ext2_xattr_cache_insert a ;;
                      match buffer with
                      | None => mret (s32 size, None)
                      | Some n =>
                          if size >? n then mret (- ERANGE, None)
                          else v ← at_bytes d offs size; mret (s32 size, Some v)
                      end
                end
          end
  end.

(** *** Listing *)

(** The bytes of a string constant. *)
Definition bytes_of (s : string) : list Z := (fun c => Z.of_N (Ascii.N_of_ascii c)) <$> String.list_ascii_of_string s.

(** A handler: the prefix of its names, and whether they are listed. *)
Definition ext2_xattr_handler (fs : krfs) (ino name_index : Z) : option (list Z * bool) :=
  if name_index =? EXT2_XATTR_INDEX_USER then Some (bytes_of "user.", test_opt KR_MOUNT_XATTR_USER fs)
  else if (name_index =? EXT2_XATTR_INDEX_POSIX_ACL_ACCESS) && CONFIG_EXT2_FS_POSIX_ACL then
    Some (bytes_of "system.posix_acl_access", posix_acl_xattr_list fs ino)
  else if (name_index =? EXT2_XATTR_INDEX_POSIX_ACL_DEFAULT) && CONFIG_EXT2_FS_POSIX_ACL then
    Some (bytes_of "system.posix_acl_default", posix_acl_xattr_list fs ino)
  else if name_index =? EXT2_XATTR_INDEX_TRUSTED then Some (bytes_of "trusted.", capable_sys_admin)
  else if (name_index =? EXT2_XATTR_INDEX_SECURITY) && CONFIG_EXT2_FS_SECURITY then
    Some (bytes_of "security.", true)
  else None.

Fixpoint check_list {S} (fuel : nat) (d : list Z) (entry : Z) : M S bool :=
  match fuel with
  | O => halt OutOfFuel
  | Datatypes.S n =>
      last ← IS_LAST_ENTRY d entry;
      if (last : bool) then mret true
      else next ← EXT2_XATTR_NEXT d entry; if next >=? len d then mret false else check_list n d next
  end.

(** The names from [entry] on: [None] when the buffer is too small, otherwise what is
    left of it and what has been copied. *)
Fixpoint list_names (fuel : nat) (ino : Z) (d : list Z) (entry : Z) (buffer : bool) (rest : Z) (out : list Z)
    : M attrfs (option (Z * list Z)) :=
  match fuel with
  | O => halt OutOfFuel
  | Datatypes.S n =>
      last ← IS_LAST_ENTRY d entry;
      if (last : bool) then mret (Some (rest, out))
      else
        i ← e_name_index d entry;
        l ← e_name_len d entry;
        next ← EXT2_XATTR_NEXT d entry;
        fs ← gets a_fs;
        match ext2_xattr_handler fs ino i with
        | Some (prefix, true) =>
            let size := len prefix + l + 1 in
            if buffer && (size >? rest) then mret None
            else
              name ← e_name d entry l;
              list_names n ino d next buffer (u64 (rest - size))
                (if buffer then out ++ prefix ++ name ++ [0] else out)
        | _ => list_names n ino d next buffer rest out
        end
  end.

Definition ext2_xattr_list (ino : Z) (buffer : option Z) : M attrfs (Z * option (list Z)) :=
  a ← file_acl ino;
  if a =? 0 then mret (0, None)
  else
    bh ← on_fs (sb_bread a);
    match bh with
    | None => mret (- EIO, None)
    | Some _ =>
        d ← on_fs (buf_get a);
        if bad_header d then bad_block
        else
          ok ← check_list (xattr_fuel d) d FIRST_ENTRY;
          if negb ok then bad_block
          else
            ext2_xattr_cache_insert a ;;
            let size := default 0 buffer in
            r ← list_names (xattr_fuel d) ino d FIRST_ENTRY (bool_decide (is_Some buffer)) size [];
            match r with
            | None => mret (- ERANGE, None)
            | Some (rest, out) => mret (s32 (u64 (size - rest)), (fun _ => out) <$> buffer)
            end
    end.

(** *** Setting *)

(** The header [ext2_xattr_set2] is given: none, the old block changed in place, or
    a new one. *)
Inductive xattr_header := NoHeader | InPlace | Copied (d : list Z).

(** A block for the new attributes, or an error. *)
Definition new_xattr_bh (ino : Z) (d : list Z) : M attrfs (Z + Z) :=
  i ← on_fs (inode_get ino);
  fs ← gets a_fs;
  let goal := kr_group_first_block_no (s_blocks_per_group (fs_sbi fs)) (es_first_data_block (fs_es fs))
                (i_block_group (KR_I i)) in
  r ← on_fs (kr_new_block ino goal);
  let '(block, err) := r in
  if negb (err =? 0) then mret (inl err)
  else
    let block := s32 block in
    if negb (sb_getblk_ok block) then
      on_fs (kr_free_blocks ino block 1) ;; note (mark_inode_dirty ino) ;; mret (inl (- ENOMEM))
    else
      on_fs (buf_set block d) ;;
      on_fs (modify (fun fs => set_fs_uptodate (({[block]} : gset Z) ∪ fs_uptodate fs) fs)) ;;
      ext2_xattr_cache_insert block ;;
      ext2_xattr_update_super_block ;;
      mret (inr block).

(** The block the inode will have: one of the cache, the old one, or a new one. *)
Definition xattr_bh (ino : Z) (old_bh : option Z) (in_place : bool) (d : list Z) : M attrfs (Z + Z) :=
  found ← ext2_xattr_cache_find d;
  match found with
  | Some b =>
      if bool_decide (old_bh = Some b) then mret (inr b)
      else
        let err := dquot_alloc_block ino 1 in
        if negb (err =? 0) then mret (inl err)
        else note (dquot_charge_block ino 1) ;; add_refcount b 1 ;; mret (inr b)
  | None =>
      match old_bh with
      | Some b => if in_place then ext2_xattr_cache_insert b ;; mret (inr b) else new_xattr_bh ino d
      | None => new_xattr_bh ino d
      end
  end.

(** The old block is not used any more by the inode. *)
Definition release_xattr_bh (ino b : Z) : M attrfs unit :=
  d ← on_fs (buf_get b);
  if h_refcount d =? 1 then
    cache_call (mb_delete (h_hash d) b) ;;
    on_fs (kr_free_blocks ino b 1) ;;
    note (mark_inode_dirty ino) ;;
    note (bforget b)
  else
    add_refcount b (-1) ;;
    note (dquot_free_block_nodirty ino 1) ;;
    note (mark_inode_dirty ino) ;;
    note (mark_buffer_dirty (BufBlock b)).

(** From "Update the inode" on. *)
Definition attach_xattr_bh (ino : Z) (old_bh new_bh : option Z) : M attrfs Z :=
  on_fs (inode_upd (set_file_acl (default 0 new_bh)) ino) ;;
  on_fs (inode_upd (set_i_ctime current_time) ino) ;;
  i ← on_fs (inode_get ino);
  fs ← gets a_fs;
  let sync := IS_SYNC fs i in
  let err := if sync then sync_inode_metadata ino else 0 in
  when (negb sync) (note (mark_inode_dirty ino)) ;;
  if negb (err =? 0) && negb (err =? - ENOSPC) then
    when (bool_decide (is_Some new_bh) && negb (bool_decide (new_bh = old_bh)))
      (note (dquot_free_block_nodirty ino 1) ;; note (mark_inode_dirty ino)) ;;
    mret err
  else
    match old_bh with
    | Some b => when (negb (bool_decide (new_bh = old_bh))) (release_xattr_bh ino b)
    | None => mret tt
    end ;;
    mret 0.

Definition ext2_xattr_set2 (ino : Z) (old_bh : option Z) (header : xattr_header) : M attrfs Z :=
  match header with
  | NoHeader => attach_xattr_bh ino old_bh None
  | _ =>
      d ← match header, old_bh with
          | Copied d, _ => mret d
          | _, Some b => on_fs (buf_get b)
          | _, None => halt Fault
          end;
      r ← xattr_bh ino old_bh (match header with InPlace => true | _ => false end) d;
      match r with
      | inl err => mret err
      | inr b =>
          note (mark_buffer_dirty (BufBlock b)) ;;
          i ← on_fs (inode_get ino);
          fs ← gets a_fs;
          when (IS_SYNC fs i) (note (sync_dirty_buffer (BufBlock b))) ;;
          if IS_SYNC fs i && negb (bh_write_ok b) then mret (- EIO)
          else attach_xattr_bh ino old_bh (Some b)
      end
  end.

(** What the look at the old block gives: [here], [last], [min_offs], [not_found],
    and the space that is free. *)
Record xattr_place := XattrPlace {
  xp_here : Z;
  xp_last : Z;
  xp_min_offs : Z;
  xp_not_found : bool;
  xp_free : Z;
}.

Definition look_up_place (blocksize : Z) (d : list Z) (name_index : Z) (name : list Z) : M attrfs (option xattr_place) :=
  r ← find_here (xattr_fuel d) d name_index name FIRST_ENTRY blocksize 1;
  match r with
  | None => mret None
  | Some (here, min_offs, not_found) =>
      r ← find_last (xattr_fuel d) d here min_offs;
      match r with
      | None => mret None
      | Some (last, min_offs) =>
          mret (Some (XattrPlace here last min_offs (negb (not_found =? 0)) (u64 (u64 (min_offs - last) - 4))))
      end
  end.

(** What the checks before the change say: an answer without a change, that the
    block is bad, or the free space with that of the entry found. *)
Inductive verdict := Answer (err : Z) | BadEntry | Room (free : Z).

Definition check_set (blocksize : Z) (d : list Z) (p : xattr_place) (name : list Z) (value : option (list Z)) (flags : Z)
    : M attrfs verdict :=
  if xp_not_found p then
    mret (if has flags XATTR_REPLACE then Answer (- ENODATA)
          else match value with
               | None => Answer 0
               | Some _ => Room (xp_free p)
               end)
  else if has flags XATTR_CREATE then mret (Answer (- EEXIST))
  else
    has ← has_value d (xp_here p);
    if negb has then mret (Room (u64 (xp_free p + EXT2_XATTR_LEN (len name))))
    else
      size ← e_value_size d (xp_here p);
      offs ← e_value_offs d (xp_here p);
      if (offs + size >? blocksize) || (size >? blocksize) then mret BadEntry
      else mret (Room (u64 (u64 (xp_free p + EXT2_XATTR_SIZE size) + EXT2_XATTR_LEN (len name)))).

(** The change, in the old block or in a copy of it, and the second half. *)
Definition change_and_store (ino : Z) (bh : option Z) (d : list Z) (p : xattr_place) (name_index : Z)
    (name : list Z) (value : option (list Z)) : M attrfs Z :=
  let change := change_block (xp_not_found p) (xp_here p) (xp_last p) (xp_min_offs p) name_index name value in
  match bh with
  | Some b =>
      if h_refcount d =? 1 then
        cache_call (mb_delete (h_hash d) b) ;;
        full ← on_block b change;
        ext2_xattr_set2 ino bh (if (full : bool) then InPlace else NoHeader)
      else if negb kmalloc_ok then mret (- ENOMEM)
      else
        r ← on_copy (put32 d 4 1) change;
        let '(full, d) := r in
        ext2_xattr_set2 ino bh (if (full : bool) then Copied d else NoHeader)
  | None =>
      if negb kmalloc_ok then mret (- ENOMEM)
      else
        r ← on_copy d change;
        let '(full, d) := r in
        ext2_xattr_set2 ino bh (if (full : bool) then Copied d else NoHeader)
  end.

Definition ext2_xattr_set (ino name_index : Z) (name value : option (list Z)) (flags : Z) : M attrfs Z :=
  match name with
  | None => mret (- EINVAL)
  | Some name =>
      fs ← gets a_fs;
      let blocksize := fs_blocksize fs in
      let value_len := len (default [] value) in
      if (len name >? 255) || (value_len >? blocksize) then mret (- ERANGE)
      else
        a ← file_acl ino;
        bh ← (if a =? 0 then mret (Some None) else r ← on_fs (sb_bread a); mret (Some <$> r));
        match bh with
        | None => mret (- EIO)
        | Some bh =>
            d ← match bh with Some b => on_fs (buf_get b) | None => mret (new_xattr_block blocksize) end;
            if bool_decide (is_Some bh) && bad_header d then on_fs kr_error ;; mret (- EIO)
            else
              p ← match bh with
                  | Some _ => look_up_place blocksize d name_index name
                  | None => mret (Some (XattrPlace FIRST_ENTRY FIRST_ENTRY blocksize true
                                          (blocksize - xattr_header_size - 4)))
                  end;
              match p with
              | None => on_fs kr_error ;; mret (- EIO)
              | Some p =>
                  r ← check_set blocksize d p name value flags;
                  match r with
                  | Answer err => mret err
                  | BadEntry => on_fs kr_error ;; mret (- EIO)
                  | Room free =>
                      if free <? EXT2_XATTR_LEN (len name) + EXT2_XATTR_SIZE value_len then mret (- ENOSPC)
                      else change_and_store ino bh d p name_index name value
                  end
              end
        end
  end.

(** *** Freeing *)

Definition ext2_xattr_delete_inode (ino : Z) : M attrfs unit :=
  a ← file_acl ino;
  fs ← gets a_fs;
  if a =? 0 then mret tt
  else if negb (kr_data_block_valid fs a 0) then on_fs kr_error
  else
    bh ← on_fs (sb_bread a);
    match bh with
    | None => on_fs kr_error
    | Some b =>
        d ← on_fs (buf_get b);
        if bad_header d then on_fs kr_error
        else
          (if h_refcount d =? 1 then
             cache_call (mb_delete (h_hash d) b) ;;
             on_fs (kr_free_blocks ino a 1) ;;
             note (bforget b)
           else
             add_refcount b (-1) ;;
             note (mark_buffer_dirty (BufBlock b)) ;;
             i ← on_fs (inode_get ino);
             fs ← gets a_fs;
             when (IS_SYNC fs i) (note (sync_dirty_buffer (BufBlock b))) ;;
             note (dquot_free_block_nodirty ino 1)) ;;
          on_fs (inode_upd (set_file_acl 0) ino)
    end.

(** ** The handlers (xattr_user.c, xattr_trusted.c, xattr_security.c) *)

Definition ext2_xattr_user_get (ino : Z) (name : option (list Z)) (buffer : option Z) : M attrfs (Z * option (list Z)) :=
  fs ← gets a_fs;
  if negb (test_opt KR_MOUNT_XATTR_USER fs) then mret (- EOPNOTSUPP, None)
  else ext2_xattr_get ino EXT2_XATTR_INDEX_USER name buffer.
Definition ext2_xattr_user_set (ino : Z) (name value : option (list Z)) (flags : Z) : M attrfs Z :=
  fs ← gets a_fs;
  if negb (test_opt KR_MOUNT_XATTR_USER fs) then mret (- EOPNOTSUPP)
  else ext2_xattr_set ino EXT2_XATTR_INDEX_USER name value flags.
Definition ext2_xattr_trusted_get (ino : Z) := ext2_xattr_get ino EXT2_XATTR_INDEX_TRUSTED.
Definition ext2_xattr_trusted_set (ino : Z) := ext2_xattr_set ino EXT2_XATTR_INDEX_TRUSTED.
Definition ext2_xattr_security_get (ino : Z) := ext2_xattr_get ino EXT2_XATTR_INDEX_SECURITY.
Definition ext2_xattr_security_set (ino : Z) := ext2_xattr_set ino EXT2_XATTR_INDEX_SECURITY.

(** The attributes the security module gives a new inode. *)
Fixpoint init_each (ino : Z) (xattr_array : list (list Z * list Z)) (err : Z) : M attrfs Z :=
  match xattr_array with
  | [] => mret err
  | (name, value) :: rest =>
      err ← ext2_xattr_set ino EXT2_XATTR_INDEX_SECURITY (Some name) (Some value) 0;
      if err <? 0 then mret err else init_each ino rest err
  end.
Definition ext2_initxattrs (ino : Z) (xattr_array : list (list Z * list Z)) : M attrfs Z :=
  init_each ino xattr_array 0.

End Ops.
