(* ===== verification/Acl.v ===== *)
(** * Access control lists (Unused/acl.c, Unused/acl.h)

    An access control list is kept in an attribute of the inode.  On the disk it is a
    version and the entries, short ones for the owner, the group, the mask and the
    others, and long ones, with an id, for users and groups that are named. *)

From S2P Require Import Prelude Bytes Bits Kr Rsv Bitmap Alloc State Balloc BlockMap Xattr.

Definition EXT2_ACL_VERSION : Z := 1.
Definition ACL_TYPE_ACCESS : Z := 0x8000.
Definition ACL_TYPE_DEFAULT : Z := 0x4000.
Definition ACL_USER_OBJ : Z := 1.
Definition ACL_USER : Z := 2.
Definition ACL_GROUP_OBJ : Z := 4.
Definition ACL_GROUP : Z := 8.
Definition ACL_MASK : Z := 0x10.
Definition ACL_OTHER : Z := 0x20.
Definition ENOSYS : Z := 38.

(** [sizeof(ext2_acl_header)], [sizeof(ext2_acl_entry_short)], [sizeof(ext2_acl_entry)] *)
Definition acl_header_size : Z := 4.
Definition acl_entry_short_size : Z := 4.
Definition acl_entry_size : Z := 8.

(** *** acl.h *)

Definition ext2_acl_size (count : Z) : Z :=
  if count <=? 4 then u64 (acl_header_size + count * acl_entry_short_size)
  else u64 (acl_header_size + 4 * acl_entry_short_size + (count - 4) * acl_entry_size).

Definition ext2_acl_count (size : Z) : Z :=
  let size := u64 (size - acl_header_size) in
  let s := s64 (size - 4 * acl_entry_short_size) in
  if s <? 0 then
    if negb (size mod acl_entry_short_size =? 0) then -1 else s32 (size / acl_entry_short_size)
  else
    if negb (s mod acl_entry_size =? 0) then -1 else s32 (s / acl_entry_size + 4).

(** *** In memory

    [e_owner] is the union of [e_uid] and [e_gid]: the entries of users and groups use
    it. *)
Record posix_acl_entry := PosixAclEntry {
  e_tag : Z;
  e_perm : Z;
  e_owner : Z;
}.
Abbreviation posix_acl := (list posix_acl_entry).

(** A pointer to a list: an [ERR_PTR], [NULL] or a list. *)
Definition acl_ptr : Type := Z + option posix_acl.
Definition err_ptr (e : Z) : acl_ptr := if e =? 0 then inr None else inl e.

(** What the functions ask of the kernel: ids and their numbers ([init_user_ns]); new
    memory, with what it happens to hold; and how a list changes the mode of an inode,
    an error or the mode and the list that is left. *)
Class AclKernel := {
  make_kuid : Z -> Z;
  from_kuid : Z -> Z;
  make_kgid : Z -> Z;
  from_kgid : Z -> Z;
  posix_acl_alloc : Z -> option posix_acl;
  kmalloc_data : Z -> list Z;
  posix_acl_update_mode : inode -> posix_acl -> Z + (Z * option posix_acl);
}.

(** The file system, and the lists [set_cached_acl] has been given, by inode and type. *)
Record aclfs := AclFs {
  af_attr : attrfs;
  af_cached : gmap (Z * Z) (option posix_acl);
}.
Definition set_af_attr (a : attrfs) (s : aclfs) : aclfs := AclFs a (af_cached s).
Definition on_attr {A} (m : M attrfs A) : M aclfs A := lift af_attr set_af_attr m.
Definition set_cached_acl (ino type : Z) (acl : option posix_acl) : M aclfs unit :=
  modify (fun s => AclFs (af_attr s) (<[(ino, type) := acl]> (af_cached s))).

Definition set_i_mode (v : Z) (r : inode) : inode := ltac:(set_field (eta_inode r) (i_mode r) v).

Section Ops.
Context `{BitOps, RbTree, Trylock, Kernel, XattrKernel, AclKernel}.

(** *** From the disk *)

(** [acl->a_entries[n]] is written. *)
Definition put_entry {S} (n : Z) (f : posix_acl_entry -> posix_acl_entry) (acl : posix_acl) : M S posix_acl :=
  match acl !! Z.to_nat n with
  | Some e => mret (<[Z.to_nat n := f e]> acl)
  | None => halt Fault
  end.

(** The loop over the entries, [k] of which are left; [value] is an offset in [d], and
    [size] its end.  The answer is [value] and the list, or [None] at [fail]. *)
Fixpoint entries_from_disk {S} (k : nat) (n : Z) (d : list Z) (size value : Z) (acl : posix_acl)
    : M S (option (Z * posix_acl)) :=
  match k with
  | O => mret (Some (value, acl))
  | Datatypes.S k =>
      if value + acl_entry_short_size >? size then mret None
      else
        tag ← at16 d value;
        perm ← at16 d (value + 2);
        acl ← put_entry n (fun e => PosixAclEntry (s16 tag) perm (e_owner e)) acl;
        let long (id : Z -> Z) :=
          if value + acl_entry_size >? size then mret None
          else
            v ← at32 d (value + 4);
            acl ← put_entry n (fun e => PosixAclEntry (e_tag e) (e_perm e) (id v)) acl;
            entries_from_disk k (n + 1) d size (value + acl_entry_size) acl in
        let tag := s16 tag in
        if (tag =? ACL_USER_OBJ) || (tag =? ACL_GROUP_OBJ) || (tag =? ACL_MASK) || (tag =? ACL_OTHER) then
          entries_from_disk k (n + 1) d size (value + acl_entry_short_size) acl
        else if tag =? ACL_USER then long make_kuid
        else if tag =? ACL_GROUP then long make_kgid
        else mret None
  end.

Definition ext2_acl_from_disk {S} (value : option (list Z)) (size : Z) : M S acl_ptr :=
  match value with
  | None => mret (inr None)
  | Some d =>
      if size <? acl_header_size then mret (inl (- EINVAL))
      else
        version ← at32 d 0;
        if negb (version =? EXT2_ACL_VERSION) then mret (inl (- EINVAL))
        else
          let count := ext2_acl_count size in
          if count <? 0 then mret (inl (- EINVAL))
          else if count =? 0 then mret (inr None)
          else
            match posix_acl_alloc count with
            | None => mret (inl (- ENOMEM))
            | Some acl =>
                r ← entries_from_disk (Z.to_nat count) 0 d size acl_header_size acl;
                mret (match r with
                      | Some (value, acl) => if value =? size then inr (Some acl) else inl (- EINVAL)
                      | None => inl (- EINVAL)
                      end)
            end
  end.

(** *** To the disk *)

(** The loop over the entries; [false] is [fail]. *)
Fixpoint entries_to_disk (acl : posix_acl) (e : Z) : M (list Z) bool :=
  match acl with
  | [] => mret true
  | acl_e :: acl =>
      wr16 e (e_tag acl_e) ;;
      wr16 (e + 2) (e_perm acl_e) ;;
      let tag := e_tag acl_e in
      if tag =? ACL_USER then
        wr32 (e + 4) (from_kuid (e_owner acl_e)) ;; entries_to_disk acl (e + acl_entry_size)
      else if tag =? ACL_GROUP then
        wr32 (e + 4) (from_kgid (e_owner acl_e)) ;; entries_to_disk acl (e + acl_entry_size)
      else if (tag =? ACL_USER_OBJ) || (tag =? ACL_GROUP_OBJ) || (tag =? ACL_MASK) || (tag =? ACL_OTHER) then
        entries_to_disk acl (e + acl_entry_short_size)
      else mret false
  end.

(** An error, or the memory of the value and its size. *)
Definition ext2_acl_to_disk {S} (acl : posix_acl) : M S (Z + (list Z * Z)) :=
  let size := ext2_acl_size (s32 (len acl)) in
  if negb kmalloc_ok then mret (inl (- ENOMEM))
  else
    r ← on_copy (kmalloc_data (u64 (acl_header_size + len acl * acl_entry_size)))
          (wr32 0 EXT2_ACL_VERSION ;; entries_to_disk acl acl_header_size);
    let '(done, value) := r in
    mret (if (done : bool) then inr (value, size) else inl (- EINVAL)).

(** *** The list of an inode *)

Definition acl_name_index (type : Z) : option Z :=
  if type =? ACL_TYPE_ACCESS then Some EXT2_XATTR_INDEX_POSIX_ACL_ACCESS
  else if type =? ACL_TYPE_DEFAULT then Some EXT2_XATTR_INDEX_POSIX_ACL_DEFAULT
  else None.

(** The second half of [ext2_get_acl]. *)
Definition acl_of_value {S} (value : option (list Z)) (retval : Z) : M S acl_ptr :=
  if retval >? 0 then ext2_acl_from_disk value retval
  else if (retval =? - ENODATA) || (retval =? - ENOSYS) then mret (inr None)
  else mret (err_ptr retval).

Definition ext2_get_acl (ino type : Z) : M attrfs acl_ptr :=
  match acl_name_index type with
  | None => halt BugOn
  | Some name_index =>
      r ← ext2_xattr_get ino name_index (Some []) None;
      let '(retval, _) := r in
      if retval >? 0 then
        if negb kmalloc_ok then mret (inl (- ENOMEM))
        else
          r ← ext2_xattr_get ino name_index (Some []) (Some retval);
          let '(retval', v) := r in
          acl_of_value (Some (put_bytes (kmalloc_data retval) 0 (default [] v))) retval'
      else acl_of_value None retval
  end.

(** The [switch] of [ext2_set_acl]: an answer, or the name of the attribute and the
    list. *)
Definition acl_place (ino type : Z) (acl : option posix_acl) : M aclfs (Z + (Z * option posix_acl)) :=
  if type =? ACL_TYPE_ACCESS then
    match acl with
    | None => mret (inr (EXT2_XATTR_INDEX_POSIX_ACL_ACCESS, None))
    | Some a =>
        i ← on_attr (on_fs (inode_get ino));
        match posix_acl_update_mode i a with
        | inl error => mret (inl error)
        | inr (mode, acl) =>
            on_attr (on_fs (inode_upd (set_i_mode mode) ino)) ;;
            on_attr (on_fs (inode_upd (set_i_ctime current_time) ino)) ;;
            on_attr (note (mark_inode_dirty ino)) ;;
            mret (inr (EXT2_XATTR_INDEX_POSIX_ACL_ACCESS, acl))
        end
    end
  else if type =? ACL_TYPE_DEFAULT then
    i ← on_attr (on_fs (inode_get ino));
    mret (if negb (S_ISDIR (i_mode i)) then inl (match acl with Some _ => - EACCES | None => 0 end)
          else inr (EXT2_XATTR_INDEX_POSIX_ACL_DEFAULT, acl))
  else mret (inl (- EINVAL)).

(** The value that is given to [ext2_xattr_set]. *)
Definition acl_value {S} (acl : option posix_acl) : M S (Z + option (list Z)) :=
  match acl with
  | None => mret (inr None)
  | Some a =>
      r ← ext2_acl_to_disk a;
      match r with
      | inl err => mret (inl err)
      | inr (value, size) => v ← at_bytes value 0 size; mret (inr (Some v))
      end
  end.

Definition ext2_set_acl (ino : Z) (acl : option posix_acl) (type : Z) : M aclfs Z :=
  r ← acl_place ino type acl;
  match r with
  | inl err => mret err
  | inr (name_index, acl) =>
      value ← acl_value acl;
      match value with
      | inl err => mret err
      | inr value =>
          error ← on_attr (ext2_xattr_set ino name_index (Some []) value 0);
          when (error =? 0) (set_cached_acl ino type acl) ;;
          mret error
      end
  end.

(** [posix_acl_create(dir, &mode, ...)] may call [ext2_get_acl]: an error, or the mode
    and the two lists of the new inode. *)
Class AclCreate := {
  posix_acl_create : Z -> Z -> M aclfs (Z + (Z * option posix_acl * option posix_acl));
}.
Context `{AclCreate}.

Definition ext2_init_acl (ino dir : Z) : M aclfs Z :=
  if negb CONFIG_EXT2_FS_POSIX_ACL then mret 0
  else
    i ← on_attr (on_fs (inode_get ino));
    r ← posix_acl_create dir (i_mode i);
    match r with
    | inl error => mret error
    | inr (mode, default_acl, acl) =>
        on_attr (on_fs (inode_upd (set_i_mode mode) ino)) ;;
        error ← match default_acl with
                | Some _ => ext2_set_acl ino default_acl ACL_TYPE_DEFAULT
                | None => mret 0
                end;
        match acl with
        | Some _ => if error =? 0 then ext2_set_acl ino acl ACL_TYPE_ACCESS else mret error
        | None => mret error
        end
    end.

End Ops.
