(* ===== verification/XattrBlock.v ===== *)
(** * The layout of attribute blocks

    A block as a list of entries ([layout]), what the searches of xattr.c find in it,
    and the order of the entries. *)

From Stdlib Require Import Sorted.
From S2P Require Import Prelude Bytes Bits Kr Rsv Bitmap Alloc State Balloc BlockMap Xattr.

(** ** Sizes *)

Lemma clr3 n : clr n 3 = 4 * (n / 4).
Proof.
  unfold clr. change 3 with (Z.ones 2). rewrite Z.ldiff_ones_r, Z.shiftl_mul_pow2, Z.shiftr_div_pow2 by lia.
  change (2 ^ 2) with 4. lia.
Qed.
Lemma xattr_len_bounds n : n + 16 <= EXT2_XATTR_LEN n <= n + 19 /\ EXT2_XATTR_LEN n mod 4 = 0.
Proof.
  unfold EXT2_XATTR_LEN, EXT2_XATTR_ROUND, xattr_entry_size. rewrite clr3.
  Z.to_euclidean_division_equations; lia.
Qed.
Lemma xattr_size_bounds n : n <= EXT2_XATTR_SIZE n <= n + 3 /\ EXT2_XATTR_SIZE n mod 4 = 0.
Proof. unfold EXT2_XATTR_SIZE, EXT2_XATTR_ROUND. rewrite clr3. Z.to_euclidean_division_equations; lia. Qed.
Lemma xattr_size_pos n : 0 < n -> 4 <= EXT2_XATTR_SIZE n.
Proof. unfold EXT2_XATTR_SIZE, EXT2_XATTR_ROUND. rewrite clr3. Z.to_euclidean_division_equations; lia. Qed.
Lemma xattr_size_zero : EXT2_XATTR_SIZE 0 = 0.
Proof. done. Qed.
#[global] Opaque EXT2_XATTR_LEN EXT2_XATTR_SIZE.

(** ** The order of the names *)

Lemma memcmp_refl l : memcmp l l = 0.
Proof. induction l as [|a l IH]; [done|]. cbn [memcmp]. by rewrite Z.ltb_irrefl. Qed.
Lemma memcmp_eq l1 : forall l2, len l1 = len l2 -> memcmp l1 l2 = 0 -> l1 = l2.
Proof.
  induction l1 as [|a l1 IH]; intros [|b l2] Hl H; try (unfold len in Hl; simpl in Hl; lia); [done|].
  cbn [memcmp] in H. destruct (Z.ltb_spec a b); [done|]. destruct (Z.ltb_spec b a); [done|].
  assert (a = b) as -> by lia. f_equal. apply IH; [unfold len in *; simpl in Hl; lia|done].
Qed.
Lemma memcmp_opp l1 : forall l2, memcmp l2 l1 = - memcmp l1 l2.
Proof.
  induction l1 as [|a l1 IH]; intros [|b l2]; try done. cbn [memcmp].
  destruct (Z.ltb_spec a b), (Z.ltb_spec b a); try done; lia.
Qed.
Lemma memcmp_trans l1 : forall l2 l3, len l1 = len l2 -> len l2 = len l3 ->
  memcmp l1 l2 < 0 -> memcmp l2 l3 < 0 -> memcmp l1 l3 < 0.
Proof.
  induction l1 as [|a l1 IH]; intros [|b l2] [|c l3] H1 H2 L1 L2; try done.
  cbn [memcmp] in *. unfold len in *. simpl in H1, H2.
  destruct (Z.ltb_spec a b), (Z.ltb_spec b c), (Z.ltb_spec a c); try lia;
    destruct (Z.ltb_spec b a), (Z.ltb_spec c b), (Z.ltb_spec c a); try lia.
  apply (IH l2 l3); lia.
Qed.

Definition key_cmp (k1 k2 : Z * list Z) : Z :=
  if negb (k1.1 - k2.1 =? 0) then k1.1 - k2.1
  else if negb (len k1.2 - len k2.2 =? 0) then len k1.2 - len k2.2
  else memcmp k1.2 k2.2.

Lemma key_cmp_refl k : key_cmp k k = 0.
Proof. unfold key_cmp. rewrite !Z.sub_diag. apply memcmp_refl. Qed.
Lemma key_cmp_eq k1 k2 : key_cmp k1 k2 = 0 -> k1 = k2.
Proof.
  unfold key_cmp. destruct k1 as [i1 n1], k2 as [i2 n2]. cbn [fst snd].
  destruct (Z.eqb_spec (i1 - i2) 0); cbn [negb]; [|lia].
  destruct (Z.eqb_spec (len n1 - len n2) 0); cbn [negb]; [|lia].
  intros H. f_equal; [lia|]. apply memcmp_eq; [lia|done].
Qed.
Lemma key_cmp_opp k1 k2 : key_cmp k2 k1 = - key_cmp k1 k2.
Proof.
  unfold key_cmp. destruct k1 as [i1 n1], k2 as [i2 n2]. cbn [fst snd].
  destruct (Z.eqb_spec (i1 - i2) 0), (Z.eqb_spec (i2 - i1) 0); cbn [negb]; try lia.
  destruct (Z.eqb_spec (len n1 - len n2) 0), (Z.eqb_spec (len n2 - len n1) 0); cbn [negb]; try lia.
  apply memcmp_opp.
Qed.
Lemma key_cmp_trans k1 k2 k3 : key_cmp k1 k2 < 0 -> key_cmp k2 k3 < 0 -> key_cmp k1 k3 < 0.
Proof.
  unfold key_cmp. destruct k1 as [i1 n1], k2 as [i2 n2], k3 as [i3 n3]. cbn [fst snd].
  destruct (Z.eqb_spec (i1 - i2) 0), (Z.eqb_spec (i2 - i3) 0), (Z.eqb_spec (i1 - i3) 0); cbn [negb]; try lia.
  destruct (Z.eqb_spec (len n1 - len n2) 0), (Z.eqb_spec (len n2 - len n3) 0), (Z.eqb_spec (len n1 - len n3) 0);
    cbn [negb]; try lia.
  apply memcmp_trans; lia.
Qed.

(** ** Entries *)

Record xentry := XEntry {
  x_index : Z;
  x_name : list Z;
  x_offs : Z;
  x_size : Z;
  x_hash : Z;
}.
Definition x_key (e : xentry) : Z * list Z := (x_index e, x_name e).
Definition x_len (e : xentry) : Z := EXT2_XATTR_LEN (len (x_name e)).
(** The room its value takes. *)
Definition x_room (e : xentry) : Z := EXT2_XATTR_SIZE (x_size e).

Record entry_ok (e : xentry) : Prop := {
  xe_index : 1 <= x_index e <= 255;
  xe_name : bytes (x_name e);
  xe_len : len (x_name e) <= 255;
  xe_size : 0 <= x_size e;
}.

(** The entry [e] at the offset [o]. *)
Record entry_at (d : list Z) (o : Z) (e : xentry) : Prop := {
  xa_range : 0 <= o /\ o + x_len e <= len d;
  xa_len : get8 d o = len (x_name e);
  xa_index : get8 d (o + 1) = x_index e;
  xa_offs : get16 d (o + 2) = x_offs e;
  xa_block : get32 d (o + 4) = 0;
  xa_size : get32 d (o + 8) = x_size e;
  xa_hash : get32 d (o + 12) = x_hash e;
  xa_name : sub d (o + 16) (len (x_name e)) = x_name e;
}.

Fixpoint descs (d : list Z) (o : Z) (es : list xentry) : Prop :=
  match es with
  | [] => True
  | e :: es' => entry_at d o e /\ descs d (o + x_len e) es'
  end.
Fixpoint total (es : list xentry) : Z :=
  match es with [] => 0 | e :: es' => x_len e + total es' end.

Lemma total_app l1 l2 : total (l1 ++ l2) = total l1 + total l2.
Proof. induction l1 as [|e l1 IH]; [done|]. cbn [total app]. lia. Qed.
Lemma x_len_pos e : 16 <= x_len e /\ x_len e mod 4 = 0.
Proof. unfold x_len. pose proof (xattr_len_bounds (len (x_name e))). pose proof (len_nonneg (x_name e)). lia. Qed.
Lemma total_bounds es : 16 * len es <= total es /\ total es mod 4 = 0.
Proof.
  induction es as [|e es IH]; [done|]. cbn [total]. pose proof (x_len_pos e).
  unfold len in *. cbn [length]. Z.to_euclidean_division_equations; lia.
Qed.
Lemma descs_app d l1 l2 : forall o, descs d o (l1 ++ l2) <-> descs d o l1 /\ descs d (o + total l1) l2.
Proof.
  induction l1 as [|e l1 IH]; intros o; cbn [descs total app]; [rewrite Z.add_0_r; tauto|].
  rewrite IH. replace (o + (x_len e + total l1)) with (o + x_len e + total l1) by lia. tauto.
Qed.

(** *** Moving bytes *)

Definition shifted (d d' : list Z) (s a c : Z) : Prop := forall j, a <= j < c -> get8 d' (j + s) = get8 d j.

Lemma shifted_same d d' a c : same_on d d' a c -> shifted d d' 0 a c.
Proof. intros H j Hj. rewrite Z.add_0_r. by apply H. Qed.
Lemma shifted_weaken d d' s a c a' c' : shifted d d' s a c -> a <= a' -> c' <= c -> shifted d d' s a' c'.
Proof. intros H Ha Hc j Hj. apply H. lia. Qed.
Lemma get16_shift d d' s o : shifted d d' s o (o + 2) -> get16 d' (o + s) = get16 d o.
Proof.
  intros H. unfold get16. rewrite H by lia. replace (o + s + 1) with (o + 1 + s) by lia. by rewrite H by lia.
Qed.
Lemma get32_shift d d' s o : shifted d d' s o (o + 4) -> get32 d' (o + s) = get32 d o.
Proof.
  intros H. unfold get32. replace (o + s + 2) with (o + 2 + s) by lia.
  rewrite !(get16_shift d d'); [done|eapply shifted_weaken; [exact H|lia|lia]..].
Qed.
Lemma get8_sub d o n k : 0 <= o -> o + n <= len d -> 0 <= k < n -> get8 (sub d o n) k = get8 d (o + k).
Proof.
  intros Ho Hn Hk. assert (Some (get8 (sub d o n) k) = Some (get8 d (o + k))) as He; [|congruence].
  rewrite <- lookup_get8 by (rewrite len_sub; lia). rewrite lookup_sub by lia. do 2 f_equal. lia.
Qed.
Lemma sub_shift d d' s o n : 0 <= o -> 0 <= o + s -> 0 <= n -> o + n <= len d -> o + s + n <= len d' ->
  shifted d d' s o (o + n) -> sub d' (o + s) n = sub d o n.
Proof.
  intros Ho Hs Hn Hd Hd' H. apply sub_eq; [lia|lia|apply len_sub; lia|].
  intros k Hk. rewrite get8_sub by lia. replace (o + s + k) with (o + k + s) by lia. apply H. lia.
Qed.

Lemma entry_shift d d' s o e : entry_at d o e -> 0 <= o + s -> o + s + x_len e <= len d' ->
  shifted d d' s o (o + x_len e) -> entry_at d' (o + s) e.
Proof.
  intros [[R1 R2] H1 H2 H3 H4 H5 H6 H7] Ho Hl H.
  pose proof (xattr_len_bounds (len (x_name e))) as Hb. fold (x_len e) in Hb. pose proof (len_nonneg (x_name e)).
  assert (Hs : forall a c, o <= a -> c <= o + x_len e -> shifted d d' s a c)
    by (intros a c Ha Hc; eapply shifted_weaken; [exact H|done|done]).
  split; try lia.
  - rewrite H by lia. done.
  - replace (o + s + 1) with (o + 1 + s) by lia. rewrite H by lia. done.
  - replace (o + s + 2) with (o + 2 + s) by lia. by rewrite (get16_shift d) by (apply Hs; lia).
  - replace (o + s + 4) with (o + 4 + s) by lia. by rewrite (get32_shift d) by (apply Hs; lia).
  - replace (o + s + 8) with (o + 8 + s) by lia. by rewrite (get32_shift d) by (apply Hs; lia).
  - replace (o + s + 12) with (o + 12 + s) by lia. by rewrite (get32_shift d) by (apply Hs; lia).
  - replace (o + s + 16) with (o + 16 + s) by lia. rewrite (sub_shift d); [done|lia..|apply Hs; lia].
Qed.
Lemma descs_shift d d' s es : forall o, descs d o es -> 0 <= o + s -> o + s + total es <= len d' ->
  shifted d d' s o (o + total es) -> descs d' (o + s) es.
Proof.
  induction es as [|e es IH]; intros o; [done|]. cbn [descs total]. intros [He Hes] Ho Hl H.
  pose proof (x_len_pos e). pose proof (total_bounds es). pose proof (len_nonneg es). split.
  - apply (entry_shift d); [done|done|lia|]. eapply shifted_weaken; [exact H|lia|lia].
  - replace (o + s + x_len e) with (o + x_len e + s) by lia. apply IH; [done|lia|lia|].
    eapply shifted_weaken; [exact H|lia|lia].
Qed.
Lemma descs_same d d' es o : descs d o es -> len d' = len d -> 0 <= o -> o + total es <= len d ->
  same_on d d' o (o + total es) -> descs d' o es.
Proof.
  intros Hd Hl Ho Ht Hs. rewrite <- (Z.add_0_r o). apply (descs_shift d); [done|lia|lia|by apply shifted_same].
Qed.

(** ** Reading entries *)

Section Reads.
Context {S : Type}.
Implicit Type s : S.

Lemma inside_true d o n : 0 <= o -> 0 <= n -> o + n <= len d -> inside d o n = true.
Proof. intros. unfold inside. lia. Qed.
Lemma at8_run d o s : 0 <= o -> o + 1 <= len d -> at8 d o s = Ret (get8 d o) s.
Proof. intros. unfold at8. by rewrite inside_true by lia. Qed.
Lemma at16_run d o s : 0 <= o -> o + 2 <= len d -> at16 d o s = Ret (get16 d o) s.
Proof. intros. unfold at16. by rewrite inside_true by lia. Qed.
Lemma at32_run d o s : 0 <= o -> o + 4 <= len d -> at32 d o s = Ret (get32 d o) s.
Proof. intros. unfold at32. by rewrite inside_true by lia. Qed.
Lemma at_bytes_run d o n s : 0 <= o -> 0 <= n -> o + n <= len d -> at_bytes d o n s = Ret (sub d o n) s.
Proof. intros. unfold at_bytes. by rewrite inside_true by lia. Qed.

Section Entry.
Variables (d : list Z) (o : Z) (e : xentry).
Hypothesis Hat : entry_at d o e.

Lemma entry_room : 0 <= o /\ o + 16 + len (x_name e) <= len d /\ 0 <= len (x_name e).
Proof using Hat.
  destruct (xa_range _ _ _ Hat). pose proof (xattr_len_bounds (len (x_name e))) as Hb.
  fold (x_len e) in Hb. pose proof (len_nonneg (x_name e)). lia.
Qed.
Lemma e_name_len_run s : e_name_len d o s = Ret (len (x_name e)) s.
Proof using Hat. pose proof entry_room. unfold e_name_len. rewrite at8_run by lia. by rewrite (xa_len _ _ _ Hat). Qed.
Lemma e_name_index_run s : e_name_index d o s = Ret (x_index e) s.
Proof using Hat. pose proof entry_room. unfold e_name_index. rewrite at8_run by lia. by rewrite (xa_index _ _ _ Hat). Qed.
Lemma e_value_offs_run s : e_value_offs d o s = Ret (x_offs e) s.
Proof using Hat. pose proof entry_room. unfold e_value_offs. rewrite at16_run by lia. by rewrite (xa_offs _ _ _ Hat). Qed.
Lemma e_value_block_run s : e_value_block d o s = Ret 0 s.
Proof using Hat. pose proof entry_room. unfold e_value_block. rewrite at32_run by lia. by rewrite (xa_block _ _ _ Hat). Qed.
Lemma e_value_size_run s : e_value_size d o s = Ret (x_size e) s.
Proof using Hat. pose proof entry_room. unfold e_value_size. rewrite at32_run by lia. by rewrite (xa_size _ _ _ Hat). Qed.
Lemma e_hash_run s : e_hash d o s = Ret (x_hash e) s.
Proof using Hat. pose proof entry_room. unfold e_hash. rewrite at32_run by lia. by rewrite (xa_hash _ _ _ Hat). Qed.
Lemma e_name_run s : e_name d o (len (x_name e)) s = Ret (x_name e) s.
Proof using Hat.
  pose proof entry_room. unfold e_name, xattr_entry_size. rewrite at_bytes_run by lia. by rewrite (xa_name _ _ _ Hat).
Qed.
Lemma xattr_next_run s : EXT2_XATTR_NEXT d o s = Ret (o + x_len e) s.
Proof using Hat. unfold EXT2_XATTR_NEXT. by rewrite (bind_Ret _ _ _ _ _ (e_name_len_run s)). Qed.
Lemma has_value_run s : has_value d o s = Ret (negb (x_size e =? 0)) s.
Proof using Hat.
  unfold has_value. rewrite (bind_Ret _ _ _ _ _ (e_value_block_run s)). cbn [Z.eqb negb].
  by rewrite (bind_Ret _ _ _ _ _ (e_value_size_run s)).
Qed.
(** The index is not 0: an entry is not the end. *)
Lemma entry_not_last s : bytes d -> entry_ok e -> IS_LAST_ENTRY d o s = Ret false s.
Proof using Hat.
  intros Hb He. pose proof entry_room. unfold IS_LAST_ENTRY. rewrite (bind_Ret _ _ _ _ _ (at32_run d o s ltac:(lia) ltac:(lia))).
  pose proof (xa_index _ _ _ Hat). pose proof (xe_index _ He). pose proof (get8_bytes d o Hb).
  pose proof (get16_bytes d (o + 2) Hb). unfold mret, M_ret. f_equal. unfold get32, get16 in *. lia.
Qed.
Lemma lower_min_run m s : lower_min d o m s = Ret (if 0 <? x_size e then Z.min m (x_offs e) else m) s \/ x_size e < 0.
Proof using Hat.
  destruct (Z.ltb_spec (x_size e) 0); [by right|left].
  unfold lower_min. rewrite (bind_Ret _ _ _ _ _ (has_value_run s)).
  destruct (Z.eqb_spec (x_size e) 0) as [->|]; cbn [negb]; [done|].
  rewrite (bind_Ret _ _ _ _ _ (e_value_offs_run s)). replace (0 <? x_size e) with true by lia.
  unfold mret, M_ret. f_equal. destruct (Z.ltb_spec (x_offs e) m); lia.
Qed.
Lemma compare_entry_run name_index name s : len name <= 255 -> entry_ok e ->
  compare_entry d o name_index name s = Ret (key_cmp (name_index, name) (x_key e)) s.
Proof using Hat.
  intros Hn He. unfold compare_entry, key_cmp, x_key. cbn [fst snd].
  rewrite (bind_Ret _ _ _ _ _ (e_name_index_run s)). destruct (Z.eqb_spec (name_index - x_index e) 0) as [Hi|Hi]; cbn [negb]; [|done].
  rewrite (bind_Ret _ _ _ _ _ (e_name_len_run s)). pose proof (len_nonneg name). pose proof entry_room. pose proof (xe_len _ He).
  rewrite s32_small by lia. destruct (Z.eqb_spec (len name - len (x_name e)) 0) as [Hl|Hl]; cbn [negb]; [|done].
  replace (len name) with (len (x_name e)) by lia. by rewrite (bind_Ret _ _ _ _ _ (e_name_run s)).
Qed.

End Entry.

(** ** Finding an attribute *)

Definition last_word (d : list Z) (o : Z) : Prop := 0 <= o /\ o + 4 <= len d /\ get32 d o = 0.

Lemma last_entry_run d o s : last_word d o -> IS_LAST_ENTRY d o s = Ret true s.
Proof.
  intros (H1 & H2 & H3). unfold IS_LAST_ENTRY. rewrite (bind_Ret _ _ _ _ _ (at32_run d o s H1 H2)). by rewrite H3.
Qed.

Section Searches.
Variable d : list Z.
Hypothesis Hb : bytes d.

Lemma find_attribute_run name_index name s : forall es o fuel, descs d o es -> Forall entry_ok es ->
  last_word d (o + total es) -> (length es < fuel)%nat ->
  exists r, find_attribute fuel d name_index name o s = Ret r s /\
    match r with
    | Bad => False
    | Missing => forall e, e ∈ es -> x_key e <> (name_index, name)
    | Found p => exists l1 e l2, es = l1 ++ e :: l2 /\ p = o + total l1 /\ x_key e = (name_index, name)
    end.
Proof using Hb.
  induction es as [|e es IH]; intros o [|fuel] Hd Hok Hl Hf; simpl in Hf; try lia; cbn [find_attribute total] in *.
  - rewrite Z.add_0_r in Hl. rewrite (bind_Ret _ _ _ _ _ (last_entry_run d o s Hl)). exists Missing.
    split; [done|]. intros e He. by apply elem_of_nil in He.
  - destruct Hd as [He Hd]. apply Forall_cons in Hok as [Heo Hok].
    rewrite (bind_Ret _ _ _ _ _ (entry_not_last d o e He s Hb Heo)).
    rewrite (bind_Ret _ _ _ _ _ (xattr_next_run d o e He s)).
    pose proof (total_bounds es). pose proof (len_nonneg es).
    replace (o + x_len e >=? len d) with false by (destruct Hl as (_ & ? & _); lia).
    rewrite (bind_Ret _ _ _ _ _ (e_name_index_run d o e He s)).
    rewrite (bind_Ret _ _ _ _ _ (e_name_len_run d o e He s)).
    assert (Hrest : x_key e <> (name_index, name) -> exists r, find_attribute fuel d name_index name (o + x_len e) s = Ret r s /\
      match r with
      | Bad => False
      | Missing => forall e0, e0 ∈ e :: es -> x_key e0 <> (name_index, name)
      | Found p => exists l1 e0 l2, e :: es = l1 ++ e0 :: l2 /\ p = o + total l1 /\ x_key e0 = (name_index, name)
      end).
    { intros Hne. destruct (IH (o + x_len e) fuel Hd Hok) as (r & Hr & Hm); [by rewrite <- Z.add_assoc|lia|].
      exists r. split; [done|]. destruct r as [| |p]; [done| |].
      - intros e0 [->|Hin]%elem_of_cons; auto.
      - destruct Hm as (l1 & e0 & l2 & -> & -> & Hk). exists (e :: l1), e0, l2. cbn [total]. split; [done|]. split; [lia|done]. }
    destruct (Z.eqb_spec name_index (x_index e)) as [->|Hi], (Z.eqb_spec (len name) (len (x_name e))) as [Hn|Hn]; cbn [andb].
    + unfold mbind at 1, M_bind at 1. rewrite (bind_Ret _ _ _ _ _ (e_name_run d o e He s)).
      unfold mret at 1, M_ret at 1. destruct (Z.eqb_spec (memcmp name (x_name e)) 0) as [Hm|Hm].
      * exists (Found o). split; [done|]. exists [], e, es. split; [done|]. split; [cbn [total]; lia|].
        unfold x_key. by rewrite (memcmp_eq _ _ Hn Hm).
      * apply Hrest. unfold x_key. intros [= Heq]. apply Hm. rewrite Heq. apply memcmp_refl.
    + apply Hrest. unfold x_key. intros [= Heq]. apply Hn. by rewrite Heq.
    + apply Hrest. unfold x_key. intros [= Heq _]. by apply Hi.
    + apply Hrest. unfold x_key. intros [= Heq _]. by apply Hi.
Qed.

(** [m] is the lowest of [b] and the offsets of the values of [es]. *)
Definition lowest (b : Z) (es : list xentry) (m : Z) : Prop :=
  m <= b /\ (forall e, e ∈ es -> 0 < x_size e -> m <= x_offs e) /\
  (m = b \/ exists e, e ∈ es /\ 0 < x_size e /\ m = x_offs e).

Lemma lowest_more b es m e : lowest b es m ->
  lowest b (es ++ [e]) (if 0 <? x_size e then Z.min m (x_offs e) else m).
Proof.
  intros (H1 & H2 & H3). assert (Hin : forall e0, e0 ∈ es -> e0 ∈ es ++ [e]) by (intros; apply elem_of_app; by left).
  destruct (Z.ltb_spec 0 (x_size e)) as [Hs|Hs]; split_and!.
  - lia.
  - intros e0 [He0| ->%list_elem_of_singleton]%elem_of_app H0; [specialize (H2 e0 He0 H0)|]; lia.
  - destruct (Z.min_spec m (x_offs e)) as [[_ ->]|[_ ->]].
    + destruct H3 as [->|(e0 & ? & ? & ?)]; [by left|right; exists e0; auto].
    + right. exists e. split; [apply elem_of_app; right; by left|done].
  - done.
  - intros e0 [He0| ->%list_elem_of_singleton]%elem_of_app H0; [by apply H2|lia].
  - destruct H3 as [->|(e0 & ? & ? & ?)]; [by left|right; exists e0; auto].
Qed.
Lemma lowest_ext b es es' m : lowest b es m -> (forall e, e ∈ es <-> e ∈ es') -> lowest b es' m.
Proof.
  intros (H1 & H2 & H3) He. split; [done|]. split; [intros e Hin; apply H2; by apply He|].
  destruct H3 as [?|(e & ? & ?)]; [by left|right]. exists e. split; [by apply He|done].
Qed.

Definition sorted (es : list xentry) : Prop :=
  StronglySorted (fun e1 e2 => key_cmp (x_key e1) (x_key e2) < 0) es.

(** Where the name of [k] is or would be: the entries before it, and those from it on. *)
Definition placed_at (k : Z * list Z) (not_found : bool) (l1 l2 : list xentry) : Prop :=
  (forall e, e ∈ l1 -> key_cmp k (x_key e) > 0) /\
  if not_found then (forall e, e ∈ l2 -> key_cmp k (x_key e) < 0) else exists e l, l2 = e :: l /\ x_key e = k.

Lemma find_here_run name_index name b s : len name <= 255 -> forall es o fuel done_ m nf,
  descs d o es -> Forall entry_ok es -> sorted es -> last_word d (o + total es) -> (length es < fuel)%nat ->
  lowest b done_ m -> 0 < nf ->
  exists l1 l2 m' nf', es = l1 ++ l2 /\
    find_here fuel d name_index name o m nf s = Ret (Some (o + total l1, m', nf')) s /\
    lowest b (done_ ++ l1 ++ take 1 l2) m' /\ placed_at (name_index, name) (negb (nf' =? 0)) l1 l2.
Proof using Hb.
  intros Hn. induction es as [|e es IH]; intros o [|fuel] done_ m nf Hd Hok Hs Hl Hf Hm Hnf; simpl in Hf; try lia;
    cbn [find_here total] in *.
  - rewrite Z.add_0_r in Hl. rewrite (bind_Ret _ _ _ _ _ (last_entry_run d o s Hl)).
    exists [], [], m, nf. rewrite Z.add_0_r, !app_nil_r. split; [done|]. split; [done|]. split; [done|].
    replace (negb (nf =? 0)) with true by lia. split; intros e He; by apply elem_of_nil in He.
  - destruct Hd as [He Hd]. apply Forall_cons in Hok as [Heo Hok]. inversion_clear Hs as [|? ? Hs' Hall].
    rewrite (bind_Ret _ _ _ _ _ (entry_not_last d o e He s Hb Heo)).
    rewrite (bind_Ret _ _ _ _ _ (xattr_next_run d o e He s)).
    pose proof (total_bounds es). pose proof (len_nonneg es).
    replace (o + x_len e >=? len d) with false by (destruct Hl as (_ & ? & _); lia).
    destruct (lower_min_run d o e He m s) as [Hlow|Hneg]; [|pose proof (xe_size _ Heo); lia].
    rewrite (bind_Ret _ _ _ _ _ Hlow). pose proof (lowest_more b done_ m e Hm) as Hm'.
    rewrite (bind_Ret _ _ _ _ _ (compare_entry_run d o e He name_index name s Hn Heo)).
    set (c := key_cmp (name_index, name) (x_key e)). destruct (Z.leb_spec c 0) as [Hc|Hc].
    + exists [], (e :: es), (if 0 <? x_size e then Z.min m (x_offs e) else m), c. rewrite Z.add_0_r.
      split; [done|]. split; [done|]. split; [done|]. split; [intros e0 He0; by apply elem_of_nil in He0|].
      destruct (Z.eqb_spec c 0) as [Hz|Hz]; cbn [negb].
      * exists e, es. split; [done|]. symmetry. by apply key_cmp_eq.
      * intros e0 [->|Hin]%elem_of_cons; [unfold c in *; lia|].
        rewrite Forall_forall in Hall. apply (key_cmp_trans _ (x_key e)); [unfold c in *; lia|by apply Hall].
    + destruct (IH (o + x_len e) fuel (done_ ++ [e]) _ c Hd Hok Hs' ltac:(by rewrite <- Z.add_assoc) ltac:(lia) Hm' Hc)
        as (l1 & l2 & m' & nf' & -> & Hrun & Hlo & Hp1 & Hp2).
      exists (e :: l1), l2, m', nf'. split; [done|]. cbn [total app]. rewrite Hrun. split; [do 4 f_equal; lia|].
      split; [by rewrite <- app_assoc in Hlo|]. split; [|done].
      intros e0 [->|Hin]%elem_of_cons; [unfold c in *; lia|by apply Hp1].
Qed.

Lemma find_last_run b s : forall es o fuel done_ m, descs d o es -> Forall entry_ok es ->
  last_word d (o + total es) -> (length es < fuel)%nat -> lowest b done_ m ->
  exists m', find_last fuel d o m s = Ret (Some (o + total es, m')) s /\ lowest b (done_ ++ es) m'.
Proof using Hb.
  induction es as [|e es IH]; intros o [|fuel] done_ m Hd Hok Hl Hf Hm; simpl in Hf; try lia;
    cbn [find_last total] in *.
  - rewrite Z.add_0_r in *. rewrite (bind_Ret _ _ _ _ _ (last_entry_run d o s Hl)). exists m. by rewrite app_nil_r.
  - destruct Hd as [He Hd]. apply Forall_cons in Hok as [Heo Hok].
    rewrite (bind_Ret _ _ _ _ _ (entry_not_last d o e He s Hb Heo)).
    rewrite (bind_Ret _ _ _ _ _ (xattr_next_run d o e He s)).
    pose proof (total_bounds es). pose proof (len_nonneg es).
    replace (o + x_len e >=? len d) with false by (destruct Hl as (_ & ? & _); lia).
    destruct (lower_min_run d o e He m s) as [Hlow|Hneg]; [|pose proof (xe_size _ Heo); lia].
    rewrite (bind_Ret _ _ _ _ _ Hlow).
    destruct (IH (o + x_len e) fuel (done_ ++ [e]) _ Hd Hok ltac:(by rewrite <- Z.add_assoc) ltac:(lia) (lowest_more b done_ m e Hm))
      as (m' & Hrun & Hlo). exists m'. rewrite Hrun. split; [do 3 f_equal; lia|]. by rewrite <- app_assoc in Hlo.
Qed.

End Searches.

End Reads.
