(* ===== verification/XattrChange.v ===== *)
(** * Changing an attribute block

    What the operations on the bytes of a block do to the list of its entries and
    to their values. *)

From S2P Require Import Prelude Bytes Bits Kr Rsv Bitmap Alloc State Balloc BlockMap Xattr XattrBlock.

(** ** Writes *)

(** Only bytes from [a] up to [c] have been written. *)
Record within (a c : Z) (d d' : list Z) : Prop := {
  wi_len : len d' = len d;
  wi_bytes : bytes d -> bytes d';
  wi_same : forall j, 0 <= j -> j < a \/ c <= j -> get8 d' j = get8 d j;
}.

Lemma within_refl a c d : within a c d d.
Proof. by split. Qed.
Lemma within_trans a1 c1 a2 c2 a c d1 d2 d3 : within a1 c1 d1 d2 -> within a2 c2 d2 d3 ->
  a <= a1 -> a <= a2 -> c1 <= c -> c2 <= c -> within a c d1 d3.
Proof.
  intros [L1 B1 S1] [L2 B2 S2] ? ? ? ?. split; [congruence|auto|]. intros j Hj Ho. rewrite S2, S1 by lia. done.
Qed.
(** [join W1 W2] composes two writes. *)
Ltac join W1 W2 := eapply within_trans; [exact W1|exact W2|lia..].
Lemma within_on a c d d' x y : within a c d d' -> 0 <= x -> y <= a \/ c <= x -> same_on d d' x y.
Proof. intros H Hx Hy j Hj. apply (wi_same _ _ _ _ H); lia. Qed.

Lemma within_put8 d o v : 0 <= o -> o + 1 <= len d -> within o (o + 1) d (put8 d o v).
Proof.
  intros Ho Hl. split; [apply len_put8|apply bytes_put8|]. intros j Hj Hout. apply get8_put8_ne; lia.
Qed.
Lemma within_put16 d o v : 0 <= o -> o + 2 <= len d -> within o (o + 2) d (put16 d o v).
Proof.
  intros Ho Hl. split; [apply len_put16|apply bytes_put16|]. intros j Hj Hout. apply get8_put16_ne; lia.
Qed.
Lemma within_put32 d o v : 0 <= o -> o + 4 <= len d -> within o (o + 4) d (put32 d o v).
Proof.
  intros Ho Hl. split; [apply len_put32|apply bytes_put32|]. intros j Hj Hout. apply get8_put32_ne; lia.
Qed.
Lemma within_put_bytes d o l : 0 <= o -> o + len l <= len d -> bytes l -> within o (o + len l) d (put_bytes d o l).
Proof.
  intros Ho Hl Hb. split; [apply len_put_bytes|apply bytes_put_bytes|].
  intros j Hj Hout. rewrite get8_put_bytes by done. by replace ((o <=? j) && (j <? o + len l)) with false by lia.
Qed.
Lemma get8_put_bytes_in d o l j : 0 <= o -> o + len l <= len d -> bytes l -> o <= j < o + len l ->
  get8 (put_bytes d o l) j = get8 l (j - o).
Proof.
  intros Ho Hl Hb Hj. rewrite get8_put_bytes by (done || lia).
  by replace ((o <=? j) && (j <? o + len l)) with true by lia.
Qed.

Definition zeros (n : Z) : list Z := repeat 0 (Z.to_nat n).
Lemma len_zeros n : 0 <= n -> len (zeros n) = n.
Proof. intros Hn. unfold zeros, len. rewrite repeat_length. lia. Qed.
Lemma bytes_zeros n : bytes (zeros n).
Proof. apply Forall_forall. intros x Hx%list_elem_of_In%repeat_spec. by subst. Qed.
Lemma get8_zero n j : get8 (zeros n) j = 0.
Proof. unfold get8, zeros. apply nth_repeat. Qed.
Lemma bytes_sub d o n : bytes d -> bytes (sub d o n).
Proof. intros Hd. unfold sub, bytes. by apply Forall_take, Forall_drop. Qed.
Lemma get32_zero d o : (forall j, o <= j < o + 4 -> get8 d j = 0) -> get32 d o = 0.
Proof. intros H. unfold get32, get16. by rewrite !H by lia. Qed.
Lemma get16_zero d o : (forall j, o <= j < o + 2 -> get8 d j = 0) -> get16 d o = 0.
Proof. intros H. unfold get16. by rewrite !H by lia. Qed.

Lemma put_at_run n o f d : 0 <= o -> 0 <= n -> o + n <= len d -> put_at n o f d = Ret tt (f d).
Proof. intros. unfold put_at, gets, mbind, M_bind. cbn [id]. by rewrite inside_true by lia. Qed.
Lemma wr8_run o v d : 0 <= o -> o + 1 <= len d -> wr8 o v d = Ret tt (put8 d o v).
Proof. intros. unfold wr8. by rewrite put_at_run by lia. Qed.
Lemma wr16_run o v d : 0 <= o -> o + 2 <= len d -> wr16 o v d = Ret tt (put16 d o v).
Proof. intros. unfold wr16. by rewrite put_at_run by lia. Qed.
Lemma wr32_run o v d : 0 <= o -> o + 4 <= len d -> wr32 o v d = Ret tt (put32 d o v).
Proof. intros. unfold wr32. by rewrite put_at_run by lia. Qed.
Lemma memset0_run o n d : 0 <= o -> 0 <= n -> o + n <= len d -> memset0 o n d = Ret tt (put_bytes d o (zeros n)).
Proof. intros. unfold memset0. by rewrite put_at_run. Qed.
Lemma memcpy_run o l d : 0 <= o -> o + len l <= len d -> memcpy o l d = Ret tt (put_bytes d o l).
Proof. intros. unfold memcpy. pose proof (len_nonneg l). by rewrite put_at_run. Qed.
Lemma memmove_run dst src n d : 0 <= dst -> 0 <= src -> 0 <= n -> dst + n <= len d -> src + n <= len d ->
  memmove dst src n d = Ret tt (put_bytes d dst (sub d src n)).
Proof.
  intros. unfold memmove, gets, mbind, M_bind. cbn [id]. rewrite inside_true by lia. by rewrite put_at_run.
Qed.

(** *** What moves *)

Lemma moved d dst src n : bytes d -> 0 <= dst -> 0 <= src -> 0 <= n -> dst + n <= len d -> src + n <= len d ->
  let d' := put_bytes d dst (sub d src n) in
  within dst (dst + n) d d' /\ shifted d d' (dst - src) src (src + n).
Proof.
  intros Hb Hd Hs Hn H1 H2 d'. assert (Hl : len (sub d src n) = n) by (apply len_sub; lia). split.
  - rewrite <- Hl at 1. apply within_put_bytes; [done|lia|by apply bytes_sub].
  - intros j Hj. unfold d'. rewrite get8_put_bytes_in; [|done|lia|by apply bytes_sub|lia].
    rewrite get8_sub by lia. f_equal. lia.
Qed.
Lemma zeroed d o n : 0 <= o -> 0 <= n -> o + n <= len d ->
  let d' := put_bytes d o (zeros n) in
  within o (o + n) d d' /\ forall j, o <= j < o + n -> get8 d' j = 0.
Proof.
  intros Ho Hn Hl d'. pose proof (len_zeros n Hn) as Hz. split.
  - rewrite <- Hz at 1. apply within_put_bytes; [done|lia|apply bytes_zeros].
  - intros j Hj. unfold d'. rewrite get8_put_bytes_in; [apply get8_zero|done|lia|apply bytes_zeros|lia].
Qed.
Lemma copied d o l : 0 <= o -> o + len l <= len d -> bytes l ->
  let d' := put_bytes d o l in within o (o + len l) d d' /\ sub d' o (len l) = l.
Proof.
  intros Ho Hl Hb d'. split; [by apply within_put_bytes|]. apply sub_eq; [lia| |done|].
  - unfold d'. rewrite len_put_bytes. lia.
  - intros k Hk. unfold d'. rewrite get8_put_bytes_in by (done || lia). f_equal. lia.
Qed.

Lemma within_sub a c d d' o n : within a c d d' -> 0 <= o -> 0 <= n -> o + n <= len d -> o + n <= a \/ c <= o ->
  sub d' o n = sub d o n.
Proof. intros H Ho Hn Hl Hout. apply sub_ext; [done|done|done|apply H|]. eapply within_on; [exact H|done|lia]. Qed.

Lemma entry_within a c d d' o e : entry_at d o e -> within a c d d' -> o + x_len e <= a \/ c <= o -> entry_at d' o e.
Proof.
  intros He H Hout. destruct (xa_range _ _ _ He). rewrite <- (Z.add_0_r o). apply (entry_shift d); [done|lia| |].
  - rewrite (wi_len _ _ _ _ H). lia.
  - apply shifted_same. eapply within_on; [exact H|done|lia].
Qed.
Lemma descs_within a c d d' o es : descs d o es -> within a c d d' -> 0 <= o -> o + total es <= len d ->
  o + total es <= a \/ c <= o -> descs d' o es.
Proof.
  intros Hd H Ho Hl Hout. apply (descs_same d); [done|apply H|done|done|].
  eapply within_on; [exact H|done|lia].
Qed.

(** ** Layouts *)

Definition last_of (es : list xentry) : Z := FIRST_ENTRY + total es.
Definition value (d : list Z) (e : xentry) : list Z := sub d (x_offs e) (x_size e).

(** The block [d] has the entries [es]; those of [vs] have their values in it, below
    [g] free bytes after the entries. *)
Record layout (g : Z) (d : list Z) (es vs : list xentry) : Prop := {
  la_bytes : bytes d;
  la_mod : len d mod 4 = 0;
  la_max : len d <= 65536;
  la_gap : 4 <= g;
  la_room : last_of es + g <= len d;
  la_descs : descs d FIRST_ENTRY es;
  la_entries : Forall entry_ok es;
  la_offs : forall e, e ∈ es -> 0 <= x_offs e <= len d;
  la_sub : forall e, e ∈ vs -> e ∈ es;
  la_values : forall e, e ∈ vs -> 0 < x_size e -> last_of es + g <= x_offs e /\ x_offs e + x_room e <= len d;
  la_apart : forall e1 e2, e1 ∈ vs -> e2 ∈ vs -> 0 < x_size e1 -> 0 < x_size e2 ->
    e1 = e2 \/ x_offs e1 + x_room e1 <= x_offs e2 \/ x_offs e2 + x_room e2 <= x_offs e1;
  la_zero : forall j, last_of es <= j < len d ->
    (forall e, e ∈ vs -> 0 < x_size e -> j < x_offs e \/ x_offs e + x_room e <= j) -> get8 d j = 0;
}.

Lemma last_of_bounds es : FIRST_ENTRY <= last_of es /\ last_of es mod 4 = 0.
Proof.
  unfold last_of, FIRST_ENTRY, xattr_header_size. pose proof (total_bounds es). pose proof (len_nonneg es).
  split; [lia|]. Z.to_euclidean_division_equations; lia.
Qed.
Lemma last_of_app l1 l2 : last_of (l1 ++ l2) = last_of l1 + total l2.
Proof. unfold last_of. rewrite total_app. lia. Qed.

(** The bytes after the entries are free. *)
Lemma layout_free g d es vs j : layout g d es vs -> last_of es <= j < last_of es + g -> get8 d j = 0.
Proof.
  intros L Hj. apply (la_zero _ _ _ _ L); [pose proof (la_room _ _ _ _ L); lia|].
  intros e He Hs. destruct (la_values _ _ _ _ L e He Hs). lia.
Qed.
Lemma layout_last g d es vs : layout g d es vs -> last_word d (last_of es).
Proof.
  intros L. pose proof (la_room _ _ _ _ L). pose proof (la_gap _ _ _ _ L). pose proof (last_of_bounds es).
  unfold FIRST_ENTRY, xattr_header_size in *. split; [lia|]. split; [lia|]. apply get32_zero. intros j Hj. eapply layout_free; [done|lia].
Qed.
Lemma layout_fuel g d es vs : layout g d es vs -> (length es < xattr_fuel d)%nat.
Proof.
  intros L. pose proof (la_room _ _ _ _ L). pose proof (la_gap _ _ _ _ L). pose proof (total_bounds es).
  unfold last_of, FIRST_ENTRY, xattr_header_size, xattr_fuel, len in *. lia.
Qed.
Lemma value_len g d es vs e : layout g d es vs -> e ∈ vs -> 0 <= x_size e -> len (value d e) = x_size e.
Proof.
  intros L He Hs. unfold value. pose proof (la_offs _ _ _ _ L e (la_sub _ _ _ _ L e He)).
  apply len_sub; [lia|done|]. destruct (decide (x_size e = 0)) as [->|]; [lia|].
  destruct (la_values _ _ _ _ L e He ltac:(lia)). pose proof (xattr_size_bounds (x_size e)). unfold x_room in *. lia.
Qed.
Lemma value_empty d e : x_size e = 0 -> value d e = [].
Proof. intros Hs. unfold value. rewrite Hs. done. Qed.
(** A write outside of its room leaves a value. *)
Lemma value_within g d es vs a c d' e : layout g d es vs -> within a c d d' -> e ∈ vs -> 0 <= x_size e ->
  (0 < x_size e -> x_offs e + x_room e <= a \/ c <= x_offs e) -> value d' e = value d e.
Proof.
  intros L H He Hs Hout. destruct (decide (x_size e = 0)) as [Hz|Hz]; [by rewrite !value_empty|].
  pose proof (la_offs _ _ _ _ L e (la_sub _ _ _ _ L e He)). destruct (la_values _ _ _ _ L e He ltac:(lia)).
  pose proof (xattr_size_bounds (x_size e)). unfold value, x_room in *.
  apply (within_sub a c); [done|lia|done|lia|]. specialize (Hout ltac:(lia)). lia.
Qed.

(** ** A new name *)

Definition new_entry (name_index : Z) (name : list Z) : xentry := XEntry name_index name 0 0 0.

Lemma insert_name_bytes d l1 l2 name_index name : let here := last_of l1 in let last := last_of (l1 ++ l2) in
  let size := EXT2_XATTR_LEN (len name) in
  bytes d -> bytes name -> len name <= 255 -> 0 <= name_index <= 255 -> last + size <= len d ->
  exists d', insert_name here last name_index name d = Ret tt d' /\ within here (last + size) d d' /\
    shifted d d' size here last /\ entry_at d' here (new_entry name_index name).
Proof.
  intros here last size Hb Hn Hl Hi Hroom.
  pose proof (xattr_len_bounds (len name)) as Hs. fold size in Hs. pose proof (len_nonneg name).
  pose proof (last_of_bounds l1) as Hh. fold here in Hh. pose proof (total_bounds l2). pose proof (len_nonneg l2).
  assert (Hlast : last = here + total l2) by apply last_of_app.
  unfold FIRST_ENTRY, xattr_header_size in *.
  destruct (moved d (here + size) here (last - here) Hb) as [W1 S1]; [lia..|].
  set (d1 := put_bytes d (here + size) _) in *.
  destruct (zeroed d1 here size) as [W2 Z2]; [lia|lia|rewrite (wi_len _ _ _ _ W1); lia|].
  set (d2 := put_bytes d1 here _) in *.
  assert (L2 : len d2 = len d) by (rewrite (wi_len _ _ _ _ W2); apply W1).
  pose proof (within_put8 d2 (here + 1) name_index ltac:(lia) ltac:(lia)) as W3. set (d3 := put8 d2 (here + 1) name_index) in *.
  pose proof (within_put8 d3 here (len name) ltac:(lia) ltac:(rewrite (wi_len _ _ _ _ W3); lia)) as W4. set (d4 := put8 d3 here (len name)) in *.
  assert (L4 : len d4 = len d) by (rewrite (wi_len _ _ _ _ W4), (wi_len _ _ _ _ W3); done).
  destruct (copied d4 (here + 16) name) as [W5 C5]; [lia|lia|done|]. set (d5 := put_bytes d4 (here + 16) name) in *.
  assert (W35 : within here (here + size) d2 d5).
  { assert (within here (here + size) d2 d4) as W34 by join W3 W4. join W34 W5. }
  exists d5. split; [|split; [|split]].
  - unfold insert_name. fold size. rewrite (bind_Ret _ _ _ _ _ (memmove_run (here + size) here (last - here) d ltac:(lia) ltac:(lia) ltac:(lia) ltac:(lia) ltac:(lia))).
    fold d1. rewrite (bind_Ret _ _ _ _ _ (memset0_run here size d1 ltac:(lia) ltac:(lia) ltac:(rewrite (wi_len _ _ _ _ W1); lia))).
    fold d2. rewrite (bind_Ret _ _ _ _ _ (wr8_run (here + 1) name_index d2 ltac:(lia) ltac:(lia))). fold d3.
    rewrite (bind_Ret _ _ _ _ _ (wr8_run here (len name) d3 ltac:(lia) ltac:(rewrite (wi_len _ _ _ _ W3); lia))). fold d4.
    unfold xattr_entry_size. rewrite memcpy_run by lia. done.
  - assert (within here (last + size) d d2) as W12 by join W1 W2. join W12 W35.
  - intros j Hj. rewrite (wi_same _ _ _ _ W35) by lia. rewrite (wi_same _ _ _ _ W2) by lia.
    specialize (S1 j ltac:(lia)). by replace (j + (here + size - here)) with (j + size) in S1 by lia.
  - assert (Hz : forall j, here + 2 <= j < here + 16 -> get8 d5 j = 0).
    { intros j Hj. rewrite (wi_same _ _ _ _ W5), (wi_same _ _ _ _ W4), (wi_same _ _ _ _ W3) by lia. apply Z2. lia. }
    assert (L5 : len d5 = len d) by (rewrite (wi_len _ _ _ _ W5); done).
    split; cbn [x_name x_index x_offs x_size x_hash new_entry].
    + unfold x_len, new_entry. cbn [x_name]. fold size. rewrite L5. lia.
    + rewrite (wi_same _ _ _ _ W5) by lia. unfold d4. rewrite get8_put8_eq by (rewrite (wi_len _ _ _ _ W3); lia).
      apply u8_small. lia.
    + rewrite (wi_same _ _ _ _ W5), (wi_same _ _ _ _ W4) by lia. unfold d3. rewrite get8_put8_eq by lia. apply u8_small. lia.
    + apply get16_zero. intros j Hj. apply Hz. lia.
    + apply get32_zero. intros j Hj. apply Hz. lia.
    + apply get32_zero. intros j Hj. apply Hz. lia.
    + apply get32_zero. intros j Hj. apply Hz. lia.
    + exact C5.
Qed.

Definition keeps_values (d d' : list Z) (vs : list xentry) : Prop := forall e, e ∈ vs -> value d' e = value d e.

Lemma entry_ok_new name_index name : bytes name -> len name <= 255 -> 1 <= name_index <= 255 ->
  entry_ok (new_entry name_index name).
Proof. intros. by split. Qed.

Lemma insert_name_run g d l1 l2 name_index name : let here := last_of l1 in let last := last_of (l1 ++ l2) in
  let size := EXT2_XATTR_LEN (len name) in let e := new_entry name_index name in
  layout g d (l1 ++ l2) (l1 ++ l2) -> bytes name -> len name <= 255 -> 1 <= name_index <= 255 ->
  4 + size <= g ->
  exists d', insert_name here last name_index name d = Ret tt d' /\ within FIRST_ENTRY (len d) d d' /\
    layout (g - size) d' (l1 ++ e :: l2) (l1 ++ l2) /\ keeps_values d d' (l1 ++ l2).
Proof.
  intros here last size e L Hn Hl Hi Hg. pose proof (la_room _ _ _ _ L) as Hroom. fold last in Hroom.
  destruct (insert_name_bytes d l1 l2 name_index name) as (d' & Hrun & W & S & He);
    [apply L|done|done|lia|fold last size; lia|]. fold here last size e in Hrun, W, S, He.
  pose proof (last_of_bounds l1) as Hh. fold here in Hh. pose proof (total_bounds l2). pose proof (len_nonneg l2).
  assert (Hlast : last = here + total l2) by apply last_of_app.
  pose proof (xattr_len_bounds (len name)) as Hs. fold size in Hs. pose proof (len_nonneg name).
  assert (Hlast' : last_of (l1 ++ e :: l2) = last + size).
  { rewrite last_of_app. cbn [total]. unfold x_len, e, new_entry. cbn [x_name]. fold size here. lia. }
  assert (Ld : len d' = len d) by apply W.
  exists d'. split; [done|]. split; [|split].
  - split; [done|apply W|]. intros j Hj Hout. apply (wi_same _ _ _ _ W); [done|].
    unfold FIRST_ENTRY, xattr_header_size in *. lia.
  - destruct L as [L1 L2 L3 L4 L5 L6 L7 L8 L9 L10 L11 L12]. split; rewrite ?Hlast', ?Ld; try done; try lia.
    + by apply W.
    + apply descs_app in L6 as [D1 D2]. apply descs_app. cbn [descs]. split; [|split; [done|]].
      * apply (descs_within here (last + size) d); try done; unfold here, last_of, FIRST_ENTRY, xattr_header_size in *; lia.
      * assert (x_len e = size) as -> by done. apply (descs_shift d); [done|unfold here, last_of, FIRST_ENTRY, xattr_header_size in *; lia| |].
        -- unfold here, last_of in *. lia.
        -- intros j Hj. apply S. unfold here, last_of in *. lia.
    + apply Forall_app in L7 as [F1 F2]. apply Forall_app. split; [done|]. apply Forall_cons. split; [by apply entry_ok_new|done].
    + intros e0 [He0|[->|He0]%elem_of_cons]%elem_of_app; [apply L8, elem_of_app; by left|simpl; pose proof (len_nonneg d); lia|apply L8, elem_of_app; by right].
    + intros e0 [He0|He0]%elem_of_app; apply elem_of_app; [by left|right; by right].
    + intros e0 He0 Hsz. destruct (L10 e0 He0 Hsz) as [Hv Hv']. fold last in Hv. lia.
    + intros j Hj Hout. rewrite (wi_same _ _ _ _ W) by (unfold FIRST_ENTRY, xattr_header_size in *; lia).
      apply L12; [fold last; lia|done].
  - intros e0 He0. apply (value_within g d (l1 ++ l2) (l1 ++ l2) here (last + size)); try done.
    + apply (xe_size e0). pose proof (la_entries _ _ _ _ L) as HF. rewrite Forall_forall in HF. auto.
    + intros Hsz. destruct (la_values _ _ _ _ L e0 He0 Hsz) as [Hv Hv']. fold last in Hv. lia.
Qed.

(** ** Removing a name *)

Lemma remove_name_run g d l1 l2 e name : let here := last_of l1 in let last := last_of (l1 ++ e :: l2) in
  x_name e = name -> layout g d (l1 ++ e :: l2) (l1 ++ l2) ->
  exists d', remove_name here last name d = Ret tt d' /\ within FIRST_ENTRY (len d) d d' /\
    layout (g + x_len e) d' (l1 ++ l2) (l1 ++ l2) /\ keeps_values d d' (l1 ++ l2).
Proof.
  intros here last <- L. set (size := x_len e). pose proof (la_room _ _ _ _ L) as Hroom. fold last in Hroom.
  pose proof (last_of_bounds l1) as Hh. fold here in Hh. pose proof (total_bounds l2). pose proof (len_nonneg l2).
  pose proof (x_len_pos e) as Hs. fold size in Hs. pose proof (la_gap _ _ _ _ L) as Hgap.
  assert (Hlast : last = here + size + total l2) by (unfold last; rewrite last_of_app; cbn [total]; fold size here; lia).
  assert (Hlast' : last_of (l1 ++ l2) = last - size) by (rewrite last_of_app; fold here; lia).
  unfold FIRST_ENTRY, xattr_header_size in *.
  destruct (moved d here (here + size) (last - size - here)) as [W1 S1]; [apply L|lia..|].
  set (d1 := put_bytes d here _) in *. assert (Ld1 : len d1 = len d) by apply W1.
  destruct (zeroed d1 (last - size) size) as [W2 Z2]; [lia..|]. set (d2 := put_bytes d1 (last - size) _) in *.
  assert (W : within here last d d2) by join W1 W2.
  assert (Ld : len d2 = len d) by apply W.
  exists d2. split; [|split; [|split]].
  - unfold remove_name. change (EXT2_XATTR_LEN (len (x_name e))) with size.
    rewrite (bind_Ret _ _ _ _ _ (memmove_run here (here + size) (last - size - here) d ltac:(lia) ltac:(lia) ltac:(lia) ltac:(lia) ltac:(lia))).
    fold d1. by rewrite memset0_run by lia.
  - split; [done|apply W|]. intros j Hj Hout. apply (wi_same _ _ _ _ W); lia.
  - destruct L as [L1 L2 L3 L4 L5 L6 L7 L8 L9 L10 L11 L12]. split; rewrite ?Hlast', ?Ld; try done; try lia.
    + by apply W.
    + apply descs_app in L6 as [D1 D2]. cbn [descs] in D2. destruct D2 as [_ D2]. apply descs_app. split.
      * apply (descs_within here last d); try done; unfold here, last_of, FIRST_ENTRY, xattr_header_size in *; lia.
      * change (FIRST_ENTRY + total l1) with here in *. fold size in D2.
        replace here with (here + size + - size) by lia. apply (descs_shift d); [done|lia|lia|].
        intros j Hj. rewrite (wi_same _ _ _ _ W2) by lia. specialize (S1 j ltac:(lia)).
        by replace (j + (here - (here + size))) with (j + - size) in S1 by lia.
    + apply Forall_app in L7 as [F1 F2]. apply Forall_cons in F2 as [_ F2]. by apply Forall_app.
    + intros e0 He0. apply L8, L9, He0.
    + intros e0 He0 Hsz. destruct (L10 e0 He0 Hsz) as [Hv Hv']. fold last in Hv. lia.
    + intros j Hj Hout. destruct (decide (j < last)) as [Hjl|Hjl].
      * apply Z2. lia.
      * rewrite (wi_same _ _ _ _ W) by lia. apply L12; [fold last; lia|done].
  - intros e0 He0. apply (value_within g d (l1 ++ e :: l2) (l1 ++ l2) here last); try done.
    + apply (xe_size e0). pose proof (la_entries _ _ _ _ L) as HF. rewrite Forall_forall in HF.
      apply HF, (la_sub _ _ _ _ L), He0.
    + intros Hsz. destruct (la_values _ _ _ _ L e0 He0 Hsz) as [Hv Hv']. fold last in Hv. lia.
Qed.

(** ** Fields of an entry *)

Definition with_offs (v : Z) (e : xentry) : xentry := XEntry (x_index e) (x_name e) v (x_size e) (x_hash e).
Definition with_size (v : Z) (e : xentry) : xentry := XEntry (x_index e) (x_name e) (x_offs e) v (x_hash e).
Definition with_hash (v : Z) (e : xentry) : xentry := XEntry (x_index e) (x_name e) (x_offs e) (x_size e) v.

Section Fields.
Variables (d : list Z) (o : Z) (e : xentry).
Hypothesis Hat : entry_at d o e.

Lemma entry_with_offs v : 0 <= v < 65536 -> entry_at (put16 d (o + 2) v) o (with_offs v e).
Proof using Hat.
  intros Hv. destruct (entry_room d o e Hat) as (H1 & H2 & H3).
  pose proof (within_put16 d (o + 2) v ltac:(lia) ltac:(lia)) as W.
  destruct Hat as [R F1 F2 F3 F4 F5 F6 F7]. split; cbn [x_name x_index x_offs x_size x_hash with_offs].
  - by rewrite len_put16.
  - rewrite get8_put16_ne by lia. done.
  - rewrite get8_put16_ne by lia. done.
  - rewrite get16_put16_eq by lia. done.
  - rewrite get32_put16_ne by lia. done.
  - rewrite get32_put16_ne by lia. done.
  - rewrite get32_put16_ne by lia. done.
  - rewrite (within_sub _ _ _ _ _ _ W) by lia. done.
Qed.
Lemma entry_with_size v : 0 <= v < 4294967296 -> entry_at (put32 d (o + 8) v) o (with_size v e).
Proof using Hat.
  intros Hv. destruct (entry_room d o e Hat) as (H1 & H2 & H3).
  pose proof (within_put32 d (o + 8) v ltac:(lia) ltac:(lia)) as W.
  destruct Hat as [R F1 F2 F3 F4 F5 F6 F7]. split; cbn [x_name x_index x_offs x_size x_hash with_size].
  - by rewrite len_put32.
  - rewrite get8_put32_ne by lia. done.
  - rewrite get8_put32_ne by lia. done.
  - rewrite get16_put32_ne by lia. done.
  - rewrite get32_put32_ne by lia. done.
  - rewrite get32_put32_eq by lia. done.
  - rewrite get32_put32_ne by lia. done.
  - rewrite (within_sub _ _ _ _ _ _ W) by lia. done.
Qed.
Lemma entry_with_hash v : 0 <= v < 4294967296 -> entry_at (put32 d (o + 12) v) o (with_hash v e).
Proof using Hat.
  intros Hv. destruct (entry_room d o e Hat) as (H1 & H2 & H3).
  pose proof (within_put32 d (o + 12) v ltac:(lia) ltac:(lia)) as W.
  destruct Hat as [R F1 F2 F3 F4 F5 F6 F7]. split; cbn [x_name x_index x_offs x_size x_hash with_hash].
  - by rewrite len_put32.
  - rewrite get8_put32_ne by lia. done.
  - rewrite get8_put32_ne by lia. done.
  - rewrite get16_put32_ne by lia. done.
  - rewrite get32_put32_ne by lia. done.
  - rewrite get32_put32_ne by lia. done.
  - rewrite get32_put32_eq by lia. done.
  - rewrite (within_sub _ _ _ _ _ _ W) by lia. done.
Qed.

End Fields.

(** Changing an entry in its place. *)
Lemma descs_entry l1 e l2 d : descs d FIRST_ENTRY (l1 ++ e :: l2) -> entry_at d (last_of l1) e.
Proof. intros [_ [H _]]%descs_app. done. Qed.
Lemma descs_replace d d' l1 e e' l2 : let here := last_of l1 in
  descs d FIRST_ENTRY (l1 ++ e :: l2) -> last_of (l1 ++ e :: l2) <= len d -> x_len e' = x_len e ->
  within here (here + x_len e) d d' -> entry_at d' here e' -> descs d' FIRST_ENTRY (l1 ++ e' :: l2).
Proof.
  intros here [D1 [De D2]]%descs_app Hroom Hx W He. apply descs_app. cbn [descs].
  pose proof (last_of_bounds l1) as Hh. fold here in Hh. pose proof (total_bounds l2). pose proof (len_nonneg l2).
  rewrite last_of_app in Hroom. cbn [total] in Hroom. fold here in Hroom. pose proof (x_len_pos e).
  change (FIRST_ENTRY + total l1) with here in *. unfold FIRST_ENTRY, xattr_header_size in *. split; [|split; [done|]].
  - apply (descs_within here (here + x_len e) d); try done; unfold here, last_of, FIRST_ENTRY, xattr_header_size in *; lia.
  - rewrite Hx. apply (descs_within here (here + x_len e) d); try done; lia.
Qed.
Lemma last_of_replace l1 e e' l2 : x_len e' = x_len e -> last_of (l1 ++ e' :: l2) = last_of (l1 ++ e :: l2).
Proof. intros Hx. rewrite !last_of_app. cbn [total]. lia. Qed.

(** *** Entries whose value is not there yet, or not any more *)

(** A field of the entry is written that has no value of its own. *)
Lemma layout_replace g d d' l1 e e' l2 vs : let here := last_of l1 in
  layout g d (l1 ++ e :: l2) vs -> x_len e' = x_len e -> entry_ok e' -> 0 <= x_offs e' <= len d ->
  (forall e0, e0 ∈ vs -> e0 ∈ l1 ++ l2) ->
  within here (here + x_len e) d d' -> entry_at d' here e' ->
  layout g d' (l1 ++ e' :: l2) vs /\ keeps_values d d' vs.
Proof.
  intros here L Hx Hok Ho Hvs W He. pose proof (last_of_replace l1 e e' l2 Hx) as Hlast. pose proof (x_len_pos e).
  pose proof (la_room _ _ _ _ L) as Hroom. pose proof (la_gap _ _ _ _ L) as Hgap.
  assert (Hend : here + x_len e <= last_of (l1 ++ e :: l2)).
  { rewrite last_of_app. cbn [total]. fold here. pose proof (total_bounds l2). pose proof (len_nonneg l2). lia. }
  pose proof (last_of_bounds l1) as Hh. fold here in Hh. unfold FIRST_ENTRY, xattr_header_size in Hh.
  assert (Ld : len d' = len d) by apply W. split.
  - destruct L as [L1 L2 L3 L4 L5 L6 L7 L8 L9 L10 L11 L12]. split; rewrite ?Hlast, ?Ld; try done.
    + by apply W.
    + apply (descs_replace d d' l1 e); [done|lia|done|done|done].
    + apply Forall_app in L7 as [F1 F2]. apply Forall_cons in F2 as [_ F2]. apply Forall_app. split; [done|]. by apply Forall_cons.
    + intros e0 [He0|[->|He0]%elem_of_cons]%elem_of_app; [apply L8, elem_of_app; by left|done|apply L8, elem_of_app; right; by right].
    + intros e0 He0. apply elem_of_app. specialize (Hvs e0 He0). apply elem_of_app in Hvs as [?|?]; [by left|right; by right].
    + intros j Hj Hout. rewrite (wi_same _ _ _ _ W) by lia. by apply L12.
  - intros e0 He0. apply (value_within g d (l1 ++ e :: l2) vs here (here + x_len e)); try done.
    + apply (xe_size e0). pose proof (la_entries _ _ _ _ L) as HF. rewrite Forall_forall in HF. apply HF, L, He0.
    + intros Hsz. destruct (la_values _ _ _ _ L e0 He0 Hsz). lia.
Qed.

(** ** Inserting a value *)

Definition entry_with (e : xentry) (m : Z) (v : list Z) : xentry :=
  XEntry (x_index e) (x_name e) (if len v =? 0 then x_offs e else m - EXT2_XATTR_SIZE (len v)) (len v) (x_hash e).

(** A value has been written to a free place; [d'] has the entry for it. *)
Lemma layout_value g (d d' d2 : list Z) l1 e l2 v m : let size := EXT2_XATTR_SIZE (len v) in let val := m - size in
  layout g d' (l1 ++ e :: l2) (l1 ++ l2) -> x_offs e = val -> x_size e = len v -> 0 < len v ->
  last_of (l1 ++ e :: l2) + 4 <= val -> m <= len d ->
  (forall e0, e0 ∈ l1 ++ l2 -> 0 < x_size e0 -> m <= x_offs e0) ->
  len d' = len d -> within val m d' d2 -> sub d2 val (len v) = v ->
  layout 4 d2 (l1 ++ e :: l2) (l1 ++ e :: l2) /\ keeps_values d' d2 (l1 ++ l2) /\ value d2 e = v.
Proof.
  intros size val L Ho Hs Hv Hroom Hm Hlow Ld W Hsub. assert (Ld2 : len d2 = len d) by (rewrite (wi_len _ _ _ _ W); done).
  assert (Hx : x_room e = size) by (unfold x_room; by rewrite Hs).
  pose proof (last_of_bounds (l1 ++ e :: l2)) as Hlb. unfold FIRST_ENTRY, xattr_header_size in Hlb.
  assert (Hin : forall e0, e0 ∈ l1 ++ e :: l2 <-> e0 = e \/ e0 ∈ l1 ++ l2).
  { intros e0. rewrite !elem_of_app, elem_of_cons. tauto. }
  pose proof (xattr_size_bounds (len v)) as Hsz. fold size in Hsz. split; [|split].
  - destruct L as [L1 L2 L3 L4 L5 L6 L7 L8 L9 L10 L11 L12]. rewrite Ld in *. split; rewrite ?Ld2; try done; try lia.
    + by apply W.
    + apply (descs_within val m d'); try done; unfold last_of, FIRST_ENTRY, xattr_header_size in *; lia.
    + intros e0 He0 H0. apply Hin in He0 as [->|He0]; [lia|]. destruct (L10 e0 He0 H0). lia.
    + intros e1 e2 H1 H2 S1 S2. apply Hin in H1 as [->|H1], H2 as [->|H2].
      * by left.
      * right. left. specialize (Hlow e2 H2 S2). lia.
      * right. right. specialize (Hlow e1 H1 S1). lia.
      * by apply L11.
    + intros j Hj Hout. assert (j < val \/ m <= j) as Hje.
      { specialize (Hout e ltac:(apply Hin; by left) ltac:(lia)). lia. }
      rewrite (wi_same _ _ _ _ W) by lia. apply L12; [lia|]. intros e0 He0 S0. apply Hout; [|done].
      apply Hin. by right.
  - intros e0 He0. apply (value_within g d' (l1 ++ e :: l2) (l1 ++ l2) val m); try done.
    + apply (xe_size e0). pose proof (la_entries _ _ _ _ L) as HF. rewrite Forall_forall in HF.
      apply HF, (la_sub _ _ _ _ L), He0.
    + intros S0. right. by apply Hlow.
  - unfold value. by rewrite Ho, Hs.
Qed.

Lemma insert_value_run g d l1 l2 e m v : let here := last_of l1 in let size := EXT2_XATTR_SIZE (len v) in
  let e' := entry_with e m v in
  layout g d (l1 ++ e :: l2) (l1 ++ l2) -> bytes v -> m <= len d ->
  last_of (l1 ++ e :: l2) + 4 + size <= m ->
  (forall e0, e0 ∈ l1 ++ l2 -> 0 < x_size e0 -> m <= x_offs e0) ->
  exists d', insert_value here m v d = Ret tt d' /\ within FIRST_ENTRY (len d) d d' /\
    layout 4 d' (l1 ++ e' :: l2) (l1 ++ e' :: l2) /\ keeps_values d d' (l1 ++ l2) /\ value d' e' = v.
Proof.
  intros here size e' L Hv Hm Hroom Hlow. pose proof (len_nonneg v). pose proof (la_max _ _ _ _ L) as Hmax.
  pose proof (descs_entry l1 e l2 d (la_descs _ _ _ _ L)) as He. fold here in He.
  pose proof (last_of_bounds l1) as Hh. fold here in Hh.
  assert (Hend : here + x_len e <= last_of (l1 ++ e :: l2)).
  { rewrite last_of_app. cbn [total]. fold here. pose proof (total_bounds l2). pose proof (len_nonneg l2). lia. }
  pose proof (x_len_pos e) as Hxp. pose proof (xattr_size_bounds (len v)) as Hsz. fold size in Hsz.
  assert (Hoke : entry_ok e) by (pose proof (la_entries _ _ _ _ L) as HF; by apply Forall_app in HF as [_ [? _]%Forall_cons]).
  pose proof (la_offs _ _ _ _ L e ltac:(apply elem_of_app; right; by left)) as Hoe.
  unfold FIRST_ENTRY, xattr_header_size in *.
  pose proof (entry_with_size d here e He (len v) ltac:(lia)) as He1.
  pose proof (within_put32 d (here + 8) (len v) ltac:(lia) ltac:(destruct (xa_range _ _ _ He); lia)) as W1.
  set (d1 := put32 d (here + 8) (len v)) in *. assert (Ld1 : len d1 = len d) by apply W1.
  assert (W1' : within here (here + x_len e) d d1) by (split; [done|apply W1|]; intros; apply (wi_same _ _ _ _ W1); lia).
  assert (Hr8 : here + 8 + 4 <= len d) by (destruct (xa_range _ _ _ He); lia).
  destruct Hoke as [O1 O2 O3 O4].
  destruct (layout_replace g d d1 l1 e (with_size (len v) e) l2 (l1 ++ l2) L eq_refl) as [L1 V1]; [by split|done|done|done|done|].
  unfold insert_value. rewrite (bind_Ret _ _ _ _ _ (wr32_run (here + 8) (len v) d ltac:(lia) Hr8)). fold d1. destruct (Z.eqb_spec (len v) 0) as [Hz|Hnz]; cbn [negb when].
  - exists d1. assert (He' : e' = with_size (len v) e) by (unfold e', entry_with; by rewrite (proj2 (Z.eqb_eq _ _) Hz)).
    rewrite He'. split; [done|]. split; [split; [done|apply W1|]; intros; apply (wi_same _ _ _ _ W1); lia|].
    assert (Hv0 : v = []) by (destruct v; [done|unfold len in Hz; simpl in Hz; lia]).
    split; [|split; [done|by rewrite Hv0; apply value_empty]].
    assert (Hin : forall e0, e0 ∈ l1 ++ with_size (len v) e :: l2 -> 0 < x_size e0 -> e0 ∈ l1 ++ l2).
    { intros e0 [?|[->|?]%elem_of_cons]%elem_of_app Hs0; [apply elem_of_app; by left|cbn in Hs0; lia|apply elem_of_app; by right]. }
    pose proof (la_gap _ _ _ _ L1).
    destruct L1 as [K1 K2 K3 K4 K5 K6 K7 K8 K9 K10 K11 K12]. split; try done; try lia.
    + intros e0 He0 Hs0. destruct (K10 e0 (Hin e0 He0 Hs0) Hs0). lia.
    + intros e1 e2 H1 H2 S1 S2. apply K11; auto.
    + intros j Hj Hout. apply K12; [done|]. intros e0 He0 Hs0. apply Hout; [|done].
      apply elem_of_app in He0 as [?|?]; apply elem_of_app; [by left|right; by right].
  - set (val := m - size) in *. assert (Hval : 0 <= val < 65536 /\ 4 <= size).
    { pose proof (xattr_size_pos (len v) ltac:(lia)) as Hp. fold size in Hp. unfold val. lia. }
    pose proof (entry_with_offs d1 here _ He1 val ltac:(lia)) as He2.
    pose proof (within_put16 d1 (here + 2) val ltac:(lia) ltac:(destruct (xa_range _ _ _ He); lia)) as W2.
    set (d2 := put16 d1 (here + 2) val) in *. assert (Ld2 : len d2 = len d) by (rewrite <- Ld1; apply W2).
    assert (W2' : within here (here + x_len e) d1 d2) by (split; [by rewrite Ld1|apply W2|]; intros; apply (wi_same _ _ _ _ W2); lia).
    assert (Heq : with_offs val (with_size (len v) e) = e') by (unfold e', entry_with; by rewrite (proj2 (Z.eqb_neq _ _) Hnz)).
    rewrite Heq in He2.
    destruct (layout_replace g d1 d2 l1 (with_size (len v) e) e' l2 (l1 ++ l2) L1) as [L2 V2];
      [done|by split|rewrite <- Heq; cbn; lia|done|done|done|].
    destruct (zeroed d2 (val + size - 4) 4) as [W3 Z3]; [lia|lia|lia|]. set (d3 := put_bytes d2 (val + size - 4) _) in *.
    destruct (copied d3 val v) as [W4 C4]; [lia|rewrite (wi_len _ _ _ _ W3); lia|done|]. set (d4 := put_bytes d3 val v) in *.
    assert (W34 : within val m d2 d4) by join W3 W4.
    pose proof (last_of_replace l1 e e' l2 eq_refl) as Hlast.
    destruct (layout_value g d d2 d4 l1 e' l2 v m L2) as (L4 & V4 & Hval4); try done; try lia.
    { rewrite <- Heq. done. }
    exists d4. split; [|split; [|split; [done|split; [|done]]]].
    + fold size val. rewrite u16_small by lia. rewrite (bind_Ret _ _ _ _ _ (wr16_run (here + 2) val d1 ltac:(lia) ltac:(lia))). fold d2.
      unfold EXT2_XATTR_PAD. rewrite (bind_Ret _ _ _ _ _ (memset0_run (val + size - 4) 4 d2 ltac:(lia) ltac:(lia) ltac:(lia))). fold d3.
      by rewrite memcpy_run by (rewrite ?(wi_len _ _ _ _ W3); lia).
    + assert (within here m d d2) as W12 by join W1 W2. assert (within here m d d4) as W by join W12 W34.
      split; [apply W|apply W|]. intros j Hj Hout. apply (wi_same _ _ _ _ W); lia.
    + intros e0 He0. by rewrite V4, V2, V1.
Qed.

(** ** Replacing a value *)

(** An entry that keeps the place of its value. *)
Lemma layout_same_value g d d' l1 e e' l2 : let here := last_of l1 in
  layout g d (l1 ++ e :: l2) (l1 ++ e :: l2) -> e ∉ l1 ++ l2 -> x_len e' = x_len e -> entry_ok e' ->
  x_offs e' = x_offs e -> x_room e' = x_room e -> (0 < x_size e' <-> 0 < x_size e) ->
  within here (here + x_len e) d d' -> entry_at d' here e' ->
  layout g d' (l1 ++ e' :: l2) (l1 ++ e' :: l2) /\ keeps_values d d' (l1 ++ e :: l2).
Proof.
  intros here L Hnd Hx Hok Ho Hrm Hsz W He. pose proof (last_of_replace l1 e e' l2 Hx) as Hlast. pose proof (x_len_pos e).
  pose proof (la_room _ _ _ _ L) as Hroom. pose proof (la_gap _ _ _ _ L) as Hgap.
  assert (Hend : here + x_len e <= last_of (l1 ++ e :: l2)).
  { rewrite last_of_app. cbn [total]. fold here. pose proof (total_bounds l2). pose proof (len_nonneg l2). lia. }
  pose proof (last_of_bounds l1) as Hh. fold here in Hh. unfold FIRST_ENTRY, xattr_header_size in Hh.
  assert (Ld : len d' = len d) by apply W.
  (* every entry stands for one of the old block, at the same place *)
  assert (Hold : forall e0, e0 ∈ l1 ++ e' :: l2 -> exists e1, e1 ∈ l1 ++ e :: l2 /\ x_offs e0 = x_offs e1 /\
    x_room e0 = x_room e1 /\ (0 < x_size e0 <-> 0 < x_size e1) /\ (e1 = e /\ e0 = e' \/ e1 = e0)).
  { intros e0 [He0|[->|He0]%elem_of_cons]%elem_of_app.
    - exists e0. split; [apply elem_of_app; by left|]. by split_and!; auto.
    - exists e. split; [apply elem_of_app; right; by left|]. by split_and!; auto.
    - exists e0. split; [apply elem_of_app; right; by right|]. by split_and!; auto. }
  split.
  - destruct L as [L1 L2 L3 L4 L5 L6 L7 L8 L9 L10 L11 L12]. split; rewrite ?Hlast, ?Ld; try done.
    + by apply W.
    + apply (descs_replace d d' l1 e); [done|lia|done|done|done].
    + apply Forall_app in L7 as [F1 F2]. apply Forall_cons in F2 as [_ F2]. apply Forall_app. split; [done|]. by apply Forall_cons.
    + intros e0 He0. destruct (Hold e0 He0) as (e1 & H1 & -> & _). by apply L8.
    + intros e0 He0 Hs0. destruct (Hold e0 He0) as (e1 & H1 & -> & -> & Hs & _). apply L10; [done|by apply Hs].
    + intros e1 e2 H1 H2 S1 S2. destruct (Hold e1 H1) as (f1 & F1 & -> & -> & T1 & C1), (Hold e2 H2) as (f2 & F2 & -> & -> & T2 & C2).
      destruct (L11 f1 f2 F1 F2) as [He12|Hd]; [by apply T1|by apply T2| |by right].
      assert (Hdup : forall e0, e0 ∈ l1 ++ e' :: l2 -> e0 = e -> e0 = e').
      { intros e0 [He0|[->|He0]%elem_of_cons]%elem_of_app ->; [|done|]; exfalso; apply Hnd, elem_of_app; auto. }
      left. destruct C1 as [[C1 ->]|C1], C2 as [[C2 ->]|C2]; [done| | |by subst].
      * symmetry. apply Hdup; [done|]. congruence.
      * apply Hdup; [done|]. congruence.
    + intros j Hj Hout. rewrite (wi_same _ _ _ _ W) by lia. apply L12; [done|]. intros e0 He0 Hs0.
      assert (exists e1, e1 ∈ l1 ++ e' :: l2 /\ x_offs e1 = x_offs e0 /\ x_room e1 = x_room e0 /\ 0 < x_size e1) as (e1 & X1 & <- & <- & X4).
      { apply elem_of_app in He0 as [He0|[->|He0]%elem_of_cons].
        - exists e0. split; [apply elem_of_app; by left|done].
        - exists e'. split; [apply elem_of_app; right; by left|]. split_and!; [done|done|by apply Hsz].
        - exists e0. split; [apply elem_of_app; right; by right|done]. }
      by apply Hout.
  - intros e0 He0. apply (value_within g d (l1 ++ e :: l2) (l1 ++ e :: l2) here (here + x_len e)); try done.
    + apply (xe_size e0). pose proof (la_entries _ _ _ _ L) as HF. rewrite Forall_forall in HF. by apply HF.
    + intros Hs0. destruct (la_values _ _ _ _ L e0 He0 Hs0). lia.
Qed.

(** What is written in the room of a value changes no other. *)
Lemma layout_in_room g d d' es e : layout g d es es -> e ∈ es -> 0 < x_size e ->
  within (x_offs e) (x_offs e + x_room e) d d' ->
  layout g d' es es /\ forall e0, e0 ∈ es -> e0 <> e -> value d' e0 = value d e0.
Proof.
  intros L He Hs W. destruct (la_values _ _ _ _ L e He Hs) as [V1 V2]. assert (Ld : len d' = len d) by apply W.
  pose proof (last_of_bounds es) as Hb. unfold FIRST_ENTRY, xattr_header_size in Hb. split.
  - destruct L as [L1 L2 L3 L4 L5 L6 L7 L8 L9 L10 L11 L12]. split; rewrite ?Ld; try done.
    + by apply W.
    + apply (descs_within (x_offs e) (x_offs e + x_room e) d); try done; unfold last_of, FIRST_ENTRY, xattr_header_size in *; lia.
    + intros j Hj Hout. specialize (Hout e He Hs) as Ho. rewrite (wi_same _ _ _ _ W) by lia. by apply L12.
  - intros e0 He0 Hne. apply (value_within g d es es (x_offs e) (x_offs e + x_room e)); try done.
    + apply (xe_size e0). pose proof (la_entries _ _ _ _ L) as HF. rewrite Forall_forall in HF. by apply HF.
    + intros Hs0. destruct (la_apart _ _ _ _ L e0 e He0 He Hs0 Hs) as [?|[?|?]]; [done|lia|lia].
Qed.

(** The key of [e] is its own. *)
Definition only_key (e : xentry) (l : list xentry) : Prop := forall e0, e0 ∈ l -> x_key e0 <> x_key e.
Lemma only_key_notin e l : only_key e l -> e ∉ l.
Proof. intros H He. by apply (H e He). Qed.

Lemma replace_value_run g d l1 l2 e last m v : let here := last_of l1 in let e' := with_size (len v) e in
  layout g d (l1 ++ e :: l2) (l1 ++ e :: l2) -> only_key e (l1 ++ l2) -> 0 < x_size e ->
  x_room e = EXT2_XATTR_SIZE (len v) -> bytes v ->
  exists d', drop_value here last m (Some v) d = Ret None d' /\ within FIRST_ENTRY (len d) d d' /\
    layout g d' (l1 ++ e' :: l2) (l1 ++ e' :: l2) /\ keeps_values d d' (l1 ++ l2) /\ value d' e' = v.
Proof.
  intros here e' L Hnd Hs Hrm Hv. assert (Hein : e ∈ l1 ++ e :: l2) by (apply elem_of_app; right; by left).
  destruct (la_values _ _ _ _ L e Hein Hs) as [V1 V2]. pose proof (la_max _ _ _ _ L) as Hmax.
  pose proof (descs_entry l1 e l2 d (la_descs _ _ _ _ L)) as He. fold here in He.
  pose proof (last_of_bounds l1) as Hh. fold here in Hh.
  assert (Hend : here + x_len e <= last_of (l1 ++ e :: l2)).
  { rewrite last_of_app. cbn [total]. fold here. pose proof (total_bounds l2). pose proof (len_nonneg l2). lia. }
  pose proof (x_len_pos e) as Hxp. pose proof (xattr_size_bounds (len v)) as Hsz. pose proof (len_nonneg v).
  assert (Hvpos : 4 <= x_room e /\ 0 < len v).
  { pose proof (xattr_size_pos (x_size e) Hs) as Hp. fold (x_room e) in Hp. split; [done|].
    destruct (decide (len v = 0)) as [Hz|]; [rewrite Hz in *; change (EXT2_XATTR_SIZE 0) with 0 in *; lia|lia]. }
  assert (Hoke : entry_ok e) by (pose proof (la_entries _ _ _ _ L) as HF; by apply Forall_app in HF as [_ [? _]%Forall_cons]).
  pose proof (la_gap _ _ _ _ L) as Hgap. unfold FIRST_ENTRY, xattr_header_size in *.
  pose proof (entry_with_size d here e He (len v) ltac:(lia)) as He1. fold e' in He1.
  pose proof (within_put32 d (here + 8) (len v) ltac:(lia) ltac:(destruct (xa_range _ _ _ He); lia)) as W1.
  set (d1 := put32 d (here + 8) (len v)) in *. assert (Ld1 : len d1 = len d) by apply W1.
  assert (W1' : within here (here + x_len e) d d1) by (split; [done|apply W1|]; intros; apply (wi_same _ _ _ _ W1); lia).
  destruct Hoke as [O1 O2 O3 O4].
  destruct (layout_same_value g d d1 l1 e e' l2 L (only_key_notin _ _ Hnd) eq_refl) as [L1 K1];
    [by split|done|by rewrite Hrm|cbn; lia|done|done|].
  set (offs := x_offs e) in *. set (size := x_room e) in *.
  destruct (zeroed d1 (offs + size - 4) 4) as [W2 Z2]; [lia|lia|lia|]. set (d2 := put_bytes d1 (offs + size - 4) _) in *.
  destruct (copied d2 offs v) as [W3 C3]; [lia|rewrite (wi_len _ _ _ _ W2); lia|done|]. set (d3 := put_bytes d2 offs v) in *.
  assert (W : within offs (offs + size) d1 d3) by join W2 W3.
  assert (Hrm' : x_room e' = size) by (unfold x_room, e'; cbn; done).
  destruct (layout_in_room g d1 d3 (l1 ++ e' :: l2) e' L1) as [L3 K3]; [apply elem_of_app; right; by left|cbn; lia|by rewrite Hrm'|].
  exists d3. split; [|split; [|split; [done|split]]].
  - unfold drop_value.     rewrite (bind_Ret _ _ d (negb (x_size e =? 0)) d) by apply (has_value_run d here e He d).
    replace (negb (x_size e =? 0)) with true by lia. cbn [negb].
    rewrite (bind_Ret _ _ d offs d) by apply (e_value_offs_run d here e He d).
    rewrite (bind_Ret _ _ d (x_size e) d) by apply (e_value_size_run d here e He d).
    change (default [] (Some v)) with v. change (EXT2_XATTR_SIZE (x_size e)) with size. rewrite <- Hrm, Z.eqb_refl.
    rewrite (bind_Ret _ _ _ _ _ (wr32_run (here + 8) (len v) d ltac:(lia) ltac:(destruct (xa_range _ _ _ He); lia))). fold d1.
    unfold EXT2_XATTR_PAD. rewrite (bind_Ret _ _ _ _ _ (memset0_run (offs + size - 4) 4 d1 ltac:(lia) ltac:(lia) ltac:(lia))). fold d2.
    by rewrite (bind_Ret _ _ _ _ _ (memcpy_run offs v d2 ltac:(lia) ltac:(rewrite (wi_len _ _ _ _ W2); lia))).
  - assert (within here (offs + size) d d3) as W' by join W1 W. split; [apply W'|apply W'|]. intros; apply (wi_same _ _ _ _ W'); lia.
  - intros e0 He0. rewrite K3, K1; [done| |apply elem_of_app in He0 as [?|?]; apply elem_of_app; [by left|right; by right]|].
    + apply elem_of_app in He0 as [?|?]; apply elem_of_app; [by left|right; by right].
    + intros ->. by apply (Hnd e' He0).
  - unfold value, e'. cbn. exact C3.
Qed.

(** ** Removing a value *)

Definition lowered (offs size : Z) (e : xentry) : xentry :=
  if x_offs e <? offs then with_offs (u16 (x_offs e + size)) e else e.

Lemma lowered_key offs size e : x_key (lowered offs size e) = x_key e.
Proof. unfold lowered. by destruct (_ <? _). Qed.
Lemma lowered_len offs size e : x_len (lowered offs size e) = x_len e.
Proof. unfold lowered. by destruct (_ <? _). Qed.
Lemma lowered_size offs size e : x_size (lowered offs size e) = x_size e.
Proof. unfold lowered. by destruct (_ <? _). Qed.
Lemma lowered_ok offs size e : entry_ok e -> entry_ok (lowered offs size e).
Proof. intros [H1 H2 H3 H4]. unfold lowered. destruct (_ <? _); by split. Qed.
Lemma total_lowered offs size es : total (lowered offs size <$> es) = total es.
Proof. induction es as [|e es IH]; [done|]. cbn [fmap list_fmap total]. by rewrite lowered_len, IH. Qed.
Lemma last_of_lowered offs size es : last_of (lowered offs size <$> es) = last_of es.
Proof. unfold last_of. by rewrite total_lowered. Qed.

Lemma adjust_offsets_run offs size : forall es o fuel d, bytes d -> descs d o es -> Forall entry_ok es ->
  0 <= o -> last_word d (o + total es) -> (length es < fuel)%nat ->
  exists d', adjust_offsets fuel o offs size d = Ret (o + total es) d' /\ within o (o + total es) d d' /\
    descs d' o (lowered offs size <$> es).
Proof.
  induction es as [|e es IH]; intros o [|fuel] d Hb Hd Hok Ho Hl Hf; simpl in Hf; try lia;
    cbn [adjust_offsets total descs] in *.
  - rewrite Z.add_0_r in *. rewrite (bind_Ret _ _ d true d) by apply (last_entry_run d o d Hl).
    exists d. split; [done|]. split; [apply within_refl|done].
  - destruct Hd as [He Hd]. apply Forall_cons in Hok as [Heo Hok]. pose proof (x_len_pos e) as Hx.
    destruct (entry_room d o e He) as (R1 & R2 & R3).
    rewrite (bind_Ret _ _ d false d) by apply (entry_not_last d o e He d Hb Heo).
    rewrite (bind_Ret _ _ d (x_offs e) d) by apply (e_value_offs_run d o e He d).
    rewrite (bind_Ret _ _ d 0 d) by apply (e_value_block_run d o e He d). cbn [Z.eqb andb].
    set (e1 := lowered offs size e).
    assert (Hstep : exists d1, when (x_offs e <? offs) (wr16 (o + 2) (u16 (x_offs e + size))) d = Ret tt d1 /\
      within o (o + x_len e) d d1 /\ entry_at d1 o e1).
    { unfold e1, lowered. destruct (Z.ltb_spec (x_offs e) offs); cbn [when].
      - exists (put16 d (o + 2) (u16 (x_offs e + size))). split; [by apply wr16_run; lia|]. split.
        + pose proof (within_put16 d (o + 2) (u16 (x_offs e + size)) ltac:(lia) ltac:(lia)) as W.
          split; [apply W|apply W|]. intros; apply (wi_same _ _ _ _ W); lia.
        + apply entry_with_offs; [done|]. apply u16_range.
      - exists d. split; [done|]. split; [apply within_refl|done]. }
    destruct Hstep as (d1 & Hw & W1 & He1). rewrite (bind_Ret _ _ _ _ _ Hw).
    assert (Hx1 : x_len e1 = x_len e) by apply lowered_len.
    rewrite (bind_Ret _ _ d1 (o + x_len e1) d1) by apply (xattr_next_run d1 o e1 He1 d1).
    rewrite Hx1. pose proof (total_bounds es). pose proof (len_nonneg es).
    destruct Hl as (Hl1 & Hl2 & Hl3). assert (Ld1 : len d1 = len d) by apply W1.
    destruct (IH (o + x_len e) fuel d1) as (d2 & Hrun & W2 & Hd2); try done; try lia.
    + by apply W1.
    + apply (descs_within o (o + x_len e) d); try done; lia.
    + split; [lia|]. split; [lia|]. rewrite <- Hl3, Z.add_assoc. apply get32_same. eapply within_on; [exact W1|lia|lia].
    + rewrite Hrun. exists d2. split; [f_equal; lia|]. split; [join W1 W2|].
      rewrite fmap_cons. cbn [descs]. fold e1. rewrite Hx1. split; [|done].
      apply (entry_within (o + x_len e) (o + x_len e + total es) d1); [done|done|lia].
Qed.

Section Remove.
Variables (g : Z) (d : list Z) (l1 l2 : list xentry) (e : xentry) (m : Z).
Let here := last_of l1.
Let es := l1 ++ e :: l2.
Let size := x_room e.
Let offs := x_offs e.
Let low := lowered offs size.
Hypothesis L : layout g d es es.
Hypothesis Hkey : only_key e (l1 ++ l2).
Hypothesis Hs : 0 < x_size e.
Hypothesis Hlow : lowest (len d) es m.

Lemma remove_bounds : e ∈ es /\ 32 <= here /\ here + x_len e <= last_of es /\ last_of es + 4 <= m /\ m <= offs /\
  offs + size <= len d /\ 4 <= size /\ len d <= 65536 /\ FIRST_ENTRY + total es = last_of es.
Proof using All.
  assert (Hein : e ∈ es) by (apply elem_of_app; right; by left).
  destruct (la_values _ _ _ _ L e Hein Hs) as [V1 V2]. destruct Hlow as (M1 & M2 & M3).
  pose proof (last_of_bounds l1) as Hh. fold here in Hh. unfold FIRST_ENTRY, xattr_header_size in Hh.
  pose proof (xattr_size_pos (x_size e) Hs) as Hp. fold (x_room e) in Hp. fold size in Hp.
  pose proof (la_gap _ _ _ _ L). pose proof (la_room _ _ _ _ L).
  split_and!; try done; try lia.
  - unfold es. rewrite last_of_app. cbn [total]. fold here. pose proof (total_bounds l2). pose proof (len_nonneg l2). lia.
  - destruct M3 as [->|(e0 & He0 & Hs0 & ->)]; [lia|]. destruct (la_values _ _ _ _ L e0 He0 Hs0). lia.
  - by apply M2.
  - apply (la_max _ _ _ _ L).
Qed.

(** The values above and below the one that goes. *)
Lemma remove_other e0 : e0 ∈ l1 ++ l2 -> 0 < x_size e0 ->
  m <= x_offs e0 /\ last_of es + 4 <= x_offs e0 /\ x_offs e0 + x_room e0 <= len d /\
  (x_offs e0 + x_room e0 <= offs \/ offs + size <= x_offs e0) /\
  x_offs (low e0) = if x_offs e0 <? offs then x_offs e0 + size else x_offs e0.
Proof using All.
  intros He0 Hs0. destruct remove_bounds as (Hein & B1 & B2 & B3 & B4 & B5 & B6 & B7 & B8).
  assert (He0' : e0 ∈ es) by (apply elem_of_app in He0 as [?|?]; apply elem_of_app; [by left|right; by right]).
  destruct (la_values _ _ _ _ L e0 He0' Hs0) as [V1 V2]. pose proof (la_gap _ _ _ _ L).
  pose proof (xattr_size_pos (x_size e0) Hs0) as Hp. fold (x_room e0) in Hp.
  destruct Hlow as (_ & M2 & _). specialize (M2 e0 He0' Hs0). split; [done|]. split; [lia|]. split; [done|].
  assert (Hap : x_offs e0 + x_room e0 <= offs \/ offs + size <= x_offs e0).
  { destruct (la_apart _ _ _ _ L e0 e He0' Hein Hs0 Hs) as [->|[?|?]]; [|by left|by right]. by apply Hkey in He0. }
  split; [done|]. unfold low, lowered. destruct (Z.ltb_spec (x_offs e0) offs) as [Hlt|]; [|done].
  cbn. pose proof (x_len_pos e). apply u16_small. lia.
Qed.

(** The bytes: the values from [m] up to the one that goes move up by its room. *)
Lemma remove_bytes (last : Z) value : default [] value = [] \/ EXT2_XATTR_SIZE (len (default [] value)) <> size ->
  exists d', drop_value here last m value d = Ret (Some (last_of es, m + size)) d' /\
  len d' = len d /\ bytes d' /\ (forall j, 0 <= j < FIRST_ENTRY -> get8 d' j = get8 d j) /\
  descs d' FIRST_ENTRY (low <$> l1 ++ with_offs 0 e :: l2) /\
  (forall j, last_of es <= j < m -> get8 d' j = get8 d j) /\
  (forall j, m <= j < m + size -> get8 d' j = 0) /\ shifted d d' size m offs /\
  (forall j, offs + size <= j -> get8 d' j = get8 d j).
Proof using All.
  intros Hvalue. destruct remove_bounds as (Hein & B1 & B2 & B3 & B4 & B5 & B6 & B7 & B8).
  pose proof (x_len_pos e) as Hx. pose proof (layout_fuel _ _ _ _ L) as Hfuel.
  pose proof (descs_entry l1 e l2 d (la_descs _ _ _ _ L)) as He. fold here in He.
  destruct (entry_room d here e He) as (R1 & R2 & R3).
  destruct (moved d (m + size) m (offs - m)) as [W1 S1]; [apply L|lia..|]. set (d1 := put_bytes d (m + size) _) in *.
  destruct (zeroed d1 m size) as [W2 Z2]; [lia|lia|rewrite (wi_len _ _ _ _ W1); lia|]. set (d2 := put_bytes d1 m _) in *.
  assert (W12 : within m (offs + size) d d2) by join W1 W2. assert (Ld2 : len d2 = len d) by apply W12.
  pose proof (within_put16 d2 (here + 2) 0 ltac:(lia) ltac:(lia)) as W3. set (d3 := put16 d2 (here + 2) 0) in *.
  assert (Ld3 : len d3 = len d) by (rewrite (wi_len _ _ _ _ W3); done).
  assert (W3' : within here (here + x_len e) d2 d3) by (split; [by rewrite Ld2|apply W3|]; intros; apply (wi_same _ _ _ _ W3); lia).
  assert (He3 : entry_at d3 here (with_offs 0 e)).
  { apply entry_with_offs; [|lia]. apply (entry_within m (offs + size) d); [done|done|lia]. }
  assert (Hd2 : descs d2 FIRST_ENTRY es).
  { apply (descs_within m (offs + size) d); [apply L|done|unfold FIRST_ENTRY, xattr_header_size; lia|lia|lia]. }
  assert (Hd3 : descs d3 FIRST_ENTRY (l1 ++ with_offs 0 e :: l2)).
  { apply (descs_replace d2 d3 l1 e); [done|fold es; lia|done|done|done]. }
  assert (Hlast3 : last_of (l1 ++ with_offs 0 e :: l2) = last_of es) by by apply last_of_replace.
  assert (Hb3 : bytes d3) by (apply W3, W12, L).
  destruct (adjust_offsets_run offs size (l1 ++ with_offs 0 e :: l2) FIRST_ENTRY (xattr_fuel d3) d3) as (d4 & Hrun4 & W4 & Hd4).
  { done. }
  { done. }
  { pose proof (la_entries _ _ _ _ L) as HF. apply Forall_app in HF as [F1 [F2 F3]%Forall_cons]. apply Forall_app. split; [done|].
    apply Forall_cons. split; [destruct F2; by split|done]. }
  { done. }
  { fold (last_of (l1 ++ with_offs 0 e :: l2)). rewrite Hlast3. split; [lia|]. split; [lia|]. apply get32_zero. intros j Hj.
    rewrite (wi_same _ _ _ _ W3), (wi_same _ _ _ _ W12) by lia. apply (layout_free _ _ _ _ _ L). pose proof (la_gap _ _ _ _ L). lia. }
  { unfold xattr_fuel, es in *. rewrite !length_app in *. cbn [length] in *. unfold len in *. lia. }
  fold (last_of (l1 ++ with_offs 0 e :: l2)) in Hrun4, W4. rewrite Hlast3 in Hrun4, W4.
  assert (W34 : within FIRST_ENTRY (last_of es) d2 d4) by (unfold FIRST_ENTRY, xattr_header_size in *; join W3' W4).
  exists d4. split; [|split; [|split; [|split; [|split; [done|split; [|split; [|split]]]]]]].
  - unfold drop_value. rewrite (bind_Ret _ _ d (negb (x_size e =? 0)) d) by apply (has_value_run d here e He d).
    replace (negb (x_size e =? 0)) with true by lia. cbn [negb].
    rewrite (bind_Ret _ _ d offs d) by apply (e_value_offs_run d here e He d).
    rewrite (bind_Ret _ _ d (x_size e) d) by apply (e_value_size_run d here e He d).
    change (EXT2_XATTR_SIZE (x_size e)) with size.
    assert ((size =? EXT2_XATTR_SIZE (len (default [] value))) = false) as ->.
    { destruct Hvalue as [->|Hne]; [|lia]. change (EXT2_XATTR_SIZE (len [])) with 0. lia. }
    rewrite (bind_Ret _ _ _ _ _ (memmove_run (m + size) m (offs - m) d ltac:(lia) ltac:(lia) ltac:(lia) ltac:(lia) ltac:(lia))). fold d1.
    rewrite (bind_Ret _ _ _ _ _ (memset0_run m size d1 ltac:(lia) ltac:(lia) ltac:(rewrite (wi_len _ _ _ _ W1); lia))). fold d2.
    rewrite (bind_Ret _ _ _ _ _ (wr16_run (here + 2) 0 d2 ltac:(lia) ltac:(lia))). fold d3.
    rewrite (bind_Ret _ _ d3 d3 d3) by done. by rewrite (bind_Ret _ _ _ _ _ Hrun4).
  - rewrite (wi_len _ _ _ _ W34). done.
  - apply W34, W12, L.
  - intros j Hj. unfold FIRST_ENTRY, xattr_header_size in *.
    rewrite (wi_same _ _ _ _ W34), (wi_same _ _ _ _ W12) by lia. done.
  - intros j Hj. rewrite (wi_same _ _ _ _ W34), (wi_same _ _ _ _ W12) by lia. done.
  - intros j Hj. rewrite (wi_same _ _ _ _ W34) by lia. apply Z2. lia.
  - intros j Hj. rewrite (wi_same _ _ _ _ W34), (wi_same _ _ _ _ W2) by lia. specialize (S1 j ltac:(lia)).
    by replace (j + (m + size - m)) with (j + size) in S1 by lia.
  - intros j Hj. rewrite (wi_same _ _ _ _ W34), (wi_same _ _ _ _ W12) by lia. done.
Qed.

(** The block without the value. *)
Lemma remove_layout d' : len d' = len d -> bytes d' -> descs d' FIRST_ENTRY (low <$> l1 ++ with_offs 0 e :: l2) ->
  (forall j, last_of es <= j < m -> get8 d' j = get8 d j) ->
  (forall j, m <= j < m + size -> get8 d' j = 0) -> shifted d d' size m offs ->
  (forall j, offs + size <= j -> get8 d' j = get8 d j) ->
  layout 4 d' (low <$> l1 ++ with_offs 0 e :: l2) (low <$> l1 ++ l2) /\
  (forall e0, e0 ∈ l1 ++ l2 -> value d' (low e0) = value d e0) /\
  (forall e0, e0 ∈ low <$> l1 ++ l2 -> 0 < x_size e0 -> m + size <= x_offs e0).
Proof using All.
  intros Ld Hb Hd K1 K2 K3 K4. destruct remove_bounds as (Hein & B1 & B2 & B3 & B4 & B5 & B6 & B7 & B8).
  pose proof (x_len_pos e) as Hx. pose proof (la_gap _ _ _ _ L) as Hgap. pose proof (la_room _ _ _ _ L) as Hroom.
  assert (Hlast : last_of (low <$> l1 ++ with_offs 0 e :: l2) = last_of es).
  { unfold low. rewrite last_of_lowered. by apply last_of_replace. }
  assert (Hsize : forall e0, x_size (low e0) = x_size e0) by (intros; apply lowered_size).
  assert (Hrm : forall e0, x_room (low e0) = x_room e0) by (intros e0; unfold x_room; by rewrite Hsize).
  assert (Hin : forall e0, e0 ∈ l1 ++ l2 -> e0 ∈ es).
  { intros e0 He0. apply elem_of_app in He0 as [?|?]; apply elem_of_app; [by left|right; by right]. }
  assert (Hcase : forall e0, e0 ∈ l1 ++ l2 -> 0 < x_size e0 ->
    x_offs e0 + x_room e0 <= offs /\ x_offs (low e0) = x_offs e0 + size /\ m <= x_offs e0 \/
    offs + size <= x_offs e0 /\ x_offs (low e0) = x_offs e0 /\ x_offs e0 + x_room e0 <= len d).
  { intros e0 He0 Hs0. destruct (remove_other e0 He0 Hs0) as (Q1 & Q2 & Q3 & Q4 & Q5).
    pose proof (xattr_size_pos (x_size e0) Hs0) as Hp. fold (x_room e0) in Hp. rewrite Q5.
    destruct (Z.ltb_spec (x_offs e0) offs); [left|right]; lia. }
  split; [|split].
  - split; rewrite ?Hlast, ?Ld; try done; try lia.
    + apply (la_mod _ _ _ _ L).
    + pose proof (la_entries _ _ _ _ L) as HF. apply Forall_app in HF as [F1 [F2 F3]%Forall_cons].
      rewrite Forall_forall in F1, F3. apply Forall_forall. intros e0 He0. apply list_elem_of_fmap in He0 as (e1 & -> & He1).
      apply lowered_ok. apply elem_of_app in He1 as [?|[->|?]%elem_of_cons]; [auto|destruct F2; by split|auto].
    + intros e0 He0. apply list_elem_of_fmap in He0 as (e1 & -> & He1). pose proof (len_nonneg d).
      assert (Hor : x_offs e1 = 0 \/ 0 <= x_offs e1 <= len d).
      { apply elem_of_app in He1 as [He1|[->|He1]%elem_of_cons]; [right|by left|right];
          apply (la_offs _ _ _ _ L), elem_of_app; [by left|right; by right]. }
      unfold low, lowered. destruct (Z.ltb_spec (x_offs e1) offs) as [Hlt|]; [|lia]. cbn.
      rewrite u16_small by lia. lia.
    + intros e0 He0. apply list_elem_of_fmap in He0 as (e1 & -> & He1). apply list_elem_of_fmap. exists e1. split; [done|].
      apply elem_of_app in He1 as [?|?]; apply elem_of_app; [by left|right; by right].
    + intros e0 He0 Hs0. apply list_elem_of_fmap in He0 as (e1 & -> & He1). rewrite Hsize in Hs0. rewrite Hrm.
      destruct (remove_other e1 He1 Hs0) as (Q1 & Q2 & Q3 & Q4 & Q5). destruct (Hcase e1 He1 Hs0); lia.
    + intros e1 e2 H1 H2 S1 S2. apply list_elem_of_fmap in H1 as (f1 & -> & F1). apply list_elem_of_fmap in H2 as (f2 & -> & F2).
      rewrite Hsize in S1, S2. rewrite !Hrm. destruct (la_apart _ _ _ _ L f1 f2 (Hin _ F1) (Hin _ F2) S1 S2) as [->|Hap]; [by left|right].
      pose proof (Hcase f1 F1 S1). pose proof (Hcase f2 F2 S2). lia.
    + intros j Hj Hout. assert (Hout' : forall e1, e1 ∈ l1 ++ l2 -> 0 < x_size e1 ->
        j < x_offs (low e1) \/ x_offs (low e1) + x_room e1 <= j).
      { intros e1 He1 Hs1. rewrite <- (Hrm e1). apply Hout; [apply list_elem_of_fmap; by exists e1|by rewrite Hsize]. }
      assert (Hall : forall x, last_of es <= x < len d -> (x < offs \/ offs + size <= x) ->
        (forall e1, e1 ∈ l1 ++ l2 -> 0 < x_size e1 -> x < x_offs e1 \/ x_offs e1 + x_room e1 <= x) -> get8 d x = 0).
      { intros x Hxr Hxo Hx1. apply (la_zero _ _ _ _ L); [done|]. intros e1 He1 Hs1.
        apply elem_of_app in He1 as [He1|[->|He1]%elem_of_cons]; [apply Hx1; [apply elem_of_app; by left|done]|done|apply Hx1; [apply elem_of_app; by right|done]]. }
      destruct (decide (j < m)) as [J1|J1]; [|destruct (decide (j < m + size)) as [J2|J2]; [by apply K2; lia|destruct (decide (j < offs + size)) as [J3|J3]]].
      * rewrite K1 by lia. apply Hall; [lia|lia|]. intros e1 He1 Hs1. destruct (remove_other e1 He1 Hs1). lia.
      * replace j with (j - size + size) by lia. rewrite K3 by lia. apply Hall; [lia|lia|].
        intros e1 He1 Hs1. specialize (Hout' e1 He1 Hs1). destruct (Hcase e1 He1 Hs1); lia.
      * rewrite K4 by lia. apply Hall; [lia|lia|]. intros e1 He1 Hs1. specialize (Hout' e1 He1 Hs1). destruct (Hcase e1 He1 Hs1); lia.
  - intros e0 He0. destruct (decide (x_size e0 = 0)) as [Hz|Hz]; [by rewrite !value_empty by by rewrite ?Hsize|].
    assert (Hs0 : 0 < x_size e0).
    { pose proof (la_entries _ _ _ _ L) as HF. rewrite Forall_forall in HF. pose proof (xe_size e0 (HF e0 (Hin e0 He0))). lia. }
    destruct (remove_other e0 He0 Hs0) as (Q1 & Q2 & Q3 & Q4 & Q5). pose proof (xattr_size_bounds (x_size e0)) as Hsb. fold (x_room e0) in Hsb.
    unfold value. rewrite Hsize. destruct (Hcase e0 He0 Hs0) as [(C1 & -> & C3)|(C1 & -> & C3)].
    + apply sub_shift; [lia|lia|lia|lia|lia|]. intros j Hj. apply K3. lia.
    + apply sub_ext; [lia|lia|lia|done|]. intros j Hj. apply K4. lia.
  - intros e0 He0 Hs0. apply list_elem_of_fmap in He0 as (e1 & -> & He1). rewrite Hsize in Hs0. destruct (remove_other e1 He1 Hs0).
    destruct (Hcase e1 He1 Hs0); lia.
Qed.

End Remove.
