(* ===== verification/XattrFacts.v ===== *)
(** * Attribute blocks as association lists

    An attribute block holds a list of attributes sorted by name; the change of
    [ext2_xattr_set] puts an attribute in its place in the list or takes it out. *)

From Stdlib Require Import Sorted.
From S2P Require Import Prelude Bytes Bits Kr Rsv Bitmap Alloc State Balloc BlockMap Xattr XattrBlock XattrChange.

Definition attr : Type := Z * list Z * list Z.

(** The attributes that the entries [es] of the block [d] stand for. *)
Definition pairs (d : list Z) (es : list xentry) : list attr := (fun e => (x_key e, value d e)) <$> es.

Lemma pairs_app d l1 l2 : pairs d (l1 ++ l2) = pairs d l1 ++ pairs d l2.
Proof. apply fmap_app. Qed.
Lemma pairs_keep d d' es : keeps_values d d' es -> pairs d' es = pairs d es.
Proof.
  intros H. unfold pairs. apply list_fmap_ext. intros i e He%list_elem_of_lookup_2. by rewrite (H e He).
Qed.
Lemma pairs_fmap d d' (f : xentry -> xentry) es : (forall e, x_key (f e) = x_key e) ->
  (forall e, e ∈ es -> value d' (f e) = value d e) -> pairs d' (f <$> es) = pairs d es.
Proof.
  intros Hk Hv. unfold pairs. rewrite <- list_fmap_compose. apply list_fmap_ext.
  intros i e He%list_elem_of_lookup_2. cbn. by rewrite Hk, (Hv e He).
Qed.
Lemma keeps_app d d' l1 l2 : keeps_values d d' (l1 ++ l2) -> keeps_values d d' l1 /\ keeps_values d d' l2.
Proof. intros H. split; intros e He; apply H, elem_of_app; auto. Qed.

(** ** Layouts *)

Lemma layout_gap g g' d es vs : layout g d es vs -> 4 <= g' -> last_of es + g' <= len d ->
  (forall e, e ∈ vs -> 0 < x_size e -> last_of es + g' <= x_offs e) -> layout g' d es vs.
Proof.
  intros [L1 L2 L3 L4 L5 L6 L7 L8 L9 L10 L11 L12] Hg Hr Hv. split; try done.
  intros e He Hs. split; [by apply Hv|by apply L10].
Qed.
Lemma layout_4 g d es vs : layout g d es vs -> layout 4 d es vs.
Proof.
  intros L. pose proof (la_gap _ _ _ _ L). pose proof (la_room _ _ _ _ L).
  apply (layout_gap g); [done|lia|lia|]. intros e He Hs. destruct (la_values _ _ _ _ L e He Hs). lia.
Qed.
(** The free bytes reach up to the lowest value. *)
Lemma lowest_room g d es m : layout g d es es -> lowest (len d) es m -> last_of es + g <= m <= len d.
Proof.
  intros L (H1 & H2 & H3). pose proof (la_room _ _ _ _ L). split; [|done].
  destruct H3 as [->|(e & He & Hs & ->)]; [done|]. by destruct (la_values _ _ _ _ L e He Hs).
Qed.
Lemma layout_lowest g d es m : layout g d es es -> lowest (len d) es m -> layout (m - last_of es) d es es.
Proof.
  intros L H. pose proof (lowest_room _ _ _ _ L H). pose proof (la_gap _ _ _ _ L). destruct H as (_ & M2 & _).
  apply (layout_gap g); [done|lia|lia|]. intros e He Hs. specialize (M2 e He Hs). lia.
Qed.
(** An entry without a value. *)
Lemma layout_no_value g d l1 e l2 : layout g d (l1 ++ e :: l2) (l1 ++ e :: l2) -> x_size e = 0 ->
  layout g d (l1 ++ e :: l2) (l1 ++ l2).
Proof.
  intros [L1 L2 L3 L4 L5 L6 L7 L8 L9 L10 L11 L12] Hz.
  assert (Hin : forall e0, e0 ∈ l1 ++ l2 -> e0 ∈ l1 ++ e :: l2).
  { intros e0 [?|?]%elem_of_app; apply elem_of_app; [by left|right; by right]. }
  split; try done; auto.
  intros j Hj Hout. apply L12; [done|]. intros e0 He0 Hs. apply Hout; [|done].
  apply elem_of_app in He0 as [?|[->|?]%elem_of_cons]; [apply elem_of_app; by left|lia|apply elem_of_app; by right].
Qed.

(** ** Taking a value out *)

(** [d1] is the block [d] without the value of the entry between [l1] and [l2]: its
    place is free. *)
Record value_dropped (d : list Z) (l1 : list xentry) (e : xentry) (l2 : list xentry) (m : Z)
    (d1 : list Z) (l1' : list xentry) (e1 : xentry) (l2' : list xentry) : Prop := {
  vd_within : within FIRST_ENTRY (len d) d d1;
  vd_layout : layout 4 d1 (l1' ++ e1 :: l2') (l1' ++ l2');
  vd_key : x_key e1 = x_key e;
  vd_pairs1 : pairs d1 l1' = pairs d l1;
  vd_pairs2 : pairs d1 l2' = pairs d l2;
  vd_here : last_of l1' = last_of l1;
  vd_last : last_of (l1' ++ e1 :: l2') = last_of (l1 ++ e :: l2);
  vd_room : m + x_room e <= len d;
  vd_low : forall e0, e0 ∈ l1' ++ l2' -> 0 < x_size e0 -> m + x_room e <= x_offs e0;
}.

Lemma drop_value_run d l1 e l2 m v : let es := l1 ++ e :: l2 in
  layout 4 d es es -> only_key e (l1 ++ l2) -> lowest (len d) es m ->
  (0 < x_size e -> default [] v = [] \/ EXT2_XATTR_SIZE (len (default [] v)) <> x_room e) ->
  exists d1 l1' e1 l2', drop_value (last_of l1) (last_of es) m v d = Ret (Some (last_of es, m + x_room e)) d1 /\
    value_dropped d l1 e l2 m d1 l1' e1 l2'.
Proof.
  intros es L Hkey Hlow Hv. assert (Hein : e ∈ es) by (apply elem_of_app; right; by left).
  assert (Hsz : 0 <= x_size e) by (pose proof (la_entries _ _ _ _ L) as HF; rewrite Forall_forall in HF; by apply HF).
  destruct (decide (x_size e = 0)) as [Hz|Hz].
  - pose proof (descs_entry l1 e l2 d (la_descs _ _ _ _ L)) as He.
    assert (x_room e = 0) as Hr by (unfold x_room; by rewrite Hz). rewrite Hr, Z.add_0_r.
    exists d, l1, e, l2. split.
    + unfold drop_value. rewrite (bind_Ret _ _ d (negb (x_size e =? 0)) d) by apply (has_value_run d (last_of l1) e He d).
      by rewrite Hz.
    + split; try done; rewrite ?Hr, ?Z.add_0_r; [by apply layout_no_value|apply Hlow|].
      intros e0 He0 Hs. apply Hlow; [|done]. apply elem_of_app in He0 as [?|?]; apply elem_of_app; [by left|right; by right].
  - destruct (remove_bytes 4 d l1 l2 e m L Hkey ltac:(lia) Hlow (last_of es) v) as (d1 & Hrun & Ld & Hb & K0 & Hd & K1 & K2 & K3 & K4); [apply Hv; lia|].
    destruct (remove_layout 4 d l1 l2 e m L Hkey ltac:(lia) Hlow d1 Ld Hb Hd K1 K2 K3 K4) as (L1 & V1 & O1).
    destruct (remove_bounds 4 d l1 l2 e m L Hkey ltac:(lia) Hlow) as (_ & _ & _ & _ & B4 & B5 & _).
    set (low := lowered (x_offs e) (x_room e)) in *. rewrite !fmap_app, fmap_cons in L1.
    exists d1, (low <$> l1), (low (with_offs 0 e)), (low <$> l2). split; [done|]. split; try done.
    + split; [done|done|]. intros j Hj Hout. unfold FIRST_ENTRY, xattr_header_size in *.
      destruct Hout as [Ho|Ho]; [apply K0; lia|apply K4; lia].
    + unfold low. by rewrite lowered_key.
    + apply pairs_fmap; [apply lowered_key|]. intros e0 He0. apply V1, elem_of_app. by left.
    + apply pairs_fmap; [apply lowered_key|]. intros e0 He0. apply V1, elem_of_app. by right.
    + apply last_of_lowered.
    + rewrite <- fmap_cons, <- fmap_app. unfold low. rewrite last_of_lowered. by apply last_of_replace.
    + lia.
    + by rewrite <- fmap_app.
Qed.

(** ** The order *)

Definition key_lt (k1 k2 : Z * list Z) : Prop := key_cmp k1 k2 < 0.

Lemma key_lt_irrefl k : ~ key_lt k k.
Proof. unfold key_lt. rewrite key_cmp_refl. lia. Qed.

Lemma strongly_app {A} (R : A -> A -> Prop) l1 l2 :
  StronglySorted R (l1 ++ l2) <->
    StronglySorted R l1 /\ StronglySorted R l2 /\ forall x y, x ∈ l1 -> y ∈ l2 -> R x y.
Proof.
  induction l1 as [|a l1 IH]; cbn [app].
  - split; [intros H; split; [constructor|split; [done|]]; intros x y Hx; by apply elem_of_nil in Hx|by intros (_ & H & _)].
  - split.
    + inversion_clear 1 as [|? ? Hs Hall]. apply IH in Hs as (H1 & H2 & H3). apply Forall_app in Hall as [F1 F2].
      rewrite Forall_forall in F2. split; [by constructor|]. split; [done|].
      intros x y [->|Hx]%elem_of_cons Hy; auto.
    + intros (H1 & H2 & H3). inversion_clear H1 as [|? ? Hs Hall]. constructor.
      * apply IH. split; [done|]. split; [done|]. intros x y Hx. apply H3. by right.
      * apply Forall_app. split; [done|]. apply Forall_forall. intros y Hy. apply H3; [by left|done].
Qed.
Lemma sorted_keys es : sorted es <-> StronglySorted key_lt (x_key <$> es).
Proof.
  unfold sorted. induction es as [|e es IH]; [by split; constructor|]. rewrite fmap_cons. split.
  - inversion_clear 1 as [|? ? Hs Hall]. constructor; [by apply IH|]. by apply Forall_fmap.
  - inversion_clear 1 as [|? ? Hs Hall]. constructor; [by apply IH|]. by apply (Forall_fmap x_key) in Hall.
Qed.
Lemma keys_pairs d es : (pairs d es).*1 = x_key <$> es.
Proof. unfold pairs. rewrite <- list_fmap_compose. done. Qed.
Lemma sorted_only l1 e l2 : sorted (l1 ++ e :: l2) -> only_key e (l1 ++ l2).
Proof.
  unfold sorted. rewrite strongly_app. intros (_ & H2 & H3). inversion_clear H2 as [|? ? Hs Hall].
  rewrite Forall_forall in Hall. intros e0 [He|He]%elem_of_app Hk.
  - specialize (H3 e0 e He ltac:(by left)). rewrite Hk, key_cmp_refl in H3. lia.
  - specialize (Hall e0 He). rewrite Hk, key_cmp_refl in Hall. lia.
Qed.

(** ** The change of a block *)

Definition new_attr (k : Z * list Z) (v : option (list Z)) : list attr :=
  match v with Some v => [(k, v)] | None => [] end.

(** From [here] on, the block [d'] has the attribute [k] with the value [v] (or has no
    such attribute) and then [al2]; before, it has [al1]. *)
Record block_changed (d d' : list Z) (here : Z) (al1 al2 : list attr) (k : Z * list Z) (v : option (list Z))
    (g : Z) (l1 l2 : list xentry) : Prop := {
  bk_within : within FIRST_ENTRY (len d) d d';
  bk_layout : layout g d' (l1 ++ l2) (l1 ++ l2);
  bk_here : last_of l1 = here;
  bk_pairs1 : pairs d' l1 = al1;
  bk_pairs2 : pairs d' l2 = new_attr k v ++ al2;
  bk_gap : is_Some v \/ 20 <= g;
}.

Lemma within_all_trans (d1 d2 d3 : list Z) : within FIRST_ENTRY (len d1) d1 d2 -> within FIRST_ENTRY (len d2) d2 d3 ->
  within FIRST_ENTRY (len d1) d1 d3.
Proof. intros W1 W2. rewrite (wi_len _ _ _ _ W1) in W2. join W1 W2. Qed.

Lemma lookup_lowest (d : list Z) es m e : lowest (len d) es m -> e ∈ es -> 0 < x_size e -> m <= x_offs e.
Proof. intros (_ & H & _). auto. Qed.

Section Change.
Variables (d : list Z) (name_index : Z) (name : list Z).
Hypothesis Hname : bytes name.
Hypothesis Hlen : len name <= 255.
Hypothesis Hindex : 1 <= name_index <= 255.
Let k := (name_index, name).

Lemma insert_entry_run l1 l2 m v : let es := l1 ++ l2 in
  layout 4 d es es -> lowest (len d) es m -> bytes v ->
  last_of es + 4 + EXT2_XATTR_LEN (len name) + EXT2_XATTR_SIZE (len v) <= m ->
  exists d' g l1' l2', change_entry true (last_of l1) (last_of es) m name_index name (Some v) d = Ret tt d' /\
    block_changed d d' (last_of l1) (pairs d l1) (pairs d l2) k (Some v) g l1' l2'.
Proof using All.
  intros es L Hlow Hv Hroom. set (size := EXT2_XATTR_LEN (len name)) in *.
  pose proof (layout_lowest _ _ _ _ L Hlow) as L0. pose proof (len_nonneg v).
  pose proof (xattr_size_bounds (len v)) as Hsv. pose proof (lowest_room _ _ _ _ L Hlow) as Hm.
  destruct (insert_name_run _ d l1 l2 name_index name L0 Hname Hlen Hindex) as (d1 & Hrun1 & W1 & L1 & V1); [fold size es; lia|].
  set (e := new_entry name_index name) in *. fold es in Hrun1.
  assert (Ld1 : len d1 = len d) by apply W1.
  assert (Hlast : last_of (l1 ++ e :: l2) = last_of es + size).
  { unfold es. rewrite !last_of_app. cbn [total]. change (x_len e) with size. lia. }
  destruct (insert_value_run _ d1 l1 l2 e m v L1 Hv) as (d2 & Hrun2 & W2 & L2 & V2 & Hval); [lia|rewrite Hlast; lia| |].
  { intros e0 He0 Hs. by apply (lookup_lowest d es). }
  destruct (keeps_app _ _ _ _ V1) as [V11 V12]. destruct (keeps_app _ _ _ _ V2) as [V21 V22].
  exists d2, 4, l1, (entry_with e m v :: l2). split.
  - unfold change_entry. unfold mbind at 1, M_bind at 1. rewrite (bind_Ret _ _ _ _ _ Hrun1). exact Hrun2.
  - split; [by apply (within_all_trans d d1)|done|done| | |by left].
    + by rewrite (pairs_keep _ _ _ V21), (pairs_keep _ _ _ V11).
    + change (pairs d2 (entry_with e m v :: l2)) with ((k, value d2 (entry_with e m v)) :: pairs d2 l2).
      by rewrite Hval, (pairs_keep _ _ _ V22), (pairs_keep _ _ _ V12).
Qed.

Section Found.
Variables (l1 l2 : list xentry) (e : xentry) (m : Z).
Let es := l1 ++ e :: l2.
Hypothesis L : layout 4 d es es.
Hypothesis Hlow : lowest (len d) es m.
Hypothesis Hkey : x_key e = k.
Hypothesis Honly : only_key e (l1 ++ l2).

Lemma replace_entry_run v : bytes v -> 0 < x_size e -> x_room e = EXT2_XATTR_SIZE (len v) ->
  exists d' g l1' l2', change_entry false (last_of l1) (last_of es) m name_index name (Some v) d = Ret tt d' /\
    block_changed d d' (last_of l1) (pairs d l1) (pairs d l2) k (Some v) g l1' l2'.
Proof using All.
  intros Hv Hs Hr. destruct (replace_value_run 4 d l1 l2 e (last_of es) m v L Honly Hs Hr Hv) as (d1 & Hrun & W & L1 & V & Hval).
  destruct (keeps_app _ _ _ _ V) as [V1 V2].
  exists d1, 4, l1, (with_size (len v) e :: l2). split.
  - unfold change_entry. unfold mbind at 1, M_bind at 1. by rewrite (bind_Ret _ _ _ _ _ Hrun).
  - split; [done|done|done| | |by left].
    + by rewrite (pairs_keep _ _ _ V1).
    + change (pairs d1 (with_size (len v) e :: l2)) with ((x_key e, value d1 (with_size (len v) e)) :: pairs d1 l2).
      by rewrite Hval, (pairs_keep _ _ _ V2), Hkey.
Qed.

(** The value goes, and the new one, if there is one, is put below the others. *)
Lemma move_entry_run v : bytes v -> (0 < x_size e -> x_room e <> EXT2_XATTR_SIZE (len v)) ->
  last_of es + 4 + EXT2_XATTR_SIZE (len v) <= m + x_room e ->
  exists d' g l1' l2', change_entry false (last_of l1) (last_of es) m name_index name (Some v) d = Ret tt d' /\
    block_changed d d' (last_of l1) (pairs d l1) (pairs d l2) k (Some v) g l1' l2'.
Proof using All.
  intros Hv Hne Hroom. destruct (drop_value_run d l1 e l2 m (Some v) L Honly Hlow) as (d1 & l1' & e1 & l2' & Hrun & D).
  { intros Hs. right. by apply not_eq_sym, Hne. }
  destruct D as [W1 L1 Hk1 P1 P2 Hhere Hlast Hm Hlow1]. assert (Ld1 : len d1 = len d) by apply W1.
  destruct (insert_value_run 4 d1 l1' l2' e1 (m + x_room e) v L1 Hv) as (d2 & Hrun2 & W2 & L2 & V2 & Hval);
    [lia|rewrite Hlast; fold es; lia|done|].
  destruct (keeps_app _ _ _ _ V2) as [V21 V22]. set (e2 := entry_with e1 (m + x_room e) v) in *.
  exists d2, 4, l1', (e2 :: l2'). split.
  - unfold change_entry. unfold mbind at 1, M_bind at 1. fold es in Hrun. rewrite (bind_Ret _ _ _ _ _ Hrun).
    rewrite <- Hhere. exact Hrun2.
  - split; [by apply (within_all_trans d d1)|done|done| | |by left].
    + by rewrite (pairs_keep _ _ _ V21).
    + change (pairs d2 (e2 :: l2')) with ((x_key e1, value d2 e2) :: pairs d2 l2').
      by rewrite Hval, (pairs_keep _ _ _ V22), Hk1, Hkey, P2.
Qed.

Lemma remove_entry_run :
  exists d' g l1' l2', change_entry false (last_of l1) (last_of es) m name_index name None d = Ret tt d' /\
    block_changed d d' (last_of l1) (pairs d l1) (pairs d l2) k None g l1' l2'.
Proof using All.
  destruct (drop_value_run d l1 e l2 m None L Honly Hlow) as (d1 & l1' & e1 & l2' & Hrun & D); [by left|].
  destruct D as [W1 L1 Hk1 P1 P2 Hhere Hlast Hm Hlow1]. assert (Ld1 : len d1 = len d) by apply W1.
  assert (Hn : x_name e1 = name) by (rewrite Hkey in Hk1; by injection Hk1).
  destruct (remove_name_run 4 d1 l1' l2' e1 name Hn L1) as (d2 & Hrun2 & W2 & L2 & V2).
  destruct (keeps_app _ _ _ _ V2) as [V21 V22].
  exists d2, (4 + x_len e1), l1', l2'. split.
  - unfold change_entry. unfold mbind at 1, M_bind at 1. fold es in Hrun. rewrite (bind_Ret _ _ _ _ _ Hrun).
    fold es in Hlast. rewrite <- Hlast, <- Hhere. unfold mbind at 1, M_bind at 1. by rewrite Hrun2.
  - split; [by apply (within_all_trans d d1)|done|done| | |].
    + by rewrite (pairs_keep _ _ _ V21).
    + by rewrite (pairs_keep _ _ _ V22), P2.
    + right. pose proof (x_len_pos e1). lia.
Qed.

End Found.

(** The whole change, for an attribute that is there or not. *)
Lemma change_entry_run l1 l2 nf m v : let es := l1 ++ l2 in
  let mid := if nf : bool then 0 else match l2 with e :: _ => x_room e | [] => 0 end in
  layout 4 d es es -> sorted es -> lowest (len d) es m -> placed_at k nf l1 l2 ->
  match v with
  | Some v => bytes v /\
      last_of es + 4 + (if nf then EXT2_XATTR_LEN (len name) else 0) + EXT2_XATTR_SIZE (len v) <= m + mid
  | None => nf = false
  end ->
  exists d' g l1' l2', change_entry nf (last_of l1) (last_of es) m name_index name v d = Ret tt d' /\
    block_changed d d' (last_of l1) (pairs d l1) (pairs d (if nf then l2 else tail l2)) k v g l1' l2'.
Proof using All.
  intros es mid L Hsort Hlow [Hp1 Hp2] Hv. destruct nf.
  - destruct v as [v|]; [|done]. destruct Hv as [Hv Hroom]. apply insert_entry_run; try done. unfold mid in Hroom. cbv iota in Hroom. fold es. lia.
  - destruct Hp2 as (e & l & -> & Hk). cbn [tail]. assert (Honly : only_key e (l1 ++ l)) by (by apply sorted_only).
    destruct v as [v|]; [|by apply remove_entry_run]. destruct Hv as [Hv Hroom]. unfold mid in Hroom. cbv iota in Hroom.
    destruct (decide (0 < x_size e /\ x_room e = EXT2_XATTR_SIZE (len v))) as [[H1 H2]|Hn]; [by apply replace_entry_run|].
    apply move_entry_run; try done; [intros ??; by apply Hn|]. fold es. lia.
Qed.

End Change.

(** ** Hashing *)

Lemma get8_ext d d' : len d' = len d -> (forall j, 0 <= j < len d -> get8 d' j = get8 d j) -> d' = d.
Proof.
  intros Hl H. apply list_eq. intros i. destruct (decide (Z.of_nat i < len d)) as [Hi|Hi].
  - specialize (H (Z.of_nat i) ltac:(lia)).
    pose proof (lookup_get8 d (Z.of_nat i) ltac:(lia)) as H1. pose proof (lookup_get8 d' (Z.of_nat i) ltac:(lia)) as H2.
    rewrite Nat2Z.id in H1, H2. congruence.
  - unfold len in *. rewrite !lookup_ge_None_2 by lia. done.
Qed.

Lemma lxor_range a b : 0 <= a < 4294967296 -> 0 <= b < 4294967296 -> 0 <= Z.lxor a b < 4294967296.
Proof.
  intros Ha Hb. assert (Z.lxor a b = Z.lxor a b mod 2 ^ 32) as ->; [|apply Z.mod_pos_bound; lia].
  rewrite <- (Z.mod_small a (2 ^ 32)), <- (Z.mod_small b (2 ^ 32)) at 1 by lia.
  rewrite <- !Z.land_ones by lia. apply Z.bits_inj'. intros n Hn.
  rewrite Z.lxor_spec, !Z.land_spec, Z.lxor_spec. by destruct (Z.testbit a n), (Z.testbit b n), (Z.testbit (Z.ones 32) n).
Qed.
Lemma hash_step_range shift hash v : 0 <= shift <= 32 -> 0 <= hash < 4294967296 ->
  0 <= hash_step shift hash v < 4294967296.
Proof.
  intros Hs Hh. unfold hash_step. apply lxor_range; [|apply u32_range]. apply lxor_range; [apply u32_range|].
  rewrite Z.shiftr_div_pow2 by lia. split; [apply Z.div_pos; lia|].
  apply Z.le_lt_trans with hash; [|lia]. apply Z.div_le_upper_bound; [lia|].
  pose proof (Z.pow_pos_nonneg 2 (32 - shift)). nia.
Qed.
Lemma name_hash_range name : forall h, 0 <= h < 4294967296 ->
  0 <= fold_left (fun hash b => hash_step 5 hash (s8 b)) name h < 4294967296.
Proof. induction name as [|b name IH]; intros h Hh; [done|]. cbn [fold_left]. apply IH, hash_step_range; lia. Qed.

Section Reads.
Variable d : list Z.
Hypothesis Hb : bytes d.

Lemma hash_words_run : forall n o h, 0 <= o -> o + 4 * Z.of_nat n <= len d -> 0 <= h < 4294967296 ->
  exists h', hash_words n o h d = Ret h' d /\ 0 <= h' < 4294967296.
Proof using.
  induction n as [|n IH]; intros o h Ho Hl Hh; [by exists h|]. cbn [hash_words].
  rewrite (bind_Ret _ _ d (get32 d o) d) by (unfold reading_block; by apply at32_run; lia).
  apply IH; [lia|lia|]. by apply hash_step_range.
Qed.

Lemma hash_entries_run : forall es o fuel h, descs d o es -> Forall entry_ok es -> last_word d (o + total es) ->
  (length es < fuel)%nat -> 0 <= h < 4294967296 ->
  exists h', hash_entries fuel o h d = Ret h' d /\ 0 <= h' < 4294967296.
Proof using Hb.
  induction es as [|e es IH]; intros o [|fuel] h Hd Hok Hl Hf Hh; simpl in Hf; try lia; cbn [hash_entries total] in *.
  - rewrite Z.add_0_r in Hl. rewrite (bind_Ret _ _ d true d) by apply (last_entry_run d o d Hl). by exists h.
  - destruct Hd as [He Hd]. apply Forall_cons in Hok as [Heo Hok].
    rewrite (bind_Ret _ _ d false d) by apply (entry_not_last d o e He d Hb Heo).
    rewrite (bind_Ret _ _ d (x_hash e) d) by apply (e_hash_run d o e He d).
    destruct (x_hash e =? 0); [by exists 0|].
    rewrite (bind_Ret _ _ d (o + x_len e) d) by apply (xattr_next_run d o e He d).
    apply IH; [done|done|by rewrite <- Z.add_assoc|lia|]. by apply hash_step_range.
Qed.

(** An entry of a layout is hashed; nothing but its hash is written. *)
Lemma hash_entry_run g es vs o e : layout g d es vs -> e ∈ vs -> entry_at d o e -> entry_ok e ->
  exists h, ext2_xattr_hash_entry o d = Ret tt (put32 d (o + 12) h) /\ 0 <= h < 4294967296.
Proof using Hb.
  intros L He Hat Hok. destruct (entry_room d o e Hat) as (R1 & R2 & R3). unfold ext2_xattr_hash_entry.
  rewrite (bind_Ret _ _ d (len (x_name e)) d) by apply (e_name_len_run d o e Hat d).
  rewrite (bind_Ret _ _ d (x_name e) d) by apply (e_name_run d o e Hat d).
  rewrite (bind_Ret _ _ d (negb (x_size e =? 0)) d) by apply (has_value_run d o e Hat d).
  pose proof (name_hash_range (x_name e) 0 ltac:(lia)) as Hn.
  destruct (Z.eqb_spec (x_size e) 0) as [Hz|Hz]; cbn [negb].
  - eexists. split; [|exact Hn]. rewrite (bind_Ret (mret _) _ d _ d eq_refl). apply wr32_run; lia.
  - pose proof (xe_size _ Hok). destruct (la_values _ _ _ _ L e He ltac:(lia)) as [V1 V2].
    pose proof (la_max _ _ _ _ L) as Hmax. pose proof (last_of_bounds es) as Hlb. pose proof (la_gap _ _ _ _ L).
    pose proof (xattr_size_bounds (x_size e)) as Hsb. fold (x_room e) in Hsb. unfold FIRST_ENTRY, xattr_header_size in Hlb.
    assert (Hw : x_offs e + 4 * Z.of_nat (Z.to_nat ((x_size e + 3) / 4)) <= len d).
    { rewrite Z2Nat.id by (apply Z.div_pos; lia). Z.to_euclidean_division_equations; lia. }
    destruct (hash_words_run _ (x_offs e) _ ltac:(lia) Hw Hn) as (h & Hrun & Hh).
    exists h. split; [|done].
    unfold mbind at 1, M_bind at 1. rewrite (bind_Ret _ _ d (x_offs e) d) by apply (e_value_offs_run d o e Hat d).
    rewrite (bind_Ret _ _ d (x_size e) d) by apply (e_value_size_run d o e Hat d).
    unfold EXT2_XATTR_ROUND. rewrite u32_small by lia. rewrite Z.shiftr_div_pow2 by lia. change (2 ^ 2) with 4. rewrite Hrun. apply wr32_run; lia.
Qed.

(** After the last entry there are zeros; the hash of nothing is written over them. *)
Lemma hash_end_run g es vs : layout g d es vs -> 20 <= g -> ext2_xattr_hash_entry (last_of es) d = Ret tt d.
Proof using Hb.
  intros L Hg. set (o := last_of es). pose proof (la_room _ _ _ _ L) as Hr. fold o in Hr.
  pose proof (last_of_bounds es) as Hlb. fold o in Hlb. unfold FIRST_ENTRY, xattr_header_size in Hlb.
  assert (Hz : forall j, o <= j < o + 20 -> get8 d j = 0) by (intros j Hj; apply (layout_free _ _ _ _ _ L); fold o; lia).
  pose proof (sub_eq d (o + 16) 0 [] ltac:(lia) ltac:(lia) eq_refl ltac:(lia)) as Hname.
  unfold ext2_xattr_hash_entry.
  assert (H8 : e_name_len d o d = Ret 0 d) by (unfold e_name_len; rewrite at8_run by lia; by rewrite Hz by lia).
  rewrite (bind_Ret _ _ d 0 d) by exact H8.
  rewrite (bind_Ret _ _ d [] d) by (unfold reading_block, e_name, xattr_entry_size; rewrite <- Hname; by apply at_bytes_run; lia).
  assert (Hv : has_value d o d = Ret false d).
  { unfold has_value, e_value_block, e_value_size. rewrite (bind_Ret _ _ d 0 d).
    - cbn [Z.eqb negb]. rewrite (bind_Ret _ _ d 0 d); [done|]. rewrite at32_run by lia. by rewrite get32_zero by (intros; apply Hz; lia).
    - rewrite at32_run by lia. by rewrite get32_zero by (intros; apply Hz; lia). }
  rewrite (bind_Ret _ _ d false d) by exact Hv. rewrite (bind_Ret (mret _) _ d 0 d eq_refl).
  rewrite wr32_run by lia. f_equal. apply get8_ext; [apply len_put32|]. intros j Hj.
  destruct (decide (o + 12 <= j < o + 16)) as [Hin|Hout]; [|by apply get8_put32_ne; lia].
  rewrite (Hz j) by lia. unfold put32, put16. rewrite !get8_put8 by (rewrite ?len_put8; lia).
  change (u8 _) with 0. repeat (case_match; [done|]). apply Hz; lia.
Qed.

End Reads.

(** The header is not part of the layout. *)
Lemma layout_header g d d' es : layout g d es es -> within 0 FIRST_ENTRY d d' ->
  layout g d' es es /\ pairs d' es = pairs d es.
Proof.
  intros L W. assert (Ld : len d' = len d) by apply W. pose proof (last_of_bounds es) as Hlb.
  pose proof (la_room _ _ _ _ L) as Hr. pose proof (la_gap _ _ _ _ L) as Hg. pose proof (len_nonneg es).
  pose proof (total_bounds es) as Ht. unfold last_of in *. split.
  - destruct L as [L1 L2 L3 L4 L5 L6 L7 L8 L9 L10 L11 L12]. split; rewrite ?Ld; try done.
    + by apply W.
    + apply (descs_within 0 FIRST_ENTRY d); try done; unfold FIRST_ENTRY, xattr_header_size in *; lia.
    + intros j Hj Hout. rewrite (wi_same _ _ _ _ W); [by apply L12| |]; unfold last_of, FIRST_ENTRY, xattr_header_size in *; lia.
  - apply pairs_keep. intros e He. apply (value_within g d es es 0 FIRST_ENTRY); try done.
    + pose proof (la_entries _ _ _ _ L) as HF. rewrite Forall_forall in HF. by apply xe_size, HF.
    + intros Hs. destruct (la_values _ _ _ _ L e He Hs). unfold last_of in *. lia.
Qed.

Lemma rehash_run g d l1 l2 : layout g d (l1 ++ l2) (l1 ++ l2) -> sorted (l1 ++ l2) -> l2 <> [] \/ 20 <= g ->
  exists d' l2', ext2_xattr_rehash (last_of l1) d = Ret tt d' /\ within 12 (len d) d d' /\
    layout g d' (l1 ++ l2') (l1 ++ l2') /\ pairs d' (l1 ++ l2') = pairs d (l1 ++ l2).
Proof.
  intros L Hsort Hg. pose proof (la_bytes _ _ _ _ L) as Hb.
  assert (Hentry : exists d1 l2', ext2_xattr_hash_entry (last_of l1) d = Ret tt d1 /\ within FIRST_ENTRY (len d) d d1 /\
    layout g d1 (l1 ++ l2') (l1 ++ l2') /\ pairs d1 (l1 ++ l2') = pairs d (l1 ++ l2)).
  { destruct l2 as [|e l2].
    - destruct Hg as [?|Hg]; [done|]. exists d, []. split; [|split; [apply within_refl|done]].
      rewrite app_nil_r in L. by apply (hash_end_run d Hb g l1 l1).
    - pose proof (descs_entry l1 e l2 d (la_descs _ _ _ _ L)) as He.
      assert (Hoke : entry_ok e) by (pose proof (la_entries _ _ _ _ L) as HF; by apply Forall_app in HF as [_ [? _]%Forall_cons]).
      destruct (hash_entry_run d Hb g _ _ (last_of l1) e L ltac:(apply elem_of_app; right; by left) He Hoke) as (h & Hrun & Hh).
      destruct (entry_room d _ e He) as (R1 & R2 & R3). pose proof (last_of_bounds l1) as Hlb. pose proof (x_len_pos e).
      pose proof (xattr_len_bounds (len (x_name e))) as Hlen. fold (x_len e) in Hlen.
      unfold FIRST_ENTRY, xattr_header_size in *.
      pose proof (within_put32 d (last_of l1 + 12) h ltac:(lia) ltac:(lia)) as W.
      pose proof (sorted_only _ _ _ Hsort) as Honly.
      exists (put32 d (last_of l1 + 12) h), (with_hash h e :: l2). split; [done|].
      destruct (layout_same_value g d (put32 d (last_of l1 + 12) h) l1 e (with_hash h e) l2 L (only_key_notin _ _ Honly)) as [L' V]; try done.
      + destruct Hoke; by split.
      + split; [apply W|apply W|]. intros; apply (wi_same _ _ _ _ W); lia.
      + by apply entry_with_hash.
      + split; [|split; [done|]].
        * split; [apply W|apply W|]. intros; apply (wi_same _ _ _ _ W); lia.
        * rewrite <- (pairs_keep _ _ _ V). unfold pairs. by rewrite !fmap_app, !fmap_cons. }
  destruct Hentry as (d1 & l2' & Hrun & W1 & L1 & P1). assert (Ld1 : len d1 = len d) by apply W1.
  pose proof (la_bytes _ _ _ _ L1) as Hb1. pose proof (layout_last _ _ _ _ L1) as Hlast. unfold last_of in Hlast.
  destruct (hash_entries_run d1 Hb1 (l1 ++ l2') FIRST_ENTRY (xattr_fuel d1) 0 (la_descs _ _ _ _ L1) (la_entries _ _ _ _ L1) Hlast
    (layout_fuel _ _ _ _ L1) ltac:(lia)) as (h & Hh & Hr).
  pose proof (la_room _ _ _ _ L1) as Hroom. pose proof (la_gap _ _ _ _ L1). pose proof (last_of_bounds (l1 ++ l2')) as Hlb.
  unfold FIRST_ENTRY, xattr_header_size in *.
  pose proof (within_put32 d1 12 h ltac:(lia) ltac:(lia)) as W2.
  destruct (layout_header g d1 (put32 d1 12 h) _ L1) as [L2 P2].
  { split; [apply W2|apply W2|]. intros; apply (wi_same _ _ _ _ W2); unfold FIRST_ENTRY, xattr_header_size in *; lia. }
  exists (put32 d1 12 h), l2'. split; [|split; [join W1 W2|split; [done|by rewrite P2, P1]]].
  unfold ext2_xattr_rehash. rewrite (bind_Ret _ _ _ _ _ Hrun). rewrite (bind_Ret _ _ d1 d1 d1) by done.
  rewrite (bind_Ret _ _ _ _ _ Hh). apply wr32_run; lia.
Qed.

(** ** Blocks of attributes *)

(** [d] is a block with the attributes [al]. *)
Record attr_block (d : list Z) (al : list attr) : Prop := {
  ab_magic : h_magic d = EXT2_XATTR_MAGIC;
  ab_blocks : h_blocks d = 1;
  ab_layout : exists es, layout 4 d es es /\ sorted es /\ pairs d es = al;
}.

Lemma sorted_pairs d es : sorted es <-> StronglySorted key_lt (pairs d es).*1.
Proof. by rewrite keys_pairs, sorted_keys. Qed.

Lemma placed_sorted k nf l1 l2 : sorted (l1 ++ l2) -> placed_at k nf l1 l2 ->
  StronglySorted key_lt ((x_key <$> l1) ++ [k] ++ (x_key <$> if nf : bool then l2 else tail l2)) /\
  StronglySorted key_lt ((x_key <$> l1) ++ (x_key <$> if nf : bool then l2 else tail l2)).
Proof.
  intros Hs [Hp1 Hp2]. apply sorted_keys in Hs. rewrite fmap_app in Hs. apply strongly_app in Hs as (S1 & S2 & S3).
  assert (Hk : forall x, x ∈ x_key <$> l1 -> key_lt x k).
  { intros x (e & -> & He)%list_elem_of_fmap. specialize (Hp1 e He). unfold key_lt. rewrite key_cmp_opp. lia. }
  set (l2' := if nf then l2 else tail l2).
  assert (StronglySorted key_lt (x_key <$> l2') /\ (forall x, x ∈ x_key <$> l2' -> key_lt k x) /\
    forall x, x ∈ x_key <$> l2' -> x ∈ x_key <$> l2) as (T1 & T2 & T3).
  { unfold l2'. destruct nf.
    - split; [done|]. split; [|done]. intros x (e & -> & He)%list_elem_of_fmap. by apply Hp2.
    - destruct Hp2 as (e & l & -> & <-). cbn [tail]. rewrite fmap_cons in S2 |- *. inversion_clear S2 as [|? ? H1 H2].
      rewrite Forall_forall in H2. split; [done|]. split; [done|]. intros x Hx. by right. }
  rewrite !strongly_app. split_and!; try done; auto.
  - repeat constructor.
  - intros x y ->%list_elem_of_singleton Hy. by apply T2.
  - intros x y Hx [->%list_elem_of_singleton|Hy]%elem_of_app; [by apply Hk|]. apply S3; auto.
Qed.
Lemma sorted_change d k nf l1 l2 v : sorted (l1 ++ l2) -> placed_at k nf l1 l2 ->
  StronglySorted key_lt (pairs d l1 ++ new_attr k v ++ pairs d (if nf : bool then l2 else tail l2)).*1.
Proof.
  intros Hs Hp. destruct (placed_sorted k nf l1 l2 Hs Hp). rewrite !fmap_app, !keys_pairs.
  by destruct v.
Qed.

Lemma change_block_run d es l1 l2 nf m name_index name v : let k := (name_index, name) in
  let mid := if nf : bool then 0 else match l2 with e :: _ => x_room e | [] => 0 end in
  bytes name -> len name <= 255 -> 1 <= name_index <= 255 ->
  h_magic d = EXT2_XATTR_MAGIC -> h_blocks d = 1 ->
  es = l1 ++ l2 -> layout 4 d es es -> sorted es -> lowest (len d) es m -> placed_at k nf l1 l2 ->
  match v with
  | Some v => bytes v /\
      last_of es + 4 + (if nf then EXT2_XATTR_LEN (len name) else 0) + EXT2_XATTR_SIZE (len v) <= m + mid
  | None => nf = false
  end ->
  let al' := pairs d l1 ++ new_attr k v ++ pairs d (if nf then l2 else tail l2) in
  exists d', change_block nf (last_of l1) (last_of es) m name_index name v d = Ret (negb (bool_decide (al' = []))) d' /\
    within 12 (len d) d d' /\ attr_block d' al'.
Proof.
  intros k mid Hn Hl Hi Hmagic Hblocks Hes L Hs Hlow Hp Hv al'. subst es.
  destruct (change_entry_run d name_index name Hn Hl Hi l1 l2 nf m v L Hs Hlow Hp Hv)
    as (d1 & g & l1' & l2' & Hrun & [W1 L1 Hh P1 P2 Hg]). fold k in P2.
  assert (Hpairs : pairs d1 (l1' ++ l2') = al') by (unfold al'; by rewrite pairs_app, P1, P2).
  assert (Hsort : sorted (l1' ++ l2')) by (apply (sorted_pairs d1); rewrite Hpairs; by apply sorted_change).
  assert (Hb : bytes d1) by apply L1. pose proof (layout_last _ _ _ _ L1) as Hlast.
  unfold change_block. rewrite (bind_Ret _ _ _ _ _ Hrun).
  assert (W1' : within 12 (len d) d d1).
  { split; [apply W1|apply W1|]. intros; apply (wi_same _ _ _ _ W1); unfold FIRST_ENTRY, xattr_header_size in *; lia. }
  assert (Hempty : reading_block (fun d0 => IS_LAST_ENTRY d0 FIRST_ENTRY) d1 = Ret (bool_decide (al' = [])) d1).
  { unfold reading_block. destruct (l1' ++ l2') as [|e es'] eqn:E.
    - rewrite <- Hpairs. rewrite bool_decide_eq_true_2 by done. apply (last_entry_run d1 FIRST_ENTRY d1 Hlast).
    - rewrite bool_decide_eq_false_2 by by rewrite <- Hpairs.
      destruct (la_descs _ _ _ _ L1) as [He _]. pose proof (la_entries _ _ _ _ L1) as HF. apply Forall_cons in HF as [Hok _].
      by apply (entry_not_last d1 FIRST_ENTRY e He d1 Hb Hok). }
  rewrite (bind_Ret _ _ _ _ _ Hempty).
  assert (Hhead : forall d2, within 12 (len d) d d2 -> h_magic d2 = EXT2_XATTR_MAGIC /\ h_blocks d2 = 1).
  { intros d2 W. unfold h_magic, h_blocks in *. rewrite <- Hmagic, <- Hblocks.
    split; apply get32_same; eapply within_on; try exact W; lia. }
  destruct (bool_decide_reflect (al' = [])) as [He|He]; cbn [negb].
  - exists d1. split; [done|]. split; [done|]. destruct (Hhead d1 W1') as [Q1 Q2]. split; [done|done|].
    exists (l1' ++ l2'). split; [by apply (layout_4 g)|done].
  - destruct (rehash_run g d1 l1' l2' L1 Hsort) as (d2 & l3 & Hrun2 & W2 & L2 & P3).
    { destruct Hg as [[v' ->]|Hg]; [left|by right]. intros ->. done. }
    rewrite Hh in Hrun2. rewrite (bind_Ret _ _ _ _ _ Hrun2). exists d2. split; [done|].
    assert (W12 : within 12 (len d) d d2).
    { assert (len d1 = len d) as Ld by apply W1'. rewrite Ld in W2. join W1' W2. }
    split; [done|]. destruct (Hhead d2 W12) as [Q1 Q2]. split; [done|done|].
    exists (l1' ++ l3). split; [by apply (layout_4 g)|]. rewrite P3. split; [|done].
    apply (sorted_pairs d2). rewrite P3. by apply (sorted_pairs d1).
Qed.
