(* ===== verification/XattrMap.v ===== *)
(** * The attributes of a block as a finite map

    What a block of attributes stands for, and what looking up, changing and
    comparing blocks mean for it. *)

From Stdlib Require Import Sorted.
From S2P Require Import Prelude Bytes Bits Kr Rsv Bitmap Alloc State Balloc BlockMap Xattr XattrBlock XattrChange XattrFacts.

Abbreviation attr_map := (gmap (Z * list Z) (list Z)).
Definition map_of (al : list attr) : attr_map := list_to_map al.

(** *** Reading the entries of a block *)

Definition entry_of (d : list Z) (o : Z) : xentry :=
  XEntry (get8 d (o + 1)) (sub d (o + 16) (get8 d o)) (get16 d (o + 2)) (get32 d (o + 8)) (get32 d (o + 12)).
Fixpoint entries_of (fuel : nat) (d : list Z) (o : Z) : list xentry :=
  match fuel with
  | O => []
  | S n => if get32 d o =? 0 then [] else let e := entry_of d o in e :: entries_of n d (o + x_len e)
  end.
Definition attrs_in (d : list Z) : attr_map := map_of (pairs d (entries_of (xattr_fuel d) d FIRST_ENTRY)).

Lemma entry_of_at d o e : entry_at d o e -> entry_of d o = e.
Proof. intros [R H1 H2 H3 H4 H5 H6 H7]. unfold entry_of. rewrite H1, H2, H3, H5, H6, H7. by destruct e. Qed.
Lemma entry_nonzero d o e : entry_at d o e -> bytes d -> entry_ok e -> get32 d o <> 0.
Proof.
  intros He Hb Hok. pose proof (entry_not_last d o e He tt Hb Hok) as H. unfold IS_LAST_ENTRY in H.
  destruct (entry_room d o e He). rewrite (bind_Ret _ _ tt (get32 d o) tt) in H by (by apply at32_run; lia).
  injection H as H. by apply Z.eqb_neq.
Qed.
Lemma entries_of_descs d : bytes d -> forall es o fuel, descs d o es -> Forall entry_ok es -> last_word d (o + total es) ->
  (length es < fuel)%nat -> entries_of fuel d o = es.
Proof.
  intros Hb. induction es as [|e es IH]; intros o [|fuel] Hd Hok Hl Hf; simpl in Hf; try lia; cbn [entries_of total] in *.
  - rewrite Z.add_0_r in Hl. by destruct Hl as (_ & _ & ->).
  - destruct Hd as [He Hd]. apply Forall_cons in Hok as [Heo Hok].
    pose proof (entry_nonzero d o e He Hb Heo). replace (get32 d o =? 0) with false by lia.
    rewrite (entry_of_at d o e He). f_equal. apply IH; [done|done|by rewrite <- Z.add_assoc|lia].
Qed.
Lemma attrs_in_layout g d es vs : layout g d es vs -> attrs_in d = map_of (pairs d es).
Proof.
  intros L. unfold attrs_in. f_equal. rewrite (entries_of_descs d (la_bytes _ _ _ _ L) es); [done|apply L|apply L| |].
  - by apply (layout_last _ _ _ _ L).
  - by apply (layout_fuel _ _ _ _ L).
Qed.
Lemma attrs_in_block d al : attr_block d al -> attrs_in d = map_of al.
Proof. intros [_ _ (es & L & _ & <-)]. by apply (attrs_in_layout 4 d es es). Qed.

(** *** Sorted lists and maps *)

Lemma sorted_nodup (l : list (Z * list Z)) : StronglySorted key_lt l -> NoDup l.
Proof.
  induction 1 as [|k l Hs IH Hall]; constructor; [|done].
  intros Hin. rewrite Forall_forall in Hall. by apply (key_lt_irrefl k), Hall.
Qed.
Lemma map_of_perm l1 l2 : NoDup l1.*1 -> l1 ≡ₚ l2 -> map_of l1 = map_of l2.
Proof. intros. by apply list_to_map_proper. Qed.
Lemma map_of_middle l1 k v l2 : NoDup (l1 ++ (k, v) :: l2).*1 -> map_of (l1 ++ (k, v) :: l2) = <[k := v]> (map_of (l1 ++ l2)).
Proof. intros Hn. rewrite (map_of_perm _ ((k, v) :: l1 ++ l2)); [done|done|]. by rewrite Permutation_middle. Qed.
Lemma map_of_absent l k : k ∉ l.*1 -> map_of l !! k = None.
Proof. intros. by apply not_elem_of_list_to_map_1. Qed.

(** Putting an attribute in its place, or taking it out. *)
Definition change_attr (k : Z * list Z) (v : option (list Z)) (m : attr_map) : attr_map :=
  match v with Some v => <[k := v]> m | None => delete k m end.

Lemma map_of_change d k nf l1 l2 v : sorted (l1 ++ l2) -> placed_at k nf l1 l2 ->
  map_of (pairs d l1 ++ new_attr k v ++ pairs d (if nf : bool then l2 else tail l2)) =
    change_attr k v (map_of (pairs d (l1 ++ l2))) /\
  (nf = true -> map_of (pairs d (l1 ++ l2)) !! k = None) /\
  (nf = false -> exists e, head l2 = Some e /\ map_of (pairs d (l1 ++ l2)) !! k = Some (value d e)).
Proof.
  intros Hs Hp. destruct (placed_sorted k nf l1 l2 Hs Hp) as [S1 S2]. pose proof (sorted_nodup _ S1) as N1.
  set (l2' := if nf then l2 else tail l2) in *.
  assert (Hk : k ∉ (pairs d l1 ++ pairs d l2').*1).
  { rewrite fmap_app, !keys_pairs. cbn [app] in N1. apply NoDup_app in N1 as (_ & N2 & N3). apply NoDup_cons in N3 as [N3 _].
    intros [Hin|Hin]%elem_of_app; [|done]. apply (N2 k Hin). by left. }
  assert (Hmid : forall v, map_of (pairs d l1 ++ (k, v) :: pairs d l2') = <[k := v]> (map_of (pairs d l1 ++ pairs d l2'))).
  { intros v'. apply map_of_middle. rewrite fmap_app, fmap_cons, !keys_pairs. exact N1. }
  assert (Hold : map_of (pairs d (l1 ++ l2)) = match (if nf then None else head l2) with
     None => map_of (pairs d l1 ++ pairs d l2') | Some e => <[k := value d e]> (map_of (pairs d l1 ++ pairs d l2')) end /\
     (nf = false -> is_Some (head l2))).
  { destruct Hp as [_ Hp2]. unfold l2' in *. destruct nf; [by rewrite pairs_app|].
    destruct Hp2 as (e & l & -> & Hke). cbn [tail head]. rewrite pairs_app. split; [|by eexists].
    change (pairs d (e :: l)) with ((x_key e, value d e) :: pairs d l). rewrite Hke. apply Hmid. }
  destruct Hold as [Hold Hhd]. rewrite Hold. split; [|split].
  - destruct v as [v|]; cbn [new_attr change_attr app].
    + rewrite Hmid. destruct (if nf then None else head l2) as [e|]; [by rewrite insert_insert_eq|done].
    + destruct (if nf then None else head l2) as [e|]; [rewrite delete_insert_eq|]; by rewrite delete_id by by apply map_of_absent.
  - intros ->. by apply map_of_absent.
  - intros Hf. subst nf. destruct (Hhd eq_refl) as [e He]. rewrite He. exists e. split; [done|]. by rewrite lookup_insert_eq.
Qed.

(** *** Comparing blocks *)

(** The values can be read. *)
Definition readable (d : list Z) (es : list xentry) : Prop :=
  forall e, e ∈ es -> 0 <= x_offs e /\ 0 <= x_size e /\ x_offs e + x_size e <= len d.
Lemma layout_readable g d es : layout g d es es -> readable d es.
Proof.
  intros L e He. pose proof (la_offs _ _ _ _ L e He) as Ho. pose proof (la_entries _ _ _ _ L) as HF.
  rewrite Forall_forall in HF. pose proof (xe_size _ (HF e He)) as Hs.
  destruct (decide (x_size e = 0)); [lia|]. destruct (la_values _ _ _ _ L e He ltac:(lia)).
  pose proof (xattr_size_bounds (x_size e)) as Hb. fold (x_room e) in Hb. lia.
Qed.

Section Compare.
Context {S : Type}.
Implicit Type s : S.
Variables (d1 d2 : list Z).
Hypothesis B1 : bytes d1.
Hypothesis B2 : bytes d2.

Lemma xattr_cmp_run s : forall es1 es2 o1 o2 fuel,
  descs d1 o1 es1 -> descs d2 o2 es2 -> Forall entry_ok es1 -> Forall entry_ok es2 ->
  readable d1 es1 -> readable d2 es2 -> last_word d1 (o1 + total es1) -> last_word d2 (o2 + total es2) ->
  (length es1 < fuel)%nat ->
  exists r, xattr_cmp fuel d1 d2 o1 o2 s = Ret r s /\ (r = 0 -> pairs d1 es1 = pairs d2 es2).
Proof using B1 B2.
  induction es1 as [|e1 es1 IH]; intros es2 o1 o2 [|fuel] D1 D2 K1 K2 R1 R2 L1 L2 Hf; simpl in Hf; try lia; cbn [xattr_cmp].
  - cbn [total] in L1. rewrite Z.add_0_r in L1. rewrite (bind_Ret _ _ _ _ _ (last_entry_run d1 o1 s L1)).
    destruct es2 as [|e2 es2]; cbn [total descs] in *.
    + rewrite Z.add_0_r in L2. rewrite (bind_Ret _ _ _ _ _ (last_entry_run d2 o2 s L2)). by exists 0.
    + destruct D2 as [A2 D2]. apply Forall_cons in K2 as [O2 K2].
      rewrite (bind_Ret _ _ _ _ _ (entry_not_last d2 o2 e2 A2 s B2 O2)). by exists 1.
  - destruct D1 as [A1 D1]. apply Forall_cons in K1 as [O1 K1].
    rewrite (bind_Ret _ _ _ _ _ (entry_not_last d1 o1 e1 A1 s B1 O1)).
    destruct es2 as [|e2 es2]; cbn [total descs] in *.
    + rewrite Z.add_0_r in L2. rewrite (bind_Ret _ _ _ _ _ (last_entry_run d2 o2 s L2)). by exists 1.
    + destruct D2 as [A2 D2]. apply Forall_cons in K2 as [O2 K2].
      rewrite (bind_Ret _ _ _ _ _ (entry_not_last d2 o2 e2 A2 s B2 O2)).
      rewrite (bind_Ret _ _ _ _ _ (e_hash_run d1 o1 e1 A1 s)), (bind_Ret _ _ _ _ _ (e_hash_run d2 o2 e2 A2 s)).
      rewrite (bind_Ret _ _ _ _ _ (e_name_index_run d1 o1 e1 A1 s)), (bind_Ret _ _ _ _ _ (e_name_index_run d2 o2 e2 A2 s)).
      rewrite (bind_Ret _ _ _ _ _ (e_name_len_run d1 o1 e1 A1 s)), (bind_Ret _ _ _ _ _ (e_name_len_run d2 o2 e2 A2 s)).
      rewrite (bind_Ret _ _ _ _ _ (e_value_size_run d1 o1 e1 A1 s)), (bind_Ret _ _ _ _ _ (e_value_size_run d2 o2 e2 A2 s)).
      destruct (Z.eqb_spec (x_hash e1) (x_hash e2)) as [Eh|]; [|by exists 1].
      destruct (Z.eqb_spec (x_index e1) (x_index e2)) as [Ei|]; [|by exists 1].
      destruct (Z.eqb_spec (len (x_name e1)) (len (x_name e2))) as [El|]; [|by exists 1].
      destruct (Z.eqb_spec (x_size e1) (x_size e2)) as [Es|]; [|by exists 1]. cbn [negb orb].
      rewrite (bind_Ret _ _ _ _ _ (e_name_run d1 o1 e1 A1 s)). rewrite El. rewrite (bind_Ret _ _ _ _ _ (e_name_run d2 o2 e2 A2 s)).
      destruct (Z.eqb_spec (memcmp (x_name e1) (x_name e2)) 0) as [En|]; [|by exists 1]. cbn [negb].
      rewrite (bind_Ret _ _ _ _ _ (e_value_block_run d1 o1 e1 A1 s)), (bind_Ret _ _ _ _ _ (e_value_block_run d2 o2 e2 A2 s)).
      cbn [Z.eqb negb orb].
      rewrite (bind_Ret _ _ _ _ _ (e_value_offs_run d1 o1 e1 A1 s)), (bind_Ret _ _ _ _ _ (e_value_offs_run d2 o2 e2 A2 s)).
      destruct (R1 e1 ltac:(by left)) as (V1 & V2 & V3), (R2 e2 ltac:(by left)) as (W1 & W2 & W3).
      rewrite (bind_Ret _ _ _ _ _ (at_bytes_run d1 (x_offs e1) (x_size e1) s V1 V2 V3)).
      rewrite (bind_Ret _ _ s (value d2 e2) s) by (rewrite Es; by apply at_bytes_run).
      change (sub d1 (x_offs e1) (x_size e1)) with (value d1 e1).
      destruct (Z.eqb_spec (memcmp (value d1 e1) (value d2 e2)) 0) as [Ev|]; [|by exists 1]. cbn [negb].
      rewrite (bind_Ret _ _ _ _ _ (xattr_next_run d1 o1 e1 A1 s)), (bind_Ret _ _ _ _ _ (xattr_next_run d2 o2 e2 A2 s)).
      destruct (IH es2 (o1 + x_len e1) (o2 + x_len e2) fuel D1 D2 K1 K2) as (r & Hrun & Hr); try (by rewrite <- Z.add_assoc).
      * intros e He. apply R1. by right.
      * intros e He. apply R2. by right.
      * lia.
      * exists r. split; [done|]. intros Hz. unfold pairs. rewrite !fmap_cons. f_equal; [|by apply Hr].
        unfold x_key. rewrite Ei, (memcmp_eq _ _ El En). f_equal. apply memcmp_eq; [|done].
        unfold value. by rewrite !len_sub by lia.
Qed.

End Compare.

(** Blocks that compare as equal have the same attributes. *)
Lemma ext2_xattr_cmp_run {S} d1 d2 al1 al2 (s : S) : attr_block d1 al1 -> attr_block d2 al2 ->
  exists r, ext2_xattr_cmp d1 d2 s = Ret r s /\ (r = 0 -> al1 = al2).
Proof.
  intros [_ _ (es1 & L1 & _ & <-)] [_ _ (es2 & L2 & _ & <-)].
  apply xattr_cmp_run; try by (apply L1 || apply L2).
  - by eapply layout_readable.
  - by eapply layout_readable.
  - by apply (layout_last _ _ _ _ L1).
  - by apply (layout_last _ _ _ _ L2).
  - by apply (layout_fuel _ _ _ _ L1).
Qed.

(** *** Looking an attribute up *)

Lemma find_attribute_block {S} d es name_index name (s : S) : layout 4 d es es -> sorted es ->
  exists r, find_attribute (xattr_fuel d) d name_index name FIRST_ENTRY s = Ret r s /\
    match r with
    | Bad => False
    | Missing => attrs_in d !! (name_index, name) = None
    | Found p => exists e, entry_at d p e /\ e ∈ es /\ attrs_in d !! (name_index, name) = Some (value d e)
    end.
Proof.
  intros L Hs. pose proof (layout_last _ _ _ _ L) as Hl. unfold last_of in Hl.
  destruct (find_attribute_run d (la_bytes _ _ _ _ L) name_index name s es FIRST_ENTRY (xattr_fuel d)
    (la_descs _ _ _ _ L) (la_entries _ _ _ _ L) Hl (layout_fuel _ _ _ _ L)) as (r & Hrun & Hr).
  exists r. split; [done|]. rewrite (attrs_in_layout _ _ _ _ L). destruct r as [| |p]; [done| |].
  - apply map_of_absent. rewrite keys_pairs. intros (e & He & Hin)%list_elem_of_fmap. by apply (Hr e Hin).
  - destruct Hr as (l1 & e & l2 & -> & -> & Hk). exists e. split; [by apply (descs_entry l1 e l2), L|].
    split; [apply elem_of_app; right; by left|].
    apply elem_of_list_to_map; [rewrite keys_pairs; by apply sorted_nodup, sorted_keys|].
    unfold pairs. apply list_elem_of_fmap. exists e. split; [by rewrite Hk|]. apply elem_of_app. right. by left.
Qed.
