(* ===== verification/XattrStore.v ===== *)
(** * The blocks of attributes that inodes share

    [stored]: every inode with attributes has a block of them, which counts at least
    the inodes that have it, and the cache names such blocks only.  What the steps of
    xattr.c on the file system and on the cache do to it. *)

From S2P Require Import Prelude Bytes Bits Kr Rsv Bitmap Alloc State Balloc BallocFacts NewBlocks BlockMap PathFacts BlockMapFacts FileTree BuildBranch GetBlocks Xattr XattrBlock XattrChange XattrFacts XattrMap.

(** The entries of the cache, as far as they have not been thrown out: those that have
    been created and not deleted since. *)
Fixpoint live (l : list mb_call) (h b : Z) : Prop :=
  match l with
  | [] => False
  | mb_create h' b' :: l => (h' = h /\ b' = b) \/ live l h b
  | mb_delete h' b' :: l => ~ (h' = h /\ b' = b) /\ live l h b
  | mb_touch _ :: l => live l h b
  end.

(** The cache gives blocks that are in it. *)
Class CacheLaws `{XattrKernel} := {
  cache_live : forall l h b, b ∈ mb_cache_find l h -> live l h b;
}.

Definition acl_of (c : core) (ino : Z) : Z :=
  match c_inodes c !! ino with Some i => i_file_acl (KR_I i) | None => 0 end.
(** The attributes of an inode. *)
Definition attrs_of (c : core) (ino : Z) : attr_map :=
  if acl_of c ino =? 0 then ∅
  else match c_bufs c !! acl_of c ino with Some d => attrs_in d | None => ∅ end.
(** The inodes that have the block [b]. *)
Definition sharers (c : core) (b : Z) : gset Z := filter (fun ino => acl_of c ino = b) (dom (c_inodes c)).
Definition count_sharers (c : core) (b : Z) : Z := Z.of_nat (size (sharers c b)).

Record stored (X : gset Z) (l : list mb_call) (c : core) : Prop := {
  st_ok : blocks_ok c;
  st_zero : zero_used c;
  st_block : forall b, b ∈ X -> b <> 0 /\ data_block c b /\ block_used c b = true;
  st_attr : forall b, b ∈ X -> exists d al, c_bufs c !! b = Some d /\ attr_block d al /\ len d = 2 ^ c_bits c /\
    1 <= h_refcount d /\ count_sharers c b <= h_refcount d;
  st_file : forall ino, acl_of c ino = 0 \/ acl_of c ino ∈ X;
  st_live : forall h b, live l h b -> b ∈ X /\ exists d, c_bufs c !! b = Some d /\ h_hash d = h;
}.

(** The inodes but [ino] have kept their attributes. *)
Definition keeps_attrs (c c' : core) (ino : Z) : Prop :=
  (forall ino', ino' <> ino -> attrs_of c' ino' = attrs_of c ino') /\ dom (c_inodes c') = dom (c_inodes c).
Lemma keeps_refl c ino : keeps_attrs c c ino.
Proof. done. Qed.
Lemma keeps_trans c1 c2 c3 ino : keeps_attrs c1 c2 ino -> keeps_attrs c2 c3 ino -> keeps_attrs c1 c3 ino.
Proof. intros [H1 D1] [H2 D2]. split; [|congruence]. intros j Hj. by rewrite H2, H1. Qed.

(** ** Who shares a block *)

Lemma elem_sharers c b ino : ino ∈ sharers c b <-> is_Some (c_inodes c !! ino) /\ acl_of c ino = b.
Proof. unfold sharers. rewrite elem_of_filter, elem_of_dom. tauto. Qed.
Lemma sharers_ext c c' b : dom (c_inodes c') = dom (c_inodes c) -> (forall ino, acl_of c' ino = acl_of c ino) ->
  sharers c' b = sharers c b.
Proof. intros Hd H. apply set_eq. intros j. rewrite !elem_sharers, <- !elem_of_dom, Hd, H. done. Qed.
Lemma count_nonneg c b : 0 <= count_sharers c b.
Proof. unfold count_sharers. lia. Qed.
Lemma count_member c b ino : is_Some (c_inodes c !! ino) -> acl_of c ino = b -> 1 <= count_sharers c b.
Proof.
  intros Hi Ha. unfold count_sharers. assert (ino ∈ sharers c b) as Hin by by apply elem_sharers.
  assert (size (sharers c b) <> 0%nat); [|lia]. rewrite size_non_empty_iff. set_solver.
Qed.
Lemma count_one c b ino ino' : is_Some (c_inodes c !! ino) -> acl_of c ino = b -> acl_of c ino' = b ->
  is_Some (c_inodes c !! ino') -> count_sharers c b <= 1 -> ino' = ino.
Proof.
  intros Hi Ha Ha' Hi' Hc. destruct (decide (ino' = ino)) as [|Hne]; [done|]. exfalso. unfold count_sharers in Hc.
  assert ({[ino; ino']} ⊆ sharers c b) as Hs%subseteq_size.
  { intros j Hj. apply elem_sharers. set_unfold in Hj. by destruct Hj as [->| ->]. }
  rewrite size_union in Hs by set_solver. rewrite !size_singleton in Hs. lia.
Qed.

(** The inode [ino] moves from one block to another. *)
Record moved_acl (c c' : core) (ino b : Z) : Prop := {
  mv_dom : dom (c_inodes c') = dom (c_inodes c);
  mv_in : is_Some (c_inodes c !! ino);
  mv_acl : acl_of c' ino = b;
  mv_other : forall j, j <> ino -> acl_of c' j = acl_of c j;
}.
Lemma moved_count c c' ino b b' : moved_acl c c' ino b ->
  count_sharers c' b' = count_sharers c b' - (if acl_of c ino =? b' then 1 else 0) + (if b =? b' then 1 else 0).
Proof.
  intros [Hd Hi Ha Ho]. unfold count_sharers.
  set (S := sharers c b' ∖ {[ino]}).
  assert (E1 : sharers c b' = S ∪ (if acl_of c ino =? b' then {[ino]} else ∅)).
  { apply set_eq. intros j. unfold S. destruct (Z.eqb_spec (acl_of c ino) b') as [He|He];
      rewrite elem_of_union, elem_of_difference, ?elem_of_singleton, !elem_sharers; [|set_unfold; split; [|tauto]].
    - destruct (decide (j = ino)) as [->|]; tauto.
    - intros [H1 H2]. left. split; [done|]. intros ->. done. }
  assert (E2 : sharers c' b' = S ∪ (if b =? b' then {[ino]} else ∅)).
  { apply set_eq. intros j. unfold S. rewrite elem_of_union, elem_of_difference, elem_of_singleton, !elem_sharers.
    rewrite <- !elem_of_dom, Hd. destruct (decide (j = ino)) as [->|Hne].
    - rewrite Ha. apply elem_of_dom in Hi. destruct (Z.eqb_spec b b'); set_unfold; tauto.
    - rewrite (Ho j Hne). destruct (Z.eqb_spec b b'); set_unfold; tauto. }
  rewrite E1, E2. assert (ino ∉ S) by (unfold S; set_solver).
  destruct (acl_of c ino =? b'), (b =? b'); rewrite !size_union, ?size_empty, ?size_singleton by set_solver; lia.
Qed.

(** ** Steps *)

Section Steps.
Variables (X : gset Z) (l : list mb_call) (c : core).
Hypothesis St : stored X l c.

Lemma stored_range b : b ∈ X -> c_fdb c <= b < c_nblocks c /\ ~ is_metadata c b.
Proof using St. intros Hb. by destruct (st_block _ _ _ St b Hb) as (_ & ? & _). Qed.

Lemma zero_kept c' : c_fdb c' = c_fdb c -> (forall b, c_fdb c <= b < c_nblocks c -> block_used c' b = block_used c b) ->
  zero_used c'.
Proof using St.
  intros Hf Hu H0. pose proof (bo_core _ (st_ok _ _ _ St)) as Hc. pose proof (ck_nblocks _ Hc). pose proof (ck_bpg _ Hc).
  pose proof (ck_ngroups _ Hc). pose proof (ck_fdb _ Hc). rewrite Hf in H0. rewrite Hu by nia. by apply (st_zero _ _ _ St).
Qed.

(** The allocator of blocks leaves them alone. *)
Lemma stored_blocks c' : blocks_ok c' -> blocks_changed c c' -> zero_used c' ->
  (forall b, b ∈ X -> block_used c' b = true) -> stored X l c' /\ forall ino, attrs_of c' ino = attrs_of c ino.
Proof using St.
  intros Hok Hch Hz Hu. destruct (changed_geo _ _ Hch) as (G1 & _ & _ & G4 & G5 & _ & G7).
  assert (Hacl : forall ino, acl_of c' ino = acl_of c ino) by (intros; unfold acl_of; by rewrite G7).
  assert (Hbuf : forall b, b ∈ X -> c_bufs c' !! b = c_bufs c !! b) by (intros b Hb; apply (bc_data _ _ Hch), stored_range, Hb).
  assert (Hcount : forall b, count_sharers c' b = count_sharers c b).
  { intros b. unfold count_sharers. by rewrite (sharers_ext c c') by (done || by rewrite G7). }
  split; [split|].
  - done.
  - done.
  - intros b Hb. destruct (st_block _ _ _ St b Hb) as (H1 & [H2 H3] & _). split; [done|]. split; [|by apply Hu].
    split; [by rewrite G4, G5|]. intros Hm. apply H3. by apply (is_metadata_changed c c').
  - intros b Hb. destruct (st_attr _ _ _ St b Hb) as (d & al & H1 & H2 & H3 & H4). exists d, al.
    rewrite Hbuf, Hcount, G1 by done. done.
  - intros ino. rewrite Hacl. apply St.
  - intros h b Hl. destruct (st_live _ _ _ St h b Hl) as (Hb & d & Hd & Hh). split; [done|]. exists d. by rewrite Hbuf.
  - intros ino. unfold attrs_of. rewrite Hacl. destruct (Z.eqb_spec (acl_of c ino) 0) as [|Hne]; [done|].
    destruct (st_file _ _ _ St ino) as [?|Hb]; [done|]. by rewrite Hbuf.
Qed.

(** A block of attributes is written. *)
Lemma stored_write b d' al' : let c' := set_c_bufs (<[b := d']> (c_bufs c)) c in
  b ∈ X -> attr_block d' al' -> len d' = 2 ^ c_bits c -> 1 <= h_refcount d' -> count_sharers c b <= h_refcount d' ->
  (forall h, live l h b -> h = h_hash d') ->
  stored X l c' /\ forall ino, attrs_of c' ino = if acl_of c ino =? b then attrs_in d' else attrs_of c ino.
Proof using St.
  intros c' Hb Ha Hl Hr1 Hr2 Hlive. destruct (data_written c c' [b] eq_refl) as [Hok Hu].
  { intros x Hx. apply lookup_insert_ne. intros <-. by apply Hx, list_elem_of_singleton. }
  { intros x ->%list_elem_of_singleton. by apply stored_range. }
  { apply St. }
  assert (Hbuf : forall x, c_bufs c' !! x = if decide (x = b) then Some d' else c_bufs c !! x).
  { intros x. unfold c'. cbn. case_decide as Hx; [by rewrite Hx, lookup_insert_eq|by rewrite lookup_insert_ne by done]. }
  split; [split|].
  - done.
  - by apply zero_kept.
  - intros x Hx. destruct (st_block _ _ _ St x Hx) as (H1 & H2 & H3). split; [done|]. split; [done|].
    rewrite Hu; [done|apply H2].
  - intros x Hx. rewrite Hbuf. case_decide as Hxb.
    + rewrite Hxb. exists d', al'. done.
    + by apply (st_attr _ _ _ St).
  - apply St.
  - intros h x Hx. destruct (st_live _ _ _ St h x Hx) as (Hin & d & Hd & Hh). split; [done|]. rewrite Hbuf.
    case_decide as Hxb; [|by exists d]. subst x. exists d'. split; [done|]. symmetry. by apply Hlive.
  - intros ino. unfold attrs_of. change (acl_of c' ino) with (acl_of c ino). rewrite Hbuf.
    destruct (Z.eqb_spec (acl_of c ino) b) as [He|He].
    + rewrite decide_True by done. destruct (Z.eqb_spec (acl_of c ino) 0) as [Hz|]; [|done].
      destruct (st_block _ _ _ St b Hb) as (Hb0 & _). congruence.
    + by rewrite decide_False.
Qed.

(** A new block of attributes, which no inode has yet. *)
Lemma stored_new b d' al' : let c' := set_c_bufs (<[b := d']> (c_bufs c)) c in
  b ∉ X -> b <> 0 -> data_block c b -> block_used c b = true ->
  attr_block d' al' -> len d' = 2 ^ c_bits c -> 1 <= h_refcount d' ->
  stored ({[b]} ∪ X) l c' /\ (forall ino, attrs_of c' ino = attrs_of c ino) /\ count_sharers c' b = 0.
Proof using St.
  intros c' Hb Hb0 Hdata Hused Ha Hl Hr. destruct (data_written c c' [b] eq_refl) as [Hok Hu].
  { intros x Hx. apply lookup_insert_ne. intros <-. by apply Hx, list_elem_of_singleton. }
  { intros x ->%list_elem_of_singleton. by apply Hdata. }
  { apply St. }
  assert (Hbuf : forall x, c_bufs c' !! x = if decide (x = b) then Some d' else c_bufs c !! x).
  { intros x. unfold c'. cbn. case_decide as Hx; [by rewrite Hx, lookup_insert_eq|by rewrite lookup_insert_ne by done]. }
  assert (Hcount : count_sharers c b = 0).
  { unfold count_sharers. assert (sharers c b = ∅) as ->; [|done]. apply set_eq. intros j. rewrite elem_sharers.
    split; [|set_solver]. intros [_ Hj]. destruct (st_file _ _ _ St j) as [?|?]; congruence. }
  split; [split|split; [|done]].
  - done.
  - by apply zero_kept.
  - intros x [->%elem_of_singleton|Hx]%elem_of_union; [split; [done|split; [done|rewrite Hu; [done|apply Hdata]]]|].
    destruct (st_block _ _ _ St x Hx) as (H1 & H2 & H3). split; [done|]. split; [done|].
    rewrite Hu; [done|apply H2].
  - intros x Hx. rewrite Hbuf. case_decide as Hxb.
    + rewrite Hxb. exists d', al'. change (count_sharers c' b) with (count_sharers c b). split_and!; try done; lia.
    + apply (st_attr _ _ _ St). set_solver.
  - intros ino. change (acl_of c' ino) with (acl_of c ino). destruct (st_file _ _ _ St ino); [by left|right; set_solver].
  - intros h x Hx. destruct (st_live _ _ _ St h x Hx) as (Hin & d & Hd & Hh). split; [set_solver|]. rewrite Hbuf.
    rewrite decide_False by congruence. by exists d.
  - intros ino. unfold attrs_of. change (acl_of c' ino) with (acl_of c ino). rewrite Hbuf.
    destruct (Z.eqb_spec (acl_of c ino) 0); [done|]. destruct (st_file _ _ _ St ino); [done|].
    by rewrite decide_False by congruence.
Qed.

(** A block that no inode has and the cache does not know is given up. *)
Lemma stored_drop b : count_sharers c b = 0 -> (forall h, ~ live l h b) -> stored (X ∖ {[b]}) l c.
Proof using St.
  intros Hc Hl. destruct St as [S1 S2 S3 S4 S5 S6]. split; try done.
  - intros x Hx. apply S3. set_solver.
  - intros x Hx. apply S4. set_solver.
  - intros ino. destruct (S5 ino) as [?|Hin]; [by left|]. destruct (decide (acl_of c ino = b)) as [He|He]; [|right; set_solver].
    destruct (c_inodes c !! ino) as [i|] eqn:Hi; [|left; unfold acl_of; by rewrite Hi].
    pose proof (count_member c b ino ltac:(by eexists) He). lia.
  - intros h x Hx. destruct (S6 h x Hx) as [Hin Hd]. split; [|done]. apply elem_of_difference. split; [done|].
    intros ->%elem_of_singleton. by apply (Hl h).
Qed.

(** The inodes change, and which block they have. *)
Lemma stored_inodes ino b ins : let c' := set_c_inodes ins c in
  moved_acl c c' ino b -> b = 0 \/ b ∈ X /\ (acl_of c ino = b \/ forall d, c_bufs c !! b = Some d -> count_sharers c b < h_refcount d) ->
  stored X l c' /\ keeps_attrs c c' ino /\
  attrs_of c' ino = if b =? 0 then ∅ else match c_bufs c !! b with Some d => attrs_in d | None => ∅ end.
Proof using St.
  intros c' Hm Hb. pose proof Hm as [Hdom Hin Ha Ho]. destruct (data_written c c' [] eq_refl) as [Hok Hu].
  { done. }
  { intros x Hx. by apply elem_of_nil in Hx. }
  { apply St. }
  split; [split|split; [split; [|done]|]].
  - done.
  - by apply zero_kept.
  - intros x Hx. destruct (st_block _ _ _ St x Hx) as (H1 & H2 & H3). split; [done|]. split; [done|].
    rewrite Hu; [done|apply H2].
  - intros x Hx. destruct (st_attr _ _ _ St x Hx) as (d & al & H1 & H2 & H3 & H4 & H5). exists d, al.
    split; [done|]. split; [done|]. split; [done|]. split; [done|].
    rewrite (moved_count c c' ino b x Hm). destruct (Z.eqb_spec b x) as [He|], (Z.eqb_spec (acl_of c ino) x); try lia.
    subst x. destruct Hb as [Hb0|[_ [?|Hb]]]; [|done|specialize (Hb d H1); lia].
    subst b. by destruct (st_block _ _ _ St 0 Hx).
  - intros j. destruct (decide (j = ino)) as [->|Hne]; [rewrite Ha; destruct Hb as [?|[? _]]; auto|].
    rewrite (Ho j Hne). apply St.
  - apply St.
  - intros j Hj. unfold attrs_of. by rewrite (Ho j Hj).
  - unfold attrs_of. by rewrite Ha.
Qed.

(** *** The cache *)

Lemma stored_create b d : b ∈ X -> c_bufs c !! b = Some d -> stored X (mb_create (h_hash d) b :: l) c.
Proof using St.
  intros Hb Hd. destruct St as [S1 S2 S3 S4 S5 S6]. split; try done.
  intros h x [[<- <-]|Hx]; [|by apply S6]. split; [done|]. by exists d.
Qed.
Lemma stored_delete h b : stored X (mb_delete h b :: l) c.
Proof using St. destruct St as [S1 S2 S3 S4 S5 S6]. split; try done. intros h' x [_ Hx]. by apply S6. Qed.
Lemma stored_touch b : stored X (mb_touch b :: l) c.
Proof using St. destruct St as [S1 S2 S3 S4 S5 S6]. split; try done. Qed.
(** The hash a block is filed under is its hash. *)
Lemma deleted_gone b d h : c_bufs c !! b = Some d -> ~ live (mb_delete (h_hash d) b :: l) h b.
Proof using St.
  intros Hd [Hne Hl]. destruct (st_live _ _ _ St h b Hl) as (_ & d' & Hd' & Hh). apply Hne. split; [congruence|done].
Qed.

End Steps.
