(* ===== verification/XattrOps.v ===== *)
(** * Sharing blocks of attributes

    The second half of [ext2_xattr_set]: the block the inode will have, and giving up
    the old one, keep [stored] and the attributes of the other inodes. *)

From S2P Require Import Prelude Bytes Bits Kr Rsv Bitmap Alloc State Balloc BallocFacts NewBlocks BlockMap PathFacts BlockMapFacts FileTree BuildBranch GetBlocks Xattr XattrBlock XattrChange XattrFacts XattrMap XattrStore.

(** ** The reference count *)

Lemma refcount_put d al r : attr_block d al -> 0 <= r < 4294967296 ->
  let d' := put32 d 4 r in
  attr_block d' al /\ h_refcount d' = r /\ h_hash d' = h_hash d /\ len d' = len d /\ attrs_in d' = attrs_in d.
Proof.
  intros Ha Hr d'. pose proof Ha as [M B (es & L & Hs & Hp)]. pose proof (la_room _ _ _ _ L). pose proof (la_gap _ _ _ _ L).
  pose proof (last_of_bounds es) as Hb. unfold FIRST_ENTRY, xattr_header_size in Hb.
  pose proof (within_put32 d 4 r ltac:(lia) ltac:(lia)) as W. fold d' in W.
  assert (W' : within 0 FIRST_ENTRY d d').
  { split; [apply W|apply W|]. intros; apply (wi_same _ _ _ _ W); unfold FIRST_ENTRY, xattr_header_size in *; lia. }
  destruct (layout_header 4 d d' es L W') as [L' P']. rewrite Hp in P'.
  assert (Ha' : attr_block d' al).
  { split; [| |by exists es].
    - rewrite <- M. apply get32_same. eapply within_on; [exact W|lia|lia].
    - rewrite <- B. apply get32_same. eapply within_on; [exact W|lia|lia]. }
  split; [done|]. split; [unfold h_refcount, d'; apply get32_put32_eq; lia|].
  split; [apply get32_same; eapply within_on; [exact W|lia|lia]|]. split; [apply W|].
  by rewrite (attrs_in_block d' al), (attrs_in_block d al).
Qed.

Lemma get32_range_at d o al : attr_block d al -> 0 <= get32 d o < 4294967296.
Proof.
  intros [_ _ (es & L & _)]. pose proof (la_bytes _ _ _ _ L) as Hb.
  pose proof (get16_bytes d o Hb). pose proof (get16_bytes d (o + 2) Hb). unfold get32. lia.
Qed.

Section Ops.
Context {B : BitOps} {BL : BitLaws B} {R : RbTree} {RL : RbLaws R} {T : Trylock} {K : Kernel}.
Context {XK : XattrKernel} {XL : CacheLaws}.
Variable E : stop -> Prop.
Hypothesis HE : E Panic.

Abbreviation core_at s := (core_of (a_fs s)).
Definition sok (X : gset Z) (s : attrfs) : Prop := stored X (a_cache s) (core_at s).
(** Neither the core nor the cache has changed. *)
Definition quiet (s s' : attrfs) : Prop := core_at s' = core_at s /\ a_cache s' = a_cache s.

Lemma quiet_sok X s s' : quiet s s' -> sok X s -> sok X s'.
Proof. intros [Hc Hl] H. unfold sok. by rewrite Hc, Hl. Qed.
Lemma quiet_trans s1 s2 s3 : quiet s1 s2 -> quiet s2 s3 -> quiet s1 s3.
Proof. intros [C1 L1] [C2 L2]. split; congruence. Qed.

(** *** The calls on the file system *)

Lemma on_fs_get {A} (m : M krfs A) a s : m (a_fs s) = Ret a (a_fs s) -> on_fs m s = Ret a s.
Proof. intros H. unfold on_fs, lift. rewrite H. by destruct s. Qed.
Lemma buf_run b d s : c_bufs (core_at s) !! b = Some d -> on_fs (buf_get b) s = Ret d s.
Proof. intros H. apply on_fs_get. by apply buf_get_run. Qed.
Lemma inode_run ino i s : c_inodes (core_at s) !! ino = Some i -> on_fs (inode_get ino) s = Ret i s.
Proof. intros H. apply on_fs_get. by apply inode_get_run. Qed.
Lemma file_acl_run ino i s : c_inodes (core_at s) !! ino = Some i -> file_acl ino s = Ret (acl_of (core_at s) ino) s.
Proof. intros H. unfold file_acl. rewrite (bind_Ret _ _ _ _ _ (inode_run ino i s H)). unfold acl_of. by rewrite H. Qed.
Lemma bread_spec b s : runs (on_fs (sb_bread b)) E (fun r s' => quiet s s' /\
  (r = Some b \/ r = None /\ bh_read_ok b = false)) s.
Proof using HE. apply runs_lift. call (sb_bread_spec E b). intros r fs' [Hc Hr]. split; [by split|done]. Qed.
Lemma error_spec s : core_ok (core_at s) -> runs (on_fs kr_error) E (fun _ s' => quiet s s') s.
Proof using HE. intros Hc. apply runs_lift. call (kr_error_core E); [done|done|]. intros _ fs' [H _]. by split. Qed.
Lemma note_attr_spec k s Q : (forall s', quiet s s' -> Q tt s') -> runs (note k) E Q s.
Proof. intros H. apply runs_lift. apply H. by split. Qed.

Lemma insert_run b d s : c_bufs (core_at s) !! b = Some d ->
  ext2_xattr_cache_insert b s = Ret tt (set_a_cache (mb_create (h_hash d) b :: a_cache s) s).
Proof. intros H. unfold ext2_xattr_cache_insert. by rewrite (bind_Ret _ _ _ _ _ (buf_run b d s H)). Qed.

(** *** Looking for a block with the same attributes *)

Definition bufs_of (s : attrfs) := c_bufs (core_at s).

Lemma try_cached_spec X d al : attr_block d al -> forall l s, sok X s -> (forall b, b ∈ l -> b ∈ X) ->
  runs (try_cached d l) E (fun r s' => sok X s' /\ core_at s' = core_at s /\
    (forall b, r = Some b -> b ∈ X /\ exists db, bufs_of s !! b = Some db /\ attrs_in db = attrs_in d /\
       h_refcount db <= EXT2_XATTR_REFCOUNT_MAX)) s.
Proof using HE.
  intros Hd. induction l as [|b l IH]; intros s St Hl; cbn [try_cached]; [step; by split_and!|].
  assert (Hl' : forall x, x ∈ l -> x ∈ X) by (intros x Hx; apply Hl; by right).
  destruct (st_attr _ _ _ St b ltac:(apply Hl; by left)) as (db & alb & Hb & Hab & _).
  step. call bread_spec. intros r s1 [Hq Hr]. pose proof (quiet_sok X s s1 Hq St) as St1. destruct Hq as [Hc Hca].
  destruct Hr as [->|[-> _]].
  - step. eapply runs_call; [apply buf_run; rewrite Hc; exact Hb|]. cbv beta.
    destruct (Z.gtb_spec (h_refcount db) EXT2_XATTR_REFCOUNT_MAX) as [Hgt|Hle].
    { call (IH s1 St1 Hl'). intros r s2 (H1 & H2 & H3). unfold bufs_of in *. by rewrite <- Hc. }
    step. destruct (ext2_xattr_cmp_run d db al alb s1 Hd Hab) as (c & Hrun & Heq). eapply runs_call; [exact Hrun|]. cbv beta.
    destruct (Z.eqb_spec c 0) as [Hz|Hz].
    + step. unfold cache_call. step. step. split; [by apply stored_touch|]. split; [done|].
      intros b' [= <-]. split; [apply Hl; by left|]. exists db. split; [done|]. split; [|done].
      by rewrite (attrs_in_block d al), (attrs_in_block db alb), (Heq Hz).
    + call (IH s1 St1 Hl'). intros r s2 (H1 & H2 & H3). unfold bufs_of in *. by rewrite <- Hc.
  - step. call error_spec; [by apply (bo_core _ (st_ok _ _ _ St1))|]. intros _ s2 Hq2.
    pose proof (quiet_sok X s1 s2 Hq2 St1) as St2. destruct Hq2 as [Hc2 _].
    call (IH s2 St2 Hl'). intros r s3 (H1 & H2 & H3). unfold bufs_of in *. rewrite Hc2, Hc in *. done.
Qed.

Lemma cache_find_spec X d al s : attr_block d al -> sok X s ->
  runs (ext2_xattr_cache_find d) E (fun r s' => sok X s' /\ core_at s' = core_at s /\
    (forall b, r = Some b -> b ∈ X /\ exists db, bufs_of s !! b = Some db /\ attrs_in db = attrs_in d /\
       h_refcount db <= EXT2_XATTR_REFCOUNT_MAX)) s.
Proof using HE XL.
  intros Hd St. unfold ext2_xattr_cache_find. destruct (h_hash d =? 0); [step; by split_and!|].
  step. step. apply (try_cached_spec X d al Hd); [done|]. intros b Hb%cache_live. by apply (st_live _ _ _ St) in Hb as [? _].
Qed.

Lemma update_super_spec s : runs ext2_xattr_update_super_block E (fun _ s' => quiet s s') s.
Proof using HE.
  unfold ext2_xattr_update_super_block. step. step. apply runs_when; [|by intros _; split].
  intros _. step. apply runs_lift. unfold upd_es. step. apply note_attr_spec. intros s' [Hc Hl]. by split.
Qed.

(** *** A new block *)

(** Blocks can be allocated for the inode: its window, if it has one, is in the tree. *)
Definition can_alloc (c : core) (ino size : Z) : Prop :=
  ready (match (c_inodes c !! ino) ≫= (fun i => i_block_alloc_info (KR_I i)) with
         | Some b => if u16 (rsv_goal_size (rsv_at (c_rsv c) (rsv_window_node b))) >? 0
                     then Some (rsv_window_node b) else None
         | None => None
         end) (c_rsv c) size.

(** What has been found for the inode: the block [b] has the attributes of [d], and
    counts one inode more than have it, unless [ino] has it already. *)
Definition block_for (X : gset Z) (ino : Z) (d : list Z) (s s' : attrfs) (r : Z + Z) : Prop :=
  sok X s' /\ c_inodes (core_at s') = c_inodes (core_at s) /\
  (forall j, attrs_of (core_at s') j = attrs_of (core_at s) j) /\
  match r with
  | inl err => err <> 0
  | inr b => b ∈ X /\ exists db, bufs_of s' !! b = Some db /\ attrs_in db = attrs_in d /\
      (acl_of (core_at s') ino = b \/ count_sharers (core_at s') b < h_refcount db)
  end.

Lemma searched_zero c c' my b : searched c c' my b -> core_ok c -> zero_used c -> zero_used c'.
Proof.
  intros Hs Hc Hz Hf. destruct (searched_geo _ _ _ _ Hs) as (_ & _ & Gf & _). rewrite Gf in Hf.
  pose proof (ck_nblocks _ Hc). pose proof (ck_bpg _ Hc). pose proof (ck_ngroups _ Hc). pose proof (ck_fdb _ Hc).
  rewrite (searched_used _ _ _ _ _ Hs Hc) by nia. by apply Hz.
Qed.

(** [kr_new_block] gives a block that was free, or fails. *)
Lemma new_block_spec X ino goal size s : sok X s -> can_alloc (core_at s) ino size -> size <= 268435456 ->
  runs (on_fs (kr_new_block ino goal)) E (fun r s' => sok X s' /\ c_inodes (core_at s') = c_inodes (core_at s) /\
    c_bits (core_at s') = c_bits (core_at s) /\ c_nblocks (core_at s') = c_nblocks (core_at s) /\
    a_cache s' = a_cache s /\
    (forall j, attrs_of (core_at s') j = attrs_of (core_at s) j) /\
    (let '(b, err) := r in err = 0 -> (b ∉ X) /\ b <> 0 /\ data_block (core_at s') b /\ block_used (core_at s') b = true)) s.
Proof using HE BL RL.
  intros St Hw Hsize. apply runs_lift. unfold kr_new_block. step.
  eapply runs_mono; [apply (kr_new_blocks_spec E HE (a_fs s) ino goal 1 size); [apply St|lia|unfold window_bound; simpl; lia|exact Hw]|].
  intros [[ret err] n] fs'. set (c := core_at s) in *. set (c' := core_of fs').
  intros Hr. step. unfold sok. change (a_cache (set_a_fs fs' s)) with (a_cache s).
  change (core_at (set_a_fs fs' s)) with c'. pose proof (bo_core _ (st_ok _ _ _ St)) as Hc. fold c in Hc.
  destruct Hr as [[[-> [N1 N2 N3 N4 N5 N6 N7 N8 N9]]|(-> & -> & Hs & Herr)]|(-> & -> & Hcc & Herr)].
  - destruct (changed_geo _ _ N2) as (G1 & _ & _ & G4 & G5 & _ & G7). assert (n = 1) as -> by lia.
    destruct (stored_blocks X (a_cache s) c St c' N1 N2) as [St' Ha].
    { intros Hf. rewrite G4 in Hf. pose proof (ck_nblocks _ Hc). pose proof (ck_bpg _ Hc). pose proof (ck_ngroups _ Hc).
      pose proof (ck_fdb _ Hc). rewrite N8 by nia. assert (block_used c 0 = true) as -> by by apply (st_zero _ _ _ St). done. }
    { intros b Hb. destruct (st_block _ _ _ St b Hb) as (_ & [Hd _] & Hu). rewrite N8 by done. fold c in Hu. by rewrite Hu. }
    split; [done|]. split; [done|]. split; [done|]. split; [done|]. split; [done|]. split; [done|]. intros _.
    pose proof (N7 ret ltac:(lia)) as Hfree. split_and!.
    + intros Hin. destruct (st_block _ _ _ St ret Hin) as (_ & _ & Hu). fold c in Hu. congruence.
    + intros ->. assert (block_used c 0 = true) by (apply (st_zero _ _ _ St); fold c; lia). congruence.
    + split; [rewrite G4, G5; lia|]. intros Hm. apply (N6 ret ltac:(lia)). by apply (is_metadata_changed c c').
    + rewrite N8 by lia. rewrite Hfree. cbn [orb]. lia.
  - pose proof (searched_changed _ _ _ _ Hs) as Hch. destruct (changed_geo _ _ Hch) as (G1 & _ & _ & G4 & G5 & _ & G7).
    destruct (stored_blocks X (a_cache s) c St c') as [St' Ha].
    { eapply searched_blocks_ok; [apply St|exact Hs]. }
    { done. }
    { eapply searched_zero; [exact Hs|done|apply St]. }
    { intros b Hb. destruct (st_block _ _ _ St b Hb) as (_ & [Hd _] & Hu). by rewrite (searched_used _ _ _ _ _ Hs Hc). }
    split; [done|]. split; [done|]. split; [done|]. split; [done|]. split; [done|]. split; [done|]. intros ->.
    destruct Herr as [[? _]|[? _]]; unfold EIO, ENOSPC in *; lia.
  - rewrite Hcc. split; [done|]. split; [done|]. split; [done|]. split; [done|]. split; [done|]. split; [done|]. intros ->.
    destruct Herr as [[_ ?]|[? _]]; [done|unfold ENOSPC in *; lia].
Qed.
Lemma free_block_raw ino b s : blocks_ok (core_at s) -> data_block (core_at s) b ->
  runs (on_fs (kr_free_blocks ino b 1)) E (fun _ s' => blocks_ok (core_at s') /\ blocks_changed (core_at s) (core_at s') /\
    (forall x, c_fdb (core_at s) <= x < c_nblocks (core_at s) -> x <> b -> block_used (core_at s') x = block_used (core_at s) x) /\
    a_cache s' = a_cache s) s.
Proof using HE BL.
  intros Hok [Hr Hm]. apply runs_lift. set (c := core_at s) in *.
  assert (Hrun : data_run c b 1) by (split; [lia|lia|]; intros x Hx; by replace x with b by lia).
  eapply runs_mono; [apply (kr_free_blocks_spec E HE ino (a_fs s) b 1 Hok); [lia|exact Hrun]|].
  cbv beta. intros _ fs' (m & fs1 & freed & Hmm & [F1 F2 F3 F4 F5 F6] & Hcore). fold c in F2, F6, Hmm.
  change (core_at (set_a_fs fs' s)) with (core_of fs'). rewrite Hcore. split; [by apply blocks_ok_sbi|].
  split; [destruct F2 as [Fr P I D]; split; [rewrite Fr at 1; done|exact P|exact I|exact D]|]. split; [|done].
  intros x Hx Hne. change (block_used (core_of fs1) x = block_used c x). rewrite F6 by done.
  replace ((b <=? x) && (x <? b + m)) with false by lia. by rewrite andb_true_r.
Qed.

(** The blocks of [X] stay when a block that is not one of them has been freed. *)
Lemma stored_freed X l c c' b : stored X l c -> b ∉ X -> b <> 0 -> blocks_ok c' -> blocks_changed c c' ->
  (forall x, c_fdb c <= x < c_nblocks c -> x <> b -> block_used c' x = block_used c x) ->
  stored X l c' /\ forall j, attrs_of c' j = attrs_of c j.
Proof using.
  intros St Hb Hb0 Hok Hch Hu. destruct (changed_geo _ _ Hch) as (_ & _ & _ & G4 & G5 & _).
  apply (stored_blocks X l c St c' Hok Hch).
  - pose proof (bo_core _ (st_ok _ _ _ St)) as Hc. intros Hf. rewrite G4 in Hf.
    pose proof (ck_nblocks _ Hc). pose proof (ck_bpg _ Hc). pose proof (ck_ngroups _ Hc). pose proof (ck_fdb _ Hc).
    rewrite Hu by nia. by apply (st_zero _ _ _ St).
  - intros x Hx. destruct (st_block _ _ _ St x Hx) as (_ & [Hd _] & Hux). rewrite Hu; [done|done|]. by intros ->.
Qed.

Lemma free_block_spec X ino b s : sok X s -> b ∉ X -> b <> 0 -> data_block (core_at s) b ->
  runs (on_fs (kr_free_blocks ino b 1)) E (fun _ s' => sok X s' /\ c_inodes (core_at s') = c_inodes (core_at s) /\
    (forall j, attrs_of (core_at s') j = attrs_of (core_at s) j)) s.
Proof using HE BL.
  intros St Hb Hb0 Hd. call free_block_raw; [apply St|done|]. intros _ s' (Hok & Hch & Hu & Hl).
  destruct (stored_freed X (a_cache s) _ _ b St Hb Hb0 Hok Hch Hu) as [St' A']. unfold sok. rewrite Hl.
  split; [done|]. split; [|done]. by destruct (changed_geo _ _ Hch) as (_ & _ & _ & _ & _ & _ & ?).
Qed.

Lemma new_xattr_bh_spec X ino d al size s : sok X s -> can_alloc (core_at s) ino size -> size <= 268435456 ->
  is_Some (c_inodes (core_at s) !! ino) -> c_nblocks (core_at s) <= 2147483648 ->
  attr_block d al -> len d = 2 ^ c_bits (core_at s) -> h_refcount d = 1 ->
  runs (new_xattr_bh ino d) E (fun r s' => exists X', block_for X' ino d s s' r) s.
Proof using All.
  intros St Hw Hsize [i Hi] Hn Hd Hl Hr1. unfold new_xattr_bh. step. eapply runs_call; [by apply (inode_run ino i)|]. cbv beta.
  step. step. step. call new_block_spec; [done|done|done|]. intros [block err] s1 (St1 & I1 & B1 & N1 & L1 & A1 & Hblk).
  destruct (Z.eqb_spec err 0) as [->|He]; cbn [negb].
  2: { step. by exists X. }
  destruct (Hblk eq_refl) as (Hnew & Hb0 & Hdata & Hused). pose proof Hdata as [Hrange _].
  pose proof (ck_fdb _ (bo_core _ (st_ok _ _ _ St1))) as Hf.
  rewrite s32_small by lia. destruct (sb_getblk_ok block); cbn [negb].
  2: { step. call free_block_spec; [done|done|done|done|]. intros _ s2 (St2 & I2 & A2). step.
    apply note_attr_spec. intros s3 Hq3. pose proof (quiet_sok X s2 s3 Hq3 St2) as St3. destruct Hq3 as [C3 _]. step. exists X.
    split; [done|]. split; [by rewrite C3, I2|]. split; [intros j; by rewrite C3, A2|]. done. }
  step. apply runs_lift. unfold buf_set. step. step. apply runs_lift. step. set (s2 := set_a_fs _ _).
  destruct (stored_new X (a_cache s1) (core_at s1) St1 block d al Hnew Hb0 Hdata Hused Hd) as (St2 & A2 & C2); [by rewrite B1|lia|].
  assert (Hcore2 : core_at s2 = set_c_bufs (<[block := d]> (c_bufs (core_at s1))) (core_at s1)) by done.
  assert (Hbuf2 : bufs_of s2 !! block = Some d) by (unfold bufs_of; rewrite Hcore2; cbn; by rewrite lookup_insert_eq).
  step. eapply runs_call; [by apply (insert_run block d)|]. cbv beta.
  set (s3 := set_a_cache _ _). step. call update_super_spec. intros _ s4 Hq4.
  assert (St3 : sok ({[block]} ∪ X) s3) by (apply stored_create; [exact St2|set_solver|exact Hbuf2]).
  pose proof (quiet_sok _ s3 s4 Hq4 St3) as St4. destruct Hq4 as [C4 _]. step. exists ({[block]} ∪ X).
  split; [done|]. split; [by rewrite C4|]. split; [intros j; rewrite C4; change (core_at s3) with (core_at s2); by rewrite Hcore2, A2|].
  split; [set_solver|]. exists d. unfold bufs_of in *. rewrite C4. split; [exact Hbuf2|]. split; [done|]. right.
  change (core_at s3) with (core_at s2). rewrite Hcore2, C2. lia.
Qed.
(** The block the inode will have. *)
Lemma xattr_bh_spec X ino old_bh in_place d al size s : sok X s -> can_alloc (core_at s) ino size -> size <= 268435456 ->
  is_Some (c_inodes (core_at s) !! ino) -> c_nblocks (core_at s) <= 2147483648 ->
  attr_block d al -> len d = 2 ^ c_bits (core_at s) -> h_refcount d = 1 ->
  acl_of (core_at s) ino = default 0 old_bh ->
  (in_place = true -> exists b, old_bh = Some b /\ b <> 0 /\ bufs_of s !! b = Some d) ->
  runs (xattr_bh ino old_bh in_place d) E (fun r s' => exists X', block_for X' ino d s s' r) s.
Proof using All.
  intros St Hw Hsize Hi Hn Hd Hl Hr1 Hacl Hplace. unfold xattr_bh. step. call cache_find_spec; [done|done|].
  intros r s1 (St1 & C1 & Hr).
  assert (Hnew : runs (new_xattr_bh ino d) E (fun r s' => exists X', block_for X' ino d s s' r) s1).
  { call new_xattr_bh_spec; [done|by rewrite C1|done|by rewrite C1|by rewrite C1|done|by rewrite C1|done|].
    intros r' s2 (X' & H1 & H2 & H3 & H4). exists X'. rewrite C1 in *. done. }
  destruct r as [b|].
  - destruct (Hr b eq_refl) as (Hb & db & Hdb & Heq & Hmax). case_bool_decide as Hold.
    { step. exists X. split; [done|]. split; [by rewrite C1|]. split; [intros j; by rewrite C1|]. split; [done|].
      exists db. unfold bufs_of in *. rewrite C1. split; [done|]. split; [done|]. left. by rewrite Hacl, Hold. }
    destruct (Z.eqb_spec (dquot_alloc_block ino 1) 0) as [He|He]; cbn [negb].
    2: { step. exists X. split; [done|]. split; [by rewrite C1|]. split; [intros j; by rewrite C1|]. done. }
    step. apply note_attr_spec. intros s2 Hq2. pose proof (quiet_sok X s1 s2 Hq2 St1) as St2. destruct Hq2 as [C2 L2].
    assert (Hdb2 : c_bufs (core_at s2) !! b = Some db) by (rewrite C2, C1; exact Hdb).
    unfold add_refcount. step. step. eapply runs_call; [by apply (buf_run b db)|]. cbv beta.
    destruct (st_attr _ _ _ St2 b Hb) as (db' & alb & Hb' & Hab & Hlb & Hc1 & Hc2).
    assert (db' = db) as -> by congruence. unfold EXT2_XATTR_REFCOUNT_MAX in Hmax.
    rewrite u32_small by lia. destruct (refcount_put db alb (h_refcount db + 1) Hab ltac:(lia)) as (Q1 & Q2 & Q3 & Q4 & Q5).
    set (db2 := put32 db 4 (h_refcount db + 1)) in *. apply runs_lift. unfold buf_set. step. step.
    destruct (stored_write X (a_cache s2) (core_at s2) St2 b db2 alb Hb Q1) as [St3 A3]; [by rewrite Q4|lia|lia| |].
    { intros h Hh. destruct (st_live _ _ _ St2 h b Hh) as (_ & d0 & Hd0 & <-). rewrite Q3. congruence. }
    set (s3 := set_a_fs _ _). assert (C3 : core_at s3 = set_c_bufs (<[b := db2]> (c_bufs (core_at s2))) (core_at s2)) by done.
    exists X. split; [exact St3|]. split; [change (c_inodes (core_at s2) = c_inodes (core_at s)); by rewrite C2, C1|]. split.
    + intros j. rewrite C3, A3. rewrite C2, C1 in *. destruct (Z.eqb_spec (acl_of (core_at s) j) b) as [Hj|]; [|done].
      unfold attrs_of. rewrite Hj. destruct (Z.eqb_spec b 0) as [->|]; [by destruct (st_block _ _ _ St 0 Hb)|].
      by rewrite Hb', Q5.
    + split; [done|]. exists db2. unfold bufs_of. rewrite C3. cbn [c_bufs set_c_bufs]. rewrite lookup_insert_eq.
      split; [done|]. split; [by rewrite Q5|]. right.
      change (count_sharers (set_c_bufs (<[b:=db2]> (c_bufs (core_at s2))) (core_at s2)) b) with (count_sharers (core_at s2) b). lia.
  - destruct old_bh as [b|]; [|exact Hnew]. destruct in_place; [|exact Hnew].
    destruct (Hplace eq_refl) as (b' & [= <-] & Hb0 & Hbuf). change (acl_of (core_at s) ino = b) in Hacl.
    assert (Hb : b ∈ X) by (destruct (st_file _ _ _ St ino) as [?|Hin]; [congruence|by rewrite Hacl in Hin]).
    step. eapply runs_call; [apply (insert_run b d); rewrite C1; exact Hbuf|]. cbv beta. step. exists X.
    split; [apply stored_create; [exact St1|done|unfold bufs_of in Hbuf; rewrite <- C1 in Hbuf; exact Hbuf]|].
    change (core_at (set_a_cache (mb_create (h_hash d) b :: a_cache s1) s1)) with (core_at s1).
    split; [by rewrite C1|]. split; [intros j; by rewrite C1|]. split; [done|]. exists d. unfold bufs_of in *.
    change (core_at (set_a_cache (mb_create (h_hash d) b :: a_cache s1) s1)) with (core_at s1). rewrite C1.
    split; [done|]. split; [done|]. by left.
Qed.

(** The old block is given up: the inode does not have it any more. *)
Lemma release_attr_spec X ino b d s : sok X s -> b ∈ X -> bufs_of s !! b = Some d -> count_sharers (core_at s) b < h_refcount d ->
  runs (release_xattr_bh ino b) E (fun _ s' => exists X', sok X' s' /\ c_inodes (core_at s') = c_inodes (core_at s) /\
    (forall j, attrs_of (core_at s') j = attrs_of (core_at s) j)) s.
Proof using All.
  intros St Hb Hd Hc. unfold release_xattr_bh. step. eapply runs_call; [by apply (buf_run b d)|]. cbv beta.
  destruct (st_block _ _ _ St b Hb) as (Hb0 & Hdata & _). pose proof (count_nonneg (core_at s) b).
  destruct (Z.eqb_spec (h_refcount d) 1) as [H1|H1].
  - step. unfold cache_call. step. set (s1 := set_a_cache _ s).
    assert (St1 : sok (X ∖ {[b]}) s1).
    { apply stored_drop; [by apply stored_delete|change (core_at s1) with (core_at s); lia|].
      intros h. by apply (deleted_gone X (a_cache s) (core_at s) St b d h). }
    step. call (free_block_spec (X ∖ {[b]}) ino b s1); [done|set_solver|done|done|].
    intros _ s2 (St2 & I2 & A2). step. apply note_attr_spec. intros s3 Hq3. apply note_attr_spec. intros s4 Hq4.
    pose proof (quiet_trans _ _ _ Hq3 Hq4) as Hq. pose proof (quiet_sok _ _ _ Hq St2) as St4. destruct Hq as [C4 _].
    exists (X ∖ {[b]}). split; [done|]. split; [by rewrite C4, I2|]. intros j. by rewrite C4, A2.
  - destruct (st_attr _ _ _ St b Hb) as (d' & al & Hb' & Hab & Hl & Hc1 & Hc2).
    assert (d' = d) as -> by (unfold bufs_of in Hd; congruence). unfold add_refcount. step. step.
    eapply runs_call; [by apply (buf_run b d)|]. cbv beta. pose proof (get32_range_at d 4 al Hab) as Hr32.
    fold (h_refcount d) in Hr32. rewrite u32_small by lia.
    destruct (refcount_put d al (h_refcount d + -1) Hab ltac:(lia)) as (Q1 & Q2 & Q3 & Q4 & Q5).
    set (d2 := put32 d 4 (h_refcount d + -1)) in *. apply runs_lift. unfold buf_set. step.
    destruct (stored_write X (a_cache s) (core_at s) St b d2 al Hb Q1) as [St3 A3]; [by rewrite Q4|lia|lia| |].
    { intros h Hh. destruct (st_live _ _ _ St h b Hh) as (_ & d0 & Hd0 & <-). rewrite Q3. congruence. }
    set (s3 := set_a_fs _ _). assert (C3 : core_at s3 = set_c_bufs (<[b := d2]> (c_bufs (core_at s))) (core_at s)) by done.
    step. apply note_attr_spec. intros s4 Hq4. step. apply note_attr_spec. intros s5 Hq5. apply note_attr_spec. intros s6 Hq6.
    pose proof (quiet_trans _ _ _ (quiet_trans _ _ _ Hq4 Hq5) Hq6) as Hq.
    pose proof (quiet_sok X s3 s6 Hq St3) as St6. destruct Hq as [C6 _]. exists X. split; [done|].
    split; [by rewrite C6|]. intros j. rewrite C6, C3, A3.
    destruct (Z.eqb_spec (acl_of (core_at s) j) b) as [Hj|]; [|done].
    unfold attrs_of. rewrite Hj. destruct (Z.eqb_spec b 0) as [->|]; [done|]. by rewrite Hb', Q5.
Qed.
(** *** The second half *)

Lemma alter_acl (c : core) ino b : is_Some (c_inodes c !! ino) ->
  moved_acl c (set_c_inodes (alter (set_i_ctime current_time) ino (alter (set_file_acl b) ino (c_inodes c))) c) ino b.
Proof using.
  intros [i Hi]. split.
  - cbn [c_inodes set_c_inodes]. by rewrite !dom_alter_L.
  - by eexists.
  - unfold acl_of. cbn [c_inodes set_c_inodes]. by rewrite !lookup_alter_eq, Hi.
  - intros j Hj. unfold acl_of. cbn [c_inodes set_c_inodes]. by rewrite !lookup_alter_ne by done.
Qed.

(** The attributes [ino] has with the block [bh]. *)
Definition attrs_at (s : attrfs) (bh : option Z) : attr_map :=
  match bh with
  | None => ∅
  | Some b => match bufs_of s !! b with Some d => attrs_in d | None => ∅ end
  end.

Lemma attach_spec X ino old_bh new_bh s : sok X s -> is_Some (c_inodes (core_at s) !! ino) ->
  acl_of (core_at s) ino = default 0 old_bh -> old_bh <> Some 0 ->
  (forall b, new_bh = Some b -> b ∈ X /\ exists d, bufs_of s !! b = Some d /\
     (acl_of (core_at s) ino = b \/ count_sharers (core_at s) b < h_refcount d)) ->
  runs (attach_xattr_bh ino old_bh new_bh) E (fun _ s' => exists X', sok X' s' /\
    keeps_attrs (core_at s) (core_at s') ino /\ attrs_of (core_at s') ino = attrs_at s new_bh) s.
Proof using All.
  intros St Hi Hacl Hold Hnew. unfold attach_xattr_bh. set (b := default 0 new_bh).
  pose proof (alter_acl (core_at s) ino b Hi) as Hm. set (ins := alter _ ino _) in Hm.
  destruct (stored_inodes X (a_cache s) (core_at s) St ino b ins Hm) as (St1 & K1 & A1).
  { destruct new_bh as [b'|]; [right|by left]. destruct (Hnew b' eq_refl) as (H1 & d & H2 & H3). split; [done|].
    destruct H3 as [?|H3]; [by left|right]. intros d' Hd'. unfold bufs_of in H2. change b with b' in Hd'. by assert (d' = d) as -> by congruence. }
  assert (Hattrs : attrs_of (set_c_inodes ins (core_at s)) ino = attrs_at s new_bh).
  { rewrite A1. destruct new_bh as [b'|]; [|done]. destruct (Hnew b' eq_refl) as (H1 & d & H2 & _).
    destruct (st_block _ _ _ St b' H1) as (Hb0 & _). change b with b'. by replace (b' =? 0) with false by lia. }
  step. apply runs_lift. unfold inode_upd. step. step. apply runs_lift. step. set (s1 := set_a_fs _ _).
  assert (C1 : core_at s1 = set_c_inodes ins (core_at s)) by done. destruct Hi as [i Hi].
  assert (Hi1 : exists i1, c_inodes (core_at s1) !! ino = Some i1).
  { rewrite C1. unfold ins. cbn [c_inodes set_c_inodes]. rewrite !lookup_alter_eq, Hi. by eexists. }
  destruct Hi1 as [i1 Hi1]. step. eapply runs_call; [by apply (inode_run ino i1)|]. cbv beta. step. step.
  set (sync := IS_SYNC _ _). set (err := if sync then _ else _).
  assert (Hfin : forall s', quiet s1 s' -> exists X', sok X' s' /\
    keeps_attrs (core_at s) (core_at s') ino /\ attrs_of (core_at s') ino = attrs_at s new_bh).
  { intros s' Hq. exists X. split; [by apply (quiet_sok X s1)|]. destruct Hq as [-> _]. by rewrite C1. }
  step. assert (Hdirty : runs (when (negb sync) (note (mark_inode_dirty ino))) E (fun _ s' => quiet s1 s') s1).
  { apply runs_when; [|by split]. intros _. by apply note_attr_spec. }
  eapply runs_mono; [exact Hdirty|]. cbv beta. intros _ s2 Hq2. destruct (negb (err =? 0) && negb (err =? - ENOSPC)).
  - step. apply runs_when.
    + intros _. step. apply note_attr_spec. intros s3 Hq3. apply note_attr_spec. intros s4 Hq4. step. apply Hfin.
      eapply quiet_trans; [exact Hq2|]. by eapply quiet_trans.
    + intros _. step. by apply Hfin.
  - step. destruct old_bh as [b0|]; [|step; step; by apply Hfin]. apply runs_when; [|intros _; step; by apply Hfin].
    intros Hne. assert (Hne' : new_bh <> Some b0) by (intros ->; by rewrite bool_decide_eq_true_2 in Hne).
    change (acl_of (core_at s) ino = b0) in Hacl. assert (Hb0 : b0 ∈ X).
    { destruct (st_file _ _ _ St ino) as [Hz|Hin]; [|by rewrite Hacl in Hin]. rewrite Hacl in Hz. congruence. }
    destruct (st_attr _ _ _ St b0 Hb0) as (d0 & al0 & Hd0 & _ & _ & R1 & R2).
    pose proof (quiet_sok X s1 s2 Hq2 St1) as St2. destruct Hq2 as [C2 L2].
    call (release_attr_spec X ino b0 d0 s2); [done|done| | |].
    + unfold bufs_of. rewrite C2, C1. exact Hd0.
    + rewrite C2, C1, (moved_count _ _ _ _ b0 Hm), Hacl, Z.eqb_refl.
      destruct (Z.eqb_spec b b0) as [He|]; [|lia]. exfalso. unfold b in He. destruct new_bh as [b'|]; [change (b' = b0) in He; congruence|].
      change (0 = b0) in He. congruence.
    + intros _ s3 (X' & St3 & I3 & A3). step. exists X'. split; [done|].
      rewrite C2, C1 in A3, I3. destruct K1 as [K11 K12]. split.
      * split; [|rewrite I3; apply K12]. intros j Hj. by rewrite A3, K11.
      * by rewrite A3.
Qed.

(** What [ext2_xattr_set2] leaves when it is given the header [d], or none. *)
Lemma set2_spec X ino old_bh header d al size s : sok X s -> can_alloc (core_at s) ino size -> size <= 268435456 ->
  is_Some (c_inodes (core_at s) !! ino) -> c_nblocks (core_at s) <= 2147483648 ->
  acl_of (core_at s) ino = default 0 old_bh -> old_bh <> Some 0 ->
  (header <> NoHeader -> attr_block d al /\ len d = 2 ^ c_bits (core_at s) /\ h_refcount d = 1) ->
  match header with
  | NoHeader => True
  | InPlace => exists b, old_bh = Some b /\ bufs_of s !! b = Some d
  | Copied d' => d' = d
  end ->
  runs (ext2_xattr_set2 ino old_bh header) E (fun err s' => exists X', sok X' s' /\
    keeps_attrs (core_at s) (core_at s') ino /\
    let new := match header with NoHeader => ∅ | _ => attrs_in d end in
    (attrs_of (core_at s') ino = new \/ err <> 0 /\ attrs_of (core_at s') ino = attrs_of (core_at s) ino)) s.
Proof using All.
  intros St Hw Hsize Hi Hn Hacl Hold Hd Hh. unfold ext2_xattr_set2. assert (header = NoHeader \/ header <> NoHeader) as [->|Hnh] by (destruct header; auto).
  { call (attach_spec X ino old_bh None s); [done|done|done|done|done|]. intros err s' (X' & H1 & H2 & H3).
    exists X'. split; [done|]. split; [done|]. left. exact H3. }
  destruct (Hd Hnh) as (Hab & Hl & Hr1).
  assert (Hin : (match header with InPlace => true | _ => false end) = true -> exists b, old_bh = Some b /\ b <> 0 /\ bufs_of s !! b = Some d).
  { destruct header; [done| |done]. intros _. destruct Hh as (b & -> & Hb). exists b. split; [done|]. split; [congruence|done]. }
  set (rest := fun d => r ← xattr_bh ino old_bh (match header with InPlace => true | _ => false end) d; _).
  assert (Hrest : runs (rest d) E (fun err s' => exists X', sok X' s' /\ keeps_attrs (core_at s) (core_at s') ino /\
    (attrs_of (core_at s') ino = attrs_in d \/ err <> 0 /\ attrs_of (core_at s') ino = attrs_of (core_at s) ino)) s).
  { unfold rest. step. call (xattr_bh_spec X ino old_bh _ d al size s); try done. intros r s1 (X1 & St1 & I1 & A1 & Hr).
    assert (K1 : keeps_attrs (core_at s) (core_at s1) ino) by (split; [by intros|by rewrite I1]).
    destruct r as [err|b].
    - step. exists X1. split; [done|]. split; [done|]. right. by rewrite A1.
    - destruct Hr as (Hb & db & Hdb & Heq & Hshare). step. apply note_attr_spec. intros s2 Hq2.
      assert (Hi2 : exists i2, c_inodes (core_at s2) !! ino = Some i2).
      { destruct Hq2 as [-> _]. rewrite I1. destruct Hi as [i Hi]. by eexists. }
      destruct Hi2 as [i2 Hi2]. step. eapply runs_call; [by apply (inode_run ino i2)|]. cbv beta. step. step. step.
      assert (Hsync : runs (when (IS_SYNC (a_fs s2) i2) (note (sync_dirty_buffer (BufBlock b)))) E (fun _ s' => quiet s2 s') s2).
      { apply runs_when; [|by split]. intros _. by apply note_attr_spec. }
      eapply runs_mono; [exact Hsync|]. cbv beta. intros _ s3 Hq3. pose proof (quiet_trans _ _ _ Hq2 Hq3) as Hq.
      pose proof (quiet_sok X1 s1 s3 Hq St1) as St3. destruct Hq as [C3 L3].
      destruct (IS_SYNC (a_fs s2) i2 && negb (bh_write_ok b)).
      + step. exists X1. rewrite C3. split; [done|]. split; [done|]. right. by rewrite A1.
      + call (attach_spec X1 ino old_bh (Some b) s3); [done|rewrite C3, I1; done| |done| |].
        * rewrite C3. unfold acl_of in *. by rewrite I1.
        * intros b' [= <-]. split; [done|]. exists db. unfold bufs_of in *. rewrite C3. done.
        * intros err s4 (X4 & St4 & K4 & A4). exists X4. split; [done|]. rewrite C3 in K4.
          split; [by eapply keeps_trans|]. left. rewrite A4. unfold attrs_at, bufs_of in *. by rewrite C3, Hdb. }
  destruct header as [| |d0]; [done| |].
  - destruct Hh as (b & -> & Hb). step. eapply runs_call; [by apply (buf_run b d)|]. exact Hrest.
  - subst d0. step. step. exact Hrest.
Qed.
End Ops.
