(* ===== verification/XattrSet.v ===== *)
(** * Setting, reading and deleting attributes

    [ext2_xattr_set], [ext2_xattr_get] and [ext2_xattr_delete_inode] on the map of
    the attributes of an inode. *)

From S2P Require Import Prelude Bytes Bits Kr Rsv Bitmap Alloc State Balloc BallocFacts NewBlocks BlockMap PathFacts BlockMapFacts FileTree BuildBranch GetBlocks Xattr XattrBlock XattrChange XattrFacts XattrMap XattrStore XattrOps.

(** ** Blocks *)

Section Blocks.
Context {S : Type}.

(** The place the look at a block gives is that of the attribute, or where it would be. *)
Definition place_of (d : list Z) (es l1 l2 : list xentry) (k : Z * list Z) (p : xattr_place) : Prop :=
  es = l1 ++ l2 /\ xp_here p = last_of l1 /\ xp_last p = last_of es /\ lowest (len d) es (xp_min_offs p) /\
  placed_at k (xp_not_found p) l1 l2 /\ xp_free p = xp_min_offs p - last_of es - 4.

Lemma look_up_place_run d es name_index name s : layout 4 d es es -> sorted es -> len name <= 255 ->
  exists p l1 l2, look_up_place (len d) d name_index name s = Ret (Some p) s /\
    place_of d es l1 l2 (name_index, name) p.
Proof.
  intros L Hs Hn. pose proof (layout_last _ _ _ _ L) as Hl. unfold last_of in Hl.
  destruct (find_here_run d (la_bytes _ _ _ _ L) name_index name (len d) s Hn es FIRST_ENTRY (xattr_fuel d) [] (len d) 1
    (la_descs _ _ _ _ L) (la_entries _ _ _ _ L) Hs Hl (layout_fuel _ _ _ _ L)) as (l1 & l2 & m1 & nf & Hes & Hrun & Hlow & Hp); [|lia|].
  { split; [lia|]. split; [|by left]. intros e He. by apply elem_of_nil in He. }
  subst es. pose proof (la_descs _ _ _ _ L) as Hd. apply descs_app in Hd as [_ Hd].
  pose proof (la_entries _ _ _ _ L) as HF. apply Forall_app in HF as [_ HF].
  destruct (find_last_run d (la_bytes _ _ _ _ L) (len d) s l2 (last_of l1) (xattr_fuel d) ([] ++ l1 ++ take 1 l2) m1 Hd HF)
    as (m2 & Hrun2 & Hlow2); [|pose proof (layout_fuel _ _ _ _ L) as Hf; rewrite length_app in Hf; lia|done|].
  { unfold last_of. rewrite <- Z.add_assoc, <- total_app. exact Hl. }
  assert (Hlow' : lowest (len d) (l1 ++ l2) m2).
  { eapply lowest_ext; [exact Hlow2|]. intros e. cbn [app]. rewrite !elem_of_app. split; [|tauto].
    intros [[?|He]|?]; [tauto| |tauto]. right. eapply elem_of_take in He as (i & He & _). by eapply list_elem_of_lookup_2. }
  destruct (lowest_room _ _ _ _ L Hlow') as [Hm1 Hm2]. pose proof (la_max _ _ _ _ L). pose proof (last_of_bounds (l1 ++ l2)) as Hb.
  unfold FIRST_ENTRY, xattr_header_size in Hb.
  eexists (XattrPlace _ _ _ _ _), l1, l2. split.
  - unfold look_up_place. rewrite (bind_Ret _ _ _ _ _ Hrun). cbv iota. rewrite (bind_Ret _ _ _ _ _ Hrun2). reflexivity.
  - split; [done|]. split; [done|]. assert (last_of l1 + total l2 = last_of (l1 ++ l2)) as -> by by rewrite last_of_app.
    split; [done|]. split; [done|]. split; [done|]. cbn [xp_free xp_min_offs]. rewrite (u64_small (m2 - _)) by lia. apply u64_small. lia.
Qed.

(** What the checks allow. *)
Lemma check_set_run d es l1 l2 k p value flags s : layout 4 d es es -> place_of d es l1 l2 k p ->
  exists r, check_set (len d) d p k.2 value flags s = Ret r s /\
    match r with
    | Answer err => if xp_not_found p then (if has flags XATTR_REPLACE then err = - ENODATA else value = None /\ err = 0)
                    else has flags XATTR_CREATE = true /\ err = - EEXIST
    | BadEntry => False
    | Room free => if xp_not_found p then has flags XATTR_REPLACE = false /\ is_Some value /\ free = xp_free p
        else has flags XATTR_CREATE = false /\
          free = xp_free p + (match l2 with e :: _ => x_room e | [] => 0 end) + EXT2_XATTR_LEN (len k.2)
    end.
Proof.
  intros L (-> & Hh & Hl & Hlow & [Hp1 Hp2] & Hf). unfold check_set. destruct (xp_not_found p) eqn:Hnf.
  - eexists. split; [reflexivity|]. destruct (has flags XATTR_REPLACE); [done|]. destruct value; [|done]. split; [done|]. by split.
  - destruct (has flags XATTR_CREATE) eqn:Hcr; [eexists; split; [reflexivity|done]|].
    destruct Hp2 as (e & l & -> & Hk). pose proof (descs_entry l1 e l d (la_descs _ _ _ _ L)) as He. rewrite <- Hh in He.
    rewrite (bind_Ret _ _ _ _ _ (has_value_run d _ e He s)).
    assert (Hein : e ∈ l1 ++ e :: l) by (apply elem_of_app; right; by left).
    destruct (layout_readable _ _ _ L e Hein) as (R1 & R2 & R3).
    destruct (lowest_room _ _ _ _ L Hlow) as [Hm1 Hm2]. pose proof (la_max _ _ _ _ L).
    pose proof (last_of_bounds (l1 ++ e :: l)) as Hb. unfold FIRST_ENTRY, xattr_header_size in Hb.
    assert (Hlen : 0 <= EXT2_XATTR_LEN (len k.2) <= 274).
    { pose proof (la_entries _ _ _ _ L) as HF. rewrite Forall_forall in HF. pose proof (xe_len _ (HF e Hein)) as Hxl.
      pose proof (xattr_len_bounds (len k.2)). rewrite <- Hk in *. cbn [snd x_key] in *. pose proof (len_nonneg (x_name e)). lia. }
    pose proof (xattr_size_bounds (x_size e)) as Hsb. fold (x_room e) in Hsb.
    destruct (Z.eqb_spec (x_size e) 0) as [Hz|Hz]; cbn [negb].
    + eexists. split; [reflexivity|]. split; [done|]. unfold x_room. rewrite Hz, xattr_size_zero. rewrite u64_small by lia. lia.
    + rewrite (bind_Ret _ _ _ _ _ (e_value_size_run d _ e He s)), (bind_Ret _ _ _ _ _ (e_value_offs_run d _ e He s)).
      replace ((x_offs e + x_size e >? len d) || (x_size e >? len d)) with false by lia.
      eexists. split; [reflexivity|]. split; [done|]. fold (x_room e). rewrite (u64_small (xp_free p + x_room e)) by lia.
      rewrite u64_small by lia. lia.
Qed.

End Blocks.

(** The header of a new block. *)
Lemma new_block_attrs n : 10 <= n <= 12 -> let d := new_xattr_block (2 ^ n) in
  layout 4 d [] [] /\ attr_block d [] /\ h_refcount d = 1 /\ len d = 2 ^ n.
Proof.
  intros Hn d. assert (Hlen : len d = 2 ^ n).
  { unfold d, new_xattr_block. rewrite !len_put32. unfold len. rewrite repeat_length. lia. }
  assert (Hrange : 1024 <= 2 ^ n <= 4096).
  { assert (n = 10 \/ n = 11 \/ n = 12) as [->|[->| ->]] by lia; lia. }
  assert (Hmod : len d mod 4 = 0).
  { rewrite Hlen. assert (n = 10 \/ n = 11 \/ n = 12) as [->|[->| ->]] by lia; done. }
  set (z := XattrChange.zeros (2 ^ n)). assert (Hz : len z = 2 ^ n) by (apply len_zeros; lia).
  pose proof (within_put32 z 0 EXT2_XATTR_MAGIC ltac:(lia) ltac:(lia)) as W1. set (d1 := put32 z 0 EXT2_XATTR_MAGIC) in *.
  pose proof (within_put32 d1 8 1 ltac:(lia) ltac:(rewrite (wi_len _ _ _ _ W1); lia)) as W2. set (d2 := put32 d1 8 1) in *.
  assert (L2 : len d2 = len z) by (rewrite (wi_len _ _ _ _ W2); apply W1).
  pose proof (within_put32 d2 4 1 ltac:(lia) ltac:(lia)) as W3. change (put32 d2 4 1) with d in W3.
  assert (W12 : within 0 12 z d2) by join W1 W2. assert (W : within 0 12 z d) by join W12 W3.
  assert (L : layout 4 d [] []).
  { split; try done; try lia.
    - apply W, bytes_zeros.
    - unfold last_of, FIRST_ENTRY, xattr_header_size. cbn [total]. lia.
    - intros e He. by apply elem_of_nil in He.
    - intros e He. by apply elem_of_nil in He.
    - intros e1 e2 He. by apply elem_of_nil in He.
    - intros j Hj _. unfold last_of, FIRST_ENTRY, xattr_header_size in Hj. cbn [total] in Hj.
      rewrite (wi_same _ _ _ _ W) by lia. apply get8_zero. }
  assert (Hlen1 : len d1 = 2 ^ n) by (rewrite (wi_len _ _ _ _ W1); done).
  split; [done|]. split; [split|split; [|done]].
  - unfold h_magic. transitivity (get32 d1 0).
    + transitivity (get32 d2 0); apply get32_same; eapply within_on; [exact W3|lia|lia|exact W2|lia|lia].
    + unfold d1. by rewrite get32_put32_eq by (unfold EXT2_XATTR_MAGIC; lia).
  - unfold h_blocks. transitivity (get32 d2 8); [apply get32_same; eapply within_on; [exact W3|lia|lia]|].
    unfold d2. by rewrite get32_put32_eq by lia.
  - exists []. split; [done|]. split; [constructor|done].
  - unfold h_refcount. change d with (put32 d2 4 1). by rewrite get32_put32_eq by lia.
Qed.

Section Set_.
Context {B : BitOps} {BL : BitLaws B} {R : RbTree} {RL : RbLaws R} {T : Trylock} {K : Kernel}.
Context {XK : XattrKernel} {XL : CacheLaws}.
Variable E : stop -> Prop.
Hypothesis HE : E Panic.

Abbreviation core_at s := (core_of (a_fs s)).

(** From [s] to [s'] the attributes of [ino] have become [new] or, if the call has
    failed, stayed what they were; those of the other inodes have stayed. *)
Definition set_to (ino : Z) (new : attr_map) (s : attrfs) (err : Z) (s' : attrfs) : Prop :=
  exists X', sok X' s' /\ keeps_attrs (core_at s) (core_at s') ino /\
    (attrs_of (core_at s') ino = new \/ err <> 0 /\ attrs_of (core_at s') ino = attrs_of (core_at s) ino).

(** What the change of a block is given: the place in the block, and room. *)
Record change_args (d : list Z) (es l1 l2 : list xentry) (name_index : Z) (name : list Z) (value : option (list Z))
    (p : xattr_place) : Prop := {
  ca_layout : layout 4 d es es;
  ca_sorted : sorted es;
  ca_place : place_of d es l1 l2 (name_index, name) p;
  ca_name : bytes name;
  ca_len : len name <= 255;
  ca_index : 1 <= name_index <= 255;
  ca_room : match value with
    | Some v => bytes v /\ last_of es + 4 + (if xp_not_found p then EXT2_XATTR_LEN (len name) else 0) + EXT2_XATTR_SIZE (len v)
        <= xp_min_offs p + (if xp_not_found p then 0 else match l2 with e :: _ => x_room e | [] => 0 end)
    | None => xp_not_found p = false
    end;
}.

(** The block after the change. *)
Lemma change_run d es l1 l2 name_index name value p : h_magic d = EXT2_XATTR_MAGIC -> h_blocks d = 1 ->
  change_args d es l1 l2 name_index name value p ->
  exists d' al', change_block (xp_not_found p) (xp_here p) (xp_last p) (xp_min_offs p) name_index name value d
      = Ret (negb (bool_decide (al' = []))) d' /\
    attr_block d' al' /\ len d' = len d /\ h_refcount d' = h_refcount d /\
    attrs_in d' = change_attr (name_index, name) value (attrs_in d).
Proof using.
  intros Hmagic Hblocks [L Hs (Hes & Hh & Hl & Hlow & Hp & _) Hn Hlen Hi Hroom]. subst es.
  pose proof (change_block_run d (l1 ++ l2) l1 l2 (xp_not_found p) (xp_min_offs p) name_index name value Hn Hlen Hi
    Hmagic Hblocks eq_refl L Hs Hlow Hp Hroom) as (d' & Hrun & W & Ha).
  rewrite Hh, Hl. eexists d', _. split; [exact Hrun|]. split; [done|]. split; [apply W|].
  split; [apply get32_same; eapply within_on; [exact W|lia|lia]|].
  rewrite (attrs_in_block d' _ Ha), (attrs_in_layout _ _ _ _ L).
  by apply (map_of_change d (name_index, name) (xp_not_found p) l1 l2 value Hs Hp).
Qed.

(** The arguments for a block are those for a copy with another count. *)
Lemma args_header d es l1 l2 name_index name value p r : 0 <= r < 4294967296 ->
  change_args d es l1 l2 name_index name value p -> change_args (put32 d 4 r) es l1 l2 name_index name value p.
Proof using.
  intros Hr [L Hs Hp Hn Hl Hi Hroom]. pose proof (la_room _ _ _ _ L). pose proof (la_gap _ _ _ _ L).
  pose proof (last_of_bounds es) as Hb. unfold FIRST_ENTRY, xattr_header_size in Hb.
  pose proof (within_put32 d 4 r ltac:(lia) ltac:(lia)) as W.
  destruct (layout_header 4 d (put32 d 4 r) es L) as [L' _].
  { split; [apply W|apply W|]. intros; apply (wi_same _ _ _ _ W); unfold FIRST_ENTRY, xattr_header_size in *; lia. }
  split; try done. unfold place_of. by rewrite len_put32.
Qed.

Lemma header_full {A} (al' : list attr) (a b : A) : (if negb (bool_decide (al' = [])) then a else b) = if decide (al' = []) then b else a.
Proof using. by case_bool_decide; case_decide. Qed.

(** The block is a copy, or new. *)
Lemma copied_spec X ino old_bh d es l1 l2 name_index name value p size s : sok X s -> can_alloc (core_at s) ino size ->
  size <= 268435456 -> is_Some (c_inodes (core_at s) !! ino) -> c_nblocks (core_at s) <= 2147483648 ->
  acl_of (core_at s) ino = default 0 old_bh -> old_bh <> Some 0 ->
  h_magic d = EXT2_XATTR_MAGIC -> h_blocks d = 1 -> h_refcount d = 1 -> len d = 2 ^ c_bits (core_at s) ->
  change_args d es l1 l2 name_index name value p ->
  runs (r ← on_copy d (change_block (xp_not_found p) (xp_here p) (xp_last p) (xp_min_offs p) name_index name value);
        let '(full, d) := r in ext2_xattr_set2 ino old_bh (if (full : bool) then Copied d else NoHeader)) E
    (fun err s' => set_to ino (change_attr (name_index, name) value (attrs_in d)) s err s') s.
Proof using All.
  intros St Hw Hsize Hi Hn Hacl Hold Hmagic Hblocks Hr Hl Hargs.
  destruct (change_run d es l1 l2 name_index name value p Hmagic Hblocks Hargs) as (d' & al' & Hrun & Ha & Hl' & Hr' & Hattrs).
  step. unfold on_copy. rewrite Hrun. step. rewrite header_full.
  call (set2_spec E HE X ino old_bh (if decide (al' = []) then NoHeader else Copied d') d' al' size s); try done.
  - intros _. split; [done|]. split; [congruence|congruence].
  - by case_decide.
  - intros err s' (X' & St' & K' & A'). exists X'. split; [done|]. split; [done|]. rewrite <- Hattrs.
    case_decide as Hal; [|done]. by rewrite (attrs_in_block d' al' Ha), Hal.
Qed.

(** The block belongs to the inode alone, and is changed in its place. *)
Lemma in_place_spec X ino b d es l1 l2 name_index name value p size s : sok X s -> can_alloc (core_at s) ino size ->
  size <= 268435456 -> is_Some (c_inodes (core_at s) !! ino) -> c_nblocks (core_at s) <= 2147483648 ->
  acl_of (core_at s) ino = b -> b <> 0 -> bufs_of s !! b = Some d ->
  h_magic d = EXT2_XATTR_MAGIC -> h_blocks d = 1 -> h_refcount d = 1 ->
  change_args d es l1 l2 name_index name value p ->
  runs (cache_call (mb_delete (h_hash d) b) ;;
        full ← on_block b (change_block (xp_not_found p) (xp_here p) (xp_last p) (xp_min_offs p) name_index name value);
        ext2_xattr_set2 ino (Some b) (if (full : bool) then InPlace else NoHeader)) E
    (fun err s' => set_to ino (change_attr (name_index, name) value (attrs_in d)) s err s') s.
Proof using All.
  intros St Hw Hsize Hi Hn Hacl Hb0 Hd Hmagic Hblocks Hr Hargs.
  destruct (change_run d es l1 l2 name_index name value p Hmagic Hblocks Hargs) as (d' & al' & Hrun & Ha & Hl' & Hr' & Hattrs).
  assert (Hb : b ∈ X) by (destruct (st_file _ _ _ St ino) as [?|Hin]; [congruence|by rewrite Hacl in Hin]).
  destruct (st_attr _ _ _ St b Hb) as (d0 & al0 & Hd0 & _ & Hl0 & _ & Hc).
  assert (d0 = d) as -> by (unfold bufs_of in Hd; congruence). rewrite Hr in Hc.
  step. unfold cache_call. step. set (s1 := set_a_cache _ s). step. unfold on_block. step.
  eapply runs_call; [by apply (buf_run b d)|]. cbv beta. rewrite Hrun. step. apply runs_lift. unfold buf_set. step.
  set (s2 := set_a_fs _ s1). step. rewrite header_full.
  assert (C2 : core_at s2 = set_c_bufs (<[b := d']> (c_bufs (core_at s))) (core_at s)) by done.
  destruct (stored_write X (a_cache s1) (core_at s) (stored_delete _ _ _ St _ _) b d' al' Hb Ha) as [St2 A2];
    [by rewrite Hl'|rewrite Hr'; lia|rewrite Hr'; lia| |].
  { intros h Hh. exfalso. by apply (deleted_gone X (a_cache s) (core_at s) St b d h Hd). }
  assert (Hnew : attrs_of (core_at s2) ino = attrs_in d') by (rewrite C2, A2, Hacl; by rewrite Z.eqb_refl).
  call (set2_spec E HE X ino (Some b) (if decide (al' = []) then NoHeader else InPlace) d' al' size s2); try done.
  - intros [= ->]. done.
  - intros _. split; [done|]. split; [|congruence]. change (c_bits (core_at s2)) with (c_bits (core_at s)). congruence.
  - case_decide; [done|]. exists b. split; [done|]. unfold bufs_of. rewrite C2. cbn [c_bufs set_c_bufs]. by rewrite lookup_insert_eq.
  - intros err s' (X' & St' & [K' Kd] & A'). exists X'. split; [done|].
    assert (Hv : attrs_of (core_at s') ino = attrs_in d').
    { destruct A' as [->|[_ ->]]; [|done]. case_decide as Hal; [|done]. by rewrite (attrs_in_block d' al' Ha), Hal. }
    split; [|left; by rewrite Hv, <- Hattrs]. split; [|done].
    intros j Hj. rewrite K' by done. rewrite C2, A2. destruct (Z.eqb_spec (acl_of (core_at s) j) b) as [Hjb|]; [|done].
    exfalso. destruct (c_inodes (core_at s) !! j) as [ij|] eqn:Hij; [|unfold acl_of in Hjb; rewrite Hij in Hjb; lia].
    apply Hj. by eapply (count_one (core_at s) b ino j).
Qed.

(** The state [ext2_xattr_set] starts from. *)
Record can_set (X : gset Z) (s : attrfs) (ino size : Z) : Prop := {
  cs_stored : sok X s;
  cs_alloc : can_alloc (core_at s) ino size;
  cs_size : size <= 268435456;
  cs_inode : is_Some (c_inodes (core_at s) !! ino);
  cs_blocks : c_nblocks (core_at s) <= 2147483648;
}.

(** How [ext2_xattr_set] ends. *)
Definition xattr_was_set (ino : Z) (k : Z * list Z) (value : option (list Z)) (flags : Z) (s : attrfs) (err : Z) (s' : attrfs) : Prop :=
  let old := attrs_of (core_at s) ino in
  exists X', sok X' s' /\ keeps_attrs (core_at s) (core_at s') ino /\
    (attrs_of (core_at s') ino = change_attr k value old \/ err <> 0 /\ attrs_of (core_at s') ino = old) /\
    ((forall b, bh_read_ok b = true) ->
       (has flags XATTR_REPLACE = true -> old !! k = None -> err = - ENODATA /\ attrs_of (core_at s') ino = old) /\
       (has flags XATTR_CREATE = true -> is_Some (old !! k) -> err = - EEXIST /\ attrs_of (core_at s') ino = old) /\
       (has flags XATTR_REPLACE = false -> old !! k = None -> value = None -> err = 0)).

Section Checks.
Variables (X : gset Z) (s s1 : attrfs) (ino size name_index : Z) (name : list Z) (value : option (list Z)) (flags : Z).
Let k := (name_index, name).
Let old := attrs_of (core_at s) ino.
Hypothesis Hcan : can_set X s ino size.
Hypothesis Hq : quiet s s1.
Hypothesis Hn : bytes name.
Hypothesis Hlen : len name <= 255.
Hypothesis Hindex : 1 <= name_index <= 255.
Hypothesis Hv : forall v, value = Some v -> bytes v.

(** Nothing has been done. *)
Lemma not_set err : err <> 0 -> ((forall b, bh_read_ok b = true) ->
    (has flags XATTR_REPLACE = true -> old !! k = None -> err = - ENODATA) /\
    (has flags XATTR_CREATE = true -> is_Some (old !! k) -> err = - EEXIST) /\
    (has flags XATTR_REPLACE = false -> old !! k = None -> value <> None)) ->
  xattr_was_set ino k value flags s err s1.
Proof using Hcan Hq.
  intros He Hcodes. exists X. split; [by apply (quiet_sok X s), Hcan|]. destruct Hq as [C1 _]. rewrite C1.
  split; [done|]. split; [by right|]. intros Hread. destruct (Hcodes Hread) as (H1 & H2 & H3). split; [auto|]. split; [auto|].
  intros Hf Ho Hval. by destruct (H3 Hf Ho).
Qed.
Lemma was_set err s' : set_to ino (change_attr k value old) s1 err s' ->
  ((has flags XATTR_REPLACE = true -> old !! k <> None) /\ (has flags XATTR_CREATE = true -> old !! k = None) /\
   (old !! k = None -> value <> None)) ->
  xattr_was_set ino k value flags s err s'.
Proof using Hq.
  intros (X' & S' & K' & A') (F1 & F2 & F3). destruct Hq as [C1 _]. rewrite C1 in *. exists X'.
  split; [done|]. split; [done|]. split; [done|]. intros _. split; [intros Hf Ho; by destruct (F1 Hf)|].
  split; [|intros Hf Ho Hval; by destruct (F3 Ho)]. intros Hf [v Ho]. specialize (F2 Hf). fold old in Ho. congruence.
Qed.

(** The checks, and what follows them, on the block [d] with the entries [es]. *)
Lemma after_look_up d es l1 l2 p (cont : Z -> M attrfs Z) : layout 4 d es es -> sorted es ->
  place_of d es l1 l2 k p -> attrs_in d = old -> 0 < len d ->
  (change_args d es l1 l2 name_index name value p ->
     runs (cont 0) E (fun err s' => set_to ino (change_attr k value old) s1 err s') s1) ->
  (forall f, cont f = cont 0) ->
  runs (r ← check_set (len d) d p name value flags;
        match r with
        | Answer err => mret err
        | BadEntry => on_fs kr_error ;; mret (- EIO)
        | Room free => if free <? EXT2_XATTR_LEN (len name) + EXT2_XATTR_SIZE (len (default [] value)) then mret (- ENOSPC) else cont free
        end) E (fun err s' => xattr_was_set ino k value flags s err s') s1.
Proof using All.
  intros L Hs Hp Hold Hpos Hcont Hfree. destruct Hp as (Hes & Hh & Hl & Hlow & Hpl & Hf).
  destruct (check_set_run d es l1 l2 k p value flags s1 L) as (r & Hrun & Hr); [by split_and!|].
  step. eapply runs_call; [exact Hrun|]. cbv beta.
  assert (Hmap : (xp_not_found p = true -> old !! k = None) /\ (xp_not_found p = false -> is_Some (old !! k))).
  { rewrite <- Hold, (attrs_in_layout _ _ _ _ L). subst es.
    destruct (map_of_change d k (xp_not_found p) l1 l2 value Hs Hpl) as (_ & M1 & M2).
    split; [exact M1|]. intros Hnf. destruct (M2 Hnf) as (e & _ & ->). by eexists. }
  destruct Hmap as [M1 M2]. destruct r as [err| |free]; [|done|].
  - step. destruct (xp_not_found p) eqn:Hnf.
    + destruct (has flags XATTR_REPLACE) eqn:Hrep.
      * subst err. apply not_set; [done|]. intros _. split; [done|]. split; [|by rewrite Hrep]. intros _ [v Ho]. by rewrite M1 in Ho.
      * destruct Hr as [-> ->]. destruct Hq as [C1 _]. exists X. split; [by apply (quiet_sok X s), Hcan|]. rewrite C1. split; [done|].
        split; [left; cbn [change_attr]; by rewrite delete_id by by apply M1|]. intros _. split; [by rewrite Hrep|]. split; [|done].
        intros _ [v Ho]. fold old in Ho. by rewrite M1 in Ho.
    + destruct Hr as [Hcr ->]. apply not_set; [done|]. intros _. destruct (M2 eq_refl) as [v Ho].
      split; [by rewrite Ho|]. split; [done|by rewrite Ho].
  - destruct (lowest_room _ _ _ _ L Hlow) as [Hm1 Hm2].
    assert (Hflags : (has flags XATTR_REPLACE = true -> old !! k <> None) /\ (has flags XATTR_CREATE = true -> old !! k = None) /\
      (old !! k = None -> value <> None)).
    { destruct (xp_not_found p) eqn:Hnf.
      - destruct Hr as (Hr1 & [v ->] & _). rewrite Hr1. split_and!; try done. intros _. by apply M1.
      - destruct Hr as (Hr1 & _). destruct (M2 eq_refl) as [v Ho]. rewrite Hr1, Ho. by split_and!. }
    assert (Hargs : EXT2_XATTR_LEN (len name) + EXT2_XATTR_SIZE (len (default [] value)) <= free ->
      change_args d es l1 l2 name_index name value p).
    { intros Hle. split; try done. destruct value as [v|].
      - split; [by apply Hv|]. change (len (default [] (Some v))) with (len v) in Hle.
        change (len k.2) with (len name) in Hr. destruct (xp_not_found p); [destruct Hr as (_ & _ & ->)|destruct Hr as (_ & ->)]; lia.
      - destruct (xp_not_found p) eqn:Hnf; [|done]. by destruct Hr as (_ & [? ?] & _). }
    destruct (Z.ltb_spec free (EXT2_XATTR_LEN (len name) + EXT2_XATTR_SIZE (len (default [] value)))) as [Hlt|Hge].
    + step. apply not_set; [done|]. intros _. destruct Hflags as (F1 & F2 & F3). split; [intros Hf1 Ho; by destruct (F1 Hf1)|].
      split; [|auto]. intros Hf1 [v Ho]. rewrite F2 in Ho; done.
    + rewrite Hfree. call Hcont; [by apply Hargs; lia|]. intros err s' Hset. by apply was_set.
Qed.

End Checks.

(** The block of an inode. *)
Lemma inode_block X s ino : sok X s -> acl_of (core_at s) ino <> 0 ->
  exists d al, bufs_of s !! acl_of (core_at s) ino = Some d /\ attr_block d al /\ len d = 2 ^ c_bits (core_at s) /\
    1 <= h_refcount d /\ count_sharers (core_at s) (acl_of (core_at s) ino) <= h_refcount d /\
    attrs_of (core_at s) ino = attrs_in d.
Proof using.
  intros St Ha. destruct (st_file _ _ _ St ino) as [?|Hin]; [done|].
  destruct (st_attr _ _ _ St _ Hin) as (d & al & H1 & H2 & H3 & H4 & H5). exists d, al. split_and!; try done.
  unfold attrs_of. unfold bufs_of in *. rewrite H1. by replace (acl_of (core_at s) ino =? 0) with false by lia.
Qed.
Lemma good_header d al : attr_block d al -> bad_header d = false.
Proof using. intros [H1 H2 _]. unfold bad_header. rewrite H1, H2. by rewrite !Z.eqb_refl. Qed.
Lemma blocksize_bits s : 0 <= c_bits (core_at s) -> fs_blocksize (a_fs s) = 2 ^ c_bits (core_at s).
Proof using. intros H. unfold fs_blocksize. rewrite Z.shiftl_mul_pow2 by done. change (fs_blocksize_bits (a_fs s)) with (c_bits (core_at s)). lia. Qed.

Lemma ext2_xattr_set_spec X ino name_index name value flags size s : can_set X s ino size ->
  bytes name -> len name <= 255 -> 1 <= name_index <= 255 ->
  (forall v, value = Some v -> bytes v /\ len v <= fs_blocksize (a_fs s)) ->
  runs (ext2_xattr_set ino name_index (Some name) value flags) E
    (fun err s' => xattr_was_set ino (name_index, name) value flags s err s') s.
Proof using All.
  intros Hcan Hn Hlen Hi Hv. pose proof Hcan as [St Hw Hsize Hino Hblocks]. pose proof (ck_bits _ (bo_core _ (st_ok _ _ _ St))) as Hbits.
  set (k := (name_index, name)). pose proof (blocksize_bits s ltac:(lia)) as Hbs.
  unfold ext2_xattr_set. step. step. cbv zeta.
  assert ((len name >? 255) || (len (default [] value) >? fs_blocksize (a_fs s)) = false) as ->.
  { destruct value as [v|]; [destruct (Hv v eq_refl) as [_ Hvl]; change (default [] (Some v)) with v; lia|].
    change (len (default [] None)) with 0. rewrite Hbs. pose proof (Z.pow_pos_nonneg 2 (c_bits (core_at s))). lia. }
  destruct Hino as [i Hino]. step. eapply runs_call; [by apply (file_acl_run ino i)|]. cbv beta.
  set (a := acl_of (core_at s) ino) in *. assert (Hvb : forall v, value = Some v -> bytes v) by (intros v Hval; by apply Hv).
  destruct (Z.eqb_spec a 0) as [Ha|Ha].
  - step. step. step. step. rewrite bool_decide_eq_false_2 by by intros [? ?]. cbn [andb]. rewrite Hbs. step. step.
    destruct (new_block_attrs (c_bits (core_at s)) Hbits) as (L & Hab & Hr & Hl).
    set (d := new_xattr_block (2 ^ c_bits (core_at s))) in *. rewrite <- Hl.
    assert (Hnone : attrs_in d = attrs_of (core_at s) ino).
    { rewrite (attrs_in_block d [] Hab). unfold attrs_of. fold a. by rewrite Ha. }
    apply (after_look_up X s s ino size name_index name value flags Hcan ltac:(done) Hn Hlen Hi Hvb d [] [] []
      (XattrPlace FIRST_ENTRY FIRST_ENTRY (len d) true (len d - xattr_header_size - 4))
      (fun _ => change_and_store ino None d _ name_index name value)); try done.
    + constructor.
    + split_and!; try done; cbn [xp_free xp_min_offs]; [|by split; intros e He; apply elem_of_nil in He].
      split; [lia|]. split; [|by left]. intros e He. by apply elem_of_nil in He.
    + rewrite Hl. pose proof (Z.pow_pos_nonneg 2 (c_bits (core_at s))). lia.
    + intros Hargs. unfold change_and_store. destruct kmalloc_ok; cbn [negb].
      2: { step. exists X. split; [done|]. split; [done|]. by right. }
      rewrite <- Hnone. eapply (copied_spec X ino None d [] [] [] name_index name value _ size s); try done.
      all: by destruct Hab.
  - destruct (inode_block X s ino St Ha) as (d & al & Hd & Hab & Hl & Hr1 & Hr2 & Hattrs). fold a in Hd, Hr2.
    step. step. call (bread_spec E HE). intros r s1 [Hq Hr]. step. pose proof Hq as [C1 L1].
    destruct Hr as [->|[-> Hbad]]; cbn [fmap option_fmap option_map].
    2: { step. apply (not_set X s s1 ino size name_index name value flags Hcan Hq); [done|]. intros Hread. by rewrite Hread in Hbad. }
    assert (Hd1 : bufs_of s1 !! a = Some d) by (unfold bufs_of; rewrite C1; exact Hd).
    step. eapply runs_call; [by apply (buf_run a d)|]. cbv beta. rewrite (good_header d al Hab). rewrite andb_false_r.
    pose proof Hab as [Hmagic Hbk (es & L & Hs & _)]. rewrite Hbs, <- Hl.
    destruct (look_up_place_run d es name_index name s1 L Hs Hlen) as (p & l1 & l2 & Hrun & Hp).
    step. eapply runs_call; [exact Hrun|]. cbv beta iota.
    apply (after_look_up X s s1 ino size name_index name value flags Hcan Hq Hn Hlen Hi Hvb d es l1 l2 p
      (fun _ => change_and_store ino (Some a) d p name_index name value)); try done.
    + rewrite Hl. pose proof (Z.pow_pos_nonneg 2 (c_bits (core_at s))). lia.
    + intros Hargs. unfold change_and_store. pose proof (quiet_sok X s s1 Hq St) as St1.
      rewrite Hattrs. destruct (Z.eqb_spec (h_refcount d) 1) as [H1|H1].
      * apply (in_place_spec X ino a d es l1 l2 name_index name value p size s1); try done; rewrite C1; try done; by eexists.
      * destruct kmalloc_ok; cbn [negb].
        2: { step. exists X. split; [done|]. split; [done|]. by right. }
        destruct (refcount_put d al 1 Hab ltac:(lia)) as ([Q1 Q1' _] & Q2 & Q3 & Q4 & Q5). rewrite <- Q5.
        eapply (copied_spec X ino (Some a) (put32 d 4 1) es l1 l2 name_index name value p size s1); try done; try (rewrite C1; try done; by eexists).
        -- by intros [= ->].
        -- rewrite Q4, C1. done.
        -- by apply args_header.
Qed.

End Set_.
