(* ===== verification/XattrRead.v ===== *)
(** * Reading, listing and deleting attributes

    [ext2_xattr_get], [ext2_xattr_list] and [ext2_xattr_delete_inode] on the map of
    the attributes of an inode. *)

From Stdlib Require Import Sorted String.
From S2P Require Import Prelude Bytes Bits Kr Rsv Bitmap Alloc State Balloc BallocFacts NewBlocks BlockMap PathFacts BlockMapFacts FileTree BuildBranch GetBlocks Xattr XattrBlock XattrChange XattrFacts XattrMap XattrStore XattrOps XattrSet.

Section Read.
Context {B : BitOps} {BL : BitLaws B} {R : RbTree} {RL : RbLaws R} {T : Trylock} {K : Kernel}.
Context {XK : XattrKernel} {XL : CacheLaws}.
Variable E : stop -> Prop.
Hypothesis HE : E Panic.

Abbreviation core_at s := (core_of (a_fs s)).

(** ** Reading *)

(** The answer for the value of an attribute, if there is one. *)
Definition get_answer (v : option (list Z)) (buffer : option Z) : Z * option (list Z) :=
  match v with
  | None => (- ENODATA, None)
  | Some v =>
      match buffer with
      | None => (len v, None)
      | Some n => if len v >? n then (- ERANGE, None) else (len v, Some v)
      end
  end.

(** Nothing has changed but the entries of the cache. *)
Definition only_read (X : gset Z) (s s' : attrfs) : Prop := sok X s' /\ core_at s' = core_at s.

(** The block could not be read. *)
Definition unread (s : attrfs) (ino : Z) : Prop :=
  acl_of (core_at s) ino <> 0 /\ bh_read_ok (acl_of (core_at s) ino) = false.

Lemma insert_spec X b d s Q : sok X s -> b ∈ X -> bufs_of s !! b = Some d ->
  (forall s', only_read X s s' -> a_fs s' = a_fs s -> Q tt s') -> runs (ext2_xattr_cache_insert b) E Q s.
Proof using.
  intros St Hb Hd HQ. eapply runs_call; [by apply (insert_run b d)|]. apply HQ; [|done]. split; [|done]. by apply stored_create.
Qed.

Lemma ext2_xattr_get_spec X ino name_index name buffer s : sok X s -> is_Some (c_inodes (core_at s) !! ino) ->
  len name <= 255 ->
  runs (ext2_xattr_get ino name_index (Some name) buffer) E (fun r s' => only_read X s s' /\
    (r = (- EIO, None) /\ unread s ino \/
     r = get_answer (attrs_of (core_at s) ino !! (name_index, name)) buffer)) s.
Proof using HE.
  intros St [i Hi] Hlen. pose proof (ck_bits _ (bo_core _ (st_ok _ _ _ St))) as Hbits.
  unfold ext2_xattr_get. replace (len name >? 255) with false by lia.
  step. eapply runs_call; [by apply (file_acl_run ino i)|]. cbv beta.
  set (a := acl_of (core_at s) ino) in *. destruct (Z.eqb_spec a 0) as [Ha|Ha].
  { step. split; [done|]. right. unfold attrs_of. fold a. by rewrite Ha, Z.eqb_refl, lookup_empty. }
  destruct (inode_block X s ino St Ha) as (d & al & Hd & Hab & Hl & Hr1 & Hr2 & Hattrs). fold a in Hd, Hr2.
  assert (Hin : a ∈ X) by (destruct (st_file _ _ _ St ino) as [?|?]; done).
  step. call (bread_spec E HE). intros r s1 [Hq Hr]. pose proof (quiet_sok X s s1 Hq St) as St1. pose proof Hq as [C1 L1].
  destruct Hr as [->|[-> Hbad]]; [|step; split; [by split|]; left; by split].
  assert (Hd1 : bufs_of s1 !! a = Some d) by (unfold bufs_of; rewrite C1; exact Hd).
  step. eapply runs_call; [by apply (buf_run a d)|]. cbv beta. rewrite (good_header d al Hab).
  pose proof Hab as [_ _ (es & L & Hs & _)].
  destruct (find_attribute_block d es name_index name s1 L Hs) as (r & Hrun & Hr).
  step. eapply runs_call; [exact Hrun|]. cbv beta. rewrite Hattrs. destruct r as [| |p]; [done| |].
  - step. apply (insert_spec X a d); [done|done|done|]. intros s2 [St2 C2] _. step. split; [split; [done|congruence]|].
    right. by rewrite Hr.
  - destruct Hr as (e & He & Hein & ->). destruct (layout_readable _ _ _ L e Hein) as (R1 & R2 & R3).
    pose proof (la_max _ _ _ _ L) as Hmax.
    assert (Hvl : len (value d e) = x_size e) by (unfold value; apply len_sub; lia).
    step. eapply runs_call; [apply (e_value_block_run d p e He s1)|]. cbv beta.
    step. eapply runs_call; [apply (e_value_size_run d p e He s1)|]. cbv beta.
    step. eapply runs_call; [apply (e_value_offs_run d p e He s1)|]. cbv beta. step. step.
    rewrite blocksize_bits by (rewrite C1; lia). rewrite C1. rewrite <- Hl. cbn [Z.eqb negb orb].
    replace ((x_size e >? len d) || (x_offs e + x_size e >? len d)) with false by lia.
    step. apply (insert_spec X a d); [done|done|done|]. intros s2 [St2 C2] _. unfold get_answer. rewrite Hvl.
    assert (Hro : only_read X s s2) by (split; [done|congruence]).
    destruct buffer as [n|]; [destruct (x_size e >? n)|]; step; try (split; [done|]; by right).
    + eapply runs_call; [by apply at_bytes_run|]. cbv beta. step. split; [done|]. right. rewrite s32_small by lia. done.
    + split; [done|]. right. rewrite s32_small by lia. done.
Qed.

(** ** Listing *)

(** What the handlers of names list of the attributes. *)
Definition listed_name (fs : krfs) (ino : Z) (a : attr) : list Z :=
  match ext2_xattr_handler fs ino a.1.1 with
  | Some (prefix, true) => prefix ++ a.1.2 ++ [0]
  | _ => []
  end.
Definition listed (fs : krfs) (ino : Z) (al : list attr) : list Z := mjoin (listed_name fs ino <$> al).

Definition list_answer (names : list Z) (buffer : option Z) : Z * option (list Z) :=
  match buffer with
  | None => (len names, None)
  | Some n => if len names >? n then (- ERANGE, None) else (len names, Some names)
  end.

Lemma handler_prefix fs ino name_index prefix b : ext2_xattr_handler fs ino name_index = Some (prefix, b) ->
  len prefix <= 24.
Proof using.
  unfold ext2_xattr_handler. intros H.
  repeat (case_match; [injection H as <- _; vm_compute; done|]). done.
Qed.

Lemma listed_bounds fs ino a : len a.1.2 <= 255 -> 0 <= len (listed_name fs ino a) <= 280.
Proof using.
  intros Hl. split; [apply len_nonneg|]. unfold listed_name.
  destruct (ext2_xattr_handler fs ino a.1.1) as [[prefix b]|] eqn:Hh; [|unfold len; simpl; lia].
  pose proof (handler_prefix _ _ _ _ _ Hh). destruct b; [|unfold len; simpl; lia].
  rewrite !len_app. change (len [0]) with 1. lia.
Qed.

Section Names.
Variables (d : list Z) (ino : Z) (s : attrfs) (n : Z).
Hypothesis Hb : bytes d.
Hypothesis Hn : 0 <= n < 9223372036854775808.
#[local] Abbreviation names es := (listed (a_fs s) ino (pairs d es)).

Lemma check_list_run : forall es o fuel, descs d o es -> Forall entry_ok es -> last_word d (o + total es) ->
  (length es < fuel)%nat -> check_list fuel d o s = Ret true s.
Proof using Hb.
  induction es as [|e es IH]; intros o [|fuel] Hd Hok Hl Hf; simpl in Hf; try lia; cbn [check_list total] in *.
  - rewrite Z.add_0_r in Hl. by rewrite (bind_Ret _ _ _ _ _ (last_entry_run d o s Hl)).
  - destruct Hd as [He Hd]. apply Forall_cons in Hok as [Heo Hok].
    rewrite (bind_Ret _ _ _ _ _ (entry_not_last d o e He s Hb Heo)).
    rewrite (bind_Ret _ _ _ _ _ (xattr_next_run d o e He s)).
    pose proof (total_bounds es). pose proof (len_nonneg es).
    replace (o + x_len e >=? len d) with false by (destruct Hl as (_ & ? & _); lia).
    apply IH; [done|done|by rewrite <- Z.add_assoc|lia].
Qed.

Lemma names_cons e es : names (e :: es) = listed_name (a_fs s) ino (x_key e, value d e) ++ names es.
Proof using. done. Qed.

Lemma list_names_run (buffer : bool) : forall es o fuel sofar, descs d o es -> Forall entry_ok es -> last_word d (o + total es) ->
  (length es < fuel)%nat -> len sofar + 280 * Z.of_nat (length es) < 2147483648 -> (buffer = true -> len sofar <= n) ->
  list_names fuel ino d o buffer (u64 (n - len sofar)) (if buffer then sofar else []) s =
    Ret (if buffer && (len (sofar ++ names es) >? n) then None
         else Some (u64 (n - len (sofar ++ names es)), if buffer then sofar ++ names es else [])) s.
Proof using Hb Hn.
  induction es as [|e es IH]; intros o [|fuel] sofar Hd Hok Hl Hf Hlen Hbuf; simpl in Hf; try lia; cbn [list_names total] in *.
  - rewrite Z.add_0_r in Hl. rewrite (bind_Ret _ _ _ _ _ (last_entry_run d o s Hl)).
    change (names []) with (@nil Z). rewrite app_nil_r. destruct buffer; cbn [andb]; [|done].
    specialize (Hbuf eq_refl). by replace (len sofar >? n) with false by lia.
  - destruct Hd as [He Hd]. apply Forall_cons in Hok as [Heo Hok].
    rewrite (bind_Ret _ _ _ _ _ (entry_not_last d o e He s Hb Heo)).
    rewrite (bind_Ret _ _ _ _ _ (e_name_index_run d o e He s)), (bind_Ret _ _ _ _ _ (e_name_len_run d o e He s)).
    rewrite (bind_Ret _ _ _ _ _ (xattr_next_run d o e He s)). rewrite (bind_Ret (gets a_fs) _ s (a_fs s) s eq_refl).
    rewrite names_cons. pose proof (xe_len _ Heo) as Hnl. pose proof (len_nonneg sofar) as Hsf.
    pose proof (listed_bounds (a_fs s) ino (x_key e, value d e) Hnl) as Hlb. unfold listed_name in *. cbn [fst snd x_key] in *.
    destruct (ext2_xattr_handler (a_fs s) ino (x_index e)) as [[prefix [|]]|].
    2-3: apply IH; [done|done|by rewrite <- Z.add_assoc|lia|cbn [length] in Hlen; lia|done].
    set (piece := prefix ++ x_name e ++ [0]) in *.
    assert (Hpiece : len prefix + len (x_name e) + 1 = len piece).
    { unfold piece. rewrite !len_app. change (len [0]) with 1. lia. }
    rewrite Hpiece. rewrite app_assoc. destruct buffer; cbn [andb] in *.
    + specialize (Hbuf eq_refl). rewrite (u64_small (n - len sofar)) by lia.
      destruct (Z.gtb_spec (len piece) (n - len sofar)) as [Hgt|Hle].
      * rewrite !len_app. pose proof (len_nonneg (names es)).
        by replace (len sofar + len piece + len (names es) >? n) with true by lia.
      * rewrite (bind_Ret _ _ _ _ _ (e_name_run d o e He s)). fold piece.
        replace (n - len sofar - len piece) with (n - len (sofar ++ piece)) by (rewrite len_app; lia).
        rewrite (IH (o + x_len e) fuel (sofar ++ piece)); [done|done|done|by rewrite <- Z.add_assoc|lia| |rewrite len_app; lia].
        rewrite len_app. cbn [length] in Hlen. lia.
    + rewrite (bind_Ret _ _ _ _ _ (e_name_run d o e He s)).
      replace (u64 (u64 (n - len sofar) - len piece)) with (u64 (n - len (sofar ++ piece))).
      * rewrite (IH (o + x_len e) fuel (sofar ++ piece)); [done|done|done|by rewrite <- Z.add_assoc|lia| |done].
        rewrite len_app. cbn [length] in Hlen. lia.
      * rewrite len_app. unfold u64. rewrite Zminus_mod_idemp_l. f_equal. lia.
Qed.

Lemma names_len es : Forall entry_ok es -> 0 <= len (names es) <= 280 * Z.of_nat (length es).
Proof using.
  intros Hok. split; [apply len_nonneg|]. induction Hok as [|e es He Hok IH]; [done|].
  rewrite names_cons, len_app. pose proof (listed_bounds (a_fs s) ino (x_key e, value d e) (xe_len _ He)). cbn [length]. lia.
Qed.

End Names.

Lemma ext2_xattr_list_spec X ino buffer s : sok X s -> is_Some (c_inodes (core_at s) !! ino) ->
  (forall n, buffer = Some n -> 0 <= n < 9223372036854775808) ->
  runs (ext2_xattr_list ino buffer) E (fun r s' => only_read X s s' /\
    (r = (- EIO, None) /\ unread s ino \/
     acl_of (core_at s) ino = 0 /\ r = (0, None) \/
     exists al, StronglySorted key_lt al.*1 /\ map_of al = attrs_of (core_at s) ino /\
       r = list_answer (listed (a_fs s') ino al) buffer)) s.
Proof using HE.
  intros St [i Hi] Hbuf. unfold ext2_xattr_list. step. eapply runs_call; [by apply (file_acl_run ino i)|]. cbv beta.
  set (a := acl_of (core_at s) ino) in *. destruct (Z.eqb_spec a 0) as [Ha|Ha].
  { step. split; [done|]. right. by left. }
  destruct (inode_block X s ino St Ha) as (d & al & Hd & Hab & Hl & Hr1 & Hr2 & Hattrs). fold a in Hd, Hr2.
  assert (Hin : a ∈ X) by (destruct (st_file _ _ _ St ino) as [?|?]; done).
  step. call (bread_spec E HE). intros r s1 [Hq Hr]. pose proof (quiet_sok X s s1 Hq St) as St1. pose proof Hq as [C1 L1].
  destruct Hr as [->|[-> Hbad]]; [|step; split; [by split|]; left; by split].
  assert (Hd1 : bufs_of s1 !! a = Some d) by (unfold bufs_of; rewrite C1; exact Hd).
  step. eapply runs_call; [by apply (buf_run a d)|]. cbv beta. rewrite (good_header d al Hab).
  pose proof Hab as [_ _ (es & L & Hs & Hp)]. pose proof (la_bytes _ _ _ _ L) as Hb.
  pose proof (layout_last _ _ _ _ L) as Hlast. unfold last_of in Hlast. pose proof (layout_fuel _ _ _ _ L) as Hfuel.
  step. eapply runs_call; [apply (check_list_run d s1 Hb es); [apply L|apply L|exact Hlast|exact Hfuel]|]. cbv beta. cbn [negb].
  step. apply (insert_spec X a d); [done|done|done|]. intros s2 [St2 C2] Hfs2.
  assert (Hro : only_read X s s2) by (split; [done|congruence]).
  assert (Hshort : 280 * Z.of_nat (length es) < 2147483648).
  { unfold xattr_fuel in Hfuel. pose proof (la_max _ _ _ _ L). unfold len in *. lia. }
  pose proof (names_len d ino s2 es (la_entries _ _ _ _ L)) as Hnl. rewrite Hp in Hnl.
  pose proof (list_names_run d ino s2 (default 0 buffer) Hb) as Hrun.
  specialize (Hrun ltac:(destruct buffer as [n|]; [by apply Hbuf|done]) (bool_decide (is_Some buffer)) es FIRST_ENTRY (xattr_fuel d) []
    (la_descs _ _ _ _ L) (la_entries _ _ _ _ L) Hlast Hfuel ltac:(exact Hshort)).
  rewrite Hp in Hrun. cbn [app] in Hrun. change (len []) with 0 in Hrun. rewrite Z.sub_0_r in Hrun.
  set (names := listed (a_fs s2) ino al) in *.
  assert (Hans : runs (r ← list_names (xattr_fuel d) ino d FIRST_ENTRY (bool_decide (is_Some buffer)) (default 0 buffer) [];
    match r with
    | Some (rest, out) => mret (s32 (u64 (default 0 buffer - rest)), (fun _ => out) <$> buffer)
    | None => mret (- ERANGE, None)
    end) E (fun r s' => s' = s2 /\ r = list_answer names buffer) s2).
  { assert (H0n : 0 <= default 0 buffer < 9223372036854775808) by (destruct buffer as [n|]; [by apply Hbuf|done]).
    rewrite (u64_small (default 0 buffer)) in Hrun by lia.
    step. destruct buffer as [n|].
    - rewrite bool_decide_eq_true_2 in * by by eexists. change (default 0 (Some n)) with n in *. eapply runs_call; [apply Hrun; intros; lia|]. cbn [andb].
      unfold list_answer. destruct (Z.gtb_spec (len names) n) as [Hgt|Hle]; step; [done|].
      split; [done|]. rewrite (u64_small (n - len names)) by lia. replace (n - (n - len names)) with (len names) by lia.
      rewrite u64_small, s32_small by lia. done.
    - rewrite bool_decide_eq_false_2 in * by by intros [? ?]. eapply runs_call; [apply Hrun; by intros|]. cbn [andb]. step.
      split; [done|]. unfold list_answer. change (default 0 None) with 0 in *.
      replace (u64 (0 - u64 (0 - len names))) with (len names); [by rewrite s32_small by lia|].
      unfold u64. rewrite Zminus_mod_idemp_r. rewrite Z.mod_small; lia. }
  eapply runs_mono; [exact Hans|]. cbv beta. intros r s3 [-> ->]. split; [done|]. right. right. exists al.
  split; [rewrite <- Hp; by apply sorted_pairs|]. split; [by rewrite Hattrs, (attrs_in_block d al)|done].
Qed.

(** ** Deleting *)

Lemma changed_inodes c c' ins : blocks_changed c c' -> blocks_changed (set_c_inodes ins c) (set_c_inodes ins c').
Proof using. intros [F P I D]. split; [rewrite F at 1; done|exact P|exact I|exact D]. Qed.

(** The inode without its block. *)
Lemma cleared_acl X l c ino : stored X l c -> is_Some (c_inodes c !! ino) ->
  let c0 := set_c_inodes (alter (set_file_acl 0) ino (c_inodes c)) c in
  stored X l c0 /\ keeps_attrs c c0 ino /\ attrs_of c0 ino = ∅ /\
  forall b, b <> 0 -> acl_of c ino = b -> count_sharers c0 b = count_sharers c b - 1.
Proof using.
  intros St [i Hi] c0. assert (Hm : moved_acl c c0 ino 0).
  { split.
    - cbn. by rewrite dom_alter_L.
    - by eexists.
    - unfold acl_of. cbn. by rewrite lookup_alter_eq, Hi.
    - intros j Hj. unfold acl_of. cbn. by rewrite lookup_alter_ne by done. }
  destruct (stored_inodes X l c St ino 0 _ Hm) as (St0 & K0 & A0); [by left|]. split; [done|]. split; [done|].
  split; [done|]. intros b Hb Ha. rewrite (moved_count c c0 ino 0 b Hm), Ha, Z.eqb_refl.
  replace (0 =? b) with false by lia. lia.
Qed.

(** The block could not be given up. *)
Definition undeleted (s : attrfs) (ino : Z) : Prop :=
  unread s ino \/ acl_of (core_at s) ino <> 0 /\ kr_data_block_valid (a_fs s) (acl_of (core_at s) ino) 0 = false.

Definition attrs_deleted (ino : Z) (s s' : attrfs) : Prop :=
  exists X', sok X' s' /\ keeps_attrs (core_at s) (core_at s') ino /\
    (attrs_of (core_at s') ino = ∅ \/ undeleted s ino /\ attrs_of (core_at s') ino = attrs_of (core_at s) ino).

Lemma ext2_xattr_delete_inode_spec X ino s : sok X s -> is_Some (c_inodes (core_at s) !! ino) ->
  runs (ext2_xattr_delete_inode ino) E (fun _ s' => attrs_deleted ino s s') s.
Proof using All.
  intros St [i Hi]. unfold ext2_xattr_delete_inode. step. eapply runs_call; [by apply (file_acl_run ino i)|]. cbv beta.
  set (a := acl_of (core_at s) ino) in *. step. step.
  assert (Herr : forall s1, quiet s s1 -> undeleted s ino -> runs (on_fs kr_error) E (fun _ s' => attrs_deleted ino s s') s1).
  { intros s1 Hq Hu. pose proof (quiet_sok X s s1 Hq St) as St1. call (error_spec E HE); [apply St1|]. intros _ s2 Hq2.
    exists X. split; [by apply (quiet_sok X s1)|]. destruct Hq as [C1 _], Hq2 as [C2 _]. rewrite C2, C1. split; [done|]. by right. }
  destruct (Z.eqb_spec a 0) as [Ha|Ha].
  { step. exists X. split; [done|]. split; [done|]. left. unfold attrs_of. fold a. by rewrite Ha. }
  destruct (kr_data_block_valid (a_fs s) a 0) eqn:Hvalid; cbn [negb]; [|apply Herr; [done|by right]].
  destruct (inode_block X s ino St Ha) as (d & al & Hd & Hab & Hl & Hr1 & Hr2 & Hattrs). fold a in Hd, Hr2.
  assert (Hin : a ∈ X) by (destruct (st_file _ _ _ St ino) as [?|?]; done).
  step. call (bread_spec E HE). intros r s1 [Hq Hr]. pose proof (quiet_sok X s s1 Hq St) as St1.
  destruct Hr as [->|[-> Hbad]]; [|apply Herr; [done|by left]]. destruct Hq as [C1 L1].
  assert (Hd1 : bufs_of s1 !! a = Some d) by (unfold bufs_of; rewrite C1; exact Hd).
  step. eapply runs_call; [by apply (buf_run a d)|]. cbv beta. rewrite (good_header d al Hab).
  set (ins := alter (set_file_acl 0) ino (c_inodes (core_at s))). set (c0 := set_c_inodes ins (core_at s)).
  destruct (st_block _ _ _ St a Hin) as (_ & Hdata & _).
  step. destruct (Z.eqb_spec (h_refcount d) 1) as [H1|H1].
  - destruct (cleared_acl X (mb_delete (h_hash d) a :: a_cache s) _ ino (stored_delete _ _ _ St _ _) ltac:(by eexists)) as (St0 & K0 & A0 & Hcount).
    fold ins c0 in St0, K0, A0, Hcount. specialize (Hcount a Ha eq_refl). pose proof (count_nonneg c0 a).
    assert (St0' : stored (X ∖ {[a]}) (mb_delete (h_hash d) a :: a_cache s) c0).
    { apply stored_drop; [done|lia|]. intros h. by apply (deleted_gone X (a_cache s) _ St a d h). }
    step. unfold cache_call. step. set (s2 := set_a_cache _ s1). step.
    call (free_block_raw E HE ino a s2); [apply St1|change (core_at s2) with (core_at s1); by rewrite C1|].
    intros _ s3 (Hok & Hch & Hu & L3). change (core_at s2) with (core_at s1) in *. rewrite C1 in Hch, Hu.
    apply note_attr_spec. intros s4 [C4 L4]. apply runs_lift. unfold inode_upd. step.
    destruct (stored_freed (X ∖ {[a]}) _ c0 (set_c_inodes ins (core_at s4)) a St0') as [St5 A5]; [set_solver|done| | | |].
    + rewrite C4. by apply blocks_ok_inodes.
    + rewrite C4. by apply changed_inodes.
    + rewrite C4. exact Hu.
    + set (s5 := set_a_fs _ s4). assert (C5 : core_at s5 = set_c_inodes ins (core_at s4)).
      { unfold ins. destruct (changed_geo _ _ Hch) as (_ & _ & _ & _ & _ & _ & <-). rewrite <- C4. done. }
      exists (X ∖ {[a]}). unfold sok. rewrite C5. change (a_cache s5) with (a_cache s4). rewrite L4, L3.
      change (a_cache s2) with (mb_delete (h_hash d) a :: a_cache s1). rewrite L1. split; [done|]. destruct K0 as [K01 K02].
      split; [split; [|done]|left; by rewrite A5]. intros j Hj. by rewrite A5, K01.
  - destruct (cleared_acl X (a_cache s) _ ino St ltac:(by eexists)) as (St0 & K0 & A0 & Hcount).
    fold ins c0 in St0, K0, A0, Hcount. specialize (Hcount a Ha eq_refl).
    unfold add_refcount. step. step. eapply runs_call; [by apply (buf_run a d)|]. cbv beta.
    pose proof (get32_range_at d 4 al Hab) as Hr32. fold (h_refcount d) in Hr32. rewrite u32_small by lia.
    destruct (refcount_put d al (h_refcount d + -1) Hab ltac:(lia)) as (Q1 & Q2 & Q3 & Q4 & Q5).
    set (d2 := put32 d 4 (h_refcount d + -1)) in *. apply runs_lift. unfold buf_set. step. set (s2 := set_a_fs _ s1).
    destruct (stored_write X (a_cache s) c0 St0 a d2 al Hin Q1) as [St3 A3]; [by rewrite Q4|lia|lia| |].
    { intros h Hh. destruct (st_live _ _ _ St h a Hh) as (_ & d0 & Hd0 & <-). rewrite Q3. unfold bufs_of in Hd. congruence. }
    assert (Hi2 : c_inodes (core_at s2) = c_inodes (core_at s)) by (change (core_at s2) with (set_c_bufs (<[a := d2]> (c_bufs (core_at s1))) (core_at s1)); by rewrite C1).
    step. apply note_attr_spec. intros s3 [C3 L3]. step. eapply runs_call; [apply (inode_run ino i); by rewrite C3, Hi2|]. cbv beta. step. step.
    assert (Hsync : runs (when (IS_SYNC (a_fs s3) i) (note (sync_dirty_buffer (BufBlock a)))) E (fun _ s' => quiet s3 s') s3).
    { apply runs_when; [|by split]. intros _. by apply note_attr_spec. }
    step. eapply runs_mono; [exact Hsync|]. cbv beta. intros _ s4 [C4 L4]. apply note_attr_spec. intros s5 [C5 L5].
    apply runs_lift. unfold inode_upd. step. set (s6 := set_a_fs _ s5).
    assert (C6 : core_at s6 = set_c_bufs (<[a := d2]> (c_bufs c0)) c0).
    { transitivity (set_c_inodes (alter (set_file_acl 0) ino (c_inodes (core_at s5))) (core_at s5)); [done|].
      rewrite C5, C4, C3, Hi2. fold ins.
      change (core_at s2) with (set_c_bufs (<[a := d2]> (c_bufs (core_at s1))) (core_at s1)). by rewrite C1. }
    exists X. unfold sok. rewrite C6. change (a_cache s6) with (a_cache s5). rewrite L5, L4, L3.
    change (a_cache s2) with (a_cache s1). rewrite L1. split; [done|]. destruct K0 as [K01 K02].
    assert (Hsame : forall j, attrs_of (set_c_bufs (<[a := d2]> (c_bufs c0)) c0) j = attrs_of c0 j).
    { intros j. rewrite A3. destruct (Z.eqb_spec (acl_of c0 j) a) as [Hj|]; [|done]. unfold attrs_of. rewrite Hj.
      replace (a =? 0) with false by lia. unfold bufs_of in Hd. change (c_bufs c0) with (c_bufs (core_at s)). by rewrite Hd, Q5. }
    split; [split; [|done]|left; by rewrite Hsame]. intros j Hj. by rewrite Hsame, K01.
Qed.

End Read.
