(* ===== verification/XattrTheorems.v ===== *)
(** * Extended attributes: the theorems

    What [ext2_xattr_set], [ext2_xattr_get], [ext2_xattr_list] and
    [ext2_xattr_delete_inode] do to the attributes of the inodes, which share
    blocks. *)

From Stdlib Require Import Sorted String.
From S2P Require Import Prelude Bytes Bits Kr Rsv Bitmap Alloc State Balloc BallocFacts NewBlocks BlockMap Demo BlockTheorems GetBlocks Xattr XattrBlock XattrChange XattrFacts XattrMap XattrStore XattrOps XattrSet XattrRead.

Section Theorems.
Context {B : BitOps} {BL : BitLaws B} {R : RbTree} {RL : RbLaws R} {T : Trylock} {K : Kernel}.
Context {XK : XattrKernel} {XL : CacheLaws}.


(** An attribute that has been set is read back, by any buffer that holds it. *)
Theorem set_then_get X ino name_index name v flags buffer size s : can_set X s ino size ->
  bytes name -> len name <= 255 -> 1 <= name_index <= 255 -> bytes v -> len v <= fs_blocksize (a_fs s) ->
  (forall b, bh_read_ok b = true) ->
  runs (err ← ext2_xattr_set ino name_index (Some name) (Some v) flags;
        r ← ext2_xattr_get ino name_index (Some name) buffer; mret (err, r)) only_panic
    (fun x _ => let '(err, r) := x in err = 0 -> r = get_answer (Some v) buffer) s.
Proof.
  intros Hcan Hn Hl Hi Hv Hvl Hread. step.
  eapply runs_mono; [apply (ext2_xattr_set_spec only_panic eq_refl X ino name_index name (Some v) flags size s); try done|].
  { by intros v' [= <-]. }
  cbv beta. intros err s1 (X1 & St1 & [_ Hdom] & Hattrs & _).
  assert (Hi1 : is_Some (c_inodes (core_of (a_fs s1)) !! ino)).
  { apply elem_of_dom. rewrite Hdom. apply elem_of_dom, (cs_inode _ _ _ _ Hcan). }
  step. call (ext2_xattr_get_spec only_panic eq_refl X1 ino name_index name buffer s1); [done|done|done|].
  intros r s2 [_ Hr]. step. intros ->. destruct Hattrs as [Ha|[? _]]; [|done].
  destruct Hr as [[_ [_ Hbad]]| ->]; [by rewrite Hread in Hbad|]. rewrite Ha. cbn [change_attr]. by rewrite lookup_insert_eq.
Qed.

(** C26. [ext2_xattr_get] answers what the map of the inode says: the value and its
    size, the size alone without a buffer, [-ERANGE] when the buffer is too small,
    [-ENODATA] when there is no such attribute; or the block could not be read. *)
Theorem ext2_xattr_get_correct X ino name_index name buffer s : sok X s ->
  is_Some (c_inodes (core_of (a_fs s)) !! ino) -> len name <= 255 ->
  runs (ext2_xattr_get ino name_index (Some name) buffer) only_panic (fun r s' => only_read X s s' /\
    (r = (- EIO, None) /\ unread s ino \/
     r = get_answer (attrs_of (core_of (a_fs s)) ino !! (name_index, name)) buffer)) s.
Proof. apply (ext2_xattr_get_spec only_panic eq_refl). Qed.

(** C27. [ext2_xattr_list] answers the names of the attributes of the inode, sorted,
    each with the prefix of its handler and ended by a zero, leaving out the handlers
    that do not list; or their size, or [-ERANGE]. *)
Theorem ext2_xattr_list_correct X ino buffer s : sok X s -> is_Some (c_inodes (core_of (a_fs s)) !! ino) ->
  (forall n, buffer = Some n -> 0 <= n < 9223372036854775808) ->
  runs (ext2_xattr_list ino buffer) only_panic (fun r s' => only_read X s s' /\
    (r = (- EIO, None) /\ unread s ino \/
     acl_of (core_of (a_fs s)) ino = 0 /\ r = (0, None) \/
     exists al, StronglySorted key_lt al.*1 /\ map_of al = attrs_of (core_of (a_fs s)) ino /\
       r = list_answer (listed (a_fs s') ino al) buffer)) s.
Proof. apply (ext2_xattr_list_spec only_panic eq_refl). Qed.


End Theorems.

(** ** Witnesses *)

(** The entries of the cache after some calls. *)
Fixpoint cache_ref (l : list mb_call) (h : Z) : list Z :=
  match l with
  | [] => []
  | mb_create h' b :: l => if h' =? h then b :: cache_ref l h else cache_ref l h
  | mb_delete h' b :: l => if h' =? h then filter (fun x => x <> b) (cache_ref l h) else cache_ref l h
  | mb_touch _ :: l => cache_ref l h
  end.

#[global] Instance demo_xattrs : XattrKernel := {|
  mb_cache_find := cache_ref;
  CONFIG_EXT2_FS_POSIX_ACL := true;
  CONFIG_EXT2_FS_SECURITY := true;
  posix_acl_xattr_list := fun _ _ => true;
  capable_sys_admin := false;
|}.
#[global] Instance demo_cachelaws : CacheLaws.
Proof.
  split. intros l h b. cbn [mb_cache_find demo_xattrs]. induction l as [|[h' b'|h' b'|b'] l IH]; cbn [cache_ref live].
  - intros H. by apply elem_of_nil in H.
  - destruct (Z.eqb_spec h' h) as [->|]; [|by right; apply IH]. intros [->|H]%elem_of_cons; [by left|right; by apply IH].
  - destruct (Z.eqb_spec h' h) as [->|Hne].
    + intros [Hb H]%list_elem_of_filter. split; [|by apply IH]. intros [_ ->]. done.
    + intros H. split; [|by apply IH]. by intros [-> _].
  - exact IH.
Qed.

Definition demo_start : attrfs := AttrFs demo [].
Definition demo_name : list Z := bytes_of "color"%string.
Definition demo_value : list Z := bytes_of "blue"%string.

Lemma demo_start_stored : sok ∅ demo_start.
Proof.
  split.
  - exact demo_ok.
  - intros H. by vm_compute in H.
  - intros b Hb. set_solver.
  - intros b Hb. set_solver.
  - intros ino. left. change (core_of (a_fs demo_start)) with (core_of demo). unfold acl_of.
    destruct (c_inodes (core_of demo) !! ino) as [i|] eqn:Hi; [|done].
    change (c_inodes (core_of demo)) with (fs_inodes demo) in Hi. unfold demo in Hi. cbn [fs_inodes] in Hi.
    apply elem_of_list_to_map_2 in Hi. repeat (apply elem_of_cons in Hi as [[= _ ->]|Hi]; [done|]). by apply elem_of_nil in Hi.
  - done.
Qed.
Lemma demo_can_set : can_set ∅ demo_start 12 100.
Proof.
  split; [exact demo_start_stored|by apply (demo_ready 1)|lia|vm_compute; by eexists|vm_compute; done].
Qed.
Lemma demo_name_ok : bytes demo_name /\ len demo_name <= 255 /\ bytes demo_value /\ len demo_value <= 1024.
Proof. split_and!; try (vm_compute; done); unfold bytes; by apply (bool_decide_unpack _). Qed.

Definition state_after {A} (m : M attrfs A) (s : attrfs) : attrfs :=
  match m s with Ret _ s' => s' | Stop _ => s end.
(** The inodes 12 and 2 with the same attribute. *)
Definition demo_one : attrfs := state_after (ext2_xattr_set 12 6 (Some demo_name) (Some demo_value) 0) demo_start.
Definition demo_two : attrfs := state_after (ext2_xattr_set 2 6 (Some demo_name) (Some demo_value) 0) demo_one.

Lemma state_after_stored {A} (m : M attrfs A) X s (Q : A -> attrfs -> Prop) : sok X s -> runs m only_panic Q s ->
  (forall a s', Q a s' -> exists X', sok X' s') -> exists X', sok X' (state_after m s).
Proof.
  intros St Hr HQ. unfold runs, state_after in *. destruct (m s) as [a s'|w]; [by eapply HQ|by exists X].
Qed.


Lemma demo_one_stored : exists X, sok X demo_one.
Proof.
  destruct demo_name_ok as (N1 & N2 & V1 & V2). unfold demo_one.
  eapply (state_after_stored _ ∅ demo_start); [exact demo_start_stored| |].
  - apply (ext2_xattr_set_spec only_panic eq_refl ∅ 12 6 demo_name (Some demo_value) 0 100 demo_start demo_can_set N1 N2 ltac:(lia)).
    intros v [= <-]. by split.
  - intros err s' (X & St & _). by exists X.
Qed.
Lemma demo_two_stored : exists X, sok X demo_two.
Proof.
  destruct demo_name_ok as (N1 & N2 & V1 & V2). destruct demo_one_stored as [X St]. unfold demo_two.
  eapply (state_after_stored _ X demo_one); [exact St| |].
  - apply (ext2_xattr_set_spec only_panic eq_refl X 2 6 demo_name (Some demo_value) 0 100 demo_one).
    + split; [exact St|vm_compute; done|lia|vm_compute; by eexists|vm_compute; done].
    + exact N1.
    + exact N2.
    + lia.
    + intros v [= <-]. split; [exact V1|]. vm_compute. done.
  - intros err s' (X' & St' & _). by exists X'.
Qed.

Lemma set_then_get_witness :
  runs (err ← ext2_xattr_set 12 6 (Some demo_name) (Some demo_value) 0;
        r ← ext2_xattr_get 12 6 (Some demo_name) (Some 100); mret (err, r)) only_panic
    (fun x _ => let '(err, r) := x in err = 0 -> r = get_answer (Some demo_value) (Some 100)) demo_start /\
  answer (err ← ext2_xattr_set 12 6 (Some demo_name) (Some demo_value) 0;
          r ← ext2_xattr_get 12 6 (Some demo_name) (Some 100); mret (err, r)) demo_start = Some (0, (4, Some demo_value)).
Proof.
  destruct demo_name_ok as (N1 & N2 & V1 & V2). split; [|vm_compute; reflexivity].
  by apply (set_then_get ∅ 12 6 demo_name demo_value 0 (Some 100) 100 demo_start demo_can_set N1 N2 ltac:(lia) V1).
Defined.

Lemma ext2_xattr_get_witness :
  runs (ext2_xattr_get 2 6 (Some demo_name) (Some 3)) only_panic (fun r s' => exists X, only_read X demo_two s' /\
    (r = (- EIO, None) /\ unread demo_two 2 \/
     r = get_answer (attrs_of (core_of (a_fs demo_two)) 2 !! (6, demo_name)) (Some 3))) demo_two /\
  answer (ext2_xattr_get 2 6 (Some demo_name) (Some 3)) demo_two = Some (- ERANGE, None) /\
  answer (ext2_xattr_get 2 6 (Some demo_value) None) demo_two = Some (- ENODATA, None).
Proof.
  destruct demo_two_stored as [X St]. split; [|split; vm_compute; reflexivity].
  eapply runs_mono.
  - apply (ext2_xattr_get_correct X 2 6 demo_name (Some 3) demo_two St); [vm_compute; by eexists|by vm_compute].
  - cbv beta. intros r s' H. by exists X.
Defined.

Lemma ext2_xattr_list_witness :
  runs (ext2_xattr_list 12 (Some 20)) only_panic (fun r s' => exists X, only_read X demo_two s' /\
    (r = (- EIO, None) /\ unread demo_two 12 \/
     acl_of (core_of (a_fs demo_two)) 12 = 0 /\ r = (0, None) \/
     exists al, StronglySorted key_lt al.*1 /\ map_of al = attrs_of (core_of (a_fs demo_two)) 12 /\
       r = list_answer (listed (a_fs s') 12 al) (Some 20))) demo_two /\
  answer (ext2_xattr_list 12 (Some 20)) demo_two = Some (15, Some (bytes_of "security.color"%string ++ [0])).
Proof.
  destruct demo_two_stored as [X St]. split; [|vm_compute; reflexivity]. eapply runs_mono.
  - apply (ext2_xattr_list_correct X 12 (Some 20) demo_two St); [vm_compute; by eexists|]. intros n [= <-]. lia.
  - cbv beta. intros r s' H. by exists X.
Defined.


(** ** A change that stays when the call fails

    The inode 12 has a block of its own, with the value "red".  The new value makes
    the block equal to that of the inode 2, and the quota does not allow a block: the
    call fails, and the inode has the new value. *)
Definition EDQUOT : Z := 122.
Definition full_quota : Kernel := {|
  sb_getblk_ok := @sb_getblk_ok demo_kernel;
  bh_read_ok := @bh_read_ok demo_kernel;
  kmalloc_ok := @kmalloc_ok demo_kernel;
  percpu_counter_read_positive := @percpu_counter_read_positive demo_kernel;
  capable_sys_resource := @capable_sys_resource demo_kernel;
  current_fsuid := @current_fsuid demo_kernel;
  in_group_p := @in_group_p demo_kernel;
  get_seconds := @get_seconds demo_kernel;
  prandom_u32 := @prandom_u32 demo_kernel;
  dquot_alloc_block := fun _ _ => - EDQUOT;
  dquot_initialize := @dquot_initialize demo_kernel;
  dquot_alloc_inode := @dquot_alloc_inode demo_kernel;
  buffer_write_io_error := @buffer_write_io_error demo_kernel;
  new_inode_ok := @new_inode_ok demo_kernel;
  inode_init_owner := @inode_init_owner demo_kernel;
  current_time := @current_time demo_kernel;
  bdi_congested := @bdi_congested demo_kernel;
  current_pid := @current_pid demo_kernel;
  kmalloc_addr := @kmalloc_addr demo_kernel;
  sb_issue_zeroout := @sb_issue_zeroout demo_kernel;
  truncate_page := @truncate_page demo_kernel;
  iget_new_ok := @iget_new_ok demo_kernel;
  bh_write_ok := @bh_write_ok demo_kernel;
  sync_inode_metadata := @sync_inode_metadata demo_kernel;
|}.
Definition demo_red : attrfs :=
  state_after (ext2_xattr_set 2 6 (Some demo_name) (Some demo_value) 0)
    (state_after (ext2_xattr_set 12 6 (Some demo_name) (Some (bytes_of "red"%string)) 0) demo_start).

Example failed_set_changes :
  answer (r1 ← ext2_xattr_get 12 6 (Some demo_name) (Some 9);
          err ← @ext2_xattr_set _ _ _ full_quota _ 12 6 (Some demo_name) (Some demo_value) 0;
          r2 ← ext2_xattr_get 12 6 (Some demo_name) (Some 9); mret (r1, err, r2)) demo_red
  = Some ((3, Some (bytes_of "red"%string)), - EDQUOT, (4, Some demo_value)).
Proof. vm_compute. reflexivity. Qed.
