(* ===== verification/AclFacts.v ===== *)
(** * The format of access control lists

    [acl_bytes] is the value a list has on the disk.  [ext2_acl_to_disk] writes it,
    and [ext2_acl_from_disk] accepts the values of lists and nothing else. *)

From S2P Require Import Prelude Bytes Bits Kr State Xattr XattrBlock Acl.

(** A [kuid_t] and a [kgid_t] have 32 bits. *)
Definition id32 (k : Z) : Prop := 0 <= k < 4294967296.

(** The ids of [init_user_ns] are numbers; new memory has the size asked for; and
    [posix_acl_update_mode] leaves the list it is given or none. *)
Class AclLaws `{AclKernel} := {
  uid_id : forall k, id32 k -> make_kuid (from_kuid k) = k;
  uid_number : forall v, id32 v -> from_kuid (make_kuid v) = v;
  uid_range : forall k, id32 k -> id32 (from_kuid k);
  uid_made : forall v, id32 v -> id32 (make_kuid v);
  gid_id : forall k, id32 k -> make_kgid (from_kgid k) = k;
  gid_number : forall v, id32 v -> from_kgid (make_kgid v) = v;
  gid_range : forall k, id32 k -> id32 (from_kgid k);
  gid_made : forall v, id32 v -> id32 (make_kgid v);
  acl_alloc_len : forall n l, 0 <= n -> posix_acl_alloc n = Some l -> len l = n;
  kmalloc_len : forall n, 0 <= n -> len (kmalloc_data n) = n;
  kmalloc_bytes : forall n, bytes (kmalloc_data n);
  update_mode_acl : forall i a mode a', posix_acl_update_mode i a = inr (mode, Some a') -> a' = a;
}.

Definition short_tag (t : Z) : bool := (t =? ACL_USER_OBJ) || (t =? ACL_GROUP_OBJ) || (t =? ACL_MASK) || (t =? ACL_OTHER).
Definition long_tag (t : Z) : bool := (t =? ACL_USER) || (t =? ACL_GROUP).
Definition known_tag (t : Z) : bool := short_tag t || long_tag t.

(** The entries as far as they mean something: the id of a short entry does not. *)
Definition clean (e : posix_acl_entry) : posix_acl_entry :=
  PosixAclEntry (e_tag e) (e_perm e) (if long_tag (e_tag e) then e_owner e else 0).
Definition same_acl (a b : posix_acl) : Prop := clean <$> a = clean <$> b.
#[export] Instance same_acl_equiv : Equivalence same_acl.
Proof. split; unfold same_acl; congruence. Qed.

(** Little-endian numbers. *)
Definition le16 (v : Z) : list Z := [u8 v; u8 (v / 256)].
Definition le32 (v : Z) : list Z := le16 v ++ le16 (v / 65536).

Record entry_ok (e : posix_acl_entry) : Prop := {
  eo_tag : known_tag (e_tag e) = true;
  eo_perm : 0 <= e_perm e < 65536;
  eo_owner : long_tag (e_tag e) = true -> id32 (e_owner e);
}.
Definition shorts (a : posix_acl) : Z := len (filter (fun e => short_tag (e_tag e) = true) a).
(** A list the format can hold: the number of its short entries follows from the
    number of entries. *)
Record acl_ok (a : posix_acl) : Prop := {
  ao_entries : Forall entry_ok a;
  ao_shorts : shorts a = Z.min (len a) 4;
  ao_len : len a < 268435456;
}.

Lemma long_cases t : known_tag t = true -> short_tag t = true /\ long_tag t = false \/ short_tag t = false /\ long_tag t = true.
Proof. unfold known_tag, short_tag, long_tag, ACL_USER_OBJ, ACL_GROUP_OBJ, ACL_MASK, ACL_OTHER, ACL_USER, ACL_GROUP. lia. Qed.
Lemma known_range t : known_tag t = true -> 1 <= t <= 32.
Proof. unfold known_tag, short_tag, long_tag, ACL_USER_OBJ, ACL_GROUP_OBJ, ACL_MASK, ACL_OTHER, ACL_USER, ACL_GROUP. lia. Qed.
Lemma s16_known t : 0 <= t < 65536 -> known_tag (s16 t) = true -> s16 t = t.
Proof. intros Ht Hk%known_range. unfold s16 in *. Z.to_euclidean_division_equations; lia. Qed.
Lemma s16_small t : 1 <= t <= 32 -> s16 t = t.
Proof. intros Ht. unfold s16. rewrite Z.mod_small; lia. Qed.

(** ** Bytes *)

Lemma bytes_le16 v : bytes (le16 v).
Proof. repeat constructor; apply u8_range. Qed.
Lemma bytes_le32 v : bytes (le32 v).
Proof. apply Forall_app; split; apply bytes_le16. Qed.
Lemma le16_inj a b : 0 <= a < 65536 -> 0 <= b < 65536 -> le16 a = le16 b -> a = b.
Proof. intros Ha Hb [= H1 H2]. unfold u8 in *. Z.to_euclidean_division_equations; lia. Qed.
Lemma le32_inj a b : 0 <= a < 4294967296 -> 0 <= b < 4294967296 -> le32 a = le32 b -> a = b.
Proof. intros Ha Hb [= H1 H2 H3 H4]. unfold u8 in *. Z.to_euclidean_division_equations; lia. Qed.
Lemma put16_le d o v : put16 d o v = put_bytes d o (le16 v).
Proof. unfold le16. cbn [put_bytes]. unfold put16, put8, u8. by rewrite !Z.mod_mod by done. Qed.
Lemma put_bytes_app d o l1 l2 : put_bytes d o (l1 ++ l2) = put_bytes (put_bytes d o l1) (o + len l1) l2.
Proof.
  revert d o. induction l1 as [|b l1 IH]; intros d o; cbn [app put_bytes]; [by rewrite Z.add_0_r|].
  rewrite IH. f_equal. unfold len. cbn [length]. lia.
Qed.
Lemma put32_le d o v : put32 d o v = put_bytes d o (le32 v).
Proof. unfold le32. by rewrite put_bytes_app, <- !put16_le. Qed.
Lemma sub_put_bytes d o l : 0 <= o -> o + len l <= len d -> bytes l -> sub (put_bytes d o l) o (len l) = l.
Proof.
  intros Ho Hl Hb. apply sub_eq; [done|by rewrite len_put_bytes|done|]. intros k Hk.
  rewrite get8_put_bytes by (done || lia). replace (_ && _) with true by lia. f_equal. lia.
Qed.
Lemma sub_app d o n m : 0 <= o -> 0 <= n -> 0 <= m -> sub d o (n + m) = sub d o n ++ sub d (o + n) m.
Proof.
  intros Ho Hn Hm. unfold sub. rewrite !Z2Nat.inj_add by done.
  rewrite <- take_take_drop. f_equal. by rewrite drop_drop.
Qed.
Lemma sub_whole d : sub d 0 (len d) = d.
Proof. unfold sub, len. rewrite drop_0, Nat2Z.id. by rewrite firstn_all. Qed.
Lemma sub_le16 d o : bytes d -> 0 <= o -> o + 2 <= len d -> sub d o 2 = le16 (get16 d o).
Proof.
  intros Hb Ho Hl. pose proof (get8_bytes d o Hb). pose proof (get8_bytes d (o + 1) Hb).
  apply sub_eq; [done|done|done|]. intros k Hk. unfold get16.
  assert (k = 0 \/ k = 1) as [-> | ->] by lia.
  - rewrite Z.add_0_r. change (get8 d o = u8 (get8 d o + 256 * get8 d (o + 1))). unfold u8. Z.to_euclidean_division_equations; lia.
  - change (get8 d (o + 1) = u8 ((get8 d o + 256 * get8 d (o + 1)) / 256)). unfold u8. Z.to_euclidean_division_equations; lia.
Qed.
Lemma le32_halves a b : 0 <= a < 65536 -> 0 <= b < 65536 -> le32 (a + 65536 * b) = le16 a ++ le16 b.
Proof.
  intros Ha Hb. unfold le32. f_equal.
  - unfold le16. f_equal; [|f_equal]; unfold u8; Z.to_euclidean_division_equations; lia.
  - f_equal. Z.to_euclidean_division_equations; lia.
Qed.
Lemma sub_le32 d o : bytes d -> 0 <= o -> o + 4 <= len d -> sub d o 4 = le32 (get32 d o).
Proof.
  intros Hb Ho Hl. change 4 with (2 + 2). rewrite sub_app, !sub_le16 by (done || lia).
  unfold get32. rewrite le32_halves by (by apply get16_bytes). done.
Qed.

(** ** The value of a list *)

Section Format.
Context {B : BitOps} {K : Kernel} {XK : XattrKernel} {AK : AclKernel} {AL : AclLaws}.

Definition number (e : posix_acl_entry) : Z := if e_tag e =? ACL_USER then from_kuid (e_owner e) else from_kgid (e_owner e).
Definition entry_bytes (e : posix_acl_entry) : list Z :=
  le16 (e_tag e) ++ le16 (e_perm e) ++ (if long_tag (e_tag e) then le32 (number e) else []).
Definition entries_bytes (a : posix_acl) : list Z := concat (entry_bytes <$> a).
Definition acl_bytes (a : posix_acl) : list Z := le32 EXT2_ACL_VERSION ++ entries_bytes a.

Lemma entry_bytes_clean e : entry_bytes (clean e) = entry_bytes e.
Proof using. unfold entry_bytes, number, clean. cbn [e_tag e_perm e_owner]. by destruct (long_tag (e_tag e)). Qed.
#[export] Instance entries_bytes_proper : Proper (same_acl ==> eq) entries_bytes.
Proof using.
  intros a b Hab. unfold entries_bytes. assert (forall l : posix_acl, entry_bytes <$> l = entry_bytes <$> (clean <$> l : posix_acl)) as Hc.
  { intros l. rewrite <- list_fmap_compose. apply list_fmap_ext. intros i e _. symmetry. apply entry_bytes_clean. }
  unfold same_acl in Hab. by rewrite (Hc a), (Hc b), Hab.
Qed.
#[export] Instance acl_bytes_proper : Proper (same_acl ==> eq) acl_bytes.
Proof using. intros a b Hab. unfold acl_bytes. by rewrite Hab. Qed.

Lemma len_entry_bytes e : len (entry_bytes e) = if long_tag (e_tag e) then 8 else 4.
Proof using. unfold entry_bytes. rewrite !len_app. by destruct (long_tag (e_tag e)). Qed.
Lemma bytes_entry_bytes e : bytes (entry_bytes e).
Proof using.
  unfold entry_bytes. repeat apply Forall_app_2; try apply bytes_le16. destruct (long_tag (e_tag e)); [apply bytes_le32|constructor].
Qed.
Lemma entries_cons e a : entries_bytes (e :: a) = entry_bytes e ++ entries_bytes a.
Proof using. done. Qed.
Lemma bytes_entries a : bytes (entries_bytes a).
Proof using. induction a as [|e a IH]; [constructor|]. rewrite entries_cons. apply Forall_app_2; [apply bytes_entry_bytes|done]. Qed.
Lemma bytes_acl a : bytes (acl_bytes a).
Proof using. apply Forall_app_2; [apply bytes_le32|apply bytes_entries]. Qed.

Lemma len_cons {A} (x : A) l : len (x :: l) = 1 + len l.
Proof using. unfold len. cbn [length]. lia. Qed.
Lemma shorts_cons e a : shorts (e :: a) = (if short_tag (e_tag e) then 1 else 0) + shorts a.
Proof using. unfold shorts. rewrite filter_cons. destruct (short_tag (e_tag e)); [rewrite decide_True by done; by rewrite len_cons|by rewrite decide_False]. Qed.
Lemma len_entries a : Forall entry_ok a -> len (entries_bytes a) = 8 * len a - 4 * shorts a /\ 0 <= shorts a <= len a.
Proof using.
  induction 1 as [|e a [He _ _] _ IH]; [done|]. rewrite entries_cons, len_app, len_entry_bytes, len_cons, shorts_cons.
  destruct (long_cases _ He) as [[-> ->]|[-> ->]]; lia.
Qed.
Lemma len_acl a : len (acl_bytes a) = 4 + len (entries_bytes a).
Proof using. unfold acl_bytes. by rewrite len_app. Qed.

(** The sizes of acl.h. *)
Lemma acl_size_bytes a : acl_ok a -> ext2_acl_size (s32 (len a)) = len (acl_bytes a).
Proof using.
  intros [He Hs Hl]. destruct (len_entries a He) as [H1 H2]. pose proof (len_nonneg a). rewrite len_acl, H1, Hs. wraps.
  unfold ext2_acl_size, acl_header_size, acl_entry_short_size, acl_entry_size. destruct (Z.leb_spec (len a) 4); wraps; lia.
Qed.
Lemma acl_count_bytes a : acl_ok a -> ext2_acl_count (len (acl_bytes a)) = len a.
Proof using.
  intros [He Hs Hl]. destruct (len_entries a He) as [H1 H2]. pose proof (len_nonneg a). rewrite len_acl, H1, Hs.
  unfold ext2_acl_count, acl_header_size, acl_entry_short_size, acl_entry_size. cbv zeta. wraps.
  assert (Hs64 : forall x, -1000 <= x < 9223372036854775808 -> s64 x = x) by (intros; unfold s64; rewrite Z.mod_small; lia).
  rewrite Hs64 by lia. destruct (Z.ltb_spec (4 + (8 * len a - 4 * len a `min` 4) - 4 - 4 * 4) 0) as [Hlt|Hge].
  - replace (4 + (8 * len a - 4 * len a `min` 4) - 4) with (len a * 4) by lia. rewrite Z.mod_mul, Z.div_mul by done.
    cbn [Z.eqb negb]. by wraps.
  - replace (4 + (8 * len a - 4 * len a `min` 4) - 4 - 4 * 4) with ((len a - 4) * 8) by lia. rewrite Z.mod_mul, Z.div_mul by done.
    cbn [Z.eqb negb]. wraps. lia.
Qed.
(** A value of [size] bytes whose entries number [ext2_acl_count size] and fill it has
    the short entries the format wants. *)
Lemma acl_count_shorts a size : Forall entry_ok a -> 0 <= size < 1073741824 -> size = 4 + len (entries_bytes a) ->
  ext2_acl_count size = len a -> 0 < len a -> acl_ok a.
Proof using.
  intros He Hsize Hlen Hc Hpos. destruct (len_entries a He) as [H1 H2].
  revert Hc. unfold ext2_acl_count, acl_header_size, acl_entry_short_size, acl_entry_size. cbv zeta. wraps.
  assert (Hs64 : forall x, -1000 <= x < 9223372036854775808 -> s64 x = x) by (intros; unfold s64; rewrite Z.mod_small; lia).
  rewrite Hs64 by lia. destruct (Z.ltb_spec (size - 4 - 4 * 4) 0) as [Hlt|Hge].
  - destruct (Z.eqb_spec ((size - 4) mod 4) 0) as [Hm|]; cbn [negb]; [|lia]. intros Hc.
    rewrite s32_small in Hc by (Z.to_euclidean_division_equations; lia).
    pose proof (Z.div_mod (size - 4) 4 ltac:(done)). assert (len a = shorts a) by lia. by split; lia || done.
  - destruct (Z.eqb_spec ((size - 4 - 4 * 4) mod 8) 0) as [Hm|]; cbn [negb]; [|lia]. intros Hc.
    rewrite s32_small in Hc by (Z.to_euclidean_division_equations; lia).
    pose proof (Z.div_mod (size - 4 - 4 * 4) 8 ltac:(done)). assert (shorts a = 4) by lia. by split; lia || done.
Qed.

(** ** Writing *)

Lemma wr_run n o f d : inside d o n = true -> put_at n o f d = Ret tt (f d).
Proof using. intros H. unfold put_at. by rewrite (bind_Ret _ _ _ d d), H. Qed.

(** The entries are written from [o] on, when their tags are known. *)
Lemma entries_to_disk_run a : forall o d, 0 <= o -> o + 8 * len a <= len d -> exists d',
  entries_to_disk a o d = Ret (forallb (fun e => known_tag (e_tag e)) a) d' /\
  len d' = len d /\ (Forall entry_ok a -> d' = put_bytes d o (entries_bytes a)).
Proof using AL.
  induction a as [|e a IH]; intros o d Ho Hl; [by exists d|]. rewrite len_cons in Hl. pose proof (len_nonneg a).
  cbn [entries_to_disk forallb]. cbv zeta. unfold wr16, wr32.
  erewrite bind_Ret by (apply wr_run, inside_true; lia). erewrite bind_Ret by (apply wr_run, inside_true; rewrite ?len_put16; lia).
  rewrite !put16_le. change (o + 2) with (o + len (le16 (e_tag e))). rewrite <- put_bytes_app.
  set (d1 := put_bytes d o _). assert (Hl1 : len d1 = len d) by by unfold d1; rewrite len_put_bytes.
  assert (Hlong : long_tag (e_tag e) = true -> exists d', entries_to_disk a (o + acl_entry_size)
      (put32 d1 (o + 4) (number e)) = Ret (forallb (fun e => known_tag (e_tag e)) a) d' /\
      len d' = len d /\ (Forall entry_ok (e :: a) -> d' = put_bytes d o (entries_bytes (e :: a)))).
  { intros Ht. destruct (IH (o + 8) (put32 d1 (o + 4) (number e))) as (d' & Hr & Hl' & Hd'); [lia|rewrite len_put32; lia|].
    rewrite len_put32 in Hl'. exists d'. split; [done|]. split; [lia|]. intros [_ Ha]%Forall_cons. rewrite (Hd' Ha), put32_le, entries_cons, (put_bytes_app d o).
    rewrite len_entry_bytes, Ht. f_equal. unfold d1, entry_bytes. rewrite Ht, app_assoc, (put_bytes_app d o (_ ++ _)). done. }
  unfold known_tag, long_tag in *. unfold number in Hlong.
  destruct (Z.eqb_spec (e_tag e) ACL_USER) as [Hu|Hu].
  { destruct Hlong as (d' & Hr & Hd'); [done|]. exists d'. split; [|done].
    erewrite bind_Ret by (apply wr_run, inside_true; lia). rewrite Hr. by rewrite orb_true_r. }
  destruct (Z.eqb_spec (e_tag e) ACL_GROUP) as [Hg|Hg].
  { destruct Hlong as (d' & Hr & Hd'); [done|]. exists d'. split; [|done].
    erewrite bind_Ret by (apply wr_run, inside_true; lia). rewrite Hr. by rewrite orb_true_r. }
  fold (short_tag (e_tag e)). destruct (short_tag (e_tag e)) eqn:Hs; cbn [orb andb].
  - destruct (IH (o + 4) d1) as (d' & Hr & Hl' & Hd'); [lia|lia|]. exists d'. split; [done|]. split; [lia|]. intros [_ Ha]%Forall_cons.
    assert (Ht : long_tag (e_tag e) = false) by (unfold long_tag; lia).
    rewrite (Hd' Ha), entries_cons, (put_bytes_app d o), len_entry_bytes, Ht. f_equal. unfold d1, entry_bytes. by rewrite Ht, app_nil_r.
  - exists d1. split; [done|]. split; [done|]. intros [[He _ _] _]%Forall_cons. unfold known_tag, long_tag in He.
    rewrite Hs in He. cbn [orb] in He. lia.
Qed.

Lemma known_ok a : Forall entry_ok a -> forallb (fun e => known_tag (e_tag e)) a = true.
Proof using. induction 1 as [|e a [He _ _] _ IH]; [done|]. cbn [forallb]. by rewrite He. Qed.

Lemma ext2_acl_to_disk_run {S} a (s : S) : len a < 268435456 -> kmalloc_ok = true -> exists value,
  ext2_acl_to_disk a s = Ret (if forallb (fun e => known_tag (e_tag e)) a then inr (value, ext2_acl_size (s32 (len a))) else inl (- EINVAL)) s /\
  len value = 4 + 8 * len a /\ (acl_ok a -> bytes value /\ sub value 0 (len (acl_bytes a)) = acl_bytes a).
Proof using AL.
  intros Ha Hk. pose proof (len_nonneg a). unfold ext2_acl_to_disk. cbv zeta. rewrite Hk. cbn [negb].
  unfold acl_header_size, acl_entry_size. wraps. set (d := kmalloc_data _).
  assert (Hd : len d = 4 + len a * 8) by (unfold d; apply kmalloc_len; lia).
  destruct (entries_to_disk_run a 4 (put32 d 0 EXT2_ACL_VERSION)) as (v & Hr & Hlen & Hv); [lia|rewrite len_put32; lia|].
  rewrite len_put32 in Hlen.
  exists v. split; [|split; [lia|]].
  - unfold on_copy. erewrite bind_Ret with (a := (forallb (fun e => known_tag (e_tag e)) a, v)); [done|].
    unfold wr32. rewrite (bind_Ret (put_at _ _ _) _ _ _ _ (wr_run _ _ _ _ (inside_true d 0 4 ltac:(lia) ltac:(lia) ltac:(lia)))).
    by rewrite Hr.
  - intros Hok. rewrite (Hv (ao_entries _ Hok)), put32_le. change 4 with (0 + len (le32 EXT2_ACL_VERSION)). rewrite <- put_bytes_app.
    fold (acl_bytes a). split; [apply bytes_put_bytes, kmalloc_bytes|]. apply sub_put_bytes; [done| |apply bytes_acl].
    rewrite len_acl, Hd. destruct (len_entries a (ao_entries _ Hok)). lia.
Qed.

(** ** Reading *)

Lemma put_entry_run {S} pre e mid n f (s : S) : n = len pre -> put_entry n f (pre ++ e :: mid) s = Ret (pre ++ f e :: mid) s.
Proof using.
  intros ->. unfold put_entry, len. rewrite Nat2Z.id, list_lookup_middle by done. by rewrite insert_app_r_alt, Nat.sub_diag by lia.
Qed.

(** One turn of the loop: the entry at [value] is read, or the turn fails. *)
Lemma entry_turn {S} k n d size value pre e mid (s : S) : bytes d -> 0 <= value -> size <= len d -> n = len pre ->
  let t := s16 (get16 d value) in
  let w := if long_tag t then 8 else 4 in
  let id := if t =? ACL_USER then make_kuid else make_kgid in
  entries_from_disk (Datatypes.S k) n d size value (pre ++ e :: mid) s =
  if (value + w <=? size) && known_tag t then
    entries_from_disk k (n + 1) d size (value + w)
      ((pre ++ [PosixAclEntry t (get16 d (value + 2)) (if long_tag t then id (get32 d (value + 4)) else e_owner e)]) ++ mid) s
  else Ret None s.
Proof using AL.
  intros Hb Hv Hs Hn. cbv zeta. cbn [entries_from_disk]. unfold acl_entry_short_size, acl_entry_size.
  set (t := s16 (get16 d value)). unfold known_tag. destruct (Z.gtb_spec (value + 4) size) as [Hgt|Hle].
  { replace (value + _ <=? size) with false by (destruct (long_tag t); lia). done. }
  erewrite bind_Ret by (apply at16_run; lia). erewrite bind_Ret by (apply at16_run; lia).
  erewrite bind_Ret by by apply put_entry_run. fold t. fold (short_tag t).
  destruct (short_tag t) eqn:Hshort.
  { destruct (long_tag t) eqn:Hlong.
    - exfalso. revert Hshort Hlong. unfold short_tag, long_tag, ACL_USER_OBJ, ACL_GROUP_OBJ, ACL_MASK, ACL_OTHER, ACL_USER, ACL_GROUP. lia.
    - replace (value + 4 <=? size) with true by lia. cbn [orb andb]. by rewrite <- app_assoc. }
  unfold long_tag. destruct (Z.eqb_spec t ACL_USER) as [Hu|Hu]; [|destruct (Z.eqb_spec t ACL_GROUP) as [Hg|Hg]].
  1,2: cbn [orb]; rewrite andb_true_r; destruct (Z.gtb_spec (value + 8) size); [by replace (value + 8 <=? size) with false by lia|];
    replace (value + 8 <=? size) with true by lia; erewrite bind_Ret by (apply at32_run; lia);
    erewrite bind_Ret by (by apply put_entry_run); by rewrite <- app_assoc.
  by rewrite andb_false_r.
Qed.

Section Entries.
Variables (d : list Z) (size : Z).
Hypothesis Hb : bytes d.
Hypothesis Hsize : 0 <= size <= len d.

(** What a turn reads is the entry of its bytes. *)
Lemma entry_read v own : 0 <= v -> let t := s16 (get16 d v) in let w := if long_tag t then 8 else 4 in
  v + w <= size -> known_tag t = true ->
  let e := PosixAclEntry t (get16 d (v + 2))
             (if long_tag t then (if t =? ACL_USER then make_kuid else make_kgid) (get32 d (v + 4)) else own) in
  entry_ok e /\ entry_bytes e = sub d v w.
Proof using AL Hb Hsize.
  intros Hv t w Hw Hk e. pose proof (get16_bytes d (v + 2) Hb). pose proof (get32_bytes d (v + 4) Hb). split.
  { split; [done|done|]. cbn [e e_tag e_owner]. intros Hl. rewrite Hl. destruct (t =? ACL_USER); [by apply uid_made|by apply gid_made]. }
  unfold entry_bytes. cbn [e e_tag e_perm]. unfold w in *. assert (Ht : t = get16 d v) by (by apply s16_known; [apply get16_bytes|]).
  assert (H2 : sub d v 4 = le16 t ++ le16 (get16 d (v + 2))).
  { change 4 with (2 + 2). rewrite Ht. rewrite sub_app, !sub_le16 by (done || (destruct (long_tag t); lia)). done. }
  destruct (long_tag t) eqn:Hl; [|by rewrite app_nil_r].
  change 8 with (4 + 4). rewrite sub_app, H2, <- app_assoc, sub_le32 by (done || lia). do 3 f_equal.
  unfold number, e. cbn [e_tag e_owner]. by destruct (t =? ACL_USER); [apply uid_number|apply gid_number].
Qed.

Lemma sub_split v a b l1 l2 : 0 <= v -> 0 <= a -> 0 <= b -> v + a + b <= len d -> len l1 = a ->
  sub d v (a + b) = l1 ++ l2 -> sub d v a = l1 /\ sub d (v + a) b = l2.
Proof using.
  intros Hv Ha Hb' Hl Hl1 H. rewrite sub_app in H by done. apply app_inj_1 in H; [done|].
  apply Nat2Z.inj. change (len (sub d v a) = len l1). by rewrite len_sub by lia.
Qed.

(** The bytes of an entry are read as the entry. *)
Lemma entry_of_bytes v e : 0 <= v -> entry_ok e -> v + len (entry_bytes e) <= size ->
  sub d v (len (entry_bytes e)) = entry_bytes e ->
  s16 (get16 d v) = e_tag e /\ get16 d (v + 2) = e_perm e /\
  (long_tag (e_tag e) = true -> (if e_tag e =? ACL_USER then make_kuid else make_kgid) (get32 d (v + 4)) = e_owner e).
Proof using AL Hb Hsize.
  intros Hv [Hk Hp Hown] Hl H. pose proof (known_range _ Hk). pose proof (len_nonneg (if long_tag (e_tag e) then le32 (number e) else [])) as Hr.
  set (r := if long_tag (e_tag e) then le32 (number e) else []) in *.
  assert (Hlen : len (entry_bytes e) = 2 + (2 + len r)) by (unfold entry_bytes; rewrite !len_app; done).
  rewrite Hlen in *. unfold entry_bytes in H. fold r in H.
  apply sub_split in H as [H1 H2]; [|lia|lia|lia|lia|done]. apply sub_split in H2 as [H2 H3]; [|lia|lia|lia|lia|done].
  rewrite sub_le16 in H1, H2 by (done || lia). apply le16_inj in H1; [|by apply get16_bytes|lia]. apply le16_inj in H2; [|by apply get16_bytes|lia].
  split; [rewrite H1; apply s16_small; lia|]. split; [done|]. intros Ht. unfold r in *. rewrite Ht in *.
  replace (v + 2 + 2) with (v + 4) in H3 by lia. change (len (le32 (number e))) with 4 in *. rewrite sub_le32 in H3 by (done || lia).
  apply le32_inj in H3; [|by apply get32_bytes|unfold number; destruct (_ =? _); [by apply uid_range, Hown|by apply gid_range, Hown]].
  rewrite H3. unfold number. by destruct (_ =? _); [apply uid_id, Hown|apply gid_id, Hown].
Qed.

Lemma entries_sound {S} k (s : S) : forall value pre mid, length mid = k -> 0 <= value <= size -> exists r,
  entries_from_disk k (len pre) d size value (pre ++ mid) s = Ret r s /\
  forall v acl, r = Some (v, acl) -> exists l, acl = pre ++ l /\ length l = k /\ Forall entry_ok l /\
    v = value + len (entries_bytes l) /\ v <= size /\ sub d value (v - value) = entries_bytes l.
Proof using AL Hb Hsize.
  induction k as [|k IH]; intros value pre mid Hm Hv.
  - exists (Some (value, pre ++ mid)). split; [done|]. intros v acl [= -> <-]. exists []. destruct mid; [|done].
    rewrite Z.sub_diag. split_and!; try done; change (len (entries_bytes [])) with 0; lia.
  - destruct mid as [|e mid]; [done|]. injection Hm as Hm. rewrite entry_turn by (done || lia).
    destruct (_ && _) eqn:Hc; [|exists None; done]. apply andb_true_iff in Hc as [Hw Hk]. apply Z.leb_le in Hw.
    set (t := s16 (get16 d value)) in *. set (e' := PosixAclEntry _ _ _).
    destruct (entry_read value (e_owner e) ltac:(lia) Hw Hk) as [He Hbytes]. fold t in He, Hbytes. fold e' in He, Hbytes.
    set (w := if long_tag t then 8 else 4) in *. assert (0 <= w) by (unfold w; destruct (long_tag t); lia).
    destruct (IH (value + w) (pre ++ [e']) mid Hm ltac:(lia)) as (r & Hr & Hres).
    rewrite len_app in Hr. exists r. split; [done|]. intros v acl Hra. destruct (Hres v acl Hra) as (l & -> & Hl & Hok & Hvl & Hvs & Hsub).
    assert (Hew : len (entry_bytes e') = w) by (rewrite len_entry_bytes; done). pose proof (len_nonneg (entries_bytes l)).
    exists (e' :: l). split; [by rewrite <- app_assoc|]. split; [cbn [length]; lia|]. split; [by constructor|].
    rewrite entries_cons, len_app, Hew. split; [lia|]. split; [done|].
    replace (v - value) with (w + (v - (value + w))) by lia. rewrite sub_app by lia. by rewrite Hsub, Hbytes.
Qed.

Lemma entries_complete {S} (s : S) l : Forall entry_ok l -> forall value pre mid, length mid = length l -> 0 <= value ->
  value + len (entries_bytes l) <= size -> sub d value (len (entries_bytes l)) = entries_bytes l ->
  exists l', entries_from_disk (length l) (len pre) d size value (pre ++ mid) s = Ret (Some (value + len (entries_bytes l), pre ++ l')) s /\
    same_acl l' l.
Proof using AL Hb Hsize.
  induction 1 as [|e l He _ IH]; intros value pre mid Hm Hv Hl Hsub; destruct mid as [|e0 mid]; try done.
  { exists []. change (len (entries_bytes [])) with 0. rewrite Z.add_0_r. done. }
  injection Hm as Hm. rewrite entries_cons in *. rewrite len_app in *.
  pose proof (len_nonneg (entry_bytes e)). pose proof (len_nonneg (entries_bytes l)).
  apply sub_split in Hsub as [H1 H2]; [|lia|lia|lia|lia|done].
  destruct (entry_of_bytes value e Hv He ltac:(lia) H1) as (Ht & Hp & Ho). cbn [length]. rewrite entry_turn by (done || lia).
  rewrite Ht, Hp, <- len_entry_bytes. replace (_ <=? size) with true by lia. destruct He as [Hk _ _]. rewrite Hk. cbn [andb].
  set (e' := PosixAclEntry _ _ _). assert (Hclean : clean e' = clean e).
  { unfold clean, e'. cbn [e_tag e_perm e_owner]. destruct (long_tag (e_tag e)) eqn:Hlong; [|done]. by rewrite Ho. }
  destruct (IH (value + len (entry_bytes e)) (pre ++ [e']) mid Hm ltac:(lia) ltac:(lia) H2) as (l' & Hr & Hsame).
  rewrite len_app in Hr. change (len [e']) with 1 in Hr. rewrite Hr. exists (e' :: l'). rewrite Z.add_assoc, <- app_assoc. split; [done|].
  unfold same_acl in *. cbn. by rewrite Hclean, Hsame.
Qed.

End Entries.

(** [ext2_acl_from_disk] accepts the values of the lists of the format. *)
Definition read_back (d : list Z) (r : acl_ptr) : Prop :=
  match r with
  | inr (Some a) => acl_ok a /\ a <> [] /\ acl_bytes a = d
  | inr None => acl_bytes [] = d
  | inl e => e = - EINVAL /\ (forall a, acl_ok a -> acl_bytes a <> d) \/
             e = - ENOMEM /\ exists n, posix_acl_alloc n = None
  end.

Lemma acl_count_zero size : 4 <= size < 1073741824 -> ext2_acl_count size = 0 -> size = 4.
Proof using.
  intros Hs. unfold ext2_acl_count, acl_header_size, acl_entry_short_size, acl_entry_size. cbv zeta. wraps.
  assert (Hs64 : s64 (size - 4 - 4 * 4) = size - 20) by (unfold s64; rewrite Z.mod_small; lia). rewrite Hs64.
  destruct (Z.ltb_spec (size - 20) 0).
  - destruct (Z.eqb_spec ((size - 4) mod 4) 0) as [Hm|]; cbn [negb]; [|done].
    rewrite s32_small by (Z.to_euclidean_division_equations; lia). pose proof (Z.div_mod (size - 4) 4 ltac:(done)). lia.
  - destruct (Z.eqb_spec ((size - 20) mod 8) 0) as [Hm|]; cbn [negb]; [|done].
    rewrite s32_small by (Z.to_euclidean_division_equations; lia). pose proof (Z.div_mod (size - 20) 8 ltac:(done)). lia.
Qed.

Lemma ext2_acl_from_disk_run {S} d size (s : S) : bytes d -> 0 <= size <= len d -> size < 1073741824 -> exists r,
  ext2_acl_from_disk (Some d) size s = Ret r s /\ read_back (sub d 0 size) r /\
  forall a, acl_ok a -> a <> [] -> posix_acl_alloc (len a) <> None -> acl_bytes a = sub d 0 size ->
    exists a', r = inr (Some a') /\ same_acl a' a.
Proof using AL.
  intros Hb Hs Hmax. assert (Hl : forall a, acl_bytes a = sub d 0 size -> size = 4 + len (entries_bytes a)).
  { intros a Ha. rewrite <- len_acl, Ha, len_sub; lia. }
  assert (Hno : forall r, (forall a, acl_ok a -> acl_bytes a <> sub d 0 size) -> r = inl (- EINVAL) ->
      read_back (sub d 0 size) r /\ forall a, acl_ok a -> a <> [] -> posix_acl_alloc (len a) <> None -> acl_bytes a = sub d 0 size ->
      exists a', r = inr (Some a') /\ same_acl a' a).
  { intros r Hn ->. split; [by left|]. intros a Ha _ _ Hab. by destruct (Hn a Ha). }
  unfold ext2_acl_from_disk. unfold acl_header_size. destruct (Z.ltb_spec size 4) as [Hlt|Hge].
  { exists (inl (- EINVAL)). split; [done|]. apply Hno; [|done]. intros a _ Ha%Hl. pose proof (len_nonneg (entries_bytes a)). lia. }
  erewrite bind_Ret by (apply at32_run; lia).
  assert (Hsplit : sub d 0 size = le32 (get32 d 0) ++ sub d 4 (size - 4)).
  { replace size with (4 + (size - 4)) at 1 by lia. by rewrite sub_app, sub_le32 by (done || lia). }
  assert (Hver : forall a, acl_bytes a = sub d 0 size -> get32 d 0 = 1 /\ sub d 4 (size - 4) = entries_bytes a).
  { intros a. rewrite Hsplit. intros H. apply app_inj_1 in H as [H1 H2]; [|done].
    split; [|done]. symmetry. apply le32_inj; [done|by apply get32_bytes|done]. }
  destruct (Z.eqb_spec (get32 d 0) EXT2_ACL_VERSION) as [Hv|Hv]; cbn [negb].
  2: { exists (inl (- EINVAL)). split; [done|]. apply Hno; [|done]. by intros a _ [? _]%Hver. }
  assert (Hcount : forall a, acl_ok a -> acl_bytes a = sub d 0 size -> ext2_acl_count size = len a).
  { intros a Hok Ha. rewrite (Hl a Ha), <- len_acl. by apply acl_count_bytes. }
  set (count := ext2_acl_count size) in *. cbv zeta. destruct (Z.ltb_spec count 0) as [Hneg|Hpos].
  { exists (inl (- EINVAL)). split; [done|]. apply Hno; [|done]. intros a Hok Ha. pose proof (len_nonneg a).
    rewrite (Hcount a Hok Ha) in Hneg. lia. }
  destruct (Z.eqb_spec count 0) as [Hz|Hnz].
  { exists (inr None). split; [done|]. split.
    - cbn [read_back]. rewrite Hsplit, Hv, (acl_count_zero size); [done|lia|done].
    - intros a Hok Hne _ Ha. apply Hcount in Ha; [|done]. destruct a; [done|]. rewrite len_cons in Ha. pose proof (len_nonneg a). lia. }
  destruct (posix_acl_alloc count) as [acl|] eqn:Halloc.
  2: { exists (inl (- ENOMEM)). split; [done|]. split; [right; split; [done|by exists count]|].
    intros a Hok _ Hno' Ha. by rewrite <- (Hcount a Hok Ha) in Hno'. }
  assert (Hlen : length acl = Z.to_nat count) by (apply acl_alloc_len in Halloc; [unfold len in Halloc|]; lia).
  destruct (entries_sound d size Hb Hs (Z.to_nat count) s 4 [] acl Hlen ltac:(lia)) as (r & Hr & Hsound).
  change (len []) with 0 in Hr. cbn [app] in Hr. rewrite (bind_Ret _ _ _ _ _ Hr).
  assert (Hcomplete : forall a, acl_ok a -> acl_bytes a = sub d 0 size -> exists a', r = Some (size, a') /\ same_acl a' a).
  { intros a Hok Ha. pose proof (Hl a Ha) as Hla. destruct (Hver a Ha) as [_ Hsub].
    assert (Hn : length a = Z.to_nat count) by (rewrite (Hcount a Hok Ha); unfold len; lia).
    destruct (entries_complete d size Hb Hs s a (ao_entries _ Hok) 4 [] acl) as (a' & Hr' & Hsame); [lia|lia|lia| |].
    { replace (len (entries_bytes a)) with (size - 4) by lia. done. }
    rewrite Hn in Hr'. change (len []) with 0 in Hr'. cbn [app] in Hr'. rewrite Hr in Hr'. injection Hr' as ->.
    exists a'. split; [|done]. do 2 f_equal. lia. }
  destruct r as [[v acl']|].
  - destruct (Hsound v acl' eq_refl) as (l & -> & Hll & Hok & Hvl & Hvs & Hsub). cbn [app] in *.
    destruct (Z.eqb_spec v size) as [->|Hne].
    + assert (Hok' : acl_ok l) by (apply (acl_count_shorts l size Hok); unfold len in *; lia).
      exists (inr (Some l)). split; [done|]. split.
      * split; [done|]. split; [by intros ->; cbn in Hll; lia|]. unfold acl_bytes. by rewrite Hsplit, Hv, Hsub.
      * intros a Ha _ _ Hab. destruct (Hcomplete a Ha Hab) as (a' & [= ->] & Hsame). by exists a'.
    + exists (inl (- EINVAL)). split; [done|]. apply Hno; [|done]. intros a Ha Hab. destruct (Hcomplete a Ha Hab) as (a' & [=] & _). done.
  - exists (inl (- EINVAL)). split; [done|]. apply Hno; [|done]. intros a Ha Hab. by destruct (Hcomplete a Ha Hab) as (a' & [=] & _).
Qed.

End Format.
