(* ===== verification/AclOps.v ===== *)
(** * Access control lists of inodes

    [ext2_set_acl] puts the value of the list in the attribute of its type, and
    [ext2_get_acl] reads it; what [ext2_set_acl] gives to [set_cached_acl] is what
    [ext2_get_acl] reads afterwards. *)

From S2P Require Import Prelude Bytes Bits Kr Rsv Bitmap Alloc State Balloc BallocFacts NewBlocks BlockMap PathFacts BlockMapFacts FileTree BuildBranch GetBlocks Xattr XattrBlock XattrChange XattrFacts XattrMap XattrStore XattrOps XattrSet XattrRead Acl AclFacts.

(** The list [r] is what a value of the disk stands for. *)
Definition reads `{AclKernel} (d : list Z) (r : acl_ptr) : Prop :=
  read_back d r /\
  forall a, acl_ok a -> a <> [] -> posix_acl_alloc (len a) <> None -> acl_bytes a = d ->
    exists a', r = inr (Some a') /\ same_acl a' a.

(** The value of an attribute is bytes of its block. *)
Lemma value_bytes d al k v : attr_block d al -> attrs_in d !! k = Some v -> bytes v /\ len v <= len d.
Proof.
  intros Ha Hv. rewrite (attrs_in_block d al Ha) in Hv. destruct Ha as [_ _ (es & L & _ & <-)].
  apply elem_of_list_to_map_2 in Hv. unfold pairs in Hv. apply list_elem_of_fmap in Hv as (e & [= _ ->] & _).
  unfold value, sub. split.
  - apply Forall_take, Forall_drop, L.
  - unfold len. rewrite length_take, length_drop. lia.
Qed.

Section Ops.
Context {B : BitOps} {BL : BitLaws B} {R : RbTree} {RL : RbLaws R} {T : Trylock} {K : Kernel}.
Context {XK : XattrKernel} {XL : CacheLaws} {AK : AclKernel} {AL : AclLaws}.
Variable E : stop -> Prop.
Hypothesis HE : E Panic.

#[local] Abbreviation core_at s := (core_of (a_fs s)).
#[local] Abbreviation acls_at s := (core_of (a_fs (af_attr s))).

(** ** Reading *)

(** What [ext2_get_acl] answers for the value of the attribute. *)
Definition acl_answer (v : option (list Z)) (r : acl_ptr) : Prop :=
  match v with
  | None | Some [] => r = inr None
  | Some v => kmalloc_ok = false /\ r = inl (- ENOMEM) \/ reads v r
  end.

Lemma put_bytes_whole d v : bytes v -> len d = len v -> put_bytes d 0 v = v.
Proof using. intros Hb Hl. rewrite <- (sub_whole (put_bytes d 0 v)), len_put_bytes, Hl. apply sub_put_bytes; [done|lia|done]. Qed.

Lemma ext2_get_acl_spec X ino type idx s : sok X s -> is_Some (c_inodes (core_at s) !! ino) -> acl_name_index type = Some idx ->
  runs (ext2_get_acl ino type) E (fun r s' => only_read X s s' /\
    (r = inl (- EIO) /\ unread s ino \/ acl_answer (attrs_of (core_at s) ino !! (idx, [])) r)) s.
Proof using HE AL.
  intros St Hi Hidx. unfold ext2_get_acl. rewrite Hidx. step.
  call (ext2_xattr_get_spec E HE X ino idx [] None s); [done|done|done|]. intros [retval v0] s1 [Ho1 Hr1].
  destruct Hr1 as [[[= -> ->] Hun]|Hr1].
  { match goal with |- runs _ E ?Q _ => change (runs (mret (inl (- EIO))) E Q s1) end. step. split; [done|]. by left. }
  destruct (attrs_of (core_at s) ino !! (idx, [])) as [v|] eqn:Hv; cbn [get_answer] in Hr1; injection Hr1 as -> ->.
  2: { match goal with |- runs _ E ?Q _ => change (runs (mret (inr None)) E Q s1) end. step. split; [done|]. by right. }
  assert (Hvb : bytes v /\ len v <= 4096).
  { revert Hv. unfold attrs_of. destruct (Z.eqb_spec (acl_of (core_at s) ino) 0) as [|Ha]; [by rewrite lookup_empty|].
    destruct (inode_block X s ino St Ha) as (d & al & Hd & Hab & Hl & _). unfold bufs_of in Hd. rewrite Hd.
    intros Hv. destruct (value_bytes d al _ v Hab Hv) as [H1 H2]. split; [done|].
    pose proof (ck_bits _ (bo_core _ (st_ok _ _ _ St))) as Hbits. pose proof (Z.pow_le_mono_r 2 (c_bits (core_at s)) 12).
    change (2 ^ 12) with 4096 in *. lia. }
  destruct Hvb as [Hvb Hvl]. destruct (Z.gtb_spec (len v) 0) as [Hgt|Hle].
  2: { assert (v = []) as -> by (destruct v; [done|rewrite len_cons in Hle; pose proof (len_nonneg v); lia]).
       match goal with |- runs _ E ?Q _ => change (runs (mret (inr None)) E Q s1) end. step. split; [done|]. by right. }
  assert (Hne : forall r, kmalloc_ok = false /\ r = inl (- ENOMEM) \/ reads v r -> acl_answer (Some v) r) by (by destruct v).
  destruct (@kmalloc_ok K) eqn:Hk; cbn [negb].
  2: { step. split; [done|]. right. apply Hne. by left. }
  destruct Ho1 as [St1 C1]. step.
  call (ext2_xattr_get_spec E HE X ino idx [] (Some (len v)) s1); [done|by rewrite C1|done|].
  intros [retval' v'] s2 [[St2 C2] Hr2]. assert (Ho2 : only_read X s s2) by (split; [done|by rewrite C2]).
  destruct Hr2 as [[[= -> ->] Hun]|Hr2].
  { match goal with |- runs _ E ?Q _ => change (runs (mret (inl (- EIO))) E Q s2) end.
    step. split; [done|]. left. split; [done|]. unfold unread in *. by rewrite <- C1. }
  rewrite C1, Hv in Hr2. cbn [get_answer] in Hr2. rewrite Z.gtb_ltb, Z.ltb_irrefl in Hr2. injection Hr2 as -> ->.
  change (default [] (Some v)) with v. rewrite put_bytes_whole by (done || (apply kmalloc_len; lia)).
  unfold acl_of_value. replace (len v >? 0) with true by lia.
  destruct (ext2_acl_from_disk_run v (len v) s2 Hvb ltac:(lia) ltac:(lia)) as (r & Hr & Hread).
  rewrite sub_whole in Hread. eapply runs_call; [exact Hr|]. split; [done|]. right. apply Hne. right. done.
Qed.

(** ** Setting *)

(** What is asked of the attributes: an answer without a change, or the index of the
    attribute and the list that is left of [acl]. *)
Definition acl_request (i : inode) (acl : option posix_acl) (type : Z) : Z + (Z * option posix_acl) :=
  match acl_name_index type with
  | None => inl (- EINVAL)
  | Some idx =>
      if idx =? EXT2_XATTR_INDEX_POSIX_ACL_DEFAULT then
        if S_ISDIR (i_mode i) then inr (idx, acl) else inl (match acl with Some _ => - EACCES | None => 0 end)
      else
        match acl with
        | None => inr (idx, None)
        | Some a => match posix_acl_update_mode i a with inl e => inl e | inr (_, acl) => inr (idx, acl) end
        end
  end.

(** The attribute of the list is the only one that changes, and the list is given to
    [set_cached_acl] just when the call succeeds. *)
Definition acl_was_set (ino type idx : Z) (acl : option posix_acl) (s : aclfs) (err : Z) (s' : aclfs) : Prop :=
  let old := attrs_of (acls_at s) ino in
  let new := change_attr (idx, []) (acl_bytes <$> acl) old in
  exists X, sok X (af_attr s') /\ keeps_attrs (acls_at s) (acls_at s') ino /\
    (err = 0 /\ attrs_of (acls_at s') ino = new /\ af_cached s' = <[(ino, type) := acl]> (af_cached s) \/
     err <> 0 /\ (attrs_of (acls_at s') ino = new \/ attrs_of (acls_at s') ino = old) /\ af_cached s' = af_cached s).

(** A change of an inode that does not touch its blocks. *)
Lemma can_set_touch X s ino size f : can_set X s ino size -> (forall i, KR_I (f i) = KR_I i) ->
  let s' := set_a_fs (set_fs_inodes (alter f ino (fs_inodes (a_fs s))) (a_fs s)) s in
  can_set X s' ino size /\ keeps_attrs (core_at s) (core_at s') ino /\ attrs_of (core_at s') ino = attrs_of (core_at s) ino.
Proof using.
  intros [St Hal Hsz [i Hi] Hn] Hf s'. set (ins := alter f ino (c_inodes (core_at s))).
  assert (Hm : moved_acl (core_at s) (set_c_inodes ins (core_at s)) ino (acl_of (core_at s) ino)).
  { split; [apply dom_alter_L|by eexists| |].
    - unfold acl_of, ins. cbn [c_inodes set_c_inodes]. rewrite lookup_alter_eq, Hi. cbn. by rewrite Hf.
    - intros j Hj. unfold acl_of, ins. cbn [c_inodes set_c_inodes]. by rewrite lookup_alter_ne by done. }
  assert (C : core_at s' = set_c_inodes ins (core_at s)) by done.
  destruct (stored_inodes X (a_cache s) (core_at s) St ino (acl_of (core_at s) ino) ins Hm) as (St' & K' & A').
  { destruct (st_file _ _ _ St ino); [by left|right; split; [done|by left]]. }
  rewrite C. split; [|split; [done|]].
  - split; [done| |done| |done].
    + unfold can_alloc in *. rewrite C. cbn [c_inodes set_c_inodes c_rsv]. unfold ins. rewrite lookup_alter_eq, Hi in *.
      cbn in *. by rewrite Hf.
    + rewrite C. cbn [c_inodes set_c_inodes]. unfold ins. rewrite lookup_alter_eq, Hi. by eexists.
  - rewrite A'. unfold attrs_of. done.
Qed.

(** Two changes of an inode, and a call. *)
Lemma acl_place_spec X ino i acl type size s : can_set X (af_attr s) ino size -> c_inodes (acls_at s) !! ino = Some i ->
  runs (acl_place ino type acl) E (fun r s' => r = acl_request i acl type /\
    match r with
    | inl _ => s' = s
    | inr _ => can_set X (af_attr s') ino size /\ keeps_attrs (acls_at s) (acls_at s') ino /\
        attrs_of (acls_at s') ino = attrs_of (acls_at s) ino /\ af_cached s' = af_cached s /\
        fs_blocksize (a_fs (af_attr s')) = fs_blocksize (a_fs (af_attr s))
    end) s.
Proof using.
  intros Hcan Hi. unfold acl_place, acl_request, acl_name_index.
  assert (Hget : on_attr (on_fs (inode_get ino)) s = Ret i s).
  { unfold on_attr, lift. rewrite (inode_run ino i (af_attr s) Hi). by destruct s. }
  destruct (Z.eqb_spec type ACL_TYPE_ACCESS) as [Ht|Ht]; [|destruct (Z.eqb_spec type ACL_TYPE_DEFAULT) as [Hd|Hd]].
  - cbn [Z.eqb Pos.eqb]. change (EXT2_XATTR_INDEX_POSIX_ACL_ACCESS =? EXT2_XATTR_INDEX_POSIX_ACL_DEFAULT) with false. cbv beta iota.
    destruct acl as [a|]; [|by step].
    step. eapply runs_call; [exact Hget|]. cbv beta. destruct (posix_acl_update_mode i a) as [e|[mode acl']]; [by step|].
    destruct (can_set_touch X (af_attr s) ino size (set_i_mode mode) Hcan ltac:(done)) as (Hcan1 & K1 & A1).
    set (a1 := set_a_fs _ (af_attr s)) in *.
    destruct (can_set_touch X a1 ino size (set_i_ctime current_time) Hcan1 ltac:(done)) as (Hcan2 & K2 & A2).
    set (a2 := set_a_fs _ a1) in *. step. apply runs_lift. apply runs_lift. unfold inode_upd. step. step. apply runs_lift, runs_lift. step.
    step. apply runs_lift. apply note_attr_spec. intros a3 [C3 L3]. step. split; [done|].
    change (core_of (a_fs a3) = core_of (a_fs a2)) in C3. change (a_cache a3 = a_cache a2) in L3. cbn [af_attr set_af_attr].
    destruct Hcan2 as [H1 H2 H3 H4 H5]. split; [split|].
    + by apply (quiet_sok X a2).
    + by rewrite C3.
    + done.
    + by rewrite C3.
    + by rewrite C3.
    + rewrite C3. split; [by apply (keeps_trans _ (core_at a1))|]. split; [by rewrite A2|]. split; [done|].
      unfold fs_blocksize. change (fs_blocksize_bits (a_fs a3)) with (c_bits (core_at a3)). by rewrite C3.
  - change (EXT2_XATTR_INDEX_POSIX_ACL_DEFAULT =? EXT2_XATTR_INDEX_POSIX_ACL_DEFAULT) with true. cbv beta iota.
    step. eapply runs_call; [exact Hget|]. cbv beta. step. destruct (S_ISDIR (i_mode i)); cbn [negb]; [|by destruct acl].
    split; [done|]. split; [done|]. by split.
  - by step.
Qed.

(** The value is made, or there is no memory for it. *)
Lemma acl_value_spec {S} acl (s : S) : (forall a, acl = Some a -> acl_ok a) ->
  runs (acl_value acl) E (fun r s' => s' = s /\ (r = inr (acl_bytes <$> acl) \/ kmalloc_ok = false /\ r = inl (- ENOMEM))) s.
Proof using AL.
  intros Hok. unfold acl_value. destruct acl as [a|]; [|step; split; [done|by left]]. specialize (Hok a eq_refl).
  destruct (@kmalloc_ok K) eqn:Hk.
  - destruct (ext2_acl_to_disk_run a s (ao_len _ Hok) Hk) as (v & Hr & Hl & Hv).
    rewrite (known_ok _ (ao_entries _ Hok)) in Hr. rewrite (acl_size_bytes a Hok) in Hr. step. eapply runs_call; [exact Hr|]. cbv beta iota.
    pose proof (len_nonneg (acl_bytes a)). destruct (len_entries a (ao_entries _ Hok)). rewrite len_acl in *.
    step. eapply runs_call; [apply at_bytes_run; lia|]. cbv beta. step. split; [done|]. left. by rewrite (proj2 (Hv Hok)).
  - unfold ext2_acl_to_disk. cbv zeta. rewrite Hk. cbn [negb]. step. step. step. split; [done|]. by right.
Qed.

Lemma acl_request_index i acl type idx acl' : acl_request i acl type = inr (idx, acl') ->
  acl_name_index type = Some idx /\ 1 <= idx <= 255 /\ (acl' = acl \/ acl' = None).
Proof using AL.
  unfold acl_request. destruct (acl_name_index type) as [j|] eqn:Hj; [|done]. assert (1 <= j <= 255).
  { revert Hj. unfold acl_name_index. repeat case_match; intros [= <-]; done. }
  destruct (j =? _); [destruct (S_ISDIR _)|]; [|done|].
  - intros [= <- <-]. split_and!; try lia; [done|by left].
  - destruct acl as [a|]; [|intros [= <- <-]; split_and!; try lia; [done|by left]].
    destruct (posix_acl_update_mode i a) as [e|[mode a']] eqn:Hu; [done|]. intros [= <- <-]. split_and!; try lia; [done|].
    destruct a' as [a'|]; [left|by right]. by rewrite (update_mode_acl _ _ _ _ Hu).
Qed.

Lemma ext2_set_acl_spec X ino i acl type size s : can_set X (af_attr s) ino size -> c_inodes (acls_at s) !! ino = Some i ->
  (forall a, acl = Some a -> acl_ok a) ->
  runs (ext2_set_acl ino acl type) E (fun err s' =>
    match acl_request i acl type with
    | inl e => err = e /\ s' = s
    | inr (idx, acl') => acl_was_set ino type idx acl' s err s'
    end) s.
Proof using All.
  intros Hcan Hi Hok. unfold ext2_set_acl. step. call (acl_place_spec X ino i acl type size s Hcan Hi). intros r s1 [Hr H1].
  destruct r as [e|[idx acl']]; rewrite <- Hr; [by step|]. symmetry in Hr. destruct (acl_request_index _ _ _ _ _ Hr) as (_ & Hidx & Hacl).
  destruct H1 as (Hcan1 & K1 & A1 & Hc1 & Hbs). assert (Hok' : forall a, acl' = Some a -> acl_ok a).
  { intros a ->. by destruct Hacl as [<-|?]; [apply Hok|]. }
  step. call (acl_value_spec acl' s1 Hok'). intros v s2 [-> Hv]. unfold acl_was_set.
  destruct Hv as [->|[_ ->]].
  2: { step. exists X. split; [apply Hcan1|]. split; [done|]. right. split; [done|]. split; [by right|done]. }
  step. destruct (Z.leb_spec (len (default [] (acl_bytes <$> acl'))) (fs_blocksize (a_fs (af_attr s1)))) as [Hle|Hgt].
  - apply runs_lift. call (ext2_xattr_set_spec E HE X ino idx [] (acl_bytes <$> acl') 0 size (af_attr s1)); [done|by constructor|done|done| |].
    { intros v Hv. rewrite Hv in Hle. cbn [default from_option id] in Hle. split; [|done].
      destruct acl' as [a|]; [|done]. injection Hv as <-. apply bytes_acl. }
    intros err a2 (X2 & St2 & K2 & A2 & _). rewrite A1 in A2. step.
    assert (K2' : keeps_attrs (acls_at s) (core_at a2) ino) by (by eapply keeps_trans).
    destruct (Z.eqb_spec err 0) as [->|Hne]; cbn [when].
    + unfold set_cached_acl. step. step. exists X2. split; [done|]. split; [done|]. left. split; [done|].
      split; [by destruct A2 as [?|[? _]]|]. cbn [af_cached set_af_attr]. by rewrite Hc1.
    + step. step. exists X2. split; [done|]. split; [done|]. right. split; [done|]. split; [destruct A2 as [?|[_ ?]]; tauto|done].
  - apply runs_lift. unfold ext2_xattr_set. step. step. cbv zeta. change (len [] >? 255) with false. cbn [orb].
    replace (_ >? _) with true by lia. step. step. change (- ERANGE =? 0) with false. cbn [when]. step. step. exists X. split; [apply Hcan1|].
    split; [done|]. right. split; [done|]. split; [by right|done].
Qed.

End Ops.
