(* ===== verification/AclTheorems.v ===== *)
(** * Access control lists: the theorems

    The values of the disk that stand for a list, what [ext2_set_acl] does to the
    attributes, and that it caches what [ext2_get_acl] reads. *)

From Stdlib Require Import String.
From S2P Require Import Prelude Bytes Bits Kr Rsv Bitmap Alloc State Balloc BallocFacts NewBlocks BlockMap Demo BlockTheorems GetBlocks Xattr XattrBlock XattrChange XattrFacts XattrMap XattrStore XattrOps XattrSet XattrRead XattrTheorems Acl AclFacts AclOps.

Section Theorems.
Context {B : BitOps} {BL : BitLaws B} {R : RbTree} {RL : RbLaws R} {T : Trylock} {K : Kernel}.
Context {XK : XattrKernel} {XL : CacheLaws} {AK : AclKernel} {AL : AclLaws}.

(** C28. [ext2_acl_from_disk] reads no byte outside of the value and ends; it accepts the
    bytes of a list of the format, giving that list, and refuses all others with
    [-EINVAL]; a value without entries is no list. *)
Theorem ext2_acl_from_disk_correct {S} d size (s : S) : bytes d -> 0 <= size <= len d -> size < 1073741824 ->
  runs (ext2_acl_from_disk (Some d) size) never (fun r s' => s' = s /\ reads (sub d 0 size) r) s.
Proof.
  intros Hb Hs Hmax. destruct (ext2_acl_from_disk_run d size s Hb Hs Hmax) as (r & Hr & Hread).
  by eapply runs_call; [exact Hr|].
Qed.

(** C29. [ext2_set_acl] puts the bytes of the list in the attribute of its type, or takes
    the attribute away when no list is left; no other attribute changes, of this inode
    or another; the list is given to [set_cached_acl] just when the call succeeds.  A
    default list needs a directory, and a type that is not known is refused. *)
Theorem ext2_set_acl_correct X ino i acl type size s : can_set X (af_attr s) ino size ->
  c_inodes (core_of (a_fs (af_attr s))) !! ino = Some i -> (forall a, acl = Some a -> acl_ok a) ->
  runs (ext2_set_acl ino acl type) only_panic (fun err s' =>
    match acl_request i acl type with
    | inl e => err = e /\ s' = s
    | inr (idx, acl') => acl_was_set ino type idx acl' s err s'
    end) s.
Proof. apply (ext2_set_acl_spec only_panic eq_refl). Qed.

(** C30. The list that is cached when [ext2_set_acl] succeeds is the one that
    [ext2_get_acl] reads afterwards. *)
Theorem set_acl_then_get X ino i acl type idx acl' size s : can_set X (af_attr s) ino size ->
  c_inodes (core_of (a_fs (af_attr s))) !! ino = Some i -> (forall a, acl = Some a -> acl_ok a /\ a <> []) ->
  acl_request i acl type = inr (idx, acl') ->
  (forall b, bh_read_ok b = true) -> kmalloc_ok = true -> (forall n, posix_acl_alloc n <> None) ->
  runs (err ← ext2_set_acl ino acl type; r ← on_attr (ext2_get_acl ino type); mret (err, r)) only_panic
    (fun x s' => let '(err, r) := x in err = 0 ->
       af_cached s' !! (ino, type) = Some acl' /\
       match acl' with
       | None => r = inr None
       | Some a => exists a', r = inr (Some a') /\ same_acl a' a
       end) s.
Proof.
  intros Hcan Hi Hok Hreq Hread Hk Halloc. destruct (acl_request_index _ _ _ _ _ Hreq) as (Hidx & _ & Hacl). step.
  call (ext2_set_acl_spec only_panic eq_refl X ino i acl type size s Hcan Hi); [by intros a Ha; apply Hok|].
  rewrite Hreq. intros err s1 (X1 & St1 & [_ Hdom] & Hset).
  assert (Hi1 : is_Some (c_inodes (core_of (a_fs (af_attr s1))) !! ino)).
  { apply elem_of_dom. rewrite Hdom. apply elem_of_dom. by eexists. }
  step. apply runs_lift. call (ext2_get_acl_spec only_panic eq_refl X1 ino type idx (af_attr s1) St1 Hi1 Hidx).
  intros r a2 [_ Hr]. step. intros ->. destruct Hset as [(_ & Ha & Hc)|[? _]]; [|done].
  split; [cbn [af_cached set_af_attr]; rewrite Hc; by rewrite lookup_insert_eq|].
  destruct Hr as [[_ [_ Hbad]]|Hr]; [by rewrite Hread in Hbad|]. rewrite Ha in Hr.
  destruct acl' as [a|]; cbn [fmap option_fmap option_map change_attr] in Hr; [rewrite lookup_insert_eq in Hr|rewrite lookup_delete_eq in Hr; exact Hr].
  assert (Hoka : acl_ok a /\ a <> []) by (apply Hok; by destruct Hacl).
  assert (Hread' : @kmalloc_ok K = false /\ r = inl (- ENOMEM) \/ reads (acl_bytes a) r) by exact Hr.
  destruct Hread' as [[? _]|[_ Hr']]; [congruence|]. apply Hr'; [apply Hoka|apply Hoka|apply Halloc|done].
Qed.

End Theorems.

(** ** Witnesses *)

(** The mode a list stands for: a list of the three short entries is a mode. *)
Definition update_mode_ref (i : inode) (a : posix_acl) : Z + (Z * option posix_acl) :=
  if existsb (fun e => negb (known_tag (e_tag e))) a then inl (- EINVAL)
  else
    let perm (tag : Z) := foldr (fun e m => if e_tag e =? tag then e_perm e else m) 0 a in
    let group := if existsb (fun e => e_tag e =? ACL_MASK) a then ACL_MASK else ACL_GROUP_OBJ in
    inr (Z.land (i_mode i) S_IFMT + 64 * perm ACL_USER_OBJ + 8 * perm group + perm ACL_OTHER,
         if len a =? 3 then None else Some a).

#[global] Instance demo_acls : AclKernel := {|
  make_kuid := fun v => v;
  from_kuid := fun k => k;
  make_kgid := fun v => v;
  from_kgid := fun k => k;
  posix_acl_alloc := fun n => Some (repeat (PosixAclEntry 7 7 7) (Z.to_nat n));
  kmalloc_data := fun n => repeat 165 (Z.to_nat n);
  posix_acl_update_mode := update_mode_ref;
|}.
#[global] Instance demo_acllaws : AclLaws.
Proof.
  split; try done.
  - intros n l Hn [= <-]. unfold len. rewrite repeat_length. lia.
  - intros n Hn. unfold len, kmalloc_data, demo_acls. rewrite repeat_length. lia.
  - intros n. apply Forall_forall. intros b Hb%list_elem_of_In%repeat_spec. lia.
  - intros i a mode a'. unfold posix_acl_update_mode, demo_acls, update_mode_ref.
    destruct (existsb _ a); [done|]. cbv zeta. destruct (len a =? 3); [done|]. by intros [= _ ->].
Qed.

(** The owner, a user, the group, the mask and the others. *)
Definition demo_acl : posix_acl :=
  [PosixAclEntry ACL_USER_OBJ 7 0; PosixAclEntry ACL_USER 6 1000; PosixAclEntry ACL_GROUP_OBJ 5 0;
   PosixAclEntry ACL_MASK 6 0; PosixAclEntry ACL_OTHER 4 0].
Definition demo_aclfs : aclfs := AclFs demo_start ∅.

Lemma demo_acl_ok : acl_ok demo_acl.
Proof.
  split; [|vm_compute; reflexivity|vm_compute; reflexivity].
  repeat (constructor; [split; [reflexivity|cbn [e_perm]; lia|intros _; unfold id32; cbn [e_owner]; lia]|]). constructor.
Qed.
Lemma demo_dir_can_set : can_set ∅ (af_attr demo_aclfs) 2 100.
Proof. split; [exact demo_start_stored|vm_compute; done|lia|vm_compute; by eexists|vm_compute; done]. Qed.
Definition demo_dir : inode := demo_inode 2 (S_IFDIR + 493) None.

Lemma ext2_acl_from_disk_witness :
  runs (ext2_acl_from_disk (Some (acl_bytes demo_acl)) 28) never
    (fun r s' => s' = tt /\ reads (sub (acl_bytes demo_acl) 0 28) r) tt /\
  answer (ext2_acl_from_disk (Some (acl_bytes demo_acl)) 28) tt =
    Some (inr (Some [PosixAclEntry ACL_USER_OBJ 7 7; PosixAclEntry ACL_USER 6 1000; PosixAclEntry ACL_GROUP_OBJ 5 7;
                     PosixAclEntry ACL_MASK 6 7; PosixAclEntry ACL_OTHER 4 7])) /\
  answer (ext2_acl_from_disk (Some (acl_bytes demo_acl)) 24) tt = Some (inl (- EINVAL)).
Proof.
  split; [|split; vm_compute; reflexivity].
  apply (ext2_acl_from_disk_correct (acl_bytes demo_acl) 28 tt (bytes_acl demo_acl)); [|lia].
  split; [lia|by vm_compute].
Defined.

Lemma ext2_set_acl_witness :
  runs (ext2_set_acl 2 (Some demo_acl) ACL_TYPE_DEFAULT) only_panic (fun err s' =>
    match acl_request demo_dir (Some demo_acl) ACL_TYPE_DEFAULT with
    | inl e => err = e /\ s' = demo_aclfs
    | inr (idx, acl') => acl_was_set 2 ACL_TYPE_DEFAULT idx acl' demo_aclfs err s'
    end) demo_aclfs /\
  answer (ext2_set_acl 2 (Some demo_acl) ACL_TYPE_DEFAULT) demo_aclfs = Some 0 /\
  answer (ext2_set_acl 12 (Some demo_acl) ACL_TYPE_DEFAULT) demo_aclfs = Some (- EACCES).
Proof.
  split; [|split; vm_compute; reflexivity].
  apply (ext2_set_acl_correct ∅ 2 demo_dir (Some demo_acl) ACL_TYPE_DEFAULT 100 demo_aclfs demo_dir_can_set eq_refl).
  intros a [= <-]. exact demo_acl_ok.
Defined.

Lemma set_acl_then_get_witness :
  runs (err ← ext2_set_acl 2 (Some demo_acl) ACL_TYPE_DEFAULT; r ← on_attr (ext2_get_acl 2 ACL_TYPE_DEFAULT); mret (err, r))
    only_panic (fun x s' => let '(err, r) := x in err = 0 ->
      af_cached s' !! (2, ACL_TYPE_DEFAULT) = Some (Some demo_acl) /\
      exists a', r = inr (Some a') /\ same_acl a' demo_acl) demo_aclfs.
Proof.
  apply (set_acl_then_get ∅ 2 demo_dir (Some demo_acl) ACL_TYPE_DEFAULT 3 (Some demo_acl) 100 demo_aclfs demo_dir_can_set eq_refl).
  - intros a [= <-]. split; [exact demo_acl_ok|discriminate].
  - reflexivity.
  - reflexivity.
  - reflexivity.
  - discriminate.
Defined.

(** The mode of an inode is changed before its attribute: it stays changed when the
    attribute cannot be set. *)
Example failed_acl_changes_mode :
  answer (err ← @ext2_set_acl _ _ _ full_quota _ _ 12 (Some demo_acl) ACL_TYPE_ACCESS;
          i ← on_attr (on_fs (inode_get 12));
          r ← on_attr (ext2_get_acl 12 ACL_TYPE_ACCESS); mret (err, i_mode i, r)) demo_aclfs
  = Some (- EDQUOT, S_IFREG + 500, inr None).
Proof. vm_compute. reflexivity. Qed.
