(* ===== verification/Lfs.v ===== *)
(** * The counter file system (Exercises/Exercise16/lfs.c)

    A file system with two files, each a counter: what is read is the number, and a
    read from the start of the file increments it.  The functions that read and
    write the files, and the ones that make the tree when it is mounted. *)

From stdpp Require Import strings.
From S2P Require Import Prelude Bytes Kr.

Definition LFS_MAGIC : Z := 0x19980122.
Definition TMPSIZE : Z := 20.

(** ** The kernel *)

Class LfsKernel := {
  alloc_ok : Z -> bool;                           (* whether the n-th allocation succeeds *)
  lfs_now : Z;                                    (* CURRENT_TIME *)
  full_name_hash : option Z -> string -> Z -> Z;  (* the hash of a name under a dentry *)
  print_d : Z -> list Z;                          (* what %d prints *)
  simple_strtol : list Z -> Z;                    (* the number at the start of a string, base 10 *)
  copy_to_user_ok : Z -> Z -> bool;               (* an address and how much *)
  copy_from_user : Z -> Z -> option (list Z);     (* the bytes at an address, or a fault *)
}.

(** What printing and reading numbers and copying promise. *)
Class LfsLaws (K : LfsKernel) := {
  print_d_len v : - 2147483648 <= v < 2147483648 -> 1 <= len (print_d v) <= 11;
  strtol_print v rest : - 2147483648 <= v < 2147483648 -> (forall c, head rest = Some c -> ~ 48 <= c <= 57) ->
    simple_strtol (print_d v ++ rest) = v;
  copy_from_user_len p n d : copy_from_user p n = Some d -> len d = n;
}.

(** ** State *)

(** The tables of operations an inode can be given. *)
Inductive lfs_ops := lfs_file_ops | simple_dir_operations.

Record lfs_inode := LfsInode {
  li_mode : Z; li_uid : Z; li_gid : Z; li_blocks : Z;
  li_atime : Z; li_mtime : Z; li_ctime : Z;
  li_simple_dir_iops : bool;         (* i_op is simple_dir_inode_operations *)
  li_fop : option lfs_ops;
  li_private : option Z;             (* the address of a counter *)
}.
Definition set_li_fop (v : option lfs_ops) (r : lfs_inode) : lfs_inode :=
  LfsInode (li_mode r) (li_uid r) (li_gid r) (li_blocks r) (li_atime r) (li_mtime r) (li_ctime r)
    (li_simple_dir_iops r) v (li_private r).
Definition set_li_private (v : option Z) (r : lfs_inode) : lfs_inode :=
  LfsInode (li_mode r) (li_uid r) (li_gid r) (li_blocks r) (li_atime r) (li_mtime r) (li_ctime r)
    (li_simple_dir_iops r) (li_fop r) v.
Definition set_li_dir (r : lfs_inode) : lfs_inode :=
  LfsInode (li_mode r) (li_uid r) (li_gid r) (li_blocks r) (li_atime r) (li_mtime r) (li_ctime r)
    true (Some simple_dir_operations) (li_private r).

(** A name; the hash is [None] as long as nothing has been written there. *)
Record qstr := Qstr { q_name : string; q_len : Z; q_hash : option Z }.

(** The calls to the kernel, with what they answered. *)
Inductive lcall :=
| SbSetBlocksize (size : Z)
| NewInode (r : option Z)
| DAlloc (parent : Z) (name : qstr) (r : option Z)   (* the dentry has a copy of [name] *)
| DAdd (dentry inode : Z)
| DPut (dentry : Z)
| DMakeRoot (inode : Z) (r : option Z)
| IPut (inode : Z).

(** Inodes and dentries are numbered by the allocation that made them; counters and
    open files are known by their address. *)
Record lfs := LfsState {
  l_inodes : gmap Z lfs_inode;
  l_counters : gmap Z Z;
  l_files : gmap Z (option Z);       (* filp->private_data *)
  l_allocs : Z;                      (* how many allocations there have been *)
  l_magic : Z;
  l_s_op : bool;                     (* s_op is lfs_s_ops *)
  l_root : option Z;
  l_trace : list lcall;              (* the latest call first *)
}.
Definition eta_lfs (r : lfs) : lfs :=
  LfsState (l_inodes r) (l_counters r) (l_files r) (l_allocs r) (l_magic r) (l_s_op r) (l_root r) (l_trace r).
Definition set_l_inodes (v : gmap Z lfs_inode) (r : lfs) : lfs := ltac:(set_field (eta_lfs r) (l_inodes r) v).
Definition set_l_counters (v : gmap Z Z) (r : lfs) : lfs := ltac:(set_field (eta_lfs r) (l_counters r) v).
Definition set_l_files (v : gmap Z (option Z)) (r : lfs) : lfs := ltac:(set_field (eta_lfs r) (l_files r) v).
Definition set_l_allocs (v : Z) (r : lfs) : lfs := ltac:(set_field (eta_lfs r) (l_allocs r) v).
Definition set_l_root (v : option Z) (r : lfs) : lfs := ltac:(set_field (eta_lfs r) (l_root r) v).
Definition set_l_trace (v : list lcall) (r : lfs) : lfs := ltac:(set_field (eta_lfs r) (l_trace r) v).
Definition set_l_magic (v : Z) (r : lfs) : lfs := ltac:(set_field (eta_lfs r) (l_magic r) v).
Definition set_l_s_op (v : bool) (r : lfs) : lfs := ltac:(set_field (eta_lfs r) (l_s_op r) v).

(** The addresses of the two counters. *)
Definition counter : Z := 1.
Definition subcounter : Z := 2.

Section Ops.
Context `{LfsKernel}.

(** ** Helpers of the kernel *)

Definition lcalled (c : lcall) : M lfs unit := modify (fun l => set_l_trace (c :: l_trace l) l).

(** The next allocation: the number of the object, or none. *)
Definition allocate : M lfs (option Z) :=
  n ← gets l_allocs;
  modify (set_l_allocs (n + 1)) ;;
  mret (if alloc_ok n then Some n else None).

Definition atomic_read (c : Z) : M lfs Z :=
  l ← gets id;
  match l_counters l !! c with Some v => mret v | None => halt Fault end.
Definition atomic_set (c v : Z) : M lfs unit :=
  l ← gets id;
  match l_counters l !! c with
  | Some _ => modify (fun l => set_l_counters (<[c := s32 v]> (l_counters l)) l)
  | None => halt Fault
  end.
Definition atomic_inc (c : Z) : M lfs unit := v ← atomic_read c; atomic_set c (v + 1).

(** What [snprintf] leaves in a buffer of [size] bytes, and what it returns. *)
Definition snprintf (size : Z) (text : list Z) : list Z * Z :=
  (take (Z.to_nat (size - 1)) text ++ [0], len text).

(** ** Files *)

Definition lfs_open (ino filp : Z) : M lfs Z :=
  l ← gets id;
  match l_inodes l !! ino with
  | None => halt Fault
  | Some inode =>
      modify (fun l => set_l_files (<[filp := li_private inode]> (l_files l)) l) ;;
      mret 0
  end.

Definition private_data (filp : Z) : M lfs Z :=
  l ← gets id;
  match l_files l !! filp with Some (Some c) => mret c | _ => halt Fault end.

(** The answer of [lfs_read_file] once it has its number [v]: what it returns, what
    is at [buf], and [*offset]. *)
Definition read_reply (v buf count offset : Z) : M lfs (Z * list Z * Z) :=
  let '(tmp, len_) := snprintf TMPSIZE (print_d v ++ [10]) in
  if offset >? len_ then mret (0, [], offset)
  else
    let count := if count >? u64 (len_ - offset) then len_ - offset else count in
    if negb ((0 <=? offset) && (offset + count <=? len tmp)) then halt Fault
    else if negb (copy_to_user_ok buf count) then mret (- EFAULT, [], offset)
    else mret (count, sub tmp offset count, offset + count).

Definition lfs_read_file (filp buf count offset : Z) : M lfs (Z * list Z * Z) :=
  counter ← private_data filp;
  v ← atomic_read counter;
  v ← (if offset >? 0 then mret (s32 (v - 1)) else atomic_inc counter ;; mret v);
  read_reply v buf count offset.

Definition lfs_write_file (filp buf count offset : Z) : M lfs Z :=
  counter ← private_data filp;
  if negb (offset =? 0) then mret (- EINVAL)
  else if count >=? TMPSIZE then mret (- EINVAL)
  else
    match copy_from_user buf count with
    | None => mret (- EFAULT)
    | Some data =>
        let tmp := data ++ repeat 0 (Z.to_nat (TMPSIZE - count)) in
        atomic_set counter (simple_strtol tmp) ;;
        mret count
    end.

(** ** The tree *)

Definition lfs_make_inode (mode : Z) : M lfs (option Z) :=
  ret ← allocate;
  lcalled (NewInode ret) ;;
  match ret with
  | None => mret None
  | Some i =>
      modify (fun l => set_l_inodes (<[i := LfsInode mode 0 0 0 lfs_now lfs_now lfs_now false None None]>
        (l_inodes l)) l) ;;
      mret (Some i)
  end.

Definition d_alloc (dir : Z) (q : qstr) : M lfs (option Z) :=
  dentry ← allocate;
  lcalled (DAlloc dir q dentry) ;;
  mret dentry.

Definition upd_inode (i : Z) (f : lfs_inode -> lfs_inode) : M lfs unit :=
  modify (fun l => set_l_inodes (alter f i (l_inodes l)) l).

(** The inode is given its operations by [ops], and takes its place in the tree. *)
Definition finish_create (dentry mode : Z) (ops : lfs_inode -> lfs_inode) : M lfs (option Z) :=
  inode ← lfs_make_inode mode;
  match inode with
  | None => lcalled (DPut dentry) ;; mret None
  | Some i =>
      upd_inode i ops ;;
      lcalled (DAdd dentry i) ;;
      mret (Some dentry)
  end.

Definition lfs_create_file (dir : Z) (name : string) (c : Z) : M lfs (option Z) :=
  let qname := Qstr name (Z.of_nat (String.length name)) None in
  dentry ← d_alloc dir qname;
  (* the variable of the function, not the copy the dentry has *)
  let _qname := Qstr name (q_len qname) (Some (full_name_hash dentry name (q_len qname))) in
  match dentry with
  | None => mret None
  | Some d =>   (* 0644 *)
      finish_create d (Z.lor S_IFREG 420) (fun i => set_li_private (Some c) (set_li_fop (Some lfs_file_ops) i))
  end.

Definition lfs_create_dir (parent : Z) (name : string) : M lfs (option Z) :=
  let qname := Qstr name (Z.of_nat (String.length name)) None in
  dentry ← d_alloc parent qname;
  let _qname := Qstr name (q_len qname) (Some (full_name_hash dentry name (q_len qname))) in
  match dentry with
  | None => mret None
  | Some d => finish_create d (Z.lor S_IFDIR 420 (* 0644 *)) set_li_dir
  end.

Definition lfs_create_files (root : Z) : M lfs unit :=
  atomic_set counter 0 ;;
  _ ← lfs_create_file root "counter" counter;
  atomic_set subcounter 0 ;;
  subdir ← lfs_create_dir root "subdir";
  match subdir with
  | Some d => _ ← lfs_create_file d "subcounter" subcounter; mret tt
  | None => mret tt
  end.

Definition d_make_root (inode : Z) : M lfs (option Z) :=
  dentry ← allocate;
  lcalled (DMakeRoot inode dentry) ;;
  mret dentry.

Definition lfs_fill_super : M lfs Z :=
  lcalled (SbSetBlocksize 4096) ;;
  modify (set_l_magic LFS_MAGIC) ;;
  modify (set_l_s_op true) ;;
  root ← lfs_make_inode (Z.lor S_IFDIR 493 (* 0755 *));
  match root with
  | None => mret (- ENOMEM)
  | Some root =>
      upd_inode root set_li_dir ;;
      root_dentry ← d_make_root root;
      match root_dentry with
      | None => lcalled (IPut root) ;; mret (- ENOMEM)
      | Some d =>
          modify (set_l_root (Some d)) ;;
          lfs_create_files d ;;
          mret 0
      end
  end.

End Ops.

(** ** Readers and writers at the same time

    A thread between the accesses to the counter, which are atomic. *)

Inductive thread :=
| Reader (offset : Z)              (* in [lfs_read_file], before [atomic_read] *)
| Fetched (v offset : Z)           (* after [atomic_read] *)
| Numbered (v offset : Z)          (* after [atomic_inc] or [v -= 1] *)
| Writer (v : Z)                   (* in [lfs_write_file], before [atomic_set] *)
| Written.

(** The next access of a thread to the counter [c]. *)
Definition thread_step (t : thread) (c : Z) : option (thread * Z) :=
  match t with
  | Reader o => Some (Fetched c o, c)
  | Fetched v o => if o >? 0 then Some (Numbered (s32 (v - 1)) o, c) else Some (Numbered v o, s32 (c + 1))
  | Writer v => Some (Written, s32 v)
  | Numbered _ _ | Written => None
  end.

(** The counter of a file and the threads that use it; any of them is next. *)
Inductive lfs_step : Z * list thread -> Z * list thread -> Prop :=
| thread_steps i t t' c c' ts :
    ts !! i = Some t -> thread_step t c = Some (t', c') -> lfs_step (c, ts) (c', <[i := t']> ts).
