(* ===== verification/LfsTheorems.v ===== *)
(** * What the counter file system guarantees

    Reading a counter in pieces, writing it and reading it back, several threads on
    one counter, and the tree a mount makes. *)

From stdpp Require Import strings relations.
From S2P Require Import Prelude Bytes Kr Lfs.

(** What a file shows when its counter is [v]: the number and a newline. *)
Definition text `{LfsKernel} (v : Z) : list Z := print_d v ++ [10].
Definition int (v : Z) : Prop := - 2147483648 <= v < 2147483648.

Lemma s32_int z : int (s32 z).
Proof. unfold int, s32. pose proof (Z.mod_pos_bound (z + 2147483648) 4294967296). lia. Qed.
Lemma s32_plus a b : s32 (s32 a + b) = s32 (a + b).
Proof.
  unfold s32. f_equal.
  replace ((a + 2147483648) `mod` 4294967296 - 2147483648 + b + 2147483648)
    with ((a + 2147483648) `mod` 4294967296 + b) by lia.
  rewrite Zplus_mod_idemp_l. f_equal. lia.
Qed.
Lemma s32_id z : int z -> s32 z = z.
Proof. intros Hz. by apply s32_small. Qed.
Lemma s32_inj c a b : s32 (c + a) = s32 (c + b) -> Z.abs (a - b) < 4294967296 -> a = b.
Proof.
  unfold s32. intros E%Z.add_cancel_r Hab.
  assert ((a - b) mod 4294967296 = 0) as Hm.
  { replace (a - b) with ((c + a + 2147483648) - (c + b + 2147483648)) by lia.
    by rewrite Zminus_mod, E, Z.sub_diag. }
  apply Z.mod_divide in Hm as [k Hk]; [|lia]. nia.
Qed.

(** ** Reading *)

Section Reads.
Context {K : LfsKernel} {L : LfsLaws K}.

(** A reader that goes on where its last read ended, and asks for [counts] bytes. *)
Fixpoint read_seq (filp buf : Z) (counts : list Z) (offset : Z) : M lfs (list Z) :=
  match counts with
  | [] => mret []
  | n :: rest =>
      r ← lfs_read_file filp buf n offset;
      let '(_, data, offset') := r in
      more ← read_seq filp buf rest offset';
      mret (data ++ more)
  end.

Definition sum (counts : list Z) : Z := foldr Z.add 0 counts.

(** The file [filp] is open on the counter [c], which is [v]. *)
Definition shows (filp c v : Z) (l : lfs) : Prop :=
  l_files l !! filp = Some (Some c) /\ l_counters l !! c = Some v.
Definition count_to (c v : Z) (l : lfs) : lfs := set_l_counters (<[c := v]> (l_counters l)) l.

Lemma shows_count_to filp c v w l : shows filp c v l -> shows filp c w (count_to c w l).
Proof. intros [Hf Hc]. split; [done|]. apply lookup_insert_eq. Qed.

Lemma atomic_inc_run c v l : l_counters l !! c = Some v -> atomic_inc c l = Ret tt (count_to c (s32 (v + 1)) l).
Proof.
  intros Hc. unfold atomic_inc, atomic_read, atomic_set, mbind, M_bind, gets, id, modify. rewrite Hc. cbn.
  by rewrite Hc.
Qed.

Lemma read_file_eq filp buf count offset c v l : shows filp c v l ->
  lfs_read_file filp buf count offset l =
    if offset >? 0 then read_reply (s32 (v - 1)) buf count offset l
    else read_reply v buf count offset (count_to c (s32 (v + 1)) l).
Proof.
  intros [Hf Hc]. unfold lfs_read_file, private_data, atomic_read, mbind, M_bind, gets, id.
  rewrite Hf. cbn. rewrite Hc. cbn. destruct (offset >? 0); [done|]. by rewrite (atomic_inc_run c v) by done.
Qed.

Lemma text_len v : int v -> 2 <= len (text v) <= 12.
Proof. intros Hv. unfold text. rewrite len_app. pose proof (print_d_len v Hv). unfold len at 2 4. simpl. lia. Qed.

Definition copies : Prop := forall p n, copy_to_user_ok p n = true.

(** The reply to a read at an offset within the text. *)
Lemma read_reply_run v buf count offset l : copies -> int v -> 0 <= count < 18446744073709551616 ->
  0 <= offset <= len (text v) ->
  exists ret, read_reply v buf count offset l =
    Ret (ret, sub (text v) offset count, Z.min (offset + count) (len (text v))) l /\
    ret = Z.min count (len (text v) - offset).
Proof.
  intros Hok Hv Hn Ho. pose proof (text_len v Hv). unfold read_reply, snprintf. fold (text v).
  rewrite take_ge by (unfold len, TMPSIZE in *; lia).
  destruct (Z.gtb_spec offset (len (text v))); [lia|]. rewrite u64_small by lia.
  exists (Z.min count (len (text v) - offset)). split; [|done].
  assert ((if count >? len (text v) - offset then len (text v) - offset else count)
    = Z.min count (len (text v) - offset)) as -> by (destruct (Z.gtb_spec count (len (text v) - offset)); lia).
  rewrite len_app. assert (len [0] = 1) as -> by done.
  destruct (Z.leb_spec 0 offset); [|lia].
  destruct (Z.leb_spec (offset + Z.min count (len (text v) - offset)) (len (text v) + 1)); [|lia].
  cbn. rewrite Hok. cbn. unfold mret, M_ret. do 3 f_equal; [|lia].
  unfold sub. rewrite drop_app_le by (unfold len in *; lia).
  destruct (Z.le_ge_cases count (len (text v) - offset)).
  - rewrite Z.min_l by lia. apply take_app_le. rewrite length_drop. unfold len in *. lia.
  - rewrite Z.min_r, take_app_le, !take_ge by (try rewrite length_drop; unfold len in *; lia). done.
Qed.

Lemma sub_next (d : list Z) o n m : 0 <= o -> 0 <= n -> 0 <= m ->
  sub d o (n + m) = sub d o n ++ sub d (Z.min (o + n) (len d)) m.
Proof.
  intros Ho Hn Hm. unfold sub. rewrite Z2Nat.inj_add, <- take_take_drop, drop_drop by lia. do 2 f_equal.
  rewrite <- Z2Nat.inj_add by lia. destruct (Z.le_ge_cases (o + n) (len d)).
  - by rewrite Z.min_l by lia.
  - rewrite !drop_ge by (unfold len in *; lia). done.
Qed.

Lemma sum_nonneg counts : Forall (fun n => 0 < n < 18446744073709551616) counts -> 0 <= sum counts.
Proof. unfold sum. induction 1; simpl; lia. Qed.

(** The reads after the first one. *)
Lemma read_rest filp buf c v counts : forall offset l, copies -> int v -> shows filp c (s32 (v + 1)) l ->
  Forall (fun n => 0 < n < 18446744073709551616) counts -> 0 < offset <= len (text v) ->
  read_seq filp buf counts offset l = Ret (sub (text v) offset (sum counts)) l.
Proof.
  induction counts as [|n counts IH]; intros offset l Hok Hv Hl Hns Ho; [done|].
  inversion Hns as [|? ? Hn Hns']; subst. pose proof (sum_nonneg counts Hns'). cbn [read_seq].
  unfold mbind at 1, M_bind. rewrite (read_file_eq filp buf n offset c (s32 (v + 1)) l Hl).
  destruct (Z.gtb_spec offset 0); [|lia].
  replace (s32 (s32 (v + 1) - 1)) with v
    by (change (s32 (v + 1) - 1) with (s32 (v + 1) + (-1)); rewrite s32_plus, s32_id by (unfold int in *; lia); lia).
  destruct (read_reply_run v buf n offset l Hok Hv ltac:(lia) ltac:(lia)) as (ret & -> & _).
  unfold mbind, M_bind. rewrite IH by (auto; lia). unfold mret, M_ret. f_equal. cbn [sum foldr].
  change (foldr Z.add 0 counts) with (sum counts). by rewrite (sub_next _ offset n (sum counts)) by lia.
Qed.

(** C33.  Reading a counter in pieces of any sizes gives the text of the number it had
    at the first piece, as far as the pieces go, and counts once: the later pieces
    are of the same number although the counter has moved on, also when it wraps. *)
Theorem lfs_read_in_pieces filp buf c v n counts l : copies -> shows filp c v l -> int v ->
  Forall (fun n => 0 < n < 18446744073709551616) (n :: counts) ->
  runs (read_seq filp buf (n :: counts) 0) never
    (fun data l' => data = sub (text v) 0 (sum (n :: counts)) /\ l' = count_to c (s32 (v + 1)) l) l.
Proof.
  intros Hok Hl Hv Hns. inversion Hns as [|? ? Hn Hns']; subst. pose proof (text_len v Hv).
  pose proof (sum_nonneg counts Hns'). cbn [read_seq]. unfold runs, mbind at 1, M_bind.
  rewrite (read_file_eq filp buf n 0 c v l Hl). cbn [Z.gtb Z.compare].
  destruct (read_reply_run v buf n 0 (count_to c (s32 (v + 1)) l) Hok Hv ltac:(lia) ltac:(lia)) as (ret & -> & _).
  unfold mbind, M_bind. rewrite (read_rest filp buf c v) by (eauto using shows_count_to; lia).
  unfold mret, M_ret. split; [|done]. cbn [sum foldr]. change (foldr Z.add 0 counts) with (sum counts).
  by rewrite (sub_next _ 0 n (sum counts)) by lia.
Qed.

(** ** Writing *)

(** [lfs_write_file] on every branch. *)
Lemma lfs_write_file_correct filp buf count offset c v l : shows filp c v l ->
  runs (lfs_write_file filp buf count offset) never (fun r l' =>
    r = count /\ l' = count_to c (s32 (simple_strtol
        (default [] (copy_from_user buf count) ++ repeat 0 (Z.to_nat (TMPSIZE - count))))) l /\
      offset = 0 /\ count < TMPSIZE /\ is_Some (copy_from_user buf count) \/
    r = - EINVAL /\ l' = l /\ (offset <> 0 \/ TMPSIZE <= count) \/
    r = - EFAULT /\ l' = l /\ copy_from_user buf count = None) l.
Proof.
  intros [Hf Hc]. unfold lfs_write_file, private_data, runs, mbind, M_bind, gets, id. rewrite Hf. cbn.
  destruct (Z.eqb_spec offset 0) as [->|Ho]; cbn; [|by right; left; auto].
  rewrite Z.geb_leb. destruct (Z.leb_spec TMPSIZE count); cbn; [right; left; auto|].
  destruct (copy_from_user buf count) as [data|]; [|by right; right].
  unfold atomic_set, mbind, M_bind, gets, id. rewrite Hc. cbn. left. repeat split; eauto.
Qed.

(** Writing what was read sets the counter: whatever it was, a number in decimal
    with its newline is read back, and the counter is the next one then. *)
Theorem lfs_write_then_read filp buf to c v w counts n l : copies -> shows filp c w l -> int v ->
  copy_from_user buf (len (text v)) = Some (text v) ->
  Forall (fun n => 0 < n < 18446744073709551616) (n :: counts) -> len (text v) <= sum (n :: counts) ->
  runs (r ← lfs_write_file filp buf (len (text v)) 0; data ← read_seq filp to (n :: counts) 0; mret (r, data)) never
    (fun '(r, data) l' => r = len (text v) /\ data = text v /\ l' = count_to c (s32 (v + 1)) (count_to c v l)) l.
Proof.
  intros Hok Hl Hv Hbuf Hns Hsum. pose proof (text_len v Hv). step.
  call (lfs_write_file_correct filp buf (len (text v)) 0 c w); [done|]. rewrite Hbuf. change (default [] (Some (text v))) with (text v).
  intros r l1 [(-> & -> & _)|[(_ & _ & [?|?])|(_ & _ & ?)]]; [|done|unfold TMPSIZE in *; lia|done].
  assert (simple_strtol (text v ++ repeat 0 (Z.to_nat (TMPSIZE - len (text v)))) = v) as ->.
  { unfold text. rewrite <- app_assoc. apply strtol_print; [done|]. intros ? [= <-]. lia. }
  rewrite (s32_id v) by done. step.
  call (lfs_read_in_pieces filp to c v n counts); [done|by eapply shows_count_to|done|done|].
  intros data l2 [-> ->]. step. split; [done|]. split; [|done].
  unfold sub. cbn [Z.to_nat drop]. apply take_ge. unfold len in *. lia.
Qed.

End Reads.

(** ** Threads *)

(** A thread alone is the function. *)
Lemma lfs_read_file_steps `{LfsKernel} filp buf count o c v l : shows filp c v l ->
  exists w v', thread_step (Reader o) v = Some (Fetched v o, v) /\
    thread_step (Fetched v o) v = Some (Numbered w o, v') /\
    lfs_read_file filp buf count o l = read_reply w buf count o (count_to c v' l).
Proof.
  intros Hl. rewrite (read_file_eq filp buf count o c v) by done. cbn. destruct (o >? 0).
  - exists (s32 (v - 1)), v. repeat split. f_equal. destruct Hl as [_ Hc]. destruct l. unfold count_to. cbn in *.
    by rewrite insert_id.
  - by eexists _, _.
Qed.

Definition is_reader (t : thread) : Prop :=
  match t with Reader _ | Fetched _ _ | Numbered _ _ => True | _ => False end.
Definition starts (t : thread) : Prop := match t with Reader _ => True | _ => False end.

(** The reads from the start of the file that have counted. *)
Definition counted (t : thread) : Z := match t with Numbered _ o => if o >? 0 then 0 else 1 | _ => 0 end.
Definition taken (ts : list thread) : Z := sum (counted <$> ts).

Lemma taken_cons t ts : taken (t :: ts) = counted t + taken ts.
Proof. done. Qed.
Lemma taken_insert ts : forall i t t', ts !! i = Some t -> taken (<[i := t']> ts) = taken ts - counted t + counted t'.
Proof.
  induction ts as [|u ts IH]; intros [|i] t t' Hi; try done.
  - injection Hi as ->. cbn [insert list_insert]. rewrite !taken_cons. lia.
  - change (<[S i := t']> (u :: ts)) with (u :: <[i := t']> ts). rewrite !taken_cons, (IH i t t') by done. lia.
Qed.
Lemma taken_bound ts : 0 <= taken ts <= Z.of_nat (length ts).
Proof.
  induction ts as [|t ts IH]; [done|]. rewrite taken_cons. cbn [length].
  assert (0 <= counted t <= 1) by (destruct t; cbn; try destruct (_ >? 0); lia). lia.
Qed.
Lemma taken_starts ts : Forall starts ts -> taken ts = 0.
Proof. induction 1 as [|[] ts H _ IH]; done. Qed.

(** What a thread that was to start to read has become when [n] reads have counted
    since, from [c] on. *)
Definition became (c n o : Z) (t : thread) : Prop :=
  t = Reader o \/ (exists k, 0 <= k <= n /\ t = Fetched (s32 (c + k)) o) \/
  (exists k, 0 <= k < n /\ t = Numbered (s32 (c + k)) o).

(** The threads [ts] on [c] have come to [ts'] on [c']. *)
Record advanced (c : Z) (ts : list thread) (c' : Z) (ts' : list thread) : Prop := {
  adv_readers : Forall is_reader ts';
  adv_length : length ts' = length ts;
  adv_taken : taken ts <= taken ts';
  adv_count : c' = s32 (c + (taken ts' - taken ts));
  adv_done : forall i v o, ts !! i = Some (Numbered v o) -> ts' !! i = Some (Numbered v o);
  adv_became : forall j o, o <= 0 -> ts !! j = Some (Reader o) ->
    exists t, ts' !! j = Some t /\ became c (taken ts' - taken ts) o t;
}.

Lemma advanced_refl c ts : int c -> Forall is_reader ts -> advanced c ts c ts.
Proof.
  intros Hc Hts. split; [done|done|lia| |done|].
  - by rewrite Z.sub_diag, Z.add_0_r, s32_id.
  - intros j o _ Hj. exists (Reader o). split; [done|by left].
Qed.

Lemma reader_step t t' c c' : is_reader t -> int c -> thread_step t c = Some (t', c') ->
  is_reader t' /\ counted t = 0 /\ 0 <= counted t' /\ c' = s32 (c + counted t').
Proof.
  intros Ht Hc. destruct t as [o|v o|v o|v|]; cbn; try done.
  - intros [= <- <-]. by rewrite Z.add_0_r, s32_id.
  - destruct (o >? 0) eqn:E; intros [= <- <-]; cbn; rewrite E; [|done]. by rewrite Z.add_0_r, s32_id.
Qed.

Lemma became_step c n o t t' c' : o <= 0 -> int c -> 0 <= n -> became c n o t ->
  thread_step t (s32 (c + n)) = Some (t', c') -> became c (n + counted t') o t'.
Proof.
  intros Ho Hc Hn [->|[(k & Hk & ->)|(k & Hk & ->)]]; cbn; [| |done].
  - intros [= <- <-]. right. left. exists n. cbn. split; [lia|done].
  - destruct (Z.gtb_spec o 0); [lia|]. intros [= <- <-]. right. right. exists k. cbn.
    destruct (Z.gtb_spec o 0); [lia|]. split; [lia|done].
Qed.
Lemma became_mono c n m o t : n <= m -> became c n o t -> became c m o t.
Proof.
  intros Hm [->|[(k & Hk & ->)|(k & Hk & ->)]]; [by left|right; left|right; right]; exists k; (split; [lia|done]).
Qed.

Lemma advanced_step c ts c1 ts1 c2 ts2 : int c -> advanced c ts c1 ts1 -> lfs_step (c1, ts1) (c2, ts2) ->
  advanced c ts c2 ts2.
Proof.
  intros Hc [Hr Hlen Htk Hcnt Hdone Hbec]. inversion 1 as [i t t' ? ? ? Hi Hstep]; subst.
  assert (is_reader t) as Ht by (by eapply Forall_lookup_1).
  destruct (reader_step t t' _ _ Ht (s32_int _) Hstep) as (Ht' & Ht0 & Hge & ->).
  pose proof (taken_insert ts1 i t t' Hi) as Htk'. split.
  - by apply Forall_insert.
  - by rewrite length_insert.
  - lia.
  - rewrite s32_plus. f_equal. lia.
  - intros j v o Hj. specialize (Hdone j v o Hj). destruct (decide (i = j)) as [->|Hne].
    + rewrite Hi in Hdone. by injection Hdone as ->.
    + by rewrite list_lookup_insert_ne.
  - intros j o Ho Hj. destruct (Hbec j o Ho Hj) as (u & Hu & Hb). destruct (decide (i = j)) as [->|Hne].
    + rewrite Hi in Hu. injection Hu as <-. exists t'. rewrite list_lookup_insert_eq by (by eapply lookup_lt_Some).
      split; [done|]. replace (taken (<[j := t']> ts1) - taken ts) with (taken ts1 - taken ts + counted t') by lia.
      eapply became_step; [done..| |done|done]. lia.
    + exists u. rewrite list_lookup_insert_ne by done. split; [done|]. eapply became_mono; [|done]. lia.
Qed.

Lemma readers_advance c ts s' : int c -> Forall is_reader ts -> rtc lfs_step (c, ts) s' ->
  advanced c ts s'.1 s'.2.
Proof.
  intros Hc Hts. apply (rtc_ind_r (fun s => advanced c ts s.1 s.2)); [by apply advanced_refl|].
  intros [c1 ts1] [c2 ts2] _ Hstep Hadv. by eapply advanced_step.
Qed.

Lemma starts_reader ts : Forall starts ts -> Forall is_reader ts.
Proof. intros Hs. eapply Forall_impl; [exact Hs|]. by intros []. Qed.

(** C32.  Threads that read a counter at the same time, in any order of their accesses:
    every read from the start of the file counts once, and has one of the numbers
    counted; and of two such reads of which one has its number before the other
    starts, the two numbers are different, with less than 2^32 threads. *)
Theorem lfs_readers_correct c0 ts0 c ts : int c0 -> Forall starts ts0 -> rtc lfs_step (c0, ts0) (c, ts) ->
  c = s32 (c0 + taken ts) /\
  (forall i v o, o <= 0 -> ts0 !! i = Some (Reader o) -> ts !! i = Some (Numbered v o) ->
     exists k, 0 <= k < taken ts /\ v = s32 (c0 + k)) /\
  (forall c' ts' i j v w o p, rtc lfs_step (c, ts) (c', ts') -> Z.of_nat (length ts0) < 4294967296 ->
     o <= 0 -> p <= 0 -> ts0 !! i = Some (Reader o) -> ts !! i = Some (Numbered v o) ->
     ts !! j = Some (Reader p) -> ts' !! j = Some (Numbered w p) -> v <> w).
Proof.
  intros Hc Hst Hrun. pose proof (starts_reader ts0 Hst) as Hrd. pose proof (taken_starts ts0 Hst) as H0.
  pose proof (readers_advance c0 ts0 (c, ts) Hc Hrd Hrun) as Hadv. cbn in Hadv.
  assert (forall i v o, o <= 0 -> ts0 !! i = Some (Reader o) -> ts !! i = Some (Numbered v o) ->
    exists k, 0 <= k < taken ts /\ v = s32 (c0 + k)) as Hnum.
  { intros i v o Ho Hi Hi'. destruct (adv_became _ _ _ _ Hadv i o Ho Hi) as (t & Ht & Hb). rewrite Hi' in Ht.
    injection Ht as <-. destruct Hb as [?|[(k & _ & ?)|(k & Hk & [= ->])]]; [done|done|].
    exists k. split; [lia|done]. }
  assert (c = s32 (c0 + taken ts)) as Hcc by (rewrite (adv_count _ _ _ _ Hadv); f_equal; lia).
  split; [done|]. split; [done|].
  intros c' ts' i j v w o p Hrun' Hlen Ho Hp Hi Hi' Hj Hj' <-.
  destruct (Hnum i v o Ho Hi Hi') as (k & Hk & ->).
  assert (int c) as Hc1 by (rewrite Hcc; apply s32_int).
  pose proof (readers_advance c ts (c', ts') Hc1 (adv_readers _ _ _ _ Hadv) Hrun') as Hadv'. cbn in Hadv'.
  destruct (adv_became _ _ _ _ Hadv' j p Hp Hj) as (t & Ht & Hb). rewrite Hj' in Ht. injection Ht as <-.
  destruct Hb as [?|[(m & _ & ?)|(m & Hm & [= E])]]; [done|done|].
  rewrite Hcc, s32_plus, <- Z.add_assoc in E. apply s32_inj in E; [lia|].
  pose proof (taken_bound ts'). pose proof (adv_length _ _ _ _ Hadv'). pose proof (adv_length _ _ _ _ Hadv). lia.
Qed.

(** Two reads at the same time may have the same number, as [atomic_read] and
    [atomic_inc] are two accesses; the next number is then given to none. *)
Lemma readers_same_number :
  rtc lfs_step (0, [Reader 0; Reader 0]) (2, [Numbered 0 0; Numbered 0 0]).
Proof.
  eapply rtc_l; [by apply (thread_steps 0 (Reader 0) (Fetched 0 0) 0 0)|].
  eapply rtc_l; [by apply (thread_steps 1 (Reader 0) (Fetched 0 0) 0 0)|].
  eapply rtc_l; [by apply (thread_steps 0 (Fetched 0 0) (Numbered 0 0) 0 1)|].
  eapply rtc_l; [by apply (thread_steps 1 (Fetched 0 0) (Numbered 0 0) 1 2)|]. apply rtc_refl.
Qed.

(** A writer between two reads of the same file gives the later piece
    another number: pieces are of one number only when nothing is
    written between them. *)
Lemma writer_tears :
  rtc lfs_step (7, [Reader 0; Writer 100; Reader 1]) (100, [Numbered 7 0; Written; Numbered 99 1]).
Proof.
  eapply rtc_l; [by apply (thread_steps 0 (Reader 0) (Fetched 7 0) 7 7)|].
  eapply rtc_l; [by apply (thread_steps 0 (Fetched 7 0) (Numbered 7 0) 7 8)|].
  eapply rtc_l; [by apply (thread_steps 1 (Writer 100) Written 8 100)|].
  eapply rtc_l; [by apply (thread_steps 2 (Reader 1) (Fetched 100 1) 100 100)|].
  eapply rtc_l; [by apply (thread_steps 2 (Fetched 100 1) (Numbered 99 1) 100 100)|]. apply rtc_refl.
Qed.

(** ** The tree of a mount *)

Section Tree.
Context {K : LfsKernel}.

(** The module has been loaded: the counters are there, and nothing else. *)
Definition lfs_loaded (c0 c1 : Z) : lfs := LfsState ∅ {[counter := c0; subcounter := c1]} ∅ 0 0 false None [].

Definition times (p : lcall -> bool) (tr : list lcall) : nat := length (base.filter (fun c => p c = true) tr).

(** How often an inode, or a dentry, is given away or given back. *)
Definition inode_gone (i : Z) : list lcall -> nat := times (fun c =>
  match c with DAdd _ j | DMakeRoot j _ | IPut j => j =? i | _ => false end).
Definition dentry_gone (d : Z) : list lcall -> nat := times (fun c =>
  match c with DAdd e _ | DPut e => e =? d | _ => false end).

(** Whatever has been made is in the tree, or has been given back, once. *)
Definition settled (tr : list lcall) : Prop := Forall (fun c =>
  match c with
  | NewInode (Some i) => inode_gone i tr = 1%nat
  | DAlloc _ _ (Some d) => dentry_gone d tr = 1%nat
  | _ => True
  end) tr.

(** There is a file or a directory [name] in the directory [p]. *)
Definition has_entry (p : Z) (name : string) (d : Z) (inode : lfs_inode) (l : lfs) : Prop :=
  exists i h, In (DAlloc p (Qstr name (Z.of_nat (String.length name)) h) (Some d)) (l_trace l) /\
    In (DAdd d i) (l_trace l) /\ l_inodes l !! i = Some inode.
Definition counter_file (c : Z) : lfs_inode :=
  LfsInode (Z.lor S_IFREG 420) 0 0 0 lfs_now lfs_now lfs_now false (Some lfs_file_ops) (Some c).
Definition counter_dir : lfs_inode :=
  LfsInode (Z.lor S_IFDIR 420) 0 0 0 lfs_now lfs_now lfs_now true (Some simple_dir_operations) None.

(** What a mount has come to. *)
Definition mounted (r : Z) (l : lfs) : Prop :=
  if alloc_ok 0 && alloc_ok 1 then
    r = 0 /\ l_root l = Some 1 /\ settled (l_trace l) /\ l_counters l = {[counter := 0; subcounter := 0]} /\
    ((forall n, alloc_ok n = true) ->
       has_entry 1 "counter" 2 (counter_file counter) l /\
       exists d, has_entry 1 "subdir" d counter_dir l /\ exists e, has_entry d "subcounter" e (counter_file subcounter) l)
  else
    r = - ENOMEM /\ l_root l = None /\ (alloc_ok 0 = false -> settled (l_trace l)) /\
    (alloc_ok 0 = true -> inode_gone 0 (l_trace l) = 2%nat).

Lemma runs_allocate E (Q : option Z -> lfs -> Prop) inodes counters files n n' magic s_op root trace : n + 1 = n' ->
  (alloc_ok n = true -> Q (Some n) (LfsState inodes counters files n' magic s_op root trace)) ->
  (alloc_ok n = false -> Q None (LfsState inodes counters files n' magic s_op root trace)) ->
  runs allocate E Q (LfsState inodes counters files n magic s_op root trace).
Proof. intros <- H1 H2. unfold allocate. steps. cbn. destruct (alloc_ok n); auto. Qed.
Lemma runs_atomic_set E (Q : unit -> lfs -> Prop) c v l : is_Some (l_counters l !! c) ->
  Q tt (count_to c (s32 v) l) -> runs (atomic_set c v) E Q l.
Proof. intros [w Hw] HQ. unfold atomic_set. step. step. unfold id. rewrite Hw. by step. Qed.

(** Follows a function that makes inodes and dentries. *)
Ltac create_step :=
  lazymatch goal with
  | |- runs allocate _ _ _ => eapply runs_allocate; [vm_compute; reflexivity|intros ?..]
  | |- runs (atomic_set _ _) _ _ _ => apply runs_atomic_set; [vm_compute; eauto|]
  | |- runs (lcalled _) _ _ _ => unfold lcalled
  | |- runs (upd_inode _ _) _ _ _ => unfold upd_inode
  | |- runs (lfs_make_inode _) _ _ _ => unfold lfs_make_inode
  | |- runs (finish_create _ _ _) _ _ _ => unfold finish_create
  | |- runs (d_alloc _ _) _ _ _ => unfold d_alloc
  | |- runs (d_make_root _) _ _ _ => unfold d_make_root
  | |- runs (lfs_create_file _ _ _) _ _ _ => unfold lfs_create_file
  | |- runs (lfs_create_dir _ _) _ _ _ => unfold lfs_create_dir
  | |- runs (lfs_create_files _) _ _ _ => unfold lfs_create_files
  | _ => step
  end;
  cbv beta iota zeta delta [count_to set_l_inodes set_l_counters set_l_allocs set_l_magic set_l_s_op set_l_root
    set_l_trace l_inodes l_counters l_files l_allocs l_magic l_s_op l_root l_trace].

(** Closes an outcome of a mount: all but the entries when everything has been made. *)
Ltac settle := repeat constructor; vm_compute; reflexivity.
Ltac close_mount :=
  unfold mounted; repeat match goal with H : alloc_ok _ = _ |- _ => progress rewrite ?H end;
  lazymatch goal with
  | |- (if true && true then _ else _) =>
      split; [reflexivity|]; split; [reflexivity|]; split; [settle|]; split; [vm_compute; reflexivity|];
      intros Hall; try (match goal with H : alloc_ok _ = false |- _ => rewrite Hall in H; discriminate H end)
  | _ => split; [reflexivity|]; split; [reflexivity|]; split; intros; first [congruence | settle]
  end.
Ltac make_entry := eexists _, _; split; [cbn; tauto|split; [cbn; tauto|vm_compute; reflexivity]].

(** Whatever allocations fail, a mount answers 0 just when the root directory could
    be made, with both counters 0 and every inode and dentry that has been made in the
    tree or given back once; when all succeed the two counters and the directory
    are where they belong.  Otherwise it answers -ENOMEM, and when it was the dentry
    of the root that could not be had, [d_make_root] and the function itself have
    both given back the inode. *)
Theorem lfs_fill_super_correct c0 c1 : runs lfs_fill_super never mounted (lfs_loaded c0 c1).
Proof.
  unfold lfs_fill_super, lfs_loaded. repeat create_step.
  all: close_mount.
  split; [make_entry|]. eexists. split; [make_entry|]. eexists. make_entry.
Qed.

(** The names the dentries are given have no hash. *)
Lemma lfs_names_unhashed c0 c1 :
  runs lfs_fill_super never (fun _ l => forall p q d, In (DAlloc p q d) (l_trace l) -> q_hash q = None) (lfs_loaded c0 c1).
Proof.
  unfold lfs_fill_super, lfs_loaded. repeat create_step.
  all: intros p q d Hin; vm_compute in Hin;
    repeat lazymatch type of Hin with
      | _ \/ _ => destruct Hin as [Hin|Hin]; [first [discriminate Hin | by injection Hin as <- <- <-]|]
      | False => destruct Hin
      end.
Qed.

End Tree.

(** ** Witnesses *)

(** Numbers in decimal. *)
Fixpoint digits (fuel : nat) (n : Z) : list Z :=
  match fuel with
  | O => []
  | S f => if n <? 10 then [48 + n] else digits f (n / 10) ++ [48 + n mod 10]
  end.
Definition demo_print (v : Z) : list Z := if v <? 0 then 45 :: digits 10 (- v) else digits 10 v.

Fixpoint number (acc : Z) (s : list Z) : Z :=
  match s with
  | c :: rest => if (48 <=? c) && (c <=? 57) then number (10 * acc + (c - 48)) rest else acc
  | [] => acc
  end.
Definition demo_strtol (s : list Z) : Z :=
  match s with
  | c :: rest => if c =? 45 then - number 0 rest else number 0 s
  | [] => 0
  end.

Definition is_digit (c : Z) : Prop := 48 <= c <= 57.

Lemma digits_S f n : digits (S f) n = if n <? 10 then [48 + n] else digits f (n / 10) ++ [48 + n mod 10].
Proof. done. Qed.
Lemma digits_spec f : forall n, 0 <= n < 10 ^ Z.of_nat (S f) ->
  Forall is_digit (digits (S f) n) /\ 1 <= len (digits (S f) n) <= Z.of_nat (S f).
Proof.
  induction f as [|f IH]; intros n Hn; rewrite digits_S; destruct (Z.ltb_spec n 10).
  1,3: split; [repeat constructor; lia|unfold len; cbn [length]; lia].
  - change (10 ^ Z.of_nat 1) with 10 in Hn. exfalso. lia.
  - rewrite (Nat2Z.inj_succ (S f)), Z.pow_succ_r in Hn by lia.
    destruct (IH (n / 10)) as [Hd Hl].
    { split; [apply Z.div_pos; lia|]. apply Z.div_lt_upper_bound; lia. }
    pose proof (Z.mod_pos_bound n 10 ltac:(lia)). split.
    + apply Forall_app_2; [done|]. repeat constructor; lia.
    + rewrite len_app. assert (len [48 + n mod 10] = 1) by done. lia.
Qed.

Lemma number_digits f : forall n rest, 0 <= n < 10 ^ Z.of_nat f -> number 0 (digits f n ++ rest) = number n rest.
Proof.
  induction f as [|f IH]; intros n rest Hn; [cbn in *; by replace n with 0 by lia|].
  cbn [digits]. destruct (Z.ltb_spec n 10).
  - cbn [app number]. destruct (Z.leb_spec 48 (48 + n)), (Z.leb_spec (48 + n) 57); try lia.
    cbn [andb]. f_equal. lia.
  - rewrite Nat2Z.inj_succ, Z.pow_succ_r in Hn by lia. rewrite <- app_assoc, IH
      by (split; [apply Z.div_pos; lia|apply Z.div_lt_upper_bound; lia]).
    pose proof (Z.mod_pos_bound n 10 ltac:(lia)). cbn [app number].
    destruct (Z.leb_spec 48 (48 + n mod 10)), (Z.leb_spec (48 + n mod 10) 57); try lia.
    cbn [andb]. f_equal. pose proof (Z.div_mod n 10 ltac:(lia)). lia.
Qed.

Lemma number_stops n rest : (forall c, head rest = Some c -> ~ 48 <= c <= 57) -> number n rest = n.
Proof.
  destruct rest as [|c rest]; [done|]. intros Hc. specialize (Hc c eq_refl). cbn.
  destruct (Z.leb_spec 48 c), (Z.leb_spec c 57); try done. lia.
Qed.

Lemma demo_strtol_print v rest : int v -> (forall c, head rest = Some c -> ~ 48 <= c <= 57) ->
  demo_strtol (demo_print v ++ rest) = v.
Proof.
  intros Hv Hr. assert (forall n, 0 <= n <= 2147483648 -> 0 <= n < 10 ^ Z.of_nat 10) as Hb.
  { intros n Hn. change (10 ^ Z.of_nat 10) with 10000000000. lia. }
  unfold demo_print. destruct (Z.ltb_spec v 0).
  - cbn [app demo_strtol Z.eqb Pos.eqb]. rewrite number_digits, number_stops by (auto; apply Hb; unfold int in *; lia). lia.
  - assert (0 <= v < 10 ^ Z.of_nat 10) as Hv' by (apply Hb; unfold int in *; lia).
    destruct (digits_spec 9 v Hv') as [Hd Hl]. pose proof (number_digits 10 v rest Hv') as Hn.
    rewrite (number_stops v rest Hr) in Hn. destruct (digits 10 v) as [|c l] eqn:E; [unfold len in Hl; cbn in Hl; lia|].
    cbn [app demo_strtol] in *. apply Forall_cons in Hd as [Hc _]. unfold is_digit in Hc.
    destruct (Z.eqb_spec c 45); [lia|]. exact Hn.
Qed.

(** A kernel in which the user has "-7" and a newline at the address 1, and nothing else. *)
#[global] Instance demo_lfs_kernel : LfsKernel := {|
  alloc_ok := fun n => negb (n =? 6);
  lfs_now := 1000;
  full_name_hash := fun _ _ n => n;
  print_d := demo_print;
  simple_strtol := demo_strtol;
  copy_to_user_ok := fun _ _ => true;
  copy_from_user := fun p n => if (p =? 1) && (n =? 3) then Some [45; 55; 10] else None;
|}.

#[global] Instance demo_lfs_laws : LfsLaws demo_lfs_kernel.
Proof.
  split; cbn.
  - intros v Hv. unfold demo_print. destruct (Z.ltb_spec v 0).
    + destruct (digits_spec 9 (- v)) as [_ Hl]; [change (10 ^ Z.of_nat 10) with 10000000000; lia|].
      unfold len in *. cbn [length]. lia.
    + destruct (digits_spec 9 v) as [_ Hl]; [change (10 ^ Z.of_nat 10) with 10000000000; lia|lia].
  - intros v rest Hv. by apply demo_strtol_print.
  - intros p n d. destruct (Z.eqb_spec p 1), (Z.eqb_spec n 3); cbn; try done. by intros [= <-]; subst.
Qed.

(** The counter is 41 and the file 5 is open. *)
Definition demo_lfs : lfs := set_l_files {[5 := Some counter]} (lfs_loaded 41 0).

Lemma lfs_read_in_pieces_witness :
  text 41 = [52; 49; 10] /\
  runs (read_seq 5 0 [1; 1; 7] 0) never (fun data l' => data = sub (text 41) 0 (sum [1; 1; 7]) /\
    l' = count_to counter (s32 (41 + 1)) demo_lfs) demo_lfs.
Proof.
  split; [vm_compute; reflexivity|].
  apply (lfs_read_in_pieces 5 0 counter 41 1 [1; 7] demo_lfs);
    [by intros ? ?|split; vm_compute; reflexivity|unfold int; lia|repeat constructor; lia].
Defined.

Lemma lfs_write_then_read_witness :
  runs (r ← lfs_write_file 5 1 (len (text (-7))) 0; data ← read_seq 5 0 [2; 2] 0; mret (r, data)) never
    (fun '(r, data) l' => r = len (text (-7)) /\ data = text (-7) /\
       l' = count_to counter (s32 (-7 + 1)) (count_to counter (-7) demo_lfs)) demo_lfs.
Proof.
  apply (lfs_write_then_read 5 1 0 counter (-7) 41 [2] 2 demo_lfs);
    [by intros ? ?|split; vm_compute; reflexivity|unfold int; lia|vm_compute; reflexivity|repeat constructor; lia
    |vm_compute; discriminate].
Defined.

(** Two threads at the same time, and a third that starts when they have their numbers. *)
Lemma lfs_readers_correct_witness :
  let ts := [Numbered 0 0; Numbered 0 0; Reader 0] in
  rtc lfs_step (0, [Reader 0; Reader 0; Reader 0]) (2, ts) /\
  2 = s32 (0 + taken ts) /\
  (forall i v o, o <= 0 -> [Reader 0; Reader 0; Reader 0] !! i = Some (Reader o) -> ts !! i = Some (Numbered v o) ->
     exists k, 0 <= k < taken ts /\ v = s32 (0 + k)) /\
  (forall c' ts' i j v w o p, rtc lfs_step (2, ts) (c', ts') -> Z.of_nat (length [Reader 0; Reader 0; Reader 0]) < 4294967296 ->
     o <= 0 -> p <= 0 -> [Reader 0; Reader 0; Reader 0] !! i = Some (Reader o) -> ts !! i = Some (Numbered v o) ->
     ts !! j = Some (Reader p) -> ts' !! j = Some (Numbered w p) -> v <> w).
Proof.
  intros ts. assert (rtc lfs_step (0, [Reader 0; Reader 0; Reader 0]) (2, ts)) as Hrun.
  { eapply rtc_l; [by apply (thread_steps 0 (Reader 0) (Fetched 0 0) 0 0)|].
    eapply rtc_l; [by apply (thread_steps 1 (Reader 0) (Fetched 0 0) 0 0)|].
    eapply rtc_l; [by apply (thread_steps 0 (Fetched 0 0) (Numbered 0 0) 0 1)|].
    eapply rtc_l; [by apply (thread_steps 1 (Fetched 0 0) (Numbered 0 0) 1 2)|]. apply rtc_refl. }
  split; [exact Hrun|].
  apply (lfs_readers_correct 0 [Reader 0; Reader 0; Reader 0] 2 ts); [unfold int; lia|repeat constructor|exact Hrun].
Defined.
